(* ===== verification/_CoqProject ===== *)
-Q . S2P
Prelude.v
Memory.v
Allocator.v
Stage2.v
Stage2Spec.v
Stage2Bits.v
Stage2Ops.v
Stage2Walk.v
Stage2Boot.v
Stage2Thms.v
Tlb.v
FfaCore.v
FfaNotif.v
FfaStore.v
FfaProxy.v
FfaShare.v
FfaThms.v
FfaTlb.v
Sync.v
Rings.v
VSwitch.v
Sched.v
Regs.v
Spmc.v
Virtio.v
VirtioNet.v
VGic.v
CoreInit.v
Traits.v
Vcpu.v
GicDev.v
PrimeCell.v
Platform.v
Drivers.v
Devices.v
MmioTrait.v
Exception.v
AbortReport.v
VmRun.v
VmMem.v
GuestLoader.v
Boot.v
SelfTest.v
UnitTests.v
SpmBoot.v
Sel2.v
StaticMapper.v
PageTables.v
MultiCpu.v
DevLock.v
GlobalDev.v
DeviceTests.v
CoreLoop.v
