(* ===== verification/Prelude.v ===== *)
(** * A model of the ARM64 hypervisor in src/, with its correctness theorems

    ** The program

    A type-1 hypervisor for ARM64 (Rust, no_std) that runs at EL2.  It builds
    Stage-2 page tables for one or two virtual machines from its own heap,
    boots Zephyr or Linux guests in them, schedules their vCPUs, emulates the
    interrupt controller, a UART, a real-time clock and virtio block and
    network devices, switches frames between the VMs, and mediates the FF-A
    calls by which VMs and secure partitions share memory.  Built with the
    feature sel2 it is instead the secure partition manager core at S-EL2.

    How the parts interact: guest code runs until an exception; the handler
    (hypervisor/exception.rs) decodes it, serves MMIO through the device
    manager (devices/), hypercalls and PSCI itself, FF-A calls through the
    proxy (ffa/), which edits the live Stage-2 tables of the VM; the run loop
    (vm.rs) moves queued interrupts and frames into the vCPU the scheduler
    picks and enters it again.

    ** The files

    Foundations.
    - Prelude: results, the state and error monad [SM], machine integers, bit
      lemmas and tactics, used by every file.
    - Memory: physical memory as bytes, little-endian accesses.
    - Allocator: mm/allocator.rs and mm/heap.rs.

    Stage-2 translation.
    - Stage2: descriptors, the walker (ffa/stage2_walker.rs, [Module Walker])
      and the heap-backed mapper (mm/mmu.rs, [Module Mapper]).
    - Stage2Spec, Stage2Bits, Stage2Ops, Stage2Walk, Stage2Boot, Stage2Thms:
      the abstract page map, the invariant of the tables, what each operation
      does to the map, and the theorems.
    - Tlb: the TLB while the walker changes live tables.
    - VmMem: init_memory with the heap-backed mapper (vm.rs).  StaticMapper:
      the static mapper of mmu.rs and init_memory_static, on memory.
      PageTables: the same code on the typed tables of the source.

    FF-A.
    - FfaCore, FfaNotif, FfaStore: identifiers, descriptors, mailboxes, share
      records, notifications (ffa/mod.rs, descriptors.rs, memory.rs,
      mailbox.rs, stub_spmc.rs, notifications.rs).
    - FfaProxy: every handler of proxy.rs, and smc_forward.rs.  FfaShare,
      FfaThms: the memory-sharing operations and the dispatcher as a whole.
      FfaTlb: the TLB across the calls of a VM.
    - Spmc: sp_context.rs and spmc_handler.rs (feature sel2).

    Concurrency and queues.
    - Sync: the ticket lock (sync.rs).  Rings: the lock-free rings of global.rs
      and vswitch.rs.  VSwitch: vswitch.rs.  Sched: scheduler.rs.
    - The build with one vCPU per core (feature multi_pcpu).  MultiCpu: CPU_ON
      and SGIs between the cores.  DevLock: the locked device manager and SPIs.
      GlobalDev: the device manager of the other build, without the lock.
      CoreLoop: run_vcpu of vm.rs and the loop of the secondary cores of
      main.rs.

    CPUs, interrupts and devices.
    - Regs: regs.rs and hypervisor/decode.rs.  VGic: the virtual interface of
      peripherals/gicv3.rs, vcpu_interrupt.rs and the drains of vm.rs.  Vcpu:
      vcpu_arch_state.rs and vcpu.rs.
    - GicDev, PrimeCell, Virtio, VirtioNet, Devices: devices/.  MmioTrait: the
      trait of the devices as a type class, with its laws.  Platform:
      platform.rs, dtb.rs, manifest.rs and the number printers.

    The whole.
    - Exception: global.rs and hypervisor/exception.rs.  VmRun: the VM and the
      run loops of vm.rs, with the entry loop of exception.S.  AbortReport: what
      the handler prints for an instruction abort, and from where it reads it.
    - GuestLoader: guest_loader.rs.  CoreInit: the EL2 registers of a core and
      the code that programs them (gicv3.rs, timer.rs, mmu.rs, main.rs).
      Drivers: gic.rs, uart.rs, the redistributor and the start of the other
      cores.  Boot: rust_main of main.rs, with the integration self-test.
      SelfTest: the FF-A self-test of tests/ that rust_main runs.  UnitTests,
      DeviceTests: other tests of tests/, evaluated on the definitions.
    - SpmBoot: rust_main_sel2 and secure_stage2.rs.  Sel2: the handlers of the
      sel2 build around the code of a partition.
    - Traits: arch/traits.rs as type classes, with the instances of the port.

    A definition carries the name of the function it models, with a prefix
    where several files use the name; a struct is a Record, an enum an
    Inductive.  Each file opens with what it models and what it leaves out.

    ** What the theorems show

    Numbers C1 to C40 mark the properties, in order of importance.
    - Isolation.  Every sequence of walker operations on a VM is a sequence of
      updates of its page map and changes neither another VM's translations
      nor a byte outside its own tables; FF-A calls, whatever their arguments,
      with an SPMC or without, write only guest memory, the caller's tables
      and what the Secure World may write, and return, but for the overflow
      panics of a build with overflow checks; live heap regions are disjoint.  The memory map of a VM is exactly its
      region without the heap, and the GIC without the emulated pages; what
      that means for the configurations shipped (the hypervisor's image and
      the second VM's memory are mapped into the first VM) is a theorem too.
    - Boot.  The builds for Linux panic in their own FF-A self-test unless they
      are built for TF-A; without it, from power-on and on any memory, the
      Linux guest is started in the state the boot protocol asks for.  Every
      core that runs a guest is set up alike, register by register, but for
      three registers that only the first core writes.
    - TLB.  Whatever the hardware caches while a VM makes FF-A calls, no
      Stage-2 entry is stale afterwards; an entry that combines both stages can
      be.
    - Memory sharing.  Share, lend, reclaim, retrieve and relinquish change
      exactly the pages they name or nothing (share and lend skip a page whose
      block the exhausted heap cannot split); the pairs are round trips.
    - Execution.  The run loop keeps the scheduler consistent, a ready vCPU is
      entered within 16 iterations, an iteration fails only where its network
      queues or its guest do, a vCPU finds exactly the registers it left, a
      trapped instruction is resumed after it.
    - Interrupts.  Draining a queue of pending interrupts loses none and
      duplicates none; SGIs and SPIs reach the vCPUs they are addressed to (an
      SGI to oneself is lost when no list register is free); on several cores
      no SGI is queued without a wake-up, CPU_ON boots its target exactly once,
      and SPIs are routed as on one core.  The distributor is one bit per
      interrupt under every history of stores.
    - Devices.  The rings, the switch, the UART and the lock refine queues; a
      block written is read back, in chains of at most four descriptors; a
      frame sent arrives; accesses reach the one device at their address; the
      transmit loop ends, or not.  On several cores the methods of the devices
      take effect one at a time, in the order of their tickets, and the lock is
      released unless a body does not return; on one core the builds with and
      without the lock agree, interrupts included.
    - Secure world.  Booting the manager cannot fail and the partition writes
      only its own blocks, while the normal world keeps its buffers out of the
      secure heap; no request makes the manager panic, a preempted call
      completes with the result of the uninterrupted one, and a response tells
      how the partition left.

    Several theorems record where the code does something other than it
    intends; they are stated as facts about the code.

    ** Conventions and bounds

    - Integers are [Z] (or [nat] for indices) kept at their width.  Where a
      guest can make an addition, multiplication or shift overflow (the FF-A
      proxy, the block device, the exception handlers, the ticket lock) the
      parameter [checks] says whether the build has overflow checks: with
      them, as in the dev profile that the Makefile builds, an overflow is a
      panic, without them it wraps; the theorems hold for both unless they say
      otherwise.  Elsewhere [u8] to [u64] wrap.  A panic (failed assertion,
      index out of bounds, division by zero, [expect]) is an [Err].
    - Fuel.  [map_region] uses one unit per 2MB block, which its specification
      shows to be enough.  The queue loops of the devices and the guest's run
      between two exits take fuel as an argument: a theorem either holds for
      every amount or says how much is enough.  16 iterations in
      [ready_vcpu_runs] are two turns of the eight slots of the scheduler.
    - Atomics are sequentially consistent.  Interleavings are explicit: the
      lock, the rings and the multi-core system step at single accesses; the
      drains take what other cores add meanwhile as an environment.
    - Parameters stand for what is not in src/: guest code, EL3 firmware with
      the Secure World behind it, the device-tree crate, the secure partitions;
      nothing is assumed of them beyond the named hypotheses of a theorem
      ([secure_world]: firmware that answers an FF-A call writes only Secure
      RAM, guest RAM and the buffers of the proxy).
    - Exception, VmRun, GuestLoader and Boot model the build without multi_pcpu
      and sel2, which have the files named above; FfaProxy the build for Linux
      guests.
    - Polled registers are streams of values; a driver is the list of its
      accesses.  In DevLock the body of a device method reads the devices at
      its beginning and stores them at its end; of guest memory it sees each
      byte as it was at some moment in between.
    - Boot and SpmBoot evaluate the boot on a memory that is a variable, so
      their theorems hold whatever memory contains.

    ** Not modelled

    - The tests in tests/ that need guests or hardware, which rust_main calls
      before the guests; the panic handler, the formatting
      macros, banners and messages on the console, but for the report of an
      instruction abort, which reads memory, and the number printers.
    - InterruptController, VirtualInterruptController and GuestTimer of
      traits.rs, which nothing implements; module declarations.
    - boot.S and the save and restore of registers in exception.S beyond the
      entry loop; weak memory ordering; caches; the TLB outside the walker; the
      accessors of structs and the Debug and Display implementations; the
      reserved and read-only fields of system registers. *)

From Stdlib Require Import ZArith Lia Bool Btauto.
From stdpp Require Import base decidable option list numbers.

#[global] Open Scope Z_scope.

(** ** Fallible computations

    [Result<T, E>] of the source, and computations over a mutable state that
    may fail: an error keeps the state reached so far, as an early return with
    [?] does in Rust. *)
Inductive result (A E : Type) : Type :=
| Ok (a : A)
| Err (e : E).
Arguments Ok {A E} a.
Arguments Err {A E} e.

#[export] Instance result_eq_dec {A E} `{EqDecision A} `{EqDecision E} :
  EqDecision (result A E).
Proof. solve_decision. Defined.

Definition is_ok {A E} (r : result A E) : bool :=
  match r with Ok _ => true | Err _ => false end.

Definition SM (S E A : Type) : Type := S -> S * result A E.

Definition sm_ret {S E A} (a : A) : SM S E A := fun s => (s, Ok a).
Definition sm_err {S E A} (e : E) : SM S E A := fun s => (s, Err e).
Definition sm_bind {S E A B} (c : SM S E A) (k : A -> SM S E B) : SM S E B :=
  fun s => match c s with
           | (s', Ok a) => k a s'
           | (s', Err e) => (s', Err e)
           end.
(** A bind that succeeds: both its steps do. *)
Lemma sm_bind_inv {S E A B} (c : SM S E A) (k : A -> SM S E B) s s' b : sm_bind c k s = (s', Ok b) ->
  exists s1 a, c s = (s1, Ok a) /\ k a s1 = (s', Ok b).
Proof. unfold sm_bind. destruct (c s) as [s1 [a|e]]; [eauto|intros [=]]. Qed.
(** A return that is observed. *)
Lemma sm_ret_inv {S E A} (a b : A) (s s' : S) : sm_ret (E := E) a s = (s', Ok b) -> a = b /\ s = s'.
Proof. by intros [= -> ->]. Qed.
Definition sm_get {S E} : SM S E S := fun s => (s, Ok s).
Definition sm_upd {S E} (f : S -> S) : SM S E unit := fun s => (f s, Ok tt).
(** [opt.ok_or(e)?] *)
Definition sm_some {S E A} (o : option A) (e : E) : SM S E A :=
  match o with Some a => sm_ret a | None => sm_err e end.

Declare Scope hv_scope.
Delimit Scope hv_scope with hv.
Notation "'let*' x ':=' c 'in' k" := (sm_bind c (fun x => k))
  (at level 10, x pattern, c at level 100, k at level 200) : hv_scope.
Notation "c ';;;' k" := (sm_bind c (fun _ => k))
  (at level 199, right associativity) : hv_scope.
#[global] Open Scope hv_scope.

(** ** Machine integers

    A [w]-bit unsigned integer is a [Z]; [wrap] is its arithmetic without
    overflow checks. *)
Definition wrap (w : Z) (x : Z) : Z := x mod 2 ^ w.
Definition u8 := wrap 8.
Definition u16 := wrap 16.
Definition u32 := wrap 32.
Definition u64 := wrap 64.
(** [!x] on a [w]-bit integer *)
Definition notw (w x : Z) : Z := Z.land (Z.lnot x) (Z.ones w).
Definition not64 := notw 64.
Definition not32 := notw 32.

Definition fits (w x : Z) : Prop := 0 <= x < 2 ^ w.
#[export] Instance fits_dec w x : Decision (fits w x).
Proof. unfold fits. apply _. Defined.

Lemma wrap_fits w x : 0 <= w -> fits w (wrap w x).
Proof. intros. apply Z.mod_pos_bound. lia. Qed.

Lemma wrap_id w x : fits w x -> wrap w x = x.
Proof. apply Z.mod_small. Qed.

Lemma fits_mono w w' x : 0 <= w <= w' -> fits w x -> fits w' x.
Proof.
  intros Hw [Hl Hu]. split; [done|].
  eapply Z.lt_le_trans; [exact Hu|]. apply Z.pow_le_mono_r; lia.
Qed.

(** ** Bits *)
Definition bmask (lo n : Z) : Z := Z.shiftl (Z.ones n) lo.

Lemma testbit_ones n i : 0 <= n -> 0 <= i -> Z.testbit (Z.ones n) i = (i <? n).
Proof.
  intros. destruct (Z.ltb_spec i n).
  - apply Z.ones_spec_low; lia.
  - apply Z.ones_spec_high; lia.
Qed.

Lemma testbit_bmask lo n i : 0 <= lo -> 0 <= n -> 0 <= i ->
  Z.testbit (bmask lo n) i = (lo <=? i) && (i <? lo + n).
Proof.
  intros. unfold bmask. rewrite Z.shiftl_spec by lia.
  destruct (Z.leb_spec lo i); simpl.
  - rewrite testbit_ones by lia. lia.
  - apply Z.testbit_neg_r. lia.
Qed.

Lemma testbit_fits w x i : fits w x -> 0 <= w <= i -> Z.testbit x i = false.
Proof.
  intros [? ?] ?. destruct (Z.eq_dec x 0) as [->|]; [apply Z.bits_0|].
  apply Z.bits_above_log2; [lia|].
  apply Z.log2_lt_pow2; [lia|].
  eapply Z.lt_le_trans; [eassumption|]. apply Z.pow_le_mono_r; lia.
Qed.

Lemma testbit_wrap w x i : 0 <= w -> 0 <= i ->
  Z.testbit (wrap w x) i = (i <? w) && Z.testbit x i.
Proof.
  intros. unfold wrap. destruct (Z.ltb_spec i w); simpl.
  - apply Z.mod_pow2_bits_low; lia.
  - apply Z.mod_pow2_bits_high; lia.
Qed.

Lemma testbit_notw w x i : 0 <= w -> 0 <= i ->
  Z.testbit (notw w x) i = (i <? w) && negb (Z.testbit x i).
Proof.
  intros. unfold notw. rewrite Z.land_spec, Z.lnot_spec, testbit_ones by lia.
  btauto.
Qed.

Lemma testbit_shiftl x n i : 0 <= i -> Z.testbit (Z.shiftl x n) i = (n <=? i) && Z.testbit x (i - n).
Proof.
  intros. rewrite Z.shiftl_spec by lia. destruct (Z.leb_spec n i); simpl; [done|].
  apply Z.testbit_neg_r. lia.
Qed.

Lemma testbit_shiftr x n i : 0 <= i -> Z.testbit (Z.shiftr x n) i = Z.testbit x (i + n).
Proof. intros. apply Z.shiftr_spec. lia. Qed.

Lemma fits_testbit w x : 0 <= w -> 0 <= x ->
  (forall i, w <= i -> Z.testbit x i = false) -> fits w x.
Proof.
  intros Hw Hx H. split; [done|].
  destruct (Z.eq_dec x 0) as [->|]; [lia|].
  destruct (Z.lt_ge_cases x (2 ^ w)) as [|Hge]; [done|exfalso].
  assert (w <= Z.log2 x) by (apply Z.log2_le_pow2; lia).
  specialize (H (Z.log2 x) ltac:(lia)).
  rewrite Z.bit_log2 in H by lia. done.
Qed.

Lemma lor_nn a b : 0 <= a -> 0 <= b -> 0 <= Z.lor a b.
Proof. intros. apply Z.lor_nonneg. done. Qed.
Lemma land_nn_r a b : 0 <= b -> 0 <= Z.land a b.
Proof. intros. apply Z.land_nonneg. by right. Qed.
Lemma shiftl_nn a n : 0 <= a -> 0 <= Z.shiftl a n.
Proof. intros. by apply Z.shiftl_nonneg. Qed.

Create Rewrite HintDb bits.
Create HintDb hv discriminated.
#[export] Hint Rewrite Z.land_spec Z.lor_spec Z.lxor_spec Z.bits_0 : bits.
#[export] Hint Rewrite testbit_bmask testbit_ones testbit_wrap testbit_notw
  testbit_shiftl testbit_shiftr using lia : bits.

(** Case analysis on every integer comparison of the goal. *)
Ltac zcases :=
  repeat match goal with
  | |- context [?a <=? ?b] => destruct (Z.leb_spec a b)
  | |- context [?a <? ?b] => destruct (Z.ltb_spec a b)
  | |- context [?a =? ?b] => destruct (Z.eqb_spec a b)
  end.
Ltac zcases_hyp :=
  repeat match goal with
  | H : context [?a <=? ?b] |- _ => destruct (Z.leb_spec a b)
  | H : context [?a <? ?b] |- _ => destruct (Z.ltb_spec a b)
  | H : context [?a =? ?b] |- _ => destruct (Z.eqb_spec a b)
  end.
(** The same, deciding by [lia] the comparisons that earlier ones settle. *)
Ltac zdec_step a b test lem pos neg :=
  first [ replace test with true by (symmetry; apply pos; lia)
        | replace test with false by (symmetry; apply neg; lia)
        | destruct lem ].
Ltac zdec :=
  repeat (match goal with
  | |- context [?a <=? ?b] => zdec_step a b (a <=? b) (Z.leb_spec a b) Z.leb_le Z.leb_gt
  | |- context [?a <? ?b] => zdec_step a b (a <? b) (Z.ltb_spec a b) Z.ltb_lt Z.ltb_ge
  | |- context [?a =? ?b] => zdec_step a b (a =? b) (Z.eqb_spec a b) Z.eqb_eq Z.eqb_neq
  end; cbn [andb orb negb]).
(** Goals [x = y] on integers, bit by bit. *)
Ltac bit_ext i Hi := apply Z.bits_inj'; intros i Hi; autorewrite with bits.
Ltac bit_solve := zcases; simpl; rewrite ?andb_true_r, ?andb_false_r, ?orb_false_r, ?orb_true_r;
  try first [reflexivity | btauto | lia].

(** Clearing the low [k] bits. *)
Lemma land_notw_low w k x : 0 <= k <= w -> fits w x ->
  Z.land x (notw w (2 ^ k - 1)) = x - x mod 2 ^ k.
Proof.
  intros Hk Hx.
  replace (x - x mod 2 ^ k) with (Z.shiftl (Z.shiftr x k) k).
  2:{ rewrite Z.shiftl_mul_pow2, Z.shiftr_div_pow2 by lia.
      pose proof (Z.div_mod x (2 ^ k) ltac:(lia)). lia. }
  replace (2 ^ k - 1) with (Z.ones k) by (rewrite Z.ones_equiv; lia).
  bit_ext i Hi. destruct (Z.leb_spec k i); simpl.
  - rewrite testbit_shiftr by lia. replace (i - k + k) with i by lia.
    destruct (Z.ltb_spec i w); simpl.
    + destruct (Z.ltb_spec i k); [lia|]. btauto.
    + rewrite (testbit_fits w x i) by (done || lia). done.
  - destruct (Z.ltb_spec i k); [|lia]. btauto.
Qed.

Lemma land_low k x : 0 <= k -> Z.land x (2 ^ k - 1) = x mod 2 ^ k.
Proof.
  intros. replace (2 ^ k - 1) with (Z.ones k) by (rewrite Z.ones_equiv; lia).
  apply Z.land_ones. done.
Qed.

(** ** Pairwise relations over lists *)
Section OrdPairs.
Context {A : Type} (R : A -> A -> Prop).

Inductive all_pairs : list A -> Prop :=
| all_pairs_nil : all_pairs []
| all_pairs_cons x l : Forall (R x) l -> all_pairs l -> all_pairs (x :: l).

Lemma all_pairs_app l1 l2 : all_pairs (l1 ++ l2) <->
  all_pairs l1 /\ all_pairs l2 /\ Forall (fun x => Forall (R x) l2) l1.
Proof.
  induction l1 as [|x l1 IH]; simpl.
  - split; [|tauto]. intros; repeat constructor; done.
  - split.
    + intros H; inversion H; subst. rewrite Forall_app in *.
      repeat constructor; tauto.
    + intros (H1 & H2 & H3). inversion H1; inversion H3; subst.
      constructor; [rewrite Forall_app|]; tauto.
Qed.

Lemma all_pairs_perm l l' : (forall x y, R x y -> R y x) ->
  Permutation l l' -> all_pairs l -> all_pairs l'.
Proof.
  intros Hsym Hp. induction Hp as [|x l l' Hp IH|x y l|l1 l2 l3 H1 IH1 H2 IH2].
  - done.
  - intros H. inversion H; subst. constructor; [by rewrite <- Hp|auto].
  - intros H. inversion H as [|? ? Hy Hl]; subst. inversion Hl; inversion Hy; subst.
    repeat constructor; auto.
  - auto.
Qed.
End OrdPairs.

(** Lists that differ in one element. *)
Lemma all_pairs_replace {A} (R : A -> A -> Prop) l1 x y l2 :
  (forall a b, R a b -> R b a) -> (forall z, R x z -> R y z) ->
  all_pairs R (l1 ++ x :: l2) -> all_pairs R (l1 ++ y :: l2).
Proof.
  intros Hsym Hxy H. apply all_pairs_app in H as (H1 & H2 & H3). apply all_pairs_app.
  inversion H2 as [|? ? Hx Hl2]; subst. split_and!; [done| |].
  - constructor; [|done]. eapply Forall_impl; [|exact Hx]. auto.
  - eapply Forall_impl; [|exact H3]. intros a Ha. inversion Ha; subst. constructor; auto.
Qed.

(** ** Words built from fields, single bits *)
Lemma lor_disjoint_add k a b : 0 <= k -> fits k b -> Z.lor (Z.shiftl a k) b = a * 2 ^ k + b.
Proof.
  intros Hk Hb. rewrite <- Z.shiftl_mul_pow2 by lia. symmetry. apply Z.add_nocarry_lor.
  apply Z.bits_inj'; intros i Hi; rewrite Z.land_spec, Z.bits_0, testbit_shiftl by lia.
  destruct (Z.leb_spec k i); simpl; [|done].
  by rewrite (testbit_fits k b), andb_false_r by (done || lia).
Qed.
Lemma land_bit_zero x i : 0 <= i -> (Z.land x (Z.shiftl 1 i) =? 0) = negb (Z.testbit x i).
Proof.
  intros Hi. rewrite Z.shiftl_1_l. destruct (Z.testbit x i) eqn:E; simpl.
  - apply Z.eqb_neq. intros H0. assert (Z.testbit (Z.land x (2 ^ i)) i = false) as Hb by by rewrite H0, Z.bits_0.
    rewrite Z.land_spec, E, Z.pow2_bits_true in Hb by lia. done.
  - apply Z.eqb_eq, Z.bits_inj'. intros j Hj. rewrite Z.land_spec, Z.bits_0.
    destruct (Z.eq_dec i j) as [-> |Hne]; [by rewrite E|]. by rewrite Z.pow2_bits_false, andb_false_r by lia.
Qed.
Lemma bit_shift1 i b : 0 <= i -> 0 <= b -> Z.testbit (Z.shiftl 1 i) b = (b =? i).
Proof.
  intros. rewrite Z.shiftl_1_l, Z.pow2_bits_eqb by lia. apply Z.eqb_sym.
Qed.
Lemma lor_fits w x y : 0 <= w -> fits w x -> fits w y -> fits w (Z.lor x y).
Proof.
  intros Hw Hx Hy. apply fits_testbit; [done|apply Z.lor_nonneg; unfold fits in *; lia|].
  intros i Hi. rewrite Z.lor_spec, !(testbit_fits w) by (done || lia). done.
Qed.
Lemma land_fits w x y : 0 <= w -> fits w x -> fits w (Z.land x y).
Proof.
  intros Hw Hx. apply fits_testbit; [done|apply Z.land_nonneg; unfold fits in *; lia|].
  intros i Hi. by rewrite Z.land_spec, (testbit_fits w x) by (done || lia).
Qed.
