(* ===== verification/Memory.v ===== *)
(** * Physical memory as seen from EL2

    The hypervisor reads and writes physical memory through raw pointers
    (identity mapping: VA = PA = IPA).  Memory is a byte store; loads and stores
    of 1, 2, 4 and 8 bytes are little-endian, [write_bytes] fills a range and
    [copy_nonoverlapping] copies one.  Two memories are compared pointwise. *)

From Stdlib Require Import ZArith Lia.
From stdpp Require Import base list strings.
From S2P Require Import Prelude.

(** The panics of the build with overflow checks. *)
Definition ADD_OVERFLOW : string := "attempt to add with overflow".
Definition MUL_OVERFLOW : string := "attempt to multiply with overflow".

(** A byte per address; a load keeps the low 8 bits of a cell. *)
Definition mem := Z -> Z.

Definition read8 (m : mem) (a : Z) : Z := m a mod 256.

Fixpoint read_le (n : nat) (m : mem) (a : Z) : Z :=
  match n with
  | O => 0
  | S n' => read8 m a + 256 * read_le n' m (a + 1)
  end.

Definition in_range (a n x : Z) : bool := (a <=? x) && (x <? a + n).

Definition write_le (n : nat) (m : mem) (a v : Z) : mem :=
  fun x => if in_range a (Z.of_nat n) x then (v / 256 ^ (x - a)) mod 256 else m x.

Definition read16 := read_le 2.
Definition read32 := read_le 4.
Definition read64 := read_le 8.
Definition write8 := write_le 1.
Definition write16 := write_le 2.
Definition write32 := write_le 4.
Definition write64 := write_le 8.

(** [core::ptr::write_bytes(a, b, n)] *)
Definition write_bytes (m : mem) (a b n : Z) : mem :=
  fun x => if in_range a n x then b else m x.

(** [core::ptr::copy_nonoverlapping(src, dst, n)] *)
Definition copy_bytes (m : mem) (src dst n : Z) : mem :=
  fun x => if in_range dst n x then m (src + (x - dst)) else m x.

(** Storing a byte slice at [a]. *)
Definition write_list (m : mem) (a : Z) (bs : list Z) : mem :=
  fun x => if in_range a (Z.of_nat (length bs)) x
           then nth (Z.to_nat (x - a)) bs 0 else m x.

(** The [n] bytes at [a]. *)
Definition read_list (m : mem) (a : Z) (n : nat) : list Z :=
  map (fun i => read8 m (a + Z.of_nat i)) (seq 0 n).

(** Agreement on a range of addresses. *)
Definition agree (m m' : mem) (a n : Z) : Prop :=
  forall x, a <= x < a + n -> m x = m' x.

Lemma in_range_true a n x : in_range a n x = true <-> a <= x < a + n.
Proof. unfold in_range. lia. Qed.
Lemma in_range_false a n x : in_range a n x = false <-> x < a \/ a + n <= x.
Proof. unfold in_range. lia. Qed.

Lemma agree_sub m m' a n b k : agree m m' a n -> a <= b -> b + k <= a + n -> agree m m' b k.
Proof. intros H ??? ?. apply H. lia. Qed.

Lemma read_le_agree n : forall m m' a, agree m m' a (Z.of_nat n) -> read_le n m a = read_le n m' a.
Proof.
  induction n as [|n IH]; intros m m' a H; simpl; [done|].
  rewrite (IH m m' (a + 1)).
  - unfold read8. rewrite (H a) by lia. done.
  - eapply agree_sub; [exact H|lia|lia].
Qed.

Lemma read_le_range n m a : 0 <= read_le n m a < 256 ^ Z.of_nat n.
Proof.
  revert a; induction n as [|n IH]; intros a; simpl; [lia|].
  specialize (IH (a + 1)). unfold read8.
  pose proof (Z.mod_pos_bound (m a) 256).
  replace (256 ^ Z.of_nat (S n)) with (256 * 256 ^ Z.of_nat n)
    by (rewrite Nat2Z.inj_succ, Z.pow_succ_r; lia).
  lia.
Qed.

(** A stored integer reads back modulo its width. *)
Lemma read_write_le_aux n : forall m a b v,
  a <= b ->
  (forall x, b <= x < b + Z.of_nat n -> m x = (v / 256 ^ (x - a)) mod 256) ->
  read_le n m b = (v / 256 ^ (b - a)) mod 256 ^ Z.of_nat n.
Proof.
  induction n as [|n IH]; intros m a b v Hab H; simpl.
  - rewrite Z.mod_1_r. done.
  - rewrite (IH m a (b + 1) v) by (try lia; intros; apply H; lia).
    unfold read8. rewrite (H b) by lia. rewrite Z.mod_mod by lia.
    rewrite Nat2Z.inj_succ.
    rewrite Z.pow_succ_r by lia.
    replace (b + 1 - a) with (Z.succ (b - a)) by lia.
    rewrite (Z.pow_succ_r 256 (b - a)) by lia.
    rewrite (Z.mul_comm 256 (256 ^ (b - a))).
    assert (0 < 256 ^ (b - a)) by lia.
    rewrite <- Z.div_div by lia.
    set (q := v / 256 ^ (b - a)).
    rewrite (Z.rem_mul_r q 256 (256 ^ Z.of_nat n)) by lia. lia.
Qed.

Lemma read_write_le n m a v : read_le n (write_le n m a v) a = v mod 256 ^ Z.of_nat n.
Proof.
  rewrite (read_write_le_aux n _ a a v); [|lia|].
  - rewrite Z.sub_diag, Z.pow_0_r, Z.div_1_r. done.
  - intros x Hx. unfold write_le.
    destruct (in_range a (Z.of_nat n) x) eqn:E; [done|].
    apply in_range_false in E. lia.
Qed.

Lemma read_write_le_id n m a v : 0 <= v < 256 ^ Z.of_nat n ->
  read_le n (write_le n m a v) a = v.
Proof. intros. rewrite read_write_le. apply Z.mod_small. done. Qed.

Lemma read_write_le_ne k n m a b v :
  a + Z.of_nat k <= b \/ b + Z.of_nat n <= a ->
  read_le k (write_le n m b v) a = read_le k m a.
Proof.
  intros H. apply read_le_agree. intros x Hx. unfold write_le.
  destruct (in_range b (Z.of_nat n) x) eqn:E; [|done].
  apply in_range_true in E. lia.
Qed.

Lemma read_write_bytes_ne k m a b v n :
  a + Z.of_nat k <= b \/ b + n <= a ->
  read_le k (write_bytes m b v n) a = read_le k m a.
Proof.
  intros H. apply read_le_agree. intros x Hx. unfold write_bytes.
  destruct (in_range b n x) eqn:E; [|done].
  apply in_range_true in E. lia.
Qed.

Lemma read_le_zero n : forall m a, (forall x, a <= x < a + Z.of_nat n -> m x = 0) -> read_le n m a = 0.
Proof.
  induction n as [|n IH]; intros m a H; simpl; [done|].
  rewrite IH by (intros; apply H; lia).
  unfold read8. rewrite H by lia. done.
Qed.

Lemma read_write_bytes_zero k m a b n :
  b <= a -> a + Z.of_nat k <= b + n -> read_le k (write_bytes m b 0 n) a = 0.
Proof.
  intros. apply read_le_zero. intros x Hx. unfold write_bytes.
  destruct (in_range b n x) eqn:E; [done|]. apply in_range_false in E. lia.
Qed.

(** The 64-bit instances used on page tables. *)
Lemma read64_fits m a : fits 64 (read64 m a).
Proof. apply (read_le_range 8). Qed.

Lemma read64_write64 m a v : fits 64 v -> read64 (write64 m a v) a = v.
Proof. apply (read_write_le_id 8). Qed.

Lemma read64_write64_ne m a b v :
  a + 8 <= b \/ b + 8 <= a -> read64 (write64 m b v) a = read64 m a.
Proof. apply (read_write_le_ne 8 8). Qed.

Lemma read64_agree m m' a : agree m m' a 8 -> read64 m a = read64 m' a.
Proof. apply (read_le_agree 8). Qed.

Lemma write64_agree m a v b n :
  a + 8 <= b \/ b + n <= a -> agree (write64 m a v) m b n.
Proof.
  intros H x Hx. unfold write64, write_le.
  destruct (in_range a (Z.of_nat 8) x) eqn:E; [|done]. apply in_range_true in E. lia.
Qed.

Lemma write_bytes_agree m a c k b n :
  a + k <= b \/ b + n <= a -> agree (write_bytes m a c k) m b n.
Proof.
  intros H x Hx. unfold write_bytes.
  destruct (in_range a k x) eqn:E; [|done]. apply in_range_true in E. lia.
Qed.

Lemma agree_trans m1 m2 m3 a n : agree m1 m2 a n -> agree m2 m3 a n -> agree m1 m3 a n.
Proof. intros H1 H2 x Hx. rewrite H1 by done. apply H2. done. Qed.

Lemma agree_refl m a n : agree m m a n.
Proof. done. Qed.
#[export] Hint Resolve agree_refl : hv.
