(* ===== verification/Allocator.v ===== *)
(** * Heap of the hypervisor (src/mm/allocator.rs, src/mm/heap.rs)

    A bump allocator with a free list threaded through the first eight bytes of
    every free page.  [alloc_inv] ties the allocator state to the regions handed
    out; [astep] is the step relation of the allocator and of its clients, which
    may write anywhere inside the regions they hold. *)

From Stdlib Require Import ZArith Lia.
From stdpp Require Import base list.
From S2P Require Import Prelude Memory.

Record BumpAllocator := mkBump {
  ba_next : Z;
  ba_end : Z;
  ba_allocated : Z;
  ba_free_head : Z;
}.

(** [BumpAllocator::new] *)
Definition BumpAllocator_new (start size : Z) : BumpAllocator :=
  mkBump start (u64 (start + size)) 0 0.

(** [BumpAllocator::alloc_aligned] *)
Definition ba_alloc_aligned (a : BumpAllocator) (size align : Z) : option Z * BumpAllocator :=
  let aligned := Z.land (u64 (u64 (ba_next a + align) - 1)) (not64 (u64 (align - 1))) in
  let new_next := u64 (aligned + size) in
  if ba_end a <? new_next then (None, a)
  else (Some aligned,
        mkBump new_next (ba_end a) (u64 (ba_allocated a + size)) (ba_free_head a)).

(** [BumpAllocator::alloc_page] *)
Definition ba_alloc_page (m : mem) (a : BumpAllocator) : option Z * mem * BumpAllocator :=
  if negb (ba_free_head a =? 0) then
    let page := ba_free_head a in
    let nxt := read64 m page in
    (Some page, write_bytes m page 0 4096,
     mkBump (ba_next a) (ba_end a) (u64 (ba_allocated a + 4096)) nxt)
  else
    let (r, a') := ba_alloc_aligned a 4096 4096 in (r, m, a').

(** [BumpAllocator::free_page] *)
Definition ba_free_page (m : mem) (a : BumpAllocator) (addr : Z) : mem * BumpAllocator :=
  (write64 m addr (ba_free_head a),
   mkBump (ba_next a) (ba_end a) (u64 (ba_allocated a - 4096)) addr).

(** [BumpAllocator::alloc], [remaining], [allocated], [reset] *)
Definition ba_alloc (a : BumpAllocator) (size : Z) : option Z * BumpAllocator :=
  ba_alloc_aligned a size 8.
Definition ba_remaining (a : BumpAllocator) : Z := u64 (ba_end a - ba_next a).
Definition ba_allocated_bytes (a : BumpAllocator) : Z := ba_allocated a.
Definition ba_reset (a : BumpAllocator) (start : Z) : BumpAllocator :=
  mkBump start (ba_end a) 0 0.

(** The global heap, [None] before initialisation (src/mm/heap.rs). *)
Definition HEAP_START : Z := 0x41000000.
Definition HEAP_SIZE : Z := 0x1000000.
Definition heap_init : option BumpAllocator := Some (BumpAllocator_new HEAP_START HEAP_SIZE).
Definition heap_init_at (start size : Z) : option BumpAllocator :=
  Some (BumpAllocator_new start size).
Definition heap_alloc_page (m : mem) (h : option BumpAllocator) :
  option Z * mem * option BumpAllocator :=
  match h with
  | None => (None, m, None)
  | Some a => match ba_alloc_page m a with (r, m', a') => (r, m', Some a') end
  end.
Definition heap_alloc_aligned (h : option BumpAllocator) (size align : Z) :
  option Z * option BumpAllocator :=
  match h with
  | None => (None, None)
  | Some a => let (r, a') := ba_alloc_aligned a size align in (r, Some a')
  end.
Definition heap_free_page (m : mem) (h : option BumpAllocator) (addr : Z) :
  mem * option BumpAllocator :=
  match h with
  | None => (m, None)
  | Some a => let (m', a') := ba_free_page m a addr in (m', Some a')
  end.
Definition heap_remaining (h : option BumpAllocator) : Z :=
  match h with Some a => ba_remaining a | None => 0 end.
Definition heap_allocated (h : option BumpAllocator) : Z :=
  match h with Some a => ba_allocated a | None => 0 end.

(** ** Invariant *)

(** Regions [(base, size)]. *)
Definition region := (Z * Z)%type.
Definition disj (r s : region) : Prop := r.1 + r.2 <= s.1 \/ s.1 + s.2 <= r.1.
Definition page_region (p : Z) : region := (p, 4096).

(** The free list rooted at [head] is exactly [l]. *)
Fixpoint free_chain (m : mem) (head : Z) (l : list Z) : Prop :=
  match l with
  | [] => head = 0
  | p :: l' => head = p /\ p <> 0 /\ free_chain m (read64 m p) l'
  end.

Record alloc_inv (start : Z) (m : mem) (a : BumpAllocator)
  (live : list region) (free : list Z) : Prop := {
  ai_start : 0 < start;
  ai_next : start <= ba_next a <= ba_end a;
  ai_end : ba_end a < 2 ^ 63;
  ai_chain : free_chain m (ba_free_head a) free;
  ai_disj : all_pairs disj (live ++ map page_region free);
  ai_in : Forall (fun r => start <= r.1 /\ 0 <= r.2 /\ r.1 + r.2 <= ba_next a)
            (live ++ map page_region free);
  ai_aligned : Forall (fun p => p mod 4096 = 0) free;
}.

(** Steps of the allocator and of the owners of its regions. *)
Inductive astep : mem * BumpAllocator * list region -> mem * BumpAllocator * list region -> Prop :=
| as_alloc_page m a live p m' a' :
    ba_alloc_page m a = (Some p, m', a') ->
    astep (m, a, live) (m', a', page_region p :: live)
| as_alloc_page_fail m a live m' a' :
    ba_alloc_page m a = (None, m', a') ->
    astep (m, a, live) (m', a', live)
| as_alloc_aligned m a live size k r a' :
    0 <= size < 2 ^ 62 -> 0 <= k <= 62 ->
    ba_alloc_aligned a size (2 ^ k) = (r, a') ->
    astep (m, a, live)
          (m, a', match r with Some p => (p, size) :: live | None => live end)
| as_free_page m a l1 l2 p :
    p mod 4096 = 0 ->
    astep (m, a, l1 ++ page_region p :: l2)
          ((ba_free_page m a p).1, (ba_free_page m a p).2, l1 ++ l2)
| as_client_write m a live m' :
    (forall x, (forall r, In r live -> ~ (r.1 <= x < r.1 + r.2)) -> m' x = m x) ->
    astep (m, a, live) (m', a, live).

Inductive areach (start size : Z) : mem * BumpAllocator * list region -> Prop :=
| ar_init m : areach start size (m, BumpAllocator_new start size, [])
| ar_step s s' : areach start size s -> astep s s' -> areach start size s'.

(** ** Lemmas *)

Lemma disj_sym r s : disj r s -> disj s r.
Proof. unfold disj. tauto. Qed.
#[export] Hint Resolve disj_sym : hv.

Lemma free_chain_agree m m' l : forall head,
  Forall (fun p => agree m' m p 8) l ->
  free_chain m head l -> free_chain m' head l.
Proof.
  induction l as [|p l IH]; intros head Hag H; simpl in *; [done|].
  destruct H as (-> & Hp & Hc). inversion Hag as [|? ? H1 H2]; subst.
  rewrite (read64_agree m' m p H1). auto.
Qed.

Lemma alloc_aligned_spec a size k r a' :
  0 <= ba_next a < 2 ^ 63 -> 0 <= size < 2 ^ 62 -> 0 <= k <= 62 ->
  ba_end a < 2 ^ 63 ->
  ba_alloc_aligned a size (2 ^ k) = (r, a') ->
  match r with
  | Some p => ba_next a <= p < ba_next a + 2 ^ k /\ p mod 2 ^ k = 0 /\
              ba_next a' = p + size /\ ba_next a' <= ba_end a
  | None => a' = a
  end /\ ba_end a' = ba_end a /\ ba_free_head a' = ba_free_head a.
Proof.
  intros Hn Hs Hk He H. unfold ba_alloc_aligned in H.
  assert (H2k : 0 < 2 ^ k <= 2 ^ 62) by (split; [lia|apply Z.pow_le_mono_r; lia]).
  assert (E1 : u64 (ba_next a + 2 ^ k) = ba_next a + 2 ^ k) by (apply wrap_id; unfold fits; lia).
  assert (E2 : u64 (2 ^ k - 1) = 2 ^ k - 1) by (apply wrap_id; unfold fits; lia).
  assert (E3 : u64 (ba_next a + 2 ^ k - 1) = ba_next a + 2 ^ k - 1)
    by (apply wrap_id; unfold fits; lia).
  unfold not64 in H. rewrite E1, E2, E3, land_notw_low in H by (unfold fits; lia).
  remember (ba_next a + 2 ^ k - 1) as x eqn:Hx.
  pose proof (Z.mod_pos_bound x (2 ^ k) ltac:(lia)) as Hm.
  assert (E4 : u64 (x - x mod 2 ^ k + size) = x - x mod 2 ^ k + size)
    by (apply wrap_id; unfold fits; lia).
  rewrite E4 in H.
  destruct (Z.ltb_spec (ba_end a) (x - x mod 2 ^ k + size)); inversion H; subst r a'; simpl.
  - done.
  - assert ((x - x mod 2 ^ k) mod 2 ^ k = 0).
    { rewrite Zminus_mod_idemp_r, Z.sub_diag. apply Z.mod_0_l. lia. }
    split_and!; lia.
Qed.

Lemma alloc_inv_init start size m :
  0 < start -> 0 <= size -> start + size < 2 ^ 63 ->
  alloc_inv start m (BumpAllocator_new start size) [] [].
Proof.
  intros. unfold BumpAllocator_new.
  assert (E : u64 (start + size) = start + size) by (apply wrap_id; unfold fits; lia).
  rewrite E. constructor; simpl; try lia; constructor.
Qed.

(** A region that starts where the bump pointer was is disjoint from all the
    regions handed out before. *)
Lemma alloc_inv_bump start m a live free p size a' :
  alloc_inv start m a live free ->
  ba_next a <= p -> 0 <= size -> p + size = ba_next a' -> ba_next a' <= ba_end a ->
  ba_end a' = ba_end a -> ba_free_head a' = ba_free_head a ->
  alloc_inv start m a' ((p, size) :: live) free.
Proof.
  intros [H1 H2 H3 H4 H5 H6 H7] Hp Hs Hn He Ee Ef.
  constructor; try (rewrite ?Ee, ?Ef; try assumption; lia).
  - simpl. constructor; [|done].
    eapply Forall_impl; [exact H6|]. intros r (? & ? & ?). unfold disj. simpl. lia.
  - simpl. constructor; [simpl; lia|].
    eapply Forall_impl; [exact H6|]. intros r (? & ? & ?). lia.
Qed.

Lemma alloc_inv_alloc_aligned start m a live free size k r a' :
  alloc_inv start m a live free ->
  0 <= size < 2 ^ 62 -> 0 <= k <= 62 ->
  ba_alloc_aligned a size (2 ^ k) = (r, a') ->
  alloc_inv start m a' (match r with Some p => (p, size) :: live | None => live end) free.
Proof.
  intros Hi Hs Hk H. pose proof Hi as [? ? ? _ _ _ _].
  apply alloc_aligned_spec in H; try lia. destruct H as (Hr & He & Hf).
  destruct r as [p|]; [|by subst].
  eapply alloc_inv_bump; eauto; lia.
Qed.

Lemma alloc_inv_pop start m a live p free :
  alloc_inv start m a live (p :: free) ->
  alloc_inv start (write_bytes m p 0 4096)
    (mkBump (ba_next a) (ba_end a) (u64 (ba_allocated a + 4096)) (read64 m p))
    (page_region p :: live) free.
Proof.
  intros [H1 H2 H3 H4 H5 H6 H7]. simpl in *.
  destruct H4 as (Hh & Hp0 & Hc).
  assert (Hperm : Permutation (live ++ page_region p :: map page_region free)
                              (page_region p :: live ++ map page_region free))
    by (symmetry; apply Permutation_middle).
  apply (all_pairs_perm _ _ _ disj_sym Hperm) in H5.
  rewrite Hperm in H6. inversion H7; subst.
  constructor; simpl; try assumption.
  apply (free_chain_agree m); [|done].
  inversion H5 as [|? ? Hd _]; subst. apply Forall_app in Hd as [_ Hd].
  rewrite Forall_map in Hd. eapply Forall_impl; [exact Hd|].
  intros q Hq. apply write_bytes_agree. unfold compose, disj, page_region in Hq. simpl in Hq. lia.
Qed.

(** [alloc_page] keeps the invariant and hands out an aligned page. *)
Lemma alloc_inv_alloc_page start m a live free r m' a' :
  alloc_inv start m a live free ->
  ba_alloc_page m a = (r, m', a') ->
  match r with
  | Some p => p mod 4096 = 0 /\ exists free', alloc_inv start m' a' (page_region p :: live) free'
  | None => m' = m /\ a' = a
  end.
Proof.
  intros Hi H. unfold ba_alloc_page in H.
  destruct (Z.eqb_spec (ba_free_head a) 0) as [E|E]; simpl in H.
  - destruct (ba_alloc_aligned a 4096 4096) as [r0 a0] eqn:Ea. simplify_eq.
    pose proof Hi as [? ? ? _ _ _ _].
    change 4096 with (2 ^ 12) in Ea at 2.
    pose proof (alloc_inv_alloc_aligned _ _ _ _ _ 4096 12 _ _ Hi ltac:(lia) ltac:(lia) Ea) as Hi'.
    apply (alloc_aligned_spec _ 4096 12) in Ea; try lia. destruct Ea as (Hr & _).
    destruct r as [p|]; [|by subst]. split; [apply Hr|]. eauto.
  - simplify_eq. destruct free as [|p free].
    + destruct Hi as [_ _ _ Hc _ _ _]. simpl in Hc. done.
    + pose proof Hi as [_ _ _ (Hh & _ & _) _ _ Hal]. rewrite Hh in *.
      inversion Hal; subst. split; [done|].
      exists free. apply (alloc_inv_pop _ _ _ _ _ _ Hi).
Qed.

Lemma alloc_inv_free_page start m a l1 l2 p free :
  p mod 4096 = 0 ->
  alloc_inv start m a (l1 ++ page_region p :: l2) free ->
  alloc_inv start (ba_free_page m a p).1 (ba_free_page m a p).2 (l1 ++ l2) (p :: free).
Proof.
  intros Hal [H1 H2 H3 H4 H5 H6 H7]. unfold ba_free_page. simpl.
  assert (Hperm : Permutation ((l1 ++ page_region p :: l2) ++ map page_region free)
                    ((l1 ++ l2) ++ page_region p :: map page_region free)).
  { rewrite <- !app_assoc. simpl. apply Permutation_app_head.
    apply Permutation_middle. }
  pose proof (all_pairs_perm _ _ _ disj_sym Hperm H5) as H5'.
  rewrite Hperm in H6.
  assert (Hin : start <= p /\ 0 <= 4096 /\ p + 4096 <= ba_next a).
  { rewrite Forall_app in H6. destruct H6 as [_ H6]. inversion H6; subst. done. }
  assert (Hfh : fits 64 (ba_free_head a)).
  { destruct free as [|q free]; simpl in H4.
    - rewrite H4. unfold fits. lia.
    - destruct H4 as (-> & _ & _). rewrite Forall_app in H6. destruct H6 as [_ H6].
      inversion H6 as [|? ? _ Hq]; subst. inversion Hq as [|? ? Hq' _]; subst.
      simpl in Hq'. unfold fits. lia. }
  constructor; simpl; try done; try lia.
  - split_and!; [done|lia|]. rewrite read64_write64 by done.
    apply (free_chain_agree m); [|done].
    apply all_pairs_app in H5' as (_ & H5' & _).
    inversion H5' as [|? ? Hd _]; subst. rewrite Forall_map in Hd.
    eapply Forall_impl; [exact Hd|]. intros q Hq.
    apply write64_agree. unfold compose, disj, page_region in Hq. simpl in Hq. lia.
  - constructor; done.
Qed.

Lemma alloc_inv_client_write start m a live free m' :
  (forall x, (forall r, In r live -> ~ (r.1 <= x < r.1 + r.2)) -> m' x = m x) ->
  alloc_inv start m a live free -> alloc_inv start m' a live free.
Proof.
  intros Hw [H1 H2 H3 H4 H5 H6 H7]. constructor; try done.
  apply (free_chain_agree m); [|done].
  apply all_pairs_app in H5 as (_ & _ & H5).
  apply Forall_forall. intros q Hq x Hx. apply Hw. intros r Hr Hin.
  rewrite Forall_forall in H5. specialize (H5 r ltac:(by apply list_elem_of_In)).
  rewrite Forall_map in H5. rewrite Forall_forall in H5. specialize (H5 q Hq).
  unfold compose, disj, page_region in H5. simpl in H5. lia.
Qed.

Lemma astep_inv start s s' :
  astep s s' ->
  (exists free, alloc_inv start s.1.1 s.1.2 s.2 free) ->
  exists free, alloc_inv start s'.1.1 s'.1.2 s'.2 free.
Proof.
  intros Hs [free Hi].
  destruct Hs as [m a live p m' a' H|m a live m' a' H|m a live size k r a' Hsz Hk H
                 |m a l1 l2 p Hal|m a live m' Hw]; simpl in *.
  - apply (alloc_inv_alloc_page _ _ _ _ _ _ _ _ Hi) in H as [_ H]. exact H.
  - apply (alloc_inv_alloc_page _ _ _ _ _ _ _ _ Hi) in H as [-> ->]. eauto.
  - exists free. eapply alloc_inv_alloc_aligned; eauto.
  - exists (p :: free). apply alloc_inv_free_page; done.
  - exists free. eapply alloc_inv_client_write; eauto.
Qed.

Lemma areach_inv start size s :
  0 < start -> 0 <= size -> start + size < 2 ^ 63 ->
  areach start size s ->
  (exists free, alloc_inv start s.1.1 s.1.2 s.2 free) /\ ba_end s.1.2 = start + size.
Proof.
  intros Hs Hz He Hr. induction Hr as [m|s s' Hr IH Hst].
  - split; [exists []; by apply alloc_inv_init|].
    simpl. apply wrap_id. unfold fits. lia.
  - destruct IH as [IH He']. split; [eapply astep_inv; eauto|].
    destruct Hst as [m a live p m' a' H|m a live m' a' H|m a live sz k r a' Hsz Hk H
                 |m a l1 l2 p Hal|m a live m' Hw]; simpl in *; try done;
      destruct IH as [free Hi]; pose proof Hi as [? ? ? _ _ _ _].
    all: unfold ba_alloc_page in *; repeat case_match; simplify_eq; simpl; try done.
    all: try match goal with
         | H : ba_alloc_aligned _ 4096 4096 = _ |- _ =>
             change 4096 with (2 ^ 12) in H at 2; apply (alloc_aligned_spec _ 4096 12) in H; lia
         end.
    all: apply alloc_aligned_spec in H; lia.
Qed.

(** C8. From initialisation on, whatever is allocated, freed and written by the
    owners of the regions, the regions handed out and not given back are pairwise
    disjoint and inside the heap. *)
Theorem heap_regions_disjoint start size s :
  0 < start -> 0 <= size -> start + size < 2 ^ 63 ->
  areach start size s ->
  all_pairs disj s.2 /\ Forall (fun r => start <= r.1 /\ r.1 + r.2 <= start + size) s.2.
Proof.
  intros Hs Hz He Hr. destruct (areach_inv _ _ _ Hs Hz He Hr) as [[free Hi] Hend].
  destruct Hi as [_ Hn _ _ Hd Hin _]. apply all_pairs_app in Hd as (Hd & _ & _).
  split; [done|]. rewrite Forall_app in Hin. destruct Hin as [Hin _].
  eapply Forall_impl; [exact Hin|]. simpl. intros r Hr'. lia.
Qed.

Definition ex_heap1 := (fun _ : Z => 0, BumpAllocator_new 0x41000000 0x1000000, @nil region).
Definition ex_heap2 :=
  (fun _ : Z => 0, mkBump 0x41001000 0x42000000 0x1000 0, [page_region 0x41000000]).
Definition ex_heap3 :=
  (fun _ : Z => 0, mkBump 0x41002000 0x42000000 0x2000 0,
   [page_region 0x41001000; page_region 0x41000000]).

Lemma heap_regions_disjoint_witness :
  areach 0x41000000 0x1000000 ex_heap3 /\ all_pairs disj ex_heap3.2.
Proof.
  assert (H1 : areach 0x41000000 0x1000000 ex_heap1) by constructor.
  assert (H2 : areach 0x41000000 0x1000000 ex_heap2)
    by (apply (ar_step _ _ ex_heap1); [exact H1|]; apply as_alloc_page; vm_compute; reflexivity).
  assert (H3 : areach 0x41000000 0x1000000 ex_heap3)
    by (apply (ar_step _ _ ex_heap2); [exact H2|]; apply as_alloc_page; vm_compute; reflexivity).
  split; [exact H3|]. apply (heap_regions_disjoint 0x41000000 0x1000000 _ ltac:(lia) ltac:(lia) ltac:(lia) H3).
Defined.

(** A freed page is the next page allocated: it comes back zeroed, and the
    allocator is as before the round trip. *)
Theorem free_alloc_round_trip m a p :
  p <> 0 -> fits 64 (ba_free_head a) -> fits 64 (ba_allocated a) ->
  let (m1, a1) := ba_free_page m a p in
  exists m2, ba_alloc_page m1 a1 = (Some p, m2, a) /\
    (forall x, p <= x < p + 4096 -> m2 x = 0) /\
    (forall x, ~ (p <= x < p + 4096) -> m2 x = m x).
Proof.
  intros Hp Hh Ha. unfold ba_free_page, ba_alloc_page. cbn [ba_free_head ba_next ba_end ba_allocated].
  destruct (Z.eqb_spec p 0); [done|]. cbn [negb]. rewrite read64_write64 by done.
  exists (write_bytes (write64 m p (ba_free_head a)) p 0 4096). split_and!.
  - destruct a as [nx en al fh]. simpl in *. do 2 f_equal. unfold u64, wrap.
    rewrite Zplus_mod_idemp_l. replace (al - 4096 + 4096) with al by lia. by apply Z.mod_small.
  - intros x Hx. unfold write_bytes. rewrite (proj2 (in_range_true _ _ _)) by lia. done.
  - intros x Hx. rewrite (write_bytes_agree _ _ _ _ x 1) by lia.
    apply (write64_agree _ _ _ x 1); lia.
Qed.

Lemma free_alloc_round_trip_witness :
  exists m2, ba_alloc_page (ba_free_page (fun _ => 7) (mkBump 0x41001000 0x42000000 4096 0) 0x41000000).1
    (ba_free_page (fun _ => 7) (mkBump 0x41001000 0x42000000 4096 0) 0x41000000).2 =
    (Some 0x41000000, m2, mkBump 0x41001000 0x42000000 4096 0).
Proof.
  pose proof (free_alloc_round_trip (fun _ => 7) (mkBump 0x41001000 0x42000000 4096 0) 0x41000000
    ltac:(lia) ltac:(by vm_compute) ltac:(by vm_compute)) as H.
  simpl in H. destruct H as (m2 & H & _). exists m2. exact H.
Defined.
