(* ===== verification/Stage2.v ===== *)
(** * Stage-2 page tables (src/arch/aarch64/mm/mmu.rs, src/ffa/stage2_walker.rs)

    Definitions only: descriptor constants and constructors, the walker rebuilt
    from VTTBR_EL2 that the FF-A proxy uses ([Module Walker]), and the heap-backed
    mapper that builds the tables of a VM ([Module Mapper]).  Both act on the
    machine state: physical memory, the global heap, and a trace of the stores to
    live descriptors and of the TLB maintenance, in program order, each with
    the memory it was made on. *)

From Stdlib Require Import ZArith Lia.
From stdpp Require Import base list strings.
From S2P Require Import Prelude Memory Allocator.

(** ** Constants (src/arch/aarch64/defs.rs) *)
Definition PTE_VALID : Z := Z.shiftl 1 0.
Definition PTE_TABLE : Z := Z.shiftl 1 1.
Definition PTE_ADDR_MASK : Z := 0x0000FFFFFFFFF000.
Definition PAGE_OFFSET_MASK : Z := 0xFFF.
Definition PT_INDEX_MASK : Z := 0x1FF.
Definition BLOCK_SIZE_2MB : Z := 2 * 1024 * 1024.
Definition BLOCK_MASK_2MB : Z := BLOCK_SIZE_2MB - 1.
Definition PAGE_SIZE_4KB : Z := 4096.
Definition PAGE_MASK_4KB : Z := PAGE_SIZE_4KB - 1.
Definition PTE_SW_SHIFT : Z := 55.
Definition PTE_SW_MASK : Z := Z.shiftl 0x3 PTE_SW_SHIFT.
Definition S2AP_SHIFT : Z := 6.
Definition S2AP_MASK : Z := Z.shiftl 0x3 S2AP_SHIFT.
Definition S2AP_NONE : Z := Z.shiftl 0 S2AP_SHIFT.
Definition S2AP_RO : Z := Z.shiftl 1 S2AP_SHIFT.
Definition S2AP_RW : Z := Z.shiftl 3 S2AP_SHIFT.

(** ** Machine state *)
Inductive tlb_event :=
| EvStore (ptr val : Z)
| EvTlbiAll
| EvTlbiIpa (operand : Z).

Record machine := mkMachine {
  hm_mem : mem;
  hm_heap : option BumpAllocator;
  hm_trace : list (tlb_event * mem);   (* each with the memory it was made on *)
}.

Definition set_mem (s : machine) (m : mem) : machine := mkMachine m (hm_heap s) (hm_trace s).
Definition log_ev (s : machine) (e : tlb_event) : machine :=
  mkMachine (hm_mem s) (hm_heap s) (hm_trace s ++ [(e, hm_mem s)]).
Definition events (s : machine) : list tlb_event := fst <$> hm_trace s.

Definition s2m := SM machine string.

Definition m_read64 (p : Z) : s2m Z := fun s => (s, Ok (read64 (hm_mem s) p)).
(** A store to a descriptor of a live table. *)
Definition m_store64 (p v : Z) : s2m unit :=
  sm_upd (fun s => set_mem (log_ev s (EvStore p v)) (write64 (hm_mem s) p v)).
Definition m_zero_page (p : Z) : s2m unit :=
  sm_upd (fun s => set_mem s (write_bytes (hm_mem s) p 0 4096)).
Definition m_alloc_page (err : string) : s2m Z :=
  fun s => match heap_alloc_page (hm_mem s) (hm_heap s) with
           | (Some p, m', h') => (mkMachine m' h' (hm_trace s), Ok p)
           | (None, m', h') => (mkMachine m' h' (hm_trace s), Err err)
           end.

(** [tlbi_all], [tlbi_ipa] (the same code in both files) *)
Definition tlbi_all : s2m unit := sm_upd (fun s => log_ev s EvTlbiAll).
Definition tlbi_ipa (ipa : Z) : s2m unit :=
  sm_upd (fun s => log_ev s (EvTlbiIpa (Z.land (Z.shiftr ipa 12) 0x000000FFFFFFFFFF))).

(** [(base as *mut u64).add(idx)] *)
Definition pte_ptr (base idx : Z) : Z := base + 8 * idx.

Definition l0_index (ipa : Z) : Z := Z.land (Z.shiftr ipa 39) PT_INDEX_MASK.
Definition l1_index (ipa : Z) : Z := Z.land (Z.shiftr ipa 30) PT_INDEX_MASK.
Definition l2_index (ipa : Z) : Z := Z.land (Z.shiftr ipa 21) PT_INDEX_MASK.
Definition l3_index (ipa : Z) : Z := Z.land (Z.shiftr ipa 12) PT_INDEX_MASK.

(** [e & (PTE_VALID | PTE_TABLE) == (PTE_VALID | PTE_TABLE)],
    [e & PTE_VALID != 0], [e & PTE_TABLE != 0] *)
Definition is_table_desc (e : Z) : bool :=
  Z.land e (Z.lor PTE_VALID PTE_TABLE) =? Z.lor PTE_VALID PTE_TABLE.
Definition pte_valid (e : Z) : bool := negb (Z.land e PTE_VALID =? 0).
Definition pte_table_bit (e : Z) : bool := negb (Z.land e PTE_TABLE =? 0).

Module Walker.

Record Stage2Walker := mkWalker { l0_table : Z }.

(** [Stage2Walker::from_vttbr], on the value of VTTBR_EL2 *)
Definition from_vttbr (vttbr : Z) : Stage2Walker := mkWalker (Z.land vttbr PTE_ADDR_MASK).
Definition new (l0 : Z) : Stage2Walker := mkWalker l0.
Definition has_stage2 (w : Stage2Walker) : bool := negb (l0_table w =? 0).

Definition walk_to_leaf_ptr (m : mem) (w : Stage2Walker) (ipa : Z) : option Z :=
  let l0_entry := read64 m (pte_ptr (l0_table w) (l0_index ipa)) in
  if negb (is_table_desc l0_entry) then None else
  let l1_table := Z.land l0_entry PTE_ADDR_MASK in
  let l1_entry := read64 m (pte_ptr l1_table (l1_index ipa)) in
  if negb (pte_valid l1_entry) then None else
  if negb (pte_table_bit l1_entry) then Some (pte_ptr l1_table (l1_index ipa)) else
  let l2_table := Z.land l1_entry PTE_ADDR_MASK in
  let l2_ptr := pte_ptr l2_table (l2_index ipa) in
  let l2_entry := read64 m l2_ptr in
  if negb (pte_valid l2_entry) then None else
  if negb (pte_table_bit l2_entry) then Some l2_ptr else
  let l3_table := Z.land l2_entry PTE_ADDR_MASK in
  let l3_ptr := pte_ptr l3_table (l3_index ipa) in
  let l3_entry := read64 m l3_ptr in
  if negb (pte_valid l3_entry) then None else Some l3_ptr.

Definition walk_to_leaf (m : mem) (w : Stage2Walker) (ipa : Z) : option Z :=
  match walk_to_leaf_ptr m w ipa with
  | Some p => Some (read64 m p)
  | None => None
  end.

Definition read_sw_bits (m : mem) (w : Stage2Walker) (ipa : Z) : option Z :=
  match walk_to_leaf m w ipa with
  | Some pte => Some (u8 (Z.land (Z.shiftr pte PTE_SW_SHIFT) 0x3))
  | None => None
  end.

Definition read_s2ap (m : mem) (w : Stage2Walker) (ipa : Z) : option Z :=
  match walk_to_leaf m w ipa with
  | Some pte => Some (u8 (Z.land (Z.shiftr pte S2AP_SHIFT) 0x3))
  | None => None
  end.

(** The 512 descriptors that replace a 2MB block. *)
Definition split_page_entry (block_entry i : Z) : Z :=
  let block_pa := Z.land block_entry (not64 BLOCK_MASK_2MB) in
  let block_attr_bits := Z.land (Z.land block_entry BLOCK_MASK_2MB) (not64 0x3) in
  let block_sw_bits := Z.land block_entry PTE_SW_MASK in
  let pa := u64 (block_pa + i * PAGE_SIZE_4KB) in
  Z.lor (Z.lor (Z.lor (Z.lor pa block_sw_bits) block_attr_bits) PTE_TABLE) PTE_VALID.

Definition fill_l3 (m : mem) (l3 : Z) (f : Z -> Z) (n : nat) : mem :=
  fold_left (fun m i => write64 m (pte_ptr l3 (Z.of_nat i)) (f (Z.of_nat i))) (seq 0 n) m.

Definition split_2mb_block_at_l2 (l2_ptr block_entry : Z) : s2m unit :=
  let* l3 := m_alloc_page "Failed to allocate L3 table for block split" in
  m_zero_page l3 ;;;
  sm_upd (fun s => set_mem s (fill_l3 (hm_mem s) l3 (split_page_entry block_entry) 512)) ;;;
  m_store64 l2_ptr 0 ;;;
  tlbi_all ;;;
  m_store64 l2_ptr (Z.lor (Z.lor l3 PTE_VALID) PTE_TABLE) ;;;
  tlbi_all.

Definition split_block_if_needed (w : Stage2Walker) (ipa : Z) : s2m unit :=
  let* l0_entry := m_read64 (pte_ptr (l0_table w) (l0_index ipa)) in
  if negb (is_table_desc l0_entry) then sm_ret tt else
  let l1_table := Z.land l0_entry PTE_ADDR_MASK in
  let* l1_entry := m_read64 (pte_ptr l1_table (l1_index ipa)) in
  if negb (pte_valid l1_entry) || negb (pte_table_bit l1_entry) then sm_ret tt else
  let l2_table := Z.land l1_entry PTE_ADDR_MASK in
  let l2_ptr := pte_ptr l2_table (l2_index ipa) in
  let* l2_entry := m_read64 l2_ptr in
  if pte_valid l2_entry && negb (pte_table_bit l2_entry)
  then split_2mb_block_at_l2 l2_ptr l2_entry
  else sm_ret tt.

Definition write_sw_bits (w : Stage2Walker) (ipa bits : Z) : s2m unit :=
  split_block_if_needed w ipa ;;;
  let* s := sm_get in
  let* leaf_ptr := sm_some (walk_to_leaf_ptr (hm_mem s) w ipa) "IPA not mapped"%string in
  let* pte := m_read64 leaf_ptr in
  m_store64 leaf_ptr
    (Z.lor (Z.land pte (not64 PTE_SW_MASK)) (Z.shiftl (Z.land bits 0x3) PTE_SW_SHIFT)).

Definition set_s2ap (w : Stage2Walker) (ipa s2ap : Z) : s2m unit :=
  split_block_if_needed w ipa ;;;
  let* s := sm_get in
  let* leaf_ptr := sm_some (walk_to_leaf_ptr (hm_mem s) w ipa) "IPA not mapped"%string in
  let* pte := m_read64 leaf_ptr in
  m_store64 leaf_ptr
    (Z.lor (Z.land pte (not64 S2AP_MASK)) (Z.shiftl (Z.land s2ap 0x3) S2AP_SHIFT)) ;;;
  tlbi_ipa ipa.

(** The L2 (L3) table of an entry: allocated, zeroed and linked when the entry
    is invalid, followed when it is a table, refused when it is a block. *)
Definition get_or_alloc_table (ptr : Z) (alloc_err block_err : string) : s2m Z :=
  let* e := m_read64 ptr in
  if negb (pte_valid e) then
    let* t := m_alloc_page alloc_err in
    m_zero_page t ;;;
    m_store64 ptr (Z.lor (Z.lor t PTE_VALID) PTE_TABLE) ;;;
    sm_ret t
  else if pte_table_bit e then sm_ret (Z.land e PTE_ADDR_MASK)
  else sm_err block_err.

(** The L3 descriptor that [map_page] writes. *)
Definition page_descriptor (ipa s2ap sw_bits : Z) : Z :=
  let normal_attrs := Z.lor (Z.lor (Z.shiftl 15 2) (Z.shiftl 3 8)) (Z.shiftl 1 10) in
  let s2ap_bits := Z.shiftl (Z.land s2ap 0x3) S2AP_SHIFT in
  let sw := Z.shiftl (Z.land sw_bits 0x3) PTE_SW_SHIFT in
  let pa := Z.land ipa (not64 PAGE_MASK_4KB) in
  Z.lor (Z.lor (Z.lor (Z.lor (Z.lor pa normal_attrs) s2ap_bits) sw) PTE_TABLE) PTE_VALID.

Definition map_page (w : Stage2Walker) (ipa s2ap sw_bits : Z) : s2m unit :=
  let* l0_entry := m_read64 (pte_ptr (l0_table w) (l0_index ipa)) in
  if negb (is_table_desc l0_entry) then sm_err "L0 entry not a valid table"%string else
  let l1_table := Z.land l0_entry PTE_ADDR_MASK in
  let* l2_table := get_or_alloc_table (pte_ptr l1_table (l1_index ipa))
    "Failed to allocate L2 table" "L1 entry is a 1GB block" in
  let* l3_table := get_or_alloc_table (pte_ptr l2_table (l2_index ipa))
    "Failed to allocate L3 table" "L2 entry is a 2MB block" in
  let l3_ptr := pte_ptr l3_table (l3_index ipa) in
  let* l3_entry := m_read64 l3_ptr in
  if pte_valid l3_entry then sm_err "L3 entry already mapped"%string else
  m_store64 l3_ptr (page_descriptor ipa s2ap sw_bits) ;;;
  tlbi_ipa ipa.

Definition walk_to_l3_ptr (m : mem) (w : Stage2Walker) (ipa : Z) : option Z :=
  let l0_entry := read64 m (pte_ptr (l0_table w) (l0_index ipa)) in
  if negb (is_table_desc l0_entry) then None else
  let l1_table := Z.land l0_entry PTE_ADDR_MASK in
  let l1_entry := read64 m (pte_ptr l1_table (l1_index ipa)) in
  if negb (is_table_desc l1_entry) then None else
  let l2_table := Z.land l1_entry PTE_ADDR_MASK in
  let l2_entry := read64 m (pte_ptr l2_table (l2_index ipa)) in
  if negb (is_table_desc l2_entry) then None else
  let l3_table := Z.land l2_entry PTE_ADDR_MASK in
  let l3_ptr := pte_ptr l3_table (l3_index ipa) in
  let l3_entry := read64 m l3_ptr in
  if negb (pte_valid l3_entry) then None else Some l3_ptr.

Definition unmap_page (w : Stage2Walker) (ipa : Z) : s2m unit :=
  let* s := sm_get in
  let* l3_ptr := sm_some (walk_to_l3_ptr (hm_mem s) w ipa) "IPA not mapped as 4KB page"%string in
  m_store64 l3_ptr 0 ;;;
  tlbi_ipa ipa.

End Walker.

Module Mapper.

Inductive MemoryAttribute := Normal | Device | ReadOnly.

#[export] Instance MemoryAttribute_eq_dec : EqDecision MemoryAttribute.
Proof. solve_decision. Defined.

Record DynamicIdentityMapper := mkMapper {
  dm_l0_table : Z;
  dm_l1_table : Z;
  dm_l2_tables : list Z;
  dm_l2_count : nat;
}.

Definition dmm := SM (machine * DynamicIdentityMapper) string.
Definition lift_m {A} (c : s2m A) : dmm A :=
  fun s => match c s.1 with (h, r) => ((h, s.2), r) end.
Definition dm_self : dmm DynamicIdentityMapper := fun s => (s, Ok s.2).

(** [DynamicIdentityMapper::new]; [expect] panics are errors of the computation. *)
Definition mapper_new : s2m DynamicIdentityMapper :=
  let* l0 := m_alloc_page "Failed to allocate L0 table" in
  let* l1 := m_alloc_page "Failed to allocate L1 table" in
  m_zero_page l0 ;;;
  m_zero_page l1 ;;;
  m_store64 l0 (Z.lor l1 (Z.lor PTE_VALID PTE_TABLE)) ;;;
  sm_ret (mkMapper l0 l1 [0; 0; 0; 0] 0).

Definition attr_bits (attr : MemoryAttribute) : Z :=
  match attr with
  | Normal => Z.lor (Z.lor (Z.lor (Z.shiftl 15 2) (Z.shiftl 3 6)) (Z.shiftl 3 8)) (Z.shiftl 1 10)
  | Device => Z.lor (Z.lor (Z.lor (Z.shiftl 0 2) (Z.shiftl 3 6)) (Z.shiftl 0 8)) (Z.shiftl 1 10)
  | ReadOnly => Z.lor (Z.lor (Z.lor (Z.shiftl 15 2) (Z.shiftl 1 6)) (Z.shiftl 3 8)) (Z.shiftl 1 10)
  end.

Definition make_block_entry (pa : Z) (attr : MemoryAttribute) : Z :=
  Z.lor (Z.lor (Z.land pa (not64 BLOCK_MASK_2MB)) (attr_bits attr)) PTE_VALID.

Definition make_page_entry (pa : Z) (attr : MemoryAttribute) : Z :=
  Z.lor (Z.lor (Z.lor (Z.land pa (not64 PAGE_MASK_4KB)) (attr_bits attr)) PTE_TABLE) PTE_VALID.

Definition get_or_create_l2 (l1_idx : Z) : dmm Z :=
  let* self := dm_self in
  let ptr := pte_ptr (dm_l1_table self) l1_idx in
  let* l1_entry := lift_m (m_read64 ptr) in
  if is_table_desc l1_entry then sm_ret (Z.land l1_entry (not64 PAGE_OFFSET_MASK)) else
  if (4 <=? dm_l2_count self)%nat then sm_err "Too many L2 tables"%string else
  let* l2 := lift_m (m_alloc_page "Failed to allocate L2 table") in
  lift_m (m_zero_page l2) ;;;
  sm_upd (fun s => (s.1, mkMapper (dm_l0_table s.2) (dm_l1_table s.2)
    (<[dm_l2_count s.2 := l2]> (dm_l2_tables s.2)) (S (dm_l2_count s.2)))) ;;;
  lift_m (m_store64 ptr (Z.lor l2 (Z.lor PTE_VALID PTE_TABLE))) ;;;
  sm_ret l2.

(** One iteration of [map_region]. *)
Definition map_block (current_ipa : Z) (attr : MemoryAttribute) : dmm unit :=
  let* l2_table := get_or_create_l2 (l1_index current_ipa) in
  lift_m (m_store64 (pte_ptr l2_table (l2_index current_ipa)) (make_block_entry current_ipa attr)).

(** [while offset < size]; [fuel] bounds the iterations. *)
Fixpoint map_region_loop (fuel : nat) (ipa size offset : Z) (attr : MemoryAttribute) : dmm unit :=
  if negb (offset <? size) then sm_ret tt else
  match fuel with
  | O => sm_err "out of fuel"%string
  | S fuel' =>
      map_block (u64 (ipa + offset)) attr ;;;
      map_region_loop fuel' ipa size (u64 (offset + BLOCK_SIZE_2MB)) attr
  end.

Definition map_region (ipa size : Z) (attr : MemoryAttribute) : dmm unit :=
  map_region_loop (Z.to_nat (size / BLOCK_SIZE_2MB + 1)) ipa size 0 attr.

(** [split_2mb_block]: like the walker's, without the zeroing of the new table
    (every entry is written) and with the SW bits carried by the address part. *)
Definition mapper_split_entry (block_entry i : Z) : Z :=
  let block_pa := Z.land block_entry (not64 BLOCK_MASK_2MB) in
  let block_attr_bits := Z.land (Z.land block_entry BLOCK_MASK_2MB) (not64 0x3) in
  let pa := u64 (block_pa + i * PAGE_SIZE_4KB) in
  Z.lor (Z.lor (Z.lor pa block_attr_bits) PTE_TABLE) PTE_VALID.

Definition split_2mb_block (l2_table l2_idx block_entry : Z) : s2m Z :=
  let* l3 := m_alloc_page "Failed to allocate L3 table for split" in
  sm_upd (fun s => set_mem s (Walker.fill_l3 (hm_mem s) l3 (mapper_split_entry block_entry) 512)) ;;;
  m_store64 (pte_ptr l2_table l2_idx) 0 ;;;
  tlbi_all ;;;
  m_store64 (pte_ptr l2_table l2_idx) (Z.lor (Z.lor l3 PTE_VALID) PTE_TABLE) ;;;
  tlbi_all ;;;
  sm_ret l3.

Definition map_4kb_page (ipa : Z) (attr : MemoryAttribute) : dmm unit :=
  let* l2_table := get_or_create_l2 (l1_index ipa) in
  let l2_ptr := pte_ptr l2_table (l2_index ipa) in
  let* l2_entry := lift_m (m_read64 l2_ptr) in
  let* l3_table :=
    (if pte_valid l2_entry && negb (pte_table_bit l2_entry)
     then lift_m (split_2mb_block l2_table (l2_index ipa) l2_entry)
     else if is_table_desc l2_entry then sm_ret (Z.land l2_entry PTE_ADDR_MASK)
     else let* l3 := lift_m (m_alloc_page "Failed to allocate L3 table") in
          lift_m (m_zero_page l3) ;;;
          lift_m (m_store64 l2_ptr (Z.lor (Z.lor l3 PTE_VALID) PTE_TABLE)) ;;;
          sm_ret l3) in
  lift_m (m_store64 (pte_ptr l3_table (l3_index ipa))
            (make_page_entry (Z.land ipa (not64 PAGE_MASK_4KB)) attr)) ;;;
  lift_m (tlbi_ipa ipa).

Definition unmap_4kb_page (ipa : Z) : dmm unit :=
  let* self := dm_self in
  let* l1_entry := lift_m (m_read64 (pte_ptr (dm_l1_table self) (l1_index ipa))) in
  if negb (is_table_desc l1_entry) then sm_err "L1 entry not valid"%string else
  let l2_table := Z.land l1_entry PTE_ADDR_MASK in
  let* l2_entry := lift_m (m_read64 (pte_ptr l2_table (l2_index ipa))) in
  let* l3_table :=
    (if pte_valid l2_entry && negb (pte_table_bit l2_entry)
     then lift_m (split_2mb_block l2_table (l2_index ipa) l2_entry)
     else if is_table_desc l2_entry then sm_ret (Z.land l2_entry PTE_ADDR_MASK)
     else sm_err "L2 entry not valid"%string) in
  lift_m (m_store64 (pte_ptr l3_table (l3_index ipa)) 0) ;;;
  lift_m (tlbi_ipa ipa).

(** The mapper's own copy of the walk (mmu.rs). *)
Definition mapper_walk_to_leaf_ptr (m : mem) (self : DynamicIdentityMapper) (ipa : Z) : option Z :=
  let l0_entry := read64 m (pte_ptr (dm_l0_table self) (l0_index ipa)) in
  if negb (is_table_desc l0_entry) then None else
  let l1_table := Z.land l0_entry PTE_ADDR_MASK in
  let l1_entry := read64 m (pte_ptr l1_table (l1_index ipa)) in
  if negb (pte_valid l1_entry) then None else
  if negb (pte_table_bit l1_entry) then Some (pte_ptr l1_table (l1_index ipa)) else
  let l2_table := Z.land l1_entry PTE_ADDR_MASK in
  let l2_ptr := pte_ptr l2_table (l2_index ipa) in
  let l2_entry := read64 m l2_ptr in
  if negb (pte_valid l2_entry) then None else
  if negb (pte_table_bit l2_entry) then Some l2_ptr else
  let l3_table := Z.land l2_entry PTE_ADDR_MASK in
  let l3_ptr := pte_ptr l3_table (l3_index ipa) in
  let l3_entry := read64 m l3_ptr in
  if negb (pte_valid l3_entry) then None else Some l3_ptr.

Definition mapper_read_sw_bits (m : mem) (self : DynamicIdentityMapper) (ipa : Z) : option Z :=
  match mapper_walk_to_leaf_ptr m self ipa with
  | Some p => Some (u8 (Z.land (Z.shiftr (read64 m p) PTE_SW_SHIFT) 0x3))
  | None => None
  end.

Definition mapper_write_sw_bits (ipa bits : Z) : dmm unit :=
  let* self := dm_self in
  let* s := lift_m sm_get in
  let* leaf_ptr := sm_some (mapper_walk_to_leaf_ptr (hm_mem s) self ipa) "IPA not mapped"%string in
  let* pte := lift_m (m_read64 leaf_ptr) in
  lift_m (m_store64 leaf_ptr
    (Z.lor (Z.land pte (not64 PTE_SW_MASK)) (Z.shiftl (Z.land bits 0x3) PTE_SW_SHIFT))).

(** [Stage2Config::new_with_vmid]: (VTTBR_EL2, VTCR_EL2). *)
Definition VTCR_VALUE : Z :=
  Z.lor (Z.lor (Z.lor (Z.lor (Z.lor (Z.lor 16 (Z.shiftl 2 6)) (Z.shiftl 1 8))
    (Z.shiftl 1 10)) (Z.shiftl 3 12)) (Z.shiftl 0 14)) (Z.shiftl 5 16).
Definition new_with_vmid (page_table_addr vmid : Z) : Z * Z :=
  (Z.lor (Z.land page_table_addr 0x0000FFFFFFFFFFFE) (u64 (Z.shiftl vmid 48)), VTCR_VALUE).

End Mapper.
