(* ===== verification/Stage2Spec.v ===== *)
(** * The Stage-2 tables as a map from pages to descriptors

    [s2_lookup] is the abstract view of the tables rooted at an L0 page: for an
    IPA, the output page and the attribute bits of its leaf, whatever the level of
    the leaf.  [s2_wf] says that the tables form a tree of distinct, aligned heap
    pages without 1GB blocks; [s2_inv] adds the heap invariant.  The lemmas give
    the effect of the two ways the code changes a tree: rewriting a leaf and
    linking a fresh table. *)

From Stdlib Require Import ZArith Lia Btauto.
From stdpp Require Import base list.
From S2P Require Import Prelude Memory Allocator Stage2.

(** ** Levels, indices and prefixes of an IPA *)
Definition idx (k : nat) (ipa : Z) : Z := Z.land (Z.shiftr ipa (39 - 9 * Z.of_nat k)) PT_INDEX_MASK.
Definition prefix (k : nat) (ipa : Z) : Z := (ipa mod 2 ^ 48) / 2 ^ (48 - 9 * Z.of_nat k).

(** Address of the level-[k] table on the path of [ipa], if the walk gets there. *)
Fixpoint tbl (k : nat) (m : mem) (l0 ipa : Z) : option Z :=
  match k with
  | O => Some l0
  | S k' => match tbl k' m l0 ipa with
            | None => None
            | Some t => let e := read64 m (pte_ptr t (idx k' ipa)) in
                        if is_table_desc e then Some (Z.land e PTE_ADDR_MASK) else None
            end
  end.

Definition entry_at (k : nat) (m : mem) (l0 ipa : Z) : option Z :=
  match tbl k m l0 ipa with
  | Some t => Some (read64 m (pte_ptr t (idx k ipa)))
  | None => None
  end.

(** Page-granular descriptor: output page address and attributes (descriptor
    bits outside the address field and the type bits). *)
Record pdesc := mkPd { pd_pa : Z; pd_attr : Z }.

Definition ATTR_MASK : Z := Z.lor (bmask 2 10) (bmask 48 16).
Definition leaf_desc (k : nat) (e ipa : Z) : pdesc :=
  let sh := 39 - 9 * Z.of_nat k in
  mkPd (Z.lor (Z.land e (bmask sh (48 - sh))) (Z.land ipa (bmask 12 (sh - 12))))
       (Z.land e ATTR_MASK).
Definition pd_sw (d : pdesc) : Z := Z.land (Z.shiftr (pd_attr d) PTE_SW_SHIFT) 0x3.
Definition pd_s2ap (d : pdesc) : Z := Z.land (Z.shiftr (pd_attr d) S2AP_SHIFT) 0x3.

(** What a leaf entry of level [k] contributes. *)
Definition leaf_or (k : nat) (e ipa : Z) (next : option pdesc) : option pdesc :=
  if negb (pte_valid e) then None
  else if negb (pte_table_bit e) then Some (leaf_desc k e ipa) else next.

Definition s2_lookup (m : mem) (l0 ipa : Z) : option pdesc :=
  match entry_at 1 m l0 ipa with
  | None => None
  | Some e1 => leaf_or 1 e1 ipa
      match entry_at 2 m l0 ipa with
      | None => None
      | Some e2 => leaf_or 2 e2 ipa
          match entry_at 3 m l0 ipa with
          | None => None
          | Some e3 => if pte_valid e3 then Some (leaf_desc 3 e3 ipa) else None
          end
      end
  end.

(** Same 4KB page of the 48-bit IPA space. *)
Definition same_page (ipa ipa' : Z) : Prop := prefix 4 ipa = prefix 4 ipa'.
#[export] Instance same_page_dec ipa ipa' : Decision (same_page ipa ipa').
Proof. unfold same_page. apply _. Defined.

(** ** Well-formed trees *)
Record s2_wf (m : mem) (l0 : Z) (own : list Z) : Prop := {
  wf_table k ipa t : (k <= 3)%nat -> tbl k m l0 ipa = Some t ->
    t mod 4096 = 0 /\ 0 < t < 2 ^ 48 /\ In t own;
  wf_inj j k ipa ipa' t : (j <= 3)%nat -> (k <= 3)%nat ->
    tbl j m l0 ipa = Some t -> tbl k m l0 ipa' = Some t ->
    j = k /\ prefix j ipa = prefix k ipa';
  wf_l1 ipa e : entry_at 1 m l0 ipa = Some e -> pte_valid e = true -> pte_table_bit e = true;
  wf_l2 ipa e : entry_at 2 m l0 ipa = Some e -> pte_valid e = true -> pte_table_bit e = false ->
    Z.land e (bmask 12 9) = 0;
}.

(** [x] lies in none of the pages of [own]. *)
Definition outside (own : list Z) (x : Z) : Prop := forall t, In t own -> ~ (t <= x < t + 4096).

(** Every heap of the platform lies below guest RAM (platform.rs: HEAP_START +
    HEAP_SIZE and SECURE_HEAP_START + SECURE_HEAP_SIZE are below GUEST_LOAD_ADDR). *)
Definition HEAP_LIMIT : Z := 0x48000000.

(** The pages [own] and the regions [others] are live in the heap. *)
Definition heap_ok (start : Z) (s : machine) (own : list Z) (others : list region) : Prop :=
  exists a free, hm_heap s = Some a /\ ba_end a <= HEAP_LIMIT /\
    alloc_inv start (hm_mem s) a (map page_region own ++ others) free.

Record s2_inv (start : Z) (s : machine) (l0 : Z) (own : list Z) (others : list region) : Prop := {
  si_heap : heap_ok start s own others;
  si_wf : s2_wf (hm_mem s) l0 own;
}.

(** A descriptor for the table at [t]. *)
Definition table_desc (t : Z) : Z := Z.lor (Z.lor t PTE_VALID) PTE_TABLE.

(** The upper levels only grow: L0 entries stay, an L1 entry stays or becomes a
    link to a table. *)
Record top_grow (m m' : mem) (l0 : Z) : Prop := {
  tg_l0 ipa : entry_at 0 m' l0 ipa = entry_at 0 m l0 ipa;
  tg_l1 ipa : entry_at 1 m' l0 ipa = entry_at 1 m l0 ipa \/
    exists n, entry_at 1 m' l0 ipa = Some (table_desc n) /\ n mod 4096 = 0 /\ 0 < n < 2 ^ 48;
}.

Lemma top_grow_trans m1 m2 m3 l0 : top_grow m1 m2 l0 -> top_grow m2 m3 l0 -> top_grow m1 m3 l0.
Proof.
  intros [H0 H1] [H0' H1']. constructor; intros ipa.
  - by rewrite H0'.
  - destruct (H1' ipa) as [->|?]; auto.
Qed.

(** L3 tables stay linked. *)
Definition l3_keep (m m' : mem) (l0 : Z) : Prop :=
  forall ipa, tbl 3 m l0 ipa <> None -> tbl 3 m' l0 ipa <> None.

(** What an operation on the tree of [l0] may do: the tree may grow by fresh
    pages, memory outside the pages of the tree is untouched, and the abstract map
    becomes [look]. *)
Definition s2_effect (start : Z) (s s' : machine) (l0 : Z) (own : list Z) (others : list region)
  (look : Z -> option pdesc) : Prop :=
  exists own', s2_inv start s' l0 own' others /\ incl own own' /\
    (forall x, outside own' x -> hm_mem s' x = hm_mem s x) /\
    (forall ipa, s2_lookup (hm_mem s') l0 ipa = look ipa) /\
    top_grow (hm_mem s) (hm_mem s') l0.

(** ** Bits of descriptors *)
Lemma land3 e : Z.land e 3 = Z.b2z (Z.testbit e 0) + 2 * Z.b2z (Z.testbit e 1).
Proof.
  change 3 with (2 ^ 2 - 1). rewrite land_low by lia.
  rewrite !Z.testbit_spec' by lia. change (2 ^ 0) with 1. change (2 ^ 1) with 2.
  change (2 ^ 2) with 4. rewrite Z.div_1_r.
  Z.div_mod_to_equations. lia.
Qed.

Lemma is_table_desc_bits e : is_table_desc e = Z.testbit e 0 && Z.testbit e 1.
Proof.
  unfold is_table_desc. change (Z.lor PTE_VALID PTE_TABLE) with 3. rewrite land3.
  destruct (Z.testbit e 0), (Z.testbit e 1); reflexivity.
Qed.

Lemma land_bit_ne0 e n : 0 <= n -> negb (Z.land e (Z.shiftl 1 n) =? 0) = Z.testbit e n.
Proof.
  intros. destruct (Z.testbit e n) eqn:E; destruct (Z.eqb_spec (Z.land e (Z.shiftl 1 n)) 0) as [H0|H0];
    try done; exfalso.
  - assert (Hb : Z.testbit (Z.land e (Z.shiftl 1 n)) n = true).
    { rewrite Z.land_spec, E, Z.shiftl_spec, Z.sub_diag by lia. done. }
    rewrite H0, Z.bits_0 in Hb. done.
  - apply H0. apply Z.bits_inj'. intros i Hi.
    rewrite Z.land_spec, Z.bits_0, testbit_shiftl by lia.
    destruct (Z.eq_dec i n) as [->|]; [by rewrite E|].
    destruct (Z.leb_spec n i); simpl; [|btauto].
    replace (Z.testbit 1 (i - n)) with false; [btauto|].
    symmetry. apply (testbit_fits 1); unfold fits; lia.
Qed.

Lemma pte_valid_bit e : pte_valid e = Z.testbit e 0.
Proof. apply (land_bit_ne0 e 0). lia. Qed.
Lemma pte_table_bit_bit e : pte_table_bit e = Z.testbit e 1.
Proof. apply (land_bit_ne0 e 1). lia. Qed.
Lemma is_table_desc_and e : is_table_desc e = pte_valid e && pte_table_bit e.
Proof. rewrite is_table_desc_bits, pte_valid_bit, pte_table_bit_bit. done. Qed.

Lemma addr_mask_bmask : PTE_ADDR_MASK = bmask 12 36.
Proof. reflexivity. Qed.

Lemma testbit_small x w i : 0 <= w <= i -> fits w x -> Z.testbit x i = false.
Proof. intros. apply (testbit_fits w); tauto. Qed.

Lemma testbit_aligned x k i : 0 <= i < k -> x mod 2 ^ k = 0 -> Z.testbit x i = false.
Proof.
  intros Hi H. apply Z.mod_divide in H; [|lia]. destruct H as [q ->].
  rewrite <- Z.shiftl_mul_pow2 by lia. rewrite testbit_shiftl by lia.
  destruct (Z.leb_spec k i); [lia|done].
Qed.

Lemma testbit_table_desc t i : 0 <= i ->
  Z.testbit (table_desc t) i = Z.testbit t i || (i <? 2).
Proof.
  intros. unfold table_desc. rewrite <- Z.lor_assoc. change (Z.lor PTE_VALID PTE_TABLE) with (Z.ones 2).
  rewrite Z.lor_spec, testbit_ones by lia. done.
Qed.

Section TableDesc.
Context (t : Z) (Hal : t mod 4096 = 0) (Hr : 0 < t < 2 ^ 48).

Lemma table_desc_addr : Z.land (table_desc t) PTE_ADDR_MASK = t.
Proof.
  rewrite addr_mask_bmask. apply Z.bits_inj'. intros i Hi.
  rewrite Z.land_spec, testbit_table_desc, testbit_bmask by lia.
  change (12 + 36) with 48. destruct (Z.leb_spec 12 i); simpl.
  - destruct (Z.ltb_spec i 48); simpl.
    + destruct (Z.ltb_spec i 2); [lia|]. btauto.
    + rewrite (testbit_small t 48) by (unfold fits; lia). btauto.
  - rewrite (testbit_aligned t 12) by (lia || done). btauto.
Qed.

Lemma table_desc_is_table : is_table_desc (table_desc t) = true.
Proof. rewrite is_table_desc_bits, !testbit_table_desc by lia. rewrite !orb_true_r. done. Qed.

Lemma table_desc_fits : fits 64 (table_desc t).
Proof.
  apply fits_testbit; [lia| |].
  - apply Z.lor_nonneg. split; [apply Z.lor_nonneg; split; [lia|]|]; by vm_compute.
  - intros i Hi. rewrite testbit_table_desc by lia.
    rewrite (testbit_small t 48) by (unfold fits; lia).
    destruct (Z.ltb_spec i 2); [lia|done].
Qed.
End TableDesc.

Lemma table_desc_alt t : Z.lor t (Z.lor PTE_VALID PTE_TABLE) = table_desc t.
Proof. unfold table_desc. by rewrite Z.lor_assoc. Qed.

(** ** Indices and prefixes *)
Lemma idx_range k ipa : 0 <= idx k ipa < 512.
Proof. unfold idx. change PT_INDEX_MASK with (2 ^ 9 - 1). rewrite land_low by lia.
  apply Z.mod_pos_bound. lia. Qed.

Lemma prefix_succ k ipa : (k <= 3)%nat -> prefix (S k) ipa = prefix k ipa * 512 + idx k ipa.
Proof.
  intros Hk. unfold prefix, idx. change PT_INDEX_MASK with (2 ^ 9 - 1). rewrite land_low by lia.
  rewrite Z.shiftr_div_pow2 by lia.
  do 4 (destruct k as [|k]; [cbn; Z.div_mod_to_equations; lia|]). lia.
Qed.

Lemma prefix_same k ipa ipa' : (k <= 3)%nat ->
  prefix (S k) ipa = prefix (S k) ipa' <-> prefix k ipa = prefix k ipa' /\ idx k ipa = idx k ipa'.
Proof.
  intros. rewrite !prefix_succ by done.
  pose proof (idx_range k ipa). pose proof (idx_range k ipa'). lia.
Qed.

Lemma prefix_down j k ipa ipa' : (j <= k <= 4)%nat ->
  prefix k ipa = prefix k ipa' -> prefix j ipa = prefix j ipa'.
Proof.
  intros Hj H. induction k as [|k IH].
  - assert (j = O) by lia. by subst.
  - destruct (decide (j = S k)) as [->|]; [done|].
    apply IH; [lia|]. apply prefix_same in H; [tauto|lia].
Qed.

Lemma prefix_0 ipa : prefix 0 ipa = 0.
Proof. unfold prefix. apply Z.div_small. apply Z.mod_pos_bound. lia. Qed.

Lemma slot_inj t t' i j : t mod 4096 = 0 -> t' mod 4096 = 0 -> 0 <= i < 512 -> 0 <= j < 512 ->
  pte_ptr t i = pte_ptr t' j -> t = t' /\ i = j.
Proof. unfold pte_ptr. intros. Z.div_mod_to_equations. lia. Qed.

Lemma slot_sep t t' i j : t mod 4096 = 0 -> t' mod 4096 = 0 -> pte_ptr t i <> pte_ptr t' j ->
  pte_ptr t i + 8 <= pte_ptr t' j \/ pte_ptr t' j + 8 <= pte_ptr t i.
Proof. unfold pte_ptr. intros. Z.div_mod_to_equations. lia. Qed.

(** ** Trees and stores *)
Lemma tbl_S k m l0 ipa : tbl (S k) m l0 ipa =
  match entry_at k m l0 ipa with
  | Some e => if is_table_desc e then Some (Z.land e PTE_ADDR_MASK) else None
  | None => None
  end.
Proof. unfold entry_at. simpl. destruct (tbl k m l0 ipa); done. Qed.

Lemma entry_at_slot k m l0 ipa t : tbl k m l0 ipa = Some t ->
  entry_at k m l0 ipa = Some (read64 m (pte_ptr t (idx k ipa))).
Proof. intros H. unfold entry_at. by rewrite H. Qed.

Section Tree.
Context (m : mem) (l0 : Z) (own : list Z) (Hwf : s2_wf m l0 own).

(** The slots of two entries of the tree are equal or disjoint; equal slots are
    the same entry. *)
Lemma slot_cases j k ipa ipa' t t' :
  (j <= 3)%nat -> (k <= 3)%nat -> tbl j m l0 ipa = Some t -> tbl k m l0 ipa' = Some t' ->
  (j = k /\ prefix (S j) ipa = prefix (S k) ipa' /\
   pte_ptr t (idx j ipa) = pte_ptr t' (idx k ipa')) \/
  ((j <> k \/ prefix (S j) ipa <> prefix (S k) ipa') /\
   (pte_ptr t (idx j ipa) + 8 <= pte_ptr t' (idx k ipa') \/
    pte_ptr t' (idx k ipa') + 8 <= pte_ptr t (idx j ipa))).
Proof.
  intros Hj Hk Ht Ht'.
  destruct (wf_table _ _ _ Hwf _ _ _ Hj Ht) as (Ha & _ & _).
  destruct (wf_table _ _ _ Hwf _ _ _ Hk Ht') as (Ha' & _ & _).
  pose proof (idx_range j ipa). pose proof (idx_range k ipa').
  destruct (Z.eq_dec (pte_ptr t (idx j ipa)) (pte_ptr t' (idx k ipa'))) as [E|E].
  - left. apply slot_inj in E as E'; try done. destruct E' as [-> Ei].
    destruct (wf_inj _ _ _ Hwf _ _ _ _ _ Hj Hk Ht Ht') as [-> Hp].
    split_and!; [done| |done]. apply prefix_same; done.
  - right. split; [|by apply slot_sep].
    destruct (decide (j = k)) as [->|]; [|by left]. right. intros Hp.
    apply prefix_same in Hp as [Hp Hi]; [|done].
    apply E. rewrite Hi. f_equal.
    (* equal prefixes reach the same table *)
    clear - Ht Ht' Hp Hk. revert t t' Ht Ht' Hp. induction k as [|k IH]; intros t t' Ht Ht' Hp.
    + simpl in *. congruence.
    + apply prefix_same in Hp as [Hp Hi]; [|lia]. simpl in Ht, Ht'.
      destruct (tbl k m l0 ipa) as [u|] eqn:Eu; [|done].
      destruct (tbl k m l0 ipa') as [u'|] eqn:Eu'; [|done].
      rewrite (IH ltac:(lia) u u' eq_refl eq_refl Hp), Hi in Ht. rewrite Ht in Ht'. by simplify_eq.
Qed.

Lemma tbl_prefix k ipa ipa' : (k <= 3)%nat -> prefix k ipa = prefix k ipa' ->
  tbl k m l0 ipa = tbl k m l0 ipa'.
Proof.
  induction k as [|k IH]; intros Hk Hp; [done|].
  apply prefix_same in Hp as [Hp Hi]; [|lia]. simpl. by rewrite (IH ltac:(lia) Hp), Hi.
Qed.

Lemma tbl_mono k ipa t : tbl (S k) m l0 ipa = Some t -> exists t', tbl k m l0 ipa = Some t'.
Proof. simpl. destruct (tbl k m l0 ipa); eauto; done. Qed.

(** The tree only depends on the pages of [own]. *)
Lemma entry_read_agree m' k ipa t : (k <= 3)%nat ->
  (forall t, In t own -> agree m' m t 4096) -> tbl k m l0 ipa = Some t ->
  read64 m' (pte_ptr t (idx k ipa)) = read64 m (pte_ptr t (idx k ipa)).
Proof.
  intros Hk Hag Ht. destruct (wf_table _ _ _ Hwf _ _ _ Hk Ht) as (_ & _ & Hin).
  apply read64_agree. eapply agree_sub; [apply Hag, Hin| |];
    pose proof (idx_range k ipa); unfold pte_ptr; lia.
Qed.

Lemma tbl_agree m' k ipa : (k <= 3)%nat ->
  (forall t, In t own -> agree m' m t 4096) -> tbl k m' l0 ipa = tbl k m l0 ipa.
Proof.
  intros Hk Hag. induction k as [|k IH]; [done|]. simpl. rewrite IH by lia.
  destruct (tbl k m l0 ipa) as [t|] eqn:Et; [|done].
  rewrite (entry_read_agree m' k ipa t); [done|lia|done|done].
Qed.

Lemma entry_agree m' k ipa : (k <= 3)%nat ->
  (forall t, In t own -> agree m' m t 4096) -> entry_at k m' l0 ipa = entry_at k m l0 ipa.
Proof.
  intros Hk Hag. unfold entry_at. rewrite (tbl_agree m') by (first [lia|exact Hag]).
  destruct (tbl k m l0 ipa) as [t|] eqn:Et; [|done].
  by rewrite (entry_read_agree m' k ipa t).
Qed.

Lemma s2_lookup_agree m' ipa :
  (forall t, In t own -> agree m' m t 4096) -> s2_lookup m' l0 ipa = s2_lookup m l0 ipa.
Proof. intros Hag. unfold s2_lookup. rewrite !(entry_agree m') by (first [lia|exact Hag]). done. Qed.

Lemma s2_wf_agree m' own' :
  (forall t, In t own -> agree m' m t 4096) -> incl own own' -> s2_wf m' l0 own'.
Proof.
  intros Hag Hin. constructor.
  - intros k ipa t Hk. rewrite (tbl_agree m') by (first [lia|exact Hag]). intros Ht.
    destruct (wf_table _ _ _ Hwf _ _ _ Hk Ht) as (? & ? & ?). auto.
  - intros j k ipa ipa' t Hj Hk. rewrite !(tbl_agree m') by (first [lia|exact Hag]). apply (wf_inj _ _ _ Hwf); done.
  - intros ipa e. rewrite (entry_agree m') by (first [lia|exact Hag]). apply (wf_l1 _ _ _ Hwf).
  - intros ipa e. rewrite (entry_agree m') by (first [lia|exact Hag]). apply (wf_l2 _ _ _ Hwf).
Qed.

(** *** Rewriting a leaf *)
Section LeafUpdate.
Context (k : nat) (ipa t e' : Z) (Hk : (k <= 3)%nat) (Ht : tbl k m l0 ipa = Some t)
  (Hfit : fits 64 e').
Let p := pte_ptr t (idx k ipa).
Context (Hnt : (k < 3)%nat -> is_table_desc (read64 m p) = false /\ is_table_desc e' = false).

Lemma leaf_update_tbl j ipa' : (j <= 3)%nat -> tbl j (write64 m p e') l0 ipa' = tbl j m l0 ipa'.
Proof.
  induction j as [|j IH]; intros Hj; [done|]. simpl. rewrite IH by lia.
  destruct (tbl j m l0 ipa') as [u|] eqn:Eu; [|done].
  destruct (slot_cases j k ipa' ipa u t ltac:(lia) Hk Eu Ht) as [(-> & _ & E)|(_ & Hs)].
  - destruct (Hnt ltac:(lia)) as [H1 H2].
    rewrite E. fold p. rewrite read64_write64 by done. by rewrite H1, H2.
  - rewrite read64_write64_ne by (unfold p; tauto). done.
Qed.

Lemma leaf_update_entry j ipa' : (j <= 3)%nat ->
  entry_at j (write64 m p e') l0 ipa' =
  if decide (j = k /\ prefix (S k) ipa' = prefix (S k) ipa) then Some e' else entry_at j m l0 ipa'.
Proof.
  intros Hj. unfold entry_at. rewrite leaf_update_tbl by done.
  destruct (decide (j = k /\ prefix (S k) ipa' = prefix (S k) ipa)) as [[-> Hp]|Hd].
  - pose proof Hp as Hp'. apply prefix_same in Hp' as [Hp' Hi]; [|done].
    rewrite (tbl_prefix k ipa' ipa), Ht, Hi by done.
    fold p. by rewrite read64_write64.
  - destruct (tbl j m l0 ipa') as [u|] eqn:Eu; [|done].
    destruct (slot_cases j k ipa' ipa u t Hj Hk Eu Ht) as [(-> & Hp & _)|(_ & Hs)].
    + exfalso. apply Hd. done.
    + rewrite read64_write64_ne by (unfold p; tauto). done.
Qed.

Lemma leaf_update_wf :
  (k = 1%nat -> pte_valid e' = true -> pte_table_bit e' = true) ->
  (k = 2%nat -> pte_valid e' = true -> pte_table_bit e' = false -> Z.land e' (bmask 12 9) = 0) ->
  s2_wf (write64 m p e') l0 own.
Proof.
  intros H1 H2. constructor.
  - intros j ipa' u Hj. rewrite leaf_update_tbl by done. apply (wf_table _ _ _ Hwf); done.
  - intros i j ipa' ipa'' u Hi Hj. rewrite !leaf_update_tbl by done. apply (wf_inj _ _ _ Hwf); done.
  - intros ipa' e. rewrite leaf_update_entry by lia. case_decide as Hd; [|apply (wf_l1 _ _ _ Hwf)].
    intros ?; simplify_eq. apply H1. lia.
  - intros ipa' e. rewrite leaf_update_entry by lia. case_decide as Hd; [|apply (wf_l2 _ _ _ Hwf)].
    intros ?; simplify_eq. apply H2. lia.
Qed.
End LeafUpdate.
End Tree.

Lemma fresh_slot_sep own n u i i' : n mod 4096 = 0 -> ~ In n own -> In u own -> u mod 4096 = 0 ->
  0 <= i < 512 -> 0 <= i' < 512 ->
  pte_ptr n i + 8 <= pte_ptr u i' \/ pte_ptr u i' + 8 <= pte_ptr n i.
Proof.
  intros Hn Hf Hu Hua Hi Hi'. apply slot_sep; [exact Hn|exact Hua|]. intros E.
  apply slot_inj in E; [|exact Hn|exact Hua|exact Hi|exact Hi']. destruct E as [-> _]. by apply Hf.
Qed.

(** *** Linking a fresh table *)
Section Link.
Context (m : mem) (l0 : Z) (own : list Z) (Hwf : s2_wf m l0 own).
Context (k : nat) (ipa t n : Z) (c : Z -> Z) (Hk : (1 <= k <= 2)%nat)
  (Ht : tbl k m l0 ipa = Some t).
Let p := pte_ptr t (idx k ipa).
Context (Hold : is_table_desc (read64 m p) = false)
  (Hal : n mod 4096 = 0) (Hr : 0 < n < 2 ^ 48) (Hfresh : ~ In n own)
  (Hc : forall i, 0 <= i < 512 -> read64 m (pte_ptr n i) = c i)
  (Hnt : k = 1%nat -> forall i, 0 <= i < 512 -> pte_valid (c i) = false).
Let m' := write64 m p (table_desc n).

Lemma link_read_n i : 0 <= i < 512 -> read64 m' (pte_ptr n i) = c i.
Proof.
  intros Hi. destruct (wf_table _ _ _ Hwf k ipa t ltac:(lia) Ht) as (Ha & _ & Hin).
  unfold m'. rewrite read64_write64_ne; [by apply Hc|].
  eapply fresh_slot_sep; eauto. apply idx_range.
Qed.

Lemma link_read_own j ipa' u : (j <= 3)%nat -> tbl j m l0 ipa' = Some u ->
  read64 m' (pte_ptr u (idx j ipa')) =
  if decide (j = k /\ prefix (S k) ipa' = prefix (S k) ipa) then table_desc n
  else read64 m (pte_ptr u (idx j ipa')).
Proof.
  intros Hj Hu. unfold m'.
  destruct (slot_cases m l0 own Hwf j k ipa' ipa u t Hj ltac:(lia) Hu Ht)
    as [(-> & Hp & E)|(Hne & Hs)].
  - rewrite decide_True by done. fold p in E. rewrite E. apply read64_write64, table_desc_fits; done.
  - rewrite decide_False by (intros [-> ?]; tauto). apply read64_write64_ne. unfold p. tauto.
Qed.

Lemma link_tbl j ipa' : (j <= 3)%nat -> tbl j m' l0 ipa' =
  if decide ((k < j)%nat /\ prefix (S k) ipa' = prefix (S k) ipa)
  then (if decide (j = S k) then Some n else None) else tbl j m l0 ipa'.
Proof.
  induction j as [|j IH]; intros Hj.
  - rewrite decide_False by lia. done.
  - simpl. rewrite IH by lia. clear IH.
    destruct (decide ((k < j)%nat /\ _)) as [[Hlt Hp]|Hd].
    + rewrite (decide_True (P := (k < S j)%nat /\ _)) by (split; [lia|done]).
      rewrite (decide_False (P := S j = S k)) by lia.
      rewrite decide_True by lia.
      rewrite link_read_n by apply idx_range.
      rewrite is_table_desc_and, Hnt by (lia || apply idx_range). done.
    + destruct (tbl j m l0 ipa') as [u|] eqn:Eu.
      * rewrite (link_read_own j ipa' u ltac:(lia) Eu).
        destruct (decide (j = k /\ _)) as [[-> Hp]|Hd'].
        -- rewrite table_desc_is_table, table_desc_addr by done.
           rewrite decide_True by (split; [lia|done]). rewrite decide_True by done. done.
        -- rewrite decide_False by (intros [? ?]; destruct (decide (j = k)); [|assert (k < j)%nat by lia]; tauto).
           done.
      * destruct (decide ((k < S j)%nat /\ _)) as [[Hlt Hp]|]; [|done].
        exfalso. assert (j = k) as -> by (destruct (decide (j = k)); [done|]; assert (k < j)%nat by lia; tauto).
        rewrite (tbl_prefix m l0 k ipa' ipa), Ht in Eu; [done|lia|].
        eapply prefix_down; [|exact Hp]; lia.
Qed.

Lemma link_entry j ipa' : (j <= 3)%nat -> entry_at j m' l0 ipa' =
  if decide ((k <= j)%nat /\ prefix (S k) ipa' = prefix (S k) ipa)
  then (if decide (j = k) then Some (table_desc n)
        else if decide (j = S k) then Some (c (idx j ipa')) else None)
  else entry_at j m l0 ipa'.
Proof.
  intros Hj. unfold entry_at. rewrite link_tbl by done.
  destruct (decide ((k < j)%nat /\ _)) as [[Hlt Hp]|Hd].
  - rewrite (decide_True (P := (k <= j)%nat /\ _)) by (split; [lia|done]).
    rewrite (decide_False (P := j = k)) by lia.
    destruct (decide (j = S k)) as [->|]; [|done]. rewrite link_read_n; [done|apply idx_range].
  - destruct (tbl j m l0 ipa') as [u|] eqn:Eu.
    + rewrite (link_read_own j ipa' u Hj Eu).
      destruct (decide (j = k /\ _)) as [[-> Hp]|Hd'].
      * rewrite (decide_True (P := (k <= k)%nat /\ _)) by (split; [lia|done]).
        by rewrite decide_True.
      * rewrite decide_False by (intros [? ?]; destruct (decide (j = k)); [|assert (k < j)%nat by lia]; tauto).
        done.
    + rewrite decide_False; [done|]. intros [Hle Hp].
      assert (j = k) as -> by (destruct (decide (j = k)); [done|]; assert (k < j)%nat by lia; tauto).
      rewrite (tbl_prefix m l0 k ipa' ipa), Ht in Eu; [done|lia|].
      eapply prefix_down; [|exact Hp]; lia.
Qed.

Lemma link_wf : s2_wf m' l0 (n :: own).
Proof.
  assert (Hfr : forall j ipa', (j <= 3)%nat -> tbl j m l0 ipa' <> Some n).
  { intros j ipa' Hj E. apply Hfresh. apply (wf_table _ _ _ Hwf j ipa' n Hj E). }
  constructor.
  - intros j ipa' u Hj. rewrite link_tbl by done. repeat case_decide; intros; simplify_eq.
    + simpl. tauto.
    + simpl. destruct (wf_table _ _ _ Hwf j ipa' u Hj ltac:(done)) as (? & ? & ?). tauto.
  - intros i j ipa1 ipa2 u Hi Hj. rewrite !link_tbl by done.
    destruct (decide ((k < i)%nat /\ _)) as [[Hi1 Hp1]|]; destruct (decide ((k < j)%nat /\ _)) as [[Hj2 Hp2]|].
    + destruct (decide (i = S k)) as [->|]; [|done]. destruct (decide (j = S k)) as [->|]; [|done].
      intros _ _. split; [done|congruence].
    + destruct (decide (i = S k)); [|done]. intros [= <-] E. exfalso. by eapply (Hfr j).
    + destruct (decide (j = S k)); [|done]. intros E [= <-]. exfalso. by eapply (Hfr i).
    + apply (wf_inj _ _ _ Hwf); done.
  - intros ipa' e. rewrite link_entry by lia. repeat case_decide; intros; simplify_eq; try lia.
    + pose proof (table_desc_is_table n) as Hd.
      rewrite is_table_desc_and in Hd. apply andb_true_iff in Hd. tauto.
    + eapply (wf_l1 _ _ _ Hwf); eauto.
  - intros ipa' e. rewrite link_entry by lia. repeat case_decide; intros; simplify_eq; try lia.
    + pose proof (table_desc_is_table n) as Hd.
      rewrite is_table_desc_and in Hd. apply andb_true_iff in Hd as [_ Hd]. congruence.
    + rewrite Hnt in * by (lia || apply idx_range). done.
    + eapply (wf_l2 _ _ _ Hwf); eauto.
Qed.
End Link.

(** ** Effects on the abstract map *)
Lemma tbl3_entries m l0 ipa t : tbl 3 m l0 ipa = Some t ->
  exists e1 e2, entry_at 1 m l0 ipa = Some e1 /\ is_table_desc e1 = true /\
    entry_at 2 m l0 ipa = Some e2 /\ is_table_desc e2 = true /\ t = Z.land e2 PTE_ADDR_MASK.
Proof.
  rewrite tbl_S. destruct (entry_at 2 m l0 ipa) as [e2|] eqn:E2; [|done].
  destruct (is_table_desc e2) eqn:I2; [|done]. intros [= <-].
  unfold entry_at in E2. destruct (tbl 2 m l0 ipa) as [t2|] eqn:T2; [|done].
  rewrite tbl_S in T2. destruct (entry_at 1 m l0 ipa) as [e1|] eqn:E1; [|done].
  destruct (is_table_desc e1) eqn:I1; [|done]. eauto 10.
Qed.

Lemma leaf_or_table k e ipa next : is_table_desc e = true -> leaf_or k e ipa next = next.
Proof.
  rewrite is_table_desc_and. intros H. apply andb_true_iff in H as [H1 H2].
  unfold leaf_or. by rewrite H1, H2.
Qed.

Lemma s2_lookup_tbl3 m l0 ipa t : tbl 3 m l0 ipa = Some t ->
  s2_lookup m l0 ipa = let e := read64 m (pte_ptr t (idx 3 ipa)) in
                       if pte_valid e then Some (leaf_desc 3 e ipa) else None.
Proof.
  intros Ht. destruct (tbl3_entries _ _ _ _ Ht) as (e1 & e2 & E1 & I1 & E2 & I2 & _).
  unfold s2_lookup. rewrite E1, E2, (entry_at_slot 3 _ _ _ _ Ht), !leaf_or_table by done. done.
Qed.

(** Rewriting an L3 entry changes the descriptor of its page only. *)
Lemma lookup_l3_update m l0 own ipa t e' ipa' :
  s2_wf m l0 own -> tbl 3 m l0 ipa = Some t -> fits 64 e' ->
  s2_lookup (write64 m (pte_ptr t (idx 3 ipa)) e') l0 ipa' =
  if decide (same_page ipa' ipa)
  then (if pte_valid e' then Some (leaf_desc 3 e' ipa') else None)
  else s2_lookup m l0 ipa'.
Proof.
  intros Hwf Ht Hf. unfold same_page. case_decide as Hd.
  - assert (Hp : prefix 3 ipa' = prefix 3 ipa) by (eapply prefix_down; [|exact Hd]; lia).
    assert (Ht' : tbl 3 (write64 m (pte_ptr t (idx 3 ipa)) e') l0 ipa' = Some t).
    { rewrite (leaf_update_tbl m l0 own Hwf 3 ipa t e') by (done || lia).
      rewrite (tbl_prefix m l0 3 ipa' ipa); done. }
    rewrite (s2_lookup_tbl3 _ _ _ _ Ht'). cbv zeta.
    apply prefix_same in Hd as [_ Hi]; [|lia]. rewrite Hi, read64_write64; done.
  - unfold s2_lookup.
    rewrite !(leaf_update_entry m l0 own Hwf 3 ipa t e') by (done || lia).
    rewrite !(decide_False (P := _ = 3%nat /\ _)) by lia. done.
Qed.

(** Linking an empty table below an invalid entry changes nothing. *)
Lemma lookup_link_empty m l0 own k ipa t n ipa' :
  s2_wf m l0 own -> (1 <= k <= 2)%nat -> tbl k m l0 ipa = Some t ->
  pte_valid (read64 m (pte_ptr t (idx k ipa))) = false ->
  n mod 4096 = 0 -> 0 < n < 2 ^ 48 -> ~ In n own ->
  (forall i, 0 <= i < 512 -> read64 m (pte_ptr n i) = 0) ->
  s2_lookup (write64 m (pte_ptr t (idx k ipa)) (table_desc n)) l0 ipa' = s2_lookup m l0 ipa'.
Proof.
  intros Hwf Hk Ht Hv Hal Hr Hfr Hc.
  assert (Hold : is_table_desc (read64 m (pte_ptr t (idx k ipa))) = false)
    by (rewrite is_table_desc_and, Hv; done).
  unfold s2_lookup.
  rewrite !(link_entry m l0 own Hwf k ipa t n (fun _ => 0)) by (done || lia).
  destruct (decide (prefix (S k) ipa' = prefix (S k) ipa)) as [Hp|Hp].
  2: by rewrite !(decide_False (P := _ /\ prefix (S k) ipa' = _)) by tauto.
  assert (He : entry_at k m l0 ipa' = Some (read64 m (pte_ptr t (idx k ipa)))).
  { pose proof Hp as Hp'. apply prefix_same in Hp' as [Hp' Hi]; [|lia].
    unfold entry_at. rewrite (tbl_prefix m l0 k ipa' ipa), Ht, Hi by (done || lia). done. }
  assert (k = 1 \/ k = 2)%nat as [-> | ->] by lia.
  - rewrite He, !(decide_True (P := (_ <= _)%nat /\ _)) by (split; [lia|done]).
    simpl. rewrite leaf_or_table by (by apply table_desc_is_table).
    unfold leaf_or at 1 2. rewrite Hv. done.
  - rewrite He, (decide_False (P := (2 <= 1)%nat /\ _)) by lia.
    rewrite !(decide_True (P := (_ <= _)%nat /\ _)) by (split; [lia|done]).
    simpl. destruct (entry_at 1 m l0 ipa') as [e1|]; [|done]. f_equal.
    rewrite leaf_or_table by (by apply table_desc_is_table).
    unfold leaf_or. rewrite Hv. done.
Qed.
