(* ===== verification/Stage2Bits.v ===== *)
(** * Bit-level facts about split blocks

    The 512 page descriptors that replace a 2MB block carry the block's output
    address and attributes; the walker's and the mapper's versions agree. *)

From Stdlib Require Import ZArith Lia Btauto.
From stdpp Require Import base list.
From S2P Require Import Prelude Memory Stage2 Stage2Spec.
Import Walker.

(** ** The descriptors of a split block *)
Lemma testbit_split e i j : fits 64 e -> 0 <= i < 512 -> 0 <= j ->
  Z.land e (bmask 12 9) = 0 ->
  Z.testbit (split_page_entry e i) j =
  (j <? 2) || (((2 <=? j) && (j <? 12) || (21 <=? j)) && Z.testbit e j)
  || ((12 <=? j) && (j <? 21) && Z.testbit i (j - 12)).
Proof.
  intros He Hi Hj Hcl. unfold split_page_entry.
  assert (Hb : Z.land e (not64 BLOCK_MASK_2MB) = e - e mod 2 ^ 21)
    by (apply (land_notw_low 64 21); [lia|done]).
  assert (Hpa : u64 (Z.land e (not64 BLOCK_MASK_2MB) + i * PAGE_SIZE_4KB)
                = Z.lor (Z.land e (not64 BLOCK_MASK_2MB)) (Z.shiftl i 12)).
  { rewrite Z.shiftl_mul_pow2 by lia.
    assert (Hdis : Z.land (Z.land e (not64 BLOCK_MASK_2MB)) (i * 2 ^ 12) = 0).
    { rewrite <- Z.shiftl_mul_pow2 by lia. change BLOCK_MASK_2MB with (Z.ones 21). unfold not64.
      bit_ext l Hl. destruct (Z.ltb_spec l 21); simpl; [btauto|].
      rewrite (testbit_fits 9 i (l - 12)) by (unfold fits; lia). btauto. }
    rewrite <- Z.lxor_lor, <- Z.add_nocarry_lxor by done.
    unfold u64. apply wrap_id. rewrite Hb. change (2 ^ 12) with 4096.
    unfold fits in *. Z.div_mod_to_equations. lia. }
  rewrite Hpa. unfold PTE_SW_MASK, PTE_SW_SHIFT, not64.
  change BLOCK_MASK_2MB with (Z.ones 21). change 0x3 with (Z.ones 2) at 1 2.
  change PTE_TABLE with (bmask 1 1). change PTE_VALID with (bmask 0 1).
  change (Z.shiftl (Z.ones 2) 55) with (bmask 55 2).
  autorewrite with bits.
  assert (Hcl' : (12 <=? j) && (j <? 21) && Z.testbit e j = false).
  { apply (f_equal (fun x => Z.testbit x j)) in Hcl.
    rewrite Z.land_spec, testbit_bmask, Z.bits_0 in Hcl by lia.
    change (12 + 9) with 21 in Hcl. rewrite <- Hcl. btauto. }
  change (55 + 2) with 57. change (1 + 1) with 2. change (0 + 1) with 1.
  destruct (Z.ltb_spec j 64).
  2:{ rewrite (testbit_fits 64 e j) by (done || lia).
      zcases; simpl; try lia; rewrite ?andb_false_r; try done.
      rewrite (testbit_fits 9 i (j - 12)) by (unfold fits; lia). done. }
  destruct (Z.ltb_spec j 21).
  - zcases; simpl in *; try lia; rewrite ?andb_true_r, ?andb_false_r, ?orb_false_r, ?orb_true_r in *;
      simpl; rewrite ?Hcl'; try done; btauto.
  - rewrite (testbit_fits 9 i (j - 12)) by (unfold fits; lia).
    zcases; simpl in *; try lia; btauto.
Qed.

Lemma idx3_testbit ipa j : 0 <= j -> Z.testbit (idx 3 ipa) j = (j <? 9) && Z.testbit ipa (j + 12).
Proof.
  intros. unfold idx. change (39 - 9 * Z.of_nat 3) with 12. change PT_INDEX_MASK with (Z.ones 9).
  autorewrite with bits. btauto.
Qed.

Lemma split_leaf_desc e ipa : fits 64 e -> Z.land e (bmask 12 9) = 0 ->
  leaf_desc 3 (split_page_entry e (idx 3 ipa)) ipa = leaf_desc 2 e ipa.
Proof.
  intros He Hcl. unfold leaf_desc.
  change (39 - 9 * Z.of_nat 3) with 12. change (39 - 9 * Z.of_nat 2) with 21.
  f_equal; apply Z.bits_inj'; intros j Hj; unfold ATTR_MASK;
    autorewrite with bits; rewrite testbit_split by (done || apply idx_range || lia).
  - destruct (Z.leb_spec 12 j); [rewrite idx3_testbit by lia; replace (j - 12 + 12) with j by lia|].
    all: zcases; simpl; try lia; btauto.
  - zcases; simpl; try lia; btauto.
Qed.

Lemma split_page_entry_valid e i : fits 64 e -> 0 <= i < 512 -> Z.land e (bmask 12 9) = 0 ->
  pte_valid (split_page_entry e i) = true.
Proof. intros. rewrite pte_valid_bit, testbit_split by (done || lia). done. Qed.

Lemma split_page_entry_fits e i : fits 64 e -> 0 <= i < 512 -> Z.land e (bmask 12 9) = 0 ->
  fits 64 (split_page_entry e i).
Proof.
  intros He Hi Hc. apply fits_testbit; [lia| |].
  - unfold split_page_entry. apply lor_nn; [apply lor_nn; [apply lor_nn; [apply lor_nn|]|]|].
    + apply Z.mod_pos_bound. lia.
    + apply land_nn_r. discriminate.
    + apply land_nn_r. discriminate.
    + discriminate.
    + discriminate.
  - intros j Hj. rewrite testbit_split by (done || lia).
    rewrite (testbit_fits 64 e j) by (done || lia).
    zcases; simpl; try lia; done.
Qed.

(** Both implementations write the same descriptors. *)
Lemma mapper_split_entry_eq e i : fits 64 e -> 0 <= i < 512 -> Z.land e (bmask 12 9) = 0 ->
  Mapper.mapper_split_entry e i = split_page_entry e i.
Proof.
  intros He Hi Hc. unfold Mapper.mapper_split_entry, split_page_entry. do 3 f_equal.
  assert (Hb : Z.land e (not64 BLOCK_MASK_2MB) = e - e mod 2 ^ 21)
    by (apply (land_notw_low 64 21); [lia|done]).
  remember (u64 (Z.land e (not64 BLOCK_MASK_2MB) + i * PAGE_SIZE_4KB)) as pa eqn:Hpa.
  assert (Hsw : Z.land pa PTE_SW_MASK = Z.land e PTE_SW_MASK).
  { assert (Hhi : Z.shiftr pa 21 = Z.shiftr e 21).
    { subst pa. rewrite Hb. unfold u64. rewrite wrap_id.
      - rewrite !Z.shiftr_div_pow2 by lia. change PAGE_SIZE_4KB with 4096.
        Z.div_mod_to_equations. lia.
      - change PAGE_SIZE_4KB with 4096. unfold fits in *. Z.div_mod_to_equations. lia. }
    change PTE_SW_MASK with (bmask 55 2). bit_ext j Hj.
    destruct (Z.leb_spec 55 j); [|btauto].
    replace j with (j - 21 + 21) by lia. rewrite <- !Z.shiftr_spec by lia. by rewrite Hhi. }
  apply Z.bits_inj'. intros j Hj. rewrite Z.lor_spec, <- Hsw, Z.land_spec. btauto.
Qed.

