(* ===== verification/Stage2Ops.v ===== *)
(** * Correctness of the Stage-2 operations

    Every operation of the walker and of the mapper is related to the abstract
    page map of [Stage2Spec]: block splitting does not change it, setting SW bits or
    access permissions changes one page, mapping and unmapping add and remove one
    page, and nothing else in memory moves. *)

From Stdlib Require Import ZArith Lia Btauto.
From stdpp Require Import base list strings.
From S2P Require Import Prelude Memory Allocator Stage2 Stage2Spec Stage2Bits.
Import Walker.

(** ** Filling a table *)
Lemma fill_l3_S m l3 f n : fill_l3 m l3 f (S n) =
  write64 (fill_l3 m l3 f n) (pte_ptr l3 (Z.of_nat n)) (f (Z.of_nat n)).
Proof. unfold fill_l3. rewrite seq_S, fold_left_app. done. Qed.

Lemma fill_l3_read m l3 f n i : (i < n)%nat -> fits 64 (f (Z.of_nat i)) ->
  read64 (fill_l3 m l3 f n) (pte_ptr l3 (Z.of_nat i)) = f (Z.of_nat i).
Proof.
  induction n as [|n IH]; intros Hi Hf; [lia|]. rewrite fill_l3_S.
  destruct (decide (i = n)) as [->|].
  - by rewrite read64_write64.
  - rewrite read64_write64_ne; [apply IH; [lia|done]|]. unfold pte_ptr. lia.
Qed.

Lemma fill_l3_frame m l3 f n x : x < l3 \/ l3 + 8 * Z.of_nat n <= x -> fill_l3 m l3 f n x = m x.
Proof.
  induction n as [|n IH]; intros Hx; [done|]. rewrite fill_l3_S.
  rewrite <- IH by lia.
  eapply (write64_agree _ _ _ x 1); unfold pte_ptr; lia.
Qed.

(** ** Steps of the machine under the invariant *)
Lemma heap_ok_write start s s' own others :
  heap_ok start s own others -> hm_heap s' = hm_heap s ->
  (forall x, outside own x -> hm_mem s' x = hm_mem s x) ->
  heap_ok start s' own others.
Proof.
  intros (a & free & Ha & He & Hi) Hh Hx. exists a, free. rewrite Hh. split_and!; [done|done|].
  eapply alloc_inv_client_write; [|exact Hi].
  intros x Hout. apply Hx. intros t Ht Hin.
  apply (Hout (page_region t)); [|done]. apply in_or_app. left. by apply in_map.
Qed.

Lemma heap_ok_alloc start s own others err s' r :
  heap_ok start s own others -> m_alloc_page err s = (s', r) ->
  match r with
  | Ok n => n mod 4096 = 0 /\ 0 < n < 2 ^ 48 /\ ~ In n own /\
            heap_ok start s' (n :: own) others /\ hm_trace s' = hm_trace s /\
            (forall x, ~ (n <= x < n + 4096) -> hm_mem s' x = hm_mem s x) /\
            (forall t, In t own -> t + 4096 <= n \/ n + 4096 <= t)
  | Err e => e = err /\ s' = s
  end.
Proof.
  intros (a & free & Ha & He & Hi) H. unfold m_alloc_page, heap_alloc_page in H. rewrite Ha in H.
  destruct (ba_alloc_page (hm_mem s) a) as [[o m'] a'] eqn:Ep.
  pose proof (alloc_inv_alloc_page _ _ _ _ _ _ _ _ Hi Ep) as Hp.
  destruct o as [n|]; simplify_eq.
  2:{ destruct Hp as [-> ->]. split; [done|]. destruct s; simpl in *; congruence. }
  destruct Hp as [Hal [free' Hi']].
  assert (Hend : ba_end a' = ba_end a).
  { unfold ba_alloc_page in Ep. repeat case_match; simplify_eq; [done|].
    match goal with H : ba_alloc_aligned _ _ _ = _ |- _ =>
      unfold ba_alloc_aligned in H; repeat case_match; simplify_eq; done end. }
  pose proof Hi' as [H1 H2 H3 _ H5 H6 _]. simpl in H5, H6.
  inversion H5 as [|? ? Hd _]; subst. inversion H6 as [|? ? Hn _]; subst. simpl in Hn.
  assert (Hsep : forall t, In t own -> t + 4096 <= n \/ n + 4096 <= t).
  { intros t Ht. rewrite Forall_app in Hd. destruct Hd as [Hd _]. rewrite Forall_app in Hd.
    destruct Hd as [Hd _]. rewrite Forall_map, Forall_forall in Hd.
    specialize (Hd t ltac:(by apply list_elem_of_In)).
    unfold compose, disj, page_region in Hd. simpl in Hd. lia. }
  unfold HEAP_LIMIT in He. split_and!; try done; try lia.
  - intros Hin. specialize (Hsep n Hin). lia.
  - exists a', free'. simpl. rewrite Hend. done.
  - intros x Hx. simpl. unfold ba_alloc_page in Ep. repeat case_match; simplify_eq; [|done].
    apply (write_bytes_agree _ _ _ _ x 1); lia.
Qed.

Lemma outside_cons n own x : outside (n :: own) x <-> ~ (n <= x < n + 4096) /\ outside own x.
Proof.
  unfold outside. simpl. split.
  - intros H. split; [apply H; by left|]. intros t Ht. apply H. by right.
  - intros [H1 H2] t [<-|Ht]; auto.
Qed.

Lemma own_agree own m m' n :
  (forall x, ~ (n <= x < n + 4096) -> m' x = m x) ->
  (forall t, In t own -> t + 4096 <= n \/ n + 4096 <= t) ->
  forall t, In t own -> agree m' m t 4096.
Proof. intros Hx Hs t Ht x Hin. apply Hx. specialize (Hs t Ht). lia. Qed.

(** A store to an entry of the tree stays inside its pages. *)
Lemma store_outside m l0 own k ipa t v x :
  s2_wf m l0 own -> (k <= 3)%nat -> tbl k m l0 ipa = Some t -> outside own x ->
  write64 m (pte_ptr t (idx k ipa)) v x = m x.
Proof.
  intros Hwf Hk Ht Hx. destruct (wf_table _ _ _ Hwf _ _ _ Hk Ht) as (_ & _ & Hin).
  specialize (Hx t Hin). pose proof (idx_range k ipa).
  apply (write64_agree _ _ _ x 1); unfold pte_ptr; lia.
Qed.

(** ** The walk and the abstract map *)
Lemma tbl_1 m l0 ipa : tbl 1 m l0 ipa =
  let e := read64 m (pte_ptr l0 (l0_index ipa)) in
  if is_table_desc e then Some (Z.land e PTE_ADDR_MASK) else None.
Proof. reflexivity. Qed.

(** The value found by [walk_to_leaf] determines the abstract descriptor. *)
Lemma walk_to_leaf_lookup m l0 ipa :
  match walk_to_leaf_ptr m (mkWalker l0) ipa with
  | Some p => exists k t, (1 <= k <= 3)%nat /\ tbl k m l0 ipa = Some t /\ p = pte_ptr t (idx k ipa) /\
                s2_lookup m l0 ipa = Some (leaf_desc k (read64 m p) ipa) /\
                pte_valid (read64 m p) = true /\
                ((k < 3)%nat -> pte_table_bit (read64 m p) = false)
  | None => s2_lookup m l0 ipa = None
  end.
Proof.
  unfold walk_to_leaf_ptr, s2_lookup, leaf_or. simpl l0_table.
  destruct (is_table_desc (read64 m (pte_ptr l0 (l0_index ipa)))) eqn:I0; cbn [negb].
  2:{ unfold entry_at. simpl tbl. change (idx 0 ipa) with (l0_index ipa). rewrite I0. done. }
  remember (Z.land (read64 m (pte_ptr l0 (l0_index ipa))) PTE_ADDR_MASK) as t1 eqn:Ht1.
  assert (T1 : tbl 1 m l0 ipa = Some t1) by (rewrite tbl_1; cbv zeta; rewrite I0; congruence).
  rewrite (entry_at_slot 1 _ _ _ _ T1). change (idx 1 ipa) with (l1_index ipa).
  remember (read64 m (pte_ptr t1 (l1_index ipa))) as e1 eqn:He1.
  destruct (pte_valid e1) eqn:V1; cbn [negb]; [|done].
  destruct (pte_table_bit e1) eqn:B1; cbn [negb].
  2:{ exists 1%nat, t1. rewrite <- He1. split_and!; auto; lia. }
  assert (T2 : tbl 2 m l0 ipa = Some (Z.land e1 PTE_ADDR_MASK)).
  { rewrite tbl_S, (entry_at_slot 1 _ _ _ _ T1). change (idx 1 ipa) with (l1_index ipa).
    rewrite <- He1, is_table_desc_and, V1, B1. done. }
  rewrite (entry_at_slot 2 _ _ _ _ T2). change (idx 2 ipa) with (l2_index ipa).
  remember (Z.land e1 PTE_ADDR_MASK) as t2 eqn:Ht2.
  remember (read64 m (pte_ptr t2 (l2_index ipa))) as e2 eqn:He2.
  destruct (pte_valid e2) eqn:V2; cbn [negb]; [|done].
  destruct (pte_table_bit e2) eqn:B2; cbn [negb].
  2:{ exists 2%nat, t2. rewrite <- He2. split_and!; auto; lia. }
  assert (T3 : tbl 3 m l0 ipa = Some (Z.land e2 PTE_ADDR_MASK)).
  { rewrite tbl_S, (entry_at_slot 2 _ _ _ _ T2). change (idx 2 ipa) with (l2_index ipa).
    rewrite <- He2, is_table_desc_and, V2, B2. done. }
  rewrite (entry_at_slot 3 _ _ _ _ T3). change (idx 3 ipa) with (l3_index ipa).
  remember (Z.land e2 PTE_ADDR_MASK) as t3 eqn:Ht3.
  destruct (pte_valid (read64 m (pte_ptr t3 (l3_index ipa)))) eqn:V3; [|done].
  exists 3%nat, t3. split_and!; auto; lia.
Qed.

Lemma fits_0 : fits 64 0.
Proof. unfold fits. lia. Qed.

(** ** Splitting a block *)
Section Split.
Context (m : mem) (l0 : Z) (own : list Z) (Hwf : s2_wf m l0 own).
Context (ipa t n : Z) (Ht : tbl 2 m l0 ipa = Some t).
Let p := pte_ptr t (idx 2 ipa).
Let e := read64 m p.
Context (Hv : pte_valid e = true) (Hb : pte_table_bit e = false)
  (Hal : n mod 4096 = 0) (Hr : 0 < n < 2 ^ 48) (Hfresh : ~ In n own)
  (Hc : forall i, 0 <= i < 512 -> read64 m (pte_ptr n i) = split_page_entry e i).
Let m0 := write64 m p 0.
Let m2 := write64 m0 p (table_desc n).

Lemma split_clean : Z.land e (bmask 12 9) = 0.
Proof. eapply (wf_l2 _ _ _ Hwf ipa); [|exact Hv|exact Hb]. by apply entry_at_slot. Qed.

Lemma split_not_table : (2 < 3)%nat ->
  is_table_desc (read64 m p) = false /\ is_table_desc 0 = false.
Proof. intros _. fold e. rewrite is_table_desc_and, Hv, Hb. done. Qed.

Lemma split_m0_wf : s2_wf m0 l0 own.
Proof.
  by apply (leaf_update_wf m l0 own Hwf 2 ipa t 0 ltac:(lia) Ht fits_0 split_not_table).
Qed.

Lemma split_m0_tbl : tbl 2 m0 l0 ipa = Some t.
Proof.
  unfold m0. rewrite (leaf_update_tbl m l0 own Hwf 2 ipa t 0 ltac:(lia) Ht fits_0 split_not_table); [done|lia].
Qed.

Lemma split_m0_content i : 0 <= i < 512 -> read64 m0 (pte_ptr n i) = split_page_entry e i.
Proof.
  intros Hi. destruct (wf_table _ _ _ Hwf 2%nat ipa t ltac:(lia) Ht) as (Ha & _ & Hin).
  unfold m0. rewrite read64_write64_ne; [by apply Hc|].
  eapply fresh_slot_sep; eauto. apply idx_range.
Qed.

Lemma split_m0_slot : is_table_desc (read64 m0 (pte_ptr t (idx 2 ipa))) = false.
Proof. unfold m0, p. rewrite read64_write64; [done|]. unfold fits. lia. Qed.

Lemma split_wf : s2_wf m2 l0 (n :: own).
Proof.
  apply (link_wf m0 l0 own split_m0_wf 2 ipa t n (split_page_entry e) ltac:(lia)
    split_m0_tbl split_m0_slot Hal Hr Hfresh split_m0_content ltac:(lia)).
Qed.

Lemma split_entry j ipa' : (j <= 3)%nat -> entry_at j m2 l0 ipa' =
  if decide ((2 <= j)%nat /\ prefix 3 ipa' = prefix 3 ipa)
  then (if decide (j = 2%nat) then Some (table_desc n)
        else Some (split_page_entry e (idx 3 ipa')))
  else entry_at j m l0 ipa'.
Proof.
  intros Hj. unfold m2.
  rewrite (link_entry m0 l0 own split_m0_wf 2 ipa t n (split_page_entry e) ltac:(lia)
    split_m0_tbl Hal Hr Hfresh split_m0_content ltac:(lia)) by lia.
  destruct (decide ((2 <= j)%nat /\ _)) as [[H2 Hp]|Hd].
  - destruct (decide (j = 2%nat)); [done|]. assert (j = 3%nat) as -> by lia. done.
  - unfold m0. rewrite (leaf_update_entry m l0 own Hwf 2 ipa t 0 ltac:(lia) Ht fits_0 split_not_table) by lia.
    rewrite decide_False; [done|]. intros [-> ?]. apply Hd. split; [lia|done].
Qed.

Lemma split_lookup ipa' : s2_lookup m2 l0 ipa' = s2_lookup m l0 ipa'.
Proof.
  unfold s2_lookup. rewrite !split_entry by lia.
  rewrite (decide_False (P := (2 <= 1)%nat /\ _)) by lia.
  destruct (decide (prefix 3 ipa' = prefix 3 ipa)) as [Hp|Hp].
  2: by rewrite !(decide_False (P := _ /\ prefix 3 ipa' = _)) by tauto.
  rewrite !(decide_True (P := (_ <= _)%nat /\ _)) by (split; [lia|done]). simpl.
  assert (He : entry_at 2 m l0 ipa' = Some e).
  { pose proof Hp as Hp'. apply prefix_same in Hp' as [Hp' Hi]; [|lia].
    unfold entry_at. rewrite (tbl_prefix m l0 2 ipa' ipa), Ht, Hi by (done || lia). done. }
  rewrite He. rewrite leaf_or_table by (by apply table_desc_is_table).
  pose proof split_clean. assert (fits 64 e) by apply read64_fits.
  rewrite split_page_entry_valid, split_leaf_desc by (done || apply idx_range).
  unfold leaf_or at 3. by rewrite Hv, Hb.
Qed.

Lemma split_outside x : outside (n :: own) x -> m2 x = m x.
Proof.
  rewrite outside_cons. intros [Hx Ho].
  destruct (wf_table _ _ _ Hwf 2%nat ipa t ltac:(lia) Ht) as (_ & _ & Hin).
  specialize (Ho t Hin). pose proof (idx_range 2 ipa). unfold m2, m0.
  rewrite (write64_agree _ p _ x 1), (write64_agree _ p _ x 1); unfold p, pte_ptr; try done; lia.
Qed.
End Split.

(** Replacing a block by a fresh table that holds its 512 page descriptors. *)
Section SplitLink.
Context (start : Z) (s s1 s' : machine) (l0 : Z) (own : list Z) (others : list region)
  (ipa t n : Z) (m1 : mem).
Context (Hi : s2_inv start s l0 own others) (Ht : tbl 2 (hm_mem s) l0 ipa = Some t).
Let p := pte_ptr t (idx 2 ipa).
Let e := read64 (hm_mem s) p.
Context (Hv : pte_valid e = true) (Hb : pte_table_bit e = false)
  (Hal : n mod 4096 = 0) (Hr : 0 < n < 2 ^ 48) (Hfr : ~ In n own)
  (Hh1 : heap_ok start s1 (n :: own) others)
  (Hx : forall x, ~ (n <= x < n + 4096) -> hm_mem s1 x = hm_mem s x)
  (Hsep : forall t, In t own -> t + 4096 <= n \/ n + 4096 <= t)
  (Hx1 : forall x, ~ (n <= x < n + 4096) -> m1 x = hm_mem s x)
  (Hc : forall i, 0 <= i < 512 -> read64 m1 (pte_ptr n i) = split_page_entry e i)
  (Hm' : hm_mem s' = write64 (write64 m1 p 0) p (table_desc n)) (Hh' : hm_heap s' = hm_heap s1).

Lemma split_link_m1 : s2_wf m1 l0 own /\ tbl 2 m1 l0 ipa = Some t /\ read64 m1 p = e.
Proof.
  destruct Hi as [_ Hwf]. pose proof (own_agree own (hm_mem s) m1 n Hx1 Hsep) as Hag. split_and!.
  - eapply s2_wf_agree; [exact Hwf|exact Hag|apply incl_refl].
  - rewrite (tbl_agree _ _ _ Hwf m1); auto; lia.
  - apply (entry_read_agree _ _ _ Hwf m1 2%nat ipa t); auto; lia.
Qed.

Lemma split_link_effect :
  s2_effect start s s' l0 own others (s2_lookup (hm_mem s) l0) /\ tbl 3 (hm_mem s') l0 ipa = Some n /\
  l3_keep (hm_mem s) (hm_mem s') l0.
Proof.
  destruct split_link_m1 as (Hwf1 & Ht1 & Hs). destruct Hi as [_ Hwf].
  pose proof (own_agree own (hm_mem s) m1 n Hx1 Hsep) as Hag.
  assert (Hc1 : forall i, 0 <= i < 512 -> read64 m1 (pte_ptr n i) = split_page_entry (read64 m1 p) i)
    by (intros i Hii; rewrite Hs; auto).
  assert (Hv1 : pte_valid (read64 m1 p) = true) by (by rewrite Hs).
  assert (Hb1 : pte_table_bit (read64 m1 p) = false) by (by rewrite Hs).
  pose proof (split_wf m1 l0 own Hwf1 ipa t n Ht1 Hv1 Hb1 Hal Hr Hfr Hc1) as Hwf2.
  pose proof (split_lookup m1 l0 own Hwf1 ipa t n Ht1 Hv1 Hb1 Hal Hr Hfr Hc1) as Hlk.
  pose proof (split_entry m1 l0 own Hwf1 ipa t n Ht1 Hv1 Hb1 Hal Hr Hfr Hc1) as Hen.
  pose proof (split_outside m1 l0 own Hwf1 ipa t n Ht1) as Hout.
  fold p in Hwf2, Hlk, Hout, Hen.
  assert (Hmem : forall x, outside (n :: own) x -> hm_mem s' x = hm_mem s x).
  { intros x Ho. rewrite Hm', Hout by done. apply Hx1. apply outside_cons in Ho. tauto. }
  split.
  - exists (n :: own). split_and!; [|by apply incl_tl, incl_refl|done| |].
    + constructor; [|by rewrite Hm'].
      apply (heap_ok_write start s1); [done|done|]. intros x Ho. rewrite Hmem by done.
      symmetry. apply Hx. apply outside_cons in Ho. tauto.
    + intros ipa'. rewrite Hm', Hlk. by apply (s2_lookup_agree _ _ _ Hwf).
    + assert (Hlow : forall j ipa', (j <= 1)%nat ->
                entry_at j (hm_mem s') l0 ipa' = entry_at j (hm_mem s) l0 ipa').
      { intros j ipa' Hj. rewrite Hm', Hen by lia.
        rewrite decide_False by lia. apply (entry_agree _ _ _ Hwf); [lia|done]. }
      constructor; intros ipa'; [|left]; apply Hlow; lia.
  - assert (Htd : (if is_table_desc (table_desc n) then Some (Z.land (table_desc n) PTE_ADDR_MASK) else None) = Some n)
      by (rewrite table_desc_is_table, table_desc_addr by done; done).
    split.
    + rewrite tbl_S, Hm', Hen by lia. rewrite decide_True by (split; [lia|done]). by rewrite decide_True by done.
    + intros ipa'. rewrite !tbl_S, Hm', Hen by lia. rewrite (decide_True (P := 2%nat = 2%nat)) by done.
      destruct (decide _); [by rewrite Htd|]. by rewrite (entry_agree _ _ _ Hwf m1) by (auto; lia).
Qed.
End SplitLink.

Lemma fill_split_content m n e : fits 64 e -> Z.land e (bmask 12 9) = 0 ->
  forall i, 0 <= i < 512 -> read64 (fill_l3 m n (split_page_entry e) 512) (pte_ptr n i) = split_page_entry e i.
Proof.
  intros He Hc i Hi. replace i with (Z.of_nat (Z.to_nat i)) by lia.
  apply fill_l3_read; [lia|]. apply split_page_entry_fits; [done|lia|done].
Qed.

(** [split_2mb_block_at_l2] under the invariant. *)
Lemma split_2mb_spec start s l0 own others ipa t s' r :
  s2_inv start s l0 own others -> tbl 2 (hm_mem s) l0 ipa = Some t ->
  let p := pte_ptr t (idx 2 ipa) in
  pte_valid (read64 (hm_mem s) p) = true -> pte_table_bit (read64 (hm_mem s) p) = false ->
  split_2mb_block_at_l2 p (read64 (hm_mem s) p) s = (s', r) ->
  s2_effect start s s' l0 own others (s2_lookup (hm_mem s) l0) /\ l3_keep (hm_mem s) (hm_mem s') l0 /\
  match r with
  | Ok _ => exists t3, tbl 3 (hm_mem s') l0 ipa = Some t3 /\
              events s' = events s ++ [EvStore p 0; EvTlbiAll; EvStore p (table_desc t3); EvTlbiAll]
  | Err _ => s' = s
  end.
Proof.
  intros [Hh Hwf] Ht p Hv Hb H. unfold split_2mb_block_at_l2 in H.
  unfold sm_bind at 1 in H. destruct (m_alloc_page _ s) as [s1 [n|err]] eqn:Ea.
  2:{ simplify_eq. apply (heap_ok_alloc _ _ _ _ _ _ _ Hh) in Ea as [_ ->].
      split_and!; [|by intros ?|done]. exists own. split_and!; [by constructor|by apply incl_refl|done|done|].
      constructor; auto. }
  apply (heap_ok_alloc _ _ _ _ _ _ _ Hh) in Ea as (Hal & Hr & Hfr & Hh1 & Htr & Hx & Hsep).
  assert (Hcl : Z.land (read64 (hm_mem s) p) (bmask 12 9) = 0)
    by (eapply (wf_l2 _ _ _ Hwf ipa); [by apply entry_at_slot|done|done]).
  pose proof (fill_split_content (write_bytes (hm_mem s1) n 0 4096) n _ (read64_fits _ _) Hcl) as Hc.
  assert (Hx1 : forall x, ~ (n <= x < n + 4096) ->
    fill_l3 (write_bytes (hm_mem s1) n 0 4096) n (split_page_entry (read64 (hm_mem s) p)) 512 x = hm_mem s x).
  { intros x Hnx. rewrite fill_l3_frame by lia.
    rewrite (write_bytes_agree _ _ _ _ x 1) by lia. by apply Hx. }
  cbv [sm_bind m_zero_page sm_upd m_store64 tlbi_all log_ev set_mem] in H.
  change (Z.lor (Z.lor n PTE_VALID) PTE_TABLE) with (table_desc n) in H.
  inversion H; subst s' r; clear H.
  match goal with |- s2_effect _ _ ?s2 _ _ _ _ /\ _ =>
    destruct (split_link_effect start s s1 s2 l0 own others ipa t n _ (Build_s2_inv _ _ _ _ _ Hh Hwf)
      Ht Hv Hb Hal Hr Hfr Hh1 Hx Hsep Hx1 Hc eq_refl eq_refl) as (He & T3 & Hk) end.
  split_and!; [exact He|exact Hk|]. exists n. split; [exact T3|]. unfold events. cbn [hm_trace]. rewrite Htr, <- !app_assoc, fmap_app. done.
Qed.

(** ** Composing effects *)
Lemma s2_effect_refl start s l0 own others :
  s2_inv start s l0 own others -> s2_effect start s s l0 own others (s2_lookup (hm_mem s) l0).
Proof. intros H. exists own. split_and!; auto using incl_refl. by constructor; auto. Qed.

Lemma outside_incl own own' x : incl own own' -> outside own' x -> outside own x.
Proof. intros Hi Ho t Ht. apply Ho. auto. Qed.

(** An effect followed by an operation specified on the resulting state. *)
Lemma s2_effect_bind start s s1 s2 l0 own others look look' :
  s2_effect start s s1 l0 own others look ->
  (forall own1, s2_inv start s1 l0 own1 others ->
     (forall ipa, s2_lookup (hm_mem s1) l0 ipa = look ipa) ->
     s2_effect start s1 s2 l0 own1 others look') ->
  s2_effect start s s2 l0 own others look'.
Proof.
  intros (own1 & Hi1 & Hin1 & Hx1 & Hl1 & Hg1) H2.
  destruct (H2 own1 Hi1 Hl1) as (own2 & Hi2 & Hin2 & Hx2 & Hl2 & Hg2).
  exists own2. split_and!; [done|by eapply incl_tran| |done|by eapply top_grow_trans].
  intros x Hx. rewrite Hx2 by done. apply Hx1. by eapply outside_incl.
Qed.

Lemma s2_effect_ext start s s' l0 own others look look' :
  (forall ipa, look ipa = look' ipa) ->
  s2_effect start s s' l0 own others look -> s2_effect start s s' l0 own others look'.
Proof. intros He (own' & ? & ? & ? & Hl & ?). exists own'. split_and!; auto. intros. by rewrite Hl. Qed.

(** The trace does not matter for the invariant. *)
Lemma s2_effect_tlb start s s' s'' l0 own others look :
  hm_mem s'' = hm_mem s' -> hm_heap s'' = hm_heap s' ->
  s2_effect start s s' l0 own others look -> s2_effect start s s'' l0 own others look.
Proof.
  intros Hm Hh (own' & [(a & free & Ha & He & Hi) Hw] & ? & ? & Hl & ?). exists own'.
  rewrite !Hm. split_and!; auto. constructor; rewrite ?Hm; [|done].
  exists a, free. rewrite Hm, Hh. done.
Qed.

(** Storing to an L3 entry. *)
Lemma store_l3_effect start s l0 own others ipa t e' :
  s2_inv start s l0 own others -> tbl 3 (hm_mem s) l0 ipa = Some t -> fits 64 e' ->
  s2_effect start s (set_mem s (write64 (hm_mem s) (pte_ptr t (idx 3 ipa)) e')) l0 own others
    (fun ipa' => if decide (same_page ipa' ipa)
                 then (if pte_valid e' then Some (leaf_desc 3 e' ipa') else None)
                 else s2_lookup (hm_mem s) l0 ipa').
Proof.
  intros [Hh Hwf] Ht Hf.
  assert (Hx : forall x, outside own x ->
            write64 (hm_mem s) (pte_ptr t (idx 3 ipa)) e' x = hm_mem s x).
  { intros x Hx. apply (store_outside _ l0 own 3); auto. }
  exists own. split_and!; [|by apply incl_refl|done| |].
  - constructor; simpl.
    + eapply heap_ok_write; [exact Hh|done|done].
    + eapply leaf_update_wf; eauto; lia.
  - intros ipa'. simpl. by apply (lookup_l3_update _ _ own).
  - constructor; intros ipa'; [|left]; cbn [hm_mem set_mem];
      rewrite (leaf_update_entry _ _ own Hwf 3 ipa t e') by (done || lia);
      rewrite decide_False by lia; done.
Qed.

(** Linking a fresh, empty table below an invalid L1 or L2 entry. *)
Lemma link_effect start s l0 own others k ipa t n s1 :
  s2_inv start s l0 own others -> (1 <= k <= 2)%nat -> tbl k (hm_mem s) l0 ipa = Some t ->
  let p := pte_ptr t (idx k ipa) in
  pte_valid (read64 (hm_mem s) p) = false ->
  n mod 4096 = 0 -> 0 < n < 2 ^ 48 -> ~ In n own ->
  heap_ok start s1 (n :: own) others ->
  (forall x, ~ (n <= x < n + 4096) -> hm_mem s1 x = hm_mem s x) ->
  (forall t, In t own -> t + 4096 <= n \/ n + 4096 <= t) ->
  let m1 := write_bytes (hm_mem s1) n 0 4096 in
  let s' := set_mem s1 (write64 m1 p (table_desc n)) in
  s2_effect start s s' l0 own others (s2_lookup (hm_mem s) l0) /\
  tbl (S k) (hm_mem s') l0 ipa = Some n /\ l3_keep (hm_mem s) (hm_mem s') l0.
Proof.
  intros [Hh Hwf] Hk Ht p Hv Hal Hr Hfr Hh1 Hx Hsep m1 s'.
  assert (Hx1 : forall x, ~ (n <= x < n + 4096) -> m1 x = hm_mem s x).
  { intros x Hnx. unfold m1. rewrite (write_bytes_agree _ _ _ _ x 1) by lia. by apply Hx. }
  pose proof (own_agree own (hm_mem s) m1 n Hx1 Hsep) as Hag.
  assert (Hwf1 : s2_wf m1 l0 own) by (eapply s2_wf_agree; [exact Hwf|exact Hag|apply incl_refl]).
  assert (Ht1 : tbl k m1 l0 ipa = Some t) by (rewrite (tbl_agree _ _ _ Hwf m1); auto; lia).
  assert (Hv1 : pte_valid (read64 m1 p) = false).
  { unfold p. rewrite (entry_read_agree _ _ _ Hwf m1 k ipa t); auto. lia. }
  assert (Hc : forall i, 0 <= i < 512 -> read64 m1 (pte_ptr n i) = 0)
    by (intros i Hi; apply read_write_bytes_zero; unfold pte_ptr; lia).
  assert (Hold : is_table_desc (read64 m1 p) = false) by (by rewrite is_table_desc_and, Hv1).
  assert (Hout : forall x, outside (n :: own) x -> write64 m1 p (table_desc n) x = hm_mem s x).
  { intros x Ho. apply outside_cons in Ho as [Hnx Ho].
    rewrite (store_outside m1 l0 own k ipa t); auto; lia. }
  split.
  - exists (n :: own). split_and!; [|by apply incl_tl, incl_refl|done| |].
    + constructor; simpl.
      * apply (heap_ok_write start s1); [done|done|]. simpl. intros x Ho. rewrite Hout by done.
        symmetry. apply Hx. apply outside_cons in Ho. tauto.
      * by apply (link_wf m1 l0 own Hwf1 k ipa t n (fun _ => 0)).
    + intros ipa'.
      change (s2_lookup (write64 m1 (pte_ptr t (idx k ipa)) (table_desc n)) l0 ipa' =
              s2_lookup (hm_mem s) l0 ipa').
      rewrite (lookup_link_empty m1 l0 own); try done.
      by apply (s2_lookup_agree _ _ _ Hwf).
    + constructor; intros ipa'; unfold s'; cbn [hm_mem set_mem]; unfold p;
        rewrite (link_entry m1 l0 own Hwf1 k ipa t n (fun _ => 0)) by (done || lia).
      * rewrite decide_False by lia. apply (entry_agree _ _ _ Hwf); [lia|done].
      * case_decide as Hd; [|left; apply (entry_agree _ _ _ Hwf); [lia|done]].
        rewrite decide_True by lia. right. eauto.
  - pose proof (link_tbl m1 l0 own Hwf1 k ipa t n (fun _ => 0) Hk Ht1 Hal Hr Hfr Hc ltac:(done)) as Hlt.
    split; unfold s'; cbn [hm_mem set_mem]; fold p in Hlt.
    + rewrite Hlt by lia. rewrite decide_True by (split; [lia|done]). by rewrite decide_True.
    + intros ipa' H3. rewrite Hlt by lia. case_decide as Hd; [|by rewrite (tbl_agree _ _ _ Hwf m1) by (lia || done)].
      case_decide; [done|]. exfalso. apply H3. assert (k = 1%nat) as -> by lia. destruct Hd as [_ Hd].
      rewrite tbl_S. unfold entry_at. rewrite (tbl_prefix _ _ 2 ipa' ipa) by (done || lia).
      rewrite tbl_S, (entry_at_slot _ _ _ _ _ Ht). fold p. by rewrite is_table_desc_and, Hv.
Qed.
