(* ===== verification/Stage2Walk.v ===== *)
(** * What the walker's operations do (src/ffa/stage2_walker.rs)

    Specifications of [write_sw_bits], [set_s2ap], [map_page] and [unmap_page]
    against the abstract page map, on success and on every error path. *)

From Stdlib Require Import ZArith Lia Btauto.
From stdpp Require Import base list strings.
From S2P Require Import Prelude Memory Allocator Stage2 Stage2Spec Stage2Bits Stage2Ops.
Import Walker.

(** A two-bit field of a descriptor, and the abstract updates of one page. *)
Definition field_upd (sh v e : Z) : Z :=
  Z.lor (Z.land e (not64 (Z.shiftl 0x3 sh))) (Z.shiftl (Z.land v 0x3) sh).
Definition pd_upd (sh v : Z) (d : pdesc) : pdesc := mkPd (pd_pa d) (field_upd sh v (pd_attr d)).
Definition on_page (ipa : Z) (f : option pdesc -> option pdesc) (look : Z -> option pdesc)
  (ipa' : Z) : option pdesc :=
  if decide (same_page ipa' ipa) then f (look ipa') else look ipa'.

(** No page can be allocated. *)
Definition heap_full (s : machine) : Prop := (heap_alloc_page (hm_mem s) (hm_heap s)).1.1 = None.

(** ** Field updates of a descriptor *)
Section FieldUpdate.
Context (sh : Z) (Hsh : sh = PTE_SW_SHIFT \/ sh = S2AP_SHIFT) (v : Z).

Lemma field_testbit e i : 0 <= i ->
  Z.testbit (field_upd sh v e) i =
  if (sh <=? i) && (i <? sh + 2) then Z.testbit v (i - sh) else (i <? 64) && Z.testbit e i.
Proof.
  intros Hi. unfold field_upd, not64. change 3 with (Z.ones 2). autorewrite with bits.
  assert (0 <= sh <= 62) by (destruct Hsh as [-> | ->]; vm_compute; split; discriminate).
  destruct (Z.leb_spec sh i); simpl; autorewrite with bits.
  - destruct (Z.ltb_spec i (sh + 2)), (Z.ltb_spec (i - sh) 2), (Z.ltb_spec i 64); try lia;
      btauto.
  - btauto.
Qed.

Lemma field_fits e : fits 64 e -> fits 64 (field_upd sh v e).
Proof.
  intros He. apply fits_testbit; [lia| |].
  - apply lor_nn; [apply land_nn_r, land_nn_r; by vm_compute|].
    apply shiftl_nn, land_nn_r. lia.
  - intros i Hi. rewrite field_testbit by lia.
    assert (0 <= sh <= 62) by (destruct Hsh as [-> | ->]; vm_compute; split; discriminate).
    destruct (Z.ltb_spec i (sh + 2)); [lia|]. destruct (Z.ltb_spec i 64); [lia|].
    by rewrite andb_false_r.
Qed.

Lemma field_type e : pte_valid (field_upd sh v e) = pte_valid e /\ pte_table_bit (field_upd sh v e) = pte_table_bit e.
Proof.
  rewrite !pte_valid_bit, !pte_table_bit_bit, !field_testbit by lia.
  destruct Hsh as [-> | ->]; done.
Qed.

Lemma field_leaf e ipa :
  leaf_desc 3 (field_upd sh v e) ipa =
  mkPd (pd_pa (leaf_desc 3 e ipa)) (field_upd sh v (pd_attr (leaf_desc 3 e ipa))).
Proof.
  unfold leaf_desc. change (39 - 9 * Z.of_nat 3) with 12. cbn [pd_pa pd_attr]. f_equal; apply Z.bits_inj'; intros i Hi.
  - autorewrite with bits. rewrite field_testbit by lia.
    destruct Hsh as [-> | ->]; change PTE_SW_SHIFT with 55; change S2AP_SHIFT with 6; bit_solve.
  - unfold ATTR_MASK. cbn [pd_attr]. autorewrite with bits. rewrite !field_testbit by lia.
    autorewrite with bits.
    destruct Hsh as [-> | ->]; change PTE_SW_SHIFT with 55; change S2AP_SHIFT with 6; bit_solve.
Qed.

(** Reading the field back; the other field is kept. *)
Lemma field_read e : Z.land (Z.shiftr (field_upd sh v e) sh) 3 = v mod 4.
Proof.
  change 3 with (Z.ones 2). change 4 with (2 ^ 2). rewrite <- Z.land_ones by lia.
  bit_ext i Hi. assert (0 <= sh <= 62) by (destruct Hsh as [-> | ->]; vm_compute; split; discriminate).
  rewrite field_testbit by lia. destruct (Z.ltb_spec i 2); [|btauto].
  destruct (Z.leb_spec sh (i + sh)); [|lia]. destruct (Z.ltb_spec (i + sh) (sh + 2)); [|lia].
  simpl. by replace (i + sh - sh) with i by lia.
Qed.

Lemma field_keep e sh' : fits 64 e -> sh' = PTE_SW_SHIFT \/ sh' = S2AP_SHIFT -> sh' <> sh ->
  Z.land (Z.shiftr (field_upd sh v e) sh') 3 = Z.land (Z.shiftr e sh') 3.
Proof.
  intros He Hsh' Hne. change 3 with (Z.ones 2). bit_ext i Hi.
  assert (0 <= sh' <= 62) by (destruct Hsh' as [-> | ->]; vm_compute; split; discriminate).
  rewrite field_testbit by lia. destruct (Z.ltb_spec i 2); [|btauto].
  destruct Hsh as [E | E], Hsh' as [E' | E']; try congruence;
    change PTE_SW_SHIFT with 55 in *; change S2AP_SHIFT with 6 in *; subst sh sh'; bit_solve.
Qed.
End FieldUpdate.

(** ** Splitting on demand *)
Lemma m_alloc_page_err err s s' e : m_alloc_page err s = (s', Err e) -> heap_full s.
Proof.
  unfold m_alloc_page, heap_full. destruct (heap_alloc_page _ _) as [[[p|] m'] h']; simpl; [|done].
  intros; simplify_eq.
Qed.

Lemma entry2_tbl m l0 ipa e : entry_at 2 m l0 ipa = Some e ->
  exists t, tbl 2 m l0 ipa = Some t /\ e = read64 m (pte_ptr t (idx 2 ipa)).
Proof. unfold entry_at. destruct (tbl 2 m l0 ipa) as [t|]; [|done]. intros [= <-]. eauto. Qed.

Lemma split_if_needed_spec start s l0 own others ipa s' r :
  s2_inv start s l0 own others ->
  split_block_if_needed (mkWalker l0) ipa s = (s', r) ->
  s2_effect start s s' l0 own others (s2_lookup (hm_mem s) l0) /\
  match r with
  | Ok _ => forall e, entry_at 2 (hm_mem s') l0 ipa = Some e ->
              pte_valid e = true -> pte_table_bit e = true
  | Err _ => s' = s /\ heap_full s
  end.
Proof.
  intros Hi. pose proof (s2_effect_refl _ _ _ _ _ Hi) as Hr.
  unfold split_block_if_needed, sm_bind, m_read64, sm_ret. cbn [l0_table].
  pose proof (tbl_S 0 (hm_mem s) l0 ipa) as T1. rewrite (entry_at_slot 0 _ _ _ l0) in T1 by done.
  change (idx 0 ipa) with (l0_index ipa) in T1.
  destruct (is_table_desc _) eqn:I0; cbn [negb].
  2:{ intros; simplify_eq. split; [done|]. intros e He. exfalso.
      unfold entry_at in He. rewrite tbl_S in He. unfold entry_at in He. by rewrite T1 in He. }
  remember (Z.land _ PTE_ADDR_MASK) as t1 eqn:Ht1.
  pose proof (tbl_S 1 (hm_mem s) l0 ipa) as T2. rewrite (entry_at_slot 1 _ _ _ _ T1) in T2.
  change (idx 1 ipa) with (l1_index ipa) in T2.
  rewrite is_table_desc_and in T2.
  destruct (pte_valid (read64 _ (pte_ptr t1 _)) && _) eqn:I1; cbn [negb] in *.
  2:{ apply andb_false_iff in I1. rewrite <- negb_andb, (proj2 (andb_false_iff _ _) I1). cbn [negb].
      intros; simplify_eq. split; [done|]. intros e He. exfalso. unfold entry_at in He.
      by rewrite T2 in He. }
  rewrite <- negb_andb, I1. cbn [negb].
  remember (Z.land _ PTE_ADDR_MASK) as t2 eqn:Ht2 in T2 |- *.
  change (l2_index ipa) with (idx 2 ipa).
  destruct (pte_valid (read64 (hm_mem s) (pte_ptr t2 (idx 2 ipa)))) eqn:V2; cbn [andb].
  2:{ intros; simplify_eq. split; [done|]. intros e He. apply entry2_tbl in He as (t & Ht & ->).
      rewrite T2 in Ht. simplify_eq. congruence. }
  destruct (pte_table_bit (read64 (hm_mem s) (pte_ptr t2 (idx 2 ipa)))) eqn:B2; cbn [negb].
  { intros; simplify_eq. split; [done|]. intros e He. apply entry2_tbl in He as (t & Ht & ->).
      rewrite T2 in Ht. simplify_eq. congruence. }
  intros H. pose proof (split_2mb_spec _ _ _ _ _ _ _ _ _ Hi T2 V2 B2 H) as (He & _ & Hk).
  split; [done|]. destruct r as [u|err].
  - destruct Hk as (t3 & Ht3 & _). intros e Ee _. rewrite tbl_S, Ee in Ht3.
    rewrite is_table_desc_and in Ht3. destruct (pte_table_bit e); [done|].
    by rewrite andb_false_r in Ht3.
  - split; [done|]. unfold split_2mb_block_at_l2, sm_bind at 1 in H.
    destruct (m_alloc_page _ s) as [s1 [n|err']] eqn:Ea; [|by eapply m_alloc_page_err].
    by simplify_eq.
Qed.

(** After a split the leaf found by the walk is an L3 entry. *)
Lemma leaf_is_l3 m l0 own ipa p :
  s2_wf m l0 own ->
  (forall e, entry_at 2 m l0 ipa = Some e -> pte_valid e = true -> pte_table_bit e = true) ->
  walk_to_leaf_ptr m (mkWalker l0) ipa = Some p ->
  exists t, tbl 3 m l0 ipa = Some t /\ p = pte_ptr t (idx 3 ipa) /\
    pte_valid (read64 m p) = true.
Proof.
  intros Hwf H2 Hp. pose proof (walk_to_leaf_lookup m l0 ipa) as Hw. rewrite Hp in Hw.
  destruct Hw as (k & t & Hk & Ht & -> & _ & Hv & Hb).
  pose proof (entry_at_slot _ _ _ _ _ Ht) as He.
  assert (k = 1 \/ k = 2 \/ k = 3)%nat as [-> | [-> | ->]] by lia.
  - rewrite (wf_l1 _ _ _ Hwf ipa _ He Hv) in Hb. by specialize (Hb ltac:(lia)).
  - rewrite (H2 _ He Hv) in Hb. by specialize (Hb ltac:(lia)).
  - eauto.
Qed.

(** ** Updating a field of a leaf *)
(** The part [write_sw_bits] and [set_s2ap] share. *)
Definition field_write (sh v : Z) (w : Stage2Walker) (ipa : Z) : s2m unit :=
  split_block_if_needed w ipa ;;;
  let* s := sm_get in
  let* leaf_ptr := sm_some (walk_to_leaf_ptr (hm_mem s) w ipa) "IPA not mapped"%string in
  let* pte := m_read64 leaf_ptr in
  m_store64 leaf_ptr (field_upd sh v pte).

Lemma write_sw_bits_field w ipa bits : write_sw_bits w ipa bits = field_write PTE_SW_SHIFT bits w ipa.
Proof. reflexivity. Qed.

Lemma set_s2ap_field w ipa ap s : set_s2ap w ipa ap s =
  match field_write S2AP_SHIFT ap w ipa s with
  | (s', Ok _) => tlbi_ipa ipa s'
  | (s', Err e) => (s', Err e)
  end.
Proof.
  unfold set_s2ap, field_write, sm_bind, sm_get, sm_some, m_read64.
  destruct (split_block_if_needed w ipa s) as [s1 [[]|e]]; [|done].
  destruct (walk_to_leaf_ptr _ _ _); done.
Qed.

Lemma field_write_spec sh v start s l0 own others ipa s' r :
  sh = PTE_SW_SHIFT \/ sh = S2AP_SHIFT ->
  s2_inv start s l0 own others ->
  field_write sh v (mkWalker l0) ipa s = (s', r) ->
  match r with
  | Ok _ => s2_lookup (hm_mem s) l0 ipa <> None /\
            s2_effect start s s' l0 own others
              (on_page ipa (option_map (pd_upd sh v)) (s2_lookup (hm_mem s) l0))
  | Err _ => s2_effect start s s' l0 own others (s2_lookup (hm_mem s) l0) /\
             (s2_lookup (hm_mem s) l0 ipa = None \/ heap_full s)
  end.
Proof.
  intros Hsh Hi. unfold field_write, sm_bind at 1.
  destruct (split_block_if_needed _ _ s) as [s1 [[]|e]] eqn:Es;
    apply (split_if_needed_spec _ _ _ _ _ _ _ _ Hi) in Es as [Heff Hk].
  2:{ destruct Hk as [-> ?]. intros; simplify_eq. auto. }
  unfold sm_bind, sm_get, sm_some, m_read64, m_store64, sm_upd, sm_err, sm_ret.
  pose proof (walk_to_leaf_lookup (hm_mem s1) l0 ipa) as Hw.
  destruct (walk_to_leaf_ptr (hm_mem s1) _ ipa) as [p|] eqn:Ep.
  2:{ intros; simplify_eq. split; [done|]. left. destruct Heff as (? & _ & _ & _ & Hl & _).
      by rewrite <- Hl. }
  intros H. simplify_eq. split.
  { destruct Heff as (? & _ & _ & _ & Hl & _). destruct Hw as (? & ? & _ & _ & _ & Hw & _).
    rewrite <- Hl, Hw. done. }
  eapply s2_effect_bind; [exact Heff|]. intros own1 Hi1 Hl1.
  destruct (leaf_is_l3 _ _ _ _ _ (si_wf _ _ _ _ _ Hi1) Hk Ep) as (t & Ht & -> & Hv).
  set (e := read64 (hm_mem s1) (pte_ptr t (idx 3 ipa))) in *.
  assert (fits 64 e) by apply read64_fits.
  eapply s2_effect_ext; [|eapply s2_effect_tlb; [| |eapply (store_l3_effect start s1 l0 own1 others ipa t (field_upd sh v e)); eauto]; try done].
  2:{ by apply field_fits. }
  intros ipa'. cbv beta. unfold on_page. case_decide as Hd; [|done].
  rewrite (proj1 (field_type sh Hsh v e)), Hv. rewrite <- Hl1.
  assert (Ht' : tbl 3 (hm_mem s1) l0 ipa' = Some t).
  { rewrite <- Ht. apply tbl_prefix; [lia|]. eapply prefix_down; [|exact Hd]. lia. }
  rewrite (s2_lookup_tbl3 _ _ _ _ Ht'). cbv zeta.
  unfold same_page in Hd. apply prefix_same in Hd as [_ Hd]; [|lia]. rewrite Hd. fold e.
  rewrite Hv. simpl. f_equal. by apply field_leaf.
Qed.

(** ** Pages at level 3 *)

(** The split on demand does nothing, or splits the block of the address. *)
Lemma split_if_needed_cases l0 ipa s s' r : split_block_if_needed (mkWalker l0) ipa s = (s', r) ->
  (s' = s /\ r = Ok tt) \/
  exists t, tbl 2 (hm_mem s) l0 ipa = Some t /\
    let p := pte_ptr t (idx 2 ipa) in let e := read64 (hm_mem s) p in
    pte_valid e = true /\ pte_table_bit e = false /\ split_2mb_block_at_l2 p e s = (s', r).
Proof.
  unfold split_block_if_needed, sm_bind, m_read64, sm_ret. cbn [l0_table].
  destruct (is_table_desc (read64 (hm_mem s) (pte_ptr l0 (l0_index ipa)))) eqn:I0; cbn [negb]; [|intros [= <- <-]; by left].
  remember (Z.land _ PTE_ADDR_MASK) as t1 eqn:Ht1.
  assert (T1 : tbl 1 (hm_mem s) l0 ipa = Some t1) by (rewrite tbl_1; cbv zeta; rewrite I0; congruence).
  destruct (negb (pte_valid (read64 (hm_mem s) (pte_ptr t1 (l1_index ipa)))) || _) eqn:I1; [intros [= <- <-]; by left|].
  rewrite <- negb_andb in I1. apply negb_false_iff in I1.
  assert (T2 : tbl 2 (hm_mem s) l0 ipa = Some (Z.land (read64 (hm_mem s) (pte_ptr t1 (l1_index ipa))) PTE_ADDR_MASK)).
  { rewrite tbl_S, (entry_at_slot 1 _ _ _ _ T1). change (idx 1 ipa) with (l1_index ipa). by rewrite is_table_desc_and, I1. }
  destruct (pte_valid (read64 _ (pte_ptr (Z.land _ _) _)) && _) eqn:I2; [|intros [= <- <-]; by left].
  apply andb_true_iff in I2 as [V B]. apply negb_true_iff in B. intros H. right. by eexists.
Qed.

(** An address below a level-3 table needs no split. *)
Lemma split_at_l3 l0 ipa s : tbl 3 (hm_mem s) l0 ipa <> None -> split_block_if_needed (mkWalker l0) ipa s = (s, Ok tt).
Proof.
  intros H3. destruct (split_block_if_needed (mkWalker l0) ipa s) as [s' r] eqn:E.
  destruct (split_if_needed_cases _ _ _ _ _ E) as [[-> ->]|(t & Ht & Hv & Hb & _)]; [done|].
  exfalso. apply H3. rewrite tbl_S, (entry_at_slot 2 _ _ _ _ Ht), is_table_desc_and, Hb. by rewrite andb_false_r.
Qed.

Lemma split_if_needed_keep start s l0 own others ipa s' r : s2_inv start s l0 own others ->
  split_block_if_needed (mkWalker l0) ipa s = (s', r) -> l3_keep (hm_mem s) (hm_mem s') l0.
Proof.
  intros Hi E. destruct (split_if_needed_cases _ _ _ _ _ E) as [[-> _]|(t & Ht & Hv & Hb & Es)]; [by intros ?|].
  by destruct (split_2mb_spec _ _ _ _ _ _ _ _ _ Hi Ht Hv Hb Es) as (_ & Hk & _).
Qed.

(** Updating a field keeps pages at level 3 and leaves its own page there. *)
Lemma field_write_l3 sh v start s l0 own others ipa s' r :
  sh = PTE_SW_SHIFT \/ sh = S2AP_SHIFT -> s2_inv start s l0 own others ->
  field_write sh v (mkWalker l0) ipa s = (s', r) ->
  l3_keep (hm_mem s) (hm_mem s') l0 /\ (r = Ok tt -> tbl 3 (hm_mem s') l0 ipa <> None).
Proof.
  intros Hsh Hi. unfold field_write, sm_bind at 1.
  destruct (split_block_if_needed _ _ s) as [s1 [[]|e]] eqn:Es; pose proof (split_if_needed_keep _ _ _ _ _ _ _ _ Hi Es) as Hk;
    [|intros [= <- <-]; by split].
  apply (split_if_needed_spec _ _ _ _ _ _ _ _ Hi) in Es as [(own1 & Hi1 & _) H2].
  unfold sm_bind, sm_get, sm_some, m_read64, m_store64, sm_upd, sm_err, sm_ret.
  destruct (walk_to_leaf_ptr (hm_mem s1) _ ipa) as [p|] eqn:Ep; [|intros [= <- <-]; by split].
  destruct (leaf_is_l3 _ _ _ _ _ (si_wf _ _ _ _ _ Hi1) H2 Ep) as (t & Ht & -> & _).
  intros [= <- <-]. cbn [hm_mem set_mem].
  set (e := field_upd sh v _).
  assert (Hst : forall ipa', tbl 3 (write64 (hm_mem s1) (pte_ptr t (idx 3 ipa)) e) l0 ipa' = tbl 3 (hm_mem s1) l0 ipa').
  { intros ipa'. apply (leaf_update_tbl _ _ own1 (si_wf _ _ _ _ _ Hi1) 3 ipa t); try (done || lia).
    apply field_fits; [done|apply read64_fits]. }
  cbn [hm_mem set_mem log_ev] in *. split; [intros ipa' H3; rewrite Hst; by apply Hk|]. intros _. by rewrite Hst, Ht.
Qed.

(** A field of a mapped page at level 3 is always written. *)
Lemma field_write_at_l3 sh v l0 ipa s s' r : tbl 3 (hm_mem s) l0 ipa <> None ->
  s2_lookup (hm_mem s) l0 ipa <> None -> field_write sh v (mkWalker l0) ipa s = (s', r) -> r = Ok tt.
Proof.
  intros H3 Hl. unfold field_write, sm_bind at 1. rewrite split_at_l3 by done.
  unfold sm_bind, sm_get, sm_some, m_read64, m_store64, sm_upd, sm_err, sm_ret.
  pose proof (walk_to_leaf_lookup (hm_mem s) l0 ipa) as Hw.
  destruct (walk_to_leaf_ptr (hm_mem s) _ ipa); [by intros [= _ <-]|by rewrite Hw in Hl].
Qed.

(** Updating a field of a mapped page fails only in the split, whatever the field
    and its value. *)
Lemma field_write_fails sh v start s l0 own others ipa s' e : s2_inv start s l0 own others ->
  s2_lookup (hm_mem s) l0 ipa <> None -> field_write sh v (mkWalker l0) ipa s = (s', Err e) ->
  s' = s /\ heap_full s /\ tbl 3 (hm_mem s) l0 ipa = None /\
  forall sh' v', field_write sh' v' (mkWalker l0) ipa s = (s, Err e).
Proof.
  intros Hi Hl. unfold field_write, sm_bind at 1.
  destruct (split_block_if_needed _ _ s) as [s1 [[]|e1]] eqn:Es; pose proof Es as Es'; apply (split_if_needed_spec _ _ _ _ _ _ _ _ Hi) in Es' as [He Hk].
  - destruct He as (_ & _ & _ & _ & Hl1 & _). unfold sm_bind, sm_get, sm_some, m_read64, m_store64, sm_upd, sm_err, sm_ret.
    pose proof (walk_to_leaf_lookup (hm_mem s1) l0 ipa) as Hw.
    destruct (walk_to_leaf_ptr (hm_mem s1) _ ipa); [by intros [=]|by rewrite Hl1 in Hw].
  - destruct Hk as [-> Hf]. intros [= <- <-]. split_and!; [done|done| |intros sh' v'; unfold sm_bind; by rewrite Es].
    destruct (tbl 3 (hm_mem s) l0 ipa) eqn:H3; [|done]. rewrite split_at_l3 in Es by (by rewrite H3). done.
Qed.

(** ** Mapping and unmapping a page *)
Lemma get_or_alloc_spec start s l0 own others k ipa t e1 e2 s' r :
  s2_inv start s l0 own others -> (1 <= k <= 2)%nat -> tbl k (hm_mem s) l0 ipa = Some t ->
  get_or_alloc_table (pte_ptr t (idx k ipa)) e1 e2 s = (s', r) ->
  s2_effect start s s' l0 own others (s2_lookup (hm_mem s) l0) /\
  match r with
  | Ok n => tbl (S k) (hm_mem s') l0 ipa = Some n /\ l3_keep (hm_mem s) (hm_mem s') l0
  | Err _ => s' = s /\ (heap_full s \/ s2_lookup (hm_mem s) l0 ipa <> None)
  end.
Proof.
  intros Hi Hk Ht. pose proof (s2_effect_refl _ _ _ _ _ Hi) as Hr.
  pose proof (entry_at_slot _ _ _ _ _ Ht) as He.
  unfold get_or_alloc_table, sm_bind at 1, m_read64 at 1.
  remember (read64 (hm_mem s) (pte_ptr t (idx k ipa))) as e eqn:Ee.
  destruct (pte_valid e) eqn:V; cbn [negb].
  - destruct (pte_table_bit e) eqn:B; unfold sm_ret, sm_err; intros H; inversion H; subst s' r; (split; [done|]).
    + rewrite tbl_S, He, is_table_desc_and, V, B. split; [done|by intros ? ?].
    + split; [done|]. right.
      assert (k = 1 \/ k = 2)%nat as [-> | ->] by lia.
      * by rewrite (wf_l1 _ _ _ (si_wf _ _ _ _ _ Hi) _ _ He V) in B.
      * destruct (tbl_mono _ _ _ _ _ Ht) as [t1 Ht1]. rewrite tbl_S in Ht.
        unfold s2_lookup. destruct (entry_at 1 (hm_mem s) l0 ipa) as [e1'|]; [|done].
        destruct (is_table_desc e1') eqn:I1; [|done].
        rewrite leaf_or_table by done. rewrite He. unfold leaf_or. by rewrite V, B.
  - unfold sm_bind at 1. destruct (m_alloc_page e1 s) as [s1 [n|err]] eqn:Ea.
    + pose proof (heap_ok_alloc _ _ _ _ _ _ _ (si_heap _ _ _ _ _ Hi) Ea)
        as (Hal & Hrg & Hfr & Hh1 & Htr & Hx & Hsep).
      unfold sm_bind, m_zero_page, sm_upd, m_store64, sm_ret. intros H.
      rewrite Ee in V.
      pose proof (link_effect start s l0 own others k ipa t n s1 Hi Hk Ht V Hal Hrg Hfr Hh1 Hx Hsep)
        as [Hl Htb].
      change (Z.lor (Z.lor n PTE_VALID) PTE_TABLE) with (table_desc n) in H.
      inversion H; subst s' r. split; [|exact Htb].
      eapply s2_effect_tlb; [| |exact Hl]; done.
    + pose proof (heap_ok_alloc _ _ _ _ _ _ _ (si_heap _ _ _ _ _ Hi) Ea) as [_ ->].
      intros; simplify_eq. split; [done|]. split; [done|]. left. by eapply m_alloc_page_err.
Qed.

Lemma page_descriptor_testbit ipa ap sw i : fits 48 ipa -> 0 <= i ->
  Z.testbit (page_descriptor ipa ap sw) i =
  if i <? 2 then true else if i <? 6 then true
  else if i <? 8 then Z.testbit ap (i - 6) else if i <? 11 then true
  else if i <? 12 then false else if i <? 48 then Z.testbit ipa i
  else if (55 <=? i) && (i <? 57) then Z.testbit sw (i - 55) else false.
Proof.
  intros Hipa Hi. unfold page_descriptor. change 3 with (Z.ones 2) at 2 3.
  change (Z.lor (Z.lor (Z.shiftl 15 2) (Z.shiftl 3 8)) (Z.shiftl 1 10)) with (Z.lor (bmask 2 4) (bmask 8 3)).
  rewrite <- Z.lor_assoc. change (Z.lor PTE_TABLE PTE_VALID) with (Z.ones 2).
  change PAGE_MASK_4KB with (Z.ones 12). change S2AP_SHIFT with 6. change PTE_SW_SHIFT with 55.
  unfold not64. autorewrite with bits.
  zdec; autorewrite with bits; zdec;
    rewrite ?andb_true_r, ?andb_false_r, ?orb_false_r, ?orb_true_r; try done.
  all: rewrite ?(testbit_small ipa 48) by (done || lia); done.
Qed.

Lemma land_not64_fits x y : fits 64 x -> fits 64 (Z.land x (not64 y)).
Proof.
  intros Hx. apply fits_testbit; [lia|apply Z.land_nonneg; left; apply Hx|].
  intros i Hi. rewrite Z.land_spec, (testbit_small x 64) by (done || lia). done.
Qed.

Lemma page_descriptor_valid ipa ap sw : fits 64 ipa ->
  fits 64 (page_descriptor ipa ap sw) /\ pte_valid (page_descriptor ipa ap sw) = true.
Proof.
  intros Hi. unfold page_descriptor. pose proof (land_not64_fits ipa PAGE_MASK_4KB Hi) as Hp.
  change (Z.lor (Z.lor (Z.shiftl 15 2) (Z.shiftl 3 8)) (Z.shiftl 1 10)) with (Z.lor (bmask 2 4) (bmask 8 3)).
  split.
  - apply fits_testbit; [lia| |].
    + apply lor_nn; [apply lor_nn; [apply lor_nn; [apply lor_nn; [apply lor_nn|]|]|]|].
      * apply Hp.
      * by vm_compute.
      * apply shiftl_nn, land_nn_r. lia.
      * apply shiftl_nn, land_nn_r. lia.
      * by vm_compute.
      * by vm_compute.
    + intros i H. rewrite <- Z.lor_assoc. change (Z.lor PTE_TABLE PTE_VALID) with (Z.ones 2).
      change 3 with (Z.ones 2) at 2 3. change S2AP_SHIFT with 6. change PTE_SW_SHIFT with 55.
      autorewrite with bits. rewrite (testbit_small ipa 64) by (done || lia). zdec.
      autorewrite with bits. zdec. btauto.
  - rewrite pte_valid_bit, Z.lor_spec. change (Z.testbit PTE_VALID 0) with true. apply orb_true_r.
Qed.

(** The abstract descriptor [map_page] installs: identity address, the given
    permission and SW bits. *)
Lemma page_descriptor_desc ipa ap sw ipa' : fits 48 ipa ->
  let d := leaf_desc 3 (page_descriptor ipa ap sw) ipa' in
  pd_pa d = ipa - ipa mod 4096 /\ pd_s2ap d = ap mod 4 /\ pd_sw d = sw mod 4.
Proof.
  intros Hi d. unfold d, leaf_desc, pd_s2ap, pd_sw. cbn [pd_pa pd_attr].
  change (39 - 9 * Z.of_nat 3) with 12. split_and!.
  - change 4096 with (2 ^ 12). rewrite <- (land_notw_low 48 12 ipa) by (done || lia). change (2 ^ 12 - 1) with (Z.ones 12).
    bit_ext i H. rewrite page_descriptor_testbit by (done || lia).
    zdec; rewrite ?andb_true_r, ?andb_false_r, ?orb_false_r; done.
  - change 3 with (Z.ones 2). change 4 with (2 ^ 2). rewrite <- Z.land_ones by lia.
    change S2AP_SHIFT with 6. unfold ATTR_MASK.
    bit_ext i H. rewrite page_descriptor_testbit by (done || lia).
    replace (i + 6 - 6) with i by lia.
    zdec; rewrite ?andb_true_r, ?andb_false_r; done.
  - change 3 with (Z.ones 2). change 4 with (2 ^ 2). rewrite <- Z.land_ones by lia.
    change PTE_SW_SHIFT with 55. unfold ATTR_MASK.
    bit_ext i H. rewrite page_descriptor_testbit by (done || lia).
    replace (i + 55 - 55) with i by lia.
    zdec; rewrite ?andb_true_r, ?andb_false_r; done.
Qed.

Lemma leaf_desc3_any e ipa ipa' : leaf_desc 3 e ipa = leaf_desc 3 e ipa'.
Proof. unfold leaf_desc. simpl. change (bmask 12 (12 - 12)) with 0. by rewrite !Z.land_0_r. Qed.

Lemma map_page_spec start s l0 own others ipa ap sw s' r :
  s2_inv start s l0 own others -> fits 64 ipa ->
  map_page (mkWalker l0) ipa ap sw s = (s', r) ->
  match r with
  | Ok _ => s2_lookup (hm_mem s) l0 ipa = None /\
            tbl 3 (hm_mem s') l0 ipa <> None /\ l3_keep (hm_mem s) (hm_mem s') l0 /\
            s2_effect start s s' l0 own others
              (on_page ipa (fun _ => Some (leaf_desc 3 (page_descriptor ipa ap sw) ipa))
                 (s2_lookup (hm_mem s) l0))
  | Err _ => s2_effect start s s' l0 own others (s2_lookup (hm_mem s) l0) /\
             l3_keep (hm_mem s) (hm_mem s') l0 /\
             (tbl 1 (hm_mem s) l0 ipa = None \/ s2_lookup (hm_mem s) l0 ipa <> None \/ heap_full s')
  end.
Proof.
  intros Hi Hipa. pose proof (s2_effect_refl _ _ _ _ _ Hi) as Hr.
  unfold map_page, sm_bind at 1, m_read64 at 1. cbn [l0_table].
  pose proof (tbl_1 (hm_mem s) l0 ipa) as T1. cbv zeta in T1.
  destruct (is_table_desc _) eqn:I0; cbn [negb].
  2:{ unfold sm_err. intros H; inversion H; subst s' r. split_and!; [done|by intros ? ?|by left]. }
  remember (Z.land _ PTE_ADDR_MASK) as t1 eqn:Ht1.
  unfold sm_bind at 1. change (l1_index ipa) with (idx 1 ipa).
  destruct (get_or_alloc_table _ _ _ s) as [s1 [t2|e]] eqn:E1;
    apply (get_or_alloc_spec _ _ _ _ _ 1 _ _ _ _ _ _ Hi ltac:(lia) T1) in E1 as [Heff1 T2].
  2:{ destruct T2 as [-> T2]. intros H; inversion H; subst s' r. split_and!; [done|by intros ? ?|tauto]. }
  destruct T2 as [T2 K1]. unfold sm_bind at 1. change (l2_index ipa) with (idx 2 ipa).
  pose proof Heff1 as (own1 & Hi1 & _ & _ & Hl1 & _).
  destruct (get_or_alloc_table _ _ _ s1) as [s2 [t3|e]] eqn:E2;
    pose proof (get_or_alloc_spec _ _ _ _ _ 2 _ _ _ _ _ _ Hi1 ltac:(lia) T2 E2) as [_ T3].
  2:{ destruct T3 as [-> T3]. intros H; inversion H; subst s' r. rewrite Hl1 in T3.
      split_and!; [done|done|tauto]. }
  destruct T3 as [T3 K2].
  assert (Heff2 : s2_effect start s s2 l0 own others (s2_lookup (hm_mem s) l0)).
  { eapply s2_effect_bind; [exact Heff1|]. intros own1' Hi1' _.
    pose proof (get_or_alloc_spec _ _ _ _ _ 2 _ _ _ _ _ _ Hi1' ltac:(lia) T2 E2) as [He _].
    eapply s2_effect_ext; [|exact He]. done. }
  unfold sm_bind at 1, m_read64 at 1. change (l3_index ipa) with (idx 3 ipa).
  pose proof (s2_lookup_tbl3 _ _ _ _ T3) as Hlk. cbv zeta in Hlk.
  pose proof Heff2 as (_ & _ & _ & _ & Hl2 & _). rewrite Hl2 in Hlk.
  destruct (pte_valid _) eqn:V3; unfold sm_err.
  { intros H; inversion H; subst s' r. split_and!; [done|intros ? ?; by apply K2, K1|].
    right; left. rewrite Hlk. done. }
  unfold sm_bind, m_store64, tlbi_ipa, sm_upd. intros H; inversion H; subst s' r; clear H.
  split; [done|]. destruct Heff2 as (own2' & Hi2' & Hrest).
  assert (Hstore : forall ipa', tbl 3 (write64 (hm_mem s2) (pte_ptr t3 (idx 3 ipa)) (page_descriptor ipa ap sw)) l0 ipa' =
            tbl 3 (hm_mem s2) l0 ipa').
  { intros ipa'. apply (leaf_update_tbl _ _ own2' (si_wf _ _ _ _ _ Hi2') 3 ipa t3); try (done || lia).
    apply (page_descriptor_valid ipa ap sw Hipa). }
  cbn [hm_mem set_mem log_ev]. split; [by rewrite Hstore, T3|]. split.
  { intros ipa' H3. rewrite Hstore. by apply K2, K1. }
  pose proof (ex_intro _ own2' (conj Hi2' Hrest) : s2_effect start s s2 l0 own others (s2_lookup (hm_mem s) l0)) as Heff2.
  eapply s2_effect_bind; [exact Heff2|]. intros own2 Hi2 _.
  eapply s2_effect_ext; [|eapply s2_effect_tlb; [| |eapply (store_l3_effect start s2 l0 own2 others ipa t3 (page_descriptor ipa ap sw)); eauto; apply (page_descriptor_valid ipa ap sw Hipa)]; try done].
  intros ipa'. cbv beta. unfold on_page. case_decide; [|done].
  rewrite (proj2 (page_descriptor_valid ipa ap sw Hipa)). by rewrite (leaf_desc3_any _ ipa' ipa).
Qed.

Lemma walk_to_l3_spec m l0 ipa :
  match walk_to_l3_ptr m (mkWalker l0) ipa with
  | Some p => exists t, tbl 3 m l0 ipa = Some t /\ p = pte_ptr t (idx 3 ipa) /\
                pte_valid (read64 m p) = true
  | None => forall t, tbl 3 m l0 ipa = Some t -> pte_valid (read64 m (pte_ptr t (idx 3 ipa))) = false
  end.
Proof.
  unfold walk_to_l3_ptr. cbn [l0_table].
  pose proof (tbl_1 m l0 ipa) as T1. cbv zeta in T1.
  destruct (is_table_desc (read64 m (pte_ptr l0 (l0_index ipa)))) eqn:I0; cbn [negb].
  2:{ intros t. rewrite tbl_S. unfold entry_at. rewrite tbl_S. unfold entry_at. by rewrite T1. }
  remember (Z.land _ PTE_ADDR_MASK) as t1 eqn:Ht1.
  pose proof (tbl_S 1 m l0 ipa) as T2. rewrite (entry_at_slot 1 _ _ _ _ T1) in T2.
  change (l1_index ipa) with (idx 1 ipa). destruct (is_table_desc (read64 m (pte_ptr t1 _))) eqn:I1; cbn [negb].
  2:{ intros t. rewrite tbl_S. unfold entry_at. by rewrite T2. }
  remember (Z.land _ PTE_ADDR_MASK) as t2 eqn:Ht2 in T2 |- *.
  pose proof (tbl_S 2 m l0 ipa) as T3. rewrite (entry_at_slot 2 _ _ _ _ T2) in T3.
  change (l2_index ipa) with (idx 2 ipa). destruct (is_table_desc (read64 m (pte_ptr t2 _))) eqn:I2; cbn [negb].
  2:{ intros t. by rewrite T3. }
  change (l3_index ipa) with (idx 3 ipa).
  destruct (pte_valid _) eqn:V3; cbn [negb]; [eauto|].
  intros t. rewrite T3. by intros [= <-].
Qed.

Lemma unmap_page_spec start s l0 own others ipa s' r :
  s2_inv start s l0 own others ->
  unmap_page (mkWalker l0) ipa s = (s', r) ->
  match r with
  | Ok _ => s2_lookup (hm_mem s) l0 ipa <> None /\
            l3_keep (hm_mem s) (hm_mem s') l0 /\
            s2_effect start s s' l0 own others (on_page ipa (fun _ => None) (s2_lookup (hm_mem s) l0))
  | Err _ => s' = s /\ (forall t, tbl 3 (hm_mem s) l0 ipa = Some t -> s2_lookup (hm_mem s) l0 ipa = None)
  end.
Proof.
  intros Hi. unfold unmap_page, sm_bind, sm_get, sm_some.
  pose proof (walk_to_l3_spec (hm_mem s) l0 ipa) as Hw.
  destruct (walk_to_l3_ptr _ _ _) as [p|]; unfold sm_ret, sm_err; intros H.
  2:{ inversion H; subst s' r. split; [done|]. intros t Ht.
      rewrite (s2_lookup_tbl3 _ _ _ _ Ht). cbv zeta. by rewrite Hw. }
  destruct Hw as (t & Ht & -> & Hv). unfold m_store64, tlbi_ipa, sm_upd in H.
  inversion H; subst s' r; clear H. split.
  { rewrite (s2_lookup_tbl3 _ _ _ _ Ht). cbv zeta. by rewrite Hv. }
  split.
  { intros ipa' H3. cbn [hm_mem set_mem log_ev].
    rewrite (leaf_update_tbl _ _ own (si_wf _ _ _ _ _ Hi) 3 ipa t 0); try (done || lia). }
  eapply s2_effect_ext; [|eapply s2_effect_tlb; [| |eapply (store_l3_effect start s l0 own others ipa t 0); eauto using fits_0]; try done].
  intros ipa'. cbv beta. unfold on_page. by case_decide.
Qed.
