(* ===== verification/Stage2Boot.v ===== *)
(** * Building the tables of a VM (mmu.rs, DynamicIdentityMapper)

    [mapper_new] establishes the invariant with an empty page map. *)

From Stdlib Require Import ZArith Lia Btauto.
From stdpp Require Import base list strings.
From S2P Require Import Prelude Memory Allocator Stage2 Stage2Spec Stage2Bits Stage2Ops Stage2Walk.
Import Walker Mapper.

Section NewTables.
Context (m : mem) (l0 l1 : Z) (Hl0 : l0 mod 4096 = 0) (Hl1 : l1 mod 4096 = 0)
  (Hr0 : 0 < l0 < 2 ^ 48) (Hr1 : 0 < l1 < 2 ^ 48) (Hne : l0 <> l1)
  (Hz0 : forall i, 0 < i < 512 -> read64 m (pte_ptr l0 i) = 0)
  (He0 : read64 m (pte_ptr l0 0) = table_desc l1)
  (Hz1 : forall i, 0 <= i < 512 -> read64 m (pte_ptr l1 i) = 0).

Lemma new_tbl1 ipa : tbl 1 m l0 ipa = if decide (idx 0 ipa = 0) then Some l1 else None.
Proof.
  rewrite tbl_S, (entry_at_slot 0 _ _ _ l0) by done.
  pose proof (idx_range 0 ipa). case_decide as Hi.
  - rewrite Hi, He0, table_desc_is_table, table_desc_addr; done.
  - rewrite Hz0 by lia. done.
Qed.

Lemma new_entry1 ipa : entry_at 1 m l0 ipa = if decide (idx 0 ipa = 0) then Some 0 else None.
Proof.
  unfold entry_at. rewrite new_tbl1. case_decide; [|done]. rewrite Hz1; [done|apply idx_range].
Qed.

Lemma new_tbl2 k ipa : (2 <= k)%nat -> tbl k m l0 ipa = None.
Proof.
  intros Hk. induction k as [|k IH]; [lia|]. rewrite tbl_S.
  destruct (decide (k = 1%nat)) as [->|].
  - rewrite new_entry1. by case_decide.
  - unfold entry_at. by rewrite IH by lia.
Qed.

Lemma new_wf : s2_wf m l0 [l1; l0].
Proof.
  assert (Hcase : forall k ipa t, (k <= 3)%nat -> tbl k m l0 ipa = Some t ->
            (k = 0%nat /\ t = l0) \/ (k = 1%nat /\ t = l1 /\ idx 0 ipa = 0)).
  { intros k ipa t Hk. destruct (decide (2 <= k)%nat); [by rewrite new_tbl2|].
    assert (k = 0 \/ k = 1)%nat as [-> | ->] by lia; [simpl; intros; simplify_eq; auto|].
    rewrite new_tbl1. case_decide; intros; simplify_eq; auto. }
  constructor.
  - intros k ipa t Hk H. apply Hcase in H; [|done]. simpl. intuition (subst; auto).
  - intros j k ipa ipa' t Hj Hk H H'. apply Hcase in H; [|done]. apply Hcase in H'; [|done].
    destruct H as [[-> ->]|(-> & -> & Hi)], H' as [[-> E]|(-> & E & Hi')]; try congruence.
    + by rewrite !prefix_0.
    + split; [done|]. apply prefix_same; [lia|]. rewrite !prefix_0, Hi, Hi'. done.
  - intros ipa e. rewrite new_entry1. case_decide; [|done]. intros [= <-]. done.
  - intros ipa e. unfold entry_at. by rewrite new_tbl2 by lia.
Qed.

Lemma new_lookup ipa : s2_lookup m l0 ipa = None.
Proof. unfold s2_lookup. rewrite new_entry1. by case_decide. Qed.
End NewTables.

(** The mapper's tables: the invariant, the L1 table linked at L0[0], L1
    descriptors without bits above the address field. *)
Record dm_inv (start : Z) (s : machine) (dm : DynamicIdentityMapper) (own : list Z)
  (others : list region) : Prop := {
  di_inv : s2_inv start s (dm_l0_table dm) own others;
  di_l1 ipa : idx 0 ipa = 0 -> tbl 1 (hm_mem s) (dm_l0_table dm) ipa = Some (dm_l1_table dm);
  di_clean i : 0 <= i < 512 -> Z.land (read64 (hm_mem s) (pte_ptr (dm_l1_table dm) i)) (bmask 48 16) = 0;
}.

Lemma mapper_new_spec start s others s' r :
  heap_ok start s [] others -> mapper_new s = (s', r) ->
  match r with
  | Ok dm => dm_inv start s' dm [dm_l1_table dm; dm_l0_table dm] others /\
             (forall ipa, s2_lookup (hm_mem s') (dm_l0_table dm) ipa = None) /\
             (forall x, outside [dm_l1_table dm; dm_l0_table dm] x -> hm_mem s' x = hm_mem s x)
  | Err _ => heap_full s'
  end.
Proof.
  intros Hh. unfold mapper_new, sm_bind at 1.
  destruct (m_alloc_page _ s) as [s1 [l0|e]] eqn:E0.
  2:{ intros H; inversion H; subst s' r. pose proof E0 as E0'.
      apply (heap_ok_alloc _ _ _ _ _ _ _ Hh) in E0' as [_ ->]. by eapply m_alloc_page_err. }
  apply (heap_ok_alloc _ _ _ _ _ _ _ Hh) in E0 as (Ha0 & Hr0 & _ & Hh1 & Htr0 & Hx0 & _).
  unfold sm_bind at 1. destruct (m_alloc_page _ s1) as [s2 [l1|e]] eqn:E1.
  2:{ intros H; inversion H; subst s' r. pose proof E1 as E1'.
      apply (heap_ok_alloc _ _ _ _ _ _ _ Hh1) in E1' as [_ ->]. by eapply m_alloc_page_err. }
  apply (heap_ok_alloc _ _ _ _ _ _ _ Hh1) in E1 as (Ha1 & Hr1 & Hf1 & Hh2 & Htr1 & Hx1 & Hs1).
  specialize (Hs1 l0 ltac:(by left)).
  unfold sm_bind, m_zero_page, m_store64, sm_upd, sm_ret. rewrite table_desc_alt.
  intros H; inversion H; subst s' r; clear H. cbn [dm_l0_table dm_l1_table].
  set (m1 := write_bytes (write_bytes (hm_mem s2) l0 0 4096) l1 0 4096).
  set (m2 := write64 m1 l0 (table_desc l1)).
  assert (Hout : forall x, outside [l1; l0] x -> m2 x = hm_mem s2 x).
  { intros x Hx. rewrite !outside_cons in Hx. unfold m2, m1.
    rewrite (write64_agree _ _ _ x 1), (write_bytes_agree _ _ _ _ x 1), (write_bytes_agree _ _ _ _ x 1) by lia.
    done. }
  assert (Hz0 : forall i, 0 < i < 512 -> read64 m2 (pte_ptr l0 i) = 0).
  { intros i Hi. unfold m2, m1. rewrite read64_write64_ne by (unfold pte_ptr; lia).
    rewrite (read64_agree _ (write_bytes (hm_mem s2) l0 0 4096)).
    - apply read_write_bytes_zero; unfold pte_ptr; lia.
    - apply write_bytes_agree. unfold pte_ptr. lia. }
  assert (He0 : read64 m2 (pte_ptr l0 0) = table_desc l1).
  { unfold m2, pte_ptr. rewrite Z.mul_0_r, Z.add_0_r. apply read64_write64, table_desc_fits; done. }
  assert (Hz1 : forall i, 0 <= i < 512 -> read64 m2 (pte_ptr l1 i) = 0).
  { intros i Hi. unfold m2, m1. rewrite read64_write64_ne by (unfold pte_ptr; lia).
    apply read_write_bytes_zero; unfold pte_ptr; lia. }
  assert (Hne : l0 <> l1) by lia.
  split_and!.
  - constructor; cbn [dm_l0_table dm_l1_table].
    + constructor; simpl.
      * apply (heap_ok_write start s2); [done|done|exact Hout].
      * by apply new_wf.
    + intros ipa Hi. rewrite (new_tbl1 _ l0 l1) by done. by rewrite decide_True.
    + intros i Hi. simpl. fold m1 m2. rewrite Hz1 by done. done.
  - intros ipa. by apply (new_lookup m2 l0 l1).
  - intros x Hx. simpl. fold m1 m2. rewrite Hout by done.
    rewrite !outside_cons in Hx. rewrite Hx1, Hx0 by lia. done.
Qed.

Definition dm_effect (start : Z) (s : machine) (dm : DynamicIdentityMapper) (s' : machine)
  (dm' : DynamicIdentityMapper) (own : list Z) (others : list region)
  (look : Z -> option pdesc) : Prop :=
  exists own', dm_inv start s' dm' own' others /\ incl own own' /\
    (forall x, outside own' x -> hm_mem s' x = hm_mem s x) /\
    (forall ipa, s2_lookup (hm_mem s') (dm_l0_table dm') ipa = look ipa) /\
    dm_l0_table dm' = dm_l0_table dm /\ dm_l1_table dm' = dm_l1_table dm.

Lemma l1_ipa i : 0 <= i < 512 -> idx 0 (i * 2 ^ 30) = 0 /\ idx 1 (i * 2 ^ 30) = i.
Proof.
  intros Hi. unfold idx. change PT_INDEX_MASK with (2 ^ 9 - 1). rewrite !land_low by lia.
  rewrite !Z.shiftr_div_pow2 by lia. split.
  - replace (i * 2 ^ 30 / 2 ^ (39 - 9 * Z.of_nat 0)) with 0; [done|].
    symmetry. apply Z.div_small. simpl Z.of_nat. lia.
  - simpl Z.of_nat. change (39 - 9 * 1) with 30. rewrite Z.div_mul by lia. apply Z.mod_small. lia.
Qed.

Lemma table_desc_clean n : n mod 4096 = 0 -> 0 < n < 2 ^ 48 -> Z.land (table_desc n) (bmask 48 16) = 0.
Proof.
  intros Hal Hr. bit_ext i Hi. rewrite testbit_table_desc by lia.
  destruct (Z.leb_spec 48 i); simpl; [|btauto].
  rewrite (testbit_small n 48) by (unfold fits; lia). destruct (Z.ltb_spec i 2); [lia|done].
Qed.

Lemma dm_effect_of start s dm s' dm' own others look :
  dm_inv start s dm own others -> dm_l0_table dm' = dm_l0_table dm ->
  dm_l1_table dm' = dm_l1_table dm ->
  s2_effect start s s' (dm_l0_table dm) own others look ->
  dm_effect start s dm s' dm' own others look.
Proof.
  intros [Hi H1 Hc] E0 E1 (own' & Hi' & Hin & Hx & Hl & [G0 G1]). exists own'.
  assert (H1' : forall ipa, idx 0 ipa = 0 -> tbl 1 (hm_mem s') (dm_l0_table dm) ipa = Some (dm_l1_table dm)).
  { intros ipa Hip. rewrite <- (H1 ipa Hip), !tbl_S, G0. done. }
  split_and!; rewrite ?E0; auto. constructor; rewrite ?E0, ?E1; auto.
  intros i Hi2. destruct (l1_ipa i Hi2) as [Hi0 Hi1]. specialize (G1 (i * 2 ^ 30)).
  rewrite (entry_at_slot 1 _ _ _ _ (H1 _ Hi0)), (entry_at_slot 1 _ _ _ _ (H1' _ Hi0)), Hi1 in G1.
  destruct G1 as [[= ->]|(n & [= ->] & ? & ?)]; [by apply Hc|by apply table_desc_clean].
Qed.

Lemma dm_effect_refl start s dm own others :
  dm_inv start s dm own others ->
  dm_effect start s dm s dm own others (s2_lookup (hm_mem s) (dm_l0_table dm)).
Proof. intros H. exists own. split_and!; auto using incl_refl. Qed.

Lemma dm_effect_split start s dm s1 dm1 own others look :
  dm_effect start s dm s1 dm1 own others look ->
  exists own1, dm_inv start s1 dm1 own1 others /\
    (forall ipa, s2_lookup (hm_mem s1) (dm_l0_table dm1) ipa = look ipa) /\
    forall s2 dm2 look', dm_effect start s1 dm1 s2 dm2 own1 others look' ->
      dm_effect start s dm s2 dm2 own others look'.
Proof.
  intros (own1 & Hi1 & Hin1 & Hx1 & Hl1 & E0 & E1). exists own1. split_and!; [done|done|].
  intros s2 dm2 look' (own2 & Hi2 & Hin2 & Hx2 & Hl2 & E0' & E1').
  exists own2. split_and!; [done|by eapply incl_tran| |done|congruence|congruence].
  intros x Hx. rewrite Hx2 by done. apply Hx1. by eapply outside_incl.
Qed.

Lemma dm_effect_bind start s s1 s2 dm dm1 dm2 own others look look' :
  dm_effect start s dm s1 dm1 own others look ->
  (forall own1, dm_inv start s1 dm1 own1 others ->
     (forall ipa, s2_lookup (hm_mem s1) (dm_l0_table dm1) ipa = look ipa) ->
     dm_effect start s1 dm1 s2 dm2 own1 others look') ->
  dm_effect start s dm s2 dm2 own others look'.
Proof. intros H1 H2. destruct (dm_effect_split _ _ _ _ _ _ _ _ H1) as (own1 & ? & ? & H). auto. Qed.

Lemma dm_effect_ext start s dm s' dm' own others look look' :
  (forall ipa, look ipa = look' ipa) ->
  dm_effect start s dm s' dm' own others look -> dm_effect start s dm s' dm' own others look'.
Proof.
  intros He (own' & ? & ? & ? & Hl & ?). exists own'. split_and!; try tauto; auto.
  intros. by rewrite Hl.
Qed.

(** The two masks agree on a descriptor without high bits. *)
Lemma clean_addr e : fits 64 e -> Z.land e (bmask 48 16) = 0 ->
  Z.land e (not64 PAGE_OFFSET_MASK) = Z.land e PTE_ADDR_MASK.
Proof.
  intros He Hc. rewrite addr_mask_bmask. unfold not64. change PAGE_OFFSET_MASK with (Z.ones 12).
  bit_ext i Hi. apply (f_equal (fun z => Z.testbit z i)) in Hc. autorewrite with bits in Hc.
  change (12 + 36) with 48. change (48 + 16) with 64 in Hc.
  revert Hc. zdec; rewrite ?andb_true_r, ?andb_false_r; done.
Qed.

Lemma get_or_create_l2_spec start s dm own others ipa s' dm' r :
  dm_inv start s dm own others -> idx 0 ipa = 0 ->
  get_or_create_l2 (l1_index ipa) (s, dm) = ((s', dm'), r) ->
  dm_effect start s dm s' dm' own others (s2_lookup (hm_mem s) (dm_l0_table dm)) /\
  match r with
  | Ok t2 => tbl 2 (hm_mem s') (dm_l0_table dm) ipa = Some t2
  | Err e => s' = s /\ dm' = dm /\ e <> "out of fuel"%string /\
             ((4 <= dm_l2_count dm)%nat \/ heap_full s)
  end.
Proof.
  intros Hd Hi0. pose proof (dm_effect_refl _ _ _ _ _ Hd) as Hr.
  pose proof Hd as [Hi H1 Hc]. specialize (H1 ipa Hi0).
  unfold get_or_create_l2, sm_bind at 1 2, dm_self, lift_m at 1, m_read64. cbn [fst snd].
  change (l1_index ipa) with (idx 1 ipa).
  pose proof (tbl_S 1 (hm_mem s) (dm_l0_table dm) ipa) as T2.
  rewrite (entry_at_slot 1 _ _ _ _ H1) in T2.
  destruct (is_table_desc _) eqn:I1.
  { unfold sm_ret. intros H; inversion H; subst. split; [done|].
    rewrite clean_addr by (apply read64_fits || apply Hc, idx_range). done. }
  destruct (4 <=? dm_l2_count dm)%nat eqn:E4.
  { unfold sm_err. intros H; inversion H; subst. split_and!; try done. left. by apply Nat.leb_le. }
  unfold sm_bind at 1, lift_m at 1. cbn [fst snd].
  destruct (m_alloc_page _ s) as [s1 [n|err]] eqn:Ea.
  2:{ pose proof (heap_ok_alloc _ _ _ _ _ _ _ (si_heap _ _ _ _ _ Hi) Ea) as [_ ->].
      pose proof (heap_ok_alloc _ _ _ _ _ _ _ (si_heap _ _ _ _ _ Hi) Ea) as [-> _].
      intros H; inversion H; subst. split_and!; try done. right. by eapply m_alloc_page_err. }
  pose proof (heap_ok_alloc _ _ _ _ _ _ _ (si_heap _ _ _ _ _ Hi) Ea)
        as (Hal & Hrg & Hfr & Hh1 & Htr & Hx & Hsep).
  unfold sm_bind, m_zero_page, sm_upd, m_store64, lift_m, sm_ret. cbn [fst snd].
  rewrite table_desc_alt. intros H.
  assert (V : pte_valid (read64 (hm_mem s) (pte_ptr (dm_l1_table dm) (idx 1 ipa))) = false).
  { destruct (pte_valid _) eqn:V; [|done].
    pose proof (wf_l1 _ _ _ (si_wf _ _ _ _ _ Hi) ipa _ (entry_at_slot 1 _ _ _ _ H1) V) as B.
    rewrite is_table_desc_and, V, B in I1. done. }
  pose proof (link_effect start s _ own others 1 ipa _ n s1 Hi ltac:(lia) H1 V Hal Hrg Hfr Hh1 Hx Hsep)
    as (Hl & Htb & _).
  inversion H; subst s' dm' r. split; [|exact Htb].
  eapply dm_effect_of; [done|done|done|]. eapply s2_effect_tlb; [| |exact Hl]; done.
Qed.

(** ** Writing a block descriptor over any L2 entry *)
Section BlockStore.
Context (m : mem) (l0 : Z) (own : list Z) (Hwf : s2_wf m l0 own).
Context (ipa t e : Z) (Ht : tbl 2 m l0 ipa = Some t) (Hfit : fits 64 e)
  (Hv : pte_valid e = true) (Hb : pte_table_bit e = false).
Let p := pte_ptr t (idx 2 ipa).
Let m' := write64 m p e.

Lemma block_tbl_low j ipa' : (j <= 2)%nat -> tbl j m' l0 ipa' = tbl j m l0 ipa'.
Proof.
  induction j as [|j IH]; intros Hj; [done|]. cbn [tbl]. rewrite IH by lia.
  destruct (tbl j m l0 ipa') as [u|] eqn:Eu; [|done]. unfold m'.
  destruct (slot_cases m l0 own Hwf j 2 ipa' ipa u t ltac:(lia) ltac:(lia) Eu Ht) as [(E & _)|(_ & Hs)];
    [lia|].
  rewrite read64_write64_ne by (unfold p; tauto). done.
Qed.

Lemma block_entry_low j ipa' : (j <= 2)%nat -> entry_at j m' l0 ipa' =
  if decide (j = 2%nat /\ prefix 3 ipa' = prefix 3 ipa) then Some e else entry_at j m l0 ipa'.
Proof.
  intros Hj. unfold entry_at. rewrite block_tbl_low by done.
  destruct (decide _) as [[-> Hp]|Hd].
  - pose proof Hp as Hp'. apply prefix_same in Hp' as [Hp' Hi]; [|lia].
    rewrite (tbl_prefix m l0 2 ipa' ipa), Ht, Hi by (done || lia). unfold m', p. by rewrite read64_write64.
  - destruct (tbl j m l0 ipa') as [u|] eqn:Eu; [|done].
    destruct (slot_cases m l0 own Hwf j 2 ipa' ipa u t ltac:(lia) ltac:(lia) Eu Ht) as [(-> & Hp & _)|(_ & Hs)].
    + by exfalso; apply Hd.
    + unfold m'. rewrite read64_write64_ne by (unfold p; tauto). done.
Qed.

Lemma block_tbl3 ipa' : tbl 3 m' l0 ipa' =
  if decide (prefix 3 ipa' = prefix 3 ipa) then None else tbl 3 m l0 ipa'.
Proof.
  rewrite !(tbl_S 2), block_entry_low by lia. destruct (decide (prefix 3 ipa' = prefix 3 ipa)).
  - rewrite decide_True by done. rewrite is_table_desc_and, Hv, Hb. done.
  - by rewrite decide_False by tauto.
Qed.

Lemma block_entry3 ipa' : entry_at 3 m' l0 ipa' =
  if decide (prefix 3 ipa' = prefix 3 ipa) then None else entry_at 3 m l0 ipa'.
Proof.
  unfold entry_at. rewrite block_tbl3. case_decide; [done|].
  destruct (tbl 3 m l0 ipa') as [u|] eqn:Eu; [|done].
  destruct (slot_cases m l0 own Hwf 3 2 ipa' ipa u t ltac:(lia) ltac:(lia) Eu Ht) as [(E & _)|(_ & Hs)];
    [lia|].
  unfold m'. rewrite read64_write64_ne by (unfold p; tauto). done.
Qed.

Lemma block_tbl_sub k ipa' u : (k <= 3)%nat -> tbl k m' l0 ipa' = Some u -> tbl k m l0 ipa' = Some u.
Proof.
  intros Hk. destruct (decide (k <= 2)%nat); [by rewrite block_tbl_low|].
  assert (k = 3%nat) as -> by lia. rewrite block_tbl3. by case_decide.
Qed.

Lemma block_wf : Z.land e (bmask 12 9) = 0 -> s2_wf m' l0 own.
Proof.
  intros Hc. constructor.
  - intros k ipa' u Hk H. eapply (wf_table _ _ _ Hwf); eauto using block_tbl_sub.
  - intros j k ipa' ipa'' u Hj Hk H H'. eapply (wf_inj _ _ _ Hwf); eauto using block_tbl_sub.
  - intros ipa' e'. rewrite block_entry_low by lia. rewrite decide_False by lia. apply (wf_l1 _ _ _ Hwf).
  - intros ipa' e'. rewrite block_entry_low by lia. case_decide; [|apply (wf_l2 _ _ _ Hwf)].
    by intros [= <-].
Qed.

Lemma block_lookup ipa' : s2_lookup m' l0 ipa' =
  if decide (prefix 3 ipa' = prefix 3 ipa) then Some (leaf_desc 2 e ipa') else s2_lookup m l0 ipa'.
Proof.
  unfold s2_lookup. rewrite block_entry3, !block_entry_low by lia.
  rewrite (decide_False (P := 1%nat = 2%nat /\ _)) by lia.
  destruct (decide (prefix 3 ipa' = prefix 3 ipa)) as [Hp|Hp].
  - rewrite decide_True by done.
    assert (H2 : tbl 2 m l0 ipa' = Some t)
      by (rewrite <- Ht; apply tbl_prefix; [lia|]; eapply prefix_down; [|exact Hp]; lia).
    rewrite tbl_S in H2. destruct (entry_at 1 m l0 ipa') as [e1|]; [|done].
    destruct (is_table_desc e1) eqn:I1; [|done]. rewrite leaf_or_table by done.
    unfold leaf_or. by rewrite Hv, Hb.
  - by rewrite decide_False by tauto.
Qed.
End BlockStore.

Lemma block_store_effect start s l0 own others ipa t e :
  s2_inv start s l0 own others -> tbl 2 (hm_mem s) l0 ipa = Some t -> fits 64 e ->
  pte_valid e = true -> pte_table_bit e = false -> Z.land e (bmask 12 9) = 0 ->
  s2_effect start s (set_mem s (write64 (hm_mem s) (pte_ptr t (idx 2 ipa)) e)) l0 own others
    (fun ipa' => if decide (prefix 3 ipa' = prefix 3 ipa) then Some (leaf_desc 2 e ipa')
                 else s2_lookup (hm_mem s) l0 ipa').
Proof.
  intros [Hh Hwf] Ht Hf Hv Hb Hc.
  assert (Hx : forall x, outside own x ->
            write64 (hm_mem s) (pte_ptr t (idx 2 ipa)) e x = hm_mem s x).
  { intros x Hx. apply (store_outside _ l0 own 2); auto. }
  exists own. split_and!; [|by apply incl_refl|done| |].
  - constructor; [|by apply block_wf]. eapply heap_ok_write; [exact Hh|done|done].
  - intros ipa'. by apply (block_lookup _ _ own).
  - constructor; intros ipa'; [|left]; cbn [hm_mem set_mem];
      rewrite (block_entry_low _ _ own) by (done || lia); rewrite decide_False by lia; done.
Qed.

Lemma attr_bits_testbit attr i : 0 <= i ->
  Z.testbit (attr_bits attr) i = (i <? 11) && Z.testbit (attr_bits attr) i /\
  (i < 2 -> Z.testbit (attr_bits attr) i = false).
Proof.
  intros Hi. split.
  - destruct (Z.ltb_spec i 11); [done|]. apply (testbit_small _ 11); [lia|].
    destruct attr; vm_compute; split; (done || discriminate).
  - intros. assert (i = 0 \/ i = 1) as [-> | ->] by lia; by destruct attr.
Qed.

Lemma block_entry_testbit pa attr i : fits 48 pa -> 0 <= i ->
  Z.testbit (make_block_entry pa attr) i =
  if i <? 1 then true else if i <? 11 then Z.testbit (attr_bits attr) i
  else if i <? 21 then false else Z.testbit pa i.
Proof.
  intros Hpa Hi. unfold make_block_entry. change PTE_VALID with (Z.ones 1).
  change BLOCK_MASK_2MB with (Z.ones 21). unfold not64. autorewrite with bits.
  destruct (attr_bits_testbit attr i Hi) as [Ha Hb]. revert Ha Hb.
  zdec; rewrite ?andb_true_r, ?andb_false_r, ?orb_false_r, ?orb_true_r; intros Ha Hb;
    try rewrite Ha; rewrite ?andb_true_r, ?andb_false_r, ?orb_false_r, ?orb_true_r; try done.
  rewrite (testbit_small pa 48); [done|lia|done].
Qed.

Section BlockEntry.
Context (pa : Z) (attr : MemoryAttribute) (Hpa : fits 48 pa).

Lemma block_entry_props :
  fits 64 (make_block_entry pa attr) /\ pte_valid (make_block_entry pa attr) = true /\
  pte_table_bit (make_block_entry pa attr) = false /\
  Z.land (make_block_entry pa attr) (bmask 12 9) = 0.
Proof.
  split_and!.
  - apply fits_testbit; [lia| |].
    + unfold make_block_entry. apply lor_nn; [apply lor_nn|]; [apply land_nn_r; by vm_compute| |by vm_compute].
      destruct attr; by vm_compute.
    + intros i Hi. rewrite block_entry_testbit by (done || lia). zdec.
      apply (testbit_small pa 48); [lia|done].
  - rewrite pte_valid_bit, block_entry_testbit by (done || lia). done.
  - rewrite pte_table_bit_bit, block_entry_testbit by (done || lia). by destruct attr.
  - bit_ext i Hi. rewrite block_entry_testbit by (done || lia). zdec; btauto.
Qed.

Lemma prefix3_testbit x j : 0 <= j -> Z.testbit (prefix 3 x) j = (j <? 27) && Z.testbit x (j + 21).
Proof.
  intros Hj. unfold prefix. change (48 - 9 * Z.of_nat 3) with 21.
  change (x mod 2 ^ 48) with (wrap 48 x). rewrite <- Z.shiftr_div_pow2 by lia.
  autorewrite with bits. zdec; done.
Qed.

(** The page a block gives to an address inside it. *)
Definition id_desc (ipa : Z) : pdesc := mkPd (ipa mod 2 ^ 48 - ipa mod 4096) (attr_bits attr).

Lemma block_desc ipa : prefix 3 ipa = prefix 3 pa ->
  leaf_desc 2 (make_block_entry pa attr) ipa = id_desc ipa.
Proof.
  intros Hp. unfold leaf_desc, id_desc. change (39 - 9 * Z.of_nat 2) with 21. f_equal.
  - replace (ipa mod 2 ^ 48 - ipa mod 4096) with (Z.land (wrap 48 ipa) (notw 48 (2 ^ 12 - 1))).
    2:{ rewrite land_notw_low by (lia || (apply wrap_fits; lia)). unfold wrap. f_equal.
        change (2 ^ 12) with 4096. Z.div_mod_to_equations. lia. }
    change (2 ^ 12 - 1) with (Z.ones 12).
    bit_ext i Hi. rewrite block_entry_testbit by (done || lia).
    assert (Hb : 21 <= i < 48 -> Z.testbit ipa i = Z.testbit pa i).
    { intros Hr. apply (f_equal (fun z => Z.testbit z (i - 21))) in Hp.
      rewrite !prefix3_testbit in Hp by lia. revert Hp. replace (i - 21 + 21) with i by lia.
      destruct (Z.ltb_spec (i - 21) 27); [done|lia]. }
    zdec; rewrite ?andb_true_r, ?andb_false_r, ?orb_false_r; try done. by rewrite Hb.
  - unfold ATTR_MASK. bit_ext i Hi. rewrite block_entry_testbit by (done || lia).
    destruct (attr_bits_testbit attr i Hi) as [Ha Hb]. revert Ha Hb.
    zdec; rewrite ?andb_true_r, ?andb_false_r, ?orb_false_r; intros Ha Hb; try done;
      rewrite ?Hb by lia; try done.
    rewrite Ha. apply (testbit_small pa 48); [lia|done].
Qed.
End BlockEntry.

(** ** [map_region] *)
Definition region_look (lo hi : Z) (attr : MemoryAttribute) (look : Z -> option pdesc)
  (ipa : Z) : option pdesc :=
  if (lo <=? ipa mod 2 ^ 48) && (ipa mod 2 ^ 48 <? hi) then Some (id_desc attr ipa) else look ipa.

Lemma prefix3_block cur ipa : cur mod 2 ^ 21 = 0 -> fits 48 cur ->
  prefix 3 ipa = prefix 3 cur <-> cur <= ipa mod 2 ^ 48 < cur + 2 ^ 21.
Proof.
  intros Hal Hf. unfold prefix. change (48 - 9 * Z.of_nat 3) with 21.
  rewrite (Z.mod_small cur) by exact Hf. generalize (ipa mod 2 ^ 48). intros y.
  Z.div_mod_to_equations. lia.
Qed.

Lemma idx0_low ipa : 0 <= ipa < 2 ^ 39 -> idx 0 ipa = 0.
Proof.
  intros. unfold idx. change (39 - 9 * Z.of_nat 0) with 39.
  rewrite Z.shiftr_div_pow2, Z.div_small by lia. done.
Qed.

Lemma map_block_spec start s dm own others cur attr s' dm' r :
  dm_inv start s dm own others -> cur mod 2 ^ 21 = 0 -> 0 <= cur < 2 ^ 39 ->
  map_block cur attr (s, dm) = ((s', dm'), r) ->
  match r with
  | Ok _ => dm_effect start s dm s' dm' own others
              (region_look cur (cur + 2 ^ 21) attr (s2_lookup (hm_mem s) (dm_l0_table dm)))
  | Err e => s' = s /\ dm' = dm /\ e <> "out of fuel"%string /\
             ((4 <= dm_l2_count dm)%nat \/ heap_full s)
  end.
Proof.
  intros Hd Hal Hr. unfold map_block, sm_bind at 1.
  destruct (get_or_create_l2 _ (s, dm)) as [[s1 dm1] [t2|e]] eqn:E;
    apply (get_or_create_l2_spec _ _ _ _ _ _ _ _ _ Hd (idx0_low _ Hr)) in E as [He T2].
  2:{ intros H; inversion H; subst. exact T2. }
  assert (Hf : fits 48 cur) by (unfold fits; lia).
  destruct (block_entry_props cur attr Hf) as (P1 & P2 & P3 & P4).
  unfold lift_m, m_store64, sm_upd. cbn [fst snd]. intros H; inversion H; subst; clear H.
  eapply dm_effect_bind; [exact He|]. intros own1 Hd1 Hl1.
  assert (T2' : tbl 2 (hm_mem s1) (dm_l0_table dm') cur = Some t2).
  { destruct He as (? & _ & _ & _ & _ & -> & _). exact T2. }
  eapply dm_effect_ext; [|eapply dm_effect_of; [exact Hd1|done|done|];
    eapply s2_effect_tlb; [| |eapply (block_store_effect start s1 _ own1 others cur t2 (make_block_entry cur attr)); eauto using di_inv]; try done].
  intros ipa. cbv beta. unfold region_look. rewrite <- Hl1. case_decide as Hp.
  - pose proof (proj1 (prefix3_block cur ipa Hal Hf) Hp). rewrite block_desc by done. zdec. done.
  - rewrite prefix3_block in Hp by done. zdec; done || lia.
Qed.

Definition round_2mb (n : Z) : Z := (n + 2 ^ 21 - 1) / 2 ^ 21 * 2 ^ 21.

Lemma map_region_loop_spec start others ipa size attr :
  ipa mod 2 ^ 21 = 0 -> 0 <= ipa -> 0 <= size -> ipa + size <= 2 ^ 39 ->
  forall fuel s dm own offset s' dm' r,
  dm_inv start s dm own others -> offset mod 2 ^ 21 = 0 -> 0 <= offset ->
  size <= offset + Z.of_nat fuel * 2 ^ 21 ->
  map_region_loop fuel ipa size offset attr (s, dm) = ((s', dm'), r) ->
  match r with
  | Ok _ => dm_effect start s dm s' dm' own others
              (region_look (ipa + offset) (ipa + round_2mb size) attr (s2_lookup (hm_mem s) (dm_l0_table dm)))
  | Err e => e <> "out of fuel"%string /\ ((4 <= dm_l2_count dm')%nat \/ heap_full s') /\
             exists hi, dm_effect start s dm s' dm' own others
               (region_look (ipa + offset) hi attr (s2_lookup (hm_mem s) (dm_l0_table dm)))
  end.
Proof.
  intros Hal H0 Hs Hmax. unfold round_2mb.
  induction fuel as [|fuel IH]; intros s dm own offset s' dm' r Hd Hoa Ho Hf; cbn [map_region_loop].
  - destruct (Z.ltb_spec offset size); [lia|]. cbn [negb]. unfold sm_ret. intros E; inversion E; subst.
    eapply dm_effect_ext; [|by apply dm_effect_refl]. intros ipa'. unfold region_look. zdec; try done.
    exfalso. Z.div_mod_to_equations. lia.
  - destruct (Z.ltb_spec offset size); cbn [negb].
    2:{ unfold sm_ret. intros E; inversion E; subst.
        eapply dm_effect_ext; [|by apply dm_effect_refl]. intros ipa'. unfold region_look. zdec; try done.
        exfalso. Z.div_mod_to_equations. lia. }
    assert (Hc : u64 (ipa + offset) = ipa + offset) by (apply wrap_id; unfold fits; lia).
    assert (Hn : u64 (offset + BLOCK_SIZE_2MB) = offset + 2 ^ 21) by (apply wrap_id; unfold fits, BLOCK_SIZE_2MB; lia).
    rewrite Hc, Hn. unfold sm_bind at 1.
    assert (Hca : (ipa + offset) mod 2 ^ 21 = 0) by (clear - Hal Hoa; Z.div_mod_to_equations; lia).
    assert (Hna : (offset + 2 ^ 21) mod 2 ^ 21 = 0) by (clear - Hoa; Z.div_mod_to_equations; lia).
    destruct (map_block _ _ (s, dm)) as [[s1 dm1] rb] eqn:Eb.
    apply (map_block_spec _ _ _ _ _ _ _ _ _ _ Hd Hca ltac:(lia)) in Eb. destruct rb as [[]|e].
    2:{ destruct Eb as (-> & -> & He & Hw). intros E; inversion E; subst. split_and!; try done.
        exists (ipa + offset). eapply dm_effect_ext; [|by apply dm_effect_refl].
        intros ipa'. unfold region_look. zdec; done || lia. }
    intros E. destruct (dm_effect_split _ _ _ _ _ _ _ _ Eb) as (own1 & Hd1 & Hl1 & Hcomp).
    specialize (IH s1 dm1 own1 (offset + 2 ^ 21) s' dm' r Hd1 Hna ltac:(lia) ltac:(lia) E).
    assert (Hlook : forall hi ipa',
      region_look (ipa + (offset + 2 ^ 21)) hi attr (s2_lookup (hm_mem s1) (dm_l0_table dm1)) ipa' =
      region_look (ipa + offset) (Z.max hi (ipa + offset + 2 ^ 21)) attr (s2_lookup (hm_mem s) (dm_l0_table dm)) ipa').
    { intros hi ipa'. unfold region_look at 1. rewrite Hl1. unfold region_look. zdec; done || lia. }
    destruct r as [u|e].
    + apply Hcomp. eapply dm_effect_ext; [|exact IH]. intros ipa'. rewrite Hlook. f_equal.
      Z.div_mod_to_equations. lia.
    + destruct IH as (He & Hw & hi & Heff). split_and!; try done.
      exists (Z.max hi (ipa + offset + 2 ^ 21)). apply Hcomp.
      eapply dm_effect_ext; [|exact Heff]. intros ipa'. apply Hlook.
Qed.

Lemma map_region_spec start s dm own others ipa size attr s' dm' r :
  dm_inv start s dm own others ->
  ipa mod 2 ^ 21 = 0 -> 0 <= ipa -> 0 <= size -> ipa + size <= 2 ^ 39 ->
  map_region ipa size attr (s, dm) = ((s', dm'), r) ->
  match r with
  | Ok _ => dm_effect start s dm s' dm' own others
              (region_look ipa (ipa + round_2mb size) attr (s2_lookup (hm_mem s) (dm_l0_table dm)))
  | Err e => e <> "out of fuel"%string /\ ((4 <= dm_l2_count dm')%nat \/ heap_full s') /\
             exists hi, dm_effect start s dm s' dm' own others
               (region_look ipa hi attr (s2_lookup (hm_mem s) (dm_l0_table dm)))
  end.
Proof.
  intros Hd Hal H0 Hs Hmax H.
  pose proof (map_region_loop_spec start others ipa size attr Hal H0 Hs Hmax
    (Z.to_nat (size / BLOCK_SIZE_2MB + 1)) s dm own 0 s' dm' r
    Hd eq_refl ltac:(lia)) as Hl.
  rewrite Z.add_0_r in Hl. apply Hl in H; [exact H|]. unfold BLOCK_SIZE_2MB.
  Z.div_mod_to_equations. lia.
Qed.

(** ** 4KB pages *)
Lemma mapper_split_spec start s l0 own others ipa t s' r :
  s2_inv start s l0 own others -> tbl 2 (hm_mem s) l0 ipa = Some t ->
  let p := pte_ptr t (idx 2 ipa) in
  pte_valid (read64 (hm_mem s) p) = true -> pte_table_bit (read64 (hm_mem s) p) = false ->
  split_2mb_block t (idx 2 ipa) (read64 (hm_mem s) p) s = (s', r) ->
  s2_effect start s s' l0 own others (s2_lookup (hm_mem s) l0) /\
  match r with
  | Ok t3 => tbl 3 (hm_mem s') l0 ipa = Some t3
  | Err _ => s' = s /\ heap_full s
  end.
Proof.
  intros Hi Ht p Hv Hb H. pose proof Hi as [Hh Hwf]. unfold split_2mb_block in H.
  unfold sm_bind at 1 in H. destruct (m_alloc_page _ s) as [s1 [n|err]] eqn:Ea.
  2:{ pose proof (m_alloc_page_err _ _ _ _ Ea).
      apply (heap_ok_alloc _ _ _ _ _ _ _ Hh) in Ea as [_ ->]. inversion H; subst.
      split; [by apply s2_effect_refl|done]. }
  apply (heap_ok_alloc _ _ _ _ _ _ _ Hh) in Ea as (Hal & Hr & Hfr & Hh1 & Htr & Hx & Hsep).
  assert (Hcl : Z.land (read64 (hm_mem s) p) (bmask 12 9) = 0)
    by (eapply (wf_l2 _ _ _ Hwf ipa); [by apply entry_at_slot|done|done]).
  assert (Hc : forall i, 0 <= i < 512 ->
    read64 (fill_l3 (hm_mem s1) n (mapper_split_entry (read64 (hm_mem s) p)) 512) (pte_ptr n i) =
    split_page_entry (read64 (hm_mem s) p) i).
  { intros i Hii. pose proof (mapper_split_entry_eq _ i (read64_fits (hm_mem s) p) Hii Hcl) as Heq.
    pose proof (split_page_entry_fits _ i (read64_fits (hm_mem s) p) Hii Hcl) as Hf.
    rewrite <- Heq in Hf |- *. replace i with (Z.of_nat (Z.to_nat i)) in Hf |- * by lia.
    apply fill_l3_read; [lia|done]. }
  assert (Hx1 : forall x, ~ (n <= x < n + 4096) ->
    fill_l3 (hm_mem s1) n (mapper_split_entry (read64 (hm_mem s) p)) 512 x = hm_mem s x).
  { intros x Hnx. rewrite fill_l3_frame by lia. by apply Hx. }
  cbv [sm_bind sm_upd m_store64 tlbi_all log_ev set_mem sm_ret] in H.
  change (Z.lor (Z.lor n PTE_VALID) PTE_TABLE) with (table_desc n) in H.
  inversion H; subst s' r; clear H.
  match goal with |- s2_effect _ _ ?s2 _ _ _ _ /\ _ =>
    destruct (split_link_effect start s s1 s2 l0 own others ipa t n _ Hi
      Ht Hv Hb Hal Hr Hfr Hh1 Hx Hsep Hx1 Hc eq_refl eq_refl) as (? & ? & _); by split end.
Qed.

Lemma page_entry_testbit pa attr i : fits 48 pa -> 0 <= i ->
  Z.testbit (make_page_entry (Z.land pa (not64 PAGE_MASK_4KB)) attr) i =
  if i <? 2 then true else if i <? 11 then Z.testbit (attr_bits attr) i
  else if i <? 12 then false else Z.testbit pa i.
Proof.
  intros Hpa Hi. unfold make_page_entry. rewrite <- Z.lor_assoc.
  change (Z.lor PTE_TABLE PTE_VALID) with (Z.ones 2).
  change PAGE_MASK_4KB with (Z.ones 12). unfold not64. autorewrite with bits.
  destruct (attr_bits_testbit attr i Hi) as [Ha Hb]. revert Ha Hb.
  zdec; rewrite ?andb_true_r, ?andb_false_r, ?orb_false_r, ?orb_true_r; intros Ha Hb;
    try rewrite Ha; rewrite ?andb_true_r, ?andb_false_r, ?orb_false_r, ?orb_true_r; try done.
  rewrite (testbit_small pa 48); [done|lia|done].
Qed.

Lemma page_entry_props ipa attr ipa' : fits 48 ipa ->
  let e := make_page_entry (Z.land ipa (not64 PAGE_MASK_4KB)) attr in
  fits 64 e /\ pte_valid e = true /\ leaf_desc 3 e ipa' = mkPd (ipa - ipa mod 4096) (attr_bits attr).
Proof.
  intros Hf e. unfold e. split_and!.
  - apply fits_testbit; [lia| |].
    + unfold make_page_entry. apply lor_nn; [apply lor_nn; [apply lor_nn|]|].
      * apply land_nn_r. by vm_compute.
      * destruct attr; by vm_compute.
      * by vm_compute.
      * by vm_compute.
    + intros i Hi. rewrite page_entry_testbit by (done || lia). zdec.
      apply (testbit_small ipa 48); [lia|done].
  - rewrite pte_valid_bit, page_entry_testbit by (done || lia). done.
  - unfold leaf_desc. change (39 - 9 * Z.of_nat 3) with 12. change 4096 with (2 ^ 12).
    rewrite <- (land_notw_low 48 12 ipa) by (done || lia). change (2 ^ 12 - 1) with (Z.ones 12).
    unfold ATTR_MASK. f_equal; bit_ext i Hi; rewrite page_entry_testbit by (done || lia).
    + zdec; rewrite ?andb_true_r, ?andb_false_r, ?orb_false_r; done.
    + destruct (attr_bits_testbit attr i Hi) as [Ha Hb]. revert Ha Hb.
      zdec; rewrite ?andb_true_r, ?andb_false_r, ?orb_false_r; intros Ha Hb; try done;
        rewrite ?Hb by lia; try done.
      rewrite Ha. apply (testbit_small ipa 48); [lia|done].
Qed.

(** The L3 table [map_4kb_page] and [unmap_4kb_page] work on. *)
Lemma acquire_l3_spec start s dm own others ipa t2 (alloc : bool) s' dm' r :
  dm_inv start s dm own others -> tbl 2 (hm_mem s) (dm_l0_table dm) ipa = Some t2 ->
  let p := pte_ptr t2 (idx 2 ipa) in
  let e := read64 (hm_mem s) p in
  (if pte_valid e && negb (pte_table_bit e)
   then lift_m (split_2mb_block t2 (idx 2 ipa) e)
   else if is_table_desc e then sm_ret (Z.land e PTE_ADDR_MASK)
   else if alloc then
     let* l3 := lift_m (m_alloc_page "Failed to allocate L3 table") in
     lift_m (m_zero_page l3) ;;;
     lift_m (m_store64 p (Z.lor (Z.lor l3 PTE_VALID) PTE_TABLE)) ;;;
     sm_ret l3
   else sm_err "L2 entry not valid"%string) (s, dm) = ((s', dm'), r) ->
  dm_effect start s dm s' dm' own others (s2_lookup (hm_mem s) (dm_l0_table dm)) /\
  match r with
  | Ok t3 => tbl 3 (hm_mem s') (dm_l0_table dm) ipa = Some t3
  | Err _ => s' = s /\ (heap_full s \/ (alloc = false /\ pte_valid e = false))
  end.
Proof.
  intros Hd T2 p e H. pose proof Hd as [Hi _ _].
  pose proof (tbl_S 2 (hm_mem s) (dm_l0_table dm) ipa) as T3.
  rewrite (entry_at_slot 2 _ _ _ _ T2) in T3. fold p e in T3. rewrite is_table_desc_and in H, T3.
  destruct (pte_valid e) eqn:V; cbn [andb] in H, T3.
  - destruct (pte_table_bit e) eqn:B; cbn [negb] in H.
    + unfold sm_ret in H. inversion H; subst s' dm' r. split; [by apply dm_effect_refl|done].
    + unfold lift_m in H. cbn [fst snd] in H.
      destruct (split_2mb_block t2 (idx 2 ipa) e s) as [s1 r1] eqn:E. inversion H; subst s' dm' r.
      apply (mapper_split_spec _ _ _ _ _ _ _ _ _ Hi T2 V B) in E as [He Hk].
      split; [by eapply dm_effect_of|]. destruct r1; [done|]. destruct Hk; auto.
  - destruct alloc; [|unfold sm_err in H; inversion H; subst s' dm' r; split; [by apply dm_effect_refl|auto]].
    unfold sm_bind at 1, lift_m at 1 in H. cbn [fst snd] in H.
    destruct (m_alloc_page _ s) as [s1 [n|err]] eqn:Ea.
    2:{ pose proof (m_alloc_page_err _ _ _ _ Ea).
        apply (heap_ok_alloc _ _ _ _ _ _ _ (si_heap _ _ _ _ _ Hi)) in Ea as [_ ->].
        inversion H; subst s' dm' r. split; [by apply dm_effect_refl|auto]. }
    apply (heap_ok_alloc _ _ _ _ _ _ _ (si_heap _ _ _ _ _ Hi)) in Ea
      as (Hal & Hrg & Hfr & Hh1 & Htr & Hx & Hsep).
    unfold sm_bind, m_zero_page, sm_upd, m_store64, lift_m, sm_ret in H. cbn [fst snd] in H.
    pose proof (link_effect start s _ own others 2 ipa _ n s1 Hi ltac:(lia) T2 V Hal Hrg Hfr Hh1 Hx Hsep)
      as (Hl & Htb & _).
    change (Z.lor (Z.lor n PTE_VALID) PTE_TABLE) with (table_desc n) in H.
    inversion H; subst s' dm' r. split; [|exact Htb].
    eapply dm_effect_of; [done|done|done|]. eapply s2_effect_tlb; [| |exact Hl]; done.
Qed.

(** Storing an L3 entry and invalidating its TLB entry. *)
Lemma dm_store_l3 start s dm own others ipa t3 e :
  dm_inv start s dm own others -> tbl 3 (hm_mem s) (dm_l0_table dm) ipa = Some t3 -> fits 64 e ->
  forall s' dm' r,
  (lift_m (m_store64 (pte_ptr t3 (idx 3 ipa)) e) ;;; lift_m (tlbi_ipa ipa)) (s, dm) = ((s', dm'), r) ->
  r = Ok tt /\
  dm_effect start s dm s' dm' own others
    (on_page ipa (fun _ => if pte_valid e then Some (leaf_desc 3 e ipa) else None)
       (s2_lookup (hm_mem s) (dm_l0_table dm))).
Proof.
  intros Hd T3 Hf s' dm' r H. pose proof Hd as [Hi _ _].
  unfold sm_bind, lift_m, m_store64, tlbi_ipa, sm_upd in H. cbn [fst snd] in H.
  inversion H; subst s' dm' r. split; [done|].
  eapply dm_effect_ext; [|eapply dm_effect_of; [exact Hd|done|done|]; eapply s2_effect_tlb;
    [| |eapply (store_l3_effect start s _ own others ipa t3 e); eauto]; try done].
  intros ipa'. cbv beta. unfold on_page. case_decide; [|done]. by rewrite (leaf_desc3_any e ipa' ipa).
Qed.

Lemma map_4kb_page_spec start s dm own others ipa attr s' dm' r :
  dm_inv start s dm own others -> 0 <= ipa < 2 ^ 39 ->
  map_4kb_page ipa attr (s, dm) = ((s', dm'), r) ->
  match r with
  | Ok _ => dm_effect start s dm s' dm' own others
              (on_page ipa (fun _ => Some (mkPd (ipa - ipa mod 4096) (attr_bits attr)))
                 (s2_lookup (hm_mem s) (dm_l0_table dm)))
  | Err _ => dm_effect start s dm s' dm' own others (s2_lookup (hm_mem s) (dm_l0_table dm)) /\
             ((4 <= dm_l2_count dm)%nat \/ heap_full s')
  end.
Proof.
  intros Hd Hr. unfold map_4kb_page, sm_bind at 1.
  destruct (get_or_create_l2 _ (s, dm)) as [[s1 dm1] [t2|e]] eqn:E;
    apply (get_or_create_l2_spec _ _ _ _ _ _ _ _ _ Hd (idx0_low _ Hr)) in E as [He T2].
  2:{ intros H; inversion H; subst. destruct T2 as (-> & -> & _ & ?). done. }
  destruct (dm_effect_split _ _ _ _ _ _ _ _ He) as (own1 & Hd1 & Hl1 & Hc1).
  assert (E0 : dm_l0_table dm1 = dm_l0_table dm) by (destruct He as (? & _ & _ & _ & _ & ? & _); done).
  rewrite <- E0 in T2. unfold sm_bind at 1, lift_m at 1, m_read64. cbn [fst snd].
  change (l2_index ipa) with (idx 2 ipa). unfold sm_bind at 1.
  match goal with |- match ?c with _ => _ end = _ -> _ => destruct c as [[s2 dm2] r2] eqn:E2 end.
  pose proof (acquire_l3_spec start s1 dm1 own1 others ipa t2 true s2 dm2 r2 Hd1 T2 E2) as [He2 T3].
  destruct r2 as [t3|e]; cycle 1.
  { intros H; inversion H; subst. split.
    - apply Hc1. eapply dm_effect_ext; [|exact He2]. intros; apply Hl1.
    - destruct T3 as [-> [?|[? _]]]; [auto|done]. }
  destruct (dm_effect_split _ _ _ _ _ _ _ _ He2) as (own2 & Hd2 & Hl2 & Hc2).
  assert (E0' : dm_l0_table dm2 = dm_l0_table dm1) by (destruct He2 as (? & _ & _ & _ & _ & ? & _); done).
  rewrite <- E0' in T3. change (l3_index ipa) with (idx 3 ipa). intros H.
  assert (Hf : fits 48 ipa) by (unfold fits; lia).
  destruct (page_entry_props ipa attr ipa Hf) as (P1 & P2 & P3).
  destruct (dm_store_l3 start s2 dm2 own2 others ipa t3 _ Hd2 T3 P1 _ _ _ H) as [-> He3].
  apply Hc1, Hc2. eapply dm_effect_ext; [|exact He3]. intros ipa'. unfold on_page.
  rewrite P2, P3, Hl2, Hl1. done.
Qed.

Lemma unmap_4kb_page_spec start s dm own others ipa s' dm' r :
  dm_inv start s dm own others -> 0 <= ipa < 2 ^ 39 ->
  unmap_4kb_page ipa (s, dm) = ((s', dm'), r) ->
  match r with
  | Ok _ => dm_effect start s dm s' dm' own others
              (on_page ipa (fun _ => None) (s2_lookup (hm_mem s) (dm_l0_table dm)))
  | Err _ => s' = s /\ dm' = dm /\ (s2_lookup (hm_mem s) (dm_l0_table dm) ipa = None \/ heap_full s)
  end.
Proof.
  intros Hd Hr. unfold unmap_4kb_page, sm_bind at 1 2, dm_self, lift_m at 1, m_read64 at 1. cbn [fst snd].
  pose proof Hd as [Hi H1 _]. specialize (H1 ipa (idx0_low _ Hr)).
  pose proof (tbl_S 1 (hm_mem s) (dm_l0_table dm) ipa) as T2.
  pose proof (entry_at_slot 1 _ _ _ _ H1) as En1. rewrite En1 in T2.
  change (l1_index ipa) with (idx 1 ipa).
  destruct (is_table_desc _) eqn:I1; cbn [negb].
  2:{ unfold sm_err. intros H; inversion H; subst. split_and!; try done. left.
      unfold s2_lookup. rewrite En1. unfold leaf_or. destruct (pte_valid _) eqn:V; [|done].
      rewrite is_table_desc_and, V in I1. rewrite (wf_l1 _ _ _ (si_wf _ _ _ _ _ Hi) _ _ En1 V) in I1. done. }
  remember (Z.land _ PTE_ADDR_MASK) as t2 eqn:Ht2 in T2 |- *.
  unfold sm_bind at 1, lift_m at 1, m_read64 at 1. cbn [fst snd]. unfold sm_bind at 1.
  change (l2_index ipa) with (idx 2 ipa).
  match goal with |- match ?c with _ => _ end = _ -> _ => destruct c as [[s2 dm2] r2] eqn:E2 end.
  pose proof (acquire_l3_spec start s dm own others ipa t2 false s2 dm2 r2 Hd T2 E2) as [He2 T3].
  destruct r2 as [t3|e]; cycle 1.
  { intros H; inversion H; subst. destruct T3 as [-> T3]. split_and!; [done| |].
    - revert E2. unfold lift_m, sm_ret, sm_err. cbn [fst snd]. repeat case_match; intros; simplify_eq; done.
    - destruct T3 as [?|[_ V]]; [auto|]. left. unfold s2_lookup. rewrite En1, leaf_or_table by done.
      rewrite (entry_at_slot 2 _ _ _ _ T2). unfold leaf_or. by rewrite V. }
  destruct (dm_effect_split _ _ _ _ _ _ _ _ He2) as (own2 & Hd2 & Hl2 & Hc2).
  assert (E0' : dm_l0_table dm2 = dm_l0_table dm) by (destruct He2 as (? & _ & _ & _ & _ & ? & _); done).
  rewrite <- E0' in T3. change (l3_index ipa) with (idx 3 ipa). intros H.
  destruct (dm_store_l3 start s2 dm2 own2 others ipa t3 0 Hd2 T3 fits_0 _ _ _ H) as [-> He3].
  apply Hc2. eapply dm_effect_ext; [|exact He3]. intros ipa'. unfold on_page.
  change (pte_valid 0) with false. cbv iota. rewrite Hl2. done.
Qed.

Lemma mapper_walk_same m dm ipa :
  mapper_walk_to_leaf_ptr m dm ipa = walk_to_leaf_ptr m (mkWalker (dm_l0_table dm)) ipa.
Proof. reflexivity. Qed.
