(* ===== verification/Stage2Thms.v ===== *)
(** * Theorems on the heap and the Stage-2 tables

    The abstract page map as a specification: each walker operation is an update
    of the map when it succeeds and leaves it alone when it fails; sequences of
    operations refine sequences of updates and never touch the tables of another
    VM.  [mapper_new] and [map_region] build exactly the identity map asked for. *)

From Stdlib Require Import ZArith Lia Btauto.
From stdpp Require Import base list strings.
From S2P Require Import Prelude Memory Allocator Stage2 Stage2Spec Stage2Bits Stage2Ops.
From S2P Require Import Stage2Walk Stage2Boot.
Import Walker Mapper.

(** ** Operations and their abstract counterparts *)
Inductive s2_op :=
| OpWriteSw (ipa bits : Z)
| OpSetS2ap (ipa ap : Z)
| OpMapPage (ipa ap sw : Z)
| OpUnmapPage (ipa : Z).

Definition run_op (w : Stage2Walker) (o : s2_op) : s2m unit :=
  match o with
  | OpWriteSw ipa bits => write_sw_bits w ipa bits
  | OpSetS2ap ipa ap => set_s2ap w ipa ap
  | OpMapPage ipa ap sw => map_page w ipa ap sw
  | OpUnmapPage ipa => unmap_page w ipa
  end.

Definition op_ok (o : s2_op) : Prop :=
  match o with OpMapPage ipa _ _ => fits 64 ipa | _ => True end.

(** The page map after a successful operation. *)
Definition abs_op (o : s2_op) (look : Z -> option pdesc) : Z -> option pdesc :=
  match o with
  | OpWriteSw ipa bits => on_page ipa (option_map (pd_upd PTE_SW_SHIFT bits)) look
  | OpSetS2ap ipa ap => on_page ipa (option_map (pd_upd S2AP_SHIFT ap)) look
  | OpMapPage ipa ap sw => on_page ipa (fun _ => Some (leaf_desc 3 (page_descriptor ipa ap sw) ipa)) look
  | OpUnmapPage ipa => on_page ipa (fun _ => None) look
  end.

Lemma on_page_ext ipa f look look' : (forall x, look x = look' x) ->
  forall x, on_page ipa f look x = on_page ipa f look' x.
Proof. intros H x. unfold on_page. by rewrite H. Qed.

Lemma abs_op_ext o look look' : (forall x, look x = look' x) ->
  forall x, abs_op o look x = abs_op o look' x.
Proof. intros H. destruct o; simpl; by apply on_page_ext. Qed.

Lemma run_op_effect start s l0 own others o s' r :
  s2_inv start s l0 own others -> op_ok o -> run_op (mkWalker l0) o s = (s', r) ->
  s2_effect start s s' l0 own others
    (if is_ok r then abs_op o (s2_lookup (hm_mem s) l0) else s2_lookup (hm_mem s) l0).
Proof.
  intros Hi Hok. destruct o as [ipa bits|ipa ap|ipa ap sw|ipa]; simpl.
  - rewrite write_sw_bits_field. intros H.
    apply (field_write_spec _ _ _ _ _ _ _ _ _ _ (or_introl eq_refl) Hi) in H.
    destruct r; simpl; tauto.
  - rewrite set_s2ap_field. destruct (field_write _ _ _ _ s) as [s1 r1] eqn:E.
    apply (field_write_spec _ _ _ _ _ _ _ _ _ _ (or_intror eq_refl) Hi) in E.
    destruct r1 as [[]|]; [unfold tlbi_ipa, sm_upd|]; intros H; inversion H; subst; simpl; [|tauto].
    eapply s2_effect_tlb; [| |apply E]; done.
  - intros H. apply (map_page_spec _ _ _ _ _ _ _ _ _ _ Hi Hok) in H. destruct r; simpl; tauto.
  - intros H. apply (unmap_page_spec _ _ _ _ _ _ _ _ Hi) in H. destruct r; simpl; [tauto|].
    destruct H as [-> _]. by apply s2_effect_refl.
Qed.

(** A sequence of operations with the list of results. *)
Fixpoint run_ops (w : Stage2Walker) (os : list s2_op) (s : machine) : machine * list bool :=
  match os with
  | [] => (s, [])
  | o :: os' => match run_op w o s with
                | (s1, r) => let (s2, rs) := run_ops w os' s1 in (s2, is_ok r :: rs)
                end
  end.

Fixpoint abs_ops (os : list s2_op) (rs : list bool) (look : Z -> option pdesc) : Z -> option pdesc :=
  match os, rs with
  | o :: os', b :: rs' => abs_ops os' rs' (if b then abs_op o look else look)
  | _, _ => look
  end.

Lemma abs_ops_ext os : forall rs look look', (forall x, look x = look' x) ->
  forall x, abs_ops os rs look x = abs_ops os rs look' x.
Proof.
  induction os as [|o os IH]; intros [|b rs] look look' H x; simpl; auto.
  apply IH. destruct b; [by apply abs_op_ext|done].
Qed.

Lemma run_ops_effect start l0 others os : forall s own s' rs,
  s2_inv start s l0 own others -> Forall op_ok os -> run_ops (mkWalker l0) os s = (s', rs) ->
  s2_effect start s s' l0 own others (abs_ops os rs (s2_lookup (hm_mem s) l0)).
Proof.
  induction os as [|o os IH]; intros s own s' rs Hi Hok; simpl.
  - intros [= <- <-]. by apply s2_effect_refl.
  - inversion Hok as [|? ? Ho Hos]; subst. destruct (run_op _ o s) as [s1 r] eqn:E1.
    destruct (run_ops _ os s1) as [s2 rs2] eqn:E2. intros [= <- <-].
    pose proof (run_op_effect _ _ _ _ _ _ _ _ Hi Ho E1) as He1.
    eapply s2_effect_bind; [exact He1|]. intros own1 Hi1 Hl1.
    eapply s2_effect_ext; [|exact (IH s1 own1 s2 rs2 Hi1 Hos E2)].
    intros x. simpl. apply abs_ops_ext. intros y. rewrite Hl1. by destruct (is_ok r).
Qed.

(** ** Two VMs in one heap *)
Lemma heap_ok_disjoint start s own ownb others t u :
  heap_ok start s own (map page_region ownb ++ others) -> In t own -> In u ownb ->
  t + 4096 <= u \/ u + 4096 <= t.
Proof.
  intros (a & free & _ & _ & [_ _ _ _ Hd _ _]) Ht Hu.
  rewrite <- app_assoc in Hd. apply all_pairs_app in Hd as (_ & _ & Hd).
  rewrite Forall_map, Forall_forall in Hd. specialize (Hd t ltac:(by apply list_elem_of_In)).
  unfold compose in Hd. rewrite !Forall_app in Hd. destruct Hd as [[Hd _] _].
  rewrite Forall_map, Forall_forall in Hd. specialize (Hd u ltac:(by apply list_elem_of_In)).
  unfold compose, disj, page_region in Hd. simpl in Hd. lia.
Qed.

Lemma frame_other_vm start (s s' : machine) own' ownb others l0b :
  heap_ok start s' own' (map page_region ownb ++ others) ->
  (forall x, outside own' x -> hm_mem s' x = hm_mem s x) ->
  s2_wf (hm_mem s) l0b ownb ->
  s2_wf (hm_mem s') l0b ownb /\ forall ipa, s2_lookup (hm_mem s') l0b ipa = s2_lookup (hm_mem s) l0b ipa.
Proof.
  intros Hh Hx Hwf.
  assert (Hag : forall t, In t ownb -> agree (hm_mem s') (hm_mem s) t 4096).
  { intros u Hu x Hin. apply Hx. intros t Ht Hin'.
    pose proof (heap_ok_disjoint _ _ _ _ _ _ _ Hh Ht Hu). lia. }
  split; [eapply s2_wf_agree; eauto; apply incl_refl|].
  intros ipa. by apply (s2_lookup_agree _ _ _ Hwf).
Qed.

(** ** A concrete machine with two VMs *)
Definition ex_start : Z := 0x41000000.
Definition ex_boot : machine := mkMachine (fun _ => 0) (heap_init_at ex_start 0x100000) [].
Definition ok_or {A E} (d : A) (r : result A E) : A := match r with Ok a => a | Err _ => d end.
Definition ex_dmB : DynamicIdentityMapper := ok_or (mkMapper 0 0 [] 0) (mapper_new ex_boot).2.
Definition ex_sB : machine := (mapper_new ex_boot).1.
Definition ex_dmA0 : DynamicIdentityMapper := ok_or (mkMapper 0 0 [] 0) (mapper_new ex_sB).2.
Definition ex_sA0 : machine := (mapper_new ex_sB).1.
(** 4MB of normal memory at 1GB for the second VM *)
Definition ex_s : machine := (map_region 0x40000000 0x400000 Normal (ex_sA0, ex_dmA0)).1.1.
Definition ex_dm : DynamicIdentityMapper := (map_region 0x40000000 0x400000 Normal (ex_sA0, ex_dmA0)).1.2.
Definition ex_l0 : Z := dm_l0_table ex_dm.
Definition ex_l0B : Z := dm_l0_table ex_dmB.
Definition ex_ownB : list Z := [dm_l1_table ex_dmB; dm_l0_table ex_dmB].

(** Running a computation whose result is known. *)
Lemma run_ok {A B} (p : A * B) b : p.2 = b -> p = (p.1, b).
Proof. destruct p. simpl. congruence. Qed.

Lemma ex_boot_heap : heap_ok ex_start ex_boot [] [].
Proof.
  exists (BumpAllocator_new ex_start 0x100000), []. split_and!; [done| |].
  - by vm_compute.
  - by apply alloc_inv_init.
Qed.

Lemma ex_sB_inv : dm_inv ex_start ex_sB ex_dmB ex_ownB [].
Proof.
  assert (E : mapper_new ex_boot = (ex_sB, Ok ex_dmB)) by (apply run_ok; vm_compute; reflexivity).
  exact (proj1 (mapper_new_spec _ _ _ _ _ ex_boot_heap E)).
Qed.

Lemma ex_sA0_new : mapper_new ex_sB = (ex_sA0, Ok ex_dmA0).
Proof. apply run_ok. vm_compute. reflexivity. Qed.

Lemma ex_sA0_inv :
  dm_inv ex_start ex_sA0 ex_dmA0 [dm_l1_table ex_dmA0; dm_l0_table ex_dmA0] (map page_region ex_ownB ++ []) /\
  (forall ipa, s2_lookup (hm_mem ex_sA0) (dm_l0_table ex_dmA0) ipa = None) /\
  s2_wf (hm_mem ex_sA0) ex_l0B ex_ownB.
Proof.
  pose proof ex_sB_inv as [[HhB HwB] _ _].
  destruct (mapper_new_spec ex_start ex_sB (map page_region ex_ownB ++ []) _ _ HhB ex_sA0_new)
    as (Hd & Hl & Hx). split_and!; [exact Hd|exact Hl|].
  apply (frame_other_vm ex_start ex_sB _ _ _ [] _ (si_heap _ _ _ _ _ (di_inv _ _ _ _ _ Hd)) Hx HwB).
Qed.

Lemma ex_A_run : map_region 0x40000000 0x400000 Normal (ex_sA0, ex_dmA0) = ((ex_s, ex_dm), Ok tt).
Proof.
  unfold ex_s, ex_dm. rewrite <- (surjective_pairing (map_region _ _ _ _).1).
  apply run_ok. vm_compute. reflexivity.
Qed.

(** The state after the mapping: invariant, other VM, page map. *)
Lemma ex_s_inv : exists own,
  dm_inv ex_start ex_s ex_dm own (map page_region ex_ownB ++ []) /\
  s2_wf (hm_mem ex_s) ex_l0B ex_ownB.
Proof.
  destruct ex_sA0_inv as (Hd & _ & HB). pose proof ex_A_run as E.
  apply (map_region_spec _ _ _ _ _ _ _ _ _ _ _ Hd) in E; [|done|lia|lia|lia].
  destruct E as (own & Hd' & _ & Hx & _). exists own. split; [exact Hd'|].
  apply (frame_other_vm ex_start ex_sA0 _ own _ [] _ (si_heap _ _ _ _ _ (di_inv _ _ _ _ _ Hd')) Hx HB).
Qed.

(** ** Reads *)
Lemma leaf_field k e ipa sh : sh = PTE_SW_SHIFT \/ sh = S2AP_SHIFT ->
  u8 (Z.land (Z.shiftr e sh) 3) = Z.land (Z.shiftr (pd_attr (leaf_desc k e ipa)) sh) 3.
Proof.
  intros Hsh. unfold leaf_desc, u8, ATTR_MASK. cbn [pd_attr]. change 3 with (Z.ones 2).
  destruct Hsh as [-> | ->]; change PTE_SW_SHIFT with 55; change S2AP_SHIFT with 6;
    bit_ext i Hi; zdec; rewrite ?andb_true_r, ?andb_false_r; done.
Qed.

Lemma read_sw_bits_lookup m l0 ipa :
  read_sw_bits m (mkWalker l0) ipa = option_map pd_sw (s2_lookup m l0 ipa).
Proof.
  unfold read_sw_bits, walk_to_leaf. pose proof (walk_to_leaf_lookup m l0 ipa) as H.
  destruct (walk_to_leaf_ptr m (mkWalker l0) ipa) as [p|]; [|by rewrite H].
  destruct H as (k & t & _ & _ & _ & -> & _). simpl. f_equal. apply (leaf_field k). by left.
Qed.

Lemma read_s2ap_lookup m l0 ipa :
  read_s2ap m (mkWalker l0) ipa = option_map pd_s2ap (s2_lookup m l0 ipa).
Proof.
  unfold read_s2ap, walk_to_leaf. pose proof (walk_to_leaf_lookup m l0 ipa) as H.
  destruct (walk_to_leaf_ptr m (mkWalker l0) ipa) as [p|]; [|by rewrite H].
  destruct H as (k & t & _ & _ & _ & -> & _). simpl. f_equal. apply (leaf_field k). by right.
Qed.

Lemma leaf_attr_fits k e ipa : fits 64 (pd_attr (leaf_desc k e ipa)).
Proof.
  unfold leaf_desc, ATTR_MASK. cbn [pd_attr]. apply fits_testbit; [lia| |].
  - apply land_nn_r. by vm_compute.
  - intros i Hi. autorewrite with bits. zdec. btauto.
Qed.

Lemma lookup_attr_fits m l0 ipa d : s2_lookup m l0 ipa = Some d -> fits 64 (pd_attr d).
Proof.
  unfold s2_lookup, leaf_or. repeat case_match; intros; simplify_eq; apply leaf_attr_fits.
Qed.

Lemma same_page_refl ipa : same_page ipa ipa.
Proof. done. Qed.

(** ** Claims *)

(** C2. Every sequence of walker operations on the tables of one VM refines the
    same sequence of updates of its page map: successful operations change exactly
    the page they name (SW bits, access permission, mapping, unmapping) and failed
    ones change nothing, whatever blocks were split and tables added on the way;
    the tables stay a well-formed tree of live heap pages. *)
Theorem walker_refines_page_map start s l0 own others os s' rs :
  s2_inv start s l0 own others -> Forall op_ok os ->
  run_ops (mkWalker l0) os s = (s', rs) ->
  (forall ipa, s2_lookup (hm_mem s') l0 ipa = abs_ops os rs (s2_lookup (hm_mem s) l0) ipa) /\
  exists own', s2_inv start s' l0 own' others /\ incl own own'.
Proof.
  intros Hi Hok H. destruct (run_ops_effect _ _ _ _ _ _ _ _ Hi Hok H) as (own' & ? & ? & _ & ? & _).
  eauto.
Qed.

Definition ex_ops : list s2_op :=
  [OpSetS2ap 0x40003000 1; OpWriteSw 0x40003000 1; OpMapPage 0x50000000 3 2; OpWriteSw 0x60000000 1;
   OpMapPage 0x40000000 3 2; OpUnmapPage 0x40004000].

Lemma walker_refines_page_map_witness :
  (run_ops (mkWalker ex_l0) ex_ops ex_s).2 = [true; true; true; false; false; true] /\
  s2_lookup (hm_mem (run_ops (mkWalker ex_l0) ex_ops ex_s).1) ex_l0 0x40003000 =
  abs_ops ex_ops [true; true; true; false; false; true] (s2_lookup (hm_mem ex_s) ex_l0) 0x40003000.
Proof.
  assert (E : (run_ops (mkWalker ex_l0) ex_ops ex_s).2 = [true; true; true; false; false; true])
    by (vm_compute; reflexivity).
  split; [exact E|]. destruct ex_s_inv as (own & Hd & _).
  apply (walker_refines_page_map ex_start ex_s ex_l0 own _ ex_ops _ _ (di_inv _ _ _ _ _ Hd)).
  - repeat constructor; by vm_compute.
  - apply run_ok. exact E.
Defined.

(** C3. Whatever sequence of walker operations is run on the tables of one VM, the
    tables of any other VM of the same heap stay well formed and translate every
    IPA as before, and no byte outside the first VM's (possibly grown) tables is
    written. *)
Theorem walker_isolates_vms start s l0 own l0b ownb others os :
  s2_inv start s l0 own (map page_region ownb ++ others) -> s2_wf (hm_mem s) l0b ownb ->
  Forall op_ok os ->
  let s' := (run_ops (mkWalker l0) os s).1 in
  s2_wf (hm_mem s') l0b ownb /\
  (forall ipa, s2_lookup (hm_mem s') l0b ipa = s2_lookup (hm_mem s) l0b ipa) /\
  exists own', incl own own' /\ heap_ok start s' own' (map page_region ownb ++ others) /\
    forall x, outside own' x -> hm_mem s' x = hm_mem s x.
Proof.
  intros Hi Hb Hok. destruct (run_ops (mkWalker l0) os s) as [s' rs] eqn:E.
  destruct (run_ops_effect _ _ _ _ _ _ _ _ Hi Hok E) as (own' & Hi' & Hin & Hx & _).
  destruct (frame_other_vm _ _ _ _ _ _ _ (si_heap _ _ _ _ _ Hi') Hx Hb) as [Hw Hl].
  simpl. split_and!; [done|done|]. exists own'. split_and!; [done|apply Hi'|done].
Qed.

Lemma walker_isolates_vms_witness :
  let s' := (run_ops (mkWalker ex_l0) ex_ops ex_s).1 in
  s2_lookup (hm_mem s') ex_l0B 0x40003000 = s2_lookup (hm_mem ex_s) ex_l0B 0x40003000.
Proof.
  destruct ex_s_inv as (own & Hd & HB).
  apply (walker_isolates_vms ex_start ex_s ex_l0 own ex_l0B ex_ownB [] ex_ops (di_inv _ _ _ _ _ Hd) HB).
  repeat constructor; by vm_compute.
Defined.

(** [write_sw_bits] then [read_sw_bits] gives back the two bits written, the
    access permission and the output page of every address are unchanged, and the
    write fails only on an unmapped page or when the heap has no page left for the
    block split. *)
Theorem write_sw_bits_read_back start s l0 own others ipa bits s' r :
  s2_inv start s l0 own others ->
  write_sw_bits (mkWalker l0) ipa bits s = (s', r) ->
  match r with
  | Ok _ => read_sw_bits (hm_mem s') (mkWalker l0) ipa = Some (bits mod 4) /\
            forall ipa', read_s2ap (hm_mem s') (mkWalker l0) ipa' = read_s2ap (hm_mem s) (mkWalker l0) ipa' /\
              option_map pd_pa (s2_lookup (hm_mem s') l0 ipa') = option_map pd_pa (s2_lookup (hm_mem s) l0 ipa') /\
              (same_page ipa' ipa \/
               read_sw_bits (hm_mem s') (mkWalker l0) ipa' = read_sw_bits (hm_mem s) (mkWalker l0) ipa')
  | Err _ => read_sw_bits (hm_mem s) (mkWalker l0) ipa = None \/ heap_full s
  end.
Proof.
  intros Hi H. rewrite write_sw_bits_field in H.
  apply (field_write_spec _ _ _ _ _ _ _ _ _ _ (or_introl eq_refl) Hi) in H.
  rewrite !read_sw_bits_lookup. destruct r as [u|e].
  2:{ destruct H as [_ [-> |?]]; auto. }
  destruct H as [Hm (own' & _ & _ & _ & Hl & _)]. split.
  - rewrite Hl. unfold on_page. rewrite decide_True by apply same_page_refl.
    destruct (s2_lookup (hm_mem s) l0 ipa); [|done]. simpl. f_equal. apply field_read. by left.
  - intros ipa'. rewrite !read_s2ap_lookup, !read_sw_bits_lookup, Hl. unfold on_page.
    case_decide; [|auto]. destruct (s2_lookup (hm_mem s) l0 ipa') as [d|] eqn:E; [|auto]. simpl.
    split_and!; auto. f_equal. apply (field_keep _ (or_introl eq_refl)); [by eapply lookup_attr_fits|by right|done].
Qed.

Lemma write_sw_bits_read_back_witness :
  read_sw_bits (hm_mem (write_sw_bits (mkWalker ex_l0) 0x40201000 2 ex_s).1) (mkWalker ex_l0) 0x40201000 = Some (2 mod 4).
Proof.
  destruct ex_s_inv as (own & Hd & _).
  assert (E : (write_sw_bits (mkWalker ex_l0) 0x40201000 2 ex_s).2 = Ok tt) by (vm_compute; reflexivity).
  pose proof (write_sw_bits_read_back ex_start ex_s ex_l0 own _ 0x40201000 2 _ (Ok tt)
    (di_inv _ _ _ _ _ Hd) (run_ok _ _ E)) as [H _]. exact H.
Defined.

(** [set_s2ap] sets the access permission of its page, keeps every SW bit and
    output page, ends with the TLB invalidation of the page, and fails only on an
    unmapped page or when the heap has no page left for the block split. *)
Theorem set_s2ap_read_back start s l0 own others ipa ap s' r :
  s2_inv start s l0 own others ->
  set_s2ap (mkWalker l0) ipa ap s = (s', r) ->
  match r with
  | Ok _ => read_s2ap (hm_mem s') (mkWalker l0) ipa = Some (ap mod 4) /\
            (forall ipa', read_sw_bits (hm_mem s') (mkWalker l0) ipa' = read_sw_bits (hm_mem s) (mkWalker l0) ipa' /\
              option_map pd_pa (s2_lookup (hm_mem s') l0 ipa') = option_map pd_pa (s2_lookup (hm_mem s) l0 ipa')) /\
            last (events s') = Some (EvTlbiIpa (Z.land (Z.shiftr ipa 12) 0x000000FFFFFFFFFF))
  | Err _ => read_s2ap (hm_mem s) (mkWalker l0) ipa = None \/ heap_full s
  end.
Proof.
  intros Hi. rewrite set_s2ap_field. destruct (field_write _ _ _ _ s) as [s1 r1] eqn:E.
  apply (field_write_spec _ _ _ _ _ _ _ _ _ _ (or_intror eq_refl) Hi) in E.
  rewrite !read_s2ap_lookup. destruct r1 as [u|e].
  2:{ intros H; inversion H; subst. destruct E as [_ [-> |?]]; auto. }
  unfold tlbi_ipa, sm_upd. intros H; inversion H; subst; clear H. cbn [log_ev hm_mem].
  destruct E as [Hm (own' & _ & _ & _ & Hl & _)]. split_and!; [| |unfold events, log_ev; cbn [hm_trace]; rewrite fmap_app; apply last_snoc].
  - rewrite Hl. unfold on_page. rewrite decide_True by apply same_page_refl.
    destruct (s2_lookup (hm_mem s) l0 ipa); [|done]. simpl. f_equal. apply field_read. by right.
  - intros ipa'. rewrite !read_sw_bits_lookup, Hl. unfold on_page.
    case_decide; [|auto]. destruct (s2_lookup (hm_mem s) l0 ipa') as [d|] eqn:E; [|auto]. simpl.
    split_and!; auto. f_equal. apply (field_keep _ (or_intror eq_refl)); [by eapply lookup_attr_fits|by left|done].
Qed.

Lemma set_s2ap_read_back_witness :
  read_s2ap (hm_mem (set_s2ap (mkWalker ex_l0) 0x40201000 1 ex_s).1) (mkWalker ex_l0) 0x40201000 = Some (1 mod 4).
Proof.
  destruct ex_s_inv as (own & Hd & _).
  assert (E : (set_s2ap (mkWalker ex_l0) 0x40201000 1 ex_s).2 = Ok tt) by (vm_compute; reflexivity).
  pose proof (set_s2ap_read_back ex_start ex_s ex_l0 own _ 0x40201000 1 _ (Ok tt)
    (di_inv _ _ _ _ _ Hd) (run_ok _ _ E)) as [H _]. exact H.
Defined.

(** Splitting a 2MB block changes the translation of no address, and follows
    break-before-make: the live descriptor is cleared, the TLB invalidated, the
    table descriptor written, the TLB invalidated again; on heap exhaustion nothing
    happens. *)
Theorem split_is_transparent start s l0 own others ipa t s' r :
  s2_inv start s l0 own others -> tbl 2 (hm_mem s) l0 ipa = Some t ->
  let p := pte_ptr t (l2_index ipa) in
  pte_valid (read64 (hm_mem s) p) = true -> pte_table_bit (read64 (hm_mem s) p) = false ->
  split_2mb_block_at_l2 p (read64 (hm_mem s) p) s = (s', r) ->
  (forall ipa', s2_lookup (hm_mem s') l0 ipa' = s2_lookup (hm_mem s) l0 ipa') /\
  match r with
  | Ok _ => exists t3, tbl 3 (hm_mem s') l0 ipa = Some t3 /\
      events s' = events s ++ [EvStore p 0; EvTlbiAll; EvStore p (table_desc t3); EvTlbiAll]
  | Err _ => s' = s
  end.
Proof.
  intros Hi Ht p Hv Hb H. destruct (split_2mb_spec _ _ _ _ _ _ _ _ _ Hi Ht Hv Hb H) as (He & _ & Hk).
  split; [|exact Hk]. destruct He as (_ & _ & _ & _ & He & _). exact He.
Qed.

Definition ex_l2 : Z := Z.land (read64 (hm_mem ex_s) (pte_ptr (dm_l1_table ex_dm) 1)) PTE_ADDR_MASK.
Definition ex_l2_slot : Z := pte_ptr ex_l2 (l2_index 0x40000000).
Lemma split_is_transparent_witness :
  exists t3, events (split_2mb_block_at_l2 ex_l2_slot (read64 (hm_mem ex_s) ex_l2_slot) ex_s).1 =
    events ex_s ++ [EvStore ex_l2_slot 0; EvTlbiAll; EvStore ex_l2_slot (table_desc t3); EvTlbiAll].
Proof.
  destruct ex_s_inv as (own & Hd & _).
  destruct (split_is_transparent ex_start ex_s ex_l0 own _ 0x40000000 ex_l2
    (split_2mb_block_at_l2 ex_l2_slot (read64 (hm_mem ex_s) ex_l2_slot) ex_s).1 (Ok tt)
    (di_inv _ _ _ _ _ Hd)) as [_ (t3 & _ & H)].
  - vm_compute. reflexivity.
  - vm_compute. reflexivity.
  - vm_compute. reflexivity.
  - apply run_ok. vm_compute. reflexivity.
  - exists t3. exact H.
Defined.

(** A new mapper followed by [map_region] on a 2MB-aligned region below 512GB
    gives exactly the identity map of the region (rounded up to 2MB) with the
    attributes asked for, and nothing else is mapped; the loop always ends, and it
    fails only on the fifth L2 table or on heap exhaustion. *)
Theorem new_vm_maps_exactly_region start s others s1 dm ipa size attr s2 dm2 r :
  heap_ok start s [] others -> mapper_new s = (s1, Ok dm) ->
  ipa mod 2 ^ 21 = 0 -> 0 <= ipa -> 0 <= size -> ipa + size <= 2 ^ 39 ->
  map_region ipa size attr (s1, dm) = ((s2, dm2), r) ->
  match r with
  | Ok _ => forall ipa', s2_lookup (hm_mem s2) (dm_l0_table dm2) ipa' =
      if (ipa <=? ipa' mod 2 ^ 48) && (ipa' mod 2 ^ 48 <? ipa + round_2mb size)
      then Some (mkPd (ipa' mod 2 ^ 48 - ipa' mod 4096) (attr_bits attr)) else None
  | Err e => e <> "out of fuel"%string /\ ((4 <= dm_l2_count dm2)%nat \/ heap_full s2)
  end.
Proof.
  intros Hh Hn Hal H0 Hs Hmax H. destruct (mapper_new_spec _ _ _ _ _ Hh Hn) as (Hd & Hl & _).
  apply (map_region_spec _ _ _ _ _ _ _ _ _ _ _ Hd Hal H0 Hs Hmax) in H. destruct r.
  - destruct H as (_ & _ & _ & _ & H & _). intros ipa'. rewrite H. unfold region_look. by rewrite Hl.
  - tauto.
Qed.

Lemma new_vm_maps_exactly_region_witness :
  s2_lookup (hm_mem ex_s) (dm_l0_table ex_dm) 0x40201234 =
  if (0x40000000 <=? 0x40201234 mod 2 ^ 48) && (0x40201234 mod 2 ^ 48 <? 0x40000000 + round_2mb 0x400000)
  then Some (mkPd (0x40201234 mod 2 ^ 48 - 0x40201234 mod 4096) (attr_bits Normal)) else None.
Proof.
  pose proof ex_sB_inv as [[HhB _] _ _].
  pose proof (new_vm_maps_exactly_region ex_start ex_sB (map page_region ex_ownB ++ []) ex_sA0 ex_dmA0
    0x40000000 0x400000 Normal ex_s ex_dm (Ok tt) HhB ex_sA0_new eq_refl ltac:(lia) ltac:(lia) ltac:(lia)
    ex_A_run) as H. exact (H 0x40201234).
Defined.

(** [unmap_4kb_page] removes exactly one page from the map (the rest of a block
    it splits stays mapped), or leaves the machine as it was when the page is not
    mapped or the heap has no page for the split; mapping the page again with
    [map_4kb_page] gives its identity mapping. *)
Theorem unmap_4kb_page_exact start s dm own others ipa attr s1 dm1 r1 s2 dm2 :
  dm_inv start s dm own others -> 0 <= ipa < 2 ^ 39 ->
  unmap_4kb_page ipa (s, dm) = ((s1, dm1), r1) ->
  match r1 with
  | Ok _ => (forall ipa', s2_lookup (hm_mem s1) (dm_l0_table dm1) ipa' =
               if decide (same_page ipa' ipa) then None else s2_lookup (hm_mem s) (dm_l0_table dm) ipa') /\
            (map_4kb_page ipa attr (s1, dm1) = ((s2, dm2), Ok tt) ->
             forall ipa', s2_lookup (hm_mem s2) (dm_l0_table dm2) ipa' =
               if decide (same_page ipa' ipa) then Some (mkPd (ipa - ipa mod 4096) (attr_bits attr))
               else s2_lookup (hm_mem s) (dm_l0_table dm) ipa')
  | Err _ => s1 = s /\ dm1 = dm /\ (s2_lookup (hm_mem s) (dm_l0_table dm) ipa = None \/ heap_full s)
  end.
Proof.
  intros Hd Hr H. apply (unmap_4kb_page_spec _ _ _ _ _ _ _ _ _ Hd Hr) in H. destruct r1; [|done].
  destruct H as (own1 & Hd1 & _ & _ & Hl & _). split; [exact Hl|].
  intros H2. apply (map_4kb_page_spec _ _ _ _ _ _ _ _ _ _ Hd1 Hr) in H2.
  destruct H2 as (_ & _ & _ & _ & Hl2 & _). intros ipa'. rewrite Hl2. unfold on_page.
  case_decide as Hp; [done|]. rewrite Hl. unfold on_page. by rewrite decide_False.
Qed.

Lemma unmap_4kb_page_exact_witness :
  s2_lookup (hm_mem (unmap_4kb_page 0x40000000 (ex_s, ex_dm)).1.1)
    (dm_l0_table (unmap_4kb_page 0x40000000 (ex_s, ex_dm)).1.2) 0x40001000 =
  if decide (same_page 0x40001000 0x40000000) then None
  else s2_lookup (hm_mem ex_s) (dm_l0_table ex_dm) 0x40001000.
Proof.
  destruct ex_s_inv as (own & Hd & _).
  assert (E : (unmap_4kb_page 0x40000000 (ex_s, ex_dm)).2 = Ok tt) by (vm_compute; reflexivity).
  assert (E' : unmap_4kb_page 0x40000000 (ex_s, ex_dm) =
    ((unmap_4kb_page 0x40000000 (ex_s, ex_dm)).1.1, (unmap_4kb_page 0x40000000 (ex_s, ex_dm)).1.2, Ok tt))
    by (rewrite <- surjective_pairing; by apply run_ok).
  pose proof (unmap_4kb_page_exact ex_start ex_s ex_dm own _ 0x40000000 Normal _ _ (Ok tt) ex_s ex_dm Hd
    ltac:(lia) E') as [H _]. exact (H 0x40001000).
Defined.

(** The walker rebuilt from the VTTBR_EL2 value of [Stage2Config::new_with_vmid]
    has the root table it was built from, for every page-aligned root and VMID; so
    its reads are those of the mapper that owns the tables. *)
Theorem vttbr_round_trip dm vmid m ipa :
  dm_l0_table dm mod 4096 = 0 -> fits 48 (dm_l0_table dm) -> fits 16 vmid ->
  from_vttbr (new_with_vmid (dm_l0_table dm) vmid).1 = new (dm_l0_table dm) /\
  walk_to_leaf_ptr m (from_vttbr (new_with_vmid (dm_l0_table dm) vmid).1) ipa =
  mapper_walk_to_leaf_ptr m dm ipa.
Proof.
  intros Hal Hf Hv.
  assert (E : from_vttbr (new_with_vmid (dm_l0_table dm) vmid).1 = new (dm_l0_table dm)).
  { unfold from_vttbr, new, new_with_vmid, fst. f_equal. rewrite addr_mask_bmask.
    change 281474976710654 with (bmask 1 47). unfold u64. bit_ext i Hi.
    destruct (Z.leb_spec 12 i); cycle 1.
    { rewrite (testbit_aligned _ 12) by (done || lia). simpl. btauto. }
    zdec; rewrite ?andb_true_r, ?andb_false_r, ?orb_false_r; try done; symmetry;
      apply (testbit_small _ 48); (lia || done). }
  rewrite E. split; [done|]. by rewrite mapper_walk_same.
Qed.

Lemma vttbr_round_trip_witness :
  from_vttbr (new_with_vmid 0x41000000 7).1 = new 0x41000000.
Proof.
  apply (vttbr_round_trip (mkMapper 0x41000000 0 [] 0) 7 (fun _ => 0) 0); by vm_compute.
Defined.
