(* ===== verification/Tlb.v ===== *)
(** * Tlb: the translation lookaside buffer during changes of the tables

    Between two accesses of the walker the hardware may walk the tables of the
    running VM and remember what it finds.  The trace of a [machine] holds the
    stores to live descriptors and the TLB maintenance, each with the memory it
    was made on; here a TLB runs along it: it fills itself from the tables of
    the moment, forgets at will, and obeys the maintenance instructions of
    [tlbi_all] and [tlbi_ipa] ([ffa/stage2_walker.rs]).

    As in the architecture there are two kinds of entries: of Stage-2 alone
    (IPA to descriptor), and of both stages combined (VA to descriptor).
    VMALLS12E1IS removes all of both, IPAS2E1IS only entries of Stage-2 alone.
    Faults are not remembered, and the instructions act on the VMID of
    VTTBR_EL2, from which the walker also takes the tables.

    The theorems: after any sequence of walker operations no Stage-2 entry is
    stale; a combined entry can be, so a permission that is withdrawn page by
    page stays usable. *)

From Stdlib Require Import ZArith Lia Btauto.
From stdpp Require Import base list strings.
From S2P Require Import Prelude Memory Allocator Stage2 Stage2Spec Stage2Bits Stage2Ops Stage2Walk Stage2Boot Stage2Thms.
Import Walker Mapper.

(** ** The buffer *)
Inductive tlb_entry :=
| Stage2Entry (ipa : Z) (d : pdesc)
| CombinedEntry (va ipa : Z) (d : pdesc).
Definition entry_ipa (en : tlb_entry) : Z := match en with Stage2Entry ipa _ | CombinedEntry _ ipa _ => ipa end.
Definition entry_desc (en : tlb_entry) : pdesc := match en with Stage2Entry _ d | CombinedEntry _ _ d => d end.
Definition tlb := list tlb_entry.

(** What an access leaves of the buffer: bits 35:0 of the operand of IPAS2E1IS
    are the number of a page; with a 4KB granule and 48-bit addresses the bits
    above them have no effect. *)
Definition survives (ev : tlb_event) (en : tlb_entry) : bool :=
  match ev, en with
  | EvStore _ _, _ => true
  | EvTlbiAll, _ => false
  | EvTlbiIpa n, Stage2Entry ipa _ => negb (prefix 4 ipa =? n mod 2 ^ 36)
  | EvTlbiIpa _, CombinedEntry _ _ _ => true
  end.
Definition invalidate (ev : tlb_event) (T : tlb) : tlb := List.filter (survives ev) T.
Definition mem_after (ev : tlb_event) (m : mem) : mem :=
  match ev with EvStore p v => write64 m p v | _ => m end.

Section Hardware.
Context (l0 : Z).

(** The hardware on its own: every entry of [T'] was there or is what the
    tables say now. *)
Definition hw_moves (m : mem) (T T' : tlb) : Prop :=
  forall en, In en T' -> In en T \/ s2_lookup m l0 (entry_ipa en) = Some (entry_desc en).

(** The buffer along a trace, with the hardware before and after each access. *)
Fixpoint tlb_run (tr : list (tlb_event * mem)) (T T' : tlb) : Prop :=
  match tr with
  | [] => T' = T
  | (ev, m) :: tr => exists T1 T2, hw_moves m T T1 /\ hw_moves (mem_after ev m) (invalidate ev T1) T2 /\ tlb_run tr T2 T'
  end.
(** The buffer during an operation that takes the machine from [s] to [s']. *)
Definition tlb_during (s s' : machine) (T T' : tlb) : Prop :=
  exists tr T1, hm_trace s' = hm_trace s ++ tr /\ tlb_run tr T T1 /\ hw_moves (hm_mem s') T1 T'.

(** What the hardware uses of a descriptor: the software bits are ignored. *)
Definition hw_desc (d : pdesc) : Z * Z := (pd_pa d, Z.land (pd_attr d) (not64 PTE_SW_MASK)).
Definition backed (m : mem) (ipa : Z) (d : pdesc) : Prop :=
  exists d', s2_lookup m l0 ipa = Some d' /\ hw_desc d' = hw_desc d.
(** No Stage-2 entry is stale. *)
Definition coherent (m : mem) (T : tlb) : Prop := forall ipa d, In (Stage2Entry ipa d) T -> backed m ipa d.

(** *** Runs of the buffer *)
Lemma hw_moves_refl m T : hw_moves m T T.
Proof using. intros en. by left. Qed.

Lemma in_invalidate ev T en : In en (invalidate ev T) <-> In en T /\ survives ev en = true.
Proof using. apply filter_In. Qed.

(** A property of entries that the tables of every moment give to what the
    hardware adds. *)
Lemma tlb_run_inv (Q : tlb_entry -> Prop) tr : forall T T',
  Forall (fun p => forall m, m = p.2 \/ m = mem_after p.1 p.2 ->
    forall en, s2_lookup m l0 (entry_ipa en) = Some (entry_desc en) -> Q en) tr ->
  (forall en, In en T -> Q en) -> tlb_run tr T T' -> forall en, In en T' -> Q en.
Proof using.
  induction tr as [|[ev m] tr IH]; intros T T' Htr HT; [by intros ->|].
  inversion Htr as [|? ? Hq Htr']; subst. intros (T1 & T2 & H1 & H2 & H3). apply (IH T2 T' Htr'); [|done].
  intros en He. destruct (H2 en He) as [Hi|Hl]; [|by apply (Hq _ (or_intror eq_refl))].
  apply in_invalidate in Hi as [Hi _]. destruct (H1 en Hi) as [?|Hl]; [auto|by apply (Hq _ (or_introl eq_refl))].
Qed.

Lemma tlb_run_app tr tr' : forall T T', tlb_run (tr ++ tr') T T' <-> exists T1, tlb_run tr T T1 /\ tlb_run tr' T1 T'.
Proof using.
  induction tr as [|[ev m] tr IH]; intros T T'; cbn [app tlb_run].
  - split; [intros H; by exists T|by intros (T1 & -> & H)].
  - setoid_rewrite IH. split.
    + intros (T1 & T2 & H1 & H2 & T3 & H3 & H4). exists T3. split; [by exists T1, T2|done].
    + intros (T3 & (T1 & T2 & H1 & H2 & H3) & H4). exists T1, T2. by split_and!; [..|exists T3].
Qed.

Lemma tlb_run_total tr : forall T, exists T', tlb_run tr T T'.
Proof using.
  induction tr as [|[ev m] tr IH]; intros T; [by exists T|]. destruct (IH (invalidate ev T)) as [T' H].
  exists T', T, (invalidate ev T). split_and!; [apply hw_moves_refl|apply hw_moves_refl|done].
Qed.
End Hardware.

(** ** What the hardware can see during an operation *)
Section Seen.
Context (l0 : Z).

(** [s'] is reached from [s], and the tables satisfied [P] before and after
    each access. *)
Definition seen (P : mem -> Prop) (s s' : machine) : Prop :=
  exists tr, hm_trace s' = hm_trace s ++ tr /\ Forall (fun p => P p.2 /\ P (mem_after p.1 p.2)) tr.
(** The tables of [m] map nothing beyond [look]. *)
Definition below (look : Z -> option pdesc) (m : mem) : Prop :=
  forall ipa d, s2_lookup m l0 ipa = Some d -> look ipa = Some d.

Lemma below_eq look m : (forall ipa, s2_lookup m l0 ipa = look ipa) -> below look m.
Proof using. intros H ipa d. by rewrite H. Qed.

Lemma below_ext look look' : (forall ipa, look ipa = look' ipa) -> forall m, below look m -> below look' m.
Proof using. intros He m H ipa d Hd. rewrite <- He. auto. Qed.

Lemma seen_refl P s : seen P s s.
Proof using. exists []. by rewrite app_nil_r. Qed.

Lemma seen_trans P s s1 s2 : seen P s s1 -> seen P s1 s2 -> seen P s s2.
Proof using.
  intros (tr1 & E1 & H1) (tr2 & E2 & H2). exists (tr1 ++ tr2). rewrite E2, E1, app_assoc. split; [done|by apply Forall_app].
Qed.

Lemma seen_mono (P Q : mem -> Prop) s s' : (forall m, P m -> Q m) -> seen P s s' -> seen Q s s'.
Proof using. intros H (tr & E & HF). exists tr. split; [done|]. eapply Forall_impl; [exact HF|]. intros p [? ?]. auto. Qed.

Lemma clear_block_below m own ipa t : s2_wf m l0 own -> tbl 2 m l0 ipa = Some t ->
  is_table_desc (read64 m (pte_ptr t (idx 2 ipa))) = false ->
  below (s2_lookup m l0) (write64 m (pte_ptr t (idx 2 ipa)) 0).
Proof using.
  intros Hwf Ht Hnt ipa' d. unfold s2_lookup.
  rewrite !(leaf_update_entry m l0 own Hwf 2 ipa t 0) by (done || lia || apply fits_0).
  rewrite (decide_False (P := 1%nat = 2%nat /\ _)), (decide_False (P := 3%nat = 2%nat /\ _)) by lia.
  case_decide; [|done]. destruct (entry_at 1 m l0 ipa') as [e1|]; [|done].
  unfold leaf_or at 1. destruct (negb (pte_valid e1)) eqn:V; [done|]. unfold leaf_or. rewrite V.
  by destruct (negb (pte_table_bit e1)).
Qed.

Lemma split_seen start s own others ipa t s' r : s2_inv start s l0 own others -> tbl 2 (hm_mem s) l0 ipa = Some t ->
  let p := pte_ptr t (idx 2 ipa) in
  pte_valid (read64 (hm_mem s) p) = true -> pte_table_bit (read64 (hm_mem s) p) = false ->
  split_2mb_block_at_l2 p (read64 (hm_mem s) p) s = (s', r) ->
  seen (below (s2_lookup (hm_mem s) l0)) s s'.
Proof using.
  intros Hi Ht p Hv Hb H. pose proof (split_2mb_spec _ _ _ _ _ _ _ _ _ Hi Ht Hv Hb H) as [(_ & _ & _ & _ & He & _) _].
  unfold split_2mb_block_at_l2 in H. unfold sm_bind at 1 in H. destruct Hi as [Hh Hwf].
  destruct (m_alloc_page _ s) as [s1 [n|err]] eqn:Ea; apply (heap_ok_alloc _ _ _ _ _ _ _ Hh) in Ea.
  2:{ destruct Ea as [_ ->]. injection H as <- _. apply seen_refl. }
  destruct Ea as (_ & _ & _ & _ & Htr & Hx & Hsep).
  set (m1 := fill_l3 (write_bytes (hm_mem s1) n 0 4096) n (split_page_entry (read64 (hm_mem s) p)) 512).
  assert (Hag : forall u, In u own -> agree m1 (hm_mem s) u 4096).
  { apply (own_agree own _ _ n); [|done]. intros x Hnx. unfold m1. rewrite fill_l3_frame by lia.
    rewrite (write_bytes_agree _ _ _ _ x 1) by lia. by apply Hx. }
  pose proof (below_eq _ m1 (fun x => s2_lookup_agree _ _ _ Hwf m1 x Hag)) as B1.
  assert (Ht1 : tbl 2 m1 l0 ipa = Some t) by (by rewrite (tbl_agree _ _ _ Hwf m1) by (lia || done)).
  assert (Hnt : is_table_desc (read64 m1 p) = false).
  { unfold p. rewrite (entry_read_agree _ _ _ Hwf m1 2 ipa t) by (lia || done). fold p. by rewrite is_table_desc_and, Hv, Hb. }
  pose proof (clear_block_below m1 own ipa t ltac:(by eapply s2_wf_agree; [exact Hwf|exact Hag|apply incl_refl]) Ht1 Hnt) as B2.
  assert (B2' : below (s2_lookup (hm_mem s) l0) (write64 m1 p 0)) by (intros x d Hd; by apply B1, B2).
  cbv [sm_bind m_zero_page sm_upd m_store64 tlbi_all log_ev set_mem] in H. fold m1 in H. apply (f_equal fst) in H. cbn [fst] in H. subst s'.
  cbn [hm_mem] in He. apply below_eq in He.
  unfold seen. cbn [hm_trace]. rewrite Htr, <- !app_assoc. eexists. split; [reflexivity|].
  apply Forall_cons_2; [exact (conj B1 B2')|]. apply Forall_cons_2; [exact (conj B2' B2')|].
  apply Forall_cons_2; [exact (conj B2' He)|]. apply Forall_cons_2; [exact (conj He He)|constructor].
Qed.

Lemma split_if_needed_seen start s own others ipa s' r : s2_inv start s l0 own others ->
  split_block_if_needed (mkWalker l0) ipa s = (s', r) -> seen (below (s2_lookup (hm_mem s) l0)) s s'.
Proof using.
  intros Hi. pose proof (seen_refl (below (s2_lookup (hm_mem s) l0)) s) as Hr.
  unfold split_block_if_needed, sm_bind, m_read64, sm_ret. cbn [l0_table].
  pose proof (tbl_S 0 (hm_mem s) l0 ipa) as T1. rewrite (entry_at_slot 0 _ _ _ l0) in T1 by done.
  change (idx 0 ipa) with (l0_index ipa) in T1.
  destruct (is_table_desc _) eqn:I0; cbn [negb]; [|by intros [= <- _]].
  pose proof (tbl_S 1 (hm_mem s) l0 ipa) as T2. rewrite (entry_at_slot 1 _ _ _ _ T1), is_table_desc_and in T2.
  change (idx 1 ipa) with (l1_index ipa) in T2. rewrite <- negb_andb.
  destruct (pte_valid (read64 _ (pte_ptr _ (l1_index ipa))) && _); cbn [negb]; [|by intros [= <- _]].
  change (l2_index ipa) with (idx 2 ipa). set (t2 := Z.land _ PTE_ADDR_MASK) in T2 |- *.
  destruct (pte_valid (read64 (hm_mem s) (pte_ptr t2 (idx 2 ipa)))) eqn:V2; cbn [andb]; [|by intros [= <- _]].
  destruct (pte_table_bit _) eqn:B2; cbn [negb]; [by intros [= <- _]|]. by apply (split_seen start s own others ipa t2).
Qed.

Lemma get_or_alloc_seen start s own others k ipa t e1 e2 s' r :
  s2_inv start s l0 own others -> (1 <= k <= 2)%nat -> tbl k (hm_mem s) l0 ipa = Some t ->
  get_or_alloc_table (pte_ptr t (idx k ipa)) e1 e2 s = (s', r) -> seen (below (s2_lookup (hm_mem s) l0)) s s'.
Proof using.
  intros Hi Hk Ht H. pose proof (get_or_alloc_spec _ _ _ _ _ _ _ _ _ _ _ _ Hi Hk Ht H) as [(_ & _ & _ & _ & He & _) _].
  apply below_eq in He. pose proof (seen_refl (below (s2_lookup (hm_mem s) l0)) s) as Hr.
  unfold get_or_alloc_table, sm_bind at 1, m_read64 at 1 in H.
  destruct (pte_valid _); cbn [negb] in H; [destruct (pte_table_bit _); by injection H as <- _|].
  unfold sm_bind at 1 in H. destruct Hi as [Hh Hwf].
  destruct (m_alloc_page e1 s) as [s1 [n|err]] eqn:Ea; apply (heap_ok_alloc _ _ _ _ _ _ _ Hh) in Ea.
  2:{ destruct Ea as [_ ->]. by injection H as <- _. }
  destruct Ea as (_ & _ & _ & _ & Htr & Hx & Hsep).
  set (m1 := write_bytes (hm_mem s1) n 0 4096).
  assert (B1 : below (s2_lookup (hm_mem s) l0) m1).
  { apply below_eq. intros x. apply (s2_lookup_agree _ _ _ Hwf). apply (own_agree own _ _ n); [|done].
    intros y Hy. unfold m1. rewrite (write_bytes_agree _ _ _ _ y 1) by lia. by apply Hx. }
  unfold sm_bind, m_zero_page, sm_upd, m_store64, sm_ret, log_ev, set_mem in H. cbn [hm_mem hm_heap hm_trace] in H. fold m1 in H.
  apply (f_equal fst) in H. cbn [fst] in H. subst s'. cbn [hm_mem] in He.
  unfold seen. cbn [hm_trace]. rewrite Htr. eexists. split; [reflexivity|].
  apply Forall_cons_2; [exact (conj B1 He)|constructor].
Qed.

(** One more access to the trace of an operation that has not changed the
    tables so far, and that brings them to [look']. *)
Definition between (look look' : Z -> option pdesc) (m : mem) : Prop :=
  forall ipa d, s2_lookup m l0 ipa = Some d -> look ipa = Some d \/ look' ipa = Some d.

Lemma below_between look look' m : below look m -> between look look' m.
Proof using. intros H ipa d Hd. left. auto. Qed.

Lemma final_between look m : between look (s2_lookup m l0) m.
Proof using. intros ipa d Hd. by right. Qed.

Lemma seen_store look s s1 p v : seen (below look) s s1 -> (forall ipa, s2_lookup (hm_mem s1) l0 ipa = look ipa) ->
  let s' := set_mem (log_ev s1 (EvStore p v)) (write64 (hm_mem s1) p v) in
  seen (between look (s2_lookup (hm_mem s') l0)) s s'.
Proof using.
  intros Hs Hl s'. apply (seen_trans _ s s1); [eapply seen_mono; [|exact Hs]; intros m; apply below_between|].
  eexists. split; [reflexivity|]. apply Forall_cons_2; [split|constructor].
  - apply below_between, below_eq, Hl.
  - apply final_between.
Qed.
End Seen.

(** ** The operations of the walker *)
Definition op_ipa (o : s2_op) : Z :=
  match o with OpWriteSw ipa _ | OpSetS2ap ipa _ | OpMapPage ipa _ _ | OpUnmapPage ipa => ipa end.
(** The operand the walker computes from any address. *)
Definition tlbi_operand (ipa : Z) : Z := Z.land (Z.shiftr ipa 12) 0x000000FFFFFFFFFF.

Lemma operand_page ipa : tlbi_operand ipa mod 2 ^ 36 = prefix 4 ipa.
Proof.
  unfold tlbi_operand, prefix. change 0x000000FFFFFFFFFF with (2 ^ 40 - 1). rewrite land_low by lia.
  rewrite Z.shiftr_div_pow2 by lia. change (48 - 9 * Z.of_nat 4) with 12. Z.to_euclidean_division_equations; lia.
Qed.

Lemma sw_bits_unseen v d : hw_desc (pd_upd PTE_SW_SHIFT v d) = hw_desc d.
Proof.
  unfold hw_desc, pd_upd. cbn [pd_pa pd_attr]. f_equal. unfold field_upd. change PTE_SW_MASK with (Z.shiftl 3 PTE_SW_SHIFT).
  change PTE_SW_SHIFT with 55. change 3 with (Z.ones 2). unfold not64. bit_ext i Hi. zdec; btauto.
Qed.

Section Ops.
Context (l0 : Z).
Abbreviation look s := (s2_lookup (hm_mem s) l0).

Lemma seen_unchanged s s1 : seen (below l0 (look s)) s s1 -> seen (between l0 (look s) (look s1)) s s1.
Proof using. apply seen_mono. intros m. apply below_between. Qed.

Lemma field_write_seen sh v start s own others ipa s' r : s2_inv start s l0 own others ->
  field_write sh v (mkWalker l0) ipa s = (s', r) -> seen (between l0 (look s) (look s')) s s'.
Proof using.
  intros Hi. unfold field_write, sm_bind at 1. destruct (split_block_if_needed _ _ s) as [s1 [[]|e]] eqn:Es;
    pose proof (split_if_needed_seen _ _ _ _ _ _ _ _ Hi Es) as Hs; [|intros [= <- _]; by apply seen_unchanged].
  apply (split_if_needed_spec _ _ _ _ _ _ _ _ Hi) in Es as [(_ & _ & _ & _ & Hl & _) _].
  unfold sm_bind, sm_get, sm_some, m_read64, m_store64, sm_upd, sm_err, sm_ret.
  destruct (walk_to_leaf_ptr (hm_mem s1) _ ipa) as [p|]; [|intros [= <- _]; by apply seen_unchanged].
  intros H. apply (f_equal fst) in H. cbn [fst] in H. subst s'. by apply (seen_store l0 (look s) s s1).
Qed.

Lemma map_page_seen start s own others ipa ap sw s' r : s2_inv start s l0 own others -> fits 64 ipa ->
  map_page (mkWalker l0) ipa ap sw s = (s', r) ->
  match r with
  | Ok _ => exists s1, seen (between l0 (look s) (look s')) s s1 /\
      s' = log_ev s1 (EvTlbiIpa (Z.land (Z.shiftr ipa 12) 0x000000FFFFFFFFFF))
  | Err _ => seen (between l0 (look s) (look s')) s s'
  end.
Proof using.
  intros Hi Hipa. pose proof (seen_refl (below l0 (look s)) s) as Hr. pose proof (seen_unchanged s) as Hb.
  unfold map_page, sm_bind at 1, m_read64 at 1. cbn [l0_table]. pose proof (tbl_1 (hm_mem s) l0 ipa) as T1. cbv zeta in T1.
  destruct (is_table_desc _); cbn [negb]; [|intros [= <- <-]; auto].
  remember (Z.land _ PTE_ADDR_MASK) as t1 eqn:Ht1. unfold sm_bind at 1. change (l1_index ipa) with (idx 1 ipa).
  destruct (get_or_alloc_table _ _ _ s) as [s1 [t2|e]] eqn:E1;
    pose proof (get_or_alloc_seen _ _ _ _ _ 1 _ _ _ _ _ _ Hi ltac:(lia) T1 E1) as S1; [|intros [= <- <-]; auto].
  apply (get_or_alloc_spec _ _ _ _ _ 1 _ _ _ _ _ _ Hi ltac:(lia) T1) in E1 as [(own1 & Hi1 & _ & _ & Hl1 & _) [T2 _]].
  unfold sm_bind at 1. change (l2_index ipa) with (idx 2 ipa).
  destruct (get_or_alloc_table _ _ _ s1) as [s2 [t3|e]] eqn:E2;
    pose proof (get_or_alloc_seen _ _ _ _ _ 2 _ _ _ _ _ _ Hi1 ltac:(lia) T2 E2) as S2;
    apply (seen_mono _ _ _ _ (below_ext l0 (look s1) (look s) Hl1)) in S2;
    pose proof (seen_trans _ _ _ _ S1 S2) as S12; [|intros [= <- <-]; auto].
  apply (get_or_alloc_spec _ _ _ _ _ 2 _ _ _ _ _ _ Hi1 ltac:(lia) T2) in E2 as [(own2 & Hi2 & _ & _ & Hl2 & _) _].
  unfold sm_bind at 1, m_read64 at 1. destruct (pte_valid _); [intros [= <- <-]; auto|].
  unfold sm_bind, m_store64, tlbi_ipa, sm_upd. intros H. injection H as <- <-. eexists. split; [|reflexivity].
  apply (seen_store l0 (look s) s s2); [done|]. intros x. by rewrite Hl2, Hl1.
Qed.

(** What an operation shows to the hardware: tables between the old and the new
    ones and, unless the hardware cannot tell those apart, at the end the
    invalidation of the one page that changed. *)
Definition same_for_hw (s s' : machine) : Prop := forall x, hw_desc <$> look s' x = hw_desc <$> look s x.
Definition one_page (ipa : Z) (s s' : machine) : Prop := forall x, ~ same_page x ipa -> look s' x = look s x.

Lemma on_page_one ipa f s s' : (forall x, look s' x = on_page ipa f (look s) x) -> one_page ipa s s'.
Proof using. intros H x Hx. rewrite H. unfold on_page. by rewrite decide_False. Qed.

Lemma op_seen start s own others o s' r : s2_inv start s l0 own others -> op_ok o ->
  run_op (mkWalker l0) o s = (s', r) ->
  (seen (between l0 (look s) (look s')) s s' /\ same_for_hw s s') \/
  (exists s1, seen (between l0 (look s) (look s')) s s1 /\ s' = log_ev s1 (EvTlbiIpa (tlbi_operand (op_ipa o))) /\
     one_page (op_ipa o) s s').
Proof using.
  intros Hi Ho H. pose proof (run_op_effect _ _ _ _ _ _ _ _ Hi Ho H) as (_ & _ & _ & _ & Hl & _).
  destruct o as [ipa bits|ipa ap|ipa ap sw|ipa]; cbn [run_op op_ipa abs_op] in *.
  - left. rewrite write_sw_bits_field in H. split; [by eapply field_write_seen|]. intros x. rewrite Hl.
    destruct (is_ok r); [|done]. unfold on_page. case_decide; [|done]. destruct (look s x); [|done]. cbn. f_equal. apply sw_bits_unseen.
  - rewrite set_s2ap_field in H. destruct (field_write _ _ _ _ s) as [s1 [u|e]] eqn:E.
    + right. exists s1. unfold tlbi_ipa, sm_upd in H. injection H as <- <-.
      split_and!; [exact (field_write_seen _ _ _ _ _ _ _ _ _ Hi E)|done|exact (on_page_one _ _ _ _ Hl)].
    + left. injection H as <- <-. split; [by eapply field_write_seen|]. intros x. by rewrite Hl.
  - pose proof (map_page_seen _ _ _ _ _ _ _ _ _ Hi Ho H) as Hs. destruct r as [u|e].
    + right. destruct Hs as (s1 & Hs & E). exists s1. split_and!; [done|done|exact (on_page_one _ _ _ _ Hl)].
    + left. split; [done|]. intros x. by rewrite Hl.
  - unfold unmap_page, sm_bind, sm_get, sm_some in H. destruct (walk_to_l3_ptr _ _ _) as [p|]; unfold sm_ret, sm_err in H.
    + right. unfold m_store64, tlbi_ipa, sm_upd in H. injection H as <- <-. eexists. split_and!; [|reflexivity|exact (on_page_one _ _ _ _ Hl)].
      by apply (seen_store l0 (look s) s s); [apply seen_refl|].
    + left. injection H as <- <-. split; [apply seen_unchanged, seen_refl|]. intros x. by rewrite Hl.
Qed.
End Ops.

(** ** Coherence *)
Section Coherence.
Context (l0 : Z).
Abbreviation look s := (s2_lookup (hm_mem s) l0).

Lemma trace_delta (s s1 : machine) tr tr1 : hm_trace s1 = hm_trace s ++ tr -> hm_trace s1 = hm_trace s ++ tr1 -> tr = tr1.
Proof using. intros -> H. by apply app_inv_head in H. Qed.

(** Along tables between the old and the new ones, a Stage-2 entry is backed by
    one of the two. *)
Lemma between_run s s' tr T T' : Forall (fun p => between l0 (look s) (look s') p.2 /\ between l0 (look s) (look s') (mem_after p.1 p.2)) tr ->
  coherent l0 (hm_mem s) T -> tlb_run l0 tr T T' ->
  forall ipa d, In (Stage2Entry ipa d) T' -> backed l0 (hm_mem s) ipa d \/ backed l0 (hm_mem s') ipa d.
Proof using.
  intros Htr HT Hrun ipa d Hin.
  refine (tlb_run_inv l0 (fun en => match en with Stage2Entry ipa d => backed l0 (hm_mem s) ipa d \/ backed l0 (hm_mem s') ipa d
                                    | _ => True end) tr T T' _ _ Hrun (Stage2Entry ipa d) Hin).
  - eapply Forall_impl; [exact Htr|]. intros [ev m] [Hb Ha] m' Hm [x e|x y e] Hl; [|done]. cbn [entry_ipa entry_desc] in Hl.
    assert (between l0 (look s) (look s') m') as Hm' by (by destruct Hm as [-> | ->]).
    destruct (Hm' x e Hl); [left|right]; by exists e.
  - intros [x e|x y e] Hx; [|done]. left. by apply HT.
Qed.

Lemma same_for_hw_backed s s' ipa d : same_for_hw l0 s s' -> backed l0 (hm_mem s) ipa d -> backed l0 (hm_mem s') ipa d.
Proof using.
  intros Hs (d' & Hl & Hd). specialize (Hs ipa). rewrite Hl in Hs. destruct (look s' ipa) as [d2|] eqn:E; [|done].
  exists d2. split; [done|]. cbn in Hs. injection Hs as Hs1 Hs2. rewrite <- Hd. unfold hw_desc. by rewrite Hs1, Hs2.
Qed.

Lemma op_coherent start s own others o s' r T T' : s2_inv start s l0 own others -> op_ok o ->
  run_op (mkWalker l0) o s = (s', r) -> coherent l0 (hm_mem s) T -> tlb_during l0 s s' T T' -> coherent l0 (hm_mem s') T'.
Proof using.
  intros Hi Ho H HT (tr & T1 & Htr & Hrun & Hhw) ipa d Hin.
  destruct (Hhw _ Hin) as [Hin1|Hl]; [|by exists d].
  destruct (op_seen l0 _ _ _ _ _ _ _ Hi Ho H) as [[(tr' & Htr' & HF) Hs]|(s1 & (tr' & Htr' & HF) & -> & Hone)].
  - rewrite (trace_delta _ _ _ _ Htr Htr') in Hrun.
    destruct (between_run s s' tr' T T1 HF HT Hrun ipa d Hin1) as [Hb|Hb]; [|done]. by eapply same_for_hw_backed.
  - cbn [log_ev hm_trace hm_mem] in *. rewrite Htr', <- app_assoc in Htr. apply app_inv_head in Htr as <-.
    apply tlb_run_app in Hrun as (T0 & Hrun & T2 & T3 & H1 & H2 & ->).
    destruct (H2 _ Hin1) as [Hin2|Hl]; [|by exists d]. apply in_invalidate in Hin2 as [Hin2 Hsv].
    cbn [survives] in Hsv. rewrite operand_page, negb_true_iff, Z.eqb_neq in Hsv.
    destruct (H1 _ Hin2) as [Hin3|Hl]; [|by exists d].
    destruct (between_run s (log_ev s1 (EvTlbiIpa (tlbi_operand (op_ipa o)))) tr' T T0 HF HT Hrun ipa d Hin3) as [(d' & Hl & Hd)|Hb]; [|done].
    exists d'. split; [|done]. rewrite <- Hl. by apply Hone.
Qed.

Lemma run_op_trace o s s' r start own others : s2_inv start s l0 own others -> op_ok o ->
  run_op (mkWalker l0) o s = (s', r) -> exists tr, hm_trace s' = hm_trace s ++ tr.
Proof using.
  intros Hi Ho H. destruct (op_seen l0 _ _ _ _ _ _ _ Hi Ho H) as [[(tr & E & _) _]|(s1 & (tr & E & _) & -> & _)]; [by exists tr|].
  cbn [log_ev hm_trace]. rewrite E, <- app_assoc. by eexists.
Qed.

Lemma run_ops_trace os : forall s s' rs start own others, s2_inv start s l0 own others -> Forall op_ok os ->
  run_ops (mkWalker l0) os s = (s', rs) -> exists tr, hm_trace s' = hm_trace s ++ tr.
Proof using.
  induction os as [|o os IH]; intros s s' rs start own others Hi Hos H; cbn [run_ops] in H.
  - injection H as <- _. exists []. by rewrite app_nil_r.
  - inversion Hos as [|? ? Ho Hos']; subst. destruct (run_op _ o s) as [s1 r] eqn:E1.
    destruct (run_ops _ os s1) as [s2 rs2] eqn:E2. injection H as <- _.
    destruct (run_op_effect _ _ _ _ _ _ _ _ Hi Ho E1) as (own1 & Hi1 & _).
    destruct (run_op_trace _ _ _ _ _ _ _ Hi Ho E1) as [tr1 H1]. destruct (IH _ _ _ _ _ _ Hi1 Hos' E2) as [tr2 H2].
    exists (tr1 ++ tr2). by rewrite H2, H1, app_assoc.
Qed.
End Coherence.

(** No stale Stage-2 entry: during any sequence of walker operations, the ones
    that fail included, let the hardware walk the tables and fill the TLB
    before and after every store and every TLB instruction; if every Stage-2
    entry of the TLB agreed with the tables of the VM before, every one does
    afterwards, in output address, permission and attributes. *)
Theorem tlb_stage2_coherent l0 os : forall start s own others s' rs T T',
  s2_inv start s l0 own others -> Forall op_ok os -> run_ops (mkWalker l0) os s = (s', rs) ->
  coherent l0 (hm_mem s) T -> tlb_during l0 s s' T T' -> coherent l0 (hm_mem s') T'.
Proof.
  induction os as [|o os IH]; intros start s own others s' rs T T' Hi Hos H HT Hd; cbn [run_ops] in H.
  - injection H as <- <-. destruct Hd as (tr & T1 & Htr & Hrun & Hhw).
    assert (tr = []) as -> by (apply (app_inv_head (hm_trace s)); by rewrite app_nil_r). cbn [tlb_run] in Hrun. subst T1.
    intros ipa d Hin. destruct (Hhw _ Hin) as [?|Hl]; [by apply HT|by exists d].
  - inversion Hos as [|? ? Ho Hos']; subst. destruct (run_op _ o s) as [s1 r] eqn:E1.
    destruct (run_ops _ os s1) as [s2 rs2] eqn:E2. injection H as <- <-.
    destruct (run_op_effect _ _ _ _ _ _ _ _ Hi Ho E1) as (own1 & Hi1 & _).
    destruct (run_op_trace l0 _ _ _ _ _ _ _ Hi Ho E1) as [tr1 Ht1].
    destruct (run_ops_trace l0 os _ _ _ _ _ _ Hi1 Hos' E2) as [tr2 Ht2].
    destruct Hd as (tr & T2 & Htr & Hrun & Hhw). rewrite Ht2, Ht1, <- app_assoc in Htr. apply app_inv_head in Htr as <-.
    apply tlb_run_app in Hrun as (T1 & Hrun1 & Hrun2).
    apply (IH start s1 own1 others s2 rs2 T1 T' Hi1 Hos' E2); [|by exists tr2, T2].
    apply (op_coherent l0 start s own others o s1 r T T1 Hi Ho E1 HT). exists tr1, T1. split_and!; [done|done|apply hw_moves_refl].
Qed.

(** One entry of the second VM, and one of the page that the operations made
    read-only. *)
Definition ex_tlb : tlb := [Stage2Entry 0x40001000 (mkPd 0x40001000 (attr_bits Normal))].
Definition ex_ops_end : machine := (run_ops (mkWalker ex_l0) ex_ops ex_s).1.
Definition ex_refilled : tlb := [Stage2Entry 0x40003000 (default (mkPd 0 0) (s2_lookup (hm_mem ex_ops_end) ex_l0 0x40003000))].

Lemma tlb_stage2_coherent_witness :
  tlb_during ex_l0 ex_s ex_ops_end ex_tlb ex_refilled /\ coherent ex_l0 (hm_mem ex_ops_end) ex_refilled.
Proof.
  destruct ex_s_inv as (own & Hd & _). pose proof (di_inv _ _ _ _ _ Hd) as Hi.
  assert (Ho : Forall op_ok ex_ops) by (repeat constructor; by vm_compute).
  assert (E : run_ops (mkWalker ex_l0) ex_ops ex_s = (ex_ops_end, (run_ops (mkWalker ex_l0) ex_ops ex_s).2))
    by exact (surjective_pairing (run_ops (mkWalker ex_l0) ex_ops ex_s)).
  assert (D : tlb_during ex_l0 ex_s ex_ops_end ex_tlb ex_refilled).
  { destruct (run_ops_trace ex_l0 ex_ops _ _ _ _ _ _ Hi Ho E) as [tr Htr].
    destruct (tlb_run_total ex_l0 tr ex_tlb) as [T1 HT1]. exists tr, T1. split_and!; [exact Htr|exact HT1|].
    intros en [<-|[]]. right. vm_compute. reflexivity. }
  split; [exact D|].
  apply (tlb_stage2_coherent ex_l0 ex_ops ex_start ex_s own _ ex_ops_end _ ex_tlb ex_refilled Hi Ho E); [|exact D].
  intros ipa d [[= <- <-]|[]]. eexists. split; [vm_compute; reflexivity|reflexivity].
Defined.

(** ** Combined entries *)
Section Stale.
Context (l0 : Z).
Abbreviation look s := (s2_lookup (hm_mem s) l0).

(** The end of an operation on one page: a store made while the tables were
    the old ones, and the invalidation of the page. *)
Definition ends_on_page (s s' : machine) : Prop :=
  exists tr p v m n, hm_trace s' = hm_trace s ++ tr ++ [(EvStore p v, m); (EvTlbiIpa n, hm_mem s')] /\
    forall x, s2_lookup m l0 x = look s x.

Lemma field_write_ends sh v start s own others ipa s' : s2_inv start s l0 own others ->
  field_write sh v (mkWalker l0) ipa s = (s', Ok tt) ->
  exists tr p w m, hm_trace s' = hm_trace s ++ tr ++ [(EvStore p w, m)] /\ forall x, s2_lookup m l0 x = look s x.
Proof using.
  intros Hi. unfold field_write, sm_bind at 1. destruct (split_block_if_needed _ _ s) as [s1 [[]|e]] eqn:Es; [|intros [=]].
  destruct (split_if_needed_seen _ _ _ _ _ _ _ _ Hi Es) as (tr & Htr & _).
  apply (split_if_needed_spec _ _ _ _ _ _ _ _ Hi) in Es as [(_ & _ & _ & _ & Hl & _) _].
  unfold sm_bind, sm_get, sm_some, m_read64, m_store64, sm_upd, sm_err, sm_ret.
  destruct (walk_to_leaf_ptr (hm_mem s1) _ ipa) as [p|]; [|intros [=]]. intros H. apply (f_equal fst) in H. cbn [fst] in H.
  subst s'. cbn [set_mem log_ev hm_trace]. rewrite Htr, <- app_assoc. do 4 eexists. split; [reflexivity|done].
Qed.

Lemma withdraw_ends start s own others o s' : s2_inv start s l0 own others ->
  match o with OpSetS2ap _ _ | OpUnmapPage _ => True | _ => False end ->
  run_op (mkWalker l0) o s = (s', Ok tt) -> ends_on_page s s'.
Proof using.
  intros Hi Ho H. destruct o as [|ipa ap| |ipa]; try done; cbn [run_op] in H.
  - rewrite set_s2ap_field in H. destruct (field_write _ _ _ _ s) as [s1 [[]|e]] eqn:E; [|discriminate H].
    unfold tlbi_ipa, sm_upd in H. injection H as <-. destruct (field_write_ends _ _ _ _ _ _ _ _ Hi E) as (tr & p & v & m & Htr & Hl).
    exists tr, p, v, m. eexists. split; [|exact Hl]. cbn [log_ev hm_trace hm_mem]. by rewrite Htr, <- !app_assoc.
  - unfold unmap_page, sm_bind, sm_get, sm_some in H. destruct (walk_to_l3_ptr _ _ _) as [p|]; [|discriminate H].
    unfold sm_ret, m_store64, tlbi_ipa, sm_upd in H. injection H as <-. exists []. do 4 eexists. cbn [set_mem log_ev hm_trace hm_mem].
    split; [rewrite <- app_assoc; reflexivity|done].
Qed.

Lemma empty_run tr : tlb_run l0 tr [] [].
Proof using. induction tr as [|[ev m] tr IH]; [done|]. exists [], []. split_and!; [apply hw_moves_refl|by intros en []|done]. Qed.

Lemma combined_survives s s' va ipa d : ends_on_page s s' -> look s ipa = Some d ->
  tlb_during l0 s s' [] [CombinedEntry va ipa d].
Proof using.
  intros (tr & p & v & m & n & Htr & Hl) Hd. set (C := [CombinedEntry va ipa d]).
  eexists _, C. split_and!; [exact Htr| |apply hw_moves_refl]. apply tlb_run_app. exists []. split; [apply empty_run|].
  exists C, C. split_and!; [|apply hw_moves_refl|exists C, C; split_and!; [apply hw_moves_refl..|done]].
  intros en [<-|[]]. right. cbn [entry_ipa entry_desc]. by rewrite Hl.
Qed.
End Stale.

(** C5. A withdrawn page stays reachable: when the walker takes a page away from a
    VM (all permissions removed, or unmapped) the hardware may fill a combined
    entry for any virtual address of the page before the store, and keep it
    through the invalidation, with the old permission, although the tables no
    longer grant any. *)
Theorem withdrawn_page_reachable start s l0 own others o s' va d :
  s2_inv start s l0 own others -> (exists ipa, o = OpSetS2ap ipa 0 \/ o = OpUnmapPage ipa) ->
  run_op (mkWalker l0) o s = (s', Ok tt) -> s2_lookup (hm_mem s) l0 (op_ipa o) = Some d ->
  tlb_during l0 s s' [] [CombinedEntry va (op_ipa o) d] /\
  forall d', s2_lookup (hm_mem s') l0 (op_ipa o) = Some d' -> pd_s2ap d' = 0.
Proof.
  intros Hi [ipa Ho] H Hd. split.
  - apply combined_survives; [|done]. eapply withdraw_ends; [exact Hi| |exact H]. by destruct Ho as [-> | ->].
  - assert (Hok : op_ok o) by (by destruct Ho as [-> | ->]).
    destruct (run_op_effect _ _ _ _ _ _ _ _ Hi Hok H) as (_ & _ & _ & _ & Hl & _).
    intros d'. rewrite Hl. destruct Ho as [-> | ->]; cbn [is_ok abs_op op_ipa]; unfold on_page;
      rewrite decide_True by apply same_page_refl; [|done].
    cbn [op_ipa] in Hd. rewrite Hd. intros [= <-]. exact (field_read S2AP_SHIFT (or_intror eq_refl) 0 (pd_attr d)).
Qed.
Lemma withdrawn_page_reachable_witness :
  tlb_during ex_l0 ex_s (run_op (mkWalker ex_l0) (OpSetS2ap 0x40003000 0) ex_s).1 []
    [CombinedEntry 0xFFFF000008003000 0x40003000 (default (mkPd 0 0) (s2_lookup (hm_mem ex_s) ex_l0 0x40003000))].
Proof.
  destruct ex_s_inv as (own & Hd & _).
  assert (E : (run_op (mkWalker ex_l0) (OpSetS2ap 0x40003000 0) ex_s).2 = Ok tt) by (vm_compute; reflexivity).
  apply (withdrawn_page_reachable ex_start ex_s ex_l0 own _ (OpSetS2ap 0x40003000 0) _ 0xFFFF000008003000 _
    (di_inv _ _ _ _ _ Hd) (ex_intro _ 0x40003000 (or_introl eq_refl)) (run_ok _ _ E)).
  vm_compute. reflexivity.
Defined.
