(* ===== verification/FfaCore.v ===== *)
(** * FF-A data (src/ffa/mod.rs, memory.rs, mailbox.rs, stub_spmc.rs, descriptors.rs)

    Function and partition identifiers, page ownership states, mailboxes, the share
    records of the stub SPMC and the parser of memory region descriptors. *)

From Stdlib Require Import ZArith Lia Bool.
From stdpp Require Import base list strings.
From S2P Require Import Prelude Memory Stage2.

(** ** Identifiers *)
Definition FFA_ERROR : Z := 0x84000060.
Definition FFA_SUCCESS_32 : Z := 0x84000061.
Definition FFA_INTERRUPT : Z := 0x84000062.
Definition FFA_VERSION : Z := 0x84000063.
Definition FFA_FEATURES : Z := 0x84000064.
Definition FFA_RX_RELEASE : Z := 0x84000065.
Definition FFA_RXTX_UNMAP : Z := 0x84000067.
Definition FFA_PARTITION_INFO_GET : Z := 0x84000068.
Definition FFA_ID_GET : Z := 0x84000069.
Definition FFA_MSG_WAIT : Z := 0x8400006B.
Definition FFA_RUN : Z := 0x8400006D.
Definition FFA_MSG_SEND_DIRECT_REQ_32 : Z := 0x8400006F.
Definition FFA_MSG_SEND_DIRECT_RESP_32 : Z := 0x84000070.
Definition FFA_MEM_DONATE_32 : Z := 0x84000071.
Definition FFA_MEM_LEND_32 : Z := 0x84000072.
Definition FFA_MEM_SHARE_32 : Z := 0x84000073.
Definition FFA_MEM_RETRIEVE_REQ_32 : Z := 0x84000074.
Definition FFA_MEM_RETRIEVE_RESP : Z := 0x84000075.
Definition FFA_MEM_RELINQUISH : Z := 0x84000076.
Definition FFA_MEM_RECLAIM : Z := 0x84000077.
Definition FFA_NOTIFICATION_BITMAP_CREATE : Z := 0x8400007D.
Definition FFA_NOTIFICATION_BITMAP_DESTROY : Z := 0x8400007E.
Definition FFA_NOTIFICATION_BIND : Z := 0x8400007F.
Definition FFA_NOTIFICATION_UNBIND : Z := 0x84000080.
Definition FFA_NOTIFICATION_SET : Z := 0x84000081.
Definition FFA_NOTIFICATION_GET : Z := 0x84000082.
Definition FFA_NOTIFICATION_INFO_GET_32 : Z := 0x84000083.
Definition FFA_SPM_ID_GET : Z := 0x84000085.
Definition FFA_MSG_SEND2 : Z := 0x84000086.
Definition FFA_RXTX_MAP : Z := 0xC4000066.
Definition FFA_MSG_SEND_DIRECT_REQ_64 : Z := 0xC400006F.
Definition FFA_MSG_SEND_DIRECT_RESP_64 : Z := 0xC4000070.
Definition FFA_MEM_DONATE_64 : Z := 0xC4000071.
Definition FFA_MEM_LEND_64 : Z := 0xC4000072.
Definition FFA_MEM_SHARE_64 : Z := 0xC4000073.
Definition FFA_MEM_RETRIEVE_REQ_64 : Z := 0xC4000074.
Definition FFA_NOTIFICATION_INFO_GET_64 : Z := 0xC4000083.

Definition FFA_VERSION_1_1 : Z := 0x00010001.
Definition FFA_FWK_MSG_BIT : Z := Z.shiftl 1 31.
Definition SPMD_FWK_MSG_FFA_VERSION_REQ : Z := 0x8.
Definition SPMD_FWK_MSG_FFA_VERSION_RESP : Z := 0x9.

(** Error codes are [i32]. *)
Definition FFA_NOT_SUPPORTED : Z := -1.
Definition FFA_INVALID_PARAMETERS : Z := -2.
Definition FFA_NO_MEMORY : Z := -3.
Definition FFA_BUSY : Z := -4.
Definition FFA_DENIED : Z := -6.
Definition FFA_NO_DATA : Z := -8.

Definition FFA_SPMC_ID : Z := 0x8000.
Definition FFA_MAX_VMS : Z := 4.

Definition vm_id_to_partition_id (vm_id : Z) : Z := u16 (vm_id + 1).
Definition partition_id_to_vm_id (part_id : Z) : option Z :=
  if (1 <=? part_id) && (part_id <=? FFA_MAX_VMS) then Some (part_id - 1) else None.
Definition is_vm_partition (part_id : Z) : bool :=
  match partition_id_to_vm_id part_id with Some _ => true | None => false end.

(** ** Page ownership (memory.rs) *)
Inductive PageOwnership := Owned | SharedOwned | SharedBorrowed | Donated.

Definition ownership_bits (o : PageOwnership) : Z :=
  match o with Owned => 0 | SharedOwned => 1 | SharedBorrowed => 2 | Donated => 3 end.

Definition from_bits (bits : Z) : PageOwnership :=
  match Z.land bits 0x3 with
  | 0 => Owned | 1 => SharedOwned | 2 => SharedBorrowed | _ => Donated
  end.

Definition validate_page_for_share (sw_bits : Z) : result unit Z :=
  match from_bits sw_bits with
  | Owned => Ok tt
  | _ => Err FFA_DENIED
  end.

(** ** Mailboxes (mailbox.rs) *)
Record FfaMailbox := mkMailbox {
  mb_tx_ipa : Z;
  mb_rx_ipa : Z;
  mb_page_count : Z;
  mb_mapped : bool;
  mb_rx_held_by_proxy : bool;
  mb_msg_pending : bool;
  mb_msg_sender_id : Z;
}.

Definition FfaMailbox_new : FfaMailbox := mkMailbox 0 0 0 false true false 0.
Definition MAILBOXES_init : list FfaMailbox := repeat FfaMailbox_new 4.

(** ** Share records of the stub SPMC (stub_spmc.rs) *)
Record StubPartition := mkStub { sp_part_id : Z; sp_exec_ctx_count : Z; sp_properties : Z }.
Definition STUB_PARTITIONS : list StubPartition := [mkStub 0x8001 1 1; mkStub 0x8002 1 1].
Definition is_valid_sp (part_id : Z) : bool :=
  existsb (fun sp => sp_part_id sp =? part_id) STUB_PARTITIONS.
Definition partition_count : Z := Z.of_nat (length STUB_PARTITIONS).
Definition is_valid_receiver (part_id : Z) : bool :=
  is_vm_partition part_id || is_valid_sp part_id.

Definition MAX_SHARE_RANGES : nat := 4.
Definition MAX_SHARES : nat := 16.

(** Ranges are (base IPA, page count); [sr_ranges] is the fixed-size array. *)
Record MemShareRecord := mkShare {
  sr_handle : Z;
  sr_sender_id : Z;
  sr_receiver_id : Z;
  sr_ranges : list (Z * Z);
  sr_range_count : nat;
  sr_total_page_count : Z;
  sr_active : bool;
  sr_is_lend : bool;
  sr_retrieved : bool;
}.

Definition EMPTY_share : MemShareRecord :=
  mkShare 0 0 0 (repeat (0, 0) MAX_SHARE_RANGES) 0 0 false false false.

Record spmc_store := mkStore { ss_records : list MemShareRecord; ss_next_handle : Z }.
Definition SHARE_RECORDS_init : spmc_store := mkStore (repeat EMPTY_share MAX_SHARES) 1.

(** Update of the first record that satisfies [P], if any. *)
Fixpoint update_first {A} (P : A -> bool) (f : A -> A) (l : list A) : option (list A) :=
  match l with
  | [] => None
  | r :: l' => if P r then Some (f r :: l')
               else match update_first P f l' with Some l'' => Some (r :: l'') | None => None end
  end.

Definition alloc_handle (st : spmc_store) : Z * spmc_store :=
  (ss_next_handle st, mkStore (ss_records st) (u64 (ss_next_handle st + 1))).

Definition stored_ranges (ranges : list (Z * Z)) : list (Z * Z) :=
  firstn MAX_SHARE_RANGES ranges ++ repeat (0, 0) (MAX_SHARE_RANGES - length ranges).

Definition record_share (st : spmc_store) (sender_id receiver_id : Z) (ranges : list (Z * Z))
  (total_page_count : Z) (is_lend : bool) : option Z * spmc_store :=
  let (handle, st1) := alloc_handle st in
  let count := Nat.min (length ranges) MAX_SHARE_RANGES in
  match update_first (fun r => negb (sr_active r))
          (fun _ => mkShare handle sender_id receiver_id (stored_ranges ranges) count
                      total_page_count true is_lend false) (ss_records st1) with
  | Some rs => (Some handle, mkStore rs (ss_next_handle st1))
  | None => (None, st1)
  end.

Definition has_handle (handle : Z) (r : MemShareRecord) : bool :=
  sr_active r && (sr_handle r =? handle).

(** [lookup_share] and [lookup_share_full] return parts of this record. *)
Definition lookup_share_full (st : spmc_store) (handle : Z) : option MemShareRecord :=
  List.find (has_handle handle) (ss_records st).

Definition set_retrieved (b : bool) (r : MemShareRecord) : MemShareRecord :=
  mkShare (sr_handle r) (sr_sender_id r) (sr_receiver_id r) (sr_ranges r) (sr_range_count r)
    (sr_total_page_count r) (sr_active r) (sr_is_lend r) b.
Definition set_inactive (r : MemShareRecord) : MemShareRecord :=
  mkShare (sr_handle r) (sr_sender_id r) (sr_receiver_id r) (sr_ranges r) (sr_range_count r)
    (sr_total_page_count r) false (sr_is_lend r) (sr_retrieved r).

Definition update_store (st : spmc_store) (P : MemShareRecord -> bool)
  (f : MemShareRecord -> MemShareRecord) : bool * spmc_store :=
  match update_first P f (ss_records st) with
  | Some rs => (true, mkStore rs (ss_next_handle st))
  | None => (false, st)
  end.

Definition mark_retrieved (st : spmc_store) (handle : Z) : bool * spmc_store :=
  update_store st (fun r => has_handle handle r && negb (sr_retrieved r)) (set_retrieved true).
Definition mark_relinquished (st : spmc_store) (handle : Z) : bool * spmc_store :=
  update_store st (fun r => has_handle handle r && sr_retrieved r) (set_retrieved false).
Definition reclaim_share (st : spmc_store) (handle : Z) : bool * spmc_store :=
  update_store st (has_handle handle) set_inactive.

(** ** Memory region descriptors (descriptors.rs) *)
Definition MAX_ADDR_RANGES : nat := 16.
(** Sizes of the packed structs. *)
Definition SIZEOF_FfaMemRegion : Z := 44.
Definition SIZEOF_FfaMemAccessDesc : Z := 16.
Definition SIZEOF_FfaCompositeMemRegion : Z := 16.
Definition SIZEOF_FfaMemRegionAddrRange : Z := 16.

Record ParsedMemRegion := mkParsed {
  pr_sender_id : Z;
  pr_receiver_id : Z;
  pr_flags : Z;
  pr_ranges : list (Z * Z);
  pr_total_page_count : Z;
}.

(** [for i in 0..count]; the ranges read so far are the result's [ranges[..range_count]]. *)
Fixpoint parse_ranges (m : mem) (tx_ptr total off : Z) (count : nat) : result (list (Z * Z)) Z :=
  match count with
  | O => Ok []
  | S n =>
      if total <? off + SIZEOF_FfaMemRegionAddrRange then Err FFA_INVALID_PARAMETERS else
      let address := read64 m (tx_ptr + off) in
      let page_count := read32 m (tx_ptr + off + 8) in
      if negb (Z.land address 0xFFF =? 0) then Err FFA_INVALID_PARAMETERS else
      match parse_ranges m tx_ptr total (off + SIZEOF_FfaMemRegionAddrRange) n with
      | Ok l => Ok ((address, page_count) :: l)
      | Err e => Err e
      end
  end.

Definition parse_mem_region (m : mem) (tx_ptr total_length : Z) : result ParsedMemRegion Z :=
  let total := total_length in
  if total <? SIZEOF_FfaMemRegion then Err FFA_INVALID_PARAMETERS else
  let sender_id := read16 m tx_ptr in
  let flags := read32 m (tx_ptr + 8) in
  let receiver_count := read32 m (tx_ptr + 32) in
  let receivers_offset := read32 m (tx_ptr + 36) in
  if (receiver_count =? 0) || (1 <? receiver_count) then Err FFA_INVALID_PARAMETERS else
  let access_end := receivers_offset + SIZEOF_FfaMemAccessDesc in
  if total <? access_end then Err FFA_INVALID_PARAMETERS else
  let access_ptr := tx_ptr + receivers_offset in
  let receiver_id := read16 m access_ptr in
  let composite_offset := read32 m (access_ptr + 4) in
  let comp_end := composite_offset + SIZEOF_FfaCompositeMemRegion in
  if total <? comp_end then Err FFA_INVALID_PARAMETERS else
  let comp_ptr := tx_ptr + composite_offset in
  let total_page_count := read32 m comp_ptr in
  let address_range_count := read32 m (comp_ptr + 4) in
  if address_range_count =? 0 then Err FFA_INVALID_PARAMETERS else
  let count := Nat.min (Z.to_nat address_range_count) MAX_ADDR_RANGES in
  match parse_ranges m tx_ptr total comp_end count with
  | Ok ranges => Ok (mkParsed sender_id receiver_id flags ranges total_page_count)
  | Err e => Err e
  end.

Fixpoint write_ranges (m : mem) (ptr : Z) (ranges : list (Z * Z)) : mem :=
  match ranges with
  | [] => m
  | (addr, count) :: rs => write_ranges (write32 (write64 m ptr addr) (ptr + 8) count) (ptr + 16) rs
  end.

Definition build_test_descriptor (m : mem) (buf sender_id receiver_id : Z) (ranges : list (Z * Z)) :
  mem * Z :=
  let m := write_bytes m buf 0 128 in
  let m := write16 m buf sender_id in
  let m := write32 m (buf + 32) 1 in
  let recv_off := 48 in
  let m := write32 m (buf + 36) recv_off in
  let access_ptr := buf + recv_off in
  let m := write16 m access_ptr receiver_id in
  let comp_off := 48 + 16 in
  let m := write32 m (access_ptr + 4) comp_off in
  let comp_ptr := buf + comp_off in
  let total_pages := fold_left (fun s r => u32 (s + r.2)) ranges 0 in
  let m := write32 m comp_ptr total_pages in
  let m := write32 m (comp_ptr + 4) (u32 (Z.of_nat (length ranges))) in
  let ranges_start := comp_off + 16 in
  let m := write_ranges m (buf + ranges_start) ranges in
  (m, u32 (ranges_start + Z.of_nat (length ranges) * 16)).

Lemma update_first_Some {A} (P : A -> bool) f l l' : update_first P f l = Some l' ->
  exists l1 x l2, l = l1 ++ x :: l2 /\ l' = l1 ++ f x :: l2 /\ P x = true /\
    Forall (fun y => P y = false) l1.
Proof.
  revert l'. induction l as [|r l IH]; intros l' H; simpl in H; [done|].
  destruct (P r) eqn:E.
  - simplify_eq. exists [], r, l. auto.
  - destruct (update_first P f l) as [l''|]; [|done]. simplify_eq.
    destruct (IH l'' eq_refl) as (l1 & x & l2 & -> & -> & Hx & Hf).
    exists (r :: l1), x, l2. auto.
Qed.

Lemma update_first_None {A} (P : A -> bool) f l : update_first P f l = None ->
  Forall (fun y => P y = false) l.
Proof.
  induction l as [|r l IH]; intros H; simpl in H; [done|].
  destruct (P r) eqn:E; [done|]. destruct (update_first P f l); [done|]. auto.
Qed.

Lemma update_first_ex {A} (P : A -> bool) f l x : In x l -> P x = true ->
  exists l', update_first P f l = Some l'.
Proof.
  intros Hin Hx. destruct (update_first P f l) eqn:E; [eauto|]. exfalso.
  apply update_first_None in E. rewrite List.Forall_forall in E. specialize (E x Hin). congruence.
Qed.

(** ** The parser only reads the descriptor *)
Ltac agree_tac := match goal with H : agree ?m ?m' _ _ |- _ =>
  apply read_le_agree; eapply agree_sub; [exact H|simpl; lia|simpl; lia] end.

Lemma parse_ranges_agree m m' tx total : agree m m' tx total ->
  forall count off, 0 <= off -> parse_ranges m tx total off count = parse_ranges m' tx total off count.
Proof.
  intros Hag. induction count as [|n IH]; intros off Ho; [done|]. cbn [parse_ranges].
  unfold SIZEOF_FfaMemRegionAddrRange in *. destruct (Z.ltb_spec total (off + 16)); [done|].
  assert (E1 : read64 m (tx + off) = read64 m' (tx + off)) by agree_tac.
  assert (E2 : read32 m (tx + off + 8) = read32 m' (tx + off + 8)) by agree_tac.
  rewrite E1, E2, IH by lia. done.
Qed.

Lemma read32_range m a : 0 <= read32 m a < 2 ^ 32.
Proof. apply (read_le_range 4). Qed.

Lemma parse_agree m m' tx total : agree m m' tx total ->
  parse_mem_region m tx total = parse_mem_region m' tx total.
Proof.
  intros Hag. unfold parse_mem_region, SIZEOF_FfaMemRegion, SIZEOF_FfaMemAccessDesc,
    SIZEOF_FfaCompositeMemRegion. destruct (Z.ltb_spec total 44); [done|].
  assert (E1 : read16 m tx = read16 m' tx) by agree_tac.
  assert (E2 : read32 m (tx + 8) = read32 m' (tx + 8)) by agree_tac.
  assert (E3 : read32 m (tx + 32) = read32 m' (tx + 32)) by agree_tac.
  assert (E4 : read32 m (tx + 36) = read32 m' (tx + 36)) by agree_tac.
  rewrite E1, E2, E3, E4. case_match; [done|].
  pose proof (read32_range m' (tx + 36)). destruct (Z.ltb_spec total (read32 m' (tx + 36) + 16)); [done|].
  set (a := tx + read32 m' (tx + 36)) in *.
  assert (E5 : read16 m a = read16 m' a) by (unfold a; agree_tac).
  assert (E6 : read32 m (a + 4) = read32 m' (a + 4)) by (unfold a; agree_tac).
  rewrite E5, E6. pose proof (read32_range m' (a + 4)).
  destruct (Z.ltb_spec total (read32 m' (a + 4) + 16)); [done|].
  assert (E7 : read32 m (tx + read32 m' (a + 4)) = read32 m' (tx + read32 m' (a + 4))) by agree_tac.
  assert (E8 : read32 m (tx + read32 m' (a + 4) + 4) = read32 m' (tx + read32 m' (a + 4) + 4)) by agree_tac.
  rewrite E7, E8. case_match; [done|]. rewrite (parse_ranges_agree m m' tx total Hag) by lia. done.
Qed.

(** ** Building and parsing a descriptor *)
Definition range_ok (r : Z * Z) : Prop := fits 64 r.1 /\ r.1 mod 4096 = 0 /\ fits 32 r.2.

Lemma write_ranges_frame rs : forall m ptr x,
  x < ptr \/ ptr + 16 * Z.of_nat (length rs) <= x -> write_ranges m ptr rs x = m x.
Proof.
  induction rs as [|[a c] rs IH]; intros m ptr x Hx; cbn [write_ranges length] in *; [done|].
  rewrite IH by lia. unfold write32, write64, write_le.
  repeat match goal with |- context [in_range ?a ?n x] => destruct (in_range a n x) eqn:?E end;
    rewrite ?in_range_true in *; try lia; done.
Qed.

Lemma read_write_ranges k m ptr rs a :
  a + Z.of_nat k <= ptr \/ ptr + 16 * Z.of_nat (length rs) <= a ->
  read_le k (write_ranges m ptr rs) a = read_le k m a.
Proof. intros H. apply read_le_agree. intros x Hx. apply write_ranges_frame. lia. Qed.

Lemma land_fff_aligned a : a mod 4096 = 0 -> (Z.land a 0xFFF =? 0) = true.
Proof. intros. change 0xFFF with (2 ^ 12 - 1). rewrite land_low by lia. by apply Z.eqb_eq. Qed.

Lemma parse_written_ranges tx total : forall rs m off,
  Forall range_ok rs -> off + 16 * Z.of_nat (length rs) <= total ->
  parse_ranges (write_ranges m (tx + off) rs) tx total off (length rs) = Ok rs.
Proof.
  induction rs as [|[a c] rs IH]; intros m off Hf Ht; [done|]. inversion Hf as [|? ? (H1 & H2 & H3) Hf']; subst.
  simpl in H1, H2, H3. cbn [length write_ranges parse_ranges] in *. unfold SIZEOF_FfaMemRegionAddrRange.
  destruct (Z.ltb_spec total (off + 16)); [lia|].
  assert (E1 : read64 (write_ranges (write32 (write64 m (tx + off) a) (tx + off + 8) c) (tx + off + 16) rs)
                 (tx + off) = a).
  { unfold read64. rewrite read_write_ranges by lia. unfold write32. rewrite read_write_le_ne by lia.
    by apply read64_write64. }
  assert (E2 : read32 (write_ranges (write32 (write64 m (tx + off) a) (tx + off + 8) c) (tx + off + 16) rs)
                 (tx + off + 8) = c).
  { unfold read32. rewrite read_write_ranges by lia. by apply (read_write_le_id 4). }
  rewrite E1, E2, land_fff_aligned by done. cbn [negb].
  replace (tx + off + 16) with (tx + (off + 16)) by lia. rewrite IH by (done || lia). done.
Qed.

Lemma sum_u32_range (rs : list (Z * Z)) : forall z, 0 <= z < 2 ^ 32 ->
  0 <= fold_left (fun s r => u32 (s + r.2)) rs z < 2 ^ 32.
Proof. induction rs as [|r rs IH]; intros z Hz; simpl; [done|]. apply IH, Z.mod_pos_bound. lia. Qed.

(** Reads of a buffer written field by field. *)
Ltac field_read :=
  unfold read16, read32, read64, write16, write32, write64;
  rewrite ?read_write_ranges by (simpl; lia);
  repeat rewrite read_write_le_ne by (simpl; lia);
  first [ apply read_write_le_id; simpl; lia | apply read_write_bytes_zero; simpl; lia ].

(** ** Claims *)

(** C40. Parsing a descriptor of [total_length] bytes reads only those bytes of the
    buffer: two memories that agree on them give the same result, whatever offsets
    and counts the descriptor contains. *)
Theorem parse_reads_only_descriptor m m' tx_ptr total_length :
  (forall x, tx_ptr <= x < tx_ptr + total_length -> m x = m' x) ->
  parse_mem_region m tx_ptr total_length = parse_mem_region m' tx_ptr total_length.
Proof. apply parse_agree. Qed.

(** A whole descriptor of 96 bytes, and other bytes behind it. *)
Lemma parse_reads_only_descriptor_witness :
  let m := (build_test_descriptor (fun _ => 0) 0x48000000 1 0x8001 [(0x50000000, 2)]).1 in
  parse_mem_region (fun x => if x <? 0x48000000 + 96 then m x else 7) 0x48000000 96 = Ok (mkParsed 1 0x8001 0 [(0x50000000, 2)] 2).
Proof.
  cbv zeta. rewrite (parse_reads_only_descriptor _ (build_test_descriptor (fun _ => 0) 0x48000000 1 0x8001 [(0x50000000, 2)]).1).
  - vm_compute. reflexivity.
  - intros x Hx. destruct (Z.ltb_spec x (0x48000000 + 96)); [reflexivity|lia].
Defined.

(** A descriptor with 1 to 16 page-aligned ranges written by
    [build_test_descriptor] parses back to its sender, receiver and ranges. *)
Theorem descriptor_round_trip m buf sender receiver ranges :
  fits 16 sender -> fits 16 receiver -> Forall range_ok ranges ->
  (1 <= length ranges <= MAX_ADDR_RANGES)%nat ->
  let (m', len) := build_test_descriptor m buf sender receiver ranges in
  parse_mem_region m' buf len =
  Ok (mkParsed sender receiver 0 ranges (fold_left (fun s r => u32 (s + r.2)) ranges 0)).
Proof.
  intros Hs Hr Hf Hn. unfold build_test_descriptor. cbv zeta. unfold MAX_ADDR_RANGES in Hn.
  set (n := length ranges) in *. change (48 + 16 + 16) with 80. change (48 + 16) with 64.
  assert (Hlen : u32 (80 + Z.of_nat n * 16) = 80 + Z.of_nat n * 16) by (apply wrap_id; unfold fits; lia).
  assert (Hcnt : u32 (Z.of_nat n) = Z.of_nat n) by (apply wrap_id; unfold fits; lia).
  rewrite Hlen, Hcnt.
  set (tot := fold_left _ ranges 0).
  assert (Ht : 0 <= tot < 2 ^ 32) by (apply sum_u32_range; lia).
  match goal with |- parse_mem_region ?mm _ _ = _ => set (M := mm) end.
  unfold fits in Hs, Hr. unfold parse_mem_region, SIZEOF_FfaMemRegion, SIZEOF_FfaMemAccessDesc,
    SIZEOF_FfaCompositeMemRegion.
  destruct (Z.ltb_spec (80 + Z.of_nat n * 16) 44); [lia|].
  assert (E1 : read16 M buf = sender) by (unfold M; field_read).
  assert (E2 : read32 M (buf + 8) = 0) by (unfold M; field_read).
  assert (E3 : read32 M (buf + 32) = 1) by (unfold M; field_read).
  assert (E4 : read32 M (buf + 36) = 48) by (unfold M; field_read).
  assert (E5 : read16 M (buf + 48) = receiver) by (unfold M; field_read).
  assert (E6 : read32 M (buf + 48 + 4) = 64) by (unfold M; field_read).
  assert (E7 : read32 M (buf + 64) = tot) by (unfold M; field_read).
  assert (E8 : read32 M (buf + 64 + 4) = Z.of_nat n) by (unfold M; field_read).
  rewrite E1, E2, E3, E4, E5, E6, E7, E8. simpl (_ || _).
  destruct (Z.ltb_spec (80 + Z.of_nat n * 16) (48 + 16)); [lia|].
  destruct (Z.ltb_spec (80 + Z.of_nat n * 16) (64 + 16)); [lia|].
  destruct (Z.eqb_spec (Z.of_nat n) 0); [lia|].
  replace (Nat.min (Z.to_nat (Z.of_nat n)) MAX_ADDR_RANGES) with n by (unfold MAX_ADDR_RANGES; lia).
  unfold M. change (64 + 16) with 80. unfold n. rewrite parse_written_ranges by (done || lia). done.
Qed.

Lemma descriptor_round_trip_witness :
  let (m', len) := build_test_descriptor (fun _ => 0) 0x48000000 1 2 [(0x50000000, 3); (0x50010000, 1)] in
  parse_mem_region m' 0x48000000 len = Ok (mkParsed 1 2 0 [(0x50000000, 3); (0x50010000, 1)] 4).
Proof.
  apply (descriptor_round_trip (fun _ => 0) 0x48000000 1 2 [(0x50000000, 3); (0x50010000, 1)]).
  - by vm_compute.
  - by vm_compute.
  - repeat constructor; by vm_compute.
  - simpl. unfold MAX_ADDR_RANGES. lia.
Defined.
