(* ===== verification/FfaNotif.v ===== *)
(** * FF-A notifications (src/ffa/notifications.rs)

    Per-endpoint pending bitmaps and the records that say which sender may set
    which notification.  The abstract view of an endpoint is the function
    [bound_to] from a notification id to the sender bound to it. *)

From Stdlib Require Import ZArith Lia Bool Btauto.
From stdpp Require Import base list.
From S2P Require Import Prelude Memory Stage2 FfaCore.

Definition MAX_ENDPOINTS : nat := 8.
Definition MAX_BINDS : nat := 8.

Record NotifBind := mkBind { nb_sender_id : Z; nb_bitmap : Z; nb_active : bool }.
Definition NotifBind_new : NotifBind := mkBind 0 0 false.

Record EndpointNotifState := mkNotif {
  ns_enabled : bool;
  ns_pending : Z;
  ns_binds : list NotifBind;
}.
Definition EndpointNotifState_new : EndpointNotifState :=
  mkNotif false 0 (repeat NotifBind_new MAX_BINDS).

Abbreviation notif_state := (list EndpointNotifState).
Definition NOTIF_STATE_init : notif_state := repeat EndpointNotifState_new MAX_ENDPOINTS.

Definition endpoint_index (part_id : Z) : option nat :=
  match partition_id_to_vm_id part_id with
  | Some vm_id => Some (Z.to_nat vm_id)
  | None => if part_id =? 0x8001 then Some (Z.to_nat FFA_MAX_VMS)
            else if part_id =? 0x8002 then Some (Z.to_nat (FFA_MAX_VMS + 1))
            else None
  end.

(** [get_state(part_id)?] followed by an operation on the state found. *)
Definition on_endpoint {A} (part_id : Z) (op : EndpointNotifState -> result A Z * EndpointNotifState)
  (st : notif_state) : result A Z * notif_state :=
  match endpoint_index part_id with
  | None => (Err FFA_INVALID_PARAMETERS, st)
  | Some idx => match st !! idx with
                | None => (Err FFA_INVALID_PARAMETERS, st)
                | Some e => let (r, e') := op e in (r, <[idx := e']> st)
                end
  end.

Definition create_op (e : EndpointNotifState) : result unit Z * EndpointNotifState :=
  if ns_enabled e then (Err FFA_DENIED, e)
  else (Ok tt, mkNotif true (ns_pending e) (ns_binds e)).
Definition bitmap_create (part_id : Z) := on_endpoint part_id create_op.

Definition destroy_op (e : EndpointNotifState) : result unit Z * EndpointNotifState :=
  if negb (ns_enabled e) then (Err FFA_DENIED, e)
  else (Ok tt, mkNotif false 0 (map (fun _ => NotifBind_new) (ns_binds e))).
Definition bitmap_destroy (part_id : Z) := on_endpoint part_id destroy_op.

Definition overlaps (bitmap : Z) (b : NotifBind) : bool :=
  nb_active b && negb (Z.land (nb_bitmap b) bitmap =? 0).

Definition bind_op (sender bitmap : Z) (e : EndpointNotifState) : result unit Z * EndpointNotifState :=
  if negb (ns_enabled e) then (Err FFA_DENIED, e) else
  if existsb (overlaps bitmap) (ns_binds e) then (Err FFA_DENIED, e) else
  match update_first (fun b => negb (nb_active b)) (fun _ => mkBind sender bitmap true) (ns_binds e) with
  | Some bs => (Ok tt, mkNotif (ns_enabled e) (ns_pending e) bs)
  | None => (Err FFA_NO_MEMORY, e)
  end.
Definition notif_bind (sender receiver flags bitmap : Z) (st : notif_state) : result unit Z * notif_state :=
  if bitmap =? 0 then (Err FFA_INVALID_PARAMETERS, st)
  else on_endpoint receiver (bind_op sender bitmap) st.

Definition unbind_one (bitmap : Z) (b : NotifBind) : NotifBind :=
  let bm := Z.land (nb_bitmap b) (not64 bitmap) in
  mkBind (nb_sender_id b) bm (if bm =? 0 then false else nb_active b).
Definition unbind_op (sender bitmap : Z) (e : EndpointNotifState) : result unit Z * EndpointNotifState :=
  match update_first (fun b => nb_active b && (nb_sender_id b =? sender) &&
                               negb (Z.land (nb_bitmap b) bitmap =? 0))
          (unbind_one bitmap) (ns_binds e) with
  | Some bs => (Ok tt, mkNotif (ns_enabled e) (ns_pending e) bs)
  | None => (Err FFA_DENIED, e)
  end.
Definition notif_unbind (sender receiver bitmap : Z) := on_endpoint receiver (unbind_op sender bitmap).

Definition allowed_bits (sender : Z) (bs : list NotifBind) : Z :=
  fold_left (fun acc b => if nb_active b && (nb_sender_id b =? sender)
                          then Z.lor acc (nb_bitmap b) else acc) bs 0.
Definition set_op (sender bitmap : Z) (e : EndpointNotifState) : result unit Z * EndpointNotifState :=
  if negb (ns_enabled e) then (Err FFA_DENIED, e) else
  let allowed := allowed_bits sender (ns_binds e) in
  if negb (Z.land bitmap (not64 allowed) =? 0) then (Err FFA_DENIED, e)
  else (Ok tt, mkNotif (ns_enabled e) (Z.lor (ns_pending e) bitmap) (ns_binds e)).
Definition notif_set (sender receiver bitmap : Z) := on_endpoint receiver (set_op sender bitmap).

Definition get_op (e : EndpointNotifState) : result Z Z * EndpointNotifState :=
  if negb (ns_enabled e) then (Err FFA_DENIED, e)
  else (Ok (ns_pending e), mkNotif (ns_enabled e) 0 (ns_binds e)).
Definition notif_get (receiver : Z) := on_endpoint receiver get_op.

(** [info_get]: one loop over the VM endpoints, one over the SP endpoints, both
    stopping at four identifiers.  The result is the list [ids[..count]]. *)
Definition scan_endpoint (st : notif_state) (idx : nat) (id : Z) (ids : list Z) : list Z :=
  if (4 <=? length ids)%nat then ids else
  match st !! idx with
  | Some e => if ns_enabled e && negb (ns_pending e =? 0) then ids ++ [id] else ids
  | None => ids
  end.
Definition info_get (st : notif_state) : list Z :=
  let vms := fold_left (fun ids vm => scan_endpoint st vm (vm_id_to_partition_id (Z.of_nat vm)) ids)
               (seq 0 4) [] in
  fold_left (fun ids sp => scan_endpoint st (4 + sp) (0x8001 + Z.of_nat sp) ids) (seq 0 2) vms.

(** ** Abstract view *)
Definition bound_to (e : EndpointNotifState) (i : Z) : option Z :=
  match List.find (fun b => nb_active b && Z.testbit (nb_bitmap b) i) (ns_binds e) with
  | Some b => Some (nb_sender_id b)
  | None => None
  end.

Definition nb_disj (b c : NotifBind) : Prop :=
  nb_active b = true -> nb_active c = true -> Z.land (nb_bitmap b) (nb_bitmap c) = 0.
Record notif_inv (e : EndpointNotifState) : Prop := {
  ni_fits : Forall (fun b => fits 64 (nb_bitmap b)) (ns_binds e);
  ni_disj : all_pairs nb_disj (ns_binds e);
}.

Lemma nb_disj_sym b c : nb_disj b c -> nb_disj c b.
Proof. unfold nb_disj. intros H ? ?. rewrite Z.land_comm. auto. Qed.

Lemma land_0_bits a b : (forall i, 0 <= i -> Z.testbit a i && Z.testbit b i = false) <-> Z.land a b = 0.
Proof.
  split.
  - intros H. apply Z.bits_inj'. intros i Hi. rewrite Z.land_spec, Z.bits_0. auto.
  - intros H i Hi. rewrite <- Z.land_spec, H. apply Z.bits_0.
Qed.

(** With disjoint bitmaps the owner of a bit is unique. *)
Lemma bound_to_in e i b : notif_inv e -> 0 <= i -> In b (ns_binds e) -> nb_active b = true ->
  Z.testbit (nb_bitmap b) i = true -> bound_to e i = Some (nb_sender_id b).
Proof.
  intros [_ Hd] Hi Hin Ha Hb. unfold bound_to. induction (ns_binds e) as [|c bs IH]; [done|].
  inversion Hd as [|? ? Hc Hds]; subst. simpl. destruct (nb_active c && Z.testbit (nb_bitmap c) i) eqn:E.
  - apply andb_true_iff in E as [Ea Eb]. destruct Hin as [->|Hin]; [done|].
    rewrite Forall_forall in Hc. specialize (Hc b ltac:(by apply list_elem_of_In) Ea Ha).
    pose proof (proj2 (land_0_bits _ _) Hc i Hi) as Hz. by rewrite Eb, Hb in Hz.
  - destruct Hin as [->|Hin]; [by rewrite Ha, Hb in E|]. apply IH; done.
Qed.

Lemma bound_to_find e i s : bound_to e i = Some s ->
  exists b, In b (ns_binds e) /\ nb_active b = true /\ Z.testbit (nb_bitmap b) i = true /\ nb_sender_id b = s.
Proof.
  unfold bound_to. destruct (List.find _ _) as [b|] eqn:E; [|done]. intros [= <-].
  apply find_some in E as [Hin E]. apply andb_true_iff in E as [? ?]. eauto.
Qed.

(** ** Operations and the abstract view *)
Lemma ne0_bit a : 0 <= a -> a <> 0 -> exists i, 0 <= i /\ Z.testbit a i = true.
Proof. intros. exists (Z.log2 a). split; [apply Z.log2_nonneg|apply Z.bit_log2; lia]. Qed.

Lemma allowed_bits_spec sender bs i : 0 <= i ->
  Z.testbit (allowed_bits sender bs) i = true <->
  exists b, In b bs /\ nb_active b = true /\ nb_sender_id b = sender /\ Z.testbit (nb_bitmap b) i = true.
Proof.
  intros Hi. unfold allowed_bits.
  set (Q b := nb_active b = true /\ nb_sender_id b = sender /\ Z.testbit (nb_bitmap b) i = true).
  assert (H : forall bs acc, Z.testbit (fold_left (fun acc b => if nb_active b && (nb_sender_id b =? sender)
                 then Z.lor acc (nb_bitmap b) else acc) bs acc) i = true <->
            Z.testbit acc i = true \/ exists b, In b bs /\ Q b).
  { clear bs. induction bs as [|b bs IH]; intros acc; cbn [fold_left].
    - split; [by left|]. intros [?|(? & [] & _)]. done.
    - rewrite IH.
      assert (Hb : Z.testbit (if nb_active b && (nb_sender_id b =? sender) then Z.lor acc (nb_bitmap b) else acc) i
                   = true <-> Z.testbit acc i = true \/ Q b).
      { unfold Q. destruct (nb_active b), (Z.eqb_spec (nb_sender_id b) sender); simpl;
          rewrite ?Z.lor_spec, ?orb_true_iff; intuition congruence. }
      assert (He : (exists c, In c (b :: bs) /\ Q c) <-> Q b \/ exists c, In c bs /\ Q c).
      { split; [intros (c & [->|Hc] & Hq); [by left|right; by exists c]|].
        intros [Hq|(c & Hc & Hq)]; [exists b|exists c]; simpl; auto. }
      rewrite He, Hb. tauto. }
  rewrite H, Z.bits_0. split; [intros [?|?]; done|auto].
Qed.

Lemma set_op_iff e sender bitmap : notif_inv e -> fits 64 bitmap ->
  (set_op sender bitmap e).1 = Ok tt <->
  ns_enabled e = true /\ forall i, 0 <= i -> Z.testbit bitmap i = true -> bound_to e i = Some sender.
Proof.
  intros Hinv Hf. unfold set_op. destruct (ns_enabled e); cbn [negb]; [|split; [done|intros [? _]; done]].
  cbv zeta. set (al := allowed_bits sender (ns_binds e)).
  assert (Hz : Z.land bitmap (not64 al) = 0 <-> forall i, 0 <= i -> Z.testbit bitmap i = true -> Z.testbit al i = true).
  { rewrite <- land_0_bits. unfold not64. split.
    - intros H i Hi Hb. specialize (H i Hi). rewrite Hb, testbit_notw in H by lia.
      destruct (Z.ltb_spec i 64); [by destruct (Z.testbit al i)|].
      rewrite (testbit_fits 64 bitmap i) in Hb by (done || lia). done.
    - intros H i Hi. rewrite testbit_notw by lia. specialize (H i Hi).
      destruct (Z.testbit bitmap i); [rewrite H by done|]; btauto. }
  assert (Hal : forall i, 0 <= i -> Z.testbit al i = true <-> bound_to e i = Some sender).
  { intros i Hi. unfold al. rewrite allowed_bits_spec by done. split.
    - intros (b & Hin & Ha & <- & Hb). by apply bound_to_in.
    - intros H. apply bound_to_find in H as (b & ? & ? & ? & ?). by exists b. }
  destruct (Z.eqb_spec (Z.land bitmap (not64 al)) 0) as [E|E]; cbn [negb fst].
  - split; [|done]. intros _. split; [done|]. intros i Hi Hb. apply Hal; [done|]. by apply Hz.
  - split; [done|]. intros [_ H]. exfalso. apply E, Hz. intros i Hi Hb. apply Hal; auto.
Qed.

Lemma bind_op_spec e sender bitmap : notif_inv e -> fits 64 bitmap -> bitmap <> 0 ->
  let (r, e') := bind_op sender bitmap e in
  match r with
  | Ok _ => ns_enabled e = true /\ notif_inv e' /\ ns_pending e' = ns_pending e /\
            (forall i, 0 <= i -> Z.testbit bitmap i = true -> bound_to e i = None) /\
            forall i, 0 <= i -> bound_to e' i = if Z.testbit bitmap i then Some sender else bound_to e i
  | Err _ => e' = e
  end.
Proof.
  intros Hinv Hf Hb0. unfold bind_op. destruct (ns_enabled e) eqn:En; cbn [negb]; [|done].
  destruct (existsb (overlaps bitmap) (ns_binds e)) eqn:Ex; [done|].
  destruct (update_first _ _ _) as [bs|] eqn:Eu; [|done].
  apply update_first_Some in Eu as (l1 & x & l2 & E & -> & Hx & _).
  apply negb_true_iff in Hx. pose proof Hinv as [Hfit Hd].
  assert (Hno : Forall (fun b => nb_active b = true -> Z.land bitmap (nb_bitmap b) = 0) (ns_binds e)).
  { apply List.Forall_forall. intros b Hin Ha. rewrite Z.land_comm.
    destruct (Z.eq_dec (Z.land (nb_bitmap b) bitmap) 0) as [|Hn]; [done|exfalso].
    assert (Ht : existsb (overlaps bitmap) (ns_binds e) = true); [|congruence].
    apply existsb_exists. exists b. split; [done|]. unfold overlaps. rewrite Ha. simpl.
    by destruct (Z.eqb_spec (Z.land (nb_bitmap b) bitmap) 0). }
  assert (Hinv' : notif_inv (mkNotif true (ns_pending e) (l1 ++ mkBind sender bitmap true :: l2))).
  { rewrite E in *. constructor; simpl.
    - rewrite Forall_app in *. destruct Hfit as [H1 H2]. inversion H2; subst. auto.
    - apply all_pairs_app in Hd as (Hd1 & Hd2 & Hd3). apply all_pairs_app.
      rewrite Forall_app in Hno. destruct Hno as [Hn1 Hn2].
      inversion Hd2; inversion Hn2; subst. split_and!; [done| |].
      + constructor; [|done]. eapply Forall_impl; [eassumption|]. intros b Hb _ Ha. auto.
      + rewrite Forall_forall in Hd3, Hn1 |- *. intros b Hin. specialize (Hd3 b Hin).
        inversion Hd3; subst. constructor; [|done]. intros Ha _. rewrite Z.land_comm. by apply Hn1. }
  assert (Hfree : forall i, 0 <= i -> Z.testbit bitmap i = true -> bound_to e i = None).
  { intros i Hi Hbit. destruct (bound_to e i) eqn:Eb; [exfalso|done].
    apply bound_to_find in Eb as (b & Hin & Ha & Hbi & _). rewrite List.Forall_forall in Hno.
    pose proof (proj2 (land_0_bits _ _) (Hno b Hin Ha) i Hi) as Hz. by rewrite Hbit, Hbi in Hz. }
  split_and!; [done|exact Hinv'|done|exact Hfree|]. intros i Hi. destruct (Z.testbit bitmap i) eqn:Hbit.
  - apply (bound_to_in _ i (mkBind sender bitmap true)); auto. simpl. apply in_or_app. right. by left.
  - destruct (bound_to e i) eqn:Eb.
    + apply bound_to_find in Eb as (b & Hin & Ha & Hbi & <-). apply (bound_to_in _ i b); auto. simpl.
      rewrite E in Hin. apply in_app_or in Hin. apply in_or_app.
      destruct Hin as [?|[->|?]]; [auto|congruence|right; by right].
    + destruct (bound_to (mkNotif _ _ _) i) eqn:Eb'; [exfalso|done].
      apply bound_to_find in Eb' as (b & Hin & Ha & Hbi & _). simpl in Hin. apply in_app_or in Hin.
      assert (Hin' : b = mkBind sender bitmap true \/ In b (ns_binds e)).
      { rewrite E. destruct Hin as [?|[?|?]]; [right|by left|right]; apply in_or_app; simpl; auto. }
      destruct Hin' as [->|Hin']; [simpl in Hbi; congruence|].
      by rewrite (bound_to_in e i b Hinv Hi Hin' Ha Hbi) in Eb.
Qed.

Lemma land_not_sub a b c : Z.land a c = 0 -> Z.land (Z.land a b) c = 0.
Proof. intros H. rewrite <- Z.land_assoc, (Z.land_comm b c), Z.land_assoc, H. apply Z.land_0_l. Qed.

(** One record of the table, narrowed by an unbind: [x] of [l1 ++ x :: l2]
    becomes [unbind_one bitmap x]. *)
Section UnbindOne.
Context (e : EndpointNotifState) (bitmap : Z) (l1 l2 : list NotifBind) (x : NotifBind).
Context (Hinv : notif_inv e) (E : ns_binds e = l1 ++ x :: l2).
Let x' := unbind_one bitmap x.
Let e' := mkNotif (ns_enabled e) (ns_pending e) (l1 ++ x' :: l2).

Lemma unbind_one_fits : fits 64 (nb_bitmap x).
Proof using Hinv E.
  destruct Hinv as [Hfit _]. rewrite E in Hfit. rewrite Forall_app in Hfit. destruct Hfit as [_ H]. by inversion H.
Qed.

Lemma unbind_one_bits i : 0 <= i ->
  Z.testbit (nb_bitmap x') i = Z.testbit (nb_bitmap x) i && negb (Z.testbit bitmap i).
Proof using Hinv E.
  intros Hi. unfold x', unbind_one, not64. simpl. rewrite Z.land_spec, testbit_notw by lia.
  destruct (Z.ltb_spec i 64); [done|].
  rewrite (testbit_fits 64 (nb_bitmap x)) by (apply unbind_one_fits || lia). done.
Qed.

Lemma unbind_one_active i : nb_active x = true -> Z.testbit (nb_bitmap x') i = true -> nb_active x' = true.
Proof using Type.
  intros Hact Hb. unfold x', unbind_one in Hb |- *. simpl in Hb |- *.
  destruct (Z.eqb_spec (Z.land (nb_bitmap x) (not64 bitmap)) 0) as [Ez|]; [|done].
  rewrite Ez, Z.bits_0 in Hb. done.
Qed.

Lemma unbind_one_inv : nb_active x = true -> notif_inv e'.
Proof using Hinv E.
  intros Hact. pose proof unbind_one_fits as Hxfit. destruct Hinv as [Hfit Hd]. rewrite E in Hfit, Hd.
  constructor; simpl.
  - rewrite Forall_app in *. destruct Hfit as [H1 H2]. inversion H2; subst. split; [done|]. constructor; [|done].
    unfold x', unbind_one. simpl. apply fits_testbit; [lia|apply land_nn_r; apply land_nn_r; by vm_compute|].
    intros i Hi. rewrite Z.land_spec, (testbit_fits 64 (nb_bitmap x)) by (done || lia). done.
  - eapply all_pairs_replace; [apply nb_disj_sym| |exact Hd]. intros z Hz Hax Haz.
    unfold x', unbind_one. simpl. apply land_not_sub. by apply Hz.
Qed.

Lemma unbind_one_in b : In b (ns_binds e') <-> b = x' \/ In b l1 \/ In b l2.
Proof using Type. simpl. rewrite in_app_iff. simpl. intuition congruence. Qed.

Lemma unbind_one_old b : In b (ns_binds e) <-> b = x \/ In b l1 \/ In b l2.
Proof using E. rewrite E, in_app_iff. simpl. intuition congruence. Qed.

(** Narrowing creates no binding. *)
Lemma unbind_one_sub i s : nb_active x = true -> 0 <= i -> bound_to e' i = Some s -> bound_to e i = Some s.
Proof using Hinv E.
  intros Hact Hi H. apply bound_to_find in H as (b & Hin & Ha & Hb & <-). apply unbind_one_in in Hin as [->|Hin].
  - rewrite unbind_one_bits in Hb by done. apply andb_true_iff in Hb as [Hb _].
    apply (bound_to_in e i x); auto. apply unbind_one_old. by left.
  - apply (bound_to_in e i b); auto. apply unbind_one_old. by right.
Qed.

(** It keeps every binding that is not one of [bitmap]'s bits held by [x]'s sender. *)
Lemma unbind_one_keeps i : nb_active x = true -> 0 <= i ->
  Z.testbit bitmap i = false \/ bound_to e i <> Some (nb_sender_id x) -> bound_to e' i = bound_to e i.
Proof using Hinv E.
  intros Hact Hi Hc. pose proof (unbind_one_inv Hact) as Hinv'. destruct (bound_to e i) as [s|] eqn:Eb; cycle 1.
  { destruct (bound_to e' i) eqn:Eb'; [|done]. apply unbind_one_sub in Eb'; [congruence|done..]. }
  apply bound_to_find in Eb as (b & Hin & Ha & Hb & <-). apply unbind_one_old in Hin as [->|Hin].
  - assert (Hn : Z.testbit bitmap i = false) by (by destruct Hc as [?|[]]).
    assert (Hb' : Z.testbit (nb_bitmap x') i = true) by (rewrite unbind_one_bits by done; by rewrite Hb, Hn).
    apply (bound_to_in e' i x'); eauto using unbind_one_active. apply unbind_one_in. by left.
  - apply (bound_to_in e' i b); auto. apply unbind_one_in. by right.
Qed.

(** No other active record holds a bit of [x]. *)
Lemma unbind_one_alone b i : nb_active x = true -> In b l1 \/ In b l2 -> nb_active b = true ->
  0 <= i -> Z.testbit (nb_bitmap x) i = true -> Z.testbit (nb_bitmap b) i = false.
Proof using Hinv E.
  intros Hact Hin Ha Hi Hb. destruct Hinv as [_ Hd]. rewrite E in Hd.
  apply all_pairs_app in Hd as (_ & Hd2 & Hd3). inversion Hd2 as [|? ? Hx2 _]; subst.
  rewrite List.Forall_forall in Hx2, Hd3.
  assert (Hz : Z.land (nb_bitmap x) (nb_bitmap b) = 0).
  { destruct Hin as [Hin|Hin]; [|by apply (Hx2 b)].
    pose proof (Hd3 b Hin) as Hd3b. inversion Hd3b as [|? ? Hbx _]; subst. rewrite Z.land_comm. by apply Hbx. }
  pose proof (proj2 (land_0_bits _ _) Hz i Hi) as Hf'. rewrite Hb in Hf'. by destruct (Z.testbit _ i).
Qed.

Lemma unbind_one_frees i : nb_active x = true -> 0 <= i ->
  Z.testbit (nb_bitmap x) i = true -> Z.testbit bitmap i = true ->
  bound_to e i = Some (nb_sender_id x) /\ bound_to e' i = None.
Proof using Hinv E.
  intros Hact Hi Hb1 Hb2. split; [apply bound_to_in; auto; apply unbind_one_old; by left|].
  destruct (bound_to e' i) as [s|] eqn:Eb; [exfalso|done].
  apply bound_to_find in Eb as (b & Hin & Ha & Hb & Hs). apply unbind_one_in in Hin as [->|Hin].
  - rewrite unbind_one_bits, Hb2 in Hb by done. by rewrite andb_false_r in Hb.
  - by rewrite (unbind_one_alone b i Hact Hin Ha Hi Hb1) in Hb.
Qed.
End UnbindOne.

Lemma unbind_op_spec e sender bitmap : notif_inv e -> fits 64 bitmap ->
  let (r, e') := unbind_op sender bitmap e in
  match r with
  | Ok _ => notif_inv e' /\ ns_pending e' = ns_pending e /\ ns_enabled e' = ns_enabled e /\
            (forall i, 0 <= i -> Z.testbit bitmap i = false \/ bound_to e i <> Some sender ->
               bound_to e' i = bound_to e i) /\
            exists i, 0 <= i /\ Z.testbit bitmap i = true /\ bound_to e i = Some sender /\ bound_to e' i = None
  | Err _ => e' = e /\ forall i, 0 <= i -> Z.testbit bitmap i = true -> bound_to e i <> Some sender
  end.
Proof.
  intros Hinv Hf. unfold unbind_op. destruct (update_first _ _ _) as [bs|] eqn:Eu; cycle 1.
  { split; [done|]. apply update_first_None in Eu. intros i Hi Hb Hs.
    apply bound_to_find in Hs as (b & Hin & Ha & Hbi & Hse). rewrite List.Forall_forall in Eu.
    specialize (Eu b Hin). rewrite Ha, Hse, Z.eqb_refl in Eu. simpl in Eu.
    destruct (Z.eqb_spec (Z.land (nb_bitmap b) bitmap) 0) as [E|]; [|done].
    pose proof (proj2 (land_0_bits _ _) E i Hi) as Hz. by rewrite Hb, Hbi in Hz. }
  apply update_first_Some in Eu as (l1 & x & l2 & E & -> & Hx & _).
  apply andb_true_iff in Hx as [Hx Hov]. apply andb_true_iff in Hx as [Hact Hsnd].
  apply Z.eqb_eq in Hsnd as <-. apply negb_true_iff, Z.eqb_neq in Hov.
  split_and!; [by eapply unbind_one_inv|done|done|intros i Hi; by eapply unbind_one_keeps|].
  destruct (ne0_bit (Z.land (nb_bitmap x) bitmap)) as (i & Hi & Hb); [apply land_nn_r; apply Hf|done|].
  rewrite Z.land_spec in Hb. apply andb_true_iff in Hb as [Hb1 Hb2].
  destruct (unbind_one_frees e bitmap l1 l2 x Hinv E i Hact Hi Hb1 Hb2). by exists i.
Qed.

(** ** Reachable states *)
Inductive notif_call :=
| NCreate (p : Z) | NDestroy (p : Z)
| NBind (s r f b : Z) | NUnbind (s r b : Z)
| NSet (s r b : Z) | NGet (r : Z).

Definition run_notif (c : notif_call) (st : notif_state) : notif_state :=
  match c with
  | NCreate p => (bitmap_create p st).2
  | NDestroy p => (bitmap_destroy p st).2
  | NBind s r f b => (notif_bind s r f b st).2
  | NUnbind s r b => (notif_unbind s r b st).2
  | NSet s r b => (notif_set s r b st).2
  | NGet r => (notif_get r st).2
  end.

Definition notif_call_ok (c : notif_call) : Prop :=
  match c with NBind _ _ _ b | NUnbind _ _ b | NSet _ _ b => fits 64 b | _ => True end.

Definition run_notifs (cs : list notif_call) : notif_state :=
  fold_left (fun st c => run_notif c st) cs NOTIF_STATE_init.

Lemma on_endpoint_inv {A} p (op : EndpointNotifState -> result A Z * EndpointNotifState) st :
  (forall e, notif_inv e -> notif_inv (op e).2) ->
  Forall notif_inv st -> Forall notif_inv (on_endpoint p op st).2.
Proof.
  intros Hop Hst. unfold on_endpoint. destruct (endpoint_index p) as [idx|]; [|exact Hst].
  destruct (st !! idx) as [e|] eqn:E; [|exact Hst]. pose proof (Hop e) as Ho.
  destruct (op e) as [r e']. simpl in *. apply Forall_insert; [done|]. apply Ho.
  eapply Forall_lookup_1; eauto.
Qed.

Lemma notif_inv_pending en p p' en' bs : notif_inv (mkNotif en p bs) -> notif_inv (mkNotif en' p' bs).
Proof. intros [? ?]. by constructor. Qed.

Lemma run_notif_inv c st : notif_call_ok c -> Forall notif_inv st -> Forall notif_inv (run_notif c st).
Proof.
  intros Hok Hst. destruct c as [p|p|s r f b|s r b|s r b|r]; simpl in Hok |- *.
  - apply on_endpoint_inv; [|done]. intros e [H1 H2]. unfold create_op. destruct (ns_enabled e); by constructor.
  - apply on_endpoint_inv; [|done]. intros e He. unfold destroy_op. destruct (ns_enabled e); [|done].
    constructor; simpl.
    + rewrite Forall_map. apply Forall_forall. intros; unfold compose, fits; simpl; lia.
    + clear. induction (ns_binds e) as [|b bs IH]; [constructor|]. cbn [map]. apply all_pairs_cons; [|done].
      apply List.Forall_forall. intros x Hx. apply in_map_iff in Hx as (? & <- & _). by intros [=].
  - unfold notif_bind. destruct (Z.eqb_spec b 0); [done|]. apply on_endpoint_inv; [|done]. intros e He.
    pose proof (bind_op_spec e s b He Hok n) as Hs. destruct (bind_op s b e) as [[]?]; simpl; [tauto|by subst].
  - apply on_endpoint_inv; [|done]. intros e He.
    pose proof (unbind_op_spec e s b He Hok) as Hs. destruct (unbind_op s b e) as [[]?]; simpl; [tauto|].
    by destruct Hs as [-> _].
  - apply on_endpoint_inv; [|done]. intros e He. unfold set_op. destruct e as [en p bs].
    repeat case_match; simpl; try done; by eapply notif_inv_pending.
  - apply on_endpoint_inv; [|done]. intros e He. unfold get_op. destruct e as [en p bs].
    repeat case_match; simpl; try done; by eapply notif_inv_pending.
Qed.

Lemma run_notifs_inv cs : Forall notif_call_ok cs -> Forall notif_inv (run_notifs cs).
Proof.
  unfold run_notifs. assert (H0 : Forall notif_inv NOTIF_STATE_init).
  { unfold NOTIF_STATE_init. apply Forall_forall. intros e He. apply list_elem_of_In, repeat_spec in He. subst.
    constructor; simpl; repeat constructor; try (unfold fits; simpl; lia); done. }
  revert H0. generalize NOTIF_STATE_init. induction cs as [|c cs IH]; intros st Hst Hok; [done|].
  inversion Hok; subst. simpl. apply IH; [by apply run_notif_inv|done].
Qed.

(** ** Claims *)

(** C39. After any sequence of notification calls, a sender may set a bitmap on a
    receiver exactly when the receiver's bitmap exists and every notification of
    the bitmap is bound to that sender; the notifications are then added to the
    pending ones, and the next FFA_NOTIFICATION_GET returns them all and clears
    them. *)
Theorem notif_set_authorised cs sender receiver idx e bitmap :
  Forall notif_call_ok cs -> fits 64 bitmap ->
  endpoint_index receiver = Some idx -> run_notifs cs !! idx = Some e ->
  let (r, st') := notif_set sender receiver bitmap (run_notifs cs) in
  (r = Ok tt <-> ns_enabled e = true /\
     forall i, 0 <= i -> Z.testbit bitmap i = true -> bound_to e i = Some sender) /\
  (r = Ok tt -> (notif_get receiver st').1 = Ok (Z.lor (ns_pending e) bitmap) /\
     (notif_get receiver (notif_get receiver st').2).1 = Ok 0).
Proof.
  intros Hok Hf Hi He. unfold notif_set, notif_get, on_endpoint. rewrite Hi, He.
  assert (Hinv : notif_inv e) by (eapply Forall_lookup_1; [by apply (run_notifs_inv cs)|exact He]).
  pose proof (set_op_iff e sender bitmap Hinv Hf) as Hiff.
  destruct (set_op sender bitmap e) as [r e'] eqn:E. simpl in Hiff. split; [exact Hiff|].
  intros ->. assert (Hlt : (idx < length (run_notifs cs))%nat) by (by eapply lookup_lt_Some).
  rewrite list_lookup_insert_eq by done.
  assert (Ee : e' = mkNotif (ns_enabled e) (Z.lor (ns_pending e) bitmap) (ns_binds e)).
  { unfold set_op in E. repeat case_match; by simplify_eq. }
  destruct (proj1 Hiff eq_refl) as [Hen _]. subst e'. unfold get_op. simpl. rewrite Hen. simpl.
  split; [done|]. rewrite list_lookup_insert_eq by (by rewrite length_insert). done.
Qed.

Lemma notif_set_authorised_witness :
  let cs := [NCreate 2; NBind 1 2 0 5; NBind 3 2 0 2] in
  (notif_set 1 2 4 (run_notifs cs)).1 = Ok tt <->
  ns_enabled (mkNotif true 0 [mkBind 1 5 true; mkBind 3 2 true; NotifBind_new; NotifBind_new;
    NotifBind_new; NotifBind_new; NotifBind_new; NotifBind_new]) = true /\
  forall i, 0 <= i -> Z.testbit 4 i = true -> bound_to (mkNotif true 0 [mkBind 1 5 true; mkBind 3 2 true;
    NotifBind_new; NotifBind_new; NotifBind_new; NotifBind_new; NotifBind_new; NotifBind_new]) i = Some 1.
Proof.
  refine (proj1 (notif_set_authorised [NCreate 2; NBind 1 2 0 5; NBind 3 2 0 2] 1 2 1 _ 4 _ _ _ _)).
  - repeat constructor; by vm_compute.
  - by vm_compute.
  - reflexivity.
  - vm_compute. reflexivity.
Defined.

(** FFA_NOTIFICATION_BIND succeeds only when none of the notifications is bound
    yet, and then binds exactly those to the sender; a refused call changes
    nothing. *)
Theorem notif_bind_exact cs sender receiver flags bitmap idx e :
  Forall notif_call_ok cs -> fits 64 bitmap ->
  endpoint_index receiver = Some idx -> run_notifs cs !! idx = Some e ->
  let (r, st') := notif_bind sender receiver flags bitmap (run_notifs cs) in
  match r with
  | Ok _ => (forall i, 0 <= i -> Z.testbit bitmap i = true -> bound_to e i = None) /\
      exists e', st' = <[idx := e']> (run_notifs cs) /\ ns_pending e' = ns_pending e /\
        forall i, 0 <= i -> bound_to e' i = if Z.testbit bitmap i then Some sender else bound_to e i
  | Err _ => st' = run_notifs cs
  end.
Proof.
  intros Hok Hf Hi He. unfold notif_bind. destruct (Z.eqb_spec bitmap 0); [done|].
  unfold on_endpoint. rewrite Hi, He.
  assert (Hinv : notif_inv e) by (eapply Forall_lookup_1; [by apply (run_notifs_inv cs)|exact He]).
  pose proof (bind_op_spec e sender bitmap Hinv Hf n) as Hs.
  destruct (bind_op sender bitmap e) as [[u|c] e'].
  - destruct Hs as (_ & _ & Hp & Hn & Hb). split; [done|]. eauto.
  - subst e'. apply list_insert_id. done.
Qed.

Lemma notif_bind_exact_witness :
  exists e', (notif_bind 3 2 0 2 (run_notifs [NCreate 2; NBind 1 2 0 5])).2 =
    <[1%nat := e']> (run_notifs [NCreate 2; NBind 1 2 0 5]) /\ bound_to e' 1 = Some 3 /\ bound_to e' 2 = Some 1.
Proof.
  pose proof (notif_bind_exact [NCreate 2; NBind 1 2 0 5] 3 2 0 2 1
    (mkNotif true 0 (mkBind 1 5 true :: repeat NotifBind_new 7))
    ltac:(repeat constructor; by vm_compute) ltac:(by vm_compute) eq_refl eq_refl) as H.
  destruct (notif_bind 3 2 0 2 (run_notifs [NCreate 2; NBind 1 2 0 5])) as [r st'] eqn:E.
  vm_compute in E. inversion E; subst r st'. destruct H as (_ & e' & He & _ & Hb).
  exists e'. split; [exact He|]. split; [exact (Hb 1 ltac:(lia))|exact (Hb 2 ltac:(lia))].
Defined.

(** FFA_NOTIFICATION_UNBIND stops at the first record of the sender that meets
    the bitmap: two notifications bound by two calls and unbound together report
    success, yet the second stays bound and its sender may still set it. *)
Theorem unbind_leaves_second_record :
  let st := run_notifs [NCreate 2; NBind 1 2 0 1; NBind 1 2 0 2] in
  let (r, st') := notif_unbind 1 2 3 st in
  r = Ok tt /\ (notif_set 1 2 2 st').1 = Ok tt.
Proof. vm_compute. done. Qed.
