(* ===== verification/FfaStore.v ===== *)
(** * Share records: invariant and lookups (src/ffa/stub_spmc.rs)

    Handles of active records are distinct and below the next handle, so a handle
    names one share; each operation changes the lookup of one handle. *)

From Stdlib Require Import ZArith Lia Bool.
From stdpp Require Import base list.
From S2P Require Import Prelude Memory Stage2 FfaCore.

Definition sr_distinct (r q : MemShareRecord) : Prop :=
  sr_active r = true -> sr_active q = true -> sr_handle r <> sr_handle q.

Record store_inv (st : spmc_store) : Prop := {
  si_next : 1 <= ss_next_handle st < 2 ^ 64;
  si_range : Forall (fun r => sr_active r = true -> 1 <= sr_handle r < ss_next_handle st) (ss_records st);
  si_distinct : all_pairs sr_distinct (ss_records st);
}.

Lemma sr_distinct_sym r q : sr_distinct r q -> sr_distinct q r.
Proof. unfold sr_distinct. intros H ? ? ?. by apply H. Qed.

Lemma has_handle_true h r : has_handle h r = true <-> sr_active r = true /\ sr_handle r = h.
Proof. unfold has_handle. rewrite andb_true_iff, Z.eqb_eq. done. Qed.

Lemma find_app_skip {A} (P : A -> bool) l1 l2 : Forall (fun x => P x = false) l1 ->
  List.find P (l1 ++ l2) = List.find P l2.
Proof. induction l1 as [|x l1 IH]; intros H; [done|]. inversion H; subst. simpl. rewrite H2. auto. Qed.

(** In a store with distinct handles the record of [h] is the only one. *)
Lemma store_others l1 x l2 h : all_pairs sr_distinct (l1 ++ x :: l2) -> has_handle h x = true ->
  Forall (fun r => has_handle h r = false) (l1 ++ l2).
Proof.
  intros Hd Hx. apply has_handle_true in Hx as [Ha Hh]. apply all_pairs_app in Hd as (_ & Hd2 & Hd3).
  inversion Hd2 as [|? ? Hx2 _]; subst. rewrite Forall_app. split.
  - eapply Forall_impl; [exact Hd3|]. intros r Hr. inversion Hr as [|? ? Hrx _]; subst.
    destruct (has_handle (sr_handle x) r) eqn:E; [|done]. apply has_handle_true in E as [? ?].
    exfalso. by apply Hrx.
  - eapply Forall_impl; [exact Hx2|]. intros r Hr. cbv beta.
    destruct (has_handle (sr_handle x) r) eqn:E; [|done]. apply has_handle_true in E as [? ?].
    exfalso. apply Hr; congruence.
Qed.

Lemma find_none_all {A} (P : A -> bool) l : Forall (fun x => P x = false) l -> List.find P l = None.
Proof. intros H. rewrite <- (app_nil_r l), find_app_skip by done. done. Qed.

Lemma find_replace {A} (P : A -> bool) l1 x y l2 : P x = P y -> P x = false ->
  List.find P (l1 ++ x :: l2) = List.find P (l1 ++ y :: l2).
Proof.
  intros E Ex. induction l1 as [|z l1 IH]; simpl; [by rewrite <- E, Ex|].
  destruct (P z); auto.
Qed.

Lemma store_init_inv : store_inv SHARE_RECORDS_init.
Proof.
  constructor; simpl; [lia| |].
  - repeat constructor; done.
  - repeat constructor; intros ? ?; done.
Qed.

Definition new_share (h sender receiver : Z) (ranges : list (Z * Z)) (total : Z) (lend : bool) :=
  mkShare h sender receiver (stored_ranges ranges) (Nat.min (length ranges) MAX_SHARE_RANGES) total true lend false.

Lemma record_share_spec st sender receiver ranges total lend o st' :
  store_inv st -> ss_next_handle st + 1 < 2 ^ 64 ->
  record_share st sender receiver ranges total lend = (o, st') ->
  store_inv st' /\ ss_next_handle st' = ss_next_handle st + 1 /\
  match o with
  | Some h => h = ss_next_handle st /\
      lookup_share_full st' h = Some (new_share h sender receiver ranges total lend) /\
      lookup_share_full st h = None /\
      forall h', h' <> h -> lookup_share_full st' h' = lookup_share_full st h'
  | None => (forall h', lookup_share_full st' h' = lookup_share_full st h') /\
            Forall (fun r => sr_active r = true) (ss_records st)
  end.
Proof.
  intros [Hn Hr Hd] Hlt. unfold record_share, alloc_handle. cbn [ss_records ss_next_handle].
  assert (Hw : u64 (ss_next_handle st + 1) = ss_next_handle st + 1) by (apply wrap_id; unfold fits; lia).
  rewrite Hw. set (x' := mkShare (ss_next_handle st) _ _ _ _ _ _ _ _).
  assert (Hlt' : Forall (fun r => sr_active r = true -> 1 <= sr_handle r < ss_next_handle st + 1) (ss_records st))
    by (eapply Forall_impl; [exact Hr|]; intros r H Ha; specialize (H Ha); lia).
  destruct (update_first _ _ _) as [rs|] eqn:Eu; intros [= <- <-]; cbn [ss_records ss_next_handle].
  - apply update_first_Some in Eu as (l1 & x & l2 & E & -> & Hx & _). apply negb_true_iff in Hx.
    rewrite E in *.
    assert (Hfresh : Forall (fun r => has_handle (ss_next_handle st) r = false) (l1 ++ x :: l2)).
    { eapply Forall_impl; [exact Hr|]. intros r H. cbv beta. destruct (has_handle _ r) eqn:Eh; [|done].
      apply has_handle_true in Eh as [Ha Eh]. specialize (H Ha). lia. }
    split_and!; [|done|done| | |].
    + constructor; cbn [ss_records ss_next_handle]; [lia| |].
      * rewrite Forall_app in *. destruct Hlt' as [H1 H2]. inversion H2; subst. split; [done|].
        constructor; [intros _; simpl; lia|done].
      * apply all_pairs_app in Hd as (Hd1 & Hd2 & Hd3). apply all_pairs_app.
        rewrite Forall_app in Hfresh. destruct Hfresh as [Hf1 Hf2]. inversion Hd2; inversion Hf2; subst.
        split_and!; [done| |].
        -- constructor; [|done]. eapply Forall_impl; [eassumption|]. intros r Hf _ Ha Heq.
           assert (Ht : has_handle (ss_next_handle st) r = true) by (apply has_handle_true; auto). congruence.
        -- rewrite Forall_forall in Hd3, Hf1 |- *. intros r Hin. specialize (Hd3 r Hin). inversion Hd3; subst.
           constructor; [|done]. intros Ha _ Heq. specialize (Hf1 r Hin).
           assert (Ht : has_handle (ss_next_handle st) r = true) by (apply has_handle_true; auto). congruence.
    + unfold lookup_share_full. cbn [ss_records]. rewrite Forall_app in Hfresh.
      rewrite find_app_skip by apply Hfresh. simpl. unfold has_handle. simpl. by rewrite Z.eqb_refl.
    + unfold lookup_share_full. rewrite E. by apply find_none_all.
    + intros h' Hne. unfold lookup_share_full. rewrite E. cbn [ss_records]. symmetry. apply find_replace.
      * unfold has_handle. rewrite Hx. simpl. symmetry. apply Z.eqb_neq. congruence.
      * unfold has_handle. by rewrite Hx.
  - apply update_first_None in Eu. split_and!; [|done|done|].
    + constructor; cbn; [lia|done|done].
    + eapply Forall_impl; [exact Eu|]. intros r H. by apply negb_false_iff in H.
Qed.

(** Updating the flags of the record found by a handle. *)
Lemma update_store_spec st P f h b st' :
  store_inv st -> (forall r, P r = true -> has_handle h r = true) ->
  (forall r, sr_handle (f r) = sr_handle r /\ (sr_active (f r) = true -> sr_active r = true)) ->
  update_store st P f = (b, st') ->
  store_inv st' /\ ss_next_handle st' = ss_next_handle st /\
  (forall h', h' <> h -> lookup_share_full st' h' = lookup_share_full st h') /\
  (b = false -> st' = st /\ forall r, In r (ss_records st) -> P r = false) /\
  (b = true -> exists r, lookup_share_full st h = Some r /\ P r = true /\
     lookup_share_full st' h = if sr_active (f r) then Some (f r) else None).
Proof.
  intros Hi HP Hf. pose proof Hi as [Hn Hr Hd]. unfold update_store.
  destruct (update_first P f (ss_records st)) as [rs|] eqn:Eu; intros [= <- <-]; cycle 1.
  { apply update_first_None in Eu. rewrite List.Forall_forall in Eu. split_and!; try done; auto. }
  apply update_first_Some in Eu as (l1 & x & l2 & E & -> & Hx & _).
  pose proof (HP x Hx) as Hxh. rewrite E in Hd, Hr. pose proof (store_others _ _ _ _ Hd Hxh) as Hoth.
  destruct (Hf x) as [Hfh Hfa]. split_and!; [|done| |done|].
  - constructor; cbn [ss_records ss_next_handle]; [done| |].
    + rewrite Forall_app in *. destruct Hr as [H1 H2]. inversion H2; subst. split; [done|].
      constructor; [|done]. rewrite Hfh. auto.
    + eapply (all_pairs_replace _ l1 x (f x) l2); [apply sr_distinct_sym| |exact Hd].
      intros r H Ha Har. rewrite Hfh. apply H; auto.
  - intros h' Hne. unfold lookup_share_full. rewrite E. cbn [ss_records]. symmetry. apply find_replace.
    + unfold has_handle. rewrite Hfh. apply has_handle_true in Hxh as [-> ->].
      destruct (Z.eqb_spec h h'); [congruence|]. by rewrite !andb_false_r.
    + unfold has_handle. apply has_handle_true in Hxh as [-> ->].
      destruct (Z.eqb_spec h h'); [congruence|]. done.
  - intros _. exists x. rewrite Forall_app in Hoth. destruct Hoth as [Ho1 Ho2].
    unfold lookup_share_full. rewrite E. cbn [ss_records]. rewrite !find_app_skip by done. simpl. rewrite Hxh.
    split_and!; [done|done|]. unfold has_handle at 1. rewrite Hfh.
    apply has_handle_true in Hxh as [_ ->]. rewrite Z.eqb_refl, andb_true_r.
    destruct (sr_active (f x)); [done|]. by apply find_none_all.
Qed.
