(* ===== verification/FfaProxy.v ===== *)
(** * The FF-A proxy (src/ffa/proxy.rs, src/ffa/smc_forward.rs)

    Every handler of [handle_ffa_call], as built with the [linux_guest] feature;
    [tfa_boot] is a boolean of the section, and so is [checks]: whether the build
    has overflow checks, as the dev profile of every Makefile target does.  The
    Secure World behind [smc #0] is the parameter [el3]: from memory and x0-x7 it
    gives memory and x0-x7.  Rust panics (failed assertion, index out of bounds,
    arithmetic overflow where checked) are errors of the monad. *)

From Stdlib Require Import ZArith Lia Bool.
From stdpp Require Import base list strings.
From S2P Require Import Prelude Memory Allocator Stage2 FfaCore FfaNotif.
Import Walker.

(** x0-x7 of the guest context; no handler touches another register. *)
Record GpRegs := mkRegs { rx0 : Z; rx1 : Z; rx2 : Z; rx3 : Z; rx4 : Z; rx5 : Z; rx6 : Z; rx7 : Z }.

Definition set_x0 (v : Z) (r : GpRegs) := mkRegs v (rx1 r) (rx2 r) (rx3 r) (rx4 r) (rx5 r) (rx6 r) (rx7 r).
Definition set_x1 (v : Z) (r : GpRegs) := mkRegs (rx0 r) v (rx2 r) (rx3 r) (rx4 r) (rx5 r) (rx6 r) (rx7 r).
Definition set_x2 (v : Z) (r : GpRegs) := mkRegs (rx0 r) (rx1 r) v (rx3 r) (rx4 r) (rx5 r) (rx6 r) (rx7 r).
Definition set_x3 (v : Z) (r : GpRegs) := mkRegs (rx0 r) (rx1 r) (rx2 r) v (rx4 r) (rx5 r) (rx6 r) (rx7 r).
Definition set_x4 (v : Z) (r : GpRegs) := mkRegs (rx0 r) (rx1 r) (rx2 r) (rx3 r) v (rx5 r) (rx6 r) (rx7 r).
Definition set_x5 (v : Z) (r : GpRegs) := mkRegs (rx0 r) (rx1 r) (rx2 r) (rx3 r) (rx4 r) v (rx6 r) (rx7 r).

(** Everything the proxy reads and writes: the trapped context, the current VM,
    the machine, the global tables, VTTBR_EL2 and PER_VM_VTTBR. *)
Record ffa_state := mkFfa {
  fs_regs : GpRegs;
  fs_vm : Z;
  fs_mach : machine;
  fs_mbox : list FfaMailbox;
  fs_store : spmc_store;
  fs_notif : notif_state;
  fs_spmc_present : bool;
  fs_proxy_rxtx : bool;
  fs_vttbr : Z;
  fs_per_vm_vttbr : list Z;
}.

Definition with_regs (s : ffa_state) (r : GpRegs) : ffa_state :=
  mkFfa r (fs_vm s) (fs_mach s) (fs_mbox s) (fs_store s) (fs_notif s) (fs_spmc_present s)
    (fs_proxy_rxtx s) (fs_vttbr s) (fs_per_vm_vttbr s).
Definition with_mach (s : ffa_state) (h : machine) : ffa_state :=
  mkFfa (fs_regs s) (fs_vm s) h (fs_mbox s) (fs_store s) (fs_notif s) (fs_spmc_present s)
    (fs_proxy_rxtx s) (fs_vttbr s) (fs_per_vm_vttbr s).
Definition with_mbox (s : ffa_state) (l : list FfaMailbox) : ffa_state :=
  mkFfa (fs_regs s) (fs_vm s) (fs_mach s) l (fs_store s) (fs_notif s) (fs_spmc_present s)
    (fs_proxy_rxtx s) (fs_vttbr s) (fs_per_vm_vttbr s).
Definition with_store (s : ffa_state) (st : spmc_store) : ffa_state :=
  mkFfa (fs_regs s) (fs_vm s) (fs_mach s) (fs_mbox s) st (fs_notif s) (fs_spmc_present s)
    (fs_proxy_rxtx s) (fs_vttbr s) (fs_per_vm_vttbr s).
Definition with_notif (s : ffa_state) (n : notif_state) : ffa_state :=
  mkFfa (fs_regs s) (fs_vm s) (fs_mach s) (fs_mbox s) (fs_store s) n (fs_spmc_present s)
    (fs_proxy_rxtx s) (fs_vttbr s) (fs_per_vm_vttbr s).

Definition ffam := SM ffa_state string.
Definition upd_regs (f : GpRegs -> GpRegs) : ffam unit := sm_upd (fun s => with_regs s (f (fs_regs s))).
Definition get_regs : ffam GpRegs := fun s => (s, Ok (fs_regs s)).
Definition current_vm_id : ffam Z := fun s => (s, Ok (fs_vm s)).
Definition get_mem : ffam mem := fun s => (s, Ok (hm_mem (fs_mach s))).
Definition upd_mem (f : mem -> mem) : ffam unit :=
  sm_upd (fun s => with_mach s (set_mem (fs_mach s) (f (hm_mem (fs_mach s))))).

(** A Stage-2 operation whose result the caller inspects. *)
Definition lift_s2 {A} (c : s2m A) : ffam (result A string) :=
  fun s => let (h, r) := c (fs_mach s) in (with_mach s h, Ok r).
(** [let _ = op;] *)
Definition ignore {A} (c : s2m A) : s2m unit := fun h => ((c h).1, Ok tt).

Definition ffa_error (code : Z) : ffam unit := upd_regs (fun r => set_x2 (u32 code) (set_x0 FFA_ERROR r)).
(** [ffa_error(context, code); return true;] *)
Definition fail_with (code : Z) : ffam bool := ffa_error code ;;; sm_ret true.
(** [context.gp_regs.x0 = FFA_SUCCESS_32; true] *)
Definition succeed : ffam bool := upd_regs (set_x0 FFA_SUCCESS_32) ;;; sm_ret true.

Definition get_mailbox (vm_id : Z) : ffam FfaMailbox := fun s =>
  if vm_id <? FFA_MAX_VMS then
    match fs_mbox s !! Z.to_nat vm_id with
    | Some mb => (s, Ok mb)
    | None => (s, Err "index out of bounds"%string)
    end
  else (s, Err "assertion failed: vm_id < FFA_MAX_VMS"%string).
Definition put_mailbox (vm_id : Z) (mb : FfaMailbox) : ffam unit :=
  sm_upd (fun s => with_mbox s (<[Z.to_nat vm_id := mb]> (fs_mbox s))).

(** Guest RAM (src/platform.rs) *)
Definition GUEST_LOAD_ADDR : Z := 0x48000000.
Definition LINUX_MEM_SIZE : Z := 1024 * 1024 * 1024.
Definition is_guest_ram (ipa len : Z) : bool :=
  let ram_start := GUEST_LOAD_ADDR in
  let ram_size := LINUX_MEM_SIZE in
  (ram_start <=? ipa) && (len <=? ram_size) && (ipa <=? ram_start + ram_size - len).

(** The panic of an overflow check. *)
Definition overflow_check (msg : string) (overflows : bool) : ffam unit :=
  if overflows then sm_err msg else sm_ret tt.

(** ** Pages of a list of ranges, in iteration order *)

(** The sums [base_ipa + p * PAGE_SIZE_4KB], not yet cut to 64 bits. *)
Definition range_pages (r : Z * Z) : list Z :=
  map (fun p => r.1 + Z.of_nat p * PAGE_SIZE_4KB) (seq 0 (Z.to_nat r.2)).
Definition page_sums (ranges : list (Z * Z)) : list Z := concat (map range_pages ranges).
Fixpoint before_overflow (sums : list Z) : list Z :=
  match sums with
  | [] => []
  | a :: sums' => if 2 ^ 64 <=? a then [] else a :: before_overflow sums'
  end.
(** The pages a loop over the ranges visits: with overflow checks those before the
    first sum that does not fit, where the loop panics; without them all, wrapped. *)
Definition pages_of (checks : bool) (ranges : list (Z * Z)) : list Z :=
  map u64 (if checks then before_overflow (page_sums ranges) else page_sums ranges).
(** Whether the loop ends in the panic. *)
Definition walk_overflows (checks : bool) (ranges : list (Z * Z)) : bool :=
  checks && existsb (fun a => 2 ^ 64 <=? a) (page_sums ranges).

(** The validation loop: every page mapped and owned. *)
Fixpoint validate_pages (m : mem) (w : Stage2Walker) (pages : list Z) : result unit Z :=
  match pages with
  | [] => Ok tt
  | ipa :: ps =>
      match read_sw_bits m w ipa with
      | Some sw => match validate_page_for_share sw with
                   | Ok _ => validate_pages m w ps
                   | Err code => Err code
                   end
      | None => Err FFA_DENIED
      end
  end.

(** The transition loop of share, lend and reclaim; errors are dropped. *)
Fixpoint transition_pages (w : Stage2Walker) (sw s2ap : Z) (pages : list Z) : s2m unit :=
  match pages with
  | [] => sm_ret tt
  | ipa :: ps =>
      ignore (write_sw_bits w ipa sw) ;;;
      ignore (set_s2ap w ipa s2ap) ;;;
      transition_pages w sw s2ap ps
  end.

(** The unmap loops of relinquish and of the retrieve rollback; errors are dropped. *)
Fixpoint unmap_pages (w : Stage2Walker) (pages : list Z) : s2m unit :=
  match pages with
  | [] => sm_ret tt
  | ipa :: ps => ignore (unmap_page w ipa) ;;; unmap_pages w ps
  end.

(** The mapping loop of retrieve: [done] holds the pages mapped so far, unmapped in
    order when a page cannot be mapped. *)
Fixpoint retrieve_pages (w : Stage2Walker) (s2ap sw : Z) (done pages : list Z) : s2m bool :=
  match pages with
  | [] => sm_ret true
  | ipa :: ps => fun h =>
      match map_page w ipa s2ap sw h with
      | (h1, Ok _) => retrieve_pages w s2ap sw (done ++ [ipa]) ps h1
      | (h1, Err _) => (unmap_pages w done ;;; sm_ret false) h1
      end
  end.

(** ** Locally handled calls *)
Definition handle_version : ffam bool := upd_regs (set_x0 FFA_VERSION_1_1) ;;; sm_ret true.

Definition handle_id_get : ffam bool :=
  let* vm_id := current_vm_id in
  upd_regs (fun r => set_x2 (vm_id_to_partition_id vm_id) (set_x0 FFA_SUCCESS_32 r)) ;;;
  sm_ret true.

Definition proxy_features : list Z :=
  [FFA_VERSION; FFA_ID_GET; FFA_FEATURES; FFA_RXTX_MAP; FFA_RXTX_UNMAP; FFA_RX_RELEASE;
   FFA_PARTITION_INFO_GET; FFA_MSG_SEND_DIRECT_REQ_32; FFA_MSG_SEND_DIRECT_REQ_64;
   FFA_MEM_SHARE_32; FFA_MEM_SHARE_64; FFA_MEM_LEND_32; FFA_MEM_LEND_64; FFA_MEM_RECLAIM;
   FFA_MEM_RETRIEVE_REQ_32; FFA_MEM_RETRIEVE_REQ_64; FFA_MEM_RELINQUISH; FFA_SPM_ID_GET; FFA_RUN;
   FFA_NOTIFICATION_BITMAP_CREATE; FFA_NOTIFICATION_BITMAP_DESTROY; FFA_NOTIFICATION_BIND;
   FFA_NOTIFICATION_UNBIND; FFA_NOTIFICATION_SET; FFA_NOTIFICATION_GET;
   FFA_NOTIFICATION_INFO_GET_32; FFA_NOTIFICATION_INFO_GET_64; FFA_MSG_SEND2; FFA_MSG_WAIT].

Definition handle_features : ffam bool :=
  let* r := get_regs in
  if existsb (Z.eqb (rx1 r)) proxy_features
  then upd_regs (fun r => set_x2 0 (set_x0 FFA_SUCCESS_32 r)) ;;; sm_ret true
  else fail_with FFA_NOT_SUPPORTED.

(** ** RXTX mailbox *)
Definition handle_rxtx_map : ffam bool :=
  let* r := get_regs in
  let tx_ipa := rx1 r in
  let rx_ipa := rx2 r in
  let page_count := u32 (rx3 r) in
  if negb (Z.land tx_ipa 0xFFF =? 0) || negb (Z.land rx_ipa 0xFFF =? 0)
     || (page_count =? 0) || (1 <? page_count)
  then fail_with FFA_INVALID_PARAMETERS else
  let buf_size := page_count * 4096 in
  if negb (is_guest_ram tx_ipa buf_size) || negb (is_guest_ram rx_ipa buf_size)
  then fail_with FFA_INVALID_PARAMETERS else
  let* vm_id := current_vm_id in
  let* mbox := get_mailbox vm_id in
  if mb_mapped mbox then fail_with FFA_DENIED else
  put_mailbox vm_id (mkMailbox tx_ipa rx_ipa page_count true true
                       (mb_msg_pending mbox) (mb_msg_sender_id mbox)) ;;;
  succeed.

Definition handle_rxtx_unmap : ffam bool :=
  let* vm_id := current_vm_id in
  let* mbox := get_mailbox vm_id in
  if negb (mb_mapped mbox) then fail_with FFA_DENIED else
  put_mailbox vm_id FfaMailbox_new ;;;
  succeed.

Definition handle_rx_release : ffam bool :=
  let* vm_id := current_vm_id in
  let* mbox := get_mailbox vm_id in
  if negb (mb_mapped mbox) then fail_with FFA_DENIED else
  put_mailbox vm_id (mkMailbox (mb_tx_ipa mbox) (mb_rx_ipa mbox) (mb_page_count mbox)
                       (mb_mapped mbox) true false (mb_msg_sender_id mbox)) ;;;
  succeed.

Record SmcResult := mkSmc { sr_x0 : Z; sr_x1 : Z; sr_x2 : Z; sr_x3 : Z }.

Section Proxy.
(** Overflow checks, [smc #0] to EL3, the [tfa_boot] feature, the addresses of
    PROXY_TX_BUF and PROXY_RX_BUF. *)
Context (checks : bool) (el3 : mem -> GpRegs -> mem * GpRegs) (tfa_boot : bool) (proxy_tx_buf proxy_rx_buf : Z).

Definition forward_smc8 (args : GpRegs) : ffam GpRegs := fun s =>
  let (m', r) := el3 (hm_mem (fs_mach s)) args in
  (with_mach s (set_mem (fs_mach s) m'), Ok r).

(** [forward_smc]: the same call, of which only x0-x3 come back. *)
Definition forward_smc4 (args : GpRegs) : ffam SmcResult :=
  let* r := forward_smc8 args in sm_ret (mkSmc (rx0 r) (rx1 r) (rx2 r) (rx3 r)).

Definition probe_spmc : ffam bool :=
  let* psci := forward_smc4 (mkRegs 0x84000000 0 0 0 0 0 0 0) in
  if (sr_x0 psci =? 0xFFFFFFFFFFFFFFFF) || (sr_x0 psci =? 0xFFFFFFFF) then sm_ret false else sm_ret false.

Definition set_spmc_present : ffam unit :=
  sm_upd (fun s => mkFfa (fs_regs s) (fs_vm s) (fs_mach s) (fs_mbox s) (fs_store s) (fs_notif s) true
    (fs_proxy_rxtx s) (fs_vttbr s) (fs_per_vm_vttbr s)).
Definition set_proxy_rxtx : ffam unit :=
  sm_upd (fun s => mkFfa (fs_regs s) (fs_vm s) (fs_mach s) (fs_mbox s) (fs_store s) (fs_notif s)
    (fs_spmc_present s) true (fs_vttbr s) (fs_per_vm_vttbr s)).

(** [init]; the messages on the console are not modelled. *)
Definition proxy_init : ffam unit :=
  if tfa_boot then
    set_spmc_present ;;;
    let* result := forward_smc8 (mkRegs FFA_RXTX_MAP proxy_tx_buf proxy_rx_buf 1 0 0 0 0) in
    if rx0 result =? FFA_SUCCESS_32 then set_proxy_rxtx else sm_ret tt
  else
    let* present := probe_spmc in
    if present then set_spmc_present else sm_ret tt.

Definition spmc_present : ffam bool := fun s => (s, Ok (fs_spmc_present s)).

Definition forward_ffa_to_spmc : ffam bool :=
  let* r := get_regs in
  let* result := forward_smc8 r in
  upd_regs (fun _ => result) ;;;
  sm_ret true.

(** ** Partition discovery *)
Fixpoint write_stub_partitions (m : mem) (ptr : Z) (sps : list StubPartition) : mem :=
  match sps with
  | [] => m
  | sp :: sps' =>
      let m := write16 m ptr (sp_part_id sp) in
      let m := write16 m (ptr + 2) (sp_exec_ctx_count sp) in
      let m := write32 m (ptr + 4) (sp_properties sp) in
      write_stub_partitions m (ptr + 8) sps'
  end.

Definition give_rx_to_vm (mbox : FfaMailbox) : FfaMailbox :=
  mkMailbox (mb_tx_ipa mbox) (mb_rx_ipa mbox) (mb_page_count mbox) (mb_mapped mbox) false
    (mb_msg_pending mbox) (mb_msg_sender_id mbox).

Definition partition_info_relay (vm_id : Z) (mbox : FfaMailbox) : ffam bool :=
  let* s := sm_get in
  if negb (fs_proxy_rxtx s) then fail_with FFA_DENIED else
  let* r := get_regs in
  let* result := forward_smc8 (mkRegs FFA_PARTITION_INFO_GET (rx1 r) (rx2 r) (rx3 r) (rx4 r) 0 0 0) in
  if negb (rx0 result =? FFA_SUCCESS_32) then
    upd_regs (fun r => set_x2 (rx2 result) (set_x0 (rx0 result) r)) ;;; sm_ret true
  else
  let count := rx2 result in
  overflow_check MUL_OVERFLOW (checks && (2 ^ 64 <=? count * 24)) ;;;
  let bytes := u64 (count * 24) in
  let max_bytes := Z.min 4096 (mb_page_count mbox * 4096) in
  if max_bytes <? bytes then fail_with FFA_NO_MEMORY else
  upd_mem (fun m => copy_bytes m proxy_rx_buf (mb_rx_ipa mbox) bytes) ;;;
  let* release_result := forward_smc8 (mkRegs FFA_RX_RELEASE 0 0 0 0 0 0 0) in
  put_mailbox vm_id (give_rx_to_vm mbox) ;;;
  upd_regs (fun r => set_x2 count (set_x0 FFA_SUCCESS_32 r)) ;;;
  sm_ret true.

Definition handle_partition_info_get : ffam bool :=
  let* vm_id := current_vm_id in
  let* mbox := get_mailbox vm_id in
  if negb (mb_mapped mbox) then fail_with FFA_DENIED else
  if negb (mb_rx_held_by_proxy mbox) then fail_with FFA_BUSY else
  let* s := sm_get in
  if tfa_boot && fs_spmc_present s then partition_info_relay vm_id mbox else
  upd_mem (fun m => write_stub_partitions m (mb_rx_ipa mbox) STUB_PARTITIONS) ;;;
  put_mailbox vm_id (give_rx_to_vm mbox) ;;;
  upd_regs (fun r => set_x2 partition_count (set_x0 FFA_SUCCESS_32 r)) ;;;
  sm_ret true.

(** ** Direct messaging *)
Definition handle_msg_send_direct_req : ffam bool :=
  let* r := get_regs in
  let sender := u16 (Z.land (Z.shiftr (rx1 r) 16) 0xFFFF) in
  let receiver := u16 (Z.land (rx1 r) 0xFFFF) in
  let* vm_id := current_vm_id in
  if negb (sender =? vm_id_to_partition_id vm_id) then fail_with FFA_INVALID_PARAMETERS else
  let* s := sm_get in
  if fs_spmc_present s && (FFA_SPMC_ID <=? receiver) then forward_ffa_to_spmc else
  if negb (is_valid_sp receiver) then fail_with FFA_INVALID_PARAMETERS else
  let is_64bit := rx0 r =? FFA_MSG_SEND_DIRECT_REQ_64 in
  upd_regs (fun r => set_x1 (Z.lor (Z.shiftl receiver 16) sender)
    (set_x0 (if is_64bit then FFA_MSG_SEND_DIRECT_RESP_64 else FFA_MSG_SEND_DIRECT_RESP_32) r)) ;;;
  sm_ret true.

(** ** Memory sharing *)
Definition parse_share_descriptor (m : mem) (r : GpRegs) (mbox : FfaMailbox) :
  result (Z * Z * list (Z * Z) * Z) Z :=
  let total_length := u32 (rx1 r) in
  let fragment_length := u32 (rx2 r) in
  if negb (total_length =? fragment_length) || (total_length =? 0)
  then Err FFA_INVALID_PARAMETERS else
  match parse_mem_region m (mb_tx_ipa mbox) total_length with
  | Ok p => Ok (pr_sender_id p, pr_receiver_id p, pr_ranges p, pr_total_page_count p)
  | Err e => Err e
  end.

(** (sender of the descriptor or 0, receiver, ranges, total page count) *)
Definition share_request (m : mem) (r : GpRegs) (mbox : FfaMailbox) :
  result (Z * Z * list (Z * Z) * Z) Z :=
  if mb_mapped mbox then parse_share_descriptor m r mbox else
  let base_ipa := rx3 r in
  let page_count := u32 (rx4 r) in
  let receiver_id := u16 (rx5 r) in
  if page_count =? 0 then Err FFA_INVALID_PARAMETERS
  else Ok (0, receiver_id, [(base_ipa, page_count)], page_count).

Definition record_share_m (sender_id receiver_id : Z) (ranges : list (Z * Z)) (total : Z)
  (is_lend : bool) : ffam (option Z) := fun s =>
  let (h, st) := record_share (fs_store s) sender_id receiver_id ranges total is_lend in
  (with_store s st, Ok h).

Definition share_s2ap (is_lend : bool) : Z :=
  if is_lend then u8 (Z.shiftr S2AP_NONE S2AP_SHIFT) else u8 (Z.shiftr S2AP_RO S2AP_SHIFT).

Definition handle_mem_share_or_lend (is_lend : bool) : ffam bool :=
  let* vm_id := current_vm_id in
  let* mbox := get_mailbox vm_id in
  let* r := get_regs in
  let* m := get_mem in
  match share_request m r mbox with
  | Err code => fail_with code
  | Ok (sender_id_from_desc, receiver_id, ranges, total_page_count) =>
      if negb (is_valid_receiver receiver_id) then fail_with FFA_INVALID_PARAMETERS else
      let expected_sender := vm_id_to_partition_id vm_id in
      if negb (sender_id_from_desc =? 0) && negb (sender_id_from_desc =? expected_sender)
      then fail_with FFA_INVALID_PARAMETERS else
      let* s := sm_get in
      let walker := from_vttbr (fs_vttbr s) in
      match (if has_stage2 walker then validate_pages m walker (pages_of checks ranges) else Ok tt) with
      | Err code => fail_with code
      | Ok _ =>
          overflow_check ADD_OVERFLOW (has_stage2 walker && walk_overflows checks ranges) ;;;
          (if has_stage2 walker
           then lift_s2 (transition_pages walker (ownership_bits SharedOwned) (share_s2ap is_lend)
                           (pages_of checks ranges))
           else sm_ret (Ok tt)) ;;;
          let* handle := record_share_m expected_sender receiver_id ranges total_page_count is_lend in
          match handle with
          | None => fail_with FFA_NO_MEMORY
          | Some h =>
              upd_regs (fun r => set_x3 (Z.shiftr h 32) (set_x2 (Z.land h 0xFFFFFFFF)
                (set_x0 FFA_SUCCESS_32 r))) ;;;
              sm_ret true
          end
      end
  end.

Definition handle_mem_share : ffam bool := handle_mem_share_or_lend false.
Definition handle_mem_lend : ffam bool := handle_mem_share_or_lend true.

(** The 64-bit handle in the low halves of x1 and x2. *)
Definition handle_of (r : GpRegs) : Z :=
  Z.lor (Z.land (rx1 r) 0xFFFFFFFF) (u64 (Z.shiftl (Z.land (rx2 r) 0xFFFFFFFF) 32)).

Definition lookup_share_m (h : Z) : ffam (option MemShareRecord) := fun s =>
  (s, Ok (lookup_share_full (fs_store s) h)).
Definition upd_store (f : spmc_store -> bool * spmc_store) : ffam bool := fun s =>
  let (b, st) := f (fs_store s) in (with_store s st, Ok b).
(** [info.ranges[0..info.range_count]] *)
Definition info_ranges (i : MemShareRecord) : list (Z * Z) := firstn (sr_range_count i) (sr_ranges i).

Definition handle_mem_reclaim : ffam bool :=
  let* r := get_regs in
  let handle := handle_of r in
  let* o := lookup_share_m handle in
  match o with
  | None => fail_with FFA_INVALID_PARAMETERS
  | Some info =>
      if sr_retrieved info then fail_with FFA_DENIED else
      let* s := sm_get in
      let walker := from_vttbr (fs_vttbr s) in
      (if has_stage2 walker
       then lift_s2 (transition_pages walker (ownership_bits Owned) (u8 (Z.shiftr S2AP_RW S2AP_SHIFT))
                       (pages_of checks (info_ranges info)))
       else sm_ret (Ok tt)) ;;;
      overflow_check ADD_OVERFLOW (has_stage2 walker && walk_overflows checks (info_ranges info)) ;;;
      upd_store (fun st => reclaim_share st handle) ;;;
      succeed
  end.

(** [PER_VM_VTTBR[vm]] *)
Definition per_vm_vttbr (vm : Z) : ffam Z := fun s =>
  match fs_per_vm_vttbr s !! Z.to_nat vm with
  | Some v => (s, Ok v)
  | None => (s, Err "index out of bounds"%string)
  end.

(** The Stage-2 part of retrieve: [false] when a page could not be mapped. *)
Definition retrieve_map (info : MemShareRecord) : ffam bool :=
  match partition_id_to_vm_id (sr_receiver_id info) with
  | None => sm_ret true
  | Some recv_vm_id =>
      let* l0_pa := per_vm_vttbr recv_vm_id in
      if l0_pa =? 0 then sm_ret true else
      let* res := lift_s2 (retrieve_pages (new l0_pa) (u8 (Z.shiftr S2AP_RW S2AP_SHIFT))
                             (ownership_bits SharedBorrowed) [] (pages_of checks (info_ranges info))) in
      match res with
      | Ok true => overflow_check ADD_OVERFLOW (walk_overflows checks (info_ranges info)) ;;; sm_ret true
      | _ => sm_ret false
      end
  end.

Definition handle_mem_retrieve_req : ffam bool :=
  let* r := get_regs in
  let handle := handle_of r in
  let* o := lookup_share_m handle in
  match o with
  | None => fail_with FFA_INVALID_PARAMETERS
  | Some info =>
      let* vm_id := current_vm_id in
      if negb (vm_id_to_partition_id vm_id =? sr_receiver_id info) then fail_with FFA_DENIED else
      if sr_retrieved info then fail_with FFA_DENIED else
      let* mapped := retrieve_map info in
      if negb mapped then fail_with FFA_DENIED else
      upd_store (fun st => mark_retrieved st handle) ;;;
      upd_regs (fun r => set_x3 (Z.shiftr handle 32) (set_x2 (Z.land handle 0xFFFFFFFF)
        (set_x1 0 (set_x0 FFA_MEM_RETRIEVE_RESP r)))) ;;;
      sm_ret true
  end.

Definition relinquish_unmap (info : MemShareRecord) : ffam unit :=
  match partition_id_to_vm_id (sr_receiver_id info) with
  | None => sm_ret tt
  | Some recv_vm_id =>
      let* l0_pa := per_vm_vttbr recv_vm_id in
      if l0_pa =? 0 then sm_ret tt else
      lift_s2 (unmap_pages (new l0_pa) (pages_of checks (info_ranges info))) ;;;
      overflow_check ADD_OVERFLOW (walk_overflows checks (info_ranges info))
  end.

Definition handle_mem_relinquish : ffam bool :=
  let* r := get_regs in
  let handle := handle_of r in
  let* o := lookup_share_m handle in
  match o with
  | None => fail_with FFA_INVALID_PARAMETERS
  | Some info =>
      let* vm_id := current_vm_id in
      if negb (vm_id_to_partition_id vm_id =? sr_receiver_id info) then fail_with FFA_DENIED else
      if negb (sr_retrieved info) then fail_with FFA_DENIED else
      relinquish_unmap info ;;;
      upd_store (fun st => mark_relinquished st handle) ;;;
      succeed
  end.

(** ** Supplemental calls *)
Definition handle_spm_id_get : ffam bool :=
  upd_regs (fun r => set_x2 FFA_SPMC_ID (set_x0 FFA_SUCCESS_32 r)) ;;; sm_ret true.

Definition handle_run : ffam bool :=
  let* present := spmc_present in
  if present then forward_ffa_to_spmc else fail_with FFA_NOT_SUPPORTED.

(** ** Notifications *)
Definition upd_notif {A} (f : notif_state -> result A Z * notif_state) : ffam (result A Z) := fun s =>
  let (r, n) := f (fs_notif s) in (with_notif s n, Ok r).
Definition finish (r : result unit Z) : ffam bool :=
  match r with Ok _ => succeed | Err code => fail_with code end.

Definition x1_hi (r : GpRegs) : Z := u16 (Z.land (Z.shiftr (rx1 r) 16) 0xFFFF).
Definition x1_lo (r : GpRegs) : Z := u16 (Z.land (rx1 r) 0xFFFF).
Definition x34_bitmap (r : GpRegs) : Z := Z.lor (rx3 r) (u64 (Z.shiftl (rx4 r) 32)).

Definition handle_notification_bitmap_create : ffam bool :=
  let* r := get_regs in
  let* res := upd_notif (bitmap_create (u16 (rx1 r))) in finish res.
Definition handle_notification_bitmap_destroy : ffam bool :=
  let* r := get_regs in
  let* res := upd_notif (bitmap_destroy (u16 (rx1 r))) in finish res.
Definition handle_notification_bind : ffam bool :=
  let* r := get_regs in
  let* res := upd_notif (notif_bind (x1_hi r) (x1_lo r) (u32 (rx2 r)) (x34_bitmap r)) in finish res.
Definition handle_notification_unbind : ffam bool :=
  let* r := get_regs in
  let* res := upd_notif (notif_unbind (x1_hi r) (x1_lo r) (x34_bitmap r)) in finish res.
Definition handle_notification_set : ffam bool :=
  let* r := get_regs in
  let* res := upd_notif (notif_set (x1_hi r) (x1_lo r) (x34_bitmap r)) in finish res.

Definition handle_notification_get : ffam bool :=
  let* r := get_regs in
  let* res := upd_notif (notif_get (u16 (rx1 r))) in
  match res with
  | Ok pending =>
      upd_regs (fun r => set_x5 0 (set_x4 0 (set_x3 0 (set_x2 pending (set_x0 FFA_SUCCESS_32 r))))) ;;;
      sm_ret true
  | Err code => fail_with code
  end.

Fixpoint pack_ids (ids : list Z) (i : Z) : Z :=
  match ids with
  | [] => 0
  | id :: ids' => Z.lor (Z.shiftl id (i * 16)) (pack_ids ids' (i + 1))
  end.
Definition handle_notification_info_get : ffam bool :=
  let* s := sm_get in
  let ids := info_get (fs_notif s) in
  match ids with
  | [] => fail_with FFA_NO_DATA
  | _ => upd_regs (fun r => set_x3 (pack_ids ids 0) (set_x2 (Z.of_nat (length ids)) (set_x0 FFA_SUCCESS_32 r))) ;;;
         sm_ret true
  end.

(** ** Indirect messaging *)
Definition handle_msg_send2 : ffam bool :=
  let* vm_id := current_vm_id in
  let* sender_mbox := get_mailbox vm_id in
  if negb (mb_mapped sender_mbox) then fail_with FFA_DENIED else
  let tx_ipa := mb_tx_ipa sender_mbox in
  let* m := get_mem in
  let msg_sender_id := read16 m tx_ipa in
  let msg_receiver_id := read16 m (tx_ipa + 2) in
  let msg_size := read32 m (tx_ipa + 4) in
  if negb (msg_sender_id =? vm_id_to_partition_id vm_id) then fail_with FFA_INVALID_PARAMETERS else
  match partition_id_to_vm_id msg_receiver_id with
  | None => fail_with FFA_INVALID_PARAMETERS
  | Some recv_vm_id =>
      let* recv_mbox := get_mailbox recv_vm_id in
      if negb (mb_mapped recv_mbox) then fail_with FFA_DENIED else
      if negb (mb_rx_held_by_proxy recv_mbox) then fail_with FFA_BUSY else
      if mb_msg_pending recv_mbox then fail_with FFA_BUSY else
      overflow_check ADD_OVERFLOW (checks && (2 ^ 32 <=? 8 + msg_size)) ;;;
      let copy_len := Z.min (u32 (8 + msg_size)) 4096 in
      upd_mem (fun m => copy_bytes m tx_ipa (mb_rx_ipa recv_mbox) copy_len) ;;;
      put_mailbox recv_vm_id (mkMailbox (mb_tx_ipa recv_mbox) (mb_rx_ipa recv_mbox)
        (mb_page_count recv_mbox) (mb_mapped recv_mbox) false true msg_sender_id) ;;;
      succeed
  end.

Definition handle_msg_wait : ffam bool :=
  let* vm_id := current_vm_id in
  let* mbox := get_mailbox vm_id in
  if negb (mb_mapped mbox) then fail_with FFA_DENIED else
  if mb_msg_pending mbox then
    upd_regs (fun r => set_x1 (mb_msg_sender_id mbox) (set_x0 FFA_SUCCESS_32 r)) ;;; sm_ret true
  else fail_with FFA_NO_DATA.

(** ** Dispatch *)
Definition handle_ffa_call : ffam bool :=
  let* r := get_regs in
  let fid := rx0 r in
  let fid_is f := fid =? f in
  if fid_is FFA_VERSION then handle_version else
  if fid_is FFA_ID_GET then handle_id_get else
  if fid_is FFA_FEATURES then handle_features else
  if fid_is FFA_RXTX_MAP then handle_rxtx_map else
  if fid_is FFA_RXTX_UNMAP then handle_rxtx_unmap else
  if fid_is FFA_RX_RELEASE then handle_rx_release else
  if fid_is FFA_PARTITION_INFO_GET then handle_partition_info_get else
  if fid_is FFA_MSG_SEND_DIRECT_REQ_32 || fid_is FFA_MSG_SEND_DIRECT_REQ_64 then handle_msg_send_direct_req else
  if fid_is FFA_MEM_SHARE_32 || fid_is FFA_MEM_SHARE_64 then handle_mem_share else
  if fid_is FFA_MEM_LEND_32 || fid_is FFA_MEM_LEND_64 then handle_mem_lend else
  if fid_is FFA_MEM_RECLAIM then handle_mem_reclaim else
  if fid_is FFA_MEM_RETRIEVE_REQ_32 || fid_is FFA_MEM_RETRIEVE_REQ_64 then handle_mem_retrieve_req else
  if fid_is FFA_MEM_RELINQUISH then handle_mem_relinquish else
  if fid_is FFA_MEM_DONATE_32 || fid_is FFA_MEM_DONATE_64 then fail_with FFA_NOT_SUPPORTED else
  if fid_is FFA_SPM_ID_GET then handle_spm_id_get else
  if fid_is FFA_RUN then handle_run else
  if fid_is FFA_NOTIFICATION_BITMAP_CREATE then handle_notification_bitmap_create else
  if fid_is FFA_NOTIFICATION_BITMAP_DESTROY then handle_notification_bitmap_destroy else
  if fid_is FFA_NOTIFICATION_BIND then handle_notification_bind else
  if fid_is FFA_NOTIFICATION_UNBIND then handle_notification_unbind else
  if fid_is FFA_NOTIFICATION_SET then handle_notification_set else
  if fid_is FFA_NOTIFICATION_GET then handle_notification_get else
  if fid_is FFA_NOTIFICATION_INFO_GET_32 || fid_is FFA_NOTIFICATION_INFO_GET_64 then handle_notification_info_get else
  if fid_is FFA_MSG_SEND2 then handle_msg_send2 else
  if fid_is FFA_MSG_WAIT then handle_msg_wait else
  let* present := spmc_present in
  if present then forward_ffa_to_spmc else fail_with FFA_NOT_SUPPORTED.
End Proxy.
