(* ===== verification/FfaShare.v ===== *)
(** * Memory sharing through the FF-A proxy

    The page loops of the proxy as sequences of walker operations, and what share,
    lend, reclaim, retrieve and relinquish do to the page map of a VM and to the
    share records. *)

From Stdlib Require Import ZArith Lia Bool.
From stdpp Require Import base list strings.
From S2P Require Import Prelude Memory Allocator Stage2 Stage2Spec Stage2Bits Stage2Ops Stage2Walk.
From S2P Require Import Stage2Boot Stage2Thms FfaCore FfaNotif FfaStore FfaProxy.
Import Walker.

(** ** Heap exhaustion is permanent while only allocations happen *)
Lemma heap_full_heap s s' : hm_heap s' = hm_heap s -> heap_full s -> heap_full s'.
Proof.
  unfold heap_full, heap_alloc_page. intros ->. destruct (hm_heap s) as [a|]; [|done].
  unfold ba_alloc_page. destruct (negb (ba_free_head a =? 0)); [done|].
  destruct (ba_alloc_aligned a 4096 4096) as [r a']. done.
Qed.

Lemma alloc_full err s : heap_full s -> exists s', m_alloc_page err s = (s', Err err) /\ hm_heap s' = hm_heap s
  /\ hm_mem s' = hm_mem s.
Proof.
  unfold heap_full, m_alloc_page, heap_alloc_page. destruct (hm_heap s) as [a|] eqn:Eh.
  - unfold ba_alloc_page. destruct (negb (ba_free_head a =? 0)); [done|].
    destruct (ba_alloc_aligned a 4096 4096) as [r a'] eqn:E. simpl. intros ->.
    eexists. split_and!; [done| |done]. simpl. unfold ba_alloc_aligned in E.
    destruct (ba_end a <? _); by simplify_eq.
  - eauto.
Qed.

(** A computation that keeps the heap when the heap is full. *)
Definition full_stable {A} (c : s2m A) : Prop := forall s, heap_full s -> hm_heap (c s).1 = hm_heap s.

Lemma full_ret {A} (a : A) : full_stable (sm_ret a).
Proof. done. Qed.
Lemma full_err {A} e : full_stable (@sm_err machine string A e).
Proof. done. Qed.
Lemma full_bind {A B} (c : s2m A) (k : A -> s2m B) :
  full_stable c -> (forall a, full_stable (k a)) -> full_stable (sm_bind c k).
Proof.
  intros Hc Hk s Hs. unfold sm_bind. specialize (Hc s Hs). destruct (c s) as [s1 [a|e]]; simpl in *; [|done].
  rewrite Hk; [done|]. by eapply heap_full_heap.
Qed.
Lemma full_alloc err : full_stable (m_alloc_page err).
Proof. intros s Hs. destruct (alloc_full err s Hs) as (s' & -> & ? & _). done. Qed.
Lemma full_upd f : (forall s, hm_heap (f s) = hm_heap s) -> full_stable (sm_upd f).
Proof. intros H s _. apply H. Qed.
Lemma full_some {A} (o : option A) e : full_stable (sm_some o e).
Proof. by destruct o. Qed.

#[export] Hint Resolve full_ret full_err full_bind full_alloc full_some : hv.
Ltac full_tac := repeat first
  [ apply full_bind; [|intros] | apply full_alloc | apply full_ret | apply full_err | apply full_some
  | (intros ? ?; reflexivity) | (apply full_upd; reflexivity) | case_match ].

Lemma full_run_op w o : full_stable (run_op w o).
Proof.
  destruct o; simpl;
    [ unfold write_sw_bits, split_block_if_needed, split_2mb_block_at_l2
    | unfold set_s2ap, split_block_if_needed, split_2mb_block_at_l2
    | unfold map_page, get_or_alloc_table | unfold unmap_page ]; full_tac.
Qed.

(** ** The loops of the proxy are runs of walker operations *)
Definition share_ops (sw ap : Z) (pages : list Z) : list s2_op :=
  concat (map (fun p => [OpWriteSw p sw; OpSetS2ap p ap]) pages).

Lemma transition_run w sw ap pages : forall h,
  transition_pages w sw ap pages h = ((run_ops w (share_ops sw ap pages) h).1, Ok tt).
Proof.
  induction pages as [|p ps IH]; intros h; [done|].
  cbn [transition_pages]. unfold sm_bind, ignore. cbn [share_ops map concat app run_ops run_op].
  destruct (write_sw_bits w p sw h) as [h1 r1]. simpl. destruct (set_s2ap w p ap h1) as [h2 r2]. simpl.
  rewrite IH. fold (share_ops sw ap ps). by destruct (run_ops w (share_ops sw ap ps) h2).
Qed.

Lemma unmap_run w pages : forall h,
  unmap_pages w pages h = ((run_ops w (map OpUnmapPage pages) h).1, Ok tt).
Proof.
  induction pages as [|p ps IH]; intros h; [done|].
  cbn [unmap_pages]. unfold sm_bind, ignore. cbn [map run_ops run_op].
  destruct (unmap_page w p h) as [h1 r1]. simpl. rewrite IH. by destruct (run_ops w (map OpUnmapPage ps) h1).
Qed.

Lemma share_ops_ok sw ap pages : Forall op_ok (share_ops sw ap pages).
Proof. induction pages as [|p ps IH]; [constructor|]. cbn. repeat constructor. exact IH. Qed.

Lemma unmap_ops_ok pages : Forall op_ok (map OpUnmapPage pages).
Proof. induction pages; simpl; constructor; done. Qed.

Lemma pages_of_fits checks ranges : Forall (fits 64) (pages_of checks ranges).
Proof. apply List.Forall_forall. intros p Hp. apply in_map_iff in Hp as (x & <- & _). apply wrap_fits. lia. Qed.

Lemma run_ops_full w os : forall h, heap_full h -> heap_full (run_ops w os h).1.
Proof.
  induction os as [|o os IH]; intros h Hh; [done|]. cbn [run_ops].
  pose proof (full_run_op w o h Hh) as Hs. destruct (run_op w o h) as [h1 r].
  assert (H1 : heap_full h1) by (eapply heap_full_heap; eauto).
  specialize (IH h1 H1). by destruct (run_ops w os h1).
Qed.

(** ** Page sets *)
Definition on_pages (pages : list Z) (ipa : Z) : bool :=
  existsb (fun p => bool_decide (same_page ipa p)) pages.

(** The update of a shared page. *)
Definition share_upd (sw ap : Z) (d : pdesc) : pdesc := pd_upd S2AP_SHIFT ap (pd_upd PTE_SW_SHIFT sw d).

Lemma share_upd_testbit sw ap d i : 0 <= i ->
  Z.testbit (pd_attr (share_upd sw ap d)) i =
  if (6 <=? i) && (i <? 8) then Z.testbit ap (i - 6)
  else if (55 <=? i) && (i <? 57) then Z.testbit sw (i - 55) else (i <? 64) && Z.testbit (pd_attr d) i.
Proof.
  intros Hi. unfold share_upd, pd_upd. cbn [pd_attr].
  rewrite (field_testbit _ (or_intror eq_refl)) by done.
  rewrite (field_testbit _ (or_introl eq_refl)) by done.
  change S2AP_SHIFT with 6. change PTE_SW_SHIFT with 55. change (6 + 2) with 8. change (55 + 2) with 57.
  zdec; done.
Qed.

Lemma pdesc_ext d d' : pd_pa d = pd_pa d' -> pd_attr d = pd_attr d' -> d = d'.
Proof. destruct d, d'. simpl. congruence. Qed.

Lemma share_upd_twice sw ap sw' ap' d : share_upd sw ap (share_upd sw' ap' d) = share_upd sw ap d.
Proof.
  apply pdesc_ext; [done|]. apply Z.bits_inj'. intros i Hi. rewrite !share_upd_testbit by done.
  zdec; done.
Qed.

(** Writing back the fields a page already has. *)
Lemma share_upd_id d : fits 64 (pd_attr d) -> share_upd (pd_sw d) (pd_s2ap d) d = d.
Proof.
  intros Hf. apply pdesc_ext; [done|]. apply Z.bits_inj'. intros i Hi. rewrite share_upd_testbit by done.
  unfold pd_sw, pd_s2ap. change PTE_SW_SHIFT with 55. change S2AP_SHIFT with 6. change 3 with (Z.ones 2).
  assert (H2 : forall k, 0 <= k -> k <= i < k + 2 ->
    Z.testbit (Z.land (Z.shiftr (pd_attr d) k) (Z.ones 2)) (i - k) = Z.testbit (pd_attr d) i).
  { intros k Hk Hi2. autorewrite with bits. replace (i - k + k) with i by lia. zdec. by rewrite andb_true_r. }
  assert (H64 : 64 <= i -> Z.testbit (pd_attr d) i = false) by (intros; apply (testbit_fits 64); (done || lia)).
  zdec; rewrite ?H2, ?H64 by lia; done.
Qed.

Lemma share_upd_fields sw ap d : pd_sw (share_upd sw ap d) = sw mod 4 /\ pd_s2ap (share_upd sw ap d) = ap mod 4.
Proof.
  unfold pd_sw, pd_s2ap. change 4 with (2 ^ 2). rewrite <- !Z.land_ones by lia. change 3 with (Z.ones 2).
  change PTE_SW_SHIFT with 55. change S2AP_SHIFT with 6.
  split; bit_ext i Hi; rewrite share_upd_testbit by lia;
    [replace (i + 55 - 55) with i by lia|replace (i + 6 - 6) with i by lia]; zdec;
    by rewrite ?andb_true_r, ?andb_false_r.
Qed.

(** ** One page *)
Lemma on_page_option f p look ipa : (on_page p (option_map f) look ipa = None) <-> look ipa = None.
Proof. unfold on_page. case_decide; [|done]. by destruct (look ipa). Qed.

Lemma s2_effect_split start s s1 l0 own others look :
  s2_effect start s s1 l0 own others look ->
  exists own1, s2_inv start s1 l0 own1 others /\ forall ipa, s2_lookup (hm_mem s1) l0 ipa = look ipa.
Proof. intros (own1 & ? & _ & _ & ? & _). eauto. Qed.

(** Addresses of a page share their level-3 table. *)
Lemma tbl3_same_page m l0 ipa ipa' : same_page ipa ipa' -> tbl 3 m l0 ipa = tbl 3 m l0 ipa'.
Proof. intros H. apply tbl_prefix; [lia|]. eapply prefix_down; [|exact H]. lia. Qed.

(** What became of the address [ipa] under the update of its page: done, its page
    now at level 3; or, with the heap exhausted and the address in a block, nothing. *)
Definition page_moved (sw ap l0 : Z) (s s' : machine) (ipa : Z) : Prop :=
  (s2_lookup (hm_mem s') l0 ipa = option_map (share_upd sw ap) (s2_lookup (hm_mem s) l0 ipa) /\
   tbl 3 (hm_mem s') l0 ipa <> None) \/
  (s2_lookup (hm_mem s') l0 ipa = s2_lookup (hm_mem s) l0 ipa /\ heap_full s' /\ tbl 3 (hm_mem s) l0 ipa = None).

Lemma page_step start l0 others sw ap p s own : s2_inv start s l0 own others -> s2_lookup (hm_mem s) l0 p <> None ->
  let s2 := (run_op (mkWalker l0) (OpSetS2ap p ap) (run_op (mkWalker l0) (OpWriteSw p sw) s).1).1 in
  (exists own2, s2_inv start s2 l0 own2 others) /\ l3_keep (hm_mem s) (hm_mem s2) l0 /\
  (forall ipa, same_page ipa p -> page_moved sw ap l0 s s2 ipa) /\
  (forall ipa, ~ same_page ipa p -> s2_lookup (hm_mem s2) l0 ipa = s2_lookup (hm_mem s) l0 ipa).
Proof.
  intros Hi Hp. cbn [run_op]. rewrite write_sw_bits_field.
  destruct (field_write PTE_SW_SHIFT sw _ p s) as [s1 r1] eqn:E1. cbn [fst]. rewrite set_s2ap_field.
  destruct (field_write_l3 _ _ _ _ _ _ _ _ _ _ (or_introl eq_refl) Hi E1) as [K1 H3].
  destruct r1 as [[]|e]; cycle 1.
  { destruct (field_write_fails _ _ _ _ _ _ _ _ _ _ Hi Hp E1) as (-> & Hf & Hn & Hall). rewrite Hall. cbn [fst].
    split_and!; [by exists own|done| |done]. intros ipa Hs. right. by rewrite (tbl3_same_page _ _ ipa p Hs). }
  specialize (H3 eq_refl). apply (field_write_spec _ _ _ _ _ _ _ _ _ _ (or_introl eq_refl) Hi) in E1 as [_ He1].
  destruct (s2_effect_split _ _ _ _ _ _ _ He1) as (own1 & Hi1 & Hl1).
  assert (Hp1 : s2_lookup (hm_mem s1) l0 p <> None) by (rewrite Hl1; by rewrite on_page_option).
  destruct (field_write S2AP_SHIFT ap _ p s1) as [s2 r2] eqn:E2. pose proof (field_write_at_l3 _ _ _ _ _ _ _ H3 Hp1 E2) as ->.
  destruct (field_write_l3 _ _ _ _ _ _ _ _ _ _ (or_intror eq_refl) Hi1 E2) as [K2 H3'].
  apply (field_write_spec _ _ _ _ _ _ _ _ _ _ (or_intror eq_refl) Hi1) in E2 as [_ He2].
  apply (s2_effect_tlb _ _ _ (tlbi_ipa p s2).1) in He2; [|done|done].
  destruct (s2_effect_split _ _ _ _ _ _ _ He2) as (own2 & Hi2 & Hl2). change (hm_mem (tlbi_ipa p s2).1) with (hm_mem s2) in *.
  split_and!; [by exists own2|intros q Hq; by apply K2, K1| |].
  - intros ipa Hs. left. split; [|rewrite (tbl3_same_page _ _ ipa p Hs); by apply H3'].
    change (hm_mem (tlbi_ipa p s2).1) with (hm_mem s2). rewrite Hl2. unfold on_page. rewrite decide_True, Hl1 by done.
    unfold on_page. rewrite decide_True by done. by destruct (s2_lookup (hm_mem s) l0 ipa).
  - intros ipa Hs. change (hm_mem (tlbi_ipa p s2).1) with (hm_mem s2). rewrite Hl2. unfold on_page.
    rewrite decide_False, Hl1 by done. unfold on_page. by rewrite decide_False by done.
Qed.

Lemma page_moved_mapped sw ap l0 s s' ipa : page_moved sw ap l0 s s' ipa ->
  s2_lookup (hm_mem s) l0 ipa <> None -> s2_lookup (hm_mem s') l0 ipa <> None.
Proof. intros [[-> _]|[-> _]]; [|done]. by destruct (s2_lookup _ _ _). Qed.

Lemma share_ops_effect start l0 others sw ap pages : forall s own,
  s2_inv start s l0 own others ->
  Forall (fun p => s2_lookup (hm_mem s) l0 p <> None) pages ->
  let s' := (run_ops (mkWalker l0) (share_ops sw ap pages) s).1 in
  l3_keep (hm_mem s) (hm_mem s') l0 /\
  forall ipa, if on_pages pages ipa then page_moved sw ap l0 s s' ipa
              else s2_lookup (hm_mem s') l0 ipa = s2_lookup (hm_mem s) l0 ipa.
Proof.
  induction pages as [|p ps IH]; intros s own Hi Hm; [split; [by intros ?|done]|].
  inversion Hm as [|? ? Hp Hps]; subst. cbn [share_ops map concat app run_ops]. fold (share_ops sw ap ps).
  pose proof (page_step start l0 others sw ap p s own Hi Hp) as H. cbv zeta in H.
  pose proof (full_run_op (mkWalker l0) (OpWriteSw p sw) s) as F1.
  destruct (run_op (mkWalker l0) (OpWriteSw p sw) s) as [s1 r1]. cbn [fst] in H, F1.
  pose proof (full_run_op (mkWalker l0) (OpSetS2ap p ap) s1) as F2.
  destruct (run_op (mkWalker l0) (OpSetS2ap p ap) s1) as [s2 r2]. cbn [fst] in H, F2.
  destruct H as ((own2 & Hi2) & K & Hin & Hout). specialize (IH s2 own2 Hi2).
  pose proof (run_ops_full (mkWalker l0) (share_ops sw ap ps) s2) as Hf3.
  destruct (run_ops (mkWalker l0) (share_ops sw ap ps) s2) as [s3 rs3]. cbn [fst] in *.
  assert (Hps2 : Forall (fun q => s2_lookup (hm_mem s2) l0 q <> None) ps).
  { eapply Forall_impl; [exact Hps|]. intros q Hq. cbn beta in *. destruct (decide (same_page q p)) as [Hs|Hs].
    - by eapply page_moved_mapped; [apply Hin|].
    - by rewrite Hout. }
  destruct (IH Hps2) as [K3 IH3]. split; [intros q Hq; by apply K3, K|]. intros ipa. specialize (IH3 ipa).
  cbn [on_pages existsb]. fold (on_pages ps ipa). destruct (bool_decide (same_page ipa p)) eqn:Eb; cbn [orb].
  - apply bool_decide_eq_true in Eb. destruct (Hin ipa Eb) as [[Hl H3]|(Hl & Hf & Hn)].
    + left. destruct (on_pages ps ipa); [|rewrite IH3; split; [done|by apply K3]].
      destruct IH3 as [[Hl3 H33]|(_ & _ & Hn)]; [|done]. split; [|done]. rewrite Hl3, Hl.
      destruct (s2_lookup (hm_mem s) l0 ipa); [|done]. cbn. by rewrite share_upd_twice.
    + destruct (on_pages ps ipa); [|right; rewrite IH3; split_and!; [done|by apply Hf3|done]].
      destruct IH3 as [[Hl3 H33]|(Hl3 & Hf' & _)]; [left|right]; rewrite Hl3, Hl; done.
  - apply bool_decide_eq_false in Eb. destruct (on_pages ps ipa); [|by rewrite IH3, Hout].
    unfold page_moved in *. rewrite Hout in IH3 by done. destruct IH3 as [?|(? & ? & Hn)]; [by left|right]. split_and!; [done|done|].
    destruct (tbl 3 (hm_mem s) l0 ipa) eqn:E; [|done]. exfalso. by apply (K ipa); [rewrite E|].
Qed.

(** ** Share and lend *)

(** No loop over the ranges of a recorded share panics. *)
Definition walks_ok (checks : bool) (st : spmc_store) : Prop :=
  Forall (fun i => walk_overflows checks (info_ranges i) = false) (ss_records st).

(** The context a trapped call of VM [vm] runs in: VTTBR_EL2 and PER_VM_VTTBR point
    to the VM's own tables, the global tables have their sizes, and the ranges of a
    recorded share stay below 2^64 where the build checks. *)
Record ffa_ctx (checks : bool) (start l0 : Z) (own : list Z) (others : list region) (s : ffa_state) : Prop := {
  fc_vm : 0 <= fs_vm s < 2;
  fc_mbox : length (fs_mbox s) = 4%nat;
  fc_per_vm : length (fs_per_vm_vttbr s) = 2%nat;
  fc_vttbr : from_vttbr (fs_vttbr s) = mkWalker l0;
  fc_own_vttbr v : fs_per_vm_vttbr s !! Z.to_nat (fs_vm s) = Some v -> v = 0 \/ v = l0;
  fc_store : store_inv (fs_store s);
  fc_walks : walks_ok checks (fs_store s);
  fc_inv : s2_inv start (fs_mach s) l0 own others;
}.

(** A call keeps the context; it writes at most the (possibly grown) tables of the
    caller. *)
Definition ctx_step (checks : bool) (start l0 : Z) (own : list Z) (others : list region) (s s' : ffa_state) : Prop :=
  exists own', incl own own' /\ ffa_ctx checks start l0 own' others s' /\ (fs_mbox s', fs_spmc_present s') = (fs_mbox s, fs_spmc_present s) /\
    ss_next_handle (fs_store s') <= ss_next_handle (fs_store s) + 1 /\
    forall x, outside own' x -> hm_mem (fs_mach s') x = hm_mem (fs_mach s) x.

Definition err_state (s : ffa_state) (code : Z) : ffa_state :=
  with_regs s (set_x2 (u32 code) (set_x0 FFA_ERROR (fs_regs s))).

Lemma ctx_step_err checks start l0 own others s code : ffa_ctx checks start l0 own others s ->
  ctx_step checks start l0 own others s (err_state s code).
Proof. intros []. exists own. split_and!; [apply incl_refl|by constructor|done|cbn; lia|done]. Qed.

Lemma fail_with_eq code s : fail_with code s = (err_state s code, Ok true).
Proof. reflexivity. Qed.

Lemma ctx_mailbox checks start l0 own others s : ffa_ctx checks start l0 own others s ->
  exists mb, fs_mbox s !! Z.to_nat (fs_vm s) = Some mb /\ get_mailbox (fs_vm s) s = (s, Ok mb).
Proof.
  intros H. pose proof (fc_vm _ _ _ _ _ _ H). pose proof (fc_mbox _ _ _ _ _ _ H).
  destruct (lookup_lt_is_Some_2 (fs_mbox s) (Z.to_nat (fs_vm s))) as [mb Hmb]; [lia|].
  exists mb. split; [done|]. unfold get_mailbox, FFA_MAX_VMS. rewrite Hmb.
  destruct (Z.ltb_spec (fs_vm s) 4); [done|lia].
Qed.

Lemma ctx_has_stage2 checks start l0 own others s : ffa_ctx checks start l0 own others s ->
  has_stage2 (from_vttbr (fs_vttbr s)) = true.
Proof.
  intros H. rewrite (fc_vttbr _ _ _ _ _ _ H). unfold has_stage2. simpl.
  destruct (wf_table _ _ _ (si_wf _ _ _ _ _ (fc_inv _ _ _ _ _ _ H)) 0%nat 0 l0 ltac:(lia) eq_refl) as (_ & ? & _).
  destruct (Z.eqb_spec l0 0); [lia|done].
Qed.

Lemma validate_ok m l0 pages : validate_pages m (mkWalker l0) pages = Ok tt ->
  Forall (fun p => exists d, s2_lookup m l0 p = Some d /\ pd_sw d = 0) pages.
Proof.
  induction pages as [|p ps IH]; cbn [validate_pages]; [constructor|].
  rewrite read_sw_bits_lookup. destruct (s2_lookup m l0 p) as [d|] eqn:E; cbn [option_map]; [|done].
  unfold validate_page_for_share, from_bits. intros H. constructor; [|].
  - exists d. split; [done|]. unfold pd_sw in *.
    assert (Hr : 0 <= Z.land (Z.shiftr (pd_attr d) PTE_SW_SHIFT) 3 < 4).
    { change 3 with (2 ^ 2 - 1). rewrite land_low by lia. apply Z.mod_pos_bound. lia. }
    revert H. rewrite <- Z.land_assoc. change (Z.land 3 3) with 3.
    destruct (Z.land (Z.shiftr (pd_attr d) PTE_SW_SHIFT) 3) as [|q|q]; [done| |lia].
    destruct q as [q|q|]; [|destruct q|]; done.
  - destruct (Z.land _ 3) as [|q|q]; [by apply IH| |done]. destruct q as [q|q|]; [|destruct q|]; done.
Qed.

(** What a successful share or lend did. *)
Record share_done (checks : bool) (s s' : ffa_state) (l0 : Z) (lend : bool) (receiver : Z) (ranges : list (Z * Z))
  (total h : Z) : Prop := {
  sd_owned : Forall (fun p => exists d, s2_lookup (hm_mem (fs_mach s)) l0 p = Some d /\ pd_sw d = 0) (pages_of checks ranges);
  sd_walk : walk_overflows checks ranges = false;
  sd_pages : forall ipa, if on_pages (pages_of checks ranges) ipa
    then page_moved (ownership_bits SharedOwned) (share_s2ap lend) l0 (fs_mach s) (fs_mach s') ipa
    else s2_lookup (hm_mem (fs_mach s')) l0 ipa = s2_lookup (hm_mem (fs_mach s)) l0 ipa;
  sd_record : lookup_share_full (fs_store s') h =
    Some (new_share h (vm_id_to_partition_id (fs_vm s)) receiver ranges total lend);
  sd_others : forall h', h' <> h -> lookup_share_full (fs_store s') h' = lookup_share_full (fs_store s) h';
  sd_receiver : is_valid_receiver receiver = true;
  sd_handle : rx2 (fs_regs s') = Z.land h 0xFFFFFFFF /\ rx3 (fs_regs s') = Z.shiftr h 32;
}.

(** The outcomes of share and lend: done; refused; or the panic of the overflow
    check, before anything was changed. *)
Definition share_outcome (checks : bool) (l0 : Z) (lend : bool) (s s' : ffa_state) (r : result bool string) : Prop :=
  let request ranges P := exists mb snd rcv total,
    fs_mbox s !! Z.to_nat (fs_vm s) = Some mb /\
    share_request (hm_mem (fs_mach s)) (fs_regs s) mb = Ok (snd, rcv, ranges, total) /\ P rcv total in
  (r = Ok true /\ rx0 (fs_regs s') = FFA_SUCCESS_32 /\ exists ranges, request ranges (fun rcv total =>
     share_done checks s s' l0 lend rcv ranges total (ss_next_handle (fs_store s)))) \/
  (r = Ok true /\ rx0 (fs_regs s') = FFA_ERROR /\
   (rx2 (fs_regs s') = u32 FFA_NO_MEMORY \/ fs_mach s' = fs_mach s /\ fs_store s' = fs_store s)) \/
  (r = Err ADD_OVERFLOW /\ s' = s /\ exists ranges, request ranges (fun _ _ => walk_overflows checks ranges = true)).

Lemma walk_firstn checks n ranges : walk_overflows checks ranges = false -> walk_overflows checks (firstn n ranges) = false.
Proof.
  unfold walk_overflows, page_sums. destruct checks; [|done]. cbn [andb]. rewrite <- !flat_map_concat_map.
  rewrite <- (firstn_skipn n ranges) at 1. rewrite flat_map_app, existsb_app. intros H. by apply orb_false_iff in H as [H _].
Qed.

Lemma info_ranges_stored h snd rcv ranges total lend :
  info_ranges (new_share h snd rcv ranges total lend) = firstn MAX_SHARE_RANGES ranges.
Proof.
  unfold info_ranges, new_share, stored_ranges. cbn [sr_range_count sr_ranges].
  rewrite firstn_app, firstn_firstn, length_firstn.
  replace (Nat.min (length ranges) MAX_SHARE_RANGES - Nat.min MAX_SHARE_RANGES (length ranges))%nat with 0%nat by lia.
  rewrite firstn_O, app_nil_r. destruct (Nat.le_gt_cases (length ranges) MAX_SHARE_RANGES).
  - rewrite !Nat.min_l by lia. by rewrite !firstn_all2 by lia.
  - rewrite !Nat.min_r by lia. by rewrite ?Nat.min_id by lia.
Qed.

Lemma record_share_walks checks st snd rcv ranges total lend o st' : walks_ok checks st ->
  walk_overflows checks ranges = false -> record_share st snd rcv ranges total lend = (o, st') -> walks_ok checks st'.
Proof.
  unfold walks_ok, record_share, alloc_handle. cbn [ss_records ss_next_handle]. intros H Hr.
  destruct (update_first _ _ _) as [rs|] eqn:Eu; intros [= <- <-]; [|done].
  apply update_first_Some in Eu as (l1 & x & l2 & E & -> & _). rewrite E in H. cbn [ss_records].
  rewrite Forall_app, Forall_cons in *. destruct H as (H1 & _ & H2). split_and!; [done| |done].
  pose proof (info_ranges_stored (ss_next_handle st) snd rcv ranges total lend) as Ei.
  unfold new_share in Ei. rewrite Ei. by apply walk_firstn.
Qed.

Lemma update_store_walks checks st P f b st' : walks_ok checks st ->
  (forall i, info_ranges (f i) = info_ranges i) -> update_store st P f = (b, st') -> walks_ok checks st'.
Proof.
  unfold walks_ok, update_store. intros H Hf. destruct (update_first P f (ss_records st)) as [rs|] eqn:Eu; intros [= <- <-]; [|done].
  apply update_first_Some in Eu as (l1 & x & l2 & E & -> & _). rewrite E in H. cbn [ss_records].
  rewrite Forall_app, Forall_cons in *. by rewrite Hf.
Qed.

(** The ranges of a share found by its handle. *)
Lemma lookup_walk checks st h info : walks_ok checks st -> lookup_share_full st h = Some info ->
  walk_overflows checks (info_ranges info) = false.
Proof. intros H Hl. apply find_some in Hl as [Hin _]. unfold walks_ok in H. rewrite List.Forall_forall in H. by apply H. Qed.

Lemma share_or_lend_spec checks start l0 own others s lend s' r :
  ffa_ctx checks start l0 own others s -> ss_next_handle (fs_store s) + 1 < 2 ^ 64 ->
  handle_mem_share_or_lend checks lend s = (s', r) ->
  ctx_step checks start l0 own others s s' /\ share_outcome checks l0 lend s s' r.
Proof.
  intros Hc Hn. destruct (ctx_mailbox _ _ _ _ _ _ Hc) as (mb & Hmb & Hgm).
  unfold handle_mem_share_or_lend, sm_bind, current_vm_id, get_regs, get_mem, sm_get.
  cbv beta iota. rewrite Hgm. cbv beta iota zeta.
  assert (Hfail : forall code, (err_state s code, Ok true : result bool string) = (s', r) ->
    ctx_step checks start l0 own others s s' /\ share_outcome checks l0 lend s s' r).
  { intros code [= <- <-]. split; [by apply ctx_step_err|]. right; left. auto. }
  destruct (share_request _ _ mb) as [[[[snd rcv] ranges] total]|code] eqn:Er; [|apply Hfail].
  destruct (is_valid_receiver rcv) eqn:Ev; cbn [negb]; [|apply Hfail].
  destruct (negb (snd =? 0) && _); [apply Hfail|].
  rewrite (ctx_has_stage2 _ _ _ _ _ _ Hc), (fc_vttbr _ _ _ _ _ _ Hc). cbn [andb].
  destruct (validate_pages _ _ _) as [[]|code] eqn:Eva; [|apply Hfail].
  unfold overflow_check. destruct (walk_overflows checks ranges) eqn:Ewk; cbn [sm_err].
  { intros [= <- <-]. split; [exists own; split_and!; [apply incl_refl|done|done|cbn; lia|done]|].
    right; right. split_and!; [done|done|]. by exists ranges, mb, snd, rcv, total. }
  unfold sm_ret at 1. unfold lift_s2, record_share_m. rewrite transition_run.
  pose proof (validate_ok _ _ _ Eva) as Hown.
  assert (Hmap : Forall (fun p => s2_lookup (hm_mem (fs_mach s)) l0 p <> None) (pages_of checks ranges)).
  { eapply Forall_impl; [exact Hown|]. intros p (d & -> & _). done. }
  pose proof (share_ops_effect start l0 others (ownership_bits SharedOwned) (share_s2ap lend) _ _ _ (fc_inv _ _ _ _ _ _ Hc) Hmap) as [_ Hpages].
  destruct (run_ops (mkWalker l0) _ (fs_mach s)) as [h1 rs] eqn:Erun. cbn [fst fs_store with_mach] in *.
  destruct (run_ops_effect _ _ _ _ _ _ _ _ (fc_inv _ _ _ _ _ _ Hc) (share_ops_ok _ _ _) Erun)
    as (own1 & Hi1 & Hin1 & Hx1 & _).
  destruct (record_share _ _ _ _ _ _) as [o st'] eqn:Ers.
  pose proof (record_share_walks _ _ _ _ _ _ _ _ _ (fc_walks _ _ _ _ _ _ Hc) Ewk Ers) as Hwk.
  destruct (record_share_spec _ _ _ _ _ _ _ _ (fc_store _ _ _ _ _ _ Hc) Hn Ers) as (Hst & Hnx & Ho).
  destruct o as [h|]; unfold upd_regs, sm_upd, sm_ret; intros [= <- <-].
  - destruct Ho as (-> & Hl & _ & Hoth). split.
    { exists own1. split_and!; [done| |done|cbn; lia|done]. destruct Hc. by constructor. }
    left. split_and!; [done|done|]. exists ranges, mb, snd, rcv, total. split_and!; [done|done|]. by constructor.
  - split.
    { exists own1. split_and!; [done| |done|cbn; lia|done]. destruct Hc. by constructor. }
    right; left. split_and!; [done|done|]. by left.
Qed.

(** ** Reclaim *)
Lemma reclaim_spec checks start l0 own others s s' r :
  ffa_ctx checks start l0 own others s ->
  handle_mem_reclaim checks s = (s', r) ->
  let h := handle_of (fs_regs s) in
  r = Ok true /\
  ctx_step checks start l0 own others s s' /\
  match lookup_share_full (fs_store s) h with
  | None => s' = err_state s FFA_INVALID_PARAMETERS
  | Some info =>
      if sr_retrieved info then s' = err_state s FFA_DENIED else
      rx0 (fs_regs s') = FFA_SUCCESS_32 /\
      fs_mach s' = (run_ops (mkWalker l0) (share_ops 0 3 (pages_of checks (info_ranges info))) (fs_mach s)).1 /\
      lookup_share_full (fs_store s') h = None /\
      (forall h', h' <> h -> lookup_share_full (fs_store s') h' = lookup_share_full (fs_store s) h')
  end.
Proof.
  intros Hc. unfold handle_mem_reclaim, sm_bind, get_regs, lookup_share_m, sm_get. cbv beta iota zeta.
  set (h := handle_of (fs_regs s)).
  assert (Hfail : forall code, ctx_step checks start l0 own others s (err_state s code)).
  { intros code. by apply ctx_step_err. }
  destruct (lookup_share_full (fs_store s) h) as [info|] eqn:El; [|rewrite fail_with_eq; intros [= <- <-]; auto].
  destruct (sr_retrieved info); [rewrite fail_with_eq; intros [= <- <-]; auto|].
  rewrite (ctx_has_stage2 _ _ _ _ _ _ Hc), (fc_vttbr _ _ _ _ _ _ Hc).
  unfold lift_s2, upd_store, succeed, sm_bind. rewrite transition_run.
  rewrite (lookup_walk _ _ _ _ (fc_walks _ _ _ _ _ _ Hc) El). cbn [andb overflow_check sm_ret].
  change (u8 (Z.shiftr S2AP_RW S2AP_SHIFT)) with 3. change (ownership_bits Owned) with 0.
  destruct (run_ops (mkWalker l0) _ (fs_mach s)) as [h1 rs] eqn:Erun. cbn [fst fs_store with_mach].
  destruct (run_ops_effect _ _ _ _ _ _ _ _ (fc_inv _ _ _ _ _ _ Hc) (share_ops_ok _ _ _) Erun)
    as (own1 & Hi1 & Hin1 & Hx1 & _).
  destruct (reclaim_share (fs_store s) h) as [b st'] eqn:Erc.
  assert (Hwk : walks_ok checks st') by (eapply update_store_walks; [apply Hc| |exact Erc]; done).
  apply (update_store_spec _ _ _ h) in Erc as (Hst & Hnx & Hoth & Hb0 & Hb1);
    [|apply (fc_store _ _ _ _ _ _ Hc)|done|done].
  destruct b; cycle 1.
  { exfalso. destruct (Hb0 eq_refl) as [_ Hno]. unfold lookup_share_full in El.
    apply find_some in El as [Hin Hh]. rewrite Hno in Hh; done. }
  destruct (Hb1 eq_refl) as (r1 & _ & _ & Hnone).
  unfold upd_regs, sm_upd, sm_ret. intros [= <- <-]. cbn [fs_regs fs_mach fs_store with_regs with_store with_mach].
  split_and!; [done| |done|done|exact Hnone|done].
  exists own1. split_and!; [done| |done|cbn; lia|done]. destruct Hc. by constructor.
Qed.

(** ** Addresses of one page have one descriptor *)
Lemma prefix4_testbit x j : 0 <= j -> Z.testbit (prefix 4 x) j = (j <? 36) && Z.testbit x (j + 12).
Proof.
  intros Hj. unfold prefix. change (48 - 9 * Z.of_nat 4) with 12.
  change (x mod 2 ^ 48) with (wrap 48 x). rewrite <- Z.shiftr_div_pow2 by lia.
  autorewrite with bits. zdec; done.
Qed.

Lemma leaf_desc_same_page k e ipa ipa' : (1 <= k <= 3)%nat -> same_page ipa ipa' ->
  leaf_desc k e ipa = leaf_desc k e ipa'.
Proof.
  intros Hk Hp. unfold leaf_desc. f_equal. f_equal.
  assert (Hs : 12 <= 39 - 9 * Z.of_nat k <= 30) by lia. set (sh := 39 - 9 * Z.of_nat k) in *.
  bit_ext i Hi. destruct (Z.leb_spec 12 i); cbn [andb]; [|by rewrite !andb_false_r].
  destruct (Z.ltb_spec i (12 + (sh - 12))); [|by rewrite !andb_false_r]. rewrite !andb_true_r.
  apply (f_equal (fun z => Z.testbit z (i - 12))) in Hp. rewrite !prefix4_testbit in Hp by lia.
  replace (i - 12 + 12) with i in Hp by lia. destruct (Z.ltb_spec (i - 12) 36); [exact Hp|lia].
Qed.

Lemma entry_same_page m l0 k ipa ipa' : (k <= 3)%nat -> same_page ipa ipa' ->
  entry_at k m l0 ipa = entry_at k m l0 ipa'.
Proof.
  intros Hk Hp. unfold entry_at.
  assert (Hs : prefix (S k) ipa = prefix (S k) ipa') by (eapply prefix_down; [|exact Hp]; lia).
  apply prefix_same in Hs as [Hs Hi]; [|done]. by rewrite (tbl_prefix m l0 k ipa ipa'), Hi by done.
Qed.

Lemma lookup_same_page m l0 ipa ipa' : same_page ipa ipa' -> s2_lookup m l0 ipa = s2_lookup m l0 ipa'.
Proof.
  intros Hp. unfold s2_lookup, leaf_or. rewrite !(entry_same_page m l0 _ ipa ipa') by (lia || done).
  repeat case_match; try done; by rewrite (leaf_desc_same_page _ _ ipa ipa') by (lia || done).
Qed.

Lemma on_pages_in pages ipa : on_pages pages ipa = true <-> exists p, In p pages /\ same_page ipa p.
Proof.
  unfold on_pages. rewrite existsb_exists. split; intros (p & Hp & H); exists p; split; auto.
  - by apply bool_decide_eq_true in H.
  - by apply bool_decide_eq_true.
Qed.

(** ** Retrieve and relinquish *)
Lemma on_pages_app l1 l2 ipa : on_pages (l1 ++ l2) ipa = on_pages l1 ipa || on_pages l2 ipa.
Proof. apply existsb_app. Qed.

Lemma unmap_pages_effect start l0 others pages : forall s own,
  s2_inv start s l0 own others -> Forall (fun p => tbl 3 (hm_mem s) l0 p <> None) pages ->
  s2_effect start s (run_ops (mkWalker l0) (map OpUnmapPage pages) s).1 l0 own others
    (fun ipa => if on_pages pages ipa then None else s2_lookup (hm_mem s) l0 ipa).
Proof.
  induction pages as [|p ps IH]; intros s own Hi Hm; [by apply s2_effect_refl|].
  inversion Hm as [|? ? Hp Hps]; subst. cbn [map run_ops run_op].
  destruct (unmap_page (mkWalker l0) p s) as [s1 r] eqn:E. pose proof E as E'.
  apply (unmap_page_spec _ _ _ _ _ _ _ _ Hi) in E'.
  assert (H1 : s2_effect start s s1 l0 own others (on_page p (fun _ => None) (s2_lookup (hm_mem s) l0)) /\
               l3_keep (hm_mem s) (hm_mem s1) l0).
  { destruct r as [u|e]; [tauto|]. destruct E' as [-> Hnone]. split; [|by intros ? ?].
    eapply s2_effect_ext; [|by apply s2_effect_refl]. intros ipa. unfold on_page. case_decide as Hs; [|done].
    destruct (tbl 3 (hm_mem s) l0 p) as [t|]; [|done]. rewrite (lookup_same_page _ _ ipa p Hs). by eapply Hnone. }
  destruct H1 as [He Hk]. specialize (IH s1).
  destruct (run_ops (mkWalker l0) (map OpUnmapPage ps) s1) as [s2 rs] eqn:E2. cbn [fst] in IH |- *.
  eapply s2_effect_bind; [exact He|]. intros own1 Hi1 Hl1.
  eapply s2_effect_ext; [|apply (IH own1 Hi1)].
  - intros ipa. cbn [on_pages existsb]. rewrite Hl1. unfold on_page. rewrite decide_bool_decide.
    fold (on_pages ps ipa). destruct (bool_decide _), (on_pages ps ipa); done.
  - eapply Forall_impl; [exact Hps|]. intros q Hq. by apply Hk.
Qed.

(** The pages mapped so far by the retrieve loop. *)
Record retrieve_inv (m : mem) (l0 ap sw : Z) (look0 : Z -> option pdesc) (mapped : list Z) : Prop := {
  ri_same x y : same_page x y -> look0 x = look0 y;
  ri_out ipa : on_pages mapped ipa = false -> s2_lookup m l0 ipa = look0 ipa;
  ri_in p : In p mapped -> look0 p = None /\
    s2_lookup m l0 p = Some (leaf_desc 3 (page_descriptor p ap sw) p) /\ tbl 3 m l0 p <> None;
}.

Lemma retrieve_inv_step start s s1 l0 own others ap sw look0 mapped ipa :
  s2_inv start s l0 own others -> fits 64 ipa -> retrieve_inv (hm_mem s) l0 ap sw look0 mapped ->
  map_page (mkWalker l0) ipa ap sw s = (s1, Ok tt) ->
  retrieve_inv (hm_mem s1) l0 ap sw look0 (mapped ++ [ipa]).
Proof.
  intros Hi Hf [Hsame Ho Hin] H. apply (map_page_spec _ _ _ _ _ _ _ _ _ _ Hi Hf) in H.
  destruct H as (Hnone & H3 & Hk & He). destruct (s2_effect_split _ _ _ _ _ _ _ He) as (own1 & _ & Hl).
  assert (Hno : on_pages mapped ipa = false).
  { destruct (on_pages mapped ipa) eqn:E; [|done]. apply on_pages_in in E as (q & Hq & Hs).
    destruct (Hin q Hq) as (_ & Hq' & _). rewrite (lookup_same_page _ _ ipa q Hs), Hq' in Hnone. done. }
  constructor; [exact Hsame| |].
  - intros x Hx. rewrite on_pages_app in Hx. apply orb_false_iff in Hx as [Hx1 Hx2]. rewrite Hl. unfold on_page.
    cbn [on_pages existsb] in Hx2. rewrite orb_false_r in Hx2. rewrite decide_bool_decide, Hx2. auto.
  - intros q Hq. apply in_app_or in Hq as [Hq|[<-|[]]].
    + destruct (Hin q Hq) as (H1 & H2 & H4). split_and!; [done| |by apply Hk].
      rewrite Hl. unfold on_page. case_decide as Hs; [|done]. exfalso.
      assert (Ht : on_pages mapped ipa = true) by (apply on_pages_in; exists q; split; [done|by symmetry]). congruence.
    + split_and!; [rewrite <- Ho; done| |done]. rewrite Hl. unfold on_page. by rewrite decide_True by done.
Qed.

Lemma retrieve_pages_spec start l0 others ap sw look0 pages : forall s own mapped s' r,
  s2_inv start s l0 own others -> Forall (fits 64) pages -> retrieve_inv (hm_mem s) l0 ap sw look0 mapped ->
  retrieve_pages (mkWalker l0) ap sw mapped pages s = (s', r) ->
  s2_effect start s s' l0 own others (s2_lookup (hm_mem s') l0) /\
  ((r = Ok true /\ retrieve_inv (hm_mem s') l0 ap sw look0 (mapped ++ pages)) \/
   (r = Ok false /\ forall ipa, s2_lookup (hm_mem s') l0 ipa = look0 ipa)).
Proof.
  induction pages as [|p ps IH]; intros s own mapped s' r Hi Hf Hr H; cbn [retrieve_pages] in H.
  - unfold sm_ret in H. inversion H; subst. split; [by apply s2_effect_refl|]. left. by rewrite app_nil_r.
  - inversion Hf as [|? ? Hp Hps]; subst. destruct (map_page (mkWalker l0) p ap sw s) as [s1 [[]|e]] eqn:E.
    + pose proof (retrieve_inv_step _ _ _ _ _ _ _ _ _ _ _ Hi Hp Hr E) as Hr1.
      apply (map_page_spec _ _ _ _ _ _ _ _ _ _ Hi Hp) in E as (_ & _ & _ & He).
      destruct (s2_effect_split _ _ _ _ _ _ _ He) as (own1 & Hi1 & _).
      destruct (IH s1 own1 _ s' r Hi1 Hps Hr1 H) as [_ Hres]. rewrite <- app_assoc in Hres.
      split; [|exact Hres]. eapply s2_effect_bind; [exact He|]. intros own1' Hi1' _.
      by destruct (IH s1 own1' _ s' r Hi1' Hps Hr1 H).
    + apply (map_page_spec _ _ _ _ _ _ _ _ _ _ Hi Hp) in E as (He & Hk & _).
      unfold sm_bind, sm_ret in H. rewrite unmap_run in H. inversion H; subst s' r; clear H.
      destruct (s2_effect_split _ _ _ _ _ _ _ He) as (own1 & Hi1 & Hl1).
      assert (Hm : Forall (fun p => tbl 3 (hm_mem s1) l0 p <> None) mapped).
      { apply List.Forall_forall. intros q Hq. by apply Hk, (ri_in _ _ _ _ _ _ Hr q Hq). }
      pose proof (fun own1 Hi1 => unmap_pages_effect start l0 others mapped s1 own1 Hi1 Hm) as Hu.
      split.
      * eapply s2_effect_bind; [exact He|]. intros own1' Hi1' _.
        eapply s2_effect_ext; [|exact (Hu own1' Hi1')]. intros ipa.
        destruct (s2_effect_split _ _ _ _ _ _ _ (Hu own1' Hi1')) as (_ & _ & Hlu). by rewrite Hlu.
      * right. split; [done|]. intros ipa.
        destruct (s2_effect_split _ _ _ _ _ _ _ (Hu own1 Hi1)) as (_ & _ & Hlu). rewrite Hlu, Hl1.
        destruct (on_pages mapped ipa) eqn:E; [|by apply (ri_out _ _ _ _ _ _ Hr)].
        apply on_pages_in in E as (q & Hq & Hs). rewrite (ri_same _ _ _ _ _ _ Hr ipa q Hs).
        symmetry. apply (ri_in _ _ _ _ _ _ Hr q Hq).
Qed.

(** In the context of a call the receiver's tables are those of the caller. *)
Lemma ctx_receiver checks start l0 own others s info : ffa_ctx checks start l0 own others s ->
  vm_id_to_partition_id (fs_vm s) = sr_receiver_id info ->
  partition_id_to_vm_id (sr_receiver_id info) = Some (fs_vm s) /\
  exists v, per_vm_vttbr (fs_vm s) s = (s, Ok v) /\ (v = 0 \/ v = l0 /\ l0 <> 0).
Proof.
  intros Hc <-. pose proof (fc_vm _ _ _ _ _ _ Hc) as Hv. pose proof (fc_per_vm _ _ _ _ _ _ Hc).
  unfold vm_id_to_partition_id. assert (Hu : u16 (fs_vm s + 1) = fs_vm s + 1) by (apply wrap_id; unfold fits; lia).
  rewrite Hu. split.
  { unfold partition_id_to_vm_id, FFA_MAX_VMS. zdec. f_equal. lia. }
  destruct (lookup_lt_is_Some_2 (fs_per_vm_vttbr s) (Z.to_nat (fs_vm s))) as [v Hlv]; [lia|].
  exists v. unfold per_vm_vttbr. rewrite Hlv. split; [done|].
  destruct (wf_table _ _ _ (si_wf _ _ _ _ _ (fc_inv _ _ _ _ _ _ Hc)) 0%nat 0 l0 ltac:(lia) eq_refl) as (_ & ? & _).
  destruct (fc_own_vttbr _ _ _ _ _ _ Hc v Hlv) as [->| ->]; [by left|right; split; [done|lia]].
Qed.

Definition retrieved_pages (checks : bool) (s s' : ffa_state) (l0 : Z) (info : MemShareRecord) : Prop :=
  retrieve_inv (hm_mem (fs_mach s')) l0 3 2 (s2_lookup (hm_mem (fs_mach s)) l0) (pages_of checks (info_ranges info)).

Lemma retrieve_map_spec checks start l0 own others s info s' r :
  ffa_ctx checks start l0 own others s -> vm_id_to_partition_id (fs_vm s) = sr_receiver_id info ->
  walk_overflows checks (info_ranges info) = false -> retrieve_map checks info s = (s', r) ->
  exists own', incl own own' /\ s2_inv start (fs_mach s') l0 own' others /\ s' = with_mach s (fs_mach s') /\
  (forall x, outside own' x -> hm_mem (fs_mach s') x = hm_mem (fs_mach s) x) /\
  ((r = Ok true /\ (fs_per_vm_vttbr s !! Z.to_nat (fs_vm s) = Some 0 /\ s' = s \/
       fs_per_vm_vttbr s !! Z.to_nat (fs_vm s) <> Some 0 /\ retrieved_pages checks s s' l0 info)) \/
   (r = Ok false /\ forall ipa, s2_lookup (hm_mem (fs_mach s')) l0 ipa = s2_lookup (hm_mem (fs_mach s)) l0 ipa)).
Proof.
  intros Hc Hr Hwk. destruct (ctx_receiver _ _ _ _ _ _ _ Hc Hr) as (Hp & v & Hv & Hvc).
  unfold retrieve_map. rewrite Hp. unfold sm_bind. rewrite Hv. destruct Hvc as [->|[-> Hne]].
  - cbn [Z.eqb]. unfold sm_ret. intros [= <- <-]. exists own. split_and!; [apply incl_refl|apply Hc|by destruct s|done|].
    left. split; [done|]. left. split; [|done]. unfold per_vm_vttbr in Hv. by destruct (_ !! _); simplify_eq.
  - destruct (Z.eqb_spec l0 0); [done|]. unfold lift_s2.
    change (u8 (Z.shiftr S2AP_RW S2AP_SHIFT)) with 3. change (ownership_bits SharedBorrowed) with 2.
    destruct (retrieve_pages _ _ _ _ _ (fs_mach s)) as [h1 r1] eqn:E. rewrite Hwk. cbn [overflow_check sm_ret].
    assert (H0 : retrieve_inv (hm_mem (fs_mach s)) l0 3 2 (s2_lookup (hm_mem (fs_mach s)) l0) [])
      by (constructor; [intros; by apply lookup_same_page|done|done]).
    destruct (retrieve_pages_spec start l0 others 3 2 _ _ _ _ _ _ _ (fc_inv _ _ _ _ _ _ Hc)
      (pages_of_fits _ _) H0 E) as [(own' & Hi' & Hin & Hx & _) Hres].
    assert (Hlook : fs_per_vm_vttbr s !! Z.to_nat (fs_vm s) <> Some 0)
      by (unfold per_vm_vttbr in Hv; destruct (_ !! _); simplify_eq; congruence).
    destruct Hres as [[-> Hri]|[-> Hl]]; intros [= <- <-]; exists own'; split_and!; try done; [left|right]; split; auto.
Qed.

Lemma ctx_update checks start l0 own others own' s h st regs : ffa_ctx checks start l0 own others s ->
  s2_inv start h l0 own' others -> store_inv st -> walks_ok checks st ->
  ffa_ctx checks start l0 own' others (with_regs (with_store (with_mach s h) st) regs).
Proof. intros [] ? ? ?. by constructor. Qed.

Lemma retrieve_spec checks start l0 own others s s' r :
  ffa_ctx checks start l0 own others s ->
  handle_mem_retrieve_req checks s = (s', r) ->
  let h := handle_of (fs_regs s) in
  r = Ok true /\
  ctx_step checks start l0 own others s s' /\
  ((rx0 (fs_regs s') = FFA_MEM_RETRIEVE_RESP /\ exists info,
      lookup_share_full (fs_store s) h = Some info /\
      sr_receiver_id info = vm_id_to_partition_id (fs_vm s) /\ sr_retrieved info = false /\
      lookup_share_full (fs_store s') h = Some (set_retrieved true info) /\
      (fs_per_vm_vttbr s !! Z.to_nat (fs_vm s) = Some 0 /\ fs_mach s' = fs_mach s \/
       fs_per_vm_vttbr s !! Z.to_nat (fs_vm s) <> Some 0 /\ retrieved_pages checks s s' l0 info)) \/
   (rx0 (fs_regs s') = FFA_ERROR /\ fs_store s' = fs_store s /\
    forall ipa, s2_lookup (hm_mem (fs_mach s')) l0 ipa = s2_lookup (hm_mem (fs_mach s)) l0 ipa)).
Proof.
  intros Hc. unfold handle_mem_retrieve_req, sm_bind, get_regs, lookup_share_m, current_vm_id. cbv beta iota zeta.
  set (h := handle_of (fs_regs s)).
  assert (Hfail : forall code, ctx_step checks start l0 own others s (err_state s code))
    by (intros code; by apply ctx_step_err).
  destruct (lookup_share_full (fs_store s) h) as [info|] eqn:El; [|rewrite fail_with_eq; intros [= <- <-]; auto 10].
  destruct (Z.eqb_spec (vm_id_to_partition_id (fs_vm s)) (sr_receiver_id info)) as [Er|]; cbn [negb];
    [|rewrite fail_with_eq; intros [= <- <-]; auto 10].
  destruct (sr_retrieved info) eqn:Eret; [rewrite fail_with_eq; intros [= <- <-]; auto 10|].
  destruct (retrieve_map checks info s) as [s1 r1] eqn:Em.
  destruct (retrieve_map_spec _ _ _ _ _ _ _ _ _ Hc Er (lookup_walk _ _ _ _ (fc_walks _ _ _ _ _ _ Hc) El) Em) as (own1 & Hin1 & Hi1 & Es1 & Hx1 & Hres).
  destruct Hres as [[-> Hpg]|[-> Hl]]; cbn [negb].
  - unfold upd_store. destruct (mark_retrieved (fs_store s1) h) as [b st'] eqn:Emk.
    assert (Hst : fs_store s1 = fs_store s) by (rewrite Es1; done). rewrite Hst in Emk.
    assert (Hwk : walks_ok checks st') by (eapply update_store_walks; [apply Hc| |exact Emk]; done).
    apply (update_store_spec _ _ _ h) in Emk as (Hst' & Hnx & _ & Hb0 & Hb1);
      [|apply (fc_store _ _ _ _ _ _ Hc)|intros q Hq; by apply andb_true_iff in Hq as [? _]|done].
    destruct b; cycle 1.
    { exfalso. destruct (Hb0 eq_refl) as [_ Hno]. unfold lookup_share_full in El. apply find_some in El as [Hin Hh].
      specialize (Hno info Hin). by rewrite Hh, Eret in Hno. }
    destruct (Hb1 eq_refl) as (r1 & Hr1 & _ & Hl'). rewrite El in Hr1. simplify_eq.
    assert (Ha : sr_active r1 = true) by (unfold lookup_share_full in El; apply find_some in El as [_ Hh];
      by apply has_handle_true in Hh as [? _]).
    cbn [sr_active set_retrieved] in Hl'. rewrite Ha in Hl'.
    unfold upd_regs, sm_upd, sm_ret. intros [= <- <-]. split; [done|].
    cbn [fs_regs fs_mach fs_store with_regs with_store with_mach]. split.
    { exists own1. rewrite Es1 in *. split_and!; [done|by apply (ctx_update checks start l0 own)|done|cbn; lia|done]. }
    left. split; [done|]. exists r1. split_and!; auto. destruct Hpg as [[? ->]|?]; auto.
  - rewrite fail_with_eq. intros [= <- <-]. split; [done|]. split.
    { exists own1. split_and!; [done| |by rewrite Es1|rewrite Es1; cbn; lia|done].
      rewrite Es1. apply (ctx_update checks start l0 own others own1 s _ (fs_store s)); [done|done|apply Hc|apply Hc]. }
    right. cbn. split_and!; [done|by rewrite Es1|done].
Qed.

Lemma relinquish_spec checks start l0 own others s s' r info :
  ffa_ctx checks start l0 own others s -> lookup_share_full (fs_store s) (handle_of (fs_regs s)) = Some info ->
  sr_receiver_id info = vm_id_to_partition_id (fs_vm s) -> sr_retrieved info = true ->
  handle_mem_relinquish checks s = (s', r) ->
  r = Ok true /\ ctx_step checks start l0 own others s s' /\ rx0 (fs_regs s') = FFA_SUCCESS_32 /\
  lookup_share_full (fs_store s') (handle_of (fs_regs s)) = Some (set_retrieved false info) /\
  fs_mach s' = if decide (fs_per_vm_vttbr s !! Z.to_nat (fs_vm s) = Some 0) then fs_mach s
    else (run_ops (mkWalker l0) (map OpUnmapPage (pages_of checks (info_ranges info))) (fs_mach s)).1.
Proof.
  intros Hc El Er Eret. destruct (ctx_receiver _ _ _ _ _ _ info Hc ltac:(done)) as (Hp & v & Hv & Hvc).
  unfold handle_mem_relinquish, relinquish_unmap, sm_bind, get_regs, lookup_share_m, current_vm_id. cbv beta iota zeta.
  rewrite El, Hp, Er, Z.eqb_refl, Eret. cbn [negb].
  assert (Hstore : forall s1, fs_store s1 = fs_store s -> exists st',
    upd_store (fun st => mark_relinquished st (handle_of (fs_regs s))) s1 = (with_store s1 st', Ok true) /\ (store_inv st' /\ walks_ok checks st' /\ ss_next_handle st' = ss_next_handle (fs_store s)) /\
    lookup_share_full st' (handle_of (fs_regs s)) = Some (set_retrieved false info)).
  { intros s1 Hs1. unfold upd_store. rewrite Hs1.
    destruct (mark_relinquished (fs_store s) _) as [b st'] eqn:Emk.
    assert (Hwk : walks_ok checks st') by (eapply update_store_walks; [apply Hc| |exact Emk]; done).
    apply (update_store_spec _ _ _ (handle_of (fs_regs s))) in Emk as (Hst & Hnx & _ & Hb0 & Hb1);
      [|apply (fc_store _ _ _ _ _ _ Hc)|intros q Hq; by apply andb_true_iff in Hq as [? _]|done].
    destruct b; cycle 1.
    { exfalso. destruct (Hb0 eq_refl) as [_ Hno]. unfold lookup_share_full in El. apply find_some in El as [Hin Hh].
      specialize (Hno info Hin). by rewrite Hh, Eret in Hno. }
    exists st'. split; [done|]. split; [done|]. destruct (Hb1 eq_refl) as (r1 & Hr1 & _ & Hl'). rewrite El in Hr1. simplify_eq.
    cbn [sr_active set_retrieved] in Hl'. rewrite Hl'. unfold lookup_share_full in El.
    apply find_some in El as [_ Hh]. apply has_handle_true in Hh as [-> _]. done. }
  assert (Hlook : fs_per_vm_vttbr s !! Z.to_nat (fs_vm s) = Some v)
    by (unfold per_vm_vttbr in Hv; destruct (_ !! _); by simplify_eq).
  rewrite Hv. destruct Hvc as [->|[-> Hne]].
  - cbn [Z.eqb]. unfold sm_ret at 1. destruct (Hstore s eq_refl) as (st' & -> & (Hst & Hwk & Hnx) & Hl).
    unfold succeed, sm_bind, upd_regs, sm_upd, sm_ret. intros [= <- <-].
    rewrite decide_True by done. split_and!; try done.
    exists own. split_and!; [apply incl_refl| |done|cbn; lia|done]. destruct Hc. by constructor.
  - destruct (Z.eqb_spec l0 0); [done|]. unfold lift_s2. rewrite unmap_run.
    rewrite (lookup_walk _ _ _ _ (fc_walks _ _ _ _ _ _ Hc) El). cbn [overflow_check]. unfold sm_ret at 1.
    destruct (Hstore (with_mach s (run_ops (new l0) (map OpUnmapPage (pages_of checks (info_ranges info))) (fs_mach s)).1) eq_refl)
      as (st' & -> & (Hst & Hwk & Hnx) & Hl).
    unfold succeed, sm_bind, upd_regs, sm_upd, sm_ret. intros [= <- <-].
    rewrite decide_False by (rewrite Hlook; congruence). split_and!; try done.
    destruct (run_ops (new l0) (map OpUnmapPage (pages_of checks (info_ranges info))) (fs_mach s)) as [h2 rs] eqn:Erun.
    destruct (run_ops_effect _ _ _ _ _ _ _ _ (fc_inv _ _ _ _ _ _ Hc) (unmap_ops_ok _) Erun)
      as (own1 & Hi1 & Hin1 & Hx1 & _).
    exists own1. split_and!; [done|by apply (ctx_update checks start l0 own)|done|cbn; lia|done].
Qed.

(** ** Claims *)

(** C21. FFA_MEM_SHARE / FFA_MEM_LEND ends in one of three ways.  SUCCESS: every page
    of every range was mapped and owned by the caller; each named page is now
    SharedOwned with read-only (lend: no) access, except that a page inside a 2MB
    block which the exhausted heap cannot split keeps the descriptor it had; every
    other address of the caller translates as before; the share is recorded under
    the returned handle, and every other handle keeps its record.  An error: unless
    it is NO_MEMORY, machine and records are as they were.  The overflow panic, only
    in a build with overflow checks and only when a range runs past 2^64: nothing
    has changed. *)
Theorem share_lend_exact checks start l0 own others s lend s' r :
  ffa_ctx checks start l0 own others s -> ss_next_handle (fs_store s) + 1 < 2 ^ 64 ->
  handle_mem_share_or_lend checks lend s = (s', r) -> share_outcome checks l0 lend s s' r.
Proof. intros Hc Hn H. by destruct (share_or_lend_spec _ _ _ _ _ _ _ _ _ Hc Hn H). Qed.

(** Undoing the update of a page restores it, also where the heap was exhausted. *)
Lemma page_moved_back sw ap l0 s s1 s2 ipa d : s2_lookup (hm_mem s) l0 ipa = Some d -> fits 64 (pd_attr d) ->
  pd_sw d = 0 -> pd_s2ap d = 3 -> page_moved sw ap l0 s s1 ipa -> page_moved 0 3 l0 s1 s2 ipa ->
  s2_lookup (hm_mem s2) l0 ipa = Some d.
Proof.
  intros Hd Hf Hsw Hap H1 H2. assert (Hid : share_upd 0 3 d = d) by (rewrite <- Hsw, <- Hap; by apply share_upd_id).
  unfold page_moved in *. rewrite Hd in H1. destruct H1 as [[H1 H3]|[H1 _]]; rewrite H1 in H2; destruct H2 as [[-> _]|(-> & _ & Hn)]; cbn.
  - by rewrite share_upd_twice, Hid.
  - done.
  - by rewrite Hid.
  - done.
Qed.

(** C22. Reclaiming undoes sharing and lending: after a successful share or lend of at
    most four ranges, all of whose pages were read-write before, FFA_MEM_RECLAIM with
    the returned handle answers SUCCESS, frees the handle, and every address
    translates to the same page with the same attributes as before the share, also
    when the heap was exhausted on the way. *)
Theorem share_reclaim_round_trip checks start l0 own others s lend s1 regs s2 r2 mb snd rcv ranges total :
  ffa_ctx checks start l0 own others s -> ss_next_handle (fs_store s) + 1 < 2 ^ 64 ->
  handle_mem_share_or_lend checks lend s = (s1, Ok true) -> rx0 (fs_regs s1) = FFA_SUCCESS_32 ->
  fs_mbox s !! Z.to_nat (fs_vm s) = Some mb ->
  share_request (hm_mem (fs_mach s)) (fs_regs s) mb = Ok (snd, rcv, ranges, total) ->
  (length ranges <= MAX_SHARE_RANGES)%nat ->
  (forall p, In p (pages_of checks ranges) -> read_s2ap (hm_mem (fs_mach s)) (mkWalker l0) p = Some 3) ->
  handle_of regs = ss_next_handle (fs_store s) ->
  handle_mem_reclaim checks (with_regs s1 regs) = (s2, r2) ->
  r2 = Ok true /\ rx0 (fs_regs s2) = FFA_SUCCESS_32 /\
  lookup_share_full (fs_store s2) (handle_of regs) = None /\
  forall ipa, s2_lookup (hm_mem (fs_mach s2)) l0 ipa = s2_lookup (hm_mem (fs_mach s)) l0 ipa.
Proof.
  intros Hc Hn Hshare Hok Hmb Hreq Hlen Hrw Hregs Hrec.
  destruct (share_or_lend_spec _ _ _ _ _ _ _ _ _ Hc Hn Hshare) as [(own1 & _ & Hc1 & _) Hcase].
  destruct Hcase as [(_ & _ & ranges' & mb' & snd' & rcv' & total' & Hmb' & Hreq' & Hd)|[(_ & He & _)|(He & _)]];
    [|rewrite He in Hok; done|done].
  rewrite Hmb in Hmb'. simplify_eq. rewrite Hreq in Hreq'. simplify_eq.
  destruct Hd as [Hown _ Hpages Hrecd _ _ _].
  assert (Hc1' : ffa_ctx checks start l0 own1 others (with_regs s1 regs)) by (destruct Hc1; by constructor).
  destruct (reclaim_spec _ _ _ _ _ _ _ _ Hc1' Hrec) as (-> & _ & Hres).
  cbn [fs_regs fs_store with_regs] in Hres. rewrite Hregs, Hrecd in Hres. cbn [sr_retrieved new_share] in Hres.
  rewrite info_ranges_stored, firstn_all2 in Hres by done. destruct Hres as (Hx0 & Hm & Hl & _).
  rewrite Hregs. split_and!; [done|done|exact Hl|]. cbn [fs_mach with_regs] in Hm.
  assert (Hmap : Forall (fun p => s2_lookup (hm_mem (fs_mach s1)) l0 p <> None) (pages_of checks ranges')).
  { apply List.Forall_forall. intros p Hp. specialize (Hpages p). rewrite (proj2 (on_pages_in _ p)) in Hpages by (exists p; done).
    eapply page_moved_mapped; [exact Hpages|]. rewrite List.Forall_forall in Hown. by destruct (Hown p Hp) as (d & -> & _). }
  destruct (share_ops_effect start l0 others 0 3 _ _ _ (fc_inv _ _ _ _ _ _ Hc1) Hmap) as [_ Hback].
  rewrite <- Hm in Hback. intros ipa. specialize (Hpages ipa). specialize (Hback ipa).
  destruct (on_pages (pages_of checks ranges') ipa) eqn:Eon; [|by rewrite Hback].
  apply on_pages_in in Eon as (p & Hin & Hp). rewrite List.Forall_forall in Hown.
  destruct (Hown p Hin) as (d & Hd & Hsw). specialize (Hrw p Hin). rewrite read_s2ap_lookup, Hd in Hrw. injection Hrw as Hap.
  rewrite <- (lookup_same_page _ _ ipa p Hp) in Hd. rewrite Hd. eapply page_moved_back; try done. by eapply lookup_attr_fits.
Qed.

(** C23. FFA_MEM_RETRIEVE_REQ never panics; it succeeds only for the receiver named
    in an active, not yet retrieved share, when none of the pages is mapped in the
    receiver, and then maps exactly the pages of the share (a VM whose tables are not
    yet installed, with no VTTBR recorded, gets success and no mapping); on every error the
    receiver's page map and the share records are unchanged, also when the pages
    mapped before a failure had to be rolled back. *)
Theorem retrieve_all_or_nothing checks start l0 own others s s' r :
  ffa_ctx checks start l0 own others s ->
  handle_mem_retrieve_req checks s = (s', r) ->
  let h := handle_of (fs_regs s) in
  r = Ok true /\
  ((rx0 (fs_regs s') = FFA_MEM_RETRIEVE_RESP /\ exists info,
      lookup_share_full (fs_store s) h = Some info /\
      sr_receiver_id info = vm_id_to_partition_id (fs_vm s) /\ sr_retrieved info = false /\
      lookup_share_full (fs_store s') h = Some (set_retrieved true info) /\
      (fs_per_vm_vttbr s !! Z.to_nat (fs_vm s) = Some 0 /\ fs_mach s' = fs_mach s \/
       fs_per_vm_vttbr s !! Z.to_nat (fs_vm s) <> Some 0 /\ retrieved_pages checks s s' l0 info)) \/
   (rx0 (fs_regs s') = FFA_ERROR /\ fs_store s' = fs_store s /\
    forall ipa, s2_lookup (hm_mem (fs_mach s')) l0 ipa = s2_lookup (hm_mem (fs_mach s)) l0 ipa)).
Proof. intros Hc H. destruct (retrieve_spec _ _ _ _ _ _ _ _ Hc H) as (? & _ & ?). done. Qed.

(** Relinquishing a share just retrieved answers SUCCESS, gives the receiver
    the page map it had before the retrieve, and makes the share retrievable and
    reclaimable again. *)
Theorem retrieve_relinquish_round_trip checks start l0 own others s s1 r1 regs s2 r2 info :
  ffa_ctx checks start l0 own others s ->
  handle_mem_retrieve_req checks s = (s1, r1) -> rx0 (fs_regs s1) = FFA_MEM_RETRIEVE_RESP ->
  lookup_share_full (fs_store s) (handle_of (fs_regs s)) = Some info ->
  handle_of regs = handle_of (fs_regs s) ->
  handle_mem_relinquish checks (with_regs s1 regs) = (s2, r2) ->
  r2 = Ok true /\ rx0 (fs_regs s2) = FFA_SUCCESS_32 /\
  lookup_share_full (fs_store s2) (handle_of regs) = Some info /\
  forall ipa, s2_lookup (hm_mem (fs_mach s2)) l0 ipa = s2_lookup (hm_mem (fs_mach s)) l0 ipa.
Proof.
  intros Hc Hret Hok Hinfo Hregs Hrel.
  destruct (retrieve_spec _ _ _ _ _ _ _ _ Hc Hret) as (_ & (own1 & _ & Hc1 & _) & Hcase).
  destruct Hcase as [[_ (i & Hi & Hrcv & Hnr & Hl1 & Hpg)]|[He _]]; [|rewrite He in Hok; done].
  rewrite Hinfo in Hi. injection Hi as <-.
  assert (Hsame : fs_vm s1 = fs_vm s /\ fs_per_vm_vttbr s1 = fs_per_vm_vttbr s).
  { revert Hret. clear. unfold handle_mem_retrieve_req, sm_bind, get_regs, lookup_share_m, current_vm_id,
      retrieve_map, sm_bind, per_vm_vttbr, lift_s2, upd_store, fail_with, ffa_error, sm_bind, upd_regs, sm_upd, overflow_check, sm_ret, sm_err.
    repeat case_match; intros; simplify_eq; done. }
  destruct Hsame as [Hvm Hpv].
  assert (Hc1' : ffa_ctx checks start l0 own1 others (with_regs s1 regs)) by (destruct Hc1; by constructor).
  apply (relinquish_spec _ _ _ _ _ _ _ _ (set_retrieved true info) Hc1') in Hrel;
    [|by cbn; rewrite Hregs|by cbn; rewrite Hvm|done].
  destruct Hrel as (-> & _ & Hx0 & Hl2 & Hm). cbn [fs_regs with_regs] in Hl2. rewrite Hl2.
  split_and!; [done|done| |].
  { destruct info. simpl in *. by rewrite Hnr. }
  intros ipa. cbn [fs_per_vm_vttbr fs_vm fs_mach with_regs] in Hm. rewrite Hvm, Hpv in Hm.
  destruct Hpg as [[H0 Hm1]|Hpg]; [rewrite decide_True in Hm by done; by rewrite Hm, Hm1|].
  destruct Hpg as [Hne Hri]. rewrite decide_False in Hm by done.
  change (info_ranges (set_retrieved true info)) with (info_ranges info) in Hm.
  assert (Hm3 : Forall (fun p => tbl 3 (hm_mem (fs_mach s1)) l0 p <> None) (pages_of checks (info_ranges info)))
    by (apply List.Forall_forall; intros q Hq; apply (ri_in _ _ _ _ _ _ Hri q Hq)).
  destruct (s2_effect_split _ _ _ _ _ _ _ (unmap_pages_effect start l0 others _ _ _ (fc_inv _ _ _ _ _ _ Hc1) Hm3))
    as (_ & _ & Hlu). rewrite Hm, Hlu. destruct (on_pages _ ipa) eqn:E; [|by apply (ri_out _ _ _ _ _ _ Hri)].
  apply on_pages_in in E as (q & Hq & Hs). rewrite (lookup_same_page _ _ ipa q Hs). symmetry.
  apply (ri_in _ _ _ _ _ _ Hri q Hq).
Qed.

(** ** Concrete instances *)
Definition ex_store : spmc_store := (record_share SHARE_RECORDS_init 2 1 [(0x50000000, 2)] 2 false).2.
Definition ex_ffa (regs : GpRegs) : ffa_state :=
  mkFfa regs 0 ex_s MAILBOXES_init ex_store NOTIF_STATE_init false false
    (Mapper.new_with_vmid ex_l0 1).1 [ex_l0; ex_l0B].
(** two pages to VM 1; reclaim of handle 2; retrieve and relinquish of handle 1 *)
Definition ex_share_regs : GpRegs := mkRegs FFA_MEM_SHARE_32 0 0 0x40001000 2 2 0 0.
Definition ex_reclaim_regs : GpRegs := mkRegs FFA_MEM_RECLAIM 2 0 0 0 0 0 0.
Definition ex_retrieve_regs : GpRegs := mkRegs FFA_MEM_RETRIEVE_REQ_32 1 0 0 0 0 0 0.

Lemma ex_store_inv : store_inv ex_store.
Proof.
  destruct (record_share SHARE_RECORDS_init 2 1 [(0x50000000, 2)] 2 false) as [o st] eqn:E.
  replace ex_store with st by (unfold ex_store; by rewrite E).
  eapply record_share_spec; [apply store_init_inv| |exact E]. by vm_compute.
Qed.

Lemma ex_store_walks checks : walks_ok checks ex_store.
Proof.
  unfold walks_ok. apply List.Forall_forall. intros i Hi. apply negb_true_iff.
  assert (H : forallb (fun i => negb (walk_overflows checks (info_ranges i))) (ss_records ex_store) = true)
    by (destruct checks; vm_compute; reflexivity).
  rewrite forallb_forall in H. by apply H.
Qed.

Lemma lookup_pair_0 {A} (x y v : A) : [x; y] !! 0%nat = Some v -> v = x.
Proof. simpl. congruence. Qed.

Lemma ex_ffa_ctx checks regs : exists own, ffa_ctx checks ex_start ex_l0 own (map page_region ex_ownB ++ []) (ex_ffa regs).
Proof.
  destruct ex_s_inv as (own & Hd & _). exists own. constructor.
  - change (0 <= 0 < 2). lia.
  - reflexivity.
  - reflexivity.
  - vm_compute. reflexivity.
  - intros v H. right. exact (lookup_pair_0 _ _ _ H).
  - exact ex_store_inv.
  - apply ex_store_walks.
  - exact (di_inv _ _ _ _ _ Hd).
Qed.

Definition ex_shared := (handle_mem_share_or_lend true false (ex_ffa ex_share_regs)).1.
Lemma ex_shared_run : handle_mem_share_or_lend true false (ex_ffa ex_share_regs) = (ex_shared, Ok true).
Proof. apply run_ok. vm_compute. reflexivity. Qed.
Lemma ex_shared_x0 : rx0 (fs_regs ex_shared) = FFA_SUCCESS_32.
Proof. vm_compute. reflexivity. Qed.

Lemma share_lend_exact_witness :
  let s := ex_ffa ex_share_regs in
  exists ranges mb snd rcv total,
    fs_mbox s !! Z.to_nat (fs_vm s) = Some mb /\
    share_request (hm_mem (fs_mach s)) (fs_regs s) mb = Ok (snd, rcv, ranges, total) /\
    share_done true s ex_shared ex_l0 false rcv ranges total (ss_next_handle (fs_store s)).
Proof.
  destruct (ex_ffa_ctx true ex_share_regs) as (own & Hc).
  assert (Hn : ss_next_handle (fs_store (ex_ffa ex_share_regs)) + 1 < 2 ^ 64) by (vm_compute; reflexivity).
  pose proof (share_lend_exact true ex_start ex_l0 own _ (ex_ffa ex_share_regs) false ex_shared (Ok true) Hc Hn ex_shared_run) as H.
  pose proof ex_shared_x0 as Hx. destruct H as [(_ & _ & H)|[(_ & H & _)|(H & _)]].
  - exact H.
  - rewrite Hx in H. discriminate H.
  - discriminate H.
Defined.

Lemma share_reclaim_round_trip_witness :
  (exists s2, handle_mem_reclaim true (with_regs ex_shared ex_reclaim_regs) = (s2, Ok true) /\
    rx0 (fs_regs s2) = FFA_SUCCESS_32 /\ lookup_share_full (fs_store s2) 2 = None /\
    forall ipa, s2_lookup (hm_mem (fs_mach s2)) ex_l0 ipa = s2_lookup (hm_mem (fs_mach (ex_ffa ex_share_regs))) ex_l0 ipa) /\
  option_map pd_s2ap (s2_lookup (hm_mem (fs_mach ex_shared)) ex_l0 0x40001000) = Some 1.
Proof.
  split; [|vm_compute; reflexivity].
  destruct (ex_ffa_ctx true ex_share_regs) as (own & Hc).
  destruct (handle_mem_reclaim true (with_regs ex_shared ex_reclaim_regs)) as [s2 r2] eqn:E.
  destruct (share_reclaim_round_trip true _ _ _ _ _ false _ ex_reclaim_regs s2 r2 FfaMailbox_new 0 2
    [(0x40001000, 2)] 2 Hc ltac:(by vm_compute) ex_shared_run ex_shared_x0 eq_refl eq_refl
    ltac:(by unfold MAX_SHARE_RANGES; simpl; lia)) as (-> & H1 & H2 & H3).
  - intros p Hp. apply List.in_inv in Hp. destruct Hp as [<-|[<-|[]]]; vm_compute; reflexivity.
  - vm_compute. reflexivity.
  - exact E.
  - exists s2. split; [reflexivity|]. split; [exact H1|]. split; [exact H2|exact H3].
Defined.

Definition ex_retrieved := (handle_mem_retrieve_req true (ex_ffa ex_retrieve_regs)).1.
Lemma ex_retrieved_run : handle_mem_retrieve_req true (ex_ffa ex_retrieve_regs) = (ex_retrieved, Ok true).
Proof. unfold ex_retrieved. apply run_ok. vm_compute. reflexivity. Qed.
Lemma ex_retrieved_x0 : rx0 (fs_regs ex_retrieved) = FFA_MEM_RETRIEVE_RESP.
Proof. vm_compute. reflexivity. Qed.

Lemma retrieve_all_or_nothing_witness :
  exists info, lookup_share_full (fs_store ex_retrieved) 1 = Some (set_retrieved true info).
Proof.
  destruct (ex_ffa_ctx true ex_retrieve_regs) as (own & Hc).
  destruct (retrieve_all_or_nothing _ _ _ _ _ _ _ _ Hc ex_retrieved_run) as [_ [[_ (info & _ & _ & _ & H & _)]|[H _]]].
  - exists info. exact H.
  - rewrite ex_retrieved_x0 in H. discriminate H.
Defined.

Lemma retrieve_relinquish_round_trip_witness :
  rx0 (fs_regs ex_retrieved) = FFA_MEM_RETRIEVE_RESP /\
  (forall ipa, s2_lookup (hm_mem (fs_mach
     (handle_mem_relinquish true (with_regs ex_retrieved ex_retrieve_regs)).1)) ex_l0 ipa =
    s2_lookup (hm_mem (fs_mach (ex_ffa ex_retrieve_regs))) ex_l0 ipa).
Proof.
  split; [exact ex_retrieved_x0|].
  destruct (ex_ffa_ctx true ex_retrieve_regs) as (own & Hc).
  destruct (handle_mem_relinquish true (with_regs ex_retrieved ex_retrieve_regs)) as [s2 r2] eqn:E. cbn [fst].
  pose proof (retrieve_relinquish_round_trip true ex_start ex_l0 own _ (ex_ffa ex_retrieve_regs) ex_retrieved (Ok true)
    ex_retrieve_regs s2 r2 (new_share 1 2 1 [(0x50000000, 2)] 2 false) Hc ex_retrieved_run ex_retrieved_x0
    ltac:(vm_compute; reflexivity) eq_refl E) as (_ & _ & _ & H). exact H.
Defined.
