(* ===== verification/FfaThms.v ===== *)
(** * The FF-A dispatcher as a whole

    Every call returns to the guest, or, where the build checks overflow, panics in
    one of three additions and products; it keeps the context and the mailbox
    invariant, and writes only guest RAM, the caller's own tables and, with an SPMC
    behind the proxy, what the Secure World may write.  The last section records,
    on concrete states, behaviours that differ from what the code intends. *)

From Stdlib Require Import ZArith Lia Bool.
From stdpp Require Import base list strings.
From S2P Require Import Prelude Memory Allocator Stage2 Stage2Spec Stage2Bits Stage2Ops Stage2Walk.
From S2P Require Import Stage2Boot Stage2Thms Tlb FfaCore FfaNotif FfaStore FfaProxy FfaShare.
Import Walker.

Definition in_guest_ram (x : Z) : Prop := GUEST_LOAD_ADDR <= x < GUEST_LOAD_ADDR + LINUX_MEM_SIZE.

(** The memory the Secure World may write on a call that is forwarded to it: its
    own RAM (0x0e00_0000 to 0x0f00_0000 on this platform), and the pages of
    PROXY_TX_BUF and PROXY_RX_BUF, which [init] registered with it. *)
Definition secure_area (tx rx x : Z) : Prop :=
  0x0e000000 <= x < 0x0f000000 \/ tx <= x < tx + 4096 \/ rx <= x < rx + 4096.

(** What FF-A calls may write besides the caller's tables: guest RAM and, when an
    SPMC is present, the secure area. *)
Definition ffa_writable (spmc : bool) (tx rx x : Z) : Prop := in_guest_ram x \/ spmc = true /\ secure_area tx rx x.

(** What the proxy relies on when there is an SPMC: EL3 and the SPMC write only
    guest RAM and the secure area, and the two buffers are statics of the image,
    which lies below the heap. *)
Record secure_world (el3 : mem -> GpRegs -> mem * GpRegs) (start tx rx : Z) : Prop := {
  sw_frame m r x : ~ ffa_writable true tx rx x -> (el3 m r).1 x = m x;
  sw_heap : 0x0f000000 <= start;
  sw_tx : tx + 4096 <= start;
  sw_rx : rx + 4096 <= start;
}.

(** Registered buffers are one page of guest RAM each. *)
Definition mbox_ok (mb : FfaMailbox) : Prop :=
  mb_mapped mb = true ->
  mb_page_count mb = 1 /\
  GUEST_LOAD_ADDR <= mb_tx_ipa mb /\ mb_tx_ipa mb + 4096 <= GUEST_LOAD_ADDR + LINUX_MEM_SIZE /\
  GUEST_LOAD_ADDR <= mb_rx_ipa mb /\ mb_rx_ipa mb + 4096 <= GUEST_LOAD_ADDR + LINUX_MEM_SIZE.

Record ffa_safe (checks spmc : bool) (start l0 : Z) (own : list Z) (others : list region) (s : ffa_state) : Prop := {
  sf_ctx : ffa_ctx checks start l0 own others s;
  sf_mbox : Forall mbox_ok (fs_mbox s);
  sf_spmc : fs_spmc_present s = spmc;
}.

(** The calls with an addition or a product that can overflow. *)
Definition can_overflow (fid : Z) : bool :=
  existsb (Z.eqb fid) [FFA_PARTITION_INFO_GET; FFA_MSG_SEND2; FFA_MEM_SHARE_32; FFA_MEM_SHARE_64; FFA_MEM_LEND_32; FFA_MEM_LEND_64].
(** The result of a call: back to the guest, or the panic of an overflow check. *)
Definition call_result (checks : bool) (fid : Z) (r : result bool string) : Prop :=
  r = Ok true \/ checks = true /\ can_overflow fid = true /\ (r = Err ADD_OVERFLOW \/ r = Err MUL_OVERFLOW).

(** A set of addresses that calls and stores may write: it contains guest RAM, and
    what EL3 writes when it is called, and no part of the heap. *)
Record write_set (el3 : mem -> GpRegs -> mem * GpRegs) (spmc : bool) (start : Z) (W : Z -> Prop) : Prop := {
  ws_guest x : in_guest_ram x -> W x;
  ws_heap x : W x -> x < start \/ HEAP_LIMIT <= x;
  ws_el3 m r x : spmc = true -> ~ W x -> (el3 m r).1 x = m x;
}.

Lemma ffa_write_set el3 spmc start tx rx : (spmc = true -> secure_world el3 start tx rx) ->
  write_set el3 spmc start (ffa_writable spmc tx rx).
Proof.
  intros H. constructor.
  - intros x. by left.
  - intros x [Hx|[-> Hx]]; [right; unfold in_guest_ram, GUEST_LOAD_ADDR, HEAP_LIMIT in *; lia|].
    destruct (H eq_refl). left. unfold secure_area in Hx. lia.
  - intros m r x -> Hx. by apply (H eq_refl).
Qed.

Ltac rewrite_fid := match goal with H : rx0 _ = _ |- _ => rewrite H; reflexivity end.

(** ** The events of a guest *)
Inductive guest_event :=
| GuestCall (regs : GpRegs)
| GuestStore (addr byte : Z).

(** A store of the guest reaches guest RAM only. *)
Definition guest_store (addr byte : Z) (s : ffa_state) : ffa_state :=
  if (GUEST_LOAD_ADDR <=? addr) && (addr <? GUEST_LOAD_ADDR + LINUX_MEM_SIZE)
  then with_mach s (set_mem (fs_mach s) (write8 (hm_mem (fs_mach s)) addr byte)) else s.

(** The function ids called and their results; a panic stops the machine. *)
Fixpoint run_guest (checks : bool) (el3 : mem -> GpRegs -> mem * GpRegs) (tfa : bool) (rx : Z)
  (evs : list guest_event) (s : ffa_state) : ffa_state * list (Z * result bool string) :=
  match evs with
  | [] => (s, [])
  | GuestCall regs :: evs' =>
      match handle_ffa_call checks el3 tfa rx (with_regs s regs) with
      | (s1, Ok b) => let (s2, rs) := run_guest checks el3 tfa rx evs' s1 in (s2, (rx0 regs, Ok b) :: rs)
      | (s1, Err e) => (s1, [(rx0 regs, Err e)])
      end
  | GuestStore a b :: evs' => run_guest checks el3 tfa rx evs' (guest_store a b s)
  end.

Section Confined.
Context (checks spmc : bool) (el3 : mem -> GpRegs -> mem * GpRegs) (tfa : bool) (rx : Z)
  (start l0 : Z) (others : list region) (W : Z -> Prop) (HW : write_set el3 spmc start W).

(** The state after a call: safe, and outside [W] and the caller's tables no byte
    has changed. *)
Definition safe_step (own : list Z) (s s' : ffa_state) : Prop :=
  ss_next_handle (fs_store s') <= ss_next_handle (fs_store s) + 1 /\
  exists own', incl own own' /\ ffa_safe checks spmc start l0 own' others s' /\
    forall x, outside own' x -> ~ W x -> hm_mem (fs_mach s') x = hm_mem (fs_mach s) x.

(** How a call reaches the tables: not at all, only [W] is written; or by a run of
    walker operations. *)
Definition quiet (h h' : machine) : Prop :=
  hm_trace h' = hm_trace h /\ forall x, ~ W x -> hm_mem h' x = hm_mem h x.
Definition by_ops (h h' : machine) : Prop :=
  exists os, Forall op_ok os /\ h' = (run_ops (mkWalker l0) os h).1.
Definition moves (s s' : ffa_state) : Prop :=
  quiet (fs_mach s) (fs_mach s') \/ by_ops (fs_mach s) (fs_mach s').

Lemma moves_same s s' : fs_mach s' = fs_mach s -> moves s s'.
Proof using. intros E. left. by rewrite E. Qed.

Lemma by_ops_cons o h h' : op_ok o -> by_ops (run_op (mkWalker l0) o h).1 h' -> by_ops h h'.
Proof using.
  intros Ho (os & Hos & ->). exists (o :: os). split; [by constructor|]. cbn [run_ops].
  destruct (run_op _ o h) as [h1 r]. cbn [fst]. by destruct (run_ops _ os h1).
Qed.
(** The retrieve loop with its rollback. *)
Lemma retrieve_by_ops ap sw ps : forall dn h, Forall (fits 64) ps ->
  by_ops h (retrieve_pages (mkWalker l0) ap sw dn ps h).1.
Proof using.
  induction ps as [|p ps IH]; intros dn h Hp; cbn [retrieve_pages]; [by exists []|].
  inversion Hp; subst. apply (by_ops_cons (OpMapPage p ap sw)); [done|]. cbn [run_op].
  destruct (map_page _ p ap sw h) as [h1 [u|e]]; cbn [fst]; [by apply IH|].
  unfold sm_bind, sm_ret. rewrite unmap_run. eexists. split; [apply unmap_ops_ok|done].
Qed.

(** ** Writes outside the heap *)
Lemma quiet_write_inv h own m' :
  s2_inv start h l0 own others -> (forall x, ~ W x -> m' x = hm_mem h x) ->
  s2_inv start (set_mem h m') l0 own others.
Proof using HW.
  intros [(a & free & Ha & He & Hi) Hwf] Hx. pose proof Hi as [H1 H2 H3 H4 H5 H6 H7].
  rewrite Forall_app in H6. destruct H6 as [Hlive Hfree].
  assert (Hag : forall p, start <= p /\ 0 <= 4096 /\ p + 4096 <= ba_next a -> agree m' (hm_mem h) p 4096).
  { intros p Hp x Hin. apply Hx. intros Hw. apply (ws_heap _ _ _ _ HW) in Hw. lia. }
  constructor.
  - exists a, free. split_and!; [done|done|]. constructor; try done.
    + apply (free_chain_agree (hm_mem h)); [|done]. rewrite Forall_map in Hfree.
      eapply Forall_impl; [exact Hfree|]. intros p Hp. cbn in Hp.
      eapply agree_sub; [by apply Hag|lia|lia].
    + rewrite Forall_app. done.
  - eapply s2_wf_agree; [exact Hwf| |apply incl_refl]. intros t Ht. apply Hag.
    rewrite Forall_app, Forall_map in Hlive. destruct Hlive as [Hlive _].
    rewrite List.Forall_forall in Hlive. exact (Hlive t Ht).
Qed.

(** A call of the guest. *)
Definition call_step (own : list Z) (s : ffa_state) (res : ffa_state * result bool string) : Prop :=
  call_result checks (rx0 (fs_regs s)) res.2 /\ safe_step own s res.1 /\ moves s res.1.

(** A call that changes registers, mailboxes and notifications only, and memory only
    inside [W]. *)
Lemma safe_quiet own s s' r :
  ffa_safe checks spmc start l0 own others s -> call_result checks (rx0 (fs_regs s)) r ->
  fs_vm s' = fs_vm s -> quiet (fs_mach s) (fs_mach s') -> hm_heap (fs_mach s') = hm_heap (fs_mach s) ->
  fs_vttbr s' = fs_vttbr s -> fs_per_vm_vttbr s' = fs_per_vm_vttbr s -> fs_spmc_present s' = fs_spmc_present s ->
  fs_store s' = fs_store s -> length (fs_mbox s') = 4%nat -> Forall mbox_ok (fs_mbox s') ->
  call_step own s (s', r).
Proof using HW.
  intros [[] Hm Hp] Hr E1 [Et Ex] Eh E3 E4 E5 E6 E7 E8. split; [done|]. split; [|by left]. split; [cbn [fst]; rewrite E6; lia|].
  exists own. cbn [fst]. split_and!; [apply incl_refl| |intros; by apply Ex].
  constructor; [|done|by rewrite E5]. constructor; rewrite ?E1, ?E3, ?E4, ?E6; try done.
  replace (fs_mach s') with (set_mem (fs_mach s) (hm_mem (fs_mach s')));
    [by apply quiet_write_inv|]. destruct (fs_mach s), (fs_mach s'). cbn in *. by subst.
Qed.

Lemma quiet_refl h : quiet h h.
Proof using. done. Qed.
Lemma quiet_trans h h1 h2 : quiet h h1 -> quiet h1 h2 -> quiet h h2.
Proof using. intros [E1 H1] [E2 H2]. split; [congruence|]. intros x Hx. by rewrite H2, H1. Qed.

(** A forwarded call. *)
Lemma forward_quiet args s s' r : fs_spmc_present s = true -> spmc = true ->
  forward_smc8 el3 args s = (s', Ok r) ->
  s' = with_mach s (fs_mach s') /\ quiet (fs_mach s) (fs_mach s') /\ hm_heap (fs_mach s') = hm_heap (fs_mach s).
Proof using HW.
  intros _ Hs. unfold forward_smc8. pose proof (ws_el3 _ _ _ _ HW (hm_mem (fs_mach s)) args) as H.
  destruct (el3 _ args) as [m' r']. intros [= <- <-]. split_and!; [done| |done]. split; [done|]. intros x Hx. by apply H.
Qed.

(** ** Handlers *)
Section Handlers.
Context (own : list Z) (s : ffa_state) (Hs : ffa_safe checks spmc start l0 own others s).
Let ok := call_step own s.
Let Hc := sf_ctx _ _ _ _ _ _ _ Hs.

Lemma safe_local s' r : call_result checks (rx0 (fs_regs s)) r ->
  fs_vm s' = fs_vm s -> fs_mach s' = fs_mach s -> fs_vttbr s' = fs_vttbr s ->
  fs_per_vm_vttbr s' = fs_per_vm_vttbr s -> fs_spmc_present s' = fs_spmc_present s ->
  fs_store s' = fs_store s -> length (fs_mbox s') = 4%nat -> Forall mbox_ok (fs_mbox s') -> ok (s', r).
Proof using HW Hs. intros ? ? E. intros. apply safe_quiet; try done; by rewrite E. Qed.

Lemma returns : call_result checks (rx0 (fs_regs s)) (Ok true).
Proof using. by left. Qed.

Lemma safe_err code : ok (fail_with code s).
Proof using HW Hs. rewrite fail_with_eq. pose proof Hs as [[] Hm _]. by apply safe_local; [apply returns|..]. Qed.

Lemma safe_regs f : ok ((upd_regs f ;;; sm_ret true) s).
Proof using HW Hs. pose proof Hs as [[] Hm _]. by apply safe_local; [apply returns|..]. Qed.

(** Changing one mailbox. *)
Lemma safe_mbox vm mb f : mbox_ok mb -> ok ((put_mailbox vm mb ;;; upd_regs f ;;; sm_ret true) s).
Proof using HW Hs.
  intros Hmb. pose proof Hs as [[] Hm _]. apply safe_local; try done; [apply returns|..]; cbn [fs_mbox with_regs with_mbox].
  - by rewrite length_insert.
  - by apply Forall_insert.
Qed.

Lemma guest_quiet (h : machine) m' : (forall x, ~ in_guest_ram x -> m' x = hm_mem h x) -> quiet h (set_mem h m').
Proof using HW. intros H. split; [done|]. intros x Hx. apply H. intros Hg. by apply Hx, (ws_guest _ _ _ _ HW). Qed.

(** Writing guest RAM, then changing one mailbox. *)
Lemma safe_guest_write g vm mb f : mbox_ok mb ->
  (forall m x, ~ in_guest_ram x -> g m x = m x) ->
  ok ((upd_mem g ;;; put_mailbox vm mb ;;; upd_regs f ;;; sm_ret true) s).
Proof using HW Hs.
  intros Hmb Hg. pose proof Hs as [[] Hm _]. apply safe_quiet; try done; cbn.
  - apply returns.
  - apply guest_quiet. auto.
  - by rewrite length_insert.
  - by apply Forall_insert.
Qed.

Lemma safe_get_mailbox : exists mb, get_mailbox (fs_vm s) s = (s, Ok mb) /\ mbox_ok mb.
Proof using Hs.
  destruct (ctx_mailbox _ _ _ _ _ _ Hc) as (mb & Hmb & Hg). exists mb. split; [done|].
  eapply Forall_lookup_1; [apply Hs|exact Hmb].
Qed.

Lemma rxtx_map_safe : ok (handle_rxtx_map s).
Proof using HW Hs.
  unfold ok, handle_rxtx_map, sm_bind at 1 2 3, get_regs, current_vm_id. cbv beta iota zeta.
  destruct (_ || _) eqn:E1; [by apply safe_err|].
  destruct (negb (is_guest_ram (rx1 _) _) || _) eqn:E2; [by apply safe_err|].
  destruct safe_get_mailbox as (mb & -> & Hmb). destruct (mb_mapped mb); [by apply safe_err|].
  apply safe_mbox. intros _. cbn [mb_page_count mb_tx_ipa mb_rx_ipa].
  apply orb_false_iff in E1 as [E1 Ehi]. apply orb_false_iff in E1 as [_ Elo].
  apply orb_false_iff in E2 as [Etx Erx]. apply negb_false_iff in Etx, Erx.
  unfold is_guest_ram in Etx, Erx. rewrite !andb_true_iff, !Z.leb_le in Etx, Erx.
  apply Z.ltb_ge in Ehi. apply Z.eqb_neq in Elo.
  assert (0 <= u32 (rx3 (fs_regs s))) by (apply Z.mod_pos_bound; lia). split_and!; lia.
Qed.

Lemma rxtx_unmap_safe : ok (handle_rxtx_unmap s).
Proof using HW Hs.
  unfold ok, handle_rxtx_unmap, sm_bind at 1 2, current_vm_id. cbv beta iota zeta.
  destruct safe_get_mailbox as (mb & -> & Hmb). destruct (mb_mapped mb); cbn [negb]; [|by apply safe_err].
  by apply safe_mbox.
Qed.

Lemma rx_release_safe : ok (handle_rx_release s).
Proof using HW Hs.
  unfold ok, handle_rx_release, sm_bind at 1 2, current_vm_id. cbv beta iota zeta.
  destruct safe_get_mailbox as (mb & -> & Hmb). destruct (mb_mapped mb) eqn:Em; cbn [negb]; [|by apply safe_err].
  apply safe_mbox. intros _. by apply Hmb.
Qed.

(** Calls that are forwarded whole. *)
Lemma forward_safe : fs_spmc_present s = true -> ok (forward_ffa_to_spmc el3 s).
Proof using HW Hs.
  intros Hp. unfold ok, forward_ffa_to_spmc, sm_bind at 1 2, get_regs.
  destruct (forward_smc8 el3 (fs_regs s) s) as [s1 [r|e]] eqn:E; [|unfold forward_smc8 in E; by destruct (el3 _ _)].
  assert (Hsp : spmc = true) by (rewrite <- (sf_spmc _ _ _ _ _ _ _ Hs); exact Hp).
  destruct (forward_quiet _ _ _ _ Hp Hsp E) as (E1 & Hq & Hh). pose proof Hs as [[] Hm _].
  unfold sm_bind, upd_regs, sm_upd, sm_ret. rewrite E1. apply safe_quiet; try done. apply returns.
Qed.

Lemma write_stub_frame sps : forall m ptr x, x < ptr \/ ptr + 8 * Z.of_nat (length sps) <= x ->
  write_stub_partitions m ptr sps x = m x.
Proof using.
  induction sps as [|sp sps IH]; intros m ptr x Hx; cbn [write_stub_partitions length] in *; [done|].
  rewrite IH by lia. unfold write32, write16, write_le.
  repeat match goal with |- context [in_range ?a ?n x] => destruct (in_range a n x) eqn:?E end;
    rewrite ?in_range_true in *; try lia; done.
Qed.

(** The relay: EL3 fills PROXY_RX_BUF, at most one page of it is copied to the RX
    buffer of the VM, and EL3 is told. *)
Lemma info_relay_safe mb : mbox_ok mb -> mb_mapped mb = true -> fs_spmc_present s = true ->
  can_overflow (rx0 (fs_regs s)) = true -> ok (partition_info_relay checks el3 rx (fs_vm s) mb s).
Proof using HW Hs.
  intros Hmb Em Hp Hov. specialize (Hmb Em). assert (Hsp : spmc = true) by (rewrite <- (sf_spmc _ _ _ _ _ _ _ Hs); exact Hp).
  unfold ok, partition_info_relay, sm_bind at 1, sm_get. destruct (fs_proxy_rxtx s); cbn [negb]; [|apply safe_err].
  unfold sm_bind at 1 2, get_regs. destruct (forward_smc8 el3 _ s) as [s1 [r|e]] eqn:E; [|unfold forward_smc8 in E; by destruct (el3 _ _)].
  destruct (forward_quiet _ _ _ _ Hp Hsp E) as (E1 & Hq & Hh). pose proof Hs as [[] Hm _].
  destruct (rx0 r =? FFA_SUCCESS_32); cbn [negb]; [|rewrite E1; apply safe_quiet; try done; apply returns].
  unfold overflow_check at 1. destruct (checks && _) eqn:Eo.
  { rewrite E1. apply safe_quiet; try done. right. apply andb_true_iff in Eo as [-> _]. auto. }
  unfold sm_bind at 1, sm_ret at 1. cbv beta iota zeta.
  destruct (_ <? u64 (rx2 r * 24)) eqn:Ec; [rewrite E1; apply safe_quiet; try done; apply returns|].
  apply Z.ltb_ge in Ec. unfold sm_bind at 1, upd_mem, sm_upd. set (s2 := with_mach s1 _).
  assert (Hq2 : quiet (fs_mach s1) (fs_mach s2)).
  { apply guest_quiet. intros x Hx. unfold copy_bytes. destruct (in_range _ _ x) eqn:Ei; [|done].
    apply in_range_true in Ei. unfold in_guest_ram in Hx. lia. }
  unfold sm_bind at 1. destruct (forward_smc8 el3 _ s2) as [s3 [r3|e3]] eqn:E3; [|unfold forward_smc8 in E3; by destruct (el3 _ _)].
  destruct (forward_quiet _ s2 _ _ ltac:(unfold s2; rewrite E1; done) Hsp E3) as (E3' & Hq3 & Hh3).
  unfold sm_bind, put_mailbox, upd_regs, sm_upd, sm_ret. rewrite E3'. unfold s2. rewrite E1.
  apply safe_quiet; try done; cbn [fs_mach fs_mbox with_regs with_mbox with_mach].
  - apply returns.
  - eapply quiet_trans; [exact Hq|]. eapply quiet_trans; [exact Hq2|exact Hq3].
  - rewrite Hh3. unfold s2. cbn. exact Hh.
  - by rewrite length_insert.
  - apply Forall_insert; [done|intros _; exact Hmb].
Qed.

Lemma partition_info_safe : can_overflow (rx0 (fs_regs s)) = true -> ok (handle_partition_info_get checks el3 tfa rx s).
Proof using HW Hs.
  intros Hov. unfold ok, handle_partition_info_get, sm_bind at 1 2, current_vm_id. cbv beta iota zeta.
  destruct safe_get_mailbox as (mb & -> & Hmb). destruct (mb_mapped mb) eqn:Em; cbn [negb]; [|by apply safe_err].
  destruct (mb_rx_held_by_proxy mb); cbn [negb]; [|by apply safe_err].
  unfold sm_bind at 1, sm_get. destruct (tfa && fs_spmc_present s) eqn:Ep.
  { apply andb_true_iff in Ep as [_ Ep]. by apply info_relay_safe. }
  specialize (Hmb Em). apply safe_guest_write; [intros _; done|].
  intros m x Hx. apply write_stub_frame. unfold in_guest_ram in Hx. cbn. lia.
Qed.

Lemma direct_req_safe : ok (handle_msg_send_direct_req el3 s).
Proof using HW Hs.
  unfold ok, handle_msg_send_direct_req, sm_bind at 1 2 3, get_regs, current_vm_id, sm_get. cbv beta iota zeta.
  destruct (negb (_ =? vm_id_to_partition_id _)); [by apply safe_err|].
  destruct (fs_spmc_present s && _) eqn:Ep; [apply andb_true_iff in Ep as [Ep _]; by apply forward_safe|].
  destruct (negb (is_valid_sp _)); [by apply safe_err|by apply safe_regs].
Qed.

Lemma msg_send2_safe : can_overflow (rx0 (fs_regs s)) = true -> ok (handle_msg_send2 checks s).
Proof using HW Hs.
  intros Hov. unfold ok, handle_msg_send2, sm_bind at 1 2, current_vm_id. cbv beta iota zeta.
  destruct safe_get_mailbox as (mb & -> & Hmb). destruct (mb_mapped mb) eqn:Em; cbn [negb]; [|by apply safe_err].
  unfold sm_bind at 1, get_mem. destruct (negb (read16 _ _ =? _)); [by apply safe_err|].
  destruct (partition_id_to_vm_id _) as [rv|] eqn:Ep; [|by apply safe_err].
  assert (Hrv : 0 <= rv < 4).
  { unfold partition_id_to_vm_id, FFA_MAX_VMS in Ep. destruct ((1 <=? _) && _) eqn:E; [|done].
    apply andb_true_iff in E as [E1 E2]. apply Z.leb_le in E1, E2. injection Ep as <-. lia. }
  destruct (lookup_lt_is_Some_2 (fs_mbox s) (Z.to_nat rv)) as [rmb Hrmb];
    [rewrite (fc_mbox _ _ _ _ _ _ Hc); lia|].
  unfold sm_bind at 1, get_mailbox. rewrite Hrmb. unfold FFA_MAX_VMS. rewrite (proj2 (Z.ltb_lt rv 4)) by lia.
  pose proof (Forall_lookup_1 _ _ _ _ (sf_mbox _ _ _ _ _ _ _ Hs) Hrmb) as Hr.
  destruct (mb_mapped rmb) eqn:Erm; cbn [negb]; [|by apply safe_err].
  destruct (mb_rx_held_by_proxy rmb); cbn [negb]; [|by apply safe_err].
  destruct (mb_msg_pending rmb); [by apply safe_err|].
  unfold overflow_check at 1. destruct (checks && _) eqn:Eo.
  { pose proof Hs as [[] Hm _]. apply safe_local; try done. right. apply andb_true_iff in Eo as [-> _]. auto. }
  unfold sm_bind at 1, sm_ret at 1.
  specialize (Hr Erm). apply safe_guest_write; [intros _; done|].
  intros m x Hx. unfold copy_bytes. destruct (in_range _ _ x) eqn:E; [|done].
  apply in_range_true in E. unfold in_guest_ram in Hx. lia.
Qed.

Lemma msg_wait_safe : ok (handle_msg_wait s).
Proof using HW Hs.
  unfold ok, handle_msg_wait, sm_bind at 1 2, current_vm_id. cbv beta iota zeta.
  destruct safe_get_mailbox as (mb & -> & Hmb). destruct (mb_mapped mb); cbn [negb]; [|by apply safe_err].
  destruct (mb_msg_pending mb); [by apply safe_regs|by apply safe_err].
Qed.

Lemma safe_of_ctx s' r : call_result checks (rx0 (fs_regs s)) r -> ctx_step checks start l0 own others s s' -> moves s s' -> ok (s', r).
Proof using Hs.
  intros Hr (own' & Hin & Hc' & Hm & Hn & Hx) Hmv. injection Hm as Hm Hp. split; [done|]. split; [|done]. split; [done|]. exists own'. cbn [fst].
  split_and!; [done|constructor; [done|rewrite Hm; apply Hs|rewrite Hp; apply Hs]|auto].
Qed.

(** What the calls on memory do to the machine. *)
Lemma share_lend_moves lend : moves s (handle_mem_share_or_lend checks lend s).1.
Proof using Hs.
  destruct (ctx_mailbox _ _ _ _ _ _ Hc) as (mb & Hmb & Hgm).
  unfold handle_mem_share_or_lend, sm_bind, current_vm_id, get_regs, get_mem, sm_get. cbv beta iota. rewrite Hgm. cbv beta iota zeta.
  destruct (share_request _ _ mb) as [[[[snd rcv] ranges] total]|code] eqn:Er; [|by apply moves_same].
  destruct (negb (is_valid_receiver rcv)); [by apply moves_same|].
  destruct (negb (snd =? 0) && _); [by apply moves_same|].
  rewrite (ctx_has_stage2 _ _ _ _ _ _ Hc), (fc_vttbr _ _ _ _ _ _ Hc).
  destruct (validate_pages _ _ _); [|by apply moves_same].
  unfold overflow_check. destruct (true && _); [by apply moves_same|]. unfold sm_ret at 1.
  unfold lift_s2, record_share_m. rewrite transition_run. cbv beta iota. right. eexists. split; [apply share_ops_ok|].
  by destruct (record_share _ _ _ _ _ _) as [[h|] st'].
Qed.

Lemma retrieve_moves : moves s (handle_mem_retrieve_req checks s).1.
Proof using Hs.
  unfold handle_mem_retrieve_req, sm_bind, get_regs, lookup_share_m, current_vm_id. cbv beta iota zeta.
  destruct (lookup_share_full (fs_store s) _) as [info|] eqn:El; [|by apply moves_same].
  destruct (Z.eqb_spec (vm_id_to_partition_id (fs_vm s)) (sr_receiver_id info)) as [Er|]; cbn [negb]; [|by apply moves_same].
  destruct (sr_retrieved info); [by apply moves_same|].
  destruct (ctx_receiver _ _ _ _ _ _ _ Hc Er) as (Hp & v & Hv & Hvc).
  unfold retrieve_map. rewrite Hp. unfold sm_bind. rewrite Hv. destruct Hvc as [->|[-> Hne]].
  - cbn. unfold upd_store. destruct (mark_retrieved _ _). by apply moves_same.
  - destruct (Z.eqb_spec l0 0); [done|]. unfold lift_s2. right.
    pose proof (retrieve_by_ops (u8 (Z.shiftr S2AP_RW S2AP_SHIFT)) (ownership_bits SharedBorrowed) (pages_of checks (info_ranges info))
      [] (fs_mach s) (pages_of_fits _ _)) as Ho.
    rewrite (lookup_walk _ _ _ _ (fc_walks _ _ _ _ _ _ Hc) El). cbn [overflow_check].
    change (new l0) with (mkWalker l0). destruct (retrieve_pages _ _ _ _ _ (fs_mach s)) as [h1 r1]. cbn [fst] in Ho.
    destruct r1 as [[]|e]; cbn; [|exact Ho|exact Ho]. unfold upd_store. by destruct (mark_retrieved _ _).
Qed.

Lemma share_lend_safe lend : ss_next_handle (fs_store s) + 1 < 2 ^ 64 -> can_overflow (rx0 (fs_regs s)) = true ->
  ok (handle_mem_share_or_lend checks lend s).
Proof using Hs.
  intros Hn Hov. pose proof (share_lend_moves lend) as Hm.
  destruct (handle_mem_share_or_lend checks lend s) as [s' r] eqn:E.
  destruct (share_or_lend_spec _ _ _ _ _ _ _ _ _ Hc Hn E) as [Hstep Ho]. apply safe_of_ctx; [|exact Hstep|exact Hm].
  destruct Ho as [(-> & _)|[(-> & _)|(-> & _ & ranges & mb & snd & rcv & total & _ & _ & Hw)]]; [by left|by left|right].
  apply andb_true_iff in Hw as [-> _]. auto.
Qed.

Lemma reclaim_safe : ok (handle_mem_reclaim checks s).
Proof using Hs.
  destruct (handle_mem_reclaim checks s) as [s' r] eqn:E.
  destruct (reclaim_spec _ _ _ _ _ _ _ _ Hc E) as (-> & ? & Hm). apply safe_of_ctx; [by left|done|].
  destruct (lookup_share_full (fs_store s) _) as [info|]; [|by apply moves_same; rewrite Hm].
  destruct (sr_retrieved info); [by apply moves_same; rewrite Hm|]. destruct Hm as (_ & Hm & _).
  right. eexists. split; [apply share_ops_ok|exact Hm].
Qed.

Lemma retrieve_safe : ok (handle_mem_retrieve_req checks s).
Proof using Hs.
  pose proof retrieve_moves as Hm. destruct (handle_mem_retrieve_req checks s) as [s' r] eqn:E.
  destruct (retrieve_spec _ _ _ _ _ _ _ _ Hc E) as (-> & ? & _). apply safe_of_ctx; [by left|done|exact Hm].
Qed.

Lemma relinquish_safe : ok (handle_mem_relinquish checks s).
Proof using HW Hs.
  destruct (handle_mem_relinquish checks s) as [s' r] eqn:E. pose proof E as E'.
  unfold handle_mem_relinquish, sm_bind at 1 2, get_regs, lookup_share_m in E'. cbv beta iota zeta in E'.
  destruct (lookup_share_full (fs_store s) _) as [info|] eqn:El; [|rewrite <- E'; by apply safe_err].
  unfold sm_bind at 1, current_vm_id in E'.
  destruct (Z.eqb_spec (vm_id_to_partition_id (fs_vm s)) (sr_receiver_id info)) as [Er|]; cbn [negb] in E';
    [|rewrite <- E'; by apply safe_err].
  destruct (sr_retrieved info) eqn:Eret; cbn [negb] in E'; [|rewrite <- E'; by apply safe_err].
  pose proof (relinquish_spec _ _ _ _ _ _ _ _ info Hc El (eq_sym Er) Eret E) as (-> & Hstep & _ & _ & Hm).
  apply safe_of_ctx; [by left|done|]. case_decide; [by apply moves_same|].
  right. eexists. split; [apply unmap_ops_ok|exact Hm].
Qed.

Lemma notif_safe (f : notif_state -> result unit Z * notif_state) :
  ok ((let* res := upd_notif f in finish res) s).
Proof using HW Hs.
  unfold ok, sm_bind, upd_notif. destruct (f (fs_notif s)) as [[u|c] n]; pose proof Hs as [[] Hm _];
    apply safe_local; try done; by left.
Qed.

Lemma notification_get_safe : ok (handle_notification_get s).
Proof using HW Hs.
  unfold ok, handle_notification_get, sm_bind at 1 2, get_regs, upd_notif.
  destruct (notif_get _ _) as [[p|c] n]; pose proof Hs as [[] Hm _]; apply safe_local; try done; by left.
Qed.

Lemma notification_info_safe : ok (handle_notification_info_get s).
Proof using HW Hs.
  unfold ok, handle_notification_info_get, sm_bind at 1, sm_get.
  destruct (info_get _); [by apply safe_err|by apply safe_regs].
Qed.

Lemma features_safe : ok (handle_features s).
Proof using HW Hs.
  unfold ok, handle_features, sm_bind at 1, get_regs. destruct (existsb _ _); [by apply safe_regs|by apply safe_err].
Qed.

(** The dispatcher. *)
Lemma dispatch_safe : ss_next_handle (fs_store s) + 1 < 2 ^ 64 -> ok (handle_ffa_call checks el3 tfa rx s).
Proof using HW Hs.
  intros Hn. unfold handle_ffa_call, sm_bind at 1, get_regs. cbv beta iota zeta.
  repeat match goal with
  | |- ok ((if ?c then _ else _) s) => destruct c eqn:?E
  end.
  all: repeat match goal with H : _ || _ = true |- _ => apply orb_true_iff in H as [H|H] end.
  all: try match goal with H : (_ =? _) = true |- _ => apply Z.eqb_eq in H end.
  all: first
    [ apply safe_regs; done | apply features_safe | apply rxtx_map_safe | apply rxtx_unmap_safe
    | apply rx_release_safe | apply partition_info_safe; by rewrite_fid | apply direct_req_safe | apply share_lend_safe; [done|by rewrite_fid]
    | apply reclaim_safe | apply retrieve_safe | apply relinquish_safe | apply safe_err; done
    | apply notif_safe | apply notification_get_safe | apply notification_info_safe
    | apply msg_send2_safe; by rewrite_fid | apply msg_wait_safe | idtac ].
  - unfold handle_run, sm_bind at 1, spmc_present. destruct (fs_spmc_present s) eqn:Ep; [by apply forward_safe|by apply safe_err].
  - unfold sm_bind at 1, spmc_present. destruct (fs_spmc_present s) eqn:Ep; [by apply forward_safe|by apply safe_err].
Qed.
End Handlers.

(** ** A guest between two scheduling points *)
Lemma guest_store_safe own s a b : ffa_safe checks spmc start l0 own others s ->
  ffa_safe checks spmc start l0 own others (guest_store a b s) /\ fs_store (guest_store a b s) = fs_store s /\
  quiet (fs_mach s) (fs_mach (guest_store a b s)).
Proof using HW.
  intros Hs. unfold guest_store. destruct (_ && _) eqn:E; [|by split].
  apply andb_true_iff in E as [E1 E2]. apply Z.leb_le in E1. apply Z.ltb_lt in E2.
  assert (Hf : quiet (fs_mach s) (set_mem (fs_mach s) (write8 (hm_mem (fs_mach s)) a b))).
  { apply guest_quiet. intros x Hx. unfold write8, write_le. destruct (in_range a _ x) eqn:E; [|done].
    apply in_range_true in E. unfold in_guest_ram in Hx. lia. }
  split_and!; [|done|exact Hf]. pose proof Hs as [[] Hm Hp]. constructor; [|done|done]. constructor; try done.
  apply quiet_write_inv; [done|apply Hf].
Qed.

Lemma with_regs_safe own s regs : ffa_safe checks spmc start l0 own others s ->
  ffa_safe checks spmc start l0 own others (with_regs s regs).
Proof using. intros [[] Hm Hp]. constructor; [by constructor|done|done]. Qed.

Lemma run_guest_safe evs : forall s own,
  ffa_safe checks spmc start l0 own others s -> ss_next_handle (fs_store s) + Z.of_nat (length evs) < 2 ^ 64 ->
  let (s', rs) := run_guest checks el3 tfa rx evs s in
  Forall (fun c => call_result checks c.1 c.2) rs /\
  exists own', incl own own' /\ ffa_safe checks spmc start l0 own' others s' /\
    forall x, outside own' x -> ~ W x -> hm_mem (fs_mach s') x = hm_mem (fs_mach s) x.
Proof using HW.
  induction evs as [|[regs|a b] evs IH]; intros s own Hs Hn; cbn [run_guest length] in *.
  - split; [constructor|]. exists own. split_and!; [apply incl_refl|done|done].
  - pose proof (dispatch_safe own _ (with_regs_safe _ _ regs Hs) ltac:(cbn; lia)) as (Hr & (Hnx & own1 & Hin1 & Hs1 & Hx1) & _).
    destruct (handle_ffa_call _ _ _ _ _) as [s1 r]. cbn [fst snd] in *.
    assert (Hn1 : ss_next_handle (fs_store s1) + Z.of_nat (length evs) < 2 ^ 64)
      by (change (fs_store (with_regs s regs)) with (fs_store s) in Hnx; lia).
    destruct r as [v|e]; [|split; [by constructor|]; by exists own1].
    specialize (IH s1 own1 Hs1 Hn1).
    destruct (run_guest checks el3 tfa rx evs s1) as [s2 rs]. destruct IH as (Hrs & own2 & Hin2 & Hs2 & Hx2).
    split; [by constructor|]. exists own2. split_and!; [by eapply incl_tran|done|].
    intros x Hx Hg. rewrite Hx2 by done. apply Hx1; [by eapply outside_incl|done].
  - destruct (guest_store_safe _ _ a b Hs) as (Hs1 & Hst & _ & Hx1).
    assert (Hn1 : ss_next_handle (fs_store (guest_store a b s)) + Z.of_nat (length evs) < 2 ^ 64)
      by (rewrite Hst; lia).
    specialize (IH _ own Hs1 Hn1). destruct (run_guest checks el3 tfa rx evs _) as [s2 rs].
    destruct IH as (Hrs & own2 & Hin2 & Hs2 & Hx2). split; [done|]. exists own2. split_and!; [done|done|].
    intros x Hx Hg. rewrite Hx2, Hx1 by done. done.
Qed.

(** The tables of another VM are part of the heap that is not written. *)
Lemma other_lookup own' own ownb l0b s s' rest : others = map page_region ownb ++ rest -> s2_wf (hm_mem (fs_mach s)) l0b ownb ->
  ffa_safe checks spmc start l0 own' others s' -> incl own own' ->
  (forall x, outside own' x -> ~ W x -> hm_mem (fs_mach s') x = hm_mem (fs_mach s) x) ->
  forall ipa, s2_lookup (hm_mem (fs_mach s')) l0b ipa = s2_lookup (hm_mem (fs_mach s)) l0b ipa.
Proof using HW.
  intros -> Hb Hs' Hin Hx ipa. apply (s2_lookup_agree _ _ _ Hb). intros t Ht x Hxin.
  pose proof (fc_inv _ _ _ _ _ _ (sf_ctx _ _ _ _ _ _ _ Hs')) as [Hh _]. apply Hx.
  - intros u Hu Hux. pose proof (heap_ok_disjoint _ _ _ _ _ _ _ Hh Hu Ht). lia.
  - intros Hw. apply (ws_heap _ _ _ _ HW) in Hw. destruct Hh as (a & free & _ & He & [_ Hnx _ _ _ Hall _]).
    rewrite !Forall_app in Hall. destruct Hall as [(_ & Hall & _) _]. rewrite List.Forall_forall in Hall.
    specialize (Hall (page_region t) ltac:(by apply in_map)). cbn in Hall. lia.
Qed.
End Confined.

(** ** Claims *)


Definition ex_guest_events : list guest_event :=
  [GuestCall (mkRegs FFA_RXTX_MAP 0x48000000 0x48001000 1 0 0 0 0); GuestStore 0x48000000 1;
   GuestCall (mkRegs FFA_PARTITION_INFO_GET 0 0 0 0 0 0 0); GuestCall (mkRegs FFA_MSG_SEND2 0 0 0 0 0 0 0);
   GuestCall (mkRegs FFA_RUN 0 0 0 0 0 0 0);
   GuestCall ex_retrieve_regs; GuestCall (mkRegs FFA_MEM_RELINQUISH 1 0 0 0 0 0 0)].
(** An EL3 that leaves a byte in guest RAM, one in PROXY_RX_BUF and one in its own
    RAM, and answers SUCCESS with two partitions. *)
Definition ex_el3 (m : mem) (r : GpRegs) : mem * GpRegs :=
  (write8 (write8 (write8 m 0x48002000 1) 0x40301000 2) 0x0e200000 3, set_x2 2 (set_x0 FFA_SUCCESS_32 r)).
Definition ex_tx : Z := 0x40300000.
Definition ex_rx : Z := 0x40301000.

Lemma ex_secure_world : secure_world ex_el3 ex_start ex_tx ex_rx.
Proof.
  constructor; [|vm_compute; discriminate..].
  intros m r x Hx. unfold ex_el3. cbn [fst]. unfold ffa_writable, secure_area, in_guest_ram, ex_tx, ex_rx, GUEST_LOAD_ADDR, LINUX_MEM_SIZE in Hx.
  unfold write8, write_le.
  repeat match goal with |- context [in_range ?a ?n x] => destruct (in_range a n x) eqn:?E end;
    rewrite ?in_range_true in *; try done; exfalso; apply Hx; [right; split; [done|]..|left]; lia.
Qed.

(** The SPMC is present and PROXY_RX_BUF registered, as [init] leaves it with
    [tfa_boot]. *)
Definition ex_spmc (regs : GpRegs) : ffa_state :=
  let s := ex_ffa regs in
  mkFfa (fs_regs s) (fs_vm s) (fs_mach s) (fs_mbox s) (fs_store s) (fs_notif s) true true (fs_vttbr s) (fs_per_vm_vttbr s).

Lemma ex_spmc_safe checks regs : exists own, ffa_safe checks true ex_start ex_l0 own (map page_region ex_ownB ++ []) (ex_spmc regs).
Proof.
  destruct (ex_ffa_ctx checks regs) as (own & Hc). exists own. constructor; [|change (Forall mbox_ok MAILBOXES_init); repeat constructor; discriminate|reflexivity].
  destruct Hc as [Hc1 Hc2 Hc3 Hc4 Hc5 Hc6 Hc7 Hc8]. constructor; assumption.
Qed.


(** The six calls of the example all return to the guest, the relay and the two
    forwarded ones included. *)
Example ex_guest_returns :
  map snd (run_guest true ex_el3 true ex_rx ex_guest_events (ex_spmc ex_share_regs)).2 = repeat (Ok true : result bool string) 6.
Proof. vm_compute. reflexivity. Qed.

(** FFA_MSG_SEND2 adds 8 to the size the guest wrote into its own buffer: with a
    size of 2^32-8 or more and a receiver that is ready, a build with overflow
    checks panics, and one without answers SUCCESS. *)
Theorem send2_size_overflows (checks : bool) s mb rmb rv :
  fs_mbox s !! Z.to_nat (fs_vm s) = Some mb -> fs_vm s < FFA_MAX_VMS -> mb_mapped mb = true ->
  let m := hm_mem (fs_mach s) in
  read16 m (mb_tx_ipa mb) = vm_id_to_partition_id (fs_vm s) ->
  partition_id_to_vm_id (read16 m (mb_tx_ipa mb + 2)) = Some rv -> fs_mbox s !! Z.to_nat rv = Some rmb ->
  rv < FFA_MAX_VMS ->
  mb_mapped rmb = true -> mb_rx_held_by_proxy rmb = true -> mb_msg_pending rmb = false ->
  2 ^ 32 <= 8 + read32 m (mb_tx_ipa mb + 4) ->
  if checks then handle_msg_send2 checks s = (s, Err ADD_OVERFLOW)
  else (handle_msg_send2 checks s).2 = Ok true /\ rx0 (fs_regs (handle_msg_send2 checks s).1) = FFA_SUCCESS_32.
Proof.
  intros Hmb Hvm Hm m Hsnd Hrcv Hr Hrv Hrm Hrp Hrn Hsz.
  unfold handle_msg_send2, sm_bind, current_vm_id, get_mem, get_mailbox. cbv beta iota zeta.
  rewrite (proj2 (Z.ltb_lt _ _) Hvm), Hmb. cbv beta iota zeta. rewrite Hm. cbn [negb]. fold m.
  rewrite Hsnd, Z.eqb_refl, Hrcv. cbn [negb]. cbv beta iota zeta. rewrite (proj2 (Z.ltb_lt _ _) Hrv), Hr. cbv beta iota zeta.
  rewrite Hrm, Hrp, Hrn, (proj2 (Z.leb_le _ _) Hsz). cbn [negb]. destruct checks; cbn [andb overflow_check]; [done|]. by split.
Qed.

(** VM 0 sends to VM 1 with the size field at 2^32-8. *)
Definition ex_send2 : ffa_state :=
  let s := ex_ffa (mkRegs FFA_MSG_SEND2 0 0 0 0 0 0 0) in
  with_mbox (with_mach s (set_mem ex_s (write32 (write16 (write16 (hm_mem ex_s) 0x48000000 1) 0x48000002 2) 0x48000004 (2 ^ 32 - 8))))
    [mkMailbox 0x48000000 0x48001000 1 true true false 0; mkMailbox 0x48002000 0x48003000 1 true true false 0;
     FfaMailbox_new; FfaMailbox_new].
Lemma send2_size_overflows_witness :
  handle_msg_send2 true ex_send2 = (ex_send2, Err ADD_OVERFLOW) /\ (handle_msg_send2 false ex_send2).2 = Ok true.
Proof.
  pose proof (fun checks => send2_size_overflows checks ex_send2 (mkMailbox 0x48000000 0x48001000 1 true true false 0)
    (mkMailbox 0x48002000 0x48003000 1 true true false 0) 1 eq_refl eq_refl eq_refl
    ltac:(vm_compute; reflexivity) ltac:(vm_compute; reflexivity) eq_refl eq_refl eq_refl eq_refl eq_refl
    ltac:(vm_compute; discriminate)) as H.
  exact (conj (H true) (proj1 (H false))).
Defined.

(** FFA_MEM_DONATE is refused with NOT_SUPPORTED for every VM and state, with no
    effect but the error registers. *)
Theorem donate_always_refused checks el3 tfa rx s :
  rx0 (fs_regs s) = FFA_MEM_DONATE_32 \/ rx0 (fs_regs s) = FFA_MEM_DONATE_64 ->
  handle_ffa_call checks el3 tfa rx s =
  (with_regs s (set_x2 0xFFFFFFFF (set_x0 FFA_ERROR (fs_regs s))), Ok true).
Proof.
  intros H. unfold handle_ffa_call, sm_bind at 1, get_regs. cbv beta iota zeta.
  destruct H as [-> | ->]; reflexivity.
Qed.

Lemma donate_always_refused_witness :
  (handle_ffa_call true ex_el3 false 0 (ex_ffa (mkRegs FFA_MEM_DONATE_64 1 2 3 4 5 6 7))).2 = Ok true.
Proof.
  rewrite (donate_always_refused true ex_el3 false 0 (ex_ffa (mkRegs FFA_MEM_DONATE_64 1 2 3 4 5 6 7)) (or_intror eq_refl)).
  reflexivity.
Defined.

(** ** Divergences, on concrete states *)
Definition ex_five_ranges : list (Z * Z) :=
  [(0x40001000, 1); (0x40003000, 1); (0x40005000, 1); (0x40007000, 1); (0x40009000, 1)].
Definition ex_desc_state : ffa_state :=
  let s := ex_ffa (mkRegs FFA_MEM_SHARE_32 160 160 0 0 0 0 0) in
  with_mbox (with_mach s (set_mem ex_s (build_test_descriptor (hm_mem ex_s) 0x48000000 1 2 ex_five_ranges).1))
    (<[0%nat := mkMailbox 0x48000000 0x48001000 1 true true false 0]> MAILBOXES_init).
Definition sw_of (s : ffa_state) (ipa : Z) : option Z :=
  read_sw_bits (hm_mem (fs_mach s)) (from_vttbr (fs_vttbr s)) ipa.
Definition s2ap_of (s : ffa_state) (ipa : Z) : option Z :=
  read_s2ap (hm_mem (fs_mach s)) (from_vttbr (fs_vttbr s)) ipa.

(** A share of five ranges is accepted and all five pages become SharedOwned and
    read-only, but the record keeps four ranges: reclaim answers SUCCESS, forgets the
    share, and the fifth page stays SharedOwned and read-only for good. *)
Theorem reclaim_forgets_fifth_range :
  let s1 := (handle_mem_share true ex_desc_state).1 in
  let s2 := (handle_mem_reclaim true (with_regs s1 ex_reclaim_regs)).1 in
  rx0 (fs_regs s1) = FFA_SUCCESS_32 /\ sw_of s1 0x40009000 = Some 1 /\
  rx0 (fs_regs s2) = FFA_SUCCESS_32 /\ lookup_share_full (fs_store s2) 2 = None /\
  sw_of s2 0x40007000 = Some 0 /\ sw_of s2 0x40009000 = Some 1 /\ s2ap_of s2 0x40009000 = Some 1.
Proof. vm_compute. split_and!; reflexivity. Qed.

(** FFA_MEM_RECLAIM does not look at the caller: another VM reclaims the handle
    of a share it has no part in, with SUCCESS; the record is gone and the owner's
    page stays SharedOwned. *)
Theorem reclaim_by_any_vm :
  let s1 := ex_shared in
  let s_vm1 := mkFfa ex_reclaim_regs 1 (fs_mach s1) (fs_mbox s1) (fs_store s1) (fs_notif s1) false false
    (Mapper.new_with_vmid ex_l0B 2).1 (fs_per_vm_vttbr s1) in
  let s2 := (handle_mem_reclaim true s_vm1).1 in
  rx0 (fs_regs s2) = FFA_SUCCESS_32 /\ lookup_share_full (fs_store s2) 2 = None /\
  read_sw_bits (hm_mem (fs_mach s2)) (mkWalker ex_l0) 0x40001000 = Some 1.
Proof. vm_compute. split_and!; reflexivity. Qed.

(** Walker errors are dropped in the transition loop: with an exhausted heap a
    page of a 2MB block cannot be split out, FFA_MEM_LEND still answers SUCCESS, and
    the page keeps its state Owned and its read-write access. *)
Theorem lend_succeeds_without_transition :
  let s := with_mach (ex_ffa (mkRegs FFA_MEM_LEND_32 0 0 0x40001000 1 2 0 0))
    (mkMachine (hm_mem ex_s) (Some (mkBump 0x42000000 0x42000000 0 0)) []) in
  let s1 := (handle_mem_lend true s).1 in
  rx0 (fs_regs s1) = FFA_SUCCESS_32 /\ sw_of s1 0x40001000 = Some 0 /\ s2ap_of s1 0x40001000 = Some 3.
Proof. vm_compute. split_and!; reflexivity. Qed.

(** When all sixteen records are in use the share is refused with NO_MEMORY after
    the pages have been changed: they are SharedOwned and read-only with no handle
    to reclaim them. *)
Theorem no_memory_leaves_pages_shared :
  let full := mkStore (repeat (new_share 9 1 2 [] 0 false) 16) 10 in
  let s := with_store (ex_ffa ex_share_regs) full in
  let s1 := (handle_mem_share true s).1 in
  rx0 (fs_regs s1) = FFA_ERROR /\ rx2 (fs_regs s1) = u32 FFA_NO_MEMORY /\
  sw_of s1 0x40001000 = Some 1 /\ s2ap_of s1 0x40001000 = Some 1.
Proof. vm_compute. split_and!; reflexivity. Qed.
