(* ===== verification/FfaTlb.v ===== *)
(** * FfaTlb: the TLB of a VM across its FF-A calls

    The calls on memory of [ffa/proxy.rs] change the live Stage-2 tables of the
    VM that makes them.  Tlb shows that a run of the walker leaves no stale
    Stage-2 entry; here the same is shown of everything a guest does between
    two scheduling points: any FF-A calls, the failing, partly failing and
    forwarded ones included, and stores to its RAM, while the hardware fills the TLB from the
    tables at every step. *)

From Stdlib Require Import ZArith Lia Bool.
From stdpp Require Import base list strings.
From S2P Require Import Prelude Memory Allocator Stage2 Stage2Spec Stage2Boot Stage2Thms Tlb.
From S2P Require Import FfaCore FfaNotif FfaStore FfaProxy FfaShare FfaThms.
Import Walker.

Section Steps.
Context (l0 : Z).

(** From [h] to [h'] no Stage-2 entry becomes stale. *)
Definition tlb_step (h h' : machine) : Prop :=
  (exists tr, hm_trace h' = hm_trace h ++ tr) /\
  forall T T', coherent l0 (hm_mem h) T -> tlb_during l0 h h' T T' -> coherent l0 (hm_mem h') T'.

Lemma tlb_step_trans h h1 h2 : tlb_step h h1 -> tlb_step h1 h2 -> tlb_step h h2.
Proof using.
  intros [[tr1 E1] H1] [[tr2 E2] H2]. split; [exists (tr1 ++ tr2); by rewrite E2, E1, app_assoc|].
  intros T T' HT (tr & T2 & Htr & Hrun & Hhw). rewrite E2, E1, <- app_assoc in Htr. apply app_inv_head in Htr as <-.
  apply tlb_run_app in Hrun as (T1 & Hr1 & Hr2). apply (H2 T1); [|by exists tr2, T2].
  apply (H1 T T1 HT). exists tr1, T1. split_and!; [done|done|apply hw_moves_refl].
Qed.

(** Writes that change no translation. *)
Lemma tlb_step_same h h' : hm_trace h' = hm_trace h ->
  (forall ipa, s2_lookup (hm_mem h') l0 ipa = s2_lookup (hm_mem h) l0 ipa) -> tlb_step h h'.
Proof using.
  intros E Hl. split; [exists []; by rewrite app_nil_r|]. intros T T' HT (tr & T1 & Htr & Hrun & Hhw).
  assert (tr = []) as -> by (apply (app_inv_head (hm_trace h)); by rewrite app_nil_r, <- Htr).
  cbn [tlb_run] in Hrun. subst T1. intros ipa d Hin. unfold backed. rewrite Hl.
  destruct (Hhw _ Hin) as [Hi|He]; [by apply HT|]. cbn [entry_ipa entry_desc] in He. exists d. by rewrite <- Hl.
Qed.

Lemma tlb_step_ops start h own others h' : s2_inv start h l0 own others -> by_ops l0 h h' -> tlb_step h h'.
Proof using.
  intros Hi (os & Hos & ->). pose proof (surjective_pairing (run_ops (mkWalker l0) os h)) as E. split.
  - exact (run_ops_trace l0 os _ _ _ _ _ _ Hi Hos E).
  - intros T T'. exact (tlb_stage2_coherent l0 os start h own others _ _ T T' Hi Hos E).
Qed.

(** The tables lie in the heap, which calls and stores do not write. *)
Section Confined.
Context (checks spmc : bool) (el3 : mem -> GpRegs -> mem * GpRegs) (tfa : bool) (rx start : Z) (others : list region)
  (W : Z -> Prop) (HW : write_set el3 spmc start W).

Lemma quiet_lookup h own h' : s2_inv start h l0 own others -> quiet W h h' ->
  forall ipa, s2_lookup (hm_mem h') l0 ipa = s2_lookup (hm_mem h) l0 ipa.
Proof using HW.
  intros [(a & free & _ & He & [_ Hnx _ _ _ Hall _]) Hwf] [_ Hx] ipa. apply (s2_lookup_agree _ _ _ Hwf). intros t Ht x Hin.
  apply Hx. intros Hw. apply (ws_heap _ _ _ _ HW) in Hw. rewrite !Forall_app, Forall_map, List.Forall_forall in Hall.
  destruct Hall as [[Hall _] _]. specialize (Hall t Ht). cbn in Hall. lia.
Qed.

Lemma quiet_tlb h own h' : s2_inv start h l0 own others -> quiet W h h' -> tlb_step h h'.
Proof using HW. intros Hi Hq. apply tlb_step_same; [apply Hq|by eapply quiet_lookup]. Qed.

Lemma moves_tlb own s s' : ffa_safe checks spmc start l0 own others s -> moves l0 W s s' -> tlb_step (fs_mach s) (fs_mach s').
Proof using HW.
  intros Hs Hm. pose proof (fc_inv _ _ _ _ _ _ (sf_ctx _ _ _ _ _ _ _ Hs)) as Hi. destruct Hm as [Hq|Ho].
  - by eapply quiet_tlb.
  - by eapply tlb_step_ops.
Qed.

Lemma store_tlb own s a b : ffa_safe checks spmc start l0 own others s ->
  tlb_step (fs_mach s) (fs_mach (guest_store a b s)).
Proof using HW.
  intros Hs. pose proof (fc_inv _ _ _ _ _ _ (sf_ctx _ _ _ _ _ _ _ Hs)) as Hi. eapply quiet_tlb; [exact Hi|].
  by destruct (guest_store_safe _ _ _ _ _ _ _ HW _ _ a b Hs) as (_ & _ & Hq).
Qed.

Lemma run_tlb evs : forall s own, ffa_safe checks spmc start l0 own others s ->
  ss_next_handle (fs_store s) + Z.of_nat (length evs) < 2 ^ 64 ->
  tlb_step (fs_mach s) (fs_mach (run_guest checks el3 tfa rx evs s).1).
Proof using HW.
  induction evs as [|[regs|a b] evs IH]; intros s own Hs Hn; cbn [run_guest length] in *.
  - by apply tlb_step_same.
  - pose proof (with_regs_safe _ _ _ _ _ _ _ regs Hs) as Hs0.
    destruct (dispatch_safe _ _ _ tfa rx _ _ _ _ HW own _ Hs0 ltac:(cbn; lia)) as (_ & (Hnx & own1 & _ & Hs1 & _) & Hmv).
    apply (moves_tlb own _ _ Hs0) in Hmv. change (fs_mach (with_regs s regs)) with (fs_mach s) in Hmv.
    change (fs_store (with_regs s regs)) with (fs_store s) in Hnx.
    destruct (handle_ffa_call _ _ _ _ _) as [s1 [v|e]]; cbn [fst] in *; [|exact Hmv]. specialize (IH s1 own1 Hs1 ltac:(lia)).
    destruct (run_guest checks el3 tfa rx evs s1) as [s2 rs]. cbn [fst] in *. by eapply tlb_step_trans.
  - destruct (guest_store_safe _ _ _ _ _ _ _ HW _ _ a b Hs) as (Hs1 & Hst & _).
    apply (tlb_step_trans _ (fs_mach (guest_store a b s))); [by eapply store_tlb|].
    apply (IH _ own Hs1). rewrite Hst. lia.
Qed.
End Confined.
End Steps.

(** [T'] may be the TLB after the events [evs] of a VM that began with [T]. *)
Definition tlb_after (checks : bool) (el3 : mem -> GpRegs -> mem * GpRegs) (tfa : bool) (rx l0 : Z) (evs : list guest_event) (s : ffa_state) (T T' : tlb) : Prop :=
  tlb_during l0 (fs_mach s) (fs_mach (run_guest checks el3 tfa rx evs s).1) T T'.

(** C4. No stale Stage-2 translation across FF-A: whatever sequence of FF-A calls
    (any function id, any registers, any addresses in descriptors) and RAM stores
    a VM makes, with an SPMC behind the proxy that writes only what C1 allows it, or
    without one, and with the hardware filling the TLB from the live tables before
    and after every store to a descriptor and every TLB instruction: if every Stage-2
    entry of the TLB agreed with the tables of the VM before, every one does
    afterwards, so no page that was lent, shared, reclaimed, retrieved or given back
    can be reached through a Stage-2 entry with the permission it had before. *)
Theorem ffa_tlb_coherent checks el3 tfa tx rx start l0 own others evs s T T' :
  (fs_spmc_present s = true -> secure_world el3 start tx rx) ->
  ffa_safe checks (fs_spmc_present s) start l0 own others s ->
  ss_next_handle (fs_store s) + Z.of_nat (length evs) < 2 ^ 64 ->
  let s' := (run_guest checks el3 tfa rx evs s).1 in
  coherent l0 (hm_mem (fs_mach s)) T -> tlb_after checks el3 tfa rx l0 evs s T T' ->
  coherent l0 (hm_mem (fs_mach s')) T'.
Proof.
  intros Hsw Hs Hn. pose proof (ffa_write_set el3 (fs_spmc_present s) start tx rx Hsw) as HW.
  exact (proj2 (run_tlb l0 checks _ el3 tfa rx start others _ HW evs s own Hs Hn) T T').
Qed.

(** A VM lends a page of a 2MB block, takes it back, runs a secure
    partition and shares another page; the
    TLB held the block's translation and holds that of the shared page. *)
Definition ex_tlb_events : list guest_event :=
  [GuestCall (mkRegs FFA_MEM_LEND_32 0 0 0x40001000 1 2 0 0); GuestCall ex_reclaim_regs;
   GuestCall (mkRegs FFA_RUN 0 0 0 0 0 0 0); GuestStore 0x48000000 1; GuestCall (mkRegs FFA_MEM_SHARE_32 0 0 0x40003000 1 2 0 0)].
Lemma ffa_tlb_coherent_witness :
  let s' := (run_guest true ex_el3 true ex_rx ex_tlb_events (ex_spmc ex_share_regs)).1 in
  exists d T', s2_lookup (hm_mem (fs_mach s')) ex_l0 0x40003000 = Some d /\ pd_s2ap d = 1 /\ In (Stage2Entry 0x40003000 d) T' /\
    tlb_during ex_l0 (fs_mach (ex_spmc ex_share_regs)) (fs_mach s') ex_tlb T' /\ coherent ex_l0 (hm_mem (fs_mach s')) T'.
Proof.
  destruct (ex_spmc_safe true ex_share_regs) as (own & Hs).
  assert (Hn : ss_next_handle (fs_store (ex_spmc ex_share_regs)) + Z.of_nat (length ex_tlb_events) < 2 ^ 64) by (vm_compute; reflexivity).
  assert (Hd : option_map pd_s2ap (s2_lookup (hm_mem (fs_mach (run_guest true ex_el3 true ex_rx ex_tlb_events (ex_spmc ex_share_regs)).1)) ex_l0 0x40003000)
    = Some 1) by (vm_compute; reflexivity).
  assert (HT : coherent ex_l0 (hm_mem (fs_mach (ex_spmc ex_share_regs))) ex_tlb).
  { intros ipa d [[= <- <-]|[]]. eexists. split; [vm_compute; reflexivity|reflexivity]. }
  pose proof (fun T' => ffa_tlb_coherent true ex_el3 true ex_tx ex_rx ex_start ex_l0 own _ ex_tlb_events (ex_spmc ex_share_regs) ex_tlb T' (fun _ => ex_secure_world) Hs Hn) as Hcoh.
  unfold tlb_after in Hcoh.
  pose proof (proj1 (run_tlb ex_l0 true true ex_el3 true ex_rx ex_start _ _ (ffa_write_set _ _ _ ex_tx ex_rx (fun _ => ex_secure_world)) ex_tlb_events _ own Hs Hn)) as Htr.
  cbv zeta in Hcoh |- *. generalize dependent (run_guest true ex_el3 true ex_rx ex_tlb_events (ex_spmc ex_share_regs)). intros [s' rs] Hd Hcoh [tr Htr].
  cbn [fst] in *. destruct (s2_lookup _ ex_l0 0x40003000) as [d|] eqn:El; [|discriminate Hd]. injection Hd as Hd.
  destruct (tlb_run_total ex_l0 tr ex_tlb) as [T1 HT1].
  assert (D : tlb_during ex_l0 (fs_mach (ex_spmc ex_share_regs)) (fs_mach s') ex_tlb (Stage2Entry 0x40003000 d :: T1)).
  { exists tr, T1. split_and!; [exact Htr|exact HT1|]. intros en [<-|Hin]; [right; exact El|left; exact Hin]. }
  exists d, (Stage2Entry 0x40003000 d :: T1). split_and!; [reflexivity|exact Hd|left; reflexivity|exact D|exact (Hcoh _ HT D)].
Defined.

(** The calls on memory check no range: an address with bits above the 48 that
    Stage-2 translates is taken for the address without them. *)
Lemma share_accepts_wide_address :
  let s1 := (handle_mem_share true (ex_ffa (mkRegs FFA_MEM_SHARE_32 0 0 (2 ^ 48 + 0x40001000) 1 2 0 0))).1 in
  rx0 (fs_regs s1) = FFA_SUCCESS_32 /\ sw_of s1 0x40001000 = Some 1 /\ s2ap_of s1 0x40001000 = Some 1.
Proof. vm_compute. split_and!; reflexivity. Qed.
