(* ===== verification/Sync.v ===== *)
(** * Sync: the ticket spin lock of [sync.rs]

    [SpinLock<T>] with its two atomics and its data, the guard with its
    ticket, and the interleavings of any number of cores that take and drop
    guards.  The atomics are sequentially consistent here: the acquire load of
    [lock] and the release store of [drop] are the only accesses whose order
    matters to a client, and both are events of the trace.  The main theorem is
    that the lock implements a FIFO queue of cores. *)

From stdpp Require Import base decidable option list numbers.
From S2P Require Import Prelude.

Section SpinLocks.
Context {T : Type}.

Record SpinLock := {
  next_ticket : Z;
  now_serving : Z;
  data : T
}.

Definition spinlock_new (d : T) : SpinLock :=
  {| next_ticket := 0; now_serving := 0; data := d |}.

(** Where a core is with respect to the lock: outside, in the loop of [lock]
    with the ticket it drew, or holding the guard. *)
Inductive lock_pc :=
| Outside
| Spin (ticket : Z)
| Guard (ticket : Z).

(** [self.next_ticket.fetch_add(1)] *)
Definition draw_ticket (l : SpinLock) : SpinLock * Z :=
  ({| next_ticket := u32 (next_ticket l + 1); now_serving := now_serving l; data := data l |},
   next_ticket l).

(** One test of the loop of [lock]. *)
Definition poll_ticket (l : SpinLock) (ticket : Z) : lock_pc :=
  if negb (now_serving l =? ticket) then Spin ticket else Guard ticket.

(** An update of the data through the guard ([DerefMut]). *)
Definition deref_mut (f : T -> T) (l : SpinLock) : SpinLock :=
  {| next_ticket := next_ticket l; now_serving := now_serving l; data := f (data l) |}.

(** [drop]: with overflow checks the addition panics, without them it wraps. *)
Definition drop_guard (checks : bool) (l : SpinLock) (ticket : Z) : option SpinLock :=
  if checks && (2 ^ 32 <=? ticket + 1) then None
  else Some {| next_ticket := next_ticket l; now_serving := u32 (ticket + 1); data := data l |}.

(** ** Interleavings *)
Inductive lock_event :=
| EvDraw (core : nat)
| EvPoll (core : nat)
| EvUpdate (core : nat) (f : T -> T)
| EvDrop (core : nat).

Record lock_sys := { ls_lock : SpinLock; ls_cores : list lock_pc }.

Definition lock_init (n : nat) (d : T) : lock_sys :=
  {| ls_lock := spinlock_new d; ls_cores := replicate n Outside |}.

(** [None] where the core is not at a point where the event can happen, and
    where the code panics. *)
Definition lock_step (checks : bool) (st : lock_sys) (ev : lock_event) : option lock_sys :=
  let l := ls_lock st in let cs := ls_cores st in
  match ev with
  | EvDraw i =>
      match cs !! i with
      | Some Outside => let (l', t) := draw_ticket l in
                        Some {| ls_lock := l'; ls_cores := <[i := Spin t]> cs |}
      | _ => None
      end
  | EvPoll i =>
      match cs !! i with
      | Some (Spin t) => Some {| ls_lock := l; ls_cores := <[i := poll_ticket l t]> cs |}
      | _ => None
      end
  | EvUpdate i f =>
      match cs !! i with
      | Some (Guard _) => Some {| ls_lock := deref_mut f l; ls_cores := cs |}
      | _ => None
      end
  | EvDrop i =>
      match cs !! i with
      | Some (Guard t) =>
          match drop_guard checks l t with
          | Some l' => Some {| ls_lock := l'; ls_cores := <[i := Outside]> cs |}
          | None => None
          end
      | _ => None
      end
  end.

Fixpoint lock_run (checks : bool) (st : lock_sys) (evs : list lock_event) : option lock_sys :=
  match evs with
  | [] => Some st
  | ev :: evs => match lock_step checks st ev with
                 | Some st' => lock_run checks st' evs
                 | None => None
                 end
  end.

(** ** What the lock promises: a FIFO queue of cores

    [fq_queue] are the cores that asked for the lock and have not dropped it,
    oldest first; only the head may hold it, and only the holder touches the
    data. *)
Record fifo_lock := { fq_queue : list nat; fq_held : bool; fq_data : T }.

Definition fifo_init (d : T) : fifo_lock := {| fq_queue := []; fq_held := false; fq_data := d |}.

Definition fifo_holder (a : fifo_lock) : option nat :=
  if fq_held a then head (fq_queue a) else None.

Definition fifo_step (n : nat) (a : fifo_lock) (ev : lock_event) : option fifo_lock :=
  match ev with
  | EvDraw i =>
      if decide ((i < n)%nat /\ i ∉ fq_queue a)
      then Some {| fq_queue := fq_queue a ++ [i]; fq_held := fq_held a; fq_data := fq_data a |}
      else None
  | EvPoll i =>
      if decide (i ∈ fq_queue a /\ fifo_holder a <> Some i)
      then Some {| fq_queue := fq_queue a;
                   fq_held := bool_decide (fq_held a = true \/ head (fq_queue a) = Some i);
                   fq_data := fq_data a |}
      else None
  | EvUpdate i f =>
      if decide (fifo_holder a = Some i)
      then Some {| fq_queue := fq_queue a; fq_held := fq_held a; fq_data := f (fq_data a) |}
      else None
  | EvDrop i =>
      if decide (fifo_holder a = Some i)
      then Some {| fq_queue := tail (fq_queue a); fq_held := false; fq_data := fq_data a |}
      else None
  end.

Fixpoint fifo_run (n : nat) (a : fifo_lock) (evs : list lock_event) : option fifo_lock :=
  match evs with
  | [] => Some a
  | ev :: evs => match fifo_step n a ev with
                 | Some a' => fifo_run n a' evs
                 | None => None
                 end
  end.

(** The core at position [k] of the queue has the ticket [k] after the one
    being served. *)
Definition queue_pc (serving : Z) (held : bool) (k : nat) : lock_pc :=
  if bool_decide (k = 0%nat) && held then Guard serving else Spin (u32 (serving + Z.of_nat k)).

Record lock_rel (n : nat) (st : lock_sys) (a : fifo_lock) : Prop := {
  lr_data : data (ls_lock st) = fq_data a;
  lr_len : length (ls_cores st) = n;
  lr_now : fits 32 (now_serving (ls_lock st));
  lr_next : next_ticket (ls_lock st) = u32 (now_serving (ls_lock st) + Z.of_nat (length (fq_queue a)));
  lr_nodup : NoDup (fq_queue a);
  lr_bound : forall i, i ∈ fq_queue a -> (i < n)%nat;
  lr_in : forall k i, fq_queue a !! k = Some i ->
            ls_cores st !! i = Some (queue_pc (now_serving (ls_lock st)) (fq_held a) k);
  lr_out : forall i, (i < n)%nat -> i ∉ fq_queue a -> ls_cores st !! i = Some Outside;
  lr_held : fq_held a = true -> fq_queue a <> []
}.

(** ** Simulation *)
Lemma queue_pc_tail serving held k : fits 32 serving ->
  queue_pc (u32 (serving + 1)) false k = queue_pc serving held (S k).
Proof.
  intros Hf. unfold queue_pc. rewrite andb_false_r. simpl. f_equal.
  unfold u32, wrap. rewrite Zplus_mod_idemp_l. f_equal. lia.
Qed.

Lemma queue_pc_poll n (st : lock_sys) a k i : Z.of_nat n <= 2 ^ 32 -> lock_rel n st a ->
  fq_queue a !! k = Some i ->
  (now_serving (ls_lock st) =? u32 (now_serving (ls_lock st) + Z.of_nat k)) = bool_decide (k = 0%nat).
Proof.
  intros Hn R Hk. destruct R. pose proof (lookup_lt_Some _ _ _ Hk) as Hlt.
  assert (length (fq_queue a) <= n)%nat.
  { rewrite <- (length_seq n 0). apply submseteq_length, NoDup_submseteq; [done|].
    intros x Hx. apply elem_of_seq. split; [lia|]. simpl. apply lr_bound0. done. }
  unfold u32, wrap. unfold fits in lr_now0. set (s := now_serving (ls_lock st)) in *.
  destruct (Nat.eq_dec k 0%nat) as [->|]; [rewrite bool_decide_eq_true_2 by done|rewrite bool_decide_eq_false_2 by done].
  - apply Z.eqb_eq. rewrite Z.add_0_r. symmetry. apply Z.mod_small. done.
  - apply Z.eqb_neq. intros He.
    pose proof (Z.div_mod (s + Z.of_nat k) (2 ^ 32) ltac:(lia)).
    assert (0 < (s + Z.of_nat k) / 2 ^ 32 \/ (s + Z.of_nat k) / 2 ^ 32 <= 0) as [|] by lia; nia.
Qed.

Lemma in_queue n (st : lock_sys) a i pc : lock_rel n st a -> ls_cores st !! i = Some pc -> pc <> Outside ->
  exists k, fq_queue a !! k = Some i /\ pc = queue_pc (now_serving (ls_lock st)) (fq_held a) k.
Proof.
  intros [] Hi Hpc. destruct (decide (i ∈ fq_queue a)) as [Hin|Hin].
  - apply list_elem_of_lookup in Hin as [k Hk]. exists k. split; [done|].
    specialize (lr_in0 _ _ Hk). congruence.
  - apply lookup_lt_Some in Hi as Hlt. rewrite lr_len0 in Hlt.
    specialize (lr_out0 _ Hlt Hin). congruence.
Qed.

Lemma holder_iff n (st : lock_sys) a i : lock_rel n st a ->
  fifo_holder a = Some i <-> exists t, ls_cores st !! i = Some (Guard t).
Proof.
  intros R. unfold fifo_holder. split.
  - destruct (fq_held a) eqn:Hh; [|done]. intros Hq. destruct R.
    destruct (fq_queue a) as [|j q] eqn:Eq; [done|]. simpl in Hq. injection Hq as ->.
    specialize (lr_in0 0%nat i eq_refl). unfold queue_pc in lr_in0. rewrite Hh in lr_in0. simpl in lr_in0. eauto.
  - intros [t Ht]. destruct (in_queue _ _ _ _ _ R Ht ltac:(done)) as (k & Hk & Hpc).
    unfold queue_pc in Hpc. destruct (fq_held a); [|by rewrite andb_false_r in Hpc].
    destruct k; [|done]. by destruct (fq_queue a).
Qed.

(** Both sides agree on whether the event can happen, and stay related. *)
Definition step_agree (n : nat) (o : option lock_sys) (o' : option fifo_lock) : Prop :=
  match o, o' with
  | Some st, Some a => lock_rel n st a
  | None, None => True
  | _, _ => False
  end.

Lemma draw_sim n st a i : lock_rel n st a ->
  step_agree n (lock_step false st (EvDraw i)) (fifo_step n a (EvDraw i)).
Proof.
  intros R. simpl. destruct (decide (_ /\ _)) as [[Hi Hq]|Hno].
  - rewrite (lr_out _ _ _ R i Hi Hq). simpl. destruct R.
    split; simpl; [done|by rewrite length_insert|done| | | | | |].
    + rewrite lr_next0, length_app. simpl. unfold u32, wrap. rewrite Zplus_mod_idemp_l. f_equal. lia.
    + apply list.NoDup_app. split_and!; [done| |apply NoDup_singleton]. intros x Hx ->%list_elem_of_singleton. done.
    + intros x [Hx| ->%list_elem_of_singleton]%elem_of_app; auto.
    + intros k j Hk. apply lookup_app_Some in Hk as [Hk|[Hge Hk]].
      * rewrite list_lookup_insert_ne; [auto|]. intros ->. apply list_elem_of_lookup_2 in Hk. done.
      * apply list_lookup_singleton_Some in Hk as [Hk <-]. rewrite list_lookup_insert_eq by lia.
        replace k with (length (fq_queue a)) by lia. unfold queue_pc.
        destruct (fq_queue a) as [|y q] eqn:Eq; simpl; [|by rewrite lr_next0].
        destruct (fq_held a); [by destruct lr_held0|]. simpl. by rewrite lr_next0.
    + intros j Hj Hnq. apply not_elem_of_app in Hnq as [Hjq Hji%not_elem_of_cons].
      rewrite list_lookup_insert_ne by (intros ->; by destruct Hji). by apply lr_out0.
    + intros _. by destruct (fq_queue a).
  - destruct (ls_cores st !! i) as [[]|] eqn:E; try done. apply Hno.
    pose proof (lookup_lt_Some _ _ _ E) as Hlt. rewrite (lr_len _ _ _ R) in Hlt. split; [done|].
    intros (k & Hk)%list_elem_of_lookup. rewrite (lr_in _ _ _ R _ _ Hk) in E.
    unfold queue_pc in E. by destruct (_ && _).
Qed.

Lemma update_sim n st a i f : lock_rel n st a ->
  step_agree n (lock_step false st (EvUpdate i f)) (fifo_step n a (EvUpdate i f)).
Proof.
  intros R. simpl. destruct (decide _) as [H|H].
  - apply (holder_iff n st) in H as [t Ht]; [|done]. rewrite Ht. simpl.
    destruct R. split; simpl; try done. by rewrite lr_data0.
  - destruct (ls_cores st !! i) as [[]|] eqn:E; try done. apply H, (holder_iff n st); eauto.
Qed.

Lemma drop_sim n st a i : lock_rel n st a ->
  step_agree n (lock_step false st (EvDrop i)) (fifo_step n a (EvDrop i)).
Proof.
  intros R. simpl. destruct (decide _) as [H|H].
  - destruct (proj1 (holder_iff n st a i R) H) as [t Ht]. rewrite Ht. simpl.
    unfold fifo_holder in H. destruct (fq_held a) eqn:Hh; [|done].
    destruct a as [[|j q] h d]; simpl in *; [done|]. injection H as ->. subst h.
    destruct R; simpl in *. pose proof (lr_in0 0%nat i eq_refl) as Hi. unfold queue_pc in Hi. simpl in Hi.
    rewrite Ht in Hi. injection Hi as ->. apply list.NoDup_cons in lr_nodup0 as [Hiq Hnd].
    split; simpl; [done|by rewrite length_insert| | |done| | | |done].
    + apply wrap_fits. lia.
    + rewrite lr_next0. unfold u32, wrap. rewrite Zplus_mod_idemp_l. f_equal. lia.
    + intros x Hx. apply lr_bound0. by right.
    + intros k j Hk. rewrite list_lookup_insert_ne.
      * rewrite (lr_in0 (S k) j Hk). f_equal. symmetry. by apply queue_pc_tail.
      * intros ->. apply list_elem_of_lookup_2 in Hk. done.
    + intros j Hj Hn. destruct (decide (j = i)) as [->|].
      * rewrite list_lookup_insert_eq; [done|lia].
      * rewrite list_lookup_insert_ne by done. apply lr_out0; [done|]. by apply not_elem_of_cons.
  - destruct (ls_cores st !! i) as [[]|] eqn:E; try done. apply H, (holder_iff n st); eauto.
Qed.

Lemma poll_sim n st a i : Z.of_nat n <= 2 ^ 32 -> lock_rel n st a ->
  step_agree n (lock_step false st (EvPoll i)) (fifo_step n a (EvPoll i)).
Proof.
  intros Hn R. simpl. destruct (decide (_ /\ _)) as [[Hin Hh]|Hno].
  - apply list_elem_of_lookup in Hin as [k Hk]. pose proof (lr_in _ _ _ R _ _ Hk) as Hpc.
    pose proof (queue_pc_poll n st a k i Hn R Hk) as Hp.
    assert (bool_decide (k = 0%nat) && fq_held a = false) as Hkh.
    { destruct k, (fq_held a) eqn:E; try done. exfalso. apply Hh. unfold fifo_holder. rewrite E.
      by destruct (fq_queue a). }
    rewrite Hpc. unfold queue_pc at 1. rewrite Hkh. simpl. unfold poll_ticket. rewrite Hp.
    pose proof (lookup_lt_Some _ _ _ Hpc) as Hlt.
    destruct R. split; simpl; [done|by rewrite length_insert|done|done|done|done| | |].
    + intros k' j Hk'. destruct (decide (j = i)) as [->|Hj].
      * assert (k' = k) as -> by (by eapply NoDup_lookup). rewrite list_lookup_insert_eq by done.
        destruct k as [|k]; simpl in *.
        -- rewrite bool_decide_eq_true_2; [|right; by destruct (fq_queue a)]. unfold queue_pc. simpl.
           do 2 f_equal. by apply Z.eqb_eq in Hp.
        -- unfold queue_pc. simpl. done.
      * rewrite list_lookup_insert_ne by done. rewrite (lr_in0 _ _ Hk'). f_equal. unfold queue_pc.
        destruct k' as [|k']; simpl; [|done].
        assert (head (fq_queue a) = Some j) as -> by (by destruct (fq_queue a)).
        destruct (fq_held a); [by rewrite bool_decide_eq_true_2 by auto|].
        rewrite bool_decide_eq_false_2; [done|]. intros [|[= ->]]; done.
    + intros j Hj Hnj. rewrite list_lookup_insert_ne; [auto|]. intros ->.
      apply list_elem_of_lookup_2 in Hk. done.
    + intros _ Hq. by rewrite Hq in Hk.
  - destruct (ls_cores st !! i) as [[]|] eqn:E; try done. apply Hno.
    destruct (in_queue _ _ _ _ _ R E ltac:(done)) as (k & Hk & _).
    split; [by eapply list_elem_of_lookup_2|]. intros [t Ht]%(holder_iff n st); [congruence|done].
Qed.

Lemma lock_step_sim n st a ev : Z.of_nat n <= 2 ^ 32 -> lock_rel n st a ->
  step_agree n (lock_step false st ev) (fifo_step n a ev).
Proof. destruct ev; auto using draw_sim, poll_sim, update_sim, drop_sim. Qed.

Lemma lock_run_sim n evs : forall st a, Z.of_nat n <= 2 ^ 32 -> lock_rel n st a ->
  step_agree n (lock_run false st evs) (fifo_run n a evs).
Proof.
  induction evs as [|ev evs IH]; intros st a Hn R; [done|]. simpl.
  pose proof (lock_step_sim n st a ev Hn R) as H. unfold step_agree in H.
  destruct (lock_step false st ev), (fifo_step n a ev); try done. auto.
Qed.

Lemma lock_init_rel n d : lock_rel n (lock_init n d) (fifo_init d).
Proof.
  split; simpl; try done; [by rewrite length_replicate|constructor|by intros ? ?%elem_of_nil|].
  intros i Hi _. by apply lookup_replicate_2.
Qed.

(** ** Wrap-around of the ticket *)

(** [k] rounds of taking and dropping the lock by the only core. *)
Fixpoint lock_rounds (k : nat) : list (lock_event) :=
  match k with
  | O => []
  | S k => lock_rounds k ++ [EvDraw 0; EvPoll 0; EvDrop 0]
  end.

Definition lone_state (t : Z) (d : T) : lock_sys :=
  {| ls_lock := {| next_ticket := t; now_serving := t; data := d |}; ls_cores := [Outside] |}.

Lemma lock_run_app c evs evs' : forall st, lock_run c st (evs ++ evs') =
  match lock_run c st evs with Some st' => lock_run c st' evs' | None => None end.
Proof. induction evs as [|e evs IH]; intros st; simpl; [done|]. destruct (lock_step c st e); auto. Qed.

Lemma lone_round c t d : lock_run c (lone_state t d) [EvDraw 0; EvPoll 0; EvDrop 0] =
  if c && (2 ^ 32 <=? t + 1) then None else Some (lone_state (u32 (t + 1)) d).
Proof.
  cbn. unfold poll_ticket. cbn. rewrite Z.eqb_refl. cbn. unfold drop_guard.
  by destruct (c && _).
Qed.

Lemma lone_rounds c d k : c = false \/ Z.of_nat k < 2 ^ 32 ->
  lock_run c (lone_state 0 d) (lock_rounds k) = Some (lone_state (u32 (Z.of_nat k)) d).
Proof.
  induction k as [|k IH]; intros Hc; [done|]. cbn [lock_rounds].
  rewrite lock_run_app, IH by (destruct Hc; [by left|right; lia]).
  rewrite lone_round. destruct Hc as [->|Hk].
  - cbn [andb]. do 2 f_equal. unfold u32, wrap. rewrite Zplus_mod_idemp_l. f_equal. lia.
  - unfold u32. rewrite (wrap_id 32 (Z.of_nat k)) by (unfold fits; lia).
    destruct (Z.leb_spec (2 ^ 32) (Z.of_nat k + 1)) as [|_]; [lia|].
    rewrite andb_false_r. do 3 f_equal. lia.
Qed.

Lemma lone_wrap d k : Z.of_nat k = 2 ^ 32 ->
  lock_run false (lock_init 1 d) (lock_rounds k) = Some (lock_init 1 d) /\
  lock_run true (lock_init 1 d) (lock_rounds k) = None.
Proof.
  intros Hk. change (lock_init 1 d) with (lone_state 0 d). split.
  - rewrite lone_rounds by auto. by rewrite Hk.
  - destruct k as [|k]; [done|]. cbn [lock_rounds].
    rewrite lock_run_app, lone_rounds by (right; lia). rewrite lone_round.
    unfold u32. rewrite wrap_id by (unfold fits; lia).
    destruct (Z.leb_spec (2 ^ 32) (Z.of_nat k + 1)); [done|lia].
Qed.
End SpinLocks.
Arguments SpinLock : clear implicits.
Arguments lock_event : clear implicits.
Arguments lock_sys : clear implicits.
Arguments fifo_lock : clear implicits.

(** C30. The ticket lock is a FIFO lock: for any number of cores up to 2^32 and
    any interleaving of drawing tickets, polling, updating the data and
    dropping guards, the ticket lock and the abstract queue of cores allow the
    same events, the data agree, and the cores that hold a guard are exactly
    the head of the queue once it has been served (so at most one core holds
    the lock, cores are served in the order in which they drew tickets, and a
    poll of the head always succeeds). *)
Theorem ticket_lock_is_fifo {T : Type} (n : nat) (d : T) (evs : list (lock_event T)) :
  Z.of_nat n <= 2 ^ 32 ->
  match lock_run false (lock_init n d) evs, fifo_run n (fifo_init d) evs with
  | Some st, Some a =>
      data (ls_lock st) = fq_data a /\
      (forall i, fifo_holder a = Some i <-> exists t, ls_cores st !! i = Some (Guard t))
  | None, None => True
  | _, _ => False
  end.
Proof.
  intros Hn. pose proof (lock_run_sim n evs _ _ Hn (lock_init_rel n d)) as H. unfold step_agree in H.
  destruct (lock_run _ _ _) as [st|], (fifo_run _ _ _) as [a|]; try done.
  split; [apply (lr_data _ _ _ H)|]. intros i. by apply (holder_iff n).
Qed.

Definition ex_lock_events : list (lock_event Z) :=
  [EvDraw 2; EvDraw 0; EvPoll 0; EvPoll 2; EvUpdate 2 (Z.add 5); EvPoll 0; EvDrop 2; EvDraw 1;
   EvPoll 1; EvPoll 0; EvUpdate 0 (Z.mul 2)].

Lemma ticket_lock_is_fifo_witness :
  data (ls_lock (default (lock_init 3 1) (lock_run false (lock_init 3 1) ex_lock_events))) = 12 /\
  fifo_holder (default (fifo_init 1) (fifo_run 3 (fifo_init 1) ex_lock_events)) = Some 0%nat.
Proof.
  pose proof (ticket_lock_is_fifo 3 1 ex_lock_events ltac:(lia)) as H. vm_compute in H.
  destruct H as [_ H]. split; [reflexivity|]. apply H. eexists. reflexivity.
Defined.

(** Tickets wrap around at 2^32: without overflow checks the lock goes on
    working, while in a build with overflow checks (the [dev] profile) the
    drop that ends the 2^32-th critical section panics. *)
Theorem lock_ticket_wraps {T : Type} (d : T) :
  lock_run false (lock_init 1 d) (lock_rounds (Z.to_nat (2 ^ 32))) = Some (lock_init 1 d) /\
  lock_run true (lock_init 1 d) (lock_rounds (Z.to_nat (2 ^ 32))) = None.
Proof.
  apply lone_wrap. apply Z2Nat.id. lia.
Qed.
