(* ===== verification/Rings.v ===== *)
(** * Rings: the single-producer single-consumer rings

    [UartRxRing] of [global.rs] (filled by the interrupt handler, drained by
    the run loop) and [NetRxRing] of [vswitch.rs] (filled by the switch,
    drained by the run loop) are the same lock-free algorithm on slots of
    different types.  Both are given as whole operations, as the callers see
    them, and as programs of single atomic accesses that any interleaving of
    one producer and one consumer may run.  The main theorem is that every
    interleaving behaves like a bounded FIFO queue and never touches a slot
    from both sides at once.  The atomics are sequentially consistent here. *)

From stdpp Require Import base decidable option list numbers.
From S2P Require Import Prelude.

(** ** The ring *)
Record ring (S : Type) := {
  rg_slots : list S;
  rg_head : nat;
  rg_tail : nat
}.
Arguments rg_slots {S} _.
Arguments rg_head {S} _.
Arguments rg_tail {S} _.

Definition set_slot {S} (r : ring S) (i : nat) (s : S) : ring S :=
  {| rg_slots := <[i := s]> (rg_slots r); rg_head := rg_head r; rg_tail := rg_tail r |}.
Definition set_rg_head {S} (r : ring S) (h : nat) : ring S :=
  {| rg_slots := rg_slots r; rg_head := h; rg_tail := rg_tail r |}.
Definition set_rg_tail {S} (r : ring S) (t : nat) : ring S :=
  {| rg_slots := rg_slots r; rg_head := rg_head r; rg_tail := t |}.

(** What the algorithm needs of a slot: writing a value into it in place, and
    reading it. *)
Class SlotOps (V S : Type) := {
  slot_write : V -> S -> S;
  slot_read : S -> V;
  slot_valid : V -> Prop
}.
Class SlotLaws V S `{SlotOps V S} : Prop :=
  slot_read_write : forall (v : V) (s : S), slot_valid v -> slot_read (slot_write v s) = v.

(** ** [UartRxRing] *)
Definition UART_RX_RING_SIZE : nat := 64.
Definition UartRxRing := ring Z.
Definition uart_ring_new : UartRxRing :=
  {| rg_slots := replicate UART_RX_RING_SIZE 0; rg_head := 0; rg_tail := 0 |}.

Definition uart_ring_push (r : UartRxRing) (ch : Z) : UartRxRing :=
  let tail := rg_tail r in
  let next := ((tail + 1) mod UART_RX_RING_SIZE)%nat in
  if (next =? rg_head r)%nat then r else
  set_rg_tail (set_slot r tail ch) next.

Definition uart_ring_pop (r : UartRxRing) : UartRxRing * option Z :=
  let head := rg_head r in
  if (head =? rg_tail r)%nat then (r, None) else
  let ch := rg_slots r !! head in
  (set_rg_head r ((head + 1) mod UART_RX_RING_SIZE)%nat, ch).

#[export] Instance byte_slot : SlotOps Z Z :=
  {| slot_write v _ := v; slot_read s := s; slot_valid _ := True |}.
#[export] Instance byte_slot_laws : SlotLaws Z Z.
Proof. intros v s _. reflexivity. Qed.

(** ** [NetRxRing] *)
Definition MAX_FRAME_SIZE : nat := 1514.
Definition NET_RX_RING_SIZE : nat := 9.

Record FrameSlot := { fr_buf : list Z; fr_len : Z }.
Definition frame_slot_new : FrameSlot := {| fr_buf := replicate MAX_FRAME_SIZE 0; fr_len := 0 |}.

Definition NetRxRing := ring FrameSlot.
Definition net_ring_new : NetRxRing :=
  {| rg_slots := replicate NET_RX_RING_SIZE frame_slot_new; rg_head := 0; rg_tail := 0 |}.

(** [slot.buf[..len].copy_from_slice(frame); slot.len = len as u16] *)
Definition fill_slot (frame : list Z) (s : FrameSlot) : FrameSlot :=
  {| fr_buf := frame ++ drop (length frame) (fr_buf s); fr_len := u16 (Z.of_nat (length frame)) |}.

Definition net_ring_store (r : NetRxRing) (frame : list Z) : NetRxRing * bool :=
  let len := length frame in
  if (len =? 0)%nat || (MAX_FRAME_SIZE <? len)%nat then (r, false) else
  let tail := rg_tail r in
  let next := ((tail + 1) mod NET_RX_RING_SIZE)%nat in
  if (next =? rg_head r)%nat then (r, false) else
  match rg_slots r !! tail with
  | Some s => (set_rg_tail (set_slot r tail (fill_slot frame s)) next, true)
  | None => (r, false)
  end.

(** [take] copies into the caller's buffer as much of the frame as fits and
    returns the length of the frame. *)
Definition copy_out (s : FrameSlot) (buf : list Z) : list Z * nat :=
  let len := Z.to_nat (fr_len s) in
  let copy_len := Nat.min len (length buf) in
  (take copy_len (fr_buf s) ++ drop copy_len buf, len).

Definition net_ring_take (r : NetRxRing) (buf : list Z) : NetRxRing * list Z * option nat :=
  let head := rg_head r in
  if (head =? rg_tail r)%nat then (r, buf, None) else
  match rg_slots r !! head with
  | Some s => let (buf', len) := copy_out s buf in
              (set_rg_head r ((head + 1) mod NET_RX_RING_SIZE)%nat, buf', Some len)
  | None => (r, buf, None)
  end.

Definition net_ring_is_empty (r : NetRxRing) : bool := (rg_head r =? rg_tail r)%nat.

#[export] Instance frame_slot : SlotOps (list Z) FrameSlot :=
  {| slot_write := fill_slot;
     slot_read s := take (Z.to_nat (fr_len s)) (fr_buf s);
     slot_valid f := (0 < length f <= MAX_FRAME_SIZE)%nat |}.
#[export] Instance frame_slot_laws : SlotLaws (list Z) FrameSlot.
Proof.
  intros f s Hf. cbn in *. unfold u16. rewrite wrap_id.
  - rewrite Nat2Z.id, take_app_le by lia. apply take_ge. lia.
  - unfold fits, MAX_FRAME_SIZE in *. lia.
Qed.

(** ** The interleavings of one producer and one consumer *)
Section SPSC.
Context {V S : Type} `{SlotOps V S} (N : nat).

(** The producer loads [tail], loads [head] and compares, writes the slot, and
    publishes it with the store to [tail]; the consumer loads [head], loads
    [tail] and compares, reads the slot, and frees it with the store to
    [head].  One constructor per point between two accesses. *)
Inductive prod_pc :=
| PIdle
| PTail (v : V) (tail : nat)
| PSlot (v : V) (tail next : nat)
| PPub (v : V) (tail next : nat).
Inductive cons_pc :=
| CIdle
| CHead (head : nat)
| CSlot (head : nat)
| CPub (head : nat) (v : V).

Record spsc := { sp_ring : ring S; sp_prod : prod_pc; sp_cons : cons_pc }.

(** What a caller learns. *)
Inductive ring_obs :=
| Pushed (v : V)
| Full
| Popped (v : V)
| Empty.

Inductive ring_act :=
| StartPush (v : V)
| ProdStep
| StartPop
| ConsStep.

Definition prod_step (r : ring S) (pc : prod_pc) : option (ring S * prod_pc * option ring_obs) :=
  match pc with
  | PIdle => None
  | PTail v tail =>
      let next := ((tail + 1) mod N)%nat in
      if (next =? rg_head r)%nat then Some (r, PIdle, Some Full) else Some (r, PSlot v tail next, None)
  | PSlot v tail next =>
      match rg_slots r !! tail with
      | Some s => Some (set_slot r tail (slot_write v s), PPub v tail next, None)
      | None => None
      end
  | PPub v tail next => Some (set_rg_tail r next, PIdle, Some (Pushed v))
  end.

Definition cons_step (r : ring S) (pc : cons_pc) : option (ring S * cons_pc * option ring_obs) :=
  match pc with
  | CIdle => None
  | CHead head =>
      if (head =? rg_tail r)%nat then Some (r, CIdle, Some Empty) else Some (r, CSlot head, None)
  | CSlot head =>
      match rg_slots r !! head with
      | Some s => Some (r, CPub head (slot_read s), None)
      | None => None
      end
  | CPub head v => Some (set_rg_head r ((head + 1) mod N)%nat, CIdle, Some (Popped v))
  end.

Definition spsc_step (st : spsc) (a : ring_act) : option (spsc * option ring_obs) :=
  let r := sp_ring st in
  match a with
  | StartPush v =>
      match sp_prod st with
      | PIdle => Some ({| sp_ring := r; sp_prod := PTail v (rg_tail r); sp_cons := sp_cons st |}, None)
      | _ => None
      end
  | ProdStep =>
      match prod_step r (sp_prod st) with
      | Some (r', pc, o) => Some ({| sp_ring := r'; sp_prod := pc; sp_cons := sp_cons st |}, o)
      | None => None
      end
  | StartPop =>
      match sp_cons st with
      | CIdle => Some ({| sp_ring := r; sp_prod := sp_prod st; sp_cons := CHead (rg_head r) |}, None)
      | _ => None
      end
  | ConsStep =>
      match cons_step r (sp_cons st) with
      | Some (r', pc, o) => Some ({| sp_ring := r'; sp_prod := sp_prod st; sp_cons := pc |}, o)
      | None => None
      end
  end.

(** The observations of a run, in order. *)
Fixpoint spsc_run (st : spsc) (acts : list ring_act) : option (spsc * list ring_obs) :=
  match acts with
  | [] => Some (st, [])
  | a :: acts =>
      match spsc_step st a with
      | Some (st', o) =>
          match spsc_run st' acts with
          | Some (st'', os) => Some (st'', match o with Some o => o :: os | None => os end)
          | None => None
          end
      | None => None
      end
  end.

(** ** What the ring promises: a FIFO queue of at most [N - 1] values *)
Definition queue_step `{EqDecision V} (q : list V) (o : ring_obs) : option (list V) :=
  match o with
  | Pushed v => if (length q <? N - 1)%nat then Some (q ++ [v]) else None
  | Full => if (length q =? N - 1)%nat then Some q else None
  | Popped v => match q with
                | v' :: q => if decide (v = v') then Some q else None
                | [] => None
                end
  | Empty => match q with [] => Some [] | _ => None end
  end.

Fixpoint queue_run `{EqDecision V} (q : list V) (os : list ring_obs) : option (list V) :=
  match os with
  | [] => Some q
  | o :: os => match queue_step q o with Some q' => queue_run q' os | None => None end
  end.

(** ** The invariant *)
Record ring_rel (r : ring S) (q : list V) : Prop := {
  rr_len : length (rg_slots r) = N;
  rr_head : (rg_head r < N)%nat;
  rr_cap : (length q < N)%nat;
  rr_tail : rg_tail r = ((rg_head r + length q) mod N)%nat;
  rr_slots : forall k v, q !! k = Some v ->
    exists s, rg_slots r !! ((rg_head r + k) mod N)%nat = Some s /\ slot_read s = v
}.

Definition prod_ok (r : ring S) (q : list V) (pc : prod_pc) : Prop :=
  match pc with
  | PIdle => True
  | PTail v t => t = rg_tail r /\ slot_valid v
  | PSlot v t n => t = rg_tail r /\ slot_valid v /\ n = ((t + 1) mod N)%nat /\ (length q + 1 < N)%nat
  | PPub v t n => t = rg_tail r /\ n = ((t + 1) mod N)%nat /\ (length q + 1 < N)%nat /\
      exists s, rg_slots r !! t = Some s /\ slot_read s = v
  end.
Definition cons_ok (r : ring S) (q : list V) (pc : cons_pc) : Prop :=
  match pc with
  | CIdle => True
  | CHead h => h = rg_head r
  | CSlot h => h = rg_head r /\ q <> []
  | CPub h v => h = rg_head r /\ head q = Some v
  end.
Definition spsc_inv (st : spsc) (q : list V) : Prop :=
  ring_rel (sp_ring st) q /\ prod_ok (sp_ring st) q (sp_prod st) /\ cons_ok (sp_ring st) q (sp_cons st).

(** Producer and consumer about to touch the same slot. *)
Definition slot_race (st : spsc) : Prop :=
  match sp_prod st, sp_cons st with
  | PSlot _ t _, CSlot h => t = h
  | _, _ => False
  end.

(** ** Proofs *)
Lemma mod_shift_inj a d : N <> 0%nat -> ((a + d) mod N)%nat = (a mod N)%nat -> (d < N)%nat -> d = 0%nat.
Proof.
  intros HN He Hd. pose proof (Nat.div_mod_eq (a + d) N). pose proof (Nat.div_mod_eq a N).
  assert (d = N * ((a + d) / N - a / N))%nat by nia.
  destruct ((a + d) / N - a / N)%nat; nia.
Qed.

Lemma mod_ne a j k : (j < k < N)%nat -> ((a + j) mod N)%nat <> ((a + k) mod N)%nat.
Proof.
  intros Hk He. replace (a + k)%nat with (a + j + (k - j))%nat in He by lia.
  symmetry in He. apply mod_shift_inj in He; lia.
Qed.

Lemma mod_succ_l a : N <> 0%nat -> ((a mod N + 1) mod N)%nat = ((a + 1) mod N)%nat.
Proof. intros. apply Nat.Div0.add_mod_idemp_l. Qed.

Lemma ring_full r q : ring_rel r q ->
  ((rg_tail r + 1) mod N =? rg_head r)%nat = (length q =? N - 1)%nat.
Proof.
  intros []. rewrite rr_tail0, mod_succ_l by lia. rewrite <- Nat.add_assoc.
  pose proof (Nat.mod_small _ _ rr_head0) as Hh.
  apply Bool.eq_iff_eq_true. rewrite !Nat.eqb_eq. split.
  - intros He. destruct (Nat.eq_dec (length q + 1)%nat N) as [|Hne]; [lia|].
    rewrite <- Hh in He at 2. apply mod_shift_inj in He; lia.
  - intros Hl. replace (rg_head r + (length q + 1))%nat with (rg_head r + 1 * N)%nat by lia.
    rewrite Nat.Div0.mod_add. done.
Qed.

Lemma ring_empty r q : ring_rel r q -> (rg_head r =? rg_tail r)%nat = (length q =? 0)%nat.
Proof.
  intros []. rewrite rr_tail0. pose proof (Nat.mod_small _ _ rr_head0) as Hh.
  apply Bool.eq_iff_eq_true. rewrite !Nat.eqb_eq. split.
  - intros He. rewrite <- Hh in He at 1. symmetry in He. apply mod_shift_inj in He; lia.
  - intros ->. by rewrite Nat.add_0_r.
Qed.

Lemma ring_tail_lt r q : ring_rel r q -> (rg_tail r < N)%nat.
Proof. intros []. rewrite rr_tail0. apply Nat.mod_upper_bound. lia. Qed.

(** Writing the slot at [tail] leaves the queue alone. *)
Lemma ring_set_tail_slot r q s : ring_rel r q -> ring_rel (set_slot r (rg_tail r) s) q.
Proof.
  intros []. split; simpl; try done; [by rewrite length_insert|].
  intros k v Hk. destruct (rr_slots0 k v Hk) as (s' & Hs & Hv). exists s'. split; [|done].
  rewrite list_lookup_insert_ne; [done|]. rewrite rr_tail0. symmetry.
  apply mod_ne. apply lookup_lt_Some in Hk. lia.
Qed.

(** Publishing the slot at [tail] appends its value. *)
Lemma ring_publish r q s : ring_rel r q -> (length q + 1 < N)%nat -> rg_slots r !! rg_tail r = Some s ->
  ring_rel (set_rg_tail r ((rg_tail r + 1) mod N)) (q ++ [slot_read s]).
Proof.
  intros [] Hl Hs. split; simpl; try done; rewrite ?length_app; simpl; [lia| |].
  - rewrite rr_tail0, mod_succ_l by lia. f_equal. lia.
  - intros k v Hk. apply lookup_app_Some in Hk as [Hk|[Hge Hk]]; [auto|].
    apply list_lookup_singleton_Some in Hk as [Hk <-].
    replace k with (length q) by lia. exists s. by rewrite <- rr_tail0.
Qed.

(** Advancing [head] drops the oldest value. *)
Lemma ring_consume r v q : ring_rel r (v :: q) -> ring_rel (set_rg_head r ((rg_head r + 1) mod N)) q.
Proof.
  intros []. simpl in *. split; simpl; try done.
  - apply Nat.mod_upper_bound. lia.
  - lia.
  - rewrite rr_tail0, Nat.Div0.add_mod_idemp_l. f_equal. lia.
  - intros k w Hk. rewrite Nat.Div0.add_mod_idemp_l.
    replace (rg_head r + 1 + k)%nat with (rg_head r + Datatypes.S k)%nat by lia. by apply (rr_slots0 (Datatypes.S k)).
Qed.

Lemma ring_head_slot r v q : ring_rel r (v :: q) ->
  exists s, rg_slots r !! rg_head r = Some s /\ slot_read s = v.
Proof.
  intros []. destruct (rr_slots0 0%nat v eq_refl) as (s & Hs & Hv). exists s. split; [|done].
  by rewrite Nat.add_0_r, Nat.mod_small in Hs.
Qed.

Context `{EqDecision V} `{!SlotLaws V S}.

Definition obs_step (q : list V) (o : option ring_obs) : option (list V) :=
  match o with Some o => queue_step q o | None => Some q end.

Lemma prod_step_inv st q r pc o : spsc_inv st q -> prod_step (sp_ring st) (sp_prod st) = Some (r, pc, o) ->
  exists q', obs_step q o = Some q' /\
    spsc_inv {| sp_ring := r; sp_prod := pc; sp_cons := sp_cons st |} q'.
Proof.
  destruct st as [r0 p0 c0]. unfold spsc_inv. simpl. intros (HR & HP & HC) Hs.
  destruct p0 as [|v t|v t n|v t n]; simpl in *; [done| | |].
  - destruct HP as [-> Hv]. rewrite (ring_full _ _ HR) in Hs.
    destruct (Nat.eqb_spec (length q) (N - 1)) as [Hl|Hl]; injection Hs as <- <- <-; simpl.
    + exists q. split; [|done]. by apply Nat.eqb_eq in Hl as ->.
    + exists q. split; [done|]. pose proof (rr_cap _ _ HR). split_and!; try done; lia.
  - destruct HP as (-> & Hv & -> & Hl). destruct (rg_slots r0 !! rg_tail r0) as [s|] eqn:E; [|done].
    injection Hs as <- <- <-. exists q. split; [done|]. split_and!; simpl; try done.
    + by apply ring_set_tail_slot.
    + split_and!; try done. exists (slot_write v s). rewrite list_lookup_insert_eq by (by eapply lookup_lt_Some).
      split; [done|]. by apply slot_read_write.
  - destruct HP as (-> & -> & Hl & s & Hs' & Hv). injection Hs as <- <- <-.
    exists (q ++ [v]). simpl. destruct (Nat.ltb_spec (length q) (N - 1)); [|lia].
    split; [done|]. split_and!; [subst v; by apply ring_publish|done|].
    destruct c0 as [|h|h|h w]; simpl in *; try done.
    + destruct HC as [-> ?]. split; [done|]. by destruct q.
    + destruct HC as [-> ?]. split; [done|]. by destruct q.
Qed.

Lemma cons_step_inv st q r pc o : spsc_inv st q -> cons_step (sp_ring st) (sp_cons st) = Some (r, pc, o) ->
  exists q', obs_step q o = Some q' /\
    spsc_inv {| sp_ring := r; sp_prod := sp_prod st; sp_cons := pc |} q'.
Proof.
  destruct st as [r0 p0 c0]. unfold spsc_inv. simpl. intros (HR & HP & HC) Hs.
  destruct c0 as [|h|h|h v]; simpl in *; [done| | |].
  - subst h. rewrite (ring_empty _ _ HR) in Hs. exists q.
    destruct q as [|w q]; simpl in Hs; injection Hs as <- <- <-; simpl; [done|].
    split_and!; done.
  - destruct HC as [-> Hq]. destruct q as [|w q]; [done|].
    destruct (ring_head_slot _ _ _ HR) as (s & Hs' & Hw). rewrite Hs' in Hs.
    injection Hs as <- <- <-. exists (w :: q). rewrite Hw. split_and!; done.
  - destruct HC as [-> Hq]. destruct q as [|w q]; [done|]. injection Hq as ->.
    injection Hs as <- <- <-. exists q. simpl. rewrite decide_True by done.
    split_and!; try done; [by eapply ring_consume|].
    destruct p0 as [|u t|u t n|u t n]; simpl in *; try done.
    + destruct HP as (? & ? & ? & ?). split_and!; try done; lia.
    + destruct HP as (? & ? & ? & ?). split_and!; try done; lia.
Qed.

Definition push_valid (a : ring_act) : Prop :=
  match a with StartPush v => slot_valid v | _ => True end.

Lemma spsc_step_inv st q a st' o : spsc_inv st q -> push_valid a -> spsc_step st a = Some (st', o) ->
  exists q', obs_step q o = Some q' /\ spsc_inv st' q'.
Proof.
  intros HI Ha Hs. destruct a as [v| | |]; simpl in *.
  - destruct (sp_prod st) eqn:E; try done. injection Hs as <- <-. exists q. split; [done|].
    destruct HI as (? & ? & ?). split_and!; done.
  - destruct (prod_step _ _) as [[[r pc] o']|] eqn:E; [|done]. injection Hs as <- <-.
    by eapply prod_step_inv.
  - destruct (sp_cons st) eqn:E; try done. injection Hs as <- <-. exists q. split; [done|].
    destruct HI as (? & ? & ?). split_and!; done.
  - destruct (cons_step _ _) as [[[r pc] o']|] eqn:E; [|done]. injection Hs as <- <-.
    by eapply cons_step_inv.
Qed.

Lemma spsc_run_inv acts : forall st q st' os, spsc_inv st q -> Forall push_valid acts ->
  spsc_run st acts = Some (st', os) -> exists q', queue_run q os = Some q' /\ spsc_inv st' q'.
Proof.
  induction acts as [|a acts IH]; intros st q st' os HI Hv Hr; simpl in Hr.
  - injection Hr as <- <-. by exists q.
  - inversion Hv; subst. destruct (spsc_step st a) as [[st1 o]|] eqn:E; [|done].
    destruct (spsc_run st1 acts) as [[st2 os2]|] eqn:E2; [|done]. injection Hr as <- <-.
    destruct (spsc_step_inv _ _ _ _ _ HI ltac:(done) E) as (q1 & Hq1 & HI1).
    destruct (IH _ _ _ _ HI1 ltac:(done) E2) as (q2 & Hq2 & HI2). exists q2. split; [|done].
    destruct o as [o|]; simpl in *; [by rewrite Hq1|]. by injection Hq1 as ->.
Qed.

Lemma spsc_no_race st q : spsc_inv st q -> ~ slot_race st.
Proof.
  intros (HR & HP & HC). unfold slot_race.
  destruct (sp_prod st) as [| |v t n|]; try tauto. destruct (sp_cons st) as [| |h|]; try tauto.
  simpl in *. destruct HP as (-> & _). destruct HC as (-> & Hq). intros He.
  pose proof (ring_empty _ _ HR) as Hm. rewrite He, Nat.eqb_refl in Hm. symmetry in Hm.
  apply Nat.eqb_eq, nil_length_inv in Hm. done.
Qed.
End SPSC.

Definition spsc_start {V S} (r : ring S) : spsc (V := V) (S := S) :=
  {| sp_ring := r; sp_prod := PIdle; sp_cons := CIdle |}.

Lemma ring_new_rel {V S} `{SlotOps V S} (N : nat) (s0 : S) : (0 < N)%nat ->
  ring_rel (V := V) N {| rg_slots := replicate N s0; rg_head := 0; rg_tail := 0 |} [].
Proof.
  intros HN. split; simpl; [by rewrite length_replicate|done|done| |done].
  by rewrite Nat.Div0.mod_0_l.
Qed.

Lemma spsc_safe {V S} `{SlotLaws V S} `{EqDecision V} (N : nat) (s0 : S) acts st os : (0 < N)%nat ->
  Forall (push_valid (S := S)) acts ->
  spsc_run N (spsc_start {| rg_slots := replicate N s0; rg_head := 0; rg_tail := 0 |}) acts = Some (st, os) ->
  (exists q : list V, queue_run N [] os = Some q /\ ring_rel N (sp_ring st) q) /\ ~ slot_race st.
Proof.
  intros HN Hv Hr. eapply (spsc_run_inv N acts _ []) in Hr as (q & Hq & HI); [|by split; [apply ring_new_rel|]|done].
  split; [|by eapply spsc_no_race]. exists q. split; [done|apply HI].
Qed.

(** ** The whole operations *)
Definition slot_wf (s : FrameSlot) : Prop :=
  length (fr_buf s) = MAX_FRAME_SIZE /\ 0 <= fr_len s <= Z.of_nat MAX_FRAME_SIZE.

(** The ring of a port holds the frames [q], oldest first. *)
Definition net_queue (r : NetRxRing) (q : list (list Z)) : Prop :=
  ring_rel NET_RX_RING_SIZE r q /\ Forall slot_wf (rg_slots r).

(** What [store] does to the queue. *)
Definition frame_ok (f : list Z) : bool :=
  negb ((length f =? 0)%nat || (MAX_FRAME_SIZE <? length f)%nat).
Definition q_store (q : list (list Z)) (f : list Z) : list (list Z) * bool :=
  if frame_ok f && (length q <? NET_RX_RING_SIZE - 1)%nat then (q ++ [f], true) else (q, false).

Lemma net_queue_new : net_queue net_ring_new [].
Proof.
  split; [by apply ring_new_rel; unfold NET_RX_RING_SIZE; lia|].
  apply Forall_replicate. split; [exact (length_replicate _ _)|]. simpl. lia.
Qed.

Lemma frame_ok_valid f : frame_ok f = true -> slot_valid (S := FrameSlot) f.
Proof.
  unfold frame_ok. cbn [slot_valid frame_slot].
  destruct (Nat.eqb_spec (length f) 0), (Nat.ltb_spec MAX_FRAME_SIZE (length f)); simpl; intros; lia || done.
Qed.

Lemma fill_slot_wf f s : frame_ok f = true -> slot_wf s -> slot_wf (fill_slot f s).
Proof.
  intros Hf%frame_ok_valid [Hb Hl]. cbn [slot_valid frame_slot] in Hf. split; simpl.
  - rewrite length_app, length_drop. lia.
  - unfold u16. rewrite wrap_id; [lia|]. unfold fits, MAX_FRAME_SIZE in *. lia.
Qed.

Lemma net_ring_store_spec r q f r' b : net_queue r q -> net_ring_store r f = (r', b) ->
  net_queue r' (q_store q f).1 /\ b = (q_store q f).2 /\ (b = false -> r' = r).
Proof.
  intros [HR HW] Hs. unfold net_ring_store in Hs. unfold q_store.
  destruct (frame_ok f) eqn:Hf; unfold frame_ok in Hf; cbn [andb].
  2:{ apply negb_false_iff in Hf. rewrite Hf in Hs. injection Hs as <- <-. done. }
  pose proof Hf as Hf'. apply negb_true_iff in Hf'. rewrite Hf', (ring_full _ _ _ HR) in Hs.
  pose proof (rr_cap _ _ _ HR) as Hc.
  destruct (Nat.eqb_spec (length q) (NET_RX_RING_SIZE - 1)) as [Hl|Hl].
  { injection Hs as <- <-. destruct (Nat.ltb_spec (length q) (NET_RX_RING_SIZE - 1)); [lia|]. split; [exact (conj HR HW)|done]. }
  destruct (Nat.ltb_spec (length q) (NET_RX_RING_SIZE - 1)); [|lia].
  pose proof (ring_tail_lt _ _ _ HR) as Ht.
  destruct (rg_slots r !! rg_tail r) as [s|] eqn:E.
  2:{ apply lookup_ge_None in E. rewrite (rr_len _ _ _ HR) in E. lia. }
  injection Hs as <- <-. split; [|done]. split.
  - pose proof (ring_publish NET_RX_RING_SIZE _ _ (slot_write f s)
      (ring_set_tail_slot _ _ _ (slot_write f s) HR) ltac:(lia)) as Hp.
    rewrite slot_read_write in Hp by (by apply frame_ok_valid). apply Hp. simpl.
    apply list_lookup_insert_eq. rewrite (rr_len _ _ _ HR). done.
  - simpl. apply Forall_insert; [done|]. apply fill_slot_wf; [done|].
    rewrite Forall_lookup in HW. eauto.
Qed.

Lemma net_ring_take_empty r buf : net_queue r [] -> net_ring_take r buf = (r, buf, None).
Proof. intros [HR _]. unfold net_ring_take. by rewrite (ring_empty _ _ _ HR). Qed.

Lemma net_ring_take_spec r f q buf : net_queue r (f :: q) ->
  exists r', net_queue r' q /\ (length f <= MAX_FRAME_SIZE)%nat /\
    net_ring_take r buf =
      (r', take (Nat.min (length f) (length buf)) f ++ drop (Nat.min (length f) (length buf)) buf,
       Some (length f)).
Proof.
  intros [HR HW]. unfold net_ring_take. rewrite (ring_empty _ _ _ HR). cbn [length Nat.eqb].
  destruct (ring_head_slot _ _ _ _ HR) as (s & Hs & Hf). rewrite Hs.
  rewrite Forall_lookup in HW. destruct (HW _ _ Hs) as [Hb Hl]. unfold copy_out.
  cbn [slot_read frame_slot] in Hf.
  assert (Z.to_nat (fr_len s) = length f) as Hlen by (subst f; rewrite length_take; lia).
  rewrite Hlen. eexists. split; [split; [by eapply ring_consume|by rewrite Forall_lookup]|].
  split; [lia|].
  assert (forall k, (k <= length f)%nat -> take k (fr_buf s) = take k f) as Hk.
  { intros k Hk. rewrite <- Hf, take_take. f_equal. lia. }
  rewrite Hk by lia. done.
Qed.

(** The whole operations are the single-access programs run without
    interruption. *)
Lemma net_store_is_run r f r' b c : net_ring_store r f = (r', b) -> frame_ok f = true ->
  (rg_tail r < length (rg_slots r))%nat ->
  exists k, spsc_run NET_RX_RING_SIZE {| sp_ring := r; sp_prod := PIdle; sp_cons := c |}
      (StartPush f :: replicate k ProdStep) =
    Some ({| sp_ring := r'; sp_prod := PIdle; sp_cons := c |}, [if b then Pushed f else Full]).
Proof.
  unfold net_ring_store. intros Hs Hf Ht. unfold frame_ok in Hf. apply negb_true_iff in Hf. rewrite Hf in Hs.
  destruct (Nat.eqb_spec ((rg_tail r + 1) mod NET_RX_RING_SIZE)%nat (rg_head r)) as [He|He].
  - injection Hs as <- <-. exists 1%nat. cbn -[Nat.modulo NET_RX_RING_SIZE].
    by rewrite He, Nat.eqb_refl.
  - apply lookup_lt_is_Some in Ht as [s E]. rewrite E in Hs. injection Hs as <- <-.
    exists 3%nat. cbn -[Nat.modulo NET_RX_RING_SIZE]. apply Nat.eqb_neq in He. rewrite He.
    cbn -[Nat.modulo NET_RX_RING_SIZE]. rewrite E. done.
Qed.

Lemma net_take_is_run r buf r' buf' o p : net_ring_take r buf = (r', buf', o) ->
  (rg_head r < length (rg_slots r))%nat ->
  exists k v, spsc_run NET_RX_RING_SIZE {| sp_ring := r; sp_prod := p; sp_cons := CIdle |}
      (StartPop :: replicate k ConsStep) =
    Some ({| sp_ring := r'; sp_prod := p; sp_cons := CIdle |}, [match o with Some _ => Popped v | None => Empty end]).
Proof.
  unfold net_ring_take. intros Hs Hh. apply lookup_lt_is_Some in Hh as [s E]. rewrite E in Hs.
  exists (if (rg_head r =? rg_tail r)%nat then 1 else 3)%nat, (slot_read s).
  destruct (rg_head r =? rg_tail r)%nat eqn:He.
  - injection Hs as <- <- <-. cbn -[Nat.modulo NET_RX_RING_SIZE]. by rewrite He.
  - destruct (copy_out s buf). injection Hs as <- <- <-.
    cbn -[Nat.modulo NET_RX_RING_SIZE]. rewrite He. cbn -[Nat.modulo NET_RX_RING_SIZE]. by rewrite E.
Qed.

(** C31. The two lock-free rings are linearisable bounded FIFO queues: for every
    interleaving, at the granularity of single atomic accesses, of one
    producer and one consumer on a new [NetRxRing] or [UartRxRing], the
    results the callers observe (pushed, full, popped value, empty), in the
    order of the stores that publish them, are those of a FIFO queue of 8
    frames (63 bytes), a push is refused only when the queue is full and a pop
    only when it is empty, and producer and consumer are never about to touch
    the same slot. *)
Theorem rings_are_fifo_queues :
  (forall (acts : list (ring_act (V := list Z))) st os, Forall (push_valid (S := FrameSlot)) acts ->
     spsc_run NET_RX_RING_SIZE (spsc_start net_ring_new) acts = Some (st, os) ->
     (exists q, queue_run NET_RX_RING_SIZE [] os = Some q) /\ ~ slot_race st) /\
  (forall (acts : list (ring_act (V := Z))) st os,
     spsc_run UART_RX_RING_SIZE (spsc_start uart_ring_new) acts = Some (st, os) ->
     (exists q, queue_run UART_RX_RING_SIZE [] os = Some q) /\ ~ slot_race st).
Proof.
  split; intros acts st os.
  - intros Hv Hr. eapply (spsc_safe NET_RX_RING_SIZE) in Hr as [(q & Hq & _) ?];
      [split; [by exists q|done]|unfold NET_RX_RING_SIZE; lia|done].
  - intros Hr. eapply (spsc_safe UART_RX_RING_SIZE) in Hr as [(q & Hq & _) ?];
      [split; [by exists q|done]|unfold UART_RX_RING_SIZE; lia|].
    apply Forall_forall. intros [] _; exact I.
Qed.

(** Two pushes overlapping a pop. *)
Definition ex_ring_acts : list (ring_act (V := list Z)) :=
  [StartPush [1; 2]; ProdStep; StartPop; ProdStep; ProdStep; ConsStep; StartPush [3]; ConsStep;
   ProdStep; ConsStep; ProdStep; ProdStep; StartPop; ConsStep].
Definition ex_ring_run := spsc_run NET_RX_RING_SIZE (spsc_start net_ring_new) ex_ring_acts.

Lemma rings_are_fifo_queues_witness :
  (snd <$> ex_ring_run = Some [Pushed [1; 2]; Popped [1; 2]; Pushed [3]]) /\
  exists q, queue_run NET_RX_RING_SIZE [] [Pushed [1; 2]; Popped [1; 2]; Pushed [3]] = Some q.
Proof.
  split; [vm_compute; reflexivity|].
  destruct ex_ring_run as [[st os]|] eqn:E; [|vm_compute in E; discriminate E].
  assert (os = [Pushed [1; 2]; Popped [1; 2]; Pushed [3]]) as Ho by (vm_compute in E; congruence).
  rewrite <- Ho. apply (proj1 rings_are_fifo_queues ex_ring_acts st os); [|exact E].
  repeat constructor.
Defined.
