(* ===== verification/VSwitch.v ===== *)
(** * VSwitch: the layer-2 switch of [vswitch.rs]

    The MAC table with its two scans, flooding and forwarding into the ring of
    each port, and the refinement of the switch to a learning switch given by
    a finite map from addresses to ports and a queue of frames per port. *)

From stdpp Require Import base decidable option list numbers gmap countable.
From S2P Require Import Prelude Rings.

Definition MAX_PORTS : nat := 2.
Definition MAC_TABLE_SIZE : nat := 16.

Record MacEntry := { me_mac : list Z; me_port_id : nat; me_valid : bool }.
Definition mac_entry_new : MacEntry := {| me_mac := replicate 6 0; me_port_id := 0; me_valid := false |}.

Record VSwitch := { mac_table : list MacEntry; mac_count : nat; port_count : nat }.
Definition vswitch_new : VSwitch :=
  {| mac_table := replicate MAC_TABLE_SIZE mac_entry_new; mac_count := 0; port_count := 0 |}.

(** The switch and [PORT_RX]. *)
Record net_state := { ns_switch : VSwitch; PORT_RX : list NetRxRing }.
Definition net_init : net_state :=
  {| ns_switch := vswitch_new; PORT_RX := replicate MAX_PORTS net_ring_new |}.

Definition vswitch_reset (vs : VSwitch) : VSwitch :=
  {| mac_table := map (fun e => {| me_mac := me_mac e; me_port_id := me_port_id e; me_valid := false |})
                      (mac_table vs);
     mac_count := 0; port_count := 0 |}.

Definition vswitch_add_port (vs : VSwitch) (_port_id : nat) : VSwitch :=
  {| mac_table := mac_table vs; mac_count := mac_count vs; port_count := port_count vs + 1 |}.

Definition mac_match (mac : list Z) (e : MacEntry) : bool :=
  me_valid e && bool_decide (me_mac e = take 6 mac).

(** The first loop of [learn]: [None] when no entry matches. *)
Fixpoint learn_known (tbl : list MacEntry) (mac : list Z) (port_id : nat) : option (list MacEntry) :=
  match tbl with
  | [] => None
  | e :: tbl =>
      if mac_match mac e
      then Some ({| me_mac := me_mac e; me_port_id := port_id; me_valid := me_valid e |} :: tbl)
      else match learn_known tbl mac port_id with Some tbl => Some (e :: tbl) | None => None end
  end.

(** The second loop of [learn]: [None] when no entry is free. *)
Fixpoint learn_free (tbl : list MacEntry) (mac : list Z) (port_id : nat) : option (list MacEntry) :=
  match tbl with
  | [] => None
  | e :: tbl =>
      if negb (me_valid e)
      then Some ({| me_mac := take 6 mac; me_port_id := port_id; me_valid := true |} :: tbl)
      else match learn_free tbl mac port_id with Some tbl => Some (e :: tbl) | None => None end
  end.

Definition learn (vs : VSwitch) (mac : list Z) (port_id : nat) : VSwitch :=
  match learn_known (mac_table vs) mac port_id with
  | Some tbl => {| mac_table := tbl; mac_count := mac_count vs; port_count := port_count vs |}
  | None =>
      if (mac_count vs <? MAC_TABLE_SIZE)%nat then
        match learn_free (mac_table vs) mac port_id with
        | Some tbl => {| mac_table := tbl; mac_count := mac_count vs + 1; port_count := port_count vs |}
        | None => vs
        end
      else vs
  end.

Fixpoint mac_lookup (tbl : list MacEntry) (mac : list Z) : option nat :=
  match tbl with
  | [] => None
  | e :: tbl => if mac_match mac e then Some (me_port_id e) else mac_lookup tbl mac
  end.

(** [PORT_RX[port].store(frame)]; the index panics when out of range. *)
Definition store_port (rx : list NetRxRing) (port : nat) (frame : list Z) : option (list NetRxRing) :=
  match rx !! port with
  | Some r => Some (<[port := (net_ring_store r frame).1]> rx)
  | None => None
  end.

Fixpoint flood_ports (ports : list nat) (rx : list NetRxRing) (src_port : nat) (frame : list Z)
    : option (list NetRxRing) :=
  match ports with
  | [] => Some rx
  | p :: ports =>
      if negb (p =? src_port)%nat then
        match store_port rx p frame with
        | Some rx' => flood_ports ports rx' src_port frame
        | None => None
        end
      else flood_ports ports rx src_port frame
  end.
Definition flood (rx : list NetRxRing) (src_port : nat) (frame : list Z) : option (list NetRxRing) :=
  flood_ports (seq 0 MAX_PORTS) rx src_port frame.

(** [forward]; [None] is a panic. *)
Definition forward (s : net_state) (src_port : nat) (frame : list Z) : option net_state :=
  if (length frame <? 14)%nat then Some s else
  let dst_mac := take 6 frame in
  let src_mac := take 6 (drop 6 frame) in
  let vs := learn (ns_switch s) src_mac src_port in
  let rx' :=
    if negb (Z.land (hd 0 dst_mac) 1 =? 0) then flood (PORT_RX s) src_port frame
    else match mac_lookup (mac_table vs) dst_mac with
         | Some dst_port =>
             if negb (dst_port =? src_port)%nat then store_port (PORT_RX s) dst_port frame
             else Some (PORT_RX s)
         | None => flood (PORT_RX s) src_port frame
         end in
  match rx' with
  | Some rx => Some {| ns_switch := vs; PORT_RX := rx |}
  | None => None
  end.

(** ** The abstract switch *)
Abbreviation mac_map := (gmap (list Z) nat).
Record abs_net := { an_macs : mac_map; an_queues : list (list (list Z)) }.
Definition abs_net_init : abs_net := {| an_macs := ∅; an_queues := replicate MAX_PORTS [] |}.

(** A known address moves to its new port; an unknown one is learnt while the
    table has room. *)
Definition abs_learn (m : mac_map) (mac : list Z) (port : nat) : mac_map :=
  if decide (is_Some (m !! mac) \/ (size m < MAC_TABLE_SIZE)%nat) then <[mac := port]> m else m.

(** The ports a frame goes to: the learnt port of the destination, or every
    port for a group address or an unknown one, and never the source. *)
Definition abs_targets (m : mac_map) (src : nat) (dst : list Z) : list nat :=
  filter (fun p => p <> src)
    (if Z.odd (hd 0 dst) then seq 0 MAX_PORTS
     else match m !! dst with Some p => [p] | None => seq 0 MAX_PORTS end).

Definition abs_deliver (qs : list (list (list Z))) (targets : list nat) (frame : list Z) :=
  imap (fun p q => if decide (p ∈ targets) then (q_store q frame).1 else q) qs.

Definition abs_forward (a : abs_net) (src : nat) (frame : list Z) : abs_net :=
  if (length frame <? 14)%nat then a else
  let dst := take 6 frame in
  let m := abs_learn (an_macs a) (take 6 (drop 6 frame)) src in
  {| an_macs := m; an_queues := abs_deliver (an_queues a) (abs_targets m src dst) frame |}.

(** ** The relation *)
Definition valid_entries (tbl : list MacEntry) : list (list Z * nat) :=
  omap (fun e => if me_valid e then Some (me_mac e, me_port_id e) else None) tbl.
Definition table_map (tbl : list MacEntry) : mac_map := list_to_map (valid_entries tbl).

Record switch_ok (vs : VSwitch) : Prop := {
  so_len : length (mac_table vs) = MAC_TABLE_SIZE;
  so_count : mac_count vs = length (valid_entries (mac_table vs));
  so_nodup : NoDup (valid_entries (mac_table vs)).*1;
  so_ports : Forall (fun e => (e.2 < MAX_PORTS)%nat) (valid_entries (mac_table vs))
}.
Definition net_rel (s : net_state) (a : abs_net) : Prop :=
  switch_ok (ns_switch s) /\ table_map (mac_table (ns_switch s)) = an_macs a /\
  length (PORT_RX s) = MAX_PORTS /\ Forall2 net_queue (PORT_RX s) (an_queues a).

#[local] Arguments firstn : simpl never.

(** ** The table *)
Lemma table_map_cons e tbl : table_map (e :: tbl) =
  if me_valid e then <[me_mac e := me_port_id e]> (table_map tbl) else table_map tbl.
Proof. unfold table_map, valid_entries. simpl. by destruct (me_valid e). Qed.

Lemma mac_lookup_map tbl mac : mac_lookup tbl mac = table_map tbl !! take 6 mac.
Proof.
  induction tbl as [|e tbl IH]; [done|]. rewrite table_map_cons. simpl. unfold mac_match.
  destruct (me_valid e); simpl; [|done]. case_bool_decide as He.
  - by rewrite He, lookup_insert_eq.
  - by rewrite lookup_insert_ne.
Qed.

Lemma learn_known_spec tbl mac p : 
  match learn_known tbl mac p with
  | Some tbl' => is_Some (table_map tbl !! take 6 mac) /\ table_map tbl' = <[take 6 mac := p]> (table_map tbl) /\
      length tbl' = length tbl /\ (valid_entries tbl').*1 = (valid_entries tbl).*1 /\
      forall e, e ∈ valid_entries tbl' -> e ∈ valid_entries tbl \/ e.2 = p
  | None => table_map tbl !! take 6 mac = None
  end.
Proof.
  induction tbl as [|e tbl IH]; [done|]. rewrite table_map_cons. simpl. unfold mac_match.
  destruct (me_valid e) eqn:Hv; simpl.
  - case_bool_decide as He; simpl.
    + rewrite <- He, lookup_insert_eq, table_map_cons, insert_insert_eq. simpl. split_and!; try done.
      intros x [->|Hx]%elem_of_cons; [by right|left; by right].
    + rewrite lookup_insert_ne by done. destruct (learn_known tbl mac p) as [tbl'|]; [|done].
      destruct IH as (H1 & H2 & H3 & H4 & H5). rewrite table_map_cons, Hv, H2.
      split_and!; [done|by rewrite insert_insert_ne|simpl; lia| |].
      * unfold valid_entries in *. simpl. rewrite Hv. simpl. by f_equal.
      * unfold valid_entries in *. simpl. rewrite Hv. intros x [->|Hx]%elem_of_cons; [left; by left|].
        destruct (H5 x Hx); [left; by right|by right].
  - destruct (learn_known tbl mac p) as [tbl'|]; [|done].
    destruct IH as (H1 & H2 & H3 & H4 & H5). rewrite table_map_cons, Hv.
    split_and!; [done|done|simpl; lia| |]; unfold valid_entries in *; simpl; by rewrite Hv.
Qed.

Lemma learn_free_spec tbl mac p : table_map tbl !! take 6 mac = None ->
  match learn_free tbl mac p with
  | Some tbl' => table_map tbl' = <[take 6 mac := p]> (table_map tbl) /\ length tbl' = length tbl /\
      valid_entries tbl' ≡ₚ (take 6 mac, p) :: valid_entries tbl
  | None => length (valid_entries tbl) = length tbl
  end.
Proof.
  induction tbl as [|e tbl IH]; [done|]. rewrite table_map_cons. simpl.
  destruct (me_valid e) eqn:Hv; simpl.
  - intros Hn. apply lookup_insert_None in Hn as [Hn Hne]. specialize (IH Hn).
    destruct (learn_free tbl mac p) as [tbl'|].
    + destruct IH as (H1 & H2 & H3). rewrite table_map_cons, Hv, H1.
      split_and!; [by rewrite insert_insert_ne|simpl; lia|].
      unfold valid_entries in *. simpl. rewrite Hv, H3. by constructor.
    + lia.
  - intros Hn. rewrite table_map_cons. done.
Qed.

Lemma entry_ports tbl : Forall (fun e => (e.2 < MAX_PORTS)%nat) (valid_entries tbl) ->
  forall mac p, table_map tbl !! mac = Some p -> (p < MAX_PORTS)%nat.
Proof.
  intros HF mac p Hm. apply elem_of_list_to_map_2 in Hm. rewrite Forall_forall in HF.
  apply (HF (mac, p)). by apply list_elem_of_In.
Qed.

Lemma table_size vs : switch_ok vs -> size (table_map (mac_table vs)) = mac_count vs.
Proof. intros []. unfold table_map. rewrite map_size_list_to_map by done. done. Qed.

Lemma learn_spec vs mac p : switch_ok vs -> (p < MAX_PORTS)%nat ->
  switch_ok (learn vs mac p) /\
  table_map (mac_table (learn vs mac p)) = abs_learn (table_map (mac_table vs)) (take 6 mac) p.
Proof.
  intros Hok Hp. pose proof (table_size vs Hok) as Hsz. destruct Hok. unfold learn, abs_learn.
  pose proof (learn_known_spec (mac_table vs) mac p) as Hk.
  destruct (learn_known (mac_table vs) mac p) as [tbl|].
  - destruct Hk as (H1 & H2 & H3 & H4 & H5). rewrite decide_True by (by left). simpl. split; [|done].
    split; simpl; [lia| |by rewrite H4|].
    + rewrite so_count0, <- (length_fmap fst (valid_entries tbl)), H4. by rewrite length_fmap.
    + apply Forall_forall. intros e He%list_elem_of_In. destruct (H5 e He) as [Hin| ->]; [|done].
      rewrite Forall_forall in so_ports0. by apply so_ports0, list_elem_of_In.
  - destruct (Nat.ltb_spec (mac_count vs) MAC_TABLE_SIZE) as [Hlt|Hge].
    + rewrite decide_True by (right; lia). pose proof (learn_free_spec (mac_table vs) mac p Hk) as Hf.
      destruct (learn_free (mac_table vs) mac p) as [tbl|]; [|lia].
      destruct Hf as (H1 & H2 & H3). simpl. split; [|done]. split; simpl.
      * lia.
      * rewrite H3. simpl. lia.
      * rewrite H3. simpl. constructor; [|done]. intros Hin.
        apply not_elem_of_list_to_map in Hk. done.
      * rewrite H3. constructor; done.
    + rewrite decide_False; [done|]. intros [[x Hx]|]; [congruence|lia].
Qed.

(** ** The ports *)
Lemma store_port_spec rx qs port frame : Forall2 net_queue rx qs -> (port < length rx)%nat ->
  exists rx', store_port rx port frame = Some rx' /\ length rx' = length rx /\
    Forall2 net_queue rx' (abs_deliver qs [port] frame).
Proof.
  intros HQ Hp. unfold store_port. destruct (lookup_lt_is_Some_2 rx port Hp) as [r Hr]. rewrite Hr.
  eexists. split; [done|]. split; [apply length_insert|].
  apply Forall2_same_length_lookup. pose proof (Forall2_length HQ) as Hl. split.
  { unfold abs_deliver. by rewrite length_insert, length_imap. }
  intros i r' q' Hr' Hq'. unfold abs_deliver in Hq'. rewrite list_lookup_imap in Hq'.
  destruct (qs !! i) as [q|] eqn:Eq; [|done]. simpl in Hq'. injection Hq' as <-.
  destruct (decide (i = port)) as [->|Hne].
  - rewrite list_lookup_insert_eq in Hr' by done. injection Hr' as <-.
    rewrite decide_True by (by left). destruct (net_ring_store r frame) as [r1 b] eqn:E.
    eapply net_ring_store_spec; [|exact E]. by eapply Forall2_lookup_lr.
  - rewrite list_lookup_insert_ne in Hr' by done. rewrite decide_False.
    + by eapply Forall2_lookup_lr.
    + by intros ->%list_elem_of_singleton.
Qed.

Lemma abs_deliver_cons qs p ps f : p ∉ ps ->
  abs_deliver (abs_deliver qs [p] f) ps f = abs_deliver qs (p :: ps) f.
Proof.
  intros Hp. apply list_eq. intros i. unfold abs_deliver. rewrite !list_lookup_imap.
  destruct (qs !! i) as [q|]; [|done]. simpl. f_equal.
  destruct (decide (i = p)) as [->|Hi].
  - rewrite decide_False by done. rewrite !decide_True by (by left). done.
  - rewrite (decide_False (P := i ∈ [p])) by (by intros ->%list_elem_of_singleton).
    apply decide_ext. rewrite elem_of_cons. tauto.
Qed.

Lemma abs_deliver_nil qs f : abs_deliver qs [] f = qs.
Proof.
  apply list_eq. intros i. unfold abs_deliver. rewrite list_lookup_imap.
  by destruct (qs !! i).
Qed.

Lemma flood_ports_spec ports rx qs src frame : Forall2 net_queue rx qs -> NoDup ports ->
  Forall (fun p => (p < length rx)%nat) ports ->
  exists rx', flood_ports ports rx src frame = Some rx' /\ length rx' = length rx /\
    Forall2 net_queue rx' (abs_deliver qs (filter (fun p => p <> src) ports) frame).
Proof.
  revert rx qs. induction ports as [|p ports IH]; intros rx qs HQ Hnd HF; simpl.
  - exists rx. by rewrite abs_deliver_nil.
  - apply list.NoDup_cons in Hnd as [Hp Hnd]. inversion HF as [|? ? Hlt HF']; subst. rewrite filter_cons.
    destruct (Nat.eqb_spec p src) as [->|Hne]; simpl.
    + rewrite decide_False by tauto. by apply IH.
    + rewrite decide_True by done.
      destruct (store_port_spec rx qs p frame HQ Hlt) as (rx1 & -> & Hl & HQ1).
      destruct (IH rx1 _ HQ1 Hnd ltac:(by rewrite Hl)) as (rx' & -> & Hl' & HQ').
      exists rx'. split_and!; [done|lia|]. rewrite abs_deliver_cons in HQ'; [done|].
      intros [_ ?]%list_elem_of_filter. done.
Qed.

Lemma flood_spec rx qs src frame : Forall2 net_queue rx qs -> length rx = MAX_PORTS ->
  exists rx', flood rx src frame = Some rx' /\ length rx' = MAX_PORTS /\
    Forall2 net_queue rx' (abs_deliver qs (filter (fun p => p <> src) (seq 0 MAX_PORTS)) frame).
Proof.
  intros HQ Hl. unfold flood.
  destruct (flood_ports_spec (seq 0 MAX_PORTS) rx qs src frame HQ) as (rx' & H1 & H2 & H3).
  - apply NoDup_seq.
  - rewrite Hl. by repeat constructor.
  - exists rx'. rewrite H2. done.
Qed.

(** ** Forwarding *)
Lemma odd_land x : negb (Z.land x 1 =? 0) = Z.odd x.
Proof.
  change 1 with (Z.ones 1) at 1. rewrite Z.land_ones by lia. change (2 ^ 1) with 2. rewrite Zmod_odd.
  by destruct (Z.odd x).
Qed.

Lemma targets_single p src : filter (fun p => p <> src) [p] = if negb (p =? src)%nat then [p] else [].
Proof.
  rewrite filter_cons, filter_nil.
  destruct (Nat.eqb_spec p src) as [->|]; simpl; [by rewrite decide_False by tauto|by rewrite decide_True].
Qed.

Lemma forward_spec s a src frame : net_rel s a -> (src < MAX_PORTS)%nat ->
  exists s', forward s src frame = Some s' /\ net_rel s' (abs_forward a src frame).
Proof.
  intros (Hok & Hm & Hl & HQ) Hsrc. unfold forward, abs_forward.
  destruct (length frame <? 14)%nat; [by exists s|].
  destruct (learn_spec (ns_switch s) (take 6 (drop 6 frame)) src Hok Hsrc) as [Hok' Hm'].
  rewrite take_take in Hm'. change (6 `min` 6)%nat with 6%nat in Hm'. rewrite Hm in Hm'.
  set (vs := learn _ _ _) in *. set (m := abs_learn _ _ _) in *.
  assert (exists rx', (if negb (Z.land (hd 0 (take 6 frame)) 1 =? 0) then flood (PORT_RX s) src frame
    else match mac_lookup (mac_table vs) (take 6 frame) with
         | Some dst => if negb (dst =? src)%nat then store_port (PORT_RX s) dst frame else Some (PORT_RX s)
         | None => flood (PORT_RX s) src frame end) = Some rx' /\ length rx' = MAX_PORTS /\
    Forall2 net_queue rx' (abs_deliver (an_queues a) (abs_targets m src (take 6 frame)) frame))
    as (rx' & -> & Hl' & HQ').
  { unfold abs_targets. rewrite odd_land. destruct (Z.odd _); [by apply flood_spec|].
    rewrite mac_lookup_map, take_take, Hm'. change (6 `min` 6)%nat with 6%nat.
    destruct (m !! take 6 frame) as [p|] eqn:Ep; [|by apply flood_spec].
    rewrite targets_single. destruct (Nat.eqb_spec p src); simpl.
    - exists (PORT_RX s). by rewrite abs_deliver_nil.
    - destruct (store_port_spec (PORT_RX s) (an_queues a) p frame HQ) as (rx & H1 & H2 & H3).
      + rewrite Hl. rewrite <- Hm' in Ep. eapply entry_ports; [|exact Ep]. apply Hok'.
      + exists rx. rewrite H2. done. }
  eexists. split; [done|]. split_and!; done.
Qed.

(** A history of frames sent by the ports, and received by them. *)
Inductive net_event :=
| Send (src : nat) (frame : list Z)
| Recv (port : nat).

(** [take] into a buffer of [MAX_FRAME_SIZE] bytes, of which the caller uses
    the first [len]. *)
Definition recv_port (rx : list NetRxRing) (port : nat) : option (list NetRxRing * option (list Z)) :=
  match rx !! port with
  | Some r => match net_ring_take r (replicate MAX_FRAME_SIZE 0) with
              | (r', buf, Some len) => Some (<[port := r']> rx, Some (take len buf))
              | (r', _, None) => Some (<[port := r']> rx, None)
              end
  | None => None
  end.

Fixpoint run_net (s : net_state) (evs : list net_event) : option (net_state * list (nat * option (list Z))) :=
  match evs with
  | [] => Some (s, [])
  | Send src f :: evs => match forward s src f with Some s' => run_net s' evs | None => None end
  | Recv p :: evs =>
      match recv_port (PORT_RX s) p with
      | Some (rx, o) =>
          match run_net {| ns_switch := ns_switch s; PORT_RX := rx |} evs with
          | Some (s', os) => Some (s', (p, o) :: os)
          | None => None
          end
      | None => None
      end
  end.

Fixpoint abs_run_net (a : abs_net) (evs : list net_event) : abs_net * list (nat * option (list Z)) :=
  match evs with
  | [] => (a, [])
  | Send src f :: evs => abs_run_net (abs_forward a src f) evs
  | Recv p :: evs =>
      let q := nth p (an_queues a) [] in
      let (a', os) := abs_run_net {| an_macs := an_macs a; an_queues := <[p := tail q]> (an_queues a) |} evs in
      (a', (p, head q) :: os)
  end.

Definition event_port (e : net_event) : nat := match e with Send p _ => p | Recv p => p end.

Lemma recv_spec rx qs p : Forall2 net_queue rx qs -> length rx = MAX_PORTS -> (p < MAX_PORTS)%nat ->
  exists rx', recv_port rx p = Some (rx', head (nth p qs [])) /\ length rx' = MAX_PORTS /\
    Forall2 net_queue rx' (<[p := tail (nth p qs [])]> qs).
Proof.
  intros HQ Hl Hp. destruct (lookup_lt_is_Some_2 rx p ltac:(lia)) as [r Hr].
  destruct (Forall2_lookup_l _ _ _ _ _ HQ Hr) as (q & Hq & HR).
  rewrite (nth_lookup_Some _ _ _ _ Hq). unfold recv_port. rewrite Hr. destruct q as [|f q].
  - rewrite net_ring_take_empty by done. eexists. split; [done|]. rewrite length_insert. split; [done|].
    rewrite (list_insert_id qs) by done. rewrite (list_insert_id rx); done.
  - destruct (net_ring_take_spec r f q (replicate MAX_FRAME_SIZE 0) HR) as (r' & HR' & Hlen & ->).
    rewrite length_replicate, Nat.min_l by done. eexists. split; [|split; [by rewrite length_insert|]].
    + rewrite take_app_le, take_take, Nat.min_id by (rewrite length_take; lia). by rewrite take_ge.
    + by apply Forall2_insert.
Qed.

Lemma run_net_spec evs : forall s a, net_rel s a -> Forall (fun e => (event_port e < MAX_PORTS)%nat) evs ->
  exists s', run_net s evs = Some (s', (abs_run_net a evs).2) /\ net_rel s' (abs_run_net a evs).1.
Proof.
  induction evs as [|e evs IH]; intros s a HR HF; [by exists s|].
  inversion HF as [|? ? He HF']; subst. destruct e as [src f|p]; simpl in *.
  - destruct (forward_spec s a src f HR He) as (s1 & -> & HR1). by apply IH.
  - destruct HR as (Hok & Hm & Hl & HQ).
    destruct (recv_spec _ _ p HQ Hl He) as (rx & -> & Hl' & HQ').
    destruct (IH {| ns_switch := ns_switch s; PORT_RX := rx |}
      {| an_macs := an_macs a; an_queues := <[p := tail (nth p (an_queues a) [])]> (an_queues a) |})
      as (s' & -> & HR'); [split_and!; done|done|].
    exists s'. by destruct (abs_run_net _ evs) as [a' os].
Qed.

Lemma net_init_rel : net_rel net_init abs_net_init.
Proof.
  split_and!; [|done|done|].
  - split; [done|done|constructor|constructor].
  - apply Forall2_cons; [apply net_queue_new|]. apply Forall2_cons; [apply net_queue_new|constructor].
Qed.

(** C32. The switch is a learning switch: for every history of frames sent by
    the ports and receptions by their run loops, [forward] never panics and
    the frames each port receives are those of the abstract switch, in which a
    frame teaches the source address to its port while the 16-entry table has
    room, goes to the learnt port of its destination or to all ports for a
    group or unknown address, never comes back to its sender, waits in the
    FIFO queue of the port, and is lost only when it is shorter than an
    Ethernet header, longer than [MAX_FRAME_SIZE] or finds 8 frames waiting. *)
Theorem vswitch_refines_learning_switch (evs : list net_event) :
  Forall (fun e => (event_port e < MAX_PORTS)%nat) evs ->
  exists s', run_net net_init evs = Some (s', (abs_run_net abs_net_init evs).2) /\
    net_rel s' (abs_run_net abs_net_init evs).1.
Proof. intros HF. apply run_net_spec; [apply net_init_rel|done]. Qed.

Definition ex_frame (dst src : Z) : list Z :=
  [dst; 1; 1; 1; 1; 1; src; 1; 1; 1; 1; 1; 8; 0; 42].
Definition ex_net_events : list net_event :=
  [Send 0 (ex_frame 0x52 0x50); Recv 1; Send 1 (ex_frame 0x50 0x52); Recv 1; Recv 0].

Lemma vswitch_refines_learning_switch_witness :
  (abs_run_net abs_net_init ex_net_events).2 =
    [(1%nat, Some (ex_frame 0x52 0x50)); (1%nat, None); (0%nat, Some (ex_frame 0x50 0x52))] /\
  exists s', run_net net_init ex_net_events = Some (s', (abs_run_net abs_net_init ex_net_events).2) /\
    net_rel s' (abs_run_net abs_net_init ex_net_events).1.
Proof.
  split; [vm_compute; reflexivity|].
  apply (vswitch_refines_learning_switch ex_net_events). repeat constructor; simpl; unfold MAX_PORTS; lia.
Defined.
