(* ===== verification/Sched.v ===== *)
(** * Sched: the round-robin vCPU scheduler of [scheduler.rs]

    The scheduler's table of run states with its operations, the invariant
    that at most one vCPU runs and it is the current one, and the fairness of
    [pick_next]: a ready vCPU is picked within one turn of the table, whatever
    the other vCPUs do. *)

From stdpp Require Import base decidable option list numbers.
From S2P Require Import Prelude.

Definition MAX_VCPUS : nat := 8.

Inductive RunState := RsNone | RsReady | RsRunning | RsBlocked.
#[export] Instance RunState_eq_dec : EqDecision RunState.
Proof. solve_decision. Defined.

Record Scheduler := {
  sc_states : list RunState;
  sc_current : option nat;
  sc_next_idx : nat
}.

Definition sched_new : Scheduler :=
  {| sc_states := replicate MAX_VCPUS RsNone; sc_current := None; sc_next_idx := 0 |}.

Definition set_state (s : Scheduler) (id : nat) (st : RunState) : Scheduler :=
  {| sc_states := <[id := st]> (sc_states s); sc_current := sc_current s; sc_next_idx := sc_next_idx s |}.
Definition set_current (s : Scheduler) (c : option nat) : Scheduler :=
  {| sc_states := sc_states s; sc_current := c; sc_next_idx := sc_next_idx s |}.
Definition set_next_idx (s : Scheduler) (n : nat) : Scheduler :=
  {| sc_states := sc_states s; sc_current := sc_current s; sc_next_idx := n |}.
(** [self.states[id] == st]; the indices used are in range ([sched_inv]). *)
Definition has_state (s : Scheduler) (id : nat) (st : RunState) : bool :=
  bool_decide (sc_states s !! id = Some st).

Definition add_vcpu (s : Scheduler) (vcpu_id : nat) : Scheduler :=
  if (vcpu_id <? MAX_VCPUS)%nat then set_state s vcpu_id RsReady else s.

Definition remove_vcpu (s : Scheduler) (vcpu_id : nat) : Scheduler :=
  if (vcpu_id <? MAX_VCPUS)%nat then
    let s := set_state s vcpu_id RsNone in
    if decide (sc_current s = Some vcpu_id) then set_current s None else s
  else s.

(** The loop of [pick_next]: the first ready vCPU among [next_idx + i],
    [next_idx + i + 1], ... for [fuel] steps. *)
Fixpoint find_ready (s : Scheduler) (i fuel : nat) : option nat :=
  match fuel with
  | O => None
  | S fuel =>
      let idx := ((sc_next_idx s + i) mod MAX_VCPUS)%nat in
      if has_state s idx RsReady then Some idx else find_ready s (S i) fuel
  end.

Definition pick_next (s : Scheduler) : Scheduler * option nat :=
  let scan :=
    match find_ready s 0 MAX_VCPUS with
    | Some idx => (set_state (set_current s (Some idx)) idx RsRunning, Some idx)
    | None => (s, None)
    end in
  match sc_current s with
  | Some id => if has_state s id RsRunning then (s, sc_current s) else scan
  | None => scan
  end.

Definition leave_current (s : Scheduler) (st : RunState) : Scheduler :=
  match sc_current s with
  | Some id => set_next_idx (set_current (set_state s id st) None) ((id + 1) mod MAX_VCPUS)%nat
  | None => s
  end.
Definition yield_current (s : Scheduler) : Scheduler := leave_current s RsReady.
Definition block_current (s : Scheduler) : Scheduler := leave_current s RsBlocked.

Definition unblock (s : Scheduler) (vcpu_id : nat) : Scheduler :=
  if (vcpu_id <? MAX_VCPUS)%nat && has_state s vcpu_id RsBlocked then set_state s vcpu_id RsReady else s.

Definition sched_state (s : Scheduler) (vcpu_id : nat) : RunState :=
  if (vcpu_id <? MAX_VCPUS)%nat then nth vcpu_id (sc_states s) RsNone else RsNone.

(** ** Histories *)
Inductive sched_op :=
| OpAdd (id : nat)
| OpRemove (id : nat)
| OpPick
| OpYield
| OpBlock
| OpUnblock (id : nat).

Definition sched_step (s : Scheduler) (op : sched_op) : Scheduler :=
  match op with
  | OpAdd id => add_vcpu s id
  | OpRemove id => remove_vcpu s id
  | OpPick => (pick_next s).1
  | OpYield => yield_current s
  | OpBlock => block_current s
  | OpUnblock id => unblock s id
  end.

Record sched_inv (s : Scheduler) : Prop := {
  si_len : length (sc_states s) = MAX_VCPUS;
  si_next : (sc_next_idx s < MAX_VCPUS)%nat;
  si_cur : forall id, sc_current s = Some id -> (id < MAX_VCPUS)%nat;
  si_run : forall id, sc_states s !! id = Some RsRunning -> sc_current s = Some id
}.

#[local] Arguments Nat.modulo : simpl never.

Lemma find_ready_spec s n : forall i,
  match find_ready s i n with
  | Some idx => exists k, (i <= k < i + n)%nat /\ idx = ((sc_next_idx s + k) mod MAX_VCPUS)%nat /\
      sc_states s !! idx = Some RsReady /\
      forall k', (i <= k' < k)%nat -> sc_states s !! ((sc_next_idx s + k') mod MAX_VCPUS)%nat <> Some RsReady
  | None => forall k, (i <= k < i + n)%nat ->
      sc_states s !! ((sc_next_idx s + k) mod MAX_VCPUS)%nat <> Some RsReady
  end.
Proof.
  induction n as [|n IH]; intros i; cbn -[MAX_VCPUS Nat.modulo]; [lia|].
  unfold has_state. case_bool_decide as Hi.
  - exists i. split_and!; try done; lia.
  - specialize (IH (S i)). destruct (find_ready s (S i) n) as [idx|].
    + destruct IH as (k & Hk & He & Hs & Hlt). exists k. split_and!; try done; [lia|lia|].
      intros k' Hk'. destruct (decide (k' = i)) as [->|]; [done|]. apply Hlt. lia.
    + intros k Hk. destruct (decide (k = i)) as [->|]; [done|]. apply IH. lia.
Qed.

Lemma set_state_inv s id st : st <> RsRunning -> sched_inv s -> sched_inv (set_state s id st).
Proof.
  intros Hst []. split; simpl; try done; [by rewrite length_insert|].
  intros j Hj. apply list_lookup_insert_Some in Hj as [(-> & ? & _)|[_ Hj]]; [by destruct Hst|auto].
Qed.

Lemma leave_current_inv s st : st <> RsRunning -> sched_inv s -> sched_inv (leave_current s st).
Proof.
  intros Hst HI. unfold leave_current. destruct (sc_current s) as [id|] eqn:Ec; [|done].
  destruct HI. split; simpl; [by rewrite length_insert|apply Nat.mod_upper_bound; done|done|].
  intros j Hj. apply list_lookup_insert_Some in Hj as [(-> & ? & _)|[Hne Hj]]; [by destruct Hst|].
  specialize (si_run0 _ Hj). congruence.
Qed.

Lemma pick_next_cases s : sched_inv s ->
  (exists id, sc_current s = Some id /\ sc_states s !! id = Some RsRunning /\ pick_next s = (s, Some id)) \/
  ((forall id, sc_states s !! id <> Some RsRunning) /\
   pick_next s = match find_ready s 0 MAX_VCPUS with
                 | Some idx => (set_state (set_current s (Some idx)) idx RsRunning, Some idx)
                 | None => (s, None)
                 end).
Proof.
  intros []. unfold pick_next, has_state. destruct (sc_current s) as [id|] eqn:Ec.
  - case_bool_decide as Hr; [left; eauto|]. right. split; [|done]. intros j Hj.
    specialize (si_run0 _ Hj). congruence.
  - right. split; [|done]. intros j Hj. specialize (si_run0 _ Hj). congruence.
Qed.

Lemma pick_next_inv s : sched_inv s -> sched_inv (pick_next s).1.
Proof.
  intros HI. destruct (pick_next_cases s HI) as [(id & _ & _ & ->)|[Hno ->]]; [done|].
  pose proof (find_ready_spec s MAX_VCPUS 0) as Hf. destruct (find_ready s 0 MAX_VCPUS) as [idx|]; [|done].
  destruct Hf as (k & _ & -> & _ & _). destruct HI. split; simpl; [by rewrite length_insert|done| |].
  - intros id [= <-]. apply Nat.mod_upper_bound. done.
  - intros id Hid. apply list_lookup_insert_Some in Hid as [(-> & _)|[_ Hid]]; [done|].
    by destruct (Hno id).
Qed.

(** The pick of an idle scheduler. *)
Lemma pick_next_idle s s2 o : sched_inv s -> sc_current s = None -> pick_next s = (s2, o) ->
  match o with
  | Some idx => sc_states s !! idx = Some RsReady /\ (idx < MAX_VCPUS)%nat /\ sched_inv s2 /\
                s2 = set_state (set_current s (Some idx)) idx RsRunning
  | None => s2 = s
  end.
Proof.
  intros HI Hc Hp. pose proof (pick_next_inv s HI) as HI2. rewrite Hp in HI2.
  destruct (pick_next_cases s HI) as [(id & ? & _)|[_ E]]; [congruence|]. rewrite Hp in E.
  pose proof (find_ready_spec s MAX_VCPUS 0) as Hf. destruct (find_ready s 0 MAX_VCPUS) as [idx|]; injection E as -> ->; [|done].
  destruct Hf as (k & _ & _ & Hr & _). split_and!; try done. rewrite <- (si_len _ HI). by eapply lookup_lt_Some.
Qed.

Lemma sched_step_inv s op : sched_inv s -> sched_inv (sched_step s op).
Proof.
  intros HI. destruct op as [id|id| | | |id]; simpl.
  - unfold add_vcpu. destruct (_ <? _)%nat; [by apply set_state_inv|done].
  - unfold remove_vcpu. destruct (_ <? _)%nat; [|done].
    pose proof (set_state_inv s id RsNone ltac:(done) HI) as [].
    destruct (decide _) as [Hc|]; [|done]. split; simpl in *; try done.
    intros j Hj. pose proof (si_run0 j Hj). assert (j = id) as -> by congruence.
    apply list_lookup_insert_Some in Hj as [(_ & ? & _)|[? _]]; done.
  - by apply pick_next_inv.
  - by apply leave_current_inv.
  - by apply leave_current_inv.
  - unfold unblock. destruct (_ && _); [by apply set_state_inv|done].
Qed.

Lemma sched_run_inv ops : forall s, sched_inv s -> sched_inv (foldl sched_step s ops).
Proof. induction ops as [|op ops IH]; simpl; auto using sched_step_inv. Qed.

Lemma sched_new_inv : sched_inv sched_new.
Proof.
  split; [done|by apply Nat.ltb_lt|done|].
  intros id Hid. apply lookup_replicate in Hid as [? _]. done.
Qed.

(** ** Fairness *)

(** One time slice: operations while no vCPU runs, [pick_next], operations
    while the picked vCPU runs, and its yield or block. *)
Record slice := { sl_before : list sched_op; sl_during : list sched_op; sl_block : bool }.

Definition run_slice (s : Scheduler) (sl : slice) : Scheduler * option nat :=
  let s1 := foldl sched_step s (sl_before sl) in
  let (s2, picked) := pick_next s1 in
  let s3 := foldl sched_step s2 (sl_during sl) in
  (if sl_block sl then block_current s3 else yield_current s3, picked).

Fixpoint run_slices (s : Scheduler) (sls : list slice) : list (option nat) :=
  match sls with
  | [] => []
  | sl :: sls => let (s', p) := run_slice s sl in p :: run_slices s' sls
  end.

(** Operations that others may perform around the slices: anything but
    removing the waiting vCPU, and no removal while a vCPU runs. *)
Definition before_ok (j : nat) (op : sched_op) : bool :=
  match op with OpAdd _ | OpUnblock _ => true | OpRemove id => negb (id =? j)%nat | _ => false end.
Definition during_ok (op : sched_op) : bool :=
  match op with OpAdd _ | OpUnblock _ => true | _ => false end.
Definition slice_ok (j : nat) (sl : slice) : Prop :=
  Forall (fun op => before_ok j op = true) (sl_before sl) /\
  Forall (fun op => during_ok op = true) (sl_during sl).

(** How far [j] is from the front of the round. *)
Definition turn_dist (s : Scheduler) (j : nat) : nat := ((j + MAX_VCPUS - sc_next_idx s) mod MAX_VCPUS)%nat.

Lemma mod8_cases (n k d : nat) : (n < MAX_VCPUS)%nat -> (k <= d < MAX_VCPUS)%nat ->
  let idx := ((n + k) mod MAX_VCPUS)%nat in let j := ((n + d) mod MAX_VCPUS)%nat in
  (k = d -> idx = j) /\
  (k <> d -> ((j + MAX_VCPUS - (idx + 1) mod MAX_VCPUS) mod MAX_VCPUS)%nat = (d - k - 1)%nat).
Proof.
  intros Hn Hk. cbv zeta. split; [by intros ->|].
  pose proof (Nat.div_mod_eq (n + k) MAX_VCPUS) as E1.
  pose proof (Nat.div_mod_eq (n + d) MAX_VCPUS) as E2.
  pose proof (Nat.mod_upper_bound (n + k) MAX_VCPUS ltac:(done)).
  pose proof (Nat.mod_upper_bound (n + d) MAX_VCPUS ltac:(done)).
  unfold MAX_VCPUS in *. intros Hne.
  set (a := ((n + k) mod 8)%nat) in *. set (b := ((n + d) mod 8)%nat) in *.
  pose proof (Nat.div_mod_eq (a + 1) 8) as E3. pose proof (Nat.mod_upper_bound (a + 1) 8 ltac:(done)).
  set (c := ((a + 1) mod 8)%nat) in *.
  pose proof (Nat.div_mod_eq (b + 8 - c) 8) as E4. pose proof (Nat.mod_upper_bound (b + 8 - c) 8 ltac:(done)).
  lia.
Qed.

Lemma turn_dist_pos s j : sched_inv s -> (j < MAX_VCPUS)%nat ->
  (turn_dist s j < MAX_VCPUS)%nat /\ ((sc_next_idx s + turn_dist s j) mod MAX_VCPUS)%nat = j.
Proof.
  intros [] Hj. unfold turn_dist. split; [by apply Nat.mod_upper_bound|].
  rewrite Nat.Div0.add_mod_idemp_r.
  replace (sc_next_idx s + (j + MAX_VCPUS - sc_next_idx s))%nat with (j + 1 * MAX_VCPUS)%nat by lia.
  rewrite Nat.Div0.mod_add. by apply Nat.mod_small.
Qed.

(** What the surrounding operations preserve. *)
Definition waits (j : nat) (s : Scheduler) : Prop := sched_inv s /\ sc_states s !! j = Some RsReady.

Lemma set_state_ready s id j : (j < length (sc_states s))%nat -> sc_states s !! j = Some RsReady ->
  sc_states (set_state s id RsReady) !! j = Some RsReady.
Proof.
  intros Hj Hr. simpl. destruct (decide (id = j)) as [->|]; [by rewrite list_lookup_insert_eq|].
  by rewrite list_lookup_insert_ne.
Qed.

Lemma waits_step j s op : waits j s -> before_ok j op = true ->
  waits j (sched_step s op) /\ sc_next_idx (sched_step s op) = sc_next_idx s /\
  (sc_current s = None -> sc_current (sched_step s op) = None) /\
  (during_ok op = true -> sc_current (sched_step s op) = sc_current s).
Proof.
  intros [HI Hr] Hok. pose proof (sched_step_inv s op HI) as HI'.
  assert (j < length (sc_states s))%nat as Hj by (by eapply lookup_lt_Some).
  destruct op as [id|id| | | |id]; simpl in *; try done.
  - split_and!; [split; [done|]| | |]; unfold add_vcpu; destruct (_ <? _)%nat; try done.
    by apply set_state_ready.
  - unfold waits. unfold remove_vcpu in *. destruct (_ <? _)%nat; [|done].
    apply negb_true_iff, Nat.eqb_neq in Hok.
    destruct (decide _) as [Hc|]; simpl in *; (split_and!; try done); rewrite list_lookup_insert_ne by done; done.
  - split_and!; [split; [done|]| | |]; unfold unblock; destruct (_ && _); try done. by apply set_state_ready.
Qed.

Lemma waits_run j ops : forall s, waits j s -> Forall (fun op => before_ok j op = true) ops ->
  waits j (foldl sched_step s ops) /\ sc_next_idx (foldl sched_step s ops) = sc_next_idx s /\
  (sc_current s = None -> sc_current (foldl sched_step s ops) = None) /\
  (Forall (fun op => during_ok op = true) ops -> sc_current (foldl sched_step s ops) = sc_current s).
Proof.
  induction ops as [|op ops IH]; intros s HW HF; [done|]. simpl. inversion HF; subst.
  destruct (waits_step j s op HW ltac:(done)) as (W1 & W2 & W3 & W4).
  destruct (IH _ W1 ltac:(done)) as (G1 & G2 & G3 & G4).
  split_and!; [done|congruence|auto|]. intros HD. inversion HD; subst. rewrite G4, W4 by done. done.
Qed.

Lemma during_before j ops : Forall (fun op => during_ok op = true) ops ->
  Forall (fun op => before_ok j op = true) ops.
Proof. intros H. eapply Forall_impl; [|exact H]. by intros []. Qed.

(** The pick with [j] waiting: a ready vCPU is found; unless it is [j], [j]
    still waits and is closer to the front once the picked one has left. *)
Lemma pick_progress s j : waits j s -> sc_current s = None ->
  exists s2 idx, pick_next s = (s2, Some idx) /\ sched_inv s2 /\ sc_current s2 = Some idx /\
    s2 = set_state (set_current s (Some idx)) idx RsRunning /\ sc_states s !! idx = Some RsReady /\
    (idx <> j -> waits j s2 /\
      (((j + MAX_VCPUS - (idx + 1) mod MAX_VCPUS) mod MAX_VCPUS)%nat < turn_dist s j)%nat).
Proof.
  intros [HI Hr] Hc.
  assert (j < MAX_VCPUS)%nat as Hj by (rewrite <- (si_len _ HI); by eapply lookup_lt_Some).
  destruct (turn_dist_pos s j HI Hj) as [Hdl Hdj].
  destruct (pick_next_cases s HI) as [(id & ? & _)|[_ Hp]]; [congruence|].
  pose proof (find_ready_spec s MAX_VCPUS 0) as Hf. pose proof (pick_next_inv s HI) as HI2. rewrite Hp in HI2 |- *.
  destruct (find_ready s 0 MAX_VCPUS) as [idx|].
  2:{ destruct (Hf (turn_dist s j)); [lia|]. by rewrite Hdj. }
  destruct Hf as (k & Hk & Hidx & Hready & Hfirst).
  assert (k <= turn_dist s j)%nat as Hkd.
  { destruct (Nat.le_gt_cases k (turn_dist s j)); [done|].
    destruct (Hfirst (turn_dist s j)); [lia|]. by rewrite Hdj. }
  destruct (mod8_cases (sc_next_idx s) k (turn_dist s j) (si_next _ HI) ltac:(lia)) as [Heq Hlt].
  rewrite Hdj, <- Hidx in Heq, Hlt. exists (set_state (set_current s (Some idx)) idx RsRunning), idx.
  split_and!; try done. intros Hij. split; [split; [done|]; simpl; by rewrite list_lookup_insert_ne|].
  rewrite Hlt by (intros ->; auto). assert (k <> turn_dist s j) by (intros ->; auto). lia.
Qed.

(** Leaving the core for the ready or the blocked state. *)
Lemma leave_progress s idx j st : waits j s -> sc_current s = Some idx -> idx <> j -> st <> RsRunning ->
  waits j (leave_current s st) /\ sc_current (leave_current s st) = None /\
  turn_dist (leave_current s st) j = ((j + MAX_VCPUS - (idx + 1) mod MAX_VCPUS) mod MAX_VCPUS)%nat.
Proof.
  intros [HI Hr] Hc Hij Hst. split; [split; [by apply leave_current_inv|]|].
  - unfold leave_current. rewrite Hc. simpl. by rewrite list_lookup_insert_ne.
  - unfold leave_current, turn_dist. by rewrite Hc.
Qed.

Lemma slice_progress s sl j s' p : waits j s -> sc_current s = None -> slice_ok j sl ->
  run_slice s sl = (s', p) ->
  p = Some j \/ (waits j s' /\ sc_current s' = None /\ (turn_dist s' j < turn_dist s j)%nat).
Proof.
  intros HW Hc [Hb Hd] Hrun. unfold run_slice in Hrun.
  destruct (waits_run j _ s HW Hb) as (HW1 & Hn & Hc1 & _). specialize (Hc1 Hc).
  set (s1 := foldl sched_step s (sl_before sl)) in *.
  assert (turn_dist s j = turn_dist s1 j) as -> by (unfold turn_dist; by rewrite Hn).
  destruct (pick_progress s1 j HW1 Hc1) as (s2 & idx & Hp & HI2 & Hc2 & _ & _ & Hnext). rewrite Hp in Hrun.
  destruct (decide (idx = j)) as [->|Hij]; [left; destruct (sl_block sl); by injection Hrun as _ <-|].
  right. destruct (Hnext Hij) as [HW2 Hlt].
  destruct (waits_run j _ s2 HW2 (during_before j _ Hd)) as (HW3 & _ & _ & Hc3). specialize (Hc3 Hd).
  set (s3 := foldl sched_step s2 (sl_during sl)) in *. rewrite Hc2 in Hc3.
  assert (exists st, st <> RsRunning /\ s' = leave_current s3 st) as (st & Hst & ->).
  { destruct (sl_block sl); injection Hrun as <- _; [by exists RsBlocked|by exists RsReady]. }
  destruct (leave_progress s3 idx j st HW3 Hc3 Hij Hst) as (H1 & H2 & H3). split_and!; [done..|lia].
Qed.

Lemma picked_within j sls : forall s, waits j s -> sc_current s = None -> Forall (slice_ok j) sls ->
  (turn_dist s j < length sls)%nat -> Some j ∈ run_slices s sls.
Proof.
  induction sls as [|sl sls IH]; intros s HW Hc HF Hl; simpl in *; [lia|].
  inversion HF; subst. destruct (run_slice s sl) as [s' p] eqn:E.
  destruct (slice_progress s sl j s' p HW Hc ltac:(done) E) as [->|(HW' & Hc' & Hd)]; [by left|].
  right. apply IH; try done. lia.
Qed.

(** At most one vCPU runs: after any history of scheduler calls on a new
    scheduler, a vCPU whose state is Running is the current one, and [current]
    and [next_idx] are valid indices (so no index of the state table panics). *)
Theorem sched_single_running (ops : list sched_op) : sched_inv (foldl sched_step sched_new ops).
Proof. apply sched_run_inv, sched_new_inv. Qed.

(** Round-robin scheduling is fair: from any reachable state with no
    current vCPU, a ready vCPU is picked within [MAX_VCPUS] time slices,
    whatever vCPUs are added, unblocked or (other than it, and not while they
    run) removed meanwhile, and whether the others yield or block. *)
Theorem sched_fair (ops : list sched_op) (j : nat) (sls : list slice) :
  let s := foldl sched_step sched_new ops in
  sc_states s !! j = Some RsReady -> sc_current s = None -> Forall (slice_ok j) sls ->
  length sls = MAX_VCPUS -> Some j ∈ run_slices s sls.
Proof.
  intros s Hr Hc HF Hl. assert (sched_inv s) as HI by apply sched_run_inv, sched_new_inv.
  apply picked_within; try done. rewrite Hl. apply turn_dist_pos; [done|].
  rewrite <- (si_len _ HI). by eapply lookup_lt_Some.
Qed.

Definition ex_sched_ops : list sched_op := [OpAdd 0; OpAdd 3; OpAdd 5; OpPick; OpYield].
Definition ex_slices : list slice :=
  replicate 8 {| sl_before := [OpUnblock 3]; sl_during := [OpAdd 5]; sl_block := true |}.

Lemma sched_fair_witness :
  Some 0%nat ∈ run_slices (foldl sched_step sched_new ex_sched_ops) ex_slices.
Proof.
  apply (sched_fair ex_sched_ops 0 ex_slices); try reflexivity.
  repeat constructor.
Defined.
