(* ===== verification/Regs.v ===== *)
(** * Regs: register contexts and MMIO instruction decoding

    [GeneralPurposeRegs], [SystemRegs] and [VcpuContext] of [regs.rs] with the
    exit reason read from ESR_EL2, and the decoder of aborting loads and
    stores of [hypervisor/decode.rs].  The theorems relate the decoder to the
    encodings of the architecture: data-abort syndromes with a valid ISS, and
    the A64 load/store (unsigned immediate) instructions. *)

From Stdlib Require Import ZArith Lia Bool.
From stdpp Require Import base decidable option list numbers.
From S2P Require Import Prelude.

(** ** General purpose registers

    x0 to x30; the array stands for the 31 fields. *)
Record GeneralPurposeRegs := mkGpr { gpr_x : list Z }.
Definition gpr_default : GeneralPurposeRegs := mkGpr (replicate 31 0).

(** Register 31 (and above) reads as zero and ignores writes. *)
Definition get_reg (g : GeneralPurposeRegs) (reg : Z) : Z :=
  if (0 <=? reg) && (reg <=? 30) then nth (Z.to_nat reg) (gpr_x g) 0 else 0.
Definition set_reg (g : GeneralPurposeRegs) (reg value : Z) : GeneralPurposeRegs :=
  if (0 <=? reg) && (reg <=? 30) then mkGpr (<[Z.to_nat reg := value]> (gpr_x g)) else g.

Record SystemRegs := mkSysRegs {
  sp_el1 : Z; elr_el1 : Z; spsr_el1 : Z; sctlr_el1 : Z; ttbr0_el1 : Z; ttbr1_el1 : Z;
  tcr_el1 : Z; mair_el1 : Z; vbar_el1 : Z; contextidr_el1 : Z; tpidr_el1 : Z; tpidrro_el0 : Z;
  tpidr_el0 : Z; esr_el2 : Z; far_el2 : Z; hcr_el2 : Z; cntvoff_el2 : Z
}.

Record VcpuContext := mkCtx {
  gp_regs : GeneralPurposeRegs;
  sys_regs : SystemRegs;
  ctx_sp : Z;
  ctx_pc : Z;
  spsr_el2 : Z
}.

Definition SPSR_EL1H_DAIF_MASKED : Z := 0x3C5.
Definition SPSR_EL1H : Z := 5.
Definition AARCH64_INSN_SIZE : Z := 4.

Definition set_sp_el1 (v : Z) (r : SystemRegs) : SystemRegs :=
  mkSysRegs v (elr_el1 r) (spsr_el1 r) (sctlr_el1 r) (ttbr0_el1 r) (ttbr1_el1 r) (tcr_el1 r) (mair_el1 r)
    (vbar_el1 r) (contextidr_el1 r) (tpidr_el1 r) (tpidrro_el0 r) (tpidr_el0 r) (esr_el2 r) (far_el2 r)
    (hcr_el2 r) (cntvoff_el2 r).
Definition set_spsr_el1 (v : Z) (r : SystemRegs) : SystemRegs :=
  mkSysRegs (sp_el1 r) (elr_el1 r) v (sctlr_el1 r) (ttbr0_el1 r) (ttbr1_el1 r) (tcr_el1 r) (mair_el1 r)
    (vbar_el1 r) (contextidr_el1 r) (tpidr_el1 r) (tpidrro_el0 r) (tpidr_el0 r) (esr_el2 r) (far_el2 r)
    (hcr_el2 r) (cntvoff_el2 r).
Definition sys_regs_default : SystemRegs := mkSysRegs 0 0 0 0 0 0 0 0 0 0 0 0 0 0 0 0 0.
Definition vcpu_context_default : VcpuContext :=
  mkCtx gpr_default sys_regs_default 0 0 SPSR_EL1H_DAIF_MASKED.

Definition vcpu_context_new (entry_point stack_pointer : Z) : VcpuContext :=
  let ctx := vcpu_context_default in
  mkCtx (gp_regs ctx) (set_spsr_el1 SPSR_EL1H (set_sp_el1 stack_pointer (sys_regs ctx)))
    stack_pointer entry_point (spsr_el2 ctx).

Definition advance_pc (c : VcpuContext) : VcpuContext :=
  mkCtx (gp_regs c) (sys_regs c) (ctx_sp c) (u64 (ctx_pc c + AARCH64_INSN_SIZE)) (spsr_el2 c).

(** ** Exit reasons *)
Definition ESR_EC_SHIFT : Z := 26.
Definition ESR_EC_MASK : Z := 0x3F.

Inductive ExitReason :=
| ErUnknown | ErWfiWfe | ErHvcCall | ErSmcCall | ErTrapMsrMrs | ErInstructionAbort | ErDataAbort
| ErOther (ec : Z).

Definition exit_reason (c : VcpuContext) : ExitReason :=
  let ec := Z.land (Z.shiftr (esr_el2 (sys_regs c)) ESR_EC_SHIFT) ESR_EC_MASK in
  match ec with
  | 0x00 => ErUnknown
  | 0x01 => ErWfiWfe
  | 0x16 => ErHvcCall
  | 0x17 => ErSmcCall
  | 0x18 => ErTrapMsrMrs
  | 0x20 | 0x21 => ErInstructionAbort
  | 0x24 | 0x25 => ErDataAbort
  | _ => ErOther ec
  end.

(** ** Decoding an aborting access *)
Inductive MmioAccess :=
| Load (reg size : Z) (sign_extend : bool)
| Store (reg size : Z).

(** The manual decoder: load/store register (unsigned immediate). *)
Definition decode_instruction (insn : Z) : option MmioAccess :=
  if Z.land insn 0x3B000000 =? 0x39000000 then
    let size_bits := Z.land (Z.shiftr insn 30) 0x3 in
    let size := u8 (Z.shiftl 1 size_bits) in
    let rt := u8 (Z.land insn 0x1F) in
    let is_load := Z.land (Z.shiftr insn 22) 1 in
    if is_load =? 1 then Some (Load rt size false) else Some (Store rt size)
  else None.

Definition decode (insn iss : Z) : option MmioAccess :=
  let isv := Z.land (Z.shiftr iss 24) 1 in
  if isv =? 0 then decode_instruction insn else
  let sas := Z.land (Z.shiftr iss 22) 0x3 in
  let srt := Z.land (Z.shiftr iss 16) 0x1F in
  let wnr := Z.land (Z.shiftr iss 6) 1 in
  let sext := Z.land (Z.shiftr iss 23) 1 in
  match (match sas with 0 => Some 1 | 1 => Some 2 | 2 => Some 4 | 3 => Some 8 | _ => None end) with
  | Some size =>
      if wnr =? 1 then Some (Store (u8 srt) (u8 size))
      else Some (Load (u8 srt) (u8 size) (negb (sext =? 0)))
  | None => None
  end.

Definition access_reg (a : MmioAccess) : Z := match a with Load r _ _ | Store r _ => r end.
Definition access_size (a : MmioAccess) : Z := match a with Load _ s _ | Store _ s => s end.
Definition is_load (a : MmioAccess) : bool := match a with Load _ _ _ => true | Store _ _ => false end.
Definition is_store (a : MmioAccess) : bool := negb (is_load a).

(** ** The architecture's encodings *)

(** ISS of a data abort with ISV = 1: SAS[23:22], SSE[21], SRT[20:16], SF[15],
    AR[14], the fields of bits [13:7], WnR[6] and DFSC[5:0]. *)
Record abort_iss := {
  ai_sas : Z; ai_sse : Z; ai_srt : Z; ai_sf : Z; ai_ar : Z; ai_mid : Z; ai_wnr : Z; ai_dfsc : Z
}.
Definition abort_iss_ok (f : abort_iss) : Prop :=
  fits 2 (ai_sas f) /\ fits 1 (ai_sse f) /\ fits 5 (ai_srt f) /\ fits 1 (ai_sf f) /\ fits 1 (ai_ar f) /\
  fits 7 (ai_mid f) /\ fits 1 (ai_wnr f) /\ fits 6 (ai_dfsc f).
Definition encode_iss (f : abort_iss) : Z :=
  2 ^ 24 + ai_sas f * 2 ^ 22 + ai_sse f * 2 ^ 21 + ai_srt f * 2 ^ 16 + ai_sf f * 2 ^ 15 +
  ai_ar f * 2 ^ 14 + ai_mid f * 2 ^ 7 + ai_wnr f * 2 ^ 6 + ai_dfsc f.

(** A64 load/store register (unsigned immediate): size[31:30] 111 V[26] 01
    opc[23:22] imm12[21:10] Rn[9:5] Rt[4:0]. *)
Record ldst_insn := { li_size : Z; li_v : Z; li_opc : Z; li_imm : Z; li_rn : Z; li_rt : Z }.
Definition ldst_ok (f : ldst_insn) : Prop :=
  fits 2 (li_size f) /\ fits 1 (li_v f) /\ fits 2 (li_opc f) /\ fits 12 (li_imm f) /\
  fits 5 (li_rn f) /\ fits 5 (li_rt f).
Definition encode_ldst (f : ldst_insn) : Z :=
  li_size f * 2 ^ 30 + 7 * 2 ^ 27 + li_v f * 2 ^ 26 + 2 ^ 24 + li_opc f * 2 ^ 22 +
  li_imm f * 2 ^ 10 + li_rn f * 2 ^ 5 + li_rt f.

(** ** Extraction of fields *)
Lemma field_div (x lo n : Z) : 0 <= lo -> 0 <= n ->
  Z.land (Z.shiftr x lo) (Z.ones n) = (x / 2 ^ lo) mod 2 ^ n.
Proof. intros. by rewrite Z.land_ones, Z.shiftr_div_pow2 by lia. Qed.

(** Fields of an encoding, by linear arithmetic. *)
Ltac enc_field :=
  rewrite field_div by lia; unfold encode_iss, encode_ldst, fits in *;
  Z.to_euclidean_division_equations; lia.

Lemma encode_iss_fields f : abort_iss_ok f ->
  Z.land (Z.shiftr (encode_iss f) 24) (Z.ones 1) = 1 /\
  Z.land (Z.shiftr (encode_iss f) 22) (Z.ones 2) = ai_sas f /\
  Z.land (Z.shiftr (encode_iss f) 16) (Z.ones 5) = ai_srt f /\
  Z.land (Z.shiftr (encode_iss f) 6) (Z.ones 1) = ai_wnr f /\
  Z.land (Z.shiftr (encode_iss f) 23) (Z.ones 1) = ai_sas f / 2.
Proof. intros (? & ? & ? & ? & ? & ? & ? & ?). split_and!; enc_field. Qed.

Lemma encode_ldst_fields f : ldst_ok f ->
  Z.land (Z.shiftr (encode_ldst f) 30) (Z.ones 2) = li_size f /\
  Z.land (Z.shiftr (encode_ldst f) 0) (Z.ones 5) = li_rt f /\
  Z.land (Z.shiftr (encode_ldst f) 22) (Z.ones 1) = li_opc f mod 2 /\
  Z.land (Z.shiftr (encode_ldst f) 24) (Z.ones 2) = 1 /\
  Z.land (Z.shiftr (encode_ldst f) 27) (Z.ones 3) = 7.
Proof. intros (? & ? & ? & ? & ? & ?). split_and!; enc_field. Qed.

Lemma ldst_class x : Z.land x 0x3B000000 =
  Z.lor (Z.shiftl (Z.land (Z.shiftr x 27) (Z.ones 3)) 27) (Z.shiftl (Z.land (Z.shiftr x 24) (Z.ones 2)) 24).
Proof.
  change 0x3B000000 with (Z.lor (bmask 27 3) (bmask 24 2)). bit_ext i Hi.
  zdec; rewrite ?andb_false_r, ?andb_true_r, ?orb_false_r; try reflexivity;
    rewrite ?testbit_ones, ?testbit_shiftr by lia; zdec;
    rewrite ?andb_true_r, ?andb_false_r, ?orb_false_r; try reflexivity; f_equal; lia.
Qed.

Lemma decode_ldst f : ldst_ok f -> decode_instruction (encode_ldst f) =
  Some (if li_opc f mod 2 =? 1 then Load (li_rt f) (2 ^ li_size f) false else Store (li_rt f) (2 ^ li_size f)).
Proof.
  intros Hf. destruct (encode_ldst_fields f Hf) as (E1 & E2 & E3 & E4 & E5).
  unfold decode_instruction. rewrite ldst_class, E4, E5.
  change (Z.lor (Z.shiftl 7 27) (Z.shiftl 1 24) =? 0x39000000) with true. cbv iota.
  change 3 with (Z.ones 2). change 31 with (Z.ones 5).
  change (Z.land (Z.shiftr (encode_ldst f) 22) 1) with (Z.land (Z.shiftr (encode_ldst f) 22) (Z.ones 1)).
  rewrite Z.shiftr_0_r in E2. rewrite E1, E2, E3.
  destruct Hf as (Hs & _ & _ & _ & _ & Ht). unfold fits in Hs, Ht.
  unfold u8. rewrite Z.shiftl_1_l.
  assert (0 <= 2 ^ li_size f < 2 ^ 8) by (split; [apply Z.pow_nonneg; lia|apply Z.pow_lt_mono_r; lia]).
  rewrite !wrap_id by (unfold fits; lia). by destruct (_ =? 1).
Qed.

Lemma size_of_sas sas : fits 2 sas ->
  match sas with 0 => Some 1 | 1 => Some 2 | 2 => Some 4 | 3 => Some 8 | _ => None end = Some (2 ^ sas) /\
  fits 8 (2 ^ sas).
Proof.
  intros H. unfold fits in H. assert (sas = 0 \/ sas = 1 \/ sas = 2 \/ sas = 3) as [-> |[-> |[-> | -> ]]] by lia;
    (split; [reflexivity|unfold fits; lia]).
Qed.

Lemma decode_iss insn f : abort_iss_ok f -> decode insn (encode_iss f) =
  Some (if ai_wnr f =? 1 then Store (ai_srt f) (2 ^ ai_sas f)
        else Load (ai_srt f) (2 ^ ai_sas f) (2 <=? ai_sas f)).
Proof.
  intros Hf. destruct (encode_iss_fields f Hf) as (E1 & E2 & E3 & E4 & E5).
  destruct Hf as (Hs & _ & Ht & _). destruct (size_of_sas _ Hs) as [Hsz Hfit].
  unfold decode. change (Z.land (Z.shiftr (encode_iss f) 24) 1) with (Z.land (Z.shiftr (encode_iss f) 24) (Z.ones 1)).
  rewrite E1. cbn [Z.eqb]. change 3 with (Z.ones 2). change 31 with (Z.ones 5).
  change (Z.land (Z.shiftr (encode_iss f) 6) 1) with (Z.land (Z.shiftr (encode_iss f) 6) (Z.ones 1)).
  change (Z.land (Z.shiftr (encode_iss f) 23) 1) with (Z.land (Z.shiftr (encode_iss f) 23) (Z.ones 1)).
  rewrite E2, E3, E4, E5, Hsz. unfold u8. rewrite !wrap_id by (done || (unfold fits in *; lia)).
  destruct (_ =? 1); [done|]. do 2 f_equal. unfold fits in Hs.
  destruct (Z.leb_spec 2 (ai_sas f)), (Z.eqb_spec (ai_sas f / 2) 0); try done;
    Z.to_euclidean_division_equations; lia.
Qed.

Lemma decode_no_isv insn iss : fits 24 iss -> decode insn iss = decode_instruction insn.
Proof.
  intros Hi. unfold decode. change (Z.land (Z.shiftr iss 24) 1) with (Z.land (Z.shiftr iss 24) (Z.ones 1)).
  rewrite field_div by lia. unfold fits in Hi. rewrite Z.div_small by done. done.
Qed.

(** The MMIO decoder agrees with the architecture: a data-abort syndrome
    with ISV = 1 is decoded to the register SRT, the size 2^SAS bytes and the
    direction WnR, whatever its other fields, and without a valid syndrome
    every general-purpose STR/LDR (unsigned immediate, any size, offset and
    base) is decoded to its transfer register, size and direction. *)
Theorem decode_matches_architecture :
  (forall insn f, abort_iss_ok f -> exists a, decode insn (encode_iss f) = Some a /\
     access_reg a = ai_srt f /\ access_size a = 2 ^ ai_sas f /\ is_store a = (ai_wnr f =? 1)) /\
  (forall f iss, ldst_ok f -> li_v f = 0 -> li_opc f <= 1 -> fits 24 iss ->
     exists a, decode (encode_ldst f) iss = Some a /\
     access_reg a = li_rt f /\ access_size a = 2 ^ li_size f /\ is_store a = (li_opc f =? 0)).
Proof.
  split.
  - intros insn f Hf. rewrite decode_iss by done. eexists. split; [reflexivity|].
    by destruct (ai_wnr f =? 1).
  - intros f iss Hf _ Ho Hi. rewrite decode_no_isv, decode_ldst by done. eexists. split; [reflexivity|].
    destruct Hf as (_ & _ & [Hl _] & _).
    assert (li_opc f = 0 \/ li_opc f = 1) as [-> | ->] by lia; done.
Qed.

Definition ex_abort : abort_iss :=
  {| ai_sas := 2; ai_sse := 0; ai_srt := 3; ai_sf := 0; ai_ar := 0; ai_mid := 0; ai_wnr := 1; ai_dfsc := 7 |}.
Definition ex_ldr : ldst_insn := {| li_size := 2; li_v := 0; li_opc := 1; li_imm := 6; li_rn := 1; li_rt := 0 |}.

Lemma decode_matches_architecture_witness :
  (exists a, decode 0 (encode_iss ex_abort) = Some a /\ access_reg a = 3 /\ access_size a = 4 /\ is_store a = true) /\
  (encode_ldst ex_ldr = 0xB9401820 /\ exists a, decode 0xB9401820 7 = Some a /\ access_reg a = 0 /\
     access_size a = 4 /\ is_store a = false).
Proof.
  split; [|split; [reflexivity|]].
  - apply (proj1 decode_matches_architecture 0 ex_abort). repeat split; simpl; lia.
  - apply (proj2 decode_matches_architecture ex_ldr 7); [|reflexivity|simpl; lia|unfold fits; lia].
    repeat split; simpl; lia.
Defined.

(** Sign-extending loads are not decoded as the architecture defines them:
    the manual decoder takes LDRSW (opc = 10) for a store, and the syndrome
    decoder takes the sign-extension flag from the high bit of SAS (bit 23)
    instead of SSE (bit 21), so that a plain word load is flagged and a signed
    byte load is not. *)
Theorem signed_loads_misdecoded :
  decode_instruction (encode_ldst {| li_size := 2; li_v := 0; li_opc := 2; li_imm := 0; li_rn := 1; li_rt := 0 |})
    = Some (Store 0 4) /\
  decode 0 (encode_iss {| ai_sas := 2; ai_sse := 0; ai_srt := 0; ai_sf := 0; ai_ar := 0; ai_mid := 0;
                          ai_wnr := 0; ai_dfsc := 7 |}) = Some (Load 0 4 true) /\
  decode 0 (encode_iss {| ai_sas := 0; ai_sse := 1; ai_srt := 0; ai_sf := 1; ai_ar := 0; ai_mid := 0;
                          ai_wnr := 0; ai_dfsc := 7 |}) = Some (Load 0 1 false).
Proof. repeat split. Qed.
