(* ===== verification/Spmc.v ===== *)
(** * Spmc: the secure partition manager core at S-EL2

    [SpContext] and the SP store of [sp_context.rs], and the request dispatcher
    of [spmc_handler.rs] (feature [sel2]): direct requests to secure
    partitions with preemption by physical interrupts and FFA_RUN, the RXTX
    registration of the normal world and partition discovery.

    Running a partition ([enter_guest], assembly, with the interrupt handler
    that sets SP_IRQ_PREEMPTED) is a parameter: a function of the installed
    Secure Stage-2 base, the memory and the register context that returns the
    memory, the context saved on exit and whether an interrupt ended the run.
    Nothing is assumed of it; Sel2 gives it from the handlers. *)

From Stdlib Require Import ZArith Lia Bool.
From stdpp Require Import base decidable option list strings.
From S2P Require Import Prelude Memory FfaCore Stage2 FfaNotif FfaProxy Regs.

Abbreviation SmcResult8 := GpRegs.
Definition smc1 (x0 : Z) : SmcResult8 := mkRegs x0 0 0 0 0 0 0 0.
Definition smc_x2 (x0 x2 : Z) : SmcResult8 := mkRegs x0 0 x2 0 0 0 0 0.

(** ** SP contexts *)
Inductive SpState := SpReset | SpIdle | SpRunning | SpBlocked | SpPreempted.
#[export] Instance SpState_eq_dec : EqDecision SpState.
Proof. solve_decision. Defined.

Record SpContext := mkSp {
  sp_ctx : VcpuContext;
  sp_id : Z;
  sp_state : SpState;
  sp_entry : Z;
  sp_vsttbr : Z;
  sp_uuid : list Z
}.

Definition sp_context_new (id entry_point stack_top : Z) (uuid : list Z) : SpContext :=
  let ctx := vcpu_context_default in
  mkSp (mkCtx (gp_regs ctx) (set_sp_el1 stack_top (sys_regs ctx)) stack_top entry_point SPSR_EL1H_DAIF_MASKED)
    id SpReset entry_point 0 uuid.

Definition set_vsttbr (v : Z) (sp : SpContext) : SpContext :=
  mkSp (sp_ctx sp) (sp_id sp) (sp_state sp) (sp_entry sp) v (sp_uuid sp).
Definition set_sp_ctx (c : VcpuContext) (sp : SpContext) : SpContext :=
  mkSp c (sp_id sp) (sp_state sp) (sp_entry sp) (sp_vsttbr sp) (sp_uuid sp).

Definition valid_transition (from to : SpState) : bool :=
  match from, to with
  | SpReset, SpIdle => true
  | SpIdle, SpRunning => true
  | SpRunning, SpIdle => true
  | SpRunning, SpBlocked => true
  | SpBlocked, SpRunning => true
  | SpRunning, SpPreempted => true
  | SpPreempted, SpRunning => true
  | _, _ => false
  end.

Definition transition_to (new_state : SpState) (sp : SpContext) : result SpContext string :=
  if valid_transition (sp_state sp) new_state
  then Ok (mkSp (sp_ctx sp) (sp_id sp) new_state (sp_entry sp) (sp_vsttbr sp) (sp_uuid sp))
  else Err "invalid SP state transition"%string.

Definition set_args (r : SmcResult8) (sp : SpContext) : SpContext :=
  let g := gp_regs (sp_ctx sp) in
  let g := set_reg (set_reg (set_reg (set_reg g 0 (rx0 r)) 1 (rx1 r)) 2 (rx2 r)) 3 (rx3 r) in
  let g := set_reg (set_reg (set_reg (set_reg g 4 (rx4 r)) 5 (rx5 r)) 6 (rx6 r)) 7 (rx7 r) in
  set_sp_ctx (mkCtx g (sys_regs (sp_ctx sp)) (ctx_sp (sp_ctx sp)) (ctx_pc (sp_ctx sp)) (spsr_el2 (sp_ctx sp))) sp.

Definition get_args (sp : SpContext) : SmcResult8 :=
  let g := gp_regs (sp_ctx sp) in
  mkRegs (get_reg g 0) (get_reg g 1) (get_reg g 2) (get_reg g 3)
         (get_reg g 4) (get_reg g 5) (get_reg g 6) (get_reg g 7).

(** ** The SP store *)
Definition MAX_SPS : nat := 4.
Definition SP_STORE_init : list (option SpContext) := replicate MAX_SPS None.

(** [None] is the panic "No free SP slots". *)
Fixpoint register_sp (sp : SpContext) (slots : list (option SpContext)) : option (list (option SpContext)) :=
  match slots with
  | [] => None
  | None :: slots => Some (Some sp :: slots)
  | Some sp' :: slots => match register_sp sp slots with Some l => Some (Some sp' :: l) | None => None end
  end.

Definition slot_is (id : Z) (slot : option SpContext) : bool :=
  match slot with Some sp => sp_id sp =? id | None => false end.
Fixpoint get_sp (id : Z) (slots : list (option SpContext)) : option SpContext :=
  match slots with
  | [] => None
  | slot :: slots => if slot_is id slot then slot else get_sp id slots
  end.
(** Writing back through the reference that [get_sp_mut] returned. *)
Definition put_sp (id : Z) (sp : SpContext) (slots : list (option SpContext)) : list (option SpContext) :=
  default slots (update_first (slot_is id) (fun _ => Some sp) slots).
Definition is_registered_sp (id : Z) (slots : list (option SpContext)) : bool :=
  existsb (slot_is id) slots.
Definition registered_sps (slots : list (option SpContext)) : list SpContext := omap id slots.

(** ** State of the SPMC *)
Record NwdRxtxState := mkRxtx { nw_tx_pa : Z; nw_rx_pa : Z; nw_page_count : Z; nw_mapped : bool }.
Definition NWD_RXTX_init : NwdRxtxState := mkRxtx 0 0 0 false.

Record spmc_state := mkSpmc {
  sm_sps : list (option SpContext);
  sm_rxtx : NwdRxtxState;
  sm_irq_preempted : bool;
  sm_timer_armed : bool;
  sm_vsttbr : Z;
  sm_mem : mem
}.
Definition spmcm := SM spmc_state string.

Definition with_sps (s : spmc_state) (l : list (option SpContext)) : spmc_state :=
  mkSpmc l (sm_rxtx s) (sm_irq_preempted s) (sm_timer_armed s) (sm_vsttbr s) (sm_mem s).
Definition with_rxtx (s : spmc_state) (r : NwdRxtxState) : spmc_state :=
  mkSpmc (sm_sps s) r (sm_irq_preempted s) (sm_timer_armed s) (sm_vsttbr s) (sm_mem s).
Definition with_flag (s : spmc_state) (b : bool) : spmc_state :=
  mkSpmc (sm_sps s) (sm_rxtx s) b (sm_timer_armed s) (sm_vsttbr s) (sm_mem s).
Definition with_timer (s : spmc_state) (b : bool) : spmc_state :=
  mkSpmc (sm_sps s) (sm_rxtx s) (sm_irq_preempted s) b (sm_vsttbr s) (sm_mem s).
Definition with_vsttbr (s : spmc_state) (v : Z) : spmc_state :=
  mkSpmc (sm_sps s) (sm_rxtx s) (sm_irq_preempted s) (sm_timer_armed s) v (sm_mem s).
Definition with_smem (s : spmc_state) (m : mem) : spmc_state :=
  mkSpmc (sm_sps s) (sm_rxtx s) (sm_irq_preempted s) (sm_timer_armed s) (sm_vsttbr s) m.

(** [code as u64] of an [i32] sign-extends. *)
Definition make_error (code : Z) : SmcResult8 := smc_x2 FFA_ERROR (u64 code).

(** [SecureStage2Config] *)
Definition VSTCR : Z :=
  Z.lor (Z.lor (Z.lor (Z.lor (Z.lor (Z.lor 16 (Z.shiftl 2 6)) (Z.shiftl 1 8)) (Z.shiftl 1 10)) (Z.shiftl 3 12))
    (Z.shiftl 0 14)) (Z.shiftl 5 16).
Record SecureStage2Config := mkSec { ss_vsttbr : Z; ss_vstcr : Z }.
Definition secure_stage2_new (page_table_addr : Z) : SecureStage2Config :=
  mkSec (Z.land page_table_addr 0x0000FFFFFFFFFFFE) VSTCR.
Definition new_from_vsttbr (vsttbr : Z) : SecureStage2Config := mkSec vsttbr VSTCR.

Section Dispatch.
Context (enter_guest : Z -> mem -> VcpuContext -> mem * VcpuContext * bool).

(** The tail that [dispatch_to_sp] and [resume_preempted_sp] share: the SP is
    marked Running, the flag cleared, the timer armed, Stage-2 installed, the
    guest entered, and the exit classified by the flag. *)
Definition run_sp (id : Z) (sp : SpContext) : spmcm SmcResult8 :=
  let* sp := (match transition_to SpRunning sp with
              | Ok sp => sm_upd (fun s => with_sps s (put_sp id sp (sm_sps s))) ;;; sm_ret sp
              | Err _ => sm_err "SP Running transition failed"%string end) in
  sm_upd (fun s => with_timer (with_flag s false) true) ;;;
  sm_upd (fun s => with_vsttbr s (ss_vsttbr (new_from_vsttbr (sp_vsttbr sp)))) ;;;
  let* s := sm_get in
  let '(m, ctx, irq) := enter_guest (sm_vsttbr s) (sm_mem s) (sp_ctx sp) in
  let sp := set_sp_ctx ctx sp in
  sm_upd (fun s => with_flag (with_smem (with_sps s (put_sp id sp (sm_sps s))) m) irq) ;;;
  sm_upd (fun s => with_timer s false) ;;;
  let* s := sm_get in
  let preempted := sm_irq_preempted s in
  sm_upd (fun s => with_flag s false) ;;;
  if preempted then
    match transition_to SpPreempted sp with
    | Ok sp => sm_upd (fun s => with_sps s (put_sp id sp (sm_sps s))) ;;; sm_ret (smc1 FFA_INTERRUPT)
    | Err _ => sm_err "SP Preempted transition failed"%string
    end
  else
    match transition_to SpIdle sp with
    | Ok sp => sm_upd (fun s => with_sps s (put_sp id sp (sm_sps s))) ;;; sm_ret (get_args sp)
    | Err _ => sm_err "SP Idle transition failed"%string
    end.

Definition dispatch_to_sp (req : SmcResult8) (id : Z) : spmcm SmcResult8 :=
  let* s := sm_get in
  match get_sp id (sm_sps s) with
  | None => sm_ret (make_error FFA_INVALID_PARAMETERS)
  | Some sp =>
      if negb (bool_decide (sp_state sp = SpIdle)) then sm_ret (make_error FFA_BUSY) else
      run_sp id (set_args req sp)
  end.

Definition resume_preempted_sp (id : Z) : spmcm SmcResult8 :=
  let* s := sm_get in
  match get_sp id (sm_sps s) with
  | None => sm_ret (make_error FFA_INVALID_PARAMETERS)
  | Some sp =>
      if negb (bool_decide (sp_state sp = SpPreempted)) then sm_ret (make_error FFA_DENIED) else
      run_sp id sp
  end.

(** ** Requests the SPMC answers itself *)
Definition spmc_rxtx_map (req : SmcResult8) : spmcm SmcResult8 :=
  let tx_pa := rx1 req in
  let rx_pa := rx2 req in
  let page_count := u32 (rx3 req) in
  if negb (Z.land tx_pa 0xFFF =? 0) || negb (Z.land rx_pa 0xFFF =? 0) || (page_count =? 0)
  then sm_ret (make_error FFA_INVALID_PARAMETERS) else
  let* s := sm_get in
  if nw_mapped (sm_rxtx s) then sm_ret (make_error FFA_DENIED) else
  sm_upd (fun s => with_rxtx s (mkRxtx tx_pa rx_pa page_count true)) ;;;
  sm_ret (smc1 FFA_SUCCESS_32).

Definition spmc_rxtx_unmap : spmcm SmcResult8 :=
  let* s := sm_get in
  if negb (nw_mapped (sm_rxtx s)) then sm_ret (make_error FFA_DENIED) else
  sm_upd (fun s => with_rxtx s (mkRxtx 0 0 0 false)) ;;;
  sm_ret (smc1 FFA_SUCCESS_32).

Definition spmc_rx_release : spmcm SmcResult8 :=
  let* s := sm_get in
  if negb (nw_mapped (sm_rxtx s)) then sm_ret (make_error FFA_DENIED) else
  sm_ret (smc1 FFA_SUCCESS_32).

Fixpoint write_uuid (m : mem) (ptr : Z) (words : list Z) : mem :=
  match words with
  | [] => m
  | w :: words => write_uuid (write32 m ptr w) (ptr + 4) words
  end.

(** One 24-byte partition information descriptor. *)
Definition write_descriptor (m : mem) (ptr : Z) (sp : SpContext) : mem :=
  let m := write16 m ptr (sp_id sp) in
  let m := write16 m (ptr + 2) 1 in
  let m := write32 m (ptr + 4) 0x1 in
  write_uuid m (ptr + 8) (sp_uuid sp).

Fixpoint write_descriptors (mapped : bool) (rx_pa max_bytes : Z) (m : mem) (count : Z) (sps : list SpContext)
    : mem * Z :=
  match sps with
  | [] => (m, count)
  | sp :: sps =>
      let offset := count * 24 in
      let m := if mapped && (offset + 24 <=? max_bytes) then write_descriptor m (rx_pa + offset) sp else m in
      write_descriptors mapped rx_pa max_bytes m (count + 1) sps
  end.

Definition spmc_partition_info_get : spmcm SmcResult8 :=
  let* s := sm_get in
  let r := sm_rxtx s in
  let max_bytes := if nw_mapped r then nw_page_count r * 4096 else 0 in
  let (m, count) := write_descriptors (nw_mapped r) (nw_rx_pa r) max_bytes (sm_mem s) 0
                      (registered_sps (sm_sps s)) in
  sm_upd (fun s => with_smem s m) ;;;
  sm_ret (smc_x2 FFA_SUCCESS_32 count).

(** x1 with source and destination swapped. *)
Definition swap_x1 (req : SmcResult8) : Z :=
  let source := Z.land (Z.shiftr (rx1 req) 16) 0xFFFF in
  let dest := Z.land (rx1 req) 0xFFFF in
  Z.lor (Z.shiftl dest 16) source.

Definition handle_direct_req_32 (req : SmcResult8) : SmcResult8 :=
  if negb (Z.land (rx2 req) FFA_FWK_MSG_BIT =? 0) then
    let fwk_func := Z.land (rx2 req) (not64 FFA_FWK_MSG_BIT) in
    if fwk_func =? SPMD_FWK_MSG_FFA_VERSION_REQ then
      mkRegs FFA_MSG_SEND_DIRECT_RESP_32 (swap_x1 req)
        (Z.lor FFA_FWK_MSG_BIT SPMD_FWK_MSG_FFA_VERSION_RESP) FFA_VERSION_1_1 0 0 0 0
    else make_error FFA_NOT_SUPPORTED
  else
    mkRegs FFA_MSG_SEND_DIRECT_RESP_32 (swap_x1 req) 0 (rx3 req) (rx4 req) (rx5 req) (rx6 req) (rx7 req).

Definition spmc_features : list Z :=
  [FFA_VERSION; FFA_ID_GET; FFA_FEATURES; FFA_SPM_ID_GET; FFA_PARTITION_INFO_GET; FFA_MSG_SEND_DIRECT_REQ_32;
   FFA_MSG_SEND_DIRECT_REQ_64; FFA_RXTX_MAP; FFA_RX_RELEASE; FFA_RUN].

Definition dispatch_ffa (req : SmcResult8) : spmcm SmcResult8 :=
  let fid := rx0 req in
  if fid =? FFA_VERSION then sm_ret (smc1 FFA_VERSION_1_1)
  else if fid =? FFA_ID_GET then sm_ret (smc_x2 FFA_SUCCESS_32 FFA_SPMC_ID)
  else if fid =? FFA_SPM_ID_GET then sm_ret (smc_x2 FFA_SUCCESS_32 FFA_SPMC_ID)
  else if fid =? FFA_FEATURES then
    if existsb (Z.eqb (rx1 req)) spmc_features then sm_ret (smc1 FFA_SUCCESS_32)
    else sm_ret (make_error FFA_NOT_SUPPORTED)
  else if fid =? FFA_RUN then
    let id := u16 (Z.land (Z.shiftr (rx1 req) 16) 0xFFFF) in
    let* s := sm_get in
    match get_sp id (sm_sps s) with
    | None => sm_ret (make_error FFA_INVALID_PARAMETERS)
    | Some sp => if negb (bool_decide (sp_state sp = SpPreempted)) then sm_ret (make_error FFA_DENIED)
                 else sm_ret (make_error FFA_NOT_SUPPORTED)
    end
  else if fid =? FFA_RXTX_MAP then spmc_rxtx_map req
  else if fid =? FFA_RXTX_UNMAP then spmc_rxtx_unmap
  else if fid =? FFA_RX_RELEASE then spmc_rx_release
  else if fid =? FFA_PARTITION_INFO_GET then spmc_partition_info_get
  else if fid =? FFA_MSG_SEND_DIRECT_REQ_32 then sm_ret (handle_direct_req_32 req)
  else if fid =? FFA_MSG_SEND_DIRECT_REQ_64 then
    sm_ret (mkRegs FFA_MSG_SEND_DIRECT_RESP_64 (swap_x1 req) 0 (rx3 req) (rx4 req) (rx5 req) (rx6 req) (rx7 req))
  else sm_ret (make_error FFA_NOT_SUPPORTED).

Definition dispatch_request (req : SmcResult8) : spmcm SmcResult8 :=
  let* s := sm_get in
  let dest := u16 (Z.land (rx1 req) 0xFFFF) in
  if ((rx0 req =? FFA_MSG_SEND_DIRECT_REQ_32) || (rx0 req =? FFA_MSG_SEND_DIRECT_REQ_64))
     && is_registered_sp dest (sm_sps s) then dispatch_to_sp req dest
  else if rx0 req =? FFA_RUN then resume_preempted_sp (u16 (Z.land (Z.shiftr (rx1 req) 16) 0xFFFF))
  else dispatch_ffa req.

(** [run_event_loop], for the requests SPMD sends one after another. *)
Fixpoint run_event_loop (reqs : list SmcResult8) : spmcm (list SmcResult8) :=
  match reqs with
  | [] => sm_ret []
  | req :: reqs =>
      let* response := dispatch_request req in
      let* rest := run_event_loop reqs in
      sm_ret (response :: rest)
  end.
End Dispatch.

(** ** The SP store *)
Lemma put_sp_cons id sp x l : put_sp id sp (x :: l) = if slot_is id x then Some sp :: l else x :: put_sp id sp l.
Proof. unfold put_sp. simpl. destruct (slot_is id x); [done|]. by destruct (update_first _ _ l). Qed.

Lemma slot_is_id id sp : sp_id sp = id -> slot_is id (Some sp) = true.
Proof. intros <-. apply Z.eqb_refl. Qed.

Lemma put_put_sp id a b l : sp_id b = id -> put_sp id a (put_sp id b l) = put_sp id a l.
Proof.
  intros Hb. induction l as [|x l IH]; [done|]. rewrite !put_sp_cons.
  destruct (slot_is id x) eqn:E; rewrite put_sp_cons; [by rewrite slot_is_id|]. by rewrite E, IH.
Qed.

Lemma get_put_sp id a l : sp_id a = id -> is_Some (get_sp id l) -> get_sp id (put_sp id a l) = Some a.
Proof.
  intros Ha. induction l as [|x l IH]; simpl; [by intros []|]. rewrite put_sp_cons.
  destruct (slot_is id x) eqn:E; intros H; cbn [get_sp]; [by rewrite slot_is_id|]. rewrite E. auto.
Qed.

Lemma get_sp_id id l sp : get_sp id l = Some sp -> sp_id sp = id.
Proof.
  induction l as [|x l IH]; simpl; [done|]. destruct (slot_is id x) eqn:E; [|done].
  intros ->. by apply Z.eqb_eq.
Qed.

Lemma registered_get id l : is_registered_sp id l = true -> is_Some (get_sp id l).
Proof.
  induction l as [|x l IH]; simpl; [done|]. destruct (slot_is id x) eqn:E; simpl; [|done].
  intros _. by destruct x.
Qed.

(** Between requests no partition is running or blocked, the preemption flag is
    clear and the timer is off. *)
Definition sp_quiet (slot : option SpContext) : Prop :=
  match slot with
  | Some sp => sp_state sp = SpReset \/ sp_state sp = SpIdle \/ sp_state sp = SpPreempted
  | None => True
  end.
Record spmc_quiet (s : spmc_state) : Prop := {
  sq_sps : Forall sp_quiet (sm_sps s);
  sq_flag : sm_irq_preempted s = false;
  sq_timer : sm_timer_armed s = false
}.

(** What no request changes of a partition. *)
Definition sp_identity (slot : option SpContext) : option (Z * Z * Z * list Z) :=
  match slot with Some sp => Some (sp_id sp, sp_entry sp, sp_vsttbr sp, sp_uuid sp) | None => None end.

Lemma put_sp_forall (P : option SpContext -> Prop) id sp l : Forall P l -> P (Some sp) -> Forall P (put_sp id sp l).
Proof.
  intros HF Hp. induction HF as [|x l Hx HF IH]; [done|]. rewrite put_sp_cons.
  destruct (slot_is id x); by constructor.
Qed.

Lemma put_sp_identity id sp sp' l : get_sp id l = Some sp -> sp_identity (Some sp') = sp_identity (Some sp) ->
  sp_identity <$> put_sp id sp' l = sp_identity <$> l.
Proof.
  induction l as [|x l IH]; [done|]. cbn [get_sp]. rewrite put_sp_cons. intros Hg Hi.
  destruct (slot_is id x); rewrite !fmap_cons; f_equal; auto. by rewrite Hg.
Qed.

(** ** Running a partition *)
Definition sp_after (sp : SpContext) (c : VcpuContext) (irq : bool) : SpContext :=
  mkSp c (sp_id sp) (if irq then SpPreempted else SpIdle) (sp_entry sp) (sp_vsttbr sp) (sp_uuid sp).

(** Execution of the monad's plumbing, leaving the operations folded. *)
Ltac spmc_eval :=
  cbv beta iota zeta delta [sm_bind sm_upd sm_ret sm_get with_sps with_flag with_timer with_vsttbr with_smem
    sm_sps sm_rxtx sm_irq_preempted sm_timer_armed sm_vsttbr sm_mem new_from_vsttbr ss_vsttbr
    set_sp_ctx sp_ctx sp_id sp_state sp_entry sp_vsttbr sp_uuid valid_transition sp_after].

Section DispatchProofs.
Context (enter_guest : Z -> mem -> VcpuContext -> mem * VcpuContext * bool).

Lemma run_sp_spec s id sp m c irq : sp_id sp = id -> sp_state sp = SpIdle \/ sp_state sp = SpPreempted ->
  enter_guest (sp_vsttbr sp) (sm_mem s) (sp_ctx sp) = (m, c, irq) ->
  run_sp enter_guest id sp s =
    (mkSpmc (put_sp id (sp_after sp c irq) (sm_sps s)) (sm_rxtx s) false false (sp_vsttbr sp) m,
     Ok (if irq then smc1 FFA_INTERRUPT else get_args (sp_after sp c irq))).
Proof.
  intros Hid Hst He. destruct s as [sps rxtx flag timer vs mm], sp as [ctx id' st en vt uu]. cbn [sm_mem sp_vsttbr sp_ctx sp_id sp_state sm_sps sm_rxtx] in *. subst id'. unfold run_sp, transition_to. cbn [sp_state].
  assert (valid_transition st SpRunning = true) as -> by (by destruct Hst as [-> | ->]).
  spmc_eval. rewrite He. spmc_eval.
  destruct irq; spmc_eval; rewrite !put_put_sp by done; done.
Qed.

(** The two requests that run a partition. *)
Definition runs_sp (s : spmc_state) (req : SmcResult8) (id : Z) (sp : SpContext) : Prop :=
  (((rx0 req = FFA_MSG_SEND_DIRECT_REQ_32 \/ rx0 req = FFA_MSG_SEND_DIRECT_REQ_64) /\
    id = u16 (Z.land (rx1 req) 0xFFFF) /\
    exists sp0, get_sp id (sm_sps s) = Some sp0 /\ sp_state sp0 = SpIdle /\ sp = set_args req sp0) \/
   (rx0 req = FFA_RUN /\ id = u16 (Z.land (Z.shiftr (rx1 req) 16) 0xFFFF) /\
    get_sp id (sm_sps s) = Some sp /\ sp_state sp = SpPreempted)).

Lemma local_sps req s s' r : dispatch_ffa req s = (s', r) ->
  sm_sps s' = sm_sps s /\ sm_irq_preempted s' = sm_irq_preempted s /\ sm_timer_armed s' = sm_timer_armed s /\
  exists resp, r = Ok resp.
Proof.
  unfold dispatch_ffa. intros H. repeat (match type of H with
    | (if ?c then _ else _) _ = _ => destruct c
    | sm_bind sm_get _ _ = _ => unfold sm_bind, sm_get in H
    | (match get_sp ?i ?l with Some _ => _ | None => _ end) _ = _ => destruct (get_sp i l)
    | spmc_rxtx_map _ _ = _ => unfold spmc_rxtx_map in H
    | spmc_rxtx_unmap _ = _ => unfold spmc_rxtx_unmap in H
    | spmc_rx_release _ = _ => unfold spmc_rx_release in H
    | spmc_partition_info_get _ = _ => unfold spmc_partition_info_get in H
    | (let (_, _) := ?e in _) _ = _ => destruct e
    | sm_bind (sm_upd _) _ _ = _ => unfold sm_bind, sm_upd in H
    | sm_ret _ _ = _ => unfold sm_ret in H; injection H as <- <-; by split_and!; eauto
    end; cbv beta in H).
  all: unfold sm_upd, sm_ret in H; injection H as <- <-; by split_and!; eauto.
Qed.

Lemma set_args_identity req sp : sp_identity (Some (set_args req sp)) = sp_identity (Some sp) /\
  sp_state (set_args req sp) = sp_state sp.
Proof. done. Qed.

Lemma dispatch_request_eq req s : dispatch_request enter_guest req s =
  let dest := u16 (Z.land (rx1 req) 0xFFFF) in
  let id := u16 (Z.land (Z.shiftr (rx1 req) 16) 0xFFFF) in
  if ((rx0 req =? FFA_MSG_SEND_DIRECT_REQ_32) || (rx0 req =? FFA_MSG_SEND_DIRECT_REQ_64))
     && is_registered_sp dest (sm_sps s) then
    match get_sp dest (sm_sps s) with
    | None => (s, Ok (make_error FFA_INVALID_PARAMETERS))
    | Some sp => if negb (bool_decide (sp_state sp = SpIdle)) then (s, Ok (make_error FFA_BUSY))
                 else run_sp enter_guest dest (set_args req sp) s
    end
  else if rx0 req =? FFA_RUN then
    match get_sp id (sm_sps s) with
    | None => (s, Ok (make_error FFA_INVALID_PARAMETERS))
    | Some sp => if negb (bool_decide (sp_state sp = SpPreempted)) then (s, Ok (make_error FFA_DENIED))
                 else run_sp enter_guest id sp s
    end
  else dispatch_ffa req s.
Proof.
  unfold dispatch_request, dispatch_to_sp, resume_preempted_sp, sm_bind, sm_get. cbv beta zeta iota.
  destruct (_ && _).
  - destruct (get_sp _ _); [|done]. by destruct (negb _).
  - destruct (_ =? FFA_RUN); [|done]. destruct (get_sp _ _); [|done]. by destruct (negb _).
Qed.

(** Every request either runs the partition it names, or is answered without
    touching any partition. *)
Lemma dispatch_cases req s :
  (exists id sp, runs_sp s req id sp /\ dispatch_request enter_guest req s = run_sp enter_guest id sp s) \/
  (exists s' resp, dispatch_request enter_guest req s = (s', Ok resp) /\ sm_sps s' = sm_sps s /\
     sm_irq_preempted s' = sm_irq_preempted s /\ sm_timer_armed s' = sm_timer_armed s).
Proof.
  rewrite dispatch_request_eq. cbv zeta.
  destruct (((_ || _) && _)) eqn:Ed.
  { apply andb_true_iff in Ed as [Hf Hr]. rewrite orb_true_iff, !Z.eqb_eq in Hf.
    destruct (registered_get _ _ Hr) as [sp Hsp].
    rewrite Hsp.
    destruct (decide (sp_state sp = SpIdle)) as [Hi|Hi].
    - rewrite bool_decide_eq_true_2 by done. simpl. left. do 2 eexists. split; [|reflexivity].
      left. split; [done|]. split; [done|]. by exists sp.
    - rewrite bool_decide_eq_false_2 by done. simpl. right. do 2 eexists. split; [reflexivity|done]. }
  destruct (Z.eqb_spec (rx0 req) FFA_RUN) as [Hr|Hr].
  { destruct (get_sp _ (sm_sps s)) as [sp|] eqn:Hsp; [|right; do 2 eexists; split; [reflexivity|done]].
    destruct (decide (sp_state sp = SpPreempted)) as [Hi|Hi].
    - rewrite bool_decide_eq_true_2 by done. simpl. left. do 2 eexists. split; [|reflexivity].
      right. by split_and!.
    - rewrite bool_decide_eq_false_2 by done. simpl. right. do 2 eexists. split; [reflexivity|done]. }
  right. destruct (dispatch_ffa req s) as [s' r] eqn:E.
  destruct (local_sps _ _ _ _ E) as (H1 & H2 & H3 & resp & ->). by do 2 eexists.
Qed.

Lemma runs_sp_facts s req id sp : runs_sp s req id sp ->
  sp_id sp = id /\ (sp_state sp = SpIdle \/ sp_state sp = SpPreempted) /\
  exists sp0, get_sp id (sm_sps s) = Some sp0 /\ sp_identity (Some sp) = sp_identity (Some sp0).
Proof.
  intros [(_ & _ & sp0 & Hg & Hs & ->)|(_ & _ & Hg & Hs)].
  - split_and!; [by apply get_sp_id in Hg|by left|by exists sp0].
  - split_and!; [by apply get_sp_id in Hg|by right|by exists sp].
Qed.

Lemma registered_of_get id l sp : get_sp id l = Some sp -> is_registered_sp id l = true.
Proof.
  intros Hg. apply existsb_exists. exists (Some sp). split; [|by apply slot_is_id, (get_sp_id _ _ _ Hg)].
  induction l as [|x l IH]; [done|]. cbn [get_sp] in Hg. destruct (slot_is id x); [by left|right; auto].
Qed.

Lemma runs_sp_eq s req id sp : runs_sp s req id sp -> dispatch_request enter_guest req s = run_sp enter_guest id sp s.
Proof.
  intros [(Hf & -> & sp0 & Hg & Hs & ->)|(Hf & -> & Hg & Hs)]; rewrite dispatch_request_eq; cbv zeta; rewrite Hg.
  - rewrite (registered_of_get _ _ _ Hg), bool_decide_eq_true_2 by done. destruct Hf as [-> | ->]; reflexivity.
  - rewrite Hf, bool_decide_eq_true_2 by done. reflexivity.
Qed.

Lemma dispatch_quiet req s : spmc_quiet s ->
  exists s' resp, dispatch_request enter_guest req s = (s', Ok resp) /\ spmc_quiet s' /\
    sp_identity <$> sm_sps s' = sp_identity <$> sm_sps s.
Proof.
  intros HQ. destruct (dispatch_cases req s) as [(id & sp & Hr & ->)|(s' & resp & -> & H1 & H2 & H3)].
  - destruct (runs_sp_facts _ _ _ _ Hr) as (Hid & Hst & sp0 & Hg & Hi).
    destruct (enter_guest (sp_vsttbr sp) (sm_mem s) (sp_ctx sp)) as [[m c] irq] eqn:He.
    rewrite (run_sp_spec s id sp m c irq Hid Hst He). do 2 eexists. split; [reflexivity|]. split.
    + split; cbn; [|done|done]. apply put_sp_forall; [apply HQ|]. cbn. destruct irq; auto.
    + cbn. eapply put_sp_identity; [exact Hg|]. by rewrite <- Hi.
  - do 2 eexists. split; [reflexivity|]. rewrite H1. split; [|done].
    destruct HQ. split; [by rewrite H1|congruence|congruence].
Qed.

Lemma event_loop_quiet reqs : forall s, spmc_quiet s ->
  exists s' resps, run_event_loop enter_guest reqs s = (s', Ok resps) /\ length resps = length reqs /\
    spmc_quiet s' /\ sp_identity <$> sm_sps s' = sp_identity <$> sm_sps s.
Proof.
  induction reqs as [|req reqs IH]; intros s HQ; [by do 2 eexists|]. simpl. unfold sm_bind.
  destruct (dispatch_quiet req s HQ) as (s1 & r1 & -> & HQ1 & Hi1).
  destruct (IH s1 HQ1) as (s2 & r2 & -> & Hl & HQ2 & Hi2). do 2 eexists. split; [reflexivity|].
  split_and!; [by simpl; rewrite Hl|done|by rewrite Hi2].
Qed.

(** ** A call over several slices *)

(** [n] runs that an interrupt ends, then one that completes. *)
Fixpoint sp_slices (n : nat) (v : Z) (m : mem) (c : VcpuContext) : option (mem * VcpuContext) :=
  match n, enter_guest v m c with
  | O, (m', c', false) => Some (m', c')
  | S n, (m', c', true) => sp_slices n v m' c'
  | _, _ => None
  end.

Definition ffa_run_req (id : Z) : SmcResult8 := mkRegs FFA_RUN (Z.shiftl id 16) 0 0 0 0 0 0.

Lemma run_req_id id : fits 16 id -> u16 (Z.land (Z.shiftr (rx1 (ffa_run_req id)) 16) 0xFFFF) = id.
Proof.
  intros Hid. cbn [rx1 ffa_run_req]. rewrite Z.shiftr_shiftl_l by lia. change (16 - 16) with 0.
  rewrite Z.shiftl_0_r. change 0xFFFF with (2 ^ 16 - 1). rewrite land_low by lia.
  unfold u16. rewrite (wrap_id 16) by (apply wrap_fits; lia). by apply wrap_id.
Qed.

Lemma resume_eq s id sp : fits 16 id -> get_sp id (sm_sps s) = Some sp -> sp_state sp = SpPreempted ->
  dispatch_request enter_guest (ffa_run_req id) s = run_sp enter_guest id sp s.
Proof.
  intros Hid Hg Hs. apply runs_sp_eq. right. by rewrite run_req_id.
Qed.

Lemma run_slices_spec n : forall s id sp m' c', fits 16 id -> sp_id sp = id -> is_Some (get_sp id (sm_sps s)) ->
  sp_state sp = SpIdle \/ sp_state sp = SpPreempted ->
  sp_slices n (sp_vsttbr sp) (sm_mem s) (sp_ctx sp) = Some (m', c') ->
  (let* r := run_sp enter_guest id sp in
   let* rs := run_event_loop enter_guest (replicate n (ffa_run_req id)) in sm_ret (r :: rs)) s =
  (mkSpmc (put_sp id (sp_after sp c' false) (sm_sps s)) (sm_rxtx s) false false (sp_vsttbr sp) m',
   Ok (replicate n (smc1 FFA_INTERRUPT) ++ [get_args (sp_after sp c' false)])).
Proof.
  induction n as [|n IH]; intros s id sp m' c' Hf Hid Hg Hst Hsl; cbn [sp_slices] in Hsl;
    destruct (enter_guest (sp_vsttbr sp) (sm_mem s) (sp_ctx sp)) as [[m c] irq] eqn:He; destruct irq; try done.
  - injection Hsl as <- <-. unfold sm_bind at 1. rewrite (run_sp_spec s id sp m c false) by done. done.
  - unfold sm_bind at 1. rewrite (run_sp_spec s id sp m c true) by done.
    set (s1 := mkSpmc _ _ _ _ _ _).
    assert (get_sp id (sm_sps s1) = Some (sp_after sp c true)) as Hg1 by (by apply get_put_sp).
    pose proof (IH s1 id (sp_after sp c true) m' c' Hf Hid ltac:(by rewrite Hg1) ltac:(by right) Hsl) as H.
    cbn [replicate run_event_loop app]. unfold sm_bind in H |- *. rewrite (resume_eq s1 id _ Hf Hg1) by done.
    destruct (run_sp enter_guest id (sp_after sp c true) s1) as [s2 [r2|e2]]; [|done].
    destruct (run_event_loop enter_guest (replicate n (ffa_run_req id)) s2) as [s3 [r3|e3]]; [|done].
    unfold sm_ret in H |- *. injection H as -> ->. unfold s1. cbn [sm_sps sm_rxtx].
    rewrite put_put_sp by done. done.
Qed.
End DispatchProofs.

(** C27. The SPMC event loop never panics: whatever the secure partitions do
    and whenever they are interrupted, every sequence of requests from SPMD is
    answered, one response each; every state transition the dispatcher expects
    is a legal one, between requests no partition is left running, the
    preemption flag is clear and the timer disarmed, and the identity, entry
    point, Stage-2 base and UUID of every partition are those it was
    registered with. *)
Theorem spmc_never_panics (enter_guest : Z -> mem -> VcpuContext -> mem * VcpuContext * bool)
    (reqs : list SmcResult8) (s : spmc_state) : spmc_quiet s ->
  exists s' resps, run_event_loop enter_guest reqs s = (s', Ok resps) /\ length resps = length reqs /\
    spmc_quiet s' /\ sp_identity <$> sm_sps s' = sp_identity <$> sm_sps s.
Proof. apply event_loop_quiet. Qed.

(** C28. A preempted direct request completes: when a partition needs [n]
    interrupted runs and a last one to serve a direct request, the request
    followed by [n] FFA_RUN calls returns [n] times FFA_INTERRUPT and then
    exactly the registers x0-x7 the partition left, each run resuming from the
    context saved by the previous one; the partition was entered with the
    request's x0-x7 under its own Stage-2 base and is idle again, and no other
    partition changed. *)
Theorem preempted_call_completes (enter_guest : Z -> mem -> VcpuContext -> mem * VcpuContext * bool)
    (s : spmc_state) (req : SmcResult8) (id : Z) (sp : SpContext) (n : nat) (m' : mem) (c' : VcpuContext) :
  rx0 req = FFA_MSG_SEND_DIRECT_REQ_32 \/ rx0 req = FFA_MSG_SEND_DIRECT_REQ_64 ->
  u16 (Z.land (rx1 req) 0xFFFF) = id -> get_sp id (sm_sps s) = Some sp -> sp_state sp = SpIdle ->
  sp_slices enter_guest n (sp_vsttbr sp) (sm_mem s) (sp_ctx (set_args req sp)) = Some (m', c') ->
  run_event_loop enter_guest (req :: replicate n (ffa_run_req id)) s =
    (mkSpmc (put_sp id (sp_after sp c' false) (sm_sps s)) (sm_rxtx s) false false (sp_vsttbr sp) m',
     Ok (replicate n (smc1 FFA_INTERRUPT) ++ [get_args (sp_after sp c' false)])).
Proof.
  intros Hf Hid Hg Hs Hsl.
  assert (fits 16 id) as Hfit by (rewrite <- Hid; apply wrap_fits; lia).
  pose proof (run_slices_spec enter_guest n s id (set_args req sp) m' c' Hfit (get_sp_id _ _ _ Hg)
    ltac:(by rewrite Hg) ltac:(by left) Hsl) as H.
  etransitivity; [|exact H]. cbn [run_event_loop]. unfold sm_bind at 1 3.
  rewrite (runs_sp_eq enter_guest s req id (set_args req sp)); [done|]. left. split_and!; [done|done|]. by exists sp.
Qed.

(** A partition that adds one to x3, and is interrupted while its pc is below
    0x4002. *)
Definition ex_enter (_ : Z) (m : mem) (c : VcpuContext) : mem * VcpuContext * bool :=
  if ctx_pc c <? 0x4002
  then (m, mkCtx (gp_regs c) (sys_regs c) (ctx_sp c) (ctx_pc c + 1) (spsr_el2 c), true)
  else (m, mkCtx (set_reg (set_reg (gp_regs c) 3 (get_reg (gp_regs c) 3 + 1)) 0 FFA_MSG_SEND_DIRECT_RESP_32)
             (sys_regs c) (ctx_sp c) 0x4000 (spsr_el2 c), false).

Definition ex_sp (id : Z) (st : SpState) : SpContext :=
  let sp := sp_context_new id 0x4000 0x8000 [1; 2; 3; 4] in
  mkSp (sp_ctx sp) id st 0x4000 0x5000 (sp_uuid sp).
Definition ex_spmc : spmc_state :=
  mkSpmc [Some (ex_sp 0x8001 SpIdle); Some (ex_sp 0x8002 SpIdle); None; None]
    (mkRxtx 0x60000000 0x60001000 1 true) false false 0 (fun _ => 0).
Definition ex_direct_req : SmcResult8 := mkRegs FFA_MSG_SEND_DIRECT_REQ_32 0x18002 0 41 0 0 0 0.

Lemma spmc_never_panics_witness :
  exists s' resps, run_event_loop ex_enter [ex_direct_req; ffa_run_req 0x8002; smc1 FFA_PARTITION_INFO_GET;
      ffa_run_req 0x8001] ex_spmc = (s', Ok resps) /\ length resps = 4%nat /\
    spmc_quiet s' /\ sp_identity <$> sm_sps s' = sp_identity <$> sm_sps ex_spmc.
Proof.
  apply (spmc_never_panics ex_enter [ex_direct_req; ffa_run_req 0x8002; smc1 FFA_PARTITION_INFO_GET;
    ffa_run_req 0x8001] ex_spmc).
  split; [|reflexivity|reflexivity]. repeat constructor; cbn; tauto.
Defined.

Lemma preempted_call_completes_witness :
  (run_event_loop ex_enter [ex_direct_req; ffa_run_req 0x8002; ffa_run_req 0x8002] ex_spmc).2 =
    Ok [smc1 FFA_INTERRUPT; smc1 FFA_INTERRUPT; mkRegs FFA_MSG_SEND_DIRECT_RESP_32 0x18002 0 42 0 0 0 0].
Proof.
  destruct (sp_slices ex_enter 2 0x5000 (fun _ => 0) (sp_ctx (set_args ex_direct_req (ex_sp 0x8002 SpIdle))))
    as [[m' c']|] eqn:E; [|vm_compute in E; discriminate E].
  pose proof (preempted_call_completes ex_enter ex_spmc ex_direct_req 0x8002 (ex_sp 0x8002 SpIdle) 2 m' c'
    (or_introl eq_refl) eq_refl eq_refl eq_refl E) as H.
  vm_compute in E. injection E as <- <-.
  etransitivity; [exact (f_equal snd H)|]. vm_compute. reflexivity.
Defined.

(** ** Partition discovery *)
Lemma write_uuid_frame words : forall m ptr x, x < ptr \/ ptr + 4 * Z.of_nat (length words) <= x ->
  write_uuid m ptr words x = m x.
Proof.
  induction words as [|w words IH]; intros m ptr x Hx; cbn [write_uuid length] in *; [done|].
  rewrite IH by lia. unfold write32, write_le. destruct (in_range ptr (Z.of_nat 4) x) eqn:E; [|done].
  apply in_range_true in E. lia.
Qed.

Lemma write_descriptor_frame m ptr sp x : length (sp_uuid sp) = 4%nat -> x < ptr \/ ptr + 24 <= x ->
  write_descriptor m ptr sp x = m x.
Proof.
  intros Hu Hx. unfold write_descriptor. rewrite write_uuid_frame by (rewrite Hu; lia).
  unfold write32, write16, write_le.
  repeat (match goal with |- context [in_range ?a ?n x] =>
    rewrite (proj2 (in_range_false a n x)) by lia end). done.
Qed.

Lemma write_descriptor_read m ptr sp : length (sp_uuid sp) = 4%nat -> fits 16 (sp_id sp) ->
  read16 (write_descriptor m ptr sp) ptr = sp_id sp /\ read32 (write_descriptor m ptr sp) (ptr + 4) = 1.
Proof.
  intros Hu Hid. unfold write_descriptor.
  set (m0 := write32 (write16 (write16 m ptr (sp_id sp)) (ptr + 2) 1) (ptr + 4) 1).
  assert (forall a n, ptr <= a -> a + n <= ptr + 8 -> agree (write_uuid m0 (ptr + 8) (sp_uuid sp)) m0 a n) as Ha.
  { intros a n ?? x Hx. apply write_uuid_frame. lia. }
  split.
  - unfold read16. rewrite (read_le_agree 2 _ m0) by (apply Ha; lia). unfold m0, write32, write16.
    rewrite !read_write_le_ne by lia. by apply read_write_le_id.
  - unfold read32. rewrite (read_le_agree 4 _ m0) by (apply Ha; lia). unfold m0, write32.
    by rewrite read_write_le_id.
Qed.

Lemma write_descriptors_spec mapped rx mx sps : forall m c m' c',
  Forall (fun sp => length (sp_uuid sp) = 4%nat /\ fits 16 (sp_id sp)) sps -> 0 <= c ->
  write_descriptors mapped rx mx m c sps = (m', c') ->
  c' = c + Z.of_nat (length sps) /\
  (forall x, mapped = false \/ x < rx + c * 24 \/ rx + mx <= x -> m' x = m x) /\
  (mapped = true -> forall k sp, sps !! k = Some sp -> (c + Z.of_nat k) * 24 + 24 <= mx ->
     read16 m' (rx + (c + Z.of_nat k) * 24) = sp_id sp /\ read32 m' (rx + (c + Z.of_nat k) * 24 + 4) = 1).
Proof.
  induction sps as [|sp sps IH]; intros m c m' c' HF Hc Hw; cbn [write_descriptors length] in *.
  { injection Hw as <- <-. split_and!; [lia|done|done]. }
  inversion HF as [|? ? [Hu Hid] HF']; subst.
  destruct (IH _ (c + 1) _ _ HF' ltac:(lia) Hw) as (-> & Hfr & Hrd). split_and!; [lia| |].
  - intros x Hx. rewrite Hfr by (destruct Hx as [|[|]]; [by left|right; left; lia|by right; right]).
    destruct (mapped && _) eqn:E; [|done].
    apply andb_true_iff in E as [-> E]. apply Z.leb_le in E.
    apply write_descriptor_frame; [done|]. destruct Hx as [|[|]]; [done|lia|lia].
  - intros -> k sp' Hk Hle. destruct k as [|k]; cbn [lookup list_lookup] in Hk.
    + injection Hk as <-. cbn [andb] in *. destruct (Z.leb_spec (c * 24 + 24) mx); [|lia].
      destruct (write_descriptor_read m (rx + c * 24) sp Hu Hid) as [H1 H2].
      rewrite Z.add_0_r. unfold read16, read32 in *.
      assert (forall a n, 0 <= n -> rx + c * 24 <= a -> a + n <= rx + c * 24 + 24 ->
        agree m' (write_descriptor m (rx + c * 24) sp) a n) as Ha.
      { intros a n ??? x Hx. apply Hfr. lia. }
      rewrite !(read_le_agree _ m' (write_descriptor m (rx + c * 24) sp)) by (apply Ha; lia). done.
    + replace (c + Z.of_nat (S k)) with (c + 1 + Z.of_nat k) in * by lia. apply Hrd; done.
Qed.

(** Partition discovery stays inside the normal world's RX buffer:
    FFA_PARTITION_INFO_GET reports the number of registered partitions, writes
    nothing unless RXTX buffers are mapped, changes no byte outside the
    registered RX pages, and every partition whose 24-byte descriptor fits is
    described there by its identifier and the direct-request property. *)
Theorem partition_info_confined (s s' : spmc_state) (r : result SmcResult8 string) :
  Forall (fun sp => length (sp_uuid sp) = 4%nat /\ fits 16 (sp_id sp)) (registered_sps (sm_sps s)) ->
  spmc_partition_info_get s = (s', r) ->
  let rx := nw_rx_pa (sm_rxtx s) in let bytes := nw_page_count (sm_rxtx s) * 4096 in
  r = Ok (smc_x2 FFA_SUCCESS_32 (Z.of_nat (length (registered_sps (sm_sps s))))) /\
  (forall x, nw_mapped (sm_rxtx s) = false \/ x < rx \/ rx + bytes <= x -> sm_mem s' x = sm_mem s x) /\
  (nw_mapped (sm_rxtx s) = true -> forall k sp, registered_sps (sm_sps s) !! k = Some sp ->
     (Z.of_nat k + 1) * 24 <= bytes ->
     read16 (sm_mem s') (rx + Z.of_nat k * 24) = sp_id sp /\ read32 (sm_mem s') (rx + Z.of_nat k * 24 + 4) = 1).
Proof.
  intros HF H rx bytes. unfold spmc_partition_info_get, sm_bind, sm_get in H.
  destruct (write_descriptors _ _ _ _ _ _) as [m c] eqn:E. unfold sm_upd, sm_ret in H. injection H as <- <-.
  destruct (write_descriptors_spec _ _ _ _ _ 0 _ _ HF (Z.le_refl 0) E) as (-> & Hfr & Hrd). cbn [sm_mem with_smem].
  split; [done|]. split.
  - intros x Hx. apply Hfr. destruct (nw_mapped (sm_rxtx s)); [|by left]. right. subst rx bytes. lia.
  - intros Hm k sp Hk Hle. rewrite Hm in Hrd. apply (Hrd eq_refl k sp Hk). subst bytes. lia.
Qed.

Lemma partition_info_confined_witness :
  read16 (sm_mem (spmc_partition_info_get ex_spmc).1) 0x60001018 = 0x8002.
Proof.
  destruct (spmc_partition_info_get ex_spmc) as [s' r] eqn:E.
  refine (proj1 (proj2 (proj2 (partition_info_confined ex_spmc s' r _ E)) eq_refl 1%nat (ex_sp 0x8002 SpIdle) eq_refl _)).
  - repeat constructor; cbn; lia.
  - cbn. lia.
Defined.
