(* ===== verification/Virtio.v ===== *)
(** * Virtio: virtqueues, the block backend and the MMIO transport

    The split virtqueue of [virtio/queue.rs], the block device of
    [virtio/blk.rs], and the register interface of [virtio/mmio.rs] over any
    device backend (the [VirtioDevice] trait is the class [VirtioBackend]).
    Guest and host addresses are the same (identity mapping), so the rings,
    the buffers and the disk image live in one memory.  A panic of the code
    (the remainder by a queue size of zero, an overflow in a build with
    overflow checks) is an error.  [checks] says whether the build has them:
    the dev profile, which every target of the Makefile builds, panics where
    the release profile wraps around.  The additions to the ring addresses in
    [get_avail_desc] and [put_used] have no check here: each comes after a
    load through the same address, which faults before the sum could
    overflow. *)

From Stdlib Require Import ZArith Lia Bool.
From stdpp Require Import base decidable option list strings.
From S2P Require Import Prelude Memory.

(** ** Virtqueues *)
Record VirtqDesc := mkDesc { vd_addr : Z; vd_len : Z; vd_flags : Z; vd_next : Z }.
Definition VIRTQ_DESC_F_NEXT : Z := 1.
Definition VIRTQ_DESC_F_WRITE : Z := 2.

Definition read_desc (m : mem) (a : Z) : VirtqDesc :=
  mkDesc (read64 m a) (read32 m (a + 8)) (read16 m (a + 12)) (read16 m (a + 14)).

(** The head index and the first [count] descriptors of the chain. *)
Record DescChain := { dc_head : Z; dc_descs : list VirtqDesc }.

Record Virtqueue := mkQueue {
  vq_desc_addr : Z;
  vq_avail_addr : Z;
  vq_used_addr : Z;
  vq_num : Z;
  vq_last_avail_idx : Z;
  vq_ready : bool
}.
Definition virtqueue_new : Virtqueue := mkQueue 0 0 0 0 0 false.
Definition virtqueue_reset (q : Virtqueue) : Virtqueue := mkQueue 0 0 0 0 0 false.

Definition join_addr (low high : Z) : Z := Z.lor low (Z.shiftl high 32).
Definition set_desc_addr (q : Virtqueue) (low high : Z) : Virtqueue :=
  mkQueue (join_addr low high) (vq_avail_addr q) (vq_used_addr q) (vq_num q) (vq_last_avail_idx q) (vq_ready q).
Definition set_avail_addr (q : Virtqueue) (low high : Z) : Virtqueue :=
  mkQueue (vq_desc_addr q) (join_addr low high) (vq_used_addr q) (vq_num q) (vq_last_avail_idx q) (vq_ready q).
Definition set_used_addr (q : Virtqueue) (low high : Z) : Virtqueue :=
  mkQueue (vq_desc_addr q) (vq_avail_addr q) (join_addr low high) (vq_num q) (vq_last_avail_idx q) (vq_ready q).
Definition set_num (q : Virtqueue) (n : Z) : Virtqueue :=
  mkQueue (vq_desc_addr q) (vq_avail_addr q) (vq_used_addr q) n (vq_last_avail_idx q) (vq_ready q).
Definition set_ready (q : Virtqueue) (b : bool) : Virtqueue :=
  mkQueue (vq_desc_addr q) (vq_avail_addr q) (vq_used_addr q) (vq_num q) (vq_last_avail_idx q) b.
Definition set_last_avail (q : Virtqueue) (i : Z) : Virtqueue :=
  mkQueue (vq_desc_addr q) (vq_avail_addr q) (vq_used_addr q) (vq_num q) i (vq_ready q).
Definition desc_addr_low (q : Virtqueue) : Z := u32 (vq_desc_addr q).
Definition avail_addr_low (q : Virtqueue) : Z := u32 (vq_avail_addr q).
Definition used_addr_low (q : Virtqueue) : Z := u32 (vq_used_addr q).

(** [idx] is the second half-word of the ring headers. *)
Definition avail_idx (m : mem) (q : Virtqueue) : Z := read16 m (vq_avail_addr q + 2).
Definition used_idx (m : mem) (q : Virtqueue) : Z := read16 m (vq_used_addr q + 2).

Definition has_avail (m : mem) (q : Virtqueue) : bool :=
  if negb (vq_ready q) || (vq_avail_addr q =? 0) then false
  else negb (avail_idx m q =? vq_last_avail_idx q).

(** The walk over at most [fuel] descriptors from index [idx]. *)
Fixpoint walk_chain (m : mem) (q : Virtqueue) (fuel : nat) (idx : Z) : list VirtqDesc :=
  match fuel with
  | O => []
  | S fuel =>
      if vq_num q <=? idx then [] else
      let desc := read_desc m (vq_desc_addr q + 16 * idx) in
      desc :: (if Z.land (vd_flags desc) VIRTQ_DESC_F_NEXT =? 0 then [] else walk_chain m q fuel (vd_next desc))
  end.

Definition REM_ZERO : string := "attempt to calculate the remainder with a divisor of zero".

Definition get_avail_desc (m : mem) (q : Virtqueue) : result (Virtqueue * option DescChain) string :=
  if negb (has_avail m q) then Ok (q, None) else
  if vq_num q =? 0 then Err REM_ZERO else
  let ring_base := u64 (vq_avail_addr q + 4) in
  let ring_idx := vq_last_avail_idx q mod vq_num q in
  let head := read16 m (ring_base + 2 * ring_idx) in
  let q' := set_last_avail q (u16 (vq_last_avail_idx q + 1)) in
  Ok (q', Some {| dc_head := head; dc_descs := walk_chain m q' 4 head |}).

Definition put_used (m : mem) (q : Virtqueue) (head len : Z) : result mem string :=
  if vq_used_addr q =? 0 then Ok m else
  if vq_num q =? 0 then Err REM_ZERO else
  let idx := used_idx m q in
  let elem := u64 (vq_used_addr q + 4) + 8 * (idx mod vq_num q) in
  let m := write32 (write32 m elem head) (elem + 4) len in
  Ok (write16 m (vq_used_addr q + 2) (u16 (idx + 1))).

(** ** Block device *)
Definition VIRTIO_BLK_T_IN : Z := 0.
Definition VIRTIO_BLK_T_OUT : Z := 1.
Definition VIRTIO_BLK_T_GET_ID : Z := 8.
Definition VIRTIO_BLK_S_OK : Z := 0.
Definition VIRTIO_BLK_S_IOERR : Z := 1.
Definition VIRTIO_BLK_S_UNSUPP : Z := 2.

Record VirtioBlk := { disk_base : Z; disk_size : Z; capacity : Z }.
Definition virtio_blk_new (base size : Z) : VirtioBlk :=
  {| disk_base := base; disk_size := size; capacity := size / 512 |}.

Section Blk.
Context (checks : bool).

(** The overflow check of an addition or multiplication of width [w]. *)
Definition overflows (w x : Z) : bool := checks && (2 ^ w <=? x).

(** The loop over the data descriptors of a read ([VIRTIO_BLK_T_IN]): memory,
    status and bytes written. *)
Fixpoint blk_read_loop (b : VirtioBlk) (m : mem) (disk_off total : Z) (descs : list VirtqDesc)
    : result (mem * Z * Z) string :=
  match descs with
  | [] => Ok (m, VIRTIO_BLK_S_OK, total)
  | desc :: descs =>
      let len := vd_len desc in
      if overflows 64 (disk_off + len) then Err ADD_OVERFLOW else
      if disk_size b <? u64 (disk_off + len) then Ok (m, VIRTIO_BLK_S_IOERR, total) else
      if overflows 64 (disk_base b + disk_off) then Err ADD_OVERFLOW else
      let m := copy_bytes m (u64 (disk_base b + disk_off)) (vd_addr desc) len in
      if overflows 32 (total + len) then Err ADD_OVERFLOW else
      blk_read_loop b m (u64 (disk_off + len)) (u32 (total + len)) descs
  end.

(** The same for a write ([VIRTIO_BLK_T_OUT]). *)
Fixpoint blk_write_loop (b : VirtioBlk) (m : mem) (disk_off : Z) (descs : list VirtqDesc) : result (mem * Z) string :=
  match descs with
  | [] => Ok (m, VIRTIO_BLK_S_OK)
  | desc :: descs =>
      let len := vd_len desc in
      if overflows 64 (disk_off + len) then Err ADD_OVERFLOW else
      if disk_size b <? u64 (disk_off + len) then Ok (m, VIRTIO_BLK_S_IOERR) else
      if overflows 64 (disk_base b + disk_off) then Err ADD_OVERFLOW else
      let m := copy_bytes m (vd_addr desc) (u64 (disk_base b + disk_off)) len in
      blk_write_loop b m (u64 (disk_off + len)) descs
  end.

(** b"hypervisor-vda\0\0\0\0\0\0" *)
Definition BLK_DEVICE_ID : list Z :=
  [0x68; 0x79; 0x70; 0x65; 0x72; 0x76; 0x69; 0x73; 0x6F; 0x72; 0x2D; 0x76; 0x64; 0x61; 0; 0; 0; 0; 0; 0].

(** The descriptors between the header and the status. *)
Definition data_descs (descs : list VirtqDesc) : list VirtqDesc := removelast (tl descs).
Definition status_desc (descs : list VirtqDesc) : VirtqDesc := List.last descs (mkDesc 0 0 0 0).
Definition header_addr (descs : list VirtqDesc) : Z := vd_addr (hd (mkDesc 0 0 0 0) descs).

(** The effect of the request on memory before the status byte is written. *)
Definition blk_transfer (b : VirtioBlk) (m : mem) (descs : list VirtqDesc) : result (mem * Z * Z) string :=
  let hdr := header_addr descs in
  let req_type := read32 m hdr in
  let sector := read64 m (hdr + 8) in
  if req_type =? VIRTIO_BLK_T_IN then
    if overflows 64 (sector * 512) then Err MUL_OVERFLOW else
    blk_read_loop b m (u64 (sector * 512)) 0 (data_descs descs)
  else if req_type =? VIRTIO_BLK_T_OUT then
    if overflows 64 (sector * 512) then Err MUL_OVERFLOW else
    match blk_write_loop b m (u64 (sector * 512)) (data_descs descs) with
    | Ok (m, status) => Ok (m, status, 0)
    | Err e => Err e
    end
  else if req_type =? VIRTIO_BLK_T_GET_ID then
    if (3 <=? length descs)%nat then
      let desc := nth 1 descs (mkDesc 0 0 0 0) in
      let copy_len := Z.min (vd_len desc) 20 in
      Ok (write_list m (vd_addr desc) (take (Z.to_nat copy_len) BLK_DEVICE_ID), VIRTIO_BLK_S_OK, copy_len)
    else Ok (m, VIRTIO_BLK_S_OK, 0)
  else Ok (m, VIRTIO_BLK_S_UNSUPP, 0).

Definition process_request (b : VirtioBlk) (m : mem) (q : Virtqueue) (head : Z) (descs : list VirtqDesc)
    : result mem string :=
  if (length descs <? 2)%nat then Ok m else
  match blk_transfer b m descs with
  | Err e => Err e
  | Ok (m, status, total) =>
      let m := write8 m (vd_addr (status_desc descs)) status in
      if overflows 32 (total + 1) then Err ADD_OVERFLOW else
      put_used m q head (u32 (total + 1))
  end.

(** [queue_notify]: the loop over the available chains, [None] when the fuel
    runs out. *)
Fixpoint blk_queue_notify (fuel : nat) (b : VirtioBlk) (m : mem) (q : Virtqueue)
    : option (result (mem * Virtqueue) string) :=
  match fuel with
  | O => None
  | S fuel =>
      match get_avail_desc m q with
      | Err e => Some (Err e)
      | Ok (q', None) => Some (Ok (m, q'))
      | Ok (q', Some chain) =>
          match process_request b m q' (dc_head chain) (dc_descs chain) with
          | Err e => Some (Err e)
          | Ok m' => blk_queue_notify fuel b m' q'
          end
      end
  end.
End Blk.

Definition blk_config_read (b : VirtioBlk) (offset size : Z) : Z :=
  if (offset =? 0) && (size =? 4) then u32 (capacity b)
  else if (offset =? 4) && (size =? 4) then u32 (Z.shiftr (capacity b) 32)
  else if (offset =? 0) && (size =? 8) then capacity b
  else if (offset =? 8) && (size =? 4) then 0x200000
  else if (offset =? 12) && (size =? 4) then 128
  else if (offset =? 20) && (size =? 4) then 512
  else 0.

(** ** Reading and copying byte ranges *)
Lemma read_list_agree m m' a n : agree m m' a (Z.of_nat n) -> read_list m a n = read_list m' a n.
Proof.
  intros H. unfold read_list. apply map_ext_in. intros i Hi. apply in_seq in Hi.
  unfold read8. rewrite H; [done|lia].
Qed.

Lemma read_list_S m a n : read_list m a (S n) = read8 m a :: read_list m (a + 1) n.
Proof.
  unfold read_list. cbn [seq map]. rewrite <- seq_shift, map_map. f_equal; [f_equal; lia|].
  apply map_ext. intros i. f_equal. lia.
Qed.

Lemma read_list_app m n1 : forall a n2,
  read_list m a (n1 + n2) = read_list m a n1 ++ read_list m (a + Z.of_nat n1) n2.
Proof.
  induction n1 as [|n1 IH]; intros a n2.
  - cbn [Nat.add]. rewrite Z.add_0_r. done.
  - cbn [Nat.add]. rewrite !read_list_S, IH. cbn [app]. do 3 f_equal. lia.
Qed.

Lemma read_list_copy m src dst n : 0 <= n ->
  read_list (copy_bytes m src dst n) dst (Z.to_nat n) = read_list m src (Z.to_nat n).
Proof.
  intros Hn. unfold read_list. apply map_ext_in. intros i Hi. apply in_seq in Hi.
  unfold read8, copy_bytes. rewrite (proj2 (in_range_true _ _ _)) by lia. do 2 f_equal. lia.
Qed.

Lemma copy_bytes_frame m src dst n x : x < dst \/ dst + n <= x -> copy_bytes m src dst n x = m x.
Proof. intros H. unfold copy_bytes. by rewrite (proj2 (in_range_false _ _ _)). Qed.

(** ** Buffers *)
Definition total_len (ds : list VirtqDesc) : Z := foldr (fun d n => vd_len d + n) 0 ds.
(** The bytes of the buffers, in the order of the chain. *)
Definition gather (m : mem) (ds : list VirtqDesc) : list Z :=
  concat (map (fun d => read_list m (vd_addr d) (Z.to_nat (vd_len d))) ds).
(** The buffer of [d] avoids the range. *)
Definition buf_outside (lo n : Z) (d : VirtqDesc) : Prop := vd_addr d + vd_len d <= lo \/ lo + n <= vd_addr d.
Definition bufs_disjoint : list VirtqDesc -> Prop :=
  all_pairs (fun d e => buf_outside (vd_addr e) (vd_len e) d).
Definition lens_ok (ds : list VirtqDesc) : Prop := Forall (fun d => 0 <= vd_len d) ds.
Definition disk_ok (b : VirtioBlk) : Prop :=
  0 <= disk_base b /\ 0 <= disk_size b /\ disk_base b + disk_size b < 2 ^ 64.

Lemma total_len_cons d ds : total_len (d :: ds) = vd_len d + total_len ds.
Proof. done. Qed.

Lemma total_len_nn ds : lens_ok ds -> 0 <= total_len ds.
Proof. induction 1; [done|]. rewrite total_len_cons. lia. Qed.

Lemma gather_agree m m' ds : (forall d, d ∈ ds -> agree m m' (vd_addr d) (vd_len d)) -> lens_ok ds ->
  gather m ds = gather m' ds.
Proof.
  intros H HL. unfold gather. f_equal. apply map_ext_in. intros d Hd. apply read_list_agree.
  unfold lens_ok in HL. rewrite Forall_forall in HL. specialize (HL d). apply list_elem_of_In in Hd.
  rewrite Z2Nat.id by auto. auto.
Qed.

Lemma u64_id x : 0 <= x < 2 ^ 64 -> u64 x = x.
Proof. apply wrap_id. Qed.
Lemma no_overflow checks w x : x < 2 ^ w -> overflows checks w x = false.
Proof. intros H. unfold overflows. rewrite (proj2 (Z.leb_gt _ _)) by done. apply andb_false_r. Qed.

(** A write puts the bytes of the buffers on the disk, in order. *)
Lemma blk_write_loop_spec checks b ds : disk_ok b -> lens_ok ds ->
  forall m off, 0 <= off -> off + total_len ds <= disk_size b ->
  Forall (buf_outside (disk_base b) (disk_size b)) ds ->
  exists m', blk_write_loop checks b m off ds = Ok (m', VIRTIO_BLK_S_OK) /\
    read_list m' (disk_base b + off) (Z.to_nat (total_len ds)) = gather m ds /\
    forall x, x < disk_base b + off \/ disk_base b + off + total_len ds <= x -> m' x = m x.
Proof.
  intros (Hb0 & Hs0 & Hb) HL. induction HL as [|d ds Hd HL IH]; intros m off Ho Ht HB.
  { exists m. split_and!; done. }
  pose proof (total_len_nn ds HL) as Hnn. rewrite ?total_len_cons in *. cbn [blk_write_loop].
  inversion HB as [|? ? Hout HB']; subst. rewrite !no_overflow, !u64_id by lia.
  destruct (Z.ltb_spec (disk_size b) (off + vd_len d)); [lia|].
  set (m1 := copy_bytes m (vd_addr d) (disk_base b + off) (vd_len d)).
  destruct (IH m1 (off + vd_len d) ltac:(lia) ltac:(lia) HB') as (m' & -> & Hrd & Hfr).
  exists m'. split; [done|]. split.
  - rewrite Z2Nat.inj_add, read_list_app, Z2Nat.id by lia.
    replace (disk_base b + off + vd_len d) with (disk_base b + (off + vd_len d)) by lia. rewrite Hrd.
    unfold gather. cbn [map concat]. f_equal.
    + rewrite (read_list_agree m' m1) by (intros x Hx; apply Hfr; lia). by apply read_list_copy.
    + apply (gather_agree m1 m); [|done]. intros e He x Hx. apply copy_bytes_frame.
      rewrite Forall_forall in HB'. specialize (HB' e He). unfold buf_outside in HB'. lia.
  - intros x Hx. rewrite Hfr by lia. apply copy_bytes_frame. lia.
Qed.

(** A read fills the buffers with the bytes of the disk, in order. *)
Lemma blk_read_loop_spec checks b ds : disk_ok b -> lens_ok ds ->
  forall m off total, 0 <= off -> off + total_len ds <= disk_size b -> 0 <= total -> total + total_len ds < 2 ^ 32 ->
  Forall (buf_outside (disk_base b) (disk_size b)) ds -> bufs_disjoint ds ->
  exists m', blk_read_loop checks b m off total ds = Ok (m', VIRTIO_BLK_S_OK, total + total_len ds) /\
    gather m' ds = read_list m (disk_base b + off) (Z.to_nat (total_len ds)) /\
    forall x, Forall (fun d => x < vd_addr d \/ vd_addr d + vd_len d <= x) ds -> m' x = m x.
Proof.
  intros (Hb0 & Hs0 & Hb) HL. induction HL as [|d ds Hd HL IH]; intros m off total Ho Ht Hp0 Hp HB HD.
  { exists m. rewrite Z.add_0_r. split_and!; done. }
  pose proof (total_len_nn ds HL) as Hnn. rewrite ?total_len_cons in *. cbn [blk_read_loop].
  inversion HB as [|? ? Hout HB']; subst. inversion HD as [|? ? Hdd HD']; subst. rewrite !no_overflow, !u64_id by lia.
  destruct (Z.ltb_spec (disk_size b) (off + vd_len d)); [lia|].
  set (m1 := copy_bytes m (disk_base b + off) (vd_addr d) (vd_len d)).
  assert (Hu : u32 (total + vd_len d) = total + vd_len d) by (apply wrap_id; unfold fits; lia).
  destruct (IH m1 (off + vd_len d) (u32 (total + vd_len d)) ltac:(lia) ltac:(lia) ltac:(lia) ltac:(lia) HB' HD') as (m' & -> & Hrd & Hfr).
  exists m'. split; [by rewrite Hu, Z.add_assoc|]. split.
  - rewrite Z2Nat.inj_add, read_list_app, Z2Nat.id by lia. unfold gather in *. cbn [map concat]. rewrite Hrd.
    f_equal.
    + rewrite (read_list_agree m' m1).
      * by apply read_list_copy.
      * intros x Hx. apply Hfr. eapply Forall_impl; [exact Hdd|]. cbn. unfold buf_outside. lia.
    + replace (disk_base b + off + vd_len d) with (disk_base b + (off + vd_len d)) by lia.
      apply read_list_agree. intros x Hx. apply copy_bytes_frame. unfold buf_outside in Hout. lia.
  - intros x Hx. inversion Hx; subst. rewrite Hfr by done. apply copy_bytes_frame. lia.
Qed.

(** ** The used ring *)
Definition used_bytes (q : Virtqueue) : Z := 4 + 8 * vq_num q.
Definition used_ok (q : Virtqueue) : Prop :=
  0 < vq_used_addr q /\ 0 < vq_num q /\ vq_used_addr q + used_bytes q < 2 ^ 64.
(** The [k]-th element of the used ring. *)
Definition used_elem (m : mem) (q : Virtqueue) (k : Z) : Z * Z :=
  (read32 m (vq_used_addr q + 4 + 8 * k), read32 m (vq_used_addr q + 4 + 8 * k + 4)).

Lemma write_le_frame n m a v x : x < a \/ a + Z.of_nat n <= x -> write_le n m a v x = m x.
Proof. intros H. unfold write_le. by rewrite (proj2 (in_range_false _ _ _)). Qed.

Lemma put_used_spec m q head len : used_ok q -> fits 32 head -> fits 32 len ->
  exists m', put_used m q head len = Ok m' /\
    used_idx m' q = u16 (used_idx m q + 1) /\
    used_elem m' q (used_idx m q mod vq_num q) = (head, len) /\
    forall x, x < vq_used_addr q \/ vq_used_addr q + used_bytes q <= x -> m' x = m x.
Proof.
  intros (Hu & Hn & Hw) Hh Hl. unfold put_used, used_bytes in *.
  destruct (Z.eqb_spec (vq_used_addr q) 0); [lia|]. destruct (Z.eqb_spec (vq_num q) 0); [lia|].
  rewrite u64_id by lia. set (k := used_idx m q mod vq_num q).
  pose proof (Z.mod_pos_bound (used_idx m q) (vq_num q) Hn) as Hk. fold k in Hk.
  eexists. split; [reflexivity|]. unfold used_elem, used_idx at 1, read32, read16, write32, write16. split_and!.
  - rewrite read_write_le_id; [done|]. apply wrap_fits. lia.
  - f_equal.
    + rewrite !read_write_le_ne by lia. by apply read_write_le_id.
    + rewrite read_write_le_ne by lia. by apply read_write_le_id.
  - intros x Hx. by rewrite !write_le_frame by lia.
Qed.

(** ** Whole requests *)
Record blk_req_ok (b : VirtioBlk) (q : Virtqueue) (descs data : list VirtqDesc) (st : Z) : Prop := {
  br_shape : exists hdr sd, descs = hdr :: data ++ [sd] /\ vd_addr sd = st;
  br_disk : disk_ok b;
  br_used : used_ok q;
  br_lens : lens_ok data;
  br_data : Forall (buf_outside (disk_base b) (disk_size b)) data;
  br_disj : bufs_disjoint data;
  br_st_disk : st < disk_base b \/ disk_base b + disk_size b <= st;
  br_st_data : Forall (fun d => st < vd_addr d \/ vd_addr d + vd_len d <= st) data;
  br_st_used : st < vq_used_addr q \/ vq_used_addr q + used_bytes q <= st;
  br_used_disk : vq_used_addr q + used_bytes q <= disk_base b \/ disk_base b + disk_size b <= vq_used_addr q;
  br_used_data : Forall (buf_outside (vq_used_addr q) (used_bytes q)) data
}.

Lemma blk_descs b q descs data st : blk_req_ok b q descs data st ->
  (length descs <? 2)%nat = false /\ data_descs descs = data /\ vd_addr (status_desc descs) = st.
Proof.
  intros H. destruct (br_shape _ _ _ _ _ H) as (hdr & sd & -> & Hs). split_and!.
  - apply Nat.ltb_ge. cbn [length]. rewrite length_app. cbn. lia.
  - unfold data_descs. cbn [tl]. by rewrite removelast_last.
  - unfold status_desc. change (hdr :: data ++ [sd]) with ((hdr :: data) ++ [sd]). by rewrite List.last_last.
Qed.

(** Finishing a transfer: status byte, then used ring. *)
Lemma blk_finish m q st status head len : used_ok q -> fits 32 head -> fits 32 len ->
  (st < vq_used_addr q \/ vq_used_addr q + used_bytes q <= st) -> 0 <= status < 256 ->
  exists m', put_used (write8 m st status) q head len = Ok m' /\ read8 m' st = status /\
    (used_idx m' q = u16 (used_idx m q + 1) /\ used_elem m' q (used_idx m q mod vq_num q) = (head, len)) /\
    forall x, x <> st -> x < vq_used_addr q \/ vq_used_addr q + used_bytes q <= x -> m' x = m x.
Proof.
  intros Hu Hh Hl Hst Hs. destruct (put_used_spec (write8 m st status) q head len Hu Hh Hl) as (m' & Hp & Hi & He & Hf).
  assert (used_idx (write8 m st status) q = used_idx m q) as Hx.
  { unfold used_idx, read16, write8. apply read_write_le_ne. unfold used_bytes in Hst. destruct Hu as (_ & ? & _). lia. }
  rewrite Hx in Hi, He. exists m'. split_and!; try done.
  - unfold read8. rewrite Hf by done. unfold write8, write_le. rewrite (proj2 (in_range_true _ _ _)) by lia.
    rewrite Z.sub_diag, Z.pow_0_r, Z.div_1_r, Z.mod_mod by lia. by apply Z.mod_small.
  - intros x Hne Hxu. rewrite Hf by done. unfold write8. apply write_le_frame. lia.
Qed.

Lemma agree_list m m' a n : (forall x, a <= x < a + Z.of_nat n -> m x = m' x) -> read_list m a n = read_list m' a n.
Proof. intros H. by apply read_list_agree. Qed.

Lemma blk_write_request checks b m q head descs data st : blk_req_ok b q descs data st -> fits 32 head ->
  let off := read64 m (header_addr descs + 8) * 512 in
  read32 m (header_addr descs) = VIRTIO_BLK_T_OUT -> off + total_len data <= disk_size b ->
  exists m', process_request checks b m q head descs = Ok m' /\
    read_list m' (disk_base b + off) (Z.to_nat (total_len data)) = gather m data /\
    read8 m' st = VIRTIO_BLK_S_OK /\
    used_idx m' q = u16 (used_idx m q + 1) /\ used_elem m' q (used_idx m q mod vq_num q) = (head, 1) /\
    (forall x, x < disk_base b + off \/ disk_base b + off + total_len data <= x -> x <> st ->
       x < vq_used_addr q \/ vq_used_addr q + used_bytes q <= x -> m' x = m x).
Proof.
  intros HR Hh off Hty Hoff. destruct (blk_descs _ _ _ _ _ HR) as (Hlen & Hdata & Hst).
  pose proof (read64_fits m (header_addr descs + 8)) as Hsec. unfold fits in Hsec.
  destruct HR. pose proof (total_len_nn data br_lens0) as Hnn. pose proof br_disk0 as (Hd0 & Hd1 & Hd2).
  assert (0 <= off) as Ho by (subst off; lia).
  unfold process_request, blk_transfer. rewrite Hlen, Hty, Hdata.
  change (VIRTIO_BLK_T_OUT =? VIRTIO_BLK_T_IN) with false. change (VIRTIO_BLK_T_OUT =? VIRTIO_BLK_T_OUT) with true.
  cbv iota.
  fold off. rewrite no_overflow, (u64_id off) by lia.
  destruct (blk_write_loop_spec checks b data br_disk0 br_lens0 m off Ho Hoff br_data0) as (m1 & -> & Hrd & Hfr).
  cbv iota beta. rewrite Hst, no_overflow by lia.
  destruct (blk_finish m1 q st VIRTIO_BLK_S_OK head (u32 (0 + 1)) br_used0 Hh ltac:(done) br_st_used0 ltac:(done))
    as (m' & -> & H1 & (H2 & H3) & H4).
  assert (used_idx m1 q = used_idx m q) as Hux.
  { unfold used_idx, read16. apply read_le_agree. intros x Hx. apply Hfr. unfold used_bytes in *.
    destruct br_used0 as (_ & ? & _). lia. }
  rewrite Hux in H2, H3. exists m'. split_and!; try done.
  - rewrite <- Hrd. apply agree_list. intros x Hx. apply H4; lia.
  - intros x Hx Hxs Hxu. rewrite H4 by done. by apply Hfr.
Qed.

Lemma blk_read_request checks b m q head descs data st : blk_req_ok b q descs data st -> fits 32 head -> total_len data + 1 < 2 ^ 32 ->
  let off := read64 m (header_addr descs + 8) * 512 in
  read32 m (header_addr descs) = VIRTIO_BLK_T_IN -> off + total_len data <= disk_size b ->
  exists m', process_request checks b m q head descs = Ok m' /\
    gather m' data = read_list m (disk_base b + off) (Z.to_nat (total_len data)) /\
    read8 m' st = VIRTIO_BLK_S_OK /\
    used_idx m' q = u16 (used_idx m q + 1) /\ used_elem m' q (used_idx m q mod vq_num q) = (head, total_len data + 1) /\
    (forall x, Forall (fun d => x < vd_addr d \/ vd_addr d + vd_len d <= x) data -> x <> st ->
       x < vq_used_addr q \/ vq_used_addr q + used_bytes q <= x -> m' x = m x).
Proof.
  intros HR Hh Htot off Hty Hoff. destruct (blk_descs _ _ _ _ _ HR) as (Hlen & Hdata & Hst).
  pose proof (read64_fits m (header_addr descs + 8)) as Hsec. unfold fits in Hsec.
  destruct HR. pose proof (total_len_nn data br_lens0) as Hnn. pose proof br_disk0 as (Hd0 & Hd1 & Hd2).
  assert (0 <= off) as Ho by (subst off; lia).
  unfold process_request, blk_transfer. rewrite Hlen, Hty, Hdata.
  change (VIRTIO_BLK_T_IN =? VIRTIO_BLK_T_IN) with true. cbv iota.
  fold off. rewrite no_overflow, (u64_id off) by lia.
  destruct (blk_read_loop_spec checks b data br_disk0 br_lens0 m off 0 Ho Hoff ltac:(lia) ltac:(lia) br_data0 br_disj0) as (m1 & -> & Hrd & Hfr).
  cbv iota beta. rewrite Hst, Z.add_0_l, no_overflow by lia.
  assert (Hfit : fits 32 (total_len data + 1)) by (unfold fits; lia). change (u32 (total_len data + 1)) with (wrap 32 (total_len data + 1)). rewrite (wrap_id 32 _ Hfit).
  destruct (blk_finish m1 q st VIRTIO_BLK_S_OK head (total_len data + 1) br_used0 Hh Hfit
    br_st_used0 ltac:(done)) as (m' & -> & H1 & (H2 & H3) & H4).
  assert (used_idx m1 q = used_idx m q) as Hux.
  { unfold used_idx, read16. apply read_le_agree. intros x Hx. apply Hfr. eapply Forall_impl; [exact br_used_data0|].
    cbn. unfold buf_outside, used_bytes in *. destruct br_used0 as (_ & ? & _). lia. }
  rewrite Hux in H2, H3. exists m'. split_and!; try done.
  - rewrite <- Hrd. apply gather_agree; [|done]. intros d Hd x Hx.
    rewrite Forall_forall in br_st_data0, br_used_data0. specialize (br_st_data0 d Hd). specialize (br_used_data0 d Hd).
    unfold buf_outside in br_used_data0. apply H4; lia.
  - intros x Hx Hxs Hxu. rewrite H4 by done. by apply Hfr.
Qed.

(** A request whose first buffer reaches past the end of the disk. *)
Lemma blk_request_refused checks b m q head descs d data st : blk_req_ok b q descs (d :: data) st -> fits 32 head ->
  let off := read64 m (header_addr descs + 8) * 512 in
  read32 m (header_addr descs) = VIRTIO_BLK_T_IN \/ read32 m (header_addr descs) = VIRTIO_BLK_T_OUT ->
  disk_size b < off + vd_len d < 2 ^ 64 ->
  exists m', process_request checks b m q head descs = Ok m' /\ read8 m' st = VIRTIO_BLK_S_IOERR /\
    used_elem m' q (used_idx m q mod vq_num q) = (head, 1) /\
    (forall x, x <> st -> x < vq_used_addr q \/ vq_used_addr q + used_bytes q <= x -> m' x = m x).
Proof.
  intros HR Hh off Hty Hoff. destruct (blk_descs _ _ _ _ _ HR) as (Hlen & Hdata & Hst).
  pose proof (read64_fits m (header_addr descs + 8)) as Hsec. unfold fits in Hsec.
  destruct HR. pose proof (Forall_inv br_lens0) as Hd. cbv beta in Hd.
  assert (blk_transfer checks b m descs = Ok (m, VIRTIO_BLK_S_IOERR, 0)) as Ht.
  { unfold blk_transfer. rewrite Hdata. fold off. rewrite no_overflow, (u64_id off) by (subst off; lia).
    cbn [blk_read_loop blk_write_loop]. rewrite no_overflow, (u64_id (off + vd_len d)) by (subst off; lia).
    destruct (Z.ltb_spec (disk_size b) (off + vd_len d)); [|lia]. by destruct Hty as [-> | ->]. }
  unfold process_request. rewrite Hlen, Ht. cbv iota beta. rewrite Hst, no_overflow by lia.
  destruct (blk_finish m q st VIRTIO_BLK_S_IOERR head (u32 (0 + 1)) br_used0 Hh ltac:(done) br_st_used0 ltac:(done))
    as (m' & -> & H1 & (H2 & H3) & H4). exists m'. split_and!; done.
Qed.

(** ** Requests through the queue *)

(** The descriptors from index [idx] on, as the driver linked them: the last
    has no successor. *)
Fixpoint chain_at (m : mem) (q : Virtqueue) (idx : Z) (descs : list VirtqDesc) : Prop :=
  match descs with
  | [] => False
  | d :: descs =>
      idx < vq_num q /\ read_desc m (vq_desc_addr q + 16 * idx) = d /\
      match descs with
      | [] => Z.land (vd_flags d) VIRTQ_DESC_F_NEXT = 0
      | _ => Z.land (vd_flags d) VIRTQ_DESC_F_NEXT <> 0 /\ chain_at m q (vd_next d) descs
      end
  end.
(** The device walks a whole chain if it is not longer than its bound. *)
Lemma walk_chain_at m q last descs : forall fuel idx, chain_at m q idx descs -> (length descs <= fuel)%nat ->
  walk_chain m (set_last_avail q last) fuel idx = descs.
Proof.
  induction descs as [|d descs IH]; intros fuel idx H Hl; [done|]. destruct fuel as [|fuel]; cbn [length] in Hl; [lia|].
  destruct H as (Hi & Hd & Hn). cbn [walk_chain set_last_avail vq_num vq_desc_addr]. destruct (Z.leb_spec (vq_num q) idx); [lia|]. rewrite Hd. f_equal.
  destruct descs as [|d' descs]; [by rewrite Hn|]. destruct Hn as [Hn Hc]. destruct (Z.eqb_spec (Z.land (vd_flags d) VIRTQ_DESC_F_NEXT) 0); [done|].
  apply IH; [exact Hc|lia].
Qed.

(** The queue after one chain has been taken. *)
Definition taken (q : Virtqueue) : Virtqueue := set_last_avail q (u16 (vq_last_avail_idx q + 1)).

(** A driver has posted one chain, of at most four descriptors. *)
Record chain_posted (m : mem) (q : Virtqueue) (head : Z) (descs : list VirtqDesc) : Prop := {
  cp_ready : vq_ready q = true /\ vq_avail_addr q <> 0 /\ 0 <= vq_last_avail_idx q < 2 ^ 16 /\ 0 < vq_num q;
  cp_one : avail_idx m q = u16 (vq_last_avail_idx q + 1);
  cp_head : read16 m (u64 (vq_avail_addr q + 4) + 2 * (vq_last_avail_idx q mod vq_num q)) = head;
  cp_chain : chain_at m q head descs;
  cp_len : (length descs <= 4)%nat
}.
Lemma posted_head m q head descs : chain_posted m q head descs -> fits 32 head.
Proof.
  intros H. rewrite <- (cp_head _ _ _ _ H). pose proof (read_le_range 2 m (u64 (vq_avail_addr q + 4) + 2 * (vq_last_avail_idx q mod vq_num q))) as Hr.
  unfold read16, fits. cbn in Hr |- *. lia.
Qed.
(** The device takes exactly that chain, and finds no other. *)
Lemma posted_take m q head descs : chain_posted m q head descs ->
  get_avail_desc m q = Ok (taken q, Some {| dc_head := head; dc_descs := descs |}).
Proof.
  intros [(Hr & Haa & Hl & Hnum) Hone Hh Hc Hlen].
  assert (Hne : u16 (vq_last_avail_idx q + 1) <> vq_last_avail_idx q)
    by (unfold u16, wrap; intros E; Z.to_euclidean_division_equations; lia).
  unfold get_avail_desc, has_avail. rewrite Hr, (proj2 (Z.eqb_neq _ _) Haa), Hone, (proj2 (Z.eqb_neq _ _) Hne). cbn [negb orb].
  destruct (Z.eqb_spec (vq_num q) 0); [lia|]. rewrite Hh. cbv zeta. by rewrite (walk_chain_at m q _ descs 4 head Hc Hlen).
Qed.
Lemma posted_done m q head descs m' : chain_posted m q head descs ->
  (forall x, vq_avail_addr q + 2 <= x < vq_avail_addr q + 4 -> m' x = m x) -> get_avail_desc m' (taken q) = Ok (taken q, None).
Proof.
  intros [(Hr & Haa & _ & _) Hone _ _ _] Ha.
  assert (Hai : avail_idx m' q = avail_idx m q) by (unfold avail_idx, read16; apply read_le_agree; intros x Hx; apply Ha; cbn in Hx; lia).
  unfold get_avail_desc, has_avail, taken. cbn [set_last_avail vq_ready vq_avail_addr vq_last_avail_idx].
  change (avail_idx m' (set_last_avail q _)) with (avail_idx m' q). rewrite Hr, (proj2 (Z.eqb_neq _ _) Haa), Hai, Hone, Z.eqb_refl. done.
Qed.

(** A driver has posted one block request: a header, the buffers [data] and the
    status byte at [st]; its rings, its buffers and the disk are apart from one
    another. *)
Record blk_posted (b : VirtioBlk) (m : mem) (q : Virtqueue) (head : Z) (descs data : list VirtqDesc) (st : Z) : Prop := {
  bp_chain : chain_posted m q head descs;
  bp_req : blk_req_ok b q descs data st;
  bp_avail : forall x, vq_avail_addr q + 2 <= x < vq_avail_addr q + 4 ->
    (x < disk_base b \/ disk_base b + disk_size b <= x) /\ x <> st /\
    Forall (fun d => x < vd_addr d \/ vd_addr d + vd_len d <= x) data /\
    (x < vq_used_addr q \/ vq_used_addr q + used_bytes q <= x)
}.
Lemma req_ok_taken b q descs data st : blk_req_ok b q descs data st -> blk_req_ok b (taken q) descs data st.
Proof. intros []. by split. Qed.

Lemma notify_one checks b m q head descs m' fuel : chain_posted m q head descs ->
  process_request checks b m (taken q) head descs = Ok m' -> (forall x, vq_avail_addr q + 2 <= x < vq_avail_addr q + 4 -> m' x = m x) ->
  blk_queue_notify checks (S (S fuel)) b m q = Some (Ok (m', taken q)).
Proof.
  intros H Hp Ha. cbn [blk_queue_notify]. rewrite (posted_take _ _ _ _ H). cbn [dc_head dc_descs]. rewrite Hp.
  by rewrite (posted_done _ _ _ _ _ H Ha).
Qed.

(** A write and a read, through a notification of the queue. *)
Lemma notify_write checks b m q head descs data st : blk_posted b m q head descs data st ->
  let off := read64 m (header_addr descs + 8) * 512 in
  read32 m (header_addr descs) = VIRTIO_BLK_T_OUT -> off + total_len data <= disk_size b ->
  exists m', blk_queue_notify checks 2 b m q = Some (Ok (m', taken q)) /\
    read_list m' (disk_base b + off) (Z.to_nat (total_len data)) = gather m data /\
    read8 m' st = VIRTIO_BLK_S_OK /\ used_idx m' q = u16 (used_idx m q + 1) /\
    used_elem m' q (used_idx m q mod vq_num q) = (head, 1) /\
    (forall x, x < disk_base b + off \/ disk_base b + off + total_len data <= x -> x <> st ->
       x < vq_used_addr q \/ vq_used_addr q + used_bytes q <= x -> m' x = m x).
Proof.
  intros H off Hty Hoff. pose proof (posted_head _ _ _ _ (bp_chain _ _ _ _ _ _ _ H)) as Hh. pose proof (bp_req _ _ _ _ _ _ _ H) as HR.
  destruct (blk_write_request checks b m (taken q) head descs data st (req_ok_taken _ _ _ _ _ HR) Hh Hty Hoff)
    as (m' & E & H1 & H2 & H3 & H4 & H5). exists m'. split; [|by split_and!].
  apply (notify_one checks b m q head descs m' 0 (bp_chain _ _ _ _ _ _ _ H) E). intros x Hx.
  destruct (bp_avail _ _ _ _ _ _ _ H x Hx) as (A1 & A2 & _ & A4). apply H5; [|done|done].
  fold off. pose proof (read64_fits m (header_addr descs + 8)) as [Hsec _]. pose proof (total_len_nn _ (br_lens _ _ _ _ _ HR)). subst off. lia.
Qed.
Lemma notify_read checks b m q head descs data st : blk_posted b m q head descs data st -> total_len data + 1 < 2 ^ 32 ->
  let off := read64 m (header_addr descs + 8) * 512 in
  read32 m (header_addr descs) = VIRTIO_BLK_T_IN -> off + total_len data <= disk_size b ->
  exists m', blk_queue_notify checks 2 b m q = Some (Ok (m', taken q)) /\
    gather m' data = read_list m (disk_base b + off) (Z.to_nat (total_len data)) /\
    read8 m' st = VIRTIO_BLK_S_OK /\ used_idx m' q = u16 (used_idx m q + 1) /\
    used_elem m' q (used_idx m q mod vq_num q) = (head, total_len data + 1).
Proof.
  intros H Htot off Hty Hoff. pose proof (posted_head _ _ _ _ (bp_chain _ _ _ _ _ _ _ H)) as Hh. pose proof (bp_req _ _ _ _ _ _ _ H) as HR.
  destruct (blk_read_request checks b m (taken q) head descs data st (req_ok_taken _ _ _ _ _ HR) Hh Htot Hty Hoff)
    as (m' & E & H1 & H2 & H3 & H4 & H5). exists m'. split; [|by split_and!].
  apply (notify_one checks b m q head descs m' 0 (bp_chain _ _ _ _ _ _ _ H) E). intros x Hx.
  destruct (bp_avail _ _ _ _ _ _ _ H x Hx) as (A1 & A2 & A3 & A4). by apply H5.
Qed.

(** C34. Block requests are durable, in both build profiles: when a driver has
    posted one write request of at most four descriptors (the header, at most
    two buffers and the status byte) whose bytes lie inside the disk, a
    notification takes it, completes it with status OK and one used-ring
    element, and changes nothing but those bytes of the disk, the status and
    the used ring; and whenever later, after any activity that leaves the disk
    image alone, a read request of the same sector and length (less than
    2^32 - 1 bytes) has been posted in any queue, split over at most two
    buffers in any way, its notification ends with the buffers holding, byte
    for byte and in chain order, the bytes the write was given, status OK and
    the number of bytes written in the used ring.  Longer chains, which the
    device advertises, are cut ([long_chain_cut]). *)
Theorem blk_write_read_round_trip (checks : bool) (b : VirtioBlk) (q : Virtqueue) (m : mem) (head : Z) (descs data : list VirtqDesc) (st : Z) :
  blk_posted b m q head descs data st ->
  let off := read64 m (header_addr descs + 8) * 512 in
  read32 m (header_addr descs) = VIRTIO_BLK_T_OUT -> off + total_len data <= disk_size b ->
  exists m1, blk_queue_notify checks 2 b m q = Some (Ok (m1, taken q)) /\
    read8 m1 st = VIRTIO_BLK_S_OK /\ used_idx m1 q = u16 (used_idx m q + 1) /\
    used_elem m1 q (used_idx m q mod vq_num q) = (head, 1) /\
    (forall x, x < disk_base b + off \/ disk_base b + off + total_len data <= x -> x <> st ->
       x < vq_used_addr q \/ vq_used_addr q + used_bytes q <= x -> m1 x = m x) /\
    forall m2 q2 head2 descs2 data2 st2, agree m1 m2 (disk_base b) (disk_size b) ->
      blk_posted b m2 q2 head2 descs2 data2 st2 -> read32 m2 (header_addr descs2) = VIRTIO_BLK_T_IN ->
      read64 m2 (header_addr descs2 + 8) * 512 = off -> total_len data2 = total_len data -> total_len data2 + 1 < 2 ^ 32 ->
      exists m3, blk_queue_notify checks 2 b m2 q2 = Some (Ok (m3, taken q2)) /\
        gather m3 data2 = gather m data /\ read8 m3 st2 = VIRTIO_BLK_S_OK /\
        used_idx m3 q2 = u16 (used_idx m2 q2 + 1) /\
        used_elem m3 q2 (used_idx m2 q2 mod vq_num q2) = (head2, total_len data2 + 1).
Proof.
  intros H off Hty Hoff. destruct (notify_write checks b m q head descs data st H Hty Hoff) as (m1 & E1 & Hd1 & Hs1 & Hi1 & Hu1 & Hf1).
  exists m1. split_and!; try done. intros m2 q2 head2 descs2 data2 st2 Hag H2 Hty2 Hs2 Hlen Htot. fold off in Hd1. clearbody off.
  rewrite <- Hlen, <- Hs2 in Hoff.
  destruct (notify_read checks b m2 q2 head2 descs2 data2 st2 H2 Htot Hty2 Hoff) as (m3 & E3 & Hd3 & Hs3 & Hi3 & Hu3).
  exists m3. split_and!; try done. rewrite Hd3, <- Hd1, Hs2, Hlen. apply agree_list. intros x Hx. symmetry.
  apply Hag. pose proof (total_len_nn _ (br_lens _ _ _ _ _ (bp_req _ _ _ _ _ _ _ H))).
  pose proof (read64_fits m2 (header_addr descs2 + 8)) as [Hsec _]. rewrite Z2Nat.id in Hx by done. lia.
Qed.

(** Out-of-range block requests are refused: when the first buffer of a
    read or write would pass the end of the disk (and the sum does not wrap
    around 64 bits), the request is completed with status IOERR and nothing but
    the status byte and the used ring changes: no byte of the disk is read or
    written. *)
Theorem blk_out_of_range_refused (checks : bool) (b : VirtioBlk) (m : mem) (q : Virtqueue) (head : Z)
    (descs : list VirtqDesc) (d : VirtqDesc) (data : list VirtqDesc) (st : Z) :
  blk_req_ok b q descs (d :: data) st -> fits 32 head ->
  let off := read64 m (header_addr descs + 8) * 512 in
  read32 m (header_addr descs) = VIRTIO_BLK_T_IN \/ read32 m (header_addr descs) = VIRTIO_BLK_T_OUT ->
  disk_size b < off + vd_len d < 2 ^ 64 ->
  exists m', process_request checks b m q head descs = Ok m' /\ read8 m' st = VIRTIO_BLK_S_IOERR /\
    used_elem m' q (used_idx m q mod vq_num q) = (head, 1) /\
    (forall x, x <> st -> x < vq_used_addr q \/ vq_used_addr q + used_bytes q <= x -> m' x = m x).
Proof. apply blk_request_refused. Qed.

(** *** A concrete queue and disk *)
Definition ex_blk : VirtioBlk := virtio_blk_new 0x58000000 0x2000.
Definition ex_queue : Virtqueue := mkQueue 0x50000000 0x50001000 0x50002000 8 0 true.
Definition ex_hdr (m : mem) (a ty sector : Z) : mem := write64 (write32 m a ty) (a + 8) sector.
(** The descriptors of a request with two buffers, at index [k] of the table. *)
Definition ex_bufs (k a1 a2 : Z) : list VirtqDesc := [mkDesc a1 3 3 (k + 2); mkDesc a2 2 3 (k + 3)].
Definition ex_descs (k hdr a1 a2 st : Z) : list VirtqDesc :=
  mkDesc hdr 16 1 (k + 1) :: ex_bufs k a1 a2 ++ [mkDesc st 1 2 0].
(** What a driver does to post a chain at index [k]. *)
Definition put_desc (m : mem) (a : Z) (d : VirtqDesc) : mem :=
  write16 (write16 (write32 (write64 m a (vd_addr d)) (a + 8) (vd_len d)) (a + 12) (vd_flags d)) (a + 14) (vd_next d).
Fixpoint put_chain (m : mem) (q : Virtqueue) (k : Z) (descs : list VirtqDesc) : mem :=
  match descs with [] => m | d :: descs => put_chain (put_desc m (vq_desc_addr q + 16 * k) d) q (k + 1) descs end.
Definition ex_post (m : mem) (q : Virtqueue) (k : Z) (descs : list VirtqDesc) : mem :=
  let m := write16 (put_chain m q k descs) (vq_avail_addr q + 4 + 2 * (vq_last_avail_idx q mod vq_num q)) k in
  write16 m (vq_avail_addr q + 2) (u16 (vq_last_avail_idx q + 1)).

Definition ex_wdescs := ex_descs 0 0x50003000 0x50004000 0x50005000 0x50006000.
Definition ex_rdescs := ex_descs 4 0x50003100 0x50004100 0x50005100 0x50006100.
Definition ex_blk_mem : mem :=
  ex_post (write_list (write_list (ex_hdr (fun _ => 0) 0x50003000 VIRTIO_BLK_T_OUT 1) 0x50004000 [7; 8; 9]) 0x50005000 [10; 11])
    ex_queue 0 ex_wdescs.
Definition ex_written : mem :=
  match blk_queue_notify true 2 ex_blk ex_blk_mem ex_queue with Some (Ok (m, _)) => m | _ => ex_blk_mem end.
Definition ex_blk_mem2 : mem := ex_post (ex_hdr ex_written 0x50003100 VIRTIO_BLK_T_IN 1) (taken ex_queue) 4 ex_rdescs.

Lemma put_chain_frame q x descs : forall m k, vq_desc_addr q + 16 * (k + Z.of_nat (length descs)) <= x -> put_chain m q k descs x = m x.
Proof.
  induction descs as [|d descs IH]; intros m k H; [done|]. cbn [put_chain length] in *. rewrite IH by lia.
  unfold put_desc, write64, write32, write16. rewrite !write_le_frame by (cbn; lia). done.
Qed.
Lemma ex_blk_req_ok k h a1 a2 st last : 0x50003000 <= a1 -> a1 + 3 <= a2 -> a2 + 2 <= st -> st < 0x58000000 ->
  blk_req_ok ex_blk (set_last_avail ex_queue last) (ex_descs k h a1 a2 st) (ex_bufs k a1 a2) st.
Proof.
  intros H1 H2 H3 H4. split; try (unfold disk_ok, used_ok, used_bytes; cbn; lia).
  - exists (mkDesc h 16 1 (k + 1)), (mkDesc st 1 2 0). done.
  - unfold lens_ok, ex_bufs. repeat constructor; cbn; lia.
  - unfold ex_bufs. repeat constructor; unfold buf_outside; cbn; lia.
  - unfold ex_bufs. repeat constructor; unfold buf_outside; cbn; lia.
  - unfold ex_bufs. repeat constructor; cbn; lia.
  - unfold ex_bufs. repeat constructor; unfold buf_outside, used_bytes; cbn; lia.
Qed.
Lemma ex_posted m k h a1 a2 st last : 0x50003000 <= a1 -> a1 + 3 <= a2 -> a2 + 2 <= st -> st < 0x58000000 -> 0 <= last < 2 ^ 16 ->
  let q := set_last_avail ex_queue last in
  avail_idx m q = u16 (last + 1) -> read16 m (0x50001004 + 2 * (last mod 8)) = k -> chain_at m q k (ex_descs k h a1 a2 st) ->
  blk_posted ex_blk m q k (ex_descs k h a1 a2 st) (ex_bufs k a1 a2) st.
Proof.
  intros H1 H2 H3 H4 Hl q Hi Hk Hc. split; [split; [split_and!; [done|done|cbn; lia..]|done|done|done|cbn; lia]|by apply ex_blk_req_ok|].
  cbn -[Z.add]. intros x Hx. unfold used_bytes. cbn. split_and!; try lia. unfold ex_bufs. repeat constructor; cbn; lia.
Qed.

Lemma blk_write_read_round_trip_witness :
  exists m3, blk_queue_notify true 2 ex_blk ex_blk_mem ex_queue = Some (Ok (ex_written, taken ex_queue)) /\
    blk_queue_notify true 2 ex_blk ex_blk_mem2 (taken ex_queue) = Some (Ok (m3, taken (taken ex_queue))) /\
    gather m3 (ex_bufs 4 0x50004100 0x50005100) = [7; 8; 9; 10; 11].
Proof.
  destruct (blk_write_read_round_trip true ex_blk ex_queue ex_blk_mem 0 ex_wdescs (ex_bufs 0 0x50004000 0x50005000) 0x50006000)
    as (m1 & E1 & _ & _ & _ & _ & Hread).
  - apply (ex_posted ex_blk_mem 0 0x50003000 0x50004000 0x50005000 0x50006000 0); [lia|lia|lia|lia|lia|vm_compute; reflexivity|vm_compute; reflexivity|].
    cbn [chain_at ex_descs ex_bufs app].
    repeat (split; [vm_compute; first [reflexivity|discriminate]|]). vm_compute. reflexivity.
  - vm_compute. reflexivity.
  - vm_compute. discriminate.
  - assert (Em : m1 = ex_written) by (unfold ex_written; rewrite E1; reflexivity). subst m1.
    destruct (Hread ex_blk_mem2 (taken ex_queue) 4 ex_rdescs (ex_bufs 4 0x50004100 0x50005100) 0x50006100) as (m3 & E3 & Hg & _).
    + intros x Hx. cbn [ex_blk disk_base disk_size virtio_blk_new] in Hx. unfold ex_blk_mem2, ex_post, ex_hdr, write64, write32, write16.
      cbv zeta. change (vq_avail_addr (taken ex_queue) + 4 + 2 * (vq_last_avail_idx (taken ex_queue) mod vq_num (taken ex_queue))) with 0x50001006.
      rewrite (write_le_frame 2) by (cbn; lia). rewrite (write_le_frame 2) by (cbn; lia).
      rewrite put_chain_frame by (cbn; lia). rewrite (write_le_frame 8) by (cbn; lia). rewrite (write_le_frame 4) by (cbn; lia). reflexivity.
    + apply (ex_posted ex_blk_mem2 4 0x50003100 0x50004100 0x50005100 0x50006100 1); [lia|lia|lia|lia|lia|vm_compute; reflexivity|vm_compute; reflexivity|].
      cbn [chain_at ex_descs ex_bufs app].
      repeat (split; [vm_compute; first [reflexivity|discriminate]|]). vm_compute. reflexivity.
    + vm_compute. reflexivity.
    + vm_compute. reflexivity.
    + reflexivity.
    + vm_compute. reflexivity.
    + exists m3. split; [exact E1|]. split; [exact E3|]. rewrite Hg. vm_compute. reflexivity.
Defined.

(** A chain of five descriptors, which [seg_max] allows, is cut to four: of a
    write of the bytes 1, 2 and 3 in three buffers the third byte does not
    reach the disk, the third buffer is overwritten with the status, and the
    driver's status byte, 0xFF before, is never written, while the used ring
    reports the request as done. *)
Definition ex_long_chain : list VirtqDesc :=
  [mkDesc 0x50003000 16 1 1; mkDesc 0x50004000 1 1 2; mkDesc 0x50004100 1 1 3; mkDesc 0x50004200 1 1 4; mkDesc 0x50006000 1 2 0].
Definition ex_long_mem : mem :=
  ex_post (write8 (write8 (write8 (write8 (ex_hdr (fun _ => 0) 0x50003000 VIRTIO_BLK_T_OUT 1) 0x50004000 1) 0x50004100 2) 0x50004200 3) 0x50006000 0xFF)
    ex_queue 0 ex_long_chain.
Lemma long_chain_cut : blk_config_read ex_blk 12 4 = 128 /\ chain_at ex_long_mem ex_queue 0 ex_long_chain /\
  match blk_queue_notify true 2 ex_blk ex_long_mem ex_queue with
  | Some (Ok (m, _)) => read_list m (disk_base ex_blk + 512) 3 = [1; 2; 0] /\ read8 m 0x50004200 = VIRTIO_BLK_S_OK /\
      read8 m 0x50006000 = 0xFF /\ used_idx m ex_queue = 1 /\ used_elem m ex_queue 0 = (0, 1)
  | _ => False
  end.
Proof.
  split; [reflexivity|]. split; [|vm_compute; split_and!; reflexivity]. cbn [chain_at ex_long_chain].
  repeat (split; [vm_compute; first [reflexivity|discriminate]|]). vm_compute. reflexivity.
Qed.

Lemma blk_out_of_range_refused_witness :
  exists m', process_request true ex_blk (ex_hdr (fun _ => 0) 0x50003000 VIRTIO_BLK_T_IN 16) ex_queue 0 ex_wdescs = Ok m' /\
    read8 m' 0x50006000 = VIRTIO_BLK_S_IOERR.
Proof.
  destruct (blk_out_of_range_refused true ex_blk (ex_hdr (fun _ => 0) 0x50003000 VIRTIO_BLK_T_IN 16) ex_queue 0 ex_wdescs
    (mkDesc 0x50004000 3 3 2) [mkDesc 0x50005000 2 3 3] 0x50006000) as (m' & E & Hs & _).
  - apply (ex_blk_req_ok 0 0x50003000 0x50004000 0x50005000 0x50006000 0); lia.
  - unfold fits; lia.
  - left. vm_compute. reflexivity.
  - vm_compute. split; reflexivity.
  - exists m'. split; [exact E|exact Hs].
Defined.

(** A read at the last sector below 2^64. *)
Definition ex_wrap_mem : mem :=
  write_bytes (ex_hdr (fun _ => 0) 0x50003000 VIRTIO_BLK_T_IN (2 ^ 55 - 1)) (0x58000000 - 512) 0x5A 512.
Definition ex_wrap_descs : list VirtqDesc :=
  [mkDesc 0x50003000 16 1 1; mkDesc 0x50004000 512 3 2; mkDesc 0x50006000 1 2 0].

Definition ex_wrap_out : mem :=
  match process_request false ex_blk ex_wrap_mem ex_queue 0 ex_wrap_descs with Ok m => m | Err _ => ex_wrap_mem end.

(** The capacity check of block requests overflows: a guest's read at sector
    2^55 - 1 stops the hypervisor in a build with overflow checks; without
    them it passes the check (the end of the transfer is computed as 0) and
    copies to the guest, with status OK, the 512 bytes of memory just below
    the disk image. *)
Theorem blk_capacity_check_wraps :
  process_request true ex_blk ex_wrap_mem ex_queue 0 ex_wrap_descs = Err ADD_OVERFLOW /\
  exists m', process_request false ex_blk ex_wrap_mem ex_queue 0 ex_wrap_descs = Ok m' /\
    read8 m' 0x50006000 = VIRTIO_BLK_S_OK /\
    read_list m' 0x50004000 512 = read_list ex_wrap_mem (disk_base ex_blk - 512) 512 /\
    read8 m' 0x50004000 = 0x5A.
Proof.
  split; [vm_compute; reflexivity|]. exists ex_wrap_out. split.
  - unfold ex_wrap_out.
    assert (is_ok (process_request false ex_blk ex_wrap_mem ex_queue 0 ex_wrap_descs) = true) as H by (vm_compute; reflexivity).
    by destruct (process_request false ex_blk ex_wrap_mem ex_queue 0 ex_wrap_descs).
  - split_and!; vm_compute; reflexivity.
Qed.
