(* ===== verification/VirtioNet.v ===== *)
(** * VirtioNet: the MMIO transport and the network backend

    The register interface of [virtio/mmio.rs] over any backend (the trait
    [VirtioDevice] is the class [VirtioBackend]), the block and network
    backends as instances, the transmit path of [virtio/net.rs] into the
    switch and the receive injection of [virtio/mmio.rs].  The injected
    interrupts are the SPI numbers given to [inject_spi], in order. *)

From Stdlib Require Import ZArith Lia Bool.
From stdpp Require Import base decidable option list strings.
From S2P Require Import Prelude Memory Rings VSwitch Virtio.

(** ** Backends *)
Class VirtioBackend (D W : Type) := {
  device_id : D -> Z;
  device_features : D -> Z;
  config_read : D -> Z -> Z -> Z;
  (** build profile, fuel, device, queue index, world and queue; [None] when
      the fuel runs out *)
  queue_notify : bool -> nat -> D -> Z -> W -> Virtqueue -> option (result (W * Virtqueue) string);
  num_queues : D -> Z;
  max_queue_size : D -> Z
}.

#[export] Instance blk_backend : VirtioBackend VirtioBlk mem := {|
  device_id _ := 2;
  device_features _ := Z.lor (Z.lor (Z.lor (Z.shiftl 1 32) (Z.shiftl 1 6)) (Z.shiftl 1 1)) (Z.shiftl 1 2);
  config_read := blk_config_read;
  queue_notify checks fuel b _ m q := blk_queue_notify checks fuel b m q;
  num_queues _ := 1;
  max_queue_size _ := 256
|}.

(** ** The network device *)
Definition VIRTIO_NET_HDR_SIZE : Z := 12.
Definition VIRTIO_NET_S_LINK_UP : Z := 1.
Record VirtioNet := { vn_mac : list Z; vn_port_id : nat; vn_status : Z }.
Definition mac_for_vm (vm_id : nat) : list Z := [0x52; 0x54; 0x00; 0x00; 0x00; u8 (Z.of_nat vm_id + 1)].
Definition virtio_net_new (vm_id : nat) : VirtioNet :=
  {| vn_mac := mac_for_vm vm_id; vn_port_id := vm_id; vn_status := VIRTIO_NET_S_LINK_UP |}.

Definition mac_byte (d : VirtioNet) (i : nat) : Z := nth i (vn_mac d) 0.
Definition net_config_read (d : VirtioNet) (offset size : Z) : Z :=
  if (0 <=? offset) && (offset <=? 5) && (size =? 1) then mac_byte d (Z.to_nat offset)
  else if (offset =? 6) && (size =? 2) then vn_status d
  else if (offset =? 0) && (size =? 4) then
    Z.lor (Z.lor (Z.lor (mac_byte d 0) (Z.shiftl (mac_byte d 1) 8)) (Z.shiftl (mac_byte d 2) 16))
      (Z.shiftl (mac_byte d 3) 24)
  else if (offset =? 4) && (size =? 4) then
    Z.lor (Z.lor (mac_byte d 4) (Z.shiftl (mac_byte d 5) 8)) (Z.shiftl (vn_status d) 16)
  else 0.

(** The loop of [process_tx] over the descriptors of a chain: the frame so far
    and the bytes seen. *)
Fixpoint tx_loop (m : mem) (frame : list Z) (total : Z) (descs : list VirtqDesc) : list Z :=
  match descs with
  | [] => frame
  | desc :: descs =>
      let buf_len := vd_len desc in
      let frame_len := Z.of_nat (length frame) in
      let frame :=
        if total <? VIRTIO_NET_HDR_SIZE then
          let skip := Z.min (VIRTIO_NET_HDR_SIZE - total) buf_len in
          let data_len := buf_len - skip in
          if (0 <? data_len) && (frame_len + data_len <=? Z.of_nat MAX_FRAME_SIZE)
          then frame ++ read_list m (vd_addr desc + skip) (Z.to_nat data_len) else frame
        else
          if frame_len + buf_len <=? Z.of_nat MAX_FRAME_SIZE
          then frame ++ read_list m (vd_addr desc) (Z.to_nat buf_len) else frame in
      tx_loop m frame (total + buf_len) descs
  end.
Definition tx_frame (m : mem) (descs : list VirtqDesc) : list Z := tx_loop m [] 0 descs.

Record net_world := { nw_mem : mem; nw_net : net_state }.

Definition VSWITCH_PANIC : string := "index out of bounds".

(** [process_tx] *)
Fixpoint process_tx (fuel : nat) (d : VirtioNet) (w : net_world) (q : Virtqueue)
    : option (result (net_world * Virtqueue) string) :=
  match fuel with
  | O => None
  | S fuel =>
      match get_avail_desc (nw_mem w) q with
      | Err e => Some (Err e)
      | Ok (q', None) => Some (Ok (w, q'))
      | Ok (q', Some chain) =>
          let frame := tx_frame (nw_mem w) (dc_descs chain) in
          match (if (14 <=? length frame)%nat then forward (nw_net w) (vn_port_id d) frame else Some (nw_net w)) with
          | None => Some (Err VSWITCH_PANIC)
          | Some net =>
              match put_used (nw_mem w) q' (dc_head chain) 0 with
              | Err e => Some (Err e)
              | Ok m => process_tx fuel d {| nw_mem := m; nw_net := net |} q'
              end
          end
      end
  end.

#[export] Instance net_backend : VirtioBackend VirtioNet net_world := {|
  device_id _ := 1;
  device_features _ := Z.lor (Z.lor (Z.shiftl 1 32) (Z.shiftl 1 5)) (Z.shiftl 1 16);
  config_read := net_config_read;
  queue_notify _ fuel d idx w q := if idx =? 1 then process_tx fuel d w q else Some (Ok (w, q));
  num_queues _ := 2;
  max_queue_size _ := 256
|}.

(** ** The transport *)
Section Transport.
Context {D W : Type} `{VirtioBackend D W}.

Definition MAX_QUEUES : Z := 2.
Definition VIRTIO_INT_VRING : Z := 1.
Definition CONFIG_SPACE : Z := 0x100.

Record transport := mkTransport {
  vt_base : Z;
  vt_device : D;
  vt_queues : list Virtqueue;
  vt_queue_sel : Z;
  vt_status : Z;
  vt_interrupt_status : Z;
  vt_device_features_sel : Z;
  vt_driver_features_sel : Z;
  vt_driver_features : Z;
  vt_config_generation : Z;
  vt_irq_intid : Z;
  vt_desc_high : Z;
  vt_driver_high : Z;
  vt_device_high : Z
}.

Definition transport_new (base : Z) (device : D) (irq_intid : Z) : transport :=
  mkTransport base device [virtqueue_new; virtqueue_new] 0 0 0 0 0 0 0 irq_intid 0 0 0.

Definition with_queues (t : transport) (l : list Virtqueue) : transport :=
  mkTransport (vt_base t) (vt_device t) l (vt_queue_sel t) (vt_status t) (vt_interrupt_status t)
    (vt_device_features_sel t) (vt_driver_features_sel t) (vt_driver_features t) (vt_config_generation t)
    (vt_irq_intid t) (vt_desc_high t) (vt_driver_high t) (vt_device_high t).
Definition with_status (t : transport) (v : Z) : transport :=
  mkTransport (vt_base t) (vt_device t) (vt_queues t) (vt_queue_sel t) v (vt_interrupt_status t)
    (vt_device_features_sel t) (vt_driver_features_sel t) (vt_driver_features t) (vt_config_generation t)
    (vt_irq_intid t) (vt_desc_high t) (vt_driver_high t) (vt_device_high t).
Definition with_interrupt (t : transport) (v : Z) : transport :=
  mkTransport (vt_base t) (vt_device t) (vt_queues t) (vt_queue_sel t) (vt_status t) v
    (vt_device_features_sel t) (vt_driver_features_sel t) (vt_driver_features t) (vt_config_generation t)
    (vt_irq_intid t) (vt_desc_high t) (vt_driver_high t) (vt_device_high t).
Definition with_features (t : transport) (dev_sel drv_sel drv : Z) : transport :=
  mkTransport (vt_base t) (vt_device t) (vt_queues t) (vt_queue_sel t) (vt_status t) (vt_interrupt_status t)
    dev_sel drv_sel drv (vt_config_generation t) (vt_irq_intid t) (vt_desc_high t) (vt_driver_high t)
    (vt_device_high t).
Definition with_sel (t : transport) (sel : Z) : transport :=
  mkTransport (vt_base t) (vt_device t) (vt_queues t) sel (vt_status t) (vt_interrupt_status t)
    (vt_device_features_sel t) (vt_driver_features_sel t) (vt_driver_features t) (vt_config_generation t)
    (vt_irq_intid t) (vt_desc_high t) (vt_driver_high t) (vt_device_high t).
Definition with_high (t : transport) (desc drv dev : Z) : transport :=
  mkTransport (vt_base t) (vt_device t) (vt_queues t) (vt_queue_sel t) (vt_status t) (vt_interrupt_status t)
    (vt_device_features_sel t) (vt_driver_features_sel t) (vt_driver_features t) (vt_config_generation t)
    (vt_irq_intid t) desc drv dev.

Definition current_queue (t : transport) : option nat :=
  if (vt_queue_sel t <? MAX_QUEUES) && (vt_queue_sel t <? num_queues (vt_device t))
  then Some (Z.to_nat (vt_queue_sel t)) else None.

(** Update of the selected queue, if there is one. *)
Definition upd_queue (t : transport) (f : Virtqueue -> Virtqueue) : transport :=
  match current_queue t with
  | Some i => with_queues t (alter f i (vt_queues t))
  | None => t
  end.

Definition signal_interrupt (t : transport) : transport * list Z :=
  (with_interrupt t (Z.lor (vt_interrupt_status t) VIRTIO_INT_VRING), [vt_irq_intid t]).

Definition transport_reset (t : transport) : transport :=
  with_sel (with_features (with_interrupt (with_status (with_queues t (map virtqueue_reset (vt_queues t))) 0) 0)
    0 0 0) 0.

Definition transport_read (t : transport) (offset size : Z) : option Z :=
  if CONFIG_SPACE <=? offset then Some (config_read (vt_device t) (offset - CONFIG_SPACE) size) else
  if negb (size =? 4) then Some 0 else
  Some (if offset =? 0x000 then 0x74726976
  else if offset =? 0x004 then 2
  else if offset =? 0x008 then device_id (vt_device t)
  else if offset =? 0x00C then 0x554D4551
  else if offset =? 0x010 then
    let features := device_features (vt_device t) in
    if vt_device_features_sel t =? 0 then u32 features else u32 (Z.shiftr features 32)
  else if offset =? 0x034 then
    match current_queue t with Some _ => max_queue_size (vt_device t) | None => 0 end
  else if offset =? 0x044 then
    match current_queue t with
    | Some i => match vt_queues t !! i with Some q => if vq_ready q then 1 else 0 | None => 0 end
    | None => 0
    end
  else if offset =? 0x060 then vt_interrupt_status t
  else if offset =? 0x070 then vt_status t
  else if offset =? 0x0FC then vt_config_generation t
  else 0).

(** [write]: transport, world and injected SPIs. *)
Definition transport_write (checks : bool) (fuel : nat) (t : transport) (w : W) (offset value size : Z)
    : option (result (transport * W * list Z) string) :=
  let pure t' := Some (Ok (t', w, [])) in
  if CONFIG_SPACE <=? offset then pure t else
  if negb (size =? 4) then pure t else
  let val := u32 value in
  if offset =? 0x014 then pure (with_features t val (vt_driver_features_sel t) (vt_driver_features t))
  else if offset =? 0x020 then
    pure (with_features t (vt_device_features_sel t) (vt_driver_features_sel t)
      (if vt_driver_features_sel t =? 0
       then Z.lor (Z.land (vt_driver_features t) 0xFFFFFFFF00000000) val
       else Z.lor (Z.land (vt_driver_features t) 0x00000000FFFFFFFF) (Z.shiftl val 32)))
  else if offset =? 0x024 then pure (with_features t (vt_device_features_sel t) val (vt_driver_features t))
  else if offset =? 0x030 then pure (with_high (with_sel t val) 0 0 0)
  else if offset =? 0x038 then pure (upd_queue t (fun q => set_num q (u16 val)))
  else if offset =? 0x044 then pure (upd_queue t (fun q => set_ready q (negb (val =? 0))))
  else if offset =? 0x050 then
    let queue_idx := u16 val in
    if (queue_idx <? MAX_QUEUES) && (queue_idx <? num_queues (vt_device t)) then
      match vt_queues t !! Z.to_nat queue_idx with
      | Some q =>
          if vq_ready q then
            match queue_notify checks fuel (vt_device t) queue_idx w q with
            | Some (Ok (w', q')) =>
                let (t', spis) := signal_interrupt (with_queues t (<[Z.to_nat queue_idx := q']> (vt_queues t))) in
                Some (Ok (t', w', spis))
            | Some (Err e) => Some (Err e)
            | None => None
            end
          else pure t
      | None => pure t
      end
    else pure t
  else if offset =? 0x064 then pure (with_interrupt t (Z.land (vt_interrupt_status t) (not32 val)))
  else if offset =? 0x070 then pure (if val =? 0 then transport_reset t else with_status t val)
  else if offset =? 0x080 then pure (upd_queue t (fun q => set_desc_addr q val (vt_desc_high t)))
  else if offset =? 0x084 then
    pure (upd_queue (with_high t val (vt_driver_high t) (vt_device_high t))
      (fun q => set_desc_addr q (desc_addr_low q) val))
  else if offset =? 0x090 then pure (upd_queue t (fun q => set_avail_addr q val (vt_driver_high t)))
  else if offset =? 0x094 then
    pure (upd_queue (with_high t (vt_desc_high t) val (vt_device_high t))
      (fun q => set_avail_addr q (avail_addr_low q) val))
  else if offset =? 0x0A0 then pure (upd_queue t (fun q => set_used_addr q val (vt_device_high t)))
  else if offset =? 0x0A4 then
    pure (upd_queue (with_high t (vt_desc_high t) (vt_driver_high t) val)
      (fun q => set_used_addr q (used_addr_low q) val))
  else pure t.
End Transport.
Arguments transport : clear implicits.

(** ** Receive injection *)
Definition NET_RX_HDR : list Z := [0; 0; 0; 0; 0; 0; 0; 0; 0; 0; 1; 0].
Definition writable (d : VirtqDesc) : bool := negb (Z.land (vd_flags d) VIRTQ_DESC_F_WRITE =? 0).

Fixpoint rx_capacity (descs : list VirtqDesc) : Z :=
  match descs with
  | [] => 0
  | d :: descs => (if writable d then vd_len d else 0) + rx_capacity descs
  end.

(** The copy loop of [inject_rx]: memory and bytes written. *)
Fixpoint rx_write (m : mem) (frame : list Z) (combined_len written : Z) (descs : list VirtqDesc) : mem * Z :=
  match descs with
  | [] => (m, written)
  | d :: descs =>
      if negb (writable d) then rx_write m frame combined_len written descs else
      let remaining := combined_len - written in
      let to_write := if remaining <? vd_len d then remaining else vd_len d in
      let dst := vd_addr d in
      let m :=
        if written <? 12 then
          let hdr_remaining := 12 - written in
          let hdr_bytes := if hdr_remaining <? to_write then hdr_remaining else to_write in
          let m := write_list m dst (take (Z.to_nat hdr_bytes) (drop (Z.to_nat written) NET_RX_HDR)) in
          if hdr_bytes <? to_write then
            write_list m (dst + hdr_bytes) (take (Z.to_nat (to_write - hdr_bytes)) frame)
          else m
        else
          write_list m dst (take (Z.to_nat to_write) (drop (Z.to_nat (written - 12)) frame)) in
      rx_write m frame combined_len (written + to_write) descs
  end.

Definition inject_rx (m : mem) (t : transport VirtioNet) (frame : list Z)
    : result (mem * transport VirtioNet * list Z * bool) string :=
  match vt_queues t !! 0%nat with
  | None => Ok (m, t, [], false)
  | Some rx_queue =>
      match get_avail_desc m rx_queue with
      | Err e => Err e
      | Ok (_, None) => Ok (m, t, [], false)
      | Ok (q', Some chain) =>
          let t := with_queues t (<[0%nat := q']> (vt_queues t)) in
          if (length (dc_descs chain) =? 0)%nat then Ok (m, t, [], false) else
          let combined_len := 12 + Z.of_nat (length frame) in
          if rx_capacity (dc_descs chain) <? combined_len then
            match put_used m q' (dc_head chain) 0 with
            | Ok m => Ok (m, t, [], false)
            | Err e => Err e
            end
          else
            let (m, written) := rx_write m frame combined_len 0 (dc_descs chain) in
            match put_used m q' (dc_head chain) (u32 written) with
            | Ok m => let (t, spis) := signal_interrupt t in Ok (m, t, spis, true)
            | Err e => Err e
            end
      end
  end.

(** [drain_net_rx] of vm.rs: the frames of the port's ring, injected in order
    into its device; a frame that finds no buffer is dropped. *)
Fixpoint drain_net_rx (fuel : nat) (m : mem) (t : transport VirtioNet) (r : NetRxRing)
    : option (result (mem * transport VirtioNet * NetRxRing * list Z) string) :=
  match fuel with
  | O => None
  | S fuel =>
      match net_ring_take r (replicate MAX_FRAME_SIZE 0) with
      | (r', _, None) => Some (Ok (m, t, r', []))
      | (r', buf, Some len) =>
          match inject_rx m t (take len buf) with
          | Err e => Some (Err e)
          | Ok (m, t, spis, _) =>
              match drain_net_rx fuel m t r' with
              | Some (Ok (m, t, r, spis')) => Some (Ok (m, t, r, spis ++ spis'))
              | x => x
              end
          end
      end
  end.

(** ** Transmit: the frame is the chain without its header *)
Lemma length_read_list m a n : length (read_list m a n) = n.
Proof. unfold read_list. by rewrite length_map, length_seq. Qed.

Lemma gather_cons m d ds : gather m (d :: ds) = read_list m (vd_addr d) (Z.to_nat (vd_len d)) ++ gather m ds.
Proof. done. Qed.

Lemma length_gather m ds : lens_ok ds -> length (gather m ds) = Z.to_nat (total_len ds).
Proof.
  induction 1 as [|d ds Hd HL IH]; [done|]. rewrite gather_cons, length_app, length_read_list, IH, total_len_cons.
  pose proof (total_len_nn ds HL). lia.
Qed.

Lemma read_list_drop m a k n : (k <= n)%nat -> drop k (read_list m a n) = read_list m (a + Z.of_nat k) (n - k).
Proof.
  intros Hk. replace n with (k + (n - k))%nat at 1 by lia. rewrite read_list_app.
  rewrite drop_app_length'; [done|]. by rewrite length_read_list.
Qed.

Lemma read_list_take m a k n : (k <= n)%nat -> take k (read_list m a n) = read_list m a k.
Proof.
  intros Hk. replace n with (k + (n - k))%nat by lia. rewrite read_list_app.
  rewrite take_app_length'; [done|]. by rewrite length_read_list.
Qed.

Lemma tx_loop_spec m ds : lens_ok ds -> forall frame total, 0 <= total ->
  Z.of_nat (length frame) = Z.max 0 (total - 12) -> total + total_len ds - 12 <= Z.of_nat MAX_FRAME_SIZE ->
  tx_loop m frame total ds = frame ++ drop (Z.to_nat (12 - total)) (gather m ds).
Proof.
  induction 1 as [|d ds Hd HL IH]; intros frame total Ht Hf Hm.
  { cbn. by rewrite drop_nil, app_nil_r. }
  pose proof (total_len_nn ds HL) as Hnn. rewrite total_len_cons in Hm. cbn [tx_loop]. rewrite gather_cons.
  unfold VIRTIO_NET_HDR_SIZE. destruct (Z.ltb_spec total 12) as [Hlt|Hge].
  - destruct (Z.min_spec (12 - total) (vd_len d)) as [[Hs ->]|[Hs ->]].
    + destruct (Z.ltb_spec 0 (vd_len d - (12 - total))); [|lia].
      destruct (Z.leb_spec (Z.of_nat (length frame) + (vd_len d - (12 - total))) (Z.of_nat MAX_FRAME_SIZE)); [|lia].
      cbn [andb]. rewrite IH by (rewrite ?length_app, ?length_read_list; lia).
      rewrite drop_app, length_read_list, read_list_drop by lia. rewrite Z2Nat.id by lia. rewrite <- app_assoc.
      f_equal. f_equal; [f_equal; lia|]. f_equal. lia.
    + destruct (Z.ltb_spec 0 (vd_len d - vd_len d)); [lia|]. cbn [andb]. rewrite IH by lia. f_equal.
      rewrite drop_app, length_read_list. rewrite (drop_ge (read_list _ _ _)) by (rewrite length_read_list; lia).
      cbn [app]. f_equal. lia.
  - destruct (Z.leb_spec (Z.of_nat (length frame) + vd_len d) (Z.of_nat MAX_FRAME_SIZE)); [|lia].
    rewrite IH by (rewrite ?length_app, ?length_read_list; lia).
    replace (Z.to_nat (12 - total)) with 0%nat by lia. replace (Z.to_nat (12 - (total + vd_len d))) with 0%nat by lia.
    rewrite !drop_0, <- app_assoc. done.
Qed.

Lemma tx_frame_exact m ds : lens_ok ds -> total_len ds - 12 <= Z.of_nat MAX_FRAME_SIZE ->
  tx_frame m ds = drop 12 (gather m ds).
Proof. intros HL Hm. unfold tx_frame. rewrite tx_loop_spec by (done || lia). done. Qed.

(** ** Receive: header and frame over the writable buffers *)
Definition bytes_ok (l : list Z) : Prop := Forall (fits 8) l.

Lemma read_list_write m a bs : bytes_ok bs -> read_list (write_list m a bs) a (length bs) = bs.
Proof.
  intros HB. apply (nth_ext _ _ 0 0); [by rewrite length_read_list|]. intros i Hi. rewrite length_read_list in Hi.
  unfold read_list. rewrite (nth_indep _ 0 (read8 (write_list m a bs) (a + Z.of_nat 0)))
    by (rewrite length_map, length_seq; done).
  rewrite (map_nth (fun i => read8 (write_list m a bs) (a + Z.of_nat i))), seq_nth by done. cbn [Nat.add].
  unfold read8, write_list. rewrite (proj2 (in_range_true _ _ _)) by lia.
  replace (Z.to_nat (a + Z.of_nat i - a)) with i by lia. apply Z.mod_small.
  unfold bytes_ok in HB. rewrite List.Forall_nth in HB. by apply (HB i 0).
Qed.

Lemma write_list_frame m a bs x : x < a \/ a + Z.of_nat (length bs) <= x -> write_list m a bs x = m x.
Proof. intros H. unfold write_list. by rewrite (proj2 (in_range_false _ _ _)). Qed.

(** One buffer of the loop. *)
Definition rx_chunk (m : mem) (frame : list Z) (written to_write dst : Z) : mem :=
  if written <? 12 then
    let hdr_remaining := 12 - written in
    let hdr_bytes := if hdr_remaining <? to_write then hdr_remaining else to_write in
    let m := write_list m dst (take (Z.to_nat hdr_bytes) (drop (Z.to_nat written) NET_RX_HDR)) in
    if hdr_bytes <? to_write then write_list m (dst + hdr_bytes) (take (Z.to_nat (to_write - hdr_bytes)) frame) else m
  else write_list m dst (take (Z.to_nat to_write) (drop (Z.to_nat (written - 12)) frame)).

Lemma hdr_bytes_ok : bytes_ok NET_RX_HDR.
Proof. repeat constructor; unfold fits; lia. Qed.

Lemma bytes_ok_take n l : bytes_ok l -> bytes_ok (take n l).
Proof. apply Forall_take. Qed.
Lemma bytes_ok_drop n l : bytes_ok l -> bytes_ok (drop n l).
Proof. apply Forall_drop. Qed.

Lemma rx_chunk_spec m frame written to_write dst : bytes_ok frame -> 0 <= written -> 0 <= to_write ->
  written + to_write <= 12 + Z.of_nat (length frame) ->
  read_list (rx_chunk m frame written to_write dst) dst (Z.to_nat to_write) =
    take (Z.to_nat to_write) (drop (Z.to_nat written) (NET_RX_HDR ++ frame)) /\
  (forall x, x < dst \/ dst + to_write <= x -> rx_chunk m frame written to_write dst x = m x).
Proof.
  intros HB Hw Ht Hle. unfold rx_chunk. pose proof hdr_bytes_ok as HH.
  assert (length NET_RX_HDR = 12%nat) as L12 by done.
  destruct (Z.ltb_spec written 12) as [Hlt|Hge].
  - rewrite drop_app_le by lia. set (h := drop (Z.to_nat written) NET_RX_HDR).
    assert (length h = Z.to_nat (12 - written)) as Lh by (subst h; rewrite length_drop; lia).
    destruct (Z.ltb_spec (12 - written) to_write) as [Hm|Hm]; cbv zeta.
    + destruct (Z.ltb_spec (12 - written) to_write); [|lia].
      rewrite (take_ge h) by lia. set (f := take (Z.to_nat (to_write - (12 - written))) frame).
      assert (length f = Z.to_nat (to_write - (12 - written))) as Lf by (subst f; rewrite length_take; lia).
      split.
      * replace (Z.to_nat to_write) with (length h + length f)%nat by lia. rewrite read_list_app.
        rewrite take_app. replace (length h + length f - length h)%nat with (length f) by lia.
        rewrite (take_ge h) by lia. f_equal.
        -- rewrite (read_list_agree _ (write_list m dst h)).
           ++ apply read_list_write. by apply bytes_ok_drop.
           ++ intros x Hx. apply write_list_frame. lia.
        -- replace (dst + Z.of_nat (length h)) with (dst + (12 - written)) by lia.
           rewrite read_list_write by (by apply bytes_ok_take). by rewrite Lf.
      * intros x Hx. rewrite !write_list_frame by lia. done.
    + destruct (Z.ltb_spec to_write to_write); [lia|].
      assert (length (take (Z.to_nat to_write) h) = Z.to_nat to_write) as L by (rewrite length_take; lia).
      split.
      * rewrite take_app_le by lia. rewrite <- L at 2.
        apply read_list_write. by apply bytes_ok_take, bytes_ok_drop.
      * intros x Hx. apply write_list_frame. lia.
  - rewrite drop_app_ge by lia. rewrite L12.
    replace (Z.to_nat written - 12)%nat with (Z.to_nat (written - 12)) by lia.
    set (f := take (Z.to_nat to_write) (drop (Z.to_nat (written - 12)) frame)).
    assert (length f = Z.to_nat to_write) as L by (subst f; rewrite length_take, length_drop; lia).
    split; [|intros x Hx; apply write_list_frame; lia].
    rewrite <- L. apply read_list_write. by apply bytes_ok_take, bytes_ok_drop.
Qed.

Definition rx_bufs (ds : list VirtqDesc) : list VirtqDesc := List.filter writable ds.

Lemma rx_capacity_total ds : rx_capacity ds = total_len (rx_bufs ds).
Proof.
  induction ds as [|d ds IH]; [done|]. cbn [rx_capacity rx_bufs List.filter]. rewrite IH.
  destruct (writable d); [by rewrite total_len_cons|]. done.
Qed.

Lemma rx_bufs_lens ds : lens_ok ds -> lens_ok (rx_bufs ds).
Proof.
  induction 1 as [|d ds Hd HL IH]; [constructor|]. cbn. destruct (writable d); [by constructor|done].
Qed.

Lemma rx_write_spec frame ds : bytes_ok frame -> lens_ok ds -> bufs_disjoint (rx_bufs ds) ->
  forall m written, 0 <= written <= 12 + Z.of_nat (length frame) ->
  let '(m', w') := rx_write m frame (12 + Z.of_nat (length frame)) written ds in
  w' = Z.min (12 + Z.of_nat (length frame)) (written + rx_capacity ds) /\
  take (Z.to_nat (w' - written)) (gather m' (rx_bufs ds)) =
    take (Z.to_nat (w' - written)) (drop (Z.to_nat written) (NET_RX_HDR ++ frame)) /\
  (forall x, Forall (fun d => x < vd_addr d \/ vd_addr d + vd_len d <= x) (rx_bufs ds) -> m' x = m x).
Proof.
  intros HB HL. induction HL as [|d ds Hd HL IH]; intros HD m written Hw.
  { cbn. split_and!; [lia| |done]. by rewrite Z.sub_diag. }
  pose proof (total_len_nn _ (rx_bufs_lens ds HL)) as Hnn. rewrite <- rx_capacity_total in Hnn.
  cbn [rx_write rx_capacity rx_bufs List.filter] in *. fold (rx_bufs ds) in *.
  destruct (writable d); cbn [negb]; [|by apply IH].
  inversion HD as [|? ? Hdd HD']; subst.
  set (clen := 12 + Z.of_nat (length frame)) in *.
  set (tw := if clen - written <? vd_len d then clen - written else vd_len d).
  assert (0 <= tw <= vd_len d /\ tw <= clen - written /\ (tw = vd_len d \/ tw = clen - written)) as (H1 & H2 & H3).
  { subst tw. destruct (Z.ltb_spec (clen - written) (vd_len d)); lia. }
  fold (rx_chunk m frame written tw (vd_addr d)).
  destruct (rx_chunk_spec m frame written tw (vd_addr d) HB ltac:(lia) ltac:(lia) ltac:(lia)) as [Hc Hcf].
  set (m1 := rx_chunk m frame written tw (vd_addr d)) in *.
  specialize (IH HD' m1 (written + tw) ltac:(lia)).
  destruct (rx_write m1 frame clen (written + tw) ds) as [m' w'] eqn:E. destruct IH as (Hw' & Hg & Hf).
  assert (w' = Z.min clen (written + (vd_len d + rx_capacity ds))) as Hw2 by lia. split; [done|].
  assert (read_list m' (vd_addr d) (Z.to_nat tw) = take (Z.to_nat tw) (drop (Z.to_nat written) (NET_RX_HDR ++ frame))) as Hr.
  { rewrite <- Hc. apply read_list_agree. intros x Hx. apply Hf. eapply Forall_impl; [exact Hdd|].
    cbn. unfold buf_outside. lia. }
  split.
  - replace (Z.to_nat (w' - written)) with (Z.to_nat tw + Z.to_nat (w' - (written + tw)))%nat by lia.
    rewrite <- (take_take_drop (drop _ _)), drop_drop.
    replace (Z.to_nat written + Z.to_nat tw)%nat with (Z.to_nat (written + tw)) by lia.
    rewrite <- Hr, <- Hg, gather_cons. destruct H3 as [Htw|Htw].
    + rewrite <- Htw. rewrite take_app. rewrite length_read_list.
      rewrite (take_ge (read_list _ _ _)) by (rewrite length_read_list; lia). do 2 f_equal. lia.
    + assert (w' = clen) by lia. replace (Z.to_nat (w' - (written + tw))) with 0%nat by lia.
      rewrite Nat.add_0_r, take_0, app_nil_r, take_app_le by (rewrite length_read_list; lia).
      apply read_list_take. lia.
  - intros x Hx. inversion Hx; subst. rewrite Hf by done. apply Hcf. lia.
Qed.

Lemma read_list_bytes m a n : bytes_ok (read_list m a n).
Proof.
  unfold bytes_ok, read_list. apply Forall_forall. intros x Hx%list_elem_of_In.
  apply in_map_iff in Hx as (i & <- & _). unfold read8, fits. apply Z.mod_pos_bound. lia.
Qed.

Lemma gather_bytes m ds : bytes_ok (gather m ds).
Proof. induction ds as [|d ds IH]; [constructor|]. rewrite gather_cons. apply Forall_app. split; [apply read_list_bytes|done]. Qed.

(** The guest has posted a receive chain that can take [n] bytes. *)
Record rx_posted (m : mem) (t : transport VirtioNet) (q q' : Virtqueue) (chain : DescChain) (n : Z) : Prop := {
  rp_queue : vt_queues t !! 0%nat = Some q;
  rp_chain : get_avail_desc m q = Ok (q', Some chain);
  rp_head : fits 32 (dc_head chain);
  rp_lens : lens_ok (dc_descs chain);
  rp_disj : bufs_disjoint (rx_bufs (dc_descs chain));
  rp_cap : n <= rx_capacity (dc_descs chain);
  rp_used : used_ok q';
  rp_used_bufs : Forall (buf_outside (vq_used_addr q') (used_bytes q')) (rx_bufs (dc_descs chain))
}.

Lemma inject_rx_spec m t q q' chain frame : rx_posted m t q q' chain (12 + Z.of_nat (length frame)) ->
  bytes_ok frame -> Z.of_nat (length frame) <= Z.of_nat MAX_FRAME_SIZE ->
  exists m' t', inject_rx m t frame = Ok (m', t', [vt_irq_intid t], true) /\
    take (12 + length frame) (gather m' (rx_bufs (dc_descs chain))) = NET_RX_HDR ++ frame /\
    used_elem m' q' (used_idx m q' mod vq_num q') = (dc_head chain, 12 + Z.of_nat (length frame)).
Proof.
  intros [] HB Hlen. unfold inject_rx. rewrite rp_queue0, rp_chain0.
  destruct (Nat.eqb_spec (length (dc_descs chain)) 0) as [Hz|_].
  { apply nil_length_inv in Hz. rewrite Hz in rp_cap0. cbn in rp_cap0. lia. }
  destruct (Z.ltb_spec (rx_capacity (dc_descs chain)) (12 + Z.of_nat (length frame))) as [|_]; [lia|].
  pose proof (rx_write_spec frame (dc_descs chain) HB rp_lens0 rp_disj0 m 0 ltac:(lia)) as Hrx.
  destruct (rx_write m frame _ 0 (dc_descs chain)) as [m1 w]. destruct Hrx as (Hw & Hg & Hfr).
  assert (w = 12 + Z.of_nat (length frame)) as -> by lia.
  assert (fits 32 (12 + Z.of_nat (length frame))) as Hfit by (unfold fits, MAX_FRAME_SIZE in *; lia).
  unfold u32. rewrite (wrap_id 32) by done.
  destruct (put_used_spec m1 q' (dc_head chain) _ rp_used0 rp_head0 Hfit) as (m2 & -> & Hi & He & Hf2).
  do 2 eexists. split; [reflexivity|].
  assert (used_idx m1 q' = used_idx m q') as Hux.
  { unfold used_idx, read16. apply read_le_agree. intros x Hx. apply Hfr. eapply Forall_impl; [exact rp_used_bufs0|].
    cbn. unfold buf_outside, used_bytes in *. destruct rp_used0 as (_ & ? & _). lia. }
  rewrite Hux in He. split; [|done].
  rewrite Z.sub_0_r in Hg. replace (Z.to_nat (12 + Z.of_nat (length frame))) with (12 + length frame)%nat in Hg by lia.
  rewrite (gather_agree m2 m1).
  - rewrite Hg. change (Z.to_nat 0) with 0%nat. rewrite drop_0. apply take_ge. rewrite length_app.
    change (length NET_RX_HDR) with 12%nat. lia.
  - intros d Hd x Hx. apply Hf2. rewrite Forall_forall in rp_used_bufs0. specialize (rp_used_bufs0 d Hd).
    unfold buf_outside in *. lia.
  - by apply rx_bufs_lens.
Qed.

(** The used ring does not cover the index of the available ring. *)
Definition avail_apart (q : Virtqueue) : Prop :=
  vq_avail_addr q + 4 <= vq_used_addr q \/ vq_used_addr q + used_bytes q <= vq_avail_addr q + 2.

Lemma chain_lens m q descs : forall idx, chain_at m q idx descs -> lens_ok descs.
Proof.
  induction descs as [|d descs IH]; intros idx H; [done|]. destruct H as (_ & Hd & Hn). constructor.
  - rewrite <- Hd. cbn. apply (read_le_range 4).
  - destruct descs as [|d' descs]; [constructor|]. destruct Hn as [_ Hn]. by eapply IH.
Qed.

(** The transmit loop on one posted chain. *)
Lemma tx_one d net m q head tx net' : chain_posted m q head tx -> used_ok q -> avail_apart q ->
  (14 <= length (tx_frame m tx))%nat -> forward net (vn_port_id d) (tx_frame m tx) = Some net' ->
  exists m1, process_tx 2 d {| nw_mem := m; nw_net := net |} q = Some (Ok ({| nw_mem := m1; nw_net := net' |}, taken q)) /\
    used_idx m1 q = u16 (used_idx m q + 1) /\ used_elem m1 q (used_idx m q mod vq_num q) = (head, 0) /\
    (forall x, x < vq_used_addr q \/ vq_used_addr q + used_bytes q <= x -> m1 x = m x).
Proof.
  intros Hp Hu Hap Hlen Hf. destruct (put_used_spec m (taken q) head 0 Hu (posted_head _ _ _ _ Hp) ltac:(done)) as (m1 & Em & Hi & He & Hfr).
  exists m1. split; [|done]. cbn [process_tx nw_mem nw_net]. rewrite (posted_take _ _ _ _ Hp). cbn [dc_descs dc_head].
  rewrite (proj2 (Nat.leb_le _ _) Hlen), Hf, Em. rewrite (posted_done _ _ _ _ _ Hp); [done|]. intros x Hx. apply Hfr.
  unfold avail_apart, used_bytes in *. cbn. lia.
Qed.

(** C33. A frame crosses the virtual network intact: when a driver has posted one
    transmit chain of at most four descriptors, in any split, that carries the
    12-byte header and a frame of 14 to 1514 bytes, a notification of the
    transmit queue takes it, hands the frame to the switch and answers the
    chain, touching nothing but the used ring.  If the switch has the frame
    for a port whose ring was empty, the destination's run loop takes exactly
    that frame from the ring; and injecting it, when a receive chain with
    enough writable space has been posted there, leaves in its buffers the
    virtio header followed by the frame, byte for byte, reports 12 + length
    bytes in the used ring and raises the device's interrupt. *)
Theorem net_frame_end_to_end (d : VirtioNet) (net : net_state) (a : abs_net) (p : nat) (m m2 : mem) (qt : Virtqueue) (head : Z)
    (tx : list VirtqDesc) (t : transport VirtioNet) (q q' : Virtqueue) (chain : DescChain) :
  net_rel net a -> (vn_port_id d < MAX_PORTS)%nat -> (p < MAX_PORTS)%nat ->
  chain_posted m qt head tx -> used_ok qt -> avail_apart qt ->
  26 <= total_len tx -> total_len tx - 12 <= Z.of_nat MAX_FRAME_SIZE ->
  let frame := drop 12 (gather m tx) in
  p ∈ abs_targets (abs_learn (an_macs a) (take 6 (drop 6 frame)) (vn_port_id d)) (vn_port_id d) (take 6 frame) ->
  an_queues a !! p = Some [] ->
  rx_posted m2 t q q' chain (12 + Z.of_nat (length frame)) ->
  exists m1 net' rx' m' t',
    process_tx 2 d {| nw_mem := m; nw_net := net |} qt = Some (Ok ({| nw_mem := m1; nw_net := net' |}, taken qt)) /\
    (used_idx m1 qt = u16 (used_idx m qt + 1) /\ used_elem m1 qt (used_idx m qt mod vq_num qt) = (head, 0) /\
     forall x, x < vq_used_addr qt \/ vq_used_addr qt + used_bytes qt <= x -> m1 x = m x) /\
    recv_port (PORT_RX net') p = Some (rx', Some frame) /\
    inject_rx m2 t frame = Ok (m', t', [vt_irq_intid t], true) /\
    take (12 + length frame) (gather m' (rx_bufs (dc_descs chain))) = NET_RX_HDR ++ frame /\
    used_elem m' q' (used_idx m2 q' mod vq_num q') = (dc_head chain, 12 + Z.of_nat (length frame)).
Proof.
  intros HR Hsrc Hp Hpost Hu Hap Hmin Hmax frame Htgt Hq HP.
  pose proof (chain_lens _ _ _ _ (cp_chain _ _ _ _ Hpost)) as HL.
  assert (Z.of_nat (length frame) = total_len tx - 12) as Hlen.
  { subst frame. rewrite length_drop, length_gather by done. lia. }
  destruct (forward_spec net a (vn_port_id d) frame HR Hsrc) as (net' & Hf & (_ & _ & Hl' & HQ')).
  destruct (tx_one d net m qt head tx net' Hpost Hu Hap) as (m1 & E1 & E2);
    [by rewrite tx_frame_exact by done; fold frame; lia|by rewrite tx_frame_exact by done|].
  assert (an_queues (abs_forward a (vn_port_id d) frame) !! p = Some [frame]) as Hq'.
  { unfold abs_forward. destruct (Nat.ltb_spec (length frame) 14); [lia|]. cbn [an_queues].
    unfold abs_deliver. rewrite list_lookup_imap, Hq. cbn [fmap option_fmap option_map].
    rewrite decide_True by done. unfold q_store, frame_ok.
    destruct (Nat.eqb_spec (length frame) 0); [lia|]. destruct (Nat.ltb_spec MAX_FRAME_SIZE (length frame)); [lia|]. done. }
  destruct (recv_spec _ _ p HQ' Hl' Hp) as (rx' & Hrecv & _ & _). rewrite (nth_lookup_Some _ _ _ _ Hq') in Hrecv.
  destruct (inject_rx_spec m2 t q q' chain frame HP) as (m' & t' & Hinj & Hg & Hus).
  - apply bytes_ok_drop, gather_bytes.
  - lia.
  - exists m1, net', rx', m', t'. split_and!; try done; apply E2.
Qed.

(** *** A frame from port 0 to port 1 *)
Definition ex_tx : list VirtqDesc := [mkDesc 0x50010000 10 1 1; mkDesc 0x50011000 17 0 0].
Definition ex_tx_mem : mem :=
  ex_post (write_list (write_list (fun _ => 0) 0x50011000 ([0; 0] ++ ex_frame 0xFF 0x52)) 0x50010000 (replicate 10 0)) ex_queue 0 ex_tx.

(** Receive queue of 2: one descriptor of 64 writable bytes, posted. *)
Definition ex_rxq : Virtqueue := mkQueue 0x60000000 0x60001000 0x60002000 2 0 true.
Definition ex_rx_mem : mem :=
  let m := write64 (fun _ => 0) 0x60000000 0x60003000 in
  let m := write16 (write32 m 0x60000008 64) 0x6000000C VIRTQ_DESC_F_WRITE in
  write16 m 0x60001002 1.
Definition ex_net_transport : transport VirtioNet :=
  with_queues (transport_new 0x0a000200 (virtio_net_new 1) 49) [ex_rxq; virtqueue_new].
Definition ex_rx_chain : DescChain :=
  {| dc_head := 0; dc_descs := [mkDesc 0x60003000 64 2 0] |}.

Lemma ex_rx_posted n : n <= 64 ->
  rx_posted ex_rx_mem ex_net_transport ex_rxq (set_last_avail ex_rxq 1) ex_rx_chain n.
Proof.
  intros Hn. split.
  - reflexivity.
  - vm_compute. reflexivity.
  - unfold fits. change (dc_head ex_rx_chain) with 0. lia.
  - repeat constructor; cbn; lia.
  - repeat constructor.
  - change (rx_capacity (dc_descs ex_rx_chain)) with 64. done.
  - unfold used_ok, used_bytes; cbn; lia.
  - repeat constructor; unfold buf_outside, used_bytes; cbn; lia.
Qed.

Lemma ex_tx_posted : chain_posted ex_tx_mem ex_queue 0 ex_tx.
Proof.
  split; [split_and!; [done|done|cbn; lia..]|vm_compute; reflexivity|vm_compute; reflexivity| |cbn; lia].
  cbn [chain_at ex_tx]. repeat (split; [vm_compute; first [reflexivity|discriminate]|]). vm_compute. reflexivity.
Qed.
Lemma net_frame_end_to_end_witness :
  drop 12 (gather ex_tx_mem ex_tx) = ex_frame 0xFF 0x52 /\
  exists m1 net' rx' m' t',
    process_tx 2 (virtio_net_new 0) {| nw_mem := ex_tx_mem; nw_net := net_init |} ex_queue =
      Some (Ok ({| nw_mem := m1; nw_net := net' |}, taken ex_queue)) /\
    recv_port (PORT_RX net') 1 = Some (rx', Some (drop 12 (gather ex_tx_mem ex_tx))) /\
    inject_rx ex_rx_mem ex_net_transport (drop 12 (gather ex_tx_mem ex_tx)) =
      Ok (m', t', [vt_irq_intid ex_net_transport], true).
Proof.
  split; [vm_compute; reflexivity|].
  destruct (net_frame_end_to_end (virtio_net_new 0) net_init abs_net_init 1 ex_tx_mem ex_rx_mem ex_queue 0 ex_tx ex_net_transport ex_rxq
    (set_last_avail ex_rxq 1) ex_rx_chain net_init_rel) as (m1 & net' & rx' & m' & t' & H1 & _ & H2 & H3 & _).
  - cbn; unfold MAX_PORTS; lia.
  - unfold MAX_PORTS; lia.
  - exact ex_tx_posted.
  - unfold used_ok, used_bytes; cbn; lia.
  - left; cbn; lia.
  - vm_compute. discriminate.
  - vm_compute. discriminate.
  - vm_compute. left.
  - reflexivity.
  - apply ex_rx_posted. vm_compute. discriminate.
  - exists m1, net', rx', m', t'. split; [exact H1|]. split; [exact H2|exact H3].
Defined.

(** ** Termination of the transmit loop *)
(** Chains the driver has made available and the device has not taken. *)
Definition backlog (m : mem) (q : Virtqueue) : Z := (avail_idx m q - vq_last_avail_idx q) mod 2 ^ 16.
(** The queue is in use: its rings are at sane places. *)
Definition queue_ok (q : Virtqueue) : Prop :=
  vq_ready q = true /\ vq_avail_addr q <> 0 /\ fits 16 (vq_last_avail_idx q) /\ used_ok q.
Lemma read16_fits m a : fits 16 (read16 m a).
Proof. apply (read_le_range 2). Qed.
Lemma tx_take m q : queue_ok q -> avail_idx m q <> vq_last_avail_idx q ->
  exists chain, get_avail_desc m q = Ok (set_last_avail q (u16 (vq_last_avail_idx q + 1)), Some chain) /\
    fits 32 (dc_head chain).
Proof.
  intros (Hr & Ha & _ & _ & Hn & _) Hne. unfold get_avail_desc, has_avail. rewrite Hr.
  destruct (Z.eqb_spec (vq_avail_addr q) 0); [done|]. destruct (Z.eqb_spec (avail_idx m q) (vq_last_avail_idx q)); [done|].
  destruct (Z.eqb_spec (vq_num q) 0); [lia|]. eexists. split; [done|]. cbn [dc_head].
  pose proof (read16_fits m (u64 (vq_avail_addr q + 4) + 2 * (vq_last_avail_idx q mod vq_num q))). unfold fits in *. lia.
Qed.
Lemma queue_ok_next q : queue_ok q -> queue_ok (set_last_avail q (u16 (vq_last_avail_idx q + 1))).
Proof. intros (? & ? & _ & ?). split_and!; try done. by apply wrap_fits. Qed.

(** One round takes one chain and touches only the used ring. *)
Lemma tx_round fuel d net m q : queue_ok q -> avail_idx m q <> vq_last_avail_idx q ->
  (process_tx (S fuel) d {| nw_mem := m; nw_net := net |} q = Some (Err VSWITCH_PANIC) /\
   exists frame, forward net (vn_port_id d) frame = None) \/
  exists m' net', process_tx (S fuel) d {| nw_mem := m; nw_net := net |} q =
      process_tx fuel d {| nw_mem := m'; nw_net := net' |} (set_last_avail q (u16 (vq_last_avail_idx q + 1))) /\
    used_idx m' q = u16 (used_idx m q + 1) /\
    (forall x, x < vq_used_addr q \/ vq_used_addr q + used_bytes q <= x -> m' x = m x) /\
    (exists frame, net' = net \/ forward net (vn_port_id d) frame = Some net').
Proof.
  intros Hq Hne. destruct (tx_take m q Hq Hne) as (chain & Hg & Hh). cbn [process_tx nw_mem nw_net]. rewrite Hg.
  destruct (put_used_spec m (set_last_avail q (u16 (vq_last_avail_idx q + 1))) (dc_head chain) 0) as (m' & Hp & Hu & _ & Hf);
    [apply queue_ok_next, Hq|done|unfold fits; lia|].
  set (frame := tx_frame m (dc_descs chain)).
  destruct (14 <=? length frame)%nat.
  - destruct (forward net (vn_port_id d) frame) as [net'|] eqn:Ef; [|by left; eauto]. right. exists m', net'. rewrite Hp.
    split_and!; eauto.
  - right. exists m', net. rewrite Hp. split_and!; try done. exists []. by left.
Qed.

Lemma tx_ends d q : avail_apart q -> forall fuel net m last, queue_ok (set_last_avail q last) ->
  backlog m (set_last_avail q last) < Z.of_nat fuel ->
  exists r, process_tx fuel d {| nw_mem := m; nw_net := net |} (set_last_avail q last) = Some r /\
    forall w q', r = Ok (w, q') -> q' = set_last_avail q (avail_idx m q).
Proof.
  intros Hap. induction fuel as [|fuel IH]; intros net m last Hq Hb.
  { pose proof (Z.mod_pos_bound (avail_idx m (set_last_avail q last) - last) (2 ^ 16)). unfold backlog in Hb. cbn in *. lia. }
  destruct (Z.eqb_spec (avail_idx m q) last) as [E|Hne].
  - exists (Ok ({| nw_mem := m; nw_net := net |}, set_last_avail q last)). split.
    + cbn [process_tx nw_mem]. unfold get_avail_desc, has_avail.
      change (avail_idx m (set_last_avail q last)) with (avail_idx m q). cbn [set_last_avail vq_last_avail_idx].
      rewrite E, Z.eqb_refl. cbn [negb]. by destruct (_ || _).
    + intros w q' [= _ <-]. by rewrite E.
  - destruct (tx_round fuel d net m (set_last_avail q last) Hq Hne) as [[E _]|(m' & net' & E & _ & Hf & _)].
    { exists (Err VSWITCH_PANIC). split; [exact E|done]. }
    assert (Ha : avail_idx m' q = avail_idx m q).
    { unfold avail_idx, read16. apply read_le_agree. intros x Hx. apply Hf. cbn in *. unfold avail_apart in Hap.
      change (used_bytes (set_last_avail q last)) with (used_bytes q). lia. }
    destruct (IH net' m' (u16 (last + 1))) as (r & Hr & Hres).
    + exact (queue_ok_next _ Hq).
    + unfold backlog in *. change (avail_idx m' (set_last_avail q (u16 (last + 1)))) with (avail_idx m' q).
      change (avail_idx m (set_last_avail q last)) with (avail_idx m q) in Hb. cbn [set_last_avail vq_last_avail_idx] in *.
      rewrite Ha. destruct Hq as (_ & _ & Hl & _). cbn in Hl. pose proof (read16_fits m (vq_avail_addr q + 2)) as Hx.
      fold (avail_idx m q) in Hx. unfold u16, wrap, fits in *. clear - Hb Hl Hx Hne. Z.div_mod_to_equations. lia.
    + exists r. split; [rewrite E; exact Hr|]. intros w q' ->. rewrite (Hres w q' eq_refl). by rewrite Ha.
Qed.
Lemma tx_spins d q : vq_used_addr q = vq_avail_addr q -> (vn_port_id d < MAX_PORTS)%nat ->
  forall fuel net a m last, net_rel net a -> queue_ok (set_last_avail q last) -> avail_idx m q <> last ->
  process_tx fuel d {| nw_mem := m; nw_net := net |} (set_last_avail q last) = None.
Proof.
  intros Hua Hp. induction fuel as [|fuel IH]; intros net a m last HR Hq Hne; [done|].
  destruct (tx_round fuel d net m (set_last_avail q last) Hq Hne) as [[_ [frame Hn]]|(m' & net' & E & Hu & _ & frame & Hn)].
  - destruct (forward_spec net a (vn_port_id d) frame HR Hp) as (? & ? & _). congruence.
  - rewrite E. assert (exists a', net_rel net' a') as [a' HR'].
    { destruct Hn as [-> |Hn]; [eauto|]. destruct (forward_spec net a (vn_port_id d) frame HR Hp) as (s' & Hs & HR').
      rewrite Hs in Hn. injection Hn as <-. eauto. }
    apply (IH net' a'); [done|by apply (queue_ok_next _ Hq)|]. unfold avail_idx, used_idx in *. cbn [set_last_avail vq_used_addr vq_avail_addr vq_last_avail_idx] in Hu, Hne |- *.
    rewrite <- Hua in Hne |- *. rewrite Hu. pose proof (read16_fits m (vq_used_addr q + 2)) as Hx.
    destruct Hq as (_ & _ & Hl & _). change (fits 16 last) in Hl. clear - Hx Hl Hne. revert Hx Hne. generalize (read16 m (vq_used_addr q + 2)). intros x Hx Hne.
    unfold u16, wrap, fits in *. clear - Hx Hl Hne. Z.div_mod_to_equations. lia.
Qed.

(** C35. The transmit loop of the network device: when the used ring does not
    cover the index of the available ring, [process_tx] ends within one round
    per available chain (at most 65535), having taken them all; a guest that
    gives both rings the same address makes the device answer each chain by
    making another one available, and the loop never ends, whatever the fuel:
    the notification does not return to the guest. *)
Theorem tx_notify_termination d w q a : queue_ok q ->
  (avail_apart q -> forall fuel, backlog (nw_mem w) q < Z.of_nat fuel ->
     exists r, process_tx fuel d w q = Some r /\
       forall w' q', r = Ok (w', q') -> q' = set_last_avail q (avail_idx (nw_mem w) q)) /\
  (vq_used_addr q = vq_avail_addr q -> (vn_port_id d < MAX_PORTS)%nat -> net_rel (nw_net w) a ->
     backlog (nw_mem w) q <> 0 -> forall fuel, process_tx fuel d w q = None).
Proof.
  destruct w as [m net], q as [da aa ua num last ready]. cbn [nw_mem nw_net]. intros Hq.
  change (mkQueue da aa ua num last ready) with (set_last_avail (mkQueue da aa ua num 0 ready) last) in *. split.
  - intros Hap fuel Hb. exact (tx_ends d (mkQueue da aa ua num 0 ready) Hap fuel net m last Hq Hb).
  - intros Hua Hp HR Hb fuel. apply (tx_spins d (mkQueue da aa ua num 0 ready) Hua Hp fuel net a m last HR Hq).
    intros E. apply Hb. unfold backlog. change (avail_idx m _) with (avail_idx m (mkQueue da aa ua num 0 ready)).
    rewrite E. cbn [set_last_avail vq_last_avail_idx]. by rewrite Z.sub_diag.
Qed.
Definition ex_txq (used : Z) : Virtqueue := mkQueue 0x50000000 0x50001000 used 8 0 true.
(** One chain is available. *)
Definition ex_txq_mem : mem := write16 (fun _ => 0) 0x50001002 1.
Lemma tx_notify_termination_witness :
  (exists r, process_tx 2 (virtio_net_new 0) {| nw_mem := ex_txq_mem; nw_net := net_init |} (ex_txq 0x50002000) = Some r) /\
  (forall fuel, process_tx fuel (virtio_net_new 0) {| nw_mem := ex_txq_mem; nw_net := net_init |} (ex_txq 0x50001000) = None).
Proof.
  assert (Hok : forall u, 0 < u < 2 ^ 32 -> queue_ok (ex_txq u)).
  { intros u Hu. unfold queue_ok, used_ok, used_bytes, ex_txq, fits. cbn. split_and!; try done; lia. }
  split.
  - destruct (tx_notify_termination (virtio_net_new 0) {| nw_mem := ex_txq_mem; nw_net := net_init |} (ex_txq 0x50002000) abs_net_init)
      as [H _]; [by apply Hok|]. destruct (H ltac:(left; cbn; lia) 2%nat) as (r & Hr & _); [by vm_compute|]. by exists r.
  - apply (tx_notify_termination (virtio_net_new 0) {| nw_mem := ex_txq_mem; nw_net := net_init |} (ex_txq 0x50001000) abs_net_init);
      [by apply Hok|done|cbn; unfold MAX_PORTS; lia|apply net_init_rel|by vm_compute].
Defined.
