(* ===== verification/VGic.v ===== *)
(** * VGic: list registers and the injection of virtual interrupts

    The virtual interface of [peripherals/gicv3.rs] ([GicV3VirtualInterface])
    over the four list registers the code names, the virtual interrupt state
    of [vcpu_interrupt.rs], and the queues of pending interrupts: the
    injection into a saved register file by [inject_pending_sgis] and
    [inject_pending_spis] of [vm.rs] and into the hardware by
    [flush_pending_spis_to_hardware] of [exception.rs].  Other cores may set
    bits of a queue between any two steps of the loop that drains it. *)

From Stdlib Require Import ZArith Lia Bool Btauto.
From stdpp Require Import base decidable option list strings.
From S2P Require Import Prelude.

(** ** List-register values *)
Definition LR_STATE_SHIFT : Z := 62.
Definition LR_STATE_MASK : Z := 0x3.
Definition LR_HW_BIT : Z := Z.shiftl 1 61.
Definition LR_GROUP1_BIT : Z := Z.shiftl 1 60.
Definition LR_PRIORITY_SHIFT : Z := 48.
Definition LR_PINTID_SHIFT : Z := 32.
Definition LR_PINTID_MASK : Z := 0x3FF.
Definition LR_VINTID_MASK : Z := 0xFFFFFFFF.
Definition VTR_LISTREGS_MASK : Z := 0x1F.
Definition IRQ_DEFAULT_PRIORITY : Z := 0xA0.
Definition LR_STATE_INVALID : Z := 0.
Definition LR_STATE_PENDING : Z := 1.
Definition LR_STATE_ACTIVE : Z := 2.
Definition LR_STATE_PENDING_ACTIVE : Z := 3.

Definition build_lr (intid priority : Z) : Z :=
  Z.lor (Z.lor (Z.lor (Z.shiftl LR_STATE_PENDING LR_STATE_SHIFT) LR_GROUP1_BIT)
    (Z.shiftl priority LR_PRIORITY_SHIFT)) intid.
(** The value [inject_hw_interrupt] writes. *)
Definition build_hw_lr (intid pintid priority : Z) : Z :=
  Z.lor (Z.lor (Z.lor (Z.lor (Z.lor (Z.shiftl LR_STATE_PENDING LR_STATE_SHIFT) LR_HW_BIT) LR_GROUP1_BIT)
    (Z.shiftl priority LR_PRIORITY_SHIFT)) (Z.shiftl (Z.land pintid LR_PINTID_MASK) LR_PINTID_SHIFT)) intid.
Definition get_lr_state (lr : Z) : Z := Z.land (Z.shiftr lr LR_STATE_SHIFT) LR_STATE_MASK.
Definition get_lr_intid (lr : Z) : Z := u32 (Z.land lr LR_VINTID_MASK).
Definition get_lr_priority (lr : Z) : Z := u8 (Z.land (Z.shiftr lr LR_PRIORITY_SHIFT) 0xFF).

Definition lr_free (lr : Z) : bool := get_lr_state lr =? LR_STATE_INVALID.

(** ** The virtual interface *)
Definition NUM_LRS : nat := 4.
(** ICH_LR0_EL2 .. ICH_LR3_EL2 and the control registers of a core. *)
Record ich_regs := mkIch { ich_lr : list Z; ich_vtr : Z; ich_hcr : Z; ich_vmcr : Z }.
Definition set_lrs (h : ich_regs) (l : list Z) : ich_regs := mkIch l (ich_vtr h) (ich_hcr h) (ich_vmcr h).

Definition read_lr (h : ich_regs) (n : Z) : Z :=
  match n with
  | 0 => nth 0 (ich_lr h) 0
  | 1 => nth 1 (ich_lr h) 0
  | 2 => nth 2 (ich_lr h) 0
  | 3 => nth 3 (ich_lr h) 0
  | _ => 0
  end.
Definition write_lr (h : ich_regs) (n value : Z) : ich_regs :=
  match n with
  | 0 => set_lrs h (<[0%nat := value]> (ich_lr h))
  | 1 => set_lrs h (<[1%nat := value]> (ich_lr h))
  | 2 => set_lrs h (<[2%nat := value]> (ich_lr h))
  | 3 => set_lrs h (<[3%nat := value]> (ich_lr h))
  | _ => h
  end.

Definition num_list_registers (h : ich_regs) : Z := u32 (Z.land (ich_vtr h) VTR_LISTREGS_MASK + 1).
Definition lr_indices (h : ich_regs) : list Z := map Z.of_nat (seq 0 (Z.to_nat (num_list_registers h))).

Definition NO_FREE_LR : string := "No free list register for interrupt injection".

(** The search loop of the injections: the first free register takes [value]. *)
Fixpoint inject_loop (h : ich_regs) (value : Z) (idxs : list Z) : ich_regs * result unit string :=
  match idxs with
  | [] => (h, Err NO_FREE_LR)
  | i :: idxs =>
      if Z.land (Z.shiftr (read_lr h i) LR_STATE_SHIFT) LR_STATE_MASK =? 0
      then (write_lr h i value, Ok tt)
      else inject_loop h value idxs
  end.

Definition inject_interrupt (h : ich_regs) (intid priority : Z) : ich_regs * result unit string :=
  inject_loop h (build_lr intid priority) (lr_indices h).

Definition clear_stale (intid : Z) (h : ich_regs) (i : Z) : ich_regs :=
  let lr := read_lr h i in
  if (get_lr_intid lr =? intid) && (get_lr_state lr =? LR_STATE_ACTIVE) then write_lr h i 0 else h.

Definition inject_hw_interrupt (h : ich_regs) (intid pintid priority : Z) : ich_regs * result unit string :=
  let h := fold_left (clear_stale intid) (lr_indices h) h in
  inject_loop h (build_hw_lr intid pintid priority) (lr_indices h).

Fixpoint clear_loop (h : ich_regs) (intid : Z) (idxs : list Z) : ich_regs :=
  match idxs with
  | [] => h
  | i :: idxs => if get_lr_intid (read_lr h i) =? intid then write_lr h i 0 else clear_loop h intid idxs
  end.
Definition clear_interrupt (h : ich_regs) (intid : Z) : ich_regs := clear_loop h intid (lr_indices h).

Definition ICH_HCR_EN : Z := Z.shiftl 1 0.
Definition ICH_HCR_TALL1 : Z := Z.shiftl 1 13.
Definition ICC_PMR_ALLOW_ALL : Z := 0xFF.
Definition vgic_init (h : ich_regs) : ich_regs :=
  let h := mkIch (ich_lr h) (ich_vtr h) (u32 (Z.lor ICH_HCR_TALL1 ICH_HCR_EN)) (ich_vmcr h) in
  let vmcr := Z.lor (Z.shiftl ICC_PMR_ALLOW_ALL 24) (Z.shiftl 1 1) in
  let h := mkIch (ich_lr h) (ich_vtr h) (ich_hcr h) vmcr in
  fold_left (fun h i => write_lr h i 0) (lr_indices h) h.

Definition find_free_lr (h : ich_regs) : option Z :=
  List.find (fun i => get_lr_state (read_lr h i) =? LR_STATE_INVALID) (lr_indices h).

Definition lr_waiting (lr : Z) : bool :=
  (get_lr_state lr =? LR_STATE_PENDING) || (get_lr_state lr =? LR_STATE_PENDING_ACTIVE).
Definition pending_count (h : ich_regs) : nat :=
  length (List.filter (fun i => lr_waiting (read_lr h i)) (lr_indices h)).

(** ** Virtual interrupt state of a vCPU *)
Record VirtualInterruptState := mkVirq {
  irq_pending : bool;
  fiq_pending : bool;
  pending_irq_num : option Z;
  use_gicv3 : bool
}.
Definition virq_new : VirtualInterruptState := mkVirq false false None true.

Definition virq_inject_irq (v : VirtualInterruptState) (h : ich_regs) (irq_num : Z)
    : VirtualInterruptState * ich_regs :=
  if use_gicv3 v then
    match inject_interrupt h irq_num 0xA0 with
    | (h, Ok _) => (mkVirq true (fiq_pending v) (Some irq_num) (use_gicv3 v), h)
    | (h, Err _) => (mkVirq true (fiq_pending v) (Some irq_num) (use_gicv3 v), h)
    end
  else (mkVirq true (fiq_pending v) (Some irq_num) (use_gicv3 v), h).
Definition virq_inject_fiq (v : VirtualInterruptState) : VirtualInterruptState :=
  mkVirq (irq_pending v) true (pending_irq_num v) (use_gicv3 v).
Definition virq_clear_irq (v : VirtualInterruptState) (h : ich_regs) : VirtualInterruptState * ich_regs :=
  let h :=
    if use_gicv3 v then match pending_irq_num v with Some irq_num => clear_interrupt h irq_num | None => h end
    else h in
  (mkVirq false (fiq_pending v) None (use_gicv3 v), h).
Definition virq_clear_fiq (v : VirtualInterruptState) : VirtualInterruptState :=
  mkVirq (irq_pending v) false (pending_irq_num v) (use_gicv3 v).
Definition has_pending_interrupt (v : VirtualInterruptState) : bool := irq_pending v || fiq_pending v.

Definition apply_to_hcr (v : VirtualInterruptState) (hcr : Z) : Z :=
  if use_gicv3 v then hcr else
  let hcr := if irq_pending v then Z.lor hcr (Z.shiftl 1 7) else Z.land hcr (not64 (Z.shiftl 1 7)) in
  if fiq_pending v then Z.lor hcr (Z.shiftl 1 6) else Z.land hcr (not64 (Z.shiftl 1 6)).

(** ** Draining a queue of pending interrupts *)

(** [for lr in ich_lr.iter_mut()]: the first free register takes the value. *)
Fixpoint place_lr (value : Z) (lrs : list Z) : list Z * bool :=
  match lrs with
  | [] => ([], false)
  | lr :: lrs =>
      if Z.land (Z.shiftr lr LR_STATE_SHIFT) LR_STATE_MASK =? 0 then (value :: lrs, true)
      else let (lrs, b) := place_lr value lrs in (lr :: lrs, b)
  end.

Section Drain.
(** The register file the interrupts go to and the attempt to place one. *)
Context {R : Type} (place : Z -> R -> R * bool).
(** Bits other cores OR into the queue before iteration [i] of the loop. *)
Context (env : nat -> Z).
(** INTID of bit 0. *)
Context (base : Z).

(** Iterations [i], [i + 1], ... for [n] steps: [all] is the word taken by
    [swap(0)], [queue] the shared word the failures are put back into. *)
Fixpoint drain_loop (all : Z) (i n : nat) (queue : Z) (lrs : R) : Z * R :=
  match n with
  | O => (queue, lrs)
  | S n =>
      let queue := Z.lor queue (env i) in
      if Z.land all (Z.shiftl 1 (Z.of_nat i)) =? 0 then drain_loop all (S i) n queue lrs else
      let intid := Z.of_nat i + base in
      let (lrs, injected) := place (build_lr intid IRQ_DEFAULT_PRIORITY) lrs in
      let queue := if injected then queue else Z.lor queue (Z.shiftl 1 (Z.of_nat i)) in
      drain_loop all (S i) n queue lrs
  end.

Definition drain (n : nat) (queue : Z) (lrs : R) : Z * R :=
  let all := queue in
  if all =? 0 then (0, lrs) else drain_loop all 0 n 0 lrs.
End Drain.

Definition inject_pending_sgis (env : nat -> Z) (queue : Z) (lrs : list Z) : Z * list Z :=
  drain place_lr env 0 16 queue lrs.
Definition inject_pending_spis (env : nat -> Z) (queue : Z) (lrs : list Z) : Z * list Z :=
  drain place_lr env 32 32 queue lrs.

(** [inject_interrupt(..).is_err()] *)
Definition place_hw (value : Z) (h : ich_regs) : ich_regs * bool :=
  match inject_loop h value (lr_indices h) with
  | (h, Ok _) => (h, true)
  | (h, Err _) => (h, false)
  end.
Definition flush_pending_spis (env : nat -> Z) (queue : Z) (h : ich_regs) : Z * ich_regs :=
  drain place_hw env 32 32 queue h.

(** ** Fields of a list register *)
Lemma build_lr_sum intid prio : fits 32 intid -> fits 8 prio ->
  build_lr intid prio = (5 * 2 ^ 12 + prio) * 2 ^ 48 + intid.
Proof.
  intros Hi Hp. unfold build_lr, LR_GROUP1_BIT, LR_PRIORITY_SHIFT.
  change (Z.lor (Z.shiftl LR_STATE_PENDING LR_STATE_SHIFT) (Z.shiftl 1 60)) with (Z.shiftl (Z.shiftl 5 12) 48).
  rewrite <- Z.shiftl_lor, (lor_disjoint_add 12) by (done || (apply (fits_mono 8); [lia|done])).
  by rewrite (lor_disjoint_add 48) by (done || (apply (fits_mono 32); [lia|done])).
Qed.

Lemma build_lr_fields intid prio : fits 32 intid -> fits 8 prio ->
  get_lr_state (build_lr intid prio) = LR_STATE_PENDING /\
  get_lr_intid (build_lr intid prio) = intid /\
  get_lr_priority (build_lr intid prio) = prio.
Proof.
  intros Hi Hp. rewrite build_lr_sum by done.
  unfold get_lr_state, get_lr_intid, get_lr_priority, LR_STATE_MASK, LR_VINTID_MASK, LR_STATE_SHIFT, LR_PRIORITY_SHIFT.
  change 0x3 with (Z.ones 2). change 0xFFFFFFFF with (Z.ones 32). change 0xFF with (Z.ones 8).
  rewrite !Z.land_ones, !Z.shiftr_div_pow2 by lia. unfold u32, u8, wrap, fits, LR_STATE_PENDING in *.
  split_and!; Z.to_euclidean_division_equations; lia.
Qed.

Lemma lr_free_build intid : fits 32 intid -> lr_free (build_lr intid IRQ_DEFAULT_PRIORITY) = false.
Proof.
  intros Hi. unfold lr_free. destruct (build_lr_fields intid IRQ_DEFAULT_PRIORITY) as [-> _]; [done| |done].
  unfold fits, IRQ_DEFAULT_PRIORITY. lia.
Qed.

(** ** The reference assignment *)

(** Interrupts in order into the free registers in order. *)
Fixpoint fill (vals lrs : list Z) : list Z :=
  match lrs, vals with
  | [], _ => []
  | _, [] => lrs
  | lr :: lrs, v :: vs => if lr_free lr then v :: fill vs lrs else lr :: fill vals lrs
  end.
Definition num_free (lrs : list Z) : nat := length (List.filter lr_free lrs).
(** The bits of a queue word, in ascending order from [i]. *)
Definition bits_of (q : Z) (i n : nat) : list Z :=
  List.filter (Z.testbit q) (map Z.of_nat (seq i n)).
Definition lr_of (base b : Z) : Z := build_lr (b + base) IRQ_DEFAULT_PRIORITY.

Lemma fill_nil lrs : fill [] lrs = lrs.
Proof. by destruct lrs. Qed.

Lemma fill_cons v vs lrs : lr_free v = false -> fill (v :: vs) lrs = fill vs (fill [v] lrs).
Proof.
  intros Hv. induction lrs as [|lr lrs IH]; [by destruct vs|]. cbn [fill].
  destruct (lr_free lr) eqn:E.
  - rewrite fill_nil. destruct vs as [|w vs]; [by rewrite fill_nil|]. cbn [fill]. by rewrite Hv.
  - rewrite IH. destruct vs as [|w vs]; [by rewrite !fill_nil|]. cbn [fill]. by rewrite E.
Qed.

Lemma fill_full vs lrs : num_free lrs = 0%nat -> fill vs lrs = lrs.
Proof.
  induction lrs as [|lr lrs IH] in vs |- *; intros H; [by destruct vs|].
  destruct vs as [|v vs]; [done|]. unfold num_free in *. cbn [fill List.filter] in *.
  destruct (lr_free lr); [done|]. by rewrite IH.
Qed.

Lemma num_free_fill v lrs : lr_free v = false -> num_free (fill [v] lrs) = Nat.pred (num_free lrs).
Proof.
  intros Hv. induction lrs as [|lr lrs IH]; [done|]. unfold num_free in *. cbn [fill List.filter].
  destruct (lr_free lr) eqn:E; [by rewrite fill_nil; cbn [List.filter]; rewrite Hv|].
  cbn [List.filter]. by rewrite E.
Qed.

Lemma place_lr_fill v lrs : place_lr v lrs = (fill [v] lrs, negb (num_free lrs =? 0)%nat).
Proof.
  induction lrs as [|lr lrs IH]; [done|]. cbn [place_lr fill]. unfold num_free in *. cbn [List.filter].
  change (Z.land (Z.shiftr lr LR_STATE_SHIFT) LR_STATE_MASK =? 0) with (lr_free lr).
  destruct (lr_free lr); [by rewrite fill_nil|]. by rewrite IH.
Qed.

Lemma bits_of_S q i n : bits_of q i (S n) =
  if Z.testbit q (Z.of_nat i) then Z.of_nat i :: bits_of q (S i) n else bits_of q (S i) n.
Proof. done. Qed.

Definition env_sets (env : nat -> Z) (i n : nat) (b : Z) : bool :=
  existsb (fun j => Z.testbit (env j) b) (seq i n).

(** The loop puts the interrupts of the word into the free registers in order
    and the ones left over back into the queue. *)
Lemma drain_loop_fill env base all n : 0 <= base ->
  forall i queue lrs, Z.of_nat (i + n) + base < 2 ^ 32 ->
  exists q', drain_loop place_lr env base all i n queue lrs = (q', fill (map (lr_of base) (bits_of all i n)) lrs) /\
    forall b, 0 <= b -> Z.testbit q' b =
      Z.testbit queue b || env_sets env i n b || existsb (Z.eqb b) (drop (num_free lrs) (bits_of all i n)).
Proof.
  intros Hbase. induction n as [|n IH]; intros i queue lrs Hlim.
  - eexists. split; [cbn; by rewrite fill_nil|]. intros b Hb. cbn. by rewrite drop_nil, !orb_false_r.
  - cbn [drain_loop]. rewrite land_bit_zero, bits_of_S by lia. destruct (Z.testbit all (Z.of_nat i)) eqn:E; simpl negb.
    + rewrite place_lr_fill. fold (lr_of base (Z.of_nat i)).
      assert (lr_free (lr_of base (Z.of_nat i)) = false) as Hbusy by (apply lr_free_build; unfold fits; lia).
      destruct (IH (S i) (if negb (num_free lrs =? 0)%nat then Z.lor queue (env i)
        else Z.lor (Z.lor queue (env i)) (Z.shiftl 1 (Z.of_nat i))) (fill [lr_of base (Z.of_nat i)] lrs)
        ltac:(lia)) as (q' & -> & Hq).
      exists q'. split; [cbn [map]; by rewrite <- fill_cons|].
      intros b Hb. rewrite Hq by done. rewrite num_free_fill by done. unfold env_sets. cbn [seq existsb].
      destruct (num_free lrs) as [|f]; cbn [Nat.eqb negb Nat.pred drop existsb];
        rewrite !Z.lor_spec, ?bit_shift1 by lia; [|btauto]. rewrite !drop_0. btauto.
    + destruct (IH (S i) (Z.lor queue (env i)) lrs ltac:(lia)) as (q' & -> & Hq).
      exists q'. split; [done|]. intros b Hb. rewrite Hq by done. unfold env_sets. cbn [seq existsb].
      rewrite Z.lor_spec. btauto.
Qed.

Lemma fill_length vs lrs : length (fill vs lrs) = length lrs.
Proof.
  induction lrs as [|lr lrs IH] in vs |- *; [by destruct vs|]. destruct vs as [|v vs]; [done|].
  cbn [fill]. destruct (lr_free lr); cbn [length]; by rewrite IH.
Qed.

(** A register that was in use keeps its contents. *)
Lemma fill_busy vs lrs k lr : lrs !! k = Some lr -> lr_free lr = false -> fill vs lrs !! k = Some lr.
Proof.
  induction lrs as [|l lrs IH] in vs, k |- *; intros Hk Hb; [done|]. destruct vs as [|v vs]; [done|].
  cbn [fill]. destruct k as [|k]; cbn in Hk.
  - inversion Hk; subst l. by rewrite Hb.
  - destruct (lr_free l); cbn; by apply IH.
Qed.

(** A register that was free keeps its contents or holds one of the interrupts. *)
Lemma fill_origin vs lrs k lr : lrs !! k = Some lr ->
  fill vs lrs !! k = Some lr \/ (lr_free lr = true /\ exists v, v ∈ take (num_free lrs) vs /\ fill vs lrs !! k = Some v).
Proof.
  induction lrs as [|l lrs IH] in vs, k |- *; intros Hk; [done|]. destruct vs as [|v vs]; [by left|].
  cbn [fill]. unfold num_free in *. cbn [List.filter]. destruct (lr_free l) eqn:E; destruct k as [|k]; cbn in Hk.
  - inversion Hk; subst l. right. split; [done|]. exists v. split; [cbn; left|done].
  - destruct (IH vs k Hk) as [H|(Hf & w & Hw & H)]; [by left|right]. split; [done|]. exists w. split; [cbn; by right|done].
  - left. done.
  - destruct (IH (v :: vs) k Hk) as [H|(Hf & w & Hw & H)]; [by left|right]. split; [done|]. by exists w.
Qed.

(** The interrupts that fit are all placed. *)
Lemma fill_placed vs lrs v : v ∈ take (num_free lrs) vs ->
  exists k lr, lrs !! k = Some lr /\ lr_free lr = true /\ fill vs lrs !! k = Some v.
Proof.
  induction lrs as [|l lrs IH] in vs |- *; intros Hv; [by cbn in Hv; apply not_elem_of_nil in Hv|].
  destruct vs as [|w vs]; [rewrite take_nil in Hv; by apply not_elem_of_nil in Hv|].
  unfold num_free in *. cbn [List.filter fill] in *. destruct (lr_free l) eqn:E.
  - cbn in Hv. apply elem_of_cons in Hv as [-> |Hv]; [by exists 0%nat, l|].
    destruct (IH vs Hv) as (k & lr & ? & ? & ?). by exists (S k), lr.
  - destruct (IH (w :: vs) Hv) as (k & lr & ? & ? & ?). by exists (S k), lr.
Qed.

(** What does not fit leaves no register free. *)
Lemma fill_overflow vs lrs : Forall (fun v => lr_free v = false) vs -> drop (num_free lrs) vs <> [] ->
  num_free (fill vs lrs) = 0%nat.
Proof.
  intros Hvs. remember (num_free lrs) as f eqn:Ef. induction vs as [|v vs IH] in lrs, f, Ef, Hvs |- *; intros Hd.
  - by rewrite drop_nil in Hd.
  - apply list.Forall_cons in Hvs as [Hv Hvs]. destruct f as [|f].
    + by rewrite fill_full by done.
    + rewrite fill_cons by done. apply (IH (fill [v] lrs) Hvs f); [by rewrite num_free_fill, <- Ef|done].
Qed.

(** Each value goes to one register. *)
Lemma fill_once vs lrs v k1 k2 l1 l2 : NoDup vs -> lr_free v = false -> lrs !! k1 = Some l1 -> lrs !! k2 = Some l2 ->
  lr_free l1 = true -> lr_free l2 = true -> fill vs lrs !! k1 = Some v -> fill vs lrs !! k2 = Some v -> k1 = k2.
Proof.
  intros Hnd Hv. revert vs k1 k2 Hnd. induction lrs as [|l lrs IH]; intros vs k1 k2 Hnd H1 H2 F1 F2 E1 E2; [done|].
  destruct vs as [|w vs]; [rewrite fill_nil in E1; rewrite E1 in H1; congruence|].
  assert (Hrest : forall k lr us, lrs !! k = Some lr -> fill us lrs !! k = Some v -> lr_free lr = true -> v ∈ us).
  { intros k lr us Hk Hf Hl. destruct (fill_origin us lrs k lr Hk) as [H|(_ & u & Hu & H)]; [congruence|].
    replace v with u by congruence. rewrite <- (take_drop (num_free lrs) us). apply elem_of_app. by left. }
  cbn [fill] in E1, E2. destruct (lr_free l) eqn:El.
  - apply NoDup_cons in Hnd as [Hw Hnd]. destruct k1 as [|k1], k2 as [|k2]; cbn in *; [done| | |f_equal; by eapply (IH vs)].
    + exfalso. apply Hw. replace w with v by congruence. by eapply Hrest.
    + exfalso. apply Hw. replace w with v by congruence. by eapply Hrest.
  - destruct k1 as [|k1], k2 as [|k2]; cbn in *; [done|congruence|congruence|f_equal; by eapply (IH (w :: vs))].
Qed.

Lemma elem_bits_of q i n b : b ∈ bits_of q i n <->
  Z.testbit q b = true /\ Z.of_nat i <= b < Z.of_nat (i + n).
Proof.
  unfold bits_of. rewrite list_elem_of_In, filter_In, in_map_iff. split.
  - intros [(k & <- & Hk) Hb]. apply in_seq in Hk. split; [done|lia].
  - intros [Hb Hr]. split; [|done]. exists (Z.to_nat b). split; [lia|]. apply in_seq. lia.
Qed.

(** ** What draining a queue guarantees *)

(** [q], [lrs] before, [q'], [lrs'] after; bit [b] of the queue is INTID
    [b + base]. *)
Record drained (base : Z) (n : nat) (env : nat -> Z) (q : Z) (lrs : list Z) (q' : Z) (lrs' : list Z) : Prop := {
  (** the registers get the interrupts in ascending order, free registers first *)
  dr_fill : lrs' = fill (map (lr_of base) (bits_of q 0 n)) lrs;
  dr_busy : forall k lr, lrs !! k = Some lr -> lr_free lr = false -> lrs' !! k = Some lr;
  (** an interrupt is pending in a register or still queued, the latter only
      when no register is free *)
  dr_kept : forall b, 0 <= b -> Z.testbit q b = true ->
    (Z.testbit q' b = true /\ num_free lrs' = 0%nat) \/
    exists k v, lrs' !! k = Some v /\ get_lr_state v = LR_STATE_PENDING /\ get_lr_intid v = b + base;
  (** what other cores queue meanwhile stays queued, and nothing is invented *)
  dr_env : forall i b, q <> 0 -> (i < n)%nat -> 0 <= b -> Z.testbit (env i) b = true -> Z.testbit q' b = true;
  dr_sound : forall b, 0 <= b -> Z.testbit q' b = true ->
    Z.testbit q b = true \/ exists i, (i < n)%nat /\ Z.testbit (env i) b = true;
  dr_origin : forall k lr v, lrs !! k = Some lr -> lrs' !! k = Some v -> v = lr \/
    (lr_free lr = true /\ exists b, 0 <= b /\ Z.testbit q b = true /\ v = lr_of base b);
  (** none is duplicated: what the drain leaves in the queue is exactly what did not
      fit, with what came meanwhile; and an interrupt gets one register *)
  dr_queue : forall b, 0 <= b -> (Z.testbit q' b = true <->
    b ∈ drop (num_free lrs) (bits_of q 0 n) \/ q <> 0 /\ exists i, (i < n)%nat /\ Z.testbit (env i) b = true);
  dr_once : forall b k1 k2 l1 l2, 0 <= b -> Z.testbit q b = true ->
    lrs !! k1 = Some l1 -> lrs !! k2 = Some l2 -> lr_free l1 = true -> lr_free l2 = true ->
    lrs' !! k1 = Some (lr_of base b) -> lrs' !! k2 = Some (lr_of base b) -> k1 = k2
}.

Lemma lr_of_fields base b : fits 32 (b + base) ->
  get_lr_state (lr_of base b) = LR_STATE_PENDING /\ get_lr_intid (lr_of base b) = b + base.
Proof.
  intros Hb. destruct (build_lr_fields (b + base) IRQ_DEFAULT_PRIORITY) as (H1 & H2 & _); try done.
Qed.

Lemma bits_of_0 i n : bits_of 0 i n = [].
Proof.
  destruct (bits_of 0 i n) as [|b l] eqn:E; [done|]. exfalso.
  assert (b ∈ bits_of 0 i n) as Hb by (rewrite E; left).
  apply elem_bits_of in Hb as [Hb _]. by rewrite Z.bits_0 in Hb.
Qed.

(** The bits of a queue of [n] interrupts, as [INTID]s. *)
Section Queue.
Context (base q : Z) (n : nat) (Hbase : 0 <= base) (Hlim : Z.of_nat n + base < 2 ^ 32) (Hq : fits (Z.of_nat n) q).
#[local] Abbreviation bits := (bits_of q 0 n).

Lemma bits_complete b : 0 <= b -> Z.testbit q b = true -> b ∈ bits.
Proof using Hq.
  intros Hb Ht. apply elem_bits_of. split; [done|]. destruct (Z.ltb_spec b (Z.of_nat n)); [lia|].
  rewrite (testbit_fits (Z.of_nat n)) in Ht by (done || lia). done.
Qed.

Lemma bits_sound b : b ∈ bits -> Z.testbit q b = true /\ 0 <= b /\ fits 32 (b + base).
Proof using Hbase Hlim. intros Hb. apply elem_bits_of in Hb as [? ?]. unfold fits. split_and!; [done|lia..]. Qed.

Lemma bits_busy : Forall (fun v => lr_free v = false) (map (lr_of base) bits).
Proof using Hbase Hlim.
  apply list.Forall_forall. intros v Hv. apply list_elem_of_In, in_map_iff in Hv as (b & <- & Hb).
  apply lr_free_build, bits_sound. by apply list_elem_of_In.
Qed.

Lemma bits_nodup : NoDup (map (lr_of base) bits).
Proof using Hbase Hlim.
  change (map (lr_of base) bits) with (lr_of base <$> bits). apply NoDup_fmap_2_strong.
  - intros x y Hx Hy E.
    apply bits_sound in Hx as (_ & _ & Hx), Hy as (_ & _ & Hy). apply lr_of_fields in Hx as [_ Hx], Hy as [_ Hy].
    rewrite E in Hx. lia.
  - apply NoDup_ListNoDup, List.NoDup_filter, NoDup_ListNoDup. change (NoDup (Z.of_nat <$> seq 0 n)).
    apply (NoDup_fmap_2 Z.of_nat), NoDup_seq.
Qed.

Lemma bits_split f b : b ∈ bits -> b ∈ take f bits \/ b ∈ drop f bits.
Proof using. intros Hb. rewrite <- (take_drop f bits) in Hb. by apply elem_of_app in Hb. Qed.

Lemma elem_take f b : b ∈ take f bits -> b ∈ bits.
Proof using. intros Hb. rewrite <- (take_drop f bits). apply elem_of_app. by left. Qed.
Lemma elem_drop f b : b ∈ drop f bits -> b ∈ bits.
Proof using. intros Hb. rewrite <- (take_drop f bits). apply elem_of_app. by right. Qed.

Lemma drain_kept lrs b : 0 <= b -> Z.testbit q b = true ->
  (b ∈ drop (num_free lrs) bits /\ num_free (fill (map (lr_of base) bits) lrs) = 0%nat) \/
  exists k v, fill (map (lr_of base) bits) lrs !! k = Some v /\
    get_lr_state v = LR_STATE_PENDING /\ get_lr_intid v = b + base.
Proof using Hbase Hlim Hq.
  intros Hb Ht. pose proof (bits_complete b Hb Ht) as Hin.
  destruct (bits_split (num_free lrs) b Hin) as [Hb'|Hb'].
  - right. destruct (fill_placed (map (lr_of base) bits) lrs (lr_of base b)) as (k & lr & _ & _ & Hk).
    { rewrite firstn_map. apply list_elem_of_In, in_map, list_elem_of_In, Hb'. }
    exists k, (lr_of base b). split; [done|]. by apply lr_of_fields, bits_sound.
  - left. split; [done|]. apply fill_overflow; [apply bits_busy|]. rewrite skipn_map.
    intros E. apply map_eq_nil in E. rewrite E in Hb'. by apply not_elem_of_nil in Hb'.
Qed.

Lemma drain_drained env lrs : let r := drain place_lr env base n q lrs in drained base n env q lrs r.1 r.2.
Proof using Hbase Hlim Hq.
  unfold drain. destruct (Z.eqb_spec q 0) as [Hz|Hne].
  - rewrite Hz. constructor; cbn [fst snd]; rewrite ?bits_of_0; cbn [map]; rewrite ?fill_nil; try done;
      try (intros b _ Hb; by rewrite Z.bits_0 in Hb).
    + intros k lr v H1 H2. left. congruence.
    + intros b _. rewrite drop_nil, Z.bits_0. split; [done|]. intros [H|[H _]]; [by apply not_elem_of_nil in H|done].
    + intros b k1 k2 l1 l2 _ Hb. by rewrite Z.bits_0 in Hb.
  - destruct (drain_loop_fill env base q n Hbase 0 0 lrs ltac:(lia)) as (q' & -> & Hq'). cbn [fst snd].
    assert (Hdrop : forall b, 0 <= b -> b ∈ drop (num_free lrs) bits -> Z.testbit q' b = true).
    { intros b Hb Hin. rewrite Hq' by done. apply orb_true_iff. right. apply existsb_exists. exists b.
      split; [by apply list_elem_of_In|apply Z.eqb_refl]. }
    constructor; [done|intros; by apply fill_busy|..].
    + intros b Hb Ht. destruct (drain_kept lrs b Hb Ht) as [[]|]; [left|right]; auto.
    + intros i b _ Hi Hb Ht. rewrite Hq' by done. apply orb_true_iff. left. apply orb_true_iff. right.
      apply existsb_exists. exists i. split; [apply in_seq; lia|done].
    + intros b Hb Ht. rewrite Hq', Z.bits_0 in Ht by done. apply orb_true_iff in Ht as [Ht|Ht].
      * right. apply existsb_exists in Ht as (i & Hi & Ht). apply in_seq in Hi. exists i. split; [lia|done].
      * left. apply existsb_exists in Ht as (b' & Hb' & Ht). apply Z.eqb_eq in Ht as <-.
        by eapply bits_sound, elem_drop, list_elem_of_In.
    + intros k lr v H1 H2. destruct (fill_origin (map (lr_of base) bits) lrs k lr H1) as [H|(Hf & w & Hw & H)];
        [left; congruence|right]. split; [done|].
      rewrite firstn_map in Hw. apply list_elem_of_In, in_map_iff in Hw as (b & <- & Hb).
      exists b. destruct (bits_sound b) as (? & ? & _); [by eapply elem_take, list_elem_of_In|].
      split_and!; [done..|congruence].
    + intros b Hb. rewrite Hq', Z.bits_0 by done. unfold env_sets. cbn [orb]. rewrite orb_true_iff, !existsb_exists. split.
      * intros [(i & Hi & Ht)|(b' & Hb' & Ht)]; [right; apply in_seq in Hi; split; [done|exists i; split; [lia|done]]|left].
        apply Z.eqb_eq in Ht as <-. by apply list_elem_of_In.
      * intros [H|(_ & i & Hi & Ht)]; [right; exists b; split; [by apply list_elem_of_In|apply Z.eqb_refl]|left].
        exists i. split; [apply in_seq; lia|done].
    + intros b k1 k2 l1 l2 Hb Ht H1 H2 F1 F2 E1 E2. 
      apply (fill_once (map (lr_of base) bits) lrs (lr_of base b) k1 k2 l1 l2); [apply bits_nodup| |assumption..].
      apply lr_free_build, bits_sound. by apply bits_complete.
Qed.
End Queue.

(** ** Injection into the hardware registers *)

(** The registers the interface reports, among the four the code names. *)
Definition live (h : ich_regs) : nat := Z.to_nat (num_list_registers h).
Definition ich_ok (h : ich_regs) : Prop := length (ich_lr h) = NUM_LRS /\ 1 <= num_list_registers h <= 4.

Lemma inject_loop_place h v : ich_ok h ->
  inject_loop h v (lr_indices h) =
    let (l, b) := place_lr v (take (live h) (ich_lr h)) in
    (set_lrs h (l ++ drop (live h) (ich_lr h)), if b then Ok tt else Err NO_FREE_LR).
Proof.
  intros [Hl Hn]. unfold lr_indices, live. set (n := num_list_registers h) in *. clearbody n.
  destruct h as [lrs vtr hcr vmcr]. unfold NUM_LRS in Hl. cbn [ich_lr] in *.
  destruct lrs as [|a [|b [|c [|d [|]]]]]; try discriminate Hl.
  assert (Z.to_nat n = 1 \/ Z.to_nat n = 2 \/ Z.to_nat n = 3 \/ Z.to_nat n = 4)%nat as Hc by lia.
  destruct Hc as [-> |[-> |[-> | ->]]];
    lazymatch goal with |- context [map Z.of_nat (seq 0 ?k)] =>
      let l := eval compute in (map Z.of_nat (seq 0 k)) in change (map Z.of_nat (seq 0 k)) with l end;
    repeat (cbn [inject_loop place_lr read_lr write_lr ich_lr nth set_lrs firstn skipn app
                 ich_vtr ich_hcr ich_vmcr insert list_insert];
      try match goal with |- context [Z.land (Z.shiftr ?x _) _ =? 0] =>
        destruct (Z.land (Z.shiftr x _) _ =? 0) end); reflexivity.
Qed.

Lemma place_hw_place h v : ich_ok h ->
  place_hw v h = let (l, b) := place_lr v (take (live h) (ich_lr h)) in
    (set_lrs h (l ++ drop (live h) (ich_lr h)), b).
Proof.
  intros Hok. unfold place_hw. rewrite inject_loop_place by done. by destruct (place_lr _ _) as [l []].
Qed.

Lemma drain_hw_loop env base all n : forall i queue h, ich_ok h ->
  drain_loop place_hw env base all i n queue h =
    let (q, l) := drain_loop place_lr env base all i n queue (take (live h) (ich_lr h)) in
    (q, set_lrs h (l ++ drop (live h) (ich_lr h))).
Proof.
  induction n as [|n IH]; intros i queue h Hok; cbn [drain_loop].
  - rewrite take_drop. by destruct h.
  - destruct (_ =? 0); [by apply IH|]. rewrite place_hw_place, place_lr_fill by done. cbv zeta beta iota.
    set (l := fill _ _). assert (length l = live h) as Hlen.
    { unfold l. rewrite fill_length, length_take. destruct Hok. unfold live, NUM_LRS in *. lia. }
    assert (ich_ok (set_lrs h (l ++ drop (live h) (ich_lr h)))) as Hok'.
    { destruct Hok as [H1 H2]. split; [|done]. cbn [ich_lr set_lrs]. rewrite length_app, length_drop, Hlen.
      unfold live, NUM_LRS in *. lia. }
    rewrite IH by done. change (live (set_lrs h ?x)) with (live h). cbn [ich_lr set_lrs].
    rewrite (take_app_length' l), (drop_app_length' l) by done. by destruct (drain_loop _ _ _ _ _ _ _ _).
Qed.

Lemma flush_drain env q h : ich_ok h ->
  flush_pending_spis env q h =
    let (q', l) := inject_pending_spis env q (take (live h) (ich_lr h)) in
    (q', set_lrs h (l ++ drop (live h) (ich_lr h))).
Proof.
  intros Hok. unfold flush_pending_spis, inject_pending_spis, drain. destruct (q =? 0).
  - rewrite take_drop. by destruct h.
  - by apply drain_hw_loop.
Qed.


Definition ex_ich : ich_regs := mkIch [build_lr 27 0xA0; 0; build_lr 48 0xA0; 0] 3 0x2001 0xFF000002.

(** When the interface reports more than the four list registers the code
    names and those four are in use, [inject_interrupt] answers [Ok] and
    injects nothing: the fifth register reads as free and the write to it is
    ignored. *)
Theorem fifth_lr_swallows_interrupt h intid priority :
  length (ich_lr h) = NUM_LRS -> num_free (ich_lr h) = 0%nat -> 4 < num_list_registers h ->
  inject_interrupt h intid priority = (h, Ok tt).
Proof.
  intros Hl Hf Hn. unfold inject_interrupt, lr_indices.
  replace (Z.to_nat (num_list_registers h)) with (5 + Z.to_nat (num_list_registers h - 5))%nat by lia.
  rewrite seq_app, map_app. change (map Z.of_nat (seq 0 5)) with [0; 1; 2; 3; 4].
  destruct h as [lrs vtr hcr vmcr]. unfold NUM_LRS in Hl. cbn [ich_lr] in *. clear Hn.
  destruct lrs as [|a [|b [|c [|d [|]]]]]; try discriminate Hl.
  unfold num_free in Hf. cbn [List.filter] in Hf.
  destruct (lr_free a) eqn:Ea, (lr_free b) eqn:Eb, (lr_free c) eqn:Ec, (lr_free d) eqn:Ed; try discriminate Hf.
  unfold lr_free, get_lr_state, LR_STATE_INVALID in *. cbn [app inject_loop read_lr ich_lr nth].
  by rewrite Ea, Eb, Ec, Ed.
Qed.

Lemma fifth_lr_swallows_interrupt_witness :
  inject_interrupt (mkIch (replicate 4 (build_lr 33 0xA0)) 15 0x2001 0xFF000002) 27 0xA0 =
  (mkIch (replicate 4 (build_lr 33 0xA0)) 15 0x2001 0xFF000002, Ok tt).
Proof. apply fifth_lr_swallows_interrupt; vm_compute; reflexivity. Defined.
