(* ===== verification/CoreInit.v ===== *)
(** * CoreInit: the EL2 registers of a core and their initialisation

    The accessors of [GicV3SystemRegs] and [GicV3VirtualInterface] and
    [gicv3::init] ([peripherals/gicv3.rs]), [exception::init], the timer
    ([peripherals/timer.rs]), [Stage2Config::install] and
    [init_stage2_from_config] ([mm/mmu.rs]), and what [rust_main] with
    [run_guest] makes of the registers of the first core and
    [rust_main_secondary] of those of the others.

    A core is its EL2 and physical-interface registers, the virtual interface
    of VGic, and the log of its register accesses in program order.  A write
    replaces the register (the hardware's read-only and reserved fields are
    not modelled); console messages are left out. *)

From Stdlib Require Import ZArith Lia Bool Btauto.
From stdpp Require Import base decidable option list strings.
From S2P Require Import Prelude Stage2 VGic.

(** ** Register fields ([defs.rs]) *)
Definition HCR_VM : Z := Z.shiftl 1 0.
Definition HCR_SWIO : Z := Z.shiftl 1 1.
Definition HCR_FMO : Z := Z.shiftl 1 3.
Definition HCR_IMO : Z := Z.shiftl 1 4.
Definition HCR_AMO : Z := Z.shiftl 1 5.
Definition HCR_FB : Z := Z.shiftl 1 9.
Definition HCR_BSU_INNER : Z := Z.shiftl 1 10.
Definition HCR_TWI : Z := Z.shiftl 1 13.
Definition HCR_TWE : Z := Z.shiftl 1 14.
Definition HCR_TSC : Z := Z.shiftl 1 19.
Definition HCR_RW : Z := Z.shiftl 1 31.
Definition HCR_TEA : Z := Z.shiftl 1 37.
Definition HCR_APK : Z := Z.shiftl 1 40.
Definition HCR_API : Z := Z.shiftl 1 41.
Definition CPTR_TZ : Z := Z.shiftl 1 8.
Definition CPTR_TFP : Z := Z.shiftl 1 10.
Definition CPTR_TSM : Z := Z.shiftl 1 12.
Definition CPTR_TCPAC : Z := Z.shiftl 1 20.
Definition ICC_SRE_SRE : Z := Z.shiftl 1 0.
Definition ICC_SRE_ENABLE : Z := Z.shiftl 1 3.
Definition ICC_CTLR_EOIMODE : Z := Z.shiftl 1 1.
Definition CNTHCTL_EL1PCTEN : Z := Z.shiftl 1 0.
Definition CNTHCTL_EL1PCEN : Z := Z.shiftl 1 1.

(** ** The core *)
Inductive creg :=
| R_VBAR_EL2 | R_HCR_EL2 | R_VTCR_EL2 | R_VTTBR_EL2 | R_VSTCR_EL2 | R_VSTTBR_EL2
| R_CPTR_EL2 | R_MDCR_EL2 | R_VPIDR_EL2 | R_MIDR_EL1
| R_SCTLR_EL1 | R_TCR_EL1 | R_TTBR0_EL1 | R_VBAR_EL1
| R_CNTHCTL_EL2 | R_CNTVOFF_EL2 | R_CNTV_CTL_EL0 | R_CNTV_CVAL_EL0 | R_CNTV_TVAL_EL0 | R_CNTVCT_EL0 | R_CNTFRQ_EL0
| R_ICC_SRE_EL2 | R_ICC_SRE_EL1 | R_ICC_IAR1_EL1 | R_ICC_EOIR1_EL1 | R_ICC_DIR_EL1 | R_ICC_CTLR_EL1 | R_ICC_PMR_EL1
| R_ICC_BPR1_EL1 | R_ICC_IGRPEN1_EL1
| R_ICH_HCR_EL2 | R_ICH_VMCR_EL2 | R_ICH_VTR_EL2 | R_ICH_LR_EL2
| R_ID_AA64PFR0_EL1 | R_ID_AA64MMFR2_EL1.
#[export] Instance creg_eq_dec : EqDecision creg.
Proof. solve_decision. Defined.

Inductive access := Mrs (r : creg) | Msr (r : creg) (v : Z) | Tlbi.

Record core := mkCore { cr_reg : creg -> Z; cr_ich : ich_regs; cr_log : list access }.
Definition corem := SM core string.

Definition upd_reg (f : creg -> Z) (r : creg) (v : Z) : creg -> Z := fun r' => if decide (r' = r) then v else f r'.
(** The virtual interface is kept as [ich_regs]. *)
Definition reg_value (c : core) (r : creg) : Z :=
  match r with
  | R_ICH_HCR_EL2 => ich_hcr (cr_ich c)
  | R_ICH_VMCR_EL2 => ich_vmcr (cr_ich c)
  | R_ICH_VTR_EL2 => ich_vtr (cr_ich c)
  | _ => cr_reg c r
  end.
Definition mrs (r : creg) : corem Z := fun c => (mkCore (cr_reg c) (cr_ich c) (cr_log c ++ [Mrs r]), Ok (reg_value c r)).
Definition msr (r : creg) (v : Z) : corem unit := fun c =>
  let log := cr_log c ++ [Msr r v] in
  match r with
  | R_ICH_HCR_EL2 => (mkCore (cr_reg c) (mkIch (ich_lr (cr_ich c)) (ich_vtr (cr_ich c)) v (ich_vmcr (cr_ich c))) log, Ok tt)
  | R_ICH_VMCR_EL2 => (mkCore (cr_reg c) (mkIch (ich_lr (cr_ich c)) (ich_vtr (cr_ich c)) (ich_hcr (cr_ich c)) v) log, Ok tt)
  | _ => (mkCore (upd_reg (cr_reg c) r v) (cr_ich c) log, Ok tt)
  end.
Definition tlbi : corem unit := sm_upd (fun c => mkCore (cr_reg c) (cr_ich c) (cr_log c ++ [Tlbi])).
(** [mrs x0, r; bic x0, x0, mask..; msr r, x0] *)
Definition bic_reg (r : creg) (mask : Z) : corem unit := let* v := mrs r in msr r (Z.land v (not64 mask)).
Definition orr_reg (r : creg) (mask : Z) : corem unit := let* v := mrs r in msr r (Z.lor v mask).

(** ** [GicV3SystemRegs] *)
Definition mrs32 (r : creg) : corem Z := let* v := mrs r in sm_ret (u32 v).
Definition read_sre_el2 : corem Z := mrs32 R_ICC_SRE_EL2.
Definition write_sre_el2 (value : Z) : corem unit := msr R_ICC_SRE_EL2 value.
Definition read_sre_el1 : corem Z := mrs32 R_ICC_SRE_EL1.
Definition write_sre_el1 (value : Z) : corem unit := msr R_ICC_SRE_EL1 value.
Definition read_iar1 : corem Z := mrs32 R_ICC_IAR1_EL1.
Definition write_eoir1 (intid : Z) : corem unit := msr R_ICC_EOIR1_EL1 intid.
Definition write_dir (intid : Z) : corem unit := msr R_ICC_DIR_EL1 intid.
Definition read_ctlr : corem Z := mrs32 R_ICC_CTLR_EL1.
Definition write_ctlr (value : Z) : corem unit := msr R_ICC_CTLR_EL1 value.
Definition read_pmr : corem Z := mrs32 R_ICC_PMR_EL1.
Definition write_pmr (priority : Z) : corem unit := msr R_ICC_PMR_EL1 priority.
Definition read_bpr1 : corem Z := mrs32 R_ICC_BPR1_EL1.
Definition write_bpr1 (value : Z) : corem unit := msr R_ICC_BPR1_EL1 value.
Definition read_igrpen1 : corem Z := mrs32 R_ICC_IGRPEN1_EL1.
Definition write_igrpen1 (enable : bool) : corem unit := msr R_ICC_IGRPEN1_EL1 (if enable then 1 else 0).
Definition gic_enable : corem unit := write_pmr ICC_PMR_ALLOW_ALL ;;; write_igrpen1 true.
Definition gic_disable : corem unit := write_igrpen1 false.

(** ** [GicV3VirtualInterface] *)
Definition read_hcr : corem Z := mrs32 R_ICH_HCR_EL2.
Definition write_hcr (value : Z) : corem unit := msr R_ICH_HCR_EL2 value.
Definition read_vmcr : corem Z := mrs32 R_ICH_VMCR_EL2.
Definition write_vmcr (value : Z) : corem unit := msr R_ICH_VMCR_EL2 value.
Definition read_vtr : corem Z := mrs32 R_ICH_VTR_EL2.
(** [write_lr(n, 0)], in the init loop *)
Definition clear_lr (n : Z) : corem unit := fun c =>
  (mkCore (cr_reg c) (write_lr (cr_ich c) n 0) (cr_log c ++ (if n <? 4 then [Msr R_ICH_LR_EL2 0] else [])), Ok tt).
Fixpoint clear_lrs (l : list Z) : corem unit :=
  match l with [] => sm_ret tt | n :: l => clear_lr n ;;; clear_lrs l end.
Definition virtual_interface_init : corem unit :=
  write_hcr (u32 (Z.lor ICH_HCR_TALL1 ICH_HCR_EN)) ;;;
  write_vmcr (Z.lor (Z.shiftl ICC_PMR_ALLOW_ALL 24) (Z.shiftl 1 1)) ;;;
  let* vtr := read_vtr in
  clear_lrs (map Z.of_nat (seq 0 (Z.to_nat (u32 (Z.land vtr VTR_LISTREGS_MASK + 1))))).

Definition is_gicv3_available : corem bool :=
  let* pfr0 := mrs R_ID_AA64PFR0_EL1 in
  sm_ret (1 <=? Z.land (Z.shiftr pfr0 24) 0xF).
Definition has_armv8_4_features : corem bool :=
  let* mmfr2 := mrs R_ID_AA64MMFR2_EL1 in
  sm_ret (1 <=? Z.land (Z.shiftr mmfr2 24) 0xF).

(** [gicv3::init]; the fallback [gic::init] only prints. *)
Definition gicv3_init : corem unit :=
  let* available := is_gicv3_available in
  if negb available then sm_ret tt else
  write_sre_el2 (Z.lor ICC_SRE_SRE ICC_SRE_ENABLE) ;;;
  write_sre_el1 ICC_SRE_SRE ;;;
  let* _ := read_vtr in
  virtual_interface_init ;;;
  let* ctlr := read_ctlr in
  write_ctlr (Z.lor ctlr ICC_CTLR_EOIMODE) ;;;
  gic_enable.

(** ** Timer *)
Definition get_frequency : corem Z := mrs R_CNTFRQ_EL0.
Definition get_counter : corem Z := mrs R_CNTVCT_EL0.
Definition get_ctl : corem Z := mrs R_CNTV_CTL_EL0.
Definition set_ctl (ctl : Z) : corem unit := msr R_CNTV_CTL_EL0 ctl.
Definition get_cval : corem Z := mrs R_CNTV_CVAL_EL0.
Definition set_cval (cval : Z) : corem unit := msr R_CNTV_CVAL_EL0 cval.
Definition get_tval : corem Z := mrs32 R_CNTV_TVAL_EL0.
Definition set_tval (tval : Z) : corem unit := msr R_CNTV_TVAL_EL0 tval.
Definition timer_is_pending : corem bool := let* ctl := get_ctl in sm_ret (negb (Z.land ctl (Z.shiftl 1 2) =? 0)).
Definition enable_timer (ticks : Z) : corem unit := set_ctl 0 ;;; set_tval ticks ;;; set_ctl (Z.shiftl 1 0).
Definition disable_timer : corem unit := set_ctl 0.
Definition init_hypervisor_timer : corem unit := orr_reg R_CNTHCTL_EL2 (Z.lor CNTHCTL_EL1PCTEN CNTHCTL_EL1PCEN).
Definition init_guest_timer : corem unit := orr_reg R_CNTHCTL_EL2 CNTHCTL_EL1PCTEN ;;; msr R_CNTVOFF_EL2 0.

(** ** Vectors, traps and Stage-2 *)
Definition HCR_INIT : Z :=
  fold_left Z.lor [HCR_SWIO; HCR_FMO; HCR_IMO; HCR_AMO; HCR_FB; HCR_BSU_INNER; HCR_TWI; HCR_TSC; HCR_TEA; HCR_APK; HCR_API] HCR_RW.
Definition exception_init (vbar : Z) : corem unit := msr R_VBAR_EL2 vbar ;;; msr R_HCR_EL2 HCR_INIT.

(** [Stage2Config] as (VTTBR_EL2, VTCR_EL2) *)
Definition stage2_install (config : Z * Z) : corem unit := msr R_VTCR_EL2 config.2 ;;; msr R_VTTBR_EL2 config.1.
Definition init_stage2_from_config (config : Z * Z) : corem unit :=
  orr_reg R_HCR_EL2 HCR_VM ;;; stage2_install config ;;; tlbi.

(** ** The first core

    The register accesses of [rust_main] up to the heap, and of [run_guest]
    for a Linux guest in the build with several cores, with [config] the
    Stage-2 configuration [init_memory] installs. *)
Definition print_timer_info : corem unit :=
  let* _ := get_frequency in let* _ := get_counter in let* _ := get_ctl in sm_ret tt.
Definition CPTR_MASK : Z := Z.lor (Z.lor CPTR_TZ CPTR_TFP) (Z.lor CPTR_TSM CPTR_TCPAC).
Definition linux_el2_registers : corem unit :=
  bic_reg R_CPTR_EL2 CPTR_MASK ;;;
  msr R_MDCR_EL2 0 ;;;
  let* midr := mrs R_MIDR_EL1 in
  msr R_VPIDR_EL2 midr.
Definition clear_wfx_traps : corem unit := bic_reg R_HCR_EL2 (Z.lor HCR_TWE HCR_TWI).
Definition primary_core (vbar : Z) (config : Z * Z) : corem unit :=
  exception_init vbar ;;;
  gicv3_init ;;;
  init_hypervisor_timer ;;;
  print_timer_info ;;;
  init_stage2_from_config config ;;;
  init_guest_timer ;;;
  linux_el2_registers ;;;
  clear_wfx_traps.

(** ** The other cores: [rust_main_secondary] before its idle loop, with the
    Stage-2 configuration in SHARED_VTTBR and SHARED_VTCR. *)
Definition secondary_core (vbar : Z) (shared : Z * Z) : corem unit :=
  exception_init vbar ;;;
  msr R_VTCR_EL2 shared.2 ;;;
  msr R_VTTBR_EL2 shared.1 ;;;
  (let* hcr := mrs R_HCR_EL2 in msr R_HCR_EL2 (Z.land (Z.lor hcr HCR_VM) (not64 HCR_TWI))) ;;;
  bic_reg R_CPTR_EL2 CPTR_MASK ;;;
  msr R_MDCR_EL2 0 ;;;
  gicv3_init.

(** ** What initialisation leaves *)

(** Evaluation of the register monad. *)
Ltac core_eval := cbv beta iota zeta delta [sm_bind sm_ret sm_upd mrs msr mrs32 tlbi reg_value upd_reg bic_reg orr_reg
  cr_reg cr_ich cr_log ich_hcr ich_vmcr ich_vtr ich_lr fst snd].

Lemma clear_lrs_run l : forall c, exists log,
  clear_lrs l c = (mkCore (cr_reg c) (fold_left (fun h i => write_lr h i 0) l (cr_ich c)) (cr_log c ++ log), Ok tt) /\
  Forall (eq (Msr R_ICH_LR_EL2 0)) log.
Proof.
  induction l as [|n l IH]; intros c.
  - exists []. rewrite app_nil_r. by destruct c.
  - destruct (IH (clear_lr n c).1) as (log & E & HF). cbn [clear_lrs fold_left]. unfold sm_bind.
    unfold clear_lr in *. cbn [fst] in E. rewrite E. cbn [cr_reg cr_ich cr_log]. rewrite <- app_assoc.
    eexists. split; [done|]. apply Forall_app. split; [|done]. destruct (n <? 4); by repeat constructor.
Qed.

Lemma vtr_lrs vtr : Z.land (u32 vtr) VTR_LISTREGS_MASK = Z.land vtr VTR_LISTREGS_MASK.
Proof.
  unfold u32, wrap, VTR_LISTREGS_MASK. change 0x1F with (2 ^ 5 - 1). rewrite !land_low by lia.
  apply (Z.mod_mod_divide vtr (2 ^ 32) (2 ^ 5)). exists (2 ^ 27). reflexivity.
Qed.

(** The register-level initialisation is [GicV3VirtualInterface::init] of VGic. *)
Lemma virtual_interface_init_run c : exists log,
  virtual_interface_init c = (mkCore (cr_reg c) (vgic_init (cr_ich c))
    (cr_log c ++ [Msr R_ICH_HCR_EL2 0x2001; Msr R_ICH_VMCR_EL2 0xFF000002; Mrs R_ICH_VTR_EL2] ++ log), Ok tt) /\
  Forall (eq (Msr R_ICH_LR_EL2 0)) log.
Proof.
  unfold virtual_interface_init, write_hcr, write_vmcr, read_vtr. core_eval. cbn [cr_ich ich_vtr].
  rewrite vtr_lrs. match goal with |- context [clear_lrs ?l ?c'] => destruct (clear_lrs_run l c') as (log & -> & HF) end.
  exists log. split; [|done]. cbn [cr_reg cr_ich cr_log]. rewrite <- !app_assoc. done.
Qed.

Definition gic_present (c : core) : Prop := 1 <= Z.land (Z.shiftr (cr_reg c R_ID_AA64PFR0_EL1) 24) 0xF.

(** The registers [gicv3_init] sets, for a core with GICv3. *)
Definition gic_regs (f : creg -> Z) (r : creg) : Z :=
  match r with
  | R_ICC_SRE_EL2 => 9
  | R_ICC_SRE_EL1 => 1
  | R_ICC_CTLR_EL1 => Z.lor (u32 (f R_ICC_CTLR_EL1)) ICC_CTLR_EOIMODE
  | R_ICC_PMR_EL1 => 0xFF
  | R_ICC_IGRPEN1_EL1 => 1
  | _ => f r
  end.
Lemma gicv3_init_run c : gic_present c -> exists f log,
  gicv3_init c = (mkCore f (vgic_init (cr_ich c))
    (cr_log c ++ [Mrs R_ID_AA64PFR0_EL1; Msr R_ICC_SRE_EL2 9; Msr R_ICC_SRE_EL1 1] ++ log), Ok tt) /\
  forall r, f r = gic_regs (cr_reg c) r.
Proof.
  intros H. unfold gic_present in H. unfold gicv3_init, is_gicv3_available, write_sre_el2, write_sre_el1, read_vtr. core_eval.
  rewrite (proj2 (Z.leb_le 1 _)) by exact H. cbn [negb].
  match goal with |- context [virtual_interface_init ?c'] => destruct (virtual_interface_init_run c') as (log & -> & HF) end.
  unfold read_ctlr, write_ctlr, gic_enable, write_pmr, write_igrpen1. core_eval. rewrite <- !app_assoc. cbn [app].
  do 2 eexists. split; [reflexivity|]. intros []; reflexivity.
Qed.

(** Without GICv3 no register is touched but the identification register. *)
Lemma gicv3_init_absent c : ~ gic_present c ->
  gicv3_init c = (mkCore (cr_reg c) (cr_ich c) (cr_log c ++ [Mrs R_ID_AA64PFR0_EL1]), Ok tt).
Proof.
  intros H. unfold gic_present in H. unfold gicv3_init, is_gicv3_available. core_eval.
  rewrite (proj2 (Z.leb_gt 1 _)) by (apply Z.nle_gt; exact H). by destruct c.
Qed.

(** HCR_EL2 of every core that runs guests: Stage-2 on, interrupts and SMC
    routed to EL2, WFI and WFE native. *)
Definition HCR_GUEST : Z := Z.land (Z.lor HCR_INIT HCR_VM) (not64 (Z.lor HCR_TWE HCR_TWI)).

(** The registers [rust_main] and [run_guest] set on the first core. *)
Definition primary_regs (vbar : Z) (config : Z * Z) (f : creg -> Z) (r : creg) : Z :=
  match r with
  | R_VBAR_EL2 => vbar
  | R_HCR_EL2 => HCR_GUEST
  | R_VTCR_EL2 => config.2
  | R_VTTBR_EL2 => config.1
  | R_CPTR_EL2 => Z.land (f R_CPTR_EL2) (not64 CPTR_MASK)
  | R_MDCR_EL2 => 0
  | R_VPIDR_EL2 => f R_MIDR_EL1
  | R_CNTHCTL_EL2 => Z.lor (f R_CNTHCTL_EL2) 3
  | R_CNTVOFF_EL2 => 0
  | _ => gic_regs f r
  end.
Lemma lor_idem_sub a b c : Z.land b c = c -> Z.lor (Z.lor a b) c = Z.lor a b.
Proof.
  intros H. bit_ext i Hi. apply (f_equal (fun z => Z.testbit z i)) in H. rewrite Z.land_spec in H.
  destruct (Z.testbit a i), (Z.testbit b i), (Z.testbit c i); done.
Qed.
Lemma primary_core_run vbar config c : gic_present c -> exists f log,
  primary_core vbar config c = (mkCore f (vgic_init (cr_ich c)) log, Ok tt) /\
  forall r, f r = primary_regs vbar config (cr_reg c) r.
Proof.
  intros Hg. unfold primary_core, exception_init. core_eval.
  match goal with |- context [gicv3_init ?c'] => destruct (gicv3_init_run c') as (f & log & -> & Hf); [exact Hg|] end.
  cbn [cr_reg] in Hf. unfold init_hypervisor_timer, print_timer_info, get_frequency, get_counter, get_ctl,
    init_stage2_from_config, stage2_install, init_guest_timer, linux_el2_registers, clear_wfx_traps. core_eval.
  do 2 eexists. split; [reflexivity|]. intros []; cbn; rewrite ?Hf; try reflexivity. apply lor_idem_sub. reflexivity.
Qed.
Definition secondary_regs (vbar : Z) (shared : Z * Z) (f : creg -> Z) (r : creg) : Z :=
  match r with
  | R_CNTHCTL_EL2 | R_CNTVOFF_EL2 | R_VPIDR_EL2 => f r
  | _ => primary_regs vbar shared f r
  end.
Lemma secondary_core_run vbar shared c : gic_present c -> exists f log,
  secondary_core vbar shared c = (mkCore f (vgic_init (cr_ich c)) log, Ok tt) /\
  forall r, f r = secondary_regs vbar shared (cr_reg c) r.
Proof.
  intros Hg. unfold secondary_core, exception_init. core_eval.
  match goal with |- context [gicv3_init ?c'] => destruct (gicv3_init_run c') as (f & log & -> & Hf); [exact Hg|] end.
  cbn [cr_reg] in Hf. do 2 eexists. split; [reflexivity|]. intros []; rewrite Hf; reflexivity.
Qed.

(** The virtual interface as [vgic_init] leaves it: nothing pending. *)
Lemma vgic_init_clean h : length (ich_lr h) = NUM_LRS -> 4 <= num_list_registers h ->
  ich_hcr (vgic_init h) = 0x2001 /\ ich_vmcr (vgic_init h) = 0xFF000002 /\ ich_lr (vgic_init h) = replicate NUM_LRS 0.
Proof.
  intros Hl Hn. unfold vgic_init. cbv zeta. set (h0 := mkIch (ich_lr (mkIch _ _ _ _)) _ _ _).
  assert (Hf : forall l h, ich_hcr (fold_left (fun h i => write_lr h i 0) l h) = ich_hcr h /\
    ich_vmcr (fold_left (fun h i => write_lr h i 0) l h) = ich_vmcr h).
  { induction l as [|i l IH]; intros h'; [done|]. cbn [fold_left]. destruct (IH (write_lr h' i 0)) as [-> ->].
    unfold write_lr, set_lrs. by destruct i as [|[[]|[]|]|]. }
  assert (Hz : forall l h, ich_lr h = replicate NUM_LRS 0 -> ich_lr (fold_left (fun h i => write_lr h i 0) l h) = replicate NUM_LRS 0).
  { induction l as [|i l IH]; intros h' H'; [done|]. cbn [fold_left]. apply IH. unfold write_lr, set_lrs.
    destruct i as [|[[]|[]|]|]; cbn; by rewrite ?H'. }
  destruct (Hf (lr_indices h0) h0) as [-> ->]. split_and!; [done..|].
  unfold lr_indices. change (num_list_registers h0) with (num_list_registers h).
  replace (Z.to_nat (num_list_registers h)) with (4 + (Z.to_nat (num_list_registers h) - 4))%nat by lia.
  rewrite seq_app, map_app, fold_left_app. apply Hz. unfold h0.
  destruct (ich_lr h) as [|a [|b [|d [|e [|]]]]]; done.
Qed.

(** What the two set-ups make of a register of the core: the same value,
    whatever the core held; the same value of the bits of a mask, the others
    as the core held them; a value on the first core only; nothing. *)
Inductive fate := Alike | Bits (mask v : Z) | FirstOnly | Kept.
Definition fate_of (r : creg) : fate :=
  match r with
  | R_VBAR_EL2 | R_HCR_EL2 | R_VTCR_EL2 | R_VTTBR_EL2 | R_MDCR_EL2
  | R_ICC_SRE_EL2 | R_ICC_SRE_EL1 | R_ICC_PMR_EL1 | R_ICC_IGRPEN1_EL1 | R_ICH_HCR_EL2 | R_ICH_VMCR_EL2 => Alike
  | R_CPTR_EL2 => Bits CPTR_MASK 0
  | R_ICC_CTLR_EL1 => Bits ICC_CTLR_EOIMODE ICC_CTLR_EOIMODE
  | R_CNTVOFF_EL2 | R_VPIDR_EL2 | R_CNTHCTL_EL2 => FirstOnly
  | _ => Kept
  end.
(** The bits of [mask] are [v] and the others of the low word as before. *)
Definition bits_set (mask v old new : Z) : Prop :=
  Z.land new mask = v /\ forall i, 0 <= i < 32 -> Z.testbit mask i = false -> Z.testbit new i = Z.testbit old i.

Lemma bits_cleared mask old : bits_set mask 0 old (Z.land old (not64 mask)).
Proof.
  unfold not64. split; [bit_ext i Hi; btauto|]. intros i Hi Hb. autorewrite with bits.
  rewrite Hb, (proj2 (Z.ltb_lt i 64)) by lia. apply andb_true_r.
Qed.
Lemma bits_ored mask old : bits_set mask mask old (Z.lor (u32 old) mask).
Proof.
  split; [bit_ext i Hi; btauto|]. intros i Hi Hb. rewrite Z.lor_spec, Hb, orb_false_r. unfold u32, wrap. apply Z.mod_pow2_bits_low; lia.
Qed.
Lemma vgic_init_vtr h : ich_vtr (vgic_init h) = ich_vtr h.
Proof.
  assert (Hf : forall l h, ich_vtr (fold_left (fun h i => write_lr h i 0) l h) = ich_vtr h).
  { induction l as [|i l IH]; intros h'; [done|]. cbn [fold_left]. rewrite IH. unfold write_lr, set_lrs. by destruct i as [|[[]|[]|]|]. }
  unfold vgic_init. cbv zeta. by rewrite Hf.
Qed.

Definition ex_core (cntvoff : Z) : core :=
  mkCore (fun r => match r with R_ID_AA64PFR0_EL1 => Z.shiftl 1 24 | R_MIDR_EL1 => 0x411FD070 | R_CNTVOFF_EL2 => cntvoff | _ => 0 end)
    (mkIch [1; 2; 3; 4] 3 0 0) [].

(** ** Order of the accesses

    The registers of the CPU interface exist for EL2 only once
    ICC_SRE_EL2.SRE is set. *)
Definition needs_sre (a : access) : bool :=
  match a with
  | Mrs r | Msr r _ =>
      match r with
      | R_ICC_SRE_EL1 | R_ICC_IAR1_EL1 | R_ICC_EOIR1_EL1 | R_ICC_DIR_EL1 | R_ICC_CTLR_EL1 | R_ICC_PMR_EL1
      | R_ICC_BPR1_EL1 | R_ICC_IGRPEN1_EL1 | R_ICH_HCR_EL2 | R_ICH_VMCR_EL2 | R_ICH_VTR_EL2 | R_ICH_LR_EL2 => true
      | _ => false
      end
  | Tlbi => false
  end.
(** [gicv3::init] touches no register of the CPU interface before it has set
    ICC_SRE_EL2.SRE, and none at all on a core without GICv3. *)
Theorem gic_access_order c : exists new,
  cr_log (gicv3_init c).1 = cr_log c ++ new /\
  (forall pre a post, new = pre ++ a :: post -> needs_sre a = true ->
     exists v, In (Msr R_ICC_SRE_EL2 v) pre /\ Z.land v ICC_SRE_SRE = ICC_SRE_SRE) /\
  (~ gic_present c -> new = [Mrs R_ID_AA64PFR0_EL1]).
Proof.
  destruct (decide (1 <= Z.land (Z.shiftr (cr_reg c R_ID_AA64PFR0_EL1) 24) 0xF)) as [Hg|Hg].
  - destruct (gicv3_init_run c Hg) as (f & log & -> & _). eexists. split; [reflexivity|]. split; [|done].
    intros [|a0 [|a1 pre]] a post E Ha; simplify_list_eq.
    exists 9. split; [right; by left|reflexivity].
  - rewrite (gicv3_init_absent c Hg). eexists. split; [reflexivity|]. split; [|done].
    intros [|a0 [|a1 pre]] a post E Ha; simplify_list_eq.
Qed.
