(* ===== verification/Traits.v ===== *)
(** * Traits: the portable interfaces of [arch/traits.rs]

    The traits the ARM64 code implements, as type classes: [VcpuContextOps] for
    [VcpuContext] and [ExceptionInfo] for [ExitReason] (regs.rs), and
    [Stage2Mapper] for [DynamicIdentityMapper] (mmu.rs).  What a client of
    [VcpuContextOps] may rely on is a class of laws, which the context of the
    ARM64 port satisfies.  The traits [InterruptController],
    [VirtualInterruptController] and [GuestTimer] have no implementation in the
    source: the GIC and timer code are free functions (CoreInit, VGic). *)

From Stdlib Require Import ZArith Lia Bool.
From stdpp Require Import base decidable option list numbers strings.
From S2P Require Import Prelude Memory Stage2 Stage2Thms Regs CoreInit.
Import Mapper.

(** ** [VcpuContextOps] *)
Class VcpuContextOps (C : Type) := {
  ops_new : Z -> Z -> C;
  ops_pc : C -> Z;
  ops_set_pc : Z -> C -> C;
  ops_sp : C -> Z;
  ops_set_sp : Z -> C -> C;
  ops_get_reg : C -> Z -> Z;
  ops_set_reg : Z -> Z -> C -> C;
  ops_advance_pc : C -> C
}.

#[export] Instance vcpu_context_ops : VcpuContextOps VcpuContext := {
  ops_new := vcpu_context_new;
  ops_pc := ctx_pc;
  ops_set_pc v c := mkCtx (gp_regs c) (sys_regs c) (ctx_sp c) v (spsr_el2 c);
  ops_sp := ctx_sp;
  ops_set_sp v c := mkCtx (gp_regs c) (sys_regs c) v (ctx_pc c) (spsr_el2 c);
  ops_get_reg c n := get_reg (gp_regs c) n;
  ops_set_reg n v c := mkCtx (set_reg (gp_regs c) n v) (sys_regs c) (ctx_sp c) (ctx_pc c) (spsr_el2 c);
  ops_advance_pc := advance_pc
}.

(** What a client relies on: the three groups do not interfere, registers 0
    to 30 hold what is stored, the zero register reads zero. *)
Class VcpuContextLaws (C : Type) `{VcpuContextOps C} := {
  ops_wf : C -> Prop;
  wf_new entry sp : ops_wf (ops_new entry sp);
  wf_pc v c : ops_wf c -> ops_wf (ops_set_pc v c);
  wf_sp v c : ops_wf c -> ops_wf (ops_set_sp v c);
  wf_reg n v c : ops_wf c -> ops_wf (ops_set_reg n v c);
  wf_advance c : ops_wf c -> ops_wf (ops_advance_pc c);
  new_pc entry sp : ops_pc (ops_new entry sp) = entry;
  new_sp entry sp : ops_sp (ops_new entry sp) = sp;
  new_reg entry sp n : ops_get_reg (ops_new entry sp) n = 0;
  pc_set_pc v c : ops_pc (ops_set_pc v c) = v;
  pc_set_sp v c : ops_pc (ops_set_sp v c) = ops_pc c;
  pc_set_reg n v c : ops_pc (ops_set_reg n v c) = ops_pc c;
  pc_advance c : ops_pc (ops_advance_pc c) = u64 (ops_pc c + 4);
  sp_set_pc v c : ops_sp (ops_set_pc v c) = ops_sp c;
  sp_set_sp v c : ops_sp (ops_set_sp v c) = v;
  sp_set_reg n v c : ops_sp (ops_set_reg n v c) = ops_sp c;
  sp_advance c : ops_sp (ops_advance_pc c) = ops_sp c;
  reg_set_pc v c n : ops_get_reg (ops_set_pc v c) n = ops_get_reg c n;
  reg_set_sp v c n : ops_get_reg (ops_set_sp v c) n = ops_get_reg c n;
  reg_advance c n : ops_get_reg (ops_advance_pc c) n = ops_get_reg c n;
  reg_set_reg n v c k : ops_wf c ->
    ops_get_reg (ops_set_reg n v c) k = if decide (k = n /\ 0 <= n <= 30) then v else ops_get_reg c k
}.

Lemma get_default n : get_reg gpr_default n = 0.
Proof.
  unfold get_reg, gpr_default. cbn [gpr_x]. destruct (_ && _); [|done]. rewrite nth_lookup.
  destruct (replicate 31 0 !! Z.to_nat n) as [x|] eqn:E; [|done]. by apply lookup_replicate in E as [-> _].
Qed.
Lemma get_set g n v k : length (gpr_x g) = 31%nat ->
  get_reg (set_reg g n v) k = if decide (k = n /\ 0 <= n <= 30) then v else get_reg g k.
Proof.
  intros Hl. unfold get_reg, set_reg. case_decide as Hd.
  - destruct Hd as [-> Hn]. rewrite (proj2 (andb_true_iff _ _)) by lia. cbn [gpr_x].
    by rewrite nth_lookup, list_lookup_insert_eq by lia.
  - destruct ((0 <=? k) && (k <=? 30)) eqn:Ek; [|by destruct (_ && _)].
    destruct ((0 <=? n) && (n <=? 30)) eqn:En; cbn [gpr_x]; [|done].
    rewrite !nth_lookup, list_lookup_insert_ne by lia. done.
Qed.

#[export] Instance vcpu_context_laws : VcpuContextLaws VcpuContext.
Proof.
  refine {| ops_wf c := length (gpr_x (gp_regs c)) = 31%nat |}; try done.
  - intros n v c Hc. cbn. unfold set_reg. destruct (_ && _); [cbn; by rewrite length_insert|done].
  - intros entry sp n. apply get_default.
  - intros n v c k Hc. by apply get_set.
Defined.

(** A client: returning a value from a trapped call. *)
Definition return_value {C} `{VcpuContextOps C} (v : Z) (c : C) : C := ops_advance_pc (ops_set_reg 0 v c).

(** On every context that keeps the laws, a value returned from a trapped call
    is in x0, execution goes on at the next instruction, and nothing else the
    interface shows has changed. *)
Theorem return_value_exact {C} `{VcpuContextLaws C} (v : Z) (c : C) : ops_wf c ->
  ops_get_reg (return_value v c) 0 = v /\ ops_pc (return_value v c) = u64 (ops_pc c + 4) /\
  ops_sp (return_value v c) = ops_sp c /\ ops_wf (return_value v c) /\
  forall n, n <> 0 -> ops_get_reg (return_value v c) n = ops_get_reg c n.
Proof.
  intros Hc. unfold return_value. rewrite pc_advance, pc_set_reg, sp_advance, sp_set_reg, reg_advance, reg_set_reg by done.
  rewrite decide_True by lia. split_and!; [done..|by apply wf_advance, wf_reg|].
  intros n Hn. rewrite reg_advance, reg_set_reg by done. by rewrite decide_False by lia.
Qed.

(** ** [ExceptionInfo] *)
Class ExceptionInfo (E : Type) := {
  is_wfi : E -> bool;
  is_hypercall : E -> bool;
  is_data_abort : E -> bool;
  is_instruction_abort : E -> bool;
  fault_address : E -> option Z
}.
#[export] Instance exit_reason_info : ExceptionInfo ExitReason := {
  is_wfi r := match r with ErWfiWfe => true | _ => false end;
  is_hypercall r := match r with ErHvcCall => true | _ => false end;
  is_data_abort r := match r with ErDataAbort => true | _ => false end;
  is_instruction_abort r := match r with ErInstructionAbort => true | _ => false end;
  fault_address _ := None
}.

(** The predicates are those of the exception class in ESR_EL2: at most one
    holds, and aborts are those from a lower and from the same level. *)
Theorem exception_info_matches_class c :
  let ec := Z.land (Z.shiftr (esr_el2 (sys_regs c)) 26) 0x3F in let r := exit_reason c in
  is_wfi r = (ec =? 0x01) /\ is_hypercall r = (ec =? 0x16) /\
  is_data_abort r = ((ec =? 0x24) || (ec =? 0x25)) /\ is_instruction_abort r = ((ec =? 0x20) || (ec =? 0x21)).
Proof.
  cbv zeta. unfold exit_reason, ESR_EC_SHIFT, ESR_EC_MASK. set (ec := Z.land _ _).
  assert (0 <= ec < 64) as Hec.
  { subst ec. change 0x3F with (2 ^ 6 - 1). rewrite land_low by lia. apply Z.mod_pos_bound. lia. }
  clearbody ec. assert (exists k, (k < 64)%nat /\ ec = Z.of_nat k) as (k & Hk & ->) by (exists (Z.to_nat ec); lia).
  do 64 (destruct k as [|k]; [by split_and!|]). lia.
Qed.

(** ** [Stage2Mapper] *)
Inductive MemoryType := MtNormal | MtDevice | MtReadOnly.
Class Stage2Mapper (M : Type) := {
  sm_map_region : Z -> Z -> MemoryType -> SM (machine * M) string unit;
  sm_reset : SM (machine * M) string unit;
  sm_install : M -> corem unit;
  root_table_addr : M -> Z
}.
(** [config]: the root with VMID 0. *)
Definition mapper_config (m : DynamicIdentityMapper) : Z * Z := new_with_vmid (dm_l0_table m) 0.
Definition attr_of (t : MemoryType) : MemoryAttribute :=
  match t with MtNormal => Normal | MtDevice => Device | MtReadOnly => ReadOnly end.
#[export] Instance dynamic_mapper : Stage2Mapper DynamicIdentityMapper := {
  sm_map_region ipa size t := map_region ipa size (attr_of t);
  sm_reset := sm_ret tt;
  sm_install m := stage2_install (mapper_config m);
  root_table_addr := dm_l0_table
}.

(** Installing a mapper through the trait makes the core translate through its
    tables, at the root the trait reports, with VMID 0. *)
Theorem trait_install_root m c : fits 48 (root_table_addr m) -> root_table_addr m mod 4096 = 0 ->
  exists c', sm_install m c = (c', Ok tt) /\ reg_value c' R_VTCR_EL2 = VTCR_VALUE /\
    Walker.from_vttbr (reg_value c' R_VTTBR_EL2) = Walker.mkWalker (root_table_addr m) /\
    Z.shiftr (reg_value c' R_VTTBR_EL2) 48 = 0.
Proof.
  intros Hf Ha. cbn [sm_install root_table_addr dynamic_mapper] in *.
  eexists. split; [reflexivity|]. split; [reflexivity|]. split.
  - exact (proj1 (vttbr_round_trip m 0 (fun _ => 0) 0 Ha Hf ltac:(unfold fits; lia))).
  - change (reg_value _ _) with (Z.lor (Z.land (dm_l0_table m) 0x0000FFFFFFFFFFFE) (u64 (Z.shiftl 0 48))).
    change (u64 (Z.shiftl 0 48)) with 0. rewrite Z.lor_0_r, Z.shiftr_land. change (Z.shiftr 0x0000FFFFFFFFFFFE 48) with 0. apply Z.land_0_r.
Qed.
