(* ===== verification/Vcpu.v ===== *)
(** * Vcpu: the architectural state of a vCPU and its run

    [arch/aarch64/vcpu_arch_state.rs] (the registers switched with a vCPU) and
    [vcpu.rs] (the vCPU and its state machine).  A core's register file is a
    function of the register names; [save] and [restore] copy the registers
    one by one, in the order of the source.  The guest is a parameter: what
    [enter_guest] does to the core, to the rest of the machine and to the
    context, and the exit code it returns. *)

From Stdlib Require Import ZArith Lia Bool.
From stdpp Require Import base decidable option list strings.
From S2P Require Import Prelude Regs VGic.

(** ** Registers of [VcpuArchState] *)
Inductive areg :=
| ICH_LR0 | ICH_LR1 | ICH_LR2 | ICH_LR3 | ICH_VMCR | ICH_HCR
| CNTV_CTL | CNTV_CVAL | VMPIDR
| SCTLR_EL1 | TTBR0_EL1 | TTBR1_EL1 | TCR_EL1 | MAIR_EL1 | VBAR_EL1 | CPACR_EL1 | CONTEXTIDR_EL1
| TPIDR_EL1 | TPIDRRO_EL0 | TPIDR_EL0 | PAR_EL1 | CNTKCTL_EL1 | SP_EL1 | ELR_EL1 | SPSR_EL1
| AFSR0_EL1 | AFSR1_EL1 | ESR_EL1 | FAR_EL1 | AMAIR_EL1 | MDSCR_EL1 | SP_EL0
| APIA_LO | APIA_HI | APIB_LO | APIB_HI | APDA_LO | APDA_HI | APDB_LO | APDB_HI | APGA_LO | APGA_HI.
#[export] Instance areg_eq_dec : EqDecision areg.
Proof. solve_decision. Defined.

Definition regfile : Type := areg -> Z.
Definition rset (r : areg) (v : Z) (f : regfile) : regfile := fun x => if decide (x = r) then v else f x.

(** [mrs]/[msr] order of [save]. *)
Definition save_order : list areg :=
  [ICH_LR0; ICH_LR1; ICH_LR2; ICH_LR3; ICH_VMCR; ICH_HCR; CNTV_CTL; CNTV_CVAL;
   SCTLR_EL1; TTBR0_EL1; TTBR1_EL1; TCR_EL1; MAIR_EL1; VBAR_EL1; CPACR_EL1; CONTEXTIDR_EL1;
   TPIDR_EL1; TPIDRRO_EL0; TPIDR_EL0; PAR_EL1; CNTKCTL_EL1; SP_EL1; ELR_EL1; SPSR_EL1;
   AFSR0_EL1; AFSR1_EL1; ESR_EL1; FAR_EL1; AMAIR_EL1; MDSCR_EL1; SP_EL0;
   APIA_LO; APIA_HI; APIB_LO; APIB_HI; APDA_LO; APDA_HI; APDB_LO; APDB_HI; APGA_LO; APGA_HI].
(** Order of [restore]: the CPU identity first. *)
Definition restore_order : list areg := VMPIDR :: save_order.

Definition copy_regs (order : list areg) (src dst : regfile) : regfile :=
  fold_left (fun d r => rset r (src r) d) order dst.
(** [save]: the hardware registers into the state. *)
Definition save (hw st : regfile) : regfile := copy_regs save_order hw st.
(** [restore]: the state into the hardware registers. *)
Definition restore (st hw : regfile) : regfile := copy_regs restore_order st hw.

Definition arch_state_new : regfile := fun _ => 0.
(** [mpidr] is the MPIDR_EL1 of the core that runs the code. *)
Definition init_for_vcpu (mpidr vcpu_id : Z) (st : regfile) : regfile :=
  let st := rset VMPIDR (Z.lor (Z.land mpidr (not64 0xFF)) (Z.land vcpu_id 0xFF)) st in
  let st := rset ICH_HCR (Z.lor (Z.shiftl 1 13) 1) st in
  let st := rset ICH_VMCR (Z.lor (Z.shiftl 0xFF 24) (Z.shiftl 1 1)) st in
  let st := rset ICH_LR3 0 (rset ICH_LR2 0 (rset ICH_LR1 0 (rset ICH_LR0 0 st))) in
  rset CNTV_CVAL 0 (rset CNTV_CTL 0 st).

(** [arch_state.ich_lr] as an array. *)
Definition saved_lrs (st : regfile) : list Z := [st ICH_LR0; st ICH_LR1; st ICH_LR2; st ICH_LR3].
Definition set_saved_lrs (l : list Z) (st : regfile) : regfile :=
  rset ICH_LR3 (nth 3 l 0) (rset ICH_LR2 (nth 2 l 0) (rset ICH_LR1 (nth 1 l 0) (rset ICH_LR0 (nth 0 l 0) st))).

(** ** A physical core *)
Record pcpu := mkPcpu { pc_regs : regfile; pc_hcr_el2 : Z; pc_vtr : Z }.
Definition set_pc_regs (f : regfile) (p : pcpu) : pcpu := mkPcpu f (pc_hcr_el2 p) (pc_vtr p).
(** [get_hcr_el2], [set_hcr_el2] *)
Definition set_hcr_el2 (v : Z) (p : pcpu) : pcpu := mkPcpu (pc_regs p) v (pc_vtr p).
(** The virtual interface of the core. *)
Definition ich_of (p : pcpu) : ich_regs :=
  mkIch (saved_lrs (pc_regs p)) (pc_vtr p) (pc_regs p ICH_HCR) (pc_regs p ICH_VMCR).
Definition with_ich (h : ich_regs) (p : pcpu) : pcpu :=
  set_pc_regs (rset ICH_VMCR (ich_vmcr h) (rset ICH_HCR (ich_hcr h) (set_saved_lrs (ich_lr h) (pc_regs p)))) p.

(** ** vCPUs *)
Inductive VcpuState := VUninitialized | VReady | VRunning | VStopped.
#[export] Instance VcpuState_eq_dec : EqDecision VcpuState.
Proof. solve_decision. Defined.

Record Vcpu := mkVcpu {
  vcpu_id : nat;
  vcpu_state : VcpuState;
  vcpu_context : VcpuContext;
  virt_irq : VirtualInterruptState;
  arch_state : regfile
}.
Definition set_vcpu_state (s : VcpuState) (v : Vcpu) : Vcpu :=
  mkVcpu (vcpu_id v) s (vcpu_context v) (virt_irq v) (arch_state v).
Definition set_vcpu_context (c : VcpuContext) (v : Vcpu) : Vcpu :=
  mkVcpu (vcpu_id v) (vcpu_state v) c (virt_irq v) (arch_state v).
Definition set_virt_irq (i : VirtualInterruptState) (v : Vcpu) : Vcpu :=
  mkVcpu (vcpu_id v) (vcpu_state v) (vcpu_context v) i (arch_state v).
Definition set_arch_state (a : regfile) (v : Vcpu) : Vcpu :=
  mkVcpu (vcpu_id v) (vcpu_state v) (vcpu_context v) (virt_irq v) a.

Definition vcpu_new (mpidr : Z) (id : nat) (entry_point stack_pointer : Z) : Vcpu :=
  mkVcpu id VReady (vcpu_context_new entry_point stack_pointer) virq_new
    (init_for_vcpu mpidr (Z.of_nat id) arch_state_new).

Definition vcpu_stop (v : Vcpu) : Vcpu := set_vcpu_state VStopped v.
Definition vcpu_reset (entry_point stack_pointer : Z) (v : Vcpu) : Vcpu :=
  set_vcpu_state VReady (set_vcpu_context (vcpu_context_new entry_point stack_pointer) v).

Definition vcpu_inject_irq (irq_num : Z) (v : Vcpu) (p : pcpu) : Vcpu * pcpu :=
  let (i, h) := virq_inject_irq (virt_irq v) (ich_of p) irq_num in
  (set_virt_irq i v, with_ich h p).
Definition vcpu_clear_irq (v : Vcpu) (p : pcpu) : Vcpu * pcpu :=
  let (i, h) := virq_clear_irq (virt_irq v) (ich_of p) in
  (set_virt_irq i v, with_ich h p).

(** ** Running a vCPU *)
Section Run.
Context {W : Type}.
(** [enter_guest]: the core, the rest of the machine and the context when the
    guest exits, and the exit code. *)
Definition guest : Type := pcpu -> W -> VcpuContext -> pcpu * W * VcpuContext * Z.
Context (enter_guest : guest).

Definition NOT_READY : string := "vCPU is not in Ready state".
Definition WFI : string := "WFI".
Definition EXIT_ERROR : string := "Guest exit with error".

(** The core as the guest finds it. *)
Definition entry_core (v : Vcpu) (p : pcpu) : pcpu :=
  let p := set_pc_regs (restore (arch_state v) (pc_regs p)) p in
  set_hcr_el2 (apply_to_hcr (virt_irq v) (pc_hcr_el2 p)) p.

Definition vcpu_run (v : Vcpu) (p : pcpu) (w : W) : Vcpu * pcpu * W * result unit string :=
  if negb (bool_decide (vcpu_state v = VReady)) then (v, p, w, Err NOT_READY) else
  let v := set_vcpu_state VRunning v in
  let p := entry_core v p in
  let '(p, w, ctx, code) := enter_guest p w (vcpu_context v) in
  let v := set_vcpu_context ctx v in
  let v := set_arch_state (save (pc_regs p) (arch_state v)) v in
  let v := set_vcpu_state VReady v in
  let (v, p) := if has_pending_interrupt (virt_irq v) then vcpu_clear_irq v p else (v, p) in
  (v, p, w, match code with 0 => Ok tt | 1 => Err WFI | _ => Err EXIT_ERROR end).
End Run.
Arguments guest : clear implicits.

(** ** Copying register files *)
Lemma rset_same r v f : rset r v f r = v.
Proof. unfold rset. by rewrite decide_True. Qed.
Lemma rset_other r r' v f : r <> r' -> rset r v f r' = f r'.
Proof. intros. unfold rset. by rewrite decide_False by congruence. Qed.

Lemma copy_regs_in order src dst r : r ∈ order -> copy_regs order src dst r = src r.
Proof.
  unfold copy_regs. revert dst. induction order as [|x order IH] using rev_ind; intros dst Hin; [by apply not_elem_of_nil in Hin|].
  rewrite fold_left_app. cbn [fold_left]. destruct (decide (x = r)) as [-> |Hne]; [apply rset_same|].
  rewrite rset_other by done. apply IH. apply elem_of_app in Hin as [|Hin]; [done|].
  apply list_elem_of_singleton in Hin. congruence.
Qed.
Lemma copy_regs_out order src dst r : r ∉ order -> copy_regs order src dst r = dst r.
Proof.
  unfold copy_regs. revert dst. induction order as [|x order IH]; intros dst Hout; [done|].
  apply not_elem_of_cons in Hout as [Hne Hout]. cbn [fold_left]. rewrite IH by done. by apply rset_other.
Qed.

(** Every register of the state is restored, and every one but the CPU
    identity is saved. *)
Lemma restore_complete r : r ∈ restore_order.
Proof. destruct r; apply (bool_decide_unpack _); vm_compute; exact I. Qed.
Lemma save_complete r : r ∈ save_order <-> r <> VMPIDR.
Proof.
  split; [intros H ->; revert H; apply (bool_decide_unpack _); vm_compute; exact I|].
  intros Hne. destruct r; try done; apply (bool_decide_unpack _); vm_compute; exact I.
Qed.

Lemma restore_spec st hw r : restore st hw r = st r.
Proof. apply copy_regs_in, restore_complete. Qed.
Lemma save_spec hw st r : save hw st r = if decide (r = VMPIDR) then st r else hw r.
Proof.
  unfold save. case_decide as E; [apply copy_regs_out|apply copy_regs_in]; rewrite save_complete; naive_solver.
Qed.

Lemma entry_core_regs v p r : pc_regs (entry_core v p) r = arch_state v r.
Proof. apply restore_spec. Qed.

(** A run keeps the identifier and leaves the vCPU ready. *)
Lemma vcpu_run_ready {W} (g : guest W) v p w v' p' w' res : vcpu_state v = VReady ->
  vcpu_run g v p w = (v', p', w', res) -> vcpu_id v' = vcpu_id v /\ vcpu_state v' = VReady.
Proof.
  intros Hs. unfold vcpu_run. rewrite bool_decide_true by done. cbn [negb]. cbv zeta.
  destruct (g _ _ _) as [[[pe we] ce] code]. destruct (has_pending_interrupt _); unfold vcpu_clear_irq;
    [destruct (virq_clear_irq _ _) as [i h]|]; by intros [= <- _ _ _].
Qed.

(** C11. A vCPU's registers survive its absence from the core: whatever the
    register file of the core holds, the guest is entered with the registers
    of its own saved state, all of them; after the exit the saved state is
    the register file the guest left (its CPU identity kept), so that the next
    entry, whatever ran on the core meanwhile, finds exactly those values;
    and the context, the identifier and the state Ready are those of the
    exit. *)
Theorem context_switch_isolates {W} (g : guest W) v p w pe we ce code :
  vcpu_state v = VReady ->
  g (entry_core v p) w (vcpu_context v) = (pe, we, ce, code) ->
  let '(v', p', w', _) := vcpu_run g v p w in
  (forall r, pc_regs (entry_core v p) r = arch_state v r) /\
  (forall p2 r, pc_regs (entry_core v' p2) r = if decide (r = VMPIDR) then arch_state v r else pc_regs pe r) /\
  vcpu_context v' = ce /\ vcpu_state v' = VReady /\ vcpu_id v' = vcpu_id v /\ w' = we.
Proof.
  intros Hs Hg. unfold vcpu_run. rewrite bool_decide_true by done. cbn [negb]. cbv zeta.
  change (g (entry_core (set_vcpu_state VRunning v) p) w (vcpu_context (set_vcpu_state VRunning v)))
    with (g (entry_core v p) w (vcpu_context v)). rewrite Hg.
  cbn [set_vcpu_context set_arch_state set_vcpu_state virt_irq arch_state vcpu_id vcpu_state vcpu_context].
  destruct (has_pending_interrupt _); unfold vcpu_clear_irq;
    [destruct (virq_clear_irq _ _) as [i h]|]; (split; [apply entry_core_regs|]);
    (split_and!; [|done..]); intros p2 r; rewrite entry_core_regs; apply save_spec.
Qed.

Definition ex_guest : guest unit := fun p w c =>
  (set_pc_regs (rset TTBR0_EL1 0x1234 (rset VMPIDR 7 (pc_regs p))) p, w, advance_pc c, 1).
Definition ex_pcpu : pcpu := mkPcpu (fun _ => 0xDEAD) 0x80000000 3.
Lemma context_switch_isolates_witness :
  let v := vcpu_new 0x80000001 1 0x48000000 0 in
  let '(v', _, _, _) := vcpu_run ex_guest v ex_pcpu tt in
  pc_regs (entry_core v ex_pcpu) VMPIDR = 0x80000001 /\
  (forall p2, pc_regs (entry_core v' p2) TTBR0_EL1 = 0x1234 /\ pc_regs (entry_core v' p2) VMPIDR = 0x80000001).
Proof.
  pose proof (context_switch_isolates ex_guest (vcpu_new 0x80000001 1 0x48000000 0) ex_pcpu tt _ _ _ _
    eq_refl eq_refl) as H.
  cbv zeta. destruct (vcpu_run _ _ _ _) as [[[v' p'] w'] res]. destruct H as (H1 & H2 & _).
  split; [exact (H1 VMPIDR)|]. intros p2. rewrite !H2. split; reflexivity.
Defined.

(** An interrupt injected with [Vcpu::inject_irq] between two runs never
    reaches the guest on the GICv3 path: it is written to the hardware list
    registers, and the next run overwrites them with the saved ones; the
    guest is entered with the same registers and HCR_EL2 as without the
    injection, although the vCPU reports the interrupt as pending. *)
Theorem inject_irq_not_delivered irq_num v p :
  use_gicv3 (virt_irq v) = true ->
  let '(v1, p1) := vcpu_inject_irq irq_num v p in
  has_pending_interrupt (virt_irq v1) = true /\
  (forall r, pc_regs (entry_core v1 p1) r = pc_regs (entry_core v p) r) /\
  pc_hcr_el2 (entry_core v1 p1) = pc_hcr_el2 (entry_core v p) /\
  vcpu_context v1 = vcpu_context v.
Proof.
  intros Hg. unfold vcpu_inject_irq, virq_inject_irq. rewrite Hg.
  destruct (inject_interrupt _ _ _) as [h []]; (split_and!; [done| |by cbn; unfold apply_to_hcr; rewrite Hg|done]);
    intros r; by rewrite !entry_core_regs.
Qed.

Lemma inject_irq_not_delivered_witness :
  let '(v1, p1) := vcpu_inject_irq 27 (vcpu_new 0x80000000 0 0 0) (mkPcpu (fun _ => 0) 0 3) in
  pc_regs p1 ICH_LR0 = build_lr 27 0xA0 /\ pc_regs (entry_core v1 p1) ICH_LR0 = 0.
Proof.
  pose proof (inject_irq_not_delivered 27 (vcpu_new 0x80000000 0 0 0) (mkPcpu (fun _ => 0) 0 3) eq_refl) as H.
  destruct (vcpu_inject_irq _ _ _) as [v1 p1] eqn:E. destruct H as (_ & H & _). split; [|exact (H ICH_LR0)].
  apply (f_equal (fun x => pc_regs (snd x) ICH_LR0)) in E. cbn [snd] in E. rewrite <- E. reflexivity.
Defined.
