(* ===== verification/GicDev.v ===== *)
(** * GicDev: the emulated distributor and redistributors

    [devices/gic/distributor.rs] and [devices/gic/redistributor.rs]: the shadow
    state a guest's GICD and GICR accesses are served from.  A write to the
    distributor is also forwarded to the physical one; the forwarded accesses
    (offset, value and size) are an output of the operation. *)

From Stdlib Require Import ZArith Lia Bool Btauto.
From stdpp Require Import base decidable option list strings.
From S2P Require Import Prelude.

(** A register bank: word [reg] of an array, with the bound the code checks. *)
Definition bank_read (bank : list Z) (n reg : Z) : Z := if reg <? n then nth (Z.to_nat reg) bank 0 else 0.
Definition bank_upd (f : Z -> Z) (n reg : Z) (bank : list Z) : list Z :=
  if reg <? n then alter f (Z.to_nat reg) bank else bank.
Definition in_range (lo hi x : Z) : bool := (lo <=? x) && (x <=? hi).

(** ** Distributor *)
Definition GICD_SIZE : Z := 0x10000.
Definition GICD_CTLR_ARE_NS : Z := Z.shiftl 1 4.
Definition GICD_CTLR : Z := 0x000.
Definition GICD_TYPER : Z := 0x004.
Definition GICD_IIDR : Z := 0x008.
Definition GICD_IGROUPR_BASE : Z := 0x080.
Definition GICD_IGROUPR_END : Z := 0x0FC.
Definition GICD_ISENABLER_BASE : Z := 0x100.
Definition GICD_ISENABLER_END : Z := 0x17C.
Definition GICD_ICENABLER_BASE : Z := 0x180.
Definition GICD_ICENABLER_END : Z := 0x1FC.
Definition GICD_ISPENDR_BASE : Z := 0x200.
Definition GICD_ISPENDR_END : Z := 0x27C.
Definition GICD_ICPENDR_BASE : Z := 0x280.
Definition GICD_ICPENDR_END : Z := 0x2FC.
Definition GICD_ISACTIVER_BASE : Z := 0x300.
Definition GICD_ISACTIVER_END : Z := 0x37C.
Definition GICD_ICACTIVER_BASE : Z := 0x380.
Definition GICD_ICACTIVER_END : Z := 0x3FC.
Definition GICD_IPRIORITYR_BASE : Z := 0x400.
Definition GICD_IPRIORITYR_END : Z := 0x7FC.
Definition GICD_ICFGR_BASE : Z := 0xC00.
Definition GICD_ICFGR_END : Z := 0xCFC.
Definition GICD_IROUTER_BASE : Z := 0x6100.
Definition GICD_IROUTER_END : Z := 0x7FD8.
Definition GICD_PIDR2 : Z := 0xFFE8.

Record VirtualGicd := mkGicd {
  gd_ctlr : Z;
  gd_enabled : list Z;
  gd_igroupr : list Z;
  gd_ipriorityr : list Z;
  gd_icfgr : list Z;
  gd_ispendr : list Z;
  gd_isactiver : list Z;
  gd_irouter : list Z;
  gd_num_cpus : Z
}.
(** [num_cpus] is [platform::num_cpus()]. *)
Definition gicd_new (num_cpus : Z) : VirtualGicd :=
  mkGicd 0 (replicate 32 0) (replicate 32 0) (replicate 256 0) (replicate 64 0) (replicate 32 0) (replicate 32 0)
    (replicate 988 0) (u32 num_cpus).
Definition set_num_cpus (n : Z) (d : VirtualGicd) : VirtualGicd :=
  mkGicd (gd_ctlr d) (gd_enabled d) (gd_igroupr d) (gd_ipriorityr d) (gd_icfgr d) (gd_ispendr d) (gd_isactiver d)
    (gd_irouter d) n.

Definition set_ctlr (v : Z) (d : VirtualGicd) : VirtualGicd :=
  mkGicd v (gd_enabled d) (gd_igroupr d) (gd_ipriorityr d) (gd_icfgr d) (gd_ispendr d) (gd_isactiver d)
    (gd_irouter d) (gd_num_cpus d).
Definition set_enabled (l : list Z) (d : VirtualGicd) : VirtualGicd :=
  mkGicd (gd_ctlr d) l (gd_igroupr d) (gd_ipriorityr d) (gd_icfgr d) (gd_ispendr d) (gd_isactiver d)
    (gd_irouter d) (gd_num_cpus d).
Definition set_igroupr (l : list Z) (d : VirtualGicd) : VirtualGicd :=
  mkGicd (gd_ctlr d) (gd_enabled d) l (gd_ipriorityr d) (gd_icfgr d) (gd_ispendr d) (gd_isactiver d)
    (gd_irouter d) (gd_num_cpus d).
Definition set_ipriorityr (l : list Z) (d : VirtualGicd) : VirtualGicd :=
  mkGicd (gd_ctlr d) (gd_enabled d) (gd_igroupr d) l (gd_icfgr d) (gd_ispendr d) (gd_isactiver d)
    (gd_irouter d) (gd_num_cpus d).
Definition set_icfgr (l : list Z) (d : VirtualGicd) : VirtualGicd :=
  mkGicd (gd_ctlr d) (gd_enabled d) (gd_igroupr d) (gd_ipriorityr d) l (gd_ispendr d) (gd_isactiver d)
    (gd_irouter d) (gd_num_cpus d).
Definition set_ispendr (l : list Z) (d : VirtualGicd) : VirtualGicd :=
  mkGicd (gd_ctlr d) (gd_enabled d) (gd_igroupr d) (gd_ipriorityr d) (gd_icfgr d) l (gd_isactiver d)
    (gd_irouter d) (gd_num_cpus d).
Definition set_isactiver (l : list Z) (d : VirtualGicd) : VirtualGicd :=
  mkGicd (gd_ctlr d) (gd_enabled d) (gd_igroupr d) (gd_ipriorityr d) (gd_icfgr d) (gd_ispendr d) l
    (gd_irouter d) (gd_num_cpus d).
Definition set_irouter (l : list Z) (d : VirtualGicd) : VirtualGicd :=
  mkGicd (gd_ctlr d) (gd_enabled d) (gd_igroupr d) (gd_ipriorityr d) (gd_icfgr d) (gd_ispendr d) (gd_isactiver d)
    l (gd_num_cpus d).

Definition gicd_route_spi (d : VirtualGicd) (intid : Z) : Z :=
  if (intid <? 32) || (1020 <=? intid) then 0
  else Z.land (nth (Z.to_nat (intid - 32)) (gd_irouter d) 0) 0xFF.

Definition read_irouter (d : VirtualGicd) (offset : Z) : option Z :=
  let byte_off := offset - GICD_IROUTER_BASE in
  if negb (Z.land byte_off 0x7 =? 0) then Some 0 else
  let idx := byte_off / 8 in
  if idx <? Z.of_nat (length (gd_irouter d)) then Some (nth (Z.to_nat idx) (gd_irouter d) 0) else Some 0.

Definition write_irouter (d : VirtualGicd) (offset value : Z) : VirtualGicd :=
  let byte_off := offset - GICD_IROUTER_BASE in
  if negb (Z.land byte_off 0x7 =? 0) then d else
  let idx := byte_off / 8 in
  if idx <? Z.of_nat (length (gd_irouter d)) then set_irouter (<[Z.to_nat idx := value]> (gd_irouter d)) d else d.

Definition or0 (o : option Z) : Z := match o with Some v => v | None => 0 end.

Definition gicd_read (d : VirtualGicd) (offset size : Z) : option Z :=
  let irouter := in_range GICD_IROUTER_BASE GICD_IROUTER_END offset in
  if irouter && (size =? 8) then read_irouter d offset
  else if irouter && (size =? 4) then
    let aligned := Z.land offset (not64 0x7) in
    let full := or0 (read_irouter d aligned) in
    if Z.land offset 0x4 =? 0 then Some (Z.land full 0xFFFFFFFF) else Some (Z.shiftr full 32)
  else if negb (size =? 4) then Some 0
  else Some (
    if offset =? GICD_CTLR then Z.lor (gd_ctlr d) GICD_CTLR_ARE_NS
    else if offset =? GICD_TYPER then
      let cpu_num := Z.shiftl (Z.land (Z.max 0 (gd_num_cpus d - 1)) 0x7) 5 in
      Z.lor (Z.lor (Z.lor (Z.lor 31 cpu_num) (Z.shiftl 1 24)) (Z.shiftl 1 25)) (Z.shiftl 9 19)
    else if offset =? GICD_IIDR then 0x043B
    else if in_range GICD_IGROUPR_BASE GICD_IGROUPR_END offset then
      bank_read (gd_igroupr d) 32 ((offset - GICD_IGROUPR_BASE) / 4)
    else if in_range GICD_ISENABLER_BASE GICD_ISENABLER_END offset then
      bank_read (gd_enabled d) 32 ((offset - GICD_ISENABLER_BASE) / 4)
    else if in_range GICD_ICENABLER_BASE GICD_ICENABLER_END offset then
      bank_read (gd_enabled d) 32 ((offset - GICD_ICENABLER_BASE) / 4)
    else if in_range GICD_ISPENDR_BASE GICD_ISPENDR_END offset then
      bank_read (gd_ispendr d) 32 ((offset - GICD_ISPENDR_BASE) / 4)
    else if in_range GICD_ICPENDR_BASE GICD_ICPENDR_END offset then
      bank_read (gd_ispendr d) 32 ((offset - GICD_ICPENDR_BASE) / 4)
    else if in_range GICD_ISACTIVER_BASE GICD_ISACTIVER_END offset then
      bank_read (gd_isactiver d) 32 ((offset - GICD_ISACTIVER_BASE) / 4)
    else if in_range GICD_ICACTIVER_BASE GICD_ICACTIVER_END offset then
      bank_read (gd_isactiver d) 32 ((offset - GICD_ICACTIVER_BASE) / 4)
    else if in_range GICD_IPRIORITYR_BASE GICD_IPRIORITYR_END offset then
      bank_read (gd_ipriorityr d) 256 ((offset - GICD_IPRIORITYR_BASE) / 4)
    else if in_range GICD_ICFGR_BASE GICD_ICFGR_END offset then
      bank_read (gd_icfgr d) 64 ((offset - GICD_ICFGR_BASE) / 4)
    else if offset =? GICD_PIDR2 then 0x30
    else 0).

(** A forwarded access: offset in the physical distributor, value and size. *)
Definition gicd_forward (offset value size : Z) : list (Z * Z * Z) :=
  if (offset =? GICD_TYPER) || (offset =? GICD_IIDR) || (offset =? GICD_PIDR2) then [] else
  let fwd_value := if offset =? GICD_CTLR then Z.lor value GICD_CTLR_ARE_NS else value in
  if size =? 1 then [(offset, u8 fwd_value, 1)]
  else if size =? 2 then [(offset, u16 fwd_value, 2)]
  else if size =? 4 then [(offset, u32 fwd_value, 4)]
  else if size =? 8 then [(offset, fwd_value, 8)]
  else [].

Definition set_bits (val x : Z) : Z := Z.lor x val.
Definition clear_bits (val x : Z) : Z := Z.land x (not32 val).
Definition assign (val _ : Z) : Z := val.

(** The shadow update of [write], which always accepts the access. *)
Definition gicd_write (d : VirtualGicd) (offset value size : Z) : VirtualGicd :=
  let irouter := in_range GICD_IROUTER_BASE GICD_IROUTER_END offset in
  if irouter && (size =? 8) then write_irouter d offset value
  else if irouter && (size =? 4) then
    let aligned := Z.land offset (not64 0x7) in
    let old := or0 (read_irouter d aligned) in
    let val32 := Z.land value 0xFFFFFFFF in
    let new := if Z.land offset 0x4 =? 0 then Z.lor (Z.land old 0xFFFFFFFF00000000) val32
               else Z.lor (Z.land old 0x00000000FFFFFFFF) (Z.shiftl val32 32) in
    write_irouter d aligned new
  else if negb (size =? 4) then d
  else
    let val := u32 (Z.land value 0xFFFFFFFF) in
    if offset =? GICD_CTLR then set_ctlr (Z.lor val GICD_CTLR_ARE_NS) d
    else if in_range GICD_IGROUPR_BASE GICD_IGROUPR_END offset then
      set_igroupr (bank_upd (assign val) 32 ((offset - GICD_IGROUPR_BASE) / 4) (gd_igroupr d)) d
    else if in_range GICD_ISENABLER_BASE GICD_ISENABLER_END offset then
      set_enabled (bank_upd (set_bits val) 32 ((offset - GICD_ISENABLER_BASE) / 4) (gd_enabled d)) d
    else if in_range GICD_ICENABLER_BASE GICD_ICENABLER_END offset then
      set_enabled (bank_upd (clear_bits val) 32 ((offset - GICD_ICENABLER_BASE) / 4) (gd_enabled d)) d
    else if in_range GICD_ISPENDR_BASE GICD_ISPENDR_END offset then
      set_ispendr (bank_upd (set_bits val) 32 ((offset - GICD_ISPENDR_BASE) / 4) (gd_ispendr d)) d
    else if in_range GICD_ICPENDR_BASE GICD_ICPENDR_END offset then
      set_ispendr (bank_upd (clear_bits val) 32 ((offset - GICD_ICPENDR_BASE) / 4) (gd_ispendr d)) d
    else if in_range GICD_ISACTIVER_BASE GICD_ISACTIVER_END offset then
      set_isactiver (bank_upd (set_bits val) 32 ((offset - GICD_ISACTIVER_BASE) / 4) (gd_isactiver d)) d
    else if in_range GICD_ICACTIVER_BASE GICD_ICACTIVER_END offset then
      set_isactiver (bank_upd (clear_bits val) 32 ((offset - GICD_ICACTIVER_BASE) / 4) (gd_isactiver d)) d
    else if in_range GICD_IPRIORITYR_BASE GICD_IPRIORITYR_END offset then
      set_ipriorityr (bank_upd (assign val) 256 ((offset - GICD_IPRIORITYR_BASE) / 4) (gd_ipriorityr d)) d
    else if in_range GICD_ICFGR_BASE GICD_ICFGR_END offset then
      set_icfgr (bank_upd (assign val) 64 ((offset - GICD_ICFGR_BASE) / 4) (gd_icfgr d)) d
    else d.

(** ** Redistributors *)
Definition GICR_PER_CPU : Z := 0x20000.
Definition GICR_MAX_VCPUS : nat := 8.
Definition GICR_CTLR : Z := 0x0000.
Definition GICR_IIDR : Z := 0x0004.
Definition GICR_TYPER : Z := 0x0008.
Definition GICR_STATUSR : Z := 0x0010.
Definition GICR_WAKER : Z := 0x0014.
Definition GICR_PIDR2 : Z := 0xFFE8.
Definition GICR_IGROUPR0 : Z := 0x0080.
Definition GICR_ISENABLER0 : Z := 0x0100.
Definition GICR_ICENABLER0 : Z := 0x0180.
Definition GICR_ISPENDR0 : Z := 0x0200.
Definition GICR_ICPENDR0 : Z := 0x0280.
Definition GICR_ISACTIVER0 : Z := 0x0300.
Definition GICR_ICACTIVER0 : Z := 0x0380.
Definition GICR_IPRIORITYR_BASE : Z := 0x0400.
Definition GICR_IPRIORITYR_END : Z := 0x041C.
Definition GICR_ICFGR0 : Z := 0x0C00.
Definition GICR_ICFGR1 : Z := 0x0C04.

Record GicrState := mkGicr {
  gr_ctlr : Z; gr_waker : Z; gr_igroupr0 : Z; gr_isenabler0 : Z; gr_ispendr0 : Z; gr_isactiver0 : Z;
  gr_ipriorityr : list Z; gr_icfgr : list Z
}.
Definition gicr_state_new : GicrState := mkGicr 0 0x06 0 0 0 0 (replicate 8 0) [0xAAAAAAAA; 0x00000000].

Record VirtualGicr := { gr_state : list GicrState; gr_num_vcpus : nat }.
(** [None]: the assertion of the constructor fails. *)
Definition gicr_new (num_vcpus : nat) : option VirtualGicr :=
  if (num_vcpus <=? GICR_MAX_VCPUS)%nat
  then Some {| gr_state := replicate GICR_MAX_VCPUS gicr_state_new; gr_num_vcpus := num_vcpus |} else None.

Definition typer_value (g : VirtualGicr) (vcpu_id : nat) : Z :=
  let aff0 := Z.shiftl (Z.of_nat vcpu_id) 32 in
  let proc_num := Z.shiftl (Z.of_nat vcpu_id) 8 in
  let last := if (vcpu_id =? gr_num_vcpus g - 1)%nat then Z.shiftl 1 4 else 0 in
  Z.lor (Z.lor aff0 proc_num) last.

Definition decode_offset (g : VirtualGicr) (offset : Z) : option (nat * bool * Z) :=
  let vcpu_id := Z.to_nat (offset / GICR_PER_CPU) in
  if (gr_num_vcpus g <=? vcpu_id)%nat then None else
  let within := offset mod GICR_PER_CPU in
  if within <? 0x10000 then Some (vcpu_id, false, within) else Some (vcpu_id, true, within - 0x10000).

Definition read_rd (g : VirtualGicr) (vcpu_id : nat) (offset size : Z) : option Z :=
  match gr_state g !! vcpu_id with
  | None => None
  | Some st => Some (
      if offset =? GICR_CTLR then gr_ctlr st
      else if offset =? GICR_IIDR then 0x043B
      else if (offset =? GICR_TYPER) && (size =? 8) then typer_value g vcpu_id
      else if (offset =? GICR_TYPER) && (size =? 4) then Z.land (typer_value g vcpu_id) 0xFFFFFFFF
      else if (offset =? 0x000C) && (size =? 4) then Z.shiftr (typer_value g vcpu_id) 32
      else if offset =? GICR_STATUSR then 0
      else if offset =? GICR_WAKER then gr_waker st
      else if offset =? GICR_PIDR2 then 0x30
      else 0)
  end.

Definition write_rd (st : GicrState) (offset value : Z) : GicrState :=
  if offset =? GICR_CTLR then
    mkGicr (u32 value) (gr_waker st) (gr_igroupr0 st) (gr_isenabler0 st) (gr_ispendr0 st) (gr_isactiver0 st)
      (gr_ipriorityr st) (gr_icfgr st)
  else if offset =? GICR_WAKER then
    let sleep := Z.land (u32 value) (Z.shiftl 1 1) in
    mkGicr (gr_ctlr st) (if sleep =? 0 then 0 else Z.lor (Z.shiftl 1 1) (Z.shiftl 1 2)) (gr_igroupr0 st)
      (gr_isenabler0 st) (gr_ispendr0 st) (gr_isactiver0 st) (gr_ipriorityr st) (gr_icfgr st)
  else st.

Definition read_sgi (st : GicrState) (offset : Z) : option Z :=
  Some (
    if offset =? GICR_IGROUPR0 then gr_igroupr0 st
    else if offset =? GICR_ISENABLER0 then gr_isenabler0 st
    else if offset =? GICR_ICENABLER0 then gr_isenabler0 st
    else if offset =? GICR_ISPENDR0 then gr_ispendr0 st
    else if offset =? GICR_ICPENDR0 then gr_ispendr0 st
    else if offset =? GICR_ISACTIVER0 then gr_isactiver0 st
    else if offset =? GICR_ICACTIVER0 then gr_isactiver0 st
    else if in_range GICR_IPRIORITYR_BASE GICR_IPRIORITYR_END offset then
      bank_read (gr_ipriorityr st) 8 ((offset - GICR_IPRIORITYR_BASE) / 4)
    else if offset =? GICR_ICFGR0 then nth 0 (gr_icfgr st) 0
    else if offset =? GICR_ICFGR1 then nth 1 (gr_icfgr st) 0
    else 0).

Definition set_sgi (f : GicrState -> Z * Z * Z * Z) (st : GicrState) : GicrState :=
  let '(grp, en, pend, act) := f st in
  mkGicr (gr_ctlr st) (gr_waker st) grp en pend act (gr_ipriorityr st) (gr_icfgr st).

Definition write_sgi (st : GicrState) (offset value : Z) : GicrState :=
  let val := u32 value in
  let grp := gr_igroupr0 st in let en := gr_isenabler0 st in
  let pend := gr_ispendr0 st in let act := gr_isactiver0 st in
  if offset =? GICR_IGROUPR0 then set_sgi (fun _ => (val, en, pend, act)) st
  else if offset =? GICR_ISENABLER0 then set_sgi (fun _ => (grp, set_bits val en, pend, act)) st
  else if offset =? GICR_ICENABLER0 then set_sgi (fun _ => (grp, clear_bits val en, pend, act)) st
  else if offset =? GICR_ISPENDR0 then set_sgi (fun _ => (grp, en, set_bits val pend, act)) st
  else if offset =? GICR_ICPENDR0 then set_sgi (fun _ => (grp, en, clear_bits val pend, act)) st
  else if offset =? GICR_ISACTIVER0 then set_sgi (fun _ => (grp, en, pend, set_bits val act)) st
  else if offset =? GICR_ICACTIVER0 then set_sgi (fun _ => (grp, en, pend, clear_bits val act)) st
  else if in_range GICR_IPRIORITYR_BASE GICR_IPRIORITYR_END offset then
    mkGicr (gr_ctlr st) (gr_waker st) grp en pend act
      (bank_upd (assign val) 8 ((offset - GICR_IPRIORITYR_BASE) / 4) (gr_ipriorityr st)) (gr_icfgr st)
  else if offset =? GICR_ICFGR0 then st
  else if offset =? GICR_ICFGR1 then
    mkGicr (gr_ctlr st) (gr_waker st) grp en pend act (gr_ipriorityr st) (<[1%nat := val]> (gr_icfgr st))
  else st.

Definition gicr_read (g : VirtualGicr) (offset size : Z) : option Z :=
  match decode_offset g offset with
  | None => None
  | Some (vcpu_id, is_sgi, frame_off) =>
      if is_sgi then match gr_state g !! vcpu_id with Some st => read_sgi st frame_off | None => None end
      else read_rd g vcpu_id frame_off size
  end.

(** [write] always accepts the access. *)
Definition gicr_write (g : VirtualGicr) (offset value size : Z) : VirtualGicr :=
  match decode_offset g offset with
  | Some (vcpu_id, is_sgi, frame_off) =>
      {| gr_state := alter (fun st => if is_sgi then write_sgi st frame_off value else write_rd st frame_off value)
                       vcpu_id (gr_state g);
         gr_num_vcpus := gr_num_vcpus g |}
  | None => g
  end.
Definition gicr_size (g : VirtualGicr) : Z := GICR_PER_CPU * Z.of_nat (gr_num_vcpus g).

(** ** The per-interrupt view *)

(** Bit [n] of a bank of 32-bit words. *)
Definition bank_bit (bank : list Z) (n : Z) : bool := Z.testbit (nth (Z.to_nat (n / 32)) bank 0) (n mod 32).
Definition irq_enabled (d : VirtualGicd) (n : Z) : bool := bank_bit (gd_enabled d) n.
Definition irq_pending_bit (d : VirtualGicd) (n : Z) : bool := bank_bit (gd_ispendr d) n.
Definition irq_active (d : VirtualGicd) (n : Z) : bool := bank_bit (gd_isactiver d) n.

Definition bank_wf (n : nat) (w : Z) (bank : list Z) : Prop := length bank = n /\ Forall (fits w) bank.
Record gicd_wf (d : VirtualGicd) : Prop := {
  gw_ctlr : fits 32 (gd_ctlr d);
  gw_enabled : bank_wf 32 32 (gd_enabled d);
  gw_igroupr : bank_wf 32 32 (gd_igroupr d);
  gw_ipriorityr : bank_wf 256 32 (gd_ipriorityr d);
  gw_icfgr : bank_wf 64 32 (gd_icfgr d);
  gw_ispendr : bank_wf 32 32 (gd_ispendr d);
  gw_isactiver : bank_wf 32 32 (gd_isactiver d);
  gw_irouter : bank_wf 988 64 (gd_irouter d);
  gw_cpus : fits 32 (gd_num_cpus d)
}.

(** ** Banks *)
Lemma nth_alter f i j (l : list Z) : nth j (alter f i l) 0 =
  if decide (i = j /\ (i < length l)%nat) then f (nth j l 0) else nth j l 0.
Proof.
  rewrite !nth_lookup. case_decide as E.
  - destruct E as [-> Hl]. rewrite list_lookup_alter_eq. destruct (lookup_lt_is_Some_2 l j Hl) as [x ->]. done.
  - destruct (decide (i = j)) as [-> |Hne]; [|by rewrite list_lookup_alter_ne].
    rewrite list_lookup_alter_eq, lookup_ge_None_2 by (destruct (decide (j < length l)%nat); [tauto|lia]). done.
Qed.

Lemma bank_upd_wf f n w reg bank : (forall x, fits w x -> fits w (f x)) -> bank_wf n w bank ->
  bank_wf n w (bank_upd f (Z.of_nat n) reg bank).
Proof.
  intros Hf [Hl Hb]. unfold bank_upd. destruct (_ <? _); [|by split]. split; [by rewrite length_alter|].
  apply Forall_alter; [done|]. intros x Hx _. apply Hf, (Forall_lookup_1 _ _ _ _ Hb Hx) || auto.
Qed.

Ltac gic_consts :=
  unfold GICD_CTLR, GICD_TYPER, GICD_IIDR, GICD_IGROUPR_BASE, GICD_IGROUPR_END, GICD_ISENABLER_BASE,
    GICD_ISENABLER_END, GICD_ICENABLER_BASE, GICD_ICENABLER_END, GICD_ISPENDR_BASE, GICD_ISPENDR_END,
    GICD_ICPENDR_BASE, GICD_ICPENDR_END, GICD_ISACTIVER_BASE, GICD_ISACTIVER_END, GICD_ICACTIVER_BASE,
    GICD_ICACTIVER_END, GICD_IPRIORITYR_BASE, GICD_IPRIORITYR_END, GICD_ICFGR_BASE, GICD_ICFGR_END,
    GICD_IROUTER_BASE, GICD_IROUTER_END, GICD_PIDR2 in *.
(** Decide the register an offset falls on. *)
Ltac gic_dec :=
  gic_consts; unfold in_range; zdec; cbn [andb orb negb].

Lemma nth_fits w n bank i : bank_wf n w bank -> 0 <= w -> fits w (nth i bank 0).
Proof.
  intros [_ Hb] Hw. rewrite nth_lookup. destruct (bank !! i) as [x|] eqn:E; [exact (Forall_lookup_1 _ _ _ _ Hb E)|].
  cbn. unfold fits. split; [lia|]. apply Z.pow_pos_nonneg; lia.
Qed.
Lemma bank_read_fits w n bank m reg : bank_wf n w bank -> 0 <= w -> fits w (bank_read bank m reg).
Proof.
  intros. unfold bank_read. destruct (_ <? _); [by eapply nth_fits|]. unfold fits. split; [lia|].
  apply Z.pow_pos_nonneg; lia.
Qed.
Lemma u32_fits x : fits 32 (u32 x).
Proof. apply wrap_fits. lia. Qed.
#[export] Hint Resolve u32_fits : hv.

(** ** The distributor's shadow state is well formed *)
Lemma gicd_new_wf n : gicd_wf (gicd_new n).
Proof.
  assert (Hr : forall k w, 0 <= w -> bank_wf k w (replicate k 0)).
  { intros k w Hw. split; [apply length_replicate|]. apply list.Forall_forall. intros x Hx.
    apply elem_of_replicate in Hx as [-> _]. unfold fits. split; [lia|apply Z.pow_pos_nonneg; lia]. }
  constructor; cbn -[replicate]; try (apply Hr; lia); auto with hv. unfold fits. lia.
Qed.

Lemma write_irouter_wf d offset value : fits 64 value -> gicd_wf d -> gicd_wf (write_irouter d offset value).
Proof.
  intros Hv Hd. unfold write_irouter. destruct (negb _); [done|]. destruct (_ <? _); [|done].
  destruct Hd. constructor; try done. destruct gw_irouter0 as [Hl Hf]. split; [cbn; by rewrite length_insert|].
  cbn. by apply Forall_insert.
Qed.

Lemma read_irouter_fits d offset : gicd_wf d -> fits 64 (or0 (read_irouter d offset)).
Proof.
  intros Hd. unfold read_irouter. destruct (negb _); [cbn; unfold fits; lia|].
  destruct (_ <? _); cbn; [|unfold fits; lia]. eapply nth_fits; [apply Hd|lia].
Qed.

Lemma shiftl32_fits x : fits 32 x -> fits 64 (Z.shiftl x 32).
Proof. unfold fits. rewrite Z.shiftl_mul_pow2 by lia. lia. Qed.
Lemma low32_fits x : fits 32 (Z.land x 0xFFFFFFFF).
Proof. rewrite Z.land_comm. apply land_fits; [lia|unfold fits; lia]. Qed.

Lemma gicd_write_wf d offset value size : fits 64 value -> gicd_wf d -> gicd_wf (gicd_write d offset value size).
Proof.
  intros Hv Hd. unfold gicd_write.
  assert (Hval : fits 32 (u32 (Z.land value 0xFFFFFFFF))) by auto with hv.
  destruct (_ && (size =? 8)); [by apply write_irouter_wf|]. destruct (_ && (size =? 4)).
  { apply write_irouter_wf; [|done]. destruct (_ =? 0); apply lor_fits; try lia;
      try (apply land_fits; [lia|by apply read_irouter_fits]).
    - apply (fits_mono 32); [lia|apply low32_fits].
    - apply shiftl32_fits, low32_fits. }
  destruct (negb _); [done|]. destruct Hd.
  repeat (match goal with |- gicd_wf (if ?c then _ else _) => destruct c end;
    [constructor; try done; cbn [gd_ctlr gd_enabled gd_igroupr gd_ipriorityr gd_icfgr gd_ispendr gd_isactiver
        set_ctlr set_enabled set_igroupr set_ipriorityr set_icfgr set_ispendr set_isactiver];
     first [apply lor_fits; [lia|done|unfold fits; vm_compute; by split]
           |apply (bank_upd_wf _ 32)|apply (bank_upd_wf _ 256)|apply (bank_upd_wf _ 64)];
     unfold set_bits, clear_bits, assign; try done; intros x Hx; by first [apply lor_fits|apply land_fits]|]).
  by constructor.
Qed.

Lemma typer_fits n : fits 32 (Z.lor (Z.lor (Z.lor (Z.lor 31 (Z.shiftl (Z.land n 0x7) 5)) (Z.shiftl 1 24))
  (Z.shiftl 1 25)) (Z.shiftl 9 19)).
Proof.
  do 3 (apply lor_fits; [lia| |by vm_compute]). apply lor_fits; [lia|by vm_compute|].
  apply (fits_mono 8); [lia|]. change 0x7 with (Z.ones 3). rewrite Z.land_ones by lia.
  unfold fits. rewrite Z.shiftl_mul_pow2 by lia. pose proof (Z.mod_pos_bound n (2 ^ 3)). lia.
Qed.

Lemma gicd_read_fits4 d offset : gicd_wf d -> exists v, gicd_read d offset 4 = Some v /\ fits 32 v.
Proof.
  intros Hd. unfold gicd_read. rewrite andb_false_r, andb_true_r. cbn [Z.eqb Pos.eqb negb].
  destruct (in_range GICD_IROUTER_BASE _ _).
  - pose proof (read_irouter_fits d (Z.land offset (not64 7)) Hd) as Hf.
    destruct (_ =? 0); eexists; (split; [reflexivity|]); [apply low32_fits|].
    revert Hf. unfold fits. rewrite Z.shiftr_div_pow2 by lia. Z.to_euclidean_division_equations; lia.
  - eexists. split; [reflexivity|]. destruct Hd.
    repeat (match goal with |- fits 32 (if ?c then _ else _) => destruct c end;
      [first [by (eapply bank_read_fits; [eassumption|lia])|unfold fits; lia|apply lor_fits; [lia|done|unfold fits; vm_compute; by split]|idtac]|]).
    + apply typer_fits.
    + unfold fits. lia.
Qed.

Definition gicd_run (d : VirtualGicd) (ws : list (Z * Z * Z)) : VirtualGicd :=
  fold_left (fun d w => let '(offset, value, size) := w in gicd_write d offset value size) ws d.

(** The distributor's shadow state is well typed under every history of
    guest writes (any offset and access size, 64-bit values): all arrays keep
    their lengths, every word its width, and every 32-bit read is answered
    with a 32-bit value. *)
Theorem gicd_shadow_typed num_cpus ws offset : Forall (fun w => fits 64 w.1.2) ws ->
  let d := gicd_run (gicd_new num_cpus) ws in
  gicd_wf d /\ exists v, gicd_read d offset 4 = Some v /\ fits 32 v.
Proof.
  intros Hws. cbv zeta. assert (gicd_wf (gicd_run (gicd_new num_cpus) ws)) as Hd; [|auto using gicd_read_fits4].
  unfold gicd_run. pose proof (gicd_new_wf num_cpus) as Hd. revert Hd. generalize (gicd_new num_cpus) as d.
  induction Hws as [|[[o v] s] ws Hv _ IH]; intros d Hd; [done|]. cbn [fold_left]. by apply IH, gicd_write_wf.
Qed.
Lemma gicd_shadow_typed_witness :
  gicd_wf (gicd_run (gicd_new 4) [(0x100, 0xFFFFFFFF0000FFFF, 4); (0x6108, 0x1_00000002, 8)]) /\
  exists v, gicd_read (gicd_run (gicd_new 4) [(0x100, 0xFFFFFFFF0000FFFF, 4); (0x6108, 0x1_00000002, 8)]) 0x610C 4 = Some v
    /\ fits 32 v.
Proof.
  apply (gicd_shadow_typed 4 [(0x100, 0xFFFFFFFF0000FFFF, 4); (0x6108, 0x1_00000002, 8)] 0x610C).
  repeat constructor; vm_compute; congruence.
Defined.

(** ** Set and clear registers *)
Inductive bank := BEnable | BPending | BActive.
#[export] Instance bank_eq_dec : EqDecision bank.
Proof. solve_decision. Defined.
Definition set_base (b : bank) : Z :=
  match b with BEnable => GICD_ISENABLER_BASE | BPending => GICD_ISPENDR_BASE | BActive => GICD_ISACTIVER_BASE end.
Definition clear_base (b : bank) : Z :=
  match b with BEnable => GICD_ICENABLER_BASE | BPending => GICD_ICPENDR_BASE | BActive => GICD_ICACTIVER_BASE end.
Definition irq_bit (b : bank) (d : VirtualGicd) (n : Z) : bool :=
  match b with BEnable => irq_enabled d n | BPending => irq_pending_bit d n | BActive => irq_active d n end.
(** Interrupt [n] is named by bit [n mod 32] of word [n / 32]. *)
Definition named (k v n : Z) : bool := (n / 32 =? k) && Z.testbit v (n mod 32).

Lemma bank_bit_upd f g bank k n : length bank = 32%nat -> 0 <= k < 32 -> 0 <= n < 1024 ->
  (forall x i, 0 <= i < 32 -> Z.testbit (f x) i = g (Z.testbit x i) i) ->
  bank_bit (bank_upd f 32 k bank) n = if n / 32 =? k then g (bank_bit bank n) (n mod 32) else bank_bit bank n.
Proof.
  intros Hl Hk Hn Hf. unfold bank_bit, bank_upd. destruct (Z.ltb_spec k 32); [|lia]. rewrite nth_alter.
  assert (0 <= n / 32 < 32) by (Z.to_euclidean_division_equations; lia).
  case_decide as E; destruct (Z.eqb_spec (n / 32) k) as [Ek|Ek].
  - apply Hf. Z.to_euclidean_division_equations; lia.
  - lia.
  - lia.
  - done.
Qed.

Lemma testbit_low32 v i : 0 <= i < 32 -> Z.testbit (u32 (Z.land v 0xFFFFFFFF)) i = Z.testbit v i.
Proof.
  intros Hi. unfold u32. rewrite testbit_wrap by lia. change 0xFFFFFFFF with (Z.ones 32).
  rewrite Z.land_spec, testbit_ones by lia. zdec. by rewrite andb_true_r.
Qed.

Lemma bank_bit_set bank k v n : length bank = 32%nat -> 0 <= k < 32 -> 0 <= n < 1024 ->
  bank_bit (bank_upd (set_bits (u32 (Z.land v 0xFFFFFFFF))) 32 k bank) n = bank_bit bank n || named k v n.
Proof.
  intros Hl Hk Hn. rewrite (bank_bit_upd _ (fun b i => b || Z.testbit v i)) by
    (done || (intros x i Hi; unfold set_bits; by rewrite Z.lor_spec, testbit_low32)).
  unfold named. destruct (_ =? k); cbn; by rewrite ?orb_false_r.
Qed.
Lemma bank_bit_clear bank k v n : length bank = 32%nat -> 0 <= k < 32 -> 0 <= n < 1024 ->
  bank_bit (bank_upd (clear_bits (u32 (Z.land v 0xFFFFFFFF))) 32 k bank) n = bank_bit bank n && negb (named k v n).
Proof.
  intros Hl Hk Hn. rewrite (bank_bit_upd _ (fun b i => b && negb (Z.testbit v i))).
  - unfold named. destruct (_ =? k); cbn; by rewrite ?andb_true_r.
  - done.
  - done.
  - done.
  - intros x i Hi. unfold clear_bits, not32. rewrite Z.land_spec, testbit_notw, testbit_low32 by lia.
    destruct (Z.ltb_spec i 32); [done|lia].
Qed.

Lemma word_index base k : (base + 4 * k - base) / 4 = k.
Proof. replace (base + 4 * k - base) with (k * 4) by lia. by apply Z.div_mul. Qed.

(** The register a set or clear access names. *)
Lemma gicd_write_set b d k v : 0 <= k < 32 ->
  let val := u32 (Z.land v 0xFFFFFFFF) in
  gicd_write d (set_base b + 4 * k) v 4 = match b with
    | BEnable => set_enabled (bank_upd (set_bits val) 32 k (gd_enabled d)) d
    | BPending => set_ispendr (bank_upd (set_bits val) 32 k (gd_ispendr d)) d
    | BActive => set_isactiver (bank_upd (set_bits val) 32 k (gd_isactiver d)) d end.
Proof.
  intros Hk. unfold gicd_write. destruct b; unfold set_base; gic_dec; try lia; by rewrite word_index.
Qed.
Lemma gicd_write_clear b d k v : 0 <= k < 32 ->
  let val := u32 (Z.land v 0xFFFFFFFF) in
  gicd_write d (clear_base b + 4 * k) v 4 = match b with
    | BEnable => set_enabled (bank_upd (clear_bits val) 32 k (gd_enabled d)) d
    | BPending => set_ispendr (bank_upd (clear_bits val) 32 k (gd_ispendr d)) d
    | BActive => set_isactiver (bank_upd (clear_bits val) 32 k (gd_isactiver d)) d end.
Proof.
  intros Hk. unfold gicd_write. destruct b; unfold clear_base; gic_dec; try lia; by rewrite word_index.
Qed.
Lemma gicd_read_bank b d k : 0 <= k < 32 ->
  let w := nth (Z.to_nat k) (match b with BEnable => gd_enabled d | BPending => gd_ispendr d | BActive => gd_isactiver d end) 0 in
  gicd_read d (set_base b + 4 * k) 4 = Some w /\ gicd_read d (clear_base b + 4 * k) 4 = Some w.
Proof.
  intros Hk. unfold gicd_read.
  destruct b; unfold set_base, clear_base; split; gic_dec; try lia; rewrite word_index by lia;
    unfold bank_read; by rewrite (proj2 (Z.ltb_lt k 32)) by lia.
Qed.

(** The distributor's enable, pending and active registers implement one
    bit per interrupt: a 32-bit write to word [k] of a set (clear) register
    sets (clears) the bits of exactly the interrupts it names in its own
    bank, leaves the other two banks and the routing alone, and reading word
    [k] of either register returns the bits of interrupts [32k .. 32k + 31]. *)
Theorem gicd_banks_per_interrupt d b k v : gicd_wf d -> 0 <= k < 32 ->
  (forall c n, 0 <= n < 1024 ->
     irq_bit c (gicd_write d (set_base b + 4 * k) v 4) n =
       (if decide (b = c) then irq_bit c d n || named k v n else irq_bit c d n) /\
     irq_bit c (gicd_write d (clear_base b + 4 * k) v 4) n =
       (if decide (b = c) then irq_bit c d n && negb (named k v n) else irq_bit c d n)) /\
  (forall n, gicd_route_spi (gicd_write d (set_base b + 4 * k) v 4) n = gicd_route_spi d n /\
     gicd_route_spi (gicd_write d (clear_base b + 4 * k) v 4) n = gicd_route_spi d n) /\
  exists w, gicd_read d (set_base b + 4 * k) 4 = Some w /\ gicd_read d (clear_base b + 4 * k) 4 = Some w /\
    forall i, 0 <= i < 32 -> Z.testbit w i = irq_bit b d (32 * k + i).
Proof.
  intros Hd Hk. rewrite gicd_write_set, gicd_write_clear by done. split_and!.
  - intros c n Hn. destruct (gw_enabled _ Hd), (gw_ispendr _ Hd), (gw_isactiver _ Hd).
    destruct b, c; cbn [decide decide_rel bank_eq_dec irq_bit]; unfold irq_enabled, irq_pending_bit, irq_active;
      cbn [gd_enabled gd_ispendr gd_isactiver set_enabled set_ispendr set_isactiver];
      rewrite ?bank_bit_set, ?bank_bit_clear by done; done.
  - intros n. by destruct b.
  - destruct (gicd_read_bank b d k Hk) as [-> ->]. eexists. split_and!; [done..|].
    intros i Hi.
    assert ((32 * k + i) / 32 = k /\ (32 * k + i) mod 32 = i) as [E1 E2] by (Z.to_euclidean_division_equations; lia).
    destruct b; cbn [irq_bit]; unfold irq_enabled, irq_pending_bit, irq_active, bank_bit; by rewrite E1, E2.
Qed.
Lemma gicd_banks_per_interrupt_witness :
  irq_bit BEnable (gicd_write (gicd_new 4) (set_base BEnable + 4 * 1) 0x2 4) 33 = true /\
  irq_bit BPending (gicd_write (gicd_new 4) (set_base BEnable + 4 * 1) 0x2 4) 33 = false.
Proof.
  destruct (gicd_banks_per_interrupt (gicd_new 4) BEnable 1 0x2 (gicd_new_wf 4) ltac:(lia)) as [H _].
  split; [rewrite (proj1 (H BEnable 33 ltac:(lia)))|rewrite (proj1 (H BPending 33 ltac:(lia)))]; reflexivity.
Defined.

(** ** What a history of stores leaves of an interrupt *)

(** One store, as seen by the bit of interrupt [n] in a bank: a word store to
    the word of [n] of the set register sets it if the value names it, one to
    the clear register clears it, every other store leaves it. *)
Definition bit_store (b : bank) (n : Z) (x : bool) (w : Z * Z * Z) : bool :=
  let '(offset, value, size) := w in
  if negb (size =? 4) then x
  else if in_range (set_base b) (set_base b + 0x7C) offset then x || named ((offset - set_base b) / 4) value n
  else if in_range (clear_base b) (clear_base b + 0x7C) offset then x && negb (named ((offset - clear_base b) / 4) value n)
  else x.

Lemma write_irouter_bits b d offset v n : irq_bit b (write_irouter d offset v) n = irq_bit b d n.
Proof. unfold write_irouter. repeat case_match; by destruct b. Qed.
Lemma bit_store_spec b d offset value size n : gicd_wf d -> 0 <= n < 1024 ->
  irq_bit b (gicd_write d offset value size) n = bit_store b n (irq_bit b d n) (offset, value, size).
Proof.
  intros Hd Hn. destruct (gw_enabled _ Hd) as [L1 _], (gw_ispendr _ Hd) as [L2 _], (gw_isactiver _ Hd) as [L3 _].
  unfold gicd_write, bit_store. destruct (Z.eqb_spec size 4) as [->|Hs]; cbn [negb].
  2:{ rewrite andb_false_r. destruct (_ && _); [apply write_irouter_bits|done]. }
  change (4 =? 8) with false. rewrite andb_false_r, andb_true_r.
  set (val := u32 _). destruct b; unfold set_base, clear_base; gic_dec; try lia; try apply write_irouter_bits; try done;
    unfold irq_bit, irq_enabled, irq_pending_bit, irq_active;
    cbn [gd_enabled gd_ispendr gd_isactiver set_enabled set_ispendr set_isactiver];
    (apply bank_bit_set || apply bank_bit_clear); (done || (Z.to_euclidean_division_equations; lia)).
Qed.
Lemma gicd_run_bits b n ws : forall d, gicd_wf d -> 0 <= n < 1024 -> Forall (fun w => fits 64 w.1.2) ws ->
  irq_bit b (gicd_run d ws) n = fold_left (bit_store b n) ws (irq_bit b d n) /\ gicd_wf (gicd_run d ws).
Proof.
  induction ws as [|[[o v] z] ws IH]; intros d Hd Hn HF; [done|]. apply Forall_cons in HF as [Hv HF]. cbn [gicd_run fold_left].
  destruct (IH (gicd_write d o v z) ltac:(by apply gicd_write_wf) Hn HF) as [E Hw]. split; [|exact Hw].
  unfold gicd_run in E. by rewrite E, bit_store_spec.
Qed.

(** C37. The distributor implements one bit per interrupt: after any history of
    guest stores (any offset, any size, any 64-bit value), interrupt [n] is
    enabled, pending or active exactly if its own set register has named it in
    a word store since its own clear register last did, whatever else was
    written; every array keeps its length and every register its width; and a
    word load from the set or the clear register of a bank returns the bits of
    the 32 interrupts of that word. *)
Theorem gicd_history_per_interrupt num_cpus ws b : Forall (fun w => fits 64 w.1.2) ws ->
  let d := gicd_run (gicd_new num_cpus) ws in
  gicd_wf d /\
  (forall n, 0 <= n < 1024 -> irq_bit b d n = fold_left (bit_store b n) ws false) /\
  (forall k, 0 <= k < 32 -> exists w, gicd_read d (set_base b + 4 * k) 4 = Some w /\ gicd_read d (clear_base b + 4 * k) 4 = Some w /\
     forall i, 0 <= i < 32 -> Z.testbit w i = fold_left (bit_store b (32 * k + i)) ws false).
Proof.
  intros HF. cbv zeta. set (d := gicd_run _ _).
  assert (Hbit : forall n, 0 <= n < 1024 -> irq_bit b d n = fold_left (bit_store b n) ws false).
  { intros n Hn. destruct (gicd_run_bits b n ws (gicd_new num_cpus) (gicd_new_wf _) Hn HF) as [E _]. unfold d. rewrite E. f_equal.
    assert (Hz : forall l i, nth i (replicate l 0) 0 = 0)
      by (intros l i; rewrite nth_lookup; destruct (_ !! i) as [x|] eqn:Ex; [by apply lookup_replicate in Ex as [-> _]|done]).
    destruct b; unfold irq_bit, irq_enabled, irq_pending_bit, irq_active, bank_bit, gicd_new; cbn [gd_enabled gd_ispendr gd_isactiver];
      rewrite Hz; apply Z.testbit_0_l. }
  split; [by destruct (gicd_run_bits b 0 ws (gicd_new num_cpus) (gicd_new_wf _) ltac:(lia) HF)|]. split; [exact Hbit|].
  intros k Hk. destruct (gicd_read_bank b d k Hk) as [-> ->]. eexists. split_and!; [done..|].
  intros i Hi. rewrite <- Hbit by lia.
  assert ((32 * k + i) / 32 = k /\ (32 * k + i) mod 32 = i) as [E1 E2] by (Z.to_euclidean_division_equations; lia).
  destruct b; cbn [irq_bit]; unfold irq_enabled, irq_pending_bit, irq_active, bank_bit; by rewrite E1, E2.
Qed.
(** SPIs 32 to 63 are enabled, SPI 33 is disabled again; a byte store to the
    same register and a word store to the pending bank change nothing. *)
Definition ex_gicd_stores : list (Z * Z * Z) := [(0x104, 0xFFFFFFFF, 4); (0x184, 2, 4); (0x104, 2, 1); (0x204, 2, 4)].
Lemma gicd_history_per_interrupt_witness :
  let d := gicd_run (gicd_new 4) ex_gicd_stores in
  irq_bit BEnable d 33 = false /\ irq_bit BEnable d 34 = true /\ irq_bit BPending d 33 = true.
Proof.
  assert (HF : Forall (fun w : Z * Z * Z => fits 64 w.1.2) ex_gicd_stores) by (repeat constructor; vm_compute; congruence).
  destruct (gicd_history_per_interrupt 4 ex_gicd_stores BEnable HF) as (_ & He & _).
  destruct (gicd_history_per_interrupt 4 ex_gicd_stores BPending HF) as (_ & Hp & _). cbv zeta in *.
  rewrite (He 33) by lia. rewrite (He 34) by lia. rewrite (Hp 33) by lia. split; [reflexivity|]. split; reflexivity.
Defined.

(** ** Routing *)
Definition irouter_off (intid : Z) : Z := GICD_IROUTER_BASE + 8 * (intid - 32).

Lemma irouter_align n : 0 <= n < 988 ->
  Z.land (GICD_IROUTER_BASE + 8 * n - GICD_IROUTER_BASE) 0x7 = 0 /\
  (GICD_IROUTER_BASE + 8 * n - GICD_IROUTER_BASE) / 8 = n.
Proof.
  intros Hn. replace (GICD_IROUTER_BASE + 8 * n - GICD_IROUTER_BASE) with (n * 8) by lia.
  change 0x7 with (Z.ones 3). rewrite Z.land_ones by lia. split; [by apply Z.mod_mul|by apply Z.div_mul].
Qed.

Lemma write_irouter_at d n v : gicd_wf d -> 0 <= n < 988 ->
  write_irouter d (GICD_IROUTER_BASE + 8 * n) v = set_irouter (<[Z.to_nat n := v]> (gd_irouter d)) d.
Proof.
  intros Hd Hn. destruct (irouter_align n Hn) as [E1 E2]. unfold write_irouter. rewrite E1, E2.
  destruct (gw_irouter _ Hd) as [-> _]. by rewrite (proj2 (Z.ltb_lt n _)) by lia.
Qed.
Lemma read_irouter_at d n : gicd_wf d -> 0 <= n < 988 ->
  read_irouter d (GICD_IROUTER_BASE + 8 * n) = Some (nth (Z.to_nat n) (gd_irouter d) 0).
Proof.
  intros Hd Hn. destruct (irouter_align n Hn) as [E1 E2]. unfold read_irouter. rewrite E1, E2.
  destruct (gw_irouter _ Hd) as [-> _]. by rewrite (proj2 (Z.ltb_lt n _)) by lia.
Qed.

Lemma irouter_half n h : 0 <= n < 988 -> h = 0 \/ h = 4 ->
  Z.land (GICD_IROUTER_BASE + 8 * n + h) (not64 0x7) = GICD_IROUTER_BASE + 8 * n /\
  (Z.land (GICD_IROUTER_BASE + 8 * n + h) 0x4 =? 0) = (h =? 0).
Proof.
  intros Hn Hh. unfold GICD_IROUTER_BASE. split.
  - unfold not64. change 0x7 with (2 ^ 3 - 1). rewrite land_notw_low by (unfold fits; lia).
    assert ((0x6100 + 8 * n + h) mod 2 ^ 3 = h) as ->; [|lia].
    replace (0x6100 + 8 * n + h) with (h + (3104 + n) * 2 ^ 3) by lia. rewrite Z.mod_add by lia.
    apply Z.mod_small. lia.
  - change 0x4 with (Z.shiftl 1 2). rewrite land_bit_zero by lia.
    replace (Z.testbit (0x6100 + 8 * n + h) 2) with (Z.odd ((0x6100 + 8 * n + h) / 2 ^ 2)) by
      (rewrite Z.testbit_odd, Z.shiftr_div_pow2 by lia; done).
    replace ((0x6100 + 8 * n + h) / 2 ^ 2) with (2 * (3104 + n) + h / 4) by
      (replace (0x6100 + 8 * n + h) with (h + 2 * (3104 + n) * 2 ^ 2) by lia; rewrite Z.div_add by lia;
       change (2 ^ 2) with 4; lia).
    rewrite Z.odd_add_mul_2 || rewrite Z.add_comm, Z.odd_add_mul_2. destruct Hh as [-> | ->]; reflexivity.
Qed.

Definition lo32 (v : Z) : Z := v mod 2 ^ 32.
Definition hi32 (v : Z) : Z := v / 2 ^ 32.
Definition mix (h v old : Z) : Z :=
  if h =? 0 then Z.lor (Z.land old 0xFFFFFFFF00000000) (Z.land v 0xFFFFFFFF)
  else Z.lor (Z.land old 0x00000000FFFFFFFF) (Z.shiftl (Z.land v 0xFFFFFFFF) 32).

Lemma gicd_write_half d n h v : gicd_wf d -> 0 <= n < 987 -> h = 0 \/ h = 4 ->
  gicd_write d (GICD_IROUTER_BASE + 8 * n + h) v 4 =
  set_irouter (<[Z.to_nat n := mix h v (nth (Z.to_nat n) (gd_irouter d) 0)]> (gd_irouter d)) d.
Proof.
  intros Hd Hn Hh. unfold gicd_write.
  assert (in_range GICD_IROUTER_BASE GICD_IROUTER_END (GICD_IROUTER_BASE + 8 * n + h) = true) as -> by
    (unfold in_range; gic_consts; rewrite andb_true_iff, !Z.leb_le; lia).
  destruct (irouter_half n h ltac:(lia) Hh) as [-> ->]. cbn [andb Z.eqb Pos.eqb].
  rewrite read_irouter_at, write_irouter_at by (done || lia). done.
Qed.

Lemma mask_lo x : Z.land x 0xFFFFFFFF = x mod 2 ^ 32.
Proof. change 0xFFFFFFFF with (Z.ones 32). by rewrite Z.land_ones by lia. Qed.
Lemma mask_hi x : fits 64 x -> Z.land x 0xFFFFFFFF00000000 = Z.shiftl (x / 2 ^ 32) 32.
Proof.
  intros Hx. change 0xFFFFFFFF00000000 with (bmask 32 32). rewrite <- Z.shiftr_div_pow2 by lia. bit_ext i Hi.
  destruct (Z.leb_spec 32 i); cbn [andb]; [|by rewrite andb_false_r].
  rewrite testbit_shiftr by lia. replace (i - 32 + 32) with i by lia.
  destruct (Z.ltb_spec i (32 + 32)); [by rewrite andb_true_r|].
  by rewrite (testbit_fits 64 x) by (done || lia).
Qed.
Lemma mix_lo v old : fits 64 old -> mix 0 v old = hi32 old * 2 ^ 32 + lo32 v.
Proof.
  intros Ho. unfold mix. cbn [Z.eqb]. rewrite mask_hi, mask_lo by done. unfold hi32, lo32.
  apply lor_disjoint_add; [lia|]. unfold fits. pose proof (Z.mod_pos_bound v (2 ^ 32)). lia.
Qed.
Lemma mix_hi v old : mix 4 v old = lo32 v * 2 ^ 32 + lo32 old.
Proof.
  unfold mix. cbn [Z.eqb]. rewrite !mask_lo, Z.lor_comm. unfold lo32.
  apply lor_disjoint_add; [lia|]. unfold fits. pose proof (Z.mod_pos_bound old (2 ^ 32)). lia.
Qed.

Lemma mix_both v old : fits 64 v -> fits 64 old ->
  mix 4 (hi32 v) (mix 0 (lo32 v) old) = v /\ mix 0 (lo32 v) (mix 4 (hi32 v) old) = v.
Proof.
  intros Hv Ho. split.
  - rewrite mix_hi, mix_lo by done. unfold hi32, lo32, fits in *. Z.to_euclidean_division_equations; lia.
  - rewrite mix_lo, mix_hi; [|rewrite mix_hi]; unfold hi32, lo32, fits in *; Z.to_euclidean_division_equations; lia.
Qed.

Lemma gicd_write_whole d n v : gicd_wf d -> 0 <= n < 988 ->
  gicd_write d (GICD_IROUTER_BASE + 8 * n) v 8 = set_irouter (<[Z.to_nat n := v]> (gd_irouter d)) d.
Proof.
  intros Hd Hn. unfold gicd_write.
  assert (in_range GICD_IROUTER_BASE GICD_IROUTER_END (GICD_IROUTER_BASE + 8 * n) = true) as -> by
    (unfold in_range; gic_consts; rewrite andb_true_iff, !Z.leb_le; lia).
  cbn [andb Z.eqb Pos.eqb]. by apply write_irouter_at.
Qed.

(** SPI routing follows GICD_IROUTER: after a 64-bit write of [v] to the
    register of an SPI, that SPI is routed to the vCPU of affinity 0 of [v] and
    every other INTID as before; writing the two 32-bit halves in either
    order leaves exactly the state of the 64-bit write (for every SPI but the
    last, 1019, whose upper half lies outside the decoded range). *)
Theorem spi_routing_exact d intid v : gicd_wf d -> 32 <= intid < 1020 -> fits 64 v ->
  let d' := gicd_write d (irouter_off intid) v 8 in
  (forall i, gicd_route_spi d' i = if i =? intid then Z.land v 0xFF else gicd_route_spi d i) /\
  (intid < 1019 ->
   gicd_write (gicd_write d (irouter_off intid) (lo32 v) 4) (irouter_off intid + 4) (hi32 v) 4 = d' /\
   gicd_write (gicd_write d (irouter_off intid + 4) (hi32 v) 4) (irouter_off intid) (lo32 v) 4 = d').
Proof.
  intros Hd Hi Hv. cbv zeta. unfold irouter_off. set (n := intid - 32).
  assert (0 <= n < 988) as Hn by lia. destruct (gw_irouter _ Hd) as [Hlen _]. rewrite gicd_write_whole by done. split.
  - intros i. unfold gicd_route_spi. cbn [gd_irouter set_irouter]. rewrite list_insert_alter, nth_alter, Hlen.
    destruct (Z.ltb_spec i 32), (Z.leb_spec 1020 i); cbn [orb]; destruct (Z.eqb_spec i intid); try lia; try done.
    + by rewrite decide_True by lia.
    + by rewrite decide_False by lia.
  - intros Hlast. rewrite <- (Z.add_0_r (GICD_IROUTER_BASE + 8 * n)).
    pose proof (nth_fits 64 988 (gd_irouter d) (Z.to_nat n) (gw_irouter _ Hd) ltac:(lia)) as Hold.
    assert (Hw : forall h x, fits 64 x -> gicd_wf (gicd_write d (GICD_IROUTER_BASE + 8 * n + h) x 4)) by
      (intros; by apply gicd_write_wf).
    assert (fits 64 (lo32 v) /\ fits 64 (hi32 v)) as [Hl Hh] by
      (unfold fits, lo32, hi32 in *; split; Z.to_euclidean_division_equations; lia).
    destruct (mix_both v _ Hv Hold) as [E1 E2].
    assert (Hnth : forall x, nth (Z.to_nat n) (<[Z.to_nat n := x]> (gd_irouter d)) 0 = x).
    { intros x. rewrite nth_lookup, list_lookup_insert_eq by lia. done. }
    replace (GICD_IROUTER_BASE + 8 * n + 0 + 4) with (GICD_IROUTER_BASE + 8 * n + 4) by lia.
    split; (rewrite gicd_write_half; [|by apply Hw|lia|tauto]);
      (rewrite gicd_write_half; [|done|lia|tauto]); cbn [gd_irouter set_irouter]; rewrite Hnth, ?E1, ?E2;
      unfold set_irouter; cbn [gd_ctlr gd_enabled gd_igroupr gd_ipriorityr gd_icfgr gd_ispendr gd_isactiver gd_num_cpus];
      by rewrite list_insert_insert_eq.
Qed.
Lemma spi_routing_exact_witness :
  gicd_route_spi (gicd_write (gicd_new 4) (irouter_off 33) 2 8) 33 = 2 /\
  gicd_route_spi (gicd_write (gicd_new 4) (irouter_off 33) 2 8) 48 = 0.
Proof.
  destruct (spi_routing_exact (gicd_new 4) 33 2 (gicd_new_wf 4) ltac:(lia) ltac:(unfold fits; lia)) as [H _].
  rewrite (H 33), (H 48). split; reflexivity.
Defined.

(** ** Redistributor frames *)
Definition gicr_wf (g : VirtualGicr) : Prop :=
  length (gr_state g) = GICR_MAX_VCPUS /\ (gr_num_vcpus g <= GICR_MAX_VCPUS)%nat.
Definition frame_off (i : nat) (sgi : bool) (off : Z) : Z :=
  GICR_PER_CPU * Z.of_nat i + (if sgi then 0x10000 else 0) + off.

Lemma decode_frame g i sgi off : (i < gr_num_vcpus g)%nat -> 0 <= off < 0x10000 ->
  decode_offset g (frame_off i sgi off) = Some (i, sgi, off).
Proof.
  intros Hi Ho. unfold decode_offset, frame_off, GICR_PER_CPU.
  set (x := (if sgi then 0x10000 else 0) + off). assert (0 <= x < 0x20000) as Hx by (unfold x; destruct sgi; lia).
  replace (0x20000 * Z.of_nat i + (if sgi then 0x10000 else 0) + off) with (x + Z.of_nat i * 0x20000) by (unfold x; lia).
  rewrite Z.div_add, Z.mod_add, Z.div_small, Z.mod_small, Z.add_0_l, Nat2Z.id by lia.
  destruct (Nat.leb_spec (gr_num_vcpus g) i); [lia|]. unfold x in *.
  destruct sgi; [destruct (Z.ltb_spec (0x10000 + off) 0x10000)|destruct (Z.ltb_spec (0 + off) 0x10000)]; try lia;
    do 2 f_equal; lia.
Qed.

Lemma frame_cover g off : 0 <= off < gicr_size g ->
  exists i sgi fo, off = frame_off i sgi fo /\ (i < gr_num_vcpus g)%nat /\ 0 <= fo < 0x10000.
Proof.
  unfold gicr_size, frame_off, GICR_PER_CPU. intros Ho.
  pose proof (Z.div_mod off 0x20000 ltac:(lia)) as E. pose proof (Z.mod_pos_bound off 0x20000 ltac:(lia)) as B.
  assert (0 <= off / 0x20000 < Z.of_nat (gr_num_vcpus g)) as Hq by (split; [apply Z.div_pos|apply Z.div_lt_upper_bound]; lia).
  exists (Z.to_nat (off / 0x20000)).
  destruct (Z.ltb_spec (off mod 0x20000) 0x10000);
    [exists false, (off mod 0x20000)|exists true, (off mod 0x20000 - 0x10000)]; split_and!; lia.
Qed.

Lemma typer_sum g i : (i < 256)%nat ->
  typer_value g i = Z.of_nat i * 2 ^ 32 + Z.of_nat i * 2 ^ 8 + (if (i =? gr_num_vcpus g - 1)%nat then 2 ^ 4 else 0).
Proof.
  intros Hi. unfold typer_value. rewrite <- Z.lor_assoc.
  assert (Hl : Z.lor (Z.shiftl (Z.of_nat i) 8) (if (i =? gr_num_vcpus g - 1)%nat then Z.shiftl 1 4 else 0) =
    Z.of_nat i * 2 ^ 8 + (if (i =? gr_num_vcpus g - 1)%nat then 2 ^ 4 else 0)).
  { destruct (_ =? _)%nat; apply lor_disjoint_add; unfold fits; lia. }
  rewrite Hl, lor_disjoint_add; [lia|lia|]. destruct (_ =? _)%nat; unfold fits; lia.
Qed.

(** The redistributor region is one frame pair per vCPU: every offset of
    the region belongs to exactly one vCPU's frame and is answered; a write
    through it leaves the state of every other vCPU untouched; and GICR_TYPER,
    read whole or in halves, carries the vCPU's own affinity and processor
    number with the bit Last set for the last vCPU only, so that a guest
    walking the frames up to Last finds each vCPU once. *)
Theorem gicr_frames_per_vcpu g : gicr_wf g ->
  (forall off value size, 0 <= off < gicr_size g ->
     exists i sgi fo, off = frame_off i sgi fo /\ (i < gr_num_vcpus g)%nat /\ 0 <= fo < 0x10000 /\
       is_Some (gicr_read g off size) /\
       forall j, j <> i -> gr_state (gicr_write g off value size) !! j = gr_state g !! j) /\
  (forall i, (i < gr_num_vcpus g)%nat -> exists t,
     gicr_read g (frame_off i false GICR_TYPER) 8 = Some t /\
     gicr_read g (frame_off i false GICR_TYPER) 4 = Some (t mod 2 ^ 32) /\
     gicr_read g (frame_off i false 0xC) 4 = Some (t / 2 ^ 32) /\
     t / 2 ^ 32 = Z.of_nat i /\ (t / 2 ^ 8) mod 2 ^ 16 = Z.of_nat i /\
     Z.testbit t 4 = (S i =? gr_num_vcpus g)%nat).
Proof.
  intros [Hlen Hmax]. unfold GICR_MAX_VCPUS in *. split.
  - intros off value size Ho. destruct (frame_cover g off Ho) as (i & sgi & fo & -> & Hi & Hfo).
    exists i, sgi, fo. split_and!; try done; try lia; unfold gicr_read, gicr_write; rewrite decode_frame by done.
    + destruct (lookup_lt_is_Some_2 (gr_state g) i) as [st E]; [lia|]. rewrite E. unfold read_rd. rewrite E.
      destruct sgi; eauto.
    + intros j Hj. cbn. by apply list_lookup_alter_ne.
  - intros i Hi. destruct (lookup_lt_is_Some_2 (gr_state g) i) as [st E]; [lia|].
    exists (typer_value g i). unfold gicr_read. rewrite !decode_frame by (done || (unfold GICR_TYPER; lia)).
    unfold read_rd. rewrite E.
    change (GICR_TYPER =? GICR_CTLR) with false. change (0xC =? GICR_CTLR) with false.
    change (GICR_TYPER =? GICR_IIDR) with false. change (0xC =? GICR_IIDR) with false.
    change (GICR_TYPER =? GICR_TYPER) with true. change (0xC =? GICR_TYPER) with false.
    change (0xC =? 0xC) with true. cbn [andb Z.eqb Pos.eqb].
    rewrite mask_lo, Z.shiftr_div_pow2, typer_sum by lia. split_and!; try done.
    + destruct (_ =? _)%nat; Z.to_euclidean_division_equations; lia.
    + destruct (_ =? _)%nat; Z.to_euclidean_division_equations; lia.
    + rewrite Z.testbit_odd, Z.shiftr_div_pow2 by lia.
      destruct (Nat.eqb_spec i (gr_num_vcpus g - 1)), (Nat.eqb_spec (S i) (gr_num_vcpus g)); try lia.
      * replace (Z.of_nat i * 2 ^ 32 + Z.of_nat i * 2 ^ 8 + 2 ^ 4) with ((1 + 2 * (Z.of_nat i * 2 ^ 27 + Z.of_nat i * 2 ^ 3)) * 2 ^ 4) by lia.
        rewrite Z.div_mul by lia. by rewrite Z.odd_add_mul_2.
      * replace (Z.of_nat i * 2 ^ 32 + Z.of_nat i * 2 ^ 8 + 0) with ((0 + 2 * (Z.of_nat i * 2 ^ 27 + Z.of_nat i * 2 ^ 3)) * 2 ^ 4) by lia.
        rewrite Z.div_mul by lia. by rewrite Z.odd_add_mul_2.
Qed.
Lemma gicr_frames_per_vcpu_witness :
  exists g, gicr_new 4 = Some g /\ exists t, gicr_read g (frame_off 3 false GICR_TYPER) 8 = Some t /\ Z.testbit t 4 = true.
Proof.
  eexists. split; [reflexivity|].
  destruct (gicr_frames_per_vcpu {| gr_state := replicate GICR_MAX_VCPUS gicr_state_new; gr_num_vcpus := 4 |}) as [_ H];
    [split; [reflexivity|cbn; unfold GICR_MAX_VCPUS; lia]|].
  destruct (H 3%nat ltac:(cbn; lia)) as (t & H1 & _ & _ & _ & _ & H2). exists t. split; [exact H1|exact H2].
Defined.
