(* ===== verification/PrimeCell.v ===== *)
(** * PrimeCell: the emulated UART and real-time clock

    [devices/pl011/emulator.rs] (the PL011 whose receive ring the hypervisor
    fills) and [devices/pl031.rs] (the PL031 counting seconds of the
    architectural counter).  Bytes written to the physical UART are an output
    of the operation; the counter and its frequency are read from the machine
    and given as arguments. *)

From Stdlib Require Import ZArith Lia Bool.
From stdpp Require Import base decidable option list strings.
From S2P Require Import Prelude Rings.

(** ** PL011 *)
Definition UART_SIZE : Z := 0x1000.
Definition UARTDR : Z := 0x000.
Definition UARTRSR : Z := 0x004.
Definition UARTFR : Z := 0x018.
Definition UARTILPR : Z := 0x020.
Definition UARTIBRD : Z := 0x024.
Definition UARTFBRD : Z := 0x028.
Definition UARTLCR_H : Z := 0x02C.
Definition UARTCR : Z := 0x030.
Definition UARTIFLS : Z := 0x034.
Definition UARTIMSC : Z := 0x038.
Definition UARTRIS : Z := 0x03C.
Definition UARTMIS : Z := 0x040.
Definition UARTICR : Z := 0x044.
Definition UARTDMACR : Z := 0x048.
Definition FR_TXFE : Z := Z.shiftl 1 7.
Definition FR_RXFF : Z := Z.shiftl 1 6.
Definition FR_RXFE : Z := Z.shiftl 1 4.
Definition INT_RX : Z := Z.shiftl 1 4.
Definition INT_TX : Z := Z.shiftl 1 5.
Definition UART_SPI_INTID : Z := 33.
Definition RX_BUF_SIZE : nat := 64.

(** [rx_buf], [rx_head] and [rx_tail] are the ring. *)
Record VirtualUart := mkUart {
  ua_cr : Z; ua_lcr_h : Z; ua_ibrd : Z; ua_fbrd : Z; ua_ifls : Z; ua_imsc : Z; ua_ris : Z; ua_dmacr : Z;
  ua_rx : ring Z
}.
Definition uart_new : VirtualUart :=
  mkUart 0x0301 0x60 1 0 0x12 0 0 0 {| rg_slots := replicate RX_BUF_SIZE 0; rg_head := 0; rg_tail := 0 |}.
Definition set_rx (ris : Z) (r : ring Z) (u : VirtualUart) : VirtualUart :=
  mkUart (ua_cr u) (ua_lcr_h u) (ua_ibrd u) (ua_fbrd u) (ua_ifls u) (ua_imsc u) ris (ua_dmacr u) r.

Definition push_rx (u : VirtualUart) (ch : Z) : VirtualUart :=
  let r := ua_rx u in
  let next_tail := ((rg_tail r + 1) mod RX_BUF_SIZE)%nat in
  if (next_tail =? rg_head r)%nat then u else
  set_rx (Z.lor (ua_ris u) INT_RX) (set_rg_tail (set_slot r (rg_tail r) ch) next_tail) u.

Definition pop_rx (u : VirtualUart) : VirtualUart * option Z :=
  let r := ua_rx u in
  if (rg_head r =? rg_tail r)%nat then (u, None) else
  let ch := rg_slots r !! rg_head r in
  let r := set_rg_head r ((rg_head r + 1) mod RX_BUF_SIZE)%nat in
  let ris := if (rg_head r =? rg_tail r)%nat then Z.land (ua_ris u) (not32 INT_RX) else ua_ris u in
  (set_rx ris r u, ch).

Definition rx_has_data (u : VirtualUart) : bool := negb (rg_head (ua_rx u) =? rg_tail (ua_rx u))%nat.

Definition get_flags (u : VirtualUart) : Z :=
  let fr := FR_TXFE in
  let fr := if rx_has_data u then fr else Z.lor fr FR_RXFE in
  let count := ((rg_tail (ua_rx u) + RX_BUF_SIZE - rg_head (ua_rx u)) mod RX_BUF_SIZE)%nat in
  if (RX_BUF_SIZE - 1 <=? count)%nat then Z.lor fr FR_RXFF else fr.

(** The identification registers at 0xFE0 .. 0xFFC. *)
Definition uart_id (offset : Z) : Z :=
  match offset with
  | 0xFE0 => 0x11 | 0xFE4 => 0x10 | 0xFE8 => 0x14 | 0xFEC => 0x00
  | 0xFF0 => 0x0D | 0xFF4 => 0xF0 | 0xFF8 => 0x05 | 0xFFC => 0xB1
  | _ => 0
  end.

Definition size_124 (size : Z) : bool := (size =? 1) || (size =? 2) || (size =? 4).

Definition uart_read (u : VirtualUart) (offset size : Z) : VirtualUart * option Z :=
  if negb (size_124 size) then (u, Some 0) else
  if offset =? UARTDR then
    let (u, o) := pop_rx u in (u, Some (match o with Some ch => ch | None => 0 end))
  else (u, Some (
    if offset =? UARTRSR then 0
    else if offset =? UARTFR then get_flags u
    else if offset =? UARTILPR then 0
    else if offset =? UARTIBRD then ua_ibrd u
    else if offset =? UARTFBRD then ua_fbrd u
    else if offset =? UARTLCR_H then ua_lcr_h u
    else if offset =? UARTCR then ua_cr u
    else if offset =? UARTIFLS then ua_ifls u
    else if offset =? UARTIMSC then ua_imsc u
    else if offset =? UARTRIS then ua_ris u
    else if offset =? UARTMIS then Z.land (ua_ris u) (ua_imsc u)
    else if offset =? UARTDMACR then ua_dmacr u
    else uart_id offset)).

(** [write]: the device, whether the access was accepted, and the bytes sent
    to the physical UART. *)
Definition uart_write (u : VirtualUart) (offset value size : Z) : VirtualUart * bool * list Z :=
  if negb (size_124 size) then (u, false, []) else
  let regs cr lcr_h ibrd fbrd ifls imsc ris dmacr :=
    (mkUart cr lcr_h ibrd fbrd ifls imsc ris dmacr (ua_rx u), true, []) in
  let '(mkUart cr lcr_h ibrd fbrd ifls imsc ris dmacr _) := u in
  if offset =? UARTDR then
    (mkUart cr lcr_h ibrd fbrd ifls imsc (Z.lor ris INT_TX) dmacr (ua_rx u), true, [u8 (Z.land value 0xFF)])
  else if offset =? UARTRSR then (u, true, [])
  else if offset =? UARTILPR then (u, true, [])
  else if offset =? UARTIBRD then regs cr lcr_h (u32 (Z.land value 0xFFFF)) fbrd ifls imsc ris dmacr
  else if offset =? UARTFBRD then regs cr lcr_h ibrd (u32 (Z.land value 0x3F)) ifls imsc ris dmacr
  else if offset =? UARTLCR_H then regs cr (u32 (Z.land value 0xFF)) ibrd fbrd ifls imsc ris dmacr
  else if offset =? UARTCR then regs (u32 (Z.land value 0xFFFF)) lcr_h ibrd fbrd ifls imsc ris dmacr
  else if offset =? UARTIFLS then regs cr lcr_h ibrd fbrd (u32 (Z.land value 0x3F)) imsc ris dmacr
  else if offset =? UARTIMSC then regs cr lcr_h ibrd fbrd ifls (u32 (Z.land value 0x7FF)) ris dmacr
  else if offset =? UARTICR then regs cr lcr_h ibrd fbrd ifls imsc (Z.land ris (not32 (u32 value))) dmacr
  else if offset =? UARTDMACR then regs cr lcr_h ibrd fbrd ifls imsc ris (u32 (Z.land value 0x07))
  else (u, true, []).

Definition uart_pending_irq (u : VirtualUart) : option Z :=
  if negb (Z.land (ua_ris u) (ua_imsc u) =? 0) then Some UART_SPI_INTID else None.

(** The drain of the physical ring in [run_one_iteration]: every byte goes to
    the emulated UART. *)
Fixpoint drain_uart_rx (fuel : nat) (r : UartRxRing) (u : VirtualUart) : option (UartRxRing * VirtualUart) :=
  match fuel with
  | O => None
  | S fuel =>
      match uart_ring_pop r with
      | (r, Some ch) => drain_uart_rx fuel r (push_rx u ch)
      | (r, None) => Some (r, u)
      end
  end.

(** ** PL031 *)
Definition PL031_BASE : Z := 0x09010000.
Definition PL031_SIZE : Z := 0x1000.
Definition RTCDR : Z := 0x000.
Definition RTCMR : Z := 0x004.
Definition RTCLR : Z := 0x008.
Definition RTCCR : Z := 0x00C.
Definition RTCIMSC : Z := 0x010.
Definition RTCRIS : Z := 0x014.
Definition RTCMIS : Z := 0x018.
Definition RTCICR : Z := 0x01C.

Record VirtualPl031 := mkRtc {
  load_value : Z; load_counter : Z; match_value : Z; control : Z; rtc_imsc : Z; rtc_ris : Z
}.
Definition pl031_new (cntvct : Z) : VirtualPl031 := mkRtc 0 cntvct 0 1 0 0.

Definition current_time (cntvct cntfrq : Z) (d : VirtualPl031) : Z :=
  if Z.land (control d) 1 =? 0 then load_value d else
  if cntfrq =? 0 then load_value d else
  let elapsed_ticks := u64 (cntvct - load_counter d) in
  let elapsed_seconds := elapsed_ticks / cntfrq in
  u64 (load_value d + elapsed_seconds).

Definition rtc_id (offset : Z) : Z :=
  match offset with
  | 0xFE0 => 0x31 | 0xFE4 => 0x10 | 0xFE8 => 0x04 | 0xFEC => 0x00
  | 0xFF0 => 0x0D | 0xFF4 => 0xF0 | 0xFF8 => 0x05 | 0xFFC => 0xB1
  | _ => 0
  end.

Definition pl031_read (cntvct cntfrq : Z) (d : VirtualPl031) (offset size : Z) : option Z :=
  if negb (size =? 4) then Some 0 else
  Some (
    if offset =? RTCDR then current_time cntvct cntfrq d
    else if offset =? RTCMR then match_value d
    else if offset =? RTCLR then 0
    else if offset =? RTCCR then control d
    else if offset =? RTCIMSC then rtc_imsc d
    else if offset =? RTCRIS then rtc_ris d
    else if offset =? RTCMIS then Z.land (rtc_ris d) (rtc_imsc d)
    else if offset =? RTCICR then 0
    else rtc_id offset).

Definition pl031_write (cntvct : Z) (d : VirtualPl031) (offset value size : Z) : VirtualPl031 * bool :=
  if negb (size =? 4) then (d, false) else
  let '(mkRtc lv lc mv ctl imsc ris) := d in
  (if offset =? RTCMR then mkRtc lv lc (u32 value) ctl imsc ris
   else if offset =? RTCLR then mkRtc (Z.land value 0xFFFFFFFF) cntvct mv ctl imsc ris
   else if offset =? RTCCR then mkRtc lv lc mv (u32 (Z.land value 1)) imsc ris
   else if offset =? RTCIMSC then mkRtc lv lc mv ctl (u32 (Z.land value 1)) ris
   else if offset =? RTCICR then mkRtc lv lc mv ctl imsc (Z.land ris (not32 (u32 value)))
   else d, true).

(** ** The receive side is a bounded FIFO *)
Inductive uart_event :=
| UPush (ch : Z)                     (* a byte from the physical UART *)
| URead (offset size : Z)            (* guest load *)
| UWrite (offset value size : Z).    (* guest store *)
Definition uart_step (u : VirtualUart) (ev : uart_event) : VirtualUart :=
  match ev with
  | UPush ch => push_rx u ch
  | URead offset size => (uart_read u offset size).1
  | UWrite offset value size => (uart_write u offset value size).1.1
  end.
Definition uart_run (u : VirtualUart) (evs : list uart_event) : VirtualUart := fold_left uart_step evs u.

(** The specification: a queue of at most 63 bytes. *)
Definition fifo_step (q : list Z) (ev : uart_event) : list Z :=
  match ev with
  | UPush ch => if (length q <? RX_BUF_SIZE - 1)%nat then q ++ [ch] else q
  | URead offset size => if size_124 size && (offset =? UARTDR) then tl q else q
  | UWrite _ _ _ => q
  end.
Definition fifo_run (q : list Z) (evs : list uart_event) : list Z := fold_left fifo_step evs q.

Record uart_rel (u : VirtualUart) (q : list Z) : Prop := {
  ur_ring : ring_rel RX_BUF_SIZE (ua_rx u) q;
  ur_ris : Z.testbit (ua_ris u) 4 = true -> q <> []
}.

Lemma uart_new_rel : uart_rel uart_new [].
Proof. split; [apply (ring_new_rel RX_BUF_SIZE 0); unfold RX_BUF_SIZE; lia|done]. Qed.

Lemma push_rx_rel u q ch : uart_rel u q -> uart_rel (push_rx u ch) (fifo_step q (UPush ch)).
Proof.
  intros [Hr Hi]. unfold push_rx, fifo_step. rewrite (ring_full RX_BUF_SIZE _ _ Hr).
  pose proof (rr_cap _ _ _ Hr) as Hcap. unfold RX_BUF_SIZE in *.
  destruct (Nat.eqb_spec (length q) (64 - 1)), (Nat.ltb_spec (length q) (64 - 1)); try lia; [by split|].
  split; cbn [set_rx ua_rx ua_ris]; [|intros _; by destruct q].
  refine (ring_publish 64 (set_slot (ua_rx u) (rg_tail (ua_rx u)) ch) q ch _ _ _); [by apply ring_set_tail_slot|lia|].
  cbn. apply list_lookup_insert_eq. rewrite (rr_len _ _ _ Hr). by apply (ring_tail_lt 64 _ q).
Qed.

Lemma pop_rx_rel u q : uart_rel u q ->
  let (u', o) := pop_rx u in uart_rel u' (tl q) /\ o = head q.
Proof.
  intros [Hr Hi]. unfold pop_rx. rewrite (ring_empty RX_BUF_SIZE _ _ Hr).
  destruct q as [|v q]; cbn [length Nat.eqb]; [by split|].
  destruct (ring_head_slot RX_BUF_SIZE _ _ _ Hr) as (s & Hs & Hv). cbn in Hv. subst s. rewrite Hs.
  pose proof (ring_consume RX_BUF_SIZE _ _ _ Hr) as Hr'. rewrite (ring_empty RX_BUF_SIZE _ _ Hr').
  split; [|done]. split; [done|]. cbn [set_rx ua_ris tl]. destruct q; cbn [length Nat.eqb]; [|done].
  unfold not32. rewrite Z.land_spec, testbit_notw by lia. cbn. by rewrite andb_false_r.
Qed.

Lemma uart_write_rel u q offset value size : uart_rel u q -> uart_rel (uart_write u offset value size).1.1 q.
Proof.
  intros Hu. unfold uart_write. destruct (negb _); [done|]. destruct u as [cr lcr ibrd fbrd ifls imsc ris dma r].
  repeat (match goal with |- uart_rel (if ?c then _ else _).1.1 _ => destruct c end; [destruct Hu as [Hr Hi]; split; [exact Hr|cbn [ua_ris fst snd] in *; auto]|]);
    try done.
  - rewrite Z.lor_spec. change (Z.testbit INT_TX 4) with false. by rewrite orb_false_r.
  - rewrite Z.land_spec, andb_true_iff. intros [? _]; auto.
Qed.

Lemma uart_step_rel u q ev : uart_rel u q -> uart_rel (uart_step u ev) (fifo_step q ev).
Proof.
  intros Hu. destruct ev as [ch|offset size|offset value size]; cbn [uart_step].
  - by apply push_rx_rel.
  - unfold uart_read, fifo_step. destruct (size_124 size); cbn [negb andb]; [|done]. destruct (offset =? UARTDR); [|done].
    pose proof (pop_rx_rel u q Hu) as H. destruct (pop_rx u) as [u' o]. apply H.
  - by apply uart_write_rel.
Qed.

Lemma uart_run_rel evs : forall u q, uart_rel u q -> uart_rel (uart_run u evs) (fifo_run q evs).
Proof.
  induction evs as [|ev evs IH]; intros u q Hu; [done|]. cbn. by apply IH, uart_step_rel.
Qed.

Lemma ring_count (r : ring Z) (q : list Z) : ring_rel RX_BUF_SIZE r q ->
  ((rg_tail r + RX_BUF_SIZE - rg_head r) mod RX_BUF_SIZE)%nat = length q.
Proof.
  intros []. unfold RX_BUF_SIZE in *. rewrite rr_tail.
  destruct (Nat.ltb_spec (rg_head r + length q) 64).
  - rewrite (Nat.mod_small (_ + _)) by lia. replace (rg_head r + length q + 64 - rg_head r)%nat with (length q + 1 * 64)%nat by lia.
    rewrite Nat.Div0.mod_add. by apply Nat.mod_small.
  - replace (rg_head r + length q)%nat with (rg_head r + length q - 64 + 1 * 64)%nat by lia.
    rewrite Nat.Div0.mod_add, (Nat.mod_small (_ - 64)) by lia. rewrite Nat.mod_small; lia.
Qed.

(** The emulated UART's receive side is a FIFO of 63 bytes: after any
    history of received bytes and guest accesses, a load of UARTDR (1, 2 or 4
    bytes wide) returns the oldest byte not yet read, 0 when there is none;
    UARTFR shows RXFE exactly when the queue is empty and RXFF exactly when it
    is full; and the receive interrupt is raised only while bytes are
    waiting. *)
Theorem uart_rx_is_fifo evs size : size_124 size = true ->
  let u := uart_run uart_new evs in
  let q := fifo_run [] evs in
  (uart_read u UARTDR size).2 = Some (List.hd 0 q) /\
  (exists fr, (uart_read u UARTFR size).2 = Some fr /\
     Z.testbit fr 4 = bool_decide (q = []) /\ Z.testbit fr 6 = (length q =? 63)%nat) /\
  (length q <= 63)%nat /\
  (q = [] -> Z.testbit (ua_ris u) 4 = false).
Proof.
  intros Hs. cbv zeta. pose proof (uart_run_rel evs uart_new [] uart_new_rel) as Hu.
  set (u := uart_run uart_new evs) in *. set (q := fifo_run [] evs) in *. clearbody u q.
  destruct Hu as [Hr Hi] eqn:E. clear E. pose proof (rr_cap _ _ _ Hr) as Hcap. unfold RX_BUF_SIZE in Hcap. split_and!.
  - unfold uart_read. rewrite Hs. cbn [negb]. pose proof (pop_rx_rel u q ltac:(by split)) as H.
    change (UARTDR =? UARTDR) with true. destruct (pop_rx u) as [u' o]. destruct H as [_ ->]. by destruct q.
  - exists (get_flags u). unfold uart_read. rewrite Hs. split; [done|].
    unfold get_flags, rx_has_data. rewrite (ring_count _ _ Hr), (ring_empty RX_BUF_SIZE _ _ Hr).
    assert ((RX_BUF_SIZE - 1 <=? length q)%nat = (length q =? 63)%nat) as -> by
      (unfold RX_BUF_SIZE; destruct (Nat.leb_spec (64 - 1) (length q)), (Nat.eqb_spec (length q) 63); lia || done).
    destruct q as [|b q]; [by split|]. rewrite bool_decide_false by done. cbn [length Nat.eqb negb].
    destruct (length q =? 62)%nat; by split.
  - lia.
  - intros ->. destruct (Z.testbit (ua_ris u) 4); [by destruct Hi|done].
Qed.
Lemma uart_rx_is_fifo_witness :
  (uart_read (uart_run uart_new [UPush 65; UPush 66; URead 0 4; UWrite UARTIMSC 0x10 4]) UARTDR 1).2 = Some 66.
Proof. apply (uart_rx_is_fifo [UPush 65; UPush 66; URead 0 4; UWrite UARTIMSC 0x10 4] 1). reflexivity. Defined.

(** ** From the physical ring to the guest *)
Lemma uart_pop_rel (r : UartRxRing) (q : list Z) : ring_rel UART_RX_RING_SIZE r q ->
  let (r', o) := uart_ring_pop r in o = head q /\ ring_rel UART_RX_RING_SIZE r' (tl q).
Proof.
  intros Hr. unfold uart_ring_pop. rewrite (ring_empty UART_RX_RING_SIZE _ _ Hr).
  destruct q as [|v q]; cbn [length Nat.eqb]; [by split|].
  destruct (ring_head_slot UART_RX_RING_SIZE _ _ _ Hr) as (s & Hs & Hv). cbn in Hv. subst s. rewrite Hs.
  split; [done|]. exact (ring_consume UART_RX_RING_SIZE _ _ _ Hr).
Qed.

Lemma fifo_push_take q ch : (length q <= 63)%nat -> fifo_step q (UPush ch) = take 63 (q ++ [ch]).
Proof.
  intros Hq. cbn [fifo_step]. unfold RX_BUF_SIZE. destruct (Nat.ltb_spec (length q) (64 - 1)).
  - rewrite take_ge; [done|rewrite length_app; cbn; lia].
  - by rewrite take_app_le, take_ge by lia.
Qed.

Lemma drain_uart_rx_rel p : forall fuel r u q, (length p < fuel)%nat ->
  ring_rel UART_RX_RING_SIZE r p -> uart_rel u q ->
  exists r' u', drain_uart_rx fuel r u = Some (r', u') /\
    ring_rel UART_RX_RING_SIZE r' ([] : list Z) /\ uart_rel u' (take 63 (q ++ p)).
Proof.
  induction p as [|ch p IH]; intros fuel r u q Hf Hr Hu; destruct fuel as [|fuel]; cbn [length] in Hf; try lia;
    pose proof (rr_cap _ _ _ (ur_ring _ _ Hu)) as Hcap; unfold RX_BUF_SIZE in Hcap;
    pose proof (uart_pop_rel r _ Hr) as Hpop; cbn [drain_uart_rx]; destruct (uart_ring_pop r) as [r1 o];
    destruct Hpop as [-> Hr1]; cbn [head tl] in *.
  - exists r1, u. rewrite app_nil_r, take_ge by lia. done.
  - destruct (IH fuel r1 (push_rx u ch) (fifo_step q (UPush ch)) ltac:(lia) Hr1 (push_rx_rel _ _ _ Hu))
      as (r' & u' & -> & Hr' & Hu'). exists r', u'. split_and!; [done..|].
    rewrite fifo_push_take in Hu' by lia. rewrite (cons_middle ch), app_assoc.
    destruct (Nat.leb_spec (length (q ++ [ch])) 63) as [Hl|Hl].
    + by rewrite (take_ge (q ++ [ch])) in Hu'.
    + rewrite (take_app_le _ _ 63) by lia. rewrite take_app_le in Hu'; [by rewrite take_idemp in Hu'|].
      rewrite length_take. lia.
Qed.

(** Draining the physical receive ring terminates (within its 63 bytes
    and one last look) and loses no byte while the emulated UART has room:
    the ring is left empty and the guest's queue is extended by the ring's
    bytes in order, cut at 63 bytes. *)
Theorem uart_drain_total r u p q fuel : (64 <= fuel)%nat ->
  ring_rel UART_RX_RING_SIZE r p -> uart_rel u q ->
  exists r' u', drain_uart_rx fuel r u = Some (r', u') /\
    ring_rel UART_RX_RING_SIZE r' ([] : list Z) /\ uart_rel u' (take 63 (q ++ p)).
Proof.
  intros Hf Hr Hu. pose proof (rr_cap _ _ _ Hr) as Hc. unfold UART_RX_RING_SIZE in Hc.
  apply drain_uart_rx_rel; [lia|done..].
Qed.
Lemma uart_drain_total_witness :
  exists r' u', drain_uart_rx 64 (uart_ring_push (uart_ring_push uart_ring_new 72) 105) uart_new = Some (r', u') /\
    ring_rel UART_RX_RING_SIZE r' ([] : list Z) /\ uart_rel u' [72; 105].
Proof.
  refine (uart_drain_total (uart_ring_push (uart_ring_push uart_ring_new 72) 105) uart_new [72; 105] [] 64 _ _ uart_new_rel);
    [lia|].
  split; cbn; unfold UART_RX_RING_SIZE; try lia; try reflexivity.
  intros [|[|k]] v Hk; cbn in Hk; try discriminate; injection Hk as <-; eexists; split; reflexivity.
Defined.

(** ** The clock counts seconds *)

(** The real-time clock counts the seconds of the counter: from the store
    of [t] to RTCLR at counter value [c], with the clock enabled and a nonzero
    frequency, a load of RTCDR [ticks] later (also across a wrap of the
    counter) returns [t] plus the whole seconds elapsed; loads never go
    backwards; and a disabled clock stands still. *)
Theorem rtc_counts_seconds d t c ticks ticks' freq :
  0 <= t < 2 ^ 32 -> fits 64 c -> 0 <= ticks <= ticks' -> 2 <= freq -> ticks' < 2 ^ 64 -> control d = 1 ->
  let d1 := (pl031_write c d RTCLR t 4).1 in
  let d0 := (pl031_write c d1 RTCCR 0 4).1 in
  pl031_read (u64 (c + ticks)) freq d1 RTCDR 4 = Some (t + ticks / freq) /\
  t + ticks / freq <= t + ticks' / freq /\
  pl031_read (u64 (c + ticks)) freq d0 RTCDR 4 = Some t.
Proof.
  intros Ht Hc Htk Hf Hmax Hctl. destruct d as [lv lc mv ctl imsc ris]. cbn in Hctl. subst ctl. cbv zeta.
  unfold pl031_write, pl031_read. cbn [negb Z.eqb Pos.eqb RTCMR RTCLR RTCCR RTCDR fst].
  assert (Z.land t 0xFFFFFFFF = t) as -> by (change 0xFFFFFFFF with (Z.ones 32); rewrite Z.land_ones by lia; by apply Z.mod_small).
  unfold current_time. cbn [control load_value load_counter].
  change (Z.land 1 1 =? 0) with false. change (Z.land (u32 (Z.land 0 1)) 1 =? 0) with true. cbn [negb].
  assert ((freq =? 0) = false) as -> by (apply Z.eqb_neq; lia).
  assert (u64 (u64 (c + ticks) - c) = ticks) as ->.
  { unfold u64, wrap. rewrite Zminus_mod_idemp_l. replace (c + ticks - c) with ticks by lia. apply Z.mod_small. lia. }
  assert (0 <= ticks / freq <= ticks / 2) as Hq by
    (split; [apply Z.div_pos; lia|apply Z.div_le_compat_l; lia]).
  assert (ticks / 2 < 2 ^ 63) by (apply Z.div_lt_upper_bound; lia).
  split_and!; [|apply Z.add_le_mono_l, Z.div_le_mono; lia|done].
  f_equal. unfold u64. rewrite wrap_id by (unfold fits; lia). done.
Qed.
Lemma rtc_counts_seconds_witness :
  pl031_read (u64 (2 ^ 64 - 5 + 130)) 62 (pl031_write (2 ^ 64 - 5) (pl031_new 0) RTCLR 1000 4).1 RTCDR 4 = Some 1002.
Proof.
  apply (rtc_counts_seconds (pl031_new 0) 1000 (2 ^ 64 - 5) 130 130 62); try lia; try reflexivity.
  unfold fits. lia.
Defined.
