(* ===== verification/Platform.v ===== *)
(** * Platform: board constants, platform discovery and console printing

    [platform.rs], [dtb.rs] and [manifest.rs], and the number printers of
    [lib.rs], [main.rs] and [gicv3.rs].  The device-tree parser is the crate
    [fdt], which is not part of the repository: the parsed tree is an
    argument, a record of what the code reads from it. *)

From Stdlib Require Import ZArith Lia Bool.
From stdpp Require Import base decidable option list strings.
From S2P Require Import Prelude Memory.

(** ** Board constants *)
Definition GIC_REGION_BASE : Z := 0x08000000.
Definition GIC_REGION_SIZE : Z := 8 * (2 * 1024 * 1024).
Definition VIRTIO_DISK_ADDR : Z := 0x58000000.
Definition VIRTIO_DISK_SIZE : Z := 2 * 1024 * 1024.
Definition VIRTIO_MMIO_BASE : Z := 0x0a000000.
Definition VIRTIO_MMIO_STRIDE : Z := 0x200.
Definition VIRTIO_SPI_BASE : Z := 48.
Definition virtio_slot (n : Z) : Z * Z := (VIRTIO_MMIO_BASE + n * VIRTIO_MMIO_STRIDE, u32 (VIRTIO_SPI_BASE + n)).
Definition MAX_SMP_CPUS : nat := 8.
Definition SMP_CPUS : nat := 4.

(** ** [PlatformInfo] *)
Record PlatformInfo := mkPlatform {
  uart_base : Z; gicd_base : Z; gicr_base : Z; gicr_region_size : Z; pi_num_cpus : nat; ram_base : Z; ram_size : Z
}.
Definition PLATFORM_DEFAULT : PlatformInfo :=
  mkPlatform 0x09000000 0x08000000 0x080A0000 0 4 0x40000000 0x40000000.
(** Offsets in the redistributor's frames. *)
Definition GICR_WAKER_OFF : Z := 0x014.
Definition GICR_IGROUPR0_OFF : Z := 0x080.
Definition GICR_ISENABLER0_OFF : Z := 0x100.
Definition gicr_rd_base (pi : PlatformInfo) (cpu_id : nat) : Z := u64 (gicr_base pi + Z.of_nat cpu_id * 0x20000).
Definition gicr_sgi_base (pi : PlatformInfo) (cpu_id : nat) : Z := u64 (gicr_rd_base pi cpu_id + 0x10000).

(** A [reg] entry of the tree: starting address and optional size. *)
Record fdt_reg := { fr_start : Z; fr_size : option Z }.
(** What the crate reports: the regions of /memory, the [reg] lists of the
    first nodes compatible with arm,pl011 and arm,gic-v3 ([None] without such
    a node or property), the CPU nodes, and the integer properties of
    /attribute. *)
Record fdt := {
  fdt_memory : list fdt_reg;
  fdt_pl011 : option (list fdt_reg);
  fdt_gicv3 : option (list fdt_reg);
  fdt_cpus : nat;
  fdt_attribute : string -> option Z
}.

(** [u32::from_be] of a 32-bit little-endian load. *)
Definition bswap32 (x : Z) : Z :=
  Z.lor (Z.lor (Z.shiftl (Z.land x 0xFF) 24) (Z.shiftl (Z.land (Z.shiftr x 8) 0xFF) 16))
    (Z.lor (Z.shiftl (Z.land (Z.shiftr x 16) 0xFF) 8) (Z.land (Z.shiftr x 24) 0xFF)).
Definition validate_dtb_address (m : mem) (addr : Z) : bool :=
  if addr =? 0 then false else
  if (addr <? 0x40000000) || (0x80000000 <=? addr) then false else
  bswap32 (read32 m addr) =? 0xD00DFEED.

Section Discovery.
(** [fdt::Fdt::from_ptr] at an address of the memory. *)
Context (from_ptr : mem -> Z -> option fdt).

Definition parse_host_dtb (m : mem) (dtb_addr : Z) : option PlatformInfo :=
  if negb (validate_dtb_address m dtb_addr) then None else
  match from_ptr m dtb_addr with
  | None => None
  | Some t =>
      let '(rb, rs) := match fdt_memory t with
        | region :: _ => (fr_start region, match fr_size region with Some s => s | None => 0 end)
        | [] => (0x40000000, 0)
        end in
      let ub := match fdt_pl011 t with Some (r :: _) => fr_start r | _ => 0x09000000 end in
      let '(gd, gr, gs) := match fdt_gicv3 t with
        | Some (d :: r :: _) => (fr_start d, fr_start r, match fr_size r with Some s => s | None => 0 end)
        | Some [d] => (fr_start d, 0x080A0000, 0)
        | _ => (0x08000000, 0x080A0000, 0)
        end in
      let cpus := if (0 <? fdt_cpus t)%nat then fdt_cpus t else 4%nat in
      Some (mkPlatform ub gd gr gs cpus rb rs)
  end.

Definition dtb_init (m : mem) (dtb_addr : Z) (info : PlatformInfo * bool) : PlatformInfo * bool :=
  match parse_host_dtb m dtb_addr with Some i => (i, true) | None => info end.

(** ** The manifest of the secure partition manager *)
Record SpMcManifest := { mf_spmc_id : Z; mf_maj_ver : Z; mf_min_ver : Z }.
Definition manifest_defaults : SpMcManifest := {| mf_spmc_id := 0x8000; mf_maj_ver := 1; mf_min_ver := 1 |}.
Definition manifest_init (m : mem) (manifest_addr : Z) : SpMcManifest :=
  if manifest_addr =? 0 then manifest_defaults else
  match from_ptr m manifest_addr with
  | Some t =>
      let prop name d := u16 (match fdt_attribute t name with Some v => v | None => d end) in
      {| mf_spmc_id := prop "spmc_id"%string 0x8000; mf_maj_ver := prop "maj_ver"%string 1;
         mf_min_ver := prop "min_ver"%string 1 |}
  | None => manifest_defaults
  end.
End Discovery.

(** ** Printing numbers *)
Definition HEX_CHARS : list Z := [48; 49; 50; 51; 52; 53; 54; 55; 56; 57; 97; 98; 99; 100; 101; 102].
(** [uart_put_hex]: the bytes sent. *)
Definition uart_put_hex (value : Z) : list Z :=
  map (fun i => nth (Z.to_nat (Z.land (Z.shiftr value ((15 - Z.of_nat i) * 4)) 0xF)) HEX_CHARS 0) (seq 0 16).

(** The digit loop of [uart_put_u64] ([cap] = 20) and [print_u32] ([cap] = 10):
    the buffer, least significant digit first; an index past [cap] panics. *)
Fixpoint digit_loop (cap fuel : nat) (num : Z) (buffer : list Z) : option (result (list Z) string) :=
  match fuel with
  | O => None
  | S fuel =>
      if 0 <? num then
        if (length buffer <? cap)%nat
        then digit_loop cap fuel (num / 10) (buffer ++ [u8 (48 + u8 (num mod 10))])
        else Some (Err "index out of bounds"%string)
      else Some (Ok buffer)
  end.
Definition put_decimal (cap fuel : nat) (value : Z) : option (result (list Z) string) :=
  if value =? 0 then Some (Ok [48]) else
  match digit_loop cap fuel value [] with
  | Some (Ok buffer) => Some (Ok (rev buffer))
  | x => x
  end.
Definition uart_put_u64 (fuel : nat) (value : Z) := put_decimal 20 fuel value.
Definition print_u32 (fuel : nat) (value : Z) := put_decimal 10 fuel value.
(** [print_num] of gicv3.rs: the recursion prints the leading digits first. *)
Fixpoint print_num (fuel : nat) (n : Z) : option (list Z) :=
  match fuel with
  | O => None
  | S fuel =>
      match (if 10 <=? n then print_num fuel (n / 10) else Some []) with
      | Some l => Some (l ++ [u8 (48 + u8 (n mod 10))])
      | None => None
      end
  end.
(** [print_digit] of main.rs *)
Definition print_digit (digit : Z) : list Z := [u8 (48 + digit)].

(** ** The printed digits *)
Definition dec_value (l : list Z) : Z := fold_left (fun a d => 10 * a + (d - 48)) l 0.
Definition is_digit (d : Z) : Prop := 48 <= d <= 57.
(** Digits with the most significant first, no superfluous zero. *)
Definition decimal_of (v : Z) (l : list Z) : Prop :=
  dec_value l = v /\ Forall is_digit l /\ (List.hd 0 l = 48 -> l = [48]) /\ l <> [].

Lemma digit_val n : 0 <= n -> u8 (48 + u8 (n mod 10)) = 48 + n mod 10.
Proof.
  intros Hn. pose proof (Z.mod_pos_bound n 10). unfold u8. rewrite !(wrap_id 8); unfold fits; try lia.
  rewrite wrap_id; unfold fits; lia.
Qed.

Lemma dec_value_app l d : dec_value (l ++ [d]) = 10 * dec_value l + (d - 48).
Proof. unfold dec_value. by rewrite fold_left_app. Qed.

Lemma decimal_of_snoc v l : 10 <= v -> decimal_of (v / 10) l -> decimal_of v (l ++ [48 + v mod 10]).
Proof.
  intros Hv (H1 & H2 & H3 & H4). pose proof (Z.mod_pos_bound v 10). split_and!.
  - rewrite dec_value_app, H1. pose proof (Z.div_mod v 10). lia.
  - apply Forall_app. split; [done|]. constructor; [unfold is_digit; lia|constructor].
  - destruct l as [|d l]; [done|]. cbn [app List.hd] in *. intros Hd. specialize (H3 Hd). injection H3 as -> ->.
    unfold dec_value in H1. cbn in H1. assert (1 <= v / 10) by (apply Z.div_le_lower_bound; lia). lia.
  - by destruct l.
Qed.
Lemma decimal_of_digit v : 0 <= v < 10 -> decimal_of v [48 + v mod 10].
Proof.
  intros Hv. rewrite Z.mod_small by lia. split_and!; [unfold dec_value; cbn; lia| |cbn; intros; f_equal; lia|done].
  constructor; [unfold is_digit; lia|constructor].
Qed.

Lemma digit_loop_spec k : forall cap fuel num buffer, 0 < num < 10 ^ Z.of_nat k -> (length buffer + k <= cap)%nat -> (k < fuel)%nat ->
  exists ds, digit_loop cap fuel num buffer = Some (Ok (buffer ++ ds)) /\ decimal_of num (rev ds) /\ (length ds <= k)%nat.
Proof.
  induction k as [|k IH]; intros cap fuel num buffer Hn Hb Hf; [cbn in Hn; lia|].
  destruct fuel as [|fuel]; [lia|]. cbn [digit_loop]. rewrite (proj2 (Z.ltb_lt 0 num)) by lia.
  rewrite (proj2 (Nat.ltb_lt (length buffer) cap)) by lia. rewrite digit_val by lia.
  rewrite Nat2Z.inj_succ, Z.pow_succ_r in Hn by lia.
  destruct (Z.leb_spec 10 num) as [Hge|Hlt].
  - assert (0 < num / 10 < 10 ^ Z.of_nat k) as Hd by (split; [apply Z.div_str_pos; lia|apply Z.div_lt_upper_bound; lia]).
    destruct (IH cap fuel (num / 10) (buffer ++ [48 + num mod 10]) Hd ltac:(rewrite length_app; cbn; lia) ltac:(lia))
      as (ds & -> & Hds & Hl).
    exists ((48 + num mod 10) :: ds). rewrite <- app_assoc. split_and!; [done| |cbn; lia].
    cbn [rev]. by apply decimal_of_snoc.
  - rewrite Z.div_small by lia. exists [48 + num mod 10]. split_and!; [|apply decimal_of_digit; lia|cbn; lia].
    destruct fuel; [lia|]. done.
Qed.

Lemma put_decimal_spec k fuel v : 0 <= v < 10 ^ Z.of_nat k -> (k < fuel)%nat -> (0 < k)%nat ->
  exists l, put_decimal k fuel v = Some (Ok l) /\ decimal_of v l /\ (length l <= k)%nat.
Proof.
  intros Hv Hf Hk. unfold put_decimal. destruct (Z.eqb_spec v 0) as [-> |Hne].
  - exists [48]. split_and!; [done| |cbn; lia]. apply (decimal_of_digit 0). lia.
  - destruct (digit_loop_spec k k fuel v [] ltac:(lia) ltac:(cbn; lia) Hf) as (ds & -> & Hd & Hl).
    exists (rev ds). cbn [app]. rewrite length_rev. done.
Qed.

Lemma print_num_spec k : forall n fuel, 0 <= n < 10 ^ Z.of_nat k -> (k < fuel)%nat -> (0 < k)%nat ->
  exists l, print_num fuel n = Some l /\ decimal_of n l /\ (length l <= k)%nat.
Proof.
  induction k as [|k IH]; intros n fuel Hn Hf Hk; [lia|]. destruct fuel as [|fuel]; [lia|]. cbn [print_num].
  rewrite digit_val by lia. rewrite Nat2Z.inj_succ, Z.pow_succ_r in Hn by lia.
  destruct (Z.leb_spec 10 n) as [Hge|Hlt].
  - destruct k as [|k]; [cbn in Hn; lia|].
    destruct (IH (n / 10) fuel) as (l & -> & Hl & Hlen); [|lia|lia|].
    { split; [apply Z.div_pos; lia|apply Z.div_lt_upper_bound; lia]. }
    eexists. split_and!; [reflexivity|by apply decimal_of_snoc|rewrite length_app; cbn; lia].
  - eexists. split_and!; [reflexivity|apply decimal_of_digit; lia|cbn; lia].
Qed.

(** The decimal printers terminate within their buffers and print the
    number: [uart_put_u64] needs at most its 20 digits for every u64,
    [print_u32] and [print_num] at most 10 for every u32, none indexes past
    its buffer, and the digits, most significant first and without leading
    zeros, denote the value. *)
Theorem decimal_printers_exact v :
  (fits 64 v -> exists l, uart_put_u64 21 v = Some (Ok l) /\ decimal_of v l /\ (length l <= 20)%nat) /\
  (fits 32 v -> exists l, print_u32 11 v = Some (Ok l) /\ decimal_of v l /\ (length l <= 10)%nat) /\
  (fits 32 v -> exists l, print_num 11 v = Some l /\ decimal_of v l /\ (length l <= 10)%nat).
Proof.
  unfold fits. split_and!; intros Hv; [apply (put_decimal_spec 20)|apply (put_decimal_spec 10)|apply (print_num_spec 10)]; lia.
Qed.
Lemma decimal_printers_exact_witness :
  exists l, uart_put_u64 21 (2 ^ 64 - 1) = Some (Ok l) /\ decimal_of (2 ^ 64 - 1) l /\ (length l <= 20)%nat.
Proof. apply (decimal_printers_exact (2 ^ 64 - 1)). unfold fits. lia. Defined.
