(* ===== verification/Drivers.v ===== *)
(** * Drivers: the physical devices the hypervisor programs itself

    The GICv2 driver ([peripherals/gic.rs]), the PL011 driver ([uart.rs]), the
    redistributor accesses of [ensure_vtimer_enabled] ([vm.rs]) and
    [secondary_enter_guest] ([main.rs]), and the start of the other cores by
    firmware ([wake_secondary_pcpus] of [guest_loader.rs], the stacks of
    [boot.S]).

    A driver is the list of the 32-bit writes it makes, in order, as a
    function of what it reads; the values of polled registers are streams
    indexed by the number of the poll, and the firmware is an argument. *)

From Stdlib Require Import ZArith Lia Bool.
From stdpp Require Import base decidable option list strings.
From S2P Require Import Prelude Memory Platform.

Abbreviation reg_write := (Z * Z)%type.
(** The writes as seen by registers that are plain memory. *)
Definition bus_apply (m : mem) (l : list reg_write) : mem := fold_left (fun m w => write32 m w.1 w.2) l m.

(** ** GICv2 *)
Module Gicv2.
Definition V2_GICD_CTLR : Z := 0x000.
Definition V2_GICD_TYPER : Z := 0x004.
Definition GICD_ISENABLER : Z := 0x100.
Definition GICD_ICENABLER : Z := 0x180.
Definition GICD_ICPENDR : Z := 0x280.
Definition GICD_IPRIORITYR : Z := 0x400.
Definition GICD_ITARGETSR : Z := 0x800.
Definition GICC_CTLR : Z := 0x000.
Definition GICC_PMR : Z := 0x004.
Definition GICC_IAR : Z := 0x00C.
Definition GICC_EOIR : Z := 0x010.

Record GicDistributor := { gicd_at : Z }.
Definition write_reg (base offset value : Z) : reg_write := (base + offset, value).
(** [typer] is what the read of GICD_TYPER returns. *)
Definition it_lines (typer : Z) : Z := (Z.land typer 0x1F + 1) * 32.
Definition distributor_init (d : GicDistributor) (typer : Z) : list reg_write :=
  let w := write_reg (gicd_at d) in
  let words := map Z.of_nat (seq 0 (Z.to_nat (it_lines typer / 32))) in
  [w V2_GICD_CTLR 0] ++
  map (fun i => w (GICD_ICENABLER + i * 4) 0xFFFFFFFF) words ++
  map (fun i => w (GICD_ICPENDR + i * 4) 0xFFFFFFFF) words ++
  map (fun i => w (GICD_IPRIORITYR + Z.of_nat i) 0xA0) (seq 0 (Z.to_nat (it_lines typer))) ++
  [w V2_GICD_CTLR 1].
Definition enable_irq (d : GicDistributor) (irq : Z) : reg_write :=
  write_reg (gicd_at d) (GICD_ISENABLER + irq / 32 * 4) (Z.shiftl 1 (irq mod 32)).
Definition disable_irq (d : GicDistributor) (irq : Z) : reg_write :=
  write_reg (gicd_at d) (GICD_ICENABLER + irq / 32 * 4) (Z.shiftl 1 (irq mod 32)).
Definition set_priority (d : GicDistributor) (irq priority : Z) : reg_write :=
  write_reg (gicd_at d) (GICD_IPRIORITYR + irq) priority.

Record GicCpuInterface := { gicc_at : Z }.
Definition cpu_interface_init (c : GicCpuInterface) : list reg_write :=
  [write_reg (gicc_at c) GICC_PMR 0xFF; write_reg (gicc_at c) GICC_CTLR 1].
(** The address [acknowledge] reads. *)
Definition acknowledge (c : GicCpuInterface) : Z := gicc_at c + GICC_IAR.
Definition end_of_interrupt (c : GicCpuInterface) (irq : Z) : reg_write := write_reg (gicc_at c) GICC_EOIR irq.

(** Priority of an interrupt in the byte-wide registers of the distributor. *)
Definition priority_of (d : GicDistributor) (m : mem) (irq : Z) : Z := read8 m (gicd_at d + GICD_IPRIORITYR + irq).

Lemma write32_byte m a v x : write32 m a v x = if in_range a 4 x then (v / 256 ^ (x - a)) mod 256 else m x.
Proof. reflexivity. Qed.
Lemma priority_write d m irq p irq' : fits 8 p ->
  priority_of d (bus_apply m [set_priority d irq p]) irq' =
  if irq' =? irq then p else if (irq <? irq') && (irq' <? irq + 4) then 0 else priority_of d m irq'.
Proof.
  intros Hp. unfold priority_of, read8, bus_apply, set_priority, write_reg. cbn [fold_left fst snd].
  rewrite write32_byte. unfold in_range. unfold fits in Hp. change (2 ^ 8) with 256 in Hp.
  replace (gicd_at d + GICD_IPRIORITYR + irq' - (gicd_at d + (GICD_IPRIORITYR + irq))) with (irq' - irq) by lia.
  zdec; try lia.
  - rewrite Z.div_small; [done|]. split; [lia|]. eapply Z.lt_le_trans; [exact (proj2 Hp)|].
    change 256 with (256 ^ 1) at 1. apply Z.pow_le_mono_r; lia.
  - replace (irq' - irq) with 0 by lia. rewrite Z.pow_0_r, Z.div_1_r, Z.mod_mod, Z.mod_small by lia. done.
Qed.

(** The driver writes a whole word where the distributor has one byte per
    interrupt: setting the priority of an interrupt gives the next three the
    highest priority, 0. *)
Theorem set_priority_clobbers d m irq p : fits 8 p ->
  let m' := bus_apply m [set_priority d irq p] in
  priority_of d m' irq = p /\
  (forall k, 1 <= k <= 3 -> priority_of d m' (irq + k) = 0) /\
  forall irq', irq' < irq \/ irq + 4 <= irq' -> priority_of d m' irq' = priority_of d m irq'.
Proof.
  intros Hp. cbv zeta. split_and!; [|intros k Hk|intros irq' Hi]; rewrite priority_write by done; zdec; done || lia.
Qed.
Lemma set_priority_clobbers_witness :
  priority_of {| gicd_at := 0x08000000 |} (bus_apply (fun _ => 0xA0) [set_priority {| gicd_at := 0x08000000 |} 27 0x80]) 30 = 0.
Proof.
  destruct (set_priority_clobbers {| gicd_at := 0x08000000 |} (fun _ => 0xA0) 27 0x80 ltac:(unfold fits; lia)) as (_ & H & _).
  apply (H 3). lia.
Defined.

Lemma priorities_loop d n m irq' : irq' <= Z.of_nat n + 2 ->
  priority_of d (bus_apply m (map (fun i => write_reg (gicd_at d) (GICD_IPRIORITYR + Z.of_nat i) 0xA0) (seq 0 n))) irq' =
  if irq' <? 0 then priority_of d m irq' else if irq' <? Z.of_nat n then 0xA0 else
  if (0 <? n)%nat then 0 else priority_of d m irq'.
Proof.
  revert irq'. induction n as [|n IH]; intros irq' Hi.
  - cbn [seq map bus_apply fold_left]. change (Z.of_nat 0) with 0. change (0 <? 0)%nat with false.
    by destruct (irq' <? 0).
  - rewrite seq_S, map_app. unfold bus_apply at 1. rewrite fold_left_app. cbn [map Nat.add].
    change (fold_left _ [?w] ?x) with (bus_apply x [w]).
    change (write_reg (gicd_at d) (GICD_IPRIORITYR + Z.of_nat n) 0xA0) with (set_priority d (Z.of_nat n) 0xA0).
    rewrite priority_write by (unfold fits; lia). fold (bus_apply m). 
    change (0 <? S n)%nat with true. destruct (Z.eqb_spec irq' (Z.of_nat n)) as [->|Hne]; [zdec; done || lia|].
    destruct (Z.ltb_spec (Z.of_nat n) irq'); cbn [andb].
    + zdec; done || lia.
    + unfold bus_apply in IH. rewrite IH by lia. zdec; done || lia.
Qed.
Lemma bus_apply_app m l l' : bus_apply m (l ++ l') = bus_apply (bus_apply m l) l'.
Proof. apply fold_left_app. Qed.
Lemma bus_apply_frame l : forall m x, Forall (fun w : reg_write => x < w.1 \/ w.1 + 4 <= x) l -> bus_apply m l x = m x.
Proof.
  induction l as [|w l IH]; intros m x HF; [done|]. apply Forall_cons in HF as [Hw HF].
  change (bus_apply m (w :: l)) with (bus_apply (write32 m w.1 w.2) l). rewrite IH by done. rewrite write32_byte.
  by rewrite (proj2 (in_range_false _ _ _)) by lia.
Qed.
Lemma priority_frame d l m irq :
  Forall (fun w : reg_write => gicd_at d + GICD_IPRIORITYR + irq < w.1 \/ w.1 + 4 <= gicd_at d + GICD_IPRIORITYR + irq) l ->
  priority_of d (bus_apply m l) irq = priority_of d m irq.
Proof. intros HF. unfold priority_of, read8. by rewrite bus_apply_frame. Qed.
Lemma it_lines_range typer : 32 <= it_lines typer <= 1024 /\ it_lines typer / 32 <= 32.
Proof.
  unfold it_lines. change 0x1F with (2 ^ 5 - 1). rewrite land_low by lia. pose proof (Z.mod_pos_bound typer (2 ^ 5)).
  rewrite Z.div_mul by lia. lia.
Qed.

(** After [init] every implemented interrupt has the default priority, and the
    three bytes behind the last one are zero: with the largest distributor
    they are the target registers of interrupts 0 to 2. *)
Theorem distributor_init_priorities d m typer : let m' := bus_apply m (distributor_init d typer) in
  (forall irq, 0 <= irq < it_lines typer -> priority_of d m' irq = 0xA0) /\
  (forall k, 0 <= k <= 2 -> priority_of d m' (it_lines typer + k) = 0) /\
  (it_lines typer = 1024 -> forall k, 0 <= k <= 2 -> read8 m' (gicd_at d + GICD_ITARGETSR + k) = 0).
Proof.
  cbv zeta. destruct (it_lines_range typer) as [Hn Hw].
  assert (Hp : forall irq, 0 <= irq <= it_lines typer + 2 ->
    priority_of d (bus_apply m (distributor_init d typer)) irq = if irq <? it_lines typer then 0xA0 else 0).
  { intros irq Hi. unfold distributor_init. rewrite !app_assoc, bus_apply_app.
    rewrite priority_frame.
    2:{ constructor; [|constructor]. cbn [write_reg fst]. unfold V2_GICD_CTLR, GICD_IPRIORITYR. lia. }
    rewrite <- !app_assoc, !bus_apply_app.
    rewrite priorities_loop by lia. rewrite (proj2 (Nat.ltb_lt 0 _)) by lia. zdec; done || lia. }
  split_and!.
  - intros irq Hi. rewrite Hp by lia. zdec; done || lia.
  - intros k Hk. rewrite Hp by lia. zdec; done || lia.
  - intros E k Hk. specialize (Hp (1024 + k) ltac:(lia)). rewrite E in Hp. unfold priority_of, GICD_IPRIORITYR in Hp.
    unfold GICD_ITARGETSR. replace (gicd_at d + 0x800 + k) with (gicd_at d + 0x400 + (1024 + k)) by lia. rewrite Hp. zdec; done || lia.
Qed.
End Gicv2.

(** ** PL011 driver *)
Module UartDriver.
Definition UART_BASE : Z := 0x09000000.
Definition UART_DR : Z := UART_BASE + 0x00.
Definition UART_FR : Z := UART_BASE + 0x18.
Definition UART_FR_TXFF : Z := Z.shiftl 1 5.

(** [fr t]: the flag register at poll [t].  [None]: still polling. *)
Fixpoint putc (fuel : nat) (fr : nat -> Z) (t : nat) (c : Z) : option (nat * list reg_write) :=
  match fuel with
  | O => None
  | S fuel => if negb (Z.land (fr t) UART_FR_TXFF =? 0) then putc fuel fr (S t) c else Some (S t, [(UART_DR, c)])
  end.
Fixpoint puts (fuel : nat) (fr : nat -> Z) (t : nat) (s : list Z) : option (nat * list reg_write) :=
  match s with
  | [] => Some (t, [])
  | byte :: s =>
      match putc fuel fr t byte with
      | Some (t, w) => match puts fuel fr t s with Some (t, ws) => Some (t, w ++ ws) | None => None end
      | None => None
      end
  end.
(** [init] writes a newline without looking at the flags. *)
Definition uart_init : list reg_write := [(UART_BASE, 10)].

Section Puts.
Context (fr : nat -> Z) (gap : nat).
(** The transmitter has room at least every [gap] polls. *)
Context (drains : forall t, exists k, (k < gap)%nat /\ Z.land (fr (t + k)%nat) UART_FR_TXFF = 0).

Lemma putc_runs c : forall fuel t k, (k < fuel)%nat -> Z.land (fr (t + k)%nat) UART_FR_TXFF = 0 ->
  exists t', putc fuel fr t c = Some (t', [(UART_DR, c)]) /\ (t < t' <= t + S k)%nat /\
    Z.land (fr (pred t')) UART_FR_TXFF = 0.
Proof using Type.
  induction fuel as [|fuel IH]; intros t k Hk Hf; [lia|]. cbn [putc].
  destruct (Z.eqb_spec (Z.land (fr t) UART_FR_TXFF) 0) as [E|E]; cbn [negb].
  - eexists. split; [reflexivity|]. split; [lia|done].
  - destruct k as [|k]; [rewrite Nat.add_0_r in Hf; done|].
    destruct (IH (S t) k ltac:(lia)) as (t' & -> & Ht & Hf'); [by rewrite Nat.add_succ_comm|].
    eexists. split; [reflexivity|]. split; [lia|done].
Qed.

(** If the transmitter drains, [puts] ends and sends exactly the string, in
    order, each byte when there is room, with at most [gap] polls per byte. *)
Theorem uart_puts_exact s : forall t, exists t',
  puts gap fr t s = Some (t', map (fun c => (UART_DR, c)) s) /\ (t' <= t + gap * length s)%nat.
Proof using drains.
  induction s as [|c s IH]; intros t; cbn [puts].
  - eexists. split; [reflexivity|]. cbn [length]. lia.
  - destruct (drains t) as (k & Hk & Hf). destruct (putc_runs c gap t k Hk Hf) as (t1 & -> & Ht1 & _).
    destruct (IH t1) as (t2 & -> & Ht2). eexists. split; [reflexivity|]. cbn [length]. lia.
Qed.
End Puts.
Lemma uart_puts_exact_witness : exists t',
  puts 3 (fun t => if (t mod 3 =? 2)%nat then 0 else 0x20) 0 [72; 105] = Some (t', [(UART_DR, 72); (UART_DR, 105)]) /\ (t' <= 6)%nat.
Proof.
  apply (uart_puts_exact (fun t => if (t mod 3 =? 2)%nat then 0 else 0x20) 3) with (s := [72; 105]) (t := 0%nat).
  intros t. exists (2 - t mod 3)%nat. pose proof (Nat.mod_upper_bound t 3 ltac:(lia)). split; [lia|].
  replace ((t + (2 - t mod 3)) mod 3)%nat with 2%nat; [reflexivity|].
  rewrite (Nat.div_mod t 3) at 1 by lia.
  replace (3 * (t / 3) + t mod 3 + (2 - t mod 3))%nat with (2 + (t / 3) * 3)%nat by lia.
  by rewrite Nat.Div0.mod_add.
Defined.
End UartDriver.

(** ** The redistributor of a core *)
Module Redist.
Definition ENABLE_MASK : Z := Z.lor 0xFFFF (Z.shiftl 1 27).

(** The registers of the SGI frame as the architecture defines them: a write
    to the set-enable register sets the bits written. *)
Record sgi_frame := mkFrame { sf_igroupr0 : Z; sf_enabled : Z }.
Definition frame_write (sgi_base : Z) (f : sgi_frame) (w : reg_write) : sgi_frame :=
  if w.1 =? sgi_base + GICR_IGROUPR0_OFF then mkFrame w.2 (sf_enabled f)
  else if w.1 =? sgi_base + GICR_ISENABLER0_OFF then mkFrame (sf_igroupr0 f) (Z.lor (sf_enabled f) w.2)
  else f.

(** [igroupr0] is what the read of IGROUPR0 returns. *)
Definition ensure_vtimer_enabled (pi : PlatformInfo) (cpu_id : nat) (igroupr0 : Z) : list reg_write :=
  let sgi_base := gicr_sgi_base pi cpu_id in
  (if negb (Z.land igroupr0 ENABLE_MASK =? ENABLE_MASK)
   then [(sgi_base + GICR_IGROUPR0_OFF, Z.lor igroupr0 ENABLE_MASK)] else []) ++
  [(sgi_base + GICR_ISENABLER0_OFF, ENABLE_MASK)].

(** Waking the redistributor: ProcessorSleep is cleared and ChildrenAsleep
    polled, [waker t] being the register at poll [t]. *)
Fixpoint wait_awake (fuel : nat) (waker : nat -> Z) (t : nat) : option nat :=
  match fuel with
  | O => None
  | S fuel => if Z.land (waker t) (Z.shiftl 1 2) =? 0 then Some t else wait_awake fuel waker (S t)
  end.
Definition wake_redistributor (pi : PlatformInfo) (cpu_id : nat) (fuel : nat) (before : Z) (waker : nat -> Z)
    : option (list reg_write) :=
  if (cpu_id <? pi_num_cpus pi)%nat then
    let waker_addr := gicr_rd_base pi cpu_id + GICR_WAKER_OFF in
    match wait_awake fuel waker 0 with
    | Some _ => Some [(waker_addr, Z.land before (not32 (Z.shiftl 1 1)))]
    | None => None
    end
  else Some [].

(** Before every entry of the guest the SGIs and the virtual timer of the
    core are enabled and in Group 1, and no other interrupt has changed. *)
Theorem vtimer_enabled_exact pi cpu_id f :
  let f' := fold_left (frame_write (gicr_sgi_base pi cpu_id)) (ensure_vtimer_enabled pi cpu_id (sf_igroupr0 f)) f in
  sf_igroupr0 f' = Z.lor (sf_igroupr0 f) ENABLE_MASK /\ sf_enabled f' = Z.lor (sf_enabled f) ENABLE_MASK /\
  forall i, Z.testbit ENABLE_MASK i = ((0 <=? i) && (i <? 16) || (i =? 27)).
Proof.
  cbv zeta. unfold ensure_vtimer_enabled. set (b := gicr_sgi_base pi cpu_id).
  assert (Hg : forall f v, frame_write b f (b + GICR_IGROUPR0_OFF, v) = mkFrame v (sf_enabled f)).
  { intros f' v. unfold frame_write. cbn [fst snd]. by rewrite Z.eqb_refl. }
  assert (Hw : forall f v, frame_write b f (b + GICR_ISENABLER0_OFF, v) = mkFrame (sf_igroupr0 f) (Z.lor (sf_enabled f) v)).
  { intros f' v. unfold frame_write. cbn [fst snd]. rewrite Z.eqb_refl.
    destruct (Z.eqb_spec (b + GICR_ISENABLER0_OFF) (b + GICR_IGROUPR0_OFF)) as [E|]; [|done].
    unfold GICR_ISENABLER0_OFF, GICR_IGROUPR0_OFF in E. lia. }
  assert (Hm : forall i, Z.testbit ENABLE_MASK i = ((0 <=? i) && (i <? 16) || (i =? 27))).
  { intros i. destruct (Z.ltb_spec i 0) as [Hn|Hn]; [rewrite Z.testbit_neg_r by lia; zdec; done || lia|].
    unfold ENABLE_MASK. change 0xFFFF with (Z.ones 16). rewrite Z.lor_spec, testbit_ones, Z.shiftl_1_l, Z.pow2_bits_eqb by lia.
    rewrite (Z.eqb_sym 27). zdec; done || lia. }
  destruct (Z.eqb_spec (Z.land (sf_igroupr0 f) ENABLE_MASK) ENABLE_MASK) as [E|E]; cbn [negb app fold_left].
  - rewrite Hw. cbn [sf_igroupr0 sf_enabled]. split_and!; [|done|done].
    bit_ext i Hi. apply (f_equal (fun z => Z.testbit z i)) in E. rewrite Z.land_spec in E.
    destruct (Z.testbit (sf_igroupr0 f) i), (Z.testbit ENABLE_MASK i); done.
  - by rewrite Hg, Hw.
Qed.
End Redist.

(** ** Starting the other cores *)
Module Smp.
Definition SMP_PSCI_CPU_ON_64 : Z := 0xC4000003.
(** The calls of [wake_secondary_pcpus] to the firmware, with whether each
    reported success. *)
Definition wake_secondary_pcpus (psci : Z -> Z -> Z -> Z -> Z) (pi : PlatformInfo) (entry_addr : Z) : list (Z * bool) :=
  map (fun cpu_id => let target_mpidr := Z.of_nat cpu_id in
                     (target_mpidr, psci SMP_PSCI_CPU_ON_64 target_mpidr entry_addr 0 =? 0))
    (seq 1 (pi_num_cpus pi - 1)).

(** [secondary_entry] of boot.S: the stack of core [cpu_id] ends at
    [pcpu_stacks + cpu_id * 128KB]; three stacks are reserved. *)
Definition STACK_SIZE : Z := 131072.
Definition stack_top (pcpu_stacks cpu_id : Z) : Z := pcpu_stacks + Z.shiftl cpu_id 17.
Definition on_stack (pcpu_stacks cpu_id x : Z) : Prop :=
  stack_top pcpu_stacks cpu_id - STACK_SIZE <= x < stack_top pcpu_stacks cpu_id.
Definition reserved (pcpu_stacks x : Z) : Prop := pcpu_stacks <= x < pcpu_stacks + 3 * STACK_SIZE.

(** [this_cpu]: the per-core slot; the index is checked. *)
Definition current_cpu_id (mpidr : Z) : nat := Z.to_nat (Z.land mpidr 0xFF).
Definition this_cpu {A} (slots : list A) (mpidr : Z) : option A := slots !! current_cpu_id mpidr.

(** Every core of the device tree is started, each once, but only cores 1 to 3
    have a stack: with up to four cores the stacks are disjoint and inside
    the reserved area, and every further core gets a stack outside it, over
    whatever the linker placed there. *)
Theorem secondary_stacks psci pi entry base cpu : In cpu (map fst (wake_secondary_pcpus psci pi entry)) ->
  1 <= cpu < Z.of_nat (pi_num_cpus pi) /\
  (forall x, on_stack base cpu x -> reserved base x <-> cpu <= 3) /\
  forall cpu' x, In cpu' (map fst (wake_secondary_pcpus psci pi entry)) -> on_stack base cpu x -> on_stack base cpu' x -> cpu' = cpu.
Proof.
  unfold wake_secondary_pcpus. rewrite map_map. intros Hin. apply in_map_iff in Hin as (n & <- & Hn). apply in_seq in Hn.
  cbn [fst]. unfold on_stack, reserved, stack_top, STACK_SIZE. rewrite Z.shiftl_mul_pow2 by lia. change (2 ^ 17) with 131072.
  split_and!; [lia|lia|lia|]. intros cpu' x Hc. rewrite Z.shiftl_mul_pow2 by lia. change (2 ^ 17) with 131072. lia.
Qed.
Lemma secondary_stacks_witness :
  In 4 (map fst (wake_secondary_pcpus (fun _ _ _ _ => 0) (mkPlatform 0 0 0 0 6 0 0) 0x40200000)) /\
  ~ reserved 0x40300000 (0x40300000 + 4 * 131072 - 16).
Proof.
  assert (H : In 4 (map fst (wake_secondary_pcpus (fun _ _ _ _ => 0) (mkPlatform 0 0 0 0 6 0 0) 0x40200000))) by (cbn; tauto).
  split; [exact H|]. destruct (secondary_stacks _ _ _ 0x40300000 4 H) as (_ & Hs & _).
  rewrite (Hs (0x40300000 + 4 * 131072 - 16)); [lia|]. unfold on_stack, stack_top, STACK_SIZE. change (Z.shiftl 4 17) with 524288. lia.
Defined.
End Smp.
