(* ===== verification/Devices.v ===== *)
(** * Devices: the device manager and MMIO dispatch

    [devices/mod.rs]: the devices of a VM behind one enumeration, registration
    and the routing of guest accesses by address; the handler of data aborts
    of [exception.rs] on top of it.  What a device access does outside the
    device (guest memory and the switch for virtio, bytes to the physical
    UART, accesses to the physical distributor, SPIs to inject) is collected
    in [dev_io]. *)

From Stdlib Require Import ZArith Lia Bool.
From stdpp Require Import base decidable option list strings.
From S2P Require Import Prelude Memory Rings VSwitch Regs Virtio VirtioNet GicDev PrimeCell Platform.

(** ** Devices *)
Inductive Device :=
| DevUart (d : VirtualUart)
| DevGicd (d : VirtualGicd)
| DevGicr (d : VirtualGicr)
| DevBlk (d : transport VirtioBlk)
| DevNet (d : transport VirtioNet)
| DevPl031 (d : VirtualPl031).

Record dev_io := mkIo {
  io_world : net_world;
  io_tx : list Z;
  io_gicd : list (Z * Z * Z);
  io_spis : list Z;
  io_cntvct : Z;
  io_cntfrq : Z
}.
Definition io_send (tx : list Z) (s : dev_io) : dev_io :=
  mkIo (io_world s) (io_tx s ++ tx) (io_gicd s) (io_spis s) (io_cntvct s) (io_cntfrq s).
Definition io_forward (f : list (Z * Z * Z)) (s : dev_io) : dev_io :=
  mkIo (io_world s) (io_tx s) (io_gicd s ++ f) (io_spis s) (io_cntvct s) (io_cntfrq s).
Definition io_virtio (w : net_world) (spis : list Z) (s : dev_io) : dev_io :=
  mkIo w (io_tx s) (io_gicd s) (io_spis s ++ spis) (io_cntvct s) (io_cntfrq s).

Definition VIRTIO_MMIO_SIZE : Z := 0x200.
Definition MAX_DEVICES : nat := 8.

Section Dispatch.
(** Platform information read by the devices that have no constant base. *)
Context (pi : PlatformInfo).

Definition base_address (d : Device) : Z :=
  match d with
  | DevUart _ => uart_base pi
  | DevGicd _ => gicd_base pi
  | DevGicr _ => gicr_base pi
  | DevBlk t => vt_base t
  | DevNet t => vt_base t
  | DevPl031 _ => PL031_BASE
  end.
Definition dev_size (d : Device) : Z :=
  match d with
  | DevUart _ => UART_SIZE
  | DevGicd _ => GICD_SIZE
  | DevGicr g => gicr_size g
  | DevBlk _ => VIRTIO_MMIO_SIZE
  | DevNet _ => VIRTIO_MMIO_SIZE
  | DevPl031 _ => PL031_SIZE
  end.
Definition contains (d : Device) (addr : Z) : bool :=
  (base_address d <=? addr) && (addr <? base_address d + dev_size d).

Definition dev_read (d : Device) (s : dev_io) (offset size : Z) : Device * option Z :=
  match d with
  | DevUart u => let (u, v) := uart_read u offset size in (DevUart u, v)
  | DevGicd g => (d, gicd_read g offset size)
  | DevGicr g => (d, gicr_read g offset size)
  | DevBlk t => (d, transport_read t offset size)
  | DevNet t => (d, transport_read t offset size)
  | DevPl031 r => (d, pl031_read (io_cntvct s) (io_cntfrq s) r offset size)
  end.

(** [None] when a virtqueue keeps the device busy for more than [fuel]
    requests; [Err] is a panic. *)
Definition dev_write (checks : bool) (fuel : nat) (d : Device) (s : dev_io) (offset value size : Z)
    : option (result (Device * dev_io) string) :=
  match d with
  | DevUart u => let '(u, _, tx) := uart_write u offset value size in Some (Ok (DevUart u, io_send tx s))
  | DevGicd g => Some (Ok (DevGicd (gicd_write g offset value size), io_forward (gicd_forward offset value size) s))
  | DevGicr g => Some (Ok (DevGicr (gicr_write g offset value size), s))
  | DevBlk t =>
      match transport_write checks fuel t (nw_mem (io_world s)) offset value size with
      | Some (Ok (t, m, spis)) =>
          Some (Ok (DevBlk t, io_virtio {| nw_mem := m; nw_net := nw_net (io_world s) |} spis s))
      | Some (Err e) => Some (Err e)
      | None => None
      end
  | DevNet t =>
      match transport_write checks fuel t (io_world s) offset value size with
      | Some (Ok (t, w, spis)) => Some (Ok (DevNet t, io_virtio w spis s))
      | Some (Err e) => Some (Err e)
      | None => None
      end
  | DevPl031 r => Some (Ok (DevPl031 (pl031_write (io_cntvct s) r offset value size).1, s))
  end.

(** [pending_irq]; only the UART overrides the default. *)
Definition dev_pending_irq (d : Device) : option Z :=
  match d with DevUart u => uart_pending_irq u | _ => None end.

(** ** The manager *)
Record DeviceManager := { dm_devices : list (option Device); dm_count : nat }.
Definition dm_new : DeviceManager := {| dm_devices := replicate MAX_DEVICES None; dm_count := 0 |}.
Definition dm_reset (m : DeviceManager) : DeviceManager :=
  {| dm_devices := map (fun _ => None) (dm_devices m); dm_count := 0 |}.
Definition register_device (m : DeviceManager) (d : Device) : DeviceManager * option nat :=
  if (MAX_DEVICES <=? dm_count m)%nat then (m, None) else
  let idx := dm_count m in
  ({| dm_devices := <[idx := Some d]> (dm_devices m); dm_count := dm_count m + 1 |}, Some idx).

Definition attach_virtio_blk (m : DeviceManager) (disk_base disk_size : Z) : DeviceManager :=
  let t := transport_new (virtio_slot 0).1 (virtio_blk_new disk_base disk_size) (virtio_slot 0).2 in
  (register_device m (DevBlk t)).1.
Definition attach_virtio_net (m : DeviceManager) (vs : VSwitch) (vm_id : nat) : DeviceManager * VSwitch :=
  let t := transport_new (virtio_slot 1).1 (virtio_net_new vm_id) (virtio_slot 1).2 in
  ((register_device m (DevNet t)).1, vswitch_add_port vs vm_id).

Fixpoint find_net (l : list (option Device)) : option (transport VirtioNet) :=
  match l with [] => None | Some (DevNet t) :: _ => Some t | _ :: l => find_net l end.
Fixpoint find_uart (l : list (option Device)) : option VirtualUart :=
  match l with [] => None | Some (DevUart u) :: _ => Some u | _ :: l => find_uart l end.
Fixpoint find_gicd (l : list (option Device)) : option VirtualGicd :=
  match l with [] => None | Some (DevGicd g) :: _ => Some g | _ :: l => find_gicd l end.
Definition virtio_net_mut (m : DeviceManager) := find_net (dm_devices m).
Definition uart_mut (m : DeviceManager) := find_uart (dm_devices m).
Definition route_spi (m : DeviceManager) (intid : Z) : Z :=
  match find_gicd (dm_devices m) with Some g => gicd_route_spi g intid | None => 0 end.

(** The scan of [handle_mmio]: the slots before the device, the device and the
    slots after it. *)
Fixpoint find_device (l : list (option Device)) (addr : Z)
    : option (list (option Device) * Device * list (option Device)) :=
  match l with
  | [] => None
  | slot :: l =>
      let next := match find_device l addr with
                  | Some (pre, d, post) => Some (slot :: pre, d, post)
                  | None => None end in
      match slot with
      | Some d => if contains d addr then Some ([], d, l) else next
      | None => next
      end
  end.

Definition handle_mmio (checks : bool) (fuel : nat) (m : DeviceManager) (s : dev_io) (addr value size : Z) (is_write : bool)
    : option (result (DeviceManager * dev_io * option Z) string) :=
  match find_device (dm_devices m) addr with
  | Some (pre, d, post) =>
      let offset := addr - base_address d in
      let put d := {| dm_devices := pre ++ Some d :: post; dm_count := dm_count m |} in
      if is_write then
        match dev_write checks fuel d s offset value size with
        | Some (Ok (d, s)) => Some (Ok (put d, s, None))
        | Some (Err e) => Some (Err e)
        | None => None
        end
      else let (d, v) := dev_read d s offset size in Some (Ok (put d, s, v))
  | None => Some (Ok (m, s, if is_write then None else Some 0))
  end.

(** ** Data aborts *)
Definition ESR_ISS_MASK : Z := 0x1FFFFFF.
Definition set_gp_regs (g : GeneralPurposeRegs) (c : VcpuContext) : VcpuContext :=
  mkCtx g (sys_regs c) (ctx_sp c) (ctx_pc c) (spsr_el2 c).

(** [handle_mmio_abort]: the instruction at a plausible physical PC is read
    from memory when the syndrome is not valid. *)
Definition handle_mmio_abort (checks : bool) (fuel : nat) (m : DeviceManager) (s : dev_io) (c : VcpuContext) (addr : Z)
    : option (result (DeviceManager * dev_io * VcpuContext * bool) string) :=
  let iss := u32 (Z.land (esr_el2 (sys_regs c)) ESR_ISS_MASK) in
  let isv := Z.land (Z.shiftr iss 24) 1 in
  let insn := if isv =? 1 then Some 0
              else if ctx_pc c <? 0x800000000000 then Some (read32 (nw_mem (io_world s)) (ctx_pc c))
              else None in
  match insn with
  | None => Some (Ok (m, s, c, false))
  | Some insn =>
      match decode insn iss with
      | None => Some (Ok (m, s, c, false))
      | Some access =>
          if is_store access then
            let value := get_reg (gp_regs c) (access_reg access) in
            match handle_mmio checks fuel m s addr value (access_size access) true with
            | Some (Ok (m, s, _)) => Some (Ok (m, s, c, true))
            | Some (Err e) => Some (Err e)
            | None => None
            end
          else
            match handle_mmio checks fuel m s addr 0 (access_size access) false with
            | Some (Ok (m, s, Some value)) =>
                Some (Ok (m, s, set_gp_regs (set_reg (gp_regs c) (access_reg access) value) c, true))
            | Some (Ok (m, s, None)) => Some (Ok (m, s, c, false))
            | Some (Err e) => Some (Err e)
            | None => None
            end
      end
  end.

(** The devices of [Vm::new] with the Linux feature, in registration order, on
    a freshly reset manager; [None]: the assertion on the CPU count fails. *)
Definition vm_devices (cntvct : Z) (m : DeviceManager) : option DeviceManager :=
  let m := dm_reset m in
  let m := (register_device m (DevUart uart_new)).1 in
  let m := (register_device m (DevGicd (gicd_new (Z.of_nat (pi_num_cpus pi))))).1 in
  match gicr_new (pi_num_cpus pi) with
  | None => None
  | Some g =>
      let m := (register_device m (DevGicr g)).1 in
      Some (register_device m (DevPl031 (pl031_new cntvct))).1
  end.
End Dispatch.
Arguments handle_mmio pi checks fuel m s addr value size is_write : simpl never.

(** ** Regions *)
Section Regions.
Context (pi : PlatformInfo).

Definition region (d : Device) : Z * Z := (base_address pi d, base_address pi d + dev_size d).
Definition regions_disjoint (d1 d2 : Device) : Prop :=
  (region d1).2 <= (region d2).1 \/ (region d2).2 <= (region d1).1.
(** Registered devices occupy disjoint address ranges. *)
Definition disjoint_devices (m : DeviceManager) : Prop :=
  forall i j d1 d2, i <> j -> dm_devices m !! i = Some (Some d1) -> dm_devices m !! j = Some (Some d2) ->
    regions_disjoint d1 d2.

Lemma contains_excl d1 d2 addr : regions_disjoint d1 d2 -> contains pi d1 addr = true -> contains pi d2 addr = false.
Proof.
  unfold regions_disjoint, region, contains. cbn [fst snd]. rewrite andb_true_iff, Z.leb_le, Z.ltb_lt.
  intros Hd [H1 H2]. apply andb_false_iff. rewrite Z.leb_gt, Z.ltb_ge. lia.
Qed.

Lemma find_device_at l : forall i d addr, l !! i = Some (Some d) -> contains pi d addr = true ->
  (forall j d', (j < i)%nat -> l !! j = Some (Some d') -> contains pi d' addr = false) ->
  find_device pi l addr = Some (take i l, d, drop (S i) l).
Proof.
  induction l as [|slot l IH]; intros i d addr Hi Hc Hb; [done|]. cbn [find_device]. destruct i as [|i]; cbn in Hi.
  - injection Hi as ->. by rewrite Hc.
  - rewrite (IH i d addr Hi Hc) by (intros j d' Hj; apply (Hb (S j) d'); lia).
    destruct slot as [d0|]; [|done]. by rewrite (Hb 0%nat d0) by (lia || done).
Qed.
Lemma find_device_none l addr : (forall i d, l !! i = Some (Some d) -> contains pi d addr = false) ->
  find_device pi l addr = None.
Proof.
  induction l as [|slot l IH]; intros H; [done|]. cbn [find_device].
  rewrite IH by (intros i d; apply (H (S i) d)). destruct slot as [d|]; [|done]. by rewrite (H 0%nat d).
Qed.
Lemma find_device_inv l addr pre d post : find_device pi l addr = Some (pre, d, post) ->
  l = pre ++ Some d :: post /\ contains pi d addr = true.
Proof.
  revert pre. induction l as [|slot l IH]; intros pre H; [done|]. cbn [find_device] in H.
  destruct slot as [d0|]; [destruct (contains pi d0 addr) eqn:E; [injection H as <- <- <-; done|]|];
    destruct (find_device pi l addr) as [[[pre' d'] post']|]; try discriminate H; injection H as <- <- <-;
    destruct (IH pre' eq_refl) as [-> ?]; done.
Qed.

Definition put_device (m : DeviceManager) (i : nat) (d : Device) : DeviceManager :=
  {| dm_devices := <[i := Some d]> (dm_devices m); dm_count := dm_count m |}.

Lemma put_device_split m i d d' : dm_devices m !! i = Some (Some d) ->
  {| dm_devices := take i (dm_devices m) ++ Some d' :: drop (S i) (dm_devices m); dm_count := dm_count m |} =
  put_device m i d'.
Proof.
  intros Hi. unfold put_device. f_equal. symmetry. apply insert_take_drop. by eapply lookup_lt_Some.
Qed.

Lemma handle_mmio_at m i d addr : disjoint_devices m -> dm_devices m !! i = Some (Some d) -> contains pi d addr = true ->
  find_device pi (dm_devices m) addr = Some (take i (dm_devices m), d, drop (S i) (dm_devices m)).
Proof.
  intros Hd Hi Hc. apply find_device_at; [done..|]. intros j d' Hj Hj'.
  apply (contains_excl d d'); [|done]. by apply (Hd i j); [lia|..].
Qed.

(** C36. MMIO dispatch: an access to an address that some registered device
    covers is served by the first of them in slot order (the only one when the
    devices are at disjoint addresses), at the offset from its base, and
    changes no other slot; a load returns what the device returns, and a store
    ends, panics or goes on for ever as the device's does.  An address of no
    device reads as zero and ignores stores: the access is answered and
    changes nothing. *)
Theorem mmio_dispatch_exact checks fuel m s addr value size :
  (forall i d, dm_devices m !! i = Some (Some d) -> contains pi d addr = true ->
     disjoint_devices m \/ (forall j d', (j < i)%nat -> dm_devices m !! j = Some (Some d') -> contains pi d' addr = false) ->
     (let (d', v) := dev_read d s (addr - base_address pi d) size in
      handle_mmio pi checks fuel m s addr value size false = Some (Ok (put_device m i d', s, v))) /\
     handle_mmio pi checks fuel m s addr value size true =
       match dev_write checks fuel d s (addr - base_address pi d) value size with
       | Some (Ok (d', s')) => Some (Ok (put_device m i d', s', None))
       | Some (Err e) => Some (Err e)
       | None => None
       end) /\
  ((forall i d, dm_devices m !! i = Some (Some d) -> contains pi d addr = false) ->
   handle_mmio pi checks fuel m s addr value size false = Some (Ok (m, s, Some 0)) /\
   handle_mmio pi checks fuel m s addr value size true = Some (Ok (m, s, None))).
Proof.
  unfold handle_mmio. split.
  - intros i d Hi Hc Hd. assert (E : find_device pi (dm_devices m) addr = Some (take i (dm_devices m), d, drop (S i) (dm_devices m)))
      by (destruct Hd as [Hd|Hd]; [by apply handle_mmio_at|by apply find_device_at]). rewrite E. split.
    + destruct (dev_read _ _ _ _) as [d' v]. by rewrite (put_device_split m i d).
    + destruct (dev_write _ _ _ _ _ _ _) as [[[d' s']|e]|]; [by rewrite (put_device_split m i d)|done|done].
  - intros Hn. by rewrite find_device_none.
Qed.

(** ** Regions never move *)
Lemma upd_queue_base {D W} `{VirtioBackend D W} (t : transport D) f : vt_base (upd_queue t f) = vt_base t.
Proof. unfold upd_queue. by destruct (current_queue t). Qed.

Lemma transport_write_base {D W} `{VirtioBackend D W} checks fuel (t : transport D) (w : W) offset value size t' w' spis :
  transport_write checks fuel t w offset value size = Some (Ok (t', w', spis)) -> vt_base t' = vt_base t.
Proof.
  unfold transport_write. intros Hw.
  repeat match type of Hw with
  | (if ?c then _ else _) = _ => destruct c
  | match ?x with _ => _ end = _ => destruct x eqn:?
  | Some (Ok _) = Some (Ok _) => injection Hw as <- _ _
  end; try discriminate Hw; rewrite ?upd_queue_base; try done; try (by destruct (_ =? 0)).
  match goal with E : signal_interrupt _ = _ |- _ => injection E as <- _ end. done.
Qed.

Lemma dev_read_region d s offset size : region (dev_read d s offset size).1 = region d.
Proof. destruct d; try done. cbn. by destruct (uart_read _ _ _). Qed.
Lemma dev_write_region checks fuel d s offset value size d' s' :
  dev_write checks fuel d s offset value size = Some (Ok (d', s')) -> region d' = region d.
Proof.
  destruct d; cbn [dev_write]; intros Hw.
  - destruct (uart_write _ _ _ _) as [[u b] tx]. by injection Hw as <- _.
  - by injection Hw as <- _.
  - injection Hw as <- _. unfold region, base_address, dev_size, gicr_size, gicr_write.
    by destruct (decode_offset _ _) as [[[]]|].
  - destruct (transport_write _ _ _ _ _ _) as [[[[t m] spis]|]|] eqn:E; try discriminate Hw. injection Hw as <- _.
    apply transport_write_base in E. unfold region, base_address. by rewrite E.
  - destruct (transport_write _ _ _ _ _ _) as [[[[t m] spis]|]|] eqn:E; try discriminate Hw. injection Hw as <- _.
    apply transport_write_base in E. unfold region, base_address. by rewrite E.
  - by injection Hw as <- _.
Qed.

Lemma put_device_disjoint m i d d' : dm_devices m !! i = Some (Some d) -> region d' = region d ->
  disjoint_devices m -> disjoint_devices (put_device m i d').
Proof.
  intros Hi Hr Hd j k d1 d2 Hne Hj Hk. cbn [dm_devices put_device] in *.
  assert (Hl : (i < length (dm_devices m))%nat) by by eapply lookup_lt_Some.
  destruct (decide (i = j)) as [-> |Hij]; [|destruct (decide (i = k)) as [-> |Hik]].
  - rewrite list_lookup_insert_eq in Hj by done. rewrite list_lookup_insert_ne in Hk by done. injection Hj as <-.
    unfold regions_disjoint. rewrite Hr. by apply (Hd j k).
  - rewrite list_lookup_insert_eq in Hk by done. rewrite list_lookup_insert_ne in Hj by done. injection Hk as <-.
    unfold regions_disjoint. rewrite Hr. by apply (Hd j k).
  - rewrite list_lookup_insert_ne in Hj, Hk by done. by apply (Hd j k).
Qed.

Lemma handle_mmio_disjoint checks fuel m s addr value size w m' s' v : disjoint_devices m ->
  handle_mmio pi checks fuel m s addr value size w = Some (Ok (m', s', v)) -> disjoint_devices m'.
Proof.
  intros Hd. unfold handle_mmio. destruct (find_device _ _ _) as [[[pre d] post]|] eqn:E; [|by intros [= <- _ _]].
  apply find_device_inv in E as [E _].
  assert (Hi : dm_devices m !! length pre = Some (Some d)) by (rewrite E; by apply list_lookup_middle).
  assert (Hput : forall d', {| dm_devices := pre ++ Some d' :: post; dm_count := dm_count m |} = put_device m (length pre) d').
  { intros d'. unfold put_device. rewrite E. f_equal. by rewrite insert_app_r_alt, Nat.sub_diag by done. }
  destruct w.
  - destruct (dev_write _ _ _ _ _ _) as [[[d' s1]|]|] eqn:Ew; try done. intros [= <- _ _]. rewrite Hput.
    eapply put_device_disjoint; [done| |done]. by eapply dev_write_region.
  - pose proof (dev_read_region d s (addr - base_address pi d) size) as Hr.
    destruct (dev_read _ _ _ _) as [d' v1]. intros [= <- _ _]. rewrite Hput.
    by eapply put_device_disjoint.
Qed.

(** ** The devices of a VM *)
Definition mmio_access : Type := Z * Z * Z * bool.
(** A history of accesses that the devices complete. *)
Fixpoint mmio_run (checks : bool) (fuel : nat) (m : DeviceManager) (s : dev_io) (accs : list mmio_access)
    : option (DeviceManager * dev_io) :=
  match accs with
  | [] => Some (m, s)
  | (addr, value, size, w) :: accs =>
      match handle_mmio pi checks fuel m s addr value size w with
      | Some (Ok (m, s, _)) => mmio_run checks fuel m s accs
      | _ => None
      end
  end.

Lemma mmio_run_disjoint checks fuel accs : forall m s m' s', disjoint_devices m ->
  mmio_run checks fuel m s accs = Some (m', s') -> disjoint_devices m'.
Proof.
  induction accs as [|[[[addr value] size] w] accs IH]; intros m s m' s' Hd H; cbn [mmio_run] in H;
    [by injection H as <- _|].
  destruct (handle_mmio _ _ _ _ _ _ _ _ _) as [[[[m1 s1] v]|]|] eqn:E; try discriminate H.
  eapply IH; [|exact H]. by eapply handle_mmio_disjoint.
Qed.
End Regions.

Definition vm_manager (pi : PlatformInfo) (cntvct disk_base disk_size : Z) (vs : VSwitch) (vm_id : nat) (m : DeviceManager)
    : option (DeviceManager * VSwitch) :=
  match vm_devices pi cntvct m with
  | Some m => Some (attach_virtio_net (attach_virtio_blk m disk_base disk_size) vs vm_id)
  | None => None
  end.

(** The six devices in their slots. *)
Lemma vm_manager_slots pi cntvct db ds vs vm_id m : length (dm_devices m) = MAX_DEVICES ->
  (pi_num_cpus pi <= 8)%nat -> exists g m' vs', gicr_new (pi_num_cpus pi) = Some g /\
  vm_manager pi cntvct db ds vs vm_id m = Some (m', vs') /\ dm_count m' = 6%nat /\
  dm_devices m' = [Some (DevUart uart_new); Some (DevGicd (gicd_new (Z.of_nat (pi_num_cpus pi)))); Some (DevGicr g);
    Some (DevPl031 (pl031_new cntvct)); Some (DevBlk (transport_new 0x0a000000 (virtio_blk_new db ds) 48));
    Some (DevNet (transport_new 0x0a000200 (virtio_net_new vm_id) 49)); None; None].
Proof.
  intros Hl Hn. unfold vm_manager, vm_devices, gicr_new, GICR_MAX_VCPUS. rewrite (proj2 (Nat.leb_le _ 8)) by lia.
  do 3 eexists. split_and!; [reflexivity..|].
  destruct m as [l c]. cbn [dm_devices] in Hl.
  destruct l as [|? [|? [|? [|? [|? [|? [|? [|? []]]]]]]]]; try discriminate Hl. reflexivity.
Qed.

(** A VM's devices never overlap: on a board whose UART and GIC are where
    the defaults put them, with at most eight CPUs, [Vm::new] followed by the
    attachment of the block and network devices registers all six devices, in
    disjoint regions, and they stay disjoint under every history of guest
    accesses. *)
Theorem vm_devices_disjoint pi cntvct db ds vs vm_id m checks fuel s accs m' vs' m2 s2 :
  length (dm_devices m) = MAX_DEVICES -> (pi_num_cpus pi <= 8)%nat ->
  uart_base pi = uart_base PLATFORM_DEFAULT -> gicd_base pi = gicd_base PLATFORM_DEFAULT ->
  gicr_base pi = gicr_base PLATFORM_DEFAULT ->
  vm_manager pi cntvct db ds vs vm_id m = Some (m', vs') -> mmio_run pi checks fuel m' s accs = Some (m2, s2) ->
  dm_count m' = 6%nat /\ disjoint_devices pi m' /\ disjoint_devices pi m2.
Proof.
  intros Hl Hn Hu Hd Hr Hm Hrun. destruct (vm_manager_slots pi cntvct db ds vs vm_id m Hl Hn) as (g & m1 & vs1 & Hg & E & Hc & Hs).
  rewrite Hm in E. injection E as <- <-.
  assert (Hdis : disjoint_devices pi m').
  { intros i j d1 d2 Hne Hi Hj. rewrite Hs in Hi, Hj. unfold regions_disjoint, region.
    unfold gicr_new in Hg. destruct (_ <=? _)%nat; [injection Hg as <-|done].
    destruct i as [|[|[|[|[|[|[|[|]]]]]]]], j as [|[|[|[|[|[|[|[|]]]]]]]]; cbn in Hi, Hj; try done;
      injection Hi as <-; injection Hj as <-; cbn [base_address dev_size fst snd vt_base transport_new gicr_size gr_num_vcpus];
      rewrite ?Hu, ?Hd, ?Hr; unfold gicr_size, GICR_PER_CPU, UART_SIZE, GICD_SIZE, PL031_BASE, PL031_SIZE, VIRTIO_MMIO_SIZE;
      cbn [gr_num_vcpus uart_base gicd_base gicr_base PLATFORM_DEFAULT]; lia. }
  split_and!; [done..|]. by eapply mmio_run_disjoint.
Qed.

Definition ex_io : dev_io := mkIo {| nw_mem := fun _ => 0; nw_net := net_init |} [] [] [] 0 62500000.
Definition ex_dm : DeviceManager :=
  match vm_manager PLATFORM_DEFAULT 0 0x58000000 0x200000 vswitch_new 0 dm_new with Some (m, _) => m | None => dm_new end.

Lemma vm_devices_disjoint_witness : dm_count ex_dm = 6%nat /\ disjoint_devices PLATFORM_DEFAULT ex_dm /\
  disjoint_devices PLATFORM_DEFAULT ex_dm.
Proof.
  refine (vm_devices_disjoint PLATFORM_DEFAULT 0 0x58000000 0x200000 vswitch_new 0 dm_new true 1 ex_io [] ex_dm
    (vswitch_add_port vswitch_new 0) ex_dm ex_io _ _ _ _ _ _ _);
    try reflexivity. apply Nat.leb_le. reflexivity.
Defined.

(** A manager with a single device. *)
Definition ex_dm1 : DeviceManager :=
  (register_device dm_new (DevUart (uart_run uart_new [UPush 65; UPush 66]))).1.
Lemma ex_dm1_disjoint : disjoint_devices PLATFORM_DEFAULT ex_dm1.
Proof.
  intros i j d1 d2 Hne Hi Hj. unfold ex_dm1 in Hi, Hj. cbn -[uart_run] in Hi, Hj.
  destruct i as [|[|[|[|[|[|[|[|]]]]]]]], j as [|[|[|[|[|[|[|[|]]]]]]]]; cbn -[uart_run] in Hi, Hj; done.
Qed.

Lemma mmio_dispatch_exact_witness :
  handle_mmio PLATFORM_DEFAULT true 1 ex_dm1 ex_io 0x09000018 0 4 false =
    Some (Ok (put_device ex_dm1 0 (DevUart (uart_run uart_new [UPush 65; UPush 66])), ex_io, Some 0x80)).
Proof.
  destruct (mmio_dispatch_exact PLATFORM_DEFAULT true 1 ex_dm1 ex_io 0x09000018 0 4) as [H _].
  exact (proj1 (H 0%nat (DevUart (uart_run uart_new [UPush 65; UPush 66])) eq_refl eq_refl (or_introl ex_dm1_disjoint))).
Defined.

(** ** A guest load, from the syndrome to the register *)
Lemma encode_iss_fits f : abort_iss_ok f -> fits 25 (encode_iss f).
Proof. intros (? & ? & ? & ? & ? & ? & ? & ?). unfold encode_iss, fits in *. lia. Qed.

Lemma abort_isv f : abort_iss_ok f -> Z.land (Z.shiftr (u32 (encode_iss f)) 24) 1 = 1.
Proof.
  intros Hf. unfold u32. rewrite wrap_id by (apply (fits_mono 25); [lia|by apply encode_iss_fits]).
  apply (encode_iss_fields f Hf).
Qed.

(** The access a valid syndrome describes. *)
Lemma handle_mmio_abort_isv pi checks fuel m s c addr f : abort_iss_ok f ->
  Z.land (esr_el2 (sys_regs c)) ESR_ISS_MASK = encode_iss f ->
  handle_mmio_abort pi checks fuel m s c addr =
    if ai_wnr f =? 1 then
      match handle_mmio pi checks fuel m s addr (get_reg (gp_regs c) (ai_srt f)) (2 ^ ai_sas f) true with
      | Some (Ok (m, s, _)) => Some (Ok (m, s, c, true))
      | Some (Err e) => Some (Err e)
      | None => None
      end
    else
      match handle_mmio pi checks fuel m s addr 0 (2 ^ ai_sas f) false with
      | Some (Ok (m, s, Some value)) => Some (Ok (m, s, set_gp_regs (set_reg (gp_regs c) (ai_srt f) value) c, true))
      | Some (Ok (m, s, None)) => Some (Ok (m, s, c, false))
      | Some (Err e) => Some (Err e)
      | None => None
      end.
Proof.
  intros Hf He. unfold handle_mmio_abort. rewrite He, (abort_isv f Hf). cbn [Z.eqb Pos.eqb].
  unfold u32. rewrite wrap_id by (apply (fits_mono 25); [lia|by apply encode_iss_fits]).
  rewrite (decode_iss 0 f Hf). destruct (ai_wnr f =? 1); cbn [is_store is_load negb access_reg access_size]; [|done].
  destruct (handle_mmio _ _ _ _ _ _ _ _ _) as [[[[? ?] ?]|]|]; done.
Qed.

(** A guest load from the UART's data register, end to end: a data abort
    with a valid syndrome for a load of 1, 2 or 4 bytes into register Rt at
    the UART's base is completed (the handler continues the guest) with the
    oldest received byte in Rt (0 when none waits) and every other register
    unchanged, and that byte is gone from the queue. *)
Theorem uart_load_end_to_end pi checks fuel m s c f i u q :
  disjoint_devices pi m -> dm_devices m !! i = Some (Some (DevUart u)) -> uart_rel u q ->
  abort_iss_ok f -> ai_wnr f = 0 -> ai_sas f <= 2 ->
  Z.land (esr_el2 (sys_regs c)) ESR_ISS_MASK = encode_iss f ->
  exists u', uart_rel u' (tl q) /\
    handle_mmio_abort pi checks fuel m s c (uart_base pi) =
      Some (Ok (put_device m i (DevUart u'), s, set_gp_regs (set_reg (gp_regs c) (ai_srt f) (List.hd 0 q)) c, true)).
Proof.
  intros Hd Hi Hu Hf Hw Hs He. rewrite (handle_mmio_abort_isv pi checks fuel m s c _ f Hf He), Hw. cbn [Z.eqb].
  assert (Hc : contains pi (DevUart u) (uart_base pi) = true).
  { unfold contains, base_address, dev_size, UART_SIZE. rewrite andb_true_iff, Z.leb_le, Z.ltb_lt. lia. }
  unfold handle_mmio. rewrite (handle_mmio_at pi m i (DevUart u) _ Hd Hi Hc). cbn [dev_read base_address].
  assert (Hsz : size_124 (2 ^ ai_sas f) = true).
  { destruct Hf as (Hsas & _). unfold fits in Hsas.
    assert (ai_sas f = 0 \/ ai_sas f = 1 \/ ai_sas f = 2) as [-> |[-> | ->]] by lia; reflexivity. }
  unfold uart_read. rewrite Hsz, Z.sub_diag. cbn [negb]. change (0 =? UARTDR) with true. cbv iota.
  pose proof (pop_rx_rel u q Hu) as Hp. destruct (pop_rx u) as [u' o]. destruct Hp as [Hu' ->].
  exists u'. split; [done|]. rewrite (put_device_split m i (DevUart u)) by done. by destruct q.
Qed.

Definition ex_ctx (esr : Z) : VcpuContext :=
  mkCtx gpr_default (mkSysRegs 0 0 0 0 0 0 0 0 0 0 0 0 0 esr 0 0 0) 0 0x48000000 SPSR_EL1H_DAIF_MASKED.
Lemma uart_load_end_to_end_witness : exists u', uart_rel u' [66] /\
  handle_mmio_abort PLATFORM_DEFAULT true 1 ex_dm1 ex_io (ex_ctx (0x90000000 + 0x1810006)) (uart_base PLATFORM_DEFAULT) =
    Some (Ok (put_device ex_dm1 0 (DevUart u'), ex_io,
      set_gp_regs (set_reg gpr_default 1 65) (ex_ctx (0x90000000 + 0x1810006)), true)).
Proof.
  refine (uart_load_end_to_end PLATFORM_DEFAULT true 1 ex_dm1 ex_io (ex_ctx (0x90000000 + 0x1810006))
    {| ai_sas := 2; ai_sse := 0; ai_srt := 1; ai_sf := 0; ai_ar := 0; ai_mid := 0; ai_wnr := 0; ai_dfsc := 6 |}
    0 (uart_run uart_new [UPush 65; UPush 66]) [65; 66] ex_dm1_disjoint eq_refl _ _ eq_refl _ _).
  - exact (uart_run_rel [UPush 65; UPush 66] uart_new [] uart_new_rel).
  - repeat split; vm_compute; congruence.
  - vm_compute. congruence.
  - reflexivity.
Defined.
