(* ===== verification/MmioTrait.v ===== *)
(** * MmioTrait: the interface of the emulated devices

    The trait [MmioDevice] of [devices/mod.rs] as a type class, with its
    default methods, the six devices that implement it and the enumeration
    [Device], whose implementation dispatches to theirs.  What the device
    manager relies on is a class of laws: an access never moves the window of
    the device, word accesses are accepted, and an interrupt a device raises is
    an SPI that [inject_spi] accepts.  The laws are proved of every device once,
    and of [Device] from those of its variants. *)

From Stdlib Require Import ZArith Lia Bool.
From stdpp Require Import base decidable option list strings.
From S2P Require Import Prelude Memory Rings VSwitch Regs Virtio VirtioNet GicDev PrimeCell Platform Devices.

(** ** The trait *)
Class MmioDevice (D : Type) := {
  mmio_read : D -> dev_io -> Z -> Z -> D * option Z;
  mmio_write : bool -> nat -> D -> dev_io -> Z -> Z -> Z -> option (result (D * dev_io * bool) string);
  mmio_base : PlatformInfo -> D -> Z;
  mmio_size : D -> Z;
  mmio_pending_irq : D -> option Z;
  mmio_ack_irq : D -> D
}.
(** The default methods. *)
Definition mmio_contains {D} `{MmioDevice D} (pi : PlatformInfo) (d : D) (addr : Z) : bool :=
  let base := mmio_base pi d in (base <=? addr) && (addr <? base + mmio_size d).
Definition default_pending_irq {D} (_ : D) : option Z := None.
Definition default_ack_irq {D} (d : D) : D := d.

(** ** The implementations *)
#[export] Instance uart_mmio : MmioDevice VirtualUart := {
  mmio_read u _ offset size := uart_read u offset size;
  mmio_write _ _ u s offset value size :=
    let '(u, b, tx) := uart_write u offset value size in Some (Ok (u, io_send tx s, b));
  mmio_base pi _ := uart_base pi;
  mmio_size _ := UART_SIZE;
  mmio_pending_irq := uart_pending_irq;
  mmio_ack_irq := default_ack_irq
}.
#[export] Instance gicd_mmio : MmioDevice VirtualGicd := {
  mmio_read g _ offset size := (g, gicd_read g offset size);
  mmio_write _ _ g s offset value size := Some (Ok (gicd_write g offset value size, io_forward (gicd_forward offset value size) s, true));
  mmio_base pi _ := gicd_base pi;
  mmio_size _ := GICD_SIZE;
  mmio_pending_irq := default_pending_irq;
  mmio_ack_irq := default_ack_irq
}.
#[export] Instance gicr_mmio : MmioDevice VirtualGicr := {
  mmio_read g _ offset size := (g, gicr_read g offset size);
  mmio_write _ _ g s offset value size := Some (Ok (gicr_write g offset value size, s, true));
  mmio_base pi _ := gicr_base pi;
  mmio_size := gicr_size;
  mmio_pending_irq := default_pending_irq;
  mmio_ack_irq := default_ack_irq
}.
(** A transport over any device model whose world is part of [dev_io]. *)
Definition transport_mmio {D W} `{VirtioBackend D W} (get : dev_io -> W) (put : W -> dev_io -> net_world) : MmioDevice (transport D) := {|
  mmio_read t _ offset size := (t, transport_read t offset size);
  mmio_write checks fuel t s offset value size :=
    match transport_write checks fuel t (get s) offset value size with
    | Some (Ok (t, w, spis)) => Some (Ok (t, io_virtio (put w s) spis s, true))
    | Some (Err e) => Some (Err e)
    | None => None
    end;
  mmio_base _ t := vt_base t;
  mmio_size _ := VIRTIO_MMIO_SIZE;
  mmio_pending_irq := default_pending_irq;
  mmio_ack_irq := default_ack_irq
|}.
#[export] Instance blk_mmio : MmioDevice (transport VirtioBlk) :=
  transport_mmio (fun s => nw_mem (io_world s)) (fun m s => {| nw_mem := m; nw_net := nw_net (io_world s) |}).
#[export] Instance net_mmio : MmioDevice (transport VirtioNet) := transport_mmio io_world (fun w _ => w).
#[export] Instance pl031_mmio : MmioDevice VirtualPl031 := {
  mmio_read r s offset size := (r, pl031_read (io_cntvct s) (io_cntfrq s) r offset size);
  mmio_write _ _ r s offset value size := let (r, b) := pl031_write (io_cntvct s) r offset value size in Some (Ok (r, s, b));
  mmio_base _ _ := PL031_BASE;
  mmio_size _ := PL031_SIZE;
  mmio_pending_irq := default_pending_irq;
  mmio_ack_irq := default_ack_irq
}.

(** [impl MmioDevice for Device]: one arm per variant. *)
Definition lift_read {D} (c : D -> Device) (p : D * option Z) : Device * option Z := (c p.1, p.2).
Definition lift_write {D} (c : D -> Device) (r : option (result (D * dev_io * bool) string)) : option (result (Device * dev_io * bool) string) :=
  match r with
  | Some (Ok (d, s, b)) => Some (Ok (c d, s, b))
  | Some (Err e) => Some (Err e)
  | None => None
  end.
#[export] Instance device_mmio : MmioDevice Device := {
  mmio_read d s offset size :=
    match d with
    | DevUart d => lift_read DevUart (mmio_read d s offset size)
    | DevGicd d => lift_read DevGicd (mmio_read d s offset size)
    | DevGicr d => lift_read DevGicr (mmio_read d s offset size)
    | DevBlk d => lift_read DevBlk (mmio_read d s offset size)
    | DevNet d => lift_read DevNet (mmio_read d s offset size)
    | DevPl031 d => lift_read DevPl031 (mmio_read d s offset size)
    end;
  mmio_write checks fuel d s offset value size :=
    match d with
    | DevUart d => lift_write DevUart (mmio_write checks fuel d s offset value size)
    | DevGicd d => lift_write DevGicd (mmio_write checks fuel d s offset value size)
    | DevGicr d => lift_write DevGicr (mmio_write checks fuel d s offset value size)
    | DevBlk d => lift_write DevBlk (mmio_write checks fuel d s offset value size)
    | DevNet d => lift_write DevNet (mmio_write checks fuel d s offset value size)
    | DevPl031 d => lift_write DevPl031 (mmio_write checks fuel d s offset value size)
    end;
  mmio_base pi d :=
    match d with
    | DevUart d => mmio_base pi d | DevGicd d => mmio_base pi d | DevGicr d => mmio_base pi d
    | DevBlk d => mmio_base pi d | DevNet d => mmio_base pi d | DevPl031 d => mmio_base pi d
    end;
  mmio_size d :=
    match d with
    | DevUart d => mmio_size d | DevGicd d => mmio_size d | DevGicr d => mmio_size d
    | DevBlk d => mmio_size d | DevNet d => mmio_size d | DevPl031 d => mmio_size d
    end;
  mmio_pending_irq d :=
    match d with
    | DevUart d => mmio_pending_irq d | DevGicd d => mmio_pending_irq d | DevGicr d => mmio_pending_irq d
    | DevBlk d => mmio_pending_irq d | DevNet d => mmio_pending_irq d | DevPl031 d => mmio_pending_irq d
    end;
  mmio_ack_irq d :=
    match d with
    | DevUart d => DevUart (mmio_ack_irq d) | DevGicd d => DevGicd (mmio_ack_irq d) | DevGicr d => DevGicr (mmio_ack_irq d)
    | DevBlk d => DevBlk (mmio_ack_irq d) | DevNet d => DevNet (mmio_ack_irq d) | DevPl031 d => DevPl031 (mmio_ack_irq d)
    end
}.

(** ** What the manager relies on *)
Class MmioLaws (D : Type) `{MmioDevice D} := {
  law_read d s offset size pi : let d' := (mmio_read d s offset size).1 in
    mmio_base pi d' = mmio_base pi d /\ mmio_size d' = mmio_size d;
  law_write checks fuel d s offset value size d' s' b pi : mmio_write checks fuel d s offset value size = Some (Ok (d', s', b)) ->
    mmio_base pi d' = mmio_base pi d /\ mmio_size d' = mmio_size d /\ (size = 4 -> b = true);
  law_ack d pi : mmio_base pi (mmio_ack_irq d) = mmio_base pi d /\ mmio_size (mmio_ack_irq d) = mmio_size d;
  law_irq d intid : mmio_pending_irq d = Some intid -> 32 <= intid <= 63
}.

#[export] Instance uart_laws : MmioLaws VirtualUart.
Proof.
  split; [done| |done|].
  - intros checks fuel u s offset value size u' s' b pi. cbn. unfold uart_write. intros H. split; [done|]. split; [done|]. intros ->.
    destruct u. cbn [negb size_124] in H. repeat (destruct (offset =? _) in H); by injection H as <- <- <-.
  - intros u intid. cbn. unfold uart_pending_irq, UART_SPI_INTID. destruct (negb _); [|done]. intros [= <-]. lia.
Qed.
#[export] Instance gicd_laws : MmioLaws VirtualGicd.
Proof. split; [done| |done|done]. intros. simplify_eq/=. done. Qed.
#[export] Instance gicr_laws : MmioLaws VirtualGicr.
Proof.
  split; [done| |done|done]. intros checks fuel g s offset value size g' s' b pi H. cbn in H. injection H as <- <- <-. split_and!; [done| |done].
  cbn. unfold gicr_size, gicr_write. by destruct (decode_offset g offset) as [[[]]|].
Qed.
Lemma transport_laws {D W} `{VirtioBackend D W} get put : @MmioLaws (transport D) (transport_mmio get put).
Proof.
  split; [done| |done|done]. intros checks fuel t s offset value size t' s' b pi Hw. cbn in Hw.
  destruct (transport_write _ _ _ _ _ _) as [[[[t1 w] spis]|e]|] eqn:E; [|done|done]. injection Hw as <- <- <-.
  apply transport_write_base in E. by split_and!.
Qed.
#[export] Instance blk_laws : MmioLaws (transport VirtioBlk) := transport_laws _ _.
#[export] Instance net_laws : MmioLaws (transport VirtioNet) := transport_laws _ _.
#[export] Instance pl031_laws : MmioLaws VirtualPl031.
Proof.
  split; [done| |done|done]. intros checks fuel r s offset value size r' s' b pi. cbn. unfold pl031_write. intros H. split; [done|]. split; [done|].
  intros ->. destruct r. cbn [negb Z.eqb Pos.eqb] in H. by injection H as _ _ <-.
Qed.

Lemma lift_write_laws {D} `{MmioLaws D} (c : D -> Device) checks fuel d s offset value size d' s' b pi :
  (forall d, mmio_base pi (c d) = mmio_base pi d) -> (forall d, mmio_size (c d) = mmio_size d) ->
  lift_write c (mmio_write checks fuel d s offset value size) = Some (Ok (d', s', b)) ->
  mmio_base pi d' = mmio_base pi (c d) /\ mmio_size d' = mmio_size (c d) /\ (size = 4 -> b = true).
Proof.
  intros Hb Hs. unfold lift_write. destruct (mmio_write checks fuel d s offset value size) as [[[[d1 s1] b1]|e]|] eqn:E; [|done|done].
  intros [= <- <- <-]. rewrite !Hb, !Hs. by eapply law_write.
Qed.
#[export] Instance device_laws : MmioLaws Device.
Proof.
  split.
  - intros [d|d|d|d|d|d] s offset size pi; exact (law_read d s offset size pi).
  - intros checks fuel [d|d|d|d|d|d] s offset value size d' s' b pi Hw;
      [refine (lift_write_laws DevUart _ _ _ _ _ _ _ _ _ _ _ _ _ Hw)|refine (lift_write_laws DevGicd _ _ _ _ _ _ _ _ _ _ _ _ _ Hw)
      |refine (lift_write_laws DevGicr _ _ _ _ _ _ _ _ _ _ _ _ _ Hw)|refine (lift_write_laws DevBlk _ _ _ _ _ _ _ _ _ _ _ _ _ Hw)
      |refine (lift_write_laws DevNet _ _ _ _ _ _ _ _ _ _ _ _ _ Hw)|refine (lift_write_laws DevPl031 _ _ _ _ _ _ _ _ _ _ _ _ _ Hw)]; done.
  - intros [d|d|d|d|d|d] pi; exact (law_ack d pi).
  - intros [d|d|d|d|d|d] intid; exact (law_irq d intid).
Qed.

(** ** The dispatch of [Devices] is the trait's *)
Lemma device_read_trait d s offset size : dev_read d s offset size = mmio_read d s offset size.
Proof. destruct d; [|done..]. cbn. unfold lift_read. by destruct (uart_read _ _ _). Qed.
Lemma device_write_trait checks fuel d s offset value size : dev_write checks fuel d s offset value size =
  match mmio_write checks fuel d s offset value size with
  | Some (Ok (d, s, _)) => Some (Ok (d, s)) | Some (Err e) => Some (Err e) | None => None end.
Proof.
  destruct d as [u|g|g|t|t|r]; cbn; try done.
  - by destruct (uart_write _ _ _ _) as [[? ?] ?].
  - by destruct (transport_write _ _ _ _ _ _) as [[[[? ?] ?]|]|].
  - by destruct (transport_write _ _ _ _ _ _) as [[[[? ?] ?]|]|].
  - by destruct (pl031_write _ _ _ _ _).
Qed.
Lemma device_window_trait pi d addr : contains pi d addr = mmio_contains pi d addr /\ dev_pending_irq d = mmio_pending_irq d.
Proof. by destruct d. Qed.

(** ** Any device, over any sequence of accesses *)
Inductive access := ARead (offset size : Z) | AWrite (offset value size : Z) | AAck.
Fixpoint accesses {D} `{MmioDevice D} (checks : bool) (fuel : nat) (l : list access) (d : D) (s : dev_io) : option (result (D * dev_io) string) :=
  match l with
  | [] => Some (Ok (d, s))
  | ARead offset size :: l => accesses checks fuel l (mmio_read d s offset size).1 s
  | AWrite offset value size :: l =>
      match mmio_write checks fuel d s offset value size with
      | Some (Ok (d, s, _)) => accesses checks fuel l d s
      | Some (Err e) => Some (Err e)
      | None => None
      end
  | AAck :: l => accesses checks fuel l (mmio_ack_irq d) s
  end.

(** No sequence of loads, stores and acknowledgements moves the window of a
    device: the addresses it answers to are those it was registered with. *)
Theorem window_never_moves {D} `{MmioLaws D} checks fuel l : forall (d : D) s d' s' pi,
  accesses checks fuel l d s = Some (Ok (d', s')) -> forall addr, mmio_contains pi d' addr = mmio_contains pi d addr.
Proof.
  induction l as [|[offset size|offset value size|] l IH]; intros d s d' s' pi Hr addr; cbn [accesses] in Hr.
  - by injection Hr as <- _.
  - rewrite (IH _ _ _ _ pi Hr). unfold mmio_contains. destruct (law_read d s offset size pi) as [-> ->]. done.
  - destruct (mmio_write checks fuel d s offset value size) as [[[[d1 s1] b]|e]|] eqn:E; [|done|done].
    rewrite (IH _ _ _ _ pi Hr). unfold mmio_contains. by destruct (law_write _ _ _ _ _ _ _ _ _ _ pi E) as (-> & -> & _).
  - rewrite (IH _ _ _ _ pi Hr). unfold mmio_contains. by destruct (law_ack d pi) as [-> ->].
Qed.
(** The guest enables the receive interrupt of the UART, loads its flags and
    sends a byte. *)
Definition ex_accesses : list access := [AWrite 0x38 0x10 4; ARead 0x18 4; AAck; AWrite 0 65 1].
Lemma window_never_moves_witness :
  match accesses true 1 ex_accesses (DevUart uart_new) ex_io with
  | Some (Ok (d', s')) => io_tx s' = [65] /\ mmio_contains PLATFORM_DEFAULT d' 0x09000018 = true
  | _ => False
  end.
Proof.
  assert (E : match accesses true 1 ex_accesses (DevUart uart_new) ex_io with Some (Ok (_, s')) => Some (io_tx s') | _ => None end = Some [65])
    by (vm_compute; reflexivity).
  pose proof (window_never_moves true 1 ex_accesses (DevUart uart_new) ex_io) as H.
  destruct (accesses true 1 ex_accesses (DevUart uart_new) ex_io) as [[[d' s']|e]|]; [|discriminate E|discriminate E].
  injection E as E. split; [exact E|]. rewrite (H d' s' PLATFORM_DEFAULT eq_refl 0x09000018). vm_compute. reflexivity.
Defined.
