(* ===== verification/Exception.v ===== *)
(** * Exception: per-VM global state and the EL2 exception handlers

    [global.rs] (the state shared by the handlers and the run loop, SPI
    injection) and [hypervisor/exception.rs]: the synchronous and IRQ
    handlers with hypercalls, PSCI, SMC routing, system-register traps, SGI
    generation, WFI and MMIO, for the single-core build of the normal world.
    The handlers run in a state monad; an [Err] is a panic.  Diagnostics
    printed on the console are not modelled; characters printed on behalf of
    the guest are.  The syndrome registers, the acknowledged interrupt and the
    bytes waiting in the physical UART are inputs.  The report of an
    instruction abort is in AbortReport, the arms of the secure build in Sel2,
    those of the multi-core build in MultiCpu and DevLock. *)

From Stdlib Require Import ZArith Lia Bool.
From stdpp Require Import base decidable option list strings.
From S2P Require Import Prelude Memory Stage2 Rings VSwitch Sched Regs Virtio VirtioNet VGic Vcpu GicDev PrimeCell Platform Devices FfaProxy.

(** ** Global state of a VM *)
Definition MAX_VMS : nat := 2.

Record PendingCpuOn := mkCpuOn { co_requested : bool; co_target : Z; co_entry : Z; co_ctx : Z }.
Definition cpu_on_new : PendingCpuOn := mkCpuOn false 0 0 0.
Definition cpu_on_request (target entry ctx : Z) (_ : PendingCpuOn) : PendingCpuOn := mkCpuOn true target entry ctx.
Definition cpu_on_take (p : PendingCpuOn) : PendingCpuOn * option (Z * Z * Z) :=
  if co_requested p then (mkCpuOn false (co_target p) (co_entry p) (co_ctx p), Some (co_target p, co_entry p, co_ctx p))
  else (p, None).

Record VmGlobalState := mkVmState {
  pending_sgis : list Z;
  pending_spis : list Z;
  terminal_exit : list bool;
  vcpu_online_mask : Z;
  current_vcpu : nat;
  pending_cpu_on : PendingCpuOn;
  preemption_exit : bool
}.
Definition vm_state_new : VmGlobalState :=
  mkVmState (replicate MAX_VCPUS 0) (replicate MAX_VCPUS 0) (replicate MAX_VCPUS false) 0 0 cpu_on_new false.
Definition set_pending_sgis (l : list Z) (v : VmGlobalState) : VmGlobalState :=
  mkVmState l (pending_spis v) (terminal_exit v) (vcpu_online_mask v) (current_vcpu v) (pending_cpu_on v) (preemption_exit v).
Definition set_pending_spis (l : list Z) (v : VmGlobalState) : VmGlobalState :=
  mkVmState (pending_sgis v) l (terminal_exit v) (vcpu_online_mask v) (current_vcpu v) (pending_cpu_on v) (preemption_exit v).
Definition set_terminal_exit (l : list bool) (v : VmGlobalState) : VmGlobalState :=
  mkVmState (pending_sgis v) (pending_spis v) l (vcpu_online_mask v) (current_vcpu v) (pending_cpu_on v) (preemption_exit v).
Definition set_online_mask (m : Z) (v : VmGlobalState) : VmGlobalState :=
  mkVmState (pending_sgis v) (pending_spis v) (terminal_exit v) m (current_vcpu v) (pending_cpu_on v) (preemption_exit v).
Definition set_current_vcpu (n : nat) (v : VmGlobalState) : VmGlobalState :=
  mkVmState (pending_sgis v) (pending_spis v) (terminal_exit v) (vcpu_online_mask v) n (pending_cpu_on v) (preemption_exit v).
Definition set_cpu_on (c : PendingCpuOn) (v : VmGlobalState) : VmGlobalState :=
  mkVmState (pending_sgis v) (pending_spis v) (terminal_exit v) (vcpu_online_mask v) (current_vcpu v) c (preemption_exit v).
Definition set_preemption_exit (b : bool) (v : VmGlobalState) : VmGlobalState :=
  mkVmState (pending_sgis v) (pending_spis v) (terminal_exit v) (vcpu_online_mask v) (current_vcpu v) (pending_cpu_on v) b.

(** [pending_sgis[id].fetch_or(1 << intid)] *)
Definition queue_bit (bit : Z) (id : nat) (l : list Z) : list Z := alter (fun q => Z.lor q (Z.shiftl 1 bit)) id l.

Definition queue_sgi (intid : Z) (id : nat) (v : VmGlobalState) : VmGlobalState :=
  set_pending_sgis (queue_bit intid id (pending_sgis v)) v.
Definition queue_spi (bit : Z) (id : nat) (v : VmGlobalState) : VmGlobalState :=
  set_pending_spis (queue_bit bit id (pending_spis v)) v.

(** ** The hypervisor's state *)
Inductive icc_event := IccEoir (intid : Z) | IccDir (intid : Z) | IccSgi1r (value : Z) | PhysWrite (addr value : Z).

Record hyp := mkHyp {
  hy_states : list VmGlobalState;      (* VM_STATE *)
  hy_vm : nat;                         (* CURRENT_VM_ID *)
  hy_devs : list DeviceManager;        (* DEVICES *)
  hy_io : dev_io;
  hy_core : pcpu;
  hy_exc : Z;                          (* EXCEPTION_COUNT *)
  hy_wfi : Z;                          (* WFI_CONSECUTIVE_COUNT *)
  hy_wfi_pc : Z;                       (* LAST_WFI_PC *)
  hy_ring : UartRxRing;                (* UART_RX *)
  hy_phys_rx : list Z;                 (* receive FIFO of the physical UART *)
  hy_ffa : ffa_state;
  hy_cnthp : Z;                        (* CNTHP_CTL_EL2 *)
  hy_icc : list icc_event              (* writes to ICC_EOIR1_EL1, ICC_DIR_EL1, ICC_SGI1R_EL1 and physical device registers *)
}.
Definition set_states (l : list VmGlobalState) (h : hyp) : hyp :=
  mkHyp l (hy_vm h) (hy_devs h) (hy_io h) (hy_core h) (hy_exc h) (hy_wfi h) (hy_wfi_pc h) (hy_ring h) (hy_phys_rx h)
    (hy_ffa h) (hy_cnthp h) (hy_icc h).
Definition set_devs (l : list DeviceManager) (io : dev_io) (h : hyp) : hyp :=
  mkHyp (hy_states h) (hy_vm h) l io (hy_core h) (hy_exc h) (hy_wfi h) (hy_wfi_pc h) (hy_ring h) (hy_phys_rx h)
    (hy_ffa h) (hy_cnthp h) (hy_icc h).
Definition set_core (p : pcpu) (h : hyp) : hyp :=
  mkHyp (hy_states h) (hy_vm h) (hy_devs h) (hy_io h) p (hy_exc h) (hy_wfi h) (hy_wfi_pc h) (hy_ring h) (hy_phys_rx h)
    (hy_ffa h) (hy_cnthp h) (hy_icc h).
Definition set_exc (n : Z) (h : hyp) : hyp :=
  mkHyp (hy_states h) (hy_vm h) (hy_devs h) (hy_io h) (hy_core h) n (hy_wfi h) (hy_wfi_pc h) (hy_ring h) (hy_phys_rx h)
    (hy_ffa h) (hy_cnthp h) (hy_icc h).
Definition set_wfi (n pc : Z) (h : hyp) : hyp :=
  mkHyp (hy_states h) (hy_vm h) (hy_devs h) (hy_io h) (hy_core h) (hy_exc h) n pc (hy_ring h) (hy_phys_rx h)
    (hy_ffa h) (hy_cnthp h) (hy_icc h).
Definition set_ring (r : UartRxRing) (rx : list Z) (h : hyp) : hyp :=
  mkHyp (hy_states h) (hy_vm h) (hy_devs h) (hy_io h) (hy_core h) (hy_exc h) (hy_wfi h) (hy_wfi_pc h) r rx
    (hy_ffa h) (hy_cnthp h) (hy_icc h).
Definition set_ffa (f : ffa_state) (h : hyp) : hyp :=
  mkHyp (hy_states h) (hy_vm h) (hy_devs h) (hy_io h) (hy_core h) (hy_exc h) (hy_wfi h) (hy_wfi_pc h) (hy_ring h)
    (hy_phys_rx h) f (hy_cnthp h) (hy_icc h).
Definition set_cnthp (v : Z) (h : hyp) : hyp :=
  mkHyp (hy_states h) (hy_vm h) (hy_devs h) (hy_io h) (hy_core h) (hy_exc h) (hy_wfi h) (hy_wfi_pc h) (hy_ring h)
    (hy_phys_rx h) (hy_ffa h) v (hy_icc h).
Definition log_icc (e : icc_event) (h : hyp) : hyp :=
  mkHyp (hy_states h) (hy_vm h) (hy_devs h) (hy_io h) (hy_core h) (hy_exc h) (hy_wfi h) (hy_wfi_pc h) (hy_ring h)
    (hy_phys_rx h) (hy_ffa h) (hy_cnthp h) (hy_icc h ++ [e]).

Definition set_cur_vm (n : nat) (h : hyp) : hyp :=
  mkHyp (hy_states h) n (hy_devs h) (hy_io h) (hy_core h) (hy_exc h) (hy_wfi h) (hy_wfi_pc h) (hy_ring h) (hy_phys_rx h)
    (hy_ffa h) (hy_cnthp h) (hy_icc h).

Definition exm := SM hyp string.
Definition OOB : string := "index out of bounds".

(** [current_vm_state()] *)
Definition vm_state : exm VmGlobalState := fun h =>
  match hy_states h !! hy_vm h with Some v => (h, Ok v) | None => (h, Err OOB) end.
Definition upd_vm_state (f : VmGlobalState -> VmGlobalState) : exm unit :=
  sm_upd (fun h => set_states (alter f (hy_vm h) (hy_states h)) h).
(** The virtual interface of the core. *)
Definition get_ich : exm ich_regs := fun h => (h, Ok (ich_of (hy_core h))).
Definition put_ich (i : ich_regs) : exm unit := sm_upd (fun h => set_core (with_ich i (hy_core h)) h).
(** [let _ = inject_interrupt(..)] *)
Definition hw_inject (intid priority : Z) : exm unit :=
  let* i := get_ich in put_ich (inject_interrupt i intid priority).1.
Definition get_sysreg (r : areg) : exm Z := fun h => (h, Ok (pc_regs (hy_core h) r)).
Definition put_sysreg (r : areg) (v : Z) : exm unit :=
  sm_upd (fun h => set_core (set_pc_regs (rset r v (pc_regs (hy_core h))) (hy_core h)) h).

Definition multi_vcpu (online : Z) : bool :=
  negb (online =? 0) && negb (Z.land online (u64 (online - 1)) =? 0).

(** ** [inject_spi] *)
Definition inject_spi (intid : Z) : exm unit :=
  if (intid <? 32) || (63 <? intid) then sm_ret tt else
  let bit := intid - 32 in
  let* h := sm_get in
  match hy_devs h !! hy_vm h with
  | None => sm_err OOB
  | Some dm =>
      let target := route_spi dm intid in
      if target <? Z.of_nat MAX_VCPUS
      then upd_vm_state (queue_spi bit (Z.to_nat target))
      else sm_ret tt
  end.
Fixpoint inject_spis (l : list Z) : exm unit :=
  match l with [] => sm_ret tt | i :: l => inject_spi i ;;; inject_spis l end.

(** ** Timers *)
Definition TIMER_ENABLE : Z := Z.shiftl 1 0.
Definition TIMER_IMASK : Z := Z.shiftl 1 1.
Definition TIMER_ISTATUS : Z := Z.shiftl 1 2.
Definition is_guest_vtimer_pending : exm bool :=
  let* ctl := get_sysreg CNTV_CTL in
  let enabled := negb (Z.land ctl TIMER_ENABLE =? 0) in
  let pending := negb (Z.land ctl TIMER_ISTATUS =? 0) in
  let masked := negb (Z.land ctl TIMER_IMASK =? 0) in
  sm_ret (enabled && pending && negb masked).
Definition mask_guest_vtimer : exm unit :=
  let* ctl := get_sysreg CNTV_CTL in put_sysreg CNTV_CTL (Z.lor ctl TIMER_IMASK).
Definition arm_preemption_timer : exm unit := sm_upd (set_cnthp 1).
Definition disarm_preemption_timer : exm unit := sm_upd (set_cnthp 0).

(** ** Exception counters *)
Definition MAX_CONSECUTIVE_EXCEPTIONS : Z := 100.
Definition inc_exception_count : exm Z := fun h =>
  let n := u32 (hy_exc h + 1) in (set_exc n h, Ok n).
Definition reset_exception_count : exm unit := sm_upd (set_exc 0).
Definition reset_exception_counters : exm unit := reset_exception_count ;;; sm_upd (set_wfi 0 0).

(** ** SGI generation *)
Definition sgi_targets (current : nat) (online irm target_list : Z) : list nat :=
  if irm =? 1 then
    List.filter (fun id => negb (id =? current)%nat && negb (Z.land online (Z.shiftl 1 (Z.of_nat id)) =? 0)) (seq 0 MAX_VCPUS)
  else List.filter (fun bit => negb (Z.land target_list (Z.shiftl 1 (Z.of_nat bit)) =? 0)) (seq 0 MAX_VCPUS).
Fixpoint sgi_loop (current : nat) (intid : Z) (targets : list nat) : exm unit :=
  match targets with
  | [] => sm_ret tt
  | t :: targets =>
      (if (t =? current)%nat then hw_inject intid IRQ_DEFAULT_PRIORITY
       else upd_vm_state (queue_sgi intid t)) ;;;
      sgi_loop current intid targets
  end.
Definition handle_sgi_trap (value : Z) : exm unit :=
  let target_list := u32 (Z.land value 0xFFFF) in
  let intid := u32 (Z.land (Z.shiftr value 24) 0xF) in
  let irm := Z.land (Z.shiftr value 40) 1 in
  let* v := vm_state in
  sgi_loop (current_vcpu v) intid (sgi_targets (current_vcpu v) (vcpu_online_mask v) irm target_list).

(** ** System-register traps *)
Definition emulate_mrs (op0 op1 crn crm op2 : Z) : exm Z :=
  if (op0 =? 2) && (op1 =? 0) && (crn =? 0) && (crm =? 2) && (op2 =? 2) then get_sysreg MDSCR_EL1
  else if (op0 =? 2) && (op1 =? 0) && (crn =? 1) && (crm =? 1) && (op2 =? 4) then sm_ret (Z.shiftl 1 3)
  else sm_ret 0.
(** The write to OSLAR_EL1 has no effect on the modelled registers. *)
Definition emulate_msr (op0 op1 crn crm op2 value : Z) : exm unit :=
  if (op0 =? 3) && (op1 =? 0) && (crn =? 12) && (crm =? 11) && (op2 =? 5) then handle_sgi_trap value
  else if (op0 =? 2) && (op1 =? 0) && (crn =? 0) && (crm =? 2) && (op2 =? 2) then put_sysreg MDSCR_EL1 value
  else sm_ret tt.

Definition handle_msr_mrs_trap (c : VcpuContext) (esr : Z) : exm VcpuContext :=
  let iss := u32 (Z.land esr ESR_ISS_MASK) in
  let op0 := Z.land (Z.shiftr iss 20) 0x3 in
  let op2 := Z.land (Z.shiftr iss 17) 0x7 in
  let op1 := Z.land (Z.shiftr iss 14) 0x7 in
  let crn := Z.land (Z.shiftr iss 10) 0xF in
  let rt := u8 (Z.land (Z.shiftr iss 5) 0x1F) in
  let crm := Z.land (Z.shiftr iss 1) 0xF in
  if Z.land iss 1 =? 1 then
    let* value := emulate_mrs op0 op1 crn crm op2 in
    sm_ret (if rt <? 31 then set_gp_regs (set_reg (gp_regs c) rt value) c else c)
  else
    let value := if rt <? 31 then get_reg (gp_regs c) rt else 0 in
    emulate_msr op0 op1 crn crm op2 value ;;; sm_ret c.

(** ** PSCI *)
Definition PSCI_VERSION : Z := 0x84000000.
Definition PSCI_CPU_SUSPEND_32 : Z := 0x84000001.
Definition PSCI_CPU_OFF : Z := 0x84000002.
Definition PSCI_CPU_ON_32 : Z := 0x84000003.
Definition PSCI_CPU_ON_64 : Z := 0xC4000003.
Definition PSCI_AFFINITY_INFO_32 : Z := 0x84000004.
Definition PSCI_AFFINITY_INFO_64 : Z := 0xC4000004.
Definition PSCI_MIGRATE_INFO_TYPE : Z := 0x84000006.
Definition PSCI_SYSTEM_OFF : Z := 0x84000008.
Definition PSCI_SYSTEM_RESET : Z := 0x84000009.
Definition PSCI_FEATURES : Z := 0x8400000A.
Definition PSCI_SUCCESS : Z := 0.
Definition PSCI_NOT_SUPPORTED : Z := 0xFFFFFFFF.
Definition PSCI_VERSION_0_2 : Z := 0x00000002.

Definition xreg (c : VcpuContext) (n : Z) : Z := get_reg (gp_regs c) n.
Definition set_xreg (n v : Z) (c : VcpuContext) : VcpuContext := set_gp_regs (set_reg (gp_regs c) n v) c.

Definition psci_features (feature_id : Z) : Z :=
  if existsb (Z.eqb feature_id) [PSCI_VERSION; PSCI_CPU_OFF; PSCI_SYSTEM_OFF; PSCI_SYSTEM_RESET; PSCI_FEATURES]
  then PSCI_SUCCESS
  else if existsb (Z.eqb feature_id) [PSCI_CPU_ON_32; PSCI_CPU_ON_64] then PSCI_SUCCESS
  else if existsb (Z.eqb feature_id) [PSCI_AFFINITY_INFO_32; PSCI_AFFINITY_INFO_64] then PSCI_SUCCESS
  else PSCI_NOT_SUPPORTED.

(** [terminal_exit[vcpu_id].store(true)] for the current vCPU *)
Definition set_terminal : exm unit :=
  let* v := vm_state in
  if (current_vcpu v <? MAX_VCPUS)%nat
  then upd_vm_state (fun v => set_terminal_exit (<[current_vcpu v := true]> (terminal_exit v)) v)
  else sm_err OOB.

Definition SHL_OVERFLOW : string := "attempt to shift left with overflow".

(** [checks]: the build has overflow checks; without them the shift amount is
    taken modulo 64. *)
Definition handle_psci (checks : bool) (c : VcpuContext) (function_id : Z) : exm (VcpuContext * bool) :=
  if function_id =? PSCI_VERSION then sm_ret (set_xreg 0 PSCI_VERSION_0_2 c, true)
  else if function_id =? PSCI_FEATURES then sm_ret (set_xreg 0 (psci_features (xreg c 1)) c, true)
  else if function_id =? PSCI_CPU_OFF then
    set_terminal ;;; sm_ret (set_xreg 0 PSCI_SUCCESS c, false)
  else if (function_id =? PSCI_CPU_ON_32) || (function_id =? PSCI_CPU_ON_64) then
    upd_vm_state (fun v => set_cpu_on (cpu_on_request (xreg c 1) (xreg c 2) (xreg c 3) (pending_cpu_on v)) v) ;;;
    sm_ret (set_xreg 0 PSCI_SUCCESS c, false)
  else if (function_id =? PSCI_AFFINITY_INFO_32) || (function_id =? PSCI_AFFINITY_INFO_64) then
    let vcpu_id := Z.land (xreg c 1) 0xFF in
    let* v := vm_state in
    if checks && (64 <=? vcpu_id) then sm_err SHL_OVERFLOW else
    sm_ret (set_xreg 0 (if negb (Z.land (vcpu_online_mask v) (Z.shiftl 1 (vcpu_id mod 64)) =? 0) then 0 else 1) c, true)
  else if function_id =? PSCI_MIGRATE_INFO_TYPE then sm_ret (set_xreg 0 2 c, true)
  else if function_id =? PSCI_SYSTEM_OFF then set_terminal ;;; sm_ret (c, false)
  else if function_id =? PSCI_SYSTEM_RESET then set_terminal ;;; sm_ret (c, false)
  else if function_id =? PSCI_CPU_SUSPEND_32 then sm_ret (set_xreg 0 PSCI_SUCCESS c, true)
  else sm_ret (set_xreg 0 PSCI_NOT_SUPPORTED c, true).

Definition is_psci_function (fid : Z) : bool :=
  existsb (Z.eqb fid)
    [PSCI_VERSION; PSCI_CPU_SUSPEND_32; PSCI_CPU_OFF; PSCI_CPU_ON_32; PSCI_CPU_ON_64; PSCI_AFFINITY_INFO_32;
     PSCI_AFFINITY_INFO_64; PSCI_MIGRATE_INFO_TYPE; PSCI_SYSTEM_OFF; PSCI_SYSTEM_RESET; PSCI_FEATURES].
Definition is_ffa_function (fid : Z) : bool :=
  let base := Z.land fid 0xFFFFFF00 in
  let low := Z.land fid 0xFF in
  ((base =? 0x84000000) || (base =? 0xC4000000)) && (0x60 <=? low).

(** ** Hypercalls *)
Definition JAILHOUSE_HVC_IMMEDIATE : Z := 0x4a48.
Definition JAILHOUSE_HC_DEBUG_CONSOLE_PUTC : Z := 8.
Definition JAILHOUSE_HC_DEBUG_CONSOLE_GETC : Z := 9.
Definition ALL_ONES : Z := 0xFFFFFFFFFFFFFFFF.

Definition uart_puts (s : list Z) : exm unit := sm_upd (fun h => set_devs (hy_devs h) (io_send s (hy_io h)) h).

Definition handle_jailhouse_debug_console (c : VcpuContext) : exm (VcpuContext * bool) :=
  let function := xreg c 0 in
  if function =? JAILHOUSE_HC_DEBUG_CONSOLE_PUTC then
    uart_puts [u8 (xreg c 1)] ;;; sm_ret (set_xreg 0 0 c, true)
  else if function =? JAILHOUSE_HC_DEBUG_CONSOLE_GETC then fun h =>
    match hy_phys_rx h with
    | ch :: rx => (set_ring (hy_ring h) rx h, Ok (set_xreg 0 (Z.land ch 0xFF) c, true))
    | [] => (h, Ok (set_xreg 0 ALL_ONES c, true))
    end
  else sm_ret (set_xreg 0 0 c, true).

Definition handle_hypercall_with_imm (checks : bool) (c : VcpuContext) (hvc_imm : Z) : exm (VcpuContext * bool) :=
  if hvc_imm =? JAILHOUSE_HVC_IMMEDIATE then handle_jailhouse_debug_console c else
  let hypercall_num := xreg c 0 in
  if negb (Z.land hypercall_num 0x80000000 =? 0) then handle_psci checks c hypercall_num
  else if hypercall_num =? 0 then uart_puts [u8 (xreg c 1)] ;;; sm_ret (set_xreg 0 0 c, true)
  else if hypercall_num =? 1 then sm_ret (set_xreg 0 0 c, false)
  else sm_ret (set_xreg 0 ALL_ONES c, false).
Definition ESR_HVC_IMM_MASK : Z := 0xFFFF.
Definition handle_hypercall (checks : bool) (c : VcpuContext) : exm (VcpuContext * bool) :=
  handle_hypercall_with_imm checks c (u32 (Z.land (esr_el2 (sys_regs c)) ESR_HVC_IMM_MASK)).

(** ** WFI *)
Definition MAX_CONSECUTIVE_WFI : Z := 500000.
Definition VTIMER_IRQ : Z := 27.

Definition handle_wfi_with_timer_injection (c : VcpuContext) : exm bool :=
  let pc := ctx_pc c in
  let* h := sm_get in
  if negb (pc =? hy_wfi_pc h) then
    sm_upd (set_wfi 0 pc) ;;;
    hw_inject VTIMER_IRQ IRQ_DEFAULT_PRIORITY ;;;
    sm_ret true
  else
  let count := u32 (hy_wfi h + 1) in
  sm_upd (set_wfi count (hy_wfi_pc h)) ;;;
  if MAX_CONSECUTIVE_WFI <? count then sm_ret false else
  let* fired := is_guest_vtimer_pending in
  if fired then
    sm_upd (set_wfi 0 (hy_wfi_pc h)) ;;;
    mask_guest_vtimer ;;;
    hw_inject VTIMER_IRQ IRQ_DEFAULT_PRIORITY ;;;
    sm_ret true
  else
  let* i := get_ich in
  if (0 <? pending_count i)%nat then sm_upd (set_wfi 0 (hy_wfi_pc h)) ;;; sm_ret true else
  (if count mod 100 =? 0 then hw_inject VTIMER_IRQ IRQ_DEFAULT_PRIORITY else sm_ret tt) ;;;
  sm_ret true.

(** ** SPIs into the hardware registers *)
Definition no_env : nat -> Z := fun _ => 0.
Definition flush_pending_spis_to_hardware : exm unit :=
  let* v := vm_state in
  let id := current_vcpu v in
  if (MAX_VCPUS <=? id)%nat then sm_ret tt else
  let* i := get_ich in
  let (q, i') := flush_pending_spis no_env (nth id (pending_spis v) 0) i in
  upd_vm_state (fun v => set_pending_spis (<[id := q]> (pending_spis v)) v) ;;;
  put_ich i'.

Section Handlers.
Context (checks : bool) (pi : PlatformInfo) (el3 : mem -> GpRegs -> mem * GpRegs) (tfa_boot : bool) (proxy_rx_buf : Z) (fuel : nat).

(** ** SMC routing *)
Definition gpregs_of (c : VcpuContext) : GpRegs :=
  mkRegs (xreg c 0) (xreg c 1) (xreg c 2) (xreg c 3) (xreg c 4) (xreg c 5) (xreg c 6) (xreg c 7).
Definition with_gpregs (r : GpRegs) (c : VcpuContext) : VcpuContext :=
  set_xreg 7 (rx7 r) (set_xreg 6 (rx6 r) (set_xreg 5 (rx5 r) (set_xreg 4 (rx4 r)
    (set_xreg 3 (rx3 r) (set_xreg 2 (rx2 r) (set_xreg 1 (rx1 r) (set_xreg 0 (rx0 r) c))))))).
Definition io_mem (io : dev_io) : mem := nw_mem (io_world io).
Definition set_io_mem (m : mem) (io : dev_io) : dev_io :=
  mkIo {| nw_mem := m; nw_net := nw_net (io_world io) |} (io_tx io) (io_gicd io) (io_spis io) (io_cntvct io) (io_cntfrq io).

(** The proxy runs on the trapped registers, for the current VM, over the
    machine's memory. *)
Definition call_ffa (c : VcpuContext) : exm (VcpuContext * bool) := fun h =>
  let f := hy_ffa h in
  let f := mkFfa (gpregs_of c) (Z.of_nat (hy_vm h)) (set_mem (fs_mach f) (io_mem (hy_io h))) (fs_mbox f) (fs_store f)
             (fs_notif f) (fs_spmc_present f) (fs_proxy_rxtx f) (fs_vttbr f) (fs_per_vm_vttbr f) in
  let (f, r) := handle_ffa_call checks el3 tfa_boot proxy_rx_buf f in
  let h := set_devs (hy_devs h) (set_io_mem (hm_mem (fs_mach f)) (hy_io h)) (set_ffa f h) in
  (h, match r with Ok b => Ok (with_gpregs (fs_regs f) c, b) | Err e => Err e end).

(** SMCCC pass-through: only x0 to x3 come back. *)
Definition forward_smc (c : VcpuContext) : exm (VcpuContext * bool) := fun h =>
  let (m, r) := el3 (io_mem (hy_io h)) (gpregs_of c) in
  (set_devs (hy_devs h) (set_io_mem m (hy_io h)) h,
   Ok (set_xreg 3 (rx3 r) (set_xreg 2 (rx2 r) (set_xreg 1 (rx1 r) (set_xreg 0 (rx0 r) c))), true)).

Definition handle_smc (c : VcpuContext) : exm (VcpuContext * bool) :=
  let function_id := xreg c 0 in
  if is_psci_function function_id then handle_psci checks c function_id
  else if is_ffa_function function_id then call_ffa c
  else forward_smc c.

(** ** Data aborts *)
(** [handle_mmio_abort] on the devices of the current VM; the SPIs its device
    raises are injected. *)
Definition mmio_abort (c : VcpuContext) (addr : Z) : exm (VcpuContext * bool) :=
  let* h := sm_get in
  match hy_devs h !! hy_vm h with
  | None => sm_err OOB
  | Some dm =>
      let io := hy_io h in
      let io := mkIo (io_world io) (io_tx io) (io_gicd io) [] (io_cntvct io) (io_cntfrq io) in
      match handle_mmio_abort pi checks fuel dm io c addr with
      | Some (Ok (dm, io, c, ok)) =>
          sm_upd (fun h => set_devs (<[hy_vm h := dm]> (hy_devs h)) io h) ;;;
          inject_spis (io_spis io) ;;;
          sm_ret (c, ok)
      | Some (Err e) => sm_err e
      | None => sm_err "out of fuel"%string
      end
  end.

Inductive outcome := Continue | ExitHost | Halt.
Definition outcome_of (b : bool) : outcome := if b then Continue else ExitHost.

Definition set_fault (esr far : Z) (c : VcpuContext) : VcpuContext :=
  let r := sys_regs c in
  mkCtx (gp_regs c)
    (mkSysRegs (sp_el1 r) (elr_el1 r) (spsr_el1 r) (sctlr_el1 r) (ttbr0_el1 r) (ttbr1_el1 r) (tcr_el1 r) (mair_el1 r)
       (vbar_el1 r) (contextidr_el1 r) (tpidr_el1 r) (tpidrro_el0 r) (tpidr_el0 r) esr far (hcr_el2 r) (cntvoff_el2 r))
    (ctx_sp c) (ctx_pc c) (spsr_el2 c).

Definition EC_TRAPPED_SIMD_FP : Z := 0x07.
Definition EC_TRAPPED_SVE : Z := 0x09.
Definition EC_SVE_TRAP : Z := 0x19.

(** The classes [handle_exception] does not know by name. *)
Definition handle_other (ec : Z) (c : VcpuContext) : VcpuContext * outcome :=
  if (ec =? EC_TRAPPED_SIMD_FP) || (ec =? EC_TRAPPED_SVE) || (ec =? EC_SVE_TRAP)
  then (advance_pc c, Continue) else (c, ExitHost).

(** [handle_exception] *)
Definition handle_exception (esr far hpfar : Z) (c : VcpuContext) : exm (VcpuContext * outcome) :=
  let c := set_fault esr far c in
  let* count := inc_exception_count in
  if MAX_CONSECUTIVE_EXCEPTIONS <? count then sm_ret (c, Halt) else
  match exit_reason c with
  | ErWfiWfe =>
      reset_exception_count ;;;
      let* v := vm_state in
      if multi_vcpu (vcpu_online_mask v) then
        handle_wfi_with_timer_injection c ;;; sm_ret (advance_pc c, ExitHost)
      else
        let* cont := handle_wfi_with_timer_injection c in
        sm_ret (if cont then (advance_pc c, Continue) else (c, ExitHost))
  | ErHvcCall =>
      reset_exception_count ;;;
      let* r := handle_hypercall checks c in sm_ret (r.1, outcome_of r.2)
  | ErSmcCall =>
      reset_exception_count ;;;
      let* r := handle_smc c in sm_ret (advance_pc r.1, outcome_of r.2)
  | ErTrapMsrMrs =>
      reset_exception_count ;;;
      let* c := handle_msr_mrs_trap c esr in sm_ret (advance_pc c, Continue)
  | ErInstructionAbort => sm_ret (c, ExitHost)
  | ErDataAbort =>
      let ipa_page := u64 (Z.shiftl (Z.land hpfar 0x00000FFFFFFFFFF0) 8) in
      let page_offset := Z.land far 0xFFF in
      let* r := mmio_abort c (Z.lor ipa_page page_offset) in
      if r.2 then
        reset_exception_count ;;;
        flush_pending_spis_to_hardware ;;;
        sm_ret (advance_pc r.1, Continue)
      else sm_ret (r.1, ExitHost)
  | ErOther ec => sm_ret (handle_other ec c)
  | ErUnknown => sm_ret (c, ExitHost)
  end.
End Handlers.

(** ** Physical interrupts *)
Definition GIC_SPURIOUS_INTID : Z := 1020.
Definition eoi (intid : Z) : exm unit := sm_upd (log_icc (IccEoir intid)).
Definition dir (intid : Z) : exm unit := sm_upd (log_icc (IccDir intid)).

(** The bytes of the physical receive FIFO into [UART_RX]. *)
Definition read_phys_uart : exm unit :=
  sm_upd (fun h => set_ring (fold_left (fun r ch => uart_ring_push r (u8 (Z.land ch 0xFF))) (hy_phys_rx h) (hy_ring h)) [] h).

Definition needs_switch (v : VmGlobalState) : bool :=
  existsb (fun id => negb (id =? current_vcpu v)%nat && negb (nth id (pending_sgis v) 0 =? 0)) (seq 0 MAX_VCPUS).

(** The virtual timer: masked, linked to its physical interrupt, which the
    guest's EOI deactivates. *)
Definition handle_vtimer_irq (intid : Z) : exm bool :=
  mask_guest_vtimer ;;;
  let* i := get_ich in
  put_ich (inject_hw_interrupt i VTIMER_IRQ VTIMER_IRQ IRQ_DEFAULT_PRIORITY).1 ;;;
  let* v := vm_state in
  if multi_vcpu (vcpu_online_mask v) && needs_switch v then
    upd_vm_state (set_preemption_exit true) ;;; eoi intid ;;; sm_ret false
  else eoi intid ;;; sm_ret true.

(** [handle_irq_exception]; [intid] is the value of ICC_IAR1_EL1; [true]
    continues the guest. *)
Definition handle_irq_exception (intid : Z) : exm bool :=
  reset_exception_count ;;;
  if GIC_SPURIOUS_INTID <=? intid then sm_ret true
  else if intid <=? 15 then
    eoi intid ;;; dir intid ;;;
    let* v := vm_state in
    (if (current_vcpu v =? 0)%nat then hw_inject intid IRQ_DEFAULT_PRIORITY
     else upd_vm_state (queue_sgi intid 0)) ;;;
    sm_ret true
  else if intid =? 26 then
    disarm_preemption_timer ;;;
    let* v := vm_state in
    if multi_vcpu (vcpu_online_mask v) then
      upd_vm_state (set_preemption_exit true) ;;; eoi intid ;;; dir intid ;;; sm_ret false
    else eoi intid ;;; dir intid ;;; sm_ret true
  else if intid =? 33 then
    read_phys_uart ;;; eoi intid ;;; dir intid ;;; sm_ret false
  else if intid =? 27 then handle_vtimer_irq intid
  else eoi intid ;;; dir intid ;;; sm_ret true.

(** ** Facts about the handlers *)

(** Running a bind whose first step succeeds. *)
Lemma bind_ok {A B} (c : exm A) (k : A -> exm B) h h' a : c h = (h', Ok a) -> sm_bind c k h = k a h'.
Proof. intros E. unfold sm_bind. by rewrite E. Qed.

Definition hyp_ok (h : hyp) : Prop :=
  (hy_vm h < length (hy_states h))%nat /\ (hy_vm h < length (hy_devs h))%nat /\
  Forall (fun v => length (pending_sgis v) = MAX_VCPUS /\ length (pending_spis v) = MAX_VCPUS /\
                   length (terminal_exit v) = MAX_VCPUS /\ (current_vcpu v < MAX_VCPUS)%nat) (hy_states h).
Definition cur_state (h : hyp) : VmGlobalState := nth (hy_vm h) (hy_states h) vm_state_new.

Lemma vm_state_ok h : hyp_ok h -> vm_state h = (h, Ok (cur_state h)).
Proof.
  intros (Hs & _). unfold vm_state, cur_state. rewrite nth_lookup.
  destruct (lookup_lt_is_Some_2 _ _ Hs) as [v ->]. done.
Qed.

Lemma cur_state_upd f h : hyp_ok h ->
  cur_state (set_states (alter f (hy_vm h) (hy_states h)) h) = f (cur_state h).
Proof.
  intros (Hs & _). unfold cur_state. cbn [hy_vm hy_states set_states]. rewrite !nth_lookup, list_lookup_alter_eq.
  destruct (lookup_lt_is_Some_2 _ _ Hs) as [v ->]. done.
Qed.

Lemma queue_bit_lookup bit id l j : 0 <= bit ->
  forall b, 0 <= b -> Z.testbit (nth j (queue_bit bit id l) 0) b =
    (Z.testbit (nth j l 0) b || ((b =? bit) && bool_decide (j = id /\ (id < length l)%nat))).
Proof.
  intros Hbit b Hb. unfold queue_bit. rewrite nth_alter. case_decide as E.
  - rewrite Z.lor_spec, bit_shift1, bool_decide_true by (lia || (destruct E; done)). by rewrite andb_true_r.
  - rewrite bool_decide_false by (intros [? ?]; apply E; done). by rewrite andb_false_r, orb_false_r.
Qed.

(** ** SGI delivery *)

(** What a write of [value] to ICC_SGI1R_EL1 asks for (RS = 0, affinities 1
    to 3 as the sender's): the vCPUs with a bit in TargetList, or with IRM all
    online vCPUs but the sender. *)
Definition sgi_intid (value : Z) : Z := Z.land (Z.shiftr value 24) 0xF.
Definition sgi_selected (value online : Z) (current id : nat) : bool :=
  if Z.testbit value 40 then negb (id =? current)%nat && Z.testbit online (Z.of_nat id)
  else Z.testbit value (Z.of_nat id).

Lemma sgi_targets_spec value online current id : (id < MAX_VCPUS)%nat ->
  id ∈ sgi_targets current online (Z.land (Z.shiftr value 40) 1) (u32 (Z.land value 0xFFFF)) <->
  sgi_selected value online current id = true.
Proof.
  intros Hid. unfold sgi_targets, sgi_selected.
  assert ((Z.land (Z.shiftr value 40) 1 =? 1) = Z.testbit value 40) as ->.
  { change 1 with (Z.ones 1) at 1. rewrite Z.land_ones, <- Z.bit0_mod, testbit_shiftr by lia.
    change (0 + 40) with 40. by destruct (Z.testbit value 40). }
  unfold MAX_VCPUS in *. destruct (Z.testbit value 40); rewrite list_elem_of_In, filter_In, in_seq.
  - rewrite land_bit_zero by lia. rewrite negb_involutive. split; [tauto|]. intros ->. split; [lia|done].
  - rewrite land_bit_zero by lia. rewrite negb_involutive. unfold u32. rewrite testbit_wrap by lia.
    change 0xFFFF with (Z.ones 16). rewrite Z.land_spec, testbit_ones by lia.
    rewrite (proj2 (Z.ltb_lt (Z.of_nat id) 32)), (proj2 (Z.ltb_lt (Z.of_nat id) 16)) by lia.
    rewrite andb_true_r. cbn [andb]. split; [tauto|]. intros ->. split; [lia|done].
Qed.

Lemma hyp_ok_upd f h : hyp_ok h ->
  (forall v, length (pending_sgis (f v)) = length (pending_sgis v) /\ length (pending_spis (f v)) = length (pending_spis v) /\
     length (terminal_exit (f v)) = length (terminal_exit v) /\ current_vcpu (f v) = current_vcpu v) ->
  hyp_ok (set_states (alter f (hy_vm h) (hy_states h)) h).
Proof.
  intros (H1 & H2 & H3) Hf. split_and!; [cbn; by rewrite length_alter|done|].
  cbn. apply Forall_alter; [done|]. intros v Hv _. destruct (Hf v) as (-> & -> & -> & ->).
  by apply (Forall_lookup_1 _ _ _ _ H3 Hv).
Qed.

Lemma queue_bit_length bit id l : length (queue_bit bit id l) = length l.
Proof. unfold queue_bit. by rewrite length_alter. Qed.

(** The result of the loop: the queues, and the register file if the sender
    is among the targets. *)
Record sgi_post (cur : nat) (intid : Z) (targets : list nat) (h h' : hyp) : Prop := {
  sp_ok : hyp_ok h';
  sp_vm : hy_vm h' = hy_vm h;
  sp_cur : current_vcpu (cur_state h') = current_vcpu (cur_state h);
  sp_queue : forall j b, 0 <= b -> Z.testbit (nth j (pending_sgis (cur_state h')) 0) b =
    Z.testbit (nth j (pending_sgis (cur_state h)) 0) b ||
    ((b =? intid) && bool_decide (j ∈ targets) && negb (j =? cur)%nat && (j <? MAX_VCPUS)%nat);
  sp_core : cur ∉ targets -> hy_core h' = hy_core h;
  sp_devs : hy_devs h' = hy_devs h /\ hy_io h' = hy_io h
}.

Lemma cur_sgis_length h : hyp_ok h -> length (pending_sgis (cur_state h)) = MAX_VCPUS.
Proof.
  intros (H1 & _ & H3). unfold cur_state. rewrite nth_lookup.
  destruct (lookup_lt_is_Some_2 _ _ H1) as [v Hv]. rewrite Hv. by apply (Forall_lookup_1 _ _ _ _ H3 Hv).
Qed.

Lemma bool_elem_cons (j t : nat) l : bool_decide (j ∈ t :: l) = (j =? t)%nat || bool_decide (j ∈ l).
Proof.
  destruct (Nat.eqb_spec j t) as [-> |Hne]; cbn [orb]; [apply bool_decide_true; left|].
  apply bool_decide_ext. rewrite elem_of_cons. tauto.
Qed.

(** One target other than the sender. *)
Lemma queue_sgi_post cur intid t targets h h' : hyp_ok h -> 0 <= intid -> t <> cur ->
  sgi_post cur intid targets (set_states (alter (queue_sgi intid t) (hy_vm h) (hy_states h)) h) h' ->
  sgi_post cur intid (t :: targets) h h'.
Proof.
  intros Hok Hi Hne [H1 H2 H3 H4 H5 H6]. rewrite cur_state_upd in H3, H4 by done. split; try done.
  - intros j b Hb. rewrite H4 by done. unfold queue_sgi. cbn [pending_sgis set_pending_sgis].
    rewrite queue_bit_lookup, cur_sgis_length, bool_elem_cons by done. rewrite <- orb_assoc. f_equal.
    destruct (Nat.eqb_spec j t) as [-> |Hjt].
    + rewrite (proj2 (Nat.eqb_neq t cur)) by done. cbn [orb negb]. rewrite !andb_true_r.
      replace (bool_decide (t = t /\ (t < MAX_VCPUS)%nat)) with (t <? MAX_VCPUS)%nat.
      * destruct (b =? intid), (bool_decide (t ∈ targets)), (t <? MAX_VCPUS)%nat; done.
      * destruct (Nat.ltb_spec t MAX_VCPUS); symmetry; [apply bool_decide_true; done|apply bool_decide_false; lia].
    + rewrite bool_decide_false by tauto. rewrite andb_false_r. done.
  - intros Hout. apply not_elem_of_cons in Hout as [_ Hout]. by rewrite H5.
Qed.

Lemma sgi_loop_spec cur intid targets : 0 <= intid -> NoDup targets -> forall h, hyp_ok h ->
  exists h', sgi_loop cur intid targets h = (h', Ok tt) /\ sgi_post cur intid targets h h' /\
    (cur ∈ targets -> hy_core h' = with_ich (inject_interrupt (ich_of (hy_core h)) intid IRQ_DEFAULT_PRIORITY).1 (hy_core h)).
Proof.
  intros Hi. induction targets as [|t targets IH]; intros Hnd h Hok.
  - exists h. split; [done|]. split; [|intros Hin; by apply not_elem_of_nil in Hin].
    split; try done. intros j b Hb. rewrite bool_decide_false by apply not_elem_of_nil. by rewrite andb_false_r, orb_false_r.
  - apply list.NoDup_cons in Hnd as [Hnt Hnd]. cbn [sgi_loop]. destruct (Nat.eqb_spec t cur) as [-> |Hne].
    + unfold hw_inject, get_ich, put_ich, sm_bind, sm_upd. cbv beta iota.
      set (h1 := set_core _ h). destruct (IH Hnd h1 Hok) as (h' & -> & [H1 H2 H3 H4 H5 H6] & _).
      exists h'. split; [done|]. split; [|intros _; by rewrite H5].
      split; try done; [|intros Hout; by apply not_elem_of_cons in Hout as [? _]].
      intros j b Hb. rewrite H4, bool_elem_cons by done. f_equal.
      destruct (Nat.eqb_spec j cur) as [-> |Hj]; [by rewrite !andb_false_r|done].
    + unfold upd_vm_state, sm_bind at 1, sm_upd. cbv beta iota.
      set (h1 := set_states (alter (queue_sgi intid t) _ _) h).
      assert (Hok1 : hyp_ok h1).
      { apply hyp_ok_upd; [done|]. intros v. unfold queue_sgi. cbn. by rewrite queue_bit_length. }
      destruct (IH Hnd h1 Hok1) as (h' & -> & Hp & Hc). exists h'. split; [done|].
      split; [by apply queue_sgi_post|]. intros Hin. apply elem_of_cons in Hin as [-> |Hin]; [done|by apply Hc].
Qed.

Lemma sgi_targets_nodup current online irm tl : NoDup (sgi_targets current online irm tl).
Proof.
  unfold sgi_targets. destruct (irm =? 1); apply NoDup_ListNoDup, List.NoDup_filter, seq_NoDup.
Qed.

Lemma sgi_intid_small value : u32 (Z.land (Z.shiftr value 24) 0xF) = sgi_intid value /\ 0 <= sgi_intid value < 16.
Proof.
  unfold sgi_intid. change 0xF with (Z.ones 4). rewrite Z.land_ones by lia.
  pose proof (Z.mod_pos_bound (Z.shiftr value 24) (2 ^ 4)). unfold u32. rewrite wrap_id by (unfold fits; lia). lia.
Qed.

(** The core's list registers after a trapped SGI to itself: pending in one of them
    under its INTID when one was free, and as before, the SGI dropped, when none was. *)
Definition self_sgi (intid : Z) (p p' : pcpu) : Prop :=
  let lrs := take (live (ich_of p)) (saved_lrs (pc_regs p)) in
  let lrs' := take (live (ich_of p)) (saved_lrs (pc_regs p')) in
  if (num_free lrs =? 0)%nat then lrs' = lrs else
  exists k v, lrs' !! k = Some v /\ get_lr_state v = LR_STATE_PENDING /\ get_lr_intid v = intid.

Lemma with_ich_lrs i p : length (ich_lr i) = NUM_LRS -> saved_lrs (pc_regs (with_ich i p)) = ich_lr i.
Proof.
  intros Hl. destruct i as [l vtr hcr vmcr]. cbn [ich_lr] in *. unfold NUM_LRS in Hl.
  destruct l as [|a [|b [|c [|d [|]]]]]; try discriminate Hl. reflexivity.
Qed.

Lemma inject_self intid p : ich_ok (ich_of p) -> 0 <= intid < 16 ->
  self_sgi intid p (with_ich (inject_interrupt (ich_of p) intid IRQ_DEFAULT_PRIORITY).1 p).
Proof.
  intros Hok Hi. unfold self_sgi, inject_interrupt. rewrite inject_loop_place by done.
  change (ich_lr (ich_of p)) with (saved_lrs (pc_regs p)). set (n := live _). set (l := saved_lrs _).
  assert (Hl : length (take n l) = n).
  { rewrite length_take. destruct Hok as [H1 H2]. change (length l = NUM_LRS) in H1. unfold n, live, NUM_LRS in *. lia. }
  rewrite place_lr_fill. cbn [fst]. rewrite with_ich_lrs.
  2:{ cbn [ich_lr set_lrs]. rewrite length_app, fill_length, Hl, length_drop. destruct Hok as [H1 H2].
      change (length l = NUM_LRS) in H1. unfold n, live, NUM_LRS in *. lia. }
  cbn [ich_lr set_lrs]. rewrite (take_app_length' (fill _ _)) by (by rewrite fill_length, Hl).
  destruct (Nat.eqb_spec (num_free (take n l)) 0) as [E|E]; [by rewrite fill_full|].
  destruct (fill_placed [build_lr intid IRQ_DEFAULT_PRIORITY] (take n l) (build_lr intid IRQ_DEFAULT_PRIORITY)) as (k & lr & _ & _ & Hk).
  { destruct (num_free (take n l)); [done|]. left. }
  exists k, (build_lr intid IRQ_DEFAULT_PRIORITY). split; [done|].
  destruct (build_lr_fields intid IRQ_DEFAULT_PRIORITY) as (H1 & H2 & _); [unfold fits; lia|done|done].
Qed.

(** C13. Inter-processor interrupts: a trapped write of [value] to ICC_SGI1R_EL1
    never fails, queues the SGI exactly for the vCPUs other than the sender that
    the value selects (by the bits of TargetList, or all online vCPUs but the sender
    with IRM; the code does not look at RS and Aff1 to Aff3) and changes no other
    queue; when such a vCPU is next entered the SGI is pending in one of its list
    registers under its own INTID or still queued, whatever else is queued meanwhile.
    An SGI the sender sends to itself is pending in its list registers when one was
    free; when none was, the registers are as before and the SGI is lost. *)
Theorem sgi_trap_delivers h value : hyp_ok h ->
  let cur := current_vcpu (cur_state h) in
  let intid := sgi_intid value in
  let selected := sgi_selected value (vcpu_online_mask (cur_state h)) cur in
  exists h', handle_sgi_trap value h = (h', Ok tt) /\ hyp_ok h' /\
    (forall j b, 0 <= b -> Z.testbit (nth j (pending_sgis (cur_state h')) 0) b =
       Z.testbit (nth j (pending_sgis (cur_state h)) 0) b ||
       ((b =? intid) && (j <? MAX_VCPUS)%nat && negb (j =? cur)%nat && selected j)) /\
    hy_core h' = (if selected cur then
      with_ich (inject_interrupt (ich_of (hy_core h)) intid IRQ_DEFAULT_PRIORITY).1 (hy_core h) else hy_core h) /\
    (selected cur = true -> ich_ok (ich_of (hy_core h)) -> self_sgi intid (hy_core h) (hy_core h')) /\
    (forall j env lrs, (j < MAX_VCPUS)%nat -> j <> cur -> selected j = true ->
       fits 16 (nth j (pending_sgis (cur_state h')) 0) ->
       let (q, lrs') := inject_pending_sgis env (nth j (pending_sgis (cur_state h')) 0) lrs in
       Z.testbit q intid = true \/
       exists k v, lrs' !! k = Some v /\ get_lr_state v = LR_STATE_PENDING /\ get_lr_intid v = intid).
Proof.
  intros Hok. cbv zeta. set (cur := current_vcpu (cur_state h)). destruct (sgi_intid_small value) as [Eid Hid].
  assert (Hcur : (cur < MAX_VCPUS)%nat).
  { destruct Hok as (H1 & _ & H3). unfold cur, cur_state. rewrite nth_lookup.
    destruct (lookup_lt_is_Some_2 _ _ H1) as [v Hv]. rewrite Hv. by apply (Forall_lookup_1 _ _ _ _ H3 Hv). }
  unfold handle_sgi_trap. rewrite (bind_ok _ _ h h (cur_state h)) by by apply vm_state_ok. rewrite Eid. fold cur.
  set (targets := sgi_targets cur _ _ _).
  assert (Hsel : forall j, (j < MAX_VCPUS)%nat ->
    bool_decide (j ∈ targets) = sgi_selected value (vcpu_online_mask (cur_state h)) cur j).
  { intros j Hj. pose proof (sgi_targets_spec value (vcpu_online_mask (cur_state h)) cur j Hj) as Hs.
    destruct (sgi_selected _ _ _ j); [apply bool_decide_true; tauto|apply bool_decide_false; intros Hin; by apply Hs in Hin]. }
  destruct (sgi_loop_spec cur (sgi_intid value) targets ltac:(lia) (sgi_targets_nodup _ _ _ _) h Hok)
    as (h' & -> & [H1 H2 H3 H4 H5 H6] & Hself).
  assert (Hq : forall j b, 0 <= b -> Z.testbit (nth j (pending_sgis (cur_state h')) 0) b =
       Z.testbit (nth j (pending_sgis (cur_state h)) 0) b ||
       ((b =? sgi_intid value) && (j <? MAX_VCPUS)%nat && negb (j =? cur)%nat &&
        sgi_selected value (vcpu_online_mask (cur_state h)) cur j)).
  { intros j b Hb. rewrite H4 by done. f_equal. destruct (Nat.ltb_spec j MAX_VCPUS) as [Hj|Hj]; [|by rewrite !andb_false_r].
    rewrite (Hsel j Hj), !andb_true_r. by destruct (b =? _), (sgi_selected _ _ _ j), (j =? cur)%nat. }
  exists h'. split_and!; [done|done|done| | |].
  - rewrite <- (Hsel cur Hcur). case_bool_decide as E; [by apply Hself|by apply H5].
  - rewrite <- (Hsel cur Hcur). intros Hs Hich. apply bool_decide_eq_true in Hs. rewrite Hself by done. by apply inject_self.
  - intros j env lrs Hj Hne Hs Hf.
    pose proof (drain_drained 0 _ 16 ltac:(lia) ltac:(lia) Hf env lrs) as Hd. cbv zeta in Hd.
    fold (inject_pending_sgis env (nth j (pending_sgis (cur_state h')) 0) lrs) in Hd.
    destruct (inject_pending_sgis _ _ _) as [q lrs']. cbn [fst snd] in Hd.
    destruct (dr_kept _ _ _ _ _ _ _ Hd (sgi_intid value)) as [[? _]|(k & v & ? & ? & ?)]; [lia| |by left|].
    + rewrite Hq by lia. rewrite Z.eqb_refl, Hs, (proj2 (Nat.ltb_lt j MAX_VCPUS)), (proj2 (Nat.eqb_neq j cur)) by done.
      by rewrite orb_true_r.
    + right. exists k, v. by rewrite Z.add_0_r in *.
Qed.

Definition ex_ffa0 : ffa_state :=
  mkFfa (mkRegs 0 0 0 0 0 0 0 0) 0 (mkMachine (fun _ => 0) None []) FfaCore.MAILBOXES_init FfaCore.SHARE_RECORDS_init
    FfaNotif.NOTIF_STATE_init false false 0 [0; 0].
Definition ex_hyp : hyp :=
  mkHyp [set_online_mask 0xF vm_state_new; vm_state_new] 0 [ex_dm1; dm_new] ex_io (mkPcpu (fun _ => 0) 0 3) 0 0 0
    uart_ring_new [] ex_ffa0 0 [].
Lemma ex_hyp_ok : hyp_ok ex_hyp.
Proof.
  split_and!; [cbn; lia|cbn; lia|]. repeat constructor.
Qed.

Lemma sgi_trap_delivers_witness : exists h', handle_sgi_trap 0x5000007 ex_hyp = (h', Ok tt) /\
  nth 1 (pending_sgis (cur_state h')) 0 = 32 /\ self_sgi 5 (hy_core ex_hyp) (hy_core h') /\
  let (q, lrs') := inject_pending_sgis (fun _ => 0) (nth 1 (pending_sgis (cur_state h')) 0) [0; 0; 0; 0] in
  Z.testbit q 5 = true \/ exists k v, lrs' !! k = Some v /\ get_lr_state v = LR_STATE_PENDING /\ get_lr_intid v = 5.
Proof.
  destruct (sgi_trap_delivers ex_hyp 0x5000007 ex_hyp_ok) as (h' & E & _ & _ & _ & Hself & H). exists h'. split; [exact E|].
  assert (nth 1 (pending_sgis (cur_state h')) 0 = 32) as Hq.
  { transitivity (nth 1 (pending_sgis (cur_state (handle_sgi_trap 0x5000007 ex_hyp).1)) 0); [by rewrite E|reflexivity]. }
  split; [exact Hq|]. split.
  { apply Hself; [reflexivity|]. split; [reflexivity|vm_compute; by split]. }
  apply (H 1%nat (fun _ => 0) [0; 0; 0; 0]); [unfold MAX_VCPUS; lia|done|reflexivity|].
  rewrite Hq. unfold fits. lia.
Defined.

(** With all four registers in use an SGI to the own core is lost. *)
Lemma self_sgi_lost :
  let full := replicate 4 (build_lr 33 0xA0) in
  let h := set_core (with_ich (set_lrs (ich_of (hy_core ex_hyp)) full) (hy_core ex_hyp)) ex_hyp in
  let h' := (handle_sgi_trap 0x5000001 h).1 in
  (handle_sgi_trap 0x5000001 h).2 = Ok tt /\ saved_lrs (pc_regs (hy_core h')) = full /\
  Forall (fun v => pending_sgis v = replicate MAX_VCPUS 0) (hy_states h').
Proof. vm_compute. split_and!; try reflexivity. repeat constructor. Qed.

(** ** SPI delivery *)
Lemma cur_state_ok h : hyp_ok h -> length (pending_spis (cur_state h)) = MAX_VCPUS /\ (current_vcpu (cur_state h) < MAX_VCPUS)%nat.
Proof.
  intros (H1 & _ & H3). unfold cur_state. rewrite nth_lookup.
  destruct (lookup_lt_is_Some_2 _ _ H1) as [v Hv]. rewrite Hv. split; by apply (Forall_lookup_1 _ _ _ _ H3 Hv).
Qed.

Definition cur_devs (h : hyp) : DeviceManager := nth (hy_vm h) (hy_devs h) dm_new.

Lemma inject_spi_run h intid : hyp_ok h -> 32 <= intid <= 63 -> 0 <= route_spi (cur_devs h) intid < Z.of_nat MAX_VCPUS ->
  inject_spi intid h =
    (set_states (alter (queue_spi (intid - 32) (Z.to_nat (route_spi (cur_devs h) intid))) (hy_vm h) (hy_states h)) h, Ok tt).
Proof.
  intros (_ & Hd & _) Hi Ht. unfold inject_spi. rewrite (proj2 (Z.ltb_ge intid 32)), (proj2 (Z.ltb_ge 63 intid)) by lia.
  cbn [orb]. unfold sm_bind at 1, sm_get. unfold cur_devs in *. rewrite nth_lookup in *.
  destruct (lookup_lt_is_Some_2 _ _ Hd) as [dm E]. rewrite E in *. cbn [default from_option] in *.
  by rewrite (proj2 (Z.ltb_lt _ _)) by apply Ht.
Qed.

Lemma queue_bit_fits bit id l j : 0 <= bit < 32 -> bank_wf MAX_VCPUS 32 l -> fits 32 (nth j (queue_bit bit id l) 0).
Proof.
  intros Hb Hl. unfold queue_bit. rewrite nth_alter. pose proof (nth_fits 32 MAX_VCPUS l j Hl ltac:(lia)).
  case_decide; [|done]. apply lor_fits; [lia|done|]. unfold fits. rewrite Z.shiftl_1_l.
  split; [apply Z.pow_nonneg; lia|apply Z.pow_lt_mono_r; lia].
Qed.

(** The flush drains the running vCPU's queue into the core's registers. *)
Lemma flush_hw_spec h : hyp_ok h -> ich_ok (ich_of (hy_core h)) ->
  let t := current_vcpu (cur_state h) in
  let n := live (ich_of (hy_core h)) in
  fits 32 (nth t (pending_spis (cur_state h)) 0) ->
  exists h2, flush_pending_spis_to_hardware h = (h2, Ok tt) /\
    drained 32 32 no_env (nth t (pending_spis (cur_state h)) 0) (take n (saved_lrs (pc_regs (hy_core h))))
      (nth t (pending_spis (cur_state h2)) 0) (take n (saved_lrs (pc_regs (hy_core h2)))).
Proof.
  intros Hok Hich. cbv zeta. set (t := current_vcpu _). set (n := live _). intros Hqf.
  destruct (cur_state_ok h Hok) as [Hlen Hcur]. fold t in Hcur. unfold flush_pending_spis_to_hardware.
  rewrite (bind_ok _ _ h h (cur_state h)) by by apply vm_state_ok. fold t.
  rewrite (proj2 (Nat.leb_gt MAX_VCPUS t)) by done. unfold sm_bind at 1, get_ich. rewrite flush_drain by done. fold n.
  change (ich_lr (ich_of (hy_core h))) with (saved_lrs (pc_regs (hy_core h))).
  pose proof (drain_drained 32 _ 32 ltac:(lia) ltac:(lia) Hqf no_env (take n (saved_lrs (pc_regs (hy_core h))))) as Hd.
  cbv zeta in Hd. fold (inject_pending_spis no_env (nth t (pending_spis (cur_state h)) 0)
    (take n (saved_lrs (pc_regs (hy_core h))))) in Hd.
  destruct (inject_pending_spis _ _ _) as [q l]. cbn [fst snd] in Hd.
  assert (Hll : length l = n).
  { rewrite (dr_fill _ _ _ _ _ _ _ Hd), fill_length, length_take. destruct Hich. unfold n, live, NUM_LRS in *. cbn. lia. }
  eexists. split; [reflexivity|]. cbn [hy_core set_core set_states].
  rewrite with_ich_lrs; cbn [ich_lr set_lrs].
  - change (cur_state (set_core ?p ?x)) with (cur_state x). rewrite cur_state_upd by done.
    cbn [pending_spis set_pending_spis].
    assert (nth t (<[t := q]> (pending_spis (cur_state h))) 0 = q) as ->.
    { by rewrite nth_lookup, list_lookup_insert_eq by (rewrite Hlen; done). }
    by rewrite take_app_length'.
  - rewrite length_app, length_drop, Hll. destruct Hich. unfold n, live, NUM_LRS in *. cbn. lia.
Qed.

(** C14. Device interrupts reach the vCPU they are routed to: for an SPI the
    queues hold (32 to 63) routed by GICD_IROUTER to vCPU [t], [inject_spi]
    sets its bit in [t]'s queue and changes no other bit of any queue; if [t]
    is the running vCPU, the flush before it is resumed leaves the SPI pending
    in one of the core's list registers, or queued when none is free. *)
Theorem spi_reaches_target h intid : hyp_ok h -> 32 <= intid <= 63 ->
  0 <= route_spi (cur_devs h) intid < Z.of_nat MAX_VCPUS -> ich_ok (ich_of (hy_core h)) ->
  Forall (fits 32) (pending_spis (cur_state h)) ->
  let t := Z.to_nat (route_spi (cur_devs h) intid) in
  exists h1, inject_spi intid h = (h1, Ok tt) /\
    (forall j b, 0 <= b -> Z.testbit (nth j (pending_spis (cur_state h1)) 0) b =
       Z.testbit (nth j (pending_spis (cur_state h)) 0) b || ((b =? intid - 32) && (j =? t)%nat)) /\
    (t = current_vcpu (cur_state h) -> exists h2, flush_pending_spis_to_hardware h1 = (h2, Ok tt) /\
       ((Z.testbit (nth t (pending_spis (cur_state h2)) 0) (intid - 32) = true /\
         num_free (take (live (ich_of (hy_core h))) (saved_lrs (pc_regs (hy_core h2)))) = 0%nat) \/
        exists k v, saved_lrs (pc_regs (hy_core h2)) !! k = Some v /\
          get_lr_state v = LR_STATE_PENDING /\ get_lr_intid v = intid)).
Proof.
  intros Hok Hi Ht Hich Hfits. cbv zeta. set (t := Z.to_nat _). rewrite inject_spi_run by done. fold t.
  set (h1 := set_states _ h). destruct (cur_state_ok h Hok) as [Hlen Hcur].
  assert (Hok1 : hyp_ok h1).
  { apply hyp_ok_upd; [done|]. intros v. unfold queue_spi. cbn. by rewrite queue_bit_length. }
  assert (Hcs : cur_state h1 = queue_spi (intid - 32) t (cur_state h)) by by apply cur_state_upd.
  assert (Hq : forall j b, 0 <= b -> Z.testbit (nth j (pending_spis (cur_state h1)) 0) b =
       Z.testbit (nth j (pending_spis (cur_state h)) 0) b || ((b =? intid - 32) && (j =? t)%nat)).
  { intros j b Hb. rewrite Hcs. unfold queue_spi. cbn [pending_spis set_pending_spis].
    rewrite queue_bit_lookup, Hlen by lia. do 2 f_equal.
    destruct (Nat.eqb_spec j t); [apply bool_decide_true; unfold t; lia|apply bool_decide_false; lia]. }
  exists h1. split_and!; [done..|]. intros Htc.
  destruct (flush_hw_spec h1 Hok1 Hich) as (h2 & E2 & Hd); rewrite ?Hcs.
  { change (current_vcpu (queue_spi _ _ _)) with (current_vcpu (cur_state h)). rewrite <- Htc.
    apply queue_bit_fits; [lia|by split]. }
  exists h2. split; [done|]. replace (current_vcpu (cur_state h1)) with t in Hd by (by rewrite Hcs).
  change (hy_core h1) with (hy_core h) in Hd.
  destruct (dr_kept _ _ _ _ _ _ _ Hd (intid - 32)) as [[H1 H2]|(k & v & Hk & Hs & Hv)]; [lia| |by left|].
  - rewrite Hq by lia. rewrite Z.eqb_refl, Nat.eqb_refl. by rewrite orb_true_r.
  - right. exists k, v. split_and!; [|done|lia]. apply lookup_take_Some in Hk. tauto.
Qed.
Lemma spi_reaches_target_witness : exists h1, inject_spi 48 ex_hyp = (h1, Ok tt) /\
  Z.testbit (nth 0 (pending_spis (cur_state h1)) 0) 16 = true /\
  exists h2, flush_pending_spis_to_hardware h1 = (h2, Ok tt).
Proof.
  destruct (spi_reaches_target ex_hyp 48 ex_hyp_ok) as (h1 & E & Hq & Hf).
  - lia.
  - unfold MAX_VCPUS. cbn. lia.
  - split; [reflexivity|vm_compute; split; congruence].
  - repeat constructor; vm_compute; congruence.
  - exists h1. split; [exact E|]. split; [rewrite (Hq 0%nat 16) by lia; reflexivity|].
    destruct (Hf eq_refl) as (h2 & E2 & _). exists h2. exact E2.
Defined.

(** ** Where the guest resumes *)

(** The handlers change general-purpose registers only. *)
Definition same_flow (c c' : VcpuContext) : Prop :=
  ctx_pc c' = ctx_pc c /\ ctx_sp c' = ctx_sp c /\ spsr_el2 c' = spsr_el2 c /\ sys_regs c' = sys_regs c.
Lemma same_flow_refl c : same_flow c c.
Proof. by split_and!. Qed.
Lemma same_flow_set c n v : same_flow c (set_xreg n v c).
Proof. by split_and!. Qed.
Lemma same_flow_gp c g : same_flow c (set_gp_regs g c).
Proof. by split_and!. Qed.
#[local] Hint Resolve same_flow_refl same_flow_set same_flow_gp : hv.

(** A handler returns a context with the same control flow. *)
Definition keeps_flow {B} (c : VcpuContext) (k : exm (VcpuContext * B)) : Prop :=
  forall h h' r, k h = (h', Ok r) -> same_flow c r.1.

Lemma keeps_ret {B} c c' (b : B) : same_flow c c' -> keeps_flow c (sm_ret (c', b)).
Proof. intros H h h' r [= <- <-]. done. Qed.
Lemma keeps_bind {A B} c (m : exm A) (k : A -> exm (VcpuContext * B)) :
  (forall a, keeps_flow c (k a)) -> keeps_flow c (sm_bind m k).
Proof.
  intros Hk h h' r. unfold sm_bind. destruct (m h) as [h1 [a|e]]; [apply Hk|done].
Qed.
Lemma keeps_err {B} c e : keeps_flow (B := B) c (sm_err e).
Proof. by intros h h' r [=]. Qed.
#[local] Hint Resolve keeps_ret keeps_bind keeps_err : hv.

Ltac flow_cases :=
  repeat match goal with
  | |- keeps_flow _ (if ?b then _ else _) => destruct b
  | |- keeps_flow _ (sm_bind _ _) => apply keeps_bind; intros ?
  | |- keeps_flow _ (sm_ret _) => apply keeps_ret
  | |- keeps_flow _ (sm_err _) => apply keeps_err
  end; auto with hv.

Lemma psci_flow checks c f : keeps_flow c (handle_psci checks c f).
Proof. unfold handle_psci. flow_cases. Qed.
Lemma jailhouse_flow c : keeps_flow c (handle_jailhouse_debug_console c).
Proof.
  unfold handle_jailhouse_debug_console. flow_cases. intros h h' r. destruct (hy_phys_rx h); intros [= <- <-]; apply same_flow_set.
Qed.
Lemma hypercall_flow checks c : keeps_flow c (handle_hypercall checks c).
Proof.
  unfold handle_hypercall, handle_hypercall_with_imm. flow_cases; [apply jailhouse_flow|apply psci_flow].
Qed.
Lemma smc_flow checks el3 tfa rx c : keeps_flow c (handle_smc checks el3 tfa rx c).
Proof.
  unfold handle_smc. flow_cases; [apply psci_flow| |].
  - intros h h' r. unfold call_ffa. destruct (handle_ffa_call _ _ _ _ _) as [f [b|e]]; intros [= <- <-]. by split_and!.
  - intros h h' r. unfold forward_smc. destruct (el3 _ _) as [m g]. intros [= <- <-]. by split_and!.
Qed.
Lemma msr_flow c esr h h' c' : handle_msr_mrs_trap c esr h = (h', Ok c') -> same_flow c c'.
Proof.
  unfold handle_msr_mrs_trap, sm_bind. destruct (_ =? 1).
  - destruct (emulate_mrs _ _ _ _ _ h) as [h1 [v|e]]; intros [= <- <-]. destruct (_ <? 31); auto with hv.
  - destruct (emulate_msr _ _ _ _ _ _ h) as [h1 [v|e]]; intros [= <- <-]. auto with hv.
Qed.

Lemma mmio_abort_flow' pi checks fuel dm io c addr dm' io' c' ok :
  handle_mmio_abort pi checks fuel dm io c addr = Some (Ok (dm', io', c', ok)) -> same_flow c c'.
Proof.
  unfold handle_mmio_abort. set (insn := if _ =? 1 then _ else _). destruct insn as [insn|]; [|intros [= _ _ <- _]; auto with hv].
  destruct (decode _ _) as [a|]; [|intros [= _ _ <- _]; auto with hv]. destruct (is_store a).
  - destruct (handle_mmio _ _ _ _ _ _ _ _) as [[[[? ?] ?]|]|]; intros [= _ _ <- _]; auto with hv.
  - destruct (handle_mmio _ _ _ _ _ _ _ _) as [[[[? ?] [v|]]|]|]; intros [= _ _ <- _]; auto with hv.
Qed.
Lemma mmio_flow checks pi fuel c addr : keeps_flow c (mmio_abort checks pi fuel c addr).
Proof.
  unfold mmio_abort. apply keeps_bind. intros h0. destruct (hy_devs h0 !! hy_vm h0) as [dm|]; [|apply keeps_err].
  destruct (handle_mmio_abort _ _ _ _ _ _ _) as [[[[[dm' io'] c'] ok]|e]|] eqn:E; [|apply keeps_err..].
  apply mmio_abort_flow' in E. flow_cases.
Qed.

Definition exc_class (esr : Z) : Z := Z.land (Z.shiftr esr ESR_EC_SHIFT) ESR_EC_MASK.

(** The context when the guest is resumed: the instruction after the trapped
    one, except after a hypercall, whose return address is already that. *)
Definition resumed (esr : Z) (c c' : VcpuContext) : Prop :=
  ctx_pc c' = (if exc_class esr =? 0x16 then ctx_pc c else u64 (ctx_pc c + 4)) /\
  ctx_sp c' = ctx_sp c /\ spsr_el2 c' = spsr_el2 c.

Lemma resumed_advance esr far c c1 : exc_class esr <> 0x16 -> same_flow (set_fault esr far c) c1 ->
  resumed esr c (advance_pc c1).
Proof.
  intros He (H1 & H2 & H3 & _). unfold resumed. rewrite (proj2 (Z.eqb_neq _ _)) by done.
  cbn [advance_pc ctx_pc ctx_sp spsr_el2] in *. unfold AARCH64_INSN_SIZE. by rewrite H1, H2, H3.
Qed.

Lemma exit_reason_class esr far c : exit_reason (set_fault esr far c) =
  match exc_class esr with
  | 0x00 => ErUnknown | 0x01 => ErWfiWfe | 0x16 => ErHvcCall | 0x17 => ErSmcCall | 0x18 => ErTrapMsrMrs
  | 0x20 | 0x21 => ErInstructionAbort | 0x24 | 0x25 => ErDataAbort | _ => ErOther (exc_class esr)
  end.
Proof. reflexivity. Qed.

(** The class behind an exit reason. *)
Lemma exit_reason_hvc esr far c : exit_reason (set_fault esr far c) = ErHvcCall <-> exc_class esr = 0x16.
Proof.
  rewrite exit_reason_class. set (x := exc_class esr). clearbody x. split; [|by intros ->].
  intros H. destruct x as [|p|]; try discriminate H.
  do 7 (destruct p as [p|p|]; try discriminate H; try reflexivity).
Qed.

(** C20. The guest resumes where it should: whenever a synchronous exception is
    handled and the guest continued, its PC is one instruction past the
    trapped one (modulo 2^64), except for a hypercall, where it is unchanged;
    the stack pointer and the saved processor state are untouched, whatever
    the handler did. *)
Theorem guest_resumes_after_trap checks pi el3 tfa rx fuel esr far hpfar c h h' c' :
  handle_exception checks pi el3 tfa rx fuel esr far hpfar c h = (h', Ok (c', Continue)) -> resumed esr c c'.
Proof.
  unfold handle_exception, sm_bind at 1, inc_exception_count. cbv beta iota zeta.
  destruct (_ <? _); [intros [=]|]. set (c0 := set_fault esr far c). set (h0 := set_exc _ h).
  pose proof (exit_reason_hvc esr far c) as Hvc. fold c0 in Hvc.
  assert (Hadv : forall c1, exit_reason c0 <> ErHvcCall -> same_flow c0 c1 -> resumed esr c (advance_pc c1)).
  { intros c1 Hne Hf. apply (resumed_advance esr far c c1); [intros He; by apply Hne, Hvc|done]. }
  destruct (exit_reason c0) eqn:Er.
  - intros [=].
  - unfold reset_exception_count, sm_upd. unfold sm_bind at 1 2.
    destruct (vm_state _) as [h1 [v|e]]; [|intros [=]]. destruct (multi_vcpu _); unfold sm_bind;
      destruct (handle_wfi_with_timer_injection _ _) as [h2 [b|e]]; try (intros [=]; fail).
    destruct b; intros [= _ <-]. apply Hadv; [done|apply same_flow_refl].
  - unfold reset_exception_count, sm_upd, sm_bind.
    destruct (handle_hypercall _ _ _) as [h1 [r|e]] eqn:E; [|intros [=]]. intros [= _ <- Ho].
    apply hypercall_flow in E as (H1 & H2 & H3 & _). unfold resumed. rewrite (proj2 (Z.eqb_eq _ _)) by by apply Hvc.
    by rewrite H1, H2, H3.
  - unfold reset_exception_count, sm_upd, sm_bind.
    destruct (handle_smc _ _ _ _ _ _) as [h1 [r|e]] eqn:E; [|intros [=]]. intros [= _ <- Ho].
    apply Hadv; [done|]. by apply smc_flow in E.
  - unfold reset_exception_count, sm_upd, sm_bind.
    destruct (handle_msr_mrs_trap _ _ _) as [h1 [r|e]] eqn:E; [|intros [=]]. intros [= _ <-].
    apply Hadv; [done|]. by apply msr_flow in E.
  - intros [=].
  - unfold sm_bind at 1. destruct (mmio_abort _ _ _ _ _ _) as [h1 [r|e]] eqn:E; [|intros [=]]. apply mmio_flow in E.
    destruct r.2; [|intros [=]]. unfold reset_exception_count, sm_upd, sm_bind.
    destruct (flush_pending_spis_to_hardware _) as [h2 [u|e]]; intros [= _ <-]. by apply Hadv.
  - unfold handle_other. destruct (_ || _); intros [= _ <-]. apply Hadv; [done|apply same_flow_refl].
Qed.
Definition no_el3 (m : mem) (r : GpRegs) : mem * GpRegs := (m, r).
Lemma guest_resumes_after_trap_witness : exists c',
  resumed (0x17 * 2 ^ 26) (set_xreg 0 PSCI_VERSION (ex_ctx 0)) c' /\ ctx_pc c' = 0x48000004.
Proof.
  eexists. split;
    [exact (guest_resumes_after_trap true PLATFORM_DEFAULT no_el3 false 0 1 (0x17 * 2 ^ 26) 0 0
              (set_xreg 0 PSCI_VERSION (ex_ctx 0)) ex_hyp _ _ eq_refl)|reflexivity].
Defined.

(** ** Skipped instructions and the exception counter *)
Section SkippedTraps.
Context (checks : bool) (pi : PlatformInfo) (el3 : mem -> GpRegs -> mem * GpRegs) (tfa : bool) (rx : Z) (fuel : nat).
Context (esr : Z) (Hesr : exc_class esr = EC_TRAPPED_SIMD_FP \/ exc_class esr = EC_TRAPPED_SVE \/ exc_class esr = EC_SVE_TRAP).

(** [n] such traps in a row, the guest continued after each. *)
Fixpoint trap_run (n : nat) (c : VcpuContext) (h : hyp) : hyp * option (VcpuContext * outcome) :=
  match n with
  | O => (h, Some (c, Continue))
  | S n =>
      match trap_run n c h with
      | (h, Some (c, Continue)) =>
          match handle_exception checks pi el3 tfa rx fuel esr 0 0 c h with
          | (h, Ok r) => (h, Some r)
          | (h, Err _) => (h, None)
          end
      | x => x
      end
  end.

Lemma skip_step c h : 0 <= hy_exc h <= 100 ->
  handle_exception checks pi el3 tfa rx fuel esr 0 0 c h =
    (set_exc (hy_exc h + 1) h,
     Ok (if hy_exc h =? 100 then (set_fault esr 0 c, Halt) else (advance_pc (set_fault esr 0 c), Continue))).
Proof using Hesr.
  intros Hn. unfold handle_exception, sm_bind at 1, inc_exception_count. cbv beta iota zeta.
  unfold u32. rewrite wrap_id by (unfold fits; lia). unfold MAX_CONSECUTIVE_EXCEPTIONS.
  destruct (Z.eqb_spec (hy_exc h) 100) as [E|E].
  - by rewrite (proj2 (Z.ltb_lt _ _)) by lia.
  - rewrite (proj2 (Z.ltb_ge _ _)) by lia. rewrite exit_reason_class.
    destruct Hesr as [-> |[-> | ->]]; reflexivity.
Qed.

Lemma trap_run_spec n c h : hy_exc h = 0 -> (n <= 100)%nat ->
  exists h' c', trap_run n c h = (h', Some (c', Continue)) /\ hy_exc h' = Z.of_nat n.
Proof using Hesr.
  intros H0. induction n as [|n IH]; intros Hn; [by exists h, c|].
  destruct IH as (h' & c' & E & En); [lia|]. cbn [trap_run]. rewrite E, skip_step by lia.
  rewrite (proj2 (Z.eqb_neq _ _)) by lia. do 2 eexists. split; [reflexivity|]. cbn [hy_exc set_exc]. lia.
Qed.
End SkippedTraps.

(** Trapped floating-point and SVE instructions are skipped one by one, but
    they count as consecutive exceptions: after 100 of them with no other
    exit in between, each answered by continuing the guest past the
    instruction, the next one halts the whole system. *)
Theorem skipped_traps_halt_system checks pi el3 tfa rx fuel esr c h :
  (exc_class esr = EC_TRAPPED_SIMD_FP \/ exc_class esr = EC_TRAPPED_SVE \/ exc_class esr = EC_SVE_TRAP) -> hy_exc h = 0 ->
  (forall n, (n <= 100)%nat -> exists h' c', trap_run checks pi el3 tfa rx fuel esr n c h = (h', Some (c', Continue))) /\
  exists h' c', trap_run checks pi el3 tfa rx fuel esr 101 c h = (h', Some (c', Halt)).
Proof.
  intros Hesr H0. split.
  - intros n Hn. destruct (trap_run_spec checks pi el3 tfa rx fuel esr Hesr n c h H0 Hn) as (h' & c' & E & _). eauto.
  - destruct (trap_run_spec checks pi el3 tfa rx fuel esr Hesr 100 c h H0 ltac:(lia)) as (h' & c' & E & En).
    change (trap_run checks pi el3 tfa rx fuel esr 101 c h) with
      (match trap_run checks pi el3 tfa rx fuel esr 100 c h with
       | (h, Some (c, Continue)) =>
          match handle_exception checks pi el3 tfa rx fuel esr 0 0 c h with
          | (h, Ok r) => (h, Some r) | (h, Err _) => (h, None) end
       | x => x end).
    rewrite E, (skip_step checks pi el3 tfa rx fuel esr Hesr) by lia. rewrite (proj2 (Z.eqb_eq _ _)) by lia. eauto.
Qed.
Lemma skipped_traps_halt_system_witness : exists h' c',
  trap_run true PLATFORM_DEFAULT no_el3 false 0 1 (0x19 * 2 ^ 26) 101 (ex_ctx 0) ex_hyp = (h', Some (c', Halt)).
Proof.
  apply (skipped_traps_halt_system true PLATFORM_DEFAULT no_el3 false 0 1 (0x19 * 2 ^ 26) (ex_ctx 0) ex_hyp);
    [by right; right|reflexivity].
Defined.

(** PSCI AFFINITY_INFO shifts by a guest-chosen amount: for a target whose
    affinity 0 is 64 or more, a build with overflow checks panics in the
    hypervisor, and one without them reports the state of another vCPU (the
    target modulo 64). *)
Theorem affinity_info_shift h c f : hyp_ok h -> f = PSCI_AFFINITY_INFO_32 \/ f = PSCI_AFFINITY_INFO_64 ->
  let id := Z.land (xreg c 1) 0xFF in
  64 <= id ->
  handle_psci true c f h = (h, Err SHL_OVERFLOW) /\
  handle_psci false c f h =
    (h, Ok (set_xreg 0 (if Z.testbit (vcpu_online_mask (cur_state h)) (id mod 64) then 0 else 1) c, true)).
Proof.
  intros Hok Hf. cbv zeta. intros Hid.
  assert (Hrun : forall checks, handle_psci checks c f h =
    (if checks && (64 <=? Z.land (xreg c 1) 0xFF) then sm_err SHL_OVERFLOW else
     sm_ret (set_xreg 0 (if negb (Z.land (vcpu_online_mask (cur_state h)) (Z.shiftl 1 (Z.land (xreg c 1) 0xFF mod 64)) =? 0)
       then 0 else 1) c, true)) h).
  { intros checks. unfold handle_psci. destruct Hf as [-> | ->]; cbn [Z.eqb Pos.eqb orb PSCI_AFFINITY_INFO_32
      PSCI_AFFINITY_INFO_64 PSCI_VERSION PSCI_FEATURES PSCI_CPU_OFF PSCI_CPU_ON_32 PSCI_CPU_ON_64];
      by rewrite (bind_ok _ _ h h (cur_state h)) by by apply vm_state_ok. }
  rewrite !Hrun, (proj2 (Z.leb_le _ _)) by done. cbn [andb]. split; [done|].
  rewrite land_bit_zero, negb_involutive by (apply Z.mod_pos_bound; lia). done.
Qed.
Lemma affinity_info_shift_witness :
  handle_psci true (set_xreg 1 0x80 (ex_ctx 0)) PSCI_AFFINITY_INFO_64 ex_hyp = (ex_hyp, Err SHL_OVERFLOW).
Proof.
  apply (affinity_info_shift ex_hyp (set_xreg 1 0x80 (ex_ctx 0)) PSCI_AFFINITY_INFO_64 ex_hyp_ok);
    [by right|vm_compute; congruence].
Defined.
