(* ===== verification/AbortReport.v ===== *)
(** * AbortReport: what an instruction abort prints

    The arm of [handle_exception] for instruction aborts ends the run of the
    guest (Exception) and reports the state at the crash: the EL1 registers,
    the EL2 registers of Stage-2, the first entries of the Stage-2 tables and,
    for a kernel address, two levels of the guest's own tables.  The report is
    what the console receives and the list of physical addresses EL2 loads
    from: EL2 runs without Stage-2, so a load is of physical memory.

    The theorems: what the loads are for the first VM; that with a VMID the
    first load misses the root of the tables; and that a guest chooses any
    doubleword of physical memory to be loaded and printed. *)

From Stdlib Require Import ZArith Lia Bool List.
From stdpp Require Import base decidable option list strings.
From S2P Require Import Prelude Memory Stage2 Regs CoreInit Vcpu Devices Exception.

(** ** The report *)
Inductive item := Txt (s : string) | Hex (v : Z) | Nl | Load (addr : Z).

(** The registers it reads. *)
Record crash := mkCrash {
  cr_el1 : areg -> Z;
  cr_vtcr : Z; cr_vttbr : Z; cr_hcr : Z; cr_mmfr0 : Z
}.

Definition field (name : string) (v : Z) : list item := [Txt name; Hex v; Nl].
Definition flag (set : bool) : string := if set then "1" else "0".
Definition is_table (e : Z) : bool := Z.land e (Z.lor PTE_VALID PTE_TABLE) =? Z.lor PTE_VALID PTE_TABLE.

Definition report_el1 (r : areg -> Z) : list item :=
  [Txt "[VCPU] EL1 state at crash:"; Nl] ++
  [Txt "  ELR_EL1  = 0x"; Hex (r ELR_EL1); Txt " (instruction that caused EL1 exception)"; Nl] ++
  [Txt "  ESR_EL1  = 0x"; Hex (r ESR_EL1); Txt " (EC=0x"; Hex (Z.land (Z.shiftr (r ESR_EL1) 26) 0x3F); Txt ")"; Nl] ++
  field "  SPSR_EL1 = 0x" (r SPSR_EL1) ++
  [Txt "  SCTLR_EL1= 0x"; Hex (r SCTLR_EL1); Txt " (M="; Txt (flag (negb (Z.land (r SCTLR_EL1) 1 =? 0))); Txt ")"; Nl] ++
  field "  SP_EL1   = 0x" (r SP_EL1) ++
  [Txt "  FAR_EL1  = 0x"; Hex (r FAR_EL1); Txt " (faulting address)"; Nl] ++
  field "  TCR_EL1  = 0x" (r TCR_EL1) ++
  field "  TTBR0_EL1= 0x" (r TTBR0_EL1) ++
  field "  TTBR1_EL1= 0x" (r TTBR1_EL1) ++
  field "  VBAR_EL1 = 0x" (r VBAR_EL1).

Definition report_el2 (k : crash) (iss : Z) : list item :=
  field "  ESR_EL2 ISS = 0x" iss ++
  [Txt "  VTCR_EL2 = 0x"; Hex (cr_vtcr k); Txt " (T0SZ="; Hex (Z.land (cr_vtcr k) 0x3F);
   Txt " SL0="; Hex (Z.land (Z.shiftr (cr_vtcr k) 6) 0x3); Txt " PS="; Hex (Z.land (Z.shiftr (cr_vtcr k) 16) 0x7); Txt ")"; Nl] ++
  field "  VTTBR_EL2= 0x" (cr_vttbr k) ++
  [Txt "  HCR_EL2  = 0x"; Hex (cr_hcr k); Txt " (VM="; Txt (flag (negb (Z.land (cr_hcr k) HCR_VM =? 0))); Txt ")"; Nl] ++
  field "  ID_AA64MMFR0_EL1 = 0x" (cr_mmfr0 k).

Definition report_stage2 (m : mem) (vttbr : Z) : list item :=
  let s2_l0_base := Z.land vttbr (not64 PAGE_OFFSET_MASK) in
  let s2_l0_0 := read64 m s2_l0_base in
  [Txt "  S2 L0[0] = 0x"; Load s2_l0_base; Hex s2_l0_0; Nl] ++
  (if is_table s2_l0_0 then
     let s2_l1_base := Z.land s2_l0_0 PTE_ADDR_MASK in
     [Txt "  S2 L1[0] = 0x"; Load s2_l1_base; Hex (read64 m s2_l1_base); Nl;
      Txt "  S2 L1[1] = 0x"; Load (s2_l1_base + 8); Hex (read64 m (s2_l1_base + 8)); Nl]
   else []).

Definition report_kernel (m : mem) (far_el1 ttbr1 : Z) : list item :=
  if 0xFFFF000000000000 <=? far_el1 then
    let l0_base := Z.land ttbr1 (not64 PAGE_OFFSET_MASK) in
    let l0_entry_addr := l0_base + l0_index far_el1 * 8 in
    let l0_entry := read64 m l0_entry_addr in
    [Load l0_entry_addr; Txt "  TTBR1 L0 base = 0x"; Hex l0_base; Nl;
     Txt "  L0["; Hex (l0_index far_el1); Txt "] @ 0x"; Hex l0_entry_addr; Txt " = 0x"; Hex l0_entry;
     Txt " (valid="; Hex (Z.land l0_entry PTE_VALID); Txt " type="; Hex (Z.land (Z.shiftr l0_entry 1) 1); Txt ")"; Nl] ++
    (if is_table l0_entry then
       let l1_base := Z.land l0_entry PTE_ADDR_MASK in
       let l1_entry_addr := l1_base + l1_index far_el1 * 8 in
       [Load l1_entry_addr; Txt "  L1["; Hex (l1_index far_el1); Txt "] @ 0x"; Hex l1_entry_addr; Txt " = 0x";
        Hex (read64 m l1_entry_addr); Nl]
     else [])
  else [].

Definition instruction_abort_report (m : mem) (k : crash) (esr far_el2 pc : Z) : list item :=
  [Txt "[VCPU] Instruction abort at FAR=0x"; Hex far_el2; Txt " PC=0x"; Hex pc; Nl] ++
  report_el1 (cr_el1 k) ++
  report_el2 k (Z.land esr ESR_ISS_MASK) ++
  report_stage2 m (cr_vttbr k) ++
  report_kernel m (cr_el1 k FAR_EL1) (cr_el1 k TTBR1_EL1).

Definition loads (l : list item) : list Z := omap (fun i => match i with Load a => Some a | _ => None end) l.
Definition printed (l : list item) (v : Z) : Prop := In (Hex v) l.

(** ** What the loads are *)
Lemma page_base x : fits 64 x -> Z.land x (not64 PAGE_OFFSET_MASK) = x - x mod 4096.
Proof. intros Hx. unfold not64, PAGE_OFFSET_MASK. change 0xFFF with (2 ^ 12 - 1). by rewrite land_notw_low by (done || lia). Qed.

Lemma loads_app l1 l2 : loads (l1 ++ l2) = loads l1 ++ loads l2.
Proof. apply omap_app. Qed.

(** The registers never cause a load: the loads are those of the two walks. *)
Lemma report_loads m k esr far pc :
  loads (instruction_abort_report m k esr far pc) =
  loads (report_stage2 m (cr_vttbr k)) ++ loads (report_kernel m (cr_el1 k FAR_EL1) (cr_el1 k TTBR1_EL1)).
Proof. unfold instruction_abort_report. by rewrite !loads_app. Qed.

(** The Stage-2 dump: for the VM with VMID 0 it starts at the root of its
    tables; VTTBR_EL2 holds the VMID in its upper half, which the mask keeps,
    so for any other VM EL2 loads from an address beyond 48 bits and not from
    the root. *)
Theorem stage2_dump_ignores_vmid m k esr far pc vmid l0 : fits 16 vmid -> fits 48 l0 -> l0 mod 4096 = 0 ->
  cr_vttbr k = Z.lor (Z.shiftl vmid 48) l0 ->
  exists rest, loads (instruction_abort_report m k esr far pc) = (vmid * 2 ^ 48 + l0) :: rest /\
    (vmid = 0 -> printed (instruction_abort_report m k esr far pc) (read64 m l0)) /\
    (vmid <> 0 -> 2 ^ 48 <= vmid * 2 ^ 48 + l0).
Proof.
  intros Hv Hl Ha E. rewrite report_loads. rewrite E, lor_disjoint_add by (done || lia).
  assert (Hb : Z.land (vmid * 2 ^ 48 + l0) (not64 PAGE_OFFSET_MASK) = vmid * 2 ^ 48 + l0).
  { rewrite page_base by (unfold fits in *; lia).
    assert ((vmid * 2 ^ 48 + l0) mod 4096 = 0) as ->; [|lia].
    replace (vmid * 2 ^ 48 + l0) with (l0 + vmid * 2 ^ 36 * 4096) by lia. by rewrite Z.mod_add by lia. }
  unfold report_stage2 at 1. rewrite Hb. cbn [app loads omap list_omap]. eexists. split; [reflexivity|]. split; [|unfold fits in *; lia].
  intros ->. unfold printed, instruction_abort_report. rewrite !in_app_iff. right. right. right. left.
  unfold report_stage2. rewrite E, Z.shiftl_0_l, Z.lor_0_l, page_base by (unfold fits in *; lia). rewrite Ha, Z.sub_0_r.
  cbn. right. right. left. reflexivity.
Qed.

(** ** A guest chooses what EL2 loads *)
(** The guest's registers for a doubleword at [a]: the page in TTBR1_EL1, the
    place in the page in bits 39 to 47 of FAR_EL1. *)
Definition steer (a : Z) (r : areg -> Z) : areg -> Z :=
  rset FAR_EL1 (0xFFFF000000000000 + (a mod 4096 / 8) * 2 ^ 39) (rset TTBR1_EL1 (a - a mod 4096) r).

(** Any guest reads any doubleword of physical memory, its own or not: with
    two of its own registers set to match, the report of an instruction abort
    loads it at EL2 and prints it. *)
Theorem abort_report_discloses m r vtcr vttbr hcr mmfr0 esr far pc a : fits 64 a -> a mod 8 = 0 ->
  let l := instruction_abort_report m (mkCrash (steer a r) vtcr vttbr hcr mmfr0) esr far pc in
  In a (loads l) /\ printed l (read64 m a).
Proof.
  intros Hf Ha. cbv zeta.
  assert (Hfar : steer a r FAR_EL1 = 0xFFFF000000000000 + (a mod 4096 / 8) * 2 ^ 39) by reflexivity.
  assert (Httbr : steer a r TTBR1_EL1 = a - a mod 4096) by reflexivity.
  assert (Hi : 0 <= a mod 4096 / 8 < 512) by (Z.to_euclidean_division_equations; lia).
  assert (Hidx : l0_index (steer a r FAR_EL1) = a mod 4096 / 8).
  { rewrite Hfar. unfold l0_index, PT_INDEX_MASK. change 0x1FF with (2 ^ 9 - 1). rewrite land_low, Z.shiftr_div_pow2 by lia.
    replace (0xFFFF000000000000 + a mod 4096 / 8 * 2 ^ 39) with ((0xFFFF * 2 ^ 9 + a mod 4096 / 8) * 2 ^ 39) by lia.
    rewrite Z.div_mul by lia. rewrite Z.add_comm, Z.mod_add by lia. apply Z.mod_small. lia. }
  assert (Haddr : Z.land (steer a r TTBR1_EL1) (not64 PAGE_OFFSET_MASK) + l0_index (steer a r FAR_EL1) * 8 = a).
  { rewrite Hidx, Httbr, page_base by (unfold fits in *; Z.to_euclidean_division_equations; lia).
    Z.to_euclidean_division_equations; lia. }
  rewrite report_loads. unfold printed, instruction_abort_report. cbn [cr_el1 cr_vttbr].
  unfold report_kernel. rewrite (proj2 (Z.leb_le _ _)) by lia. rewrite Haddr. split.
  - apply in_app_iff. right. left. reflexivity.
  - rewrite !in_app_iff. do 4 right. left. do 9 right. left. reflexivity.
Qed.

Definition ex_crash (a : Z) : crash := mkCrash (steer a (fun _ => 0)) 0 0 0 0.
(** The word at 0x40200008, of the hypervisor's own image. *)
Lemma abort_report_discloses_witness :
  let m := write64 (fun _ => 0) 0x40200008 0x5EC2E7 in
  In 0x40200008 (loads (instruction_abort_report m (ex_crash 0x40200008) 0 0 0)) /\
  printed (instruction_abort_report m (ex_crash 0x40200008) 0 0 0) 0x5EC2E7.
Proof.
  cbv zeta. destruct (abort_report_discloses (write64 (fun _ => 0) 0x40200008 0x5EC2E7) (fun _ => 0) 0 0 0 0 0 0 0 0x40200008) as [H1 H2];
    [unfold fits; lia|reflexivity|]. split; [exact H1|].
  rewrite read64_write64 in H2 by (unfold fits; lia). exact H2.
Defined.
Lemma stage2_dump_ignores_vmid_witness : exists rest,
  loads (instruction_abort_report (fun _ => 0) (mkCrash (fun _ => 0) 0 0x1000041200000 0 0) 0 0 0) = 0x1000041200000 :: rest.
Proof.
  destruct (stage2_dump_ignores_vmid (fun _ => 0) (mkCrash (fun _ => 0) 0 0x1000041200000 0 0) 0 0 0 1 0x41200000) as (rest & E & _);
    [unfold fits; lia|unfold fits; lia|reflexivity|reflexivity|]. exists rest. exact E.
Defined.
