(* ===== verification/VmRun.v ===== *)
(** * VmRun: a virtual machine and its run loop

    [vm.rs]: the VM with its vCPUs, their creation, the secondary vCPUs booted
    by PSCI CPU_ON, one iteration of the scheduling loop, [run_smp] and
    [run_multi_vm], for the single-core build.  [enter_guest] is the loop of
    [exception.S]: guest code runs until the next exception, the handler is
    called, and the guest is continued or left.  Guest code is a parameter:
    what it does to the registers, to memory and to the context, the bytes
    that reach the physical UART meanwhile, and the exception that ends it. *)

From Stdlib Require Import ZArith Lia Bool.
From stdpp Require Import base decidable option list strings relations.
From S2P Require Import Prelude Memory Rings VSwitch Sched Regs Virtio VirtioNet VGic Vcpu GicDev PrimeCell Platform Devices FfaProxy Exception.

(** ** Virtual machines *)
Inductive VmState := VmUninitialized | VmReady | VmRunning | VmPaused | VmStopped.
#[export] Instance VmState_eq_dec : EqDecision VmState.
Proof. solve_decision. Defined.

Record Vm := mkVm {
  vm_id : nat;
  vm_st : VmState;
  vm_vcpus : list (option Vcpu);
  vm_count : nat;
  vm_memory_initialized : bool;
  vm_sched : Scheduler;
  vm_vttbr : Z;
  vm_vtcr : Z
}.
Definition set_vm_st (s : VmState) (v : Vm) : Vm :=
  mkVm (vm_id v) s (vm_vcpus v) (vm_count v) (vm_memory_initialized v) (vm_sched v) (vm_vttbr v) (vm_vtcr v).
Definition set_vcpus (l : list (option Vcpu)) (n : nat) (v : Vm) : Vm :=
  mkVm (vm_id v) (vm_st v) l n (vm_memory_initialized v) (vm_sched v) (vm_vttbr v) (vm_vtcr v).
Definition set_sched (s : Scheduler) (v : Vm) : Vm :=
  mkVm (vm_id v) (vm_st v) (vm_vcpus v) (vm_count v) (vm_memory_initialized v) s (vm_vttbr v) (vm_vtcr v).

(** [self.vcpus[id].is_some()] *)
Definition has_vcpu (v : Vm) (id : nat) : bool := match vm_vcpus v !! id with Some (Some _) => true | _ => false end.

(** [vm_state(id)], an array of MAX_VMS *)
Definition state_of (id : nat) : exm VmGlobalState := fun h =>
  match hy_states h !! id with Some v => (h, Ok v) | None => (h, Err OOB) end.
Definition upd_state_of (id : nat) (f : VmGlobalState -> VmGlobalState) : exm unit :=
  sm_upd (fun h => set_states (alter f id (hy_states h)) h).

(** ** Creation and lifecycle *)
Section Lifecycle.
Context (mpidr : Z) (pi : PlatformInfo).

(** [Vm::new] with the Linux feature; [cntvct] is read by the RTC. *)
Definition vm_new (cntvct : Z) (id : nat) : exm Vm :=
  let* h := sm_get in
  match hy_devs h !! id with
  | None => sm_err OOB
  | Some dm =>
      match vm_devices pi cntvct dm with
      | None => sm_err "assertion failed: num_vcpus <= MAX_SMP_CPUS"%string
      | Some dm =>
          sm_upd (fun h => set_devs (<[id := dm]> (hy_devs h)) (hy_io h) h) ;;;
          sm_ret (mkVm id VmUninitialized (replicate MAX_VCPUS None) 0 false sched_new 0 0)
      end
  end.

Definition mark_ready (v : Vm) : Vm :=
  if decide (vm_st v = VmUninitialized) then set_vm_st VmReady v else v.

Definition create_vcpu (id : nat) (v : Vm) : result Vm string :=
  if (MAX_VCPUS <=? id)%nat then Err "vCPU ID out of range"%string
  else if has_vcpu v id then Err "vCPU already exists"%string
  else
    let v := set_vcpus (<[id := Some (vcpu_new mpidr id 0 0)]> (vm_vcpus v)) (vm_count v + 1) v in
    let v := set_sched (add_vcpu (vm_sched v) id) v in
    Ok (mark_ready v).

Definition vm_add_vcpu (entry_point stack_pointer : Z) (v : Vm) : result (Vm * nat) string :=
  if (MAX_VCPUS <=? vm_count v)%nat then Err "Maximum vCPU count reached"%string
  else
    let id := vm_count v in
    let v := set_vcpus (<[id := Some (vcpu_new mpidr id entry_point stack_pointer)]> (vm_vcpus v)) (vm_count v + 1) v in
    Ok (mark_ready v, id).

(** [vcpu] and [vcpu_mut]; the array has MAX_VCPUS entries. *)
Definition vm_vcpu (id : nat) (v : Vm) : option Vcpu :=
  if (id <? vm_count v)%nat then match vm_vcpus v !! id with Some o => o | None => None end else None.

Definition vm_pause (v : Vm) : result Vm string :=
  if decide (vm_st v = VmRunning) then Ok (set_vm_st VmPaused v) else Err "VM is not running"%string.
Definition vm_resume (v : Vm) : result Vm string :=
  if decide (vm_st v = VmPaused) then Ok (set_vm_st VmRunning v) else Err "VM is not paused"%string.
Definition vm_stop (v : Vm) : Vm :=
  set_vm_st VmStopped (set_vcpus (map (fmap vcpu_stop) (vm_vcpus v)) (vm_count v) v).

(** [mark_current_done] *)
Definition mark_current_done (v : Vm) : Vm :=
  match sc_current (vm_sched v) with Some id => set_sched (remove_vcpu (vm_sched v) id) v | None => v end.
End Lifecycle.

(** ** Entering the guest *)
Inductive guest_event := GSync (esr far hpfar : Z) | GIrq (intid : Z).
(** What guest code does until its next exception. *)
Record guest_step := mkGuest {
  gs_core : pcpu; gs_mem : mem; gs_ctx : VcpuContext; gs_rx : list Z; gs_event : guest_event }.
Definition HALTED : string := "halted".

Section Machine.
Context (checks : bool) (pi : PlatformInfo) (el3 : mem -> GpRegs -> mem * GpRegs) (tfa_boot : bool) (proxy_rx_buf : Z).
Context (blk_fuel : nat) (mpidr : Z) (phys_gicr : Z -> Z).
Context (guest_code : hyp -> VcpuContext -> guest_step).

(** The machine when guest code stops. *)
Definition after_guest (g : guest_step) (h : hyp) : hyp :=
  let h := set_core (gs_core g) h in
  let h := set_devs (hy_devs h) (set_io_mem (gs_mem g) (hy_io h)) h in
  set_ring (hy_ring h) (hy_phys_rx h ++ gs_rx g) h.

(** The vectors of [exception.S]: continue, or leave with code 1 after a
    WFI/WFE trap and 0 otherwise.  Running out of fuel stands for a guest that
    never leaves. *)
Fixpoint enter_guest (fuel : nat) (c : VcpuContext) : exm (VcpuContext * Z) :=
  match fuel with
  | O => sm_err "guest running"%string
  | S fuel => fun h =>
      let g := guest_code h c in
      (match gs_event g with
       | GSync esr far hpfar =>
           let* r := handle_exception checks pi el3 tfa_boot proxy_rx_buf blk_fuel esr far hpfar (gs_ctx g) in
           match r.2 with
           | Continue => enter_guest fuel r.1
           | ExitHost => sm_ret (r.1, if exc_class esr =? 0x01 then 1 else 0)
           | Halt => sm_err HALTED
           end
       | GIrq intid =>
           let* cont := handle_irq_exception intid in
           if cont then enter_guest fuel (gs_ctx g) else sm_ret (gs_ctx g, 0)
       end) (after_guest g h)
  end.

(** ** Running a vCPU on the core *)
Context (enter : VcpuContext -> exm (VcpuContext * Z)).

Definition machine_guest : guest (hyp * option string) := fun p w c =>
  match enter c (set_core p w.1) with
  | (h, Ok (c, code)) => (hy_core h, (h, None), c, code)
  | (h, Err e) => (hy_core h, (h, Some e), c, 0)
  end.
(** [vcpu.run()] *)
Definition run_vcpu_on_core (v : Vcpu) : exm (Vcpu * result unit string) := fun h =>
  let '(v, p, w, res) := vcpu_run machine_guest v (hy_core h) (h, None) in
  match w.2 with
  | None => (set_core p w.1, Ok (v, res))
  | Some e => (w.1, Err e)
  end.

(** [run] (unit-test path): vCPU 0 alone. *)
Definition vm_run (v : Vm) : exm (Vm * result unit string) :=
  if negb (bool_decide (vm_st v = VmReady)) then sm_ret (v, Err "VM is not in Ready state"%string)
  else if (vm_count v =? 0)%nat then sm_ret (v, Err "No vCPUs configured"%string)
  else
    let v := set_vm_st VmRunning v in
    match vm_vcpu 0 v with
    | Some c =>
        let* r := run_vcpu_on_core c in
        sm_ret (set_vm_st VmReady (set_vcpus (<[0%nat := Some r.1]> (vm_vcpus v)) (vm_count v) v), r.2)
    | None => sm_ret (set_vm_st VmReady v, Err "vCPU 0 not found"%string)
    end.

(** ** Secondary vCPUs *)
(** The write that wakes a physical redistributor; [phys_gicr] is what its
    registers read. *)
Definition wake_gicr (rd_base : Z) : exm unit :=
  let addr := u64 (rd_base + GICR_WAKER_OFF) in
  sm_upd (log_icc (PhysWrite addr (Z.land (phys_gicr addr) (not32 (Z.shiftl 1 1))))).
Definition ensure_cnthp_enabled : exm unit :=
  let sgi_base := gicr_sgi_base pi 0 in
  let igroupr0 := phys_gicr (u64 (sgi_base + GICR_IGROUPR0_OFF)) in
  (if Z.land igroupr0 (Z.shiftl 1 26) =? 0
   then sm_upd (log_icc (PhysWrite (u64 (sgi_base + GICR_IGROUPR0_OFF)) (Z.lor igroupr0 (Z.shiftl 1 26))))
   else sm_ret tt) ;;;
  sm_upd (log_icc (PhysWrite (u64 (sgi_base + GICR_ISENABLER0_OFF)) (Z.shiftl 1 26))).

(** The vCPU [boot_secondary_vcpu] builds. *)
Definition secondary_vcpu (id : nat) (entry ctx_id : Z) : Vcpu :=
  let v := vcpu_new mpidr id entry 0 in
  let c := set_xreg 0 ctx_id (vcpu_context v) in
  let c := mkCtx (gp_regs c) (sys_regs c) (ctx_sp c) (ctx_pc c) SPSR_EL1H_DAIF_MASKED in
  let a := rset SCTLR_EL1 0x30D00800 (arch_state v) in
  let a := rset CPACR_EL1 (Z.shiftl 3 20) a in
  set_arch_state (init_for_vcpu mpidr (Z.of_nat id) a) (set_vcpu_context c v).

Definition boot_secondary_vcpu (id : nat) (entry ctx_id : Z) (v : Vm) : exm Vm :=
  (if (0 <? id)%nat && (id <? pi_num_cpus pi)%nat then wake_gicr (gicr_rd_base pi id) else sm_ret tt) ;;;
  let v := set_vcpus (<[id := Some (secondary_vcpu id entry ctx_id)]> (vm_vcpus v)) (vm_count v + 1) v in
  let v := set_sched (add_vcpu (vm_sched v) id) v in
  upd_state_of (vm_id v) (fun s => set_online_mask (Z.lor (vcpu_online_mask s) (Z.shiftl 1 (Z.of_nat id))) s) ;;;
  reset_exception_counters ;;;
  sm_ret v.

(** ** One iteration *)
(** A pending CPU_ON request is taken and its vCPU booted. *)
Definition take_cpu_on (v : Vm) : exm Vm :=
  let* s := state_of (vm_id v) in
  let (req, got) := cpu_on_take (pending_cpu_on s) in
  upd_state_of (vm_id v) (set_cpu_on req) ;;;
  match got with
  | Some (target, entry, ctx_id) =>
      let id := Z.to_nat (Z.land target 0xFF) in
      if (id <? MAX_VCPUS)%nat && negb (has_vcpu v id) then boot_secondary_vcpu id entry ctx_id v else sm_ret v
  | None => sm_ret v
  end.

Fixpoint unblock_all (p : nat -> bool) (ids : list nat) (s : Scheduler) : Scheduler :=
  match ids with [] => s | id :: ids => unblock_all p ids (if p id then unblock s id else s) end.

Definition wake_pending_vcpus (v : Vm) (g : VmGlobalState) : Scheduler :=
  unblock_all (fun id => has_vcpu v id && (negb (nth id (pending_sgis g) 0 =? 0) || negb (nth id (pending_spis g) 0 =? 0)))
    (seq 0 MAX_VCPUS) (vm_sched v).

(** No vCPU is ready: every online one is unblocked; [true] when there is
    none. *)
Definition online_vcpu (v : Vm) (g : VmGlobalState) (id : nat) : bool :=
  negb (Z.land (vcpu_online_mask g) (Z.shiftl 1 (Z.of_nat id)) =? 0) && has_vcpu v id.
Definition unblock_online (v : Vm) (g : VmGlobalState) : Vm * bool :=
  (set_sched (unblock_all (online_vcpu v g) (seq 0 MAX_VCPUS) (vm_sched v)) v,
   negb (existsb (online_vcpu v g) (seq 0 MAX_VCPUS))).

(** The drains work on the first UART and the first network device of the VM
    ([uart_mut], [virtio_net_mut]). *)
Fixpoint put_uart (u : VirtualUart) (l : list (option Device)) : list (option Device) :=
  match l with [] => [] | Some (DevUart _) :: l => Some (DevUart u) :: l | d :: l => d :: put_uart u l end.
Fixpoint put_net (t : transport VirtioNet) (l : list (option Device)) : list (option Device) :=
  match l with [] => [] | Some (DevNet _) :: l => Some (DevNet t) :: l | d :: l => d :: put_net t l end.
Definition dm_with (l : list (option Device)) (m : DeviceManager) : DeviceManager :=
  {| dm_devices := l; dm_count := dm_count m |}.

Definition RING_FUEL : nat := S UART_RX_RING_SIZE.
Fixpoint discard_rx (fuel : nat) (r : UartRxRing) : UartRxRing :=
  match fuel with
  | O => r
  | S fuel => match uart_ring_pop r with (r, Some _) => discard_rx fuel r | (r, None) => r end
  end.
(** The bytes of [UART_RX] into the emulated UART, then SPI 33 if its
    interrupt is pending. *)
Definition drain_uart (id : nat) : exm unit :=
  let* h := sm_get in
  match hy_devs h !! id with
  | None => sm_err OOB
  | Some dm =>
      match uart_mut dm with
      | None => sm_upd (fun h => set_ring (discard_rx RING_FUEL (hy_ring h)) (hy_phys_rx h) h)
      | Some u =>
          match PrimeCell.drain_uart_rx RING_FUEL (hy_ring h) u with
          | None => sm_err "out of fuel"%string
          | Some (r, u) =>
              sm_upd (fun h => set_ring r (hy_phys_rx h)
                (set_devs (<[id := dm_with (put_uart u (dm_devices dm)) dm]> (hy_devs h)) (hy_io h) h)) ;;;
              match uart_pending_irq u with Some _ => inject_spi 33 | None => sm_ret tt end
          end
      end
  end.

Definition NET_FUEL : nat := 9.
Fixpoint discard_net (fuel : nat) (r : NetRxRing) : NetRxRing :=
  match fuel with
  | O => r
  | S fuel => match net_ring_take r (replicate MAX_FRAME_SIZE 0) with (r, _, Some _) => discard_net fuel r | (r, _, None) => r end
  end.
Definition set_port (id : nat) (r : NetRxRing) (m : mem) (io : dev_io) : dev_io :=
  mkIo {| nw_mem := m;
          nw_net := {| ns_switch := ns_switch (nw_net (io_world io)); PORT_RX := <[id := r]> (PORT_RX (nw_net (io_world io))) |} |}
    (io_tx io) (io_gicd io) (io_spis io) (io_cntvct io) (io_cntfrq io).
(** The frames of the VM's port into its network device. *)
Definition drain_net (id : nat) : exm unit :=
  let* h := sm_get in
  match PORT_RX (nw_net (io_world (hy_io h))) !! id, hy_devs h !! id with
  | Some r, Some dm =>
      if net_ring_is_empty r then sm_ret tt else
      match virtio_net_mut dm with
      | None => sm_upd (fun h => set_devs (hy_devs h) (set_port id (discard_net NET_FUEL r) (io_mem (hy_io h)) (hy_io h)) h)
      | Some t =>
          match drain_net_rx NET_FUEL (io_mem (hy_io h)) t r with
          | None => sm_err "out of fuel"%string
          | Some (Err e) => sm_err e
          | Some (Ok (m, t, r, spis)) =>
              sm_upd (fun h => set_devs (<[id := dm_with (put_net t (dm_devices dm)) dm]> (hy_devs h))
                (set_port id r m (hy_io h)) h) ;;;
              inject_spis spis
          end
      end
  | _, _ => sm_err OOB
  end.

(** [inject_pending_sgis] and [inject_pending_spis] on a vCPU's saved list
    registers. *)
Definition inject_vcpu (c : Vcpu) : exm Vcpu :=
  let id := vcpu_id c in
  if (MAX_VCPUS <=? id)%nat then sm_err OOB else
  let* s := vm_state in
  let (q, lrs) := inject_pending_sgis no_env (nth id (pending_sgis s) 0) (saved_lrs (arch_state c)) in
  upd_vm_state (fun s => set_pending_sgis (<[id := q]> (pending_sgis s)) s) ;;;
  let c := set_arch_state (set_saved_lrs lrs (arch_state c)) c in
  let* s := vm_state in
  let (q, lrs) := inject_pending_spis no_env (nth id (pending_spis s) 0) (saved_lrs (arch_state c)) in
  upd_vm_state (fun s => set_pending_spis (<[id := q]> (pending_spis s)) s) ;;;
  sm_ret (set_arch_state (set_saved_lrs lrs (arch_state c)) c).

(** [preemption_exit] and [terminal_exit] are cleared when they are seen. *)
Definition handle_exit (id : nat) (res : result unit string) (v : Vm) : exm Vm :=
  match res with
  | Ok _ =>
      let* s := state_of (vm_id v) in
      if nth id (terminal_exit s) false then
        upd_state_of (vm_id v) (fun s => set_terminal_exit (<[id := false]> (terminal_exit s)) s) ;;;
        sm_ret (set_sched (remove_vcpu (vm_sched v) id) v)
      else if co_requested (pending_cpu_on s) then sm_ret (set_sched (yield_current (vm_sched v)) v)
      else
        (if preemption_exit s then upd_state_of (vm_id v) (set_preemption_exit false) else sm_ret tt) ;;;
        sm_ret (set_sched (yield_current (vm_sched v)) v)
  | Err e =>
      sm_ret (set_sched (if (e =? WFI)%string then block_current (vm_sched v) else yield_current (vm_sched v)) v)
  end.

(** Everything between the choice of a vCPU and its exit. *)
Definition run_picked (id : nat) (v : Vm) : exm (Vm * result unit string) :=
  upd_state_of (vm_id v) (set_current_vcpu id) ;;;
  drain_uart (vm_id v) ;;;
  drain_net (vm_id v) ;;;
  match vm_vcpus v !! id with
  | Some (Some c) =>
      let* c := inject_vcpu c in
      let* s := state_of (vm_id v) in
      (if multi_vcpu (vcpu_online_mask s) then ensure_cnthp_enabled ;;; arm_preemption_timer else sm_ret tt) ;;;
      let* r := run_vcpu_on_core c in
      sm_ret (set_vcpus (<[id := Some r.1]> (vm_vcpus v)) (vm_count v) v, r.2)
  | _ => sm_err "called Option::unwrap() on a None value"%string
  end.

(** [run_one_iteration]; [true]: the VM is done.  The vCPU that ran is also
    returned. *)
Definition run_one_iteration (v : Vm) : exm (Vm * option nat * bool) :=
  let* v := take_cpu_on v in
  let* s := state_of (vm_id v) in
  let v := set_sched (wake_pending_vcpus v s) v in
  let (sch, picked) := pick_next (vm_sched v) in
  let v := set_sched sch v in
  match picked with
  | None => let (v, fin) := unblock_online v s in sm_ret (v, None, fin)
  | Some id =>
      let* r := run_picked id v in
      let* v := handle_exit id r.2 r.1 in
      sm_ret (v, Some id, false)
  end.

(** ** The loops *)
Fixpoint iterate (fuel : nat) (v : Vm) : exm (option Vm) :=
  match fuel with
  | O => sm_ret None
  | S fuel => let* r := run_one_iteration v in if r.2 then sm_ret (Some r.1.1) else iterate fuel r.1.1
  end.
(** [run_smp]; [Ok None]: still looping when the fuel ends. *)
Definition run_smp (fuel : nat) (v : Vm) : exm (option (Vm * result unit string)) :=
  if negb (bool_decide (vm_st v = VmReady)) then sm_ret (Some (v, Err "VM is not in Ready state"%string))
  else if (vm_count v =? 0)%nat then sm_ret (Some (v, Err "No vCPUs configured"%string))
  else
    let v := set_vm_st VmRunning v in
    sm_upd (set_cur_vm (vm_id v)) ;;;
    upd_state_of (vm_id v) (fun s => set_online_mask (Z.lor (vcpu_online_mask s) 1) s) ;;;
    let* o := iterate fuel v in
    sm_ret (match o with Some v => Some (set_vm_st VmReady v, Ok tt) | None => None end).

(** [activate_stage2]: VTTBR_EL2, which the proxy's walker reads. *)
Definition activate_stage2 (v : Vm) : exm unit :=
  sm_upd (fun h => let f := hy_ffa h in
    set_ffa (mkFfa (fs_regs f) (fs_vm f) (fs_mach f) (fs_mbox f) (fs_store f) (fs_notif f) (fs_spmc_present f)
      (fs_proxy_rxtx f) (vm_vttbr v) (fs_per_vm_vttbr f)) h).

Fixpoint mark_running (vms : list Vm) : exm (list Vm) :=
  match vms with
  | [] => sm_ret []
  | v :: vms =>
      let* v :=
        (if negb (bool_decide (vm_st v = VmReady)) then sm_ret v else
         upd_state_of (vm_id v) (fun s => set_online_mask (Z.lor (vcpu_online_mask s) 1) s) ;;;
         sm_ret (set_vm_st VmRunning v)) in
      let* vms := mark_running vms in
      sm_ret (v :: vms)
  end.
(** One pass over the VMs; the flag is [all_done]. *)
Fixpoint multi_pass (vms : list Vm) (done_ : list bool) (all_done : bool) : exm (list Vm * list bool * bool) :=
  match vms with
  | [] => sm_ret ([], done_, all_done)
  | v :: vms =>
      if nth (vm_id v) done_ false then
        let* r := multi_pass vms done_ all_done in sm_ret (v :: r.1.1, r.1.2, r.2)
      else
        sm_upd (set_cur_vm (vm_id v)) ;;;
        activate_stage2 v ;;;
        let* r := run_one_iteration v in
        let '(v, _, fin) := r in
        let '(v, done_) := if fin then (set_vm_st VmReady v, <[vm_id v := true]> done_) else (v, done_) in
        let* r := multi_pass vms done_ false in sm_ret (v :: r.1.1, r.1.2, r.2)
  end.
Fixpoint multi_loop (fuel : nat) (vms : list Vm) (done_ : list bool) : exm (option (list Vm)) :=
  match fuel with
  | O => sm_ret None
  | S fuel =>
      let* r := multi_pass vms done_ true in
      if r.2 then sm_ret (Some r.1.1) else multi_loop fuel r.1.1 r.1.2
  end.
Definition run_multi_vm (fuel : nat) (vms : list Vm) : exm (option (list Vm)) :=
  let* vms := mark_running vms in multi_loop fuel vms (replicate MAX_VMS false).
End Machine.

(** ** What every step preserves *)

(** The shape of the state: the current VM, the arrays, the online vCPUs
    (which are never taken offline), the UART ring. *)
Definition state_le (v v' : VmGlobalState) : Prop :=
  length (pending_sgis v') = length (pending_sgis v) /\ length (pending_spis v') = length (pending_spis v) /\
  length (terminal_exit v') = length (terminal_exit v) /\
  forall b, Z.testbit (vcpu_online_mask v) b = true -> Z.testbit (vcpu_online_mask v') b = true.
Definition ring_ok (h : hyp) : Prop := exists q, ring_rel UART_RX_RING_SIZE (hy_ring h) q.
Record hyp_le (h h' : hyp) : Prop := {
  hl_vm : hy_vm h' = hy_vm h;
  hl_devs : length (hy_devs h') = length (hy_devs h);
  hl_states : Forall2 state_le (hy_states h) (hy_states h');
  hl_ring : ring_ok h -> ring_ok h'
}.

#[export] Instance state_le_refl : Reflexive state_le.
Proof. intros v. by split_and!. Qed.
#[export] Instance state_le_trans : Transitive state_le.
Proof. intros a b c (?&?&?&?) (?&?&?&?). split_and!; try congruence; auto. Qed.
#[export] Instance hyp_le_refl : Reflexive hyp_le.
Proof. intros h. by split. Qed.
#[export] Instance hyp_le_trans : Transitive hyp_le.
Proof.
  intros a b c [] []. split; [congruence..| |auto]. etransitivity; eassumption.
Qed.

Definition keeps {A} (c : exm A) : Prop := forall h, hyp_le h (c h).1.

Lemma keeps_sm_ret {A} (a : A) : keeps (sm_ret a).
Proof. intros h. reflexivity. Qed.
Lemma keeps_sm_err {A} e : keeps (A := A) (sm_err e).
Proof. intros h. reflexivity. Qed.
Lemma keeps_sm_get : keeps sm_get.
Proof. intros h. reflexivity. Qed.
Lemma keeps_sm_bind {A B} (c : exm A) (k : A -> exm B) : keeps c -> (forall a, keeps (k a)) -> keeps (sm_bind c k).
Proof.
  intros Hc Hk h. specialize (Hc h). unfold sm_bind. destruct (c h) as [h1 [a|e]]; cbn [fst] in *; [|done].
  etransitivity; [done|apply Hk].
Qed.
Lemma keeps_sm_upd f : (forall h, hyp_le h (f h)) -> keeps (sm_upd f).
Proof. intros Hf h. apply Hf. Qed.

Lemma keeps_states id f : (forall v, state_le v (f v)) ->
  keeps (sm_upd (fun h => set_states (alter f id (hy_states h)) h)).
Proof.
  intros Hf. apply keeps_sm_upd. intros h. split; try done. cbn. apply Forall2_same_length_lookup_2.
  - by rewrite length_alter.
  - intros i x y Hx Hy. destruct (decide (i = id)) as [->|Hne].
    + rewrite list_lookup_alter_eq, Hx in Hy. injection Hy as <-. apply Hf.
    + rewrite list_lookup_alter_ne, Hx in Hy by congruence. injection Hy as <-. reflexivity.
Qed.
Lemma keeps_upd_vm_state f : (forall v, state_le v (f v)) -> keeps (upd_vm_state f).
Proof. intros Hf h. by apply (keeps_states (hy_vm h) f). Qed.
Lemma keeps_upd_state_of id f : (forall v, state_le v (f v)) -> keeps (upd_state_of id f).
Proof. apply keeps_states. Qed.
Lemma keeps_vm_state : keeps vm_state.
Proof. intros h. unfold vm_state. destruct (_ !! _); reflexivity. Qed.
Lemma keeps_state_of id : keeps (state_of id).
Proof. intros h. unfold state_of. destruct (_ !! _); reflexivity. Qed.

(** The setters that touch none of it. *)
Lemma hyp_le_frame h h' : hy_vm h' = hy_vm h -> length (hy_devs h') = length (hy_devs h) ->
  hy_states h' = hy_states h -> hy_ring h' = hy_ring h -> hyp_le h h'.
Proof. intros H1 H2 H4 H5. split; [done..|by rewrite H4|]. unfold ring_ok. by rewrite H5. Qed.

Ltac frame := intros; apply hyp_le_frame; first [reflexivity | apply length_insert].
Ltac state_frame := intros; split_and!; first [done | apply queue_bit_length | apply length_insert | auto].

Lemma keeps_hw_inject i p : keeps (hw_inject i p).
Proof. intros h. frame. Qed.
Lemma keeps_get_ich : keeps get_ich.
Proof. intros h. reflexivity. Qed.
Lemma keeps_get_sysreg r : keeps (get_sysreg r).
Proof. intros h. reflexivity. Qed.
Lemma keeps_put_ich i : keeps (put_ich i).
Proof. intros h. frame. Qed.
Lemma keeps_put_sysreg r v : keeps (put_sysreg r v).
Proof. intros h. frame. Qed.
Create HintDb keeps.
#[export] Hint Resolve keeps_sm_ret keeps_sm_err keeps_sm_get keeps_vm_state keeps_state_of keeps_hw_inject keeps_get_ich
  keeps_get_sysreg keeps_put_ich keeps_put_sysreg : keeps.
#[export] Hint Extern 4 (keeps (sm_upd _)) => apply keeps_sm_upd; frame : keeps.
#[export] Hint Extern 4 (keeps (upd_vm_state _)) => apply keeps_upd_vm_state; state_frame : keeps.
#[export] Hint Extern 4 (keeps (upd_state_of _ _)) => apply keeps_upd_state_of; state_frame : keeps.

Ltac keeps_cases :=
  repeat match goal with
  | |- keeps (let '(_, _) := ?x in _) => destruct x
  | |- keeps (sm_bind _ _) => apply keeps_sm_bind; [|intros ?]
  | |- keeps (if ?b then _ else _) => destruct b
  | |- keeps (match ?x with _ => _ end) => destruct x
  | |- keeps _ => solve [auto with keeps nocore]
  end.

Lemma keeps_inc_exc : keeps inc_exception_count.
Proof. intros h. frame. Qed.
Lemma keeps_reset_exc : keeps reset_exception_count.
Proof. unfold reset_exception_count. keeps_cases. Qed.
Lemma keeps_reset_counters : keeps reset_exception_counters.
Proof. unfold reset_exception_counters. keeps_cases. apply keeps_reset_exc. Qed.
Lemma keeps_inject_spi i : keeps (inject_spi i).
Proof. unfold inject_spi. keeps_cases. Qed.
Lemma keeps_inject_spis l : keeps (inject_spis l).
Proof. induction l; cbn [inject_spis]; keeps_cases; apply keeps_inject_spi. Qed.
Lemma keeps_sgi_trap v : keeps (handle_sgi_trap v).
Proof.
  unfold handle_sgi_trap. keeps_cases. generalize (sgi_targets (current_vcpu a) (vcpu_online_mask a)
    (Z.land (Z.shiftr v 40) 1) (u32 (Z.land v 0xFFFF))). intros l. induction l; cbn [sgi_loop]; keeps_cases; done.
Qed.
#[export] Hint Resolve keeps_inc_exc keeps_reset_exc keeps_reset_counters keeps_inject_spi keeps_inject_spis keeps_sgi_trap : keeps.

Lemma keeps_msr c esr : keeps (handle_msr_mrs_trap c esr).
Proof. unfold handle_msr_mrs_trap, emulate_mrs, emulate_msr. keeps_cases. Qed.
Lemma keeps_psci checks c f : keeps (handle_psci checks c f).
Proof. unfold handle_psci, set_terminal. keeps_cases. Qed.
Lemma keeps_hypercall checks c : keeps (handle_hypercall checks c).
Proof.
  unfold handle_hypercall, handle_hypercall_with_imm, handle_jailhouse_debug_console, uart_puts.
  keeps_cases; [|apply keeps_psci]. intros h. destruct (hy_phys_rx h); frame.
Qed.
Lemma keeps_smc checks el3 tfa rx c : keeps (handle_smc checks el3 tfa rx c).
Proof.
  unfold handle_smc. keeps_cases; [apply keeps_psci| |]; intros h.
  - unfold call_ffa. destruct (handle_ffa_call _ _ _ _ _) as [f r]. frame.
  - unfold forward_smc. destruct (el3 _ _) as [m g]. frame.
Qed.
Lemma keeps_mmio checks pi fuel c addr : keeps (mmio_abort checks pi fuel c addr).
Proof. unfold mmio_abort. keeps_cases. Qed.
Lemma keeps_wfi c : keeps (handle_wfi_with_timer_injection c).
Proof. unfold handle_wfi_with_timer_injection, is_guest_vtimer_pending, mask_guest_vtimer. keeps_cases. Qed.
Lemma keeps_flush : keeps flush_pending_spis_to_hardware.
Proof. unfold flush_pending_spis_to_hardware. keeps_cases. Qed.
#[export] Hint Resolve keeps_msr keeps_psci keeps_hypercall keeps_smc keeps_mmio keeps_wfi keeps_flush : keeps.

Lemma keeps_exception checks pi el3 tfa rx fuel esr far hpfar c :
  keeps (handle_exception checks pi el3 tfa rx fuel esr far hpfar c).
Proof. unfold handle_exception. keeps_cases. Qed.

Lemma uart_push_rel (r : UartRxRing) (q : list Z) ch : ring_rel UART_RX_RING_SIZE r q ->
  exists q', ring_rel UART_RX_RING_SIZE (uart_ring_push r ch) q'.
Proof.
  intros Hr. unfold uart_ring_push. rewrite (ring_full UART_RX_RING_SIZE _ _ Hr).
  pose proof (rr_cap _ _ _ Hr) as Hcap. unfold UART_RX_RING_SIZE in *.
  destruct (Nat.eqb_spec (length q) (64 - 1)); [by exists q|]. exists (q ++ [ch]).
  refine (ring_publish 64 (set_slot r (rg_tail r) ch) q ch _ _ _); [by apply ring_set_tail_slot|lia|].
  cbn. apply list_lookup_insert_eq. rewrite (rr_len _ _ _ Hr). by apply (ring_tail_lt 64 _ q).
Qed.
Lemma keeps_read_phys : keeps read_phys_uart.
Proof.
  apply keeps_sm_upd. intros h. split; try done. cbn. generalize (hy_phys_rx h). intros l.
  unfold ring_ok. cbn. generalize (hy_ring h). induction l as [|x l IH]; intros r [q Hq]; cbn [fold_left]; [by exists q|].
  apply IH. by apply (uart_push_rel r q).
Qed.
#[export] Hint Resolve keeps_read_phys keeps_exception : keeps.
Lemma keeps_irq intid : keeps (handle_irq_exception intid).
Proof.
  unfold handle_irq_exception, handle_vtimer_irq, eoi, dir, disarm_preemption_timer, mask_guest_vtimer. keeps_cases.
Qed.
#[export] Hint Resolve keeps_irq : keeps.

(** Whatever guest code does. *)
Lemma keeps_enter_guest checks pi el3 tfa rx blk code fuel : forall c,
  keeps (enter_guest checks pi el3 tfa rx blk code fuel c).
Proof.
  induction fuel as [|fuel IH]; intros c; [apply keeps_sm_err|]. intros h. cbn [enter_guest]. set (g := code h c).
  transitivity (after_guest g h); [frame|]. generalize (after_guest g h). clearbody g.
  destruct (gs_event g); match goal with |- forall h, hyp_le h (?c h).1 => change (keeps c) end; keeps_cases; apply IH.
Qed.

(** ** The iteration *)
Section Iteration.
Context (pi : PlatformInfo) (mpidr : Z) (phys_gicr : Z -> Z) (enter : VcpuContext -> exm (VcpuContext * Z)).
Context (Henter : forall c, keeps (enter c)).

Lemma keeps_take_cpu_on v : keeps (take_cpu_on pi mpidr phys_gicr v).
Proof using.
  unfold take_cpu_on, boot_secondary_vcpu, wake_gicr. keeps_cases.
  apply keeps_upd_state_of. intros s. split_and!; try done. intros b Hb. cbn. rewrite Z.lor_spec, Hb. done.
Qed.
Lemma drain_ring_total p : forall fuel r u, (length p < fuel)%nat -> ring_rel UART_RX_RING_SIZE r p ->
  (exists r' u', PrimeCell.drain_uart_rx fuel r u = Some (r', u') /\ ring_rel UART_RX_RING_SIZE r' ([] : list Z)) /\
  ring_rel UART_RX_RING_SIZE (discard_rx fuel r) ([] : list Z).
Proof using.
  induction p as [|ch p IH]; intros [|fuel] r u Hf Hr; cbn [length] in Hf; try lia;
    pose proof (uart_pop_rel r _ Hr) as Hpop; cbn [PrimeCell.drain_uart_rx discard_rx];
    destruct (uart_ring_pop r) as [r1 o]; destruct Hpop as [-> Hr1]; cbn [head tl] in *; [eauto|].
  apply IH; [lia|done].
Qed.
Lemma ring_rel_fuel (r : UartRxRing) (p : list Z) : ring_rel UART_RX_RING_SIZE r p -> (length p < RING_FUEL)%nat.
Proof using. intros Hr. pose proof (rr_cap _ _ _ Hr). unfold RING_FUEL. lia. Qed.

Lemma keeps_drain_uart id : keeps (drain_uart id).
Proof using.
  intros h. unfold drain_uart, sm_bind at 1, sm_get. destruct (hy_devs h !! id) as [dm|]; [|reflexivity].
  destruct (uart_mut dm) as [u|].
  - destruct (PrimeCell.drain_uart_rx RING_FUEL (hy_ring h) u) as [[r u']|] eqn:E; [|reflexivity].
    transitivity (set_ring r (hy_phys_rx h)
      (set_devs (<[id := dm_with (put_uart u' (dm_devices dm)) dm]> (hy_devs h)) (hy_io h) h)).
    + split; try done; [apply length_insert|]. intros [p Hp].
      destruct (drain_ring_total p RING_FUEL (hy_ring h) u (ring_rel_fuel _ _ Hp) Hp) as [(r1 & u1 & E1 & Hr) _].
      rewrite E in E1. injection E1 as <- <-. by exists [].
    + unfold sm_bind, sm_upd. destruct (uart_pending_irq u'); [apply keeps_inject_spi|apply keeps_sm_ret].
  - split; try done. intros [p Hp].
    destruct (drain_ring_total p RING_FUEL (hy_ring h) uart_new (ring_rel_fuel _ _ Hp) Hp) as [_ Hr]. by exists [].
Qed.
Lemma keeps_drain_net id : keeps (drain_net id).
Proof using. unfold drain_net. keeps_cases. Qed.
Lemma keeps_inject_vcpu c : keeps (inject_vcpu c).
Proof using. unfold inject_vcpu. keeps_cases. Qed.
Lemma keeps_handle_exit id res v : keeps (handle_exit id res v).
Proof using. unfold handle_exit. keeps_cases. Qed.

Lemma keeps_run_vcpu v : keeps (run_vcpu_on_core enter v).
Proof using Henter.
  intros h. unfold run_vcpu_on_core, vcpu_run. destruct (negb _); [frame|]. cbv zeta.
  set (p := entry_core _ _). set (c := vcpu_context _). unfold machine_guest. cbn [fst].
  pose proof (Henter c (set_core p h)) as He. destruct (enter c (set_core p h)) as [h1 [[c1 code]|e]]; cbn [fst] in He;
    (destruct (has_pending_interrupt _); [destruct (vcpu_clear_irq _ _)|]); cbn;
    (transitivity (set_core p h); [frame|]); (etransitivity; [exact He|]); [frame..|reflexivity|reflexivity].
Qed.
Lemma keeps_run_picked id v : keeps (run_picked pi phys_gicr enter id v).
Proof using Henter.
  unfold run_picked, ensure_cnthp_enabled, arm_preemption_timer.
  keeps_cases; auto using keeps_drain_uart, keeps_drain_net, keeps_inject_vcpu, keeps_run_vcpu.
Qed.

(** ** The VM's invariant *)

(** Between two iterations: the scheduler's invariant with no current vCPU,
    every schedulable slot holds a vCPU, and every vCPU carries the number of
    its slot and is ready. *)
Definition schedulable (s : Scheduler) (id : nat) : Prop := exists st, sc_states s !! id = Some st /\ st <> RsNone.
Record vm_inv (v : Vm) : Prop := {
  vi_sched : sched_inv (vm_sched v);
  vi_len : length (vm_vcpus v) = MAX_VCPUS;
  vi_vcpu : forall id c, vm_vcpus v !! id = Some (Some c) -> vcpu_id c = id /\ vcpu_state c = VReady;
  vi_slot : forall id, schedulable (vm_sched v) id -> has_vcpu v id = true
}.
Definition idle (v : Vm) : Prop := sc_current (vm_sched v) = None.

(** What [boot_secondary_vcpu] makes of the VM. *)
Definition booted (id : nat) (entry ctx_id : Z) (v : Vm) : Vm :=
  set_sched (add_vcpu (vm_sched v) id)
    (set_vcpus (<[id := Some (secondary_vcpu mpidr id entry ctx_id)]> (vm_vcpus v)) (vm_count v + 1) v).

Lemma has_vcpu_spec v id : has_vcpu v id = true <-> exists c, vm_vcpus v !! id = Some (Some c).
Proof using. unfold has_vcpu. destruct (vm_vcpus v !! id) as [[c|]|]; split; try done; [by exists c| |]; intros [? [=]]. Qed.

Lemma has_vcpu_insert v l n id c j : (id < length (vm_vcpus v))%nat -> l = <[id := Some c]> (vm_vcpus v) ->
  has_vcpu (set_vcpus l n v) j = (j =? id)%nat || has_vcpu v j.
Proof using.
  intros Hl ->. unfold has_vcpu. cbn. destruct (Nat.eqb_spec j id) as [->|Hne].
  - by rewrite list_lookup_insert_eq.
  - by rewrite list_lookup_insert_ne.
Qed.

(** Storing a ready vCPU under its own number. *)
Lemma vm_inv_set v id c n : (id < MAX_VCPUS)%nat -> vcpu_id c = id -> vcpu_state c = VReady -> vm_inv v ->
  vm_inv (set_vcpus (<[id := Some c]> (vm_vcpus v)) n v).
Proof using.
  intros Hid Hc Hs [H1 H2 H3 H4]. split; [done|cbn; by rewrite length_insert| |].
  - intros j c' Hj. cbn in Hj. destruct (decide (j = id)) as [->|Hne].
    + rewrite list_lookup_insert_eq in Hj by lia. by injection Hj as <-.
    + rewrite list_lookup_insert_ne in Hj by done. by apply H3.
  - intros j Hj. rewrite (has_vcpu_insert v _ n id c j); [|lia|done]. rewrite (H4 j Hj). apply orb_true_r.
Qed.
Lemma vm_inv_sched v s : sched_inv s ->
  (forall id, schedulable s id -> has_vcpu v id = true) -> vm_inv v -> vm_inv (set_sched s v).
Proof using. by intros Hs Hl [H1 H2 H3 H4]. Qed.

(** Which slots the scheduler calls of an iteration make schedulable. *)
Lemma schedulable_set s j x id : x <> RsNone -> schedulable s j -> schedulable (set_state s j x) id <-> schedulable s id.
Proof using.
  intros Hx (y & Hy & Hn). unfold schedulable. cbn. destruct (decide (j = id)) as [->|Hne].
  - rewrite list_lookup_insert_eq by by eapply lookup_lt_Some. split; intros _; eauto.
  - by rewrite list_lookup_insert_ne.
Qed.
Lemma schedulable_unblock s j id : schedulable (unblock s j) id <-> schedulable s id.
Proof using.
  unfold unblock, has_state. destruct (_ && _) eqn:E; [|done]. apply andb_true_iff in E as [_ E].
  apply bool_decide_eq_true in E. apply schedulable_set; [done|by exists RsBlocked].
Qed.
Lemma schedulable_unblock_all p ids id : forall s, schedulable (unblock_all p ids s) id <-> schedulable s id.
Proof using.
  induction ids as [|j ids IH]; intros s; [done|]. cbn [unblock_all]. rewrite IH. destruct (p j); [apply schedulable_unblock|done].
Qed.
Lemma schedulable_add s j id : sched_inv s -> (j < MAX_VCPUS)%nat ->
  schedulable (add_vcpu s j) id <-> id = j \/ schedulable s id.
Proof using.
  intros HI Hj. unfold add_vcpu. rewrite (proj2 (Nat.ltb_lt _ _)) by done. unfold schedulable. cbn.
  destruct (decide (j = id)) as [->|Hne].
  - rewrite list_lookup_insert_eq by (rewrite (si_len _ HI); done). split; [by left|]. intros _. by exists RsReady.
  - rewrite list_lookup_insert_ne by done. split; [by right|]. intros [->|]; done.
Qed.
Lemma schedulable_remove s j id : schedulable (remove_vcpu s j) id -> schedulable s id /\ ((j < MAX_VCPUS)%nat -> id <> j).
Proof using.
  unfold remove_vcpu. destruct (Nat.ltb_spec j MAX_VCPUS) as [Hj|Hj]; [|split; [done|lia]].
  intros H. assert (Hs : schedulable (set_state s j RsNone) id) by (destruct (decide _) in H; exact H).
  destruct Hs as (st & Hst & Hn). cbn in Hst. apply list_lookup_insert_Some in Hst as [(-> & <- & _)|[Hne Hst]]; [done|].
  split; [by exists st|done].
Qed.
Lemma schedulable_leave s j st id : st <> RsNone -> sc_current s = Some j -> schedulable s j ->
  schedulable (leave_current s st) id <-> schedulable s id.
Proof using. intros Hst Hc Hj. unfold leave_current. rewrite Hc. exact (schedulable_set s j st id Hst Hj). Qed.

Lemma unblock_all_ops p ids : forall s,
  unblock_all p ids s = foldl sched_step s (map OpUnblock (List.filter p ids)).
Proof using.
  induction ids as [|j ids IH]; intros s; [done|]. cbn [unblock_all List.filter]. rewrite IH. by destruct (p j).
Qed.
Lemma unblock_all_inv p ids s : sched_inv s -> sched_inv (unblock_all p ids s).
Proof using. rewrite unblock_all_ops. apply sched_run_inv. Qed.
Lemma unblock_all_current p ids : forall s, sc_current (unblock_all p ids s) = sc_current s.
Proof using.
  induction ids as [|j ids IH]; intros s; [done|]. cbn [unblock_all]. rewrite IH. destruct (p j); [|done]. unfold unblock. by destruct (_ && _).
Qed.

(** ** What one iteration does *)
Lemma inv_booted v id entry ctx_id : (id < MAX_VCPUS)%nat -> vm_inv v -> vm_inv (booted id entry ctx_id v).
Proof using.
  intros Hid Hv. unfold booted. apply vm_inv_sched.
  - exact (sched_step_inv _ (OpAdd id) (vi_sched _ Hv)).
  - intros j Hj. rewrite (has_vcpu_insert v _ _ id (secondary_vcpu mpidr id entry ctx_id) j); [|rewrite (vi_len _ Hv); done|done].
    apply schedulable_add in Hj as [->|Hj]; [by rewrite Nat.eqb_refl| |exact (vi_sched _ Hv)|done].
    rewrite (vi_slot _ Hv j Hj). apply orb_true_r.
  - by apply vm_inv_set.
Qed.

Lemma take_cpu_on_cases v h : vm_inv v -> (vm_id v < length (hy_states h))%nat ->
  exists h1 v1, take_cpu_on pi mpidr phys_gicr v h = (h1, Ok v1) /\ vm_inv v1 /\
    (v1 = v \/ exists id entry ctx_id, (id < MAX_VCPUS)%nat /\ has_vcpu v id = false /\ v1 = booted id entry ctx_id v).
Proof using.
  intros Hv Hl. destruct (lookup_lt_is_Some_2 _ _ Hl) as [s Hs].
  unfold take_cpu_on, sm_bind at 1, state_of. rewrite Hs. destruct (cpu_on_take _) as [req got].
  unfold sm_bind at 1, upd_state_of, sm_upd at 1. destruct got as [[[target entry] ctx_id]|]; [|by do 2 eexists; eauto].
  set (id := Z.to_nat _). destruct ((id <? MAX_VCPUS)%nat && negb (has_vcpu v id)) eqn:E; [|by do 2 eexists; eauto].
  apply andb_true_iff in E as [E1 E2]. apply Nat.ltb_lt in E1. apply negb_true_iff in E2.
  unfold boot_secondary_vcpu. destruct ((0 <? id)%nat && (id <? pi_num_cpus pi)%nat);
    (eexists _, (booted id entry ctx_id v); split; [reflexivity|]; split; [by apply inv_booted|right; by exists id, entry, ctx_id]).
Qed.

Lemma inject_vcpu_shape c h h' c' : inject_vcpu c h = (h', Ok c') -> vcpu_id c' = vcpu_id c /\ vcpu_state c' = vcpu_state c.
Proof using.
  unfold inject_vcpu, vm_state, sm_bind. destruct (_ <=? _)%nat; [by intros [=]|].
  destruct (hy_states h !! _) as [s|]; [|by intros [=]]. destruct (inject_pending_sgis _ _ _) as [q lrs].
  unfold upd_vm_state, sm_upd. destruct (hy_states _ !! _) as [s'|]; [|by intros [=]].
  destruct (inject_pending_spis _ _ _) as [q' lrs']. by intros [= _ <-].
Qed.

(** The picked vCPU is stored back, ready, under its number. *)
Lemma run_picked_shape id v h h' v' res : vm_inv v -> run_picked pi phys_gicr enter id v h = (h', Ok (v', res)) ->
  exists c, vcpu_id c = id /\ vcpu_state c = VReady /\ v' = set_vcpus (<[id := Some c]> (vm_vcpus v)) (vm_count v) v.
Proof using.
  intros Hv. unfold run_picked. intros H.
  apply sm_bind_inv in H as (h1 & [] & _ & H). apply sm_bind_inv in H as (h2 & [] & _ & H).
  apply sm_bind_inv in H as (h3 & [] & _ & H). destruct (vm_vcpus v !! id) as [[c|]|] eqn:Ec; [|discriminate..].
  apply sm_bind_inv in H as (h4 & c1 & Ei & H). apply sm_bind_inv in H as (h5 & s & _ & H).
  apply sm_bind_inv in H as (h6 & [] & _ & H). apply sm_bind_inv in H as (h7 & [c2 r] & Er & H).
  injection H as _ <- _. apply inject_vcpu_shape in Ei as [Hi1 Hi2]. destruct (vi_vcpu _ Hv _ _ Ec) as [Hc1 Hc2].
  unfold run_vcpu_on_core in Er. destruct (vcpu_run _ _ _ _) as [[[v2 p2] w2] res2] eqn:Ev.
  apply vcpu_run_ready in Ev as [Hv1 Hv2]; [|congruence].
  destruct (w2.2); [discriminate|]. injection Er as _ <- _. exists v2. split_and!; [congruence|done|done].
Qed.

(** A vCPU that is gone for good: it was created and the scheduler has dropped
    it; CPU_ON does not bring it back. *)
Definition live_slot (v : Vm) (id : nat) : bool := negb (has_vcpu v id) || negb (has_state (vm_sched v) id RsNone).
Definition live_count (v : Vm) : nat := length (List.filter (live_slot v) (seq 0 MAX_VCPUS)).

Lemma live_slot_spec v id : vm_inv v -> (id < MAX_VCPUS)%nat ->
  live_slot v id = true <-> (has_vcpu v id = true -> schedulable (vm_sched v) id).
Proof using.
  intros Hv Hid. unfold live_slot, has_state, schedulable.
  destruct (lookup_lt_is_Some_2 (sc_states (vm_sched v)) id) as [st Hst]; [by rewrite (si_len _ (vi_sched _ Hv))|].
  rewrite Hst. destruct (has_vcpu v id); cbn [negb orb]; [|by split].
  rewrite negb_true_iff, bool_decide_eq_false. split.
  - intros Hn _. exists st. split; [done|congruence].
  - intros H. destruct H as (x & [= <-] & Hx); [done|congruence].
Qed.

Lemma count_le {A} (p q : A -> bool) l : (forall x, In x l -> p x = true -> q x = true) ->
  (length (List.filter p l) <= length (List.filter q l))%nat.
Proof using.
  induction l as [|x l IH]; intros H; [done|]. cbn [List.filter].
  assert (length (List.filter p l) <= length (List.filter q l))%nat by (apply IH; intros; apply H; [by right|done]).
  specialize (H x (or_introl eq_refl)). destruct (p x); [rewrite H by done|destruct (q x)]; cbn; lia.
Qed.
Lemma count_lt {A} (p q : A -> bool) l x : (forall x, In x l -> p x = true -> q x = true) ->
  In x l -> p x = false -> q x = true -> (length (List.filter p l) < length (List.filter q l))%nat.
Proof using.
  intros H Hx Hp Hq. apply in_split in Hx as (l1 & l2 & ->). rewrite !List.filter_app, !length_app. cbn [List.filter].
  rewrite Hp, Hq. cbn [length].
  assert (length (List.filter p l1) <= length (List.filter q l1))%nat by (apply count_le; intros; apply H; [apply in_or_app; by left|done]).
  assert (length (List.filter p l2) <= length (List.filter q l2))%nat
    by (apply count_le; intros; apply H; [apply in_or_app; right; by right|done]). lia.
Qed.

(** How long [j] may still wait. *)
Definition wait_bound (v : Vm) (j : nat) : nat := (turn_dist (vm_sched v) j + live_count v)%nat.

(** The scheduler when a vCPU is picked, after the boot and the wake-ups. *)
Lemma before_pick v h h1 v1 s j : vm_inv v -> idle v ->
  take_cpu_on pi mpidr phys_gicr v h = (h1, Ok v1) ->
  let v2 := set_sched (wake_pending_vcpus v1 s) v1 in
  vm_inv v2 /\ idle v2 /\ (forall id, (id < MAX_VCPUS)%nat -> live_slot v2 id = true -> live_slot v id = true) /\
  vm_id v2 = vm_id v /\
  (waits j (vm_sched v) -> waits j (vm_sched v2) /\ (wait_bound v2 j <= wait_bound v j)%nat).
Proof using.
  intros Hv Hi H. cbv zeta.
  assert (Hl : (vm_id v < length (hy_states h))%nat).
  { unfold take_cpu_on in H. apply sm_bind_inv in H as (? & s0 & H & _). unfold state_of in H.
    destruct (hy_states h !! vm_id v) eqn:E; [by eapply lookup_lt_Some|discriminate]. }
  destruct (take_cpu_on_cases v h Hv Hl) as (h1' & v1' & E & Hv1 & Hc). rewrite H in E. injection E as <- <-.
  unfold wake_pending_vcpus. set (p := fun id => _). generalize (seq 0 MAX_VCPUS). intros ids.
  assert (Hv2 : vm_inv (set_sched (unblock_all p ids (vm_sched v1)) v1)).
  { apply vm_inv_sched; [apply unblock_all_inv, Hv1| |done].
    intros id Hid. apply schedulable_unblock_all in Hid. by apply (vi_slot _ Hv1). }
  assert (Hops : exists ops, unblock_all p ids (vm_sched v1) = foldl sched_step (vm_sched v) ops /\
    forall k, Forall (fun op => before_ok k op = true) ops).
  { rewrite unblock_all_ops. set (us := map OpUnblock _).
    assert (Hus : forall k, Forall (fun op => before_ok k op = true) us) by (intros k; unfold us; by induction (List.filter p ids); constructor).
    destruct Hc as [->|(id & e & c & _ & _ & ->)]; [by exists us|]. exists (OpAdd id :: us). split; [done|by constructor]. }
  destruct Hops as (ops & Eops & Hok).
  assert (Hlive : forall id, (id < MAX_VCPUS)%nat ->
    live_slot (set_sched (unblock_all p ids (vm_sched v1)) v1) id = true -> live_slot v id = true).
  { intros id Hid. rewrite !live_slot_spec by done. cbn [set_sched vm_sched]. intros Hlive Hhas.
    destruct Hc as [->|(k & e & c & Hk & Hnone & ->)].
    + by apply (schedulable_unblock_all p ids), Hlive.
    + assert (id <> k) by congruence. destruct (schedulable_add (vm_sched v) k id (vi_sched _ Hv) Hk) as [Ha _].
      destruct Ha as [?|?]; [|done|done]. apply (schedulable_unblock_all p ids), Hlive.
      change (has_vcpu (set_vcpus (<[k := Some (secondary_vcpu mpidr k e c)]> (vm_vcpus v)) (vm_count v + 1) v) id = true).
      rewrite (has_vcpu_insert v _ _ k (secondary_vcpu mpidr k e c) id); [|by rewrite (vi_len _ Hv)|done].
      rewrite Hhas. apply orb_true_r. }
  split_and!; [done| |done| |].
  - unfold idle. cbn [set_sched vm_sched]. rewrite unblock_all_current. destruct Hc as [->|(id & e & c & _ & _ & ->)]; [done|].
    unfold booted. cbn [set_sched set_vcpus vm_sched]. unfold add_vcpu. by destruct (id <? MAX_VCPUS)%nat.
  - by destruct Hc as [->|(id & e & c & _ & _ & ->)].
  - cbn [set_sched vm_sched]. intros HW. destruct (waits_run j ops _ HW (Hok j)) as (W1 & W2 & _).
    split; [by rewrite Eops|]. unfold wait_bound, turn_dist. cbn [set_sched vm_sched]. rewrite Eops, W2.
    apply Nat.add_le_mono_l. apply count_le. intros k Hk. apply in_seq in Hk. rewrite <- Eops. apply Hlive. lia.
Qed.

Lemma handle_exit_shape id res v h h' v' : handle_exit id res v h = (h', Ok v') ->
  exists s, v' = set_sched s v /\
    (s = remove_vcpu (vm_sched v) id \/ exists st, (st = RsReady \/ st = RsBlocked) /\ s = leave_current (vm_sched v) st).
Proof using.
  unfold handle_exit. intros H.
  assert (Hy : forall st, st = RsReady \/ st = RsBlocked -> v' = set_sched (leave_current (vm_sched v) st) v ->
    exists s, v' = set_sched s v /\ (s = remove_vcpu (vm_sched v) id \/
      exists st, (st = RsReady \/ st = RsBlocked) /\ s = leave_current (vm_sched v) st)).
  { intros st Hst ->. eexists. split; [reflexivity|]. right. by exists st. }
  destruct res as [u|e].
  - apply sm_bind_inv in H as (h1 & s & _ & H). destruct (nth id (terminal_exit s) false).
    + injection H as _ <-. eexists. split; [reflexivity|by left].
    + destruct (co_requested _); [injection H as _ <-; apply (Hy RsReady); [by left|done]|].
      apply sm_bind_inv in H as (h2 & [] & _ & H). injection H as _ <-. apply (Hy RsReady); [by left|done].
  - injection H as _ <-. destruct (e =? WFI)%string; [apply (Hy RsBlocked); [by right|done]|apply (Hy RsReady); [by left|done]].
Qed.

(** *** From the pick to the next idle state *)
Section AfterPick.
Context (v : Vm) (sch : Scheduler) (id : nat) (c : Vcpu) (s' : Scheduler).
Context (Hv : vm_inv v) (Hi : idle v) (Hp : pick_next (vm_sched v) = (sch, Some id)).
Context (Hc : vcpu_id c = id) (Hr : vcpu_state c = VReady).
Context (Hs' : s' = remove_vcpu sch id \/ exists st, (st = RsReady \/ st = RsBlocked) /\ s' = leave_current sch st).
Let v' : Vm := set_sched s' (set_vcpus (<[id := Some c]> (vm_vcpus v)) (vm_count v) (set_sched sch v)).

Lemma picked_facts : (id < MAX_VCPUS)%nat /\ sched_inv sch /\ sc_current sch = Some id /\
  sc_next_idx sch = sc_next_idx (vm_sched v) /\ schedulable sch id /\ (forall k, schedulable sch k <-> schedulable (vm_sched v) k).
Proof using Hv Hi Hp.
  destruct (pick_next_idle _ _ _ (vi_sched _ Hv) Hi Hp) as (Hready & Hid & HIs & Esch).
  assert (Hsch : forall k, schedulable sch k <-> schedulable (vm_sched v) k).
  { intros k. rewrite Esch. apply (schedulable_set (set_current (vm_sched v) (Some id))); [done|by exists RsReady]. }
  split_and!; [done|done|by rewrite Esch|by rewrite Esch|apply Hsch; by exists RsReady|done].
Qed.

Lemma left_facts : sched_inv s' /\ sc_current s' = None /\ (forall k, schedulable s' k -> schedulable (vm_sched v) k).
Proof using Hv Hi Hp Hc Hs'.
  destruct picked_facts as (Hid & HIs & Hcur & _ & Hrun & Hsch). destruct Hs' as [->|(st & Hst & ->)].
  - split_and!; [exact (sched_step_inv _ (OpRemove id) HIs)| |].
    + unfold remove_vcpu. rewrite (proj2 (Nat.ltb_lt _ _)) by done. by rewrite decide_True by done.
    + intros k Hk. apply Hsch. by destruct (schedulable_remove _ _ _ Hk).
  - split_and!; [apply leave_current_inv; [by destruct Hst as [->| ->]|done]|unfold leave_current; by rewrite Hcur|].
    intros k Hk. apply Hsch. apply (schedulable_leave sch id st k) in Hk; try done. by destruct Hst as [->| ->].
Qed.

Lemma left_has k : has_vcpu v k = true -> has_vcpu v' k = true.
Proof using Hv Hi Hp.
  intros Hk. change (has_vcpu (set_vcpus (<[id := Some c]> (vm_vcpus v)) (vm_count v) v) k = true).
  destruct picked_facts as (Hid & _).
  rewrite (has_vcpu_insert v _ _ id c k); [|by rewrite (vi_len _ Hv)|done]. rewrite Hk. apply orb_true_r.
Qed.

Lemma left_inv : vm_inv v' /\ idle v' /\ (forall k, (k < MAX_VCPUS)%nat -> live_slot v' k = true -> live_slot v k = true).
Proof using Hv Hi Hp Hc Hr Hs'.
  destruct picked_facts as (Hid & HIs & _ & _ & _ & Hsch). destruct left_facts as (HI' & Hc' & Hsub).
  assert (Hv' : vm_inv v').
  { apply vm_inv_sched; [done| |apply (vm_inv_set (set_sched sch v)); try done; apply vm_inv_sched; [done| |done]].
    - intros k Hk. apply (left_has k), (vi_slot _ Hv), Hsub, Hk.
    - intros k Hk. apply (vi_slot _ Hv), Hsch, Hk. }
  split_and!; [done..|]. intros k Hk. rewrite !live_slot_spec by done. intros H Hh. apply Hsub, H, left_has, Hh.
Qed.

(** A vCPU that waits comes closer: the one that ran is behind it now, or
    gone. *)
Lemma left_closer j : waits j (vm_sched v) -> id <> j -> waits j s' /\ (wait_bound v' j < wait_bound v j)%nat.
Proof using Hv Hi Hp Hc Hr Hs'.
  intros HW Hij. destruct (pick_progress _ j HW Hi) as (s2 & idx & E & _ & _ & _ & _ & Hnext).
  rewrite Hp in E. injection E as <- <-. destruct (Hnext Hij) as [HW2 Hlt].
  destruct picked_facts as (Hid & HIs & Hcur & Hidx & Hrun & Hsch). destruct left_inv as (Hv' & _ & Hlive).
  assert (Hle : (live_count v' <= live_count v)%nat).
  { apply count_le. intros k Hk. apply in_seq in Hk. apply Hlive. lia. }
  destruct Hs' as [E|(st & Hst & E)].
  - rewrite E. split; [exact (proj1 (waits_step j sch (OpRemove id) HW2 (proj2 (negb_true_iff _) (proj2 (Nat.eqb_neq _ _) Hij))))|].
    unfold wait_bound. replace (turn_dist (vm_sched v') j) with (turn_dist (vm_sched v) j).
    + apply Nat.add_lt_mono_l. apply (count_lt _ _ _ id); [|apply in_seq; lia| |].
      * intros k Hk. apply in_seq in Hk. apply Hlive. lia.
      * apply not_true_iff_false. rewrite live_slot_spec by done. intros H.
        destruct (schedulable_remove sch id id) as [_ []]; [|done|done]. rewrite <- E.
        apply H, left_has, (vi_slot _ Hv), Hsch, Hrun.
      * apply live_slot_spec; [done..|]. intros _. by apply Hsch.
    + unfold turn_dist, v'. cbn [vm_sched set_sched]. rewrite E, <- Hidx. unfold remove_vcpu. destruct (_ <? _)%nat; [|done].
      by destruct (decide _).
  - destruct (leave_progress sch id j st HW2 Hcur Hij) as (W1 & _ & W3); [by destruct Hst as [->| ->]|].
    rewrite E. split; [done|]. unfold wait_bound. change (vm_sched v') with s'. rewrite E. lia.
Qed.
End AfterPick.

(** *** One iteration *)
Lemma iteration_step v h h' v' p fin : vm_inv v -> idle v ->
  run_one_iteration pi mpidr phys_gicr enter v h = (h', Ok (v', p, fin)) ->
  vm_inv v' /\ idle v' /\ vm_id v' = vm_id v /\
  forall j, waits j (vm_sched v) ->
    fin = false /\ (p = Some j \/ (waits j (vm_sched v') /\ (wait_bound v' j < wait_bound v j)%nat)).
Proof using.
  intros Hv Hi H. unfold run_one_iteration in H. apply sm_bind_inv in H as (h1 & v1 & Ht & H).
  apply sm_bind_inv in H as (h2 & s & _ & H).
  pose proof (fun j => before_pick v h h1 v1 s j Hv Hi Ht) as Hb. cbv zeta in Hb.
  set (v2 := set_sched (wake_pending_vcpus v1 s) v1) in *. destruct (Hb 0%nat) as (Hv2 & Hi2 & _ & Hid2 & _).
  destruct (pick_next (vm_sched v2)) as [sch [id|]] eqn:Ep.
  - apply sm_bind_inv in H as (h3 & [v3 res] & Hr & H). apply sm_bind_inv in H as (h4 & v4 & He & H).
    injection H as _ <- <- <-. cbn [fst snd] in He.
    destruct (pick_next_idle _ _ _ (vi_sched _ Hv2) Hi2 Ep) as (Hready & Hidl & HIs & Esch).
    assert (Hv3 : vm_inv (set_sched sch v2)).
    { apply vm_inv_sched; [done| |done]. intros k Hk. apply (vi_slot _ Hv2). rewrite Esch in Hk.
      apply (schedulable_set (set_current (vm_sched v2) (Some id))) in Hk; [done|done|by exists RsReady]. }
    apply run_picked_shape in Hr as (c & Hc1 & Hc2 & ->); [|done]. apply handle_exit_shape in He as (s' & -> & Hs').
    cbn [vm_sched set_sched set_vcpus] in Hs'.
    destruct (left_inv v2 sch id c s' Hv2 Hi2 Ep Hc1 Hc2 Hs') as (H1 & H2 & _). split_and!; [exact H1|exact H2|done|].
    intros j HW. split; [done|]. destruct (decide (id = j)) as [->|Hij]; [by left|right].
    destruct (Hb j) as (_ & _ & _ & _ & HW2). destruct (HW2 HW) as [HW3 Hle].
    destruct (left_closer v2 sch id c s' Hv2 Hi2 Ep Hc1 Hc2 Hs' j HW3 Hij) as [HW4 Hlt]. split; [exact HW4|].
    eapply Nat.lt_le_trans; [exact Hlt|exact Hle].
  - pose proof (pick_next_idle _ _ _ (vi_sched _ Hv2) Hi2 Ep) as ->. destruct (unblock_online _ s) as [v5 f5] eqn:E5.
    injection H as _ <- <- <-. apply (f_equal fst) in E5. cbn [unblock_online fst] in E5. subst v5. split_and!.
    + apply vm_inv_sched; [apply unblock_all_inv, Hv2| |done].
      intros k Hk. apply schedulable_unblock_all in Hk. by apply (vi_slot _ Hv2).
    + unfold idle. cbn [set_sched vm_sched]. rewrite unblock_all_current. exact Hi2.
    + done.
    + intros j HW. destruct (Hb j) as (_ & _ & _ & _ & HW2). destruct (HW2 HW) as [HW3 _].
      destruct (pick_progress _ j HW3 Hi2) as (? & ? & E & _). congruence.
Qed.

(** ** Faults *)

(** The state the loop runs in: the arrays have their sizes and the VM is the
    current one. *)
Definition machine_ok (id : nat) (h : hyp) : Prop :=
  hy_vm h = id /\ (id < length (hy_states h))%nat /\ (id < length (hy_devs h))%nat /\ ring_ok h.
Lemma machine_ok_le id h h' : hyp_le h h' -> machine_ok id h -> machine_ok id h'.
Proof using.
  intros [H1 H2 H3 H4] (K1 & K2 & K3 & K4). split_and!; [congruence|by rewrite <- (Forall2_length _ _ _ H3)|congruence|by apply H4].
Qed.

(** The parts of an iteration: the choice of the vCPU, after a boot and the
    wake-ups; what is done before the network queues are looked at; what is done
    between them and the entry. *)
Inductive chosen (v : Vm) (h : hyp) : Vm -> nat -> hyp -> Prop :=
| chosen_intro v1 s sch id h1 :
    take_cpu_on pi mpidr phys_gicr v h = (h1, Ok v1) -> state_of (vm_id v1) h1 = (h1, Ok s) ->
    pick_next (wake_pending_vcpus v1 s) = (sch, Some id) -> chosen v h (set_sched sch v1) id h1.
Definition before_net (id : nat) (v : Vm) : exm unit :=
  upd_state_of (vm_id v) (set_current_vcpu id) ;;; drain_uart (vm_id v).
Definition before_entry (c : Vcpu) (v : Vm) : exm Vcpu :=
  let* c := inject_vcpu c in
  let* s := state_of (vm_id v) in
  (if multi_vcpu (vcpu_online_mask s) then ensure_cnthp_enabled pi phys_gicr ;;; arm_preemption_timer else sm_ret tt) ;;;
  sm_ret c.

(** How the iteration of [v] on the machine [h] stops it, in the state [h'] with the
    error [e]: draining the network queues of the VM failed in the state this
    iteration had reached, or the chosen vCPU was entered, with its own context and
    registers, in the state this iteration had reached, and did not come back. *)
Inductive iteration_fault (v : Vm) (h h' : hyp) (e : string) : Prop :=
| fault_net v1 id h1 h2 :
    chosen v h v1 id h1 -> before_net id v1 h1 = (h2, Ok tt) -> drain_net (vm_id v1) h2 = (h', Err e) -> iteration_fault v h h' e
| fault_guest v1 id h1 h2 h3 c c' h4 :
    chosen v h v1 id h1 -> before_net id v1 h1 = (h2, Ok tt) -> drain_net (vm_id v1) h2 = (h3, Ok tt) ->
    vm_vcpus v1 !! id = Some (Some c) -> before_entry c v1 h3 = (h4, Ok c') -> vcpu_state c' = VReady ->
    enter (vcpu_context c') (set_core (entry_core (set_vcpu_state VRunning c') (hy_core h4)) h4) = (h', Err e) ->
    iteration_fault v h h' e.

(** A computation that does not fail on the machines the loop runs on. *)
Definition safe (id : nat) {A} (c : exm A) : Prop :=
  forall h h' e, machine_ok id h -> c h = (h', Err e) -> False.

Lemma safe_bind_post {A B} (Q : A -> Prop) id (c : exm A) (k : A -> exm B) : safe id c -> keeps c ->
  (forall h h1 a, machine_ok id h -> c h = (h1, Ok a) -> Q a) -> (forall a, Q a -> safe id (k a)) -> safe id (sm_bind c k).
Proof using.
  intros Hc Hk HQ Hs h h' e Hok. unfold sm_bind. specialize (Hk h). destruct (c h) as [h1 [a|e1]] eqn:E.
  - apply Hs; [by apply (HQ h h1)|by apply (machine_ok_le id h)].
  - intros [= <- <-]. by eapply (Hc h h1).
Qed.
Lemma safe_bind {A B} id (c : exm A) (k : A -> exm B) : safe id c -> keeps c -> (forall a, safe id (k a)) -> safe id (sm_bind c k).
Proof using. intros Hc Hk Hs. by apply (safe_bind_post (fun _ => True)). Qed.
Lemma safe_ret {A} id (a : A) : safe id (sm_ret a).
Proof using. intros h h' e _. discriminate. Qed.
Lemma safe_upd id f : safe id (sm_upd f).
Proof using. intros h h' e _. discriminate. Qed.
Lemma safe_vm_state id : safe id vm_state.
Proof using.
  intros h h' e (<- & Hl & _). unfold vm_state. destruct (lookup_lt_is_Some_2 _ _ Hl) as [v ->]. discriminate.
Qed.
Lemma safe_state_of id : safe id (state_of id).
Proof using.
  intros h h' e (_ & Hl & _). unfold state_of. destruct (lookup_lt_is_Some_2 _ _ Hl) as [v ->]. discriminate.
Qed.
Lemma safe_inject_spi id i : safe id (inject_spi i).
Proof using.
  intros h h' e (<- & _ & Hd & _). unfold inject_spi. destruct (_ || _); [discriminate|].
  unfold sm_bind, sm_get. destruct (lookup_lt_is_Some_2 _ _ Hd) as [dm ->]. destruct (_ <? _); discriminate.
Qed.
Lemma safe_drain_uart id : safe id (drain_uart id).
Proof using.
  intros h h' e (Hid & Hs & Hd & Hring). unfold drain_uart, sm_bind at 1, sm_get.
  destruct (lookup_lt_is_Some_2 _ _ Hd) as [dm Hdm]. rewrite Hdm. destruct (uart_mut dm) as [u|]; [|discriminate].
  destruct Hring as [p Hp]. destruct (drain_ring_total p RING_FUEL (hy_ring h) u (ring_rel_fuel _ _ Hp) Hp) as [(r & u' & E & Hr) _].
  rewrite E. unfold sm_bind, sm_upd. destruct (uart_pending_irq u'); [|discriminate].
  eapply (safe_inject_spi id). split_and!; [done..|cbn; by rewrite length_insert|by exists []].
Qed.
Lemma safe_inject_vcpu id c : (vcpu_id c < MAX_VCPUS)%nat -> safe id (inject_vcpu c).
Proof using.
  intros Hc. unfold inject_vcpu. rewrite (proj2 (Nat.leb_gt _ _)) by done.
  apply safe_bind; [apply safe_vm_state|auto with keeps|]. intros s. destruct (inject_pending_sgis _ _ _).
  apply safe_bind; [apply safe_upd|auto with keeps|]. intros _.
  apply safe_bind; [apply safe_vm_state|auto with keeps|]. intros s'. destruct (inject_pending_spis _ _ _).
  apply safe_bind; [apply safe_upd|auto with keeps|]. intros _. apply safe_ret.
Qed.
Lemma run_vcpu_fault c h h' e : run_vcpu_on_core enter c h = (h', Err e) ->
  vcpu_state c = VReady /\
  enter (vcpu_context c) (set_core (entry_core (set_vcpu_state VRunning c) (hy_core h)) h) = (h', Err e).
Proof using.
  unfold run_vcpu_on_core, vcpu_run. destruct (bool_decide _) eqn:Ev; cbn [negb]; [|discriminate].
  apply bool_decide_eq_true in Ev. cbv zeta. change (vcpu_context (set_vcpu_state VRunning c)) with (vcpu_context c).
  set (p := entry_core _ _). unfold machine_guest. cbn [fst].
  destruct (enter (vcpu_context c) (set_core p h)) as [h1 [[c1 code]|e1]] eqn:E;
    (destruct (has_pending_interrupt _); [destruct (vcpu_clear_irq _ _)|]); cbn; try discriminate;
    intros [= <- <-]; done.
Qed.
Lemma bind_fault {A B} (c : exm A) (k : A -> exm B) h h' e : sm_bind c k h = (h', Err e) ->
  c h = (h', Err e) \/ exists h1 a, c h = (h1, Ok a) /\ k a h1 = (h', Err e).
Proof using. unfold sm_bind. destruct (c h) as [h1 [a|e1]]; [intros H; right; eauto|intros [= <- <-]; by left]. Qed.
Lemma safe_before_net id k v : vm_id v = id -> safe id (before_net k v).
Proof using. intros <-. apply safe_bind; [apply safe_upd|auto with keeps|intros _; apply safe_drain_uart]. Qed.
Lemma keeps_before_net id v : keeps (before_net id v).
Proof using. apply keeps_sm_bind; [auto with keeps|intros _; apply keeps_drain_uart]. Qed.
Lemma safe_before_entry id c v : vm_id v = id -> (vcpu_id c < MAX_VCPUS)%nat -> safe id (before_entry c v).
Proof using.
  intros <- Hl. apply safe_bind; [by apply safe_inject_vcpu|apply keeps_inject_vcpu|intros c'].
  apply safe_bind; [apply safe_state_of|auto with keeps|intros s]. apply safe_bind; [| |intros _; apply safe_ret].
  - destruct (multi_vcpu _); [|apply safe_ret]. intros h h' e _. unfold ensure_cnthp_enabled. destruct (_ =? 0); discriminate.
  - unfold ensure_cnthp_enabled, arm_preemption_timer. keeps_cases.
Qed.
(** [run_picked] in these parts. *)
Lemma run_picked_parts k v c : vm_vcpus v !! k = Some (Some c) -> forall h,
  run_picked pi phys_gicr enter k v h =
  (before_net k v ;;; drain_net (vm_id v) ;;; let* c' := before_entry c v in let* r := run_vcpu_on_core enter c' in
   sm_ret (set_vcpus (<[k := Some r.1]> (vm_vcpus v)) (vm_count v) v, r.2)) h.
Proof using.
  intros Hc h. unfold run_picked, before_net, before_entry, sm_bind, sm_ret. rewrite Hc.
  repeat (case_match; try done); simplify_eq; done.
Qed.
Lemma run_picked_fault v h v1 id h1 c h' e : chosen v h v1 id h1 -> machine_ok (vm_id v1) h1 ->
  vm_vcpus v1 !! id = Some (Some c) -> (vcpu_id c < MAX_VCPUS)%nat ->
  run_picked pi phys_gicr enter id v1 h1 = (h', Err e) -> iteration_fault v h h' e.
Proof using.
  intros Hch Hok Hc Hl. rewrite (run_picked_parts _ _ _ Hc). intros H.
  apply bind_fault in H as [H|(h2 & [] & E2 & H)]; [by edestruct safe_before_net|].
  apply bind_fault in H as [H|(h3 & [] & E3 & H)]; [by eapply fault_net|].
  assert (Hok3 : machine_ok (vm_id v1) h3).
  { pose proof (keeps_before_net id v1 h1) as K1. rewrite E2 in K1. pose proof (keeps_drain_net (vm_id v1) h2) as K2. rewrite E3 in K2.
    eapply machine_ok_le; [exact K2|]. by eapply machine_ok_le. }
  apply bind_fault in H as [H|(h4 & c' & E4 & H)]; [by edestruct safe_before_entry|].
  apply bind_fault in H as [H|(h5 & r & E5 & H)]; [|discriminate].
  apply run_vcpu_fault in H as [Hv H]. by eapply fault_guest.
Qed.
Lemma safe_handle_exit id k res v : vm_id v = id -> safe id (handle_exit k res v).
Proof using.
  intros <-. unfold handle_exit. destruct res; [|apply safe_ret].
  apply safe_bind; [apply safe_state_of|auto with keeps|intros s].
  destruct (nth k (terminal_exit s) false); [apply safe_bind; [apply safe_upd|auto with keeps|intros _; apply safe_ret]|].
  destruct (co_requested _); [apply safe_ret|].
  apply safe_bind; [destruct (preemption_exit s); [apply safe_upd|apply safe_ret]|keeps_cases|intros _; apply safe_ret].
Qed.

Lemma keeps_iteration v : keeps (run_one_iteration pi mpidr phys_gicr enter v).
Proof using Henter.
  unfold run_one_iteration. apply keeps_sm_bind; [apply keeps_take_cpu_on|intros v1].
  apply keeps_sm_bind; [auto with keeps|intros s]. destruct (pick_next _) as [sch [id|]]; [|destruct (unblock_online _ _); auto with keeps].
  apply keeps_sm_bind; [apply keeps_run_picked|intros r; apply keeps_sm_bind; [apply keeps_handle_exit|auto with keeps]].
Qed.

Lemma iteration_faults v h h' e : vm_inv v -> idle v -> machine_ok (vm_id v) h ->
  run_one_iteration pi mpidr phys_gicr enter v h = (h', Err e) -> iteration_fault v h h' e.
Proof using Henter.
  intros Hv Hi Hok H. apply bind_fault in H as [H|(h1 & v1 & Ht & H)].
  { destruct Hok as (_ & Hl & _). destruct (take_cpu_on_cases v h Hv Hl) as (h1 & v1 & E1 & _). congruence. }
  pose proof (keeps_take_cpu_on v h) as Hk. rewrite Ht in Hk. cbn [fst] in Hk. apply (machine_ok_le _ _ _ Hk) in Hok.
  assert (Hid1 : vm_id v1 = vm_id v) by (destruct (before_pick v h h1 v1 vm_state_new 0 Hv Hi Ht) as (_ & _ & _ & ? & _); done).
  rewrite <- Hid1 in Hok. apply bind_fault in H as [H|(h1' & s & Es & H)]; [by edestruct safe_state_of|].
  assert (h1' = h1) as -> by (unfold state_of in Es; destruct (hy_states h1 !! _); congruence).
  destruct (before_pick v h h1 v1 s 0 Hv Hi Ht) as (Hv2 & Hi2 & _).
  cbv zeta in H. destruct (pick_next _) as [sch [id|]] eqn:Ep in H; [|destruct (unblock_online _ _); discriminate].
  destruct (pick_next_idle _ _ _ (vi_sched _ Hv2) Hi2 Ep) as (Hready & Hidl & _ & _).
  assert (Hhas : has_vcpu v1 id = true) by (apply (vi_slot _ Hv2 id); by exists RsReady).
  apply has_vcpu_spec in Hhas as [c Hc]. destruct (vi_vcpu _ Hv2 id c Hc) as [Hci _].
  assert (Hch : chosen v h (set_sched sch v1) id h1) by by eapply chosen_intro.
  change (set_sched sch (set_sched (wake_pending_vcpus v1 s) v1)) with (set_sched sch v1) in H.
  apply bind_fault in H as [H|(h2 & r & Er & H)].
  { by apply (run_picked_fault v h (set_sched sch v1) id h1 c); [| | |rewrite Hci|]. }
  exfalso. assert (Hrid : vm_id r.1 = vm_id v1).
  { destruct r as [v3 res]. apply run_picked_shape in Er as (c' & _ & _ & ->); [done|].
    apply (vm_inv_sched (set_sched (wake_pending_vcpus v1 s) v1)); [by destruct (picked_facts _ _ _ Hv2 Hi2 Ep) as (_ & ? & _)| |done].
    intros k Hk'. apply (vi_slot _ Hv2). by apply (picked_facts _ _ _ Hv2 Hi2 Ep). }
  assert (Hok2 : machine_ok (vm_id v1) h2).
  { pose proof (keeps_run_picked id (set_sched sch v1) h1) as K. rewrite Er in K. by eapply machine_ok_le. }
  apply bind_fault in H as [H|(h3 & v4 & _ & H)]; [|discriminate]. by eapply safe_handle_exit.
Qed.

(** Conversely a fault stops the iteration, with its error and in its state. *)
Lemma bind_run {A B} (c : exm A) (k : A -> exm B) h h1 a : c h = (h1, Ok a) -> sm_bind c k h = k a h1.
Proof using. unfold sm_bind. by intros ->. Qed.
Lemma bind_stops {A B} (c : exm A) (k : A -> exm B) h h1 e : c h = (h1, Err e) -> sm_bind c k h = (h1, Err e).
Proof using. unfold sm_bind. by intros ->. Qed.
Lemma run_vcpu_stops c h h' e : vcpu_state c = VReady ->
  enter (vcpu_context c) (set_core (entry_core (set_vcpu_state VRunning c) (hy_core h)) h) = (h', Err e) ->
  run_vcpu_on_core enter c h = (h', Err e).
Proof using.
  intros Hc H. unfold run_vcpu_on_core, vcpu_run. rewrite bool_decide_true by done. cbn [negb]. cbv zeta.
  change (vcpu_context (set_vcpu_state VRunning c)) with (vcpu_context c). unfold machine_guest. cbn [fst]. rewrite H.
  (destruct (has_pending_interrupt _); [destruct (vcpu_clear_irq _ _)|]); done.
Qed.
Lemma chosen_run v h v1 id h1 : chosen v h v1 id h1 -> forall h' e,
  run_picked pi phys_gicr enter id v1 h1 = (h', Err e) -> run_one_iteration pi mpidr phys_gicr enter v h = (h', Err e).
Proof using.
  intros [v2 s sch id' h2 Ht Es Ep] h' e Hr. unfold run_one_iteration. rewrite (bind_run _ _ _ _ _ Ht), (bind_run _ _ _ _ _ Es).
  cbv zeta. cbn [vm_sched set_sched]. rewrite Ep. by apply bind_stops.
Qed.
Lemma fault_stops_iteration v h h' e : vm_inv v -> idle v ->
  iteration_fault v h h' e -> run_one_iteration pi mpidr phys_gicr enter v h = (h', Err e).
Proof using.
  intros Hv Hi [v1 id h1 h2 Hch Hb Hn|v1 id h1 h2 h3 c c' h4 Hch Hb Hn Hc He Hst Hg]; apply (chosen_run v h v1 id h1 Hch).
  - assert (exists c, vm_vcpus v1 !! id = Some (Some c)) as [c Hc].
    { destruct Hch as [v2 s sch id' h0 Ht Es Ep]. destruct (before_pick v h h0 v2 s 0 Hv Hi Ht) as (Hv2 & Hi2 & _).
      destruct (pick_next_idle _ _ _ (vi_sched _ Hv2) Hi2 Ep) as (Hready & _). apply has_vcpu_spec, (vi_slot _ Hv2). by exists RsReady. }
    rewrite (run_picked_parts _ _ _ Hc), (bind_run _ _ _ _ _ Hb). by apply bind_stops.
  - rewrite (run_picked_parts _ _ _ Hc), (bind_run _ _ _ _ _ Hb), (bind_run _ _ _ _ _ Hn), (bind_run _ _ _ _ _ He).
    apply bind_stops. by apply run_vcpu_stops.
Qed.

(** Iterations that come back. *)
Inductive iterations : Vm * hyp -> Vm * hyp -> Prop :=
| iterations_nil x : iterations x x
| iterations_cons v h h1 v1 p fin y : run_one_iteration pi mpidr phys_gicr enter v h = (h1, Ok (v1, p, fin)) ->
    iterations (v1, h1) y -> iterations (v, h) y.

(** The vCPUs entered by [n] iterations. *)
Fixpoint picks (n : nat) (v : Vm) : exm (list (option nat)) :=
  match n with
  | O => sm_ret []
  | S n => let* r := run_one_iteration pi mpidr phys_gicr enter v in let* l := picks n r.1.1 in sm_ret (r.1.2 :: l)
  end.

Lemma picks_reach j n : forall v h h' l, vm_inv v -> idle v -> waits j (vm_sched v) -> (wait_bound v j < n)%nat ->
  picks n v h = (h', Ok l) -> Some j ∈ l.
Proof using.
  induction n as [|n IH]; intros v h h' l Hv Hi HW Hb H; [lia|]. cbn [picks] in H.
  apply sm_bind_inv in H as (h1 & [[v1 p] fin] & E & H). apply sm_bind_inv in H as (h2 & l' & E' & H). injection H as _ <-.
  destruct (iteration_step _ _ _ _ _ _ Hv Hi E) as (Hv1 & Hi1 & _ & Hj). cbn [fst snd] in *.
  destruct (Hj j HW) as [_ [->|[HW1 Hlt]]]; [by left|right]. apply (IH v1 h1 h2); try done. lia.
Qed.
(** A run of iterations that fails does so in one of them. *)
Lemma picks_fault n : forall v h h' e, vm_inv v -> idle v -> machine_ok (vm_id v) h -> picks n v h = (h', Err e) ->
  exists v1 h1, iterations (v, h) (v1, h1) /\ iteration_fault v1 h1 h' e.
Proof using Henter.
  induction n as [|n IH]; intros v h h' e Hv Hi Hok H; [discriminate|]. cbn [picks] in H.
  apply bind_fault in H as [H|(h1 & [[v1 p] fin] & E & H)].
  { exists v, h. split; [constructor|by apply iteration_faults]. }
  apply bind_fault in H as [H|(h2 & l & _ & H)]; [|discriminate]. cbn [fst] in H.
  destruct (iteration_step _ _ _ _ _ _ Hv Hi E) as (Hv1 & Hi1 & Hid & _).
  pose proof (keeps_iteration v h) as K. rewrite E in K.
  destruct (IH v1 h1 h' e Hv1 Hi1 ltac:(rewrite Hid; by eapply machine_ok_le) H) as (v2 & h3 & Hit & Hf).
  exists v2, h3. split; [by eapply iterations_cons|done].
Qed.
End Iteration.

(** ** The loop on the machine *)
Section Loop.
Context (checks : bool) (pi : PlatformInfo) (el3 : mem -> GpRegs -> mem * GpRegs) (tfa_boot : bool) (proxy_rx_buf : Z).
Context (blk_fuel guest_fuel : nat) (mpidr : Z) (phys_gicr : Z -> Z) (guest_code : hyp -> VcpuContext -> guest_step).

Definition guest_enter : VcpuContext -> exm (VcpuContext * Z) :=
  enter_guest checks pi el3 tfa_boot proxy_rx_buf blk_fuel guest_code guest_fuel.
Definition vm_iteration : Vm -> exm (Vm * option nat * bool) := run_one_iteration pi mpidr phys_gicr guest_enter.
Definition vm_picks : nat -> Vm -> exm (list (option nat)) := picks pi mpidr phys_gicr guest_enter.

Lemma keeps_guest_enter c : keeps (guest_enter c).
Proof using. apply keeps_enter_guest. Qed.

(** The life of a VM: vCPUs are created and the loop iterates. *)
Inductive vm_step : Vm * hyp -> Vm * hyp -> Prop :=
| step_create v v' h id : create_vcpu mpidr id v = Ok v' -> vm_step (v, h) (v', h)
| step_iterate v v' h h' p fin : vm_iteration v h = (h', Ok (v', p, fin)) -> vm_step (v, h) (v', h').

Lemma vm_inv_new id : vm_inv (mkVm id VmUninitialized (replicate MAX_VCPUS None) 0 false sched_new 0 0).
Proof using.
  split; cbn [vm_sched vm_vcpus]; [apply sched_new_inv|apply length_replicate| |].
  - intros j c Hj. apply lookup_replicate in Hj as [? _]. done.
  - intros j (st & Hst & Hn). cbn [sc_states sched_new] in Hst. apply lookup_replicate in Hst as [-> _]. done.
Qed.

Lemma create_vcpu_inv id v v' : vm_inv v -> idle v -> create_vcpu mpidr id v = Ok v' ->
  vm_inv v' /\ idle v' /\ vm_id v' = vm_id v /\ has_vcpu v' id = true /\ (forall k, has_vcpu v k = true -> has_vcpu v' k = true).
Proof using.
  intros Hv Hi. unfold create_vcpu. destruct (Nat.leb_spec MAX_VCPUS id) as [|Hid]; [discriminate|].
  destruct (has_vcpu v id) eqn:Eh; [discriminate|]. intros [= <-].
  set (c := vcpu_new mpidr id 0 0). set (w := set_vcpus _ _ v).
  assert (Hhas : forall k, has_vcpu w k = (k =? id)%nat || has_vcpu v k).
  { intros k. apply (has_vcpu_insert v _ _ id c); [by rewrite (vi_len _ Hv)|done]. }
  assert (Hw : vm_inv (set_sched (add_vcpu (vm_sched v) id) w)).
  { apply vm_inv_sched; [exact (sched_step_inv _ (OpAdd id) (vi_sched _ Hv))| |by apply vm_inv_set].
    intros k Hk. rewrite Hhas. apply schedulable_add in Hk as [->|Hk]; [by rewrite Nat.eqb_refl| |exact (vi_sched _ Hv)|done].
    rewrite (vi_slot _ Hv k Hk). apply orb_true_r. }
  assert (Hcur : sc_current (add_vcpu (vm_sched v) id) = None) by (unfold add_vcpu; by destruct (id <? MAX_VCPUS)%nat).
  assert (Hk : has_vcpu w id = true /\ (forall k, has_vcpu v k = true -> has_vcpu w k = true)).
  { split; [rewrite Hhas; by rewrite Nat.eqb_refl|]. intros k Hk. rewrite Hhas, Hk. apply orb_true_r. }
  unfold mark_ready. destruct (decide _); (split; [by destruct Hw|]); (split; [exact Hcur|]); (split; [done|exact Hk]).
Qed.

Lemma vm_step_inv s s' : vm_step s s' -> vm_inv s.1 -> idle s.1 ->
  vm_inv s'.1 /\ idle s'.1 /\ vm_id s'.1 = vm_id s.1 /\ hyp_le s.2 s'.2.
Proof using.
  intros [v v' h id E|v v' h h' p fin E] Hv Hi; cbn [fst snd] in *.
  - destruct (create_vcpu_inv id v v' Hv Hi E) as (H1 & H2 & H3 & _). done.
  - destruct (iteration_step _ _ _ _ _ _ _ _ _ _ Hv Hi E) as (H1 & H2 & H3 & _). split_and!; try done.
    pose proof (keeps_iteration pi mpidr phys_gicr guest_enter keeps_guest_enter v h) as Hk. unfold vm_iteration in E. by rewrite E in Hk.
Qed.
Lemma vm_steps_inv s s' : rtc vm_step s s' -> vm_inv s.1 -> idle s.1 ->
  vm_inv s'.1 /\ idle s'.1 /\ vm_id s'.1 = vm_id s.1 /\ hyp_le s.2 s'.2.
Proof using.
  induction 1 as [|s1 s2 s3 Hst _ IH]; intros Hv Hi; [by split_and!|].
  destruct (vm_step_inv _ _ Hst Hv Hi) as (H1 & H2 & H3 & H4). destruct (IH H1 H2) as (K1 & K2 & K3 & K4).
  split_and!; [done|done|congruence|by etransitivity].
Qed.
End Loop.

(** C9. The loop never loses track of a VM: after any history of vCPU creations
    and iterations on a new VM, whatever its guests did, the scheduler is
    consistent and idle, every schedulable slot holds a ready vCPU that
    carries the slot's number and no vCPU that was online is offline; and the
    next iteration stops the machine exactly at one of two points of that very
    iteration: draining the VM's network queues failed in the state it had
    reached, or the chosen, ready vCPU was entered and did not come back.  No unwrap
    and no index of the loop itself panics. *)
Theorem vm_loop_invariant checks pi el3 tfa rx blk gfuel mpidr gicr code cntvct id h0 h1 v0 v h :
  vm_new pi cntvct id h0 = (h1, Ok v0) ->
  rtc (vm_step checks pi el3 tfa rx blk gfuel mpidr gicr code) (v0, h1) (v, h) ->
  machine_ok id h1 ->
  vm_inv v /\ idle v /\ machine_ok id h /\ Forall2 state_le (hy_states h1) (hy_states h) /\
  forall h' e, vm_iteration checks pi el3 tfa rx blk gfuel mpidr gicr code v h = (h', Err e) <->
    iteration_fault pi mpidr gicr (guest_enter checks pi el3 tfa rx blk gfuel code) v h h' e.
Proof.
  intros Hn Hr Hok.
  assert (Hv0 : vm_inv v0 /\ idle v0 /\ vm_id v0 = id).
  { unfold vm_new in Hn. apply sm_bind_inv in Hn as (h2 & a & _ & Hn). destruct (hy_devs a !! id); [|discriminate].
    destruct (vm_devices _ _ _); [|discriminate]. injection Hn as _ <-. split; [apply vm_inv_new|done]. }
  destruct Hv0 as (Hv0 & Hi0 & Hid0). destruct (vm_steps_inv _ _ _ _ _ _ _ _ _ _ _ _ Hr Hv0 Hi0) as (Hv & Hi & Hid & Hle).
  cbn [fst snd] in *. assert (Hok' : machine_ok id h) by by apply (machine_ok_le id h1).
  split_and!; [done..|exact (hl_states _ _ Hle)|]. intros h' e. split; [intros E|by apply fault_stops_iteration].
  refine (iteration_faults pi mpidr gicr _ (keeps_guest_enter _ _ _ _ _ _ _ _) v h h' e Hv Hi _ E). congruence.
Qed.

(** C10. No starvation: a vCPU that is ready when an iteration of the loop
    starts is entered within 16 iterations, whatever the guests do, whichever
    vCPUs are booted, blocked, woken or turned off meanwhile; unless an
    iteration stops the machine, at the network queues or in the guest it
    entered, in the state the iterations before it had reached. *)
Theorem ready_vcpu_runs checks pi el3 tfa rx blk gfuel mpidr gicr code v h j :
  vm_inv v -> idle v -> machine_ok (vm_id v) h -> sc_states (vm_sched v) !! j = Some RsReady ->
  (exists h' l, vm_picks checks pi el3 tfa rx blk gfuel mpidr gicr code 16 v h = (h', Ok l) /\ Some j ∈ l) \/
  (exists h' e, vm_picks checks pi el3 tfa rx blk gfuel mpidr gicr code 16 v h = (h', Err e) /\
     exists v1 h1, iterations pi mpidr gicr (guest_enter checks pi el3 tfa rx blk gfuel code) (v, h) (v1, h1) /\
       iteration_fault pi mpidr gicr (guest_enter checks pi el3 tfa rx blk gfuel code) v1 h1 h' e).
Proof.
  intros Hv Hi Hok Hj. assert (HW : waits j (vm_sched v)) by (split; [apply (vi_sched _ Hv)|done]).
  assert (Hb : (wait_bound v j < 16)%nat).
  { assert (j < MAX_VCPUS)%nat as Hjl by (rewrite <- (si_len _ (vi_sched _ Hv)); by eapply lookup_lt_Some).
    destruct (turn_dist_pos (vm_sched v) j (vi_sched _ Hv) Hjl) as [Hd _]. unfold wait_bound, live_count.
    pose proof (filter_length_le (live_slot v) (seq 0 MAX_VCPUS)) as Hl. rewrite length_seq in Hl. unfold MAX_VCPUS in *. lia. }
  destruct (vm_picks _ _ _ _ _ _ _ _ _ _ 16 v h) as [h' [l|e]] eqn:E; [left|right].
  - exists h', l. split; [done|]. exact (picks_reach _ _ _ _ j 16 v h h' l Hv Hi HW Hb E).
  - exists h', e. split; [done|]. exact (picks_fault _ _ _ _ (keeps_guest_enter _ _ _ _ _ _ _ _) 16 v h h' e Hv Hi Hok E).
Qed.

(** ** The loop does not end *)
Lemma iteration_not_done pi mpidr gicr enter v h h' v' p fin : vm_inv v -> idle v ->
  has_vcpu v 0 = true -> (exists s, hy_states h !! vm_id v = Some s /\ Z.testbit (vcpu_online_mask s) 0 = true) ->
  run_one_iteration pi mpidr gicr enter v h = (h', Ok (v', p, fin)) -> fin = false /\ has_vcpu v' 0 = true.
Proof.
  intros Hv Hi H0 (s0 & Hs0 & Hon) H. unfold run_one_iteration in H.
  apply sm_bind_inv in H as (h1 & v1 & Ht & H). apply sm_bind_inv in H as (h2 & s & Es & H).
  assert (Hl : (vm_id v < length (hy_states h))%nat) by by eapply lookup_lt_Some.
  pose proof (keeps_take_cpu_on pi mpidr gicr v h) as Hk. rewrite Ht in Hk. cbn [fst] in Hk.
  destruct (take_cpu_on_cases pi mpidr gicr v h Hv Hl) as (h1' & v1' & Ht' & Hv1 & Hc). rewrite Ht in Ht'. injection Ht' as <- <-.
  assert (Hid1 : vm_id v1 = vm_id v) by by destruct Hc as [->|(?&?&?&_&_&->)].
  assert (H01 : has_vcpu v1 0 = true).
  { destruct Hc as [->|(k & e & c & Hkl & Hn & ->)]; [done|].
    change (has_vcpu (set_vcpus (<[k := Some (secondary_vcpu mpidr k e c)]> (vm_vcpus v)) (vm_count v + 1) v) 0 = true).
    rewrite (has_vcpu_insert v _ _ k (secondary_vcpu mpidr k e c) 0); [|by rewrite (vi_len _ Hv)|done]. rewrite H0. apply orb_true_r. }
  assert (Hon1 : Z.testbit (vcpu_online_mask s) 0 = true).
  { unfold state_of in Es. rewrite Hid1 in Es. destruct (Forall2_lookup_l _ _ _ _ _ (hl_states _ _ Hk) Hs0) as (s1 & E1 & (_ & _ & _ & Hm)).
    rewrite E1 in Es. injection Es as _ <-. by apply Hm. }
  destruct (before_pick pi mpidr gicr v h h1 v1 s 0 Hv Hi Ht) as (Hv2 & Hi2 & _).
  set (v2 := set_sched (wake_pending_vcpus v1 s) v1) in *. destruct (pick_next (vm_sched v2)) as [sch [id|]] eqn:Ep.
  - apply sm_bind_inv in H as (h3 & [v3 res] & Hr & H). apply sm_bind_inv in H as (h4 & v4 & He & H). injection H as _ <- _ <-.
    split; [done|]. destruct (picked_facts v2 sch id Hv2 Hi2 Ep) as (Hidl & HIs & _ & _ & _ & Hsch).
    apply run_picked_shape in Hr as (c & _ & _ & ->).
    2:{ apply vm_inv_sched; [done| |done]. intros k Hk'. apply (vi_slot _ Hv2), Hsch, Hk'. }
    apply handle_exit_shape in He as (s' & -> & _). exact (left_has v2 sch id c s' Hv2 Hi2 Ep 0 H01).
  - destruct (unblock_online _ s) as [v5 f5] eqn:E5. injection H as _ <- _ <-.
    pose proof (f_equal fst E5) as E1. pose proof (f_equal snd E5) as E2. cbn [unblock_online fst snd] in E1, E2.
    rewrite <- E1, <- E2. split; [|exact H01]. apply negb_false_iff, existsb_exists. exists 0%nat. split; [apply in_seq; unfold MAX_VCPUS; lia|].
    unfold online_vcpu. rewrite land_bit_zero by lia. change (Z.of_nat 0) with 0. rewrite Hon1. exact H01.
Qed.

Lemma iterate_not_done checks pi el3 tfa rx blk gfuel mpidr gicr code fuel : forall v h,
  vm_inv v -> idle v -> has_vcpu v 0 = true ->
  (exists s, hy_states h !! vm_id v = Some s /\ Z.testbit (vcpu_online_mask s) 0 = true) ->
  (iterate pi mpidr gicr (guest_enter checks pi el3 tfa rx blk gfuel code) fuel v h).2 = Ok None \/
  exists e, (iterate pi mpidr gicr (guest_enter checks pi el3 tfa rx blk gfuel code) fuel v h).2 = Err e.
Proof.
  induction fuel as [|n IH]; intros v1 h1 Hv Hi H0 Hon; [by left|]. cbn [iterate]. unfold sm_bind.
  destruct (run_one_iteration _ _ _ _ v1 h1) as [h2 [[[v2 p] fin]|e]] eqn:E; [|right; by exists e].
  destruct (iteration_not_done _ _ _ _ _ _ _ _ _ _ Hv Hi H0 Hon E) as [-> H02].
  destruct (iteration_step _ _ _ _ _ _ _ _ _ _ Hv Hi E) as (Hv2 & Hi2 & Hid & _). apply IH; try done.
  pose proof (keeps_iteration pi mpidr gicr _ (keeps_guest_enter checks pi el3 tfa rx blk gfuel code) v1 h1) as Hk. rewrite E in Hk.
  destruct Hon as (s & Hs & Hb). destruct (Forall2_lookup_l _ _ _ _ _ (hl_states _ _ Hk) Hs) as (s2 & E2 & (_ & _ & _ & Hm)).
  exists s2. cbn [fst]. rewrite Hid. split; [done|by apply Hm].
Qed.

(** A VM run with [run_smp] is never finished: once vCPU 0 exists, the loop
    does not return, even after every vCPU has powered off (CPU_OFF,
    SYSTEM_OFF), because no path takes a vCPU out of the online mask: for
    every number of iterations it is still looping or has been stopped by a
    fault. *)
Theorem run_smp_never_returns checks pi el3 tfa rx blk gfuel mpidr gicr code v h fuel :
  vm_inv v -> idle v -> vm_st v = VmReady -> has_vcpu v 0 = true -> (0 < vm_count v)%nat -> (vm_id v < length (hy_states h))%nat ->
  forall h' r, run_smp pi mpidr gicr (guest_enter checks pi el3 tfa rx blk gfuel code) fuel v h = (h', r) ->
    r = Ok None \/ exists e, r = Err e.
Proof.
  intros Hv Hi Hst H0 Hn Hl h' r. unfold run_smp. rewrite bool_decide_true by done. cbn [negb].
  rewrite (proj2 (Nat.eqb_neq _ _)) by lia. unfold sm_bind at 1 2, sm_upd at 1, upd_state_of, sm_upd at 1.
  set (v1 := set_vm_st VmRunning v). set (h1 := set_states _ _).
  assert (Hon : exists s, hy_states h1 !! vm_id v1 = Some s /\ Z.testbit (vcpu_online_mask s) 0 = true).
  { unfold h1. cbn -[Z.testbit Z.lor]. rewrite list_lookup_alter_eq. destruct (lookup_lt_is_Some_2 _ _ Hl) as [s ->].
    eexists. split; [reflexivity|]. cbn -[Z.testbit Z.lor]. rewrite Z.lor_spec. apply orb_true_r. }
  assert (Hv1 : vm_inv v1) by (by destruct Hv). assert (Hi1 : idle v1) by done. change (has_vcpu v 0) with (has_vcpu v1 0) in H0.
  pose proof (iterate_not_done checks pi el3 tfa rx blk gfuel mpidr gicr code fuel v1 h1 Hv1 Hi1 H0 Hon) as Hit.
  unfold sm_bind. destruct (iterate _ _ _ _ fuel v1 h1) as [h2 [o|e]]; cbn [snd] in Hit.
  - destruct Hit as [[= ->]|[e [=]]]. intros [= _ <-]. by left.
  - intros [= _ <-]. right. by exists e.
Qed.

(** ** Booting a secondary vCPU *)

(** What CPU_ON promises for its target. *)
Record booted_as (id : nat) (entry ctx_id : Z) (c : Vcpu) : Prop := {
  ba_id : vcpu_id c = id;
  ba_ready : vcpu_state c = VReady;
  ba_pc : ctx_pc (vcpu_context c) = entry;
  ba_x0 : xreg (vcpu_context c) 0 = ctx_id;
  ba_spsr : spsr_el2 (vcpu_context c) = SPSR_EL1H_DAIF_MASKED;
  ba_sctlr : arch_state c SCTLR_EL1 = 0x30D00800;
  ba_fpen : arch_state c CPACR_EL1 = 0x300000;
  ba_aff : Z.land (arch_state c VMPIDR) 0xFF = Z.of_nat id;
  ba_lrs : saved_lrs (arch_state c) = [0; 0; 0; 0]
}.
Lemma secondary_vcpu_booted mpidr id entry ctx_id : (id < MAX_VCPUS)%nat ->
  booted_as id entry ctx_id (secondary_vcpu mpidr id entry ctx_id).
Proof.
  intros Hid. split; try reflexivity.
  change (Z.land (Z.lor (Z.land mpidr (not64 0xFF)) (Z.land (Z.of_nat id) 0xFF)) 0xFF = Z.of_nat id).
  rewrite Z.land_lor_distr_l, <- (Z.land_assoc mpidr), <- (Z.land_assoc (Z.of_nat id)).
  change (Z.land (not64 0xFF) 0xFF) with 0. change (Z.land 0xFF 0xFF) with (Z.ones 8).
  rewrite Z.land_0_r, Z.lor_0_l, Z.land_ones by lia. apply Z.mod_small. unfold MAX_VCPUS in Hid. lia.
Qed.

(** A pending request, taken. *)
Lemma take_cpu_on_request pi mpidr gicr v h s target entry ctx_id :
  hy_states h !! vm_id v = Some s -> pending_cpu_on s = mkCpuOn true target entry ctx_id ->
  let id := Z.to_nat (Z.land target 0xFF) in
  let boots := (id <? MAX_VCPUS)%nat && negb (has_vcpu v id) in
  exists h' s', take_cpu_on pi mpidr gicr v h = (h', Ok (if boots then booted mpidr id entry ctx_id v else v)) /\
    hy_vm h' = hy_vm h /\ hy_states h' !! vm_id v = Some s' /\ co_requested (pending_cpu_on s') = false /\
    (boots = true -> Z.testbit (vcpu_online_mask s') (Z.of_nat id) = true).
Proof.
  intros Hs Hp. cbv zeta. unfold take_cpu_on, sm_bind at 1, state_of. rewrite Hs, Hp.
  unfold cpu_on_take. cbn [co_requested co_target co_entry co_ctx]. unfold sm_bind at 1, upd_state_of at 1, sm_upd at 1.
  set (id := Z.to_nat _). set (req := mkCpuOn false _ _ _). set (h1 := set_states _ h).
  assert (H1 : hy_states h1 !! vm_id v = Some (set_cpu_on req s)).
  { unfold h1. cbn [hy_states set_states]. by rewrite list_lookup_alter_eq, Hs. }
  destruct ((id <? MAX_VCPUS)%nat && negb (has_vcpu v id)); [|by exists h1, (set_cpu_on req s)].
  unfold boot_secondary_vcpu. set (w := if _ : bool then _ else _).
  assert (exists h2, w h1 = (h2, Ok tt) /\ hy_states h2 = hy_states h1 /\ hy_vm h2 = hy_vm h) as (h2 & Ew & Es & Ev)
    by (unfold w; destruct (_ && _); by eexists).
  unfold sm_bind at 1. rewrite Ew. do 2 eexists. split; [reflexivity|]. split; [exact Ev|]. split.
  - cbn [sm_upd hy_states set_states set_wfi set_exc vm_id set_sched set_vcpus]. rewrite Es, list_lookup_alter_eq, H1. reflexivity.
  - split; [done|]. intros _. cbn [vcpu_online_mask set_online_mask set_cpu_on]. rewrite Z.lor_spec, bit_shift1, Z.eqb_refl by lia.
    apply orb_true_r.
Qed.

(** PSCI CPU_ON, end to end: the call returns SUCCESS and leaves the guest;
    the next iteration of the loop then boots the target (affinity 0 of x1)
    if it is one of the eight vCPUs and does not exist yet: it starts at the
    requested entry point with the context identifier in x0, in EL1h with
    interrupts masked, MMU off, its own affinity and empty list registers, it
    is ready for the scheduler and online, and no other vCPU is touched.
    Otherwise, in particular for a vCPU that has powered off, the request is
    dropped although SUCCESS was reported. *)
Theorem cpu_on_boots_target checks pi mpidr gicr v h c f :
  vm_inv v -> machine_ok (vm_id v) h -> f = PSCI_CPU_ON_32 \/ f = PSCI_CPU_ON_64 ->
  let id := Z.to_nat (Z.land (xreg c 1) 0xFF) in
  exists h1 h2 v', handle_psci checks c f h = (h1, Ok (set_xreg 0 PSCI_SUCCESS c, false)) /\
    take_cpu_on pi mpidr gicr v h1 = (h2, Ok v') /\ co_requested (pending_cpu_on (cur_state h2)) = false /\
    if (id <? MAX_VCPUS)%nat && negb (has_vcpu v id) then
      (exists u, vm_vcpus v' !! id = Some (Some u) /\ booted_as id (xreg c 2) (xreg c 3) u) /\
      sc_states (vm_sched v') !! id = Some RsReady /\
      Z.testbit (vcpu_online_mask (cur_state h2)) (Z.of_nat id) = true /\
      (forall k, k <> id -> vm_vcpus v' !! k = vm_vcpus v !! k /\ sc_states (vm_sched v') !! k = sc_states (vm_sched v) !! k)
    else v' = v.
Proof.
  intros Hv (Hvm & Hl & _) Hf. cbv zeta. set (id := Z.to_nat _).
  set (req := cpu_on_request (xreg c 1) (xreg c 2) (xreg c 3)).
  set (h1 := set_states (alter (fun s => set_cpu_on (req (pending_cpu_on s)) s) (vm_id v) (hy_states h)) h).
  assert (E1 : handle_psci checks c f h = (h1, Ok (set_xreg 0 PSCI_SUCCESS c, false))).
  { unfold h1. rewrite <- Hvm. destruct Hf as [->| ->]; reflexivity. }
  destruct (lookup_lt_is_Some_2 _ _ Hl) as [s Hs].
  assert (Hs1 : hy_states h1 !! vm_id v = Some (set_cpu_on (req (pending_cpu_on s)) s)).
  { unfold h1. cbn [hy_states set_states]. rewrite list_lookup_alter_eq, Hs. done. }
  destruct (take_cpu_on_request pi mpidr gicr v h1 _ (xreg c 1) (xreg c 2) (xreg c 3) Hs1 eq_refl)
    as (h2 & s2 & E2 & Hvm2 & Hs2 & Hreq & Hon). fold id in E2, Hon.
  assert (Hcur : cur_state h2 = s2) by (unfold cur_state; rewrite Hvm2, nth_lookup; change (hy_vm h1) with (hy_vm h); by rewrite Hvm, Hs2).
  exists h1, h2. eexists. rewrite Hcur. split_and!; [exact E1|exact E2|exact Hreq|].
  destruct (_ && _) eqn:Eb; [|done]. apply andb_true_iff in Eb as [Eid Eh]. apply Nat.ltb_lt in Eid as Hid.
  split_and!; [|..|by apply Hon|]; unfold booted; cbn [vm_vcpus vm_sched set_sched set_vcpus].
  - eexists. split; [apply list_lookup_insert_eq; by rewrite (vi_len _ Hv)|by apply secondary_vcpu_booted].
  - unfold add_vcpu. rewrite Eid. apply list_lookup_insert_eq. by rewrite (si_len _ (vi_sched _ Hv)).
  - intros k Hk. split; [by apply list_lookup_insert_ne|]. unfold add_vcpu. rewrite Eid. by apply list_lookup_insert_ne.
Qed.

(** ** Examples *)
(** A guest that asks for the exit hypercall. *)
Definition ex_exit (h : hyp) (c : VcpuContext) : guest_step :=
  mkGuest (hy_core h) (io_mem (hy_io h)) (set_xreg 0 1 c) [] (GSync (0x16 * 2 ^ 26) 0 0).
Definition ex_new_vm : Vm := mkVm 0 VmUninitialized (replicate MAX_VCPUS None) 0 false sched_new 0 0.
Definition ex_vm : Vm :=
  match create_vcpu 0x80000000 0 ex_new_vm with
  | Ok v => match create_vcpu 0x80000000 1 v with Ok v => v | Err _ => v end
  | Err _ => ex_new_vm
  end.
Lemma ex_vm_inv : vm_inv ex_vm /\ idle ex_vm.
Proof.
  destruct (create_vcpu 0x80000000 0 ex_new_vm) as [v1|e] eqn:E1; [|discriminate].
  destruct (create_vcpu_inv _ _ _ _ (vm_inv_new 0) eq_refl E1) as (H1 & I1 & _).
  destruct (create_vcpu 0x80000000 1 v1) as [v2|e] eqn:E2.
  - destruct (create_vcpu_inv _ _ _ _ H1 I1 E2) as (H2 & I2 & _).
    replace ex_vm with v2; [done|]. unfold ex_vm. by rewrite E1, E2.
  - injection E1 as <-. discriminate.
Qed.
Lemma ex_machine_ok : machine_ok 0 ex_hyp.
Proof.
  split_and!; [done|cbn; lia|cbn; lia|]. exists []. apply (ring_new_rel UART_RX_RING_SIZE 0). unfold UART_RX_RING_SIZE. lia.
Qed.

Lemma ready_vcpu_runs_witness : exists h' l,
  vm_picks true PLATFORM_DEFAULT no_el3 false 0 1 2 0x80000000 (fun _ => 0) ex_exit 16 ex_vm ex_hyp = (h', Ok l) /\ Some 1%nat ∈ l.
Proof.
  destruct (ready_vcpu_runs true PLATFORM_DEFAULT no_el3 false 0 1 2 0x80000000 (fun _ => 0) ex_exit ex_vm ex_hyp 1
    (proj1 ex_vm_inv) (proj2 ex_vm_inv) ex_machine_ok eq_refl) as [H|(h' & e & E & _)]; [exact H|].
  exfalso. apply (f_equal (fun x => is_ok (snd x))) in E. vm_compute in E. discriminate.
Defined.

Lemma run_smp_never_returns_witness : forall fuel h' r,
  run_smp PLATFORM_DEFAULT 0x80000000 (fun _ => 0) (guest_enter true PLATFORM_DEFAULT no_el3 false 0 1 2 ex_exit) fuel ex_vm ex_hyp = (h', r) ->
  r = Ok None \/ exists e, r = Err e.
Proof.
  intros fuel.
  apply (run_smp_never_returns true PLATFORM_DEFAULT no_el3 false 0 1 2 0x80000000 (fun _ => 0) ex_exit ex_vm ex_hyp fuel
    (proj1 ex_vm_inv) (proj2 ex_vm_inv)); [reflexivity|reflexivity|apply Nat.ltb_lt; reflexivity|apply Nat.ltb_lt; reflexivity].
Defined.

Lemma cpu_on_boots_target_witness : exists h1 h2 v',
  handle_psci true (set_xreg 1 3 (set_xreg 2 0x48200000 (ex_ctx 0))) PSCI_CPU_ON_64 ex_hyp =
    (h1, Ok (set_xreg 0 PSCI_SUCCESS (set_xreg 1 3 (set_xreg 2 0x48200000 (ex_ctx 0))), false)) /\
  take_cpu_on PLATFORM_DEFAULT 0x80000000 (fun _ => 0) ex_vm h1 = (h2, Ok v') /\
  exists u, vm_vcpus v' !! 3%nat = Some (Some u) /\ booted_as 3 0x48200000 0 u.
Proof.
  destruct (cpu_on_boots_target true PLATFORM_DEFAULT 0x80000000 (fun _ => 0) ex_vm ex_hyp
    (set_xreg 1 3 (set_xreg 2 0x48200000 (ex_ctx 0))) PSCI_CPU_ON_64 (proj1 ex_vm_inv) ex_machine_ok (or_intror eq_refl))
    as (h1 & h2 & v' & E1 & E2 & _ & [Hu _]). exists h1, h2, v'. split; [exact E1|]. split; [exact E2|exact Hu].
Defined.

Lemma vm_loop_invariant_witness : exists h1 v0 v, vm_new PLATFORM_DEFAULT 0 0 ex_hyp = (h1, Ok v0) /\
  create_vcpu 0x80000000 0 v0 = Ok v /\ vm_inv v /\ idle v.
Proof.
  destruct (vm_new PLATFORM_DEFAULT 0 0 ex_hyp) as [h1 [v0|e]] eqn:E.
  2:{ apply (f_equal (fun x => is_ok (snd x))) in E. vm_compute in E. discriminate. }
  destruct (create_vcpu 0x80000000 0 v0) as [v|e] eqn:Ec.
  - exists h1, v0, v. split; [reflexivity|]. split; [exact Ec|].
    pose proof (vm_loop_invariant true PLATFORM_DEFAULT no_el3 false 0 1 2 0x80000000 (fun _ => 0) ex_exit 0 0 ex_hyp h1 v0 v h1 E
      (rtc_once _ _ (step_create _ _ _ _ _ _ _ _ _ _ _ _ _ _ Ec))) as H.
    destruct H as (H1 & H2 & _); [|split; [exact H1|exact H2]].
    apply (machine_ok_le 0 ex_hyp); [|apply ex_machine_ok].
    pose proof (f_equal fst E) as Eh. cbn [fst] in Eh. rewrite <- Eh. apply hyp_le_frame; reflexivity.
  - exfalso. apply (f_equal (fun x => match snd x with Ok v => is_ok (create_vcpu 0x80000000 0 v) | Err _ => true end)) in E.
    cbn [snd] in E. rewrite Ec in E. vm_compute in E. discriminate.
Defined.
