(* ===== verification/VmMem.v ===== *)
(** * VmMem: the memory of a virtual machine

    [Vm::init_memory] of [vm.rs] with the heap-backed mapper (the Linux build):
    guest memory without the hypervisor's heap, the GIC as device memory, and
    the distributor and redistributor pages taken out again so that they trap;
    the Stage-2 configuration that is installed.  The memory map of a VM is
    proved exactly; what that says about the configurations of
    [guest_loader.rs] is in GuestLoader. *)

From Stdlib Require Import ZArith Lia Bool List.
From stdpp Require Import base decidable option list strings.
From S2P Require Import Prelude Memory Allocator Stage2 Stage2Spec Stage2Bits Stage2Ops Stage2Walk Stage2Boot Stage2Thms Platform.
Import Walker Mapper.

(** [for page in pages { unmap_4kb_page(page).expect(..) }] *)
Fixpoint unmap_all (pages : list Z) : dmm unit :=
  match pages with [] => sm_ret tt | a :: pages => unmap_4kb_page a ;;; unmap_all pages end.

Definition gicd_pages (pi : PlatformInfo) : list Z :=
  map (fun page => u64 (gicd_base pi + Z.of_nat page * PAGE_SIZE_4KB)) (seq 0 16).
Definition gicr_pages (pi : PlatformInfo) : list Z :=
  flat_map (fun cpu => map (fun page => u64 (gicr_rd_base pi cpu + Z.of_nat page * PAGE_SIZE_4KB)) (seq 0 32))
    (seq 0 (pi_num_cpus pi)).

(** Guest memory in one or two regions, around the heap. *)
Definition map_guest (start_aligned size_aligned : Z) : dmm unit :=
  let heap_end := HEAP_START + HEAP_SIZE in
  let end_aligned := start_aligned + size_aligned in
  let overlap_start := if start_aligned <? HEAP_START then HEAP_START else start_aligned in
  let overlap_end := if heap_end <? end_aligned then heap_end else end_aligned in
  if overlap_start <? overlap_end then
    (if start_aligned <? overlap_start
     then map_region start_aligned (overlap_start - start_aligned) Normal else sm_ret tt) ;;;
    (if overlap_end <? end_aligned
     then map_region overlap_end (end_aligned - overlap_end) Normal else sm_ret tt)
  else map_region start_aligned size_aligned Normal.

(** The calls [init_memory_dynamic] makes on its new mapper. *)
Definition populate (pi : PlatformInfo) (start_aligned size_aligned : Z) : dmm unit :=
  map_guest start_aligned size_aligned ;;;
  map_region GIC_REGION_BASE GIC_REGION_SIZE Device ;;;
  unmap_all (gicd_pages pi) ;;;
  unmap_all (gicr_pages pi).

(** [init_memory_dynamic]: the mapper, and VTTBR_EL2 and VTCR_EL2 of the VM. *)
Definition init_memory_dynamic (pi : PlatformInfo) (vm_id start_aligned size_aligned : Z)
    : s2m (DynamicIdentityMapper * (Z * Z)) := fun s =>
  match mapper_new s with
  | (s, Err e) => (s, Err e)
  | (s, Ok dm) =>
      match populate pi start_aligned size_aligned (s, dm) with
      | ((s, dm), Ok _) => (s, Ok (dm, new_with_vmid (dm_l0_table dm) (u16 vm_id)))
      | ((s, _), Err e) => (s, Err e)
      end
  end.

(** The 2MB rounding of [init_memory]. *)
Definition align_start (guest_mem_start : Z) : Z := Z.land guest_mem_start (not64 BLOCK_MASK_2MB).
Definition align_size (guest_mem_size : Z) : Z :=
  u64 ((guest_mem_size + BLOCK_SIZE_2MB - 1) / BLOCK_SIZE_2MB * BLOCK_SIZE_2MB).

(** ** The map a VM gets *)
Definition ipa_in (lo hi ipa : Z) : bool := (lo <=? ipa mod 2 ^ 48) && (ipa mod 2 ^ 48 <? hi).
Definition on_page_of (pages : list Z) (ipa : Z) : bool := existsb (fun p => bool_decide (same_page ipa p)) pages.
Definition id_desc_of (attr : MemoryAttribute) (ipa : Z) : pdesc := mkPd (ipa mod 2 ^ 48 - ipa mod 4096) (attr_bits attr).

(** Emulated pages trap; the rest of the GIC is passed through; guest memory
    is mapped except the hypervisor's heap; nothing else is mapped. *)
Definition vm_map (pi : PlatformInfo) (start size ipa : Z) : option pdesc :=
  if on_page_of (gicd_pages pi ++ gicr_pages pi) ipa then None
  else if ipa_in GIC_REGION_BASE (GIC_REGION_BASE + GIC_REGION_SIZE) ipa then Some (id_desc_of Device ipa)
  else if ipa_in start (start + size) ipa && negb (ipa_in HEAP_START (HEAP_START + HEAP_SIZE) ipa)
  then Some (id_desc_of Normal ipa)
  else None.

(** ** The steps *)
Definition map_fails (s : machine) (dm : DynamicIdentityMapper) (e : string) : Prop :=
  e <> "out of fuel"%string /\ ((4 <= dm_l2_count dm)%nat \/ heap_full s).

(** A region of whole blocks. *)
Lemma map_blocks_spec start s dm own others ipa size attr s' dm' r :
  dm_inv start s dm own others -> ipa mod 2 ^ 21 = 0 -> size mod 2 ^ 21 = 0 -> 0 <= ipa -> 0 <= size -> ipa + size <= 2 ^ 39 ->
  map_region ipa size attr (s, dm) = ((s', dm'), r) ->
  match r with
  | Ok _ => dm_effect start s dm s' dm' own others (fun x =>
      if ipa_in ipa (ipa + size) x then Some (id_desc_of attr x) else s2_lookup (hm_mem s) (dm_l0_table dm) x)
  | Err e => map_fails s' dm' e
  end.
Proof.
  intros Hd Ha Hb H0 Hs Hm H. apply (map_region_spec _ _ _ _ _ _ _ _ _ _ _ Hd Ha H0 Hs Hm) in H.
  destruct r; [|destruct H as (H1 & H2 & _); by split].
  replace (round_2mb size) with size in H; [exact H|]. unfold round_2mb. Z.div_mod_to_equations. lia.
Qed.

Lemma unmap_all_spec start others pages : forall s dm own s' dm' r,
  dm_inv start s dm own others -> Forall (fun p => 0 <= p < 2 ^ 39) pages -> NoDup (map (prefix 4) pages) ->
  Forall (fun p => s2_lookup (hm_mem s) (dm_l0_table dm) p <> None) pages ->
  unmap_all pages (s, dm) = ((s', dm'), r) ->
  match r with
  | Ok _ => dm_effect start s dm s' dm' own others (fun x =>
      if on_page_of pages x then None else s2_lookup (hm_mem s) (dm_l0_table dm) x)
  | Err _ => heap_full s'
  end.
Proof.
  induction pages as [|p pages IH]; intros s dm own s' dm' r Hd Hr Hn Hm H; cbn [unmap_all map] in *.
  - injection H as <- <- <-. by apply dm_effect_refl.
  - apply Forall_cons in Hr as [Hp Hr], Hm as [Hlp Hm]. apply NoDup_cons in Hn as [Hnp Hn].
    unfold sm_bind in H. destruct (unmap_4kb_page p (s, dm)) as [[s1 dm1] r1] eqn:E1.
    apply (unmap_4kb_page_spec _ _ _ _ _ _ _ _ _ Hd Hp) in E1. destruct r1 as [u|e]; cycle 1.
    { injection H as <- <- <-. destruct E1 as (-> & -> & [?|?]); done. }
    destruct (dm_effect_split _ _ _ _ _ _ _ _ E1) as (own1 & Hd1 & Hl1 & Hcomp).
    assert (Hne : forall x, x ∈ pages -> ~ same_page x p).
    { intros x Hx E. apply Hnp. unfold same_page in E. rewrite <- E. by apply list_elem_of_fmap_2. }
    assert (Hm1 : Forall (fun p => s2_lookup (hm_mem s1) (dm_l0_table dm1) p <> None) pages).
    { apply list.Forall_forall. intros x Hx. rewrite Hl1. unfold on_page. rewrite decide_False by by apply Hne.
      exact (proj1 (list.Forall_forall _ _) Hm x Hx). }
    specialize (IH s1 dm1 own1 s' dm' r Hd1 Hr Hn Hm1 H). destruct r as [u'|e]; [|done].
    apply Hcomp. eapply dm_effect_ext; [|exact IH]. intros x. unfold on_page_of. cbn [existsb].
    rewrite Hl1. unfold on_page. case_bool_decide as E; cbn [orb].
    + rewrite decide_True by done. by destruct (existsb _ _).
    + by rewrite decide_False by done.
Qed.

(** A possibly empty span. *)
Lemma map_span_spec start s dm own others lo hi attr s' dm' r :
  dm_inv start s dm own others -> lo mod 2 ^ 21 = 0 -> hi mod 2 ^ 21 = 0 -> 0 <= lo -> hi <= 2 ^ 39 ->
  (if lo <? hi then map_region lo (hi - lo) attr else sm_ret tt) (s, dm) = ((s', dm'), r) ->
  match r with
  | Ok _ => dm_effect start s dm s' dm' own others (fun x =>
      if ipa_in lo hi x then Some (id_desc_of attr x) else s2_lookup (hm_mem s) (dm_l0_table dm) x)
  | Err e => map_fails s' dm' e
  end.
Proof.
  intros Hd Ha Hb H0 Hm. destruct (Z.ltb_spec lo hi) as [Hlt|Hge]; intros H.
  - apply (map_blocks_spec _ _ _ _ _ _ _ _ _ _ _ Hd Ha) in H; [|Z.div_mod_to_equations; lia|lia..].
    replace (lo + (hi - lo)) with hi in H by lia. exact H.
  - injection H as <- <- <-. eapply dm_effect_ext; [|by apply dm_effect_refl]. intros x. unfold ipa_in. zdec; done || lia.
Qed.

Lemma max_min_aligned a b : a mod 2 ^ 21 = 0 -> b mod 2 ^ 21 = 0 -> Z.max a b mod 2 ^ 21 = 0 /\ Z.min a b mod 2 ^ 21 = 0.
Proof. intros Ha Hb. split; [destruct (Z.max_spec a b) as [[_ ->]|[_ ->]]|destruct (Z.min_spec a b) as [[_ ->]|[_ ->]]]; done. Qed.

Lemma map_guest_spec start s dm own others base size s' dm' r :
  dm_inv start s dm own others -> (forall x, s2_lookup (hm_mem s) (dm_l0_table dm) x = None) ->
  base mod 2 ^ 21 = 0 -> size mod 2 ^ 21 = 0 -> 0 <= base -> 0 <= size -> base + size <= 2 ^ 39 ->
  map_guest base size (s, dm) = ((s', dm'), r) ->
  match r with
  | Ok _ => dm_effect start s dm s' dm' own others (fun x =>
      if ipa_in base (base + size) x && negb (ipa_in HEAP_START (HEAP_START + HEAP_SIZE) x) then Some (id_desc_of Normal x) else None)
  | Err e => map_fails s' dm' e
  end.
Proof.
  intros Hd Hl Ha Hb H0 Hs Hm. unfold map_guest. cbv zeta.
  set (os := if base <? HEAP_START then HEAP_START else base).
  set (oe := if HEAP_START + HEAP_SIZE <? base + size then HEAP_START + HEAP_SIZE else base + size).
  assert (Hos : os = Z.max base HEAP_START) by (unfold os; destruct (Z.ltb_spec base HEAP_START); lia).
  assert (Hoe : oe = Z.min (base + size) (HEAP_START + HEAP_SIZE))
    by (unfold oe; destruct (Z.ltb_spec (HEAP_START + HEAP_SIZE) (base + size)); lia).
  clearbody os oe. destruct (Z.ltb_spec os oe) as [Hov|Hov].
  2:{ intros H. apply (map_blocks_spec _ _ _ _ _ _ _ _ _ _ _ Hd Ha Hb H0 Hs Hm) in H. destruct r; [|done].
      eapply dm_effect_ext; [|exact H]. intros x. cbv beta. rewrite Hl. unfold ipa_in. 
      set (y := x mod 2 ^ 48). clearbody y. subst os oe. zdec; try done; try lia. }
  assert (Hosa : os mod 2 ^ 21 = 0) by (rewrite Hos; by apply max_min_aligned).
  assert (Hea : (base + size) mod 2 ^ 21 = 0) by (clear - Ha Hb; Z.div_mod_to_equations; lia).
  assert (Hoea : oe mod 2 ^ 21 = 0) by (rewrite Hoe; by apply max_min_aligned).
  unfold sm_bind. match goal with |- match ?c with _ => _ end = _ -> _ => destruct c as [[s1 dm1] r1] eqn:E1 end.
  apply (map_span_spec _ _ _ _ _ _ _ _ _ _ _ Hd Ha Hosa) in E1; [|lia|lia]. destruct r1 as [u|e]; [|intros [= <- <- <-]; done].
  intros E2. destruct (dm_effect_split _ _ _ _ _ _ _ _ E1) as (own1 & Hd1 & Hl1 & Hcomp).
  apply (map_span_spec _ _ _ _ _ _ _ _ _ _ _ Hd1 Hoea Hea) in E2; [|lia|lia]. destruct r; [|done].
  apply Hcomp. eapply dm_effect_ext; [|exact E2]. intros x. cbv beta. rewrite Hl1, Hl. unfold ipa_in.
  set (y := x mod 2 ^ 48). clearbody y. subst os oe. unfold HEAP_START, HEAP_SIZE in *. zdec; done || lia.
Qed.

(** What the platform must look like: the emulated pages are distinct pages of
    the GIC region. *)
Record platform_ok (pi : PlatformInfo) : Prop := {
  po_in : Forall (fun p => GIC_REGION_BASE <= p < GIC_REGION_BASE + GIC_REGION_SIZE) (gicd_pages pi ++ gicr_pages pi);
  po_distinct : NoDup (map (prefix 4) (gicd_pages pi ++ gicr_pages pi))
}.

Lemma unmap_all_app l1 : forall l2 s, unmap_all (l1 ++ l2) s = (unmap_all l1 ;;; unmap_all l2) s.
Proof.
  induction l1 as [|p l1 IH]; intros l2 s; [done|]. cbn [app unmap_all]. unfold sm_bind at 1 2 3.
  destruct (unmap_4kb_page p s) as [s1 [u|e]]; [apply IH|done].
Qed.

Lemma populate_spec pi start s dm own others base size s' dm' r :
  platform_ok pi -> dm_inv start s dm own others -> (forall x, s2_lookup (hm_mem s) (dm_l0_table dm) x = None) ->
  base mod 2 ^ 21 = 0 -> size mod 2 ^ 21 = 0 -> 0 <= base -> 0 <= size -> base + size <= 2 ^ 39 ->
  populate pi base size (s, dm) = ((s', dm'), r) ->
  match r with
  | Ok _ => dm_effect start s dm s' dm' own others (vm_map pi base size)
  | Err e => map_fails s' dm' e \/ heap_full s'
  end.
Proof.
  intros [Pin Pd] Hd Hl Ha Hb H0 Hs Hm H. unfold populate, sm_bind at 1 in H.
  destruct (map_guest base size (s, dm)) as [[s1 dm1] r1] eqn:E1.
  apply (map_guest_spec _ _ _ _ _ _ _ _ _ _ Hd Hl Ha Hb H0 Hs Hm) in E1.
  destruct r1 as [u|e]; [|injection H as <- <- <-; by left].
  destruct (dm_effect_split _ _ _ _ _ _ _ _ E1) as (own1 & Hd1 & Hl1 & Hc1).
  unfold sm_bind at 1 in H. destruct (map_region _ _ Device (s1, dm1)) as [[s2 dm2] r2] eqn:E2.
  apply (map_blocks_spec _ _ _ _ _ _ _ _ _ _ _ Hd1) in E2; [|done..].
  destruct r2 as [u2|e]; [|injection H as <- <- <-; by left].
  destruct (dm_effect_split _ _ _ _ _ _ _ _ E2) as (own2 & Hd2 & Hl2 & Hc2). rewrite <- unmap_all_app in H.
  assert (Hr : Forall (fun p => 0 <= p < 2 ^ 39) (gicd_pages pi ++ gicr_pages pi)).
  { eapply list.Forall_impl; [exact Pin|]. unfold GIC_REGION_BASE, GIC_REGION_SIZE. intros p Hp. lia. }
  assert (Hmap : Forall (fun p => s2_lookup (hm_mem s2) (dm_l0_table dm2) p <> None) (gicd_pages pi ++ gicr_pages pi)).
  { eapply list.Forall_impl; [exact Pin|]. unfold GIC_REGION_BASE, GIC_REGION_SIZE. intros p Hp. cbv beta. rewrite Hl2. unfold ipa_in.
    rewrite Z.mod_small by (unfold GIC_REGION_BASE, GIC_REGION_SIZE in *; lia). unfold GIC_REGION_BASE, GIC_REGION_SIZE. zdec; done || lia. }
  apply (unmap_all_spec _ _ _ _ _ _ _ _ _ Hd2 Hr Pd Hmap) in H. destruct r; [|by right].
  apply Hc1, Hc2. eapply dm_effect_ext; [|exact H]. intros x. unfold vm_map. cbv beta.
  destruct (on_page_of _ x); [done|]. rewrite Hl2. destruct (ipa_in _ _ x); [done|]. by rewrite Hl1.
Qed.

(** C6. The memory of a VM, exactly: after [init_memory_dynamic] on a new mapper,
    for every guest region of whole 2MB blocks below 512GB, an address
    translates to itself as normal memory if it is in the region and not in
    the hypervisor's heap, to itself as device memory if it is in the GIC
    region outside the emulated pages, and nothing else is mapped: no guest
    address leads into the heap that holds the page tables, and every access
    to the distributor, the redistributors, the UART and the virtio devices
    traps.  The set-up fails only when the heap is exhausted or a fifth L2
    table is needed. *)
Theorem vm_memory_exact pi start s others s1 dm base size s2 dm2 r :
  platform_ok pi -> heap_ok start s [] others -> mapper_new s = (s1, Ok dm) ->
  base mod 2 ^ 21 = 0 -> size mod 2 ^ 21 = 0 -> 0 <= base -> 0 <= size -> base + size <= 2 ^ 39 ->
  populate pi base size (s1, dm) = ((s2, dm2), r) ->
  match r with
  | Ok _ => (forall ipa, s2_lookup (hm_mem s2) (dm_l0_table dm2) ipa = vm_map pi base size ipa) /\
            (forall ipa, ipa_in HEAP_START (HEAP_START + HEAP_SIZE) ipa = true ->
               s2_lookup (hm_mem s2) (dm_l0_table dm2) ipa = None) /\
            (forall ipa, on_page_of (gicd_pages pi ++ gicr_pages pi) ipa = true ->
               s2_lookup (hm_mem s2) (dm_l0_table dm2) ipa = None)
  | Err _ => (4 <= dm_l2_count dm2)%nat \/ heap_full s2
  end.
Proof.
  intros Hp Hh Hn Ha Hb H0 Hs Hm H. destruct (mapper_new_spec _ _ _ _ _ Hh Hn) as (Hd & Hl & _).
  apply (populate_spec pi _ _ _ _ _ _ _ _ _ _ Hp Hd Hl Ha Hb H0 Hs Hm) in H. destruct r as [u|e].
  - destruct H as (own' & _ & _ & _ & Hlook & _). split_and!; [done| |]; intros ipa Hipa; rewrite Hlook; unfold vm_map.
    + destruct (on_page_of _ ipa); [done|]. rewrite Hipa, andb_false_r.
      revert Hipa. unfold ipa_in, GIC_REGION_BASE, GIC_REGION_SIZE, HEAP_START, HEAP_SIZE. zdec; done || lia.
    + by rewrite Hipa.
  - destruct H as [[_ H]|H]; tauto.
Qed.

Definition ex_pi : PlatformInfo := mkPlatform 0x09000000 0x08000000 0x080A0000 0 1 0x40000000 0x40000000.
Lemma ex_pi_ok : platform_ok ex_pi.
Proof.
  split; apply (bool_decide_unpack _); vm_compute; exact I.
Qed.
Definition ex_mem : machine := mkMachine (fun _ => 0) (heap_init_at HEAP_START 0x100000) [].
Lemma ex_mem_heap : heap_ok HEAP_START ex_mem [] [].
Proof.
  exists (BumpAllocator_new HEAP_START 0x100000), []. split_and!; [done|by vm_compute|by apply alloc_inv_init].
Qed.
Definition ex_dm0 : machine * DynamicIdentityMapper :=
  match mapper_new ex_mem with (s, Ok dm) => (s, dm) | (s, Err _) => (s, mkMapper 0 0 [] 0) end.
Lemma split_run {A B C} (p : A * B * C) c : p.2 = c -> p = ((p.1.1, p.1.2), c).
Proof. destruct p as [[a b] c']. cbn. congruence. Qed.
Lemma vm_memory_exact_witness :
  let m := hm_mem (populate ex_pi 0x40e00000 0x1400000 (ex_dm0.1, ex_dm0.2)).1.1 in
  let l0 := dm_l0_table (populate ex_pi 0x40e00000 0x1400000 (ex_dm0.1, ex_dm0.2)).1.2 in
  s2_lookup m l0 0x40f01234 = Some (id_desc_of Normal 0x40f01234) /\ s2_lookup m l0 0x41801000 = None.
Proof.
  assert (En : mapper_new ex_mem = (ex_dm0.1, Ok ex_dm0.2)).
  { unfold ex_dm0. destruct (mapper_new ex_mem) as [s [dm|e]] eqn:E; [reflexivity|].
    apply (f_equal (fun x => is_ok (snd x))) in E. vm_compute in E. discriminate. }
  assert (Er : (populate ex_pi 0x40e00000 0x1400000 (ex_dm0.1, ex_dm0.2)).2 = Ok tt) by (vm_compute; reflexivity).
  destruct (vm_memory_exact ex_pi HEAP_START ex_mem [] ex_dm0.1 ex_dm0.2 0x40e00000 0x1400000 _ _ (Ok tt)
    ex_pi_ok ex_mem_heap En eq_refl eq_refl ltac:(lia) ltac:(lia) ltac:(lia) (split_run _ _ Er)) as (H1 & H2 & _).
  cbv zeta. split; [rewrite H1; reflexivity|apply H2; reflexivity].
Defined.
