(* ===== verification/GuestLoader.v ===== *)
(** * GuestLoader: guest configurations and boot

    [guest_loader.rs] (single-core builds): the configurations of the guests,
    their entry points read from the image in memory, and [run_guest], which
    creates the VM, maps its memory, prepares vCPU 0, attaches the devices and
    runs it; the set-up of the two VMs of [run_multi_vm_guests].  The EL2
    registers it programs are in CoreInit, the self-test that precedes the
    two-VM loop and the call from [rust_main] in Boot, the multi-core variant
    in CoreLoop.  Console messages are left out. *)

From Stdlib Require Import ZArith Lia Bool List.
From stdpp Require Import base decidable option list strings.
From S2P Require Import Prelude Memory Allocator Stage2 Stage2Spec Stage2Boot Stage2Thms Sched Regs VSwitch Virtio VirtioNet CoreInit Vcpu Platform Devices FfaProxy Exception VmRun VmMem.
Import Walker Mapper.

(** ** Configurations *)
Inductive GuestType := Zephyr | Linux.
#[export] Instance GuestType_eq_dec : EqDecision GuestType.
Proof. solve_decision. Defined.
Record GuestConfig := mkConfig {
  guest_type : GuestType; load_addr : Z; mem_size : Z; entry_point : Z; dtb_addr : Z }.

Definition GUEST_RAM_BASE : Z := 0x40000000.
Definition LINUX_DTB_ADDR : Z := 0x47000000.
Definition ZEPHYR_MEM_SIZE : Z := 128 * 1024 * 1024.
Definition GUEST_STACK_RESERVE : Z := 0x1000.
Definition VM1_GUEST_LOAD_ADDR : Z := 0x68000000.
Definition VM1_LINUX_DTB_ADDR : Z := 0x67000000.
Definition VM1_LINUX_MEM_SIZE : Z := 256 * 1024 * 1024.
Definition VM1_VIRTIO_DISK_ADDR : Z := 0x78000000.

(** [x as i32] *)
Definition i32 (x : Z) : Z := if x <? 2 ^ 31 then x else x - 2 ^ 32.
(** Target of a [B] instruction at [pc]. *)
Definition branch_target (pc insn : Z) : Z :=
  let imm26 := Z.land insn 0x03FFFFFF in
  let offset := if negb (Z.land imm26 0x02000000 =? 0) then i32 (Z.lor imm26 0xFC000000) * 4 else imm26 * 4 in
  u64 (pc + offset).

Definition zephyr_default (m : mem) : GuestConfig :=
  let addr := GUEST_LOAD_ADDR in
  let entry :=
    if bool_decide (read_list m addr 4 = [0x7F; 0x45; 0x4C; 0x46]) then read64 m (addr + 0x18) else
    let first_instr := read32 m addr in
    if Z.shiftr first_instr 26 =? 5 then branch_target addr first_instr else addr in
  mkConfig Zephyr addr ZEPHYR_MEM_SIZE entry 0.

(** The entry point of an ARM64 Image. *)
Definition image_entry (m : mem) (kernel_addr : Z) : Z :=
  if read32 m (kernel_addr + 0x38) =? 0x644d5241 then
    let text_offset := read64 m (kernel_addr + 0x08) in
    if negb (text_offset =? 0) && (text_offset <? 0x100000) then kernel_addr + text_offset else kernel_addr
  else kernel_addr.

Definition linux_default (m : mem) : GuestConfig :=
  let mem_start := GUEST_RAM_BASE in
  let kernel_addr := GUEST_LOAD_ADDR in
  mkConfig Linux mem_start (kernel_addr - mem_start + LINUX_MEM_SIZE) (image_entry m kernel_addr) LINUX_DTB_ADDR.

Definition linux_vm1 (m : mem) : GuestConfig :=
  let mem_start := VM1_GUEST_LOAD_ADDR - 0x08000000 in
  let kernel_addr := VM1_GUEST_LOAD_ADDR in
  mkConfig Linux mem_start (kernel_addr - mem_start + VM1_LINUX_MEM_SIZE) (image_entry m kernel_addr) VM1_LINUX_DTB_ADDR.

(** ** [init_memory] on the machine *)
Definition set_vm_memory (vttbr vtcr : Z) (v : Vm) : Vm :=
  mkVm (vm_id v) (vm_st v) (vm_vcpus v) (vm_count v) true (vm_sched v) vttbr vtcr.

Section Boot.
Context (pi : PlatformInfo) (mpidr : Z) (phys_read : Z -> Z).

(** The tables are built in the machine's memory from its heap; VTTBR_EL2 and
    the VM's entry of PER_VM_VTTBR are set. *)
Definition init_memory (guest_mem_start guest_mem_size : Z) (v : Vm) : exm Vm := fun h =>
  if vm_memory_initialized v then (h, Ok v) else
  let f := hy_ffa h in
  let id := Z.of_nat (vm_id v) in
  match init_memory_dynamic pi id (align_start guest_mem_start) (align_size guest_mem_size)
          (set_mem (fs_mach f) (io_mem (hy_io h))) with
  | (s, Err e) => (set_devs (hy_devs h) (set_io_mem (hm_mem s) (hy_io h)) h, Err e)
  | (s, Ok (_, (vttbr, vtcr))) =>
      let f := mkFfa (fs_regs f) (fs_vm f) s (fs_mbox f) (fs_store f) (fs_notif f) (fs_spmc_present f) (fs_proxy_rxtx f)
                 vttbr (<[vm_id v := Z.land vttbr PTE_ADDR_MASK]> (fs_per_vm_vttbr f)) in
      let h := set_devs (hy_devs h) (set_io_mem (hm_mem s) (hy_io h)) (set_ffa f h) in
      let h := set_core (set_hcr_el2 (Z.lor (pc_hcr_el2 (hy_core h)) HCR_VM) (hy_core h)) h in
      (h, Ok (set_vm_memory vttbr vtcr v))
  end.

(** ** vCPU 0 *)
Definition upd_vcpu (id : nat) (f : Vcpu -> Vcpu) (v : Vm) : Vm :=
  set_vcpus (alter (fmap f) id (vm_vcpus v)) (vm_count v) v.
Definition set_entry (pc sp spsr : Z) (c : VcpuContext) : VcpuContext := mkCtx (gp_regs c) (sys_regs c) sp pc spsr.
Definition el1_boot_state (c : Vcpu) : Vcpu :=
  set_arch_state (rset CPACR_EL1 (Z.shiftl 3 20) (rset SCTLR_EL1 0x30D00800 (arch_state c))) c.

(** [run_guest]: the fresh vCPU 0. *)
Definition prepare_vcpu (cfg : GuestConfig) (c : Vcpu) : Vcpu :=
  let sp := u64 (load_addr cfg + mem_size cfg - GUEST_STACK_RESERVE) in
  let ctx := set_entry (entry_point cfg) sp (spsr_el2 (vcpu_context c)) (vcpu_context c) in
  let ctx := if decide (guest_type cfg = Linux)
             then set_xreg 3 0 (set_xreg 2 0 (set_xreg 1 0 (set_xreg 0 (dtb_addr cfg) ctx))) else ctx in
  set_vcpu_context ctx c.

(** ** Devices and interrupts *)
Definition attach_devices (id : nat) (disk_addr disk_size : Z) : exm unit :=
  let* h := sm_get in
  match hy_devs h !! id with
  | None => sm_err OOB
  | Some dm =>
      let dm := attach_virtio_blk dm disk_addr disk_size in
      let (dm, vs) := attach_virtio_net dm (ns_switch (nw_net (io_world (hy_io h)))) id in
      sm_upd (fun h =>
        let io := hy_io h in
        let w := {| nw_mem := io_mem io; nw_net := {| ns_switch := vs; PORT_RX := PORT_RX (nw_net (io_world io)) |} |} in
        set_devs (<[id := dm]> (hy_devs h)) (mkIo w (io_tx io) (io_gicd io) (io_spis io) (io_cntvct io) (io_cntfrq io)) h)
  end.

(** The writes to the physical distributor and UART. *)
Definition enable_physical_uart_irq : exm unit :=
  sm_upd (log_icc (PhysWrite (0x08000000 + 0x104) (Z.shiftl 1 (33 - 32)))) ;;;
  sm_upd (log_icc (PhysWrite (0x08000000 + 0x421) 0xA0)) ;;;
  sm_upd (log_icc (PhysWrite (0x08000000 + 0x6100 + (33 - 32) * 8) 0)) ;;;
  sm_upd (log_icc (PhysWrite (0x09000000 + 0x038) (Z.lor (phys_read (0x09000000 + 0x038)) (Z.shiftl 1 4)))).

Definition clear_twe : exm unit :=
  sm_upd (fun h => set_core (set_hcr_el2 (Z.land (pc_hcr_el2 (hy_core h)) (not64 HCR_TWE)) (hy_core h)) h).

(** ** [run_guest] *)
Context (enter : VcpuContext -> exm (VcpuContext * Z)).

Definition setup_guest (cntvct : Z) (cfg : GuestConfig) : exm (result Vm string) :=
  let* v := vm_new pi cntvct 0 in
  let* v := init_memory (load_addr cfg) (mem_size cfg) v in
  match create_vcpu mpidr 0 v with
  | Err e => sm_ret (Err e)
  | Ok v =>
      let v := upd_vcpu 0 (prepare_vcpu cfg) v in
      if decide (guest_type cfg = Linux) then
        let v := upd_vcpu 0 el1_boot_state v in
        clear_twe ;;;
        attach_devices 0 VIRTIO_DISK_ADDR VIRTIO_DISK_SIZE ;;;
        enable_physical_uart_irq ;;;
        reset_exception_counters ;;;
        sm_ret (Ok v)
      else sm_ret (Ok v)
  end.

(** [None]: the guest still runs when the fuel ends. *)
Definition run_guest (fuel : nat) (cntvct : Z) (cfg : GuestConfig) : exm (option (result unit string)) :=
  let* r := setup_guest cntvct cfg in
  match r with
  | Err e => sm_ret (Some (Err e))
  | Ok v =>
      if decide (guest_type cfg = Linux) then
        let* o := run_smp pi mpidr phys_read enter fuel v in
        sm_ret (match o with Some (_, r) => Some r | None => None end)
      else
        let* r := vm_run enter v in sm_ret (Some r.2)
  end.

(** ** Two VMs *)
Definition setup_vm (cntvct : Z) (id : nat) (cfg : GuestConfig) (disk_addr : Z) : exm (result Vm string) :=
  let* v := vm_new pi cntvct id in
  let* v := init_memory (load_addr cfg) (mem_size cfg) v in
  match create_vcpu mpidr 0 v with
  | Err e => sm_ret (Err e)
  | Ok v =>
      let sp := u64 (load_addr cfg + mem_size cfg - GUEST_STACK_RESERVE) in
      let v := upd_vcpu 0 (fun c => set_vcpu_context
                 (set_entry (entry_point cfg) sp SPSR_EL1H_DAIF_MASKED (set_xreg 0 (dtb_addr cfg) (vcpu_context c))) c) v in
      let v := upd_vcpu 0 el1_boot_state v in
      attach_devices id disk_addr VIRTIO_DISK_SIZE ;;;
      sm_ret (Ok v)
  end.

(** [run_multi_vm_guests] up to its self-test. *)
Definition setup_multi_vm (cntvct : Z) : exm (result (list Vm) string) :=
  let* h := sm_get in
  let* r0 := setup_vm cntvct 0 (linux_default (io_mem (hy_io h))) VIRTIO_DISK_ADDR in
  match r0 with
  | Err e => sm_ret (Err e)
  | Ok vm0 =>
      let* h := sm_get in
      let* r1 := setup_vm cntvct 1 (linux_vm1 (io_mem (hy_io h))) VM1_VIRTIO_DISK_ADDR in
      match r1 with
      | Err e => sm_ret (Err e)
      | Ok vm1 =>
          activate_stage2 vm0 ;;;
          clear_twe ;;;
          enable_physical_uart_irq ;;;
          reset_exception_counters ;;;
          sm_ret (Ok [vm0; vm1])
      end
  end.
End Boot.

(** ** The booted guest *)
Section Booted.
Context (pi : PlatformInfo) (mpidr : Z) (phys_read : Z -> Z).

(** The machine's memory holds a Stage-2 tree at the root VTTBR_EL2 names. *)
Definition stage2_active (h : hyp) (look : Z -> option pdesc) : Prop :=
  exists l0, from_vttbr (fs_vttbr (hy_ffa h)) = mkWalker l0 /\
    forall ipa, s2_lookup (io_mem (hy_io h)) l0 ipa = look ipa.

Lemma init_memory_spec start others gs gz v h h' v' :
  platform_ok pi -> heap_ok start (set_mem (fs_mach (hy_ffa h)) (io_mem (hy_io h))) [] others ->
  vm_memory_initialized v = false -> (vm_id v < MAX_VMS)%nat ->
  align_start gs mod 2 ^ 21 = 0 -> align_size gz mod 2 ^ 21 = 0 -> 0 <= align_start gs -> 0 <= align_size gz ->
  align_start gs + align_size gz <= 2 ^ 39 ->
  init_memory pi gs gz v h = (h', Ok v') ->
  stage2_active h' (vm_map pi (align_start gs) (align_size gz)) /\
  (exists vttbr vtcr, v' = set_vm_memory vttbr vtcr v /\ fs_vttbr (hy_ffa h') = vttbr) /\
  hy_devs h' = hy_devs h.
Proof.
  intros Hp Hh Hm Hid Ha Hb H0 Hs Hmax. unfold init_memory, init_memory_dynamic. rewrite Hm. cbv zeta.
  destruct (mapper_new _) as [s1 [dm|e]] eqn:En; [|discriminate].
  destruct (populate _ _ _ (s1, dm)) as [[s2 dm2] [u|e]] eqn:Ep; [|discriminate].
  destruct (mapper_new_spec _ _ _ _ _ Hh En) as (Hd & Hl & _).
  apply (populate_spec pi _ _ _ _ _ _ _ _ _ _ Hp Hd Hl Ha Hb H0 Hs Hmax) in Ep.
  destruct Ep as (own' & Hd' & _ & _ & Hlook & _). intros [= <- <-].
  split_and!; [|by do 2 eexists|done]. exists (dm_l0_table dm2). split; [|exact Hlook].
  destruct (wf_table _ _ _ (si_wf _ _ _ _ _ (di_inv _ _ _ _ _ Hd')) 0 0 (dm_l0_table dm2) ltac:(lia) eq_refl) as (Hal & Hr & _).
  cbn [hy_ffa set_devs set_ffa set_core fs_vttbr].
  apply (vttbr_round_trip dm2 (u16 (Z.of_nat (vm_id v))) (fun _ => 0) 0); [done|split; lia|apply wrap_fits; lia].
Qed.

Lemma stage2_active_frame h h' look : hy_ffa h' = hy_ffa h -> io_mem (hy_io h') = io_mem (hy_io h) ->
  stage2_active h look -> stage2_active h' look.
Proof using. unfold stage2_active. by intros -> ->. Qed.

(** Changing a vCPU without its number and state keeps the VM's invariant. *)
Lemma upd_vcpu_inv f v : (forall c, vcpu_id (f c) = vcpu_id c /\ vcpu_state (f c) = vcpu_state c) ->
  vm_inv v -> vm_inv (upd_vcpu 0 f v).
Proof using.
  intros Hf [H1 H2 H3 H4]. split; cbn; [done|by rewrite length_alter| |].
  - intros id c Hc. destruct (decide (id = 0%nat)) as [->|Hne].
    + rewrite list_lookup_alter_eq in Hc. destruct (vm_vcpus v !! 0%nat) as [[c0|]|] eqn:E; try discriminate.
      injection Hc as <-. destruct (Hf c0) as [-> ->]. by apply H3.
    + rewrite list_lookup_alter_ne in Hc by congruence. by apply H3.
  - intros id Hid. specialize (H4 id Hid). revert H4. unfold has_vcpu. cbn. destruct (decide (id = 0%nat)) as [->|Hne].
    + rewrite list_lookup_alter_eq. by destruct (vm_vcpus v !! 0%nat) as [[c0|]|].
    + by rewrite list_lookup_alter_ne by congruence.
Qed.

(** The entry state of a Linux kernel. *)
Record linux_entry (cfg : GuestConfig) (c : Vcpu) : Prop := {
  le_pc : ctx_pc (vcpu_context c) = entry_point cfg;
  le_x0 : xreg (vcpu_context c) 0 = dtb_addr cfg;
  le_x123 : forall n, 1 <= n <= 3 -> xreg (vcpu_context c) n = 0;
  le_spsr : spsr_el2 (vcpu_context c) = SPSR_EL1H_DAIF_MASKED;
  le_sctlr : arch_state c SCTLR_EL1 = 0x30D00800;
  le_fpen : arch_state c CPACR_EL1 = 0x300000;
  le_aff : arch_state c VMPIDR = Z.land mpidr (not64 0xFF)
}.
Lemma prepared_linux cfg : guest_type cfg = Linux ->
  linux_entry cfg (el1_boot_state (prepare_vcpu cfg (vcpu_new mpidr 0 0 0))).
Proof using.
  intros Ht. unfold prepare_vcpu. rewrite decide_True by done. split; try reflexivity.
  - intros n Hn. assert (n = 1 \/ n = 2 \/ n = 3) as [->|[->| ->]] by lia; reflexivity.
  - change (Z.lor (Z.land mpidr (not64 0xFF)) 0 = Z.land mpidr (not64 0xFF)). apply Z.lor_0_r.
Qed.
End Booted.

(** Booting a Linux guest: when [run_guest] has set up the VM, its Stage-2
    tree, at the root VTTBR_EL2 holds, is exactly the map of its
    configuration; vCPU 0 exists, is ready for the scheduler and starts at the
    kernel's entry point with the address of the device tree in x0, x1 to x3
    zero, at EL1 with interrupts masked, MMU off and FP enabled; and the VM
    satisfies the invariant of the run loop. *)
Theorem linux_guest_boots pi mpidr phys_read cntvct cfg start others h h' v :
  platform_ok pi -> heap_ok start (set_mem (fs_mach (hy_ffa h)) (io_mem (hy_io h))) [] others ->
  guest_type cfg = Linux ->
  align_start (load_addr cfg) mod 2 ^ 21 = 0 -> align_size (mem_size cfg) mod 2 ^ 21 = 0 ->
  0 <= align_start (load_addr cfg) -> 0 <= align_size (mem_size cfg) ->
  align_start (load_addr cfg) + align_size (mem_size cfg) <= 2 ^ 39 ->
  setup_guest pi mpidr phys_read cntvct cfg h = (h', Ok (Ok v)) ->
  stage2_active h' (vm_map pi (align_start (load_addr cfg)) (align_size (mem_size cfg))) /\
  fs_vttbr (hy_ffa h') = vm_vttbr v /\
  vm_inv v /\ idle v /\ vm_st v = VmReady /\ sc_states (vm_sched v) !! 0%nat = Some RsReady /\
  exists c, vm_vcpus v !! 0%nat = Some (Some c) /\ linux_entry mpidr cfg c.
Proof.
  intros Hp Hh Ht Ha Hb H0 Hs Hmax H. unfold setup_guest in H.
  apply sm_bind_inv in H as (h1 & v0 & En & H). apply sm_bind_inv in H as (h2 & v1 & Em & H).
  assert (Hv0 : v0 = mkVm 0 VmUninitialized (replicate MAX_VCPUS None) 0 false sched_new 0 0 /\
    hy_ffa h1 = hy_ffa h /\ hy_io h1 = hy_io h).
  { unfold vm_new in En. apply sm_bind_inv in En as (ha & a & Eg & En). injection Eg as <- <-.
    destruct (hy_devs h !! 0%nat); [|discriminate]. destruct (vm_devices _ _ _); [|discriminate]. by injection En as <- <-. }
  destruct Hv0 as (-> & Ef & Eio). rewrite <- Ef, <- Eio in Hh.
  destruct (init_memory_spec pi start others _ _ (mkVm 0 VmUninitialized (replicate MAX_VCPUS None) 0 false sched_new 0 0) h1 h2 v1 Hp Hh eq_refl ltac:(cbn; unfold MAX_VMS; lia) Ha Hb H0 Hs Hmax Em)
    as (Hact & (vttbr & vtcr & -> & Ev) & _).
  set (v1 := set_vm_memory _ _ _) in *.
  destruct (create_vcpu mpidr 0 v1) as [v2|e] eqn:Ec; [|discriminate].
  assert (Hv1 : vm_inv v1) by (by destruct (vm_inv_new 0)).
  destruct (create_vcpu_inv _ _ _ _ Hv1 eq_refl Ec) as (Hv2 & Hi2 & _).
  rewrite decide_True in H by done.
  apply sm_bind_inv in H as (h3 & [] & E3 & H). apply sm_bind_inv in H as (h4 & [] & E4 & H).
  apply sm_bind_inv in H as (h5 & [] & E5 & H). apply sm_bind_inv in H as (h6 & [] & E6 & H). injection H as <- <-.
  injection Ec as <-.
  assert (Hfr : hy_ffa h6 = hy_ffa h2 /\ io_mem (hy_io h6) = io_mem (hy_io h2)).
  { injection E6 as <-. injection E5 as <-. unfold attach_devices in E4. apply sm_bind_inv in E4 as (ha & a & Eg & E4).
    injection Eg as <- <-. destruct (hy_devs h3 !! 0%nat); [|discriminate]. destruct (attach_virtio_net _ _ _) as [dm' vs].
    injection E4 as <-. injection E3 as <-. done. }
  destruct Hfr as [Hf6 Hm6]. split_and!.
  - by apply (stage2_active_frame h2).
  - by rewrite Hf6.
  - apply upd_vcpu_inv; [done|]. apply upd_vcpu_inv; [|exact Hv2]. done.
  - exact Hi2.
  - done.
  - done.
  - eexists. split; [reflexivity|]. by apply prepared_linux.
Qed.

(** A 48-bit address above the GIC region is on no emulated page. *)
Lemma above_gic pi ipa : platform_ok pi -> GIC_REGION_BASE + GIC_REGION_SIZE <= ipa < 2 ^ 48 ->
  on_page_of (gicd_pages pi ++ gicr_pages pi) ipa = false.
Proof.
  intros [Hin _] Hi. unfold on_page_of. apply not_true_iff_false. intros H. apply existsb_exists in H as (p & Hp & E).
  apply bool_decide_eq_true in E. apply list_elem_of_In in Hp. pose proof (proj1 (list.Forall_forall _ _) Hin p Hp) as Hr. cbv beta in Hr.
  unfold same_page, prefix in E. change (48 - 9 * Z.of_nat 4) with 12 in E. unfold GIC_REGION_BASE, GIC_REGION_SIZE in *.
  rewrite !Z.mod_small in E by lia. assert (p / 2 ^ 12 < ipa / 2 ^ 12); [|lia].
  apply Z.div_lt_upper_bound; [lia|]. pose proof (Z.div_le_mono 0x09000000 ipa (2 ^ 12) ltac:(lia) ltac:(lia)).
  change (0x09000000 / 2 ^ 12) with 0x9000 in *. lia.
Qed.
Lemma vm_map_ram pi base size ipa : platform_ok pi -> GIC_REGION_BASE + GIC_REGION_SIZE <= ipa < 2 ^ 48 ->
  base <= ipa < base + size -> (ipa < HEAP_START \/ HEAP_START + HEAP_SIZE <= ipa) ->
  vm_map pi base size ipa = Some (id_desc_of Normal ipa).
Proof.
  intros Hp Hi Hr Hh. unfold vm_map. rewrite above_gic by done. unfold ipa_in. rewrite Z.mod_small by (unfold GIC_REGION_BASE, GIC_REGION_SIZE in *; lia).
  zdec; done || lia.
Qed.

(** Where the linker script puts the hypervisor. *)
Definition IMAGE_BASE : Z := 0x40200000.

(** C7. What the guest configurations map: the memory of the (first) Linux guest
    contains the hypervisor's own image, from its load address to the heap,
    and all of the memory of the second guest, as normal memory with read and
    write permission: a guest can overwrite the code, the data and the stacks
    of the hypervisor, and with two VMs VM 0 reaches every byte of VM 1,
    through the same addresses as VM 1 itself. *)
Theorem linux_maps_hypervisor_and_vm1 pi m ipa : platform_ok pi ->
  let c0 := linux_default m in
  let c1 := linux_vm1 m in
  let map0 := vm_map pi (align_start (load_addr c0)) (align_size (mem_size c0)) in
  let map1 := vm_map pi (align_start (load_addr c1)) (align_size (mem_size c1)) in
  (IMAGE_BASE <= ipa < HEAP_START -> map0 ipa = Some (id_desc_of Normal ipa)) /\
  (load_addr c1 <= ipa < load_addr c1 + mem_size c1 ->
     map0 ipa = Some (id_desc_of Normal ipa) /\ map1 ipa = Some (id_desc_of Normal ipa)) /\
  forall start s others s1 dm s2 dm2 u, heap_ok start s [] others -> mapper_new s = (s1, Ok dm) ->
    populate pi (align_start (load_addr c0)) (align_size (mem_size c0)) (s1, dm) = ((s2, dm2), Ok u) ->
    IMAGE_BASE <= ipa < HEAP_START -> s2_lookup (hm_mem s2) (dm_l0_table dm2) ipa = Some (id_desc_of Normal ipa).
Proof.
  intros Hp. cbv zeta.
  assert (E0 : align_start (load_addr (linux_default m)) = 0x40000000 /\ align_size (mem_size (linux_default m)) = 0x48000000) by done.
  assert (E1 : align_start (load_addr (linux_vm1 m)) = 0x60000000 /\ align_size (mem_size (linux_vm1 m)) = 0x18000000) by done.
  destruct E0 as [-> ->], E1 as [-> ->].
  assert (Himg : IMAGE_BASE <= ipa < HEAP_START -> vm_map pi 0x40000000 0x48000000 ipa = Some (id_desc_of Normal ipa)).
  { unfold IMAGE_BASE, HEAP_START. intros Hi. apply vm_map_ram; unfold GIC_REGION_BASE, GIC_REGION_SIZE, HEAP_START; try done; lia. }
  split_and!; [done| |].
  - change (load_addr (linux_vm1 m)) with 0x60000000. change (mem_size (linux_vm1 m)) with 0x18000000. intros Hi.
    split; apply vm_map_ram; unfold GIC_REGION_BASE, GIC_REGION_SIZE, HEAP_START, HEAP_SIZE; try done; lia.
  - intros start s others s1 dm s2 dm2 u Hh Hn Hr Hi. destruct (mapper_new_spec _ _ _ _ _ Hh Hn) as (Hd & Hl & _).
    apply (populate_spec pi _ _ _ _ _ _ _ _ _ _ Hp Hd Hl) in Hr; [|done|done|lia|lia|lia].
    destruct Hr as (own' & _ & _ & _ & Hlook & _). rewrite Hlook. by apply Himg.
Qed.
Lemma linux_maps_hypervisor_and_vm1_witness :
  vm_map ex_pi 0x40000000 0x48000000 0x40200000 = Some (id_desc_of Normal 0x40200000) /\
  vm_map ex_pi 0x40000000 0x48000000 0x68000000 = vm_map ex_pi 0x60000000 0x18000000 0x68000000.
Proof.
  destruct (linux_maps_hypervisor_and_vm1 ex_pi (fun _ => 0) 0x40200000 ex_pi_ok) as [H1 _].
  destruct (linux_maps_hypervisor_and_vm1 ex_pi (fun _ => 0) 0x68000000 ex_pi_ok) as (_ & H2 & _).
  split; [apply H1; by split|]. destruct H2 as [E1 E2]; [by split|]. exact (eq_trans E1 (eq_sym E2)).
Defined.

Definition ex_cfg : GuestConfig := mkConfig Linux 0x40e00000 0x1400000 0x40e80000 0x40f00000.
Definition ex_boot_hyp : hyp :=
  let f := hy_ffa ex_hyp in
  set_ffa (mkFfa (fs_regs f) (fs_vm f) ex_mem (fs_mbox f) (fs_store f) (fs_notif f) (fs_spmc_present f) (fs_proxy_rxtx f)
    (fs_vttbr f) (fs_per_vm_vttbr f)) ex_hyp.
Lemma linux_guest_boots_witness : exists h' v c,
  setup_guest ex_pi 0x80000000 (fun _ => 0) 0 ex_cfg ex_boot_hyp = (h', Ok (Ok v)) /\
  stage2_active h' (vm_map ex_pi 0x40e00000 0x1400000) /\ vm_vcpus v !! 0%nat = Some (Some c) /\
  linux_entry 0x80000000 ex_cfg c.
Proof.
  destruct (setup_guest ex_pi 0x80000000 (fun _ => 0) 0 ex_cfg ex_boot_hyp) as [h' [[v|e]|e]] eqn:E.
  - pose proof (linux_guest_boots ex_pi 0x80000000 (fun _ => 0) 0 ex_cfg HEAP_START [] ex_boot_hyp h' v ex_pi_ok ex_mem_heap
      eq_refl eq_refl eq_refl ltac:(vm_compute; congruence) ltac:(vm_compute; congruence) ltac:(vm_compute; congruence) E)
      as (H1 & _ & _ & _ & _ & _ & c & H2 & H3).
    exists h', v, c. split; [reflexivity|]. split; [exact H1|]. split; [exact H2|exact H3].
  - exfalso. apply (f_equal (fun x => match snd x with Ok (Ok _) => true | _ => false end)) in E. vm_compute in E. discriminate.
  - exfalso. apply (f_equal (fun x => match snd x with Ok (Ok _) => true | _ => false end)) in E. vm_compute in E. discriminate.
Defined.
