(* ===== verification/Boot.v ===== *)
(** * Boot: from power-on to the running guests

    [rust_main] of [main.rs] for the normal world, single-core: discovery, the
    FF-A proxy, the heap, and the guests the features select; the integration
    self-test [test_ffa_vm_to_vm_integration] of [guest_loader.rs], which runs
    on the live tables of both VMs before they start; and
    [run_multi_vm_guests] as a whole.  The registers of the core are in
    CoreInit.  Of the self-tests of tests/, which [rust_main] calls before the
    guests, the one of the FF-A proxy is in SelfTest and the others are not
    part of the model; the heap is therefore the one [heap::init] leaves.

    The theorems evaluate the boot on an arbitrary memory: the tables it
    builds do not depend on what memory held. *)

From Stdlib Require Import ZArith Lia Bool List.
From stdpp Require Import base decidable option list strings.
From S2P Require Import Prelude Memory Allocator Stage2 Stage2Spec Stage2Boot Stage2Thms Rings Sched Regs VSwitch Virtio VirtioNet Vcpu Platform Devices FfaCore FfaNotif FfaProxy Exception VmRun VmMem GuestLoader.
Import Walker Mapper.

(** ** The integration self-test *)
Definition TEST_IPA : Z := 0x57000000.
Record tally := mkTally { t_pass : Z; t_fail : Z }.
Definition check (ok : bool) (t : tally) : tally :=
  if ok then mkTally (t_pass t + 1) (t_fail t) else mkTally (t_pass t) (t_fail t + 1).

Section SelfTest.
Context (checks : bool) (el3 : mem -> GpRegs -> mem * GpRegs) (tfa_boot : bool) (proxy_rx_buf : Z).

(** [CURRENT_VM_ID.store(id); msr vttbr_el2, v] *)
Definition switch_vm (id : nat) (vttbr : Z) : exm unit :=
  sm_upd (fun h =>
    let f := hy_ffa h in
    set_cur_vm id (set_ffa (mkFfa (fs_regs f) (fs_vm f) (fs_mach f) (fs_mbox f) (fs_store f) (fs_notif f)
      (fs_spmc_present f) (fs_proxy_rxtx f) vttbr (fs_per_vm_vttbr f)) h)).
(** The field of the leaf entry of the test page, by a walker. *)
Definition page_sw (w : Stage2Walker) : exm (option Z) := fun h => (h, Ok (read_sw_bits (io_mem (hy_io h)) w TEST_IPA)).
Definition page_s2ap (w : Stage2Walker) : exm (option Z) := fun h => (h, Ok (read_s2ap (io_mem (hy_io h)) w TEST_IPA)).
Definition live_walker : exm Stage2Walker := fun h => (h, Ok (from_vttbr (fs_vttbr (hy_ffa h)))).
Definition ffa_request (x0 x1 x2 x3 x4 x5 : Z) : exm (VcpuContext * bool) :=
  call_ffa checks el3 tfa_boot proxy_rx_buf (with_gpregs (mkRegs x0 x1 x2 x3 x4 x5 0 0) vcpu_context_default).
Definition answered (r : VcpuContext * bool) (code : Z) : bool := r.2 && (xreg r.1 0 =? code).
Definition ap_bits (ap : Z) : Z := u8 (Z.shiftr ap S2AP_SHIFT).

(** Tests 1 to 6: the handle, VM 1's root and the tally so far. *)
Definition test_share_and_retrieve (vm0_vttbr : Z) : exm (Z * Z * tally) :=
  let t := mkTally 0 0 in
  switch_vm 0 vm0_vttbr ;;;
  (* 1: MEM_SHARE VM0 -> VM1 *)
  let* r := ffa_request FFA_MEM_SHARE_32 0 0 TEST_IPA 1 2 in
  let handle := Z.lor (xreg r.1 2) (u64 (Z.shiftl (xreg r.1 3) 32)) in
  if negb (answered r FFA_SUCCESS_32 && (0 <? handle)) then sm_err "FF-A integration: MEM_SHARE failed"%string else
  let t := check true t in
  (* 2, 3: the sender's entry *)
  let* w := live_walker in
  let* sw := page_sw w in
  let t := check (bool_decide (sw = Some (ownership_bits SharedOwned))) t in
  let* ap := page_s2ap w in
  let t := check (bool_decide (ap = Some (ap_bits S2AP_RO))) t in
  (* 4: MEM_RETRIEVE_REQ by VM1 *)
  let* h := sm_get in
  let vm1_l0_pa := nth 1 (fs_per_vm_vttbr (hy_ffa h)) 0 in
  switch_vm 1 (Z.lor vm1_l0_pa (Z.shiftl 1 48)) ;;;
  let* r := ffa_request FFA_MEM_RETRIEVE_REQ_32 (Z.land handle 0xFFFFFFFF) (Z.shiftr handle 32) 0 0 0 in
  let t := check (answered r FFA_MEM_RETRIEVE_RESP) t in
  (* 5, 6: the receiver's entry *)
  let* sw := page_sw (Walker.new vm1_l0_pa) in
  let t := check (bool_decide (sw = Some (ownership_bits SharedBorrowed))) t in
  let* ap := page_s2ap (Walker.new vm1_l0_pa) in
  let t := check (bool_decide (ap = Some (ap_bits S2AP_RW))) t in
  sm_ret (handle, vm1_l0_pa, t).

(** Tests 7 to 11. *)
Definition test_relinquish_and_reclaim (vm0_vttbr handle vm1_l0_pa : Z) (t : tally) : exm tally :=
  (* 7, 8: MEM_RELINQUISH *)
  let* r := ffa_request FFA_MEM_RELINQUISH (Z.land handle 0xFFFFFFFF) (Z.shiftr handle 32) 0 0 0 in
  let t := check (answered r FFA_SUCCESS_32) t in
  let* sw := page_sw (Walker.new vm1_l0_pa) in
  let t := check (bool_decide (sw = None)) t in
  (* 9: MEM_RECLAIM by VM0 *)
  switch_vm 0 vm0_vttbr ;;;
  let* r := ffa_request FFA_MEM_RECLAIM (Z.land handle 0xFFFFFFFF) (Z.shiftr handle 32) 0 0 0 in
  let t := check (answered r FFA_SUCCESS_32) t in
  (* 10, 11: the sender's entry again *)
  let* w := live_walker in
  let* sw := page_sw w in
  let t := check (bool_decide (sw = Some (ownership_bits Owned))) t in
  let* ap := page_s2ap w in
  let t := check (bool_decide (ap = Some (ap_bits S2AP_RW))) t in
  if t_fail t =? 0 then sm_ret t else sm_err "FF-A integration tests failed"%string.

Definition test_ffa_vm_to_vm_integration (vm0_vttbr : Z) : exm tally :=
  let* r := test_share_and_retrieve vm0_vttbr in
  let '(handle, vm1_l0_pa, t) := r in
  test_relinquish_and_reclaim vm0_vttbr handle vm1_l0_pa t.

(** ** [run_multi_vm_guests] *)
Context (pi : PlatformInfo) (mpidr : Z) (phys_read : Z -> Z) (cntvct : Z).

(** Up to the scheduler: the VMs, and what the self-test counted. *)
Definition prepare_multi_vm : exm (result (list Vm * tally) string) :=
  let* r := setup_multi_vm pi mpidr phys_read cntvct in
  match r with
  | Err e => sm_ret (Err e)
  | Ok vms =>
      let vm0_vttbr := match vms with vm0 :: _ => vm_vttbr vm0 | [] => 0 end in
      let* t := test_ffa_vm_to_vm_integration vm0_vttbr in
      sm_ret (Ok (vms, t))
  end.
Context (enter : VcpuContext -> exm (VcpuContext * Z)).
(** [None]: the VMs still run when the fuel ends. *)
Definition run_multi_vm_guests (fuel : nat) : exm (option (result unit string)) :=
  let* r := prepare_multi_vm in
  match r with
  | Err e => sm_ret (Some (Err e))
  | Ok (vms, _) =>
      let* o := run_multi_vm pi mpidr phys_read enter fuel vms in
      sm_ret (match o with Some _ => Some (Ok tt) | None => None end)
  end.

(** ** [rust_main] *)
(** The cargo features; [multi_pcpu] is in MultiCpu. *)
Record Features := { ft_guest : bool; ft_multi_vm : bool; ft_linux_guest : bool }.
Context (proxy_tx_buf : Z).

Definition call_proxy_init : exm unit := fun h =>
  let f := hy_ffa h in
  let f := mkFfa (fs_regs f) (fs_vm f) (set_mem (fs_mach f) (io_mem (hy_io h))) (fs_mbox f) (fs_store f)
             (fs_notif f) (fs_spmc_present f) (fs_proxy_rxtx f) (fs_vttbr f) (fs_per_vm_vttbr f) in
  let (f, r) := proxy_init el3 tfa_boot proxy_tx_buf proxy_rx_buf f in
  (set_devs (hy_devs h) (set_io_mem (hm_mem (fs_mach f)) (hy_io h)) (set_ffa f h), r).

(** [heap::init]: the allocator starts over. *)
Definition call_heap_init : exm unit :=
  sm_upd (fun h => let f := hy_ffa h in
    set_ffa (mkFfa (fs_regs f) (fs_vm f) (mkMachine (io_mem (hy_io h)) heap_init (hm_trace (fs_mach f))) (fs_mbox f)
      (fs_store f) (fs_notif f) (fs_spmc_present f) (fs_proxy_rxtx f) (fs_vttbr f) (fs_per_vm_vttbr f)) h).

(** A guest of one feature: [false] when it still runs as the fuel ends; the
    outcome of one that returned is only printed. *)
Definition returned (o : option (result unit string)) : bool := match o with Some _ => true | None => false end.
Definition boot_guests (fs : Features) (fuel : nat) : exm bool :=
  let* h := sm_get in
  let* go :=
    (if ft_guest fs then
       let* o := run_guest pi mpidr phys_read enter fuel cntvct (zephyr_default (io_mem (hy_io h))) in sm_ret (returned o)
     else sm_ret true) in
  if negb go then sm_ret false else
  let* go := (if ft_multi_vm fs then let* o := run_multi_vm_guests fuel in sm_ret (returned o) else sm_ret true) in
  if negb go then sm_ret false else
  let* h := sm_get in
  if ft_linux_guest fs && negb (ft_multi_vm fs) then
    let* o := run_guest pi mpidr phys_read enter fuel cntvct (linux_default (io_mem (hy_io h))) in sm_ret (returned o)
  else sm_ret true.
End SelfTest.

Section RustMain.
Context (checks : bool) (el3 : mem -> GpRegs -> mem * GpRegs) (tfa_boot : bool) (proxy_tx_buf proxy_rx_buf : Z).
Context (from_ptr : mem -> Z -> option fdt).
Context (mpidr : Z) (phys_read : Z -> Z) (cntvct : Z).

(** Up to the guests: the platform the firmware's device tree describes. *)
Definition early_main (linux_guest : bool) (dtb_addr : Z) : exm PlatformInfo :=
  let* h := sm_get in
  let (pi, _) := dtb_init from_ptr (io_mem (hy_io h)) dtb_addr (PLATFORM_DEFAULT, false) in
  (if linux_guest then call_proxy_init el3 tfa_boot proxy_rx_buf proxy_tx_buf else sm_ret tt) ;;;
  call_heap_init ;;;
  sm_ret pi.

(** [true]: every guest has returned and the core idles in [wfe]. *)
Definition rust_main (enter : PlatformInfo -> VcpuContext -> exm (VcpuContext * Z)) (fs : Features) (fuel : nat) (dtb_addr : Z) : exm bool :=
  let* pi := early_main (ft_linux_guest fs) dtb_addr in
  boot_guests checks el3 tfa_boot proxy_rx_buf pi mpidr phys_read cntvct (enter pi) fs fuel.
End RustMain.

(** ** A cold machine *)
Definition cold_ffa (m : mem) : ffa_state :=
  mkFfa (mkRegs 0 0 0 0 0 0 0 0) 0 (mkMachine m None []) MAILBOXES_init SHARE_RECORDS_init NOTIF_STATE_init
    false false 0 [0; 0].
Definition cold_io (m : mem) : dev_io := mkIo {| nw_mem := m; nw_net := net_init |} [] [] [] 0 62500000.
Definition cold_hyp (m : mem) : hyp :=
  mkHyp [vm_state_new; vm_state_new] 0 [dm_new; dm_new] (cold_io m) (mkPcpu (fun _ => 0) 0 3) 0 0 0
    uart_ring_new [] (cold_ffa m) 0 [].

(** ** Linux from power-on *)
Lemma sm_bind_run {S E A B} (c : SM S E A) (k : A -> SM S E B) s s' a : c s = (s', Ok a) -> sm_bind c k s = k a s'.
Proof. unfold sm_bind. by intros ->. Qed.

(** The machine [early_main] leaves behind. *)
Definition warm_hyp (m : mem) : hyp := (call_heap_init (cold_hyp m)).1.

Lemma warm_heap m : heap_ok HEAP_START (set_mem (fs_mach (hy_ffa (warm_hyp m))) (io_mem (hy_io (warm_hyp m)))) [] [].
Proof. exists (BumpAllocator_new HEAP_START HEAP_SIZE), []. split_and!; [done|by vm_compute|by apply alloc_inv_init]. Qed.

Lemma default_platform_ok : platform_ok PLATFORM_DEFAULT.
Proof. split; apply (bool_decide_unpack _); vm_compute; exact I. Qed.

(** The platform is the one the defaults describe, or no device tree was found. *)
Definition default_board (from_ptr : mem -> Z -> option fdt) (m : mem) (dtb_addr : Z) : Prop :=
  (dtb_init from_ptr m dtb_addr (PLATFORM_DEFAULT, false)).1 = PLATFORM_DEFAULT.

Lemma early_main_cold el3 tx rx from_ptr m dtb : default_board from_ptr m dtb ->
  exists m', early_main el3 false tx rx from_ptr true dtb (cold_hyp m) = (warm_hyp m', Ok PLATFORM_DEFAULT).
Proof.
  intros H. unfold early_main, sm_bind at 1, sm_get.
  change (io_mem (hy_io (cold_hyp m))) with m. unfold default_board in H. destruct (dtb_init from_ptr m dtb _) as [pi b].
  cbn [fst] in H. subst pi. unfold sm_bind at 1.
  assert (E : exists m', call_proxy_init el3 false rx tx (cold_hyp m) = (cold_hyp m', Ok tt)).
  { unfold call_proxy_init, proxy_init, probe_spmc, forward_smc4, forward_smc8, sm_bind.
    cbn. destruct (el3 m _) as [m' r]. cbn. exists m'. by destruct (_ || _). }
  destruct E as [m' ->]. by exists m'.
Qed.

(** The set-up cannot fail: 16 MB of heap hold the tables, whatever memory held. *)
Definition linux_setup_ok (o : hyp * result (result Vm string) string) : bool :=
  match o with
  | (h, Ok (Ok v)) => (vm_count v =? 1)%nat && (vm_id v =? 0)%nat && (length (hy_states h) =? 2)%nat
  | _ => false
  end.
Lemma linux_setup_succeeds mpidr phys_read cntvct m :
  linux_setup_ok (setup_guest PLATFORM_DEFAULT mpidr phys_read cntvct (linux_default m) (warm_hyp m)) = true.
Proof. vm_compute. reflexivity. Qed.

(** The kernel's window of guest memory, as the configuration asks for it. *)
Definition linux_map : Z -> option pdesc :=
  vm_map PLATFORM_DEFAULT (align_start GUEST_RAM_BASE) (align_size (GUEST_LOAD_ADDR - GUEST_RAM_BASE + LINUX_MEM_SIZE)).

Section PowerOn.
Context (el3 : mem -> GpRegs -> mem * GpRegs) (tx rx : Z) (mpidr : Z) (phys_read : Z -> Z) (cntvct : Z).

Lemma linux_setup m : exists h v, setup_guest PLATFORM_DEFAULT mpidr phys_read cntvct (linux_default m) (warm_hyp m) = (h, Ok (Ok v)) /\
  vm_count v = 1%nat /\ (vm_id v < length (hy_states h))%nat /\
  stage2_active h linux_map /\ vm_inv v /\ idle v /\ vm_st v = VmReady /\
  exists c, vm_vcpus v !! 0%nat = Some (Some c) /\ linux_entry mpidr (linux_default m) c.
Proof using.
  pose proof (linux_setup_succeeds mpidr phys_read cntvct m) as Hok.
  destruct (setup_guest _ _ _ _ _ _) as [h [[v|e]|e]] eqn:E; [|discriminate|discriminate]. cbn [linux_setup_ok] in Hok.
  apply andb_true_iff in Hok as [Hok Hl]. apply andb_true_iff in Hok as [Hc Hid].
  apply Nat.eqb_eq in Hc, Hid, Hl. exists h, v. rewrite Hc, Hid, Hl.
  destruct (linux_guest_boots PLATFORM_DEFAULT mpidr phys_read cntvct (linux_default m) HEAP_START [] (warm_hyp m) h v
    default_platform_ok (warm_heap m) eq_refl eq_refl eq_refl ltac:(vm_compute; congruence) ltac:(vm_compute; congruence)
    ltac:(vm_compute; congruence) E) as (Ha & _ & Hv & Hi & Hst & _ & Hx).
  split; [reflexivity|]. split; [reflexivity|]. split; [lia|]. by split_and!.
Qed.

Definition linux_only : Features := {| ft_guest := false; ft_multi_vm := false; ft_linux_guest := true |}.
(** With only the Linux guest, the outcome is that of its loop. *)
Lemma boot_linux_runs pi checks blk gfuel code fuel (h0 h : hyp) v :
  setup_guest pi mpidr phys_read cntvct (linux_default (io_mem (hy_io h0))) h0 = (h, Ok (Ok v)) ->
  vm_inv v -> idle v -> vm_st v = VmReady -> has_vcpu v 0 = true -> (0 < vm_count v)%nat -> (vm_id v < length (hy_states h))%nat ->
  (boot_guests checks el3 false rx pi mpidr phys_read cntvct (guest_enter checks pi el3 false rx blk gfuel code) linux_only fuel h0).2 <> Ok true.
Proof using.
  intros Es Hv Hi Hst H0 Hc Hl. unfold boot_guests. cbn [ft_guest ft_multi_vm ft_linux_guest negb andb linux_only].
  erewrite sm_bind_run by reflexivity. erewrite sm_bind_run by reflexivity. cbn [negb].
  erewrite sm_bind_run by reflexivity. cbn [negb]. erewrite sm_bind_run by reflexivity.
  unfold sm_bind at 1, run_guest. rewrite (sm_bind_run _ _ _ _ _ Es). rewrite decide_True by done. unfold sm_bind.
  destruct (run_smp _ _ _ _ fuel v h) as [h2 r] eqn:Er.
  by destruct (run_smp_never_returns _ _ _ _ _ _ _ _ _ _ _ _ _ Hv Hi Hst H0 Hc Hl _ _ Er) as [->|[e ->]].
Qed.

(** From power-on to Linux, without the self-tests of tests/ (SelfTest) and
    with nothing assumed about memory: on the
    default board the set-up of the Linux guest succeeds, with the tables it
    builds from the 16 MB heap; VTTBR_EL2 then names a Stage-2 tree that is
    exactly the map of the guest's configuration, vCPU 0 enters the kernel the
    image's header selects with the device tree's address in x0, and
    [rust_main] never reaches its final idle loop: for every number of
    iterations the guest still runs or a fault has stopped the core. *)
Theorem linux_from_power_on checks blk gfuel code from_ptr dtb m : default_board from_ptr m dtb ->
  exists m1 h v c,
    early_main el3 false tx rx from_ptr true dtb (cold_hyp m) = (warm_hyp m1, Ok PLATFORM_DEFAULT) /\
    setup_guest PLATFORM_DEFAULT mpidr phys_read cntvct (linux_default m1) (warm_hyp m1) = (h, Ok (Ok v)) /\
    stage2_active h linux_map /\
    vm_vcpus v !! 0%nat = Some (Some c) /\ linux_entry mpidr (linux_default m1) c /\
    forall fuel, (rust_main checks el3 false tx rx from_ptr mpidr phys_read cntvct
      (fun pi => guest_enter checks pi el3 false rx blk gfuel code)
      linux_only fuel dtb (cold_hyp m)).2 <> Ok true.
Proof using.
  intros Hb. destruct (early_main_cold el3 tx rx from_ptr m dtb Hb) as [m1 Ee].
  destruct (linux_setup m1) as (h & v & Es & Hc & Hl & Ha & Hv & Hi & Hst & c & Hx & Hle).
  exists m1, h, v, c. split; [exact Ee|]. split; [exact Es|]. split; [exact Ha|]. split; [exact Hx|]. split; [exact Hle|].
  intros fuel. unfold rust_main. rewrite (sm_bind_run _ _ _ _ _ Ee).
  assert (H0 : has_vcpu v 0 = true) by (unfold has_vcpu; by rewrite Hx). assert (Hc' : (0 < vm_count v)%nat) by lia.
  exact (boot_linux_runs PLATFORM_DEFAULT checks blk gfuel code fuel (warm_hyp m1) h v Es Hv Hi Hst H0 Hc' Hl).
Qed.
End PowerOn.

Lemma linux_from_power_on_witness : exists h v c,
  setup_guest PLATFORM_DEFAULT 0x80000000 (fun _ => 0) 0 (linux_default (fun _ => 0)) (warm_hyp (fun _ => 0)) = (h, Ok (Ok v)) /\
  stage2_active h linux_map /\ vm_vcpus v !! 0%nat = Some (Some c) /\ ctx_pc (vcpu_context c) = GUEST_LOAD_ADDR.
Proof.
  destruct (linux_from_power_on (fun _ r => (fun _ => 0, r)) 0 0 0x80000000 (fun _ => 0) 0 true 0 0 ex_exit
    (fun _ _ => None) 0 (fun _ => 0) eq_refl) as (m1 & h & v & c & E & Es & Ha & Hx & [Hpc _ _ _ _ _ _] & _).
  assert (Hm : m1 = fun _ => 0) by (by injection E as <-). subst m1. exists h, v, c.
  split; [exact Es|]. split; [exact Ha|]. split; [exact Hx|exact Hpc].
Defined.

(** ** Two VMs and their self-test *)
Definition two_vms_ok (o : hyp * result (result (list Vm * tally) string) string) : bool :=
  match o with
  | (h, Ok (Ok ([vm0; vm1], mkTally pass fail))) =>
      (pass =? 11) && (fail =? 0) && (vm_id vm0 =? 0)%nat && (vm_id vm1 =? 1)%nat &&
      (Z.shiftr (vm_vttbr vm0) 48 =? 0) && (Z.shiftr (vm_vttbr vm1) 48 =? 1) &&
      negb (Z.land (vm_vttbr vm0) PTE_ADDR_MASK =? Z.land (vm_vttbr vm1) PTE_ADDR_MASK) &&
      (fs_vttbr (hy_ffa h) =? vm_vttbr vm0) && (hy_vm h =? 0)%nat &&
      bool_decide (fs_per_vm_vttbr (hy_ffa h) =
        [Z.land (vm_vttbr vm0) PTE_ADDR_MASK; Z.land (vm_vttbr vm1) PTE_ADDR_MASK])
  | _ => false
  end.
Lemma two_vms_evaluate checks el3 rx mpidr phys_read cntvct m :
  two_vms_ok (prepare_multi_vm checks el3 false rx PLATFORM_DEFAULT mpidr phys_read cntvct (warm_hyp m)) = true.
Proof. destruct checks; vm_compute; reflexivity. Qed.

(** Two VMs from power-on, whatever memory and the firmware hold: both
    are set up, with VMIDs 0 and 1 and distinct roots, and the integration
    self-test, which shares a page of VM 0 with VM 1, has VM 1 retrieve and
    relinquish it and VM 0 reclaim it through the real handlers, counts eleven
    passes and no failure; VM 0 is then the one installed. *)
Theorem two_vms_pass_self_test checks el3 rx mpidr phys_read cntvct m :
  exists h vm0 vm1,
    prepare_multi_vm checks el3 false rx PLATFORM_DEFAULT mpidr phys_read cntvct (warm_hyp m) = (h, Ok (Ok ([vm0; vm1], mkTally 11 0))) /\
    vm_id vm0 = 0%nat /\ vm_id vm1 = 1%nat /\
    Z.shiftr (vm_vttbr vm0) 48 = 0 /\ Z.shiftr (vm_vttbr vm1) 48 = 1 /\
    Z.land (vm_vttbr vm0) PTE_ADDR_MASK <> Z.land (vm_vttbr vm1) PTE_ADDR_MASK /\
    fs_vttbr (hy_ffa h) = vm_vttbr vm0 /\ hy_vm h = 0%nat /\
    fs_per_vm_vttbr (hy_ffa h) = [Z.land (vm_vttbr vm0) PTE_ADDR_MASK; Z.land (vm_vttbr vm1) PTE_ADDR_MASK].
Proof.
  pose proof (two_vms_evaluate checks el3 rx mpidr phys_read cntvct m) as H.
  destruct (prepare_multi_vm _ _ _ _ _ _ _ _ _) as [h [[[[|vm0 [|vm1 [|]]] [pass fail]]|e]|e]]; try discriminate H.
  cbn [two_vms_ok] in H. repeat (apply andb_true_iff in H as [H ?]).
  exists h, vm0, vm1. rewrite ?Z.eqb_eq, ?Nat.eqb_eq, ?negb_true_iff, ?Z.eqb_neq, ?bool_decide_eq_true in *. subst.
  by split_and!.
Qed.
