(* ===== verification/SelfTest.v ===== *)
(** * SelfTest: the FF-A self-test that [rust_main] runs before the guests

    [run_ffa_test] of tests/test_ffa.rs, in full, over the live state of the
    proxy: it is called on every boot of the normal world, between [heap::init]
    and the guests, and ends with [assert!(fail == 0)].  The counters [pass]
    and [fail] are the list of the outcomes, the last one first.  The buffers
    on the stack are arguments: [buf] for descriptors, and the four pages of
    the mailbox tests.  EL3 is, as in FfaProxy, a function, here given by the
    memory and the registers it leaves.

    The theorems: in the builds for Linux without [tfa_boot] the assertion
    fails, so no guest is ever started; what the tests leave behind in the
    tables the guests use. *)

From Stdlib Require Import ZArith Lia Bool.
From stdpp Require Import base decidable option list strings.
From S2P Require Import Prelude Memory Allocator Stage2 FfaCore FfaNotif FfaProxy Regs Vcpu Virtio Devices Platform Exception VmRun GuestLoader Boot.

Definition outcomes := list bool.
Definition passed (t : outcomes) : nat := length (List.filter id t).
Definition failed (t : outcomes) : nat := length (List.filter negb t).

Section FfaTest.
Context (checks : bool) (el3_mem : mem -> GpRegs -> mem) (el3_regs : mem -> GpRegs -> GpRegs) (tfa_boot : bool) (proxy_rx_buf : Z).
Definition el3 (m : mem) (r : GpRegs) : mem * GpRegs := (el3_mem m r, el3_regs m r).

(** [let mut ctx = VcpuContext::default(); ...; handle_ffa_call(&mut ctx)] *)
Definition req (r : GpRegs) : exm (GpRegs * bool) :=
  let* o := call_ffa checks el3 tfa_boot proxy_rx_buf (with_gpregs r vcpu_context_default) in
  sm_ret (gpregs_of o.1, o.2).
Definition x01 (x0 x1 : Z) : GpRegs := mkRegs x0 x1 0 0 0 0 0 0.
Definition x0123 (x0 x1 x2 x3 : Z) : GpRegs := mkRegs x0 x1 x2 x3 0 0 0 0.
Definition got (r : GpRegs * bool) (code : Z) : bool := r.2 && (rx0 r.1 =? code).
(** A call of which only the status is checked. *)
Definition expect (r : GpRegs) (code : Z) (t : outcomes) : exm outcomes :=
  let* o := req r in sm_ret (got o code :: t).
Definition as_vm (id : nat) : exm unit := sm_upd (set_cur_vm id).
Definition wide_handle (r : GpRegs) : Z := Z.lor (rx2 r) (u64 (Z.shiftl (rx3 r) 32)).
(** MEM_SHARE of one page by registers. *)
Definition share_req (ipa receiver : Z) : GpRegs := mkRegs FFA_MEM_SHARE_32 0 0 ipa 1 receiver 0 0.
Definition by_handle (fid handle : Z) : GpRegs := x0123 fid (Z.land handle 0xFFFFFFFF) (Z.shiftr handle 32) 0.

Definition clear_vttbr : exm unit :=
  sm_upd (fun h => let f := hy_ffa h in
    set_ffa (mkFfa (fs_regs f) (fs_vm f) (fs_mach f) (fs_mbox f) (fs_store f) (fs_notif f) (fs_spmc_present f)
      (fs_proxy_rxtx f) 0 (fs_per_vm_vttbr f)) h).

(** Tests 1 to 8. *)
Definition test_basics (t : outcomes) : exm outcomes :=
  let* t := expect (x01 FFA_VERSION FFA_VERSION_1_1) FFA_VERSION_1_1 t in
  let* r := req (x01 FFA_ID_GET 0) in
  let t := (got r FFA_SUCCESS_32 && (rx2 r.1 =? 1)) :: t in
  let* t := expect (x01 FFA_FEATURES FFA_VERSION) FFA_SUCCESS_32 t in
  let* t := expect (x01 FFA_FEATURES 0x84000099) FFA_ERROR t in
  let* t := expect (x01 FFA_MEM_DONATE_32 0) FFA_ERROR t in
  let* t := expect (x0123 FFA_RXTX_MAP 0x50000000 0x50001000 1) FFA_SUCCESS_32 t in
  let* t := expect (x0123 FFA_RXTX_MAP 0x50002000 0x50003000 1) FFA_ERROR t in
  expect (x01 FFA_RXTX_UNMAP 0) FFA_SUCCESS_32 t.

(** Tests 9 and 10, with the stub SPMC only. *)
Definition test_direct (t : outcomes) : exm outcomes :=
  if tfa_boot then sm_ret t else
  let* r := req (mkRegs FFA_MSG_SEND_DIRECT_REQ_32 (Z.lor (Z.shiftl 1 16) 0x8001) 0 0 0xDEADBEEF 0xCAFEBABE 0x12345678 0x9ABCDEF0) in
  let t := (got r FFA_MSG_SEND_DIRECT_RESP_32 && (rx4 r.1 =? 0xDEADBEEF) && (rx5 r.1 =? 0xCAFEBABE)) :: t in
  expect (x01 FFA_MSG_SEND_DIRECT_REQ_32 (Z.lor (Z.shiftl 1 16) 0x9999)) FFA_ERROR t.

(** Tests 11 to 13. *)
Definition test_share_reclaim (t : outcomes) : exm outcomes :=
  let* r := req (share_req 0x50000000 0x8001) in
  let handle := rx2 r.1 in
  let* t :=
    (if got r FFA_SUCCESS_32 && (0 <? handle)
     then expect (x01 FFA_MEM_RECLAIM handle) FFA_SUCCESS_32 (true :: t)
     else sm_ret (false :: false :: t)) in
  expect (x01 FFA_MEM_RECLAIM 0xDEAD) FFA_ERROR t.

(** Tests 14 to 16: descriptors in a buffer on the stack. *)
Definition parsed_as (p : result ParsedMemRegion Z) (sender : option Z) (receiver : Z) (ranges : list (Z * Z)) (total : Z) : bool :=
  match p with
  | Ok p => bool_decide (pr_ranges p = ranges) && (pr_total_page_count p =? total) &&
      (match sender with Some s => (pr_sender_id p =? s) && (pr_receiver_id p =? receiver) | None => true end)
  | Err _ => false
  end.
Definition with_stack (f : mem -> mem) : exm unit :=
  sm_upd (fun h => set_devs (hy_devs h) (set_io_mem (f (io_mem (hy_io h))) (hy_io h)) h).
Definition test_descriptor (buf sender receiver : Z) (ranges : list (Z * Z)) (check_ids : bool) (total : Z) (t : outcomes) : exm outcomes :=
  let* h := sm_get in
  let (m, len) := build_test_descriptor (io_mem (hy_io h)) buf sender receiver ranges in
  with_stack (fun _ => m) ;;;
  sm_ret (parsed_as (parse_mem_region m buf len) (if check_ids then Some sender else None) receiver ranges total :: t).
Definition test_descriptors (buf : Z) (t : outcomes) : exm outcomes :=
  let* t := test_descriptor buf 1 0x8001 [(0x50000000, 2)] true 2 t in
  let* t := test_descriptor buf 2 0x8002 [(0x50000000, 1); (0x60000000, 3)] false 4 t in
  with_stack (fun m => write_bytes m buf 0 16) ;;;
  let* h := sm_get in
  sm_ret (match parse_mem_region (io_mem (hy_io h)) buf 16 with Err code => code =? FFA_INVALID_PARAMETERS | Ok _ => false end :: t).

(** Tests 17 and 18. *)
Definition test_forward (t : outcomes) : exm outcomes :=
  let* h := sm_get in
  let r := el3_regs (io_mem (hy_io h)) (x01 0x84000000 0) in
  with_stack (fun m => el3_mem m (x01 0x84000000 0)) ;;;
  let t := (negb (rx0 r =? 0xFFFFFFFFFFFFFFFF) && negb (rx0 r =? 0)) :: t in
  if tfa_boot then sm_ret t else expect (x01 0x8400009F 0) FFA_ERROR t.

(** Tests 19 to 27: sharing from VM 0 to VM 1. *)
Definition share_to_vm1 (ipa : Z) : exm (GpRegs * bool) := req (share_req ipa 2).
(** Share a page and retrieve it as VM 1, who stays the current one. *)
Definition share_and_retrieve (ipa : Z) : exm (Z * (GpRegs * bool)) :=
  let* r := share_to_vm1 ipa in
  let handle := wide_handle r.1 in
  as_vm 1 ;;;
  let* r := req (by_handle FFA_MEM_RETRIEVE_REQ_32 handle) in
  sm_ret (handle, r).
Definition test_vm_sharing (t : outcomes) : exm outcomes :=
  let t := (is_valid_receiver 1 && is_valid_receiver 2 && is_valid_receiver 0x8001 && negb (is_valid_receiver 0x9999)) :: t in
  let* r := share_to_vm1 0x58000000 in
  let t := (got r FFA_SUCCESS_32 && (0 <? wide_handle r.1)) :: t in
  let* p := share_and_retrieve 0x59000000 in
  as_vm 0 ;;;
  let t := got p.2 FFA_MEM_RETRIEVE_RESP :: t in
  let* p := share_and_retrieve 0x5A000000 in
  let* t := expect (by_handle FFA_MEM_RETRIEVE_REQ_32 p.1) FFA_ERROR t in
  as_vm 0 ;;;
  let* p := share_and_retrieve 0x5B000000 in
  let* t := expect (by_handle FFA_MEM_RELINQUISH p.1) FFA_SUCCESS_32 t in
  as_vm 0 ;;;
  let* p := share_and_retrieve 0x5C000000 in
  req (by_handle FFA_MEM_RELINQUISH p.1) ;;;
  as_vm 0 ;;;
  let* t := expect (by_handle FFA_MEM_RECLAIM p.1) FFA_SUCCESS_32 t in
  let* p := share_and_retrieve 0x5D000000 in
  as_vm 0 ;;;
  let* t := expect (by_handle FFA_MEM_RECLAIM p.1) FFA_ERROR t in
  let* r := share_to_vm1 0x5E000000 in
  let* t := expect (by_handle FFA_MEM_RETRIEVE_REQ_32 (wide_handle r.1)) FFA_ERROR t in
  let* r1 := req (x01 FFA_FEATURES FFA_MEM_RETRIEVE_REQ_32) in
  let* r2 := req (x01 FFA_FEATURES FFA_MEM_RELINQUISH) in
  sm_ret ((rx0 r1.1 =? FFA_SUCCESS_32) && (rx0 r2.1 =? FFA_SUCCESS_32) :: t).

(** Tests 28 to 30. *)
Definition test_supplemental (t : outcomes) : exm outcomes :=
  let* r := req (x01 FFA_SPM_ID_GET 0) in
  let t := (got r FFA_SUCCESS_32 && (rx2 r.1 =? 0x8000)) :: t in
  let* t := expect (x01 FFA_RUN (Z.shiftl 0x8001 16)) FFA_ERROR t in
  expect (x01 FFA_FEATURES FFA_SPM_ID_GET) FFA_SUCCESS_32 t.

(** Tests 31 to 38. *)
Definition sp1_to_vm0 : Z := Z.lor (Z.shiftl 0x8001 16) 1.
Definition test_notifications (t : outcomes) : exm outcomes :=
  let* t := expect (x0123 FFA_NOTIFICATION_BITMAP_CREATE 1 1 0) FFA_SUCCESS_32 t in
  let* t := expect (x0123 FFA_NOTIFICATION_BIND sp1_to_vm0 0 1) FFA_SUCCESS_32 t in
  let* t := expect (x0123 FFA_NOTIFICATION_SET sp1_to_vm0 0 1) FFA_SUCCESS_32 t in
  let* r := req (x0123 FFA_NOTIFICATION_GET 1 3 0) in
  let t := (got r FFA_SUCCESS_32 && (rx2 r.1 =? 1)) :: t in
  let* r := req (x0123 FFA_NOTIFICATION_GET 1 3 0) in
  let t := (got r FFA_SUCCESS_32 && (rx2 r.1 =? 0)) :: t in
  let* t := expect (x0123 FFA_NOTIFICATION_UNBIND sp1_to_vm0 0 1) FFA_SUCCESS_32 t in
  let* t := expect (x0123 FFA_NOTIFICATION_SET sp1_to_vm0 0 1) FFA_ERROR t in
  expect (x01 FFA_FEATURES FFA_NOTIFICATION_BIND) FFA_SUCCESS_32 t.

(** Tests 39 to 44: the mailboxes are pages of the stack. *)
Definition write_header (tx : Z) : exm unit :=
  with_stack (fun m => write32 (write16 (write16 m tx 1) (tx + 2) 2) (tx + 4) 4).
Definition map_mailboxes (tx0 rx0 tx1 rx1 : Z) : exm unit :=
  req (x0123 FFA_RXTX_MAP tx0 rx0 1) ;;;
  as_vm 1 ;;;
  req (x0123 FFA_RXTX_MAP tx1 rx1 1) ;;;
  as_vm 0.
Definition test_messages (tx0 : Z) (t : outcomes) : exm outcomes :=
  write_header tx0 ;;;
  with_stack (fun m => write32 m (tx0 + 8) 0xCAFEBABE) ;;;
  let* t :=
    (if tfa_boot then sm_ret t else
     let* t := expect (x01 FFA_MSG_SEND2 0) FFA_SUCCESS_32 t in
     as_vm 1 ;;;
     let* r := req (x01 FFA_MSG_WAIT 0) in
     let t := (got r FFA_SUCCESS_32 && (rx1 r.1 =? 1)) :: t in
     req (x01 FFA_RX_RELEASE 0) ;;;
     sm_ret t) in
  let* t := expect (x01 FFA_MSG_WAIT 0) FFA_ERROR t in
  as_vm 0 ;;;
  write_header tx0 ;;;
  req (x01 FFA_MSG_SEND2 0) ;;;
  let* t := expect (x01 FFA_MSG_SEND2 0) FFA_ERROR t in
  let* t := expect (x01 FFA_FEATURES FFA_MSG_SEND2) FFA_SUCCESS_32 t in
  req (x01 FFA_RXTX_UNMAP 0) ;;;
  as_vm 1 ;;;
  req (x01 FFA_RXTX_UNMAP 0) ;;;
  as_vm 0 ;;;
  sm_ret t.

Definition TESTS_FAILED : string := "FF-A proxy tests failed".
(** Tests 1 to 39. *)
Definition test_until_mailboxes (buf : Z) : exm outcomes :=
  clear_vttbr ;;;
  let* t := test_basics [] in
  let* t := test_direct t in
  let* t := test_share_reclaim t in
  let* t := test_descriptors buf t in
  let* t := test_forward t in
  let* t := test_vm_sharing t in
  let* t := test_supplemental t in
  let* t := test_notifications t in
  expect (x01 FFA_MSG_SEND2 0) FFA_ERROR t.
Definition run_ffa_test (buf tx0 rx0 tx1 rx1 : Z) : exm outcomes :=
  let* t := test_until_mailboxes buf in
  map_mailboxes tx0 rx0 tx1 rx1 ;;;
  let* t := test_messages tx0 t in
  if (failed t =? 0)%nat then sm_ret t else sm_err TESTS_FAILED.
End FfaTest.

(** ** [rust_main] with the test *)
Section TestedMain.
Context (checks : bool) (el3_mem : mem -> GpRegs -> mem) (el3_regs : mem -> GpRegs -> GpRegs) (tfa_boot : bool) (proxy_tx_buf proxy_rx_buf : Z).
Context (from_ptr : mem -> Z -> option fdt) (mpidr : Z) (phys_read : Z -> Z) (cntvct : Z).
(** The stack of the test: the buffer of the descriptors and four pages. *)
Record test_stack := mkStack { st_buf : Z; st_tx0 : Z; st_rx0 : Z; st_tx1 : Z; st_rx1 : Z }.

(** [rust_main] of the normal world, with this one of its self-tests. *)
Definition tested_main (enter : PlatformInfo -> VcpuContext -> exm (VcpuContext * Z)) (fs : Features) (fuel : nat)
    (st : test_stack) (dtb_addr : Z) : exm bool :=
  let e3 := el3 el3_mem el3_regs in
  let* pi := early_main e3 tfa_boot proxy_tx_buf proxy_rx_buf from_ptr (ft_linux_guest fs) dtb_addr in
  run_ffa_test checks el3_mem el3_regs tfa_boot proxy_rx_buf (st_buf st) (st_tx0 st) (st_rx0 st) (st_tx1 st) (st_rx1 st) ;;;
  boot_guests checks e3 tfa_boot proxy_rx_buf pi mpidr phys_read cntvct (enter pi) fs fuel.
End TestedMain.

(** The stack is part of the hypervisor's image, which lies below guest
    memory. *)
Definition below_guests (st : test_stack) : Prop :=
  Forall (fun b => 0 <= b /\ b + 4096 <= GUEST_LOAD_ADDR) [st_tx0 st; st_rx0 st; st_tx1 st; st_rx1 st].

(** ** Mailboxes outside guest memory are refused *)
Section Refused.
Context (checks : bool) (el3_mem : mem -> GpRegs -> mem) (el3_regs : mem -> GpRegs -> GpRegs) (tfa_boot : bool) (rxb : Z).
Abbreviation request := (req checks el3_mem el3_regs tfa_boot rxb).

Lemma not_guest_ram b : b + 4096 <= GUEST_LOAD_ADDR -> is_guest_ram b 4096 = false.
Proof using. intros H. unfold is_guest_ram. destruct (Z.leb_spec GUEST_LOAD_ADDR b); [lia|done]. Qed.

(** The state after a refused call: the proxy keeps the registers of its
    caller. *)
Definition refused (tx rx : Z) (h : hyp) : hyp :=
  let f := hy_ffa h in
  set_devs (hy_devs h) (set_io_mem (io_mem (hy_io h)) (hy_io h))
    (set_ffa (mkFfa (mkRegs FFA_ERROR tx (u32 FFA_INVALID_PARAMETERS) 1 0 0 0 0) (Z.of_nat (hy_vm h))
       (set_mem (fs_mach f) (io_mem (hy_io h))) (fs_mbox f) (fs_store f) (fs_notif f) (fs_spmc_present f)
       (fs_proxy_rxtx f) (fs_vttbr f) (fs_per_vm_vttbr f)) h).

Lemma map_refused tx rx h : tx + 4096 <= GUEST_LOAD_ADDR ->
  exists o, request (x0123 FFA_RXTX_MAP tx rx 1) h = (refused tx rx h, Ok o).
Proof using.
  intros Hb. unfold req, sm_bind, call_ffa.
  change (gpregs_of (with_gpregs (x0123 FFA_RXTX_MAP tx rx 1) vcpu_context_default)) with (x0123 FFA_RXTX_MAP tx rx 1).
  set (f := mkFfa _ _ _ _ _ _ _ _ _ _). change (handle_ffa_call _ _ _ _ f) with (handle_rxtx_map f).
  assert (E : fail_with FFA_INVALID_PARAMETERS f = (with_regs f (mkRegs FFA_ERROR tx (u32 FFA_INVALID_PARAMETERS) 1 0 0 0 0), Ok true))
    by reflexivity.
  unfold handle_rxtx_map, sm_bind at 1, get_regs. cbn [fs_regs f rx1 rx2 rx3 x0123]. change (u32 1 * 4096) with 4096.
  rewrite (not_guest_ram tx Hb). cbn [negb orb]. destruct (_ || (1 <? u32 1)); rewrite E; eexists; reflexivity.
Qed.
End Refused.

(** Some outcome is a failure. *)
Definition some_failed (o : hyp * result outcomes string) : bool :=
  match o with (_, Ok t) => negb (failed t =? 0)%nat | (_, Err _) => false end.

(** A test in three parts, of which the second is known. *)
Lemma checked_run (first : exm outcomes) (second : exm unit) (third : outcomes -> exm outcomes) (f : hyp -> hyp) :
  (forall h, second h = (f h, Ok tt)) -> forall h0,
  some_failed ((let* t := first in fun h => third t (f h)) h0) = true ->
  exists h, (let* t := first in second ;;; let* t := third t in
             if (failed t =? 0)%nat then sm_ret t else sm_err TESTS_FAILED) h0 = (h, Err TESTS_FAILED).
Proof.
  intros Hs h0. unfold sm_bind. destruct (first h0) as [h1 [t1|e]]; [|done]. rewrite Hs.
  destruct (third t1 (f h1)) as [h2 [t2|e]]; [|done]. cbn [some_failed]. intros H.
  apply negb_true_iff in H. rewrite H. by eexists.
Qed.

(** ** The test in the builds for Linux *)
Section LinuxBuild.
Context (checks : bool) (el3_mem : mem -> GpRegs -> mem) (el3_regs : mem -> GpRegs -> GpRegs) (rxb : Z) (st : test_stack) (Hst : below_guests st).
Abbreviation e3 := (el3 el3_mem el3_regs).

Definition refused_both (h : hyp) : hyp :=
  set_cur_vm 0 (refused (st_tx1 st) (st_rx1 st) (set_cur_vm 1 (refused (st_tx0 st) (st_rx0 st) h))).

Lemma mailboxes_refused h :
  map_mailboxes checks el3_mem el3_regs false rxb (st_tx0 st) (st_rx0 st) (st_tx1 st) (st_rx1 st) h = (refused_both h, Ok tt).
Proof using Hst.
  unfold below_guests in Hst. rewrite !Forall_cons in Hst. destruct Hst as ([_ H1] & _ & [_ H2] & _).
  unfold map_mailboxes. destruct (map_refused checks el3_mem el3_regs false rxb (st_tx0 st) (st_rx0 st) h H1) as [o1 E1].
  rewrite (sm_bind_run _ _ _ _ _ E1). erewrite sm_bind_run by reflexivity.
  destruct (map_refused checks el3_mem el3_regs false rxb (st_tx1 st) (st_rx1 st) (set_cur_vm 1 (refused (st_tx0 st) (st_rx0 st) h)) H2) as [o2 E2].
  by rewrite (sm_bind_run _ _ _ _ _ E2).
Qed.

(** The test with the calls refused. *)
Definition refused_test : exm outcomes :=
  let* t := test_until_mailboxes checks el3_mem el3_regs false rxb (st_buf st) in
  fun h => test_messages checks el3_mem el3_regs false rxb (st_tx0 st) t (refused_both h).
Lemma refused_test_run h0 : some_failed (refused_test h0) = true ->
  exists h, run_ffa_test checks el3_mem el3_regs false rxb (st_buf st) (st_tx0 st) (st_rx0 st) (st_tx1 st) (st_rx1 st) h0 =
    (h, Err TESTS_FAILED).
Proof using Hst. exact (checked_run _ _ _ refused_both mailboxes_refused h0). Qed.

Lemma refused_test_fails m : some_failed (refused_test (warm_hyp m)) = true.
Proof using. destruct checks; vm_compute; reflexivity. Qed.
End LinuxBuild.

(** C24. The builds for Linux do not start Linux: built with linux_guest, with or
    without multi_vm but without tfa_boot, [rust_main] panics in its own FF-A
    self-test before any guest is set up, on every memory, for every firmware,
    guest and device tree of the default board: the test puts its mailboxes on
    the stack, and RXTX_MAP refuses buffers outside guest memory.  The other
    self-tests of [rust_main] are left out. *)
Theorem linux_build_fails_self_test checks el3_mem el3_regs tx rx from_ptr mpidr phys_read cntvct enter fs fuel st dtb_addr m :
  default_board from_ptr m dtb_addr -> ft_linux_guest fs = true -> below_guests st ->
  exists h, tested_main checks el3_mem el3_regs false tx rx from_ptr mpidr phys_read cntvct enter fs fuel st dtb_addr (cold_hyp m) =
    (h, Err TESTS_FAILED).
Proof.
  intros Hb Hf Hst. unfold tested_main. rewrite Hf.
  destruct (early_main_cold (el3 el3_mem el3_regs) tx rx from_ptr m dtb_addr Hb) as [m' E].
  rewrite (sm_bind_run _ _ _ _ _ E). destruct (refused_test_run checks el3_mem el3_regs rx st Hst (warm_hyp m') (refused_test_fails checks el3_mem el3_regs rx st m')) as [h Eh].
  unfold sm_bind. rewrite Eh. by eexists.
Qed.

(** With the mailboxes in guest memory all 44 tests pass. *)
Example ffa_tests_pass :
  match run_ffa_test true (fun m _ => m) (fun _ _ => x01 0x10001 0) false 0 0x40400000 0x50400000 0x50410000 0x50420000 0x50430000
          (warm_hyp (fun _ => 0)) with
  | (_, Ok t) => (passed t, failed t) = (44%nat, 0%nat)
  | _ => False
  end.
Proof. vm_compute. reflexivity. Qed.

Definition ex_stack : test_stack := mkStack 0x40400000 0x40410000 0x40420000 0x40430000 0x40440000.
Lemma linux_build_fails_self_test_witness :
  exists h, tested_main true (fun m _ => m) (fun _ _ => x01 0x10001 0) false 0 0 (fun _ _ => None) 0 (fun _ => 0) 0
    (fun _ c => sm_ret (c, 0)) linux_only 1 ex_stack 0 (cold_hyp (fun _ => 0)) = (h, Err TESTS_FAILED).
Proof.
  apply (linux_build_fails_self_test true (fun m _ => m) (fun _ _ => x01 0x10001 0) 0 0 (fun _ _ => None) 0 (fun _ => 0) 0
    (fun _ c => sm_ret (c, 0)) linux_only 1 ex_stack 0 (fun _ => 0)); [reflexivity|reflexivity|].
  repeat constructor; vm_compute; congruence.
Defined.

(** ** What the test leaves behind *)

(** The machine before the test with tfa_boot, the SPMC found. *)
Definition warm_tfa (registered : bool) (m : mem) : hyp :=
  let h := warm_hyp m in
  let f := hy_ffa h in
  set_ffa (mkFfa (fs_regs f) (fs_vm f) (fs_mach f) (fs_mbox f) (fs_store f) (fs_notif f) true registered
    (fs_vttbr f) (fs_per_vm_vttbr f)) h.
Definition active_shares (h : hyp) : list (Z * Z) :=
  map (fun r => (sr_handle r, sr_receiver_id r)) (List.filter sr_active (ss_records (fs_store (hy_ffa h)))).
Definition status (o : hyp * result (GpRegs * bool) string) : option Z :=
  match o with (_, Ok (r, _)) => Some (rx0 r) | _ => None end.

(** With tfa_boot the boot goes on, on the tables the test used: whatever the
    firmware answers, six shares to VM 1 that no VM made are active; VM 1 can
    retrieve the first of them, a page at 0x58000000 of VM 0's memory, and VM 0
    is refused its notification bitmap, which the test created and did not
    destroy. *)
Theorem self_test_leaves_shares checks el3_mem el3_regs rxb buf registered m :
  let h := (test_until_mailboxes checks el3_mem el3_regs true rxb buf (warm_tfa registered m)).1 in
  active_shares h = [(2, 2); (3, 2); (4, 2); (5, 2); (7, 2); (8, 2)] /\
  status (req checks el3_mem el3_regs true rxb (by_handle FFA_MEM_RETRIEVE_REQ_32 2) (set_cur_vm 1 h)) = Some FFA_MEM_RETRIEVE_RESP /\
  status (req checks el3_mem el3_regs true rxb (x0123 FFA_NOTIFICATION_BITMAP_CREATE 1 1 0) h) = Some FFA_ERROR.
Proof. destruct checks; vm_compute; split_and!; reflexivity. Qed.
