(* ===== verification/UnitTests.v ===== *)
(** * UnitTests: the repository's unit tests, run on the definitions

    Tests of tests/ that [rust_main] calls before the guests and that exercise
    one component without hardware: the decoder, the scheduler, the emulated
    distributor, redistributors and clock, the contexts and the dispatcher of
    the secure partition manager, and the page ownership bits.  Each is the
    list of its checks, in order, and each check holds on the definitions of
    this development, which were made from src/ alone.  The FF-A test, which
    does not pass in every build, is in SelfTest. *)

From Stdlib Require Import ZArith Bool.
From stdpp Require Import base decidable option list strings.
From S2P Require Import Prelude Memory Allocator Stage2 FfaCore FfaNotif FfaProxy Sched Regs Spmc GicDev PrimeCell.
Import Walker Mapper.

Definition all_hold (l : list bool) : bool := forallb id l.

(** ** test_decode.rs *)
Definition assert_store (a : option MmioAccess) (reg size : Z) : bool :=
  match a with Some a => is_store a && (access_reg a =? reg) && (access_size a =? size) | None => false end.
Definition assert_load (a : option MmioAccess) (reg size : Z) : bool :=
  match a with Some a => is_load a && (access_reg a =? reg) && (access_size a =? size) | None => false end.
Definition iss (sas srt wnr : Z) : Z :=
  Z.lor (Z.lor (Z.lor (Z.shiftl 1 24) (Z.shiftl sas 22)) (Z.shiftl srt 16)) (Z.shiftl wnr 6).
Definition run_decode_test : list bool :=
  [ assert_store (decode 0 (iss 2 5 1)) 5 4;
    assert_load (decode 0 (iss 0 10 0)) 10 1;
    assert_load (decode 0 (iss 3 0 0)) 0 8;
    assert_store (decode 0 (iss 1 15 1)) 15 2;
    assert_store (decode 0xb9000261 0) 1 4;
    assert_load (decode 0xb9400262 0) 2 4;
    assert_store (decode 0x39000003 0) 3 1;
    assert_load (decode 0x79400024 0) 4 2;
    bool_decide (decode 0x8b010000 0 = None) ].
Example decode_test_passes : all_hold run_decode_test = true.
Proof. vm_compute. reflexivity. Qed.

(** ** test_scheduler.rs *)
Definition picks (p : Scheduler * option nat) (id : nat) : bool := bool_decide (p.2 = Some id).
Definition run_scheduler_test : list bool :=
  let s := add_vcpu (add_vcpu (add_vcpu sched_new 0) 1) 2 in
  let p0 := pick_next s in
  let p1 := pick_next (yield_current p0.1) in
  let p2 := pick_next (yield_current p1.1) in
  let p3 := pick_next (yield_current p2.1) in
  let p4 := pick_next (block_current p3.1) in
  let p5 := pick_next (yield_current (unblock p4.1 0)) in
  let p6 := pick_next (yield_current p5.1) in
  [picks p0 0; picks p1 1; picks p2 2; picks p3 0; picks p4 1; picks p6 0].
Example scheduler_test_passes : all_hold run_scheduler_test = true.
Proof. vm_compute. reflexivity. Qed.

(** ** test_gicd.rs *)
Definition reads (o : option Z) (v : Z) : bool := bool_decide (o = Some v).
Definition run_gicd_test : list bool :=
  let d0 := gicd_new 4 in
  let d1 := gicd_write d0 0x000 0x01 4 in
  let typer := default 0 (gicd_read d1 0x004 4) in
  let d2 := gicd_write d1 0x104 0x00010002 4 in
  let d3 := gicd_write d2 0x184 0x00000002 4 in
  let d4 := gicd_write d3 0x6180 0x02 8 in
  [ Z.testbit (default 0 (gicd_read d0 0x000 4)) 4;
    reads (gicd_read d1 0x000 4) 0x11;
    Z.land (Z.shiftr typer 5) 0x7 =? 3;
    reads (gicd_read d2 0x104 4) 0x00010002;
    reads (gicd_read d3 0x104 4) 0x00010000;
    gicd_route_spi d4 48 =? 2;
    reads (gicd_read d4 0x6180 8) 0x02;
    (gicd_route_spi d4 15 =? 0) && (gicd_route_spi d4 31 =? 0);
    reads (gicd_read d4 0xFFE8 4) 0x30;
    reads (gicd_read d4 0x008 4) 0x0000043B ].
Example gicd_test_passes : all_hold run_gicd_test = true.
Proof. vm_compute. reflexivity. Qed.

(** ** test_gicr.rs *)
Definition typer_is (o : option Z) (aff0 last : Z) : bool :=
  match o with Some t => (Z.land (Z.shiftr t 32) 0xFF =? aff0) && (Z.land (Z.shiftr t 4) 1 =? last) | None => false end.
Definition run_gicr_test : list bool :=
  match gicr_new 4 with
  | None => [false]
  | Some g0 =>
      let g1 := gicr_write g0 0x0014 0x00 4 in
      let g2 := gicr_write g1 0x30100 0xFF00 4 in
      let g3 := gicr_write g2 0x30180 0x0F00 4 in
      let g4 := gicr_write g3 0x10C00 0x0 4 in
      [ typer_is (gicr_read g0 0x0008 8) 0 0;
        typer_is (gicr_read g0 0x60008 8) 3 1;
        reads (gicr_read g0 0x0014 4) 0x06;
        reads (gicr_read g1 0x0014 4) 0x00;
        reads (gicr_read g2 0x30100 4) 0xFF00;
        reads (gicr_read g3 0x30100 4) 0xF000;
        reads (gicr_read g3 0x10100 4) 0;
        reads (gicr_read g3 0xFFE8 4) 0x30;
        bool_decide (gicr_read g3 0x10C00 4 = gicr_read g4 0x10C00 4) ]
  end.
Example gicr_test_passes : all_hold run_gicr_test = true.
Proof. vm_compute. reflexivity. Qed.

(** ** test_pl031.rs, at any counter and frequency *)
Definition run_pl031_test (cntvct cntfrq : Z) : list bool :=
  let d0 := pl031_new cntvct in
  let d1 := (pl031_write cntvct d0 0x008 1000 4).1 in
  let d2 := (pl031_write cntvct d1 0x00C 1 4).1 in
  let rd off := pl031_read cntvct cntfrq d2 off 4 in
  [ bool_decide (is_Some (pl031_read cntvct cntfrq d0 0x000 4));
    match rd 0x000 with Some v => 1000 <=? v | None => false end;
    reads (rd 0xFE0) 0x31 && reads (rd 0xFE4) 0x10 && reads (rd 0xFE8) 0x04 && reads (rd 0xFF0) 0x0D && reads (rd 0xFF4) 0xF0;
    reads (rd 0x100) 0 ].
Example pl031_test_passes : all_hold (run_pl031_test 123456789 62500000) = true.
Proof. vm_compute. reflexivity. Qed.

(** ** test_sp_context.rs *)
Definition sp_in (r : result SpContext string) (st : SpState) : bool :=
  match r with Ok sp => bool_decide (sp_state sp = st) | Err _ => false end.
Definition then_to (st : SpState) (r : result SpContext string) : result SpContext string :=
  match r with Ok sp => transition_to st sp | Err e => Err e end.
Definition run_sp_context_test : list bool :=
  let new id := sp_context_new id 0x0e300000 0x0e400000 [0; 0; 0; 0] in
  let idle := transition_to SpIdle (new 0x8001) in
  let running := then_to SpRunning idle in
  let args := get_args (set_args (mkRegs 0xAA 0xBB 0xCC 0xDD 0xEE 0xFF 0x11 0x22) (new 0x8001)) in
  let preempted := then_to SpPreempted (then_to SpRunning (transition_to SpIdle (new 0x8003))) in
  let resumed := then_to SpRunning preempted in
  [ bool_decide (sp_state (new 0x8001) = SpReset) && (sp_id (new 0x8001) =? 0x8001) && (sp_entry (new 0x8001) =? 0x0e300000);
    sp_in idle SpIdle; sp_in running SpRunning; sp_in (then_to SpIdle running) SpIdle;
    negb (is_ok (transition_to SpRunning (sp_context_new 0x8002 0x0e400000 0x0e500000 [0; 0; 0; 0])));
    (ctx_pc (sp_ctx (new 0x8001)) =? 0x0e300000) && (ctx_sp (sp_ctx (new 0x8001)) =? 0x0e400000) &&
      (spsr_el2 (sp_ctx (new 0x8001)) =? 0x3C5);
    (rx0 args =? 0xAA) && (rx3 args =? 0xDD) && (rx7 args =? 0x22);
    sp_in preempted SpPreempted; sp_in resumed SpRunning;
    negb (is_ok (then_to SpIdle (then_to SpPreempted resumed))) ].
Example sp_context_test_passes : all_hold run_sp_context_test = true.
Proof. vm_compute. reflexivity. Qed.

(** ** test_spmc_handler.rs *)
Definition spmc0 : spmc_state := mkSpmc [None; None; None; None] NWD_RXTX_init false false 0 (fun _ => 0).
Definition zero_req (fid : Z) : SmcResult8 := smc1 fid.
Definition with_x1 (fid x1 : Z) : SmcResult8 := mkRegs fid x1 0 0 0 0 0 0.
(** A request and what is checked of its response. *)
Definition ask (req : SmcResult8) (ok : SmcResult8 -> bool) (p : spmc_state * list bool) : spmc_state * list bool :=
  match dispatch_ffa req p.1 with
  | (s, Ok r) => (s, ok r :: p.2)
  | (s, Err _) => (s, false :: p.2)
  end.
Definition is_x0 (v : Z) (r : SmcResult8) : bool := rx0 r =? v.
Definition is_x02 (v0 v2 : Z) (r : SmcResult8) : bool := (rx0 r =? v0) && (rx2 r =? v2).
Definition is_error (code : Z) (r : SmcResult8) : bool := is_x02 FFA_ERROR (u64 code) r.
Definition register_test_sp (p : spmc_state * list bool) : spmc_state * list bool :=
  match register_sp (sp_context_new 0x8001 0x1000 0x2000 (repeat 0xAA 4)) (sm_sps p.1) with
  | Some l => (with_sps p.1 l, p.2)
  | None => (p.1, false :: p.2)
  end.
Definition spmc_map_req (tx : Z) : SmcResult8 := mkRegs FFA_RXTX_MAP tx 0x60002000 1 0 0 0 0.
Definition run_spmc_handler_test : list bool :=
  let p := (spmc0, []) in
  let p := ask (zero_req FFA_VERSION) (is_x0 FFA_VERSION_1_1) p in
  let p := ask (zero_req FFA_ID_GET) (is_x02 FFA_SUCCESS_32 FFA_SPMC_ID) p in
  let p := ask (zero_req FFA_SPM_ID_GET) (is_x02 FFA_SUCCESS_32 FFA_SPMC_ID) p in
  let p := ask (with_x1 FFA_FEATURES FFA_VERSION) (is_x0 FFA_SUCCESS_32) p in
  let p := ask (with_x1 FFA_FEATURES FFA_RXTX_MAP) (is_x0 FFA_SUCCESS_32) p in
  let p := ask (with_x1 FFA_FEATURES 0xDEAD) (is_error FFA_NOT_SUPPORTED) p in
  let p := ask (zero_req FFA_PARTITION_INFO_GET) (is_x02 FFA_SUCCESS_32 0) p in
  let p := register_test_sp p in
  let p := ask (zero_req FFA_PARTITION_INFO_GET) (is_x02 FFA_SUCCESS_32 1) p in
  let p := ask (mkRegs FFA_MSG_SEND_DIRECT_REQ_32 0x18001 0 0xAAAA 0xBBBB 0xCCCC 0xDDDD 0xEEEE)
    (fun r => is_x0 FFA_MSG_SEND_DIRECT_RESP_32 r && (rx1 r =? 0x80010001) && (rx3 r =? 0xAAAA) && (rx4 r =? 0xBBBB) &&
       (rx5 r =? 0xCCCC) && (rx6 r =? 0xDDDD) && (rx7 r =? 0xEEEE)) p in
  let p := ask (mkRegs FFA_MSG_SEND_DIRECT_REQ_32 0xFFFF8000 (Z.lor FFA_FWK_MSG_BIT SPMD_FWK_MSG_FFA_VERSION_REQ) FFA_VERSION_1_1 0 0 0 0)
    (fun r => is_x0 FFA_MSG_SEND_DIRECT_RESP_32 r && (rx1 r =? 0x8000FFFF) &&
       (rx2 r =? Z.lor FFA_FWK_MSG_BIT SPMD_FWK_MSG_FFA_VERSION_RESP) && (rx3 r =? FFA_VERSION_1_1) && (rx4 r =? 0)) p in
  let p := ask (zero_req 0xDEADBEEF) (is_error FFA_NOT_SUPPORTED) p in
  let p := ask (spmc_map_req 0x60001000) (is_x0 FFA_SUCCESS_32) p in
  let p := ask (spmc_map_req 0x60001000) (is_error FFA_DENIED) p in
  let p := ask (zero_req FFA_RX_RELEASE) (is_x0 FFA_SUCCESS_32) p in
  let p := ask (zero_req FFA_RXTX_UNMAP) (is_x0 FFA_SUCCESS_32) p in
  let p := ask (zero_req FFA_RXTX_UNMAP) (is_error FFA_DENIED) p in
  let p := ask (spmc_map_req 0x60001001) (is_error FFA_INVALID_PARAMETERS) p in
  let p := ask (with_x1 FFA_FEATURES FFA_RUN) (is_x0 FFA_SUCCESS_32) p in
  let p := ask (with_x1 FFA_RUN (Z.shiftl 0x9999 16)) (is_error FFA_INVALID_PARAMETERS) p in
  (ask (with_x1 FFA_RUN (Z.shiftl 0x8001 16)) (is_error FFA_DENIED) p).2.
Example spmc_handler_test_passes : all_hold run_spmc_handler_test = true.
Proof. vm_compute. reflexivity. Qed.

(** ** test_page_ownership.rs: from any heap, [None] when an [unwrap] fails *)
Definition new_mapper (base : Z) (s : machine) : option (machine * DynamicIdentityMapper) :=
  match mapper_new s with
  | (s, Ok dm) => match map_region base 0x200000 Normal (s, dm) with ((s, dm), Ok _) => Some (s, dm) | _ => None end
  | _ => None
  end.
Definition unwrap {S} (r : S * result unit string) : option S := match r with (s, Ok _) => Some s | _ => None end.
Definition run_page_ownership_test (s : machine) : option (list bool) :=
  p ← new_mapper 0x50000000 s;
  let sw (p : machine * DynamicIdentityMapper) ipa v := bool_decide (mapper_read_sw_bits (hm_mem p.1) p.2 ipa = v) in
  p1 ← unwrap (mapper_write_sw_bits 0x50000000 1 p);
  p2 ← unwrap (mapper_write_sw_bits 0x50000000 0 p1);
  q ← new_mapper 0x60000000 p2.1;
  let w := Walker.new (dm_l0_table q.2) in
  let bits s ipa v := bool_decide (read_sw_bits (hm_mem s) w ipa = Some v) in
  let ap s ipa v := bool_decide (read_s2ap (hm_mem s) w ipa = Some v) in
  s1 ← unwrap (write_sw_bits w 0x60001000 1 q.1);
  s2 ← unwrap (set_s2ap w 0x60001000 1 s1);
  Some [ sw p 0x50000000 (Some 0); sw p1 0x50000000 (Some 1); sw p2 0x50000000 (Some 0); sw p2 0x90000000 None;
         bits q.1 0x60000000 0; bits s1 0x60001000 1; bits s1 0x60000000 0; ap s2 0x60001000 1; ap s2 0x60000000 3 ].
Example page_ownership_test_passes :
  all_hold <$> run_page_ownership_test (mkMachine (fun _ => 0) (heap_init_at 0x41000000 0x100000) []) = Some true.
Proof. vm_compute. reflexivity. Qed.
