(* ===== verification/SpmBoot.v ===== *)
(** * SpmBoot: boot of the secure partition manager, and its isolation

    [secure_stage2.rs] and [rust_main_sel2] of [main.rs] (feature [sel2]):
    discovery, the registers of the core, the secure heap, the Stage-2 tables
    of the partition SP1, its package header and context, its first run, and
    the event loop of Spmc.  The theorems compose the mapper, the heap and the
    dispatcher: booting cannot fail, and whatever SP1 does afterwards stays
    inside the blocks its tables map.

    As in Spmc, running a partition is a parameter; what the hardware
    guarantees of it is the hypothesis [sp_confined]: a partition only writes
    where the Stage-2 tree it runs under lets it.  SPMD is the list of the
    requests it sends, the first of them in answer to FFA_MSG_WAIT. *)

From Stdlib Require Import ZArith Lia Bool List.
From stdpp Require Import base decidable option list strings.
From S2P Require Import Prelude Memory Allocator Stage2 Stage2Spec Stage2Bits Stage2Ops Stage2Walk Stage2Boot Stage2Thms FfaCore FfaNotif FfaProxy Regs Spmc VGic CoreInit Platform VmMem.
Import Walker Mapper.

(** ** Layout of secure memory ([platform.rs]) *)
Definition SP1_LOAD_ADDR : Z := 0x0e300000.
Definition SP1_MEM_SIZE : Z := 0x100000.
Definition SP1_STACK_TOP : Z := SP1_LOAD_ADDR + SP1_MEM_SIZE.
Definition SP1_PARTITION_ID : Z := 0x8001.
Definition SECURE_HEAP_START : Z := 0x0e500000.
Definition SECURE_HEAP_SIZE : Z := 0x0f000000 - SECURE_HEAP_START.
Definition SP_UART_BASE : Z := 0x09000000.
(** Where linker_sel2.ld puts the manager itself. *)
Definition SPMC_BASE : Z := 0x0e100000.
Definition sp1_uuid : list Z := [0x12345678; 0x12345678; 0x12345678; 0x12345678].

(** ** Secure Stage-2 *)
Definition build_sp_stage2 (sp_base sp_size : Z) : s2m DynamicIdentityMapper := fun s =>
  match mapper_new s with
  | (s, Err e) => (s, Err e)
  | (s, Ok dm) =>
      match (map_region sp_base sp_size Normal ;;; map_region SP_UART_BASE BLOCK_SIZE_2MB Device) (s, dm) with
      | ((s, dm), Ok _) => (s, Ok dm)
      | ((s, _), Err e) => (s, Err e)
      end
  end.
Definition secure_install (c : SecureStage2Config) : corem unit :=
  msr R_VSTCR_EL2 (ss_vstcr c) ;;; msr R_VSTTBR_EL2 (ss_vsttbr c).

(** ** [rust_main_sel2] *)
Record sel2_boot := mkBoot {
  sb_core : core;
  sb_info : PlatformInfo * bool;
  sb_manifest : SpMcManifest;
  sb_heap : option BumpAllocator;
  sb_config : SecureStage2Config;
  sb_spmc : spmc_state
}.

Section Boot.
Context (enter_guest : Z -> mem -> VcpuContext -> mem * VcpuContext * bool) (from_ptr : mem -> Z -> option fdt).

(** The core up to the entry of SP1. *)
Definition sel2_core_early (vbar : Z) : corem unit := exception_init vbar ;;; gicv3_init.
Definition sel2_core_late (config : SecureStage2Config) : corem unit :=
  secure_install config ;;;
  orr_reg R_HCR_EL2 HCR_VM ;;;
  msr R_SCTLR_EL1 0 ;;; msr R_TCR_EL1 0 ;;; msr R_TTBR0_EL1 0 ;;; msr R_VBAR_EL1 0.

(** SP1 from its package: the header's image offset gives the entry point. *)
Definition sp1_context (m : mem) (config : SecureStage2Config) : SpContext :=
  let img_offset := read32 m (SP1_LOAD_ADDR + 4 * 4) in
  set_vsttbr (ss_vsttbr config)
    (sp_context_new SP1_PARTITION_ID (u64 (SP1_LOAD_ADDR + img_offset)) SP1_STACK_TOP sp1_uuid).

(** Up to [signal_spmc_ready]; an [Err] is a panic. *)
Definition sel2_init (vbar manifest_addr hw_config_addr : Z) (c : core) (m : mem) : result sel2_boot string :=
  let c := (sel2_core_early vbar c).1 in
  let manifest := manifest_init from_ptr m manifest_addr in
  let info := if negb (hw_config_addr =? 0) then dtb_init from_ptr m hw_config_addr (PLATFORM_DEFAULT, false)
              else (PLATFORM_DEFAULT, false) in
  match build_sp_stage2 SP1_LOAD_ADDR SP1_MEM_SIZE (mkMachine m (heap_init_at SECURE_HEAP_START SECURE_HEAP_SIZE) []) with
  | (_, Err e) => Err e
  | (s, Ok mapper) =>
      let config := secure_stage2_new (dm_l0_table mapper) in
      let c := (sel2_core_late config c).1 in
      let sp1 := sp1_context (hm_mem s) config in
      let '(m, ctx, irq) := enter_guest (ss_vsttbr config) (hm_mem s) (sp_ctx sp1) in
      let sp1 := set_sp_ctx ctx sp1 in
      match (if rx0 (get_args sp1) =? FFA_MSG_WAIT then transition_to SpIdle sp1 else Ok sp1) with
      | Err _ => Err "SP1 transition failed"%string
      | Ok sp1 =>
          match register_sp sp1 SP_STORE_init with
          | None => Err "No free SP slots"%string
          | Some slots =>
              Ok (mkBoot c info manifest (hm_heap s) config
                    (mkSpmc slots NWD_RXTX_init irq false (ss_vsttbr config) m))
          end
      end
  end.

(** The whole of [rust_main_sel2], for the requests SPMD sends. *)
Definition rust_main_sel2 (vbar manifest_addr hw_config_addr : Z) (c : core) (m : mem) (reqs : list SmcResult8)
    : result (sel2_boot * (spmc_state * result (list SmcResult8) string)) string :=
  match sel2_init vbar manifest_addr hw_config_addr c m with
  | Err e => Err e
  | Ok b => Ok (b, run_event_loop enter_guest reqs (sb_spmc b))
  end.
End Boot.

(** ** Regions that do not start at a block *)
Definition floor_2mb (x : Z) : Z := x - x mod 2 ^ 21.

Lemma floor_shiftr x k : 21 <= k -> Z.shiftr (floor_2mb x) k = Z.shiftr x k.
Proof.
  intros Hk. unfold floor_2mb. rewrite !Z.shiftr_div_pow2 by lia.
  replace k with (21 + (k - 21)) by lia. rewrite Z.pow_add_r, <- !Z.div_div by lia. f_equal.
  Z.div_mod_to_equations. lia.
Qed.
Lemma map_block_floor x attr : fits 64 x -> map_block x attr = map_block (floor_2mb x) attr.
Proof.
  intros Hx. unfold map_block, l1_index, l2_index, make_block_entry. rewrite !floor_shiftr by lia.
  assert (Hf : fits 64 (floor_2mb x)) by (unfold fits, floor_2mb in *; Z.div_mod_to_equations; lia).
  unfold BLOCK_MASK_2MB, BLOCK_SIZE_2MB, not64. change (2 * 1024 * 1024 - 1) with (2 ^ 21 - 1). rewrite !land_notw_low by (done || lia).
  replace (floor_2mb x mod 2 ^ 21) with 0; [by rewrite Z.sub_0_r|]. unfold floor_2mb. Z.div_mod_to_equations. lia.
Qed.

(** [map_region] rounds the start down to a block, and does not lengthen the
    region by what it rounded off. *)
Lemma map_region_floor ipa size attr : 0 <= ipa -> 0 <= size -> ipa + size <= 2 ^ 39 ->
  forall s, map_region ipa size attr s = map_region (floor_2mb ipa) size attr s.
Proof.
  intros H0 Hs Hm. unfold map_region.
  assert (Hl : forall fuel off, off mod 2 ^ 21 = 0 -> 0 <= off ->
    forall s, map_region_loop fuel ipa size off attr s = map_region_loop fuel (floor_2mb ipa) size off attr s).
  { induction fuel as [|fuel IH]; intros off Ho Hp s; cbn [map_region_loop]; [done|].
    destruct (Z.ltb_spec off size) as [Hlt|]; cbn [negb]; [|done].
    assert (Hf : 0 <= floor_2mb ipa <= ipa) by (unfold floor_2mb; Z.div_mod_to_equations; lia).
    assert (E1 : u64 (ipa + off) = ipa + off) by (apply wrap_id; unfold fits; lia).
    assert (E2 : u64 (floor_2mb ipa + off) = floor_2mb ipa + off) by (apply wrap_id; unfold fits; lia).
    assert (E3 : u64 (off + BLOCK_SIZE_2MB) = off + 2 ^ 21) by (apply wrap_id; unfold fits, BLOCK_SIZE_2MB; lia).
    assert (E4 : floor_2mb (ipa + off) = floor_2mb ipa + off) by (unfold floor_2mb; clear -Ho; Z.div_mod_to_equations; lia).
    rewrite E1, E2, E3, map_block_floor, E4 by (unfold fits; lia). unfold sm_bind.
    destruct (map_block _ _ s) as [s1 [u|e]]; [|done]. apply IH; [|lia]. clear -Ho. Z.div_mod_to_equations. lia. }
  apply Hl; [done|lia].
Qed.

(** ** The tables of SP1 *)

(** Two blocks: the UART's, and the one SP1 is loaded in, which begins one
    megabyte before SP1 does. *)
Definition sp1_map (ipa : Z) : option pdesc :=
  if ipa_in SP_UART_BASE (SP_UART_BASE + BLOCK_SIZE_2MB) ipa then Some (id_desc_of Device ipa)
  else if ipa_in (floor_2mb SP1_LOAD_ADDR) (SP1_LOAD_ADDR + SP1_MEM_SIZE) ipa then Some (id_desc_of Normal ipa)
  else None.
Definition in_secure_heap (x : Z) : Prop := SECURE_HEAP_START <= x < SECURE_HEAP_START + SECURE_HEAP_SIZE.
Definition sel2_machine (m : mem) : machine := mkMachine m (heap_init_at SECURE_HEAP_START SECURE_HEAP_SIZE) [].

Lemma sel2_heap_ok m : heap_ok SECURE_HEAP_START (sel2_machine m) [] [].
Proof.
  exists (BumpAllocator_new SECURE_HEAP_START SECURE_HEAP_SIZE), []. split_and!; [done|by vm_compute|by apply alloc_inv_init].
Qed.

(** The construction succeeds on every memory, by evaluation. *)
Lemma build_sp1_ok m : let r := build_sp_stage2 SP1_LOAD_ADDR SP1_MEM_SIZE (sel2_machine m) in
  is_ok r.2 = true /\ (ba_end <$> hm_heap r.1) = Some (SECURE_HEAP_START + SECURE_HEAP_SIZE).
Proof. by split; vm_compute. Qed.

(** Tables live in the heap they were allocated from. *)
Lemma heap_ok_in start s own others hi t : heap_ok start s own others -> (ba_end <$> hm_heap s) = Some hi -> In t own ->
  start <= t /\ t + 4096 <= hi.
Proof.
  intros (a & free & Ea & _ & [_ Hn _ _ _ Hin _]) Hhi Ht. rewrite Ea in Hhi. injection Hhi as <-.
  rewrite List.Forall_forall in Hin. destruct (Hin (page_region t)) as (H1 & _ & H2).
  { apply in_or_app. left. apply in_or_app. left. by apply in_map. }
  cbn in H1, H2. lia.
Qed.

(** The tables of a partition loaded anywhere below 512GB. *)
Lemma build_sp_stage2_spec start s base size s' dm : heap_ok start s [] [] ->
  0 <= base -> 0 <= size -> base + size <= 2 ^ 39 ->
  build_sp_stage2 base size s = (s', Ok dm) -> exists own,
    dm_inv start s' dm own [] /\ (forall x, outside own x -> hm_mem s' x = hm_mem s x) /\
    forall ipa, s2_lookup (hm_mem s') (dm_l0_table dm) ipa =
      region_look SP_UART_BASE (SP_UART_BASE + round_2mb BLOCK_SIZE_2MB) Device
        (region_look (floor_2mb base) (floor_2mb base + round_2mb size) Normal (fun _ => None)) ipa.
Proof.
  intros Hh H0 Hs Hm H. unfold build_sp_stage2 in H.
  destruct (mapper_new s) as [s0 [dm0|e]] eqn:En; [|discriminate].
  destruct (mapper_new_spec _ _ _ _ _ Hh En) as (Hd & Hl & Hx0).
  unfold sm_bind in H. rewrite map_region_floor in H by done.
  destruct (map_region (floor_2mb base) size Normal (s0, dm0)) as [[s1 dm1] [u|e]] eqn:E1; [|discriminate].
  assert (Hf : floor_2mb base mod 2 ^ 21 = 0 /\ 0 <= floor_2mb base <= base) by (unfold floor_2mb; clear -H0; Z.div_mod_to_equations; lia).
  apply (map_region_spec _ _ _ _ _ _ _ _ _ _ _ Hd) in E1; [|tauto|lia..].
  destruct (dm_effect_split _ _ _ _ _ _ _ _ E1) as (own1 & Hd1 & Hl1 & Hc).
  destruct (map_region SP_UART_BASE BLOCK_SIZE_2MB Device (s1, dm1)) as [[s2 dm2] [u2|e]] eqn:E2; [|discriminate].
  injection H as <- <-.
  apply (map_region_spec _ _ _ _ _ _ _ _ _ _ _ Hd1) in E2; [|unfold SP_UART_BASE, BLOCK_SIZE_2MB; done || lia..].
  apply Hc in E2 as (own & Hd2 & Hincl & Hx & Hl2 & _). exists own. split_and!; [done| |].
  - intros x Ho. rewrite Hx by done. apply Hx0. by eapply outside_incl.
  - intros ipa. rewrite Hl2. unfold region_look. rewrite Hl1. unfold region_look. by rewrite Hl.
Qed.

Lemma sp1_stage2 m : exists s dm own,
  build_sp_stage2 SP1_LOAD_ADDR SP1_MEM_SIZE (sel2_machine m) = (s, Ok dm) /\
  dm_inv SECURE_HEAP_START s dm own [] /\
  (forall ipa, s2_lookup (hm_mem s) (dm_l0_table dm) ipa = sp1_map ipa) /\
  (forall t, In t own -> SECURE_HEAP_START <= t /\ t + 4096 <= SECURE_HEAP_START + SECURE_HEAP_SIZE) /\
  (forall x, ~ in_secure_heap x -> hm_mem s x = m x).
Proof.
  destruct (build_sp1_ok m) as [Hok Hend].
  destruct (build_sp_stage2 SP1_LOAD_ADDR SP1_MEM_SIZE (sel2_machine m)) as [s [dm|e]] eqn:E; [|discriminate].
  destruct (build_sp_stage2_spec _ _ SP1_LOAD_ADDR SP1_MEM_SIZE _ _ (sel2_heap_ok m) ltac:(unfold SP1_LOAD_ADDR; lia) ltac:(unfold SP1_MEM_SIZE; lia)
    ltac:(unfold SP1_LOAD_ADDR, SP1_MEM_SIZE; lia) E) as (own & Hd & Hx & Hl).
  pose proof (fun t => heap_ok_in _ _ _ _ _ t (si_heap _ _ _ _ _ (di_inv _ _ _ _ _ Hd)) Hend) as Hown.
  exists s, dm, own. split_and!; [done|done| |by apply Hown..|].
  - intros ipa. rewrite Hl.
    replace (SP_UART_BASE + round_2mb BLOCK_SIZE_2MB) with (SP_UART_BASE + BLOCK_SIZE_2MB) by by vm_compute.
    replace (floor_2mb SP1_LOAD_ADDR + round_2mb SP1_MEM_SIZE) with (SP1_LOAD_ADDR + SP1_MEM_SIZE) by by vm_compute. done.
  - intros x Hout. unfold in_secure_heap in Hout. rewrite Hx; [done|]. intros t Ht Hr. apply Hown in Ht. lia.
Qed.

(** ** Confinement *)
Definition root_of (vsttbr : Z) : Z := Z.land vsttbr 0x0000FFFFFFFFFFFE.
(** Bit 1 of S2AP allows writes. *)
Definition writable (d : pdesc) : bool := Z.testbit (pd_s2ap d) 1.
(** What the hardware guarantees of code below EL2: a byte that changes is
    one the Stage-2 tree in VSTTBR_EL2 maps writable. *)
Definition sp_confined (enter_guest : Z -> mem -> VcpuContext -> mem * VcpuContext * bool) : Prop :=
  forall v m c m' c' irq, enter_guest v m c = (m', c', irq) -> forall x, m' x <> m x ->
    exists ipa d, s2_lookup m (root_of v) ipa = Some d /\ writable d = true /\ x = pd_pa d + ipa mod 4096.

Definition in_sp1 (x : Z) : Prop :=
  SP_UART_BASE <= x < SP_UART_BASE + BLOCK_SIZE_2MB \/ floor_2mb SP1_LOAD_ADDR <= x < SP1_LOAD_ADDR + SP1_MEM_SIZE.

Lemma root_of_table t : t mod 4096 = 0 -> 0 < t < 2 ^ 48 -> root_of t = t.
Proof.
  intros Ha Hr. unfold root_of. change 0x0000FFFFFFFFFFFE with (bmask 1 47). bit_ext i Hi.
  destruct (Z.leb_spec 1 i), (Z.ltb_spec i (1 + 47)); rewrite ?andb_true_r, ?andb_false_r; try done.
  - by rewrite (testbit_small t 48) by (unfold fits; lia).
  - by rewrite (testbit_aligned t 12) by (done || lia).
  - by rewrite (testbit_aligned t 12) by (done || lia).
Qed.

Lemma sp1_map_reach ipa d : sp1_map ipa = Some d -> in_sp1 (pd_pa d + ipa mod 4096).
Proof.
  unfold sp1_map, ipa_in, in_sp1, id_desc_of. intros H.
  destruct ((SP_UART_BASE <=? _) && _) eqn:E; [|destruct ((floor_2mb _ <=? _) && _) eqn:E'; [|discriminate]];
    injection H as <-; cbn [pd_pa].
  - apply andb_true_iff in E as [E1%Z.leb_le E2%Z.ltb_lt]. lia.
  - apply andb_true_iff in E' as [E1%Z.leb_le E2%Z.ltb_lt]. lia.
Qed.

Lemma in_sp1_heap x : in_sp1 x -> ~ in_secure_heap x.
Proof.
  unfold in_sp1, in_secure_heap. change (floor_2mb SP1_LOAD_ADDR) with 0x0e200000.
  unfold SP_UART_BASE, BLOCK_SIZE_2MB, SP1_LOAD_ADDR, SP1_MEM_SIZE, SECURE_HEAP_START, SECURE_HEAP_SIZE. lia.
Qed.

Section Isolation.
Context (enter_guest : Z -> mem -> VcpuContext -> mem * VcpuContext * bool) (Hconf : sp_confined enter_guest).
(** [W]: the bytes the normal world may register as RX buffers. *)
Context (W : Z -> Prop) (HW : forall x, W x -> ~ in_secure_heap x).
(** The memory SP1 first runs on, with its tables at [l0]. *)
Context (m0 : mem) (l0 : Z) (own : list Z).
Context (Hwf : s2_wf m0 l0 own) (Hlook : forall ipa, s2_lookup m0 l0 ipa = sp1_map ipa).
Context (Hown : forall t, In t own -> SECURE_HEAP_START <= t /\ t + 4096 <= SECURE_HEAP_START + SECURE_HEAP_SIZE).

Definition untouched (m : mem) : Prop := forall x, m x <> m0 x -> in_sp1 x \/ W x.

Lemma untouched_heap m : untouched m -> forall x, in_secure_heap x -> m x = m0 x.
Proof using HW.
  intros Hu x Hx. destruct (decide (m x = m0 x)) as [|Hne]; [done|]. destruct (Hu x Hne) as [H|H].
  - by destruct (in_sp1_heap x H).
  - by destruct (HW x H).
Qed.
Lemma untouched_lookup m : untouched m -> forall ipa, s2_lookup m l0 ipa = sp1_map ipa.
Proof using HW Hwf Hlook Hown.
  intros Hu ipa. rewrite <- Hlook. apply (s2_lookup_agree m0 l0 own Hwf). intros t Ht x Hx.
  apply untouched_heap; [done|]. apply Hown in Ht. unfold in_secure_heap. lia.
Qed.
Lemma root_l0 : root_of l0 = l0.
Proof using Hwf. destruct (wf_table _ _ _ Hwf 0 0 l0) as (Ha & Hr & _); [lia|done|]. by apply root_of_table. Qed.

Lemma run_untouched m c m' c' irq : untouched m -> enter_guest l0 m c = (m', c', irq) -> untouched m'.
Proof using Hconf HW Hwf Hlook Hown.
  intros Hu He x Hx. destruct (decide (m' x = m x)) as [E|Hne]; [apply Hu; by rewrite <- E|]. left.
  destruct (Hconf _ _ _ _ _ _ He x Hne) as (ipa & d & Hd & _ & ->). rewrite root_l0 in Hd.
  rewrite (untouched_lookup m Hu) in Hd. by apply sp1_map_reach.
Qed.
(** *** Requests *)
Definition rx_allowed (req : SmcResult8) : Prop :=
  rx0 req = FFA_RXTX_MAP -> forall x, rx2 req <= x < rx2 req + u32 (rx3 req) * 4096 -> W x.
(** What a partition is registered with. *)
Definition sp_described (i : option (Z * Z * Z * list Z)) : Prop :=
  match i with Some (id, _, v, uuid) => fits 16 id /\ v = l0 /\ length uuid = 4%nat | None => True end.
Record isolated (s : spmc_state) : Prop := {
  iso_quiet : Forall sp_quiet (sm_sps s);
  iso_ids : Forall sp_described (sp_identity <$> sm_sps s);
  iso_mem : untouched (sm_mem s);
  iso_rx : nw_mapped (sm_rxtx s) = true ->
    forall x, nw_rx_pa (sm_rxtx s) <= x < nw_rx_pa (sm_rxtx s) + nw_page_count (sm_rxtx s) * 4096 -> W x
}.

Lemma described_sp slots id sp : Forall sp_described (sp_identity <$> slots) -> get_sp id slots = Some sp ->
  sp_described (sp_identity (Some sp)).
Proof using Type.
  induction slots as [|x slots IH]; cbn [get_sp]; [done|]. rewrite fmap_cons. intros HF.
  apply Forall_cons in HF as [Hx HF]. destruct (slot_is id x); [by intros ->|auto].
Qed.
Lemma described_registered slots : Forall sp_described (sp_identity <$> slots) ->
  Forall (fun sp => length (sp_uuid sp) = 4%nat /\ fits 16 (sp_id sp)) (registered_sps slots).
Proof using Type.
  induction slots as [|[sp|] slots IH]; rewrite ?fmap_cons; intros HF; [constructor| |];
    apply Forall_cons in HF as [Hx HF]; cbn in *; [|by apply IH].
  constructor; [tauto|by apply IH].
Qed.

(** The requests the manager answers itself write nothing but the registered
    RX buffer. *)
Lemma local_isolated req s s' r : isolated s -> rx_allowed req -> dispatch_ffa req s = (s', r) ->
  untouched (sm_mem s') /\ (nw_mapped (sm_rxtx s') = true ->
    forall x, nw_rx_pa (sm_rxtx s') <= x < nw_rx_pa (sm_rxtx s') + nw_page_count (sm_rxtx s') * 4096 -> W x).
Proof using Type.
  intros [HQ Hids Hu Hrx] Ha H. unfold dispatch_ffa in H.
  repeat (match type of H with
    | (if rx0 req =? FFA_RXTX_MAP then _ else _) _ = _ => destruct (Z.eqb_spec (rx0 req) FFA_RXTX_MAP) as [Em|Em]
    | (if ?c then _ else _) _ = _ => destruct c
    | sm_bind sm_get _ _ = _ => unfold sm_bind at 1, sm_get at 1 in H
    | (match get_sp ?i ?l with Some _ => _ | None => _ end) _ = _ => destruct (get_sp i l)
    | spmc_rxtx_map _ _ = _ => unfold spmc_rxtx_map in H
    | spmc_rxtx_unmap _ = _ => unfold spmc_rxtx_unmap in H
    | spmc_rx_release _ = _ => unfold spmc_rx_release in H
    | sm_ret _ _ = _ => unfold sm_ret in H; injection H as <- _; by split; [|intros ?; apply Hrx]
    end; cbv beta zeta in H).
  - injection H as <- _. split; [exact Hu|]. intros _. exact (Ha Em).
  - injection H as <- _. split; [exact Hu|discriminate].
  - unfold spmc_partition_info_get, sm_bind, sm_get in H. cbv beta iota zeta in H.
    destruct (write_descriptors _ _ _ _ _ _) as [m' n'] eqn:Ew. injection H as <- _. split; [|exact Hrx].
    apply (write_descriptors_spec _ _ _ _ _ _ _ _ (described_registered _ Hids)) in Ew as (_ & Hfr & _); [|lia].
    intros x Hx. cbn [with_smem sm_mem] in Hx.
    destruct (decide (m' x = sm_mem s x)) as [E|Hne]; [apply Hu; by rewrite <- E|right].
    destruct (nw_mapped (sm_rxtx s)) eqn:Emap; [|destruct Hne; apply Hfr; by left].
    apply (Hrx eq_refl). destruct (Z.ltb_spec x (nw_rx_pa (sm_rxtx s))); [destruct Hne; apply Hfr; right; left; lia|].
    destruct (Z.leb_spec (nw_rx_pa (sm_rxtx s) + nw_page_count (sm_rxtx s) * 4096) x); [destruct Hne; apply Hfr; right; right; lia|]. lia.
Qed.

Lemma dispatch_isolated req s : isolated s -> rx_allowed req ->
  exists s' resp, dispatch_request enter_guest req s = (s', Ok resp) /\ isolated s' /\
    sp_identity <$> sm_sps s' = sp_identity <$> sm_sps s.
Proof using Hconf HW Hwf Hlook Hown.
  intros Hi Ha. pose proof Hi as [HQ Hids Hu Hrx].
  assert (Hrun : forall id sp, runs_sp s req id sp -> exists s' resp, run_sp enter_guest id sp s = (s', Ok resp) /\
    isolated s' /\ sp_identity <$> sm_sps s' = sp_identity <$> sm_sps s).
  { intros id sp Hr. destruct (runs_sp_facts _ _ _ _ Hr) as (Hspid & Hst & sp0 & Hg & Hsi).
    pose proof (described_sp _ _ _ Hids Hg) as Hdesc. rewrite <- Hsi in Hdesc. destruct Hdesc as (_ & Hv & _).
    destruct (enter_guest (sp_vsttbr sp) (sm_mem s) (sp_ctx sp)) as [[m c] irq] eqn:He.
    rewrite (run_sp_spec enter_guest s id sp m c irq Hspid Hst He). rewrite Hv in He.
    assert (Hid : sp_identity <$> put_sp id (sp_after sp c irq) (sm_sps s) = sp_identity <$> sm_sps s)
      by (eapply put_sp_identity; [exact Hg|by rewrite <- Hsi]).
    do 2 eexists. split_and!; [reflexivity| |exact Hid]. split; cbn; [|by rewrite Hid|by eapply run_untouched|exact Hrx].
    apply put_sp_forall; [done|]. cbn. destruct irq; auto. }
  destruct (dispatch_cases enter_guest req s) as [(id & sp & Hr & E)|(s' & resp & Hd & Hsp & _)];
    [rewrite E; by apply (Hrun id sp)|].
  exists s', resp. split_and!; [done| |by rewrite Hsp]. rewrite dispatch_request_eq in Hd. cbv zeta in Hd.
  assert (Hsame : forall resp', (s, @Ok _ string resp') = (s', Ok resp) -> isolated s') by (intros resp' [= <- _]; done).
  assert (Hrun' : forall id sp, runs_sp s req id sp -> run_sp enter_guest id sp s = (s', Ok resp) -> isolated s').
  { intros id sp Hr E. destruct (Hrun id sp Hr) as (s1 & r1 & E1 & H1 & _). rewrite E1 in E. by injection E as -> _. }
  destruct (((_ || _) && _)) eqn:Ed.
  { destruct (get_sp _ _) as [sp|] eqn:Hg; [|exact (Hsame _ Hd)].
    destruct (decide (sp_state sp = SpIdle)) as [Hs|Hs];
      [rewrite bool_decide_eq_true_2 in Hd by done|rewrite bool_decide_eq_false_2 in Hd by done; exact (Hsame _ Hd)].
    apply andb_true_iff in Ed as [Hf _]. rewrite orb_true_iff, !Z.eqb_eq in Hf.
    eapply Hrun'; [|exact Hd]. left. split; [done|]. split; [done|]. by exists sp. }
  destruct (Z.eqb_spec (rx0 req) FFA_RUN) as [Hr|Hr].
  { destruct (get_sp _ _) as [sp|] eqn:Hg; [|exact (Hsame _ Hd)].
    destruct (decide (sp_state sp = SpPreempted)) as [Hs|Hs];
      [rewrite bool_decide_eq_true_2 in Hd by done|rewrite bool_decide_eq_false_2 in Hd by done; exact (Hsame _ Hd)].
    eapply Hrun'; [|exact Hd]. right. by split_and!. }
  destruct (local_isolated _ _ _ _ Hi Ha Hd) as [Hm Hr']. split; [by rewrite Hsp|by rewrite Hsp|done|done].
Qed.

Lemma event_loop_isolated reqs : forall s, isolated s -> Forall rx_allowed reqs ->
  exists s' resps, run_event_loop enter_guest reqs s = (s', Ok resps) /\ length resps = length reqs /\
    isolated s' /\ sp_identity <$> sm_sps s' = sp_identity <$> sm_sps s.
Proof using Hconf HW Hwf Hlook Hown.
  induction reqs as [|req reqs IH]; intros s Hs HF; [by do 2 eexists|]. apply Forall_cons in HF as [Hr HF]. cbn [run_event_loop].
  unfold sm_bind. destruct (dispatch_isolated req s Hs Hr) as (s1 & r1 & -> & H1 & Hi1).
  destruct (IH s1 H1 HF) as (s2 & r2 & -> & Hl & H2 & Hi2). do 2 eexists. split; [reflexivity|].
  split_and!; [by simpl; rewrite Hl|done|by rewrite Hi2].
Qed.
End Isolation.

(** ** Booting *)
Section BootProofs.
Context (enter_guest : Z -> mem -> VcpuContext -> mem * VcpuContext * bool) (from_ptr : mem -> Z -> option fdt).

Lemma sel2_core_late_hcr config c : reg_value (sel2_core_late config c).1 R_HCR_EL2 = Z.lor (cr_reg c R_HCR_EL2) HCR_VM.
Proof. reflexivity. Qed.

(** SP1 as it is registered after its first run. *)
Definition sp1_booted (m0 : mem) (l0 : Z) (ctx : VcpuContext) : SpContext :=
  let sp := sp1_context m0 (mkSec l0 VSTCR) in
  let idle := get_reg (gp_regs ctx) 0 =? FFA_MSG_WAIT in
  mkSp ctx SP1_PARTITION_ID (if idle then SpIdle else SpReset) (sp_entry sp) l0 sp1_uuid.

(** [sel2_init] in one equation: it cannot fail. *)
Lemma sel2_init_eq vbar manifest_addr hw_config_addr c m : exists s dm own,
  dm_inv SECURE_HEAP_START s dm own [] /\
  (forall ipa, s2_lookup (hm_mem s) (dm_l0_table dm) ipa = sp1_map ipa) /\
  (forall t, In t own -> SECURE_HEAP_START <= t /\ t + 4096 <= SECURE_HEAP_START + SECURE_HEAP_SIZE) /\
  (forall x, ~ in_secure_heap x -> hm_mem s x = m x) /\
  let l0 := dm_l0_table dm in
  let '(m1, ctx, irq) := enter_guest l0 (hm_mem s) (sp_ctx (sp1_context (hm_mem s) (mkSec l0 VSTCR))) in
  sel2_init enter_guest from_ptr vbar manifest_addr hw_config_addr c m =
    Ok (mkBoot (sel2_core_late (mkSec l0 VSTCR) (sel2_core_early vbar c).1).1
          (if negb (hw_config_addr =? 0) then dtb_init from_ptr m hw_config_addr (PLATFORM_DEFAULT, false) else (PLATFORM_DEFAULT, false))
          (manifest_init from_ptr m manifest_addr) (hm_heap s) (mkSec l0 VSTCR)
          (mkSpmc [Some (sp1_booted (hm_mem s) l0 ctx); None; None; None] NWD_RXTX_init irq false l0 m1)).
Proof.
  destruct (sp1_stage2 m) as (s & dm & own & Eb & Hd & Hl & Ho & Hx). exists s, dm, own. do 4 (split; [assumption|]).
  cbv zeta. unfold sel2_init. fold (sel2_machine m). rewrite Eb.
  assert (Hroot : secure_stage2_new (dm_l0_table dm) = mkSec (dm_l0_table dm) VSTCR).
  { unfold secure_stage2_new. f_equal. apply root_of_table;
      by destruct (wf_table _ _ _ (si_wf _ _ _ _ _ (di_inv _ _ _ _ _ Hd)) 0 0 (dm_l0_table dm) ltac:(lia) eq_refl) as (? & ? & _). }
  rewrite Hroot. cbn [ss_vsttbr].
  destruct (enter_guest (dm_l0_table dm) (hm_mem s) _) as [[m1 ctx] irq]. unfold sp1_booted.
  change (rx0 (get_args (set_sp_ctx ctx _))) with (get_reg (gp_regs ctx) 0).
  by destruct (get_reg (gp_regs ctx) 0 =? FFA_MSG_WAIT).
Qed.
End BootProofs.

(** C25. The secure partition manager boots and confines its partition, if the
    Stage-2 unit lets SP1 store only where its installed tables allow
    ([sp_confined]) and if the normal world registers RX buffers only inside a
    set [W] of addresses outside the secure heap, which the manager itself
    does not check: on every memory and every state of the core,
    [rust_main_sel2] reaches its event loop and answers every such sequence of
    requests from SPMD, one response each, without a panic.  SP1 runs under
    tables in the secure heap that map the 2MB block of the UART and the 2MB
    block SP1 was loaded in, each page to itself, and nothing else; whatever
    SP1 does within them and whenever it is interrupted, after the requests
    the tables are still those, and no byte has changed but in the secure heap
    (while booting), in the two blocks, and in [W]. *)
Theorem sp1_isolated enter_guest from_ptr vbar manifest_addr hw_config_addr c m (W : Z -> Prop) reqs :
  sp_confined enter_guest -> (forall x, W x -> ~ in_secure_heap x) -> Forall (rx_allowed W) reqs ->
  exists b s' resps,
    rust_main_sel2 enter_guest from_ptr vbar manifest_addr hw_config_addr c m reqs = Ok (b, (s', Ok resps)) /\
    length resps = length reqs /\
    (reg_value (sb_core b) R_VSTTBR_EL2 = ss_vsttbr (sb_config b) /\ Z.testbit (reg_value (sb_core b) R_HCR_EL2) 0 = true) /\
    (exists sp, get_sp SP1_PARTITION_ID (sm_sps s') = Some sp /\ sp_vsttbr sp = ss_vsttbr (sb_config b)) /\
    (forall ipa, s2_lookup (sm_mem s') (ss_vsttbr (sb_config b)) ipa = sp1_map ipa) /\
    (forall x, sm_mem s' x <> m x -> in_secure_heap x \/ in_sp1 x \/ W x) /\
    (forall x, sm_mem s' x <> sm_mem (sb_spmc b) x -> in_sp1 x \/ W x).
Proof.
  intros Hconf HW HF. unfold rust_main_sel2.
  destruct (sel2_init_eq enter_guest from_ptr vbar manifest_addr hw_config_addr c m) as (s & dm & own & Hd & Hl & Ho & Hx & E).
  cbv zeta in E. set (l0 := dm_l0_table dm) in *. set (sp := sp_ctx _) in E.
  destruct (enter_guest l0 (hm_mem s) sp) as [[m1 ctx] irq] eqn:He. rewrite E. clear E.
  set (st := mkSpmc _ _ irq _ _ _).
  pose proof (si_wf _ _ _ _ _ (di_inv _ _ _ _ _ Hd)) as Hwf. fold l0 in Hwf.
  assert (Hu1 : untouched W (hm_mem s) m1).
  { eapply (run_untouched enter_guest Hconf W HW (hm_mem s) l0 own Hwf Hl Ho (hm_mem s)); [|exact He]. intros x Hne. done. }
  assert (Hiso : isolated W (hm_mem s) l0 st).
  { split; [| |exact Hu1|discriminate].
    - constructor; [cbn; destruct (_ =? _); auto|by repeat constructor].
    - by repeat constructor. }
  destruct (event_loop_isolated enter_guest Hconf W HW (hm_mem s) l0 own Hwf Hl Ho reqs st Hiso HF)
    as (s' & resps & Er & Hlen & [HQ Hids Hu Hrx] & Hid).
  assert (Hsp : exists sp, get_sp SP1_PARTITION_ID (sm_sps s') = Some sp /\ sp_vsttbr sp = l0).
  { destruct (sm_sps s') as [|[sp'|] slots]; cbn in Hid; [discriminate| |discriminate]. injection Hid as Hi1 _ Hi2 _ _.
    exists sp'. cbn [get_sp slot_is]. by rewrite Hi1, Z.eqb_refl. }
  cbn [sb_spmc]. rewrite Er. eexists _, s', resps. split_and!; [reflexivity|done| | |exact Hsp| | |]; cbn [sb_core sb_config sb_spmc ss_vsttbr].
  - reflexivity.
  - rewrite sel2_core_late_hcr, Z.lor_spec. apply orb_true_r.
  - by apply (untouched_lookup W HW (hm_mem s) l0 own Hwf Hl Ho).
  - intros x Hne. destruct (decide (SECURE_HEAP_START <= x /\ x < SECURE_HEAP_START + SECURE_HEAP_SIZE)) as [H|H]; [by left|].
    right. apply Hu. by rewrite Hx.
  - intros x Hne. destruct (decide (sm_mem s' x = hm_mem s x)) as [E|E]; [|by apply Hu]. apply Hu1. cbn in Hne. congruence.
Qed.

(** A partition that stores one byte where its tables allow, and waits. *)
Definition ex_store_enter (v : Z) (m : mem) (c : VcpuContext) : mem * VcpuContext * bool :=
  let m' := match s2_lookup m (root_of v) 0x0e300100 with
            | Some d => if writable d then (fun x => if x =? pd_pa d + 0x100 then 7 else m x) else m
            | None => m
            end in
  (m', mkCtx (set_reg (gp_regs c) 0 FFA_MSG_WAIT) (sys_regs c) (ctx_sp c) (ctx_pc c) (spsr_el2 c), false).
Lemma ex_store_confined : sp_confined ex_store_enter.
Proof.
  intros v m c m' c' irq H x Hx. unfold ex_store_enter in H. injection H as <- _ _.
  destruct (s2_lookup m (root_of v) 0x0e300100) as [d|] eqn:E; [|done]. destruct (writable d) eqn:Hw; [|done].
  destruct (Z.eqb_spec x (pd_pa d + 0x100)) as [->|]; [|done]. exists 0x0e300100, d. by split_and!.
Qed.
Definition ex_nwd_buffer (x : Z) : Prop := 0x60000000 <= x < 0x60001000.
Definition ex_reqs : list SmcResult8 :=
  [mkRegs FFA_RXTX_MAP 0x60001000 0x60000000 1 0 0 0 0; smc1 FFA_PARTITION_INFO_GET;
   mkRegs FFA_MSG_SEND_DIRECT_REQ_32 0x8001 0 41 0 0 0 0].
Lemma sp1_isolated_witness : exists b s' resps,
  rust_main_sel2 ex_store_enter (fun _ _ => None) 0x0e100800 0 0 (ex_core 0) (fun _ => 0) ex_reqs = Ok (b, (s', Ok resps)) /\
  length resps = 3%nat /\ forall x, sm_mem s' x <> 0 -> in_secure_heap x \/ in_sp1 x \/ ex_nwd_buffer x.
Proof.
  destruct (sp1_isolated ex_store_enter (fun _ _ => None) 0x0e100800 0 0 (ex_core 0) (fun _ => 0) ex_nwd_buffer ex_reqs
    ex_store_confined) as (b & s' & resps & H1 & H2 & _ & _ & _ & H3 & _).
  - unfold ex_nwd_buffer, in_secure_heap, SECURE_HEAP_SIZE, SECURE_HEAP_START. intros x Hx. lia.
  - apply Forall_cons; split; [intros _ x Hx; exact Hx|]. repeat (apply Forall_cons; split; [discriminate|]). constructor.
  - exists b, s', resps. split; [exact H1|]. split; [exact H2|exact H3].
Defined.

(** A store whose only partition is in its reset state never changes. *)
Lemma reset_stuck enter_guest sp : sp_state sp = SpReset -> forall reqs s, sm_sps s = [Some sp; None; None; None] ->
  exists s' resps, run_event_loop enter_guest reqs s = (s', Ok resps) /\ sm_sps s' = [Some sp; None; None; None].
Proof.
  intros Hr. induction reqs as [|req reqs IH]; intros s Hs; [by do 2 eexists|]. cbn [run_event_loop]. unfold sm_bind.
  destruct (dispatch_cases enter_guest req s) as [(id & sp' & Hrun & _)|(s1 & r1 & -> & E & _)].
  - exfalso. assert (Hget : forall i x, get_sp i (sm_sps s) = Some x -> x = sp).
    { intros i x. rewrite Hs. cbn [get_sp slot_is]. destruct (_ =? _); [by intros [= ->]|done]. }
    destruct Hrun as [(_ & _ & sp0 & Hg & Hi & _)|(_ & _ & Hg & Hi)]; apply Hget in Hg; congruence.
  - destruct (IH s1 ltac:(congruence)) as (s2 & r2 & -> & E2). by do 2 eexists.
Qed.

(** How SP1 comes up: it is entered once, at the image offset of its package
    header, on the stack at the top of its memory, under its own Stage-2
    tables; if that run ends with FFA_MSG_WAIT in x0, SP1 is registered idle,
    and otherwise (an early interrupt included) it is registered but never
    started: it stays in its reset state for ever, and every direct request to
    it is answered BUSY without running it. *)
Theorem sp1_comes_up enter_guest from_ptr vbar manifest_addr hw_config_addr c m : exists b sp m0 ctx0,
  sel2_init enter_guest from_ptr vbar manifest_addr hw_config_addr c m = Ok b /\
  get_sp SP1_PARTITION_ID (sm_sps (sb_spmc b)) = Some sp /\
  (let l0 := ss_vsttbr (sb_config b) in
   (forall ipa, s2_lookup m0 l0 ipa = sp1_map ipa) /\ (forall x, ~ in_secure_heap x -> m0 x = m x) /\
   ctx_pc ctx0 = u64 (SP1_LOAD_ADDR + read32 m (SP1_LOAD_ADDR + 16)) /\ ctx_sp ctx0 = SP1_STACK_TOP /\
   (sm_mem (sb_spmc b), sp_ctx sp) = (enter_guest l0 m0 ctx0).1) /\
  (get_reg (gp_regs (sp_ctx sp)) 0 = FFA_MSG_WAIT -> sp_state sp = SpIdle) /\
  (get_reg (gp_regs (sp_ctx sp)) 0 <> FFA_MSG_WAIT ->
   forall reqs req, exists s' resps, run_event_loop enter_guest reqs (sb_spmc b) = (s', Ok resps) /\
     get_sp SP1_PARTITION_ID (sm_sps s') = Some sp /\ sp_state sp = SpReset /\
     (rx0 req = FFA_MSG_SEND_DIRECT_REQ_32 \/ rx0 req = FFA_MSG_SEND_DIRECT_REQ_64 ->
      u16 (Z.land (rx1 req) 0xFFFF) = SP1_PARTITION_ID ->
      dispatch_request enter_guest req s' = (s', Ok (make_error FFA_BUSY)))).
Proof.
  destruct (sel2_init_eq enter_guest from_ptr vbar manifest_addr hw_config_addr c m) as (s & dm & own & Hd & Hl & Ho & Hx & E).
  cbv zeta in E. set (ctx0 := sp_ctx _) in E.
  destruct (enter_guest (dm_l0_table dm) (hm_mem s) ctx0) as [[m1 ctx] irq] eqn:He.
  set (sp := sp1_booted (hm_mem s) (dm_l0_table dm) ctx) in *.
  eexists _, sp, (hm_mem s), ctx0. split; [exact E|]. cbn [sb_spmc sb_config ss_vsttbr sm_sps sm_mem].
  split; [reflexivity|]. split; [split_and!|split].
  - exact Hl.
  - exact Hx.
  - unfold ctx0. cbn [sp1_context set_vsttbr sp_context_new sp_ctx ctx_pc].
    rewrite (read_le_agree 4 (hm_mem s) m); [done|]. intros x Hr. apply Hx. change (SP1_LOAD_ADDR + 4 * 4) with 0x0e300010 in Hr.
    unfold in_secure_heap, SECURE_HEAP_SIZE, SECURE_HEAP_START. lia.
  - reflexivity.
  - by rewrite He.
  - intros Hw. change (get_reg (gp_regs ctx) 0 = FFA_MSG_WAIT) in Hw. unfold sp, sp1_booted. cbn [sp_state]. by rewrite Hw.
  - intros Hw reqs req. change (get_reg (gp_regs ctx) 0 <> FFA_MSG_WAIT) in Hw.
    assert (Hr : sp_state sp = SpReset) by (unfold sp, sp1_booted; cbn [sp_state]; by rewrite (proj2 (Z.eqb_neq _ _) Hw)).
    destruct (reset_stuck enter_guest sp Hr reqs (mkSpmc [Some sp; None; None; None] NWD_RXTX_init irq false (dm_l0_table dm) m1) eq_refl)
      as (s' & resps & -> & Es).
    assert (Hg : get_sp SP1_PARTITION_ID (sm_sps s') = Some sp) by (by rewrite Es).
    exists s', resps. do 3 (split; [first [reflexivity|assumption]|]). intros Hf Hdest. rewrite dispatch_request_eq. cbv zeta. rewrite Hdest, Hg.
    replace (is_registered_sp SP1_PARTITION_ID (sm_sps s')) with true by (by rewrite Es).
    rewrite (proj2 (orb_true_iff _ _)) by (rewrite !Z.eqb_eq; exact Hf). cbn [andb]. by rewrite Hr.
Qed.

(** The block SP1 is loaded in starts one megabyte before SP1: SP1 can read and
    write the second megabyte of the two between the base of the manager's
    image and its own. *)
Theorem sp1_reaches_manager x : SPMC_BASE + 0x100000 <= x < SP1_LOAD_ADDR ->
  sp1_map x = Some (id_desc_of Normal x) /\ writable (id_desc_of Normal x) = true.
Proof.
  intros Hx. split; [|reflexivity]. unfold sp1_map, ipa_in. change (floor_2mb SP1_LOAD_ADDR) with 0x0e200000.
  unfold SPMC_BASE, SP1_LOAD_ADDR, SP1_MEM_SIZE, SP_UART_BASE, BLOCK_SIZE_2MB in *. rewrite Z.mod_small by lia. zdec; done || lia.
Qed.
Lemma sp1_reaches_manager_witness : sp1_map 0x0e280000 = Some (id_desc_of Normal 0x0e280000).
Proof. apply (sp1_reaches_manager 0x0e280000). unfold SPMC_BASE, SP1_LOAD_ADDR. lia. Defined.
