(* ===== verification/Sel2.v ===== *)
(** * Sel2: the exception handlers under a secure partition

    The arms that [handle_exception] and [handle_irq_exception] of
    [hypervisor/exception.rs] have only in the build with feature [sel2], and
    the entry loop of [exception.S] around them.  A partition's SMC and WFI
    leave to the manager, an interrupt sets SP_IRQ_PREEMPTED and leaves; every
    other exception takes the path of the normal world.

    Spmc models the manager with the run of a partition as a parameter.  Here
    that run is the loop, over the code of the partition: [loop_runs] says that
    the parameter agrees with it, and the theorems say what the manager's
    answers then mean. *)

From Stdlib Require Import ZArith Lia Bool List.
From stdpp Require Import base decidable option list strings.
From S2P Require Import Prelude Memory FfaCore FfaNotif FfaProxy Regs Spmc Virtio Vcpu VGic Platform Devices Exception VmRun.

(** ** The handlers *)

(** The hypervisor's state and SP_IRQ_PREEMPTED. *)
Definition sel2_state : Type := hyp * bool.
Definition sel2m := SM sel2_state string.
Definition lift_hyp {A} (c : exm A) : sel2m A := fun s =>
  match c s.1 with (h, r) => ((h, s.2), r) end.

(** A partition's WFI or SMC: past the instruction, and out. *)
Definition sp_leave (c : VcpuContext) : exm (VcpuContext * outcome) :=
  let* count := inc_exception_count in
  if MAX_CONSECUTIVE_EXCEPTIONS <? count then sm_ret (c, Halt)
  else reset_exception_count ;;; sm_ret (advance_pc c, ExitHost).

Section Loop.
Context (checks : bool) (pi : PlatformInfo) (el3 : mem -> GpRegs -> mem * GpRegs) (tfa_boot : bool) (proxy_rx_buf : Z).
Context (blk_fuel : nat) (sp_code : hyp -> VcpuContext -> guest_step).

Definition sel2_handle_exception (esr far hpfar : Z) (c : VcpuContext) : exm (VcpuContext * outcome) :=
  match exit_reason (set_fault esr far c) with
  | ErWfiWfe | ErSmcCall => sp_leave (set_fault esr far c)
  | _ => handle_exception checks pi el3 tfa_boot proxy_rx_buf blk_fuel esr far hpfar c
  end.

(** Any interrupt while a partition runs is left to the normal world. *)
Definition sel2_handle_irq (intid : Z) : sel2m bool :=
  lift_hyp reset_exception_count ;;;
  if GIC_SPURIOUS_INTID <=? intid then sm_ret true else
  lift_hyp (eoi intid) ;;; lift_hyp (dir intid) ;;;
  sm_upd (fun s => (s.1, true)) ;;;
  sm_ret false.

(** The entry loop.  Running out of fuel stands for a partition that never
    leaves. *)
Fixpoint sel2_enter_guest (fuel : nat) (c : VcpuContext) : sel2m (VcpuContext * Z) :=
  match fuel with
  | O => sm_err "guest running"%string
  | S fuel => fun s =>
      let g := sp_code s.1 c in
      (match gs_event g with
       | GSync esr far hpfar =>
           let* r := lift_hyp (sel2_handle_exception esr far hpfar (gs_ctx g)) in
           match r.2 with
           | Continue => sel2_enter_guest fuel r.1
           | ExitHost => sm_ret (r.1, if exc_class esr =? 0x01 then 1 else 0)
           | Halt => sm_err HALTED
           end
       | GIrq intid =>
           let* cont := sel2_handle_irq intid in
           if cont then sel2_enter_guest fuel (gs_ctx g) else sm_ret (gs_ctx g, 0)
       end) (after_guest g s.1, s.2)
  end.

(** ** How a run ends *)

(** The stretches of a partition's code the loop goes on after: the machine
    and the context at the start of the run, and at the start of a later
    stretch.  Only a spurious interrupt lets the loop go on. *)
Inductive stretches : hyp -> VcpuContext -> hyp -> VcpuContext -> Prop :=
| st_here h c : stretches h c h c
| st_sync h c esr far hpfar h1 c1 h2 c2 : gs_event (sp_code h c) = GSync esr far hpfar ->
    sel2_handle_exception esr far hpfar (gs_ctx (sp_code h c)) (after_guest (sp_code h c) h) = (h1, Ok (c1, Continue)) ->
    stretches h1 c1 h2 c2 -> stretches h c h2 c2
| st_spurious h c intid h2 c2 : gs_event (sp_code h c) = GIrq intid -> GIC_SPURIOUS_INTID <= intid ->
    stretches (set_exc 0 (after_guest (sp_code h c) h)) (gs_ctx (sp_code h c)) h2 c2 -> stretches h c h2 c2.

(** What the manager finds after a run that [g] was the last stretch of,
    begun on the machine [hl]: an interrupt, which is not spurious, leaves the
    partition where it was, and its acknowledgement (end of interrupt, then
    deactivation) is the last the machine [h'] has done; an SMC or WFI leaves
    it past the instruction with its registers as they were; the flag tells
    the two apart. *)
Definition acknowledged (g : guest_step) (hl h' : hyp) (intid : Z) : Prop :=
  intid < GIC_SPURIOUS_INTID /\ hy_icc h' = hy_icc (after_guest g hl) ++ [IccEoir intid; IccDir intid].
Definition run_ended (g : guest_step) (hl : hyp) (c' : VcpuContext) (h' : hyp) (flag : bool) : Prop :=
  match gs_event g with
  | GIrq intid => flag = true /\ c' = gs_ctx g /\ acknowledged g hl h' intid
  | GSync esr far _ =>
      flag = false /\
      (exc_class esr = 0x01 \/ exc_class esr = 0x17 -> c' = advance_pc (set_fault esr far (gs_ctx g))) /\
      (exc_class esr = 0x20 \/ exc_class esr = 0x00 -> c' = set_fault esr far (gs_ctx g))
  end.

Lemma irq_cases intid h flag s' b : sel2_handle_irq intid (h, flag) = (s', Ok b) ->
  (b = true /\ s' = (set_exc 0 h, flag) /\ GIC_SPURIOUS_INTID <= intid) \/
  (b = false /\ s'.2 = true /\ intid < GIC_SPURIOUS_INTID /\
   hy_icc s'.1 = hy_icc h ++ [IccEoir intid; IccDir intid] /\ io_mem (hy_io s'.1) = io_mem (hy_io h)).
Proof using.
  unfold sel2_handle_irq, lift_hyp, reset_exception_count, eoi, dir, sm_bind, sm_upd, sm_ret. cbn.
  destruct (Z.leb_spec GIC_SPURIOUS_INTID intid); intros [= <- <-]; [by left|right].
  split_and!; try done. cbn. by rewrite <- app_assoc.
Qed.

Lemma leave_class esr far c : exc_class esr = 0x01 \/ exc_class esr = 0x17 ->
  forall hpfar, sel2_handle_exception esr far hpfar c = sp_leave (set_fault esr far c).
Proof using. unfold sel2_handle_exception. intros H hpfar. rewrite exit_reason_class. by destruct H as [-> | ->]. Qed.

(** An instruction abort and an unknown exception leave the context alone. *)
Lemma fatal_class esr far hpfar c h h' r : exc_class esr = 0x20 \/ exc_class esr = 0x00 ->
  sel2_handle_exception esr far hpfar c h = (h', Ok r) -> r = (set_fault esr far c, ExitHost) \/ r.2 = Halt.
Proof using.
  intros H. unfold sel2_handle_exception. rewrite exit_reason_class.
  destruct H as [H|H]; rewrite H; cbv iota; unfold handle_exception, sm_bind at 1, inc_exception_count; cbv beta zeta;
    rewrite exit_reason_class, H; cbv iota beta; destruct (_ <? _); intros [= _ <-]; auto.
Qed.

Lemma leave_context c h h' r : sp_leave c h = (h', Ok r) -> r.2 = ExitHost -> r.1 = advance_pc c.
Proof using.
  unfold sp_leave, sm_bind at 1, inc_exception_count. cbv beta iota zeta.
  destruct (_ <? _); intros [= _ <-]; done.
Qed.

Lemma sync_ends g esr far hpfar hl h h' r : gs_event g = GSync esr far hpfar ->
  sel2_handle_exception esr far hpfar (gs_ctx g) h = (h', Ok r) -> r.2 = ExitHost -> run_ended g hl r.1 h' false.
Proof using.
  intros Hg E Hr. unfold run_ended. rewrite Hg. split_and!; [done| |]; intros Hc.
  - rewrite leave_class in E by done. by apply leave_context in E.
  - destruct (fatal_class _ _ _ _ _ _ _ Hc E) as [-> |H]; [done|congruence].
Qed.

Lemma run_ends fuel : forall c h flag h' flag' c' code, flag = false ->
  sel2_enter_guest fuel c (h, flag) = ((h', flag'), Ok (c', code)) ->
  exists hl cl, stretches h c hl cl /\ run_ended (sp_code hl cl) hl c' h' flag'.
Proof using.
  induction fuel as [|fuel IH]; intros c h flag h' flag' c' code -> E; [discriminate E|].
  cbn [sel2_enter_guest fst snd] in E. set (g := sp_code h c) in E.
  destruct (gs_event g) as [esr far hpfar|intid] eqn:Hg; apply sm_bind_inv in E as ([h1 f1] & r & E1 & E).
  - unfold lift_hyp in E1. cbn [fst snd] in E1.
    destruct (sel2_handle_exception _ _ _ _ _) as [h2 [r'|e]] eqn:E2; [|discriminate E1]. injection E1 as <- <- <-.
    destruct r' as [c1 o]. cbn [fst snd] in E. destruct o; [| |discriminate E].
    { apply IH in E as (hl & cl & Hs & He); [|done]. exists hl, cl. split; [by eapply st_sync|done]. }
    apply sm_ret_inv in E as [E3 [= <- <-]]. apply (f_equal fst) in E3. cbn [fst] in E3. subst c1. exists h, c.
    split; [apply st_here|]. exact (sync_ends g _ _ _ _ _ _ _ Hg E2 eq_refl).
  - apply irq_cases in E1 as [(-> & [= -> ->] & Hi)|(-> & Hf & Hi & Hl & _)].
    { apply IH in E as (hl & cl & Hs & He); [|done]. exists hl, cl. split; [by eapply st_spurious|done]. }
    cbn [fst snd] in Hf, Hl. apply sm_ret_inv in E as [[= <- _] [= <- <-]]. exists h, c. split; [apply st_here|].
    fold g. unfold run_ended. rewrite Hg. by split_and!.
Qed.
End Loop.

(** ** What the manager answers *)
Section Manager.
Context (checks : bool) (pi : PlatformInfo) (el3 : mem -> GpRegs -> mem * GpRegs) (tfa_boot : bool) (proxy_rx_buf : Z).
Context (blk_fuel fuel : nat) (sp_code : hyp -> VcpuContext -> guest_step).

(** [enter_guest] is the loop, from machine state [h], on this run. *)
Definition loop_runs (enter_guest : Z -> mem -> VcpuContext -> mem * VcpuContext * bool) (h : hyp)
    (v : Z) (m : mem) (c : VcpuContext) : Prop :=
  io_mem (hy_io h) = m /\
  exists h' flag c' code,
    sel2_enter_guest checks pi el3 tfa_boot proxy_rx_buf blk_fuel sp_code fuel c (h, false) = ((h', flag), Ok (c', code)) /\
    enter_guest v m c = (io_mem (hy_io h'), c', flag).

(** x0-x7 of a context. *)
Definition args_of (c : VcpuContext) : SmcResult8 :=
  let g := gp_regs c in
  mkRegs (get_reg g 0) (get_reg g 1) (get_reg g 2) (get_reg g 3) (get_reg g 4) (get_reg g 5) (get_reg g 6) (get_reg g 7).

(** What the last stretch [g] of a partition's code, begun on [hl], makes of
    the machine [h'], of the response and of the partition: an interrupt is
    acknowledged and reported, and the partition will resume at the
    instruction it was about to execute, with every register; an SMC and a WFI
    answer with its registers and it will resume past them; so does a fatal
    fault, which leaves the partition idle at the faulting instruction. *)
Definition sp_answered (g : guest_step) (hl h' : hyp) (sp' : SpContext) (resp : SmcResult8) : Prop :=
  match gs_event g with
  | GIrq intid =>
      acknowledged g hl h' intid /\ resp = smc1 FFA_INTERRUPT /\ sp_state sp' = SpPreempted /\ sp_ctx sp' = gs_ctx g
  | GSync esr _ _ =>
      resp = args_of (sp_ctx sp') /\ sp_state sp' = SpIdle /\
      (exc_class esr = 0x01 \/ exc_class esr = 0x17 ->
         resp = args_of (gs_ctx g) /\ ctx_pc (sp_ctx sp') = u64 (ctx_pc (gs_ctx g) + 4)) /\
      (exc_class esr = 0x20 \/ exc_class esr = 0x00 ->
         resp = args_of (gs_ctx g) /\ ctx_pc (sp_ctx sp') = ctx_pc (gs_ctx g))
  end.

(** C29. The response to a request that runs a partition tells how the run
    ended, for every partition code whose run comes to an end.  A direct
    request or FFA_RUN is answered after the last of the stretches the entry
    loop goes through from the machine and the context of the request; if an
    interrupt ended that stretch, it was not a spurious one, the last thing
    done to the interrupt controller is its end-of-interrupt and its
    deactivation, the answer is FFA_INTERRUPT, and the partition is preempted
    with every register where it was; otherwise the partition is idle again
    and the answer is its registers, past the SMC or WFI that ended the run.
    The memory the manager goes on with is that of the final machine. *)
Theorem sp_answer_explained enter_guest s req id sp h : runs_sp s req id sp ->
  loop_runs enter_guest h (sp_vsttbr sp) (sm_mem s) (sp_ctx sp) ->
  exists s' resp sp' h' flag c' code hl cl,
    dispatch_request enter_guest req s = (s', Ok resp) /\ get_sp id (sm_sps s') = Some sp' /\
    sel2_enter_guest checks pi el3 tfa_boot proxy_rx_buf blk_fuel sp_code fuel (sp_ctx sp) (h, false) = ((h', flag), Ok (c', code)) /\
    stretches checks pi el3 tfa_boot proxy_rx_buf blk_fuel sp_code h (sp_ctx sp) hl cl /\
    sp_answered (sp_code hl cl) hl h' sp' resp /\ sm_mem s' = io_mem (hy_io h').
Proof using.
  intros Hr (Hm & h' & flag & c' & code & Hl & He). rewrite (runs_sp_eq _ _ _ _ _ Hr).
  destruct (runs_sp_facts _ _ _ _ Hr) as (Hid & Hst & sp0 & Hg & _). rewrite (run_sp_spec _ _ _ _ _ _ _ Hid Hst He).
  pose proof Hl as Hrun. apply run_ends in Hl as (hl & cl & Hs & Hl); [|done].
  exists (mkSpmc (put_sp id (sp_after sp c' flag) (sm_sps s)) (sm_rxtx s) false false (sp_vsttbr sp) (io_mem (hy_io h'))).
  do 2 eexists. exists h', flag, c', code, hl, cl. split; [reflexivity|].
  split; [apply get_put_sp; [done|by rewrite Hg]|]. split; [exact Hrun|]. split; [exact Hs|]. split; [|done].
  unfold sp_answered, run_ended in *. clear -Hl. destruct (gs_event _) as [esr far hpfar|intid].
  - destruct Hl as (-> & Hc1 & Hf). split_and!; [done|done| |]; intros Hc; [rewrite (Hc1 Hc)|rewrite (Hf Hc)]; done.
  - by destruct Hl as (-> & -> & Ha).
Qed.
End Manager.

(** ** A partition that faults *)

(** One run of the loop on the machine [h], as the manager sees it. *)
Definition enter_once (code : hyp -> VcpuContext -> guest_step) (h : hyp) (_ : Z) (m : mem) (c : VcpuContext) :
    mem * VcpuContext * bool :=
  match sel2_enter_guest true PLATFORM_DEFAULT no_el3 false 0 1 code 3 c
          (set_devs (hy_devs h) (set_io_mem m (hy_io h)) h, false) with
  | ((h', flag), Ok (c', _)) => (io_mem (hy_io h'), c', flag)
  | (_, Err _) => (m, c, false)
  end.
(** Code whose first instruction is not mapped, and code that is interrupted
    by a timer after a spurious interrupt. *)
Definition unmapped_code (h : hyp) (c : VcpuContext) : guest_step :=
  mkGuest (hy_core h) (io_mem (hy_io h)) c [] (GSync (0x20 * 2 ^ 26) (ctx_pc c) 0).
Definition interrupted_code (h : hyp) (c : VcpuContext) : guest_step :=
  mkGuest (hy_core h) (io_mem (hy_io h)) (advance_pc c) [] (GIrq (if ctx_pc c <? 0x4004 then 1023 else 26)).

(** A direct request to a partition that cannot execute a single instruction
    is answered with the request itself, and the partition is idle again, as
    if it had served it. *)
Lemma crash_is_an_answer :
  exists s', dispatch_request (enter_once unmapped_code ex_hyp) ex_direct_req ex_spmc = (s', Ok ex_direct_req) /\
    (sp_state <$> get_sp 0x8002 (sm_sps s')) = Some SpIdle.
Proof. eexists. split; [vm_compute; reflexivity|reflexivity]. Qed.

(** A spurious interrupt, then the timer: the answer is FFA_INTERRUPT, and the
    timer's interrupt, INTID 26, is acknowledged. *)
Definition ex_run_hyp : hyp := set_devs (hy_devs ex_hyp) (set_io_mem (sm_mem ex_spmc) (hy_io ex_hyp)) ex_hyp.
Lemma sp_answer_explained_witness :
  exists s' resp sp' h' flag c' code hl cl,
    dispatch_request (enter_once interrupted_code ex_hyp) ex_direct_req ex_spmc = (s', Ok resp) /\
    get_sp 0x8002 (sm_sps s') = Some sp' /\
    sel2_enter_guest true PLATFORM_DEFAULT no_el3 false 0 1 interrupted_code 3 (sp_ctx (set_args ex_direct_req (ex_sp 0x8002 SpIdle)))
      (ex_run_hyp, false) = ((h', flag), Ok (c', code)) /\
    stretches true PLATFORM_DEFAULT no_el3 false 0 1 interrupted_code ex_run_hyp (sp_ctx (set_args ex_direct_req (ex_sp 0x8002 SpIdle))) hl cl /\
    sp_answered (interrupted_code hl cl) hl h' sp' resp /\ sm_mem s' = io_mem (hy_io h').
Proof.
  apply (sp_answer_explained true PLATFORM_DEFAULT no_el3 false 0 1 3 interrupted_code (enter_once interrupted_code ex_hyp)
           ex_spmc ex_direct_req 0x8002 (set_args ex_direct_req (ex_sp 0x8002 SpIdle)) ex_run_hyp).
  - left. split_and!; [by left|reflexivity|]. by eexists.
  - split; [reflexivity|]. do 4 eexists. split; reflexivity.
Defined.
(** What the run of the witness does to the interrupt controller. *)
Lemma interrupted_run_acknowledges :
  (hy_icc (sel2_enter_guest true PLATFORM_DEFAULT no_el3 false 0 1 interrupted_code 3
     (sp_ctx (set_args ex_direct_req (ex_sp 0x8002 SpIdle))) (ex_run_hyp, false)).1.1) = [IccEoir 26; IccDir 26].
Proof. vm_compute. reflexivity. Qed.
