(* ===== verification/StaticMapper.v ===== *)
(** * StaticMapper: the statically allocated Stage-2 tables

    [IdentityMapper] of [arch/aarch64/mm/mmu.rs] and [Vm::init_memory_static]
    of [vm.rs], the tables of the builds without the heap-backed mapper: one
    L0, one L1 and four L2 tables inside a static, 2MB blocks only.  The
    tables are in the memory of the machine at their link-time addresses,
    which are fields of the mapper here.  The abstract mapper [spec_block]
    says what is mapped: a block whose gigabyte has one of the four L2 tables
    or can still take one; any other block is dropped without an error. *)

From Stdlib Require Import ZArith Lia Bool List.
From stdpp Require Import base decidable option sets list strings.
From S2P Require Import Prelude Memory Allocator Stage2 Stage2Spec Stage2Bits Stage2Ops Stage2Walk Stage2Boot Stage2Thms Platform VmMem.
Import Walker Mapper.

(** ** Descriptors: [MemoryAttributes] and [S2PageTableEntry] *)
Definition ATTRS_NORMAL : Z := Z.lor (Z.lor (Z.lor (Z.shiftl 0xF 0) (Z.shiftl 3 4)) (Z.shiftl 3 6)) (Z.shiftl 1 8).
Definition ATTRS_DEVICE : Z := Z.lor (Z.lor (Z.lor (Z.shiftl 0 0) (Z.shiftl 3 4)) (Z.shiftl 0 6)) (Z.shiftl 1 8).
Definition ATTRS_READONLY : Z := Z.lor (Z.lor (Z.lor (Z.shiftl 0xF 0) (Z.shiftl 1 4)) (Z.shiftl 3 6)) (Z.shiftl 1 8).
Definition s2e_block (addr attrs : Z) : Z :=
  Z.lor (Z.lor (Z.lor (Z.land addr PTE_ADDR_MASK) PTE_VALID) (Z.shiftl 0 1)) (u64 (Z.shiftl attrs 2)).
Definition s2e_table (next_level_addr : Z) : Z :=
  Z.lor (Z.lor (Z.land next_level_addr PTE_ADDR_MASK) PTE_VALID) PTE_TABLE.
Definition s2e_addr (e : Z) : Z := Z.land e PTE_ADDR_MASK.

(** ** [IdentityMapper] *)
Record IdentityMapper := mkIdMapper {
  im_l0_table : Z;
  im_l1_table : Z;
  im_l2_tables : list Z;
  im_l2_count : nat;
}.
Definition set_count (n : nat) (im : IdentityMapper) : IdentityMapper :=
  mkIdMapper (im_l0_table im) (im_l1_table im) (im_l2_tables im) n.

(** [PageTable::new] and the loops of [reset]: 512 invalid entries. *)
Definition clear_table (m : mem) (t : Z) : mem := fill_l3 m t (fun _ => 0) 512.
Definition im_reset (st : mem * IdentityMapper) : mem * IdentityMapper :=
  let m := clear_table st.1 (im_l0_table st.2) in
  let m := clear_table m (im_l1_table st.2) in
  (fold_left clear_table (im_l2_tables st.2) m, set_count 0 st.2).

(** The L2 table of an L1 entry: its number, and the table linked if the entry
    was invalid; [None] is the early return. *)
Definition im_l2_for (l1_idx : Z) (st : mem * IdentityMapper) : option (mem * IdentityMapper * nat) :=
  let (m, im) := st in
  let l1_entry := read64 m (pte_ptr (im_l1_table im) l1_idx) in
  if negb (pte_valid l1_entry) then
    if (length (im_l2_tables im) <=? im_l2_count im)%nat then None else
    let idx := im_l2_count im in
    let l2_addr := nth idx (im_l2_tables im) 0 in
    Some (write64 m (pte_ptr (im_l1_table im) l1_idx) (s2e_table l2_addr), set_count (S idx) im, idx)
  else
    let l2_addr := s2e_addr l1_entry in
    match list_find (fun a => a = l2_addr) (take (im_l2_count im) (im_l2_tables im)) with
    | Some (i, _) => Some (m, im, i)
    | None => None
    end.

Definition map_2mb_block (addr attrs : Z) (st : mem * IdentityMapper) : mem * IdentityMapper :=
  let (m, im) := st in
  let l0_ptr := pte_ptr (im_l0_table im) (l0_index addr) in
  let m := if negb (pte_valid (read64 m l0_ptr)) then write64 m l0_ptr (s2e_table (im_l1_table im)) else m in
  match im_l2_for (l1_index addr) (m, im) with
  | None => (m, im)
  | Some (m, im, i) =>
      (write64 m (pte_ptr (nth i (im_l2_tables im) 0) (l2_index addr)) (s2e_block addr attrs), im)
  end.

(** [for i in 0..num_blocks] *)
Definition block_addrs (start size : Z) : list Z :=
  map (fun i => u64 (start + u64 (Z.of_nat i * BLOCK_SIZE_2MB)))
    (seq 0 (Z.to_nat (u64 (size + BLOCK_SIZE_2MB - 1) / BLOCK_SIZE_2MB))).
Definition im_map_region (start size attrs : Z) (st : mem * IdentityMapper) : mem * IdentityMapper :=
  fold_left (fun st addr => map_2mb_block addr attrs st) (block_addrs start size) st.

(** [Stage2Config::new] on the L0 table *)
Definition im_config (im : IdentityMapper) : Z * Z := new_with_vmid (im_l0_table im) 0.

(** [init_memory_static]: the tables, and VTTBR_EL2 and VTCR_EL2. *)
Definition init_memory_static (start_aligned size_aligned : Z) (st : mem * IdentityMapper)
    : mem * IdentityMapper * (Z * Z) :=
  let st := im_reset st in
  let st := im_map_region start_aligned size_aligned ATTRS_NORMAL st in
  let st := im_map_region GIC_REGION_BASE GIC_REGION_SIZE ATTRS_DEVICE st in
  (st, im_config st.2).

(** ** The abstract mapper

    The gigabytes that have an L2 table, in the order they got it, and the
    page map. *)
Definition NUM_L2 : nat := 4.
Definition attrs_of (attr : MemoryAttribute) : Z :=
  match attr with Normal => ATTRS_NORMAL | Device => ATTRS_DEVICE | ReadOnly => ATTRS_READONLY end.
Definition spec_block (st : list Z * (Z -> option pdesc)) (b : Z * MemoryAttribute)
    : list Z * (Z -> option pdesc) :=
  let gb := b.1 / 2 ^ 30 in
  let look := region_look b.1 (b.1 + 2 ^ 21) b.2 st.2 in
  if decide (gb ∈ st.1) then (st.1, look)
  else if (length st.1 <? NUM_L2)%nat then (st.1 ++ [gb], look)
  else st.
Definition im_run (st : mem * IdentityMapper) (bs : list (Z * MemoryAttribute)) : mem * IdentityMapper :=
  fold_left (fun st b => map_2mb_block b.1 (attrs_of b.2) st) bs st.

(** The addresses of the tables: aligned, distinct pages. *)
Definition im_pages (im : IdentityMapper) : list Z := im_l1_table im :: im_l0_table im :: im_l2_tables im.
Record layout_ok (im : IdentityMapper) : Prop := {
  lo_len : length (im_l2_tables im) = NUM_L2;
  lo_page t : t ∈ im_pages im -> t mod 4096 = 0 /\ 0 < t < 2 ^ 48;
  lo_nodup : NoDup (im_pages im);
}.
Definition block_ok (b : Z * MemoryAttribute) : Prop := b.1 mod 2 ^ 21 = 0 /\ 0 <= b.1 < 2 ^ 39.

(** ** Descriptors of the two mappers agree *)
Lemma s2e_table_desc t : t mod 4096 = 0 -> 0 < t < 2 ^ 48 -> s2e_table t = table_desc t.
Proof.
  intros Ha Hr. unfold s2e_table, table_desc. f_equal. f_equal. rewrite addr_mask_bmask.
  bit_ext i Hi. zdec; rewrite ?andb_true_r, ?andb_false_r; try done.
  - symmetry. apply (testbit_small t 48); [lia|]. unfold fits. lia.
  - symmetry. apply (testbit_aligned t 12); [lia|exact Ha].
Qed.
Lemma s2e_block_entry addr attr : addr mod 2 ^ 21 = 0 -> fits 48 addr ->
  s2e_block addr (attrs_of attr) = make_block_entry addr attr.
Proof.
  intros Ha Hf. unfold s2e_block, make_block_entry.
  assert (u64 (Z.shiftl (attrs_of attr) 2) = attr_bits attr) as -> by by destruct attr.
  rewrite Z.shiftl_0_l, Z.lor_0_r.
  assert (Z.land addr PTE_ADDR_MASK = Z.land addr (not64 BLOCK_MASK_2MB)) as ->.
  { rewrite addr_mask_bmask. change BLOCK_MASK_2MB with (Z.ones 21). unfold not64.
    bit_ext i Hi. zdec; rewrite ?andb_true_r, ?andb_false_r; try done.
    - apply (testbit_aligned addr 21); [lia|exact Ha].
    - symmetry. apply (testbit_small addr 48); [lia|done]. }
  rewrite <- !Z.lor_assoc. f_equal. apply Z.lor_comm.
Qed.

(** ** Invariant *)
Definition own_of (im : IdentityMapper) (n : nat) : list Z :=
  im_l1_table im :: im_l0_table im :: take n (im_l2_tables im).
Record im_inv (m : mem) (im : IdentityMapper) (gbs : list Z) : Prop := {
  ii_layout : layout_ok im;
  ii_count : im_l2_count im = length gbs;
  ii_le : (length gbs <= NUM_L2)%nat;
  ii_wf : s2_wf m (im_l0_table im) (own_of im (length gbs));
  ii_root : read64 m (pte_ptr (im_l0_table im) 0) = table_desc (im_l1_table im);
  ii_l1 i : 0 <= i < 512 ->
    (exists j t, gbs !! j = Some i /\ im_l2_tables im !! j = Some t /\
       read64 m (pte_ptr (im_l1_table im) i) = table_desc t) \/
    (~ (i ∈ gbs) /\ read64 m (pte_ptr (im_l1_table im) i) = 0);
  ii_free j t i : (length gbs <= j)%nat -> im_l2_tables im !! j = Some t -> 0 <= i < 512 ->
    read64 m (pte_ptr t i) = 0;
}.

Lemma slot_read_ne m v t u i j : t mod 4096 = 0 -> u mod 4096 = 0 -> 0 <= i < 512 -> 0 <= j < 512 ->
  t <> u \/ i <> j -> read64 (write64 m (pte_ptr t i) v) (pte_ptr u j) = read64 m (pte_ptr u j).
Proof.
  intros Ht Hu Hi Hj Hn. apply read64_write64_ne. apply slot_sep; [done..|]. intros E.
  apply slot_inj in E; [|done..]. destruct E as [E1 E2], Hn as [H|H]; by apply H.
Qed.
Lemma slot_frame m v t i own x : In t own -> 0 <= i < 512 -> outside own x -> write64 m (pte_ptr t i) v x = m x.
Proof.
  intros Ht Hi Hx. specialize (Hx t Ht). apply (write64_agree _ _ _ x 1); unfold pte_ptr; lia.
Qed.
Lemma s2_wf_incl m l0 own own' : s2_wf m l0 own -> incl own own' -> s2_wf m l0 own'.
Proof.
  intros [H1 H2 H3 H4] Hi. constructor; [|done..]. intros k ipa t Hk Ht.
  destruct (H1 k ipa t Hk Ht) as (? & ? & ?). auto.
Qed.

Lemma pages_l0 im : im_l0_table im ∈ im_pages im.
Proof. rewrite list_elem_of_In. cbn. auto. Qed.
Lemma pages_l1 im : im_l1_table im ∈ im_pages im.
Proof. rewrite list_elem_of_In. cbn. auto. Qed.
Lemma pages_l2 im j t : im_l2_tables im !! j = Some t -> t ∈ im_pages im.
Proof. intros H%list_elem_of_lookup_2. rewrite list_elem_of_In in *. cbn. auto. Qed.

Section Layout.
Context (im : IdentityMapper) (Hlo : layout_ok im).
Lemma lo_l0 : im_l0_table im mod 4096 = 0 /\ 0 < im_l0_table im < 2 ^ 48.
Proof. apply (lo_page _ Hlo), pages_l0. Qed.
Lemma lo_l1 : im_l1_table im mod 4096 = 0 /\ 0 < im_l1_table im < 2 ^ 48.
Proof. apply (lo_page _ Hlo), pages_l1. Qed.
Lemma lo_l2 j t : im_l2_tables im !! j = Some t -> t mod 4096 = 0 /\ 0 < t < 2 ^ 48.
Proof. intros H. by eapply (lo_page _ Hlo), pages_l2. Qed.
Lemma lo_sep : im_l0_table im <> im_l1_table im /\
  forall j t, im_l2_tables im !! j = Some t -> t <> im_l0_table im /\ t <> im_l1_table im /\
    forall j', im_l2_tables im !! j' = Some t -> j' = j.
Proof.
  pose proof (lo_nodup _ Hlo) as H. unfold im_pages in H.
  apply NoDup_cons in H as [H1 H]. apply NoDup_cons in H as [H0 H]. split; [set_solver|].
  intros j t Hj. pose proof (list_elem_of_lookup_2 _ _ _ Hj). split_and!; [set_solver..|].
  intros j' Hj'. by eapply NoDup_lookup.
Qed.
End Layout.

Lemma gb_index addr : 0 <= addr < 2 ^ 39 -> l1_index addr = addr / 2 ^ 30 /\ 0 <= addr / 2 ^ 30 < 512.
Proof.
  intros H. unfold l1_index, PT_INDEX_MASK. change 0x1FF with (2 ^ 9 - 1). rewrite land_low, Z.shiftr_div_pow2 by lia.
  Z.div_mod_to_equations. lia.
Qed.

Section Step.
Context (m : mem) (im : IdentityMapper) (gbs : list Z) (Hi : im_inv m im gbs).
Context (addr : Z) (Ha : 0 <= addr < 2 ^ 39).
Let gb := addr / 2 ^ 30.
Let l0 := im_l0_table im.

Lemma step_tbl1 : tbl 1 m l0 addr = Some (im_l1_table im).
Proof.
  rewrite tbl_S, (entry_at_slot 0 _ _ _ l0), idx0_low by done.
  unfold l0. rewrite (ii_root _ _ _ Hi). destruct (lo_l1 _ (ii_layout _ _ _ Hi)).
  by rewrite table_desc_is_table, table_desc_addr.
Qed.
Lemma step_idx1 : idx 1 addr = gb.
Proof. apply gb_index, Ha. Qed.
Lemma step_entry1 : entry_at 1 m l0 addr = Some (read64 m (pte_ptr (im_l1_table im) gb)).
Proof. unfold entry_at. by rewrite step_tbl1, step_idx1. Qed.
Lemma step_gb : 0 <= gb < 512.
Proof. apply gb_index, Ha. Qed.

Lemma own_lookup j t : (j < length gbs)%nat -> im_l2_tables im !! j = Some t -> In t (own_of im (length gbs)).
Proof.
  intros Hj Ht. do 2 right. apply list_elem_of_In, (list_elem_of_lookup_2 _ j). by rewrite lookup_take_lt.
Qed.

(** The gigabyte has a table: the scan finds it. *)
Lemma l2_found j t : gbs !! j = Some gb -> im_l2_tables im !! j = Some t ->
  read64 m (pte_ptr (im_l1_table im) gb) = table_desc t ->
  im_l2_for (l1_index addr) (m, im) = Some (m, im, j) /\ tbl 2 m l0 addr = Some t.
Proof.
  intros Hj Ht He. pose proof (ii_layout _ _ _ Hi) as Hlo. destruct (lo_l2 _ Hlo _ _ Ht) as [Hta Htr].
  pose proof (table_desc_is_table t) as Htd. split.
  - unfold im_l2_for. destruct (gb_index addr Ha) as [-> _]. fold gb. rewrite He.
    rewrite is_table_desc_and in Htd. apply andb_true_iff in Htd as [-> _]. cbn [negb].
    unfold s2e_addr. rewrite table_desc_addr by done.
    rewrite (ii_count _ _ _ Hi). apply lookup_lt_Some in Hj.
    enough (list_find (fun a => a = t) (take (length gbs) (im_l2_tables im)) = Some (j, t)) as -> by done.
    apply list_find_Some. rewrite lookup_take_lt by done. split_and!; [done..|].
    intros j' y Hy Hlt ->. rewrite lookup_take_lt in Hy by lia.
    destruct (lo_sep _ Hlo) as [_ Hs]. destruct (Hs j t Ht) as (_ & _ & Hu). specialize (Hu j' Hy). lia.
  - rewrite tbl_S, step_entry1, He, Htd, table_desc_addr; done.
Qed.

(** The gigabyte has none: the next one is linked, if there is one. *)
Section Linked.
Context (t : Z) (Hz : read64 m (pte_ptr (im_l1_table im) gb) = 0)
  (Ht : im_l2_tables im !! length gbs = Some t).
Let Hlo := ii_layout _ _ _ Hi.
Let m' := write64 m (pte_ptr (im_l1_table im) gb) (table_desc t).
Let im' := set_count (S (length gbs)) im.

Lemma linked_fresh : ~ In t (own_of im (length gbs)).
Proof.
  destruct (lo_sep _ Hlo) as [_ Hs]. destruct (Hs _ _ Ht) as (Hn0 & Hn1 & Hu).
  intros [E|[E|E]]; [by apply Hn1|by apply Hn0|]. apply list_elem_of_In, list_elem_of_lookup in E as [j E].
  apply lookup_take_Some in E as [E Hlt]. specialize (Hu j E). lia.
Qed.
Lemma linked_empty i : 0 <= i < 512 -> read64 m (pte_ptr t i) = 0.
Proof. intros H. by apply (ii_free _ _ _ Hi (length gbs) t). Qed.
Lemma linked_slot : is_table_desc (read64 m (pte_ptr (im_l1_table im) (idx 1 addr))) = false.
Proof. by rewrite step_idx1, Hz. Qed.
Lemma linked_read u i : u mod 4096 = 0 -> 0 <= i < 512 -> u <> im_l1_table im \/ i <> gb ->
  read64 m' (pte_ptr u i) = read64 m (pte_ptr u i).
Proof.
  intros Hu Hib H. destruct (lo_l1 _ Hlo) as [Hl1 _]. apply slot_read_ne; [done..|apply step_gb|done|].
  destruct H; auto.
Qed.
Lemma linked_m : m' = write64 m (pte_ptr (im_l1_table im) (idx 1 addr)) (table_desc t).
Proof. by rewrite step_idx1. Qed.
Lemma linked_wf : s2_wf m' l0 (t :: own_of im (length gbs)).
Proof.
  destruct (lo_l2 _ Hlo _ _ Ht). rewrite linked_m.
  apply (link_wf m l0 _ (ii_wf _ _ _ Hi) 1 addr _ t (fun _ => 0)); auto using step_tbl1, linked_slot, linked_fresh, linked_empty.
Qed.
Lemma linked_tbl : tbl 2 m' l0 addr = Some t.
Proof.
  destruct (lo_l2 _ Hlo _ _ Ht). rewrite linked_m.
  rewrite (link_tbl m l0 _ (ii_wf _ _ _ Hi) 1 addr _ t (fun _ => 0));
    auto using step_tbl1, linked_slot, linked_fresh, linked_empty.
  by rewrite decide_True by (split; [lia|done]).
Qed.
Lemma linked_lookup ipa : s2_lookup m' l0 ipa = s2_lookup m l0 ipa.
Proof.
  destruct (lo_l2 _ Hlo _ _ Ht). rewrite linked_m.
  apply (lookup_link_empty m l0 _ 1 addr _ t ipa (ii_wf _ _ _ Hi)); auto using step_tbl1, linked_fresh, linked_empty.
  by rewrite step_idx1, Hz.
Qed.

Lemma linked_inv : im_inv m' im' (gbs ++ [gb]).
Proof.
  destruct (lo_l1 _ Hlo) as [Hl1a _], (lo_l0 _ Hlo) as [Hl0a _], (lo_sep _ Hlo) as [Hs0 Hs].
  assert (Hsl : length (gbs ++ [gb]) = S (length gbs)) by (rewrite length_app; cbn; lia).
  constructor; cbn [im' set_count im_l2_count im_l1_table im_l0_table im_l2_tables]; rewrite ?Hsl.
  - by destruct Hlo.
  - done.
  - rewrite <- (lo_len _ Hlo). apply lookup_lt_Some in Ht. lia.
  - eapply s2_wf_incl; [exact linked_wf|]. unfold own_of, im'. cbn [set_count im_l1_table im_l0_table im_l2_tables].
    rewrite (take_S_r _ _ _ Ht). intros x [<-|[<-|[<-|Hx]]]; [|by left|by right; left|];
      do 2 right; apply in_app_iff; [right; by left|by left].
  - rewrite linked_read; [apply (ii_root _ _ _ Hi)|done|lia|auto].
  - intros i Hib. destruct (decide (i = gb)) as [->|Hig].
    + left. exists (length gbs), t. split_and!; [by apply list_lookup_middle|done|].
      apply read64_write64, table_desc_fits; by apply (lo_l2 _ Hlo (length gbs)).
    + rewrite linked_read by auto. destruct (ii_l1 _ _ _ Hi i Hib) as [(j & u & Hj & Hrest)|[Hni Hr]].
      * left. exists j, u. split; [by apply lookup_app_l_Some|done].
      * right. split; [|done]. rewrite list_elem_of_In, in_app_iff, <- list_elem_of_In. intros [?|[?|[]]]; auto.
  - intros j u i Hj Hu' Hib. destruct (Hs _ _ Hu') as (_ & Hu1 & _).
    rewrite linked_read; [|by apply (lo_l2 _ Hlo j)|done|auto]. eapply (ii_free _ _ _ Hi j); [lia|done|done].
Qed.

Lemma l2_linked : im_l2_for (l1_index addr) (m, im) = Some (m', im', length gbs).
Proof.
  destruct (lo_l2 _ Hlo _ _ Ht). unfold im_l2_for. destruct (gb_index addr Ha) as [-> _]. fold gb.
  rewrite Hz, (ii_count _ _ _ Hi), (lo_len _ Hlo). cbn [negb pte_valid].
  apply lookup_lt_Some in Ht as Hlt. rewrite (lo_len _ Hlo) in Hlt.
  destruct (Nat.leb_spec NUM_L2 (length gbs)); [lia|].
  by rewrite (nth_lookup_Some _ _ 0 t Ht), s2e_table_desc.
Qed.
End Linked.
End Step.

(** ** One block *)
Section Block.
Context (m : mem) (im : IdentityMapper) (gbs : list Z) (Hi : im_inv m im gbs).
Context (addr : Z) (attr : MemoryAttribute) (Hal : addr mod 2 ^ 21 = 0) (Ha : 0 <= addr < 2 ^ 39).
Context (j : nat) (t : Z) (Hj : (j < length gbs)%nat) (Ht : im_l2_tables im !! j = Some t)
  (Ht2 : tbl 2 m (im_l0_table im) addr = Some t).
Let m' := write64 m (pte_ptr t (l2_index addr)) (s2e_block addr (attrs_of attr)).

Lemma block_m : m' = write64 m (pte_ptr t (idx 2 addr)) (make_block_entry addr attr).
Proof. unfold m'. rewrite s2e_block_entry by (done || (unfold fits; lia)). done. Qed.
Lemma block_inv : im_inv m' im gbs.
Proof.
  pose proof (ii_layout _ _ _ Hi) as Hlo. destruct (block_entry_props addr attr ltac:(unfold fits; lia)) as (P1 & P2 & P3 & P4).
  destruct (lo_sep _ Hlo) as [_ Hs], (Hs _ _ Ht) as (Hn0 & Hn1 & Hu), (lo_l2 _ Hlo _ _ Ht) as [Hta _].
  destruct (lo_l0 _ Hlo) as [Hl0 _], (lo_l1 _ Hlo) as [Hl1 _]. pose proof (idx_range 2 addr) as Hx. destruct Hi.
  rewrite block_m. constructor; auto.
  - by apply block_wf.
  - rewrite slot_read_ne by (auto || lia). done.
  - intros i Hib. rewrite slot_read_ne by auto. auto.
  - intros j' u i Hlt Hju Hib. rewrite slot_read_ne; [eauto|done|by apply (lo_l2 _ Hlo j')|done|done|].
    left. intros ->. specialize (Hu j' Hju). lia.
Qed.
Lemma block_look ipa : s2_lookup m' (im_l0_table im) ipa =
  region_look addr (addr + 2 ^ 21) attr (s2_lookup m (im_l0_table im)) ipa.
Proof.
  assert (Hf : fits 48 addr) by (unfold fits; lia).
  destruct (block_entry_props addr attr Hf) as (P1 & P2 & P3 & _).
  rewrite block_m, (block_lookup _ _ _ (ii_wf _ _ _ Hi)) by done. unfold region_look. case_decide as Hp.
  - pose proof (proj1 (prefix3_block addr ipa Hal Hf) Hp). rewrite block_desc by done. zdec. done.
  - rewrite prefix3_block in Hp by done. zdec; done || lia.
Qed.
End Block.

(** The state after [reset]: every table is empty and none is linked. *)
Definition im_empty (m : mem) (im : IdentityMapper) : Prop :=
  layout_ok im /\ im_l2_count im = 0%nat /\
  forall t i, t ∈ im_pages im -> 0 <= i < 512 -> read64 m (pte_ptr t i) = 0.

(** The link of the L1 table at the first block. *)
Definition link_l1 (addr : Z) (m : mem) (im : IdentityMapper) : mem :=
  let l0_ptr := pte_ptr (im_l0_table im) (l0_index addr) in
  if negb (pte_valid (read64 m l0_ptr)) then write64 m l0_ptr (s2e_table (im_l1_table im)) else m.

Lemma link_l1_noop addr m im gbs : im_inv m im gbs -> 0 <= addr < 2 ^ 39 -> link_l1 addr m im = m.
Proof.
  intros Hi Ha. unfold link_l1. change (l0_index addr) with (idx 0 addr). rewrite idx0_low by done.
  rewrite (ii_root _ _ _ Hi). pose proof (table_desc_is_table (im_l1_table im)) as H.
  rewrite is_table_desc_and in H. by apply andb_true_iff in H as [-> _].
Qed.
Lemma link_l1_inv addr m im : im_empty m im -> 0 <= addr < 2 ^ 39 ->
  im_inv (link_l1 addr m im) im [] /\ (forall ipa, s2_lookup (link_l1 addr m im) (im_l0_table im) ipa = None).
Proof.
  intros (Hlo & Hc & Hz) Ha. unfold link_l1. change (l0_index addr) with (idx 0 addr). rewrite idx0_low by done.
  destruct (lo_l0 _ Hlo) as [Hl0 Hr0], (lo_l1 _ Hlo) as [Hl1 Hr1], (lo_sep _ Hlo) as [Hs0 Hs].
  pose proof (pages_l0 im) as P0. pose proof (pages_l1 im) as P1.
  rewrite (Hz (im_l0_table im) 0) by (done || lia). cbn [negb pte_valid]. rewrite s2e_table_desc by done.
  set (m' := write64 _ _ _).
  assert (He0 : read64 m' (pte_ptr (im_l0_table im) 0) = table_desc (im_l1_table im))
    by (apply read64_write64, table_desc_fits; done).
  assert (Hne : forall t i, t ∈ im_pages im -> 0 <= i < 512 -> t <> im_l0_table im \/ i <> 0 -> read64 m' (pte_ptr t i) = 0).
  { intros t i Ht Hib H. unfold m'. rewrite slot_read_ne; [by apply Hz|done|by apply (lo_page _ Hlo)|lia|done|].
    destruct H; auto. }
  split; cycle 1.
  { intros ipa. apply (new_lookup m' _ (im_l1_table im)); auto; intros i Hib; apply Hne; auto; lia. }
  constructor; cbn [length take]; try done; try (unfold NUM_L2; lia).
  - apply (new_wf m' _ (im_l1_table im)); auto; intros i Hib; apply Hne; auto; lia.
  - intros i Hib. right. split; [apply not_elem_of_nil|]. apply Hne; auto.
  - intros j t i _ Hj Hib. apply Hne; auto; [|left; by apply (Hs j)].
    by eapply pages_l2.
Qed.

(** ** Refinement of the abstract mapper *)
Definition im_rel (st : mem * IdentityMapper) (sp : list Z * (Z -> option pdesc)) : Prop :=
  (forall ipa, s2_lookup st.1 (im_l0_table st.2) ipa = sp.2 ipa) /\
  ((im_empty st.1 st.2 /\ sp.1 = []) \/ im_inv st.1 st.2 sp.1).
(** Only the tables change. *)
Definition im_frame (st st' : mem * IdentityMapper) : Prop :=
  im_pages st'.2 = im_pages st.2 /\ (forall x, outside (im_pages st.2) x -> st'.1 x = st.1 x).
Lemma im_frame_trans a b c : im_frame a b -> im_frame b c -> im_frame a c.
Proof.
  intros [P1 F1] [P2 F2]. split; [congruence|]. intros x Hx. rewrite F2, F1; [done..|]. by rewrite P1.
Qed.
Lemma im_frame_write m im im' t i v : im_pages im' = im_pages im -> t ∈ im_pages im -> 0 <= i < 512 ->
  im_frame (m, im) (write64 m (pte_ptr t i) v, im').
Proof. intros Hp Ht Hi. split; [done|]. intros x. apply slot_frame; [by apply list_elem_of_In|done]. Qed.

Lemma region_look_ext lo hi attr f g ipa : (forall ipa, f ipa = g ipa) ->
  region_look lo hi attr f ipa = region_look lo hi attr g ipa.
Proof. intros H. unfold region_look. by rewrite H. Qed.

Lemma empty_lookup m im ipa : im_empty m im -> s2_lookup m (im_l0_table im) ipa = None.
Proof.
  intros (_ & _ & Hz). unfold s2_lookup, entry_at. cbn [tbl].
  rewrite Hz; [done|apply pages_l0|apply idx_range].
Qed.

(** The step once the L1 table is linked. *)
Lemma inv_step m im gbs b : im_inv m im gbs -> block_ok b ->
  let st' := map_2mb_block b.1 (attrs_of b.2) (m, im) in
  let sp' := spec_block (gbs, s2_lookup m (im_l0_table im)) b in
  im_rel st' sp' /\ im_frame (m, im) st'.
Proof.
  destruct b as [addr attr]. intros Hi [Hal Ha]. cbn [fst snd] in *. cbv zeta.
  unfold map_2mb_block, spec_block. fold (link_l1 addr m im). rewrite (link_l1_noop _ _ _ _ Hi Ha). cbn [fst snd].
  pose proof (ii_layout _ _ _ Hi) as Hlo. pose proof (gb_index addr Ha) as [_ Hg].
  pose proof (idx_range 2 addr) as Hx. change (idx 2 addr) with (l2_index addr) in Hx.
  destruct (ii_l1 _ _ _ Hi _ Hg) as [(j & t & Hj & Ht & He)|[Hn Hz]].
  - destruct (l2_found _ _ _ Hi addr Ha j t Hj Ht He) as [-> Ht2].
    pose proof (lookup_lt_Some _ _ _ Hj). rewrite (nth_lookup_Some _ _ 0 t Ht).
    rewrite decide_True by by eapply list_elem_of_lookup_2. split.
    + split; [intros ipa; by eapply (block_look m im gbs)|right; by eapply (block_inv m im gbs)].
    + apply im_frame_write; [done|by eapply pages_l2|done].
  - rewrite decide_False by done. destruct (Nat.ltb_spec (length gbs) NUM_L2) as [Hlt|Hge].
    + destruct (lookup_lt_is_Some_2 (im_l2_tables im) (length gbs)) as [t Ht]; [by rewrite (lo_len _ Hlo)|].
      rewrite (l2_linked _ _ _ Hi addr Ha t Hz Ht).
      pose proof (linked_inv _ _ _ Hi addr Ha t Hz Ht) as Hi'.
      pose proof (linked_tbl _ _ _ Hi addr Ha t Ht) as Ht2.
      pose proof (linked_lookup _ _ _ Hi addr Ha t Hz Ht) as Hlk.
      assert (Hlen : (length gbs < length (gbs ++ [(addr / 2 ^ 30)%Z]))%nat) by (rewrite length_app; cbn; lia).
      cbn [set_count im_l2_tables]. rewrite (nth_lookup_Some _ _ 0 t Ht). split.
      * split; [|right; by eapply (block_inv _ _ _ Hi')].
        intros ipa. etrans; [by eapply (block_look _ _ _ Hi')|]. by apply region_look_ext.
      * eapply im_frame_trans; apply im_frame_write; [done|apply pages_l1|done|done|by eapply pages_l2|done].
    + assert (im_l2_for (l1_index addr) (m, im) = None) as ->.
      { unfold im_l2_for. destruct (gb_index addr Ha) as [-> _]. rewrite Hz, (ii_count _ _ _ Hi), (lo_len _ Hlo).
        cbn [negb pte_valid]. destruct (Nat.leb_spec NUM_L2 (length gbs)); [done|lia]. }
      split; [split; [done|by right]|by split].
Qed.

(** Abstract states with the same map. *)
Definition spec_eq (a b : list Z * (Z -> option pdesc)) : Prop := a.1 = b.1 /\ forall ipa, a.2 ipa = b.2 ipa.
Lemma spec_block_proper a b blk : spec_eq a b -> spec_eq (spec_block a blk) (spec_block b blk).
Proof.
  destruct a as [ga fa], b as [gb fb]. intros [Hg Hf]. cbn in *. subst gb. unfold spec_block. cbn [fst snd].
  case_decide; [|destruct (_ <? _)%nat]; (split; [done|]); cbn [fst snd]; auto; intros ipa; by apply region_look_ext.
Qed.
Lemma im_rel_eq st a b : im_rel st a -> spec_eq a b -> im_rel st b.
Proof. intros [H1 H2] [Hg Hf]. split; [intros; by rewrite H1|by rewrite <- Hg]. Qed.

Lemma im_step st sp b : im_rel st sp -> block_ok b ->
  im_rel (map_2mb_block b.1 (attrs_of b.2) st) (spec_block sp b) /\
  im_frame st (map_2mb_block b.1 (attrs_of b.2) st).
Proof.
  destruct st as [m im], sp as [gbs look]. intros [Hl [[He Hg]|Hi]] Hb; cbn [fst snd] in *.
  - subst gbs. destruct (link_l1_inv b.1 m im He (proj2 Hb)) as [Hi Hn].
    destruct (inv_step _ _ _ _ Hi Hb) as [Hr Hf]. unfold map_2mb_block in *. fold (link_l1 b.1 m im) in *.
    fold (link_l1 b.1 (link_l1 b.1 m im) im) in *. rewrite (link_l1_noop _ _ _ _ Hi (proj2 Hb)) in *. split.
    + eapply im_rel_eq; [exact Hr|]. apply spec_block_proper. split; [done|]. cbn. intros ipa.
      by rewrite Hn, <- Hl, (empty_lookup m im).
    + eapply im_frame_trans; [|exact Hf]. unfold link_l1. destruct (negb _); [|by split].
      apply im_frame_write; [done|apply pages_l0|apply (idx_range 0)].
  - destruct (inv_step _ _ _ _ Hi Hb) as [Hr Hf]. split; [|done].
    eapply im_rel_eq; [exact Hr|]. by apply spec_block_proper.
Qed.

Lemma im_run_refines bs : forall st sp, im_rel st sp -> Forall block_ok bs ->
  im_rel (im_run st bs) (fold_left spec_block bs sp) /\ im_frame st (im_run st bs).
Proof.
  induction bs as [|b bs IH]; intros st sp Hr Hb; [split; [done|by split]|].
  apply Forall_cons in Hb as [Hb Hbs]. destruct (im_step _ _ _ Hr Hb) as [Hr1 Hf1].
  destruct (IH _ _ Hr1 Hbs) as [Hr2 Hf2]. split; [done|]. by eapply im_frame_trans.
Qed.

(** ** [reset] *)
Lemma clear_table_read m u t i : u mod 4096 = 0 -> t mod 4096 = 0 -> 0 <= i < 512 ->
  read64 (clear_table m u) (pte_ptr t i) = if decide (t = u) then 0 else read64 m (pte_ptr t i).
Proof.
  intros Hu Ht Hi. unfold clear_table. case_decide as E.
  - subst t. rewrite <- (Z2Nat.id i) by lia. by rewrite fill_l3_read by (lia || (unfold fits; lia)).
  - apply read64_agree. intros x Hx. apply fill_l3_frame. revert Hx. unfold pte_ptr.
    intros Hx. clear - E Hu Ht Hi Hx. Z.div_mod_to_equations. lia.
Qed.
Lemma clear_all_read ts : forall m t i, Forall (fun u => u mod 4096 = 0) ts -> t mod 4096 = 0 -> 0 <= i < 512 ->
  t ∈ ts \/ read64 m (pte_ptr t i) = 0 -> read64 (fold_left clear_table ts m) (pte_ptr t i) = 0.
Proof.
  induction ts as [|u ts IH]; intros m t i Hts Ht Hi H; cbn [fold_left].
  - destruct H as [H|H]; [by apply not_elem_of_nil in H|done].
  - apply Forall_cons in Hts as [Hu Hts]. apply IH; [done..|]. rewrite clear_table_read by done.
    case_decide; [by right|]. destruct H as [H|H]; [|by right]. apply elem_of_cons in H as [H|H]; [done|by left].
Qed.
Lemma clear_all_frame ts x : forall m, outside ts x -> fold_left clear_table ts m x = m x.
Proof.
  induction ts as [|u ts IH]; intros m Hx; [done|]. cbn [fold_left]. rewrite IH by (intros t Ht; apply Hx; by right).
  specialize (Hx u (or_introl eq_refl)). unfold clear_table. apply fill_l3_frame. lia.
Qed.
Lemma im_reset_rel m im : layout_ok im ->
  im_rel (im_reset (m, im)) ([], fun _ => None) /\ im_frame (m, im) (im_reset (m, im)).
Proof.
  intros Hlo. set (ts := im_l0_table im :: im_l1_table im :: im_l2_tables im).
  assert (Hm : (im_reset (m, im)).1 = fold_left clear_table ts m) by done.
  assert (Hp : forall t, t ∈ ts <-> t ∈ im_pages im) by (intros t; rewrite !list_elem_of_In; cbn; tauto).
  assert (He : im_empty (im_reset (m, im)).1 (im_reset (m, im)).2).
  { split_and!; [by destruct Hlo|done|]. intros t i Ht Hi. rewrite Hm.
    apply clear_all_read; [|by apply (lo_page _ Hlo)|done|left; by apply Hp].
    apply list.Forall_forall. intros u Hu. by apply (lo_page _ Hlo), Hp. }
  split; [split; [intros ipa; by apply empty_lookup|by left]|]. split; [done|].
  intros x Hx. rewrite Hm. apply clear_all_frame. intros t Ht. apply Hx. by apply list_elem_of_In, Hp, list_elem_of_In.
Qed.

(** ** Regions *)
Definition blocks_of (start size : Z) (attr : MemoryAttribute) : list (Z * MemoryAttribute) :=
  map (fun addr => (addr, attr)) (block_addrs start size).
Lemma im_map_region_run start size attr st :
  im_map_region start size (attrs_of attr) st = im_run st (blocks_of start size attr).
Proof.
  unfold im_map_region, im_run, blocks_of. generalize (block_addrs start size) as l. intros l.
  revert st. induction l as [|a l IH]; intros st; [done|]. apply IH.
Qed.
Definition grow (look : Z -> option pdesc) (b : Z * MemoryAttribute) : Z -> option pdesc :=
  region_look b.1 (b.1 + 2 ^ 21) b.2 look.
(** The gigabytes a list of blocks needs a table for. *)
Definition gbs_needed (bs : list (Z * MemoryAttribute)) : list Z := remove_dups (map (fun b => b.1 / 2 ^ 30) bs).

Lemma spec_no_drop all : (length (remove_dups all) <= NUM_L2)%nat ->
  forall bs sp, NoDup sp.1 -> sp.1 ⊆ all -> (forall b, b ∈ bs -> b.1 / 2 ^ 30 ∈ all) ->
  (fold_left spec_block bs sp).2 = fold_left grow bs sp.2.
Proof.
  intros Hall. induction bs as [|b bs IH]; intros sp Hnd Hsub Hb; [done|]. cbn [fold_left].
  assert (Hgb : b.1 / 2 ^ 30 ∈ all) by (apply Hb, elem_of_cons; by left).
  assert (Hbs : forall b, b ∈ bs -> b.1 / 2 ^ 30 ∈ all) by (intros; apply Hb, elem_of_cons; by right).
  unfold spec_block at 2. case_decide as Hin; [by apply IH|].
  assert (Hnd' : NoDup (sp.1 ++ [b.1 / 2 ^ 30])).
  { apply NoDup_app. split_and!; [done| |apply NoDup_singleton]. intros x Hx ->%list_elem_of_singleton. done. }
  assert (Hsub' : sp.1 ++ [b.1 / 2 ^ 30] ⊆ all).
  { intros x [Hx|Hx]%elem_of_app; [by apply Hsub|]. apply list_elem_of_singleton in Hx as ->. done. }
  assert (Hlen : (length (sp.1 ++ [(b.1 / 2 ^ 30)%Z]) <= length (remove_dups all))%nat).
  { apply submseteq_length, NoDup_submseteq; [done|]. intros x Hx. by apply elem_of_remove_dups, Hsub'. }
  rewrite length_app in Hlen. cbn in Hlen. destruct (Nat.ltb_spec (length sp.1) NUM_L2); [|lia].
  by rewrite IH.
Qed.

Lemma grow_blocks base attr look ipa n : 0 <= base ->
  fold_left grow (map (fun i => (base + Z.of_nat i * 2 ^ 21, attr)) (seq 0 n)) look ipa =
  region_look base (base + Z.of_nat n * 2 ^ 21) attr look ipa.
Proof.
  intros Hb. induction n as [|n IH].
  - cbn. unfold region_look. zdec; done || lia.
  - rewrite seq_S, map_app, fold_left_app. cbn [fold_left map Nat.add]. unfold grow at 1. cbn [fst snd].
    unfold region_look at 1. rewrite IH. unfold region_look. zdec; done || lia.
Qed.
Lemma blocks_of_aligned base size attr : 0 <= base -> 0 <= size -> size mod 2 ^ 21 = 0 -> base + size <= 2 ^ 39 ->
  blocks_of base size attr = map (fun i => (base + Z.of_nat i * 2 ^ 21, attr)) (seq 0 (Z.to_nat (size / 2 ^ 21))).
Proof.
  intros Hb Hs Ha Hm. unfold blocks_of, block_addrs, u64. rewrite map_map, wrap_id by (unfold fits, BLOCK_SIZE_2MB; lia).
  replace ((size + BLOCK_SIZE_2MB - 1) / BLOCK_SIZE_2MB) with (size / 2 ^ 21)
    by (unfold BLOCK_SIZE_2MB; Z.div_mod_to_equations; lia).
  apply map_ext_in. intros i Hi%in_seq. f_equal. unfold BLOCK_SIZE_2MB.
  assert (Z.of_nat i * 2 ^ 21 < size) by (clear - Hi Hs Ha; Z.div_mod_to_equations; lia).
  rewrite (wrap_id _ (Z.of_nat i * _)) by (unfold fits; lia). rewrite wrap_id by (unfold fits; lia). lia.
Qed.
Lemma blocks_of_look base size attr look ipa : 0 <= base -> 0 <= size -> size mod 2 ^ 21 = 0 -> base + size <= 2 ^ 39 ->
  fold_left grow (blocks_of base size attr) look ipa = region_look base (base + size) attr look ipa.
Proof.
  intros Hb Hs Ha Hm. rewrite blocks_of_aligned, grow_blocks by done. do 2 f_equal.
  Z.div_mod_to_equations. lia.
Qed.
Lemma blocks_of_ok base size attr : base mod 2 ^ 21 = 0 -> 0 <= base -> 0 <= size -> size mod 2 ^ 21 = 0 ->
  base + size <= 2 ^ 39 -> Forall block_ok (blocks_of base size attr).
Proof.
  intros Hba Hb Hs Ha Hm. rewrite blocks_of_aligned by done. apply list.Forall_forall.
  intros b (i & -> & Hi%elem_of_seq)%list_elem_of_fmap. unfold block_ok. cbn [fst].
  clear - Hba Hb Hs Ha Hm Hi. Z.div_mod_to_equations. lia.
Qed.

(** ** The memory of a VM of the static build *)
Definition static_map (base size ipa : Z) : option pdesc :=
  if ipa_in GIC_REGION_BASE (GIC_REGION_BASE + GIC_REGION_SIZE) ipa then Some (id_desc_of Device ipa)
  else if ipa_in base (base + size) ipa then Some (id_desc_of Normal ipa)
  else None.
Definition static_blocks (base size : Z) : list (Z * MemoryAttribute) :=
  blocks_of base size Normal ++ blocks_of GIC_REGION_BASE GIC_REGION_SIZE Device.

(** The static mapper, exactly: for every guest region of whole 2MB blocks
    below 512GB, the tables that [init_memory_static] builds are those of the
    abstract mapper, which drops every block whose gigabyte can no longer get
    one of the four L2 tables; when four are enough, an address translates to
    itself as device memory in the GIC region, to itself as normal memory in
    the guest region, and nothing else is mapped.  VTTBR_EL2 names the tables,
    and memory outside them is not touched, whatever the tables held before. *)
Theorem static_memory_exact im m base size : layout_ok im ->
  base mod 2 ^ 21 = 0 -> size mod 2 ^ 21 = 0 -> 0 <= base -> 0 <= size -> base + size <= 2 ^ 39 ->
  let r := init_memory_static base size (m, im) in
  let look := s2_lookup r.1.1 (l0_table (from_vttbr r.2.1)) in
  (forall ipa, look ipa = (fold_left spec_block (static_blocks base size) ([], fun _ => None)).2 ipa) /\
  ((length (gbs_needed (static_blocks base size)) <= NUM_L2)%nat -> forall ipa, look ipa = static_map base size ipa) /\
  (forall x, outside (im_pages im) x -> r.1.1 x = m x).
Proof.
  intros Hlo Hba Hsa Hb Hs Hm. cbv zeta.
  destruct (im_reset_rel m im Hlo) as [Hr0 Hf0].
  assert (Hok : Forall block_ok (static_blocks base size)).
  { apply Forall_app. split; apply blocks_of_ok; done || lia. }
  destruct (im_run_refines _ _ _ Hr0 Hok) as [[Hl Hi] Hf].
  assert (Hst : (init_memory_static base size (m, im)).1 = im_run (im_reset (m, im)) (static_blocks base size)).
  { unfold init_memory_static. cbn [fst]. change ATTRS_NORMAL with (attrs_of Normal). change ATTRS_DEVICE with (attrs_of Device).
    rewrite !im_map_region_run. unfold im_run, static_blocks. by rewrite fold_left_app. }
  assert (Hl0 : im_l0_table (im_run (im_reset (m, im)) (static_blocks base size)).2 = im_l0_table im).
  { destruct (im_frame_trans _ _ _ Hf0 Hf) as [Hp _]. by injection Hp. }
  assert (Hv : l0_table (from_vttbr (init_memory_static base size (m, im)).2.1) = im_l0_table im).
  { destruct (lo_l0 _ Hlo) as [Hal Hr]. change (init_memory_static base size (m, im)).2 with
      (new_with_vmid (im_l0_table (init_memory_static base size (m, im)).1.2) 0).
    rewrite Hst, Hl0.
    destruct (vttbr_round_trip (mkMapper (im_l0_table im) 0 [] 0) 0 (fun _ => 0) 0) as [E _];
      [done|split; cbn; lia|done|]. cbn [dm_l0_table] in E. by rewrite E. }
  rewrite Hv, Hst. rewrite Hl0 in Hl. split_and!; [exact Hl| |].
  - intros Hle ipa. rewrite Hl. rewrite (spec_no_drop (map (fun b => b.1 / 2 ^ 30) (static_blocks base size)) Hle);
      [|apply NoDup_nil_2|apply list_subseteq_nil|].
    + unfold static_blocks. rewrite fold_left_app, blocks_of_look by (done || lia).
      unfold region_look at 1. rewrite blocks_of_look by done. done.
    + intros b Hb'. by apply (list_elem_of_fmap_2 (fun b => b.1 / 2 ^ 30)).
  - intros x Hx. by apply (im_frame_trans _ _ _ Hf0 Hf).
Qed.

Definition ex_im : IdentityMapper :=
  mkIdMapper 0x40300000 0x40301000 [0x40302000; 0x40303000; 0x40304000; 0x40305000] 3.
Lemma ex_im_ok : layout_ok ex_im.
Proof.
  constructor; [done| |apply (bool_decide_unpack _); by vm_compute].
  assert (H : Forall (fun t => t mod 4096 = 0 /\ 0 < t < 2 ^ 48) (im_pages ex_im))
    by (repeat constructor; done). exact (proj1 (list.Forall_forall _ _) H).
Qed.
Lemma static_memory_exact_witness :
  let r := init_memory_static 0x48000000 0x400000 (fun _ => 0xFF, ex_im) in
  let look := s2_lookup r.1.1 (l0_table (from_vttbr r.2.1)) in
  look 0x483ffff8 = Some (id_desc_of Normal 0x483ffff8) /\ look 0x48400000 = None /\
  look 0x08000000 = Some (id_desc_of Device 0x08000000) /\ r.1.1 0x40306000 = 0xFF.
Proof.
  destruct (static_memory_exact ex_im (fun _ => 0xFF) 0x48000000 0x400000 ex_im_ok) as (_ & H & Hf);
    [reflexivity|reflexivity|lia..|].
  assert (Hn : (length (gbs_needed (static_blocks 0x48000000 0x400000)) <= NUM_L2)%nat)
    by (apply (bool_decide_unpack _); by vm_compute).
  specialize (H Hn). cbv zeta. rewrite !H. split_and!; [done..|]. rewrite Hf; [done|].
  intros t Ht. cbn in Ht. repeat (destruct Ht as [<-|Ht]; [lia|]). done.
Defined.
(** A guest region that fills four gigabytes leaves no table for the GIC: it
    is not mapped, and nothing reports it. *)
Example static_gic_dropped :
  length (gbs_needed (static_blocks 0x40000000 0x100000000)) = 5%nat.
Proof. by vm_compute. Qed.
