(* ===== verification/PageTables.v ===== *)
(** * PageTables: the typed tables of the static mapper

    [mmu.rs] writes the static mapper with types: [S2PageTableEntry],
    [MemoryAttributes], [PageTable] with its 512 entries, and [IdentityMapper]
    as a structure of six tables that indexes arrays.  StaticMapper models the
    same code as loads and stores at the addresses of the tables, which is what
    the hardware walks.  Here is the typed program, an index out of range being
    a panic, and the proof that the memory of StaticMapper represents it: the
    typed program never panics, and each of its operations is the operation on
    memory. *)

From Stdlib Require Import ZArith Lia Bool List.
From stdpp Require Import base decidable option sets list strings.
From S2P Require Import Prelude Memory Allocator Stage2 Stage2Spec Stage2Bits Stage2Ops Platform StaticMapper.
Import Walker Mapper.

(** ** Attributes and entries *)
Record MemoryAttributes := mkAttrs { ma_bits : Z }.
Definition ma_NORMAL : MemoryAttributes :=
  mkAttrs (Z.lor (Z.lor (Z.lor (Z.shiftl 15 0) (Z.shiftl 3 4)) (Z.shiftl 3 6)) (Z.shiftl 1 8)).
Definition ma_DEVICE : MemoryAttributes :=
  mkAttrs (Z.lor (Z.lor (Z.lor (Z.shiftl 0 0) (Z.shiftl 3 4)) (Z.shiftl 0 6)) (Z.shiftl 1 8)).
Definition ma_READONLY : MemoryAttributes :=
  mkAttrs (Z.lor (Z.lor (Z.lor (Z.shiftl 15 0) (Z.shiftl 1 4)) (Z.shiftl 3 6)) (Z.shiftl 1 8)).

Record S2PageTableEntry := mkEntry { raw : Z }.
Definition entry_invalid : S2PageTableEntry := mkEntry 0.
Definition entry_block (addr : Z) (attrs : MemoryAttributes) : S2PageTableEntry :=
  mkEntry (Z.lor (Z.lor (Z.lor (Z.land addr PTE_ADDR_MASK) PTE_VALID) (Z.shiftl 0 1)) (u64 (Z.shiftl (ma_bits attrs) 2))).
Definition entry_page (addr : Z) (attrs : MemoryAttributes) : S2PageTableEntry :=
  mkEntry (Z.lor (Z.lor (Z.lor (Z.land addr PTE_ADDR_MASK) PTE_VALID) PTE_TABLE) (u64 (Z.shiftl (ma_bits attrs) 2))).
Definition entry_table (next_level_addr : Z) : S2PageTableEntry :=
  mkEntry (Z.lor (Z.lor (Z.land next_level_addr PTE_ADDR_MASK) PTE_VALID) PTE_TABLE).
Definition is_valid (e : S2PageTableEntry) : bool := negb (Z.land (raw e) PTE_VALID =? 0).
Definition entry_is_table (e : S2PageTableEntry) : bool :=
  is_valid e && (Z.land (raw e) (Z.lor PTE_VALID PTE_TABLE) =? Z.lor PTE_VALID PTE_TABLE).
Definition entry_addr (e : S2PageTableEntry) : Z := Z.land (raw e) PTE_ADDR_MASK.

(** ** Tables

    A table knows its address ([self as *const _]); [None] is a panic of the
    index. *)
Record PageTable := mkTable { pt_addr : Z; pt_entries : list S2PageTableEntry }.
Definition table_new (addr : Z) : PageTable := mkTable addr (replicate 512 entry_invalid).
Definition table_entry (t : PageTable) (index : Z) : option S2PageTableEntry := pt_entries t !! Z.to_nat index.
Definition table_set_entry (t : PageTable) (index : Z) (e : S2PageTableEntry) : option PageTable :=
  if (Z.to_nat index <? length (pt_entries t))%nat then Some (mkTable (pt_addr t) (<[Z.to_nat index := e]> (pt_entries t))) else None.
(** [for i in 0..512 { entries[i] = S2PageTableEntry(0) }] *)
Definition table_clear (t : PageTable) : PageTable := mkTable (pt_addr t) (replicate 512 entry_invalid).

(** ** The mapper *)
Record TypedMapper := mkTyped { tm_l0 : PageTable; tm_l1 : PageTable; tm_l2s : list PageTable; tm_l2_count : nat }.
Definition typed_new (l0 l1 : Z) (l2s : list Z) : TypedMapper := mkTyped (table_new l0) (table_new l1) (map table_new l2s) 0.
Definition typed_reset (tm : TypedMapper) : TypedMapper :=
  mkTyped (table_clear (tm_l0 tm)) (table_clear (tm_l1 tm)) (map table_clear (tm_l2s tm)) 0.

(** [for i in 0..self.l2_count { if self.l2_tables[i].addr() == l2_addr ... }] *)
Fixpoint find_l2 (ts : list PageTable) (n i : nat) (l2_addr : Z) : option (option nat) :=
  match n with
  | O => Some None
  | S n => match ts !! i with
           | None => None
           | Some t => if pt_addr t =? l2_addr then Some (Some i) else find_l2 ts n (S i) l2_addr
           end
  end.

Definition typed_map_2mb_block (addr : Z) (attrs : MemoryAttributes) (tm : TypedMapper) : option TypedMapper :=
  e0 ← table_entry (tm_l0 tm) (l0_index addr);
  l0 ← (if negb (is_valid e0) then table_set_entry (tm_l0 tm) (l0_index addr) (entry_table (pt_addr (tm_l1 tm))) else Some (tm_l0 tm));
  e1 ← table_entry (tm_l1 tm) (l1_index addr);
  let tm0 := mkTyped l0 (tm_l1 tm) (tm_l2s tm) (tm_l2_count tm) in
  let put tm idx := (t ← tm_l2s tm !! idx; t ← table_set_entry t (l2_index addr) (entry_block addr attrs);
                     Some (mkTyped (tm_l0 tm) (tm_l1 tm) (<[idx := t]> (tm_l2s tm)) (tm_l2_count tm))) in
  if negb (is_valid e1) then
    if (length (tm_l2s tm) <=? tm_l2_count tm)%nat then Some tm0 else
    let idx := tm_l2_count tm in
    t2 ← tm_l2s tm !! idx;
    l1 ← table_set_entry (tm_l1 tm) (l1_index addr) (entry_table (pt_addr t2));
    put (mkTyped l0 l1 (tm_l2s tm) (S idx)) idx
  else
    found ← find_l2 (tm_l2s tm) (tm_l2_count tm) 0 (entry_addr e1);
    match found with
    | Some idx => put tm0 idx
    | None => Some tm0
    end.

Definition typed_map_region (start size : Z) (attrs : MemoryAttributes) (tm : TypedMapper) : option TypedMapper :=
  fold_left (fun o addr => tm ← o; typed_map_2mb_block addr attrs tm) (block_addrs start size) (Some tm).

(** [Stage2Config] *)
Record Stage2Config := mkS2Config { cfg_vttbr : Z; cfg_vtcr : Z }.
Definition stage2_config_new (page_table_addr : Z) : Stage2Config :=
  let (vttbr, vtcr) := new_with_vmid page_table_addr 0 in mkS2Config vttbr vtcr.
Definition typed_config (tm : TypedMapper) : Stage2Config := stage2_config_new (pt_addr (tm_l0 tm)).
Definition typed_l0_addr (tm : TypedMapper) : Z := pt_addr (tm_l0 tm).

(** ** Entries *)
Lemma mask_fits addr : fits 64 (Z.land addr PTE_ADDR_MASK).
Proof. rewrite Z.land_comm. apply land_fits; [lia|]. by vm_compute. Qed.
Lemma entry_table_fits a : fits 64 (raw (entry_table a)).
Proof. apply lor_fits; [lia|apply lor_fits; [lia|apply mask_fits|by vm_compute]|by vm_compute]. Qed.
Lemma entry_block_fits a attrs : fits 64 (raw (entry_block a attrs)).
Proof.
  apply lor_fits; [lia| |apply wrap_fits; lia]. apply lor_fits; [lia|apply lor_fits; [lia|apply mask_fits|by vm_compute]|by vm_compute].
Qed.
#[local] Hint Resolve entry_table_fits entry_block_fits : core.

(** What the constructors put in, the accessors give back, and the two mappers
    write the same descriptors. *)
Lemma entry_table_reads a : a mod 4096 = 0 -> 0 < a < 2 ^ 48 ->
  is_valid (entry_table a) = true /\ entry_is_table (entry_table a) = true /\ entry_addr (entry_table a) = a.
Proof.
  intros Ha Hr. unfold entry_is_table, is_valid, entry_addr. change (raw (entry_table a)) with (s2e_table a). rewrite s2e_table_desc by done.
  assert (Ht : is_table_desc (table_desc a) = true) by (by apply table_desc_is_table). rewrite is_table_desc_and in Ht.
  apply andb_true_iff in Ht as [Hv Hb]. unfold pte_valid in Hv. rewrite Hv. split; [done|]. split; [|by apply table_desc_addr].
  exact (table_desc_is_table a).
Qed.
Definition typed_attrs (attr : MemoryAttribute) : MemoryAttributes :=
  match attr with Normal => ma_NORMAL | Device => ma_DEVICE | ReadOnly => ma_READONLY end.
Lemma typed_attrs_bits attr : ma_bits (typed_attrs attr) = attrs_of attr /\ u64 (Z.shiftl (ma_bits (typed_attrs attr)) 2) = attr_bits attr.
Proof. by destruct attr. Qed.
Lemma entry_page_is_page_entry addr attr : addr mod 4096 = 0 -> fits 48 addr ->
  raw (entry_page addr (typed_attrs attr)) = make_page_entry addr attr.
Proof.
  intros Ha Hf. unfold entry_page, make_page_entry. cbn [raw]. rewrite (proj2 (typed_attrs_bits attr)).
  assert (Z.land addr PTE_ADDR_MASK = Z.land addr (not64 PAGE_MASK_4KB)) as ->.
  { rewrite addr_mask_bmask. change PAGE_MASK_4KB with (Z.ones 12). unfold not64.
    bit_ext i Hi. zdec; rewrite ?andb_true_r, ?andb_false_r; try done.
    symmetry. apply (testbit_small addr 48); [lia|done]. }
  rewrite <- !Z.lor_assoc. f_equal. rewrite (Z.lor_comm PTE_TABLE). rewrite (Z.lor_comm PTE_VALID), <- Z.lor_assoc. done.
Qed.

(** ** The memory represents the tables *)
Record table_rep (m : mem) (t : PageTable) : Prop := {
  tr_len : length (pt_entries t) = 512%nat;
  tr_page : pt_addr t mod 4096 = 0;
  tr_read i e : pt_entries t !! i = Some e -> read64 m (pte_ptr (pt_addr t) (Z.of_nat i)) = raw e
}.
Definition tables (tm : TypedMapper) : list PageTable := tm_l0 tm :: tm_l1 tm :: tm_l2s tm.
Record typed_rep (st : mem * IdentityMapper) (tm : TypedMapper) : Prop := {
  ty_l0 : pt_addr (tm_l0 tm) = im_l0_table st.2;
  ty_l1 : pt_addr (tm_l1 tm) = im_l1_table st.2;
  ty_l2 : map pt_addr (tm_l2s tm) = im_l2_tables st.2;
  ty_count : tm_l2_count tm = im_l2_count st.2;
  ty_bound : (tm_l2_count tm <= length (tm_l2s tm))%nat;
  ty_nodup : NoDup (map pt_addr (tables tm));
  ty_mem : Forall (table_rep st.1) (tables tm)
}.

Lemma rep_entry m t i : table_rep m t -> 0 <= i < 512 ->
  exists e, table_entry t i = Some e /\ read64 m (pte_ptr (pt_addr t) i) = raw e.
Proof.
  intros [Hl _ Hr] Hi. destruct (lookup_lt_is_Some_2 (pt_entries t) (Z.to_nat i)) as [e He]; [lia|].
  exists e. split; [done|]. rewrite <- (Hr _ _ He), Z2Nat.id by lia. done.
Qed.
Lemma rep_set m t i e : table_rep m t -> 0 <= i < 512 -> fits 64 (raw e) ->
  exists t', table_set_entry t i e = Some t' /\ pt_addr t' = pt_addr t /\
    table_rep (write64 m (pte_ptr (pt_addr t) i) (raw e)) t'.
Proof.
  intros [Hl Hp Hr] Hi Hf. unfold table_set_entry. rewrite (proj2 (Nat.ltb_lt _ _)) by lia. eexists. split; [done|]. split; [done|].
  split; cbn [pt_addr pt_entries]; [by rewrite length_insert|done|]. intros k e' He. destruct (decide (k = Z.to_nat i)) as [->|Hne].
  - rewrite list_lookup_insert_eq in He by lia. injection He as <-. rewrite Z2Nat.id by lia. by apply read64_write64.
  - rewrite list_lookup_insert_ne in He by done. rewrite read64_write64_ne by (unfold pte_ptr; lia). by apply Hr.
Qed.
Lemma rep_other m a u i v : a mod 4096 = 0 -> pt_addr u <> a -> 0 <= i < 512 -> table_rep m u ->
  table_rep (write64 m (pte_ptr a i) v) u.
Proof.
  intros Ha Hne Hi [Hl Hp Hr]. split; [done|done|]. intros k e He. rewrite read64_write64_ne; [by apply Hr|].
  apply lookup_lt_Some in He. unfold pte_ptr. clear - Hl Ha Hp Hne Hi He. Z.div_mod_to_equations. lia.
Qed.

(** One store to one of several tables. *)
Lemma reps_set m ts k t i e : Forall (table_rep m) ts -> NoDup (map pt_addr ts) -> ts !! k = Some t -> 0 <= i < 512 -> fits 64 (raw e) ->
  exists t', table_set_entry t i e = Some t' /\ pt_addr t' = pt_addr t /\ map pt_addr (<[k := t']> ts) = map pt_addr ts /\
    Forall (table_rep (write64 m (pte_ptr (pt_addr t) i) (raw e))) (<[k := t']> ts).
Proof.
  intros HF Hnd Hk Hi Hf. assert (Ht : table_rep m t) by (by eapply Forall_lookup_1).
  destruct (rep_set m t i e Ht Hi Hf) as (t' & Hs & Ha & Hr). exists t'. split_and!; [done|done| |].
  - rewrite list_fmap_insert, Ha. apply list_insert_id. rewrite list_lookup_fmap, Hk. done.
  - apply Forall_lookup_2. intros j u Hu. destruct (decide (j = k)) as [->|Hne].
    + rewrite list_lookup_insert_eq in Hu by (by eapply lookup_lt_Some). by injection Hu as <-.
    + rewrite list_lookup_insert_ne in Hu by done. apply rep_other; [apply Ht| |done|by eapply Forall_lookup_1].
      intros E. apply Hne. eapply (NoDup_lookup _ j k (pt_addr t) Hnd); rewrite list_lookup_fmap; [rewrite Hu|rewrite Hk]; cbn; by rewrite ?E.
Qed.

(** The scan for the L2 table. *)
Lemma find_l2_scan ts n : forall i a, (i + n <= length ts)%nat ->
  find_l2 ts n i a = Some (option_map (fun p => (i + p.1)%nat) (list_find (fun x => x = a) (take n (drop i (map pt_addr ts))))).
Proof.
  induction n as [|n IH]; intros i a Hn; [by rewrite take_0|]. cbn [find_l2].
  destruct (lookup_lt_is_Some_2 ts i) as [t Ht]; [lia|]. rewrite Ht.
  assert (Hd : drop i (map pt_addr ts) = pt_addr t :: drop (S i) (map pt_addr ts)) by (apply drop_S; by rewrite list_lookup_fmap, Ht).
  rewrite Hd. cbn [take list_find]. destruct (Z.eqb_spec (pt_addr t) a) as [E|E].
  - rewrite decide_True by done. cbn. do 2 f_equal. lia.
  - rewrite decide_False by done. rewrite IH by lia. f_equal. destruct (list_find _ _) as [[j x]|]; cbn; [|done]. f_equal. lia.
Qed.

(** ** The operations *)
Definition put_table (k : nat) (t : PageTable) (tm : TypedMapper) : TypedMapper :=
  match k with
  | 0%nat => mkTyped t (tm_l1 tm) (tm_l2s tm) (tm_l2_count tm)
  | 1%nat => mkTyped (tm_l0 tm) t (tm_l2s tm) (tm_l2_count tm)
  | S (S i) => mkTyped (tm_l0 tm) (tm_l1 tm) (<[i := t]> (tm_l2s tm)) (tm_l2_count tm)
  end.
Lemma tables_put k t tm : tables (put_table k t tm) = <[k := t]> (tables tm).
Proof. by destruct k as [|[|i]]. Qed.

Lemma rep_store m im tm k t i e : typed_rep (m, im) tm -> tables tm !! k = Some t -> 0 <= i < 512 -> fits 64 (raw e) ->
  exists t', table_set_entry t i e = Some t' /\ pt_addr t' = pt_addr t /\
    typed_rep (write64 m (pte_ptr (pt_addr t) i) (raw e), im) (put_table k t' tm).
Proof.
  intros [H0 H1 H2 Hc Hb Hnd HF] Hk Hi Hf. destruct (reps_set m (tables tm) k t i e HF Hnd Hk Hi Hf) as (t' & Hs & Ha & Hm & HF').
  exists t'. split_and!; [done|done|]. assert (Hm' := Hm). rewrite <- tables_put in Hm, HF'. cbn in Hm. injection Hm as E0 E1 E2.
  split; cbn [fst snd] in *; [congruence|congruence|congruence|by destruct k as [|[|]]| |by rewrite tables_put, Hm'|done].
  apply (f_equal length) in E2. rewrite !length_fmap in E2. rewrite E2. by destruct k as [|[|]].
Qed.

Lemma rep_count m im tm n : typed_rep (m, im) tm -> (n <= length (tm_l2s tm))%nat ->
  typed_rep (m, set_count n im) (mkTyped (tm_l0 tm) (tm_l1 tm) (tm_l2s tm) n).
Proof. intros [H0 H1 H2 Hc Hb Hnd HF] Hn. by split. Qed.

Lemma rep_table m im tm k t i : typed_rep (m, im) tm -> tables tm !! k = Some t -> 0 <= i < 512 ->
  exists e, table_entry t i = Some e /\ read64 m (pte_ptr (pt_addr t) i) = raw e.
Proof. intros H Hk. apply rep_entry. eapply Forall_lookup_1; [exact (ty_mem _ _ H)|exact Hk]. Qed.

(** The last store of a block. *)
Lemma rep_put m im tm idx addr attrs : typed_rep (m, im) tm -> (idx < length (tm_l2s tm))%nat ->
  exists tm', (t ← tm_l2s tm !! idx; t ← table_set_entry t (l2_index addr) (entry_block addr attrs);
               Some (mkTyped (tm_l0 tm) (tm_l1 tm) (<[idx := t]> (tm_l2s tm)) (tm_l2_count tm))) = Some tm' /\
    typed_rep (write64 m (pte_ptr (nth idx (im_l2_tables im) 0) (l2_index addr)) (s2e_block addr (ma_bits attrs)), im) tm'.
Proof.
  intros H Hi. destruct (lookup_lt_is_Some_2 (tm_l2s tm) idx Hi) as [t Ht]. rewrite Ht. cbn [mbind option_bind].
  destruct (rep_store m im tm (S (S idx)) t (l2_index addr) (entry_block addr attrs) H Ht (idx_range 2 addr) (entry_block_fits _ _))
    as (t' & -> & _ & Hr). cbn [mbind option_bind]. eexists. split; [reflexivity|].
  assert (nth idx (im_l2_tables im) 0 = pt_addr t) as ->; [|exact Hr].
  pose proof (ty_l2 _ _ H) as E2. cbn [snd] in E2. rewrite <- E2, nth_lookup, list_lookup_fmap, Ht. done.
Qed.

Lemma typed_block_step st tm addr attrs : typed_rep st tm ->
  exists tm', typed_map_2mb_block addr attrs tm = Some tm' /\ typed_rep (map_2mb_block addr (ma_bits attrs) st) tm'.
Proof.
  destruct st as [m im]. intros H. pose proof H as [E0 E1 E2 Ec Eb Hnd HF]. cbn [fst snd] in *.
  unfold typed_map_2mb_block, map_2mb_block.
  destruct (rep_table m im tm 0 (tm_l0 tm) (l0_index addr) H eq_refl (idx_range 0 addr)) as (e0 & He0 & R0). rewrite He0. cbn [mbind option_bind].
  rewrite <- E0, R0. change (negb (pte_valid (raw e0))) with (negb (is_valid e0)). rewrite <- E1.
  assert (L0 : exists l0, (if negb (is_valid e0) then table_set_entry (tm_l0 tm) (l0_index addr) (entry_table (pt_addr (tm_l1 tm))) else Some (tm_l0 tm)) = Some l0 /\
    typed_rep (if negb (is_valid e0) then write64 m (pte_ptr (pt_addr (tm_l0 tm)) (l0_index addr)) (s2e_table (pt_addr (tm_l1 tm))) else m, im)
      (mkTyped l0 (tm_l1 tm) (tm_l2s tm) (tm_l2_count tm))).
  { destruct (negb (is_valid e0)); [|exists (tm_l0 tm); split; [done|by destruct tm]].
    destruct (rep_store m im tm 0 (tm_l0 tm) (l0_index addr) (entry_table (pt_addr (tm_l1 tm))) H eq_refl (idx_range 0 addr) (entry_table_fits _))
      as (t' & Hs & _ & Hr). by exists t'. }
  destruct L0 as (l0 & -> & H0). cbn [mbind option_bind]. revert H0. generalize (if negb (is_valid e0) then write64 m (pte_ptr (pt_addr (tm_l0 tm)) (l0_index addr)) (s2e_table (pt_addr (tm_l1 tm))) else m).
  intros m0 H0. set (tm0 := mkTyped l0 (tm_l1 tm) (tm_l2s tm) (tm_l2_count tm)) in H0.
  destruct (rep_table m0 im tm0 1 (tm_l1 tm) (l1_index addr) H0 eq_refl (idx_range 1 addr)) as (e1 & He1 & R1). rewrite He1. cbn [mbind option_bind].
  unfold im_l2_for. rewrite <- E1, R1, <- E2, <- Ec, length_fmap. change (negb (pte_valid (raw e1))) with (negb (is_valid e1)).
  destruct (negb (is_valid e1)).
  - destruct (Nat.leb_spec (length (tm_l2s tm)) (tm_l2_count tm)) as [Hl|Hl]; [by eexists|].
    destruct (lookup_lt_is_Some_2 (tm_l2s tm) (tm_l2_count tm) Hl) as [t2 Ht2]. rewrite Ht2. cbn [mbind option_bind].
    destruct (rep_store m0 im tm0 1 (tm_l1 tm) (l1_index addr) (entry_table (pt_addr t2)) H0 eq_refl (idx_range 1 addr) (entry_table_fits _))
      as (l1 & -> & _ & Hr). cbn [mbind option_bind].
    apply (rep_count _ _ _ (S (tm_l2_count tm))) in Hr; [|exact Hl].
    assert (nth (tm_l2_count tm) (map pt_addr (tm_l2s tm)) 0 = pt_addr t2) as -> by (by rewrite nth_lookup, list_lookup_fmap, Ht2).
    exact (rep_put _ _ _ (tm_l2_count tm) addr attrs Hr Hl).
  - rewrite (find_l2_scan (tm_l2s tm) (tm_l2_count tm) 0 (entry_addr e1)) by lia. rewrite drop_0. cbn [mbind option_bind].
    change (entry_addr e1) with (s2e_addr (raw e1)).
    destruct (list_find _ _) as [[i a]|] eqn:Ef; cbn [option_map]; [|by eexists].
    assert (Hi : (i < length (tm_l2s tm))%nat).
    { apply list_find_Some in Ef as (Hl & _ & _). apply lookup_lt_Some in Hl. rewrite length_take, length_fmap in Hl. lia. }
    exact (rep_put m0 im tm0 i addr attrs H0 Hi).
Qed.

(** [init_memory_static] on the typed mapper. *)
Definition typed_init_memory (start_aligned size_aligned : Z) (tm : TypedMapper) : option (TypedMapper * Stage2Config) :=
  let tm := typed_reset tm in
  tm ← typed_map_region start_aligned size_aligned ma_NORMAL tm;
  tm ← typed_map_region GIC_REGION_BASE GIC_REGION_SIZE ma_DEVICE tm;
  Some (tm, typed_config tm).

Definition at_addresses (im : IdentityMapper) (tm : TypedMapper) : Prop :=
  map pt_addr (tables tm) = im_l0_table im :: im_l1_table im :: im_l2_tables im.

Lemma typed_reset_rep m im tm : layout_ok im -> at_addresses im tm -> typed_rep (im_reset (m, im)) (typed_reset tm).
Proof.
  intros Hlo Ha. pose proof Ha as Ha'. unfold at_addresses in Ha'. cbn in Ha'. injection Ha' as E0 E1 E2.
  set (ts := im_l0_table im :: im_l1_table im :: im_l2_tables im).
  assert (Hmem : (im_reset (m, im)).1 = fold_left clear_table ts m) by done.
  assert (Hal : forall t, t ∈ ts -> t mod 4096 = 0).
  { intros t Ht. apply (lo_page _ Hlo t). unfold ts in Ht. unfold im_pages. rewrite !elem_of_cons in *. tauto. }
  assert (Hts : map pt_addr (tables (typed_reset tm)) = ts).
  { unfold ts. rewrite <- E0, <- E1, <- E2. unfold tables, typed_reset. cbn. by rewrite map_map. }
  split.
  - exact E0.
  - exact E1.
  - cbn. rewrite map_map. exact E2.
  - done.
  - cbn. lia.
  - rewrite Hts. pose proof (lo_nodup _ Hlo) as Hnd. unfold im_pages in Hnd. unfold ts. rewrite !list.NoDup_cons, !elem_of_cons in *. destruct Hnd as (Ha1 & Ha2 & Ha3). split_and!; [intros [E|E]; [by apply Ha1; left|done]|intros E; apply Ha1; by right|done].
  - rewrite Hmem. apply Forall_lookup_2. intros k t Hk.
    assert (Hin : pt_addr t ∈ ts) by (rewrite <- Hts; apply list_elem_of_fmap; exists t; split; [done|by eapply list_elem_of_lookup_2]).
    assert (He : pt_entries t = replicate 512 entry_invalid).
    { refine (Forall_lookup_1 (fun t => pt_entries t = replicate 512 entry_invalid) _ _ _ _ Hk). unfold tables, typed_reset.
      constructor; [done|]. constructor; [done|]. cbn. apply Forall_map, list.Forall_forall. done. }
    split; [by rewrite He, length_replicate|by apply Hal|]. intros i e Hi. rewrite He in Hi. apply lookup_replicate in Hi as [-> Hi].
    apply clear_all_read; [by apply list.Forall_forall|by apply Hal|lia|by left].
Qed.

Lemma typed_region_step l attrs : forall st tm, typed_rep st tm ->
  exists tm', fold_left (fun o addr => tm ← o; typed_map_2mb_block addr attrs tm) l (Some tm) = Some tm' /\
    typed_rep (fold_left (fun st addr => map_2mb_block addr (ma_bits attrs) st) l st) tm'.
Proof.
  induction l as [|addr l IH]; intros st tm H; cbn [fold_left mbind option_bind]; [by exists tm|].
  destruct (typed_block_step st tm addr attrs H) as (tm1 & E & H1). cbn [mbind option_bind]. rewrite E. by apply IH.
Qed.

(** The typed program of the static mapper runs on the tables the hardware walks:
    from any contents of the six tables, [init_memory_static] on the arrays
    never panics (no index is out of range), and the memory
    StaticMapper computes holds in every entry of every table the value the
    arrays have; VTTBR_EL2 and VTCR_EL2 are those of the same L0 table. *)
Theorem typed_tables_in_memory im m tm start size : layout_ok im -> at_addresses im tm ->
  let '(st, (vttbr, vtcr)) := init_memory_static start size (m, im) in
  exists tm', typed_init_memory start size tm = Some (tm', mkS2Config vttbr vtcr) /\ typed_rep st tm'.
Proof.
  intros Hlo Ha. unfold init_memory_static, typed_init_memory. pose proof (typed_reset_rep m im tm Hlo Ha) as H0.
  destruct (typed_region_step (block_addrs start size) ma_NORMAL _ _ H0) as (tm1 & E1 & H1).
  destruct (typed_region_step (block_addrs GIC_REGION_BASE GIC_REGION_SIZE) ma_DEVICE _ _ H1) as (tm2 & E2 & H2).
  unfold im_config, new_with_vmid. exists tm2. split; [|exact H2].
  unfold typed_map_region. rewrite E1. cbn [mbind option_bind]. rewrite E2. cbn [mbind option_bind].
  unfold typed_config, stage2_config_new, new_with_vmid. by rewrite (ty_l0 _ _ H2).
Qed.

Definition ex_typed : TypedMapper := typed_new (im_l0_table ex_im) (im_l1_table ex_im) (im_l2_tables ex_im).
Lemma typed_tables_in_memory_witness : let '(st, (vttbr, vtcr)) := init_memory_static 0x48000000 0x200000 ((fun _ => 7), ex_im) in
  exists tm', typed_init_memory 0x48000000 0x200000 ex_typed = Some (tm', mkS2Config vttbr vtcr) /\ typed_rep st tm'.
Proof. exact (typed_tables_in_memory ex_im (fun _ => 7) ex_typed 0x48000000 0x200000 ex_im_ok eq_refl). Defined.
