(* ===== verification/MultiCpu.v ===== *)
(** * MultiCpu: one vCPU per physical core

    The [multi_pcpu] build, where vCPU [i] runs on core [i]: the CPU_ON request
    slots of [global.rs], the PSCI CPU_ON and SGI paths of [exception.rs], the
    idle loop and the run loop of the secondary cores in [main.rs] and
    [run_vcpu] of [vm.rs], as a system of cores that interleave at the
    granularity of single accesses to shared state.  Two protocols are proved
    on it: CPU_ON with SEV and WFE, and SGI queues with physical wake-up SGIs.
    Guest code is nondeterministic: each step of a core in its guest is given
    by an action.  SPIs and the devices are in DevLock, the run loops as
    programs of one core in CoreLoop.  Atomics are sequentially consistent. *)

From Stdlib Require Import ZArith Lia Bool List.
From stdpp Require Import base decidable option list strings.
From S2P Require Import Prelude Memory Rings Sched Regs VGic Vcpu PrimeCell Platform Exception VmRun Stage2Spec.

(** ** [PerVcpuCpuOnRequest] *)
Record PerVcpuCpuOnRequest := mkSlot { sl_requested : bool; sl_entry : Z; sl_ctx : Z }.
Definition slot_new : PerVcpuCpuOnRequest := mkSlot false 0 0.
Definition slot_request (entry ctx : Z) (_ : PerVcpuCpuOnRequest) : PerVcpuCpuOnRequest := mkSlot true entry ctx.
Definition slot_take (s : PerVcpuCpuOnRequest) : PerVcpuCpuOnRequest * option (Z * Z) :=
  if sl_requested s then (mkSlot false (sl_entry s) (sl_ctx s), Some (sl_entry s, sl_ctx s)) else (s, None).

(** ** Cores *)
(** Where a core is: one constructor per point between two accesses to shared
    state. *)
Inductive mpc :=
| MOff                                            (* not started *)
| MWfe | MTake                                    (* the loop of rust_main_secondary; take *)
| MLoadEntry | MLoadCtx (entry : Z)
| MBoot (entry ctx : Z)                           (* secondary_enter_guest *)
| MDrain | MInject (all : Z) (sgi : nat)          (* the run loop: inject_pending_sgis *)
| MGuest
| MReqEntry (t : nat) (e c : Z) | MReqCtx (t : nat) (e c : Z) | MReqFlag (t : nat) (e c : Z)
| MSev                                            (* PSCI CPU_ON *)
| MSgi (value : Z) (remote_queued : bool) (targets : list nat)
| MSgiMap (value : Z) | MSgiSend (bitmap : Z)     (* handle_sgi_trap *)
| MExit                                           (* run() has returned Ok *)
| MOffline
| MStop.                                          (* run_vcpu has returned *)

(** [k_event]: the event register of WFE and SEV; [k_irq]: a physical SGI is
    pending.  [k_left], the SGIs the last drain put back, is history. *)
Record mcore := mkCore { k_pc : mpc; k_lrs : list Z; k_event : bool; k_irq : bool; k_left : Z }.
(** [ms_reqs] and [ms_boots], the completed requests and the vCPUs booted, are
    history. *)
Record msys := mkSys {
  ms_slots : nat -> PerVcpuCpuOnRequest;          (* PENDING_CPU_ON_PER_VCPU *)
  ms_online : Z;                                  (* vcpu_online_mask *)
  ms_term : nat -> bool;                          (* terminal_exit *)
  ms_sgis : nat -> Z;                             (* pending_sgis *)
  ms_cores : nat -> mcore;
  ms_reqs : list (nat * Z * Z);
  ms_boots : list (nat * Vcpu)
}.

Definition upd {A} (i : nat) (a : A) (f : nat -> A) : nat -> A := fun j => if (j =? i)%nat then a else f j.
Definition goto (pc : mpc) (k : mcore) : mcore := mkCore pc (k_lrs k) (k_event k) (k_irq k) (k_left k).
Definition set_klrs (l : list Z) (k : mcore) : mcore := mkCore (k_pc k) l (k_event k) (k_irq k) (k_left k).
Definition set_event (b : bool) (k : mcore) : mcore := mkCore (k_pc k) (k_lrs k) b (k_irq k) (k_left k).
Definition set_irq (b : bool) (k : mcore) : mcore := mkCore (k_pc k) (k_lrs k) (k_event k) b (k_left k).
Definition set_left (l : Z) (k : mcore) : mcore := mkCore (k_pc k) (k_lrs k) (k_event k) (k_irq k) l.
Definition with_cores (f : nat -> mcore) (s : msys) : msys :=
  mkSys (ms_slots s) (ms_online s) (ms_term s) (ms_sgis s) f (ms_reqs s) (ms_boots s).
Definition with_slot (t : nat) (x : PerVcpuCpuOnRequest) (s : msys) : msys :=
  mkSys (upd t x (ms_slots s)) (ms_online s) (ms_term s) (ms_sgis s) (ms_cores s) (ms_reqs s) (ms_boots s).
Definition with_online (m : Z) (s : msys) : msys :=
  mkSys (ms_slots s) m (ms_term s) (ms_sgis s) (ms_cores s) (ms_reqs s) (ms_boots s).
Definition with_term (i : nat) (b : bool) (s : msys) : msys :=
  mkSys (ms_slots s) (ms_online s) (upd i b (ms_term s)) (ms_sgis s) (ms_cores s) (ms_reqs s) (ms_boots s).
Definition with_sgis (t : nat) (q : Z) (s : msys) : msys :=
  mkSys (ms_slots s) (ms_online s) (ms_term s) (upd t q (ms_sgis s)) (ms_cores s) (ms_reqs s) (ms_boots s).
Definition log_req (t : nat) (e c : Z) (s : msys) : msys :=
  mkSys (ms_slots s) (ms_online s) (ms_term s) (ms_sgis s) (ms_cores s) (ms_reqs s ++ [(t, e, c)]) (ms_boots s).
Definition log_boot (i : nat) (v : Vcpu) (s : msys) : msys :=
  mkSys (ms_slots s) (ms_online s) (ms_term s) (ms_sgis s) (ms_cores s) (ms_reqs s) (ms_boots s ++ [(i, v)]).
Definition on_core (i : nat) (f : mcore -> mcore) (s : msys) : msys :=
  with_cores (upd i (f (ms_cores s i)) (ms_cores s)) s.
Definition pc_of (s : msys) (i : nat) : mpc := k_pc (ms_cores s i).

(** ** SGIs *)
Definition sgi_intid (value : Z) : Z := u32 (Z.land (Z.shiftr value 24) 0xF).
Definition sgi_irm (value : Z) : Z := Z.land (Z.shiftr value 40) 1.
Definition sgi_list (value : Z) : Z := u32 (Z.land value 0xFFFF).
(** The remote targets, from a second load of the online mask. *)
Definition target_bitmap (current : nat) (online value : Z) : Z :=
  fold_left (fun m id => if (id =? current)%nat then m else Z.lor m (Z.shiftl 1 (Z.of_nat id)))
    (sgi_targets current online (sgi_irm value) (sgi_list value)) 0.
Definition send_physical_sgi (intid target_list : Z) : Z := Z.lor (Z.shiftl (Z.land intid 0xF) 24) target_list.
(** The cores a write to ICC_SGI1R_EL1 interrupts. *)
Definition ring_cores (icc_sgi1r : Z) (f : nat -> mcore) : nat -> mcore :=
  fun t => if (t <? 16)%nat && Z.testbit icc_sgi1r (Z.of_nat t) then set_irq true (f t) else f t.

(** ** Steps *)
(** What the guest does next, or that a WFE completes without an event. *)
Inductive gact :=
| GStep | GWake
| GRun (lrs : list Z) | GWfe | GIrq | GExit | GOff | GCpuOn (target entry ctx : Z) | GSgi (value : Z).

#[export] Instance gact_eq_dec : EqDecision gact.
Proof. solve_decision. Defined.

Definition online_bit (i : nat) : Z := Z.shiftl 1 (Z.of_nat i).

Section Steps.
(** num_cpus(), MPIDR_EL1 of a core, ICH_VTR_EL2 *)
Context (n : nat) (mpidr vtr : Z).

(** A trap of the guest of core [i]. *)
Definition mguest_step (i : nat) (a : gact) (s : msys) : option msys :=
  match a with
  | GStep | GWake => None
  | GRun lrs => Some (on_core i (set_klrs lrs) s)
  | GWfe => if k_event (ms_cores s i) then Some (on_core i (set_event false) s) else None
  | GIrq => if k_irq (ms_cores s i) then Some (on_core i (fun k => goto MExit (set_irq false k)) s) else None
  | GExit => Some (on_core i (goto MExit) s)
  | GOff => Some (on_core i (goto MExit) (with_term i true s))
  | GCpuOn target e c =>
      let target_id := Z.to_nat (Z.land target 0xFF) in
      Some (on_core i (goto (if (target_id <? n)%nat then MReqEntry target_id e c else MExit)) s)
  | GSgi value =>
      Some (on_core i (goto (MSgi value false (sgi_targets i (ms_online s) (sgi_irm value) (sgi_list value)))) s)
  end.

(** One round of the loop of [inject_pending_sgis]. *)
Definition inject_step (i : nat) (all : Z) (sgi : nat) (s : msys) : msys :=
  if (16 <=? sgi)%nat then on_core i (goto MGuest) s else
  let s := on_core i (goto (MInject all (S sgi))) s in
  if Z.land all (Z.shiftl 1 (Z.of_nat sgi)) =? 0 then s else
  let (lrs, injected) := place_lr (build_lr (Z.of_nat sgi) IRQ_DEFAULT_PRIORITY) (k_lrs (ms_cores s i)) in
  let s := on_core i (set_klrs lrs) s in
  if injected then s else
  let bit := Z.shiftl 1 (Z.of_nat sgi) in
  on_core i (fun k => set_left (Z.lor (k_left k) bit) k) (with_sgis i (Z.lor (ms_sgis s i) bit) s).

(** [let _ = inject_interrupt(intid, IRQ_DEFAULT_PRIORITY)] *)
Definition hw_place (intid : Z) (lrs : list Z) : list Z :=
  ich_lr (inject_interrupt (mkIch lrs vtr 0 0) intid IRQ_DEFAULT_PRIORITY).1.

(** One round of the target loop of [handle_sgi_trap]. *)
Definition sgi_step (i : nat) (value : Z) (remote : bool) (targets : list nat) (s : msys) : msys :=
  match targets with
  | [] => on_core i (goto (if remote then MSgiMap value else MGuest)) s
  | t :: ts =>
      if (t =? i)%nat then
        on_core i (fun k => goto (MSgi value remote ts) (set_klrs (hw_place (sgi_intid value) (k_lrs k)) k)) s
      else on_core i (goto (MSgi value true ts))
             (with_sgis t (Z.lor (ms_sgis s t) (Z.shiftl 1 (sgi_intid value))) s)
  end.

Definition mstep (i : nat) (a : gact) (s : msys) : option msys :=
  if (n <=? i)%nat then None else
  let k := ms_cores s i in
  let slot := ms_slots s i in
  match k_pc k with
  | MOff => Some (on_core i (fun k => goto MWfe (set_event false k)) s)
  | MWfe =>
      if k_event k || bool_decide (a = GWake)
      then Some (on_core i (fun k => goto MTake (set_event false k)) s) else None
  | MTake =>
      if sl_requested slot
      then Some (on_core i (goto MLoadEntry) (with_slot i (mkSlot false (sl_entry slot) (sl_ctx slot)) s))
      else Some (on_core i (goto MWfe) s)
  | MLoadEntry => Some (on_core i (goto (MLoadCtx (sl_entry slot))) s)
  | MLoadCtx entry => Some (on_core i (goto (MBoot entry (sl_ctx slot))) s)
  | MBoot entry ctx =>
      let v := secondary_vcpu mpidr i entry ctx in
      Some (log_boot i v (on_core i (fun k => goto MDrain (set_klrs (saved_lrs (arch_state v)) k))
        (with_online (Z.lor (ms_online s) (online_bit i)) s)))
  | MDrain => Some (on_core i (fun k => goto (MInject (ms_sgis s i) 0) (set_left 0 k)) (with_sgis i 0 s))
  | MInject all sgi => Some (inject_step i all sgi s)
  | MGuest => mguest_step i a s
  | MReqEntry t e c => Some (on_core i (goto (MReqCtx t e c)) (with_slot t (mkSlot (sl_requested (ms_slots s t)) e (sl_ctx (ms_slots s t))) s))
  | MReqCtx t e c => Some (on_core i (goto (MReqFlag t e c)) (with_slot t (mkSlot (sl_requested (ms_slots s t)) (sl_entry (ms_slots s t)) c) s))
  | MReqFlag t e c => Some (log_req t e c (on_core i (goto MSev) (with_slot t (mkSlot true (sl_entry (ms_slots s t)) (sl_ctx (ms_slots s t))) s)))
  | MSev => Some (on_core i (goto MExit) (with_cores (fun j => set_event true (ms_cores s j)) s))
  | MSgi value remote targets => Some (sgi_step i value remote targets s)
  | MSgiMap value =>
      let b := target_bitmap i (ms_online s) value in
      Some (on_core i (goto (if b =? 0 then MGuest else MSgiSend b)) s)
  | MSgiSend b =>
      Some (on_core i (goto MGuest) (with_cores (ring_cores (send_physical_sgi 0 (u16 b)) (ms_cores s)) s))
  | MExit =>
      if ms_term s i
      then Some (on_core i (goto (if (i =? 0)%nat then MStop else MOffline)) (with_term i false s))
      else Some (on_core i (goto MDrain) s)
  | MOffline => Some (on_core i (goto MWfe) (with_online (Z.land (ms_online s) (not64 (online_bit i))) s))
  | MStop => None
  end.

Fixpoint mrun (acts : list (nat * gact)) (s : msys) : option msys :=
  match acts with
  | [] => Some s
  | (i, a) :: acts => match mstep i a s with Some s => mrun acts s | None => None end
  end.

(** Core 0 at the loop of [run_vcpu], with its bit of the mask set; the others
    off or started. *)
Definition mcore_new (pc : mpc) : mcore := mkCore pc [0; 0; 0; 0] false false 0.
Definition minit : msys :=
  mkSys (fun _ => slot_new) (online_bit 0) (fun _ => false) (fun _ => 0)
    (fun i => mcore_new (if (i =? 0)%nat then MDrain else MOff)) [] [].
End Steps.

(** ** The CPU_ON protocol *)
(** The request a core is storing: the target, how many of its stores are
    done, and the values. *)
Definition storing (p : mpc) : option (nat * nat * Z * Z) :=
  match p with
  | MReqEntry t e c => Some (t, 0%nat, e, c)
  | MReqCtx t e c => Some (t, 1%nat, e, c)
  | MReqFlag t e c => Some (t, 2%nat, e, c)
  | _ => None
  end.
Definition stores_to (t : nat) (p : mpc) : bool :=
  match storing p with Some (t', _, _, _) => (t' =? t)%nat | None => false end.
(** vCPU [t] is off: its core has not started yet or waits for a request, or the
    vCPU has called CPU_OFF and its core is on the way back. *)
Definition off_at (p : mpc) (term : bool) : bool :=
  match p with MOff | MWfe | MTake | MOffline | MStop => true | MExit => term | _ => false end.
Definition off (s : msys) (t : nat) : bool := off_at (pc_of s t) (ms_term s t).
(** The core of [t] has reached its idle loop once, and it has one: core 0, which
    runs [run_vcpu], does not. *)
Definition is_moff (p : mpc) : bool := match p with MOff => true | _ => false end.
Definition started (s : msys) (t : nat) : bool := negb (t =? 0)%nat && negb (is_moff (pc_of s t)).

(** A guest that follows PSCI: CPU_ON only for a vCPU that is off, with no other
    CPU_ON for it under way.  With [st], in addition, only for a core that has
    started. *)
Definition conforming (st : bool) (n : nat) (i : nat) (a : gact) (s : msys) : bool :=
  match pc_of s i, a with
  | MGuest, GCpuOn target _ _ =>
      let t := Z.to_nat (Z.land target 0xFF) in
      negb (t <? n)%nat ||
      (off s t && negb (sl_requested (ms_slots s t)) &&
       forallb (fun j => negb (stores_to t (pc_of s j))) (seq 0 n) && (negb st || started s t))
  | _, _ => true
  end.
Fixpoint conforming_run (st : bool) (n : nat) (mpidr vtr : Z) (acts : list (nat * gact)) (s : msys) : bool :=
  match acts with
  | [] => true
  | (i, a) :: acts =>
      conforming st n i a s &&
      match mstep n mpidr vtr i a s with Some s => conforming_run st n mpidr vtr acts s | None => true end
  end.

(** The requests made for a vCPU and the vCPUs booted, in order. *)
Definition reqs_for (t : nat) (s : msys) : list (Z * Z) :=
  map (fun r => (r.1.2, r.2)) (List.filter (fun r => (r.1.1 =? t)%nat) (ms_reqs s)).
Definition boots_of (t : nat) (s : msys) : list Vcpu :=
  map snd (List.filter (fun b => (b.1 =? t)%nat) (ms_boots s)).
(** The request that is not served yet. *)
Definition outstanding (s : msys) (t : nat) : list (Z * Z) :=
  let slot := ms_slots s t in
  if sl_requested slot then [(sl_entry slot, sl_ctx slot)] else
  match pc_of s t with
  | MLoadEntry => [(sl_entry slot, sl_ctx slot)]
  | MLoadCtx e => [(e, sl_ctx slot)]
  | MBoot e c => [(e, c)]
  | _ => []
  end.

(** Requests go to started cores when guests make only such. *)
Definition may_go (st : bool) (s : msys) (t : nat) : Prop := st = true -> started s t = true.

Record cpu_on_inv (st : bool) (n : nat) (mpidr : Z) (s : msys) : Prop := {
  ci_idle t : (t < n)%nat -> sl_requested (ms_slots s t) = true -> off s t = true /\ may_go st s t;
  ci_store j t k e c : (j < n)%nat -> storing (pc_of s j) = Some (t, k, e, c) ->
    (t < n)%nat /\ (off s t = true /\ may_go st s t) /\ sl_requested (ms_slots s t) = false /\
    ((1 <= k)%nat -> sl_entry (ms_slots s t) = e) /\ ((2 <= k)%nat -> sl_ctx (ms_slots s t) = c);
  ci_one i j t : (i < n)%nat -> (j < n)%nat -> stores_to t (pc_of s i) = true -> stores_to t (pc_of s j) = true -> i = j;
  ci_wake t : (t < n)%nat -> st = true -> sl_requested (ms_slots s t) = true -> pc_of s t <> MTake ->
    k_event (ms_cores s t) = true \/ exists j, (j < n)%nat /\ pc_of s j = MSev;
  ci_stop t : (t < n)%nat -> pc_of s t = MStop -> t = 0%nat;
  ci_hist t : (t < n)%nat -> map (fun r => secondary_vcpu mpidr t r.1 r.2) (reqs_for t s) =
    boots_of t s ++ map (fun r => secondary_vcpu mpidr t r.1 r.2) (outstanding s t);
}.

Lemma upd_same {A} i (a : A) f : upd i a f i = a.
Proof. unfold upd. by rewrite Nat.eqb_refl. Qed.
Lemma upd_ne {A} i j (a : A) f : j <> i -> upd i a f j = f j.
Proof. intros H. unfold upd. by destruct (Nat.eqb_spec j i). Qed.
Lemma upd_cases {A} i j (a : A) f : upd i a f j = if decide (j = i) then a else f j.
Proof. unfold upd. destruct (Nat.eqb_spec j i), (decide (j = i)); done. Qed.

(** A step of core [i] that leaves the slots and the history alone and does
    not start a request. *)
Record quiet_step (n i : nat) (s s' : msys) : Prop := {
  qs_slots : ms_slots s' = ms_slots s;
  qs_reqs : ms_reqs s' = ms_reqs s;
  qs_boots : ms_boots s' = ms_boots s;
  qs_pc j : j <> i -> pc_of s' j = pc_of s j;
  qs_term j : j <> i -> ms_term s' j = ms_term s j;
  qs_event j : j <> i -> k_event (ms_cores s j) = true -> k_event (ms_cores s' j) = true;
  qs_new : storing (pc_of s' i) = None;
  qs_idle : off s i = true -> off s' i = true;
  qs_out : outstanding s' i = outstanding s i;
  qs_moff : is_moff (pc_of s' i) = false;
  qs_stop : pc_of s' i = MStop -> i = 0%nat;
  qs_wake : sl_requested (ms_slots s i) = true -> is_moff (pc_of s i) = false -> pc_of s' i <> MTake ->
    pc_of s i <> MTake /\ (k_event (ms_cores s i) = true -> k_event (ms_cores s' i) = true);
  qs_sev : pc_of s i = MSev -> forall j, j <> i -> k_event (ms_cores s' j) = true;
}.
Lemma stores_to_storing t p : stores_to t p = true <-> exists k e c, storing p = Some (t, k, e, c).
Proof.
  unfold stores_to. destruct (storing p) as [[[[t' k] e] c]|]; [|by split; [|intros (? & ? & ? & ?)]].
  rewrite Nat.eqb_eq. split; [intros ->; eauto|]. intros (? & ? & ? & [= ]); done.
Qed.
Lemma started_mono s s' t : started s t = true -> is_moff (pc_of s' t) = false -> started s' t = true.
Proof. unfold started. by intros [-> _]%andb_true_iff ->. Qed.
Lemma quiet_off st n i s s' t : quiet_step n i s s' -> off s t = true /\ may_go st s t -> off s' t = true /\ may_go st s' t.
Proof.
  intros Q [Ho Hg]. destruct (decide (t = i)) as [->|Hne].
  - split; [by apply (qs_idle _ _ _ _ Q)|]. intros Hs. eapply started_mono; [by apply Hg|apply Q].
  - unfold off, may_go, started in *. by rewrite (qs_pc _ _ _ _ Q), (qs_term _ _ _ _ Q).
Qed.
Lemma quiet_inv st n mpidr i s s' : cpu_on_inv st n mpidr s -> (i < n)%nat -> quiet_step n i s s' -> cpu_on_inv st n mpidr s'.
Proof.
  intros [H1 H2 H3 H4 H6 H5] Hi Q. pose proof (fun t => quiet_off st n i s s' t Q) as Hoff.
  destruct Q as [Q1 Q2 Q3 Q4 _ Q5 Q6 _ Q8 Q7 Q9 Qw Q10]. constructor; rewrite ?Q1.
  - intros t Ht Hr. by apply Hoff, H1.
  - intros j t k e c Hj Hst. destruct (decide (j = i)) as [->|]; [by rewrite Q6 in Hst|].
    rewrite Q4 in Hst by done. destruct (H2 _ _ _ _ _ Hj Hst) as (Ht & Hid & Hrest). split_and!; try tauto; by apply Hoff.
  - intros a b t Ha Hb Hsa Hsb. assert (Hne : forall x, stores_to t (pc_of s' x) = true -> x <> i /\ stores_to t (pc_of s x) = true).
    { intros x Hx. destruct (decide (x = i)) as [->|]; [|by rewrite Q4 in Hx].
      apply stores_to_storing in Hx as (? & ? & ? & Hx). by rewrite Q6 in Hx. }
    apply Hne in Hsa as [_ Hsa], Hsb as [_ Hsb]. by apply (H3 a b t).
  - intros t Ht Hst Hr Hw. assert (Hold : pc_of s t <> MTake /\ (k_event (ms_cores s t) = true -> k_event (ms_cores s' t) = true)).
    { destruct (decide (t = i)) as [->|Hti]; [|split; [by rewrite <- Q4|by apply Q5]].
      apply Qw; [done| |done]. destruct (H1 i Ht Hr) as [_ Hg]. specialize (Hg Hst). unfold started in Hg.
      by apply andb_true_iff in Hg as [_ Hg%negb_true_iff]. }
    destruct Hold as [Hp Hev]. destruct (H4 t Ht Hst Hr Hp) as [He|(j & Hj & Hs)]; [left; by apply Hev|].
    destruct (decide (j = i)) as [->|]; [|right; exists j; by rewrite Q4].
    destruct (decide (t = i)) as [->|]; [|left; by apply Q10].
    destruct (H1 i Ht Hr) as [Ho _]. unfold off in Ho. by rewrite Hs in Ho.
  - intros t Ht Hs. destruct (decide (t = i)) as [->|]; [by apply Q9|]. rewrite Q4 in Hs by done. by apply H6.
  - intros t Ht. assert (reqs_for t s' = reqs_for t s) as -> by (unfold reqs_for; by rewrite Q2).
    rewrite (H5 t Ht). unfold boots_of. rewrite Q3. do 2 f_equal.
    destruct (decide (t = i)) as [->|]; [by rewrite Q8|]. unfold outstanding. by rewrite Q1, Q4.
Qed.

Lemma outstanding_ext s s' t : ms_slots s' t = ms_slots s t -> pc_of s' t = pc_of s t -> outstanding s' t = outstanding s t.
Proof. intros H1 H2. unfold outstanding. by rewrite H1, H2. Qed.
Lemma boots_snoc t i v s : boots_of t (log_boot i v s) = boots_of t s ++ (if decide (i = t) then [v] else []).
Proof.
  unfold boots_of. cbn [log_boot ms_boots]. rewrite List.filter_app, map_app. f_equal. cbn [List.filter fst].
  destruct (Nat.eqb_spec i t), (decide (i = t)); done.
Qed.
Lemma reqs_snoc t u e c s : reqs_for t (log_req u e c s) = reqs_for t s ++ (if decide (u = t) then [(e, c)] else []).
Proof.
  unfold reqs_for. cbn [log_req ms_reqs]. rewrite List.filter_app, map_app. f_equal. cbn [List.filter fst].
  destruct (Nat.eqb_spec u t), (decide (u = t)); done.
Qed.
Lemma pc_on_core s i f j : pc_of (on_core i f s) j = if decide (j = i) then k_pc (f (ms_cores s i)) else pc_of s j.
Proof. unfold pc_of, on_core, with_cores. cbn [ms_cores]. rewrite upd_cases. by case_decide. Qed.

(** A step of core [i] leaves the other cores as they are. *)
Lemma move_off st s s' i t : (forall j, j <> i -> pc_of s' j = pc_of s j) -> (forall j, j <> i -> ms_term s' j = ms_term s j) ->
  t <> i -> off s t = true /\ may_go st s t -> off s' t = true /\ may_go st s' t.
Proof. intros E1 E2 Ht. unfold off, may_go, started. by rewrite E1, E2. Qed.

(** The steps that touch a slot or the history. *)
Section Special.
Context (st : bool) (n : nat) (mpidr vtr : Z) (s : msys) (Hc : cpu_on_inv st n mpidr s) (i : nat) (Hi : (i < n)%nat).

Lemma take_inv : pc_of s i = MTake -> sl_requested (ms_slots s i) = true ->
  cpu_on_inv st n mpidr (on_core i (goto MLoadEntry)
    (with_slot i (mkSlot false (sl_entry (ms_slots s i)) (sl_ctx (ms_slots s i))) s)).
Proof.
  intros Hpc Hr. destruct Hc as [H1 H2 H3 H4 H6 H5]. set (s' := on_core _ _ _).
  assert (Hp : forall j, pc_of s' j = if decide (j = i) then MLoadEntry else pc_of s j)
    by (intros j; unfold s'; by rewrite pc_on_core).
  assert (Hsl : forall j, j <> i -> ms_slots s' j = ms_slots s j) by (intros j Hj; by apply upd_ne).
  assert (Hsi : ms_slots s' i = mkSlot false (sl_entry (ms_slots s i)) (sl_ctx (ms_slots s i))) by apply upd_same.
  assert (Hno : forall j t k e c, (j < n)%nat -> storing (pc_of s' j) = Some (t, k, e, c) ->
    j <> i /\ t <> i /\ storing (pc_of s j) = Some (t, k, e, c)).
  { intros j t k e c Hj. rewrite Hp. case_decide; [done|]. intros Hst. split_and!; [done| |done].
    intros ->. destruct (H2 _ _ _ _ _ Hj Hst) as (_ & _ & Hf & _). congruence. }
  assert (Hoff : forall t, t <> i -> off s t = true /\ may_go st s t -> off s' t = true /\ may_go st s' t).
  { intros t Hti. apply (move_off st s s' i); [|done|done]. intros j Hj. by rewrite Hp, decide_False. }
  constructor.
  - intros t Ht. destruct (decide (t = i)) as [->|]; [by rewrite Hsi|].
    rewrite Hsl by done. intros Hrt. by apply Hoff, H1.
  - intros j t k e c Hj Hst. apply Hno in Hst as (Hji & Hti & Hst); [|done].
    rewrite Hsl by done. destruct (H2 _ _ _ _ _ Hj Hst) as (Ht & Hid & Hrest). split_and!; try tauto; by apply Hoff.
  - intros a b t Ha Hb Hsa Hsb. apply stores_to_storing in Hsa as (? & ? & ? & Hsa), Hsb as (? & ? & ? & Hsb).
    apply Hno in Hsa as (_ & _ & Hsa), Hsb as (_ & _ & Hsb); [|done..]. apply (H3 a b t); [done..| |]; apply stores_to_storing; eauto.
  - intros t Ht. destruct (decide (t = i)) as [->|]; [by rewrite Hsi|]. rewrite Hsl, Hp, decide_False by done.
    intros Hst Hrt Hw. destruct (H4 t Ht Hst Hrt Hw) as [He|(j & Hj & Hs)].
    + left. cbn. by rewrite upd_ne.
    + right. exists j. split; [done|]. rewrite Hp. case_decide; [congruence|done].
  - intros t Ht. rewrite Hp. case_decide; [done|]. by apply H6.
  - intros t Ht. change (reqs_for t s') with (reqs_for t s). change (boots_of t s') with (boots_of t s). rewrite (H5 t Ht).
    do 2 f_equal. destruct (decide (t = i)) as [->|].
    + unfold outstanding. by rewrite Hsi, Hp, decide_True, Hr by done.
    + apply eq_sym, outstanding_ext; [by apply Hsl|]. by rewrite Hp, decide_False.
Qed.

Lemma boot_inv e c : pc_of s i = MBoot e c ->
  let v := secondary_vcpu mpidr i e c in
  cpu_on_inv st n mpidr (log_boot i v (on_core i (fun k => goto MDrain (set_klrs (saved_lrs (arch_state v)) k))
    (with_online (Z.lor (ms_online s) (online_bit i)) s))).
Proof.
  intros Hpc v. destruct Hc as [H1 H2 H3 H4 H6 H5]. set (s0 := on_core _ _ _). set (s' := log_boot _ _ _).
  assert (Hp : forall j, pc_of s' j = if decide (j = i) then MDrain else pc_of s j)
    by (intros j; change (pc_of s' j) with (pc_of s0 j); unfold s0; by rewrite pc_on_core).
  assert (Hnr : sl_requested (ms_slots s i) = false).
  { destruct (sl_requested _) eqn:E; [|done]. destruct (H1 i Hi E) as [Ho _]. unfold off in Ho. by rewrite Hpc in Ho. }
  assert (Hst : forall j, storing (pc_of s' j) = storing (pc_of s j)).
  { intros j. rewrite Hp. case_decide; [subst|done]. by rewrite Hpc. }
  assert (Hoff : forall t, t <> i -> off s t = true /\ may_go st s t -> off s' t = true /\ may_go st s' t).
  { intros t Hti. apply (move_off st s s' i); [|done|done]. intros j Hj. by rewrite Hp, decide_False. }
  constructor; change (ms_slots s') with (ms_slots s).
  - intros t Ht Hr. apply Hoff; [congruence|]. by apply H1.
  - intros j t k e' c' Hj. rewrite Hst. intros Hs. destruct (H2 _ _ _ _ _ Hj Hs) as (Ht & Hid & Hrest).
    split_and!; try tauto; apply Hoff; try done; intros ->; destruct Hid as [Hid _]; unfold off in Hid; by rewrite Hpc in Hid.
  - intros a b t Ha Hb. unfold stores_to. rewrite !Hst. by apply H3.
  - intros t Ht Hst' Hr. rewrite Hp. case_decide; [congruence|]. intros Hw.
    destruct (H4 t Ht Hst' Hr Hw) as [He|(j & Hj & Hs)]; [left; cbn; by rewrite upd_ne|].
    right. exists j. split; [done|]. rewrite Hp. case_decide; [congruence|done].
  - intros t Ht. rewrite Hp. case_decide; [done|]. by apply H6.
  - intros t Ht. change (reqs_for t s') with (reqs_for t s). rewrite (H5 t Ht). unfold s'. rewrite boots_snoc.
    change (boots_of t s0) with (boots_of t s). fold s'. rewrite <- app_assoc. f_equal.
    destruct (decide (i = t)) as [<-|Hne].
    + unfold outstanding. change (ms_slots s' i) with (ms_slots s i). rewrite Hp, decide_True, Hpc, Hnr by done.
      done.
    + cbn [app]. f_equal. apply eq_sym, outstanding_ext; [done|]. by rewrite Hp, decide_False by auto.
Qed.

(** A store to the slot of the target. *)
Section Store.
Context (t k : nat) (e c : Z) (Hst : storing (pc_of s i) = Some (t, k, e, c)).
Context (x : PerVcpuCpuOnRequest) (p' : mpc).
Let s' := on_core i (goto p') (with_slot t x s).

Lemma store_pc j : pc_of s' j = if decide (j = i) then p' else pc_of s j.
Proof. unfold s'. by rewrite pc_on_core. Qed.
Lemma store_slot_ne u : u <> t -> ms_slots s' u = ms_slots s u.
Proof. intros H. by apply upd_ne. Qed.
Lemma store_slot : ms_slots s' t = x.
Proof. apply upd_same. Qed.
Lemma storing_on u : storing (pc_of s u) <> None -> off s u = false.
Proof. unfold off. by destruct (pc_of s u). Qed.
Lemma store_target : (t < n)%nat /\ t <> i /\ (off s t = true /\ may_go st s t) /\ sl_requested (ms_slots s t) = false.
Proof.
  destruct (ci_store _ _ _ _ Hc i t k e c Hi Hst) as (? & Hid & ? & _). split_and!; try done; try apply Hid.
  intros ->. destruct Hid as [Hid _]. rewrite storing_on in Hid; [done|]. by rewrite Hst.
Qed.
Lemma store_off u : u <> i -> off s u = true /\ may_go st s u -> off s' u = true /\ may_go st s' u.
Proof. apply (move_off st s s' i); [|done]. intros j Hj. by rewrite store_pc, decide_False. Qed.
Lemma store_alone j t' k' e' c' : (j < n)%nat -> j <> i -> storing (pc_of s j) = Some (t', k', e', c') -> t' <> t.
Proof.
  intros Hj Hji Hs ->. apply Hji, (ci_one _ _ _ _ Hc j i t Hj Hi); apply stores_to_storing; eauto.
Qed.
Lemma storing_others j t' k' e' c' : (j < n)%nat -> j <> i -> storing (pc_of s' j) = Some (t', k', e', c') ->
  (t' < n)%nat /\ (off s' t' = true /\ may_go st s' t') /\ sl_requested (ms_slots s' t') = false /\
  ((1 <= k')%nat -> sl_entry (ms_slots s' t') = e') /\ ((2 <= k')%nat -> sl_ctx (ms_slots s' t') = c').
Proof.
  intros Hj Hji. rewrite store_pc, decide_False by done. intros Hs.
  pose proof (store_alone _ _ _ _ _ Hj Hji Hs) as Hne. rewrite store_slot_ne by done.
  destruct (ci_store _ _ _ _ Hc j t' k' e' c' Hj Hs) as (Ht & Hid & Hrest). split_and!; try tauto;
    apply store_off; try done; intros ->; destruct Hid as [Hid _]; rewrite storing_on in Hid; try done; by rewrite Hst.
Qed.
Lemma store_idle u : (u < n)%nat -> u <> t -> sl_requested (ms_slots s' u) = true -> off s' u = true /\ may_go st s' u.
Proof.
  intros Hu Hne. rewrite store_slot_ne by done. intros Hr. pose proof (ci_idle _ _ _ _ Hc u Hu Hr) as Hid.
  apply store_off; [|done]. intros ->. destruct Hid as [Hid _]. rewrite storing_on in Hid; [done|]. by rewrite Hst.
Qed.
Lemma store_one a b t' : (forall t'', stores_to t'' p' = true -> t'' = t) -> (a < n)%nat -> (b < n)%nat ->
  stores_to t' (pc_of s' a) = true -> stores_to t' (pc_of s' b) = true -> a = b.
Proof.
  intros Hp' Ha Hb. rewrite !store_pc. repeat case_decide; subst; try done.
  - intros E E'. apply Hp' in E as ->. apply stores_to_storing in E' as (? & ? & ? & E'). by destruct (store_alone b _ _ _ _ Hb ltac:(done) E').
  - intros E' E. apply Hp' in E as ->. apply stores_to_storing in E' as (? & ? & ? & E'). by destruct (store_alone a _ _ _ _ Ha ltac:(done) E').
  - by apply (ci_one _ _ _ _ Hc).
Qed.
Lemma store_wake u : (u < n)%nat -> st = true -> u <> t -> sl_requested (ms_slots s' u) = true -> pc_of s' u <> MTake ->
  storing p' <> None \/ p' = MSev ->
  k_event (ms_cores s' u) = true \/ exists j, (j < n)%nat /\ pc_of s' j = MSev.
Proof.
  intros Hu Hgo Hne. rewrite store_slot_ne, store_pc by done. intros Hr. case_decide.
  { subst u. destruct (ci_idle _ _ _ _ Hc i Hu Hr) as [Ho _]. rewrite storing_on in Ho; [done|]. by rewrite Hst. }
  intros Hw _. destruct (ci_wake _ _ _ _ Hc u Hu Hgo Hr Hw) as [He|(j & Hj & Hs)].
  - left. unfold s'. cbn. by rewrite upd_ne.
  - right. exists j. split; [done|]. rewrite store_pc. case_decide; [|done]. subst j. by rewrite Hs in Hst.
Qed.
Lemma store_out u : u <> t -> storing p' <> None \/ p' = MSev -> outstanding s' u = outstanding s u.
Proof.
  intros Hne Hp. destruct (decide (u = i)) as [->|]; [|apply outstanding_ext; [by apply store_slot_ne|by rewrite store_pc, decide_False]].
  unfold outstanding. rewrite store_slot_ne, store_pc, decide_True by done.
  destruct (pc_of s i); try done; destruct p'; by destruct Hp.
Qed.
Lemma store_old : outstanding s t = [].
Proof.
  destruct store_target as (_ & _ & [Hid _] & Hr). unfold outstanding, off in *. rewrite Hr. by destruct (pc_of s t).
Qed.
Lemma store_stop u : (u < n)%nat -> storing p' <> None \/ p' = MSev -> pc_of s' u = MStop -> u = 0%nat.
Proof.
  intros Hu Hp. rewrite store_pc. case_decide; [|by apply (ci_stop _ _ _ _ Hc)]. intros ->. by destruct Hp.
Qed.

Lemma store_inv : storing p' = Some (t, S k, e, c) -> sl_requested x = false ->
  ((1 <= S k)%nat -> sl_entry x = e) -> ((2 <= S k)%nat -> sl_ctx x = c) -> cpu_on_inv st n mpidr s'.
Proof.
  intros Hp Hx He Hcx. destruct store_target as (Htn & Hti & Hid & Hr).
  assert (Hpt : pc_of s' t = pc_of s t) by (by rewrite store_pc, decide_False).
  assert (Hns : storing p' <> None \/ p' = MSev) by (left; congruence).
  constructor.
  - intros u Hu. destruct (decide (u = t)) as [->|]; [by rewrite store_slot, Hx|by apply store_idle].
  - intros j t' k' e' c' Hj. destruct (decide (j = i)) as [->|]; [|by apply storing_others].
    rewrite store_pc, decide_True, Hp by done. intros [= <- <- <- <-]. rewrite store_slot. split_and!; try done; by apply store_off.
  - intros a b t'. apply store_one. intros t'' E%stores_to_storing. destruct E as (? & ? & ? & E). congruence.
  - intros u Hu Hgo Hru Hw. destruct (decide (u = t)) as [->|]; [by rewrite store_slot, Hx in Hru|by apply store_wake].
  - intros u Hu. by apply store_stop.
  - intros u Hu. etrans; [exact (ci_hist _ _ _ _ Hc u Hu)|]. f_equal. f_equal.
    destruct (decide (u = t)) as [->|]; [|by rewrite store_out]. rewrite store_old. unfold outstanding.
    rewrite store_slot, Hx, Hpt. destruct Hid as [Hid _]. unfold off in Hid. by destruct (pc_of s t).
Qed.
Lemma flag_inv : k = 2%nat -> p' = MSev -> x = mkSlot true (sl_entry (ms_slots s t)) (sl_ctx (ms_slots s t)) ->
  cpu_on_inv st n mpidr (log_req t e c s').
Proof.
  intros Hk Hp Hx. destruct store_target as (Htn & Hti & Hid & Hr).
  destruct (ci_store _ _ _ _ Hc i t k e c Hi Hst) as (_ & _ & _ & He & Hcx).
  specialize (He ltac:(lia)). specialize (Hcx ltac:(lia)).
  assert (Hpt : pc_of s' t = pc_of s t) by (by rewrite store_pc, decide_False).
  assert (Hns : storing p' <> None \/ p' = MSev) by by right.
  assert (Hsev : exists j, (j < n)%nat /\ pc_of s' j = MSev) by (exists i; by rewrite store_pc, decide_True).
  constructor; change (pc_of (log_req t e c s')) with (pc_of s'); change (ms_slots (log_req t e c s')) with (ms_slots s');
    change (ms_cores (log_req t e c s')) with (ms_cores s').
  - intros u Hu. destruct (decide (u = t)) as [->|]; [intros _; by apply store_off|by apply store_idle].
  - intros j t' k' e' c' Hj. destruct (decide (j = i)) as [->|]; [|by apply storing_others].
    rewrite store_pc, decide_True, Hp by done. done.
  - intros a b t'. apply store_one. intros t''. by rewrite Hp.
  - intros u Hu Hgo Hru Hw. by right.
  - intros u Hu. by apply store_stop.
  - intros u Hu. rewrite reqs_snoc, map_app. change (reqs_for u s') with (reqs_for u s). rewrite (ci_hist _ _ _ _ Hc u Hu).
    change (boots_of u (log_req t e c s')) with (boots_of u s).
    change (outstanding (log_req t e c s') u) with (outstanding s' u). rewrite <- app_assoc. f_equal.
    destruct (decide (t = u)) as [<-|]; [|rewrite store_out by auto; by rewrite app_nil_r].
    rewrite store_old. unfold outstanding. by rewrite store_slot, Hx, He, Hcx.
Qed.
End Store.

(** A conforming guest starts a request. *)
Lemma start_inv t e c : pc_of s i = MGuest -> (t < n)%nat -> off s t = true -> may_go st s t ->
  sl_requested (ms_slots s t) = false -> (forall j, (j < n)%nat -> stores_to t (pc_of s j) = false) ->
  cpu_on_inv st n mpidr (on_core i (goto (MReqEntry t e c)) s).
Proof.
  intros Hpc Ht Hid Hgo Hr Hno. set (s' := on_core _ _ _). destruct Hc as [H1 H2 H3 H4 H6 H5].
  assert (Hon : off s i = false) by (unfold off; by rewrite Hpc).
  assert (Hti : t <> i) by (intros ->; congruence).
  assert (Hp : forall j, pc_of s' j = if decide (j = i) then MReqEntry t e c else pc_of s j)
    by (intros j; unfold s'; by rewrite pc_on_core).
  assert (Hoff : forall u, off s u = true /\ may_go st s u -> off s' u = true /\ may_go st s' u).
  { intros u Hu. apply (move_off st s s' i); [|done| |done]. { intros j Hj. by rewrite Hp, decide_False. }
    intros ->. destruct Hu. congruence. }
  constructor; change (ms_slots s') with (ms_slots s).
  - intros u Hu Hru. by apply Hoff, H1.
  - intros j t' k e' c' Hj. rewrite Hp. case_decide.
    + intros [= <- <- <- <-]. split_and!; try done; try lia; by apply Hoff.
    + intros Hs. destruct (H2 _ _ _ _ _ Hj Hs) as (? & Hid' & ?). split_and!; try tauto; by apply Hoff.
  - intros a b u Ha Hb. rewrite !Hp. repeat case_decide; subst; try done; [| |by apply H3].
    + intros E%Nat.eqb_eq. cbn in E. subst u. by rewrite Hno.
    + intros E' E%Nat.eqb_eq. cbn in E. subst u. by rewrite Hno in E'.
  - intros u Hu Hst Hru. rewrite Hp. case_decide; [subst u; destruct (H1 i Hi Hru); congruence|].
    intros Hw. destruct (H4 u Hu Hst Hru Hw) as [He|(j & Hj & Hs)].
    + left. cbn. by rewrite upd_ne.
    + right. exists j. split; [done|]. rewrite Hp. case_decide; [congruence|done].
  - intros u Hu. rewrite Hp. case_decide; [done|]. by apply H6.
  - intros u Hu. etrans; [exact (H5 u Hu)|]. f_equal. f_equal. unfold outstanding. change (ms_slots s') with (ms_slots s).
    rewrite Hp. case_decide; [subst u; by rewrite Hpc|done].
Qed.
End Special.

(** Points of a core whose vCPU is on and that have nothing to do with CPU_ON. *)
Definition running (p : mpc) : bool :=
  match p with MDrain | MInject _ _ | MGuest | MSgi _ _ _ | MSgiMap _ | MSgiSend _ => true | _ => false end.
(** The state outside core [i] is as before, up to pending interrupts. *)
Definition same_rest (i : nat) (s s' : msys) : Prop :=
  ms_slots s' = ms_slots s /\ ms_reqs s' = ms_reqs s /\ ms_boots s' = ms_boots s /\
  forall j, j <> i -> pc_of s' j = pc_of s j /\ k_event (ms_cores s' j) = k_event (ms_cores s j) /\ ms_term s' j = ms_term s j.
Lemma off_inv st n mpidr i s s' : cpu_on_inv st n mpidr s -> (i < n)%nat -> same_rest i s s' ->
  pc_of s i = MOff /\ pc_of s' i = MWfe \/
  off s i = true /\ pc_of s i = MExit /\ pc_of s' i = (if (i =? 0)%nat then MStop else MOffline) /\
    k_event (ms_cores s' i) = k_event (ms_cores s i) \/
  pc_of s i = MOffline /\ pc_of s' i = MWfe /\ k_event (ms_cores s' i) = k_event (ms_cores s i) ->
  cpu_on_inv st n mpidr s'.
Proof.
  intros Hc Hi (E1 & E2 & E3 & E4) Hcase. apply (quiet_inv st n mpidr i s); [done..|].
  constructor; auto; try (intros j Hj; by destruct (E4 j Hj) as (E5 & E6 & E7); rewrite ?E5, ?E6, ?E7).
  - destruct Hcase as [[_ ->]|[(_ & _ & -> & _)|(_ & -> & _)]]; try done. by destruct (i =? 0)%nat.
  - unfold off. destruct Hcase as [[_ ->]|[(_ & _ & -> & _)|(_ & -> & _)]]; try done. by destruct (i =? 0)%nat.
  - unfold outstanding. rewrite E1. destruct (sl_requested _); [done|].
    destruct Hcase as [[-> ->]|[(_ & -> & -> & _)|(-> & -> & _)]]; try done. by destruct (i =? 0)%nat.
  - destruct Hcase as [[_ ->]|[(_ & _ & -> & _)|(_ & -> & _)]]; try done. by destruct (i =? 0)%nat.
  - destruct Hcase as [[_ ->]|[(_ & _ & -> & _)|(_ & -> & _)]]; try done. by destruct (Nat.eqb_spec i 0).
  - intros _ Hm _. destruct Hcase as [[Hp _]|[(_ & -> & _ & ->)|(-> & _ & ->)]]; [by rewrite Hp in Hm|done..].
  - destruct Hcase as [[-> _]|[(_ & -> & _)|(-> & _)]]; done.
Qed.
Lemma run_inv st n mpidr i s s' : cpu_on_inv st n mpidr s -> (i < n)%nat -> same_rest i s s' ->
  running (pc_of s i) = true \/ pc_of s i = MExit /\ off s i = false ->
  running (pc_of s' i) = true \/ pc_of s' i = MExit -> cpu_on_inv st n mpidr s'.
Proof.
  intros Hc Hi (E1 & E2 & E3 & E4) Hp Hp'. apply (quiet_inv st n mpidr i s); [done..|].
  assert (Hon : off s i = false) by (destruct Hp as [Hp|[_ Hp]]; [|done]; unfold off; by destruct (pc_of s i)).
  assert (Hnr : sl_requested (ms_slots s i) = false).
  { destruct (sl_requested _) eqn:E; [|done]. destruct (ci_idle _ _ _ _ Hc i Hi E). congruence. }
  constructor; auto; try (intros j Hj; by destruct (E4 j Hj) as (E5 & E6 & E7); rewrite ?E5, ?E6, ?E7); try congruence.
  - destruct Hp' as [Hp'| ->]; [by destruct (pc_of s' i)|done].
  - unfold outstanding. rewrite E1, Hnr. destruct Hp' as [Hp'| ->], Hp as [Hp|[Hp _]];
      rewrite ?Hp; destruct (pc_of s i); try done; by destruct (pc_of s' i).
  - destruct Hp' as [Hp'| ->]; [by destruct (pc_of s' i)|done].
  - destruct Hp' as [Hp'| ->]; [by destruct (pc_of s' i)|done].
  - intros E. destruct Hp as [Hp|[Hp _]]; by rewrite E in Hp.
Qed.

Lemma same_rest_trans i a b c : same_rest i a b -> same_rest i b c -> same_rest i a c.
Proof.
  intros (A1 & A2 & A3 & A4) (B1 & B2 & B3 & B4). split_and!; try congruence.
  intros j Hj. destruct (A4 j Hj) as (? & ? & ?), (B4 j Hj) as (? & ? & ?). split_and!; congruence.
Qed.
Lemma rest_on_core i f s : same_rest i s (on_core i f s).
Proof.
  split_and!; try done. intros j Hj. rewrite pc_on_core, decide_False by done. split; [done|]. cbn. by rewrite upd_ne.
Qed.
Lemma rest_term i b s : same_rest i s (with_term i b s).
Proof. split_and!; try done. intros j Hj. split_and!; try done. cbn. by rewrite upd_ne. Qed.
Lemma rest_cores i s s' : ms_slots s' = ms_slots s -> ms_reqs s' = ms_reqs s -> ms_boots s' = ms_boots s ->
  ms_cores s' = ms_cores s -> ms_term s' = ms_term s -> same_rest i s s'.
Proof. intros E1 E2 E3 E4 E5. split_and!; try done. intros j Hj. unfold pc_of. by rewrite E4, E5. Qed.
#[local] Hint Resolve rest_on_core rest_cores : core.

Lemma inject_rest i all sgi s : same_rest i s (inject_step i all sgi s) /\
  (pc_of (inject_step i all sgi s) i = MGuest \/ exists m, pc_of (inject_step i all sgi s) i = MInject all m).
Proof.
  unfold inject_step. destruct (16 <=? sgi)%nat.
  { split; [auto|]. left. by rewrite pc_on_core, decide_True. }
  destruct (Z.land _ _ =? 0). { split; [auto|]. right. exists (S sgi). by rewrite pc_on_core, decide_True. }
  destruct (place_lr _ _) as [lrs []].
  - split; [eapply same_rest_trans; apply rest_on_core|]. right. exists (S sgi). rewrite pc_on_core, decide_True by done.
    cbn. by rewrite upd_same.
  - split; [|right; exists (S sgi); rewrite pc_on_core, decide_True by done; cbn; by rewrite !upd_same].
    eapply same_rest_trans; [|apply rest_on_core]. eapply same_rest_trans; [|by apply rest_cores].
    eapply same_rest_trans; apply rest_on_core.
Qed.
Lemma pc_here i f s : pc_of (on_core i f s) i = k_pc (f (ms_cores s i)).
Proof. by rewrite pc_on_core, decide_True. Qed.
Lemma sgi_rest vtr i value remote ts s : same_rest i s (sgi_step vtr i value remote ts s) /\
  running (pc_of (sgi_step vtr i value remote ts s) i) = true.
Proof.
  unfold sgi_step. destruct ts as [|t ts]; [|destruct (t =? i)%nat]; (split; [|rewrite pc_here; cbn; try done]).
  - auto.
  - by destruct remote.
  - auto.
  - eapply same_rest_trans; [|apply rest_on_core]. by apply rest_cores.
Qed.

Section CpuOn.
Context (st : bool) (n : nat) (mpidr vtr : Z).

Lemma guest_inv i a s s' : cpu_on_inv st n mpidr s -> (i < n)%nat -> pc_of s i = MGuest -> conforming st n i a s = true ->
  mguest_step n i a s = Some s' -> cpu_on_inv st n mpidr s'.
Proof.
  intros Hc Hi Hpc Hok. unfold mguest_step.
  assert (Hpl : forall s', same_rest i s s' -> running (pc_of s' i) = true \/ pc_of s' i = MExit -> cpu_on_inv st n mpidr s').
  { intros s'' Hr Hp. apply (run_inv st n mpidr i s); auto. left. by rewrite Hpc. }
  destruct a as [| |lrs| | | | |target e c|value].
  - done.
  - done.
  - intros [= <-]. apply Hpl; [auto|]. left. rewrite pc_here. cbn. change (k_pc _) with (pc_of s i). by rewrite Hpc.
  - destruct (k_event _); [|done]. intros [= <-]. apply Hpl; [auto|]. left. rewrite pc_here. cbn.
    change (k_pc _) with (pc_of s i). by rewrite Hpc.
  - destruct (k_irq _); [|done]. intros [= <-]. apply Hpl; [auto|]. right. by rewrite pc_here.
  - intros [= <-]. apply Hpl; [auto|]. right. by rewrite pc_here.
  - intros [= <-]. apply Hpl; [|right; by rewrite pc_here]. eapply same_rest_trans; [apply rest_term|apply rest_on_core].
  - cbv zeta. unfold conforming in Hok. rewrite Hpc in Hok.
    destruct (Nat.ltb_spec (Z.to_nat (Z.land target 0xFF)) n) as [Ht|Ht]; cbn [negb orb] in Hok.
    + intros [= <-]. rewrite !andb_true_iff, negb_true_iff in Hok. destruct Hok as [[[Hid Hr] Hno] Hgo].
      apply start_inv; auto.
      * intros ->. exact Hgo.
      * intros j Hj. apply negb_true_iff. rewrite forallb_forall in Hno. apply Hno, in_seq. lia.
    + intros [= <-]. apply Hpl; [auto|]. right. by rewrite pc_here.
  - intros [= <-]. apply Hpl; [auto|]. left. by rewrite pc_here.
Qed.

Lemma mstep_cpu_on i a s s' : cpu_on_inv st n mpidr s -> conforming st n i a s = true ->
  mstep n mpidr vtr i a s = Some s' -> cpu_on_inv st n mpidr s'.
Proof.
  intros Hc Hok. unfold mstep. destruct (Nat.leb_spec n i) as [|Hi]; [done|]. change (k_pc (ms_cores s i)) with (pc_of s i).
  assert (Hnr : off s i = false -> sl_requested (ms_slots s i) = false).
  { intros Hid. destruct (sl_requested _) eqn:E; [|done]. destruct (ci_idle _ _ _ _ Hc i Hi E). congruence. }
  assert (Hpl : running (pc_of s i) = true -> forall s', same_rest i s s' ->
    running (pc_of s' i) = true \/ pc_of s' i = MExit -> cpu_on_inv st n mpidr s').
  { intros Hp s'' Hr Hp'. apply (run_inv st n mpidr i s); auto. }
  (* steps of the idle loop and of a boot *)
  assert (Hmv : forall f, storing (k_pc (f (ms_cores s i))) = None -> is_moff (k_pc (f (ms_cores s i))) = false ->
    k_pc (f (ms_cores s i)) <> MStop ->
    (off s i = true -> off_at (k_pc (f (ms_cores s i))) (ms_term s i) = true) ->
    outstanding (on_core i f s) i = outstanding s i ->
    (sl_requested (ms_slots s i) = true -> k_pc (f (ms_cores s i)) = MTake) -> pc_of s i <> MSev ->
    cpu_on_inv st n mpidr (on_core i f s)).
  { intros f A1 A1' A1'' A2 A3 A4 A5. destruct (rest_on_core i f s) as (E1 & E2 & E3 & E4).
    apply (quiet_inv st n mpidr i s); [done..|]. unfold off in *. constructor; unfold off; rewrite ?pc_here; auto; try done;
      try (intros j Hj; destruct (E4 j Hj) as (? & Ev & ?); congruence). }
  destruct (pc_of s i) eqn:Hpc.
  - intros [= <-]. apply (off_inv st n mpidr i s); auto. left. by rewrite pc_here.
  - destruct (_ || _); [|done]. intros [= <-]. apply Hmv; try done. unfold outstanding. by rewrite pc_here, Hpc.
  - destruct (sl_requested (ms_slots s i)) eqn:Hr; intros [= <-].
    + by apply take_inv.
    + apply Hmv; try done. unfold outstanding. by rewrite pc_here, Hpc.
  - assert (Hon : off s i = false) by (unfold off; by rewrite Hpc).
    intros [= <-]. apply Hmv; try done; [congruence| |by rewrite Hnr].
    unfold outstanding. cbn [on_core with_cores ms_slots]. by rewrite pc_here, Hpc, Hnr.
  - assert (Hon : off s i = false) by (unfold off; by rewrite Hpc).
    intros [= <-]. apply Hmv; try done; [congruence| |by rewrite Hnr].
    unfold outstanding. cbn [on_core with_cores ms_slots]. by rewrite pc_here, Hpc, Hnr.
  - intros [= <-]. by apply boot_inv.
  - intros [= <-]. apply Hpl; [done| |left; by rewrite pc_here]. eapply same_rest_trans; [|apply rest_on_core]. by apply rest_cores.
  - intros [= <-]. destruct (inject_rest i all sgi s) as [Hr Hp]. apply Hpl; [done..|]. left.
    destruct Hp as [-> |[m ->]]; done.
  - by apply guest_inv.
  - intros [= <-]. eapply (store_inv st n mpidr s Hc i Hi t 0 e c); try done; [by rewrite Hpc| |lia].
    cbn. apply (ci_store _ _ _ _ Hc i t 0 e c Hi). by rewrite Hpc.
  - intros [= <-]. destruct (ci_store _ _ _ _ Hc i t 1 e c Hi) as (_ & _ & H1 & H2 & _); [by rewrite Hpc|].
    eapply (store_inv st n mpidr s Hc i Hi t 1 e c); try done; [by rewrite Hpc|cbn; auto].
  - intros [= <-]. by apply (flag_inv st n mpidr s Hc i Hi t 2 e c); rewrite ?Hpc.
  - assert (Hon : off s i = false) by (unfold off; by rewrite Hpc).
    intros [= <-]. apply (quiet_inv st n mpidr i s); [done..|]. constructor; rewrite ?pc_here; try done.
    + intros j Hj. rewrite pc_on_core, decide_False by done. done.
    + intros j Hj _. cbn. by rewrite upd_ne.
    + congruence.
    + unfold outstanding. cbn [on_core with_cores ms_slots]. by rewrite pc_here, Hpc, Hnr.
    + intros Hr. by rewrite Hnr in Hr.
    + intros _ j Hj. cbn. by rewrite upd_ne.
  - intros [= <-]. destruct (sgi_rest vtr i value remote_queued targets s) as [Hr Hp]. apply Hpl; auto.
  - generalize (target_bitmap i (ms_online s) value) as b. intros b. cbv zeta. intros [= <-].
    apply Hpl; auto. left. rewrite pc_here. cbn [goto k_pc]. by destruct (b =? 0).
  - generalize (send_physical_sgi 0 (u16 bitmap)) as icc. intros icc [= <-].
    apply Hpl; [done| |left; by rewrite pc_here]. eapply same_rest_trans; [|apply rest_on_core].
    split_and!; try done. intros j Hj. unfold pc_of. cbn. unfold ring_cores. destruct (_ && _); done.
  - destruct (ms_term s i) eqn:Et; intros [= <-].
    + apply (off_inv st n mpidr i s); auto; [eapply same_rest_trans; [apply rest_term|apply rest_on_core]|].
      right; left. unfold off. rewrite pc_here, Hpc. cbn [off_at goto k_pc]. split_and!; try done. cbn. by rewrite upd_same.
    + apply (run_inv st n mpidr i s); auto; [right; split; [done|unfold off; by rewrite Hpc]|left; by rewrite pc_here].
  - intros [= <-]. apply (off_inv st n mpidr i s); auto; [eapply same_rest_trans; [|apply rest_on_core]; by apply rest_cores|].
    right; right. rewrite pc_here. split_and!; try done. cbn. by rewrite upd_same.
  - done.
Qed.

Lemma mrun_app acts acts' s : mrun n mpidr vtr (acts ++ acts') s =
  match mrun n mpidr vtr acts s with Some s => mrun n mpidr vtr acts' s | None => None end.
Proof.
  revert s. induction acts as [|[i a] acts IH]; intros s; [done|]. cbn. by destruct (mstep _ _ _ _ _ _).
Qed.
Lemma mrun_cpu_on acts : forall s s', cpu_on_inv st n mpidr s -> conforming_run st n mpidr vtr acts s = true ->
  mrun n mpidr vtr acts s = Some s' -> cpu_on_inv st n mpidr s'.
Proof.
  induction acts as [|[i a] acts IH]; intros s s' Hc Hok; cbn [mrun conforming_run] in *; [by intros [= <-]|].
  apply andb_true_iff in Hok as [H1 H2]. destruct (mstep n mpidr vtr i a s) as [s1|] eqn:E; [|done].
  apply IH; [by eapply mstep_cpu_on|done].
Qed.
Lemma minit_cpu_on : cpu_on_inv st n mpidr minit.
Proof.
  assert (Hst : forall j, storing (pc_of minit j) = None) by (intros j; cbn; by destruct (j =? 0)%nat).
  constructor; try done.
  - intros j t k e c _. by rewrite Hst.
  - intros a b t _ _ H. apply stores_to_storing in H as (? & ? & ? & H). by rewrite Hst in H.
  - intros t _. cbn. by destruct (t =? 0)%nat.
  - intros t _. unfold outstanding. cbn. by destruct (t =? 0)%nat.
Qed.

(** Steps of the target alone serve its request. *)
Definition serves (t k : nat) (s : msys) : Prop :=
  exists s', mrun n mpidr vtr (replicate k (t, GStep)) s = Some s' /\
    outstanding s' t = [] /\ reqs_for t s' = reqs_for t s.
Lemma serves_step t k s s1 : (t < n)%nat -> mstep n mpidr vtr t GStep s = Some s1 ->
  reqs_for t s1 = reqs_for t s -> serves t k s1 -> serves t (S k) s.
Proof.
  intros Ht Hs Hr (s' & Hrun & Ho & Hq). exists s'. cbn [replicate mrun]. rewrite Hs. split_and!; [done..|congruence].
Qed.
Ltac eval_step Ht Hpc :=
  unfold mstep; rewrite (proj2 (Nat.leb_gt _ _)) by exact Ht; unfold pc_of in Hpc; rewrite Hpc.
Lemma serve_boot t s e c : (t < n)%nat -> sl_requested (ms_slots s t) = false -> pc_of s t = MBoot e c -> serves t 1 s.
Proof.
  intros Ht Hr Hpc. eapply serves_step; [done|by eval_step Ht Hpc|done|].
  eexists. split_and!; [done| |done]. unfold outstanding. cbn. rewrite Hr. unfold pc_of. cbn. by rewrite upd_same.
Qed.
Lemma serve_ctx t s e : (t < n)%nat -> sl_requested (ms_slots s t) = false -> pc_of s t = MLoadCtx e -> serves t 2 s.
Proof.
  intros Ht Hr Hpc. eapply serves_step; [done|by eval_step Ht Hpc|done|]. eapply serve_boot; [done..|by rewrite pc_here].
Qed.
Lemma serve_entry t s : (t < n)%nat -> sl_requested (ms_slots s t) = false -> pc_of s t = MLoadEntry -> serves t 3 s.
Proof.
  intros Ht Hr Hpc. eapply serves_step; [done|by eval_step Ht Hpc|done|]. eapply serve_ctx; [done..|by rewrite pc_here].
Qed.
Lemma serve_take t s : (t < n)%nat -> sl_requested (ms_slots s t) = true -> pc_of s t = MTake -> serves t 4 s.
Proof.
  intros Ht Hr Hpc. eapply serves_step; [done|eval_step Ht Hpc; by rewrite Hr|done|].
  eapply serve_entry; [done| |by rewrite pc_here]. cbn. by rewrite upd_same.
Qed.
Lemma serve_wfe t s : (t < n)%nat -> sl_requested (ms_slots s t) = true -> pc_of s t = MWfe ->
  k_event (ms_cores s t) = true -> serves t 5 s.
Proof.
  intros Ht Hr Hpc He. eapply serves_step; [done|eval_step Ht Hpc; by rewrite He|done|].
  eapply serve_take; [done..|by rewrite pc_here].
Qed.
Lemma serve_offline t s : (t < n)%nat -> sl_requested (ms_slots s t) = true -> pc_of s t = MOffline ->
  k_event (ms_cores s t) = true -> serves t 6 s.
Proof.
  intros Ht Hr Hpc He. eapply serves_step; [done|by eval_step Ht Hpc|done|].
  eapply serve_wfe; [done..|by rewrite pc_here|]. cbn. by rewrite upd_same.
Qed.
Lemma serve_exit t s : (t < n)%nat -> t <> 0%nat -> sl_requested (ms_slots s t) = true -> pc_of s t = MExit -> ms_term s t = true ->
  k_event (ms_cores s t) = true -> serves t 7 s.
Proof.
  intros Ht H0 Hr Hpc Hterm He. eapply serves_step; [done|eval_step Ht Hpc; rewrite Hterm, (proj2 (Nat.eqb_neq t 0)) by done; done|done|].
  eapply serve_offline; [done..|by rewrite pc_here|]. cbn. by rewrite upd_same.
Qed.
Lemma served t s : st = true -> cpu_on_inv st n mpidr s -> (t < n)%nat -> (forall j, (j < n)%nat -> pc_of s j <> MSev) ->
  exists k, (k <= 7)%nat /\ serves t k s.
Proof.
  intros Hst Hc Ht Hns. destruct (sl_requested (ms_slots s t)) eqn:Hr.
  - destruct (ci_idle _ _ _ _ Hc t Ht Hr) as [Hid Hgo]. specialize (Hgo Hst). unfold started in Hgo.
    apply andb_true_iff in Hgo as [H0 Hm]. apply negb_true_iff, Nat.eqb_neq in H0.
    assert (He : pc_of s t <> MTake -> k_event (ms_cores s t) = true).
    { intros Hpc. destruct (ci_wake _ _ _ _ Hc t Ht Hst Hr Hpc) as [He|(j & Hj & Hs)]; [done|by destruct (Hns j Hj)]. }
    unfold off in Hid. destruct (pc_of s t) eqn:Ep; try done; try specialize (He ltac:(done)).
    + exists 5%nat. split; [lia|by apply serve_wfe].
    + exists 4%nat. split; [lia|by apply serve_take].
    + exists 7%nat. split; [lia|by apply serve_exit].
    + exists 6%nat. split; [lia|by apply serve_offline].
    + by apply (ci_stop _ _ _ _ Hc) in Ep.
  - destruct (pc_of s t) eqn:Hpc;
      try (exists 0%nat; split; [lia|]; exists s; split_and!; [done| |done]; unfold outstanding; by rewrite Hr, Hpc).
    + exists 3%nat. split; [lia|by apply serve_entry].
    + exists 2%nat. split; [lia|by eapply serve_ctx].
    + exists 1%nat. split; [lia|by eapply serve_boot].
Qed.
Lemma idle_conforming t k s : (t < n)%nat -> conforming_run st n mpidr vtr (replicate k (t, GStep)) s = true.
Proof.
  intros Ht. revert s. induction k as [|k IH]; intros s; [done|]. cbn [replicate conforming_run].
  assert (conforming st n t GStep s = true) as -> by (unfold conforming; by destruct (pc_of s t)).
  cbn [andb]. destruct (mstep _ _ _ _ _ _); [apply IH|done].
Qed.
End CpuOn.

(** The stores of a request and the accesses of a take, run without
    interruption, are the whole operations. *)
Lemma request_steps n mpidr vtr i s t e c : (i < n)%nat -> pc_of s i = MReqEntry t e c ->
  exists s', mrun n mpidr vtr (replicate 3 (i, GStep)) s = Some s' /\
    ms_slots s' t = slot_request e c (ms_slots s t) /\ pc_of s' i = MSev.
Proof.
  intros Hi Hpc. cbn [replicate mrun]. unfold mstep. rewrite (proj2 (Nat.leb_gt _ _)) by done. unfold pc_of in Hpc. rewrite Hpc.
  cbn. rewrite !upd_same. cbn. rewrite !upd_same. eexists. split; [done|]. unfold pc_of. cbn. by rewrite !upd_same.
Qed.
Lemma take_steps n mpidr vtr i s : (i < n)%nat -> pc_of s i = MTake ->
  match slot_take (ms_slots s i) with
  | (slot, Some (e, c)) => exists s', mrun n mpidr vtr (replicate 3 (i, GStep)) s = Some s' /\
      ms_slots s' i = slot /\ pc_of s' i = MBoot e c
  | (slot, None) => exists s', mrun n mpidr vtr (replicate 1 (i, GStep)) s = Some s' /\
      ms_slots s' i = slot /\ pc_of s' i = MWfe
  end.
Proof.
  intros Hi Hpc. unfold slot_take, pc_of in *. destruct (sl_requested (ms_slots s i)) eqn:Hr;
    cbn [replicate mrun]; unfold mstep; rewrite (proj2 (Nat.leb_gt _ _)) by done; rewrite Hpc, Hr.
  - cbn. rewrite !upd_same. cbn. rewrite !upd_same. eexists. split; [done|]. cbn. by rewrite !upd_same.
  - eexists. split; [done|]. cbn. by rewrite !upd_same.
Qed.

(** C15. PSCI CPU_ON across cores, with sequentially consistent memory: in every
    interleaving of any number of cores, at the granularity of single accesses to
    the shared state, whose guests follow PSCI (CPU_ON only for a vCPU that is off,
    its core started or not, running down or not, and not already being turned on),
    the vCPUs booted on a core are exactly those its requests describe (entry point,
    context identifier), each once and in order, with at most one request
    outstanding.  If moreover CPU_ON is only called for secondary cores that have
    reached their idle loop once, no wake-up is lost: once the requesters have
    executed SEV, at most seven steps of the target core alone boot it. *)
Theorem cpu_on_exactly_once n mpidr vtr acts s t :
  conforming_run false n mpidr vtr acts minit = true -> mrun n mpidr vtr acts minit = Some s -> (t < n)%nat ->
  let vcpus := map (fun r => secondary_vcpu mpidr t r.1 r.2) (reqs_for t s) in
  (exists rest, vcpus = boots_of t s ++ rest /\ (length rest <= 1)%nat) /\
  (conforming_run true n mpidr vtr acts minit = true -> (forall j, (j < n)%nat -> pc_of s j <> MSev) ->
   exists k s', (k <= 7)%nat /\ mrun n mpidr vtr (replicate k (t, GStep)) s = Some s' /\ boots_of t s' = vcpus).
Proof.
  intros Hok Hrun Ht. cbv zeta. split.
  - pose proof (mrun_cpu_on _ _ _ _ _ _ _ (minit_cpu_on false n mpidr) Hok Hrun) as Hc.
    eexists. split; [by apply (ci_hist _ _ _ _ Hc)|]. rewrite length_map. unfold outstanding.
    destruct (sl_requested _); [cbn; lia|]. destruct (pc_of s t); cbn; lia.
  - intros Hst Hns. pose proof (mrun_cpu_on _ _ _ _ _ _ _ (minit_cpu_on true n mpidr) Hst Hrun) as Hc.
    destruct (served true n mpidr vtr t s eq_refl Hc Ht Hns) as (k & Hk & s' & Hr & Ho & Hq).
    exists k, s'. split_and!; [done..|]. rewrite <- Hq.
    pose proof (mrun_cpu_on _ _ _ _ _ _ _ Hc (idle_conforming true _ _ _ t k s Ht) Hr) as Hc'.
    rewrite (ci_hist _ _ _ _ Hc' t Ht), Ho. by rewrite app_nil_r.
Qed.

Definition steps (i k : nat) : list (nat * gact) := replicate k (i, GStep).
(** Core 0 in its guest, cores 1 and 2 at their WFE. *)
Definition ex_start : list (nat * gact) := steps 0 18 ++ [(1, GStep); (2, GStep)]%nat.
(** vCPU 0 turns vCPU 1 on; core 1 sleeps, wakes and boots. *)
Definition ex_on (entry ctx : Z) : list (nat * gact) :=
  ex_start ++ [(0%nat, GCpuOn 1 entry ctx)] ++ steps 0 4 ++ steps 1 5.
Definition sys_of (acts : list (nat * gact)) : msys := default minit (mrun 3 0x80000000 3 acts minit).
Definition runs (acts : list (nat * gact)) : bool :=
  match mrun 3 0x80000000 3 acts minit with Some _ => true | None => false end.
Lemma runs_sys acts : runs acts = true -> mrun 3 0x80000000 3 acts minit = Some (sys_of acts).
Proof. unfold runs, sys_of. by destruct (mrun _ _ _ _ _). Qed.
(** vCPU 1 turns itself off and, while its core is on the way back, is turned on
    again by vCPU 0. *)
Definition ex_again : list (nat * gact) :=
  ex_on 0x48001000 7 ++ steps 1 18 ++ steps 0 19 ++ [(1%nat, GOff); (0%nat, GCpuOn 1 0x48002000 8)] ++ steps 0 4.
Lemma cpu_on_exactly_once_witness :
  boots_of 1 (sys_of (ex_on 0x48001000 7)) = [secondary_vcpu 0x80000000 1 0x48001000 7] /\
  pc_of (sys_of ex_again) 1 = MExit /\
  exists k s', (k <= 7)%nat /\ mrun 3 0x80000000 3 (replicate k (1%nat, GStep)) (sys_of ex_again) = Some s' /\
    boots_of 1 s' = [secondary_vcpu 0x80000000 1 0x48001000 7; secondary_vcpu 0x80000000 1 0x48002000 8].
Proof.
  split; [|split; [by vm_compute|]].
  - destruct (cpu_on_exactly_once 3 0x80000000 3 (ex_on 0x48001000 7) (sys_of (ex_on 0x48001000 7)) 1)
      as [(rest & H & Hl) _]; [by vm_compute|apply runs_sys; by vm_compute|lia|].
    assert (Hlen : length (boots_of 1 (sys_of (ex_on 0x48001000 7))) = 1%nat) by (by vm_compute).
    assert (Hq : reqs_for 1 (sys_of (ex_on 0x48001000 7)) = [(0x48001000, 7)]) by (by vm_compute).
    rewrite Hq in H. cbn [map fst snd] in H.
    destruct (boots_of 1 _) as [|v [|]]; try discriminate Hlen. injection H as <- _. reflexivity.
  - destruct (cpu_on_exactly_once 3 0x80000000 3 ex_again (sys_of ex_again) 1)
      as [_ H]; [by vm_compute|apply runs_sys; by vm_compute|lia|].
    assert (Hq : reqs_for 1 (sys_of ex_again) = [(0x48001000, 7); (0x48002000, 8)]) by (by vm_compute).
    rewrite Hq in H. apply H; [by vm_compute|].
    intros j Hj. destruct j as [|[|[|j]]]; [by vm_compute..|lia].
Defined.

(** vCPU 0 has no idle loop to come back to: after CPU_OFF, a CPU_ON for it is
    accepted and never served. *)
Example cpu_on_of_vcpu0_lost :
  let s := sys_of (ex_on 0x48001000 7 ++ steps 1 18 ++ steps 0 19 ++ [(0%nat, GOff)] ++ steps 0 1 ++
    [(1%nat, GCpuOn 0 0xA000 0xA)] ++ steps 1 4) in
  pc_of s 0 = MStop /\ sl_requested (ms_slots s 0) = true /\ forall a, mstep 3 0x80000000 3 0 a s = None.
Proof. split_and!; [by vm_compute..|]. by intros []; vm_compute. Qed.

(** Without the assumption on guests: two vCPUs that turn vCPU 2 on at the same
    time boot it once, with the entry point of one request and the context of
    the other. *)
Example cpu_on_torn :
  let s := sys_of (ex_on 0x48001000 7 ++ steps 1 18 ++ steps 0 19 ++
    [(0%nat, GCpuOn 2 0xA000 0xA); (1%nat, GCpuOn 2 0xB000 0xB)] ++
    steps 0 1 ++ steps 1 2 ++ steps 0 2 ++ steps 1 1 ++ steps 0 1 ++ steps 2 5) in
  map (fun v => (ctx_pc (vcpu_context v), xreg (vcpu_context v) 0)) (boots_of 2 s) = [(0xB000, 0xA)] /\
  reqs_for 2 s = [(0xA000, 0xA); (0xB000, 0xB)].
Proof. by vm_compute. Qed.
(** CPU_ON for a vCPU that runs is accepted; its guest consumes the event with
    a WFE of its own and turns itself off: the request stays in the slot, the
    core sleeps and no event is on the way. *)
Example cpu_on_lost_wakeup :
  let s := sys_of (ex_on 0x48001000 7 ++ steps 1 18 ++ steps 0 19 ++
    [(0%nat, GCpuOn 1 0xA000 0xA)] ++ steps 0 4 ++ [(1, GWfe); (1, GOff)]%nat ++ steps 1 2) in
  pc_of s 1 = MWfe /\ sl_requested (ms_slots s 1) = true /\ k_event (ms_cores s 1) = false /\
  mstep 3 0x80000000 3 1 GStep s = None.
Proof. by vm_compute. Qed.
(** A request made before the core reaches its loop for the first time waits
    for an event too: the loop sleeps before it looks. *)
Example cpu_on_before_start :
  let s := sys_of (steps 0 18 ++ [(0%nat, GCpuOn 1 0xA000 0xA)] ++ steps 0 4 ++ steps 1 1) in
  pc_of s 1 = MWfe /\ sl_requested (ms_slots s 1) = true /\ mstep 3 0x80000000 3 1 GStep s = None.
Proof. by vm_compute. Qed.

(** ** SGIs between cores *)
(** The core will enter its guest without looking at its queue again. *)
Definition past_swap (p : mpc) : bool :=
  match p with MInject _ _ | MGuest | MSgi _ _ _ | MSgiMap _ | MSgiSend _ => true | _ => false end.
(** The vCPU of the core is online. *)
Definition live_pc (p : mpc) : bool :=
  match p with MOff | MWfe | MTake | MLoadEntry | MLoadCtx _ | MBoot _ _ | MStop => false | _ => true end.
Definition selects (value : Z) (j t : nat) : bool :=
  negb (t =? j)%nat && ((sgi_irm value =? 1) || Z.testbit (sgi_list value) (Z.of_nat t)).
(** Core [j] has queued an SGI and will still interrupt core [t]. *)
Definition ringing (j : nat) (p : mpc) (t : nat) : bool :=
  match p with
  | MSgi value true _ | MSgiMap value => selects value j t
  | MSgiSend b => Z.testbit b (Z.of_nat t)
  | _ => false
  end.

Record sgi_inv (n : nat) (s : msys) : Prop := {
  gi_online t : (t < n)%nat -> live_pc (pc_of s t) = true -> Z.testbit (ms_online s) (Z.of_nat t) = true;
  gi_targets j value remote ts : (j < n)%nat -> pc_of s j = MSgi value remote ts ->
    Forall (fun t => (t < MAX_VCPUS)%nat /\ (t = j \/ selects value j t = true)) ts;
  gi_bell t b : (t < n)%nat -> 0 <= b -> Z.testbit (ms_sgis s t) b = true -> past_swap (pc_of s t) = true ->
    k_irq (ms_cores s t) = true \/ (exists j, (j < n)%nat /\ ringing j (pc_of s j) t = true) \/
    Z.testbit (k_left (ms_cores s t)) b = true;
}.

(** What a step of core [i] has to establish. *)
Record sgi_ok (n i : nat) (s s' : msys) : Prop := {
  so_rest j : j <> i -> pc_of s' j = pc_of s j /\ k_left (ms_cores s' j) = k_left (ms_cores s j) /\
    (k_irq (ms_cores s j) = true -> k_irq (ms_cores s' j) = true);
  so_online j : j <> i -> (j < n)%nat -> Z.testbit (ms_online s) (Z.of_nat j) = true -> Z.testbit (ms_online s') (Z.of_nat j) = true;
  so_live : live_pc (pc_of s' i) = true -> Z.testbit (ms_online s') (Z.of_nat i) = true;
  so_targets value remote ts : pc_of s' i = MSgi value remote ts ->
    Forall (fun t => (t < MAX_VCPUS)%nat /\ (t = i \/ selects value i t = true)) ts;
  so_queue t b : t <> i -> 0 <= b -> Z.testbit (ms_sgis s' t) b = true ->
    Z.testbit (ms_sgis s t) b = true \/ ringing i (pc_of s' i) t = true;
  so_self b : 0 <= b -> past_swap (pc_of s' i) = true -> Z.testbit (ms_sgis s' i) b = true ->
    Z.testbit (k_left (ms_cores s' i)) b = true \/
    (past_swap (pc_of s i) = true /\ Z.testbit (ms_sgis s i) b = true /\
     (k_irq (ms_cores s i) = true -> k_irq (ms_cores s' i) = true) /\
     (Z.testbit (k_left (ms_cores s i)) b = true -> Z.testbit (k_left (ms_cores s' i)) b = true));
  so_ring t : (t < n)%nat -> past_swap (pc_of s' t) = true -> ringing i (pc_of s i) t = true ->
    ringing i (pc_of s' i) t = true \/ k_irq (ms_cores s' t) = true;
}.
Lemma sgi_ok_inv n i s s' : sgi_inv n s -> (i < n)%nat -> sgi_ok n i s s' -> sgi_inv n s'.
Proof.
  intros [G1 G2 G3] Hi [R O L T Q S B]. constructor.
  - intros t Ht Hl. destruct (decide (t = i)) as [->|]; [by apply L|]. apply O; [done..|]. apply G1; [done|].
    by destruct (R t) as [<- _].
  - intros j v r ts Hj Hpc. destruct (decide (j = i)) as [->|]; [by apply (T v r)|].
    apply (G2 j v r ts Hj). by destruct (R j) as [<- _].
  - intros t b Ht Hb Hq Hp.
    assert (Hcase : Z.testbit (k_left (ms_cores s' t)) b = true \/ ringing i (pc_of s' i) t = true \/
      (past_swap (pc_of s t) = true /\ Z.testbit (ms_sgis s t) b = true /\
       (k_irq (ms_cores s t) = true -> k_irq (ms_cores s' t) = true) /\
       (Z.testbit (k_left (ms_cores s t)) b = true -> Z.testbit (k_left (ms_cores s' t)) b = true))).
    { destruct (decide (t = i)) as [->|Hne]; [destruct (S b Hb Hp Hq); tauto|].
      destruct (R t Hne) as (Ep & El & Ei). destruct (Q t b Hne Hb Hq); [|tauto]. rewrite Ep in Hp. rewrite El. tauto. }
    destruct Hcase as [H|[H|(Hp0 & Hq0 & Hirq & Hleft)]]; [tauto|right; left; eauto|].
    destruct (G3 t b Ht Hb Hq0 Hp0) as [H|[(j & Hj & H)|H]]; [tauto| |tauto].
    destruct (decide (j = i)) as [->|Hne]; [destruct (B t Ht Hp H); [right; left; eauto|tauto]|].
    right. left. exists j. by destruct (R j Hne) as [-> _].
Qed.

Lemma testbit_online i k : Z.testbit (online_bit i) (Z.of_nat k) = (k =? i)%nat.
Proof.
  unfold online_bit. rewrite Z.shiftl_spec by lia. destruct (Nat.eqb_spec k i) as [->|]; [by rewrite Z.sub_diag|].
  destruct (Z.ltb_spec (Z.of_nat k - Z.of_nat i) 0); [by apply Z.testbit_neg_r|].
  change 1 with (2 ^ 0). apply Z.pow2_bits_false. lia.
Qed.
Lemma land_bit x k : 0 <= k -> negb (Z.land x (Z.shiftl 1 k) =? 0) = Z.testbit x k.
Proof. apply land_bit_ne0. Qed.
Lemma sgi_targets_in j online value t : t ∈ sgi_targets j online (sgi_irm value) (sgi_list value) <->
  (t < MAX_VCPUS)%nat /\ (if sgi_irm value =? 1 then t <> j /\ Z.testbit online (Z.of_nat t) = true
                          else Z.testbit (sgi_list value) (Z.of_nat t) = true).
Proof.
  unfold sgi_targets. destruct (sgi_irm value =? 1); rewrite list_elem_of_In, filter_In, in_seq, ?andb_true_iff, land_bit by lia.
  - rewrite negb_true_iff, Nat.eqb_neq. split; intros; (split; [lia|tauto]).
  - split; intros; (split; [lia|tauto]).
Qed.
Lemma bitmap_fold j ts : forall m k, Z.testbit (fold_left (fun m id => if (id =? j)%nat then m else Z.lor m (Z.shiftl 1 (Z.of_nat id))) ts m) (Z.of_nat k) =
  Z.testbit m (Z.of_nat k) || bool_decide (k ∈ ts /\ k <> j).
Proof.
  induction ts as [|t ts IH]; intros m k; cbn [fold_left].
  - rewrite bool_decide_false by (intros [H _]; by apply not_elem_of_nil in H). by rewrite orb_false_r.
  - rewrite IH. destruct (Nat.eqb_spec t j) as [->|Hne].
    + f_equal. apply bool_decide_ext. rewrite elem_of_cons. intuition congruence.
    + rewrite Z.lor_spec. change (Z.shiftl 1 (Z.of_nat t)) with (online_bit t). rewrite testbit_online, <- orb_assoc. f_equal.
      destruct (Nat.eqb_spec k t) as [->|Hk]; cbn [orb].
      * symmetry. apply bool_decide_true. split; [apply elem_of_cons; by left|done].
      * apply bool_decide_ext. rewrite elem_of_cons. intuition congruence.
Qed.
Lemma target_bitmap_bit j online value t :
  Z.testbit (target_bitmap j online value) (Z.of_nat t) =
  bool_decide (t ∈ sgi_targets j online (sgi_irm value) (sgi_list value) /\ t <> j).
Proof. unfold target_bitmap. by rewrite bitmap_fold, Z.bits_0. Qed.

Lemma sgi_inv_log n t e c s : sgi_inv n s -> sgi_inv n (log_req t e c s).
Proof. intros [G1 G2 G3]. by constructor. Qed.

Section Sgis.
Context (n : nat) (mpidr vtr : Z) (Hn : (n <= MAX_VCPUS)%nat) (s : msys) (Hg : sgi_inv n s) (i : nat) (Hi : (i < n)%nat).

(** A step that neither queues nor drains nor rings. *)
Lemma sgi_move s' : (forall j, j <> i -> pc_of s' j = pc_of s j /\ k_left (ms_cores s' j) = k_left (ms_cores s j) /\
    k_irq (ms_cores s' j) = k_irq (ms_cores s j)) ->
  ms_sgis s' = ms_sgis s -> ms_online s' = ms_online s ->
  (live_pc (pc_of s' i) = true -> live_pc (pc_of s i) = true) ->
  (forall v r ts, pc_of s' i = MSgi v r ts -> Forall (fun t => (t < MAX_VCPUS)%nat /\ (t = i \/ selects v i t = true)) ts) ->
  (past_swap (pc_of s' i) = true -> past_swap (pc_of s i) = true /\
     k_irq (ms_cores s' i) = k_irq (ms_cores s i) /\ k_left (ms_cores s' i) = k_left (ms_cores s i)) ->
  (forall t, ringing i (pc_of s i) t = true -> ringing i (pc_of s' i) t = true) ->
  sgi_inv n s'.
Proof.
  intros R Q O L T P B. apply (sgi_ok_inv n i s); [done..|]. constructor; rewrite ?Q, ?O; auto.
  - intros j Hj. destruct (R j Hj) as (E1 & E2 & E3). rewrite E3. auto.
  - intros Hl. by apply (gi_online _ _ Hg), L.
  - intros b Hb Hp Hq. right. destruct (P Hp) as (E1 & E2 & E3). rewrite E2, E3. auto.
Qed.
Lemma cores_ne f j s0 : j <> i -> ms_cores s0 = ms_cores s ->
  pc_of (on_core i f s0) j = pc_of s j /\ k_left (ms_cores (on_core i f s0) j) = k_left (ms_cores s j) /\
  k_irq (ms_cores (on_core i f s0) j) = k_irq (ms_cores s j).
Proof. intros Hj E. unfold pc_of, on_core, with_cores. cbn [ms_cores]. rewrite upd_ne, E by done. done. Qed.
Lemma core_here f s0 : ms_cores s0 = ms_cores s -> ms_cores (on_core i f s0) i = f (ms_cores s i).
Proof. intros E. unfold on_core, with_cores. cbn [ms_cores]. by rewrite upd_same, E. Qed.

(** A step that only moves core [i], and perhaps changes slots, flags or the
    event register. *)
Lemma sgi_goto s0 f : ms_cores s0 = ms_cores s -> ms_sgis s0 = ms_sgis s -> ms_online s0 = ms_online s ->
  let k := f (ms_cores s i) in
  (live_pc (k_pc k) = true -> live_pc (pc_of s i) = true) ->
  (forall v r ts, k_pc k = MSgi v r ts -> Forall (fun t => (t < MAX_VCPUS)%nat /\ (t = i \/ selects v i t = true)) ts) ->
  (past_swap (k_pc k) = true -> past_swap (pc_of s i) = true /\
     k_irq k = k_irq (ms_cores s i) /\ k_left k = k_left (ms_cores s i)) ->
  (forall t, ringing i (pc_of s i) t = true -> ringing i (k_pc k) t = true) ->
  sgi_inv n (on_core i f s0).
Proof.
  intros E1 E2 E3 k L T P B. apply sgi_move; rewrite ?pc_here, ?E1; try done.
  - intros j Hj. by apply cores_ne.
  - rewrite core_here by done. exact P.
Qed.

Lemma sgi_boot v : (forall t, ringing i (pc_of s i) t = false) ->
  sgi_inv n (log_boot i v (on_core i (fun k => goto MDrain (set_klrs (saved_lrs (arch_state v)) k))
    (with_online (Z.lor (ms_online s) (online_bit i)) s))).
Proof.
  intros Hr. set (s' := log_boot _ _ _). apply (sgi_ok_inv n i s); [done..|].
  assert (Hpc : pc_of s' i = MDrain) by (unfold s'; exact (pc_here i _ _)).
  constructor; rewrite ?Hpc; try done.
  - intros j Hj. destruct (cores_ne (fun k => goto MDrain (set_klrs (saved_lrs (arch_state v)) k)) j
      (with_online (Z.lor (ms_online s) (online_bit i)) s) Hj eq_refl) as (E1 & E2 & E3). split_and!; [exact E1|exact E2|].
    intros H. etrans; [exact E3|done].
  - intros j Hj _ H. cbn. by rewrite Z.lor_spec, H.
  - intros _. cbn. by rewrite Z.lor_spec, testbit_online, Nat.eqb_refl, orb_true_r.
  - intros t b Hne Hb H. by left.
  - intros t _ _ H. by rewrite Hr in H.
Qed.
Lemma sgi_offline : (forall t, ringing i (pc_of s i) t = false) ->
  sgi_inv n (on_core i (goto MWfe) (with_online (Z.land (ms_online s) (not64 (online_bit i))) s)).
Proof.
  intros Hr. set (s' := on_core _ _ _). apply (sgi_ok_inv n i s); [done..|].
  assert (Hpc : pc_of s' i = MWfe) by apply pc_here. constructor; rewrite ?Hpc; try done.
  - intros j Hj. destruct (cores_ne (goto MWfe) j (with_online (Z.land (ms_online s) (not64 (online_bit i))) s) Hj eq_refl) as (E1 & E2 & E3).
    split_and!; [exact E1|exact E2|]. intros H. etrans; [exact E3|done].
  - intros j Hj Hjn H. cbn. rewrite Z.land_spec, H. cbn [andb].
    unfold not64, notw. rewrite Z.land_spec, Z.lnot_spec, testbit_online by lia. destruct (Nat.eqb_spec j i); [done|].
    unfold MAX_VCPUS in Hn. apply Z.ones_spec_low. lia.
  - intros t b Hne Hb H. by left.
  - intros t _ _ H. by rewrite Hr in H.
Qed.
Lemma sgi_drain : pc_of s i = MDrain ->
  sgi_inv n (on_core i (fun k => goto (MInject (ms_sgis s i) 0) (set_left 0 k)) (with_sgis i 0 s)).
Proof.
  intros Hpc. set (f := fun k => _). set (s' := on_core _ _ _). apply (sgi_ok_inv n i s); [done..|].
  assert (Hpc' : pc_of s' i = MInject (ms_sgis s i) 0) by apply pc_here. constructor; rewrite ?Hpc'; try done.
  - intros j Hj. destruct (cores_ne f j (with_sgis i 0 s) Hj eq_refl) as (E1 & E2 & E3).
    split_and!; [exact E1|exact E2|]. intros H. etrans; [exact E3|done].
  - intros _. apply (gi_online _ _ Hg); [done|]. by rewrite Hpc.
  - intros t b Hne Hb. cbn. rewrite upd_ne by done. auto.
  - intros b Hb _. cbn. rewrite upd_same. by rewrite Z.bits_0.
  - intros t _ _. by rewrite Hpc.
Qed.

(** A round of the drain that finds no free list register. *)
Lemma sgi_requeue all m lrs bit : (exists m0, pc_of s i = MInject all m0) -> 
  sgi_inv n (on_core i (fun k => set_left (Z.lor (k_left k) bit) k)
    (with_sgis i (Z.lor (ms_sgis s i) bit) (on_core i (set_klrs lrs) (on_core i (goto (MInject all m)) s)))).
Proof.
  intros [m0 Hpc]. set (s' := on_core _ _ _). apply (sgi_ok_inv n i s); [done..|].
  assert (Hk : ms_cores s' i = mkCore (MInject all m) lrs (k_event (ms_cores s i)) (k_irq (ms_cores s i)) (Z.lor (k_left (ms_cores s i)) bit))
    by (unfold s', on_core, with_cores; cbn; by rewrite !upd_same).
  assert (Hne : forall j, j <> i -> ms_cores s' j = ms_cores s j)
    by (intros j Hj; unfold s', on_core, with_cores; cbn; by rewrite !upd_ne).
  assert (Hpc' : pc_of s' i = MInject all m) by (unfold pc_of; by rewrite Hk).
  constructor; rewrite ?Hpc', ?Hk; try done.
  - intros j Hj. unfold pc_of. by rewrite Hne.
  - intros _. apply (gi_online _ _ Hg); [done|]. by rewrite Hpc.
  - intros t b Ht Hb. cbn. rewrite upd_ne by done. auto.
  - intros b Hb _. cbn [k_left k_irq]. cbn [s' on_core with_cores with_sgis ms_sgis]. rewrite upd_same, !Z.lor_spec, Hpc.
    destruct (Z.testbit bit b); [rewrite !orb_true_r; auto|]. rewrite !orb_false_r. tauto.
  - intros t _ _. by rewrite Hpc.
Qed.

(** An SGI queued for another core. *)
Lemma sgi_queue value remote t ts : pc_of s i = MSgi value remote (t :: ts) -> t <> i ->
  sgi_inv n (on_core i (goto (MSgi value true ts)) (with_sgis t (Z.lor (ms_sgis s t) (Z.shiftl 1 (sgi_intid value))) s)).
Proof.
  intros Hpc Hti. pose proof (gi_targets _ _ Hg i value remote _ Hi Hpc) as HT. apply Forall_cons in HT as [[Ht [?|Hsel]] HT]; [done|].
  set (s' := on_core _ _ _). apply (sgi_ok_inv n i s); [done..|].
  assert (Hpc' : pc_of s' i = MSgi value true ts) by apply pc_here.
  assert (Hk : ms_cores s' i = goto (MSgi value true ts) (ms_cores s i)) by (by apply core_here).
  constructor; rewrite ?Hpc', ?Hk; try done.
  - intros j Hj. destruct (cores_ne (goto (MSgi value true ts)) j (with_sgis t (Z.lor (ms_sgis s t) (Z.shiftl 1 (sgi_intid value))) s) Hj eq_refl) as (E1 & E2 & E3).
    split_and!; [exact E1|exact E2|]. intros H. etrans; [exact E3|done].
  - intros _. apply (gi_online _ _ Hg); [done|]. by rewrite Hpc.
  - intros v r ts' [= <- <- <-]. done.
  - intros u b Hu Hb. cbn. rewrite upd_cases. case_decide; [subst u; by right|auto].
  - intros b Hb _. cbn. rewrite upd_ne by auto. intros H. right. rewrite Hpc. by split_and!.
  - intros u _ _. rewrite Hpc. cbn. destruct remote; [by left|done].
Qed.
Lemma sgi_map value : pc_of s i = MSgiMap value ->
  sgi_inv n (on_core i (goto (if target_bitmap i (ms_online s) value =? 0 then MGuest
                              else MSgiSend (target_bitmap i (ms_online s) value))) s).
Proof.
  intros Hpc. set (b := target_bitmap _ _ _). set (s' := on_core _ _ _). apply (sgi_ok_inv n i s); [done..|].
  assert (Hpc' : pc_of s' i = if b =? 0 then MGuest else MSgiSend b) by apply pc_here.
  assert (Hk : ms_cores s' i = goto (if b =? 0 then MGuest else MSgiSend b) (ms_cores s i)) by (by apply core_here).
  constructor; rewrite ?Hpc', ?Hk; try done.
  - intros j Hj. destruct (cores_ne (goto (if b =? 0 then MGuest else MSgiSend b)) j s Hj eq_refl) as (E1 & E2 & E3).
    split_and!; [exact E1|exact E2|]. intros H. etrans; [exact E3|done].
  - intros _. apply (gi_online _ _ Hg); [done|]. by rewrite Hpc.
  - intros v r ts. by destruct (b =? 0).
  - intros t c _ _ H. by left.
  - intros c Hc _ H. right. by rewrite Hpc.
  - intros t Ht Hp Hr. left. rewrite Hpc in Hr. cbn in Hr. apply andb_true_iff in Hr as [Hti Hsel].
    apply negb_true_iff, Nat.eqb_neq in Hti.
    assert (Hb : Z.testbit b (Z.of_nat t) = true).
    { unfold b. rewrite target_bitmap_bit. apply bool_decide_true. split; [|done]. apply sgi_targets_in. split; [lia|].
      destruct (sgi_irm value =? 1); [|done]. split; [done|]. apply (gi_online _ _ Hg); [done|].
      rewrite <- (proj1 (cores_ne (goto (if b =? 0 then MGuest else MSgiSend b)) t s Hti eq_refl)).
      change (on_core i _ s) with s'. by destruct (pc_of s' t). }
    destruct (Z.eqb_spec b 0) as [E|]; [|done]. rewrite E, Z.bits_0 in Hb. done.
Qed.
Lemma sgi_send b : pc_of s i = MSgiSend b ->
  sgi_inv n (on_core i (goto MGuest) (with_cores (ring_cores (send_physical_sgi 0 (u16 b)) (ms_cores s)) s)).
Proof.
  intros Hpc. set (s' := on_core _ _ _). apply (sgi_ok_inv n i s); [done..|].
  assert (Hpc' : pc_of s' i = MGuest) by apply pc_here.
  assert (Hb : forall t, (t < n)%nat -> Z.testbit b (Z.of_nat t) = true -> k_irq (ring_cores (send_physical_sgi 0 (u16 b)) (ms_cores s) t) = true).
  { intros t Ht Hbt. unfold ring_cores. unfold MAX_VCPUS in Hn. rewrite (proj2 (Nat.ltb_lt _ _)) by lia.
    unfold send_physical_sgi. rewrite Z.lor_spec. unfold u16, wrap. rewrite Z.mod_pow2_bits_low by lia.
    by rewrite Hbt, orb_true_r. }
  assert (Hr : forall t, k_pc (ring_cores (send_physical_sgi 0 (u16 b)) (ms_cores s) t) = pc_of s t /\
    k_left (ring_cores (send_physical_sgi 0 (u16 b)) (ms_cores s) t) = k_left (ms_cores s t) /\
    (k_irq (ms_cores s t) = true -> k_irq (ring_cores (send_physical_sgi 0 (u16 b)) (ms_cores s) t) = true)).
  { intros t. unfold ring_cores. by destruct (_ && _). }
  assert (Hk : ms_cores s' i = goto MGuest (ring_cores (send_physical_sgi 0 (u16 b)) (ms_cores s) i)) by apply upd_same.
  assert (Hne : forall j, j <> i -> ms_cores s' j = ring_cores (send_physical_sgi 0 (u16 b)) (ms_cores s) j) by (intros; by apply upd_ne).
  constructor; rewrite ?Hpc'; try done.
  - intros j Hj. unfold pc_of. rewrite Hne by done. apply Hr.
  - intros _. apply (gi_online _ _ Hg); [done|]. by rewrite Hpc.
  - intros t c _ _ H. by left.
  - intros c Hc _ H. right. rewrite Hpc, Hk. cbn [goto k_irq k_left]. destruct (Hr i) as (_ & -> & Hirq). by split_and!.
  - intros t Ht _. rewrite Hpc. cbn [ringing]. intros Hbt. right.
    destruct (decide (t = i)) as [->|]; [rewrite Hk; cbn|rewrite Hne by done]; by apply Hb.
Qed.

Lemma sgi_guest a s' : pc_of s i = MGuest -> mguest_step n i a s = Some s' -> sgi_inv n s'.
Proof.
  intros Hpc. unfold mguest_step. assert (Hkp : k_pc (ms_cores s i) = MGuest) by exact Hpc.
  destruct a as [| |lrs| | | | |target e c|value]; cbv zeta; try done.
  - intros [= <-]. apply sgi_goto; try done; rewrite ?Hpc; cbn; rewrite ?Hkp; done.
  - destruct (k_event _); [|done]. intros [= <-]. apply sgi_goto; try done; rewrite ?Hpc; cbn; rewrite ?Hkp; done.
  - destruct (k_irq _); [|done]. intros [= <-]. apply sgi_goto; try done; by rewrite ?Hpc.
  - intros [= <-]. apply sgi_goto; try done; by rewrite ?Hpc.
  - intros [= <-]. apply sgi_goto; try done; by rewrite ?Hpc.
  - intros [= <-]. destruct (Z.to_nat (Z.land target 0xFF) <? n)%nat; apply sgi_goto; try done; by rewrite ?Hpc.
  - intros [= <-]. apply sgi_goto; try done; rewrite ?Hpc; try done. cbn. intros v r ts [= <- _ <-].
    apply list.Forall_forall. intros t (Ht & Hs)%sgi_targets_in. split; [done|]. unfold selects.
    destruct (Nat.eqb_spec t i) as [->|]; [by left|right]. cbn [negb andb]. destruct (sgi_irm value =? 1); [done|by rewrite Hs].
Qed.
Lemma mstep_sgi a s' : mstep n mpidr vtr i a s = Some s' -> sgi_inv n s'.
Proof.
  unfold mstep. rewrite (proj2 (Nat.leb_gt _ _)) by done. change (k_pc (ms_cores s i)) with (pc_of s i).
  assert (Hmv : forall s0 f, ms_cores s0 = ms_cores s -> ms_sgis s0 = ms_sgis s -> ms_online s0 = ms_online s ->
    (live_pc (k_pc (f (ms_cores s i))) = true -> live_pc (pc_of s i) = true) ->
    past_swap (k_pc (f (ms_cores s i))) = false -> (forall t, ringing i (pc_of s i) t = false) -> sgi_inv n (on_core i f s0)).
  { intros s0 f E1 E2 E3 L P R. apply sgi_goto; try done.
    - intros v r ts E. by rewrite E in P.
    - by rewrite P.
    - intros t. by rewrite R. }
  destruct (pc_of s i) eqn:Hpc.
  - intros [= <-]. by apply Hmv.
  - destruct (_ || _); [|done]. intros [= <-]. by apply Hmv.
  - destruct (sl_requested _); intros [= <-]; by apply Hmv.
  - intros [= <-]. by apply Hmv.
  - intros [= <-]. by apply Hmv.
  - intros [= <-]. apply sgi_boot. intros t. by rewrite Hpc.
  - intros [= <-]. by apply sgi_drain.
  - intros [= <-]. unfold inject_step. destruct (16 <=? sgi)%nat.
    { apply sgi_goto; try done; by rewrite ?Hpc. }
    destruct (Z.land _ _ =? 0). { apply sgi_goto; try done; by rewrite ?Hpc. }
    destruct (place_lr _ _) as [lrs []]; [|apply sgi_requeue; eauto].
    apply sgi_move; rewrite ?pc_here; cbn; rewrite ?upd_same, ?Hpc; try done.
    intros j Hj. unfold pc_of. cbn. by rewrite !upd_ne.
  - by apply sgi_guest.
  - intros [= <-]. by apply Hmv.
  - intros [= <-]. by apply Hmv.
  - intros [= <-]. apply sgi_inv_log. by apply Hmv.
  - intros [= <-]. apply sgi_move; rewrite ?pc_here; cbn; rewrite ?upd_same, ?Hpc; try done.
    intros j Hj. unfold pc_of. cbn. by rewrite !upd_ne.
  - intros [= <-]. unfold sgi_step. destruct targets as [|t ts].
    { apply sgi_goto; try done; rewrite ?Hpc; try done; cbn; by destruct remote_queued. }
    destruct (Nat.eqb_spec t i) as [->|]; [|by eapply sgi_queue].
    pose proof (gi_targets _ _ Hg i _ _ _ Hi Hpc) as HT. apply Forall_cons in HT as [_ HT].
    apply sgi_goto; try done; rewrite ?Hpc; try done. cbn. by intros v r ts' [= <- <- <-].
  - cbv zeta. intros E%Some_inj. subst s'. by apply sgi_map.
  - intros E%Some_inj. subst s'. by apply sgi_send.
  - destruct (ms_term s i); intros [= <-]; apply Hmv; try done; by destruct (i =? 0)%nat.
  - intros [= <-]. apply sgi_offline. intros t. by rewrite Hpc.
  - done.
Qed.
End Sgis.

Lemma minit_sgi n : sgi_inv n minit.
Proof.
  constructor.
  - intros t Ht Hl. cbn in *. rewrite testbit_online. by destruct (t =? 0)%nat.
  - intros j v r ts _. cbn. by destruct (j =? 0)%nat.
  - intros t b _ _. cbn. by rewrite Z.bits_0.
Qed.
Lemma mrun_sgi n mpidr vtr acts : (n <= MAX_VCPUS)%nat -> forall s s', sgi_inv n s ->
  mrun n mpidr vtr acts s = Some s' -> sgi_inv n s'.
Proof.
  intros Hn. induction acts as [|[i a] acts IH]; intros s s' Hg; cbn [mrun]; [by intros [= <-]|].
  destruct (mstep n mpidr vtr i a s) as [s1|] eqn:E; [|done]. apply IH.
  assert (i < n)%nat as Hi by (revert E; unfold mstep; destruct (Nat.leb_spec n i); [done|lia]).
  by apply (mstep_sgi n mpidr vtr Hn s Hg i Hi a).
Qed.

(** C16. SGIs between cores are not forgotten: in every interleaving of the
    cores, whatever their guests do, if an SGI is queued for a core that runs
    its guest, then the physical SGI that makes it look at the queue is
    pending, or its sender is still about to send it, or the SGI was put back
    by the core's last drain, which found no free list register for it; and
    three steps of a core with a pending physical SGI take its queue. *)
Theorem sgi_never_forgotten n mpidr vtr acts s t b : (n <= MAX_VCPUS)%nat ->
  mrun n mpidr vtr acts minit = Some s -> (t < n)%nat -> 0 <= b -> pc_of s t = MGuest ->
  Z.testbit (ms_sgis s t) b = true ->
  (k_irq (ms_cores s t) = true \/ (exists j, (j < n)%nat /\ ringing j (pc_of s j) t = true) \/
   Z.testbit (k_left (ms_cores s t)) b = true) /\
  (k_irq (ms_cores s t) = true -> ms_term s t = false ->
   exists s', mrun n mpidr vtr [(t, GIrq); (t, GStep); (t, GStep)] s = Some s' /\
     pc_of s' t = MInject (ms_sgis s t) 0 /\ ms_sgis s' t = 0).
Proof.
  intros Hn Hrun Ht Hb Hpc Hq. pose proof (mrun_sgi n mpidr vtr acts Hn _ _ (minit_sgi n) Hrun) as Hg. split.
  - apply (gi_bell _ _ Hg); [done..|]. by rewrite Hpc.
  - intros Hirq Hterm. cbn [mrun]. unfold mstep. rewrite (proj2 (Nat.leb_gt _ _)) by done.
    unfold pc_of in Hpc. rewrite Hpc. cbn [mguest_step]. rewrite Hirq.
    cbn [on_core with_cores ms_cores goto k_pc ms_term ms_sgis]. rewrite upd_same. cbn [goto k_pc]. rewrite Hterm.
    cbn [on_core with_cores ms_cores goto k_pc ms_term ms_sgis]. rewrite !upd_same. cbn [goto k_pc].
    eexists. split; [done|]. rewrite pc_here. cbn. by rewrite upd_same.
Qed.

(** vCPUs 0 and 1 run; vCPU 0 sends SGI 5 to vCPU 1. *)
Definition ex_sgi : list (nat * gact) :=
  ex_on 0x48001000 7 ++ steps 1 18 ++ steps 0 19 ++ [(0%nat, GSgi (Z.lor (Z.shiftl 5 24) 2))] ++ steps 0 3.
Lemma sgi_never_forgotten_witness :
  (k_irq (ms_cores (sys_of ex_sgi) 1) = true \/
   (exists j, (j < 3)%nat /\ ringing j (pc_of (sys_of ex_sgi) j) 1 = true) \/
   Z.testbit (k_left (ms_cores (sys_of ex_sgi) 1)) 5 = true) /\
  pc_of (sys_of ex_sgi) 0 = MSgiSend 2.
Proof.
  split; [|by vm_compute].
  apply (sgi_never_forgotten 3 0x80000000 3 ex_sgi (sys_of ex_sgi) 1 5); [unfold MAX_VCPUS; lia| |lia|lia|by vm_compute|by vm_compute].
  apply runs_sys. by vm_compute.
Defined.
