(* ===== verification/DevLock.v ===== *)
(** * DevLock: the shared device manager of the multi-core build

    With the feature [multi_pcpu], [GlobalDeviceManager] of [global.rs] keeps
    the devices behind a [SpinLock], and every core reaches them: the traps of
    its guest through [handle_mmio], and core 0 through [drain_uart_rx] and
    [drain_net_rx].  [inject_spi] of this build reads the physical
    GICD_IROUTER instead of asking the emulated distributor, because it is
    also called with the lock held, and rings the target core's doorbell.

    A method is modelled by the steps of its core: a call is made, a ticket
    drawn, the lock polled, the manager read through the guard, the result of
    the body stored through it, the interrupts of the body raised one by one,
    the guard dropped.  The lock and its cores are those of Sync, so a step of
    a method is a step of the lock.  A body has a beginning and an end: it
    computes from the manager it read when it began, so a second core inside
    the lock would make it lose an update, and the other cores, the console
    interrupt and the guests go on in between.  A guest may store while a body
    runs: the body then sees each byte of memory as it was at some moment
    since it began, byte by byte, and what it writes lands on the memory of its
    end.  That a body may read one byte twice and see two values is not
    modelled.  The ticket counters are those of a build without overflow
    checks (with them the lock panics after 2^32 calls, see Sync); the bodies
    are those of either build.

    The theorems: the methods are served in the order of their tickets and the
    manager is what running them one after the other makes of it; the holder
    needs no other core to release the lock; drawing a second ticket would
    block for ever; the physical routing agrees with the emulated one. *)

From Stdlib Require Import ZArith Lia Bool List.
From stdpp Require Import base decidable option list strings.
From S2P Require Import Prelude Memory Rings Sync VSwitch Virtio VirtioNet GicDev PrimeCell Platform Devices Exception VmRun.

(** ** The bodies of the methods *)
Inductive job :=
| JReset
| JRegister (d : Device)
| JAttachBlk (disk_base disk_size : Z)
| JMmio (addr value size : Z) (is_write : bool)
| JRoute (intid : Z)
| JUartPush (ch : Z)
| JUart (buf : list Z)
| JAttachNet (vm_id : nat)
| JNet (frame : list Z).

(** What a body leaves: the manager, the world, what the caller gets, the SPIs
    it raises with the guard and those it raises after dropping it. *)
Inductive reply := RUnit | RVal (v : option Z) | RTarget (t : Z) | RBool (b : bool).
Record job_result := mkOut { o_dm : DeviceManager; o_io : dev_io; o_reply : reply; o_held : list Z; o_after : list Z }.

Definition io_quiet (s : dev_io) : dev_io :=
  mkIo (io_world s) (io_tx s) (io_gicd s) [] (io_cntvct s) (io_cntfrq s).
Definition set_switch (vs : VSwitch) (s : dev_io) : dev_io :=
  mkIo {| nw_mem := io_mem s; nw_net := {| ns_switch := vs; PORT_RX := PORT_RX (nw_net (io_world s)) |} |}
    (io_tx s) (io_gicd s) (io_spis s) (io_cntvct s) (io_cntfrq s).

Section Bodies.
Context (pi : PlatformInfo) (checks : bool) (fuel : nat).

(** [None]: a queue keeps the device busy; [Err]: a panic. *)
Definition body (j : job) (m : DeviceManager) (s : dev_io) : option (result job_result string) :=
  match j with
  | JReset => Some (Ok (mkOut (dm_reset m) s RUnit [] []))
  | JRegister d => Some (Ok (mkOut (register_device m d).1 s RUnit [] []))
  | JAttachBlk base size => Some (Ok (mkOut (attach_virtio_blk m base size) s RUnit [] []))
  | JMmio addr value size w =>
      match handle_mmio pi checks fuel m (io_quiet s) addr value size w with
      | Some (Ok (m, s, v)) => Some (Ok (mkOut m (io_quiet s) (RVal v) (io_spis s) []))
      | Some (Err e) => Some (Err e)
      | None => None
      end
  | JRoute intid => Some (Ok (mkOut m s (RTarget (route_spi m intid)) [] []))
  | JUartPush ch =>
      Some (Ok (mkOut (match uart_mut m with
                       | Some u => dm_with (put_uart (push_rx u ch) (dm_devices m)) m
                       | None => m end) s RUnit [] []))
  | JUart buf =>
      match uart_mut m with
      | Some u => let u := fold_left push_rx buf u in
                  Some (Ok (mkOut (dm_with (put_uart u (dm_devices m)) m) s RUnit []
                    (match uart_pending_irq u with Some _ => [33] | None => [] end)))
      | None => Some (Ok (mkOut m s RUnit [] []))
      end
  | JAttachNet vm_id =>
      let (m, vs) := attach_virtio_net m (ns_switch (nw_net (io_world s))) vm_id in
      Some (Ok (mkOut m (set_switch vs s) RUnit [] []))
  | JNet frame =>
      match virtio_net_mut m with
      | None => Some (Ok (mkOut m s (RBool false) [] []))
      | Some t =>
          match inject_rx (io_mem s) t frame with
          | Err e => Some (Err e)
          | Ok (mm, t, spis, b) =>
              Some (Ok (mkOut (dm_with (put_net t (dm_devices m)) m) (set_io_mem mm s) (RBool b) spis []))
          end
      end
  end.

(** The loop of [drain_uart_rx]: everything is taken, 64 bytes are kept. *)
Fixpoint take_rx (n : nat) (r : UartRxRing) (buf : list Z) : option (UartRxRing * list Z) :=
  match n with
  | O => None
  | S n => match uart_ring_pop r with
           | (r, None) => Some (r, buf)
           | (r, Some ch) => take_rx n r (if (length buf <? 64)%nat then buf ++ [ch] else buf)
           end
  end.

(** ** [inject_spi] of this build

    The physical distributor holds what was written through to it. *)
Definition gicd_apply (m : mem) (w : Z * Z * Z) : mem :=
  let '(offset, value, size) := w in write_le (Z.to_nat size) m (gicd_base pi + offset) value.
Definition gicd_phys (phys0 : mem) (s : dev_io) : mem := fold_left gicd_apply (io_gicd s) phys0.

Definition spi_target (phys : mem) (intid : Z) : Z :=
  let gicd_irouter_base := gicd_base pi + 0x6100 in
  let irouter_addr := gicd_irouter_base + (intid - 32) * 8 in
  Z.land (read64 phys irouter_addr) 0xFF.

(** The pending words and the doorbells, written by core [current]. *)
Definition inject_spi_mp (phys : mem) (current : nat) (intid : Z) (q : list Z * list (nat * Z)) : list Z * list (nat * Z) :=
  if (intid <? 32) || (63 <? intid) then q else
  let bit := intid - 32 in
  let target := spi_target phys intid in
  if target <? Z.of_nat Sched.MAX_VCPUS then
    (queue_bit bit (Z.to_nat target) q.1,
     if negb (target =? Z.of_nat current) then q.2 ++ [(current, Z.shiftl 1 target)] else q.2)
  else q.

(** ** The cores *)
Inductive work :=
| WIdle
| WCall (j : job)                     (* from the call to the guard *)
| WIn (j : job) (m : DeviceManager) (since : nat)  (* in the body: the manager it read, and when *)
| WHeld (spis after : list Z)         (* raising interrupts with the guard *)
| WAfter (spis : list Z).             (* raising interrupts without it *)

(** What happened to the manager and the world, in order. *)
Inductive act := ABody (i : nat) (j : job) (v : option mem) | ANet | AGuest (f : mem -> mem).

(** A body of core [i] and the memory it saw: the memory itself, or, when a
    guest stored meanwhile, a memory [v] of bytes of different moments; what
    it wrote lands on the memory of its end. *)
Definition merge (v new cur : mem) : mem := fun a => if new a =? v a then cur a else new a.
Definition run_body (j : job) (m : DeviceManager) (s : dev_io) (v : option mem) : option (result job_result string) :=
  match v with
  | None => body j m s
  | Some v =>
      match body j m (set_io_mem v s) with
      | Some (Ok o) => Some (Ok (mkOut (o_dm o) (set_io_mem (merge v (io_mem (o_io o)) (io_mem s)) (o_io o))
                                   (o_reply o) (o_held o) (o_after o)))
      | x => x
      end
  end.
(** The bytes are picked from the memories [ms] there were. *)
Definition view (ms : list mem) (cur : mem) (pick : Z -> nat) : option mem :=
  match ms with
  | [_] => None
  | _ => Some (fun a => match ms !! pick a with Some m => m a | None => cur a end)
  end.

Record dlsys := mkDl {
  dl_lock : lock_sys DeviceManager;
  dl_io : dev_io;
  dl_ring : UartRxRing;
  dl_spis : list Z;
  dl_bells : list (nat * Z);
  dl_work : list work;
  dl_drawn : list (nat * job);
  dl_hist : list act;
  dl_mems : list mem                  (* the memories there have been, the last one present *)
}.

Context (phys0 : mem) (vm : nat).

Inductive ev :=
| CCall (i : nat) (j : job) | CDrain (i : nat) | CNet (i : nat) | CGuest (f : mem -> mem) | CRx (ch : Z)
| CDraw (i : nat) | CPoll (i : nat) | CEnter (i : nat) | CBody (i : nat) (pick : Z -> nat) | CRaise (i : nat) | CDrop (i : nat).

Definition set_work (i : nat) (w : work) (s : dlsys) : dlsys :=
  mkDl (dl_lock s) (dl_io s) (dl_ring s) (dl_spis s) (dl_bells s) (<[i := w]> (dl_work s)) (dl_drawn s) (dl_hist s) (dl_mems s).
Definition set_lock (l : lock_sys DeviceManager) (s : dlsys) : dlsys :=
  mkDl l (dl_io s) (dl_ring s) (dl_spis s) (dl_bells s) (dl_work s) (dl_drawn s) (dl_hist s) (dl_mems s).
Definition set_world (io : dev_io) (a : act) (s : dlsys) : dlsys :=
  mkDl (dl_lock s) io (dl_ring s) (dl_spis s) (dl_bells s) (dl_work s) (dl_drawn s) (dl_hist s ++ [a]) (dl_mems s ++ [io_mem io]).
Definition set_rx (r : UartRxRing) (s : dlsys) : dlsys :=
  mkDl (dl_lock s) (dl_io s) r (dl_spis s) (dl_bells s) (dl_work s) (dl_drawn s) (dl_hist s) (dl_mems s).
Definition log_draw (i : nat) (j : job) (s : dlsys) : dlsys :=
  mkDl (dl_lock s) (dl_io s) (dl_ring s) (dl_spis s) (dl_bells s) (dl_work s) (dl_drawn s ++ [(i, j)]) (dl_hist s) (dl_mems s).
Definition raise (i : nat) (intid : Z) (s : dlsys) : dlsys :=
  let q := inject_spi_mp (gicd_phys phys0 (dl_io s)) i intid (dl_spis s, dl_bells s) in
  mkDl (dl_lock s) (dl_io s) (dl_ring s) q.1 q.2 (dl_work s) (dl_drawn s) (dl_hist s) (dl_mems s).

(** [drain_net_rx]: the next frame of the port, if any. *)
Definition take_frame (s : dev_io) : option (dev_io * list Z) :=
  match PORT_RX (nw_net (io_world s)) !! vm with
  | Some r => match net_ring_take r (replicate MAX_FRAME_SIZE 0) with
              | (r, buf, Some len) => Some (set_port vm r (io_mem s) s, take len buf)
              | _ => None
              end
  | None => None
  end.
Definition drop_frame (s : dev_io) : dev_io := match take_frame s with Some (s, _) => s | None => s end.

Definition after_work (l : list Z) : work := match l with [] => WIdle | _ => WAfter l end.

Definition lock_do (e : lock_event DeviceManager) (s : dlsys) : option dlsys :=
  match lock_step false (dl_lock s) e with Some l => Some (set_lock l s) | None => None end.

Definition dl_step (s : dlsys) (e : ev) : option dlsys :=
  match e with
  | CCall i j => match dl_work s !! i with Some WIdle => Some (set_work i (WCall j) s) | _ => None end
  | CDrain i =>
      match dl_work s !! i, take_rx UART_RX_RING_SIZE (dl_ring s) [] with
      | Some WIdle, Some (r, buf) =>
          Some (set_work i (match buf with [] => WIdle | _ => WCall (JUart buf) end) (set_rx r s))
      | _, _ => None
      end
  | CNet i =>
      match dl_work s !! i with
      | Some WIdle =>
          match take_frame (dl_io s) with
          | Some (io, frame) => Some (set_work i (WCall (JNet frame)) (set_world io ANet s))
          | None => Some s
          end
      | _ => None
      end
  | CGuest f => Some (set_world (set_io_mem (f (io_mem (dl_io s))) (dl_io s)) (AGuest f) s)
  | CRx ch => Some (set_rx (uart_ring_push (dl_ring s) ch) s)
  | CDraw i =>
      match dl_work s !! i with
      | Some (WCall j) => match lock_do (EvDraw i) s with Some s => Some (log_draw i j s) | None => None end
      | _ => None
      end
  | CPoll i => match dl_work s !! i with Some (WCall _) => lock_do (EvPoll i) s | _ => None end
  | CEnter i =>
      match dl_work s !! i, ls_cores (dl_lock s) !! i with
      | Some (WCall j), Some (Guard _) => Some (set_work i (WIn j (data (ls_lock (dl_lock s))) (pred (length (dl_mems s)))) s)
      | _, _ => None
      end
  | CBody i pick =>
      match dl_work s !! i with
      | Some (WIn j m since) =>
          let v := view (drop since (dl_mems s)) (io_mem (dl_io s)) pick in
          match run_body j m (dl_io s) v with
          | Some (Ok o) =>
              match lock_do (EvUpdate i (fun _ => o_dm o)) s with
              | Some s => Some (set_work i (WHeld (o_held o) (o_after o)) (set_world (o_io o) (ABody i j v) s))
              | None => None
              end
          | _ => None
          end
      | _ => None
      end
  | CRaise i =>
      match dl_work s !! i with
      | Some (WHeld (x :: l) a) => Some (set_work i (WHeld l a) (raise i x s))
      | Some (WAfter (x :: l)) => Some (set_work i (after_work l) (raise i x s))
      | _ => None
      end
  | CDrop i =>
      match dl_work s !! i with
      | Some (WHeld [] a) => match lock_do (EvDrop i) s with Some s => Some (set_work i (after_work a) s) | None => None end
      | _ => None
      end
  end.

Fixpoint dl_run (s : dlsys) (evs : list ev) : option dlsys :=
  match evs with
  | [] => Some s
  | e :: evs => match dl_step s e with Some s => dl_run s evs | None => None end
  end.

Definition dl_init (n : nat) (m : DeviceManager) (io : dev_io) : dlsys :=
  mkDl (lock_init n m) io uart_ring_new (replicate Sched.MAX_VCPUS 0) [] (replicate n WIdle) [] [] [io_mem io].

(** ** What the methods promise: one at a time *)
Definition replay_step (a : act) (st : DeviceManager * dev_io) : option (DeviceManager * dev_io) :=
  match a with
  | ABody _ j v => match run_body j st.1 st.2 v with Some (Ok o) => Some (o_dm o, o_io o) | _ => None end
  | ANet => Some (st.1, drop_frame st.2)
  | AGuest f => Some (st.1, set_io_mem (f (io_mem st.2)) st.2)
  end.
Fixpoint replay (l : list act) (st : DeviceManager * dev_io) : option (DeviceManager * dev_io) :=
  match l with
  | [] => Some st
  | a :: l => match replay_step a st with Some st => replay l st | None => None end
  end.
Definition bodies (l : list act) : list (nat * job) :=
  omap (fun a => match a with ABody i j _ => Some (i, j) | _ => None end) l.
End Bodies.

(** ** The invariant *)
Definition wants (ws : list work) (i : nat) : option (nat * job) :=
  match ws !! i with Some (WCall j) | Some (WIn j _ _) => Some (i, j) | _ => None end.
(** A core between its guard and the drop of it. *)
Definition inside (w : work) : bool := match w with WIn _ _ _ | WHeld _ _ => true | _ => false end.

(** The cores of the queue are at their call; only the holder may be in its
    body or past it, and the manager it read is the present one; only cores
    outside the queue are idle or past the guard. *)
Record dl_inv (n : nat) (s : dlsys) (a : fifo_lock DeviceManager) : Prop := {
  di_lock : lock_rel n (dl_lock s) a;
  di_len : length (dl_work s) = n;
  di_in : forall i, i ∈ fq_queue a ->
            (exists j, dl_work s !! i = Some (WCall j)) \/
            (fifo_holder a = Some i /\ exists w, dl_work s !! i = Some w /\ inside w = true);
  di_out : forall i w, dl_work s !! i = Some w -> inside w = true -> fifo_holder a = Some i;
  di_read : forall i j m k, dl_work s !! i = Some (WIn j m k) -> m = fq_data a;
  di_drawn : dl_drawn s = bodies (dl_hist s) ++ omap (wants (dl_work s)) (fq_queue a)
}.

Lemma omap_ext_in {A B} (f g : A -> option B) (l : list A) : (forall x, x ∈ l -> f x = g x) -> omap f l = omap g l.
Proof.
  induction l as [|x l IH]; intros H; [done|]. cbn. rewrite (H x) by left. rewrite IH by (intros y Hy; apply H; by right). done.
Qed.
Lemma wants_other ws i w (q : list nat) : i ∉ q -> omap (wants (<[i := w]> ws)) q = omap (wants ws) q.
Proof. intros Hq. apply omap_ext_in. intros x Hx. unfold wants. by rewrite list_lookup_insert_ne by (intros ->; done). Qed.
Lemma holder_head {T} (a : fifo_lock T) i : fifo_holder a = Some i -> exists q, fq_queue a = i :: q.
Proof. unfold fifo_holder. destruct (fq_held a); [|done]. destruct (fq_queue a) as [|j q]; [done|]. intros [= ->]. by exists q. Qed.
Lemma bodies_app l1 l2 : bodies (l1 ++ l2) = bodies l1 ++ bodies l2.
Proof. apply omap_app. Qed.

Section Proofs.
Context (pi : PlatformInfo) (checks : bool) (fuel : nat) (phys0 : mem) (vm n : nat) (Hn : Z.of_nat n <= 2 ^ 32).

Lemma lock_do_sim s a e s' : lock_rel n (dl_lock s) a -> lock_do e s = Some s' ->
  exists a', Sync.fifo_step n a e = Some a' /\ lock_rel n (dl_lock s') a' /\ s' = set_lock (dl_lock s') s.
Proof using Hn.
  intros R. unfold lock_do. pose proof (lock_step_sim n _ a e Hn R) as H. unfold step_agree in H.
  destruct (lock_step false _ e) as [l|]; [|done]. intros [= <-]. destruct (Sync.fifo_step n a e) as [a'|]; [|done].
  by exists a'.
Qed.

(** A core that changes only its own work outside the queue keeps the rest. *)
Lemma inv_set_out s a i w : dl_inv n s a -> i ∉ fq_queue a -> inside w = false -> dl_inv n (set_work i w s) a.
Proof using.
  intros [R Hl Hin Hout Hrd Hd] Hi Hw.
  assert (Hi' : forall k w', <[i := w]> (dl_work s) !! k = Some w' -> inside w' = true -> k <> i /\ dl_work s !! k = Some w').
  { intros k w' Hk Hw'. apply list_lookup_insert_Some in Hk as [(-> & -> & _)|[Hne Hk]]; [congruence|auto]. }
  split; cbn; [done|by rewrite length_insert| | | |by rewrite wants_other].
  - intros k Hk. rewrite list_lookup_insert_ne by (intros ->; done). by apply Hin.
  - intros k w' Hk Hw'. destruct (Hi' k w' Hk Hw') as [_ Hk']. by eapply Hout.
  - intros k j m c Hk. destruct (Hi' k _ Hk eq_refl) as [_ Hk']. by eapply Hrd.
Qed.
Lemma idle_out s a i w : dl_inv n s a -> dl_work s !! i = Some w -> (forall j, w <> WCall j) -> inside w = false -> i ∉ fq_queue a.
Proof using.
  intros H Hw H1 H2 Hq. destruct (di_in _ _ _ H i Hq) as [[j E]|(_ & w' & E & Hw')]; rewrite E in Hw; injection Hw as <-;
    [by destruct (H1 j)|congruence].
Qed.
(** The holder goes on inside the lock. *)
Lemma inv_set_in s a i w : dl_inv n s a -> fifo_holder a = Some i -> (i < length (dl_work s))%nat -> inside w = true ->
  (forall j m k, w = WIn j m k -> m = fq_data a) -> wants (<[i := w]> (dl_work s)) i = wants (dl_work s) i ->
  dl_inv n (set_work i w s) a.
Proof using.
  intros [R Hl Hin Hout Hrd Hd] Hh Hi Hw Hm Hwt. split; cbn; [done|by rewrite length_insert| | | |].
  - intros k Hk. destruct (decide (k = i)) as [->|]; [|rewrite list_lookup_insert_ne by done; by apply Hin].
    right. split; [done|]. exists w. by rewrite list_lookup_insert_eq.
  - intros k w' Hk Hw'. destruct (decide (k = i)) as [->|]; [done|]. rewrite list_lookup_insert_ne in Hk by done. by eapply Hout.
  - intros k j m c Hk. apply list_lookup_insert_Some in Hk as [(-> & E & _)|[Hne Hk]]; [by eapply Hm|by eapply Hrd].
  - rewrite Hd. f_equal. apply omap_ext_in. intros k _. destruct (decide (k = i)) as [->|]; [done|].
    unfold wants. by rewrite list_lookup_insert_ne.
Qed.
(** Steps that touch neither the lock, the work nor the logs. *)
Lemma inv_frame s s' a : dl_lock s' = dl_lock s -> dl_work s' = dl_work s -> dl_drawn s' = dl_drawn s ->
  bodies (dl_hist s') = bodies (dl_hist s) -> dl_inv n s a -> dl_inv n s' a.
Proof using. intros E1 E2 E3 E4 [R Hl Hin Hout Hrd Hd]. split; rewrite ?E1, ?E2, ?E3, ?E4; done. Qed.
(** Only one core is inside. *)
Lemma inside_once s a i k w w' : dl_inv n s a -> dl_work s !! i = Some w -> inside w = true -> dl_work s !! k = Some w' -> inside w' = true -> k = i.
Proof using.
  intros Hi H1 I1 H2 I2. pose proof (di_out _ _ _ Hi _ _ H1 I1) as E. rewrite (di_out _ _ _ Hi _ _ H2 I2) in E. by injection E.
Qed.

Lemma enter_step s a i j t : dl_inv n s a -> dl_work s !! i = Some (WCall j) -> ls_cores (dl_lock s) !! i = Some (Guard t) ->
  dl_inv n (set_work i (WIn j (data (ls_lock (dl_lock s))) (pred (length (dl_mems s)))) s) a.
Proof using.
  intros Hi Hw Hg. pose proof (di_lock _ _ _ Hi) as R. apply inv_set_in; [done| |by eapply lookup_lt_Some|done| |].
  - apply (holder_iff n _ a i R). by exists t.
  - intros j' m k [= <- <- <-]. apply R.
  - unfold wants. by rewrite list_lookup_insert_eq, Hw by (by eapply lookup_lt_Some).
Qed.

Lemma body_step s a i j m c v o s1 : dl_inv n s a -> dl_work s !! i = Some (WIn j m c) ->
  lock_do (EvUpdate i (fun _ => o_dm o)) s = Some s1 ->
  exists a', dl_inv n (set_work i (WHeld (o_held o) (o_after o)) (set_world (o_io o) (ABody i j v) s1)) a' /\ fq_data a' = o_dm o.
Proof using Hn.
  intros Hi Hw Hl. destruct (lock_do_sim _ _ _ _ (di_lock _ _ _ Hi) Hl) as (a' & Ha & R' & ->).
  pose proof (fun k w' => inside_once s a i k _ w' Hi Hw eq_refl) as Hk1.
  destruct Hi as [R Hlen Hin Hout Hrd Hd]. cbn [Sync.fifo_step] in Ha. case_decide as Hh; [|done]. injection Ha as <-.
  exists {| fq_queue := fq_queue a; fq_held := fq_held a; fq_data := o_dm o |}. split; [|reflexivity].
  split; cbn; [exact R'|by rewrite length_insert| | | |].
  - intros k Hk. change (fifo_holder _) with (fifo_holder a). destruct (decide (k = i)) as [->|Hne].
    + right. split; [done|]. exists (WHeld (o_held o) (o_after o)). split; [|done]. apply list_lookup_insert_eq. by eapply lookup_lt_Some.
    + rewrite list_lookup_insert_ne by done. by apply Hin.
  - intros k w' Hk Hw'. change (fifo_holder _) with (fifo_holder a). destruct (decide (k = i)) as [->|]; [done|].
    rewrite list_lookup_insert_ne in Hk by done. by eapply Hout.
  - intros k j' m' c' Hk. apply list_lookup_insert_Some in Hk as [(_ & [=] & _)|[Hne Hk]]. by destruct (Hne (eq_sym (Hk1 _ _ Hk eq_refl))).
  - rewrite bodies_app, <- app_assoc, Hd. f_equal. destruct (holder_head _ _ Hh) as [q Eq]. rewrite Eq.
    assert (i ∉ q) by (pose proof (lr_nodup _ _ _ R) as Hnd; rewrite Eq in Hnd; by apply list.NoDup_cons in Hnd as [? _]).
    assert (wants (dl_work s) i = Some (i, j)) as E1 by (unfold wants; by rewrite Hw).
    assert (wants (<[i := WHeld (o_held o) (o_after o)]> (dl_work s)) i = None) as E2
      by (unfold wants; by rewrite list_lookup_insert_eq by (by eapply lookup_lt_Some)).
    cbn. by rewrite E1, E2, wants_other.
Qed.

Lemma drop_step s a i r s1 : dl_inv n s a -> dl_work s !! i = Some (WHeld [] r) -> lock_do (EvDrop i) s = Some s1 ->
  exists a', dl_inv n (set_work i (after_work r) s1) a' /\ fq_data a' = fq_data a /\ fq_queue a = i :: fq_queue a'.
Proof using Hn.
  intros Hi Hw Hl. destruct (lock_do_sim _ _ _ _ (di_lock _ _ _ Hi) Hl) as (a' & Ha & R' & ->).
  assert (Hk1 : forall k w', <[i := after_work r]> (dl_work s) !! k = Some w' -> inside w' = true -> False).
  { intros k w' Hk Iw. apply list_lookup_insert_Some in Hk as [(-> & <- & _)|[Hne Hk]]; [by destruct r|].
    by destruct (Hne (eq_sym (inside_once s a i k _ w' Hi Hw eq_refl Hk Iw))). }
  destruct Hi as [R Hlen Hin Hout Hrd Hd]. cbn [Sync.fifo_step] in Ha. case_decide as Hh; [|done]. injection Ha as <-.
  destruct (holder_head _ _ Hh) as [q Eq]. cbn. rewrite Eq.
  assert (i ∉ q) as Hq by (pose proof (lr_nodup _ _ _ R) as Hnd; rewrite Eq in Hnd; by apply list.NoDup_cons in Hnd as [? _]).
  exists {| fq_queue := q; fq_held := false; fq_data := fq_data a |}. rewrite Eq in R'. split; [|done].
  split; cbn; rewrite ?Eq; cbn; [exact R'|by rewrite length_insert| | | |].
  - intros k Hk. rewrite list_lookup_insert_ne by (intros ->; done). left.
    destruct (Hin k) as [|(Hk' & _)]; [rewrite Eq; by right|done|].
    rewrite Hk' in Hh. injection Hh as ->. done.
  - intros k w' Hk Iw. by destruct (Hk1 k w' Hk Iw).
  - intros k j m c Hk. by destruct (Hk1 k _ Hk eq_refl).
  - rewrite Hd, Eq. assert (wants (dl_work s) i = None) as E1 by (unfold wants; by rewrite Hw). cbn. by rewrite E1, wants_other.
Qed.

Lemma draw_step s a i j s1 : dl_inv n s a -> dl_work s !! i = Some (WCall j) -> lock_do (EvDraw i) s = Some s1 ->
  exists a', dl_inv n (log_draw i j s1) a' /\ fq_data a' = fq_data a.
Proof using Hn.
  intros Hi Hw Hl. destruct (lock_do_sim _ _ _ _ (di_lock _ _ _ Hi) Hl) as (a' & Ha & R' & ->).
  destruct Hi as [R Hlen Hin Hout Hrd Hd]. cbn [Sync.fifo_step] in Ha. case_decide as Hq; [|done]. injection Ha as <-. destruct Hq as [Hi Hq].
  assert (Hh : forall k, fifo_holder a = Some k ->
    fifo_holder {| fq_queue := fq_queue a ++ [i]; fq_held := fq_held a; fq_data := fq_data a |} = Some k).
  { intros k Hk. destruct (holder_head _ _ Hk) as [q Eq]. unfold fifo_holder in *. cbn. rewrite Eq in *. by destruct (fq_held a). }
  exists {| fq_queue := fq_queue a ++ [i]; fq_held := fq_held a; fq_data := fq_data a |}. split; [|done].
  split; cbn; [exact R'|done| | |exact Hrd|].
  - intros k [Hk| ->%list_elem_of_singleton]%elem_of_app; [|left; by exists j].
    destruct (Hin k Hk) as [?|[? ?]]; [by left|right; auto].
  - intros k w Hk Hw'. by apply Hh, (Hout k w).
  - rewrite Hd, <- app_assoc, omap_app. do 2 f_equal. cbn. assert (wants (dl_work s) i = Some (i, j)) as E1 by (unfold wants; by rewrite Hw).
    by rewrite E1.
Qed.

Lemma poll_step s a i s1 : dl_inv n s a -> lock_do (EvPoll i) s = Some s1 ->
  exists a', dl_inv n s1 a' /\ fq_data a' = fq_data a /\ fq_queue a' = fq_queue a /\
    (head (fq_queue a) = Some i -> fifo_holder a' = Some i).
Proof using Hn.
  intros Hi Hl. destruct (lock_do_sim _ _ _ _ (di_lock _ _ _ Hi) Hl) as (a' & Ha & R' & ->).
  destruct Hi as [R Hlen Hin Hout Hrd Hd]. cbn [Sync.fifo_step] in Ha. case_decide as Hq; [|done].
  assert (Hh : forall k, fifo_holder a = Some k -> fifo_holder a' = Some k).
  { injection Ha as <-. intros k Hk. destruct (holder_head _ _ Hk) as [q Eq]. unfold fifo_holder in *. cbn in *. rewrite Eq in *.
    destruct (fq_held a); [|done]. by rewrite bool_decide_eq_true_2 by auto. }
  assert (Hq' : fq_queue a' = fq_queue a /\ fq_data a' = fq_data a) by (by injection Ha as <-). destruct Hq' as [Hq' Hd'].
  exists a'. split; [|split_and!; [done|done|]].
  - split; cbn; [exact R'|done| | |by rewrite Hd'|by rewrite Hq'].
    + intros k Hk. rewrite Hq' in Hk. destruct (Hin k Hk) as [?|[? ?]]; [by left|right; auto].
    + intros k w Hk Hw'. by apply Hh, (Hout k w).
  - intros Hhd. injection Ha as <-. unfold fifo_holder. cbn. by rewrite bool_decide_eq_true_2 by auto.
Qed.

Lemma raise_held s a i x l r : dl_inv n s a -> dl_work s !! i = Some (WHeld (x :: l) r) ->
  dl_inv n (set_work i (WHeld l r) (raise pi phys0 i x s)) a.
Proof using.
  intros Hi Ew. apply inv_set_in; [by apply (inv_frame s)|by apply (di_out _ _ _ Hi i _ Ew)|by eapply lookup_lt_Some|done|done|].
  unfold wants. cbn. by rewrite Ew, list_lookup_insert_eq by (by eapply lookup_lt_Some).
Qed.

(** Every step keeps the invariant, and what it does to the manager and the
    world is in the history. *)
Definition traced (s s' : dlsys) (d d' : DeviceManager) : Prop :=
  (dl_hist s' = dl_hist s /\ d' = d /\ dl_io s' = dl_io s) \/
  exists x, dl_hist s' = dl_hist s ++ [x] /\ replay_step pi checks fuel vm x (d, dl_io s) = Some (d', dl_io s').

Lemma dl_step_inv s a e s' : dl_inv n s a -> dl_step pi checks fuel phys0 vm s e = Some s' ->
  exists a', dl_inv n s' a' /\ traced s s' (fq_data a) (fq_data a').
Proof using Hn.
  intros Hi H. destruct e as [i j|i|i|f|ch|i|i|i|i pick|i|i]; cbn [dl_step] in H.
  - destruct (dl_work s !! i) as [[]|] eqn:Ew; try discriminate. injection H as <-. exists a. split; [|by left].
    apply inv_set_out; [done| |done]. by eapply (idle_out s).
  - destruct (dl_work s !! i) as [[]|] eqn:Ew; try discriminate. destruct (take_rx _ _ _) as [[r buf]|]; [|discriminate].
    injection H as <-. exists a. split; [|by left]. apply inv_set_out; [by apply (inv_frame s)| |by destruct buf].
    by eapply (idle_out s).
  - destruct (dl_work s !! i) as [[]|] eqn:Ew; try discriminate. destruct (take_frame _ _) as [[io fr]|] eqn:Ef.
    + injection H as <-. exists a. split.
      * apply inv_set_out; [apply (inv_frame s); try done; cbn; by rewrite bodies_app, app_nil_r| |done]. by eapply (idle_out s).
      * right. exists ANet. split; [done|]. cbn. unfold drop_frame. by rewrite Ef.
    + injection H as <-. exists a. split; [done|by left].
  - injection H as <-. exists a. split; [apply (inv_frame s); try done; cbn; by rewrite bodies_app, app_nil_r|].
    right. by exists (AGuest f).
  - injection H as <-. exists a. split; [by apply (inv_frame s)|by left].
  - destruct (dl_work s !! i) as [[]|] eqn:Ew; try discriminate. destruct (lock_do _ s) as [s1|] eqn:El; [|discriminate].
    injection H as <-. destruct (draw_step _ _ _ _ _ Hi Ew El) as (a' & Hi' & Hd). exists a'. split; [done|]. left.
    apply lock_do_sim with (a := a) in El as (_ & _ & _ & ->); [done|apply Hi].
  - destruct (dl_work s !! i) as [[]|] eqn:Ew; try discriminate. destruct (poll_step _ _ _ _ Hi H) as (a' & Hi' & Hd & _).
    exists a'. split; [done|]. left. apply lock_do_sim with (a := a) in H as (_ & _ & _ & ->); [done|apply Hi].
  - destruct (dl_work s !! i) as [[|j| | |]|] eqn:Ew; try discriminate. destruct (ls_cores (dl_lock s) !! i) as [[|t|t]|] eqn:Eg; try discriminate.
    injection H as <-. exists a. split; [by eapply enter_step|by left].
  - destruct (dl_work s !! i) as [[| |j m c| |]|] eqn:Ew; try discriminate.
    set (v := view _ _ _) in H. destruct (run_body _ _ _ _ _ _ v) as [[o|]|] eqn:Eb; try discriminate.
    destruct (lock_do _ s) as [s1|] eqn:El; [|discriminate].
    injection H as <-. destruct (body_step _ _ _ _ _ _ v _ _ Hi Ew El) as (a' & Hi' & Hd). exists a'. split; [done|].
    apply lock_do_sim with (a := a) in El as (_ & _ & _ & ->); [|apply Hi]. right. exists (ABody i j v). split; [done|].
    cbn. rewrite <- (di_read _ _ _ Hi _ _ _ _ Ew), Eb. by rewrite Hd.
  - destruct (dl_work s !! i) as [[| | |[|x l] r|[|x l]]|] eqn:Ew; try discriminate; injection H as <-; exists a; (split; [|by left]).
    + by eapply raise_held.
    + apply inv_set_out; [by apply (inv_frame s)|by eapply (idle_out s)|by destruct l].
  - destruct (dl_work s !! i) as [[| | |[|] r|]|] eqn:Ew; try discriminate. destruct (lock_do _ s) as [s1|] eqn:El; [|discriminate].
    injection H as <-. destruct (drop_step _ _ _ _ _ Hi Ew El) as (a' & Hi' & Hd & _). exists a'. split; [done|]. left.
    apply lock_do_sim with (a := a) in El as (_ & _ & _ & ->); [done|apply Hi].
Qed.

Lemma replay_app l1 : forall l2 st, replay pi checks fuel vm (l1 ++ l2) st =
  match replay pi checks fuel vm l1 st with Some st => replay pi checks fuel vm l2 st | None => None end.
Proof using. induction l1 as [|x l1 IH]; intros l2 st; [done|]. cbn. by destruct (replay_step _ _ _ _ x st). Qed.

Lemma dl_run_inv m0 io0 evs : forall s a s', dl_inv n s a -> replay pi checks fuel vm (dl_hist s) (m0, io0) = Some (fq_data a, dl_io s) ->
  dl_run pi checks fuel phys0 vm s evs = Some s' ->
  exists a', dl_inv n s' a' /\ replay pi checks fuel vm (dl_hist s') (m0, io0) = Some (fq_data a', dl_io s').
Proof using Hn.
  induction evs as [|e evs IH]; intros s a s' Hi Hr H; cbn in H; [injection H as <-; by exists a|].
  destruct (dl_step _ _ _ _ _ s e) as [s1|] eqn:E; [|discriminate].
  destruct (dl_step_inv _ _ _ _ Hi E) as (a1 & Hi1 & Ht). apply (IH s1 a1 s' Hi1); [|done].
  destruct Ht as [(-> & -> & ->)|(x & -> & Hx)]; [done|]. rewrite replay_app, Hr. cbn [replay]. by rewrite Hx.
Qed.

Lemma dl_init_inv m io : dl_inv n (dl_init n m io) (fifo_init m).
Proof using.
  split; cbn; [apply lock_init_rel|apply length_replicate|by intros i ?%elem_of_nil| | |done].
  - intros i w Hw Iw. by apply lookup_replicate in Hw as [-> _].
  - intros i j m' k Hw. by apply lookup_replicate in Hw as [[=] _].
Qed.

(** ** Progress of the holder *)
Definition own (i : nat) (e : ev) : Prop :=
  match e with CPoll k | CEnter k | CBody k _ | CRaise k | CDrop k => k = i | _ => False end.
Definition serving (s : dlsys) : Z := now_serving (ls_lock (dl_lock s)).

Lemma dl_run_app l1 : forall l2 s, dl_run pi checks fuel phys0 vm s (l1 ++ l2) =
  match dl_run pi checks fuel phys0 vm s l1 with Some s => dl_run pi checks fuel phys0 vm s l2 | None => None end.
Proof using. induction l1 as [|e l1 IH]; intros l2 s; [done|]. cbn. by destruct (dl_step _ _ _ _ _ s e). Qed.

Lemma holder_guard s a i : dl_inv n s a -> fifo_holder a = Some i -> ls_cores (dl_lock s) !! i = Some (Guard (serving s)).
Proof using.
  intros Hi Hh. destruct (holder_head _ _ Hh) as [q Eq]. pose proof (lr_in _ _ _ (di_lock _ _ _ Hi) 0%nat i) as H.
  rewrite Eq in H. specialize (H eq_refl). unfold queue_pc in H. unfold fifo_holder in Hh. destruct (fq_held a); [|done]. done.
Qed.

(** A holder past its body raises its interrupts and drops the guard. *)
Lemma release_held l : forall s a i r, dl_inv n s a -> dl_work s !! i = Some (WHeld l r) ->
  exists s', dl_run pi checks fuel phys0 vm s (replicate (length l) (CRaise i) ++ [CDrop i]) = Some s' /\ serving s' = u32 (serving s + 1).
Proof using.
  induction l as [|x l IH]; intros s a i r Hi Hw.
  - pose proof (holder_guard _ _ _ Hi (di_out _ _ _ Hi _ _ Hw eq_refl)) as Hg. cbn -[u32]. rewrite Hw. unfold lock_do, lock_step.
    rewrite Hg. cbn -[u32]. by eexists.
  - destruct (IH _ a i r (raise_held _ _ _ _ _ _ Hi Hw)) as (s' & E & Hs).
    { cbn. apply list_lookup_insert_eq. by eapply lookup_lt_Some. }
    exists s'. split; [|exact Hs]. cbn [length replicate app dl_run dl_step]. rewrite Hw. exact E.
Qed.

Lemma release_in s a i j m c pick o : dl_inv n s a -> dl_work s !! i = Some (WIn j m c) ->
  run_body pi checks fuel j m (dl_io s) (view (drop c (dl_mems s)) (io_mem (dl_io s)) pick) = Some (Ok o) ->
  exists s', dl_run pi checks fuel phys0 vm s (CBody i pick :: replicate (length (o_held o)) (CRaise i) ++ [CDrop i]) = Some s' /\
    serving s' = u32 (serving s + 1).
Proof using Hn.
  intros Hi Hw Hb. pose proof (holder_guard _ _ _ Hi (di_out _ _ _ Hi _ _ Hw eq_refl)) as Hg.
  destruct (lock_do (EvUpdate i (fun _ => o_dm o)) s) as [s1|] eqn:El; [|unfold lock_do, lock_step in El; by rewrite Hg in El].
  set (v := view _ _ _) in Hb. destruct (body_step _ _ _ _ _ _ v _ _ Hi Hw El) as (a1 & Hi1 & _).
  destruct (release_held (o_held o) _ _ i (o_after o) Hi1) as (s' & E & Hs).
  { cbn. apply list_lookup_insert_eq. unfold lock_do in El. destruct (lock_step _ _ _); [|discriminate]. injection El as <-. by eapply lookup_lt_Some. }
  exists s'. split; [cbn [dl_run dl_step]; fold v; rewrite Hw; fold v; rewrite Hb, El; exact E|]. rewrite Hs. f_equal. f_equal.
  unfold lock_do, lock_step in El. rewrite Hg in El. by injection El as <-.
Qed.

(** A core that begins its body sees the memory as it is. *)
Lemma release_call s a i j o : dl_inv n s a -> dl_mems s <> [] -> fifo_holder a = Some i -> dl_work s !! i = Some (WCall j) ->
  body pi checks fuel j (data (ls_lock (dl_lock s))) (dl_io s) = Some (Ok o) ->
  exists s', dl_run pi checks fuel phys0 vm s (CEnter i :: CBody i (fun _ => 0%nat) :: replicate (length (o_held o)) (CRaise i) ++ [CDrop i]) = Some s' /\
    serving s' = u32 (serving s + 1).
Proof using Hn.
  intros Hi Hm Hh Hw Hb. pose proof (holder_guard _ _ _ Hi Hh) as Hg.
  pose proof (enter_step _ _ _ _ _ Hi Hw Hg) as Hi1. set (s1 := set_work _ _ _) in Hi1.
  destruct (release_in s1 a i j (data (ls_lock (dl_lock s))) (pred (length (dl_mems s))) (fun _ => 0%nat) o Hi1) as (s' & E & Hs).
  - cbn. apply list_lookup_insert_eq. by eapply lookup_lt_Some.
  - cbn [dl_mems dl_io s1 set_work]. destruct (dl_mems s) as [|mm l _] using rev_ind; [done|].
    rewrite length_app, Nat.add_comm. cbn [length Nat.add pred]. by rewrite drop_app_length.
  - exists s'. split; [|exact Hs]. cbn [dl_run dl_step]. rewrite Hw, Hg. exact E.
Qed.

(** The body the served core is in or about to run, for the bytes it sees. *)
Definition body_of (s : dlsys) (i : nat) (pick : Z -> nat) : option (option (result job_result string)) :=
  match dl_work s !! i with
  | Some (WCall j) => Some (body pi checks fuel j (data (ls_lock (dl_lock s))) (dl_io s))
  | Some (WIn j m c) => Some (run_body pi checks fuel j m (dl_io s) (view (drop c (dl_mems s)) (io_mem (dl_io s)) pick))
  | _ => None
  end.
(** It neither panics nor is kept busy for ever; past the body there is none. *)
Definition returns (b : option (option (result job_result string))) : Prop :=
  match b with Some (Some (Ok _)) | None => True | _ => False end.

Lemma own_tail i k : Forall (own i) (replicate k (CRaise i) ++ [CDrop i]).
Proof using. apply Forall_app. split; [by apply Forall_replicate|by apply Forall_singleton]. Qed.

(** The core being served releases the lock by its own steps, if its body
    returns. *)
Lemma head_releases s a i q pick : dl_inv n s a -> dl_mems s <> [] -> fq_queue a = i :: q -> returns (body_of s i pick) ->
  exists evs s', Forall (own i) evs /\ dl_run pi checks fuel phys0 vm s evs = Some s' /\ serving s' = u32 (serving s + 1).
Proof using Hn.
  intros Hi Hm Eq. unfold body_of. destruct (di_in _ _ _ Hi i ltac:(rewrite Eq; left)) as [[j Hw]|(Hh & w & Hw & Iw)]; rewrite Hw.
  - cbn [returns]. destruct (body pi checks fuel j (data (ls_lock (dl_lock s))) (dl_io s)) as [[o|e]|] eqn:Eb; [intros _|done..].
    destruct (decide (fifo_holder a = Some i)) as [Hh|Hh].
    { destruct (release_call _ _ _ _ _ Hi Hm Hh Hw Eb) as (s' & E & Hs). do 2 eexists. split; [|by split].
      constructor; [done|]. constructor; [done|apply own_tail]. }
    assert (Hpc : ls_cores (dl_lock s) !! i = Some (Spin (u32 (serving s + 0)))).
    { pose proof (lr_in _ _ _ (di_lock _ _ _ Hi) 0%nat i) as H. rewrite Eq in H. specialize (H eq_refl). unfold queue_pc in H.
      unfold fifo_holder in Hh. destruct (fq_held a); [by rewrite Eq in Hh|]. done. }
    destruct (lock_do (EvPoll i) s) as [s1|] eqn:El; [|unfold lock_do, lock_step in El; by rewrite Hpc in El].
    destruct (poll_step _ _ _ _ Hi El) as (a1 & Hi1 & _ & _ & Hh1).
    assert (E1 : dl_work s1 = dl_work s /\ dl_io s1 = dl_io s /\ data (ls_lock (dl_lock s1)) = data (ls_lock (dl_lock s)) /\
                 serving s1 = serving s /\ dl_mems s1 = dl_mems s).
    { unfold lock_do, lock_step in El. rewrite Hpc in El. injection El as <-. done. }
    destruct E1 as (E1 & E2 & E3 & E4 & E5).
    destruct (release_call s1 a1 i j o Hi1) as (s' & E & Hs); [by rewrite E5|apply Hh1; by rewrite Eq|by rewrite E1|by rewrite E2, E3|].
    exists (CPoll i :: CEnter i :: CBody i (fun _ => 0%nat) :: replicate (length (o_held o)) (CRaise i) ++ [CDrop i]), s'.
    split; [repeat (constructor; [done|]); apply own_tail|]. split; [|by rewrite Hs, E4].
    cbn [dl_run]. cbn [dl_step]. rewrite Hw, El. exact E.
  - destruct w as [|j|j m c|l r|]; try done.
    + cbn [returns]. destruct (run_body pi checks fuel j m _ _) as [[o|e]|] eqn:Eb; [intros _|done..].
      destruct (release_in _ _ _ _ _ _ _ _ Hi Hw Eb) as (s' & E & Hs). do 2 eexists. split; [|by split]. constructor; [done|apply own_tail].
    + intros _. destruct (release_held l s a i r Hi Hw) as (s' & E & Hs). do 2 eexists. split; [|by split]. apply own_tail.
Qed.

Lemma dl_step_mems s e s' : dl_step pi checks fuel phys0 vm s e = Some s' -> dl_mems s <> [] -> dl_mems s' <> [].
Proof using.
  intros H Hm. assert (Hl : forall e l, lock_do e s = Some l -> dl_mems l = dl_mems s)
    by (intros e' l; unfold lock_do; destruct (lock_step _ _ _); intros [= <-]; done).
  destruct e; cbn [dl_step] in H; repeat (case_match; try discriminate); simplify_eq; cbn;
    rewrite ?(Hl _ _ ltac:(eassumption)); try done; try (by destruct (dl_mems _)); by eapply Hl in H as ->.
Qed.
Lemma dl_run_mems evs : forall s s', dl_run pi checks fuel phys0 vm s evs = Some s' -> dl_mems s <> [] -> dl_mems s' <> [].
Proof using.
  induction evs as [|e evs IH]; intros s s' H Hm; cbn in H; [by injection H as <-|].
  destruct (dl_step _ _ _ _ _ s e) as [s1|] eqn:E; [|done]. eapply IH; [exact H|]. by eapply dl_step_mems.
Qed.
End Proofs.

(** C17. The devices of the multi-core build behave as if their methods ran one
    at a time: a method reads the manager when it has the guard and stores its
    result later, and other cores and guests go on in between; yet in every
    interleaving of any number of cores at most one core is inside, the
    methods that have finished their body are, in order, the first of those
    that have drawn a ticket, the others are at their call or in their body in
    that order, and the manager and the world are what running the finished
    ones one after the other, with the guests' stores and the frames taken in
    between, makes of the initial ones: no update is lost.  A body during
    which a guest stored ran on a memory of bytes of different moments. *)
Theorem devices_serialised pi checks fuel phys0 vm n m io evs s : Z.of_nat n <= 2 ^ 32 ->
  dl_run pi checks fuel phys0 vm (dl_init n m io) evs = Some s ->
  (forall i k w w', dl_work s !! i = Some w -> dl_work s !! k = Some w' -> inside w = true -> inside w' = true -> i = k) /\
  (exists waiting, dl_drawn s = bodies (dl_hist s) ++ waiting /\
     Forall (fun w => wants (dl_work s) w.1 = Some w /\ exists t, ls_cores (dl_lock s) !! w.1 = Some t /\ t <> Outside) waiting) /\
  replay pi checks fuel vm (dl_hist s) (m, io) = Some (data (ls_lock (dl_lock s)), dl_io s).
Proof.
  intros Hn H. destruct (dl_run_inv pi checks fuel phys0 vm n Hn m io evs _ _ s (dl_init_inv n m io) eq_refl H) as (a & Hi & Hr).
  split; [|split; [|by rewrite (lr_data _ _ _ (di_lock _ _ _ Hi))]].
  { intros i k w w' H1 H2 I1 I2. by eapply (inside_once n s a k i w' w). }
  exists (omap (wants (dl_work s)) (fq_queue a)). split; [apply Hi|]. apply Forall_forall. intros [i j] Hw.
  apply list_elem_of_omap in Hw as (k & Hk & Hw). assert (k = i) as -> by (unfold wants in Hw; repeat case_match; congruence).
  split; [exact Hw|]. apply list_elem_of_lookup in Hk as [p Hp].
  eexists. split; [exact (lr_in _ _ _ (di_lock _ _ _ Hi) _ _ Hp)|]. unfold queue_pc. by destruct (_ && _).
Qed.


(** Why [inject_spi] may not ask the emulated distributor: a second call of
    [lock] on the core that holds the guard draws a ticket of its own, which is
    not served before the guard is dropped, and the core does not drop it
    before the call returns. *)
Theorem nested_lock_blocks {T : Type} n (d : T) evs0 st i t evs st' j : Z.of_nat n <= 2 ^ 32 ->
  lock_run false (lock_init n d) evs0 = Some st -> ls_cores st !! i = Some (Guard t) ->
  ~ In (EvDrop i) evs -> lock_run false st evs = Some st' -> j <> i ->
  forall t', ls_cores st' !! j <> Some (Guard t').
Proof.
  intros Hn H0 Hg Hd H Hj t' Hj'. pose proof (lock_run_sim n evs0 _ _ Hn (lock_init_rel n d)) as R. rewrite H0 in R. unfold step_agree in R.
  destruct (Sync.fifo_run n (fifo_init d) evs0) as [a|]; [|done].
  assert (Hh : fifo_holder a = Some i) by (apply (holder_iff n st a i R); by exists t).
  clear H0 Hg evs0. revert st a R Hh H. induction evs as [|e evs IH]; intros st a R Hh H; cbn in H.
  - injection H as <-. assert (Hh' : fifo_holder a = Some j) by (apply (holder_iff n st a j R); by exists t'). congruence.
  - destruct (lock_step false st e) as [s1|] eqn:E; [|discriminate]. pose proof (lock_step_sim n st a e Hn R) as Hs. rewrite E in Hs.
    unfold step_agree in Hs. destruct (Sync.fifo_step n a e) as [a1|] eqn:Ea; [|done].
    apply (IH ltac:(intros Hx; apply Hd; by right) s1 a1 Hs); [|done].
    destruct (holder_head _ _ Hh) as [q Eq]. unfold fifo_holder in *. destruct (fq_held a) eqn:Ehd; [|done].
    destruct e as [k|k|k f|k]; cbn in Ea; case_decide as Hc; try discriminate; injection Ea as <-; cbn; rewrite ?Ehd, ?Eq in *; try done.
    unfold fifo_holder in Hc. rewrite Ehd, Eq in Hc. injection Hc as ->. destruct Hd. by left.
Qed.

(** ** Routing by the physical distributor *)
Section Routing.
Context (pi : PlatformInfo).

(** The physical registers hold the routes of the emulated ones. *)
Definition routes_agree (phys : mem) (d : VirtualGicd) : Prop :=
  forall n, 0 <= n < 988 -> read64 phys (gicd_base pi + GICD_IROUTER_BASE + 8 * n) = nth (Z.to_nat n) (gd_irouter d) 0.

(** A store the architecture allows to the distributor: a word, or a double
    word to a routing register, at its natural alignment; INTID 1019 has no
    word-sized upper half in the emulation. *)
Definition gicd_access (offset size : Z) : Prop :=
  0 <= offset /\ offset + size <= 0x10000 /\ 
  (size = 4 /\ offset mod 4 = 0 /\ (GICD_IROUTER_BASE + 8 * 987 <= offset -> GICD_IROUTER_BASE + 8 * 988 <= offset) \/
   size = 8 /\ exists n, 0 <= n < 988 /\ offset = GICD_IROUTER_BASE + 8 * n).

Lemma irouter_untouched d offset v : (offset < GICD_IROUTER_BASE \/ GICD_IROUTER_BASE + 8 * 988 <= offset) ->
  gd_irouter (gicd_write d offset v 4) = gd_irouter d.
Proof.
  intros H. unfold gicd_write.
  assert (in_range GICD_IROUTER_BASE GICD_IROUTER_END offset = false) as ->.
  { unfold in_range. gic_consts. destruct (Z.leb_spec 24832 offset), (Z.leb_spec offset 32728); try done. lia. }
  cbn [andb negb Z.eqb Pos.eqb]. repeat (case_match; [done|]). done.
Qed.

Lemma read64_halves m a : read64 m a = read32 m a + 2 ^ 32 * read32 m (a + 4).
Proof.
  unfold read64, read32. cbn [read_le]. rewrite <- !(Z.add_assoc a). repeat change (1 + 1) with 2.
  change (2 + 1 + 1) with 4. change (2 + 1) with 3. change (4 + 1 + 1 + 1) with 7. change (4 + 1 + 1) with 6. change (4 + 1) with 5.
  lia.
Qed.

Lemma read64_write_half m a h v : h = 0 \/ h = 4 ->
  read64 (write_le 4 m (a + h) (u32 v)) a = mix h v (read64 m a).
Proof.
  intros Hh. pose proof (read64_fits m a) as Hf. rewrite read64_halves. unfold read32.
  assert (Hu : u32 v mod 256 ^ Z.of_nat 4 = lo32 v) by (unfold u32, wrap, lo32; change (256 ^ Z.of_nat 4) with (2 ^ 32); apply Z.mod_mod; lia).
  assert (Hr : forall x, 0 <= read_le 4 m x < 2 ^ 32) by (intros x; apply (read_le_range 4 m x)).
  pose proof (Hr a) as H1. pose proof (Hr (a + 4)) as H2.
  destruct Hh as [-> | ->]; rewrite ?Z.add_0_r, read_write_le, Hu, read_write_le_ne by lia.
  - rewrite mix_lo by done. rewrite read64_halves. unfold hi32, read32. Z.to_euclidean_division_equations; lia.
  - rewrite mix_hi. rewrite read64_halves. unfold lo32 at 3. unfold read32. Z.to_euclidean_division_equations; lia.
Qed.

Lemma forward_irouter offset v : GICD_IROUTER_BASE <= offset < GICD_IROUTER_BASE + 8 * 988 ->
  gicd_forward offset v 4 = [(offset, u32 v, 4)] /\ gicd_forward offset v 8 = [(offset, v, 8)].
Proof.
  intros H. unfold gicd_forward. assert ((offset =? GICD_CTLR) = false) as -> by (gic_consts; lia).
  assert ((offset =? GICD_TYPER) || (offset =? GICD_IIDR) || (offset =? GICD_PIDR2) = false) as -> by (gic_consts; lia). done.
Qed.

(** Every store keeps the two in step. *)
Lemma routes_agree_write phys d offset v size : gicd_wf d -> fits 64 v -> gicd_access offset size -> routes_agree phys d ->
  routes_agree (fold_left (gicd_apply pi) (gicd_forward offset v size) phys) (gicd_write d offset v size).
Proof.
  intros Hd Hv (H0 & Hmax & Hacc) Hr. assert (Hlen : length (gd_irouter d) = 988%nat) by (by destruct (gw_irouter _ Hd)).
  destruct Hacc as [(-> & Hal & Hlast)|(-> & n & Hn & ->)].
  - destruct (decide (offset < GICD_IROUTER_BASE \/ GICD_IROUTER_BASE + 8 * 988 <= offset)) as [Ho|Ho].
    + intros k Hk. rewrite irouter_untouched by done. rewrite <- (Hr k Hk). unfold gicd_forward.
      destruct (_ || _); [done|]. cbn [Z.eqb Pos.eqb fold_left gicd_apply]. unfold read64. apply read_write_le_ne.
      change (Z.of_nat (Z.to_nat 4)) with 4. gic_consts. Z.to_euclidean_division_equations; lia.
    + set (n := (offset - GICD_IROUTER_BASE) / 8). set (h := (offset - GICD_IROUTER_BASE) mod 8).
      assert (Hoff : offset = GICD_IROUTER_BASE + 8 * n + h) by (unfold n, h; gic_consts; Z.to_euclidean_division_equations; lia).
      assert (Hh : h = 0 \/ h = 4) by (unfold h; gic_consts; Z.to_euclidean_division_equations; lia).
      assert (Hn : 0 <= n < 987) by (unfold n; gic_consts; Z.to_euclidean_division_equations; lia).
      clearbody n h. subst offset. rewrite gicd_write_half by done. intros k Hk.
      rewrite (proj1 (forward_irouter (GICD_IROUTER_BASE + 8 * n + h) v ltac:(lia))).
      cbn [fold_left gicd_apply gd_irouter set_irouter]. rewrite nth_lookup.
      destruct (decide (k = n)) as [->|Hne].
      * rewrite list_lookup_insert_eq by lia. cbn [default]. rewrite <- (Hr n) by lia.
        rewrite !(Z.add_assoc (gicd_base pi)). by apply read64_write_half.
      * rewrite list_lookup_insert_ne by lia. rewrite <- nth_lookup, <- (Hr k Hk). unfold read64. apply read_write_le_ne.
        change (Z.of_nat (Z.to_nat 4)) with 4. lia.
  - rewrite gicd_write_whole by done. intros k Hk.
    rewrite (proj2 (forward_irouter (GICD_IROUTER_BASE + 8 * n) v ltac:(lia))). cbn [fold_left gicd_apply gd_irouter set_irouter]. rewrite nth_lookup.
    change (write_le (Z.to_nat 8)) with write64. rewrite !(Z.add_assoc (gicd_base pi)). destruct (decide (k = n)) as [->|Hne].
    + rewrite list_lookup_insert_eq by lia. by apply read64_write64.
    + rewrite list_lookup_insert_ne by lia. rewrite <- nth_lookup, <- (Hr k Hk). apply read64_write64_ne. lia.
Qed.

(** The guest's stores to the distributor, and what they leave. *)
Record gstore := { g_off : Z; g_val : Z; g_size : Z }.
Definition shadow (l : list gstore) (d : VirtualGicd) : VirtualGicd :=
  fold_left (fun d w => gicd_write d (g_off w) (g_val w) (g_size w)) l d.
Definition through (l : list gstore) (phys : mem) : mem :=
  fold_left (fun m w => fold_left (gicd_apply pi) (gicd_forward (g_off w) (g_val w) (g_size w)) m) l phys.

Lemma routes_agree_all l : forall phys d, gicd_wf d -> Forall (fun w => fits 64 (g_val w) /\ gicd_access (g_off w) (g_size w)) l ->
  routes_agree phys d -> routes_agree (through l phys) (shadow l d) /\ gicd_wf (shadow l d).
Proof.
  induction l as [|w l IH]; intros phys d Hd HF Hr; [done|]. apply Forall_cons in HF as [[Hv Ha] HF]. cbn.
  apply IH; [by apply gicd_write_wf|done|by apply routes_agree_write].
Qed.

Lemma spi_target_agrees phys d intid : routes_agree phys d -> 32 <= intid <= 63 ->
  spi_target pi phys intid = gicd_route_spi d intid.
Proof.
  intros Hr Hi. unfold spi_target, gicd_route_spi. rewrite (proj2 (orb_false_iff _ _)) by (split; lia).
  rewrite <- (Hr (intid - 32)) by lia. unfold GICD_IROUTER_BASE. by rewrite (Z.mul_comm 8).
Qed.
End Routing.

(** C19. The lock-free routing of the multi-core build is the routing of the
    emulated distributor: if the physical GICD_IROUTERs and the emulated ones
    agree to begin with, then after any sequence of word stores and of
    double-word stores to routing registers by the guest, each at its natural
    alignment and none a word store to the routing register of INTID 1019,
    [inject_spi] of the multi-core build, which reads the physical
    GICD_IROUTER, queues an SPI (32 to 63) for the very vCPU [inject_spi] of
    the single-core build finds through the device manager, and rings the
    doorbell of that core unless it is the one that runs.  Byte and half-word
    stores are excluded: they are written through and not emulated
    ([byte_store_diverges]). *)
Theorem spi_routing_agrees pi phys d l h dm intid core bells : gicd_wf d -> routes_agree pi phys d ->
  Forall (fun w => fits 64 (g_val w) /\ gicd_access (g_off w) (g_size w)) l ->
  hyp_ok h -> hy_devs h !! hy_vm h = Some dm -> find_gicd (dm_devices dm) = Some (shadow l d) -> 32 <= intid <= 63 ->
  let q := inject_spi_mp pi (through pi l phys) core intid (pending_spis (cur_state h), bells) in
  let t := route_spi dm intid in
  (exists h', inject_spi intid h = (h', Ok tt) /\ pending_spis (cur_state h') = q.1) /\
  q.2 = bells ++ (if (t <? Z.of_nat Sched.MAX_VCPUS) && negb (t =? Z.of_nat core) then [(core, Z.shiftl 1 t)] else []).
Proof.
  intros Hd Hr HF Hok Hdm Hg Hi. cbv zeta. destruct (routes_agree_all pi l phys d Hd HF Hr) as [Hr' Hd'].
  unfold inject_spi_mp, inject_spi. rewrite (proj2 (orb_false_iff _ _)) by (split; lia).
  rewrite (spi_target_agrees pi _ _ _ Hr' Hi). unfold route_spi. rewrite Hg. unfold sm_bind, sm_get. rewrite Hdm, Hg.
  destruct (gicd_route_spi (shadow l d) intid <? Z.of_nat Sched.MAX_VCPUS); cbn [andb fst snd].
  - split; [|by destruct (negb _); rewrite ?app_nil_r]. eexists. split; [reflexivity|]. unfold upd_vm_state, sm_upd.
    by rewrite cur_state_upd.
  - split; [|by rewrite app_nil_r]. by eexists.
Qed.

Lemma zero_routes pi k : routes_agree pi (fun _ => 0) (gicd_new k).
Proof.
  intros n Hn. unfold gicd_new. cbn [gd_irouter]. unfold read64. rewrite read_le_zero by done.
  rewrite nth_lookup. destruct (replicate 988 0 !! Z.to_nat n) as [x|] eqn:E; [|done]. by apply lookup_replicate in E as [-> _].
Qed.

(** A byte store is written through and not emulated: the two distributors
    then route the SPI differently. *)
Lemma byte_store_diverges : let d := gicd_new 4 in let phys : mem := fun _ => 0 in
  routes_agree PLATFORM_DEFAULT phys d /\
  spi_target PLATFORM_DEFAULT (fold_left (gicd_apply PLATFORM_DEFAULT) (gicd_forward (irouter_off 33) 2 1) phys) 33 = 2 /\
  gicd_route_spi (gicd_write d (irouter_off 33) 2 1) 33 = 0.
Proof. cbv zeta. split; [apply zero_routes|]. split; vm_compute; reflexivity. Qed.

(** [drain_uart_rx] takes every byte of the ring, in order: the buffer of 64
    bytes holds all the ring can. *)
Lemma take_rx_all p : forall n r buf, (length p < n)%nat -> (length buf + length p <= 64)%nat -> ring_rel UART_RX_RING_SIZE r p ->
  exists r', take_rx n r buf = Some (r', buf ++ p) /\ ring_rel UART_RX_RING_SIZE r' ([] : list Z).
Proof.
  induction p as [|ch p IH]; intros n r buf Hn Hb Hr; (destruct n as [|n]; cbn [length] in Hn, Hb; [lia|]); cbn [take_rx];
    pose proof (uart_pop_rel r _ Hr) as Hp; destruct (uart_ring_pop r) as [r1 o]; destruct Hp as [-> Hr1]; cbn [head tl] in *.
  - rewrite app_nil_r. by exists r1.
  - rewrite (proj2 (Nat.ltb_lt _ _)) by lia. destruct (IH n r1 (buf ++ [ch]) ltac:(lia) ltac:(rewrite length_app; cbn; lia) Hr1) as (r' & -> & Hr').
    exists r'. by rewrite <- app_assoc.
Qed.
Theorem drain_takes_all r p : ring_rel UART_RX_RING_SIZE r p ->
  exists r', take_rx UART_RX_RING_SIZE r [] = Some (r', p) /\ ring_rel UART_RX_RING_SIZE r' ([] : list Z).
Proof.
  intros Hr. pose proof (rr_cap _ _ _ Hr) as Hc. unfold UART_RX_RING_SIZE in *. apply (take_rx_all p 64 r []); cbn; [lia|lia|done].
Qed.

(** ** Concrete runs *)
Definition ex_devs : DeviceManager :=
  match vm_manager PLATFORM_DEFAULT 0 0x58000000 0x200000 vswitch_new 0 dm_new with Some (m, _) => m | None => dm_new end.
(** Core 0 enables the receive interrupt of the UART; then core 1 stores to the
    routing register of SPI 33 while core 0 passes two bytes of input on and a
    guest stores to memory in the middle of core 1's body. *)
Definition ex_evs : list ev :=
  [CCall 0 (JMmio 0x09000038 0x10 4 true); CDraw 0; CPoll 0; CEnter 0; CBody 0 (fun _ => 0%nat); CDrop 0;
   CRx 72; CRx 105; CCall 1 (JMmio 0x08006108 2 8 true); CDraw 1; CDrain 0; CDraw 0; CPoll 0; CPoll 1; CEnter 1;
   CGuest (fun m => write_le 1 m 0x48000000 7); CPoll 0].
Definition ex_more : list ev := [CBody 1 (fun _ => 0%nat); CDrop 1; CPoll 0; CEnter 0; CBody 0 (fun _ => 0%nat); CDrop 0; CRaise 0].
Definition ex_dl (evs : list ev) : dlsys :=
  match dl_run PLATFORM_DEFAULT true 1 (fun _ => 0) 0 (dl_init 2 ex_devs ex_io) evs with
  | Some s => s | None => dl_init 2 ex_devs ex_io end.
Lemma ex_dl_run evs : match dl_run PLATFORM_DEFAULT true 1 (fun _ => 0) 0 (dl_init 2 ex_devs ex_io) evs with Some _ => true | None => false end = true ->
  dl_run PLATFORM_DEFAULT true 1 (fun _ => 0) 0 (dl_init 2 ex_devs ex_io) evs = Some (ex_dl evs).
Proof. unfold ex_dl. by destruct (dl_run _ _ _ _ _ _ _). Qed.

(** The input reaches the UART after the store, SPI 33 follows the new route
    to vCPU 2, and core 0 rings the doorbell of core 2. *)
Lemma devices_serialised_witness : let s := ex_dl (ex_evs ++ ex_more) in
  replay PLATFORM_DEFAULT true 1 0 (dl_hist s) (ex_devs, ex_io) = Some (data (ls_lock (dl_lock s)), dl_io s) /\
  map snd (bodies (dl_hist s)) = [JMmio 0x09000038 0x10 4 true; JMmio 0x08006108 2 8 true; JUart [72; 105]] /\
  dl_spis s = [0; 0; 2; 0; 0; 0; 0; 0] /\ dl_bells s = [(0%nat, 4)].
Proof.
  cbv zeta. split; [|split; [vm_compute; reflexivity|split; vm_compute; reflexivity]].
  exact (proj2 (proj2 (devices_serialised PLATFORM_DEFAULT true 1 (fun _ => 0) 0 2 ex_devs ex_io (ex_evs ++ ex_more) _ ltac:(lia)
    (ex_dl_run (ex_evs ++ ex_more) ltac:(vm_compute; reflexivity))))).
Defined.


Definition ex_stores : list gstore := [{| g_off := 0x6108; g_val := 2; g_size := 8 |}; {| g_off := 0x610C; g_val := 0; g_size := 4 |}].
Definition ex_routed : hyp :=
  set_devs [(register_device dm_new (DevGicd (shadow ex_stores (gicd_new 4)))).1; dm_new] ex_io ex_hyp.
Lemma spi_routing_agrees_witness :
  let q := inject_spi_mp PLATFORM_DEFAULT (through PLATFORM_DEFAULT ex_stores (fun _ => 0)) 0 33 (pending_spis (cur_state ex_routed), []) in
  (exists h', inject_spi 33 ex_routed = (h', Ok tt) /\ pending_spis (cur_state h') = q.1) /\ q = ([0; 0; 2; 0; 0; 0; 0; 0], [(0%nat, 4)]).
Proof.
  split; [|vm_compute; reflexivity].
  refine (proj1 (spi_routing_agrees PLATFORM_DEFAULT (fun _ => 0) (gicd_new 4) ex_stores ex_routed
    (register_device dm_new (DevGicd (shadow ex_stores (gicd_new 4)))).1 33 0 [] (gicd_new_wf 4) (zero_routes _ _) _ _ eq_refl eq_refl ltac:(lia))).
  - unfold gicd_access, GICD_IROUTER_BASE. apply Forall_cons. split; [|apply Forall_cons; split; [|by apply Forall_nil]]; cbn.
    + split; [unfold fits; lia|]. split; [lia|]. split; [lia|]. right. split; [done|]. exists 1. lia.
    + split; [unfold fits; lia|]. split; [lia|]. split; [lia|]. left. split; [done|]. split; [reflexivity|lia].
  - split_and!; [cbn; lia|cbn; lia|]. repeat constructor.
Defined.
