(* ===== verification/GlobalDev.v ===== *)
(** * GlobalDev: the device manager of the single-core build

    [global.rs] has two [GlobalDeviceManager]s behind one interface: without
    the feature [multi_pcpu] the devices sit in an [UnsafeCell] and a method
    reaches them directly; with it they sit behind the spin lock of DevLock.
    Here are the methods of the first, the table [DEVICES] indexed by
    [CURRENT_VM_ID], and the proof that the two builds agree where both are
    sound: a sequence of calls made by one core has the same results in the
    locked build, whose core never waits and is outside the lock after every
    call. *)

From Stdlib Require Import ZArith Lia Bool List.
From stdpp Require Import base decidable option list strings.
From S2P Require Import Prelude Memory Rings Sync VSwitch Virtio VirtioNet GicDev PrimeCell Platform Devices Exception VmRun DevLock.

(** ** The cell and its methods *)
Record GlobalDeviceManager := mkGdm { gdm_devices : DeviceManager; gdm_initialized : bool }.
Definition gdm_put (m : DeviceManager) (g : GlobalDeviceManager) : GlobalDeviceManager := mkGdm m (gdm_initialized g).

Definition gdm_new : GlobalDeviceManager := mkGdm dm_new false.
Definition gdm_reset (g : GlobalDeviceManager) : GlobalDeviceManager := gdm_put (dm_reset (gdm_devices g)) g.
Definition gdm_register_device (g : GlobalDeviceManager) (dev : Device) : GlobalDeviceManager :=
  mkGdm (register_device (gdm_devices g) dev).1 true.
Definition gdm_attach_virtio_blk (g : GlobalDeviceManager) (disk_base disk_size : Z) : GlobalDeviceManager :=
  gdm_put (attach_virtio_blk (gdm_devices g) disk_base disk_size) g.
Definition gdm_handle_mmio (pi : PlatformInfo) (checks : bool) (fuel : nat) (g : GlobalDeviceManager) (s : dev_io)
    (addr value size : Z) (is_write : bool) : option (result (GlobalDeviceManager * dev_io * option Z) string) :=
  match handle_mmio pi checks fuel (gdm_devices g) s addr value size is_write with
  | Some (Ok (m, s, v)) => Some (Ok (gdm_put m g, s, v))
  | Some (Err e) => Some (Err e)
  | None => None
  end.
Definition gdm_route_spi (g : GlobalDeviceManager) (intid : Z) : Z := route_spi (gdm_devices g) intid.
(** [uart_mut], and the store of the caller through the reference. *)
Definition gdm_uart_mut (g : GlobalDeviceManager) : option VirtualUart := uart_mut (gdm_devices g).
Definition gdm_set_uart (u : VirtualUart) (g : GlobalDeviceManager) : GlobalDeviceManager :=
  gdm_put (dm_with (put_uart u (dm_devices (gdm_devices g))) (gdm_devices g)) g.
Definition gdm_attach_virtio_net (g : GlobalDeviceManager) (s : dev_io) (vm_id : nat) : GlobalDeviceManager * dev_io :=
  let (m, vs) := attach_virtio_net (gdm_devices g) (ns_switch (nw_net (io_world s))) vm_id in
  (gdm_put m g, set_switch vs s).
Definition gdm_inject_net_rx (g : GlobalDeviceManager) (s : dev_io) (frame : list Z)
    : result (GlobalDeviceManager * dev_io * bool) string :=
  match virtio_net_mut (gdm_devices g) with
  | Some transport =>
      match inject_rx (io_mem s) transport frame with
      | Ok (m, t, spis, b) =>
          Ok (gdm_put (dm_with (put_net t (dm_devices (gdm_devices g))) (gdm_devices g)) g,
              io_virtio {| nw_mem := m; nw_net := nw_net (io_world s) |} spis s, b)
      | Err e => Err e
      end
  | None => Ok (g, s, false)
  end.

(** [DEVICES], [CURRENT_VM_ID] and what is read through them; [None] is a
    panic of the index. *)
Definition DEVICES : list GlobalDeviceManager := [gdm_new; gdm_new].
Definition CURRENT_VM_ID : nat := 0.
Definition current_devices (devices : list GlobalDeviceManager) (current_vm_id : nat) : option GlobalDeviceManager :=
  devices !! current_vm_id.

(** ** A call of either build *)
Section Builds.
Context (pi : PlatformInfo) (checks : bool) (fuel : nat) (phys0 : mem) (vm : nat).

Definition serve (j : job) (g : GlobalDeviceManager) (s : dev_io) : option (result (GlobalDeviceManager * dev_io * reply) string) :=
  match j with
  | JReset => Some (Ok (gdm_reset g, s, RUnit))
  | JRegister d => Some (Ok (gdm_register_device g d, s, RUnit))
  | JAttachBlk base size => Some (Ok (gdm_attach_virtio_blk g base size, s, RUnit))
  | JMmio addr value size w =>
      match gdm_handle_mmio pi checks fuel g s addr value size w with
      | Some (Ok (g, s, v)) => Some (Ok (g, s, RVal v))
      | Some (Err e) => Some (Err e)
      | None => None
      end
  | JRoute intid => Some (Ok (g, s, RTarget (gdm_route_spi g intid)))
  | JUartPush ch =>
      Some (Ok (match gdm_uart_mut g with Some u => gdm_set_uart (push_rx u ch) g | None => g end, s, RUnit))
  | JUart buf =>
      (* the console input of [run_one_iteration], and its interrupt *)
      let g := match gdm_uart_mut g with Some u => gdm_set_uart (fold_left push_rx buf u) g | None => g end in
      let spis := match gdm_uart_mut g with
                  | Some u => match uart_pending_irq u with Some _ => [33] | None => [] end
                  | None => [] end in
      Some (Ok (g, io_virtio (io_world s) spis s, RUnit))
  | JAttachNet vm_id => let (g, s) := gdm_attach_virtio_net g s vm_id in Some (Ok (g, s, RUnit))
  | JNet frame =>
      match gdm_inject_net_rx g s frame with
      | Ok (g, s, b) => Some (Ok (g, s, RBool b))
      | Err e => Some (Err e)
      end
  end.
Fixpoint serve_all (js : list job) (g : GlobalDeviceManager) (s : dev_io) : option (result (GlobalDeviceManager * dev_io * list reply) string) :=
  match js with
  | [] => Some (Ok (g, s, []))
  | j :: js =>
      match serve j g s with
      | Some (Ok (g, s, r)) =>
          match serve_all js g s with
          | Some (Ok (g, s, rs)) => Some (Ok (g, s, r :: rs))
          | x => x
          end
      | Some (Err e) => Some (Err e)
      | None => None
      end
  end.

(** The core of the locked build during the same call. *)
Definition call_evs (j : job) (o : job_result) : list ev :=
  [CCall 0 j; CDraw 0; CPoll 0; CEnter 0; CBody 0 (fun _ => 0%nat)] ++ replicate (length (o_held o)) (CRaise 0) ++ [CDrop 0] ++
  replicate (length (o_after o)) (CRaise 0).

(** *** The methods are the bodies *)
Definition same_write (s : dev_io) (a b : option (result (Device * dev_io) string)) : Prop :=
  match a, b with
  | Some (Ok (d1, s1)), Some (Ok (d2, s2)) => d1 = d2 /\ io_quiet s1 = io_quiet s2 /\ io_spis s1 = io_spis s ++ io_spis s2
  | Some (Err e1), Some (Err e2) => e1 = e2
  | None, None => True
  | _, _ => False
  end.
Lemma dev_write_quiet d s offset value size :
  same_write s (dev_write checks fuel d s offset value size) (dev_write checks fuel d (io_quiet s) offset value size).
Proof using.
  unfold same_write. destruct d as [u|g|g|t|t|r]; cbn [dev_write io_world io_quiet].
  - destruct (uart_write u offset value size) as [[u' b] tx]. cbn. by rewrite app_nil_r.
  - cbn. by rewrite app_nil_r.
  - cbn. by rewrite app_nil_r.
  - by destruct (transport_write _ _ t _ _ _ _) as [[[[t' m] spis]|e]|].
  - by destruct (transport_write _ _ t _ _ _ _) as [[[[t' w] spis]|e]|].
  - cbn. by rewrite app_nil_r.
Qed.

(** What the caller stores through [uart_mut] is what [uart_mut] then finds. *)
Lemma find_put_uart u l : find_uart (put_uart u l) = match find_uart l with Some _ => Some u | None => None end.
Proof using. induction l as [|[[]|] l IH]; cbn; try done. Qed.

(** A method and the body of the locked build, run on a world with no
    interrupts outstanding. *)
Definition agrees (s : dev_io) (a : option (result (GlobalDeviceManager * dev_io * reply) string))
    (b : option (result job_result string)) : Prop :=
  match a, b with
  | Some (Ok (g, s', r)), Some (Ok o) =>
      gdm_devices g = o_dm o /\ o_io o = io_quiet s' /\ r = o_reply o /\ io_spis s' = io_spis s ++ o_held o ++ o_after o
  | Some (Err e1), Some (Err e2) => e1 = e2
  | None, None => True
  | _, _ => False
  end.
Lemma serve_body j g s : agrees s (serve j g s) (body pi checks fuel j (gdm_devices g) (io_quiet s)).
Proof using.
  unfold agrees. destruct j as [|d|db ds|addr value size w|intid|ch|buf|v|frame]; cbn [serve body]; try (cbn; by rewrite ?app_nil_r).
  - unfold gdm_handle_mmio, handle_mmio. change (io_quiet (io_quiet s)) with (io_quiet s).
    destruct (find_device pi _ addr) as [[[pre d] post]|]; [|cbn; by rewrite app_nil_r]. destruct w.
    + pose proof (dev_write_quiet d s (addr - base_address pi d) value size) as H. unfold same_write in H.
      destruct (dev_write checks fuel d s _ _ _) as [[[d1 s1]|e]|], (dev_write checks fuel d (io_quiet s) _ _ _) as [[[d2 s2]|e2]|]; try done.
      destruct H as (-> & Hq & Hs). cbn. rewrite app_nil_r. by split_and!.
    + change (dev_read d (io_quiet s)) with (dev_read d s). destruct (dev_read d s _ _) as [d' v]. cbn. by rewrite app_nil_r.
  - unfold gdm_uart_mut. destruct (uart_mut _); cbn; by rewrite app_nil_r.
  - unfold gdm_uart_mut, gdm_set_uart. destruct (uart_mut (gdm_devices g)) as [u|] eqn:Eu; [|cbn; rewrite Eu; by split_and!].
    cbn [gdm_put gdm_devices o_dm o_io o_reply o_held o_after app]. 
    unfold uart_mut in *. cbn [dm_with dm_devices]. rewrite find_put_uart, Eu. by split_and!.
  - unfold gdm_inject_net_rx. destruct (virtio_net_mut _) as [t|]; [|cbn; by rewrite app_nil_r].
    change (io_mem (io_quiet s)) with (io_mem s). destruct (inject_rx _ t frame) as [[[[m t'] spis] b]|e]; [|done].
    cbn. by rewrite app_nil_r.
Qed.

(** *** One core never waits *)
Record idle (m : DeviceManager) (io : dev_io) (st : dlsys) : Prop := {
  id_work : dl_work st = [WIdle];
  id_cores : ls_cores (dl_lock st) = [Outside];
  id_free : next_ticket (ls_lock (dl_lock st)) = now_serving (ls_lock (dl_lock st));
  id_data : data (ls_lock (dl_lock st)) = m;
  id_io : dl_io st = io;
  id_mems : dl_mems st <> []
}.
(** The interrupts of a body, one by one: the pending words and the doorbells
    they leave. *)
Definition raised (phys : mem) (l : list Z) (q : list Z * list (nat * Z)) : list Z * list (nat * Z) :=
  fold_left (fun q x => inject_spi_mp pi phys 0 x q) l q.
Definition queues (st : dlsys) : list Z * list (nat * Z) := (dl_spis st, dl_bells st).
Lemma raised_app phys l1 l2 q : raised phys (l1 ++ l2) q = raised phys l2 (raised phys l1 q).
Proof using. apply fold_left_app. Qed.
Definition frame_eq (st st' : dlsys) : Prop :=
  dl_lock st' = dl_lock st /\ dl_io st' = dl_io st /\ dl_hist st' = dl_hist st /\ dl_mems st' = dl_mems st.
Lemma raise_all (mk : list Z -> work) l : forall st,
  (forall x l st, dl_work st = [mk (x :: l)] -> dl_step pi checks fuel phys0 vm st (CRaise 0) = Some (set_work 0 (mk l) (raise pi phys0 0 x st))) ->
  dl_work st = [mk l] -> exists st', dl_run pi checks fuel phys0 vm st (replicate (length l) (CRaise 0)) = Some st' /\
    dl_work st' = [mk []] /\ frame_eq st st' /\ queues st' = raised (gicd_phys pi phys0 (dl_io st)) l (queues st).
Proof using.
  induction l as [|x l IH]; intros st Hstep Hw; [by exists st|]. cbn [length replicate dl_run]. rewrite (Hstep x l st Hw).
  destruct (IH (set_work 0 (mk l) (raise pi phys0 0 x st)) Hstep) as (st' & Hr & Hw' & (H1 & H2 & H3 & H4) & Hq); [cbn; by rewrite Hw|].
  exists st'. split_and!; [done|done|by split_and!|]. rewrite Hq. unfold raised, queues. cbn [fold_left].
  cbn [dl_io dl_spis dl_bells set_work raise fst snd]. by rewrite <- surjective_pairing.
Qed.

Lemma one_call j o m io st : idle m io st -> body pi checks fuel j m io = Some (Ok o) ->
  exists st', dl_run pi checks fuel phys0 vm st (call_evs j o) = Some st' /\ idle (o_dm o) (o_io o) st' /\
    dl_hist st' = dl_hist st ++ [ABody 0 j None] /\
    queues st' = raised (gicd_phys pi phys0 (o_io o)) (o_held o ++ o_after o) (queues st).
Proof using.
  intros [Hw Hc Hf Hd Hio Hm] Hb. destruct st as [[[nt ns dat] cores] sio ring spis bells wk drawn hist mems]. cbn in *. subst.
  assert (Hdrop : exists mm, drop (pred (length mems)) mems = [mm]).
  { destruct mems as [|mm l _] using rev_ind; [done|]. exists mm. rewrite length_app, Nat.add_comm. cbn. by rewrite drop_app_length. }
  destruct Hdrop as [mm Hdrop].
  unfold call_evs. cbn [app dl_run dl_step dl_work lookup list_lookup]. unfold lock_do. cbn.
  assert (Hp : forall k, poll_ticket {| next_ticket := k; now_serving := ns; data := m |} ns = Guard ns)
    by (intros k; unfold poll_ticket; cbn; by rewrite Z.eqb_refl).
  rewrite Hp. cbn. rewrite Hdrop. cbn. rewrite Hb. cbn.
  match goal with |- context [dl_run _ _ _ _ _ ?s0 _] => set (st0 := s0) end.
  destruct (raise_all (fun l => WHeld l (o_after o)) (o_held o) st0) as (st1 & Hr1 & Hw1 & (El1 & Ei1 & Eh1 & Em1) & Hq1);
    [by intros x l st Hst; cbn; rewrite Hst|done|].
  rewrite dl_run_app, Hr1. cbn [app dl_run dl_step]. unfold lock_do. rewrite Hw1. cbn [lookup list_lookup]. rewrite El1. cbn.
  match goal with |- context [dl_run _ _ _ _ _ ?s0 _] => set (st2 := s0) end.
  assert (Hidle : forall st', dl_work st' = [WIdle] -> frame_eq st2 st' -> idle (o_dm o) (o_io o) st' /\ dl_hist st' = hist ++ [ABody 0 j None]).
  { intros st' Hw' (F1 & F2 & F3 & F4). split; [|by rewrite F3; cbn; rewrite Eh1].
    split; rewrite ?F1, ?F2, ?F4; cbn; [done|done|done|done|by rewrite Ei1|]. rewrite Em1. cbn. by destruct mems. }
  assert (Hq2 : queues st2 = raised (gicd_phys pi phys0 (o_io o)) (o_held o) (spis, bells)) by exact Hq1.
  rewrite raised_app. change (queues _) with (spis, bells) at 2. rewrite <- Hq2.
  destruct (o_after o) as [|y l] eqn:Ea.
  - exists st2. cbn [length replicate dl_run]. split; [done|].
    destruct (Hidle st2) as [H1 H2]; [by cbn; rewrite Hw1|done|]. by split_and!.
  - destruct (raise_all after_work (y :: l) st2) as (st3 & Hr3 & Hw3 & F3 & Hq3);
      [by intros x l' st Hst; cbn; rewrite Hst|by cbn; rewrite Hw1|].
    exists st3. split; [exact Hr3|]. destruct (Hidle st3 Hw3 F3) as [H1 H2]. split_and!; [done|done|].
    rewrite Hq3. f_equal. f_equal. cbn. by rewrite Ei1.
Qed.

(** *** A sequence of calls *)
Fixpoint run_evs (js : list job) (m : DeviceManager) (io : dev_io) : list ev :=
  match js with
  | [] => []
  | j :: js => match body pi checks fuel j m io with
               | Some (Ok o) => call_evs j o ++ run_evs js (o_dm o) (o_io o)
               | _ => []
               end
  end.
(** What the bodies of the locked build leave, call by call. *)
Fixpoint run_outs (js : list job) (m : DeviceManager) (io : dev_io) : list job_result :=
  match js with
  | [] => []
  | j :: js => match body pi checks fuel j m io with
               | Some (Ok o) => o :: run_outs js (o_dm o) (o_io o)
               | _ => []
               end
  end.
(** What raising the interrupts of all of them leaves. *)
Definition raised_outs (outs : list job_result) (q : list Z * list (nat * Z)) : list Z * list (nat * Z) :=
  fold_left (fun q o => raised (gicd_phys pi phys0 (o_io o)) (o_held o ++ o_after o) q) outs q.
Lemma serve_all_outs js : forall g s g' s' rs, serve_all js g s = Some (Ok (g', s', rs)) ->
  let outs := run_outs js (gdm_devices g) (io_quiet s) in
  rs = map o_reply outs /\ io_spis s' = io_spis s ++ concat (map (fun o => o_held o ++ o_after o) outs).
Proof using.
  induction js as [|j js IH]; intros g s g' s' rs; cbn [serve_all run_outs map].
  - intros [= -> -> <-]. cbn. by rewrite app_nil_r.
  - pose proof (serve_body j g s) as Hb. unfold agrees in Hb. intros H.
    destruct (serve j g s) as [[[[g1 s1] r]|e]|]; [|done|done].
    destruct (body pi checks fuel j (gdm_devices g) (io_quiet s)) as [[o|e]|]; [|done|done].
    destruct Hb as (Hm & Hq & Hr & Hs). destruct (serve_all js g1 s1) as [[[[g2 s2] rs2]|e]|] eqn:Es; [|done|done].
    injection H as <- <- <-. destruct (IH g1 s1 _ _ _ Es) as [H1 H2]. cbn [map concat]. rewrite <- Hm, Hq, <- Hr, <- H1. split; [done|].
    by rewrite H2, Hs, <- app_assoc.
Qed.
Lemma serve_all_run js : forall g s g' s' rs st, serve_all js g s = Some (Ok (g', s', rs)) -> idle (gdm_devices g) (io_quiet s) st ->
  exists st', dl_run pi checks fuel phys0 vm st (run_evs js (gdm_devices g) (io_quiet s)) = Some st' /\
    idle (gdm_devices g') (io_quiet s') st' /\ dl_hist st' = dl_hist st ++ map (fun j => ABody 0 j None) js /\
    queues st' = raised_outs (run_outs js (gdm_devices g) (io_quiet s)) (queues st).
Proof using.
  induction js as [|j js IH]; intros g s g' s' rs st; cbn [serve_all run_evs run_outs map].
  - intros [= -> -> _] Hi. exists st. by rewrite app_nil_r.
  - pose proof (serve_body j g s) as Hb. unfold agrees in Hb. intros H Hi.
    destruct (serve j g s) as [[[[g1 s1] r]|e]|]; [|done|done].
    destruct (body pi checks fuel j (gdm_devices g) (io_quiet s)) as [[o|e]|] eqn:Eb; [|done|done].
    destruct Hb as (Hm & Hq & _ & _). destruct (one_call j o _ _ st Hi Eb) as (st1 & Hr1 & Hi1 & Hh1 & Hq1).
    destruct (serve_all js g1 s1) as [[[[g2 s2] rs2]|e]|] eqn:Es; [|done|done]. injection H as <- <- <-.
    rewrite <- Hm, Hq in *. destruct (IH g1 s1 _ _ _ st1 Es Hi1) as (st2 & Hr2 & Hi2 & Hh2 & Hq2).
    exists st2. split_and!; [by rewrite dl_run_app, Hr1|done|by rewrite Hh2, Hh1, <- app_assoc|].
    rewrite Hq2, Hq1. unfold raised_outs. cbn [fold_left]. by rewrite <- Hq.
Qed.
End Builds.

Lemma init_idle m io : idle m io (dl_init 1 m io).
Proof. by split. Qed.


(** ** The console input of the two builds

    [run_one_iteration] of the single-core build pushes each byte it pops,
    [drain_uart_rx] of the locked build pops into a buffer first. *)
Lemma take_rx_drain n : forall r buf r' out u, take_rx n r buf = Some (r', out) -> (length out < 64)%nat ->
  exists p, out = buf ++ p /\ PrimeCell.drain_uart_rx n r u = Some (r', fold_left push_rx p u).
Proof.
  induction n as [|n IH]; intros r buf r' out u H Hl; [done|]. cbn [take_rx PrimeCell.drain_uart_rx] in *.
  destruct (uart_ring_pop r) as [r1 [ch|]].
  - destruct (IH _ _ _ _ (push_rx u ch) H Hl) as (p & -> & Hd). destruct (Nat.ltb_spec (length buf) 64).
    + exists (ch :: p). by rewrite <- app_assoc.
    + rewrite length_app in Hl. lia.
  - injection H as <- <-. exists []. by rewrite app_nil_r.
Qed.
Lemma drains_agree r p u : ring_rel UART_RX_RING_SIZE r p ->
  exists r', take_rx UART_RX_RING_SIZE r [] = Some (r', p) /\
    PrimeCell.drain_uart_rx UART_RX_RING_SIZE r u = Some (r', fold_left push_rx p u).
Proof.
  intros Hr. destruct (drain_takes_all r p Hr) as (r' & Ht & _). exists r'. split; [done|].
  pose proof (rr_cap _ _ _ Hr) as Hc. unfold UART_RX_RING_SIZE in Hc.
  destruct (take_rx_drain _ _ _ _ _ u Ht ltac:(lia)) as (q & -> & Hd). done.
Qed.

(** A disk and a network device are attached; the guest enables the receive
    interrupt of the UART and loads the magic value of the disk; a byte comes
    in and SPI 33 is routed. *)
Definition ex_jobs : list job :=
  [JReset; JRegister (DevUart uart_new); JRegister (DevGicd (gicd_new 4)); JAttachBlk 0x58000000 0x200000; JAttachNet 0;
   JMmio 0x09000038 0x10 4 true; JMmio (virtio_slot 0).1 0 4 false; JUart [72]; JRoute 33; JNet [1; 2; 3]].
