(* ===== verification/DeviceTests.v ===== *)
(** * DeviceTests: more of the repository's unit tests, run on the definitions

    As in UnitTests, each test is the list of its checks, in order, evaluated
    on the definitions of this development: the allocator and the heap, the
    mapper on a fresh heap, the device manager of one and of two VMs, the
    receive rings, the switch, the network device, the configuration registers,
    the pending interrupts and CPU_ON requests of the VMs, and the tests that
    [vcpu_interrupt.rs] and [gicv3.rs] carry themselves.  Every check holds but
    those of [test_apply_to_hcr], which expects the virtual interrupt bits of
    HCR_EL2 although a new state uses the list registers. *)

From Stdlib Require Import ZArith Bool.
From stdpp Require Import base decidable option list strings.
From S2P Require Import Prelude Memory Allocator Stage2 Stage2Thms Rings VSwitch Virtio VirtioNet Spmc VGic GicDev PrimeCell Platform Devices Exception GlobalDev UnitTests.
Import Walker Mapper.

(** ** test_allocator.rs *)
Definition run_allocator_test (m : mem) : option (list bool) :=
  let '(page1, m, a) := ba_alloc_page m (BumpAllocator_new 0x41000000 0x100000) in
  page1 ← page1;
  let '(page2, m, a) := ba_alloc_page m a in
  page2 ← page2;
  let '(aligned, a) := ba_alloc_aligned a 256 2048 in
  aligned ← aligned;
  Some [page1 mod 4096 =? 0; page2 =? page1 + 4096; aligned mod 2048 =? 0; negb (ba_remaining a =? 0)].
Example allocator_test_passes : all_hold <$> run_allocator_test (fun _ => 0) = Some true.
Proof. vm_compute. reflexivity. Qed.

(** ** test_heap.rs *)
Definition run_heap_test (m : mem) (h : option BumpAllocator) : option (list bool) :=
  let '(page, m, h) := heap_alloc_page m h in
  page ← page;
  let m := write64 m page 0xDEADBEEFCAFEBABE in
  let '(a1, m1, h1) := heap_alloc_page m h in
  let '(a2, m2, h2) := heap_alloc_page m1 h1 in
  a1 ← a1; a2 ← a2;
  Some [read64 m page =? 0xDEADBEEFCAFEBABE; negb (heap_remaining h =? 0); a2 =? a1 + 4096].
Example heap_test_passes : all_hold <$> run_heap_test (fun _ => 0) heap_init = Some true.
Proof. vm_compute. reflexivity. Qed.

(** ** test_dynamic_pagetable.rs; [None] when an operation fails *)
Definition run_dynamic_pt_test (s : machine) : option (list bool) :=
  match mapper_new s with
  | (s, Ok dm) =>
      p ← unwrap (map_region 0x10000000 0x200000 Normal (s, dm));
      p ← unwrap (map_region 0x20000000 0x400000 Device p);
      let final_vttbr := dm_l0_table p.2 in
      p ← unwrap (map_region 0x30000000 0x200000 Normal p);
      p ← unwrap (unmap_4kb_page 0x30001000 p);
      p ← unwrap (unmap_4kb_page 0x30002000 p);
      Some [negb (dm_l0_table dm =? 0); negb (final_vttbr =? 0); final_vttbr mod 4096 =? 0]
  | _ => None
  end.
Example dynamic_pt_test_passes : all_hold <$> run_dynamic_pt_test ex_boot = Some true.
Proof. vm_compute. reflexivity. Qed.

(** ** test_device_routing.rs *)
Definition dm_load (m : DeviceManager) (addr : Z) : option Z :=
  match handle_mmio PLATFORM_DEFAULT true 1 m ex_io addr 0 4 false with Some (Ok (_, _, v)) => v | _ => None end.
Definition run_device_routing_test : list bool :=
  let dm1 := (register_device dm_new (DevUart uart_new)).1 in
  let dm2 := (register_device dm1 (DevGicd (gicd_new (Z.of_nat (pi_num_cpus PLATFORM_DEFAULT))))).1 in
  [ bool_decide (dm_load dm_new 0x09000000 = Some 0);
    bool_decide (is_Some (dm_load dm1 0x09000018));
    bool_decide (dm_load dm1 0x12340000 = Some 0);
    route_spi dm2 48 =? 0;
    bool_decide (is_Some (uart_mut dm2));
    negb (bool_decide (is_Some (uart_mut (dm_reset dm2)))) ].
Example device_routing_test_passes : all_hold run_device_routing_test = true.
Proof. vm_compute. reflexivity. Qed.

(** ** test_multi_vm_devices.rs, on [DEVICES] *)
Definition gdm_load (g : GlobalDeviceManager) (addr : Z) : Z :=
  match gdm_handle_mmio PLATFORM_DEFAULT true 1 g ex_io addr 0 4 false with Some (Ok (_, _, Some v)) => v | _ => 0 end.
Definition run_multi_vm_devices_test (devices : list GlobalDeviceManager) : option (list bool) :=
  d0 ← current_devices devices 0; d1 ← current_devices devices 1;
  let vm0 := gdm_register_device (gdm_reset d0) (DevUart uart_new) in
  let vm1 := gdm_reset d1 in
  let vm1' := gdm_register_device vm1 (DevGicd (gicd_new (Z.of_nat (pi_num_cpus PLATFORM_DEFAULT)))) in
  Some [ negb (gdm_load vm0 0x09000018 =? 0); gdm_load vm1 0x09000018 =? 0;
         negb (gdm_load vm1' 0x08000000 =? 0); gdm_load vm0 0x08000000 =? 0;
         negb (gdm_load vm0 0x09000018 =? 0); gdm_load vm1' 0x09000018 =? 0 ].
Example multi_vm_devices_test_passes : all_hold <$> run_multi_vm_devices_test DEVICES = Some true.
Proof. vm_compute. reflexivity. Qed.

(** ** test_net_rx_ring.rs *)
Fixpoint store_n (n : nat) (r : NetRxRing) (frame : list Z) : NetRxRing * bool :=
  match n with
  | O => (r, true)
  | S n => let (r, ok) := net_ring_store r frame in let (r, oks) := store_n n r frame in (r, ok && oks)
  end.
Definition run_net_rx_ring_test : list bool :=
  let buf := replicate MAX_FRAME_SIZE 0 in
  let '(_, _, empty) := net_ring_take net_ring_new buf in
  let (r1, stored) := net_ring_store net_ring_new (replicate 64 0xAA) in
  let '(r2, buf2, len) := net_ring_take r1 buf in
  let '(_, _, again) := net_ring_take r2 buf2 in
  let (r3, filled) := store_n 8 r2 (replicate 100 0xBB) in
  let (r4, overfull) := net_ring_store r3 (replicate 100 0xBB) in
  let '(r5, _, len2) := net_ring_take r4 buf2 in
  [ bool_decide (empty = None); stored; bool_decide (len = Some 64%nat); bool_decide (buf2 !! 0%nat = Some 0xAA);
    bool_decide (buf2 !! 63%nat = Some 0xAA); bool_decide (again = None); filled; negb overfull;
    bool_decide (len2 = Some 100%nat); (net_ring_store r5 (replicate 100 0xBB)).2 ].
Example net_rx_ring_test_passes : all_hold run_net_rx_ring_test = true.
Proof. vm_compute. reflexivity. Qed.

(** ** test_vswitch.rs *)
Definition mk_frame (dst src : list Z) : list Z := dst ++ src ++ replicate 52 0.
Definition BCAST : list Z := replicate 6 0xFF.
Definition mac_ee (n : Z) : list Z := [0xAA; 0xBB; 0xCC; 0xDD; 0xEE; n].
Definition mac_02 (n : Z) : list Z := [0x02; 0; 0; 0; 0; n].
(** A frame in, and whether a port then has one. *)
Definition port_take (s : net_state) (port : nat) : net_state * bool :=
  match PORT_RX s !! port with
  | Some r => let '(r, _, len) := net_ring_take r (replicate MAX_FRAME_SIZE 0) in
              ({| ns_switch := ns_switch s; PORT_RX := <[port := r]> (PORT_RX s) |}, bool_decide (is_Some len))
  | None => (s, false)
  end.
Fixpoint port_drain (n : nat) (s : net_state) (port : nat) : net_state :=
  match n with O => s | S n => let (s, b) := port_take s port in if b then port_drain n s port else s end.
Definition switch_init (s : net_state) : net_state :=
  let s := {| ns_switch := vswitch_add_port (vswitch_add_port (vswitch_reset (ns_switch s)) 0) 1; PORT_RX := PORT_RX s |} in
  port_drain 9 (port_drain 9 s 0) 1.
Definition run_vswitch_test (s : net_state) : option (list bool) :=
  let s := switch_init s in
  s ← forward s 0 (mk_frame [0x11; 0x22; 0x33; 0x44; 0x55; 0x66] (mac_ee 0));
  let (s, flooded) := port_take s 1 in let (s, own) := port_take s 0 in
  s ← forward s 1 (mk_frame (mac_ee 0) (mac_ee 1));
  let (s, precise) := port_take s 0 in
  s ← forward s 0 (mk_frame BCAST (mac_ee 0));
  let (s, bcast) := port_take s 1 in let (s, own_bcast) := port_take s 0 in
  s ← forward s 0 (mk_frame (mac_ee 0) [0x11; 0x22; 0x33; 0x44; 0x55; 0x66]);
  let (s, self) := port_take s 0 in
  let s := switch_init s in
  s ← fold_left (fun o i => s ← o; forward s 0 (mk_frame BCAST (mac_02 (Z.of_nat i)))) (seq 0 16) (Some s);
  let s := port_drain 9 s 1 in
  s ← forward s 1 (mk_frame (mac_02 0) (mac_02 0xFF));
  let (s, first) := port_take s 0 in
  Some [flooded; negb own; precise; bcast; negb own_bcast; negb self; first].
Example vswitch_test_passes : all_hold <$> run_vswitch_test net_init = Some true.
Proof. vm_compute. reflexivity. Qed.

(** ** test_virtio_net.rs *)
Definition run_virtio_net_test : list bool :=
  let net := virtio_net_new 0 in
  let features := device_features net in
  [ device_id net =? 1; Z.testbit features 32; Z.testbit features 5; Z.testbit features 16; negb (Z.testbit features 0);
    num_queues net =? 2; config_read net 0 1 =? 0x52; config_read net 5 1 =? 0x01; config_read net 6 2 =? 1;
    bool_decide (mac_for_vm 0 = [0x52; 0x54; 0; 0; 0; 1]); bool_decide (mac_for_vm 1 = [0x52; 0x54; 0; 0; 0; 2]) ].
Example virtio_net_test_passes : all_hold run_virtio_net_test = true.
Proof. vm_compute. reflexivity. Qed.

(** ** test_vmid_vttbr.rs and test_secure_stage2.rs *)
Definition run_vmid_vttbr_test : list bool :=
  let c0 := (new_with_vmid 0x41000000 0).1 in
  let c1 := (new_with_vmid 0x61000000 1).1 in
  [ Z.shiftr c0 48 =? 0; Z.land c0 0x0000FFFFFFFFFFFE =? 0x41000000;
    Z.shiftr c1 48 =? 1; Z.land c1 0x0000FFFFFFFFFFFE =? 0x61000000 ].
Definition run_secure_stage2_test : list bool :=
  let c := secure_stage2_new 0x10000000 in
  [ Z.land (ss_vsttbr c) 0x0000FFFFFFFFF000 =? 0x10000000; Z.land (ss_vstcr c) 0x3F =? 16;
    negb (ss_vsttbr c =? ss_vsttbr (secure_stage2_new 0x20000000)); ss_vsttbr (new_from_vsttbr 0xABCD0000) =? 0xABCD0000 ].
Example stage2_register_tests_pass : all_hold (run_vmid_vttbr_test ++ run_secure_stage2_test) = true.
Proof. vm_compute. reflexivity. Qed.

(** ** test_vm_state_isolation.rs and test_guest_irq.rs, on [VM_STATE] *)
Definition sgis_of (l : list VmGlobalState) (vm id : nat) : Z :=
  match l !! vm with Some s => nth id (pending_sgis s) 0 | None => -1 end.
Definition spis_of (l : list VmGlobalState) (vm id : nat) : Z :=
  match l !! vm with Some s => nth id (pending_spis s) 0 | None => -1 end.
Definition clear_pending (s : VmGlobalState) : VmGlobalState :=
  set_pending_spis (map (fun _ => 0) (pending_spis s)) (set_pending_sgis (map (fun _ => 0) (pending_sgis s)) s).
Definition run_vm_state_isolation_test (l : list VmGlobalState) : list bool :=
  let l := map clear_pending l in
  let l1 := alter (fun s => set_pending_sgis (<[0%nat := 0xFF]> (pending_sgis s)) s) 0%nat l in
  let l2 := alter (fun s => set_pending_spis (<[0%nat := 0xABCD]> (pending_spis s)) s) 1%nat l1 in
  let l3 := alter (set_online_mask 1) 1%nat (alter (set_online_mask 15) 0%nat l2) in
  let l4 := alter (set_current_vcpu 0) 1%nat (alter (set_current_vcpu 3) 0%nat l3) in
  [ sgis_of l1 1 0 =? 0; spis_of l2 0 0 =? 0;
    bool_decide (vcpu_online_mask <$> l3 = [15; 1]); bool_decide (current_vcpu <$> l4 = [3%nat; 0%nat]) ].
Definition run_irq_test (l : list VmGlobalState) : list bool :=
  let l := alter clear_pending 0%nat l in
  let l1 := alter (queue_sgi 1 2) 0%nat l in
  let l2 := alter (queue_sgi 7 2) 0%nat (alter (queue_sgi 0 2) 0%nat l1) in
  let l3 := alter (fun s => set_pending_sgis (<[2%nat := 0]> (pending_sgis s)) s) 0%nat l2 in
  let l4 := alter (queue_spi (48 - 32) 0) 0%nat l3 in
  [ sgis_of l1 0 2 =? 0x02; sgis_of l2 0 2 =? 0x83; sgis_of l3 0 2 =? 0; spis_of l4 0 0 =? Z.shiftl 1 16;
    sgis_of l4 0 1 =? 0; spis_of l4 0 1 =? 0 ].
Example vm_state_tests_pass :
  all_hold (run_vm_state_isolation_test [vm_state_new; vm_state_new] ++ run_irq_test [vm_state_new; vm_state_new]) = true.
Proof. vm_compute. reflexivity. Qed.

(** ** test_global.rs *)
Fixpoint pop_all (n : nat) (r : UartRxRing) : list Z :=
  match n with
  | O => []
  | S n => match uart_ring_pop r with (r, Some ch) => ch :: pop_all n r | (_, None) => [] end
  end.
Definition run_global_test : list bool :=
  let p1 := cpu_on_request 2 0x48000000 0xDEAD cpu_on_new in
  let p2 := cpu_on_take p1 in
  let ring := fold_left uart_ring_push [65; 66; 67] uart_ring_new in
  let ring2 := uart_ring_push (fold_left uart_ring_push (map Z.of_nat (seq 0 63)) uart_ring_new) 0xFF in
  let popped := pop_all 100 ring2 in
  [ bool_decide ((cpu_on_take cpu_on_new).2 = None); bool_decide (p2.2 = Some (2, 0x48000000, 0xDEAD));
    bool_decide ((cpu_on_take p2.1).2 = None); bool_decide ((uart_ring_pop uart_ring_new).2 = None);
    bool_decide (pop_all 100 ring = [65; 66; 67]); (length popped =? 63)%nat; bool_decide (last popped = Some 62) ].
Example global_test_passes : all_hold run_global_test = true.
Proof. vm_compute. reflexivity. Qed.

(** ** The tests of vcpu_interrupt.rs and gicv3.rs *)
Definition no_lrs : ich_regs := mkIch (replicate 4 0) 3 0 0.
Definition test_inject_irq : list bool :=
  let v0 := virq_new in
  let (v1, h1) := virq_inject_irq v0 no_lrs 27 in
  let (v2, _) := virq_clear_irq v1 h1 in
  [ negb (has_pending_interrupt v0); has_pending_interrupt v1; bool_decide (pending_irq_num v1 = Some 27);
    negb (has_pending_interrupt v2) ].
Definition test_apply_to_hcr : list bool :=
  let base_hcr := 0x80000000 in
  let v0 := virq_new in
  let hcr0 := apply_to_hcr v0 base_hcr in
  let (v1, _) := virq_inject_irq v0 no_lrs 27 in
  let v2 := virq_inject_fiq v1 in
  [ Z.land hcr0 (Z.shiftl 1 7) =? 0; Z.land hcr0 (Z.shiftl 1 6) =? 0;
    negb (Z.land (apply_to_hcr v1 base_hcr) (Z.shiftl 1 7) =? 0); negb (Z.land (apply_to_hcr v2 base_hcr) (Z.shiftl 1 6) =? 0) ].
Definition test_lr_format : list bool :=
  let lr_value := build_lr 27 IRQ_DEFAULT_PRIORITY in
  [ get_lr_state lr_value =? 1; Z.land (Z.shiftr lr_value 60) 0x1 =? 1;
    get_lr_priority lr_value =? IRQ_DEFAULT_PRIORITY; get_lr_intid lr_value =? 27 ].
(** The last two checks of [test_apply_to_hcr] fail. *)
Example inline_tests : all_hold (test_inject_irq ++ test_lr_format) = true /\ test_apply_to_hcr = [true; true; false; false].
Proof. vm_compute. split; reflexivity. Qed.
