(* ===== verification/CoreLoop.v ===== *)
(** * CoreLoop: the run loops of the multi-core build

    With [multi_pcpu] every core runs one vCPU: [Vm::run_vcpu] of [vm.rs] on
    core 0, which also passes console input and network frames to the devices,
    and the loop of [secondary_enter_guest] of [main.rs] on the others.  Both
    are here as programs of one core over the state of Exception, with the
    interrupts of this build (DevLock) and the redistributor set-up before
    each entry (Drivers); what the other cores do meanwhile is in MultiCpu and
    DevLock.  [run_guest] of this build starts the other cores and runs
    [run_vcpu(0)]. *)

From Stdlib Require Import ZArith Lia Bool List.
From stdpp Require Import base decidable option list strings.
From S2P Require Import Prelude Memory Rings VSwitch Virtio VirtioNet VGic Sched Vcpu Regs PrimeCell Platform Drivers Devices Exception VmRun DevLock.
Import Redist.

Section Loops.
Context (pi : PlatformInfo) (mpidr : Z) (phys_read : Z -> Z) (phys0 : mem) (checks : bool) (fuel : nat).
Context (enter : VcpuContext -> exm (VcpuContext * Z)).

(** ** Interrupts and devices, from core [core] *)
Definition inject_spi_core (core : nat) (intid : Z) : exm unit :=
  let* h := sm_get in
  let* _ := vm_state in
  let inject := inject_spi_mp pi (gicd_phys pi phys0 (hy_io h)) core intid in
  upd_vm_state (fun s => set_pending_spis (inject (pending_spis s, [])).1 s) ;;;
  sm_upd (fun h => fold_left (fun h b => log_icc (IccSgi1r b.2) h) (inject ([], [])).2 h).
Fixpoint inject_spis_core (core : nat) (l : list Z) : exm unit :=
  match l with [] => sm_ret tt | i :: l => inject_spi_core core i ;;; inject_spis_core core l end.

(** A method of the VM's device manager. *)
Definition call_devices (core id : nat) (j : job) : exm unit :=
  let* h := sm_get in
  match hy_devs h !! id with
  | None => sm_err OOB
  | Some dm =>
      match body pi checks fuel j dm (hy_io h) with
      | None => sm_err "out of fuel"%string
      | Some (Err e) => sm_err e
      | Some (Ok o) =>
          sm_upd (fun h => set_devs (<[id := o_dm o]> (hy_devs h)) (o_io o) h) ;;;
          inject_spis_core core (o_held o) ;;; inject_spis_core core (o_after o)
      end
  end.

Definition drain_uart_core (core id : nat) : exm unit :=
  let* h := sm_get in
  match take_rx UART_RX_RING_SIZE (hy_ring h) [] with
  | None => sm_err "out of fuel"%string
  | Some (r, buf) =>
      sm_upd (fun h => set_ring r (hy_phys_rx h) h) ;;;
      match buf with [] => sm_ret tt | _ => call_devices core id (JUart buf) end
  end.
Fixpoint drain_net_core (n : nat) (core id : nat) : exm unit :=
  match n with
  | O => sm_err "out of fuel"%string
  | S n =>
      let* h := sm_get in
      match take_frame id (hy_io h) with
      | None => sm_ret tt
      | Some (io, frame) =>
          sm_upd (fun h => set_devs (hy_devs h) io h) ;;;
          call_devices core id (JNet frame) ;;;
          drain_net_core n core id
      end
  end.
Definition set_up_redist (core : nat) : exm unit :=
  sm_upd (fun h => fold_left (fun h w => log_icc (PhysWrite w.1 w.2) h)
    (ensure_vtimer_enabled pi core (phys_read (gicr_sgi_base pi core + GICR_IGROUPR0_OFF))) h).

(** ** One round: set-up, interrupts, guest, exit

    [true]: a terminal exit, whose flag is taken. *)
Definition enter_vcpu (core vm : nat) (c : Vcpu) : exm (Vcpu * bool) :=
  set_up_redist core ;;;
  let* c := inject_vcpu c in
  let* r := run_vcpu_on_core enter c in
  match r.2 with
  | Ok _ =>
      let* s := state_of vm in
      if nth core (terminal_exit s) false then
        upd_state_of vm (fun s => set_terminal_exit (<[core := false]> (terminal_exit s)) s) ;;; sm_ret (r.1, true)
      else sm_ret (r.1, false)
  | Err _ => sm_ret (r.1, false)
  end.

(** ** [run_vcpu] *)
Fixpoint run_vcpu_loop (n : nat) (id vm : nat) (c : Vcpu) : exm (option Vcpu) :=
  match n with
  | O => sm_ret None
  | S n =>
      drain_uart_core id vm ;;;
      drain_net_core NET_FUEL id vm ;;;
      let* r := enter_vcpu id vm c in
      if r.2 then sm_ret (Some r.1) else run_vcpu_loop n id vm r.1
  end.
(** [None]: the vCPU still runs when the rounds end. *)
Definition run_vcpu (n : nat) (id : nat) (v : Vm) : exm (option (Vm * result unit string)) :=
  if negb (bool_decide (vm_st v = VmReady)) then sm_ret (Some (v, Err "VM is not in Ready state"%string)) else
  match vm_vcpus v !! id with
  | Some (Some c) =>
      let v := set_vm_st VmRunning v in
      upd_state_of (vm_id v) (set_current_vcpu id) ;;;
      upd_state_of (vm_id v) (fun s => set_online_mask (Z.lor (vcpu_online_mask s) (Z.shiftl 1 (Z.of_nat id))) s) ;;;
      let* o := run_vcpu_loop n id (vm_id v) c in
      sm_ret (match o with
              | Some c => Some (set_vm_st VmReady (set_vcpus (<[id := Some c]> (vm_vcpus v)) (vm_count v) v), Ok tt)
              | None => None end)
  | Some None => sm_ret (Some (v, Err "vCPU not found"%string))
  | None => sm_err OOB
  end.

(** ** [secondary_enter_guest] *)
Fixpoint secondary_loop (n : nat) (core : nat) (c : Vcpu) : exm (option Vcpu) :=
  match n with
  | O => sm_ret None
  | S n =>
      let* r := enter_vcpu core 0 c in
      if r.2 then
        upd_state_of 0 (fun s => set_online_mask (Z.land (vcpu_online_mask s) (not64 (Z.shiftl 1 (Z.of_nat core)))) s) ;;;
        sm_ret (Some r.1)
      else secondary_loop n core r.1
  end.
(** The state as core [core] sees it: [current_vcpu_id()] of this build is the
    number of the core. *)
Definition as_core (core : nat) : exm unit := upd_state_of 0 (set_current_vcpu core).
Definition secondary_enter_guest (n : nat) (core : nat) (entry ctx_id : Z) : exm (option Vcpu) :=
  as_core core ;;;
  (if (core <? pi_num_cpus pi)%nat then wake_gicr phys_read (gicr_rd_base pi core) else sm_ret tt) ;;;
  upd_state_of 0 (fun s => set_online_mask (Z.lor (vcpu_online_mask s) (Z.shiftl 1 (Z.of_nat core))) s) ;;;
  reset_exception_counters ;;;
  secondary_loop n core (secondary_vcpu mpidr core entry ctx_id).
End Loops.

(** ** Driving a VM by hand: the scheduling methods of [Vm] *)
Definition vm_schedule (v : Vm) : Vm * option nat := let (s, p) := pick_next (vm_sched v) in (set_sched s v, p).
Definition run_current (enter : VcpuContext -> exm (VcpuContext * Z)) (v : Vm) : exm (Vm * result unit string) :=
  match sc_current (vm_sched v) with
  | None => sm_ret (v, Err "No current vCPU"%string)
  | Some id =>
      match vm_vcpus v !! id with
      | Some (Some c) =>
          let* r := run_vcpu_on_core enter c in sm_ret (set_vcpus (<[id := Some r.1]> (vm_vcpus v)) (vm_count v) v, r.2)
      | Some None => sm_ret (v, Err "vCPU not found"%string)
      | None => sm_err OOB
      end
  end.
Definition vm_yield (v : Vm) : Vm := set_sched (yield_current (vm_sched v)) v.
Definition vm_block (v : Vm) : Vm := set_sched (block_current (vm_sched v)) v.
Definition vm_unblock (v : Vm) (vcpu_id : nat) : Vm := set_sched (unblock (vm_sched v) vcpu_id) v.

(** What [schedule] picks, [run_current] finds and runs. *)
Theorem scheduled_vcpu_is_run enter v v' id : vm_inv v -> idle v -> vm_schedule v = (v', Some id) ->
  exists c, vm_vcpus v' !! id = Some (Some c) /\
    forall h, run_current enter v' h =
      (let* r := run_vcpu_on_core enter c in sm_ret (set_vcpus (<[id := Some r.1]> (vm_vcpus v')) (vm_count v') v', r.2)) h.
Proof.
  intros Hv Hi H. unfold vm_schedule in H. destruct (pick_next (vm_sched v)) as [s p] eqn:Ep. injection H as <- ->.
  destruct (picked_facts v s id Hv Hi Ep) as (_ & _ & Hcur & _ & Hsch & Hall).
  pose proof (proj1 (has_vcpu_spec v id) (vi_slot _ Hv id (proj1 (Hall id) Hsch))) as [c Hc].
  exists c. split; [exact Hc|]. intros h. unfold run_current. cbn [vm_sched set_sched vm_vcpus]. rewrite Hcur, Hc. done.
Qed.

(** ** What a core leaves behind *)
Section Exits.
Context (pi : PlatformInfo) (mpidr : Z) (phys_read : Z -> Z) (phys0 : mem) (checks : bool) (fuel : nat).
Context (enter : VcpuContext -> exm (VcpuContext * Z)) (Henter : forall c, keeps (enter c)).

Lemma log_frame {A} (f : A -> icc_event) (l : list A) : forall h, hyp_le h (fold_left (fun h b => log_icc (f b) h) l h).
Proof using. induction l as [|x l IH]; intros h; [reflexivity|]. cbn. etransitivity; [|apply IH]. frame. Qed.

Lemma inject_mp_length phys core intid q b : length (inject_spi_mp pi phys core intid (q, b)).1 = length q.
Proof using. unfold inject_spi_mp. destruct (_ || _); [done|]. destruct (_ <? _); [apply queue_bit_length|done]. Qed.

Lemma keeps_inject_core core intid : keeps (inject_spi_core pi phys0 core intid).
Proof using.
  unfold inject_spi_core. keeps_cases.
  - apply keeps_upd_vm_state. intros v. split_and!; try done. apply inject_mp_length.
  - apply keeps_sm_upd. intros h. apply (log_frame (fun b => IccSgi1r b.2)).
Qed.
Lemma keeps_injects_core core l : keeps (inject_spis_core pi phys0 core l).
Proof using. induction l as [|i l IH]; cbn; [apply keeps_sm_ret|]. apply keeps_sm_bind; [apply keeps_inject_core|done]. Qed.

Lemma keeps_call core id j : keeps (call_devices pi phys0 checks fuel core id j).
Proof using.
  unfold call_devices. keeps_cases; auto using keeps_injects_core.
Qed.
Lemma keeps_drain_uart_core core id : keeps (drain_uart_core pi phys0 checks fuel core id).
Proof using.
  intros h. unfold drain_uart_core, sm_bind at 1, sm_get. destruct (take_rx _ _ _) as [[r buf]|] eqn:E; [|reflexivity].
  unfold sm_bind at 1, sm_upd at 1. etransitivity; [|destruct buf; [apply keeps_sm_ret|apply keeps_call]].
  split; try done. intros [q Hq]. destruct (drain_takes_all _ _ Hq) as (r' & E' & Hr). rewrite E' in E. injection E as -> _. by exists [].
Qed.
Lemma keeps_drain_net_core n core : forall id, keeps (drain_net_core pi phys0 checks fuel n core id).
Proof using.
  induction n as [|n IH]; intros id; cbn [drain_net_core]; [apply keeps_sm_err|]. keeps_cases; auto using keeps_call.
Qed.
Lemma keeps_redist core : keeps (set_up_redist pi phys_read core).
Proof using. apply keeps_sm_upd. intros h. apply (log_frame (fun w => PhysWrite w.1 w.2)). Qed.
Lemma keeps_enter_vcpu core vm c : keeps (enter_vcpu pi phys_read enter core vm c).
Proof using Henter.
  unfold enter_vcpu. keeps_cases; auto using keeps_redist, keeps_inject_vcpu, keeps_run_vcpu.
Qed.

(** A round that ends the loop has taken the flag of a terminal exit. *)
Lemma enter_vcpu_done core vm c h h' c' : enter_vcpu pi phys_read enter core vm c h = (h', Ok (c', true)) ->
  exists s, hy_states h' !! vm = Some s /\ nth core (terminal_exit s) false = false.
Proof using.
  unfold enter_vcpu. intros H. apply sm_bind_inv in H as (h1 & [] & _ & H). apply sm_bind_inv in H as (h2 & c1 & _ & H).
  apply sm_bind_inv in H as (h3 & r & _ & H). destruct (r.2); [|discriminate H].
  apply sm_bind_inv in H as (h4 & s & Es & H). destruct (nth core (terminal_exit s) false) eqn:Ef; [|discriminate H].
  unfold state_of in Es. destruct (hy_states h3 !! vm) as [s3|] eqn:E3; [|discriminate]. injection Es as <- <-.
  injection H as <- _. cbn. rewrite list_lookup_alter_eq, E3. eexists. split; [reflexivity|]. cbn.
  rewrite nth_lookup. destruct (decide (core < length (terminal_exit s3))%nat).
  - by rewrite list_lookup_insert_eq.
  - by rewrite lookup_ge_None_2 by (rewrite length_insert; lia).
Qed.

Lemma online_kept id vm h h' : hyp_le h h' ->
  (exists s, hy_states h !! vm = Some s /\ Z.testbit (vcpu_online_mask s) id = true) ->
  exists s, hy_states h' !! vm = Some s /\ Z.testbit (vcpu_online_mask s) id = true.
Proof using.
  intros Hk (s & Hs & Hb). destruct (Forall2_lookup_l _ _ _ _ _ (hl_states _ _ Hk) Hs) as (s2 & E2 & (_ & _ & _ & Hm)).
  exists s2. split; [done|by apply Hm].
Qed.

Lemma run_vcpu_loop_eq n id vm c : run_vcpu_loop pi phys_read phys0 checks fuel enter (S n) id vm c =
  (drain_uart_core pi phys0 checks fuel id vm ;;; drain_net_core pi phys0 checks fuel NET_FUEL id vm ;;;
   let* r := enter_vcpu pi phys_read enter id vm c in
   if r.2 then sm_ret (Some r.1) else run_vcpu_loop pi phys_read phys0 checks fuel enter n id vm r.1).
Proof using. reflexivity. Qed.

Lemma run_vcpu_loop_done n : forall id vm c h h' c',
  (exists s, hy_states h !! vm = Some s /\ Z.testbit (vcpu_online_mask s) (Z.of_nat id) = true) ->
  run_vcpu_loop pi phys_read phys0 checks fuel enter n id vm c h = (h', Ok (Some c')) ->
  exists s, hy_states h' !! vm = Some s /\ nth id (terminal_exit s) false = false /\
    Z.testbit (vcpu_online_mask s) (Z.of_nat id) = true.
Proof using Henter.
  induction n as [|n IH]; intros id vm c h h' c' Hon H; [discriminate|].
  rewrite run_vcpu_loop_eq in H.
  apply sm_bind_inv in H as (h1 & [] & E1 & H). apply sm_bind_inv in H as (h2 & [] & E2 & H).
  apply sm_bind_inv in H as (h3 & [c3 fin] & E3 & H).
  pose proof (keeps_drain_uart_core id vm h) as K1. rewrite E1 in K1.
  pose proof (keeps_drain_net_core NET_FUEL id vm h1) as K2. rewrite E2 in K2.
  pose proof (keeps_enter_vcpu id vm c h2) as K3. rewrite E3 in K3. cbn [fst] in K1, K2, K3.
  apply (online_kept (Z.of_nat id) vm h h1 K1) in Hon. apply (online_kept (Z.of_nat id) vm h1 h2 K2) in Hon.
  apply (online_kept (Z.of_nat id) vm h2 h3 K3) in Hon.
  cbn [fst snd] in H. destruct fin; [|by apply (IH _ _ _ _ _ _ Hon) in H]. injection H as <- _.
  destruct (enter_vcpu_done _ _ _ _ _ _ E3) as (s & Hs & Hf). destruct Hon as (s' & Hs' & Hb). rewrite Hs in Hs'. injection Hs' as <-.
  by exists s.
Qed.

Lemma secondary_loop_done n : forall core c h h' c', (core < 64)%nat ->
  secondary_loop pi phys_read enter n core c h = (h', Ok (Some c')) ->
  exists s, hy_states h' !! 0%nat = Some s /\ nth core (terminal_exit s) false = false /\
    Z.testbit (vcpu_online_mask s) (Z.of_nat core) = false.
Proof using.
  induction n as [|n IH]; intros core c h h' c' Hc H; [discriminate|]. cbn [secondary_loop] in H.
  apply sm_bind_inv in H as (h1 & [c1 fin] & E1 & H). cbn [fst snd] in H. destruct fin; [|by apply (IH _ _ _ _ _ Hc) in H].
  injection H as <- _. destruct (enter_vcpu_done _ _ _ _ _ _ E1) as (s & Hs & Hf). cbn. rewrite list_lookup_alter_eq, Hs.
  eexists. split; [reflexivity|]. split; [exact Hf|]. cbn -[Z.testbit Z.land not64].
  rewrite Z.land_spec. unfold not64. rewrite testbit_notw by lia. rewrite Z.shiftl_1_l, Z.pow2_bits_true by lia. by rewrite andb_false_r, andb_false_r.
Qed.
End Exits.

(** What a vCPU that turns itself off leaves behind: both loops return after a
    terminal exit, whose flag they take; a secondary core also takes its vCPU
    out of the online mask, but [run_vcpu] does not, so that AFFINITY_INFO
    reports the vCPU of core 0 as on after it has gone. *)
Theorem terminal_exit_online checks pi el3 tfa rx blk gfuel code mpidr phys_read phys0 fuel n h h' :
  let enter := guest_enter checks pi el3 tfa rx blk gfuel code in
  (forall id v v' r c, vm_st v = VmReady -> vm_vcpus v !! id = Some (Some c) -> (vm_id v < length (hy_states h))%nat ->
     run_vcpu pi phys_read phys0 checks fuel enter n id v h = (h', Ok (Some (v', r))) ->
     r = Ok tt /\ vm_st v' = VmReady /\ exists s, hy_states h' !! vm_id v = Some s /\
       nth id (terminal_exit s) false = false /\ Z.testbit (vcpu_online_mask s) (Z.of_nat id) = true) /\
  (forall core entry ctx_id c, (core < 64)%nat ->
     secondary_enter_guest pi mpidr phys_read enter n core entry ctx_id h = (h', Ok (Some c)) ->
     exists s, hy_states h' !! 0%nat = Some s /\
       nth core (terminal_exit s) false = false /\ Z.testbit (vcpu_online_mask s) (Z.of_nat core) = false).
Proof.
  cbv zeta. split.
  - intros id v v' r c Hst Hc Hl H. unfold run_vcpu in H. rewrite bool_decide_true in H by done. cbn [negb] in H. rewrite Hc in H.
    apply sm_bind_inv in H as (h1 & [] & E1 & H). apply sm_bind_inv in H as (h2 & [] & E2 & H).
    apply sm_bind_inv in H as (h3 & o & E3 & H). destruct o as [c'|]; [|discriminate H]. injection H as <- <- <-.
    split; [done|]. split; [done|].
    apply (run_vcpu_loop_done pi phys_read phys0 checks fuel _ (keeps_guest_enter checks pi el3 tfa rx blk gfuel code) n) in E3; [done|].
    injection E1 as <-. injection E2 as <-. destruct (lookup_lt_is_Some_2 _ _ Hl) as [s Hs]. cbn.
    rewrite !list_lookup_alter_eq, Hs. eexists. split; [reflexivity|]. cbn -[Z.testbit Z.lor Z.shiftl Z.of_nat].
    rewrite Z.lor_spec, Z.shiftl_1_l, Z.pow2_bits_true by lia. apply orb_true_r.
  - intros core entry ctx_id c Hc H. unfold secondary_enter_guest in H.
    do 4 (apply sm_bind_inv in H as (? & [] & _ & H)).
    by apply secondary_loop_done in H.
Qed.

(** A guest that turns its vCPU off. *)
Definition ex_off (h : hyp) (c : VcpuContext) : guest_step :=
  mkGuest (hy_core h) (io_mem (hy_io h)) (set_xreg 0 PSCI_CPU_OFF c) [] (GSync (0x16 * 2 ^ 26) 0 0).
Definition ex_enter : VcpuContext -> exm (VcpuContext * Z) := guest_enter true PLATFORM_DEFAULT no_el3 false 0 1 2 ex_off.

Lemma terminal_exit_online_witness :
  (exists h' v' s, run_vcpu PLATFORM_DEFAULT (fun _ => 0) (fun _ => 0) true 1 ex_enter 3 0 ex_vm ex_hyp = (h', Ok (Some (v', Ok tt))) /\
     hy_states h' !! 0%nat = Some s /\ Z.testbit (vcpu_online_mask s) 0 = true) /\
  (exists h' c s, secondary_enter_guest PLATFORM_DEFAULT 0x80000000 (fun _ => 0) ex_enter 3 2 0x48000000 0 ex_hyp = (h', Ok (Some c)) /\
     hy_states h' !! 0%nat = Some s /\ Z.testbit (vcpu_online_mask s) 2 = false).
Proof.
  split.
  - destruct (run_vcpu PLATFORM_DEFAULT (fun _ => 0) (fun _ => 0) true 1 ex_enter 3 0 ex_vm ex_hyp) as [h' [[[v' r]|]|e]] eqn:E;
      try (exfalso; apply (f_equal (fun x => match snd x with Ok (Some _) => true | _ => false end)) in E; vm_compute in E; discriminate E).
    destruct (terminal_exit_online true PLATFORM_DEFAULT no_el3 false 0 1 2 ex_off 0 (fun _ => 0) (fun _ => 0) 1 3 ex_hyp h') as [H _].
    destruct (H 0%nat ex_vm v' r (match vm_vcpus ex_vm !! 0%nat with Some (Some c) => c | _ => vcpu_new 0 0 0 0 end)) as (-> & _ & s & Hs & _ & Hb);
      [reflexivity|reflexivity|apply Nat.ltb_lt; reflexivity|exact E|]. exists h', v', s. split; [reflexivity|]. split; [exact Hs|exact Hb].
  - destruct (secondary_enter_guest PLATFORM_DEFAULT 0x80000000 (fun _ => 0) ex_enter 3 2 0x48000000 0 ex_hyp) as [h' [[c|]|e]] eqn:E;
      try (exfalso; apply (f_equal (fun x => match snd x with Ok (Some _) => true | _ => false end)) in E; vm_compute in E; discriminate E).
    destruct (terminal_exit_online true PLATFORM_DEFAULT no_el3 false 0 1 2 ex_off 0x80000000 (fun _ => 0) (fun _ => 0) 1 3 ex_hyp h') as [_ H].
    destruct (H 2%nat 0x48000000 0 c) as (s & Hs & _ & Hb); [lia|exact E|]. exists h', c, s. split; [reflexivity|]. split; [exact Hs|exact Hb].
Defined.
